(* ===== verification/_CoqProject ===== *)
-Q . S2P
Prelude.v
PyFloat.v
PyStr.v
PyVal.v
IpAddr.v
Settings.v
Models.v
Node.v
Topology.v
Health.v
LoadBalancer.v
ControlPlaneDb.v
Rebalance.v
Planning.v
Runtime.v
Migration.v
Automation.v
ConfigBuilder.v
ConfigText.v
AmneziaConfig.v
Reconciliation.v
Payments.v
NodeAgent.v
AgentInspect.v
AgentCycle.v
AgentApi.v
AgentSync.v
AgentRuntime.v
DeviceTelemetry.v
DockerText.v
DockerRuntime.v
TelemetryPoll.v
Bandwidth.v
DockerTelemetry.v
Alerts.v
LiveKey.v
Redaction.v
AwgConf.v
Issue.v
AdminIssue.v
Limits.v
RateLimit.v
Auth.v
Download.v
DevicesApi.v
UsersApi.v
AppSettings.v
ServerPeers.v
ServersApi.v
EventStream.v
Governance.v
Risk.v
WebApp.v
ServerSync.v
SyncApi.v
Retention.v
WebBilling.v
