(* ===== verification/Prelude.v ===== *)
(** * VPN Suite: a verification development

    VPN Suite is the control plane of a cluster of AmneziaWG (WireGuard) nodes:
    a FastAPI backend that decides which node serves which device, keeps the
    peers of the nodes equal to its database, migrates peers between nodes,
    fails over, issues client configurations and sells subscriptions; an agent
    runs on each node.  This development models the backend ([backend/app/]) and
    the agent ([node-agent/agent.py]) as executable functions and proves what
    makes each part correct.  Python names are kept.

    ** How the parts interact

    Discovery gives a [ClusterTopology] ([Node]); [Topology] registers its nodes
    as servers and caches it.  The planners ([Rebalance], [Planning]) read it with
    the rows of the database ([ControlPlaneDb], rows of [Models]) and append
    events; the execution of a plan ([Migration]) acts on the nodes through the
    runtime adapter ([Runtime]); the automation cycle ([Automation]) runs plan,
    failover, execution and provisioning in turn.  Independently, reconciliation
    ([Reconciliation]) compares the devices of a node with its peers and repairs
    the node through the same adapter.

    The adapter has two implementations: [DockerRuntime] runs commands in the
    containers, [AgentRuntime] only reads what agents report.  An agent
    ([AgentCycle], with [AgentInspect] and [NodeAgent]) sends heartbeats, polls
    its actions and reconciles its interface with the desired state; [AgentApi]
    is the other side, and [AgentSync] puts the two on one state.  Heartbeats
    feed [DeviceTelemetry] and [TelemetryPoll], which also asks the nodes, for the
    figures operators see; [ServerSync] takes snapshots of the nodes.

    A device is issued by [Issue] (for users) or [AdminIssue]: an address
    ([AmneziaConfig]), the key of the server ([LiveKey]), a peer on the node, and
    the text of the configuration ([ConfigBuilder]), delivered by [Download].
    [DevicesApi], [UsersApi], [ServerPeers] and [WebApp] are the requests of
    administrators and users on the same rows, [ServersApi] those on the servers;
    [Payments] and [WebBilling] what they pay, [Retention] how they are
    reminded.  [Auth] and [RateLimit] stand before every request.

    ** Files

    - [Prelude]: exceptions and results, Python lists, dicts (association lists
      in insertion order), stable sorts and [max], and the shared tactics.
    - [PyVal]: JSON values with [str], [int], truthiness and [Decimal];
      [PyFloat]: binary64 floats on the [SpecFloat] of the Standard Library;
      [PyStr]: [str] methods and [int()] on ASCII strings; [IpAddr]: the
      [ipaddress] and [base64] functions of Python's library the code calls.
    - [Settings] ([core/config.py]): [Settings], its validators [validate], and
      [validate_production_secrets]; [Models] ([models/*.py]): a module per
      table; [Node] ([schemas/node.py]): nodes and topology.
    - [Topology] ([services/topology_engine.py]); [Health]
      ([services/health_scoring.py], [core/health_check_task.py]);
      [LoadBalancer] ([services/load_balancer.py]).
    - [ControlPlaneDb], [Rebalance], [Planning], [Automation], [Bandwidth]
      ([services/control_plane_service.py]): one definition per function; a loop
      body is a definition of its own ([drain], [failover_step], ...).
    - [Runtime] ([services/node_runtime.py]): class [NodeRuntimeAdapter] of the
      operations on the state [W] of the nodes, and [NodeRuntimeLaws], what a
      client may assume of them, with instances that show the laws hold.
    - [Migration] ([services/migrate_service.py], [execute_rebalance_plan]);
      [Reconciliation] ([services/reconciliation_engine.py]).
    - [DockerText], [DockerRuntime] ([services/node_runtime_docker.py]);
      [AgentRuntime] ([services/node_runtime_agent.py]); [DockerTelemetry],
      [Alerts] ([services/docker_telemetry_service.py],
      [services/docker_alert_rule_engine.py]); [ServerSync]
      ([services/server_sync_service.py], [core/server_sync_loop.py]) and
      [SyncApi] ([api/v1/servers_sync.py]); [TelemetryPoll]
      ([core/telemetry_polling_task.py],
      [services/telemetry_snapshot_aggregator.py]).
    - [NodeAgent], [AgentInspect], [AgentCycle] ([node-agent/agent.py]);
      [AgentApi], [AgentSync] ([api/v1/agent.py],
      [services/agent_action_service.py]); [DeviceTelemetry]
      ([core/handshake_quality_gate_task.py] and the heartbeat handlers).
    - [ConfigBuilder], [ConfigText], [AmneziaConfig], [AwgConf]
      ([core/config_builder.py], [core/amnezia_config.py],
      [services/address_allocator.py], [core/amnezia_vpn_key.py]).
    - [LiveKey] ([services/server_live_key_service.py]), [Issue], [AdminIssue]
      ([services/issue_service.py], [services/admin_issue_service.py]),
      [Download] ([api/v1/admin_configs.py], [api/public_download.py]),
      [DevicesApi] ([api/v1/devices.py], [api/v1/wg.py]), [Limits]
      ([services/limits_check_service.py]).
    - [UsersApi] ([api/v1/users.py], [api/v1/admin_abuse.py]), [AppSettings]
      ([api/v1/app_settings.py]), [ServerPeers]
      ([api/v1/servers_peers.py]), [ServersApi] ([api/v1/servers.py],
      [api/v1/servers_crud.py], [schemas/server.py]).
    - [EventStream], [Governance] ([api/v1/control_plane.py]): the web socket of
      events; pools, ports and policies.  [Risk]
      ([services/abuse_detection_service.py], the metrics of
      [services/control_plane_service.py]): scores of users and figures of the
      business.
    - [WebApp], [WebBilling] ([api/v1/webapp.py]); [Payments]
      ([services/payment_webhook_service.py]); [Retention]
      ([services/retention_automation_engine.py],
      [core/subscription_expiry_reminder_task.py]).
    - [Auth] ([api/v1/auth.py], [core/security.py], [core/rbac.py],
      [core/bot_auth.py]); [RateLimit] ([core/rate_limit.py],
      [core/idempotency.py]); [Redaction] ([core/redaction.py]).

    ** State and effects

    A service that reads and writes the database takes the rows and returns the
    new ones; one that talks to nodes, Redis, Docker or Telegram takes the world
    [W] and returns the new one, through a class of operations whose laws say
    what may be assumed of them; each class has an instance.  A Python exception
    is the [Err] of [res]; where a call changes the world before raising, the
    result is the pair of the new world and a [res].  A request that raises leaves
    the rows uncommitted, and the world as it became.  Metrics and logging are
    left out.  Dates are microseconds.

    ** What the theorems show

    - Planning: receivers end within the target watermark, sources keep their
      target and their pinned peers; failover maps a failed node to the best
      fallback; placement ranks and filters as documented.
    - Execution: a migration touches one peer on two nodes and leaves no
      half-migrated peer behind; rollback restores; budgets are respected.
    - Reconciliation: the difference is exact, applying it converges in one
      run, and production and read-only modes change nothing; the agent's own
      reconciliation converges when its budget allows, and where it starves.
    - Runtime: the Docker implementation refines the contract of the adapter; the
      queue of actions is a first-in first-out queue; a queued synchronisation
      reaches the interface; one silent server stops the snapshots of all.
    - Configurations: what is emitted reads back as what was validated, and
      what was validated respects the ranges of the protocol.
    - Devices: fresh addresses, limits kept by issuing, what a user or an
      administrator may change, links and tokens that serve once; the daily cap
      and the memories that answer a repeated request.
    - Users and servers: what is deleted with a user, tables without dangling
      rows, the list of servers with its groups and pages.
    - Money: the ledger of payments, the time a payment gives, the reminders sent
      at most once, and to whom they are sent at all.
    - Access: tokens kept apart, sound permission gates, refresh tokens exchanged
      once, limiters equal to a fixed window.
    - Watching: listeners get every event once, in order; a run of the abuse
      detection flags each user once; open alerts are the rules that hold; a
      polled host whose circuit opened stays down; served topologies are recent;
      a turn of the poll leaves what the nodes said.
    Where the code does something else than it means to, a theorem or an example
    of the file states what it does.

    ** Fuel

    The [while] loop of the rebalance planner is [drain], run by [drain_all] with
    one round per receiver that has room and one more ([drain_spec]): a round
    that goes on fills a receiver, so the loop has ended by itself, and no
    theorem on plans has a fuel hypothesis.  [generate_h_params] recurses on the
    list of random draws and its theorem says when the draws are enough.  Retries
    ([DockerTelemetry.attempts]) recurse on the number of attempts that are left,
    as the code does; the matcher of [Redaction] on the text.

    ** Not modelled

    The routes that only list and read (the list of servers apart), the cache of
    that list, mail addresses, telephone numbers and meta data of users, the rows
    of payments, scores and events deleted with a user, the Telegram bot, the
    frontend, the operator dashboard, live metrics, the clients of the Docker
    engine, Prometheus and Loki: I/O, queries and presentation around the
    modelled core.  Cryptographic functions, [exp], random identifiers and the
    clock are arguments.  Concurrent requests are sequences of requests, except where a
    file says otherwise. *)

From stdpp Require Export base option list strings gmap sorting.
From Stdlib Require Export ZArith Lia.

#[export] Set Default Proof Using "Type".
Declare Scope py_scope.
Delimit Scope py_scope with py.
Open Scope Z_scope.

(** ** Python exceptions and results

    [exn] lists the exceptions the modelled code raises or catches; [res] is
    the outcome of a Python call that may raise. *)

Inductive exn : Type :=
| ValueError (msg : string)
| TypeError (msg : string)
| AttributeError (msg : string)
| InvalidOperation
| IntegrityError (msg : string)
| OverflowError
| OSError (msg : string)
| NotImplementedError (msg : string)
| RuntimeError (msg : string)
| LoadBalancerError (msg : string)
| ServerNotSyncedError (server_id reason : string)
| WireGuardCommandError (msg command output : string)
| ConfigValidationError (errors : list string)
| HTTPException (status_code : Z) (detail : string).

Inductive res (A : Type) : Type :=
| Ok (a : A)
| Err (e : exn).
Arguments Ok {A} a.
Arguments Err {A} e.

#[export] Instance exn_eq_dec : EqDecision exn.
Proof. solve_decision. Defined.

#[export] Instance res_ret : MRet res := fun A a => Ok a.
#[export] Instance res_bind : MBind res := fun A B f m =>
  match m with Ok a => f a | Err e => Err e end.
#[export] Instance res_fmap : FMap res := fun A B f m =>
  match m with Ok a => Ok (f a) | Err e => Err e end.

Definition is_ok {A} (r : res A) : bool :=
  match r with Ok _ => true | Err _ => false end.

Lemma res_bind_ok {A B} (f : A → res B) (m : res A) (b : B) :
  (m ≫= f) = Ok b ↔ ∃ a, m = Ok a ∧ f a = Ok b.
Proof. destruct m; simpl; naive_solver. Qed.

(** [if bad: raise ValueError(msg)] *)
Definition raise_if (bad : bool) (msg : string) : res unit :=
  if bad then Err (ValueError msg) else Ok tt.

Lemma raise_if_ok bad msg u : raise_if bad msg = Ok u → bad = false.
Proof. unfold raise_if. by destruct bad. Qed.

Definition str_in (s : string) (l : list string) : bool := bool_decide (s ∈ l).

Lemma str_in_true s l : str_in s l = true ↔ s ∈ l.
Proof. unfold str_in. apply bool_decide_eq_true. Qed.

Lemma str_in_false s l : str_in s l = false ↔ s ∉ l.
Proof. unfold str_in. apply bool_decide_eq_false. Qed.

(** [for x in l: acc = f(acc, x)], stopping at the first exception. *)
Fixpoint foldl_res {A B} (f : A → B → res A) (a : A) (l : list B) : res A :=
  match l with
  | [] => Ok a
  | b :: l' => a' ← f a b; foldl_res f a' l'
  end.

(** An invariant of every round holds of the result. *)
Lemma foldl_res_inv {A B} (P : A → Prop) (f : A → B → res A) (l : list B) a a' :
  foldl_res f a l = Ok a' → P a → (∀ x b x', b ∈ l → P x → f x b = Ok x' → P x') → P a'.
Proof.
  revert a; induction l as [|b l IH]; intros a; simpl.
  - by intros [= <-].
  - intros (a1 & Ha1 & Hl)%res_bind_ok HP Hstep. eapply IH; [exact Hl| |].
    + eapply Hstep; [|exact HP|exact Ha1]. left.
    + intros x b' x' Hb'. apply Hstep. by right.
Qed.

(** A loop of checks passes when every check does. *)
Lemma foldl_res_checks {B} (f : B → res unit) (l : list B) u :
  foldl_res (λ _ b, f b) tt l = Ok u ↔ Forall (λ b, f b = Ok tt) l.
Proof.
  destruct u. induction l as [|b l IH]; simpl; [by split; [constructor|]|].
  rewrite res_bind_ok, Forall_cons, <- IH. split.
  - by intros ([] & ? & ?).
  - intros [? ?]. by exists tt.
Qed.

(** [[f(x) for x in l]] where [f] may raise. *)
Fixpoint map_res {A B} (f : A → res B) (l : list A) : res (list B) :=
  match l with
  | [] => Ok []
  | a :: l' => b ← f a; bs ← map_res f l'; Ok (b :: bs)
  end.

Lemma map_res_Forall2 {A B} (f : A → res B) l bs :
  map_res f l = Ok bs ↔ Forall2 (λ a b, f a = Ok b) l bs.
Proof.
  revert bs; induction l as [|a l IH]; intros bs; simpl.
  - split; [by intros [= <-]|by inversion 1].
  - rewrite res_bind_ok. split.
    + intros (b & Hb & (bs' & Hbs & [= <-])%res_bind_ok).
      constructor; [done|by apply IH].
    + inversion 1 as [|? b ? bs' Hb Hbs]; subst.
      exists b; split; [done|]. by rewrite (proj2 (IH _) Hbs).
Qed.

(** ** Insertion-ordered dictionaries

    A Python [dict] whose iteration order the code relies on: an association
    list; assigning an existing key keeps its position, a new key goes last. *)

Section dict.
Context {K V : Type} `{EqDecision K}.
Implicit Types (k : K) (v : V) (d : list (K * V)).

Fixpoint dget k d : option V :=
  match d with
  | [] => None
  | (k', v) :: d' => if decide (k = k') then Some v else dget k d'
  end.

Fixpoint dset k v d : list (K * V) :=
  match d with
  | [] => [(k, v)]
  | (k', v') :: d' =>
      if decide (k = k') then (k', v) :: d' else (k', v') :: dset k v d'
  end.

Definition dkeys d : list K := d.*1.

(** [{k: v for k, v in l}] *)
Definition dict_of (l : list (K * V)) : list (K * V) :=
  foldl (λ d kv, dset kv.1 kv.2 d) [] l.

Lemma dget_dset_eq k v d : dget k (dset k v d) = Some v.
Proof.
  induction d as [|[k' v'] d IH]; simpl; [by rewrite decide_True|].
  destruct (decide (k = k')) as [->|]; simpl; [by rewrite decide_True|].
  by rewrite decide_False.
Qed.

Lemma dget_dset_ne k k' v d : k ≠ k' → dget k (dset k' v d) = dget k d.
Proof.
  intros Hne; induction d as [|[k1 v1] d IH]; simpl; [by rewrite decide_False|].
  destruct (decide (k' = k1)) as [->|]; simpl; [by rewrite !decide_False|].
  by destruct (decide (k = k1)).
Qed.

Lemma dget_dset k k' v d :
  dget k (dset k' v d) = if decide (k = k') then Some v else dget k d.
Proof.
  destruct (decide (k = k')) as [->|]; [apply dget_dset_eq|by apply dget_dset_ne].
Qed.

Lemma dkeys_dset k v d :
  dkeys (dset k v d) = if decide (k ∈ dkeys d) then dkeys d else dkeys d ++ [k].
Proof.
  induction d as [|[k' v'] d IH]; [done|]. simpl.
  destruct (decide (k = k')) as [->|Hne]; simpl.
  - rewrite decide_True; [done|set_solver].
  - rewrite IH. unfold dkeys. repeat case_decide; set_solver.
Qed.

Lemma dkeys_dset_NoDup k v d : NoDup (dkeys d) → NoDup (dkeys (dset k v d)).
Proof.
  intros Hnd. rewrite dkeys_dset. case_decide; [done|].
  apply NoDup_app; split_and!; [done|set_solver|apply NoDup_singleton].
Qed.

Lemma elem_of_dkeys_dset k k' v d :
  k ∈ dkeys (dset k' v d) ↔ k = k' ∨ k ∈ dkeys d.
Proof. rewrite dkeys_dset. case_decide; set_solver. Qed.

Lemma dget_Some_elem k v d : dget k d = Some v → (k, v) ∈ d.
Proof.
  induction d as [|[k' v'] d IH]; simpl; [done|].
  case_decide; [|set_solver]. intros [= ->]. subst. set_solver.
Qed.

Lemma elem_dget_Some k v d : NoDup (dkeys d) → (k, v) ∈ d → dget k d = Some v.
Proof.
  unfold dkeys. induction d as [|[k' v'] d IH]; simpl; [set_solver|].
  intros [Hk' Hnd]%NoDup_cons [[= -> ->]|Hin]%elem_of_cons.
  - by rewrite decide_True.
  - rewrite decide_False; [auto|]. intros ->.
    apply Hk'. apply list_elem_of_fmap. by exists (k', v).
Qed.

Lemma dget_None k d : dget k d = None ↔ k ∉ dkeys d.
Proof.
  unfold dkeys. induction d as [|[k' v'] d IH]; simpl; [set_solver|].
  case_decide; [set_solver|]. rewrite IH. set_solver.
Qed.

Lemma dget_is_Some k d : is_Some (dget k d) ↔ k ∈ dkeys d.
Proof.
  destruct (dget k d) eqn:E; split; intros H.
  - destruct (decide (k ∈ dkeys d)) as [|Hn]; [done|].
    apply dget_None in Hn. congruence.
  - by eexists.
  - by destruct H.
  - by apply dget_None in E.
Qed.

Lemma dict_of_snoc l kv : dict_of (l ++ [kv]) = dset kv.1 kv.2 (dict_of l).
Proof. unfold dict_of. by rewrite foldl_app. Qed.

Lemma dset_fresh k v d : k ∉ dkeys d → dset k v d = d ++ [(k, v)].
Proof.
  induction d as [|[k' v'] d IH]; [done|]. unfold dkeys in *. rewrite fmap_cons, not_elem_of_cons.
  intros [Hne Hd]. simpl in *. rewrite decide_False by done. by rewrite IH.
Qed.

Lemma dict_of_id l : NoDup l.*1 → dict_of l = l.
Proof.
  induction l as [|[k v] l IH] using rev_ind; [done|]. rewrite fmap_app, dict_of_snoc.
  intros (Hl & Hd & _)%NoDup_app. rewrite IH by done. cbn [fst snd]. apply dset_fresh.
  intros Hk. apply (Hd k); [done|left].
Qed.

Lemma dict_of_NoDup l : NoDup (dkeys (dict_of l)).
Proof.
  induction l as [|kv l IH] using rev_ind; [constructor|].
  rewrite dict_of_snoc. by apply dkeys_dset_NoDup.
Qed.

Lemma elem_of_dkeys_dict_of k l : k ∈ dkeys (dict_of l) ↔ k ∈ l.*1.
Proof.
  induction l as [|[k' v'] l IH] using rev_ind; [done|].
  rewrite dict_of_snoc, elem_of_dkeys_dset, fmap_app, IH. set_solver.
Qed.

Lemma elem_of_dict_of kv l : kv ∈ dict_of l → kv ∈ l.
Proof.
  induction l as [|[k' v'] l IH] using rev_ind; [done|].
  rewrite dict_of_snoc; simpl. destruct kv as [k v]. intros Hin.
  apply elem_dget_Some in Hin; [|apply dkeys_dset_NoDup, dict_of_NoDup].
  rewrite dget_dset in Hin. case_decide as Hk.
  - simplify_eq. set_solver.
  - apply dget_Some_elem in Hin. set_solver.
Qed.
End dict.

(** ** [sorted] and [max]

    Python's [sorted] is stable; [lt a b] says that [a] must come before [b]
    ([key(a) < key(b)], or [key(b) < key(a)] under [reverse=True], which keeps
    the stability). *)

Section stable_sort.
Context {A : Type} (lt : A → A → bool).

Fixpoint insert_sorted (x : A) (l : list A) : list A :=
  match l with
  | [] => [x]
  | y :: l' => if lt y x then y :: insert_sorted x l' else x :: y :: l'
  end.

Definition sorted_by (l : list A) : list A := foldr insert_sorted [] l.

Lemma insert_sorted_perm x l : insert_sorted x l ≡ₚ x :: l.
Proof.
  induction l as [|y l IH]; simpl; [done|].
  destruct (lt y x); [|done]. rewrite IH. constructor.
Qed.

Lemma sorted_by_perm l : sorted_by l ≡ₚ l.
Proof.
  induction l as [|x l IH]; simpl; [done|].
  by rewrite insert_sorted_perm, IH.
Qed.

Lemma elem_of_sorted_by x l : x ∈ sorted_by l ↔ x ∈ l.
Proof. by rewrite sorted_by_perm. Qed.

Lemma length_sorted_by l : length (sorted_by l) = length l.
Proof. by rewrite sorted_by_perm. Qed.

(** On the elements where [lt] is a strict weak order. *)
Context (P : A → Prop)
        (Hasym : ∀ a b, P a → P b → lt a b = true → lt b a = false)
        (Htrans : ∀ a b c, P a → P b → P c →
           lt b a = false → lt c b = false → lt c a = false).

Lemma insert_sorted_sorted x l :
  P x → Forall P l →
  StronglySorted (λ a b, lt b a = false) l →
  StronglySorted (λ a b, lt b a = false) (insert_sorted x l).
Proof using All.
  intros Hx. induction l as [|y l IH]; simpl; intros HP Hl; [by repeat constructor|].
  apply Forall_cons in HP as [Hy HP].
  apply StronglySorted_inv in Hl as [Hl Hyl].
  destruct (lt y x) eqn:E; constructor; auto.
  - rewrite insert_sorted_perm. constructor; auto.
  - by constructor.
  - constructor; [done|]. apply Forall_forall. intros z Hz.
    rewrite Forall_forall in Hyl, HP. eauto.
Qed.

Lemma sorted_by_sorted l :
  Forall P l → StronglySorted (λ a b, lt b a = false) (sorted_by l).
Proof using All.
  induction 1 as [|x l Hx Hl IH]; simpl; [constructor|].
  apply insert_sorted_sorted; auto. by rewrite sorted_by_perm.
Qed.
End stable_sort.

(** [max(l, key=...)]: the first element no later one exceeds; [gt y b] is
    [key(y) > key(b)]. *)
Section max_by.
Context {A : Type} (gt : A → A → bool).

Definition max_by (x : A) (l : list A) : A :=
  foldl (λ b y, if gt y b then y else b) x l.

(** [None] stands for the [ValueError] of [max] on an empty sequence. *)
Definition py_max (l : list A) : option A :=
  match l with [] => None | x :: l' => Some (max_by x l') end.

Lemma max_by_elem x l : max_by x l ∈ x :: l.
Proof.
  unfold max_by. revert x; induction l as [|y l IH]; intros x; simpl; [set_solver|].
  destruct (gt y x); set_solver.
Qed.

Lemma py_max_elem l m : py_max l = Some m → m ∈ l.
Proof. destruct l; simpl; [done|]. intros [= <-]. apply max_by_elem. Qed.

Lemma py_max_is_Some l : l ≠ [] → is_Some (py_max l).
Proof. destruct l; naive_solver. Qed.

Context (P : A → Prop)
        (Hirr : ∀ a, P a → gt a a = false)
        (Hasym : ∀ a b, P a → P b → gt a b = true → gt b a = false)
        (Htrans : ∀ a b c, P a → P b → P c →
           gt a b = false → gt b c = false → gt a c = false).

Lemma max_by_upper x l y :
  P x → Forall P l → y ∈ x :: l → gt y (max_by x l) = false.
Proof using All.
  intros Hx Hl. revert x Hx y.
  induction Hl as [|z l Hz Hl IH]; intros x Hx y Hy.
  - apply list_elem_of_singleton in Hy as ->. by apply Hirr.
  - unfold max_by in *; simpl.
    assert (Hm : ∀ w, P w → foldl (λ b y, if gt y b then y else b) w l ∈ w :: l)
      by (intros w _; exact (max_by_elem w l)).
    assert (HP : ∀ w, P w → P (foldl (λ b y, if gt y b then y else b) w l)).
    { intros w Hw. specialize (Hm w Hw).
      apply elem_of_cons in Hm as [->|Hin]; [done|].
      by eapply (proj1 (Forall_forall _ _) Hl). }
    destruct (gt z x) eqn:E.
    + apply elem_of_cons in Hy as [->|Hy]; [|by apply IH].
      apply (Htrans x z); auto. apply IH; set_solver.
    + apply elem_of_cons in Hy as [->|Hy]; [apply IH; set_solver|].
      apply elem_of_cons in Hy as [->|Hy]; [|apply IH; set_solver].
      apply (Htrans z x); auto. apply IH; set_solver.
Qed.

Lemma py_max_upper l m y :
  Forall P l → py_max l = Some m → y ∈ l → gt y m = false.
Proof using All.
  destruct l as [|x l]; simpl; [done|].
  intros [Hx Hl]%Forall_cons [= <-]. by apply max_by_upper.
Qed.
End max_by.

(** ** Integer sums *)

Definition sumZ (l : list Z) : Z := foldr Z.add 0 l.

Lemma sumZ_cons z l : sumZ (z :: l) = z + sumZ l.
Proof. done. Qed.

Lemma sumZ_app l1 l2 : sumZ (l1 ++ l2) = sumZ l1 + sumZ l2.
Proof. induction l1; simpl in *; lia. Qed.

Lemma sumZ_nonneg l : Forall (λ z, 0 ≤ z) l → 0 ≤ sumZ l.
Proof. induction 1; simpl in *; lia. Qed.

(** [sum(1 for x in l if p(x))] *)
Definition countZ {A} (p : A → bool) (l : list A) : Z :=
  Z.of_nat (length (filter (λ a, p a = true) l)).

Lemma countZ_nil {A} (p : A → bool) : countZ p [] = 0.
Proof. done. Qed.

Lemma countZ_cons {A} (p : A → bool) a l :
  countZ p (a :: l) = (if p a then 1 else 0) + countZ p l.
Proof.
  unfold countZ. rewrite filter_cons.
  destruct (p a); case_decide; simpl; first [done|lia].
Qed.

Lemma countZ_app {A} (p : A → bool) l1 l2 :
  countZ p (l1 ++ l2) = countZ p l1 + countZ p l2.
Proof. unfold countZ. rewrite filter_app, length_app. lia. Qed.

Lemma countZ_bounds {A} (p : A → bool) l : 0 ≤ countZ p l ≤ Z.of_nat (length l).
Proof. unfold countZ. pose proof (length_filter (λ a, p a = true) l). lia. Qed.

Lemma countZ_mono {A} (p q : A → bool) l :
  (∀ a, p a = true → q a = true) → countZ p l ≤ countZ q l.
Proof.
  intros H. induction l as [|a l IH]; [done|]. rewrite !countZ_cons.
  specialize (H a). destruct (p a), (q a); lia || by specialize (H eq_refl).
Qed.

Lemma countZ_perm {A} (p : A → bool) l1 l2 : l1 ≡ₚ l2 → countZ p l1 = countZ p l2.
Proof. intros H. unfold countZ. by rewrite H. Qed.

(** Membership in a list comprehension with a boolean guard. *)
Lemma elem_of_filterb {A} (p : A → bool) (l : list A) x :
  x ∈ filter (λ a, p a = true) l ↔ p x = true ∧ x ∈ l.
Proof. by rewrite list_elem_of_filter. Qed.

Abbreviation filterb p l := (filter (λ a, p a = true) l).

Lemma filterb_sublist {A} (p : A → bool) (l : list A) : filterb p l `sublist_of` l.
Proof.
  induction l as [|x l IH]; [constructor|].
  rewrite filter_cons. case_decide; by constructor.
Qed.

Lemma filterb_all {A} (p : A → bool) (l : list A) :
  Forall (λ x, p x = true) l → filterb p l = l.
Proof.
  induction 1 as [|x l Hx Hl IH]; [done|]. rewrite filter_cons_True by done. by rewrite IH.
Qed.

Lemma filterb_none {A} (p : A → bool) (l : list A) :
  Forall (λ x, p x = false) l → filterb p l = [].
Proof.
  induction 1 as [|x l Hx Hl IH]; [done|]. rewrite filter_cons_False by (by rewrite Hx). done.
Qed.

Lemma NoDup_fmap_filterb {A B} (f : A → B) (p : A → bool) (l : list A) :
  NoDup (f <$> l) → NoDup (f <$> filterb p l).
Proof.
  intros Hnd. eapply sublist_NoDup; [exact Hnd|]. apply fmap_sublist, filterb_sublist.
Qed.

Lemma filterb_fmap {A} (p : A → bool) (g : A → A) (l : list A) :
  (∀ x, p (g x) = p x) → filterb p (g <$> l) = g <$> filterb p l.
Proof.
  intros Hp. induction l as [|x l IH]; [done|]. rewrite fmap_cons.
  destruct (p x) eqn:E.
  - rewrite !filter_cons_True by (by rewrite ?Hp). by rewrite fmap_cons, IH.
  - rewrite !filter_cons_False by (by rewrite ?Hp, ?E). done.
Qed.

(** Two rows with one key are one row. *)
Lemma NoDup_fmap_inj {A B} (f : A → B) (l : list A) a b :
  NoDup (f <$> l) → a ∈ l → b ∈ l → f a = f b → a = b.
Proof.
  induction l as [|x l IH]; simpl; [set_solver|].
  intros [Hx Hnd]%NoDup_cons [->|Ha]%elem_of_cons [->|Hb]%elem_of_cons E; auto.
  - destruct Hx. rewrite E. by apply list_elem_of_fmap_2.
  - destruct Hx. rewrite <- E. by apply list_elem_of_fmap_2.
Qed.

(** An element of a list with a property. *)
Lemma exists_elem_cons {A} (P : A → Prop) x l :
  (∃ a, a ∈ x :: l ∧ P a) ↔ P x ∨ ∃ a, a ∈ l ∧ P a.
Proof.
  split.
  - intros (a & [->|Ha]%elem_of_cons & HP); [by left|right; eauto].
  - intros [HP|(a & Ha & HP)]; [exists x; split; [left|done]|exists a; split; [by right|done]].
Qed.

Lemma elem_of_take_sub {A} n (l : list A) x : x ∈ take n l → x ∈ l.
Proof. intros H. rewrite <- (take_drop n l). set_solver. Qed.

Lemma NoDup_fmap_take {A B} (f : A → B) n (l : list A) : NoDup (f <$> l) → NoDup (f <$> take n l).
Proof.
  intros Hnd. eapply sublist_NoDup; [exact Hnd|]. apply fmap_sublist, sublist_take.
Qed.

Lemma filterb_cons_inv {A} (p : A → bool) l a q :
  filterb p l = a :: q →
  ∃ l1 l2, l = l1 ++ a :: l2 ∧ filterb p l1 = [] ∧ filterb p l2 = q ∧ p a = true.
Proof.
  induction l as [|x l IH]; [done|]. destruct (p x) eqn:Ex.
  - rewrite filter_cons_True by done. intros [= -> <-]. by exists [], l.
  - rewrite filter_cons_False by (by rewrite Ex). intros (l1 & l2 & -> & H1 & H2 & H3)%IH.
    exists (x :: l1), l2. rewrite filter_cons_False by (by rewrite Ex). done.
Qed.

Lemma sorted_by_id {A} (lt : A → A → bool) l :
  StronglySorted (λ a b, lt b a = false) l → sorted_by lt l = l.
Proof.
  induction 1 as [|x l Hl IH Hx]; [done|]. cbn [sorted_by foldr]. fold (sorted_by lt l). rewrite IH.
  destruct l as [|y l]; [done|]. cbn. apply Forall_cons in Hx as [-> _]. done.
Qed.

Lemma StronglySorted_filterb {A} (R : A → A → Prop) (p : A → bool) l :
  StronglySorted R l → StronglySorted R (filterb p l).
Proof.
  induction 1 as [|x l Hl IH Hx]; [constructor|]. destruct (p x) eqn:Ex.
  - rewrite filter_cons_True by done. constructor; [done|]. apply Forall_forall. intros y [_ Hy]%elem_of_filterb.
    rewrite Forall_forall in Hx. by apply Hx.
  - by rewrite filter_cons_False by (by rewrite Ex).
Qed.

Lemma StronglySorted_impl {A} (R S : A → A → Prop) l :
  (∀ a b, R a b → S a b) → StronglySorted R l → StronglySorted S l.
Proof.
  intros H. induction 1 as [|x l Hl IH Hx]; constructor; [done|]. eapply Forall_impl; [exact Hx|]. auto.
Qed.

Lemma StronglySorted_snoc {A} (R : A → A → Prop) l x :
  StronglySorted R (l ++ [x]) ↔ StronglySorted R l ∧ Forall (λ a, R a x) l.
Proof.
  induction l as [|y l IH]; cbn [app].
  - split; [by repeat constructor|]. by repeat constructor.
  - split.
    + intros [Hl H3]%StronglySorted_inv. apply IH in Hl as [H1 H2].
      apply Forall_app in H3 as [H3 H4%Forall_inv]. split; by constructor.
    + intros [[H1 H3]%StronglySorted_inv [H2 H4]%Forall_cons]. constructor; [by apply IH|].
      apply Forall_app. by rewrite Forall_singleton.
Qed.

Lemma StronglySorted_fmap {A B} (R : B → B → Prop) (f : A → B) l :
  StronglySorted R (f <$> l) → StronglySorted (λ a b, R (f a) (f b)) l.
Proof.
  induction l as [|x l IH]; [constructor|]. rewrite fmap_cons.
  intros [Hl Hx]%StronglySorted_inv. constructor; [by apply IH|]. by rewrite (Forall_fmap f (R (f x))) in Hx.
Qed.

(** [x or y] on an optional string: Python's truthiness of a [str]. *)
Definition str_truthy (s : string) : bool := negb (String.eqb s "").

Definition ostr_or (s : option string) (d : string) : string :=
  match s with Some s => if str_truthy s then s else d | None => d end.

(** [x or 0] on an optional integer. *)
Definition oint_or0 (z : option Z) : Z := default 0 z.

Definition is_none {A} (o : option A) : bool :=
  match o with None => true | Some _ => false end.

Definition is_some {A} (o : option A) : bool := negb (is_none o).

Lemma is_none_true {A} (o : option A) : is_none o = true ↔ o = None.
Proof. by destruct o. Qed.

Lemma is_none_false {A} (o : option A) : is_none o = false ↔ is_Some o.
Proof. destruct o; simpl; [by split; [eexists|]|]. split; [done|]. by intros []. Qed.

(** ** Rewriting and automation *)

Create HintDb py discriminated.
Create Rewrite HintDb py.

#[export] Hint Resolve dkeys_dset_NoDup dict_of_NoDup dget_dset_eq
  sumZ_nonneg py_max_elem : py.

#[export] Hint Rewrite @dget_dset_eq @countZ_nil @countZ_cons @countZ_app
  sumZ_app @length_sorted_by @elem_of_sorted_by @elem_of_filterb : py.

(** Split the boolean guards of the code into propositions. *)
Ltac bools :=
  repeat match goal with
  | H : _ && _ = true |- _ => apply andb_prop in H as [? ?]
  | H : _ || _ = false |- _ => apply orb_false_elim in H as [? ?]
  | H : negb _ = true |- _ => apply negb_true_iff in H
  | H : negb _ = false |- _ => apply negb_false_iff in H
  | H : bool_decide _ = true |- _ => apply bool_decide_eq_true_1 in H
  | H : bool_decide _ = false |- _ => apply bool_decide_eq_false_1 in H
  | H : (_ =? _)%Z = true |- _ => apply Z.eqb_eq in H
  | H : (_ =? _)%Z = false |- _ => apply Z.eqb_neq in H
  | H : (_ <? _)%Z = true |- _ => apply Z.ltb_lt in H
  | H : (_ <? _)%Z = false |- _ => apply Z.ltb_ge in H
  | H : (_ <=? _)%Z = true |- _ => apply Z.leb_le in H
  | H : (_ <=? _)%Z = false |- _ => apply Z.leb_gt in H
  | H : String.eqb _ _ = true |- _ => apply String.eqb_eq in H
  | H : String.eqb _ _ = false |- _ => apply String.eqb_neq in H
  end.

(** Unfold a successful sequence of calls that may raise. *)
Ltac inv_ok :=
  repeat match goal with
  | H : (_ ≫= _) = Ok _ |- _ => apply res_bind_ok in H as (? & ? & ?)
  | H : Ok _ = Ok _ |- _ => injection H as H
  | H : Err _ = Ok _ |- _ => discriminate H
  | H : Ok _ = Err _ |- _ => discriminate H
  end.

(** Successful sequences of guards. *)
Ltac inv_guards :=
  repeat match goal with
  | H : (_ ≫= _) = Ok _ |- _ => apply res_bind_ok in H as (? & ? & ?)
  | H : raise_if _ _ = Ok _ |- _ => apply raise_if_ok in H
  end.

(** Case analysis on the innermost [if] or [match] of the goal or of [H]. *)
Ltac case_match_in H :=
  match type of H with
  | context [ match ?x with _ => _ end ] => destruct x eqn:?
  end.
