(* ===== verification/PyFloat.v ===== *)
(** * Python floats

    A Python [float] is an IEEE 754 binary64 number.  It is modelled by
    [spec_float] of the Standard Library at precision 53 and maximal exponent
    1024: the arithmetic below computes the exact bits Python computes.  The
    file proves what the code relies on: the comparisons are a total preorder on
    the numbers that are not NaN, and clamping lands in the interval. *)

From Stdlib Require Export SpecFloat.
From S2P Require Import Prelude.
Open Scope Z_scope.

Abbreviation float := spec_float.

Definition prec := 53.
Definition emax := 1024.

(** ** Arithmetic *)

Definition fadd (x y : float) : float := SFadd prec emax x y.
Definition fsub (x y : float) : float := SFsub prec emax x y.
Definition fmul (x y : float) : float := SFmul prec emax x y.
Definition fdiv (x y : float) : float := SFdiv prec emax x y.

(** [float(z)]: round to nearest, ties to even.  Python raises [OverflowError]
    beyond [2^1024]; the counters of the program stay far below. *)
Definition of_Z (z : Z) : float := binary_normalize prec emax z 0 false.

Definition sf_of_Z_exact (z : Z) : float :=
  match z with
  | 0 => S754_zero false
  | Zpos p => S754_finite false p 0
  | Zneg p => S754_finite true p 0
  end.

(** [a / b] on integers: the correctly rounded exact quotient, for [b <> 0]. *)
Definition true_div (a b : Z) : float :=
  SFdiv prec emax (sf_of_Z_exact a) (sf_of_Z_exact b).

(** A decimal literal [n / 10^d] of the source. *)
Definition lit (n : Z) (d : nat) : float := true_div n (10 ^ Z.of_nat d).

Definition f0 : float := S754_zero false.
Definition f1 : float := Eval vm_compute in of_Z 1.

(** [int(x)]: truncation toward zero; NaN and infinities raise. *)
Definition trunc (x : float) : res Z :=
  match x with
  | S754_zero _ => Ok 0
  | S754_infinity _ => Err OverflowError
  | S754_nan => Err (ValueError "cannot convert float NaN to integer")
  | S754_finite s m e =>
      let a := if 0 <=? e then Z.pos m * 2 ^ e else Z.pos m / 2 ^ (- e) in
      Ok (if s then - a else a)
  end.

(** ** Comparisons *)

Definition flt (x y : float) : bool := SFltb x y.
Definition fle (x y : float) : bool := SFleb x y.
Definition feq (x y : float) : bool := SFeqb x y.
Definition fgt (x y : float) : bool := SFltb y x.
Definition fge (x y : float) : bool := SFleb y x.

Definition is_nan (x : float) : bool :=
  match x with S754_nan => true | _ => false end.

(** Python's [max(a, b)] and [min(a, b)] keep [a] unless [b] beats it. *)
Definition fmax (a b : float) : float := if fgt b a then b else a.
Definition fmin (a b : float) : float := if flt b a then b else a.

(** [max(lo, min(hi, x))] *)
Definition clamp (lo hi x : float) : float := fmax lo (fmin hi x).

(** ** The order

    [rank] maps a number to a triple whose lexicographic order is the order of
    the floats. *)

Definition rank (x : float) : Z * Z * Z :=
  match x with
  | S754_nan => (0, 0, 0)
  | S754_zero _ => (0, 0, 0)
  | S754_infinity s => (if s then -2 else 2, 0, 0)
  | S754_finite false m e => (1, e, Z.pos m)
  | S754_finite true m e => (-1, - e, - Z.pos m)
  end.

Definition lex (a b : Z * Z * Z) : comparison :=
  match a.1.1 ?= b.1.1 with
  | Eq => match a.1.2 ?= b.1.2 with Eq => a.2 ?= b.2 | c => c end
  | c => c
  end.

Definition lex_lt (a b : Z * Z * Z) : Prop :=
  a.1.1 < b.1.1 ∨ a.1.1 = b.1.1 ∧
  (a.1.2 < b.1.2 ∨ a.1.2 = b.1.2 ∧ a.2 < b.2).

Lemma lex_spec a b :
  CompareSpec (a = b) (lex_lt a b) (lex_lt b a) (lex a b).
Proof.
  destruct a as [[a1 a2] a3], b as [[b1 b2] b3]. unfold lex, lex_lt; simpl.
  destruct (Z.compare_spec a1 b1); [|constructor; lia..].
  destruct (Z.compare_spec a2 b2); [|constructor; lia..].
  destruct (Z.compare_spec a3 b3); constructor; first [congruence|lia].
Qed.

Lemma SFcompare_rank x y :
  is_nan x = false → is_nan y = false → SFcompare x y = Some (lex (rank x) (rank y)).
Proof.
  destruct x as [[]|[]| |[] m1 e1], y as [[]|[]| |[] m2 e2]; try done; intros _ _;
    unfold lex; simpl; try done.
  rewrite (Z.compare_opp e1 e2), (Z.compare_antisym e1 e2).
  by destruct (e1 ?= e2).
Qed.

Ltac frank :=
  unfold flt, fle, feq, fgt, fge, SFltb, SFleb, SFeqb in *;
  rewrite ?SFcompare_rank in * by done.

Ltac frank_cases :=
  repeat match goal with
  | |- context [lex ?a ?b] => destruct (lex_spec a b)
  | H : context [lex ?a ?b] |- _ => destruct (lex_spec a b)
  end.

Section order.
Implicit Types x y z : float.

Lemma flt_irrefl x : flt x x = false.
Proof.
  unfold flt, SFltb. destruct x as [| | |s m e]; try done; [by destruct s|].
  simpl. rewrite Z.compare_refl, Pos.compare_cont_refl. by destruct s.
Qed.

Lemma flt_not_nan x y : flt x y = true → is_nan x = false ∧ is_nan y = false.
Proof. destruct x, y; naive_solver. Qed.

Lemma fle_not_nan x y : fle x y = true → is_nan x = false ∧ is_nan y = false.
Proof. destruct x, y; naive_solver. Qed.

Lemma flt_asym x y : flt x y = true → flt y x = false.
Proof.
  intros H. destruct (flt_not_nan _ _ H) as [Hx Hy]. frank.
  unfold lex_lt in *. frank_cases; unfold lex_lt in *; first [done|lia].
Qed.

Lemma flt_trans x y z : flt x y = true → flt y z = true → flt x z = true.
Proof.
  intros H1 H2. destruct (flt_not_nan _ _ H1), (flt_not_nan _ _ H2). frank.
  frank_cases; unfold lex_lt in *; try done; exfalso;
    repeat match goal with E : rank _ = rank _ |- _ => rewrite E in * end; lia.
Qed.

Lemma fle_lt_trans x y z : fle x y = true → flt y z = true → flt x z = true.
Proof.
  intros H1 H2. destruct (fle_not_nan _ _ H1), (flt_not_nan _ _ H2). frank.
  frank_cases; unfold lex_lt in *; try done; exfalso;
    repeat match goal with E : rank _ = rank _ |- _ => rewrite E in * end; lia.
Qed.

Lemma flt_le_trans x y z : flt x y = true → fle y z = true → flt x z = true.
Proof.
  intros H1 H2. destruct (flt_not_nan _ _ H1), (fle_not_nan _ _ H2). frank.
  frank_cases; unfold lex_lt in *; try done; exfalso;
    repeat match goal with E : rank _ = rank _ |- _ => rewrite E in * end; lia.
Qed.

Lemma fle_trans x y z : fle x y = true → fle y z = true → fle x z = true.
Proof.
  intros H1 H2. destruct (fle_not_nan _ _ H1), (fle_not_nan _ _ H2). frank.
  frank_cases; unfold lex_lt in *; try done; exfalso;
    repeat match goal with E : rank _ = rank _ |- _ => rewrite E in * end; lia.
Qed.

(** [x < y] is the negation of [y <= x] unless a NaN is involved. *)
Lemma flt_fle x y :
  is_nan x = false → is_nan y = false → flt x y = negb (fle y x).
Proof.
  intros Hx Hy. frank. frank_cases; unfold lex_lt in *; try done; exfalso;
    repeat match goal with E : rank _ = rank _ |- _ => rewrite E in * end; lia.
Qed.

Lemma fle_refl x : is_nan x = false → fle x x = true.
Proof. intros Hx. frank. frank_cases; unfold lex_lt in *; first [done|lia]. Qed.

Lemma flt_le x y : flt x y = true → fle x y = true.
Proof.
  intros H. destruct (flt_not_nan _ _ H). frank.
  by destruct (lex (rank x) (rank y)).
Qed.

(** On numbers, not being smaller is transitive: the keys [sorted] and [max]
    compare form a total preorder. *)
Lemma flt_negtrans x y z :
  is_nan x = false → is_nan y = false → is_nan z = false →
  flt x y = false → flt y z = false → flt x z = false.
Proof.
  intros Hx Hy Hz. rewrite !flt_fle by done.
  rewrite !negb_false_iff. intros H1 H2. by eapply fle_trans.
Qed.

Lemma feq_flt x y : feq x y = true → flt x y = false.
Proof. unfold feq, flt, SFeqb, SFltb. by destruct (SFcompare x y) as [[]|]. Qed.

Lemma feq_fle x y : feq x y = true → fle x y = true ∧ fle y x = true.
Proof.
  destruct (is_nan x) eqn:Hx, (is_nan y) eqn:Hy;
    [by destruct x, y..|]. frank. intros.
  frank_cases; unfold lex_lt in *; try done; exfalso;
    repeat match goal with E : rank _ = rank _ |- _ => rewrite E in * end; lia.
Qed.

(** Clamping to a proper interval never escapes it, whatever [x] is: a NaN
    ends at the upper bound. *)
Lemma clamp_bounds lo hi x :
  fle lo hi = true →
  fle lo (clamp lo hi x) = true ∧ fle (clamp lo hi x) hi = true.
Proof.
  intros Hlh. destruct (fle_not_nan _ _ Hlh) as [Hlo Hhi].
  unfold clamp, fmax, fmin, fgt. fold (flt x hi).
  destruct (flt x hi) eqn:Ex; simpl.
  - fold (flt lo x). destruct (flt lo x) eqn:El; simpl.
    + split; by apply flt_le.
    + split; [by apply fle_refl|done].
  - fold (flt lo hi). destruct (flt lo hi) eqn:El; simpl.
    + split; [done|by apply fle_refl].
    + split; [by apply fle_refl|done].
Qed.

(** Inside the interval clamping is the identity up to [==]. *)
Lemma clamp_inside lo hi x :
  flt lo x = true → flt x hi = true → clamp lo hi x = x.
Proof.
  intros H1 H2. unfold clamp, fmin, fmax, fgt. rewrite H2.
  unfold flt in H1. by rewrite H1.
Qed.

Lemma clamp_above lo hi x :
  flt lo hi = true → fle hi x = true → clamp lo hi x = hi.
Proof.
  intros H1 H2. destruct (fle_not_nan _ _ H2).
  unfold clamp, fmin, fmax, fgt.
  assert (flt x hi = false) as -> by (rewrite (flt_fle x hi), H2; by rewrite ?(proj2 (flt_not_nan _ _ H1))).
  unfold flt in H1. by rewrite H1.
Qed.

Lemma clamp_not_nan lo hi x : fle lo hi = true → is_nan (clamp lo hi x) = false.
Proof. intros H. by destruct (fle_not_nan _ _ (proj1 (clamp_bounds lo hi x H))). Qed.
End order.

#[export] Hint Resolve flt_irrefl flt_asym flt_le fle_refl : py.

(** ** Rounding to decimals

    [round(x, n)]: the decimal with [n] digits nearest to the exact value of
    [x], ties to even, converted back to the nearest float. *)

Definition round_half_even_div (a b : Z) : Z :=
  let q := a / b in
  let r := a mod b in
  if 2 * r <? b then q
  else if b <? 2 * r then q + 1
  else if Z.even q then q else q + 1.

Definition fround (x : float) (n : nat) : float :=
  match x with
  | S754_finite s m e =>
      let p := 10 ^ Z.of_nat n in
      let k := if 0 <=? e then Z.pos m * 2 ^ e * p
               else round_half_even_div (Z.pos m * p) (2 ^ (- e)) in
      match true_div k p with
      | S754_zero _ => S754_zero s
      | y => if s then SFopp y else y
      end
  | _ => x
  end.

Lemma round_half_even_div_near a b :
  0 < b → 2 * Z.abs (a - b * round_half_even_div a b) <= b.
Proof.
  intros Hb. unfold round_half_even_div.
  pose proof (Z.div_mod a b ltac:(lia)). pose proof (Z.mod_pos_bound a b Hb).
  destruct (2 * (a mod b) <? b) eqn:E1; bools; [lia|].
  destruct (b <? 2 * (a mod b)) eqn:E2; bools; [lia|].
  destruct (Z.even (a / b)); lia.
Qed.

Example lit_085 : lit 85 2 = S754_finite false 7656119366529843 (-53).
Proof. vm_compute. reflexivity. Qed.

Example fround_half : fround (lit 2675 3) 2 = lit 267 2.
Proof. vm_compute. reflexivity. Qed.

Example trunc_mul : trunc (fmul (of_Z 100) (lit 65 2)) = Ok 65.
Proof. vm_compute. reflexivity. Qed.

(** ** Sums and square roots *)

(** [sum] of floats, which Python compensates (Neumaier). *)
Definition sum_step (sc : float * float) (x : float) : float * float :=
  let '(s, c) := sc in
  let t := fadd s x in
  (t, fadd c (if fge (SFabs s) (SFabs x) then fadd (fsub s t) x else fadd (fsub x t) s)).

Definition sumF (l : list float) : float :=
  let '(s, c) := foldl sum_step (f0, f0) l in
  match c with S754_finite _ _ _ => fadd s c | _ => s end.

(** [math.sqrt], which rounds to nearest. *)
Definition fsqrt (x : float) : float := SFsqrt prec emax x.

Example fsqrt_two : fsqrt (of_Z 4) = of_Z 2 ∧ sumF [lit 1 1; lit 2 1; lit 3 1] = lit 6 1.
Proof. vm_compute. split; reflexivity. Qed.

(** ** Results that are numbers *)

Lemma shr_1_nonneg r : 0 ≤ shr_m r → 0 ≤ shr_m (shr_1 r).
Proof. destruct r as [m ? ?]; simpl. destruct m as [|[p|p|]|]; simpl; lia. Qed.

Lemma iter_shr_1_nonneg p r : 0 ≤ shr_m r → 0 ≤ shr_m (SpecFloat.iter_pos shr_1 p r).
Proof.
  revert r; induction p as [p IH|p IH|]; intros r Hr; simpl;
    [by apply IH, IH, shr_1_nonneg|by apply IH, IH|by apply shr_1_nonneg].
Qed.

Lemma shr_nonneg r e n : 0 ≤ shr_m r → 0 ≤ shr_m (shr r e n).1.
Proof. intros Hr. destruct n; simpl; auto. by apply iter_shr_1_nonneg. Qed.

Lemma shr_fexp_nonneg m e l : 0 ≤ m → 0 ≤ shr_m (shr_fexp prec emax m e l).1.
Proof.
  intros Hm. apply shr_nonneg. destruct l as [|[]]; simpl; done.
Qed.

Lemma round_nearest_even_nonneg m l : 0 ≤ m → 0 ≤ round_nearest_even m l.
Proof. destruct l as [|[]]; simpl; try lia. destruct (Z.even m); lia. Qed.

(** Rounding a non-negative mantissa never makes a NaN. *)
Lemma binary_round_aux_not_nan s m e l :
  0 ≤ m → is_nan (binary_round_aux prec emax s m e l) = false.
Proof.
  intros Hm. unfold binary_round_aux.
  destruct (shr_fexp prec emax m e l) as [r1 e1] eqn:E1.
  pose proof (shr_fexp_nonneg m e l Hm) as H1. rewrite E1 in H1; simpl in H1.
  destruct (shr_fexp prec emax (round_nearest_even (shr_m r1) (loc_of_shr_record r1)) e1 loc_Exact)
    as [r2 e2] eqn:E2.
  pose proof (shr_fexp_nonneg _ e1 loc_Exact
    (round_nearest_even_nonneg _ (loc_of_shr_record r1) H1)) as H2.
  rewrite E2 in H2; simpl in H2. destruct (shr_m r2); simpl; [done| |lia].
  by destruct (e2 <=? emax - prec).
Qed.

(** The quotient of two integers is a number as soon as the divisor is not 0. *)
Lemma true_div_not_nan a b : b ≠ 0 → is_nan (true_div a b) = false.
Proof.
  intros Hb. unfold true_div.
  assert (∀ s1 p1 s2 p2, is_nan (SFdiv prec emax (S754_finite s1 p1 0) (S754_finite s2 p2 0)) = false)
    as Hfin.
  { intros s1 p1 s2 p2. unfold SFdiv.
    destruct (SFdiv_core_binary prec emax (Z.pos p1) 0 (Z.pos p2) 0) as [[q e] l] eqn:E.
    apply binary_round_aux_not_nan. revert E. unfold SFdiv_core_binary.
    set (n := match _ with 0 => Z.pos p1 | Z.pos _ => _ | Z.neg _ => 0 end).
    assert (0 ≤ n) as Hn.
    { subst n. case_match; [lia| |lia]. apply Z.shiftl_nonneg. lia. }
    pose proof (Z.div_pos n (Z.pos p2) Hn eq_refl) as Hq. unfold Z.div in Hq.
    destruct (Z.div_eucl n (Z.pos p2)) as [q' r']. by intros [= <- _ _]. }
  destruct a, b; first [done|apply Hfin].
Qed.

#[export] Hint Resolve true_div_not_nan : py.

(** ** Tuple keys

    Python compares tuples at the first position whose elements differ. *)
Section tuple_key.
Context {B : Type} (ltB : B → B → bool)
        (irrB : ∀ b, ltB b b = false)
        (asymB : ∀ a b, ltB a b = true → ltB b a = false)
        (negtransB : ∀ a b c, ltB a b = false → ltB b c = false → ltB a c = false).

Definition ftuple_lt (a b : float * B) : bool :=
  if feq a.1 b.1 then ltB a.2 b.2 else flt a.1 b.1.

Lemma feq_sym x y : feq x y = feq y x.
Proof using.
  destruct (is_nan x) eqn:Hx, (is_nan y) eqn:Hy; [by destruct x, y..|]. frank.
  frank_cases; unfold lex_lt in *; try done; exfalso;
    repeat match goal with E : rank _ = rank _ |- _ => rewrite E in * end; lia.
Qed.

Lemma ftuple_lt_irrefl a : ftuple_lt a a = false.
Proof using irrB. unfold ftuple_lt. destruct (feq _ _); auto using flt_irrefl. Qed.

Lemma ftuple_lt_asym a b : ftuple_lt a b = true → ftuple_lt b a = false.
Proof using asymB.
  unfold ftuple_lt. rewrite (feq_sym b.1 a.1).
  destruct (feq _ _); auto using flt_asym.
Qed.

Lemma ftuple_lt_negtrans a b c :
  is_nan a.1 = false → is_nan b.1 = false → is_nan c.1 = false →
  ftuple_lt a b = false → ftuple_lt b c = false → ftuple_lt a c = false.
Proof using negtransB.
  destruct a as [x xa], b as [y ya], c as [z za]; simpl; intros Hx Hy Hz.
  unfold ftuple_lt; simpl. frank.
  frank_cases; unfold lex_lt in *; try done; eauto; intros; exfalso;
    repeat match goal with E : rank _ = rank _ |- _ => rewrite E in * end; lia.
Qed.
End tuple_key.
