(* ===== verification/PyStr.v ===== *)
(** * Python strings

    The strings of the program are modelled as ASCII strings.  The functions
    below are the [str] methods and the [int] constructor the modelled code
    calls, with Python's behaviour on ASCII input. *)

From Stdlib Require Export Ascii.
From stdpp Require Export pretty.
From S2P Require Import Prelude.
Open Scope Z_scope.

Abbreviation chars := String.list_ascii_of_string.
Abbreviation of_chars := String.string_of_list_ascii.

(** ** Character classes *)

(** [str.isspace] on ASCII: tab to carriage return, the separators 28 to 31
    and the space. *)
Definition is_space (c : ascii) : bool :=
  let n := Z.of_N (Ascii.N_of_ascii c) in
  (n =? 32) || ((9 <=? n) && (n <=? 13)) || ((28 <=? n) && (n <=? 31)).

Definition is_digit (c : ascii) : bool :=
  let n := Z.of_N (Ascii.N_of_ascii c) in (48 <=? n) && (n <=? 57).

Definition is_upper (c : ascii) : bool :=
  let n := Z.of_N (Ascii.N_of_ascii c) in (65 <=? n) && (n <=? 90).

Definition is_lower (c : ascii) : bool :=
  let n := Z.of_N (Ascii.N_of_ascii c) in (97 <=? n) && (n <=? 122).

Definition is_alpha (c : ascii) : bool := is_upper c || is_lower c.
Definition is_alnum (c : ascii) : bool := is_alpha c || is_digit c.

Definition digit_val (c : ascii) : Z := Z.of_N (Ascii.N_of_ascii c) - 48.

Definition to_lower (c : ascii) : ascii :=
  if is_upper c then Ascii.ascii_of_N (Ascii.N_of_ascii c + 32) else c.

(** ** Trimming *)

Fixpoint dropwhile {A} (p : A → bool) (l : list A) : list A :=
  match l with
  | [] => []
  | a :: l' => if p a then dropwhile p l' else l
  end.

Definition lstrip_with (p : ascii → bool) (s : string) : string :=
  of_chars (dropwhile p (chars s)).

Definition rstrip_with (p : ascii → bool) (s : string) : string :=
  of_chars (rev (dropwhile p (rev (chars s)))).

(** [s.strip()] *)
Definition strip (s : string) : string :=
  rstrip_with is_space (lstrip_with is_space s).

(** [s.lower()] *)
Definition lower (s : string) : string := of_chars (to_lower <$> chars s).

(** [s[:n]] for a non-negative [n] *)
Definition str_take (n : nat) (s : string) : string := of_chars (take n (chars s)).

(** [s[n:]] *)
Definition str_drop (n : nat) (s : string) : string := of_chars (drop n (chars s)).

(** ** Searching and splitting *)

Definition startswith (p s : string) : bool := String.prefix p s.

(** [p in s] *)
Fixpoint contains (p s : string) : bool :=
  String.prefix p s ||
  match s with
  | EmptyString => false
  | String _ s' => contains p s'
  end.

(** [s.splitlines()]: the line boundaries of ASCII text, a carriage return and
    a line feed counting as one. *)
Definition is_linebreak (c : ascii) : bool :=
  let n := Z.of_N (Ascii.N_of_ascii c) in ((10 <=? n) && (n <=? 13)) || ((28 <=? n) && (n <=? 30)).

Fixpoint splitlines_chars (cur : list ascii) (l : list ascii) : list string :=
  match l with
  | [] => match cur with [] => [] | _ => [of_chars (rev cur)] end
  | a :: l' =>
      if is_linebreak a then
        of_chars (rev cur) ::
          match l' with
          | b :: l'' => if Ascii.eqb a "013" && Ascii.eqb b "010" then splitlines_chars [] l''
                        else splitlines_chars [] l'
          | [] => []
          end
      else splitlines_chars (a :: cur) l'
  end.

Definition splitlines (s : string) : list string := splitlines_chars [] (chars s).

Fixpoint split_chars (c : ascii) (cur : list ascii) (l : list ascii) : list string :=
  match l with
  | [] => [of_chars (rev cur)]
  | a :: l' =>
      if Ascii.eqb a c then of_chars (rev cur) :: split_chars c [] l'
      else split_chars c (a :: cur) l'
  end.

(** [s.split(c)] for a one-character separator *)
Definition split (c : ascii) (s : string) : list string := split_chars c [] (chars s).

(** [s.partition(c)] restricted to its first and last parts: [None] when the
    separator is absent. *)
Fixpoint split_first (c : ascii) (pre l : list ascii) : option (string * string) :=
  match l with
  | [] => None
  | a :: l' =>
      if Ascii.eqb a c then Some (of_chars (rev pre), of_chars l')
      else split_first c (a :: pre) l'
  end.

Definition partition (c : ascii) (s : string) : option (string * string) :=
  split_first c [] (chars s).

(** [s.rsplit(c, 1)] when [c in s] *)
Definition rpartition (c : ascii) (s : string) : option (string * string) :=
  match split_first c [] (rev (chars s)) with
  | None => None
  | Some (post, pre) => Some (of_chars (rev (chars pre)), of_chars (rev (chars post)))
  end.

(** [sep.join(l)] *)
Fixpoint join (sep : string) (l : list string) : string :=
  match l with
  | [] => ""
  | [s] => s
  | s :: l' => s +:+ sep +:+ join sep l'
  end.

(** ** Numbers *)

(** [s.isdigit()] *)
Definition isdigit (s : string) : bool :=
  str_truthy s && forallb is_digit (chars s).

(** The digits of an integer literal; an underscore may separate two digits. *)
Fixpoint parse_digits (acc : Z) (l : list ascii) : option Z :=
  match l with
  | [] => Some acc
  | a :: l' =>
      if is_digit a then parse_digits (10 * acc + digit_val a) l'
      else if Ascii.eqb a "_" then
        match l' with
        | b :: l'' => if is_digit b then parse_digits (10 * acc + digit_val b) l'' else None
        | [] => None
        end
      else None
  end.

Definition parse_nat (l : list ascii) : option Z :=
  match l with
  | a :: l' => if is_digit a then parse_digits (digit_val a) l' else None
  | [] => None
  end.

(** [int(s)]: surrounding space, an optional sign, then digits; [None] is the
    [ValueError]. *)
Definition py_int (s : string) : option Z :=
  match chars (strip s) with
  | "-"%char :: l => Z.opp <$> parse_nat l
  | "+"%char :: l => parse_nat l
  | l => parse_nat l
  end.

(** [str(z)] *)
Definition str_of_Z (z : Z) : string := pretty z.

(** ** Ordering: strings compare by code points *)
Definition str_ltb (a b : string) : bool := String.ltb a b.

(** ** Lemmas *)

Lemma chars_of_chars l : chars (of_chars l) = l.
Proof. apply String.list_ascii_of_string_of_list_ascii. Qed.

Lemma of_chars_chars s : of_chars (chars s) = s.
Proof. apply String.string_of_list_ascii_of_string. Qed.

Lemma chars_inj s1 s2 : chars s1 = chars s2 → s1 = s2.
Proof. intros H. by rewrite <- (of_chars_chars s1), H, of_chars_chars. Qed.

Lemma append_assoc s1 s2 s3 : (s1 +:+ s2) +:+ s3 = s1 +:+ (s2 +:+ s3).
Proof.
  apply chars_inj. induction s1 as [|c s1 IH]; [done|]. simpl. by rewrite IH.
Qed.

Lemma chars_app s1 s2 : chars (s1 +:+ s2) = chars s1 ++ chars s2.
Proof. induction s1 as [|c s1 IH]; simpl; [done|]. by rewrite <- IH. Qed.

Lemma dropwhile_head {A} (p : A → bool) a l :
  p a = false → dropwhile p (a :: l) = a :: l.
Proof. simpl. by intros ->. Qed.

(** A string that neither starts nor ends with a space is left alone. *)
Lemma strip_id s :
  (∀ c l, chars s = c :: l → is_space c = false) →
  (∀ c l, chars s = l ++ [c] → is_space c = false) →
  strip s = s.
Proof.
  intros Hh Ht. unfold strip, lstrip_with, rstrip_with.
  assert (dropwhile is_space (chars s) = chars s) as ->.
  { destruct (chars s) as [|c l] eqn:E; [done|]. apply dropwhile_head. eauto. }
  rewrite !chars_of_chars.
  assert (dropwhile is_space (rev (chars s)) = rev (chars s)) as ->.
  { destruct (rev (chars s)) as [|c l] eqn:E; [done|]. apply dropwhile_head.
    apply (Ht c (rev l)). rewrite <- (rev_involutive (chars s)), E. done. }
  by rewrite rev_involutive, of_chars_chars.
Qed.

Lemma dropwhile_spec {A} (p : A → bool) l :
  ∃ pre, l = pre ++ dropwhile p l ∧
    match dropwhile p l with a :: _ => p a = false | [] => True end.
Proof.
  induction l as [|a l (pre & E & H)]; simpl; [by exists []|].
  destruct (p a) eqn:Ea; [|by exists []]. exists (a :: pre). split; [simpl; congruence|done].
Qed.

Lemma strip_strip s : strip (strip s) = strip s.
Proof.
  apply strip_id; unfold strip, lstrip_with, rstrip_with; rewrite !chars_of_chars.
  - intros c l E.
    destruct (dropwhile_spec is_space (chars s)) as (pre & _ & Hh).
    set (m := dropwhile is_space (chars s)) in *.
    destruct (dropwhile_spec is_space (rev m)) as (pre' & E' & _).
    apply (f_equal (@rev _)) in E'. rewrite rev_involutive, rev_app_distr, E in E'.
    rewrite E' in Hh. exact Hh.
  - intros c l E.
    set (m := dropwhile is_space (chars s)) in *.
    destruct (dropwhile_spec is_space (rev m)) as (pre & _ & Hh).
    apply (f_equal (@rev _)) in E. rewrite rev_involutive, rev_app_distr in E.
    rewrite E in Hh. exact Hh.
Qed.

Lemma is_digit_not_space c : is_digit c = true → is_space c = false.
Proof. unfold is_digit, is_space. lia. Qed.

Lemma str_truthy_true s : str_truthy s = true ↔ s ≠ "".
Proof. unfold str_truthy. rewrite negb_true_iff, String.eqb_neq. done. Qed.

Lemma str_truthy_false s : str_truthy s = false ↔ s = "".
Proof. unfold str_truthy. rewrite negb_false_iff, String.eqb_eq. done. Qed.

#[export] Hint Rewrite chars_of_chars of_chars_chars chars_app : py.

Example strip_ex : strip "  10.8.0.2 " = "10.8.0.2".
Proof. reflexivity. Qed.
Example split_ex : split "." "10.8..2" = ["10"; "8"; ""; "2"].
Proof. reflexivity. Qed.
Example py_int_ex : py_int " -1_0 " = Some (-10).
Proof. reflexivity. Qed.
Example rpartition_ex : rpartition ":" "a:b:443" = Some ("a:b", "443").
Proof. reflexivity. Qed.

(** ** The order of strings is a strict total order *)

Lemma str_compare_refl s : String.compare s s = Eq.
Proof.
  induction s as [|c s IH]; simpl; [done|]. unfold Ascii.compare.
  by rewrite N.compare_refl.
Qed.

Lemma str_ltb_irrefl s : str_ltb s s = false.
Proof. unfold str_ltb, String.ltb. by rewrite str_compare_refl. Qed.

Lemma str_ltb_asym s t : str_ltb s t = true → str_ltb t s = false.
Proof.
  unfold str_ltb, String.ltb. rewrite (String.compare_antisym t s).
  by destruct (String.compare s t).
Qed.

Lemma str_ltb_total s t : str_ltb s t = false → str_ltb t s = false → s = t.
Proof.
  unfold str_ltb, String.ltb. rewrite (String.compare_antisym t s).
  destruct (String.compare s t) eqn:E; try done. intros _ _. by apply String.compare_eq_iff.
Qed.

Lemma ascii_compare_N a b : Ascii.compare a b = (Ascii.N_of_ascii a ?= Ascii.N_of_ascii b)%N.
Proof. done. Qed.

Lemma N_of_ascii_inj a b : Ascii.N_of_ascii a = Ascii.N_of_ascii b → a = b.
Proof. intros H. by rewrite <- (Ascii.ascii_N_embedding a), H, Ascii.ascii_N_embedding. Qed.

Lemma str_ltb_trans s t u : str_ltb s t = true → str_ltb t u = true → str_ltb s u = true.
Proof.
  unfold str_ltb, String.ltb. revert t u.
  induction s as [|a s IH]; intros [|b t] [|c u]; simpl; try done.
  rewrite !ascii_compare_N.
  destruct (N.compare_spec (Ascii.N_of_ascii a) (Ascii.N_of_ascii b)) as [E1|E1|E1],
    (N.compare_spec (Ascii.N_of_ascii b) (Ascii.N_of_ascii c)) as [E2|E2|E2],
    (N.compare_spec (Ascii.N_of_ascii a) (Ascii.N_of_ascii c)) as [E3|E3|E3];
    try done; try lia. apply IH.
Qed.

Lemma str_ltb_negtrans s t u :
  str_ltb s t = false → str_ltb t u = false → str_ltb s u = false.
Proof.
  intros H1 H2. apply not_true_iff_false. intros H.
  destruct (str_ltb t s) eqn:E1.
  - pose proof (str_ltb_trans _ _ _ E1 H). congruence.
  - rewrite (str_ltb_total _ _ H1 E1) in H. congruence.
Qed.

#[export] Hint Resolve str_ltb_irrefl str_ltb_asym : py.

(** ** Splitting what was joined *)

(** The parts of a split hold every other character of the string. *)
Lemma split_chars_forallb (p : ascii → bool) c cur l :
  Forall (λ s, forallb p (chars s) = true) (split_chars c cur l) → p c = true →
  forallb p (rev cur) = true ∧ forallb p l = true.
Proof.
  intros Hs Hc. revert cur Hs. induction l as [|a l IH]; intros cur; cbn [split_chars].
  - intros H%Forall_inv. by rewrite chars_of_chars in H.
  - destruct (Ascii.eqb_spec a c) as [->|Hne].
    + intros [H1 H2]%Forall_cons. rewrite chars_of_chars in H1. apply IH in H2 as [_ H2].
      split; [done|]. simpl. by rewrite Hc.
    + intros [H1 H2]%IH. cbn [rev] in H1. rewrite forallb_app in H1. simpl in H1.
      apply andb_prop in H1 as [H1 H3]. split; [done|]. simpl. by rewrite H2, andb_true_r in *.
Qed.

Lemma split_first_spec c pre l a b :
  split_first c pre l = Some (a, b) → rev pre ++ l = chars a ++ c :: chars b.
Proof.
  revert pre. induction l as [|x l IH]; intros pre; cbn [split_first]; [done|].
  destruct (Ascii.eqb_spec x c) as [->|Hne].
  - intros [= <- <-]. by rewrite !chars_of_chars.
  - intros H%IH. cbn [rev] in H. by rewrite <- app_assoc in H.
Qed.

Lemma partition_spec c s a b : partition c s = Some (a, b) → chars s = chars a ++ c :: chars b.
Proof. apply split_first_spec. Qed.

Lemma split_chars_app c cur l1 l2 :
  forallb (λ a, negb (Ascii.eqb a c)) l1 = true →
  split_chars c cur (l1 ++ c :: l2) = of_chars (rev cur ++ l1) :: split_chars c [] l2.
Proof.
  revert cur. induction l1 as [|a l1 IH]; intros cur; simpl.
  - intros _. rewrite Ascii.eqb_refl, app_nil_r. done.
  - intros [Ha Hl]%andb_prop. apply negb_true_iff in Ha. rewrite Ha, IH by done.
    simpl. by rewrite <- app_assoc.
Qed.

Lemma split_join c l :
  Forall (λ s, forallb (λ a, negb (Ascii.eqb a c)) (chars s) = true) l → l ≠ [] →
  split c (join (String c "") l) = l.
Proof.
  unfold split. intros Hl Hne. induction Hl as [|s l Hs Hl IH]; [done|].
  destruct l as [|s2 l].
  - simpl join. assert (∀ k cur, forallb (λ a, negb (Ascii.eqb a c)) k = true →
      split_chars c cur k = [of_chars (rev cur ++ k)]) as Hgen.
    { induction k as [|a k IHk]; intros cur; simpl; [by rewrite app_nil_r|].
      intros [Ha Hk]%andb_prop. apply negb_true_iff in Ha. rewrite Ha, IHk by done.
      simpl. by rewrite <- app_assoc. }
    rewrite Hgen by done. simpl. by rewrite of_chars_chars.
  - change (join (String c "") (s :: s2 :: l)) with (s +:+ String c (join (String c "") (s2 :: l))).
    rewrite chars_app. simpl chars at 2. rewrite split_chars_app by done. simpl.
    rewrite of_chars_chars. f_equal. by apply IH.
Qed.

Definition no_linebreak (s : string) : bool := forallb (λ a, negb (is_linebreak a)) (chars s).

(** Lines that each end with a line feed. *)
Definition unlines (ls : list string) : string :=
  foldr (λ s text, s +:+ String "010" text) "" ls.

Lemma splitlines_app cur l r :
  forallb (λ a, negb (is_linebreak a)) l = true →
  splitlines_chars cur (l ++ "010"%char :: r) = of_chars (rev cur ++ l) :: splitlines_chars [] r.
Proof.
  revert cur. induction l as [|a l IH]; intros cur; simpl.
  - intros _. rewrite app_nil_r. by destruct r.
  - intros [Ha Hl]%andb_prop. apply negb_true_iff in Ha. rewrite Ha, IH by done.
    simpl. by rewrite <- app_assoc.
Qed.

Lemma splitlines_unlines ls :
  Forall (λ s, no_linebreak s = true) ls → splitlines (unlines ls) = ls.
Proof.
  unfold splitlines. intros Hl. induction Hl as [|s ls Hs Hl IH]; [done|].
  simpl unlines. rewrite chars_app. simpl chars at 2. rewrite splitlines_app by done.
  simpl. rewrite of_chars_chars. f_equal. exact IH.
Qed.

(** ** Printing and parsing integers *)

Lemma pretty_N_char_digit n : (n < 10)%N →
  is_digit (pretty_N_char n) = true ∧ digit_val (pretty_N_char n) = Z.of_N n.
Proof.
  intros H. assert (n = 0 ∨ n = 1 ∨ n = 2 ∨ n = 3 ∨ n = 4 ∨ n = 5 ∨ n = 6 ∨ n = 7 ∨ n = 8 ∨ n = 9)%N
    as Hn by lia. destruct_or! Hn; subst; done.
Qed.
Lemma parse_pretty_N_go x : (0 < x)%N → ∀ s, ∃ c l,
  chars (pretty_N_go x s) = c :: l ++ chars s ∧ is_digit c = true ∧
  forallb is_digit l = true ∧
  ∀ r, parse_digits (digit_val c) (l ++ r) = parse_digits (Z.of_N x) r.
Proof.
  induction (N.lt_wf_0 x) as [x _ IH]. intros Hx s. rewrite pretty_N_go_step by done.
  destruct (pretty_N_char_digit (x `mod` 10)%N) as [Hd Hv]; [by apply N.mod_lt|].
  destruct (decide (x < 10)%N) as [Hs|Hs].
  - rewrite N.div_small, pretty_N_go_0 by done. eexists _, []. split; [done|].
    split_and!; [done|done|]. intros r. simpl. by rewrite Hv, N.mod_small.
  - destruct (IH (x / 10)%N) with (s := String (pretty_N_char (x `mod` 10)) s)
      as (c & l & E & Hc & Hl & Hp); [apply N.div_lt; lia|apply N.div_str_pos; lia|].
    exists c, (l ++ [pretty_N_char (x `mod` 10)]). split_and!; [|done| |].
    + rewrite E. simpl. by rewrite <- app_assoc.
    + rewrite forallb_app, Hl. simpl. by rewrite Hd.
    + intros r. rewrite <- app_assoc, Hp. simpl. rewrite Hd, Hv. f_equal.
      pose proof (N.div_mod x 10). lia.
Qed.

(** The characters of an integer: a sign or a digit. *)
Definition int_char (c : ascii) : bool := is_digit c || Ascii.eqb c "-".

Lemma pretty_pos_chars p : ∃ c l,
  chars (pretty (N.pos p)) = c :: l ∧ is_digit c = true ∧ forallb is_digit l = true ∧
  parse_digits (digit_val c) l = Some (Z.pos p).
Proof.
  destruct (parse_pretty_N_go (N.pos p) ltac:(lia) "") as (c & l & E & Hc & Hl & Hp).
  exists c, l. unfold pretty, pretty_N. rewrite decide_False by done. rewrite E.
  split_and!; [by rewrite app_nil_r|done|done|]. specialize (Hp []). by rewrite app_nil_r in Hp.
Qed.

Lemma int_char_not_space c : int_char c = true → is_space c = false.
Proof.
  unfold int_char. intros [H|H%Ascii.eqb_eq]%orb_prop; [by apply is_digit_not_space|by subst].
Qed.

Lemma str_of_Z_chars z : forallb int_char (chars (str_of_Z z)) = true ∧ str_of_Z z ≠ "".
Proof.
  assert (∀ l, forallb is_digit l = true → forallb int_char l = true) as Hd.
  { intros l Hl. apply forallb_forall. intros x Hx.
    rewrite forallb_forall in Hl. unfold int_char. by rewrite Hl. }
  assert (∀ s, s ≠ "" ↔ chars s ≠ []) as Hne by (intros []; simpl; split; congruence).
  rewrite Hne. destruct z as [|p|p]; [done|..];
    destruct (pretty_pos_chars p) as (c & l & E & Hc & Hl & _).
  - change (str_of_Z (Z.pos p)) with (pretty (N.pos p)). rewrite E.
    split; [|done]. apply Hd. simpl. by rewrite Hc.
  - change (str_of_Z (Z.neg p)) with (String "-" (pretty (N.pos p))). cbn [chars]. rewrite E.
    split; [|done]. simpl. rewrite (Hd l Hl). unfold int_char. by rewrite Hc.
Qed.

Lemma strip_str_of_Z z : strip (str_of_Z z) = str_of_Z z.
Proof.
  destruct (str_of_Z_chars z) as [H _]. rewrite forallb_forall in H.
  apply strip_id; intros c l E; apply int_char_not_space, H; rewrite E;
    [by left|apply in_app_iff; right; by left].
Qed.

Lemma py_int_str_of_Z z : py_int (str_of_Z z) = Some z.
Proof.
  unfold py_int. rewrite strip_str_of_Z. destruct z as [|p|p]; [done|..];
    destruct (pretty_pos_chars p) as (c & l & E & Hc & Hl & Hp).
  - change (str_of_Z (Z.pos p)) with (pretty (N.pos p)). rewrite E.
    assert (c ≠ "-"%char ∧ c ≠ "+"%char) as [H1 H2] by (split; intros ->; done).
    assert (match c :: l with
            | "-"%char :: l => Z.opp <$> parse_nat l
            | "+"%char :: l => parse_nat l
            | l => parse_nat l end = parse_nat (c :: l)) as ->.
    { destruct c as [[] [] [] [] [] [] [] []]; done. }
    simpl. by rewrite Hc.
  - change (str_of_Z (Z.neg p)) with (String "-" (pretty (N.pos p))). cbn [chars]. rewrite E.
    simpl. rewrite Hc, Hp. done.
Qed.

#[export] Hint Rewrite strip_str_of_Z py_int_str_of_Z : py.

Lemma startswith_app p s : startswith p (p +:+ s) = true.
Proof.
  unfold startswith. induction p as [|a p IH]; [by destruct s|]. simpl. by destruct (ascii_dec a a).
Qed.
