(* ===== verification/PyVal.v ===== *)
(** * JSON values in Python

    The values of the JSON objects the program reads and of the dicts it builds:
    [None], booleans, integers and strings, with the conversions applied to
    them. *)

From S2P Require Import Prelude PyStr.
Open Scope Z_scope.

Inductive pyval : Type :=
| VNone
| VBool (b : bool)
| VInt (z : Z)
| VStr (s : string).

#[export] Instance pyval_eq_dec : EqDecision pyval.
Proof. solve_decision. Defined.

(** A Python dict with string keys. *)
Abbreviation pydict := (list (string * pyval)).

(** [d.get(k)] *)
Definition getv (d : pydict) (k : string) : pyval := default VNone (dget k d).

(** [d.get(k, dflt)] *)
Definition getd (d : pydict) (k : string) (dflt : pyval) : pyval := default dflt (dget k d).

(** [str(v)] *)
Definition render (v : pyval) : string :=
  match v with VInt z => str_of_Z z | VStr s => s | VBool true => "True"
             | VBool false => "False" | VNone => "None" end.

(** Truthiness, [a or b] and [int(v)]. *)
Definition truthy (v : pyval) : bool :=
  match v with VNone => false | VBool b => b | VInt z => negb (z =? 0) | VStr s => str_truthy s end.

Definition v_or (a b : pyval) : pyval := if truthy a then a else b.

Definition int_or_raise (s : string) : res Z :=
  match py_int s with
  | Some z => Ok z
  | None => Err (ValueError ("invalid literal for int() with base 10: '" +:+ s +:+ "'"))
  end.

Definition int_of (v : pyval) : res Z :=
  match v with
  | VInt z => Ok z
  | VBool b => Ok (if b then 1 else 0)
  | VStr s => int_or_raise s
  | VNone => Err (TypeError "int() argument must be a string, a bytes-like object or a real number, not 'NoneType'")
  end.

(** ** [decimal.Decimal] *)

(** A decimal number: [coefficient * 10 ^ exponent], an infinity or a NaN. *)
Inductive decimal : Type :=
| DFin (coefficient exponent : Z)
| DInf (negative : bool)
| DNaN.

(** The digits in front of [l], and the rest. *)
Fixpoint span_digits (l : list ascii) : list ascii * list ascii :=
  match l with
  | c :: l' => if is_digit c then let '(d, r) := span_digits l' in (c :: d, r) else ([], l)
  | [] => ([], [])
  end.

Definition digits_value (l : list ascii) : Z := foldl (λ a c, a * 10 + digit_val c) 0 l.

Definition parse_sign (l : list ascii) : bool * list ascii :=
  match l with
  | "-"%char :: l' => (true, l')
  | "+"%char :: l' => (false, l')
  | _ => (false, l)
  end.

(** The exponent part: nothing, or [e] and a signed number. *)
Definition parse_exponent (l : list ascii) : option Z :=
  match l with
  | [] => Some 0
  | "e"%char :: l' =>
      let '(neg, l') := parse_sign l' in
      match span_digits l' with
      | ((_ :: _) as d, []) => Some (if neg then - digits_value d else digits_value d)
      | _ => None
      end
  | _ => None
  end.

(** [Decimal(s)] of a string. *)
Definition parse_decimal (s : string) : res decimal :=
  let l := chars (lower (strip s)) in
  let l := filterb (λ c, negb (Ascii.eqb c "_")) l in
  let '(neg, l) := parse_sign l in
  let bad := Err InvalidOperation in
  if str_in (of_chars l) ["inf"; "infinity"] then Ok (DInf neg)
  else if startswith "nan" (of_chars l) || startswith "snan" (of_chars l) then
    let rest := if startswith "nan" (of_chars l) then drop 3 l else drop 4 l in
    if forallb is_digit rest then Ok DNaN else bad
  else
    let '(whole, l) := span_digits l in
    let '(frac, l) := match l with "."%char :: l' => span_digits l' | _ => ([], l) end in
    match whole ++ frac, parse_exponent l with
    | (_ :: _) as d, Some e =>
        Ok (DFin (if neg then - digits_value d else digits_value d) (e - Z.of_nat (length frac)))
    | _, _ => bad
    end.

Example parse_decimal_ex :
  parse_decimal " 12.50" = Ok (DFin 1250 (-2)) ∧ parse_decimal "-1e3" = Ok (DFin (-1) 3) ∧
  parse_decimal "." = Err InvalidOperation ∧ parse_decimal "True" = Err InvalidOperation.
Proof. vm_compute. done. Qed.
