(* ===== verification/IpAddr.v ===== *)
(** * Python's [ipaddress] and [base64], as the program uses them

    Parsing of IPv4 and IPv6 addresses, interfaces and networks, and the length
    a strict base64 decoding would have. *)

From S2P Require Import Prelude PyStr.
Open Scope Z_scope.

(** ** IPv4 *)

(** An octet: one to three digits, no leading zero, at most 255. *)
Definition ipv4_octet (s : string) : option Z :=
  if isdigit s && (String.length s <=? 3)%nat &&
     negb (startswith "0" s && (1 <? String.length s)%nat)
  then match parse_nat (chars s) with
       | Some v => if v <=? 255 then Some v else None
       | None => None
       end
  else None.

Definition ipv4_parse (s : string) : option Z :=
  match ipv4_octet <$> split "." s with
  | [Some a; Some b; Some c; Some d] => Some (((a * 256 + b) * 256 + c) * 256 + d)
  | _ => None
  end.

(** One IPv4 host, as [a.b.c.d/32]. *)
Definition host_cidr (s : string) : bool :=
  match partition "/" s with
  | Some (a, p) => String.eqb p "32" && is_some (ipv4_parse a)
  | None => false
  end.

Definition dotted (c : ascii) : bool := is_digit c || Ascii.eqb c ".".

Lemma ipv4_octet_digits s v : ipv4_octet s = Some v → forallb is_digit (chars s) = true.
Proof.
  unfold ipv4_octet, isdigit. destruct (str_truthy s); [|done]. simpl.
  by destruct (forallb is_digit (chars s)).
Qed.

Lemma ipv4_parse_dotted s v : ipv4_parse s = Some v → forallb dotted (chars s) = true.
Proof.
  unfold ipv4_parse. intros H.
  assert (Forall (λ p, forallb dotted (chars p) = true) (split "." s)) as Hall.
  { destruct (split "." s) as [|a [|b [|c [|d [|e l]]]]]; try done; simpl in H;
      repeat case_match; simplify_eq;
      repeat match goal with E : ipv4_octet ?x = Some _ |- _ => apply ipv4_octet_digits in E end;
      repeat constructor; unfold dotted;
      match goal with E : forallb is_digit (chars ?x) = true |- forallb _ (chars ?x) = true =>
        rewrite forallb_forall in *; intros y Hy; by rewrite E end. }
  apply split_chars_forallb in Hall as [_ Hs]; [|done]. exact Hs.
Qed.

Lemma host_cidr_chars s :
  host_cidr s = true → s ≠ "" ∧ forallb (λ c, dotted c || Ascii.eqb c "/") (chars s) = true.
Proof.
  unfold host_cidr. destruct (partition "/" s) as [[a p]|] eqn:E; [|done].
  intros [->%String.eqb_eq Ha]%andb_prop. apply partition_spec in E.
  destruct (ipv4_parse a) as [v|] eqn:Ev; [|done]. apply ipv4_parse_dotted in Ev. split.
  - intros ->. by destruct (chars a).
  - rewrite E, forallb_app. simpl. apply andb_true_intro. split; [|done].
    rewrite forallb_forall in *. intros c Hc. by rewrite Ev.
Qed.

(** ** IPv6 *)

Definition hex_val (c : ascii) : option Z :=
  let n := Z.of_N (Ascii.N_of_ascii c) in
  if is_digit c then Some (n - 48)
  else if (97 <=? n) && (n <=? 102) then Some (n - 87)
  else if (65 <=? n) && (n <=? 70) then Some (n - 55)
  else None.

Definition hextet (s : string) : option Z :=
  if str_truthy s && (String.length s <=? 4)%nat then
    foldl (λ acc c, a ← acc; v ← hex_val c; Some (16 * a + v)) (Some 0) (chars s)
  else None.

(** [Some] when every element is [Some]. *)
Fixpoint all_some {A} (l : list (option A)) : option (list A) :=
  match l with
  | [] => Some []
  | Some a :: l' => (a ::.) <$> all_some l'
  | None :: _ => None
  end.

Definition hextets (l : list string) : option Z :=
  foldl (λ acc v, 65536 * acc + v) 0 <$> all_some (hextet <$> l).

(** The position of the single empty part between the first and the last:
    [None] when there are several. *)
Definition skip_index (parts : list string) : option (option nat) :=
  match filter (λ i, nth i parts "x" = "") (seq 1 (length parts - 2)) with
  | [] => Some None
  | [i] => Some (Some i)
  | _ => None
  end.

(** A trailing IPv4 part counts for two hextets. *)
Definition ipv6_parts (s : string) : option (list string) :=
  let parts := split ":" s in
  if (length parts <? 3)%nat then None
  else
    let lst := List.last parts "" in
    if contains "." lst then
      match ipv4_parse lst with
      | Some _ => Some (removelast parts ++ ["0"; "0"])
      | None => None
      end
    else Some parts.

Definition ipv6_ok_parts (parts : list string) : bool :=
  let hexes l := is_some (hextets l) in
  if (9 <? length parts)%nat then false
  else
    match skip_index parts with
    | None => false
    | Some (Some i) =>
        let hi := take i parts in
        let lo := drop (S i) parts in
        let first_empty := String.eqb (hd "" parts) "" in
        let last_empty := String.eqb (List.last parts "") "" in
        let hi := if first_empty then removelast hi else hi in
        let lo := if last_empty then removelast lo else lo in
        (negb first_empty || bool_decide (hi = [])) &&
        (negb last_empty || bool_decide (lo = [])) &&
        (length hi + length lo <? 8)%nat && hexes hi && hexes lo
    | Some None => (length parts =? 8)%nat && hexes parts
    end.

(** The part before [%] is the address, the rest a scope id. *)
Definition ipv6_valid (s : string) : bool :=
  let '(addr, scope) :=
    match partition "%" s with
    | None => (s, true)
    | Some (a, z) => (a, str_truthy z && negb (contains "%" z))
    end in
  scope && str_truthy addr && negb (contains "/" addr) &&
  match ipv6_parts addr with Some parts => ipv6_ok_parts parts | None => false end.

(** The 128 bits of a valid address without scope: a trailing IPv4 part gives two
    hextets, the empty part the missing zeros. *)
Definition hextet_values (l : list string) : option (list Z) :=
  let part p := match ipv4_parse p with
                | Some v => Some [v / 65536; v mod 65536]
                | None => match hextet p with Some h => Some [h] | None => None end
                end in
  match all_some (part <$> l) with Some vs => Some (concat vs) | None => None end.

Definition ipv6_value (s : string) : option Z :=
  let parts := split ":" s in
  let number l := foldl (λ acc v, 65536 * acc + v) 0 l in
  match skip_index parts with
  | Some (Some i) =>
      hi ← hextet_values (filterb str_truthy (take i parts));
      lo ← hextet_values (filterb str_truthy (drop (S i) parts));
      Some (number (hi ++ replicate (8 - length hi - length lo) 0 ++ lo))
  | Some None => number <$> hextet_values parts
  | None => None
  end.

(** ** [ip_address], [ip_interface], [ip_network(strict=False)] *)

Inductive ip_version : Type := IPv4 | IPv6.

#[export] Instance ip_version_eq_dec : EqDecision ip_version.
Proof. solve_decision. Defined.

(** [None] is the [ValueError]. *)
Definition ip_address (s : string) : option ip_version :=
  match ipv4_parse s with
  | Some _ => Some IPv4
  | None => if ipv6_valid s && negb (contains "/" s) then Some IPv6 else None
  end.

(** A netmask of contiguous ones, or a hostmask. *)
Definition contiguous_mask (v : Z) : bool :=
  existsb (λ p, v =? 2 ^ 32 - 2 ^ (32 - p)) (Z.of_nat <$> seq 0 33).

Definition prefix_length (s : string) (maxlen : Z) : bool :=
  isdigit s && match parse_nat (chars s) with Some v => v <=? maxlen | None => false end.

Definition ipv4_mask (s : string) : bool :=
  prefix_length s 32 ||
  match ipv4_parse s with
  | Some v => contiguous_mask v || contiguous_mask (2 ^ 32 - 1 - v)
  | None => false
  end.

(** The prefix a mask stands for. *)
Definition v4_prefix (s : string) : option Z :=
  if prefix_length s 32 then parse_nat (chars s)
  else
    v ← ipv4_parse s;
    snd <$> List.find (λ vp, (v =? vp.1) || (2 ^ 32 - 1 - v =? vp.1))
              ((λ p, (2 ^ 32 - 2 ^ (32 - Z.of_nat p), Z.of_nat p)) <$> seq 0 33).

(** ["addr/mask"] or ["addr"]; both classes accept host bits here. *)
Definition ip_with_mask (s : string) : option ip_version :=
  match split "/" s with
  | [a] => ip_address a
  | [a; m] =>
      if is_some (ipv4_parse a) && ipv4_mask m then Some IPv4
      else if ipv6_valid a && prefix_length m 128 then Some IPv6
      else None
  | _ => None
  end.

Definition ip_interface (s : string) : option ip_version := ip_with_mask s.
Definition ip_network (s : string) : option ip_version := ip_with_mask s.

(** ** Base64 *)

Definition is_b64 (c : ascii) : bool := is_alnum c || Ascii.eqb c "+" || Ascii.eqb c "/".

(** Alphabet characters then padding: [^[A-Za-z0-9+/]+=*$]. *)
Definition b64_shape (s : string) : bool :=
  let rest := dropwhile is_b64 (chars s) in
  match chars s with c :: _ => is_b64 c | [] => false end &&
  forallb (λ c, Ascii.eqb c "=") rest.

(** The number of bytes a strict [b64decode] returns; [None] when it raises. *)
Definition b64decode_length (s : string) : option Z :=
  let total := Z.of_nat (String.length s) in
  let pads := Z.of_nat (length (dropwhile is_b64 (chars s))) in
  let data := total - pads in
  if b64_shape s && (total mod 4 =? 0) && (pads <=? 2) && negb (data mod 4 =? 1)
     && (pads =? (4 - data mod 4) mod 4)
  then Some (data * 3 / 4) else None.

(** ** Examples against the interpreter's behaviour *)

Example ipv4_ok : ip_address "10.8.1.2" = Some IPv4 ∧ ip_address "10.8.01.2" = None ∧
  ip_address "256.1.1.1" = None ∧ ip_address "1.2.3" = None.
Proof. repeat split. Qed.

Example ipv6_ok : ip_address "::" = Some IPv6 ∧ ip_address "fe80::1" = Some IPv6 ∧
  ip_address "1:2:3:4:5:6:7:8" = Some IPv6 ∧ ip_address "1:2:3:4:5:6:7" = None ∧
  ip_address "1::2::3" = None ∧ ip_address ":::" = None ∧ ip_address "::1:" = None ∧
  ip_address "::ffff:1.2.3.4" = Some IPv6 ∧ ip_address "fe80::1%eth0" = Some IPv6 ∧
  ip_address "12345::" = None ∧ ip_address "1:2:3:4:5:6:7::" = Some IPv6 ∧
  ip_address "1:2:3:4:5:6:7:8::" = None.
Proof. repeat split. Qed.

Example network_ok : ip_network "0.0.0.0/0" = Some IPv4 ∧ ip_network "::/0" = Some IPv6 ∧
  ip_network "10.0.0.0/255.255.255.0" = Some IPv4 ∧ ip_network "10.0.0.0/33" = None ∧
  ip_network "10.0.0.0/24/1" = None ∧ ip_network "10.8.1.2" = Some IPv4.
Proof. repeat split. Qed.

Example b64_ok : b64decode_length "AAAA" = Some 3 ∧ b64decode_length "AAA=" = Some 2 ∧
  b64decode_length "AAA" = None ∧ b64decode_length "A===" = None.
Proof. repeat split. Qed.
