(* ===== verification/Models.v ===== *)
(** * Database rows ([backend/app/models/])

    One module per table: the record [t] of a row with the columns the modelled
    services read or write, and setters for the columns they assign.  A date is
    its number of microseconds since the epoch, a [Numeric(12, 2)] its number of
    hundredths, a JSON payload is abstracted to what the code reads of it. *)

From S2P Require Import Prelude PyFloat PyStr PyVal.
Open Scope Z_scope.

(** Microseconds, seconds, hours and days of [timedelta]. *)
Definition seconds (n : Z) : Z := n * 1000000.
Definition hours (n : Z) : Z := seconds (n * 3600).
Definition days (n : Z) : Z := seconds (n * 86400).

(** The range of [datetime], and [base + timedelta(days=d)]. *)
Definition DT_MIN : Z := -62135596800000000.
Definition DT_MAX : Z := 253402300799999999.

Definition add_days (base d : Z) : res Z :=
  let t := base + days d in
  if (DT_MIN <=? t) && (t <=? DT_MAX) then Ok t else Err OverflowError.

(** [(a - b).days]: the floor of the difference in days. *)
Definition delta_days (a b : Z) : Z := (a - b) / days 1.

Module Server.
Record t : Type := mk {
  id : string;
  name : string;
  region : string;
  api_endpoint : string;
  vpn_endpoint : option string;
  public_key : option string;
  preshared_key : option string;
  amnezia_h1 : option Z;
  amnezia_h2 : option Z;
  amnezia_h3 : option Z;
  amnezia_h4 : option Z;
  status : string;
  is_active : bool;
  traffic_limit_gb : option float;
  max_connections : option Z;
  health_score : option float;
  is_draining : bool;
  last_snapshot_at : option Z;
  public_key_synced_at : option Z;
  key_status : option string
}.

Definition set_active (b : bool) (s : t) : t :=
  mk s.(id) s.(name) s.(region) s.(api_endpoint) s.(vpn_endpoint) s.(public_key)
     s.(preshared_key) s.(amnezia_h1) s.(amnezia_h2) s.(amnezia_h3) s.(amnezia_h4)
     s.(status) b s.(traffic_limit_gb) s.(max_connections)
     s.(health_score) s.(is_draining) s.(last_snapshot_at) s.(public_key_synced_at) s.(key_status).

Definition set_vpn_endpoint (e : option string) (s : t) : t :=
  mk s.(id) s.(name) s.(region) s.(api_endpoint) e s.(public_key)
     s.(preshared_key) s.(amnezia_h1) s.(amnezia_h2) s.(amnezia_h3) s.(amnezia_h4)
     s.(status) s.(is_active) s.(traffic_limit_gb) s.(max_connections)
     s.(health_score) s.(is_draining) s.(last_snapshot_at) s.(public_key_synced_at) s.(key_status).

Definition set_health (h : float) (st : string) (s : t) : t :=
  mk s.(id) s.(name) s.(region) s.(api_endpoint) s.(vpn_endpoint) s.(public_key)
     s.(preshared_key) s.(amnezia_h1) s.(amnezia_h2) s.(amnezia_h3) s.(amnezia_h4)
     st s.(is_active) s.(traffic_limit_gb) s.(max_connections)
     (Some h) s.(is_draining) s.(last_snapshot_at) s.(public_key_synced_at) s.(key_status).

Definition set_snapshot_at (v : Z) (s : t) : t :=
  mk s.(id) s.(name) s.(region) s.(api_endpoint) s.(vpn_endpoint) s.(public_key)
     s.(preshared_key) s.(amnezia_h1) s.(amnezia_h2) s.(amnezia_h3) s.(amnezia_h4)
     s.(status) s.(is_active) s.(traffic_limit_gb) s.(max_connections)
     s.(health_score) s.(is_draining) (Some v) s.(public_key_synced_at) s.(key_status).

Definition set_public_key (pk : string) (v : Z) (s : t) : t :=
  mk s.(id) s.(name) s.(region) s.(api_endpoint) s.(vpn_endpoint) (Some pk)
     s.(preshared_key) s.(amnezia_h1) s.(amnezia_h2) s.(amnezia_h3) s.(amnezia_h4)
     s.(status) s.(is_active) s.(traffic_limit_gb) s.(max_connections)
     s.(health_score) s.(is_draining) s.(last_snapshot_at) (Some v) s.(key_status).

Definition set_key_status (k : string) (s : t) : t :=
  mk s.(id) s.(name) s.(region) s.(api_endpoint) s.(vpn_endpoint) s.(public_key)
     s.(preshared_key) s.(amnezia_h1) s.(amnezia_h2) s.(amnezia_h3) s.(amnezia_h4)
     s.(status) s.(is_active) s.(traffic_limit_gb) s.(max_connections)
     s.(health_score) s.(is_draining) s.(last_snapshot_at) s.(public_key_synced_at) (Some k).

Definition set_key (pk : string) (s : t) : t :=
  mk s.(id) s.(name) s.(region) s.(api_endpoint) s.(vpn_endpoint) (Some pk)
     s.(preshared_key) s.(amnezia_h1) s.(amnezia_h2) s.(amnezia_h3) s.(amnezia_h4)
     s.(status) s.(is_active) s.(traffic_limit_gb) s.(max_connections)
     s.(health_score) s.(is_draining) s.(last_snapshot_at) s.(public_key_synced_at) s.(key_status).

Definition set_draining (b : bool) (s : t) : t :=
  mk s.(id) s.(name) s.(region) s.(api_endpoint) s.(vpn_endpoint) s.(public_key)
     s.(preshared_key) s.(amnezia_h1) s.(amnezia_h2) s.(amnezia_h3) s.(amnezia_h4)
     s.(status) s.(is_active) s.(traffic_limit_gb) s.(max_connections)
     s.(health_score) b s.(last_snapshot_at) s.(public_key_synced_at) s.(key_status).

Definition set_obfuscation_h (h1 h2 h3 h4 : Z) (s : t) : t :=
  mk s.(id) s.(name) s.(region) s.(api_endpoint) s.(vpn_endpoint) s.(public_key)
     s.(preshared_key) (Some h1) (Some h2) (Some h3) (Some h4)
     s.(status) s.(is_active) s.(traffic_limit_gb) s.(max_connections)
     s.(health_score) s.(is_draining) s.(last_snapshot_at) s.(public_key_synced_at) s.(key_status).

Definition test (i : string) (active : bool) : t :=
  mk i i "eu" "" None None None None None None None "unknown" active None None None false None None None.
End Server.

Module ServerHealthLog.
Record t : Type := mk {
  server_id : string;
  status : string;
  latency_ms : option float;
  handshake_ok : option bool;
  ts : Z
}.
End ServerHealthLog.

Module Device.
Record t : Type := mk {
  id : string;
  user_id : Z;
  subscription_id : string;
  server_id : string;
  public_key : string;
  allowed_ips : option string;
  preshared_key : option string;
  issued_at : Z;
  revoked_at : option Z;
  suspended_at : option Z;
  expires_at : option Z;
  apply_status : option string;
  last_applied_at : option Z;
  last_error : option string;
  unstable_reason : option string;
  created_at : Z;
  device_name : option string;
  data_limit_bytes : option Z;
  last_seen_handshake_at : option Z;
  config_amnezia_hash : option string;
  connection_profile : option string;
  protocol_version : option string;
  obfuscation_profile : option pydict;
  issued_by_admin_id : option string
}.

Definition set_server_id (sid : string) (d : t) : t :=
  mk d.(id) d.(user_id) d.(subscription_id) sid d.(public_key) d.(allowed_ips)
     d.(preshared_key) d.(issued_at) d.(revoked_at) d.(suspended_at) d.(expires_at)
     d.(apply_status) d.(last_applied_at) d.(last_error) d.(unstable_reason) d.(created_at)
     d.(device_name) d.(data_limit_bytes) d.(last_seen_handshake_at)
     d.(config_amnezia_hash) d.(connection_profile) d.(protocol_version) d.(obfuscation_profile)
     d.(issued_by_admin_id).

Definition set_revoked_at (r : option Z) (d : t) : t :=
  mk d.(id) d.(user_id) d.(subscription_id) d.(server_id) d.(public_key) d.(allowed_ips)
     d.(preshared_key) d.(issued_at) r d.(suspended_at) d.(expires_at)
     d.(apply_status) d.(last_applied_at) d.(last_error) d.(unstable_reason) d.(created_at)
     d.(device_name) d.(data_limit_bytes) d.(last_seen_handshake_at)
     d.(config_amnezia_hash) d.(connection_profile) d.(protocol_version) d.(obfuscation_profile)
     d.(issued_by_admin_id).

Definition set_suspended_at (r : option Z) (d : t) : t :=
  mk d.(id) d.(user_id) d.(subscription_id) d.(server_id) d.(public_key) d.(allowed_ips)
     d.(preshared_key) d.(issued_at) d.(revoked_at) r d.(expires_at)
     d.(apply_status) d.(last_applied_at) d.(last_error) d.(unstable_reason) d.(created_at)
     d.(device_name) d.(data_limit_bytes) d.(last_seen_handshake_at)
     d.(config_amnezia_hash) d.(connection_profile) d.(protocol_version) d.(obfuscation_profile)
     d.(issued_by_admin_id).

Definition set_apply (st : string) (at_ : option Z) (err : option string)
    (unstable : option string) (d : t) : t :=
  mk d.(id) d.(user_id) d.(subscription_id) d.(server_id) d.(public_key) d.(allowed_ips)
     d.(preshared_key) d.(issued_at) d.(revoked_at) d.(suspended_at) d.(expires_at)
     (Some st) at_ err unstable d.(created_at)
     d.(device_name) d.(data_limit_bytes) d.(last_seen_handshake_at)
     d.(config_amnezia_hash) d.(connection_profile) d.(protocol_version) d.(obfuscation_profile)
     d.(issued_by_admin_id).

Definition set_keys (pk : string) (ips hash psk : option string) (d : t) : t :=
  mk d.(id) d.(user_id) d.(subscription_id) d.(server_id) pk ips
     psk d.(issued_at) d.(revoked_at) d.(suspended_at) d.(expires_at)
     d.(apply_status) d.(last_applied_at) d.(last_error) d.(unstable_reason) d.(created_at)
     d.(device_name) d.(data_limit_bytes) d.(last_seen_handshake_at)
     hash d.(connection_profile) d.(protocol_version) d.(obfuscation_profile)
     d.(issued_by_admin_id).

Definition test (i sid pk ips : string) : t :=
  mk i 1 "sub" sid pk (Some ips) None 0 None None None None None None None 0 None None None
    None None None None None.
End Device.

Module Plan.
Record t : Type := mk {
  id : string;
  name : string;
  duration_days : Z;
  price_amount : Z;
  price_currency : string
}.
End Plan.

Module Subscription.
Record t : Type := mk {
  id : string;
  user_id : Z;
  plan_id : string;
  valid_from : Z;
  valid_until : Z;
  device_limit : Z;
  status : string;
  is_trial : bool;
  trial_ends_at : option Z;
  paused_at : option Z;
  pause_reason : option string;
  reminder_3d_sent_at : option Z;
  reminder_1d_sent_at : option Z;
  created_at : Z
}.

Definition set_valid_until (v : Z) (s : t) : t :=
  mk s.(id) s.(user_id) s.(plan_id) s.(valid_from) v s.(device_limit) s.(status)
     s.(is_trial) s.(trial_ends_at) s.(paused_at) s.(pause_reason)
     s.(reminder_3d_sent_at) s.(reminder_1d_sent_at) s.(created_at).

Definition activate (now : Z) (s : t) : t :=
  mk s.(id) s.(user_id) s.(plan_id) now s.(valid_until) s.(device_limit) "active"
     s.(is_trial) s.(trial_ends_at) s.(paused_at) s.(pause_reason)
     s.(reminder_3d_sent_at) s.(reminder_1d_sent_at) s.(created_at).

Definition set_paused (p : option Z) (r : option string) (s : t) : t :=
  mk s.(id) s.(user_id) s.(plan_id) s.(valid_from) s.(valid_until) s.(device_limit)
     s.(status) s.(is_trial) s.(trial_ends_at) p r
     s.(reminder_3d_sent_at) s.(reminder_1d_sent_at) s.(created_at).

Definition set_status (st : string) (s : t) : t :=
  mk s.(id) s.(user_id) s.(plan_id) s.(valid_from) s.(valid_until) s.(device_limit) st
     s.(is_trial) s.(trial_ends_at) s.(paused_at) s.(pause_reason)
     s.(reminder_3d_sent_at) s.(reminder_1d_sent_at) s.(created_at).

Definition set_reminder_3d (r : option Z) (s : t) : t :=
  mk s.(id) s.(user_id) s.(plan_id) s.(valid_from) s.(valid_until) s.(device_limit)
     s.(status) s.(is_trial) s.(trial_ends_at) s.(paused_at) s.(pause_reason)
     r s.(reminder_1d_sent_at) s.(created_at).

Definition set_reminder_1d (r : option Z) (s : t) : t :=
  mk s.(id) s.(user_id) s.(plan_id) s.(valid_from) s.(valid_until) s.(device_limit)
     s.(status) s.(is_trial) s.(trial_ends_at) s.(paused_at) s.(pause_reason)
     s.(reminder_3d_sent_at) r s.(created_at).
End Subscription.

Module User.
Record t : Type := mk { id : Z; tg_id : Z; is_banned : bool }.
End User.

Module Referral.
Record t : Type := mk {
  id : string;
  referrer_user_id : Z;
  referee_user_id : Z;
  referral_code : string;
  status : string;
  reward_days : Z;
  reward_applied_at : option Z
}.

Definition reward (at_ : Z) (r : t) : t :=
  mk r.(id) r.(referrer_user_id) r.(referee_user_id) r.(referral_code) "rewarded"
     r.(reward_days) (Some at_).
End Referral.

Module PromoCode.
Record t : Type := mk {
  id : string;
  code : string;
  type : string;
  value : Z;
  status : string
}.
End PromoCode.

Module PromoRedemption.
Record t : Type := mk {
  promo_code_id : string;
  user_id : Z;
  payment_id : option string;
  subscription_id : option string
}.
End PromoRedemption.

Module Payment.
Record t : Type := mk {
  id : string;
  user_id : Z;
  subscription_id : string;
  provider : string;
  status : string;
  amount : decimal;
  currency : string;
  external_id : string;
  webhook_payload : option pydict
}.

Definition set_status (st : string) (p : t) : t :=
  mk p.(id) p.(user_id) p.(subscription_id) p.(provider) st p.(amount) p.(currency)
     p.(external_id) p.(webhook_payload).
End Payment.

Module PaymentEvent.
Record t : Type := mk { payment_id : string; event_type : string; payload : pydict }.
End PaymentEvent.

Module FunnelEvent.
Record t : Type := mk { event_type : string; user_id : option Z; payload : pydict }.
End FunnelEvent.

Module ServerProfile.
Record t : Type := mk {
  server_id : string;
  request_params : option pydict;
  mtu : option Z;
  disable_ipv6_on_unstable_route : bool;
  created_at : Z
}.
End ServerProfile.

Module AgentAction.
Record t : Type := mk {
  id : string;
  server_id : string;
  type : string;
  payload : option pydict;
  status : string;
  requested_by : option string;
  requested_at : Z;
  started_at : option Z;
  finished_at : option Z;
  error : option string;
  correlation_id : option string
}.
End AgentAction.

Module AgentActionLog.
Record t : Type := mk {
  action_id : string;
  ts : Z;
  level : string;
  message : string;
  meta : option pydict
}.
End AgentActionLog.

Module AuditLog.
Record t : Type := mk {
  admin_id : option string;
  action : string;
  resource_type : string;
  resource_id : option string;
  old_new : pydict
}.
End AuditLog.

Module PlanBandwidthPolicy.
Record t : Type := mk {
  id : string;
  plan_id : string;
  rate_mbps : Z;
  ceil_mbps : option Z;
  burst_kb : Z;
  priority : Z;
  enabled : bool;
  created_at : Z
}.
End PlanBandwidthPolicy.

Module IssuedConfig.
Record t : Type := mk {
  device_id : string;
  server_id : string;
  profile_type : string;
  expires_at : option Z;
  download_token_hash : string;
  consumed_at : option Z;
  config_encrypted : option string;
  issued_by_admin_id : option string;
  created_at : Z
}.

Definition consume (at_ : Z) (c : t) : t :=
  mk c.(device_id) c.(server_id) c.(profile_type) c.(expires_at) c.(download_token_hash) (Some at_)
     c.(config_encrypted) c.(issued_by_admin_id) c.(created_at).
End IssuedConfig.

Module OneTimeToken.
Record t : Type := mk {
  token_hash : string;
  device_id : string;
  kind : string;
  expires_at : Z;
  consumed_at : option Z
}.

Definition consume (at_ : Z) (c : t) : t := mk c.(token_hash) c.(device_id) c.(kind) c.(expires_at) (Some at_).
End OneTimeToken.

Module AdminUser.
Record t : Type := mk { id : string; email : string; password_hash : string; role_id : string; totp_secret : option string }.

Definition set_totp_secret (s : option string) (a : t) : t :=
  mk a.(id) a.(email) a.(password_hash) a.(role_id) s.
End AdminUser.

(** [permissions] is a JSON column: a list of strings, or anything else. *)
Module Role.
Record t : Type := mk { id : string; name : string; permissions : option (list string) }.
End Role.

(** The context of an alert is a JSON column of scalars. *)
Inductive alert_context : Type :=
| HealthContext (health_status state : string)
| RestartContext (restart_count : Z) (uptime_seconds : option Z)
| CpuContext (cpu_pct : option float)
| MemContext (mem_pct : option float)
| DiskContext (used_pct : float) (free_bytes : Z).

Module DockerAlert.
Record t : Type := mk {
  fingerprint : string;
  rule : string;
  severity : string;
  host_id : string;
  container_id : option string;
  container_name : option string;
  context : alert_context;
  first_seen_at : Z;
  last_seen_at : Z;
  resolved_at : option Z
}.
End DockerAlert.

Module RetentionRule.
Record t : Type := mk {
  id : string;
  condition_json : pydict;
  action_type : string;
  action_params : option pydict;
  priority : Z;
  enabled : bool
}.
End RetentionRule.

Module ChurnRiskScore.
Record t : Type := mk {
  user_id : Z;
  subscription_id : string;
  score : float;
  days_until_expiry : Z;
  sub_age_days : Z;
  expiry_soon : float;
  computed_at : Z
}.
End ChurnRiskScore.

Module SyncJob.
Record t : Type := mk {
  id : string;
  server_id : string;
  mode : string;
  job_type : string;
  status : string;
  started_at : option Z;
  finished_at : option Z;
  request_id : option string;
  error : option string
}.

Definition start (now : Z) (j : t) : t :=
  mk j.(id) j.(server_id) j.(mode) j.(job_type) "running" (Some now) j.(finished_at) j.(request_id) j.(error).
Definition finish (st : string) (now : Z) (e : option string) (j : t) : t :=
  mk j.(id) j.(server_id) j.(mode) j.(job_type) st j.(started_at) (Some now) j.(request_id) e.
End SyncJob.

Module IpPool.
Record t : Type := mk { id : string; server_id : string; cidr : string; total_ips : Z; used_ips : Z; is_active : bool }.

Definition set_used (n : Z) (p : t) : t := mk p.(id) p.(server_id) p.(cidr) p.(total_ips) n p.(is_active).
End IpPool.
