(* ===== verification/Node.v ===== *)
(** * Nodes and the cluster topology ([backend/app/schemas/node.py])

    [NodeMetadata] is what discovery reports about a VPN node; [ClusterTopology]
    is the state every planner reads. *)

From S2P Require Import Prelude PyFloat PyStr Settings.
Open Scope Z_scope.

(** The fields no planner reads ([host_id], [classification], [confidence],
    [evidence], [internal_ip], [mtu], [last_seen]) are left out.  A value of
    [capabilities] is kept by its truthiness. *)
Record NodeMetadata : Type := mkNode {
  node_id : string;
  container_name : string;
  interface_name : string;
  public_key : string;
  listen_port : Z;
  endpoint_ip : string;
  peer_count : Z;
  active_peers : option Z;
  total_rx_bytes : Z;
  total_tx_bytes : Z;
  status : string;
  capabilities : list (string * bool);
  health_score : float;
  max_peers : Z;
  is_draining : bool;
  latency_ms : option float
}.

Record ClusterTopology : Type := mkTopology {
  timestamp : Z;
  nodes : list NodeMetadata;
  total_capacity : Z;
  current_load : Z;
  load_factor : float;
  load_index : float;
  topo_health_score : float;
  health_index : float;
  capacity_score : float;
  topology_version : Z
}.

(** [x or 0.0] *)
Definition f_or0 (x : float) : float := if feq x f0 then f0 else x.

Definition of_or0 (x : option float) : float :=
  match x with Some x => f_or0 x | None => f0 end.

(** [node.status in ("healthy", "degraded", "unknown")] *)
Definition schedulable_status (n : NodeMetadata) : bool :=
  str_in n.(status) ["healthy"; "degraded"; "unknown"].

(** [all(node.capabilities.get(c) for c in required)] *)
Definition has_capabilities (n : NodeMetadata) (required : list string) : bool :=
  forallb (λ c, default false (dget c n.(capabilities))) required.

(** [peer_count / max_peers] *)
Definition load_ratio (n : NodeMetadata) : float := true_div n.(peer_count) n.(max_peers).

(** A small cluster used by the witnesses of the planners. *)
Definition test_node (id : string) (st : string) (peers cap : Z) (hs : float) : NodeMetadata := {|
  node_id := id; container_name := id; interface_name := "awg0"; public_key := "";
  listen_port := 0; endpoint_ip := ""; peer_count := peers; active_peers := None;
  total_rx_bytes := 0; total_tx_bytes := 0; status := st; capabilities := [];
  health_score := hs; max_peers := cap; is_draining := false; latency_ms := None
|}.

Lemma load_ratio_not_nan n : n.(max_peers) ≠ 0 → is_nan (load_ratio n) = false.
Proof. apply true_div_not_nan. Qed.

#[export] Hint Resolve load_ratio_not_nan : py.
