(* ===== verification/Topology.v ===== *)
(** * The topology engine

    [services/topology_engine.py]: the registry of discovered nodes in the table of
    servers, the aggregates of a topology, its version and its cache.  The JSON of a
    topology and its hash are arguments. *)

From S2P Require Import Prelude PyFloat PyStr Settings Models Node.
Open Scope Z_scope.

(** ** The cache *)

(** What the three keys of Redis hold, with the time they expire. *)
Inductive topo_value : Type :=
| TopologyValue (t : ClusterTopology)
| VersionValue (v : Z)
| HashValue (h : string).

Class TopologyStore (W : Type) := {
  store_get : Z → string → W → W * res (option topo_value);
  store_set : Z → string → Z → topo_value → W → W * res unit
}.

(** A value is there until its time is over; a command that raises may have been
    carried out or not. *)
Class TopologyStoreLaws (W : Type) `{TopologyStore W} (held : W → string → option (topo_value * Z)) : Prop := {
  store_get_ok now k w w' r : store_get now k w = (w', Ok r) →
    r = (ve ← held w k; if now <? ve.2 then Some ve.1 else None);
  store_get_pure now k w w' r : store_get now k w = (w', r) → held w' = held w;
  store_set_ok now k ttl v w w' u : store_set now k ttl v w = (w', Ok u) →
    held w' k = Some (v, now + seconds ttl) ∧ ∀ k', k' ≠ k → held w' k' = held w k';
  store_set_err now k ttl v w w' e : store_set now k ttl v w = (w', Err e) →
    (held w' k = held w k ∨ held w' k = Some (v, now + seconds ttl)) ∧ ∀ k', k' ≠ k → held w' k' = held w k'
}.

Definition TOPOLOGY_KEY := "vpn:topology:current".
Definition VERSION_KEY := "vpn:topology:version".
Definition HASH_KEY := "vpn:topology:hash".

Definition _derive_vpn_endpoint (n : NodeMetadata) : option string :=
  if str_truthy n.(endpoint_ip) && negb (n.(listen_port) =? 0)
  then Some (n.(endpoint_ip) +:+ ":" +:+ str_of_Z n.(listen_port)) else None.

(** ** The registry *)

Definition is_docker_row (s : Server.t) : bool := startswith "docker://" s.(Server.api_endpoint).

Definition set_max_peers (m : Z) (n : NodeMetadata) : NodeMetadata :=
  mkNode n.(node_id) n.(container_name) n.(interface_name) n.(public_key) n.(listen_port) n.(endpoint_ip)
    n.(peer_count) n.(active_peers) n.(total_rx_bytes) n.(total_tx_bytes) n.(status) n.(capabilities)
    n.(health_score) m n.(is_draining) n.(latency_ms).

Definition set_node_draining (b : bool) (n : NodeMetadata) : NodeMetadata :=
  mkNode n.(node_id) n.(container_name) n.(interface_name) n.(public_key) n.(listen_port) n.(endpoint_ip)
    n.(peer_count) n.(active_peers) n.(total_rx_bytes) n.(total_tx_bytes) n.(status) n.(capabilities)
    n.(health_score) n.(max_peers) b n.(latency_ms).

(** The row of a node that was not known. *)
Definition new_server (n : NodeMetadata) : Server.t :=
  Server.mk n.(node_id) n.(container_name) "docker" ("docker://" +:+ n.(container_name)) (_derive_vpn_endpoint n)
    (if str_truthy n.(public_key) then Some n.(public_key) else None) None None None None None
    (if str_truthy n.(status) then n.(status) else "unknown") (negb (String.eqb n.(status) "unhealthy")) None
    (Some n.(max_peers)) (Some n.(health_score)) false None None None.

(** The capacity both sides keep: that of the row when it has one. *)
Definition kept_capacity (s : Server.t) (n : NodeMetadata) : Z :=
  match s.(Server.max_connections) with Some m => if 0 <? m then m else n.(max_peers) | None => n.(max_peers) end.

Definition updated_server (n : NodeMetadata) (s : Server.t) : Server.t :=
  Server.mk s.(Server.id) n.(container_name) s.(Server.region) ("docker://" +:+ n.(container_name))
    (match _derive_vpn_endpoint n with Some e => Some e | None => s.(Server.vpn_endpoint) end)
    (if str_truthy n.(public_key) then Some n.(public_key) else s.(Server.public_key))
    s.(Server.preshared_key) s.(Server.amnezia_h1) s.(Server.amnezia_h2) s.(Server.amnezia_h3) s.(Server.amnezia_h4)
    (if str_truthy n.(status) then n.(status) else s.(Server.status)) (negb (String.eqb n.(status) "unhealthy"))
    s.(Server.traffic_limit_gb) (Some (kept_capacity s n)) (Some n.(health_score)) s.(Server.is_draining)
    s.(Server.last_snapshot_at) s.(Server.public_key_synced_at) s.(Server.key_status).

Definition updated_node (s : Server.t) (n : NodeMetadata) : NodeMetadata :=
  set_node_draining s.(Server.is_draining) (set_max_peers (kept_capacity s n) n).

(** A row whose container was not discovered. *)
Definition lost_server (s : Server.t) : Server.t :=
  Server.set_active false (Server.set_health f0 "unreachable" s).

Definition row_of (sid : string) (rows : list Server.t) : option Server.t :=
  List.find (λ s, String.eqb s.(Server.id) sid) rows.

Definition node_of (nid : string) (nodes : list NodeMetadata) : option NodeMetadata :=
  List.find (λ n, String.eqb n.(node_id) nid) nodes.

Section engine.
Context (settings : Settings).

(** What the session holds when it commits: the updated rows and the new ones. *)
Definition synced_rows (nodes : list NodeMetadata) (rows : list Server.t) : list Server.t :=
  ((λ s, if is_docker_row s
         then match node_of s.(Server.id) nodes with Some n => updated_server n s | None => lost_server s end
         else s) <$> rows) ++
  (new_server <$> filterb (λ n, is_none (row_of n.(node_id) (filterb is_docker_row rows))) nodes).

(** The nodes after the loop, which changes them in place. *)
Definition synced_nodes (nodes : list NodeMetadata) (rows : list Server.t) : list NodeMetadata :=
  (λ n, match row_of n.(node_id) (filterb is_docker_row rows) with Some s => updated_node s n | None => n end) <$> nodes.

(** The primary keys of the rows that are inserted. *)
Definition insert_conflict (nodes : list NodeMetadata) (rows : list Server.t) : bool :=
  existsb (λ n, is_none (row_of n.(node_id) (filterb is_docker_row rows)) && is_some (row_of n.(node_id) rows)) nodes.

(** The database may fail before the rows are read or when they are written. *)
Record db_faults : Type := mkDbFaults { select_fails : bool; commit_fails : bool }.

(** [_sync_discovered_nodes], for nodes with distinct identifiers: the rows that are
    committed and the nodes as they are left. *)
Definition _sync_discovered_nodes (faults : db_faults) (nodes : list NodeMetadata) (rows : list Server.t)
    : list NodeMetadata * list Server.t :=
  if negb (String.eqb settings.(node_discovery) "docker") then (nodes, rows)
  else if faults.(select_fails) then (nodes, rows)
  else if faults.(commit_fails) || insert_conflict nodes rows then (synced_nodes nodes rows, rows)
  else (synced_nodes nodes rows, synced_rows nodes rows).

(** ** Aggregates *)

Definition topo_peer_count (n : NodeMetadata) : Z := default n.(peer_count) n.(active_peers).

Definition build_topology (now : Z) (nodes : list NodeMetadata) : ClusterTopology :=
  let total_capacity := sumZ (max_peers <$> nodes) in
  let current_load := sumZ (topo_peer_count <$> nodes) in
  let load_factor := if total_capacity =? 0 then f0 else true_div current_load total_capacity in
  let capacity_score := if total_capacity =? 0 then f0 else true_div (total_capacity - current_load) total_capacity in
  let cluster_health := match nodes with
                        | [] => f0
                        | _ => fdiv (sumF (health_score <$> nodes)) (of_Z (Z.of_nat (length nodes)))
                        end in
  mkTopology now nodes total_capacity current_load load_factor load_factor cluster_health cluster_health
    capacity_score 0.

Definition with_version (v : Z) (t : ClusterTopology) : ClusterTopology :=
  mkTopology t.(timestamp) t.(nodes) t.(total_capacity) t.(current_load) t.(load_factor) t.(load_index)
    t.(topo_health_score) t.(health_index) t.(capacity_score) v.

(** ** Version and cache *)

Section cache.
Context {W : Type} `{TopologyStore W}.
Context (_compute_topology_hash : ClusterTopology → string).
Implicit Types (w : W).

Definition version_ttl : Z := Z.max (settings.(topology_cache_ttl_seconds) * 3) 60.

Definition prev_hash (v : option topo_value) : string := match v with Some (HashValue h) => h | _ => "" end.
Definition prev_version (v : option topo_value) : Z := match v with Some (VersionValue n) => n | _ => 0 end.

Definition next_version (h prev_h : string) (prev_v : Z) : Z :=
  if String.eqb prev_h h && (0 <? prev_v) then prev_v else prev_v + 1.

(** The version of a new topology; 1 when Redis fails. *)
Definition assign_version (now : Z) (h : string) w : W * Z :=
  let '(w, rh) := store_get now HASH_KEY w in
  match rh with
  | Err _ => (w, 1)
  | Ok ph =>
      let '(w, rv) := store_get now VERSION_KEY w in
      match rv with
      | Err _ => (w, 1)
      | Ok pv =>
          let new_version := next_version h (prev_hash ph) (prev_version pv) in
          let '(w, r) := store_set now VERSION_KEY version_ttl (VersionValue new_version) w in
          match r with
          | Err _ => (w, 1)
          | Ok _ =>
              let '(w, r) := store_set now HASH_KEY version_ttl (HashValue h) w in
              (w, match r with Ok _ => new_version | Err _ => 1 end)
          end
      end
  end.

Definition put_cache (now : Z) (t : ClusterTopology) w : W :=
  (store_set now TOPOLOGY_KEY settings.(topology_cache_ttl_seconds) (TopologyValue t) w).1.

(** [discovered]: what the adapter answers. *)
Definition rebuild_topology (now : Z) (faults : db_faults) (discovered : res (list NodeMetadata)) (rows : list Server.t) w
    : (W * list Server.t) * res ClusterTopology :=
  match discovered with
  | Err e => ((w, rows), Err e)
  | Ok nodes =>
      let '(nodes, rows) := _sync_discovered_nodes faults nodes rows in
      let topology := build_topology now nodes in
      let '(w, v) := assign_version now (_compute_topology_hash topology) w in
      let topology := with_version v topology in
      ((put_cache now topology w, rows), Ok topology)
  end.

Definition get_topology (now : Z) (faults : db_faults) (discovered : res (list NodeMetadata)) (rows : list Server.t) w
    : (W * list Server.t) * res ClusterTopology :=
  let '(w, r) := store_get now TOPOLOGY_KEY w in
  match r with
  | Ok (Some (TopologyValue t)) => ((w, rows), Ok t)
  | _ =>
      let '((w, rows), r) := rebuild_topology now faults discovered rows w in
      match r with
      | Ok t => ((put_cache now t w, rows), Ok t)
      | Err e => ((w, rows), Err e)
      end
  end.
End cache.
End engine.

(** ** The registry after a scan *)

Section registry.
Context (nodes : list NodeMetadata) (rows : list Server.t).
Context (Hnodes : NoDup (node_id <$> nodes)) (Hrows : NoDup (Server.id <$> rows)).
Context (Hfree : insert_conflict nodes rows = false).

Lemma row_of_Some sid l s : row_of sid l = Some s → s ∈ l ∧ s.(Server.id) = sid.
Proof. intros [Hin Hid%String.eqb_eq]%List.find_some. by rewrite list_elem_of_In. Qed.

Lemma row_of_None sid l : row_of sid l = None → ∀ s, s ∈ l → s.(Server.id) ≠ sid.
Proof.
  intros Hn s Hs%list_elem_of_In E. pose proof (List.find_none _ _ Hn s Hs) as H. simpl in H.
  by rewrite E, String.eqb_refl in H.
Qed.

Lemma node_of_elem n : n ∈ nodes → node_of n.(node_id) nodes = Some n.
Proof using Hnodes.
  intros Hn. destruct (node_of n.(node_id) nodes) as [m|] eqn:E.
  - apply List.find_some in E as [Hm%list_elem_of_In Hid%String.eqb_eq]. f_equal. by apply (NoDup_fmap_inj node_id nodes).
  - pose proof (List.find_none _ _ E n) as H. rewrite <- list_elem_of_In in H. specialize (H Hn). simpl in H.
    by rewrite String.eqb_refl in H.
Qed.

Lemma docker_row_of s : s ∈ rows → is_docker_row s = true → row_of s.(Server.id) (filterb is_docker_row rows) = Some s.
Proof using Hrows.
  intros Hs Hd. destruct (row_of s.(Server.id) _) as [s'|] eqn:E.
  - apply row_of_Some in E as [[_ Hs']%elem_of_filterb Hid]. f_equal. by apply (NoDup_fmap_inj Server.id rows).
  - exfalso. eapply row_of_None; [exact E| |done]. by apply elem_of_filterb.
Qed.

(** A new row has a new key. *)
Lemma new_row_fresh n s :
  n ∈ nodes → row_of n.(node_id) (filterb is_docker_row rows) = None → s ∈ rows → s.(Server.id) ≠ n.(node_id).
Proof using Hfree.
  intros Hn Hr Hs E. unfold insert_conflict in Hfree. apply not_true_iff_false in Hfree. apply Hfree, existsb_exists.
  exists n. rewrite <- list_elem_of_In, Hr. split; [done|]. simpl.
  destruct (row_of n.(node_id) rows) eqn:Ex; [done|]. by apply (row_of_None _ _ Ex) in E.
Qed.

Definition synced_row (s : Server.t) : Server.t :=
  if is_docker_row s
  then match node_of s.(Server.id) nodes with Some n => updated_server n s | None => lost_server s end
  else s.

Lemma synced_row_id s : (synced_row s).(Server.id) = s.(Server.id).
Proof. unfold synced_row. destruct (is_docker_row s); [|done]. by destruct (node_of _ _). Qed.

Definition fresh_nodes : list NodeMetadata :=
  filterb (λ n, is_none (row_of n.(node_id) (filterb is_docker_row rows))) nodes.

Lemma synced_rows_eq : synced_rows nodes rows = (synced_row <$> rows) ++ (new_server <$> fresh_nodes).
Proof. done. Qed.

Lemma synced_keys : NoDup (Server.id <$> synced_rows nodes rows).
Proof using Type*.
  rewrite synced_rows_eq, fmap_app, <- !list_fmap_compose. apply NoDup_app. split_and!.
  - rewrite (list_fmap_ext _ Server.id); [done|]. intros _ s _. apply synced_row_id.
  - intros k (s & -> & Hs)%list_elem_of_fmap (n & E & [Hr Hn]%elem_of_filterb)%list_elem_of_fmap.
    unfold compose in E. rewrite synced_row_id in E. destruct (row_of n.(node_id) _) eqn:Ex; [done|].
    by apply (new_row_fresh n s).
  - change (Server.id ∘ new_server) with node_id. by apply NoDup_fmap_filterb.
Qed.

(** The row of a discovered node. *)
Definition registered (n : NodeMetadata) (s : Server.t) : Prop :=
  s.(Server.id) = n.(node_id) ∧ s.(Server.api_endpoint) = "docker://" +:+ n.(container_name) ∧
  s.(Server.is_active) = negb (String.eqb n.(status) "unhealthy") ∧
  s.(Server.health_score) = Some n.(health_score) ∧
  s.(Server.is_draining) = match row_of n.(node_id) rows with Some old => old.(Server.is_draining) | None => false end.

Lemma discovered_registered n : n ∈ nodes → ∃ s, s ∈ synced_rows nodes rows ∧ registered n s.
Proof using Type*.
  intros Hn. destruct (row_of n.(node_id) (filterb is_docker_row rows)) as [s|] eqn:E.
  - apply row_of_Some in E as [[Hd Hs]%elem_of_filterb Hid]. exists (synced_row s). split.
    + rewrite synced_rows_eq. apply elem_of_app. left. by apply list_elem_of_fmap_2.
    + unfold synced_row. rewrite Hd, Hid, node_of_elem by done. unfold registered. cbn. split_and!; [done..|].
      destruct (row_of n.(node_id) rows) as [s'|] eqn:E'.
      * apply row_of_Some in E' as [Hs' Hid']. f_equal. apply (NoDup_fmap_inj Server.id rows); congruence.
      * by apply (row_of_None _ _ E') in Hid.
  - exists (new_server n). split.
    + rewrite synced_rows_eq. apply elem_of_app. right. apply list_elem_of_fmap_2, elem_of_filterb. by rewrite E.
    + unfold registered. cbn. split_and!; [done..|]. destruct (row_of n.(node_id) rows) as [s'|] eqn:E'; [|done].
      apply row_of_Some in E' as [Hs' Hid']. by eapply new_row_fresh in Hid'.
Qed.

(** The other rows: those of lost containers are taken out, the others are as they
    were. *)
Lemma others_kept s :
  s ∈ rows → s.(Server.id) ∉ node_id <$> nodes →
  (if is_docker_row s then lost_server s else s) ∈ synced_rows nodes rows.
Proof.
  intros Hs Hn. rewrite synced_rows_eq. apply elem_of_app. left. apply list_elem_of_fmap. exists s. split; [|done].
  unfold synced_row. destruct (is_docker_row s); [|done]. destruct (node_of s.(Server.id) nodes) as [n|] eqn:E; [|done].
  apply List.find_some in E as [Hin%list_elem_of_In Hid%String.eqb_eq]. destruct Hn. rewrite <- Hid.
  by apply list_elem_of_fmap_2.
Qed.
End registry.

(** The registry follows discovery.  A scan that is committed leaves one row per
    identifier; each discovered node has its row, with its health, active unless it
    is unhealthy and draining as before; the rows of containers that are gone are
    inactive, and the servers that are no containers are untouched. *)
Theorem registry_follows_discovery settings nodes rows :
  settings.(node_discovery) = "docker" →
  NoDup (node_id <$> nodes) → NoDup (Server.id <$> rows) → insert_conflict nodes rows = false →
  let rows' := (_sync_discovered_nodes settings (mkDbFaults false false) nodes rows).2 in
  NoDup (Server.id <$> rows') ∧
  (∀ n, n ∈ nodes → ∃ s, s ∈ rows' ∧ registered rows n s) ∧
  (∀ s, s ∈ rows → s.(Server.id) ∉ node_id <$> nodes → (if is_docker_row s then lost_server s else s) ∈ rows').
Proof.
  intros Hd Hn Hr Hf. unfold _sync_discovered_nodes. rewrite Hd, Hf. cbn [negb orb String.eqb Ascii.eqb Bool.eqb].
  cbn. split_and!; [by apply synced_keys|intros; by apply discovered_registered|apply others_kept].
Qed.

(** ** How old a served topology is *)

Section freshness.
Context (settings : Settings) {W : Type} `{TopologyStore W} (held : W → string → option (topo_value * Z)).
Context `{!TopologyStoreLaws W held} (hash : ClusterTopology → string).

(** The cached topology expires its time to live after it was built. *)
Definition dated (w : W) : Prop := ∀ t e,
  held w TOPOLOGY_KEY = Some (TopologyValue t, e) → e = t.(timestamp) + seconds settings.(topology_cache_ttl_seconds).

Lemma get_dated now k w w' r : store_get now k w = (w', r) → dated w → dated w'.
Proof using Type*. intros E Hw. apply store_get_pure in E. unfold dated. by rewrite E. Qed.

Lemma set_other_dated now k ttl v w w' r :
  k ≠ TOPOLOGY_KEY → store_set now k ttl v w = (w', r) → dated w → dated w'.
Proof using Type*.
  intros Hk E Hw t e. destruct r as [u|err]; [apply store_set_ok in E as [_ E]|apply store_set_err in E as [_ E]];
    rewrite E by done; apply Hw.
Qed.

Lemma put_cache_dated now t w : t.(timestamp) = now → dated w → dated (put_cache settings now t w).
Proof using Type*.
  intros Ht Hw t' e. unfold put_cache. destruct (store_set _ _ _ _ w) as [w' [u|err]] eqn:E; simpl.
  - apply store_set_ok in E as [-> _]. intros [= <- <-]. by rewrite Ht.
  - apply store_set_err in E as [[->| ->] _]; [apply Hw|]. intros [= <- <-]. by rewrite Ht.
Qed.

Lemma assign_version_dated now h w : dated w → dated (assign_version settings now h w).1.
Proof using Type*.
  intros Hw. unfold assign_version.
  destruct (store_get now HASH_KEY w) as [w1 [ph|]] eqn:E1; apply get_dated in E1; try done.
  destruct (store_get now VERSION_KEY w1) as [w2 [pv|]] eqn:E2; apply get_dated in E2; try done.
  destruct (store_set now VERSION_KEY _ _ w2) as [w3 [u|]] eqn:E3; apply set_other_dated in E3; try done.
  destruct (store_set now HASH_KEY _ _ w3) as [w4 r] eqn:E4. by apply set_other_dated in E4.
Qed.

Lemma rebuild_dated now faults discovered rows w st r :
  rebuild_topology settings hash now faults discovered rows w = (st, r) → dated w →
  dated st.1 ∧ ∀ t, r = Ok t → t.(timestamp) = now.
Proof using Type*.
  unfold rebuild_topology. intros E Hw. destruct discovered as [nodes|e]; [|by simplify_eq].
  destruct (_sync_discovered_nodes settings faults nodes rows) as [nodes' rows'].
  pose proof (assign_version_dated now (hash (build_topology now nodes')) w Hw) as Hv.
  destruct (assign_version settings now _ w) as [w1 v]. simplify_eq. split; [by apply put_cache_dated|by intros t [= <-]].
Qed.

Lemma get_topology_dated now faults discovered rows w st r :
  get_topology settings hash now faults discovered rows w = (st, r) → dated w →
  dated st.1 ∧ ∀ t, r = Ok t → t.(timestamp) = now ∨ now < t.(timestamp) + seconds settings.(topology_cache_ttl_seconds).
Proof using Type*.
  unfold get_topology. intros E Hw. destruct (store_get now TOPOLOGY_KEY w) as [w1 g] eqn:Eg.
  assert (dated w1) as Hw1 by (by eapply get_dated).
  assert (∀ st r, (let '((w, rows), r) := rebuild_topology settings hash now faults discovered rows w1 in
     match r with Ok t => ((put_cache settings now t w, rows), Ok t) | Err e => ((w, rows), Err e) end) = (st, r) →
     dated st.1 ∧ ∀ t, r = Ok t → t.(timestamp) = now) as Hr.
  { intros st' r'. destruct (rebuild_topology settings hash now faults discovered rows w1) as [[w2 rows2] r2] eqn:E2.
    apply rebuild_dated in E2 as [Hw2 Ht]; [|done]. destruct r2 as [t|e]; intros; simplify_eq; [|by split].
    split; [apply put_cache_dated; auto|]. intros t' [= <-]. auto. }
  destruct g as [[[t|v|h]|]|e]; try (apply Hr in E as [? Ht]; split; [done|]; intros; left; by apply Ht).
  simplify_eq. split; [done|]. intros t' [= <-]. right. pose proof Eg as Ep%store_get_pure. apply store_get_ok in Eg.
  destruct (held w TOPOLOGY_KEY) as [[v e]|] eqn:Eh; [|done]. simpl in Eg.
  destruct (Z.ltb_spec now e); simplify_eq. by rewrite <- (Hw _ _ Eh).
Qed.
End freshness.


(** Calls of the engine, each with its time, the state of the database and what
    discovery answers; the topologies they return. *)
Record topo_call : Type := mkTopoCall {
  tc_now : Z; tc_rebuild : bool; tc_faults : db_faults; tc_discovered : res (list NodeMetadata)
}.

Fixpoint served (settings : Settings) {W} `{TopologyStore W} (hash : ClusterTopology → string) (calls : list topo_call)
    (st : W * list Server.t) : list (Z * ClusterTopology) :=
  match calls with
  | [] => []
  | c :: calls =>
      let '(st, r) := (if c.(tc_rebuild) then rebuild_topology settings hash else get_topology settings hash)
                        c.(tc_now) c.(tc_faults) c.(tc_discovered) st.2 st.1 in
      match r with Ok t => [(c.(tc_now), t)] | Err _ => [] end ++ served settings hash calls st
  end.

(** C26: planners see a recent topology.  Whatever calls are made at whatever times,
    whatever discovery, the database and Redis answer, every topology the engine
    returns was built by that call or less than its time to live before it. *)
Theorem served_topologies_recent settings {W} `{TopologyStore W} (held : W → string → option (topo_value * Z))
    `{!TopologyStoreLaws W held} hash calls (st : W * list Server.t) :
  dated settings held st.1 →
  Forall (λ nt, nt.2.(timestamp) = nt.1 ∨ nt.1 < nt.2.(timestamp) + seconds settings.(topology_cache_ttl_seconds))
    (served settings hash calls st).
Proof.
  revert st. induction calls as [|c calls IH]; intros [w rows] Hw; [constructor|]. cbn [served fst snd].
  destruct c as [now rebuild faults discovered]. cbn [tc_now tc_rebuild tc_faults tc_discovered]. destruct rebuild.
  - destruct (rebuild_topology _ _ _ _ _ _ _) as [st' r] eqn:E. eapply rebuild_dated in E as [Hd Ht]; [|done..].
    apply Forall_app. split; [|by apply IH]. destruct r as [t|]; [|constructor]. constructor; [left; by apply Ht|constructor].
  - destruct (get_topology _ _ _ _ _ _ _) as [st' r] eqn:E. eapply get_topology_dated in E as [Hd Ht]; [|done..].
    apply Forall_app. split; [|by apply IH]. destruct r as [t|]; [|constructor]. constructor; [by apply Ht|constructor].
Qed.

(** ** Versions *)

(** The reference: the version goes up by one with every change of the hash. *)
Fixpoint count_versions (h : string) (v : Z) (hs : list string) : list Z :=
  match hs with
  | [] => []
  | h' :: hs => let v' := if String.eqb h h' then v else v + 1 in v' :: count_versions h' v' hs
  end.

Fixpoint versions (settings : Settings) {W} `{TopologyStore W} (ths : list (Z * string)) (w : W) : list Z :=
  match ths with
  | [] => []
  | (now, h) :: ths => let '(w, v) := assign_version settings now h w in v :: versions settings ths w
  end.

(** Each rebuild comes before the keys of the one before it expire. *)
Fixpoint within_ttl (settings : Settings) (last : Z) (times : list Z) : Prop :=
  match times with
  | [] => True
  | now :: times => now < last + seconds (version_ttl settings) ∧ within_ttl settings now times
  end.

Lemma versions_count_changes settings {W} `{TopologyStore W} (held : W → string → option (topo_value * Z))
    `{!TopologyStoreLaws W held} ths : ∀ w h v last,
  (∀ now k w, is_ok (store_get now k w).2 = true) → (∀ now k s x w, is_ok (store_set now k s x w).2 = true) →
  held w HASH_KEY = Some (HashValue h, last + seconds (version_ttl settings)) →
  held w VERSION_KEY = Some (VersionValue v, last + seconds (version_ttl settings)) → 0 < v →
  within_ttl settings last ths.*1 → versions settings ths w = count_versions h v ths.*2.
Proof.
  induction ths as [|[now h'] ths IH]; intros w h v last Hg Hs Hh Hv Hpos Ht; [done|]. cbn [versions fmap list_fmap snd count_versions].
  destruct Ht as [Hnow Ht]. cbn [fst] in Hnow. unfold assign_version.
  destruct (store_get now HASH_KEY w) as [w1 [ph|e]] eqn:E1; [|by pose proof (Hg now HASH_KEY w) as X; rewrite E1 in X].
  pose proof E1 as P1%store_get_pure. apply store_get_ok in E1. rewrite Hh in E1. simpl in E1.
  destruct (Z.ltb_spec now (last + seconds (version_ttl settings))) as [_|]; [|lia]. subst ph.
  destruct (store_get now VERSION_KEY w1) as [w2 [pv|e]] eqn:E2; [|by pose proof (Hg now VERSION_KEY w1) as X; rewrite E2 in X].
  pose proof E2 as P2%store_get_pure. apply store_get_ok in E2. rewrite P1, Hv in E2. simpl in E2.
  destruct (Z.ltb_spec now (last + seconds (version_ttl settings))) as [_|]; [|lia]. subst pv.
  cbn [prev_hash prev_version]. set (v' := next_version h' h v).
  assert (v' = if String.eqb h h' then v else v + 1) as Ev'.
  { unfold v', next_version. destruct (Z.ltb_spec 0 v); [|lia]. by rewrite andb_true_r. }
  destruct (store_set now VERSION_KEY _ _ w2) as [w3 [u|e]] eqn:E3; [|by pose proof (Hs now VERSION_KEY (version_ttl settings) (VersionValue v') w2) as X; rewrite E3 in X].
  apply store_set_ok in E3 as [E3 _].
  destruct (store_set now HASH_KEY _ _ w3) as [w4 [u'|e]] eqn:E4; [|by pose proof (Hs now HASH_KEY (version_ttl settings) (HashValue h') w3) as X; rewrite E4 in X].
  apply store_set_ok in E4 as [E4 O4]. rewrite Ev'. f_equal. apply (IH w4 h' _ now); try done.
  - rewrite O4 by done. by rewrite E3, Ev'.
  - destruct (String.eqb h h'); lia.
Qed.

(** ** A store and some scans *)

Record topo_store : Type := mkTopoStore { ts_data : gmap string (topo_value * Z) }.

#[export] Instance topo_store_ops : TopologyStore topo_store := {
  store_get now k w := (w, Ok (ve ← w.(ts_data) !! k; if now <? ve.2 then Some ve.1 else None));
  store_set now k ttl v w := (mkTopoStore (<[k := (v, now + seconds ttl)]> w.(ts_data)), Ok tt)
}.

#[export] Instance topo_store_laws : TopologyStoreLaws topo_store (λ w k, w.(ts_data) !! k).
Proof.
  split; simpl; intros; simplify_eq; try done. simpl. split; [by rewrite lookup_insert_eq|].
  intros. by rewrite lookup_insert_ne.
Qed.

Definition docker_server (sid : string) (active draining : bool) : Server.t :=
  Server.set_draining draining (Server.mk sid sid "docker" ("docker://" +:+ sid) None None None None None None None
    "healthy" active None (Some 10) (Some f1) false None None None).

Lemma registry_follows_discovery_witness :
  let nodes := [test_node "n1" "healthy" 1 10 f1; test_node "n2" "unhealthy" 0 10 f0] in
  let rows := [docker_server "n1" true true; docker_server "n3" true false; Server.test "manual" true] in
  let rows' := (_sync_discovered_nodes default_settings (mkDbFaults false false) nodes rows).2 in
  (λ s, (s.(Server.id), s.(Server.is_active), s.(Server.is_draining))) <$> rows' =
    [("n1", true, true); ("n3", false, false); ("manual", true, false); ("n2", false, false)] ∧
  NoDup (Server.id <$> rows').
Proof.
  split; [vm_compute; reflexivity|].
  refine (proj1 (registry_follows_discovery default_settings
    [test_node "n1" "healthy" 1 10 f1; test_node "n2" "unhealthy" 0 10 f0]
    [docker_server "n1" true true; docker_server "n3" true false; Server.test "manual" true] _ _ _ _)).
  - reflexivity.
  - apply (bool_decide_unpack _). vm_compute. exact I.
  - apply (bool_decide_unpack _). vm_compute. exact I.
  - vm_compute. reflexivity.
Defined.

(** The second call is answered from the cache, the third is not. *)
Lemma served_topologies_recent_witness :
  let call t := mkTopoCall (seconds t) false (mkDbFaults false false) (Ok [test_node "n1" "healthy" 1 10 f1]) in
  let out := served default_settings (λ _, "h") [call 0; call 29; call 30] (mkTopoStore ∅, []) in
  (λ nt, (nt.1, nt.2.(timestamp))) <$> out = [(0, 0); (seconds 29, 0); (seconds 30, seconds 30)] ∧
  Forall (λ nt, nt.2.(timestamp) = nt.1 ∨ nt.1 < nt.2.(timestamp) + seconds 30) out.
Proof.
  intros call out. split; [vm_compute; reflexivity|].
  apply (served_topologies_recent default_settings (λ w k, w.(ts_data) !! k) (λ _, "h") [call 0; call 29; call 30]
           (mkTopoStore ∅, [])).
  intros t e. discriminate.
Defined.

(** A server that is no container but has the identifier of a discovered node keeps
    every scan from being committed: no node is registered, none is taken out. *)
Example conflict_blocks_registry :
  let nodes := [test_node "n1" "healthy" 1 10 f1; test_node "n2" "healthy" 1 10 f1] in
  let rows := [Server.test "n1" true; docker_server "gone" true false] in
  (_sync_discovered_nodes default_settings (mkDbFaults false false) nodes rows).2 = rows.
Proof. vm_compute. reflexivity. Qed.

(** A server an administrator, or the health check, took out is active again with
    the next scan. *)
Example scan_revives_disabled :
  let rows := [docker_server "n1" false false] in
  Server.is_active <$> (_sync_discovered_nodes default_settings (mkDbFaults false false)
                          [test_node "n1" "degraded" 1 10 f1] rows).2 = [true].
Proof. vm_compute. reflexivity. Qed.

(** When the rows cannot be read, a draining server is a server like any other in
    the topology the planners get. *)
Example draining_forgotten :
  let scan fails := (_sync_discovered_nodes default_settings (mkDbFaults fails false)
                       [test_node "n1" "healthy" 1 10 f1] [docker_server "n1" true true]).1 in
  is_draining <$> scan false = [true] ∧ is_draining <$> scan true = [false].
Proof. vm_compute. split; reflexivity. Qed.
