(* ===== verification/Health.v ===== *)
(** * Health of a server ([services/health_scoring.py], [services/server_health_service.py])

    The multi-factor score, its classification, and the periodic check that
    stores both and disables a server after N consecutive failures. *)

From S2P Require Import Prelude PyFloat PyStr Settings Models.
Open Scope Z_scope.

(** ** Scoring ([health_scoring.py]) *)

Inductive NodeHealthState : Type := HEALTHY | DEGRADED | UNHEALTHY | UNKNOWN.

(** The [.value] of the enumeration. *)
Definition state_value (s : NodeHealthState) : string :=
  match s with
  | HEALTHY => "healthy"
  | DEGRADED => "degraded"
  | UNHEALTHY => "unhealthy"
  | UNKNOWN => "unknown"
  end.

(** [a or b or d] on optional integers. *)
Definition ozi_or (a b : option Z) (d : Z) : Z :=
  match a with
  | Some (Zpos p) => Zpos p | Some (Zneg p) => Zneg p
  | _ => match b with Some (Zpos p) => Zpos p | Some (Zneg p) => Zneg p | _ => d end
  end.

Definition calculate_health_score (server : Server.t) (health_log : option ServerHealthLog.t)
    (peer_count active_peer_count : Z) (max_peers : option Z) : float :=
  let score := f1 in
  let max_peers := ozi_or max_peers server.(Server.max_connections) 1000 in
  let score :=
    match health_log with
    | Some l =>
        let st := l.(ServerHealthLog.status) in
        if String.eqb st "unreachable" then fmul score f0
        else if String.eqb st "degraded" then fmul score (lit 5 1)
        else if negb (String.eqb st "ok") then fmul score (lit 3 1)
        else score
    | None =>
        if String.eqb server.(Server.status) "unreachable" then fmul score f0
        else if str_in server.(Server.status) ["degraded"; "unknown"] then fmul score (lit 5 1)
        else score
    end in
  let score :=
    if 0 <? peer_count then
      let ratio := true_div active_peer_count peer_count in
      fmul score (fadd (lit 5 1) (fmul (lit 5 1) ratio))
    else score in
  let score :=
    if negb (max_peers =? 0) && fge (of_Z peer_count) (fmul (of_Z max_peers) (lit 95 2))
    then fmul score (lit 7 1) else score in
  clamp f0 f1 score.

Definition health_score_to_state (score : float) : NodeHealthState :=
  if fge score (lit 9 1) then HEALTHY
  else if fge score (lit 5 1) then DEGRADED
  else if fgt score f0 then UNHEALTHY
  else UNKNOWN.

(** Whatever the log, the counters and the capacity are, the score is a number
    in [0, 1]. *)
Lemma health_score_in_unit server log peers active maxp :
  let h := calculate_health_score server log peers active maxp in
  fle f0 h = true ∧ fle h f1 = true.
Proof. apply clamp_bounds. reflexivity. Qed.

(** ** The periodic check ([server_health_service.py]) *)

(** What the runtime adapter's [health_check] returned. *)
Record check_result : Type := mkCheck {
  r_status : option string;
  r_latency_ms : option float;
  r_handshake_ok : option bool
}.

(** [_health_check]: the status defaults to "unknown". *)
Definition _health_check (r : check_result) : string * option float * option bool :=
  (ostr_or r.(r_status) "unknown", r.(r_latency_ms), r.(r_handshake_ok)).

Definition ok_status (st : string) : bool := str_in st ["ok"; "degraded"].

(** The rows of one server, most recent first ([order_by(ts.desc())]). *)
Definition logs_desc (sid : string) (logs : list ServerHealthLog.t) : list ServerHealthLog.t :=
  sorted_by (λ a b, b.(ServerHealthLog.ts) <? a.(ServerHealthLog.ts))
    (filterb (λ l, String.eqb l.(ServerHealthLog.server_id) sid) logs).

(** [run_health_check]: the log table and the server after the check, and the
    new log entry. *)
Definition run_health_check (settings : Settings) (now : Z) (r : check_result)
    (logs : list ServerHealthLog.t) (server : Server.t)
    : list ServerHealthLog.t * Server.t * ServerHealthLog.t :=
  let '(st, lat, hs) := _health_check r in
  let log_entry := ServerHealthLog.mk server.(Server.id) st lat hs now in
  let logs := logs ++ [log_entry] in
  let h := calculate_health_score server (Some log_entry) 0 0 None in
  let server := Server.set_health h (state_value (health_score_to_state h)) server in
  let n := Z.to_nat settings.(node_health_fail_count_disable) in
  let server :=
    if ok_status st then Server.set_active true server
    else
      let recent := take n (logs_desc server.(Server.id) logs) in
      if (n <=? length recent)%nat &&
         forallb (λ l, negb (ok_status l.(ServerHealthLog.status))) recent
      then Server.set_active false server
      else server in
  (logs, server, log_entry).

Definition get_last_health (logs : list ServerHealthLog.t) (sid : string)
    : option ServerHealthLog.t := head (logs_desc sid logs).

(** A run of checks at given times. *)
Fixpoint run_checks (settings : Settings) (checks : list (Z * check_result))
    (logs : list ServerHealthLog.t) (server : Server.t) : list ServerHealthLog.t * Server.t :=
  match checks with
  | [] => (logs, server)
  | (now, r) :: checks' =>
      let '(logs', server', _) := run_health_check settings now r logs server in
      run_checks settings checks' logs' server'
  end.

(** ** A fresh log entry comes first *)

Lemma sorted_by_snoc_first {A} (lt : A → A → bool) l x :
  Forall (λ y, lt x y = true) l → sorted_by lt (l ++ [x]) = x :: sorted_by lt l.
Proof.
  unfold sorted_by. induction 1 as [|y l Hy Hl IH]; simpl; [done|].
  rewrite IH. simpl. by rewrite Hy.
Qed.

Definition fresh (now : Z) (sid : string) (logs : list ServerHealthLog.t) : Prop :=
  Forall (λ l, l.(ServerHealthLog.server_id) = sid → l.(ServerHealthLog.ts) < now) logs.

Lemma logs_desc_snoc sid logs l :
  l.(ServerHealthLog.server_id) = sid → fresh l.(ServerHealthLog.ts) sid logs →
  logs_desc sid (logs ++ [l]) = l :: logs_desc sid logs.
Proof.
  intros Hl Hf. unfold logs_desc. rewrite filter_app. simpl.
  rewrite (filter_cons_True _ l []) by (by apply String.eqb_eq). rewrite filter_nil.
  apply sorted_by_snoc_first. apply Forall_forall. intros y Hy.
  apply elem_of_filterb in Hy as [Hs Hy]. bools.
  pose proof (proj1 (Forall_forall _ _) Hf y Hy Hs). lia.
Qed.

Lemma run_health_check_id settings now r logs server :
  (run_health_check settings now r logs server).1.2.(Server.id) = server.(Server.id).
Proof. unfold run_health_check. simpl. repeat case_match; done. Qed.

(** ** Counting consecutive failures *)

(** The number of failed checks since the last reachable one. *)
Fixpoint leading_failures (l : list ServerHealthLog.t) : nat :=
  match l with
  | [] => 0
  | e :: l' => if ok_status e.(ServerHealthLog.status) then 0 else S (leading_failures l')
  end.

Lemma recent_all_failed n l :
  (n <=? length (take n l))%nat &&
  forallb (λ e, negb (ok_status e.(ServerHealthLog.status))) (take n l) =
  (n <=? leading_failures l)%nat.
Proof.
  revert l. induction n as [|n IH]; intros l; [done|]. destruct l as [|e l]; [done|].
  simpl. destruct (ok_status _); simpl; [by rewrite andb_false_r|]. apply IH.
Qed.

(** The checks are recorded at increasing times, later than the stored logs. *)
Fixpoint later (sid : string) (checks : list (Z * check_result))
    (logs : list ServerHealthLog.t) : Prop :=
  match checks with
  | [] => True
  | (now, _) :: checks' =>
      fresh now sid logs ∧ Forall (λ c, now < c.1) checks' ∧ later sid checks' logs
  end.

Lemma later_snoc sid checks logs l :
  later sid checks logs → Forall (λ c, l.(ServerHealthLog.ts) < c.1) checks →
  later sid checks (logs ++ [l]).
Proof.
  induction checks as [|[now r] checks IH]; simpl; [done|].
  intros (Hf & Hlt & Hl) [Hn Ht]%Forall_cons. split_and!; auto.
  apply Forall_app; split; [done|]. constructor; [|constructor]. intros _. exact Hn.
Qed.

Definition check_ok (r : check_result) : bool := ok_status (ostr_or r.(r_status) "unknown").

Lemma run_health_check_spec settings now r logs server :
  fresh now server.(Server.id) logs →
  let n := Z.to_nat settings.(node_health_fail_count_disable) in
  let out := run_health_check settings now r logs server in
  let before := leading_failures (logs_desc server.(Server.id) logs) in
  let after := leading_failures (logs_desc server.(Server.id) out.1.1) in
  out.1.1 = logs ++ [out.2] ∧ out.2.(ServerHealthLog.ts) = now ∧
  after = (if check_ok r then 0%nat else S before) ∧
  out.1.2.(Server.is_active) =
    (if check_ok r then true
     else if (n <=? after)%nat then false else server.(Server.is_active)).
Proof.
  intros Hf n out before after. subst out before after.
  unfold run_health_check, _health_check, check_ok; cbn [fst snd].
  set (l := ServerHealthLog.mk _ _ _ _ _).
  assert (logs_desc (Server.id server) (logs ++ [l]) = l :: logs_desc (Server.id server) logs)
    as Hd by (by apply logs_desc_snoc).
  destruct (ok_status _) eqn:Eo; cbn [fst snd]; rewrite Hd;
    cbn [leading_failures ServerHealthLog.status l]; rewrite ?Eo; [done|].
  unfold Server.set_health; cbn [Server.id]. rewrite Hd, recent_all_failed.
  cbn [leading_failures ServerHealthLog.status l]. rewrite Eo.
  fold n. destruct (n <=? S _)%nat; done.
Qed.

(** The effect of one outcome on (consecutive failures, is_active). *)
Definition check_step (n : nat) (st : nat * bool) (c : Z * check_result) : nat * bool :=
  if check_ok c.2 then (0%nat, true)
  else (S st.1, if (n <=? S st.1)%nat then false else st.2).

(** The state of a run of checks is a function of the outcomes alone. *)
Lemma run_checks_spec settings checks logs server :
  later server.(Server.id) checks logs →
  let out := run_checks settings checks logs server in
  (leading_failures (logs_desc server.(Server.id) out.1), out.2.(Server.is_active)) =
  foldl (check_step (Z.to_nat settings.(node_health_fail_count_disable)))
    (leading_failures (logs_desc server.(Server.id) logs), server.(Server.is_active)) checks.
Proof.
  cbv zeta. revert logs server.
  induction checks as [|[now r] checks IH]; intros logs server; [done|].
  cbn [later run_checks foldl fst snd]. intros (Hf & Hlt & Hl).
  pose proof (run_health_check_spec settings now r logs server Hf) as (Hlogs & Hts & Ha & Hs).
  pose proof (run_health_check_id settings now r logs server) as Hid.
  destruct (run_health_check settings now r logs server) as [[logs' server'] l].
  cbn [fst snd] in *. rewrite <- Hid in *. rewrite IH.
  - f_equal. rewrite Ha, Hs, Ha. unfold check_step; simpl. by destruct (check_ok r).
  - rewrite Hlogs. apply later_snoc; [done|]. by rewrite Hts.
Qed.

Lemma foldl_check_step_failed n checks m b :
  Forall (λ c, check_ok c.2 = false) checks → (b = true → (m < n)%nat) →
  foldl (check_step n) (m, b) checks =
    ((m + length checks)%nat, b && (m + length checks <? n)%nat).
Proof.
  intros Hc. revert m b. induction Hc as [|c checks Hc Hcs IH]; intros m b Hb; simpl.
  - f_equal; [lia|]. destruct b; simpl; [|done]. symmetry. apply Nat.ltb_lt. specialize (Hb eq_refl). lia.
  - unfold check_step at 2. rewrite Hc. simpl. rewrite IH.
    + f_equal; [lia|]. destruct (Nat.leb_spec n (S m)); simpl.
      * destruct b; simpl; [|done]. symmetry. apply Nat.ltb_ge. lia.
      * do 2 f_equal. lia.
    + destruct (Nat.leb_spec n (S m)); [done|]. intros ->. lia.
Qed.

(** During an outage every check counts: after [k] failed checks in a row,
    on top of the failures already logged, the server is still offered exactly
    when fewer than N failures were seen; one reachable check (even a degraded
    one) brings it back and resets the count. *)
Theorem run_checks_disable settings checks logs server :
  let n := Z.to_nat settings.(node_health_fail_count_disable) in
  let lead := leading_failures (logs_desc server.(Server.id) logs) in
  later server.(Server.id) checks logs →
  Forall (λ c, check_ok c.2 = false) checks →
  server.(Server.is_active) = true → (lead < n)%nat →
  (run_checks settings checks logs server).2.(Server.is_active) =
    (lead + length checks <? n)%nat ∧
  ∀ now r, check_ok r = true →
    later server.(Server.id) (checks ++ [(now, r)]) logs →
    let out := run_checks settings (checks ++ [(now, r)]) logs server in
    out.2.(Server.is_active) = true ∧
    leading_failures (logs_desc server.(Server.id) out.1) = 0%nat.
Proof.
  intros n lead Hl Hfail Hact Hn. split.
  - pose proof (run_checks_spec settings checks logs server Hl) as H. cbv zeta in H.
    apply (f_equal snd) in H. cbn [snd] in H.
    rewrite H, foldl_check_step_failed, Hact by done. done.
  - intros now r Hr Hl'.
    pose proof (run_checks_spec settings (checks ++ [(now, r)]) logs server Hl') as H.
    cbv zeta in H. rewrite foldl_app in H. cbn [foldl] in H.
    unfold check_step at 1 in H. cbn [snd] in H. rewrite Hr in H. injection H as H1 H2. done.
Qed.

(** Two failed checks on a fresh server under the default limit of 3. *)
Lemma run_checks_disable_witness :
  let bad := mkCheck (Some "unreachable") None None in
  let good := mkCheck (Some "degraded") None None in
  (run_checks default_settings [(1, bad); (2, bad); (3, bad)] []
     (Server.test "s" true)).2.(Server.is_active) = false ∧
  (run_checks default_settings [(1, bad); (2, bad); (3, bad); (4, good)] []
     (Server.test "s" true)).2.(Server.is_active) = true.
Proof.
  cbv zeta.
  destruct (run_checks_disable default_settings
    [(1, mkCheck (Some "unreachable") None None); (2, mkCheck (Some "unreachable") None None);
     (3, mkCheck (Some "unreachable") None None)] [] (Server.test "s" true)) as [H1 H2].
  - repeat split; repeat constructor.
  - repeat constructor.
  - reflexivity.
  - apply Nat.ltb_lt. reflexivity.
  - split; [exact H1|]. apply (H2 4 (mkCheck (Some "degraded") None None)); [reflexivity|].
    repeat split; repeat constructor.
Defined.

(** ** Unreachable servers *)

(** A check that finds the server unreachable stores the score 0, which the
    classification calls "unknown", not "unhealthy". *)
Theorem unreachable_is_unknown settings now r logs server :
  ostr_or r.(r_status) "unknown" = "unreachable" →
  let server' := (run_health_check settings now r logs server).1.2 in
  server'.(Server.health_score) = Some f0 ∧ server'.(Server.status) = "unknown".
Proof.
  intros Hr. cbv zeta. unfold run_health_check, _health_check. rewrite Hr.
  set (l := ServerHealthLog.mk _ _ _ _ _).
  assert (calculate_health_score server (Some l) 0 0 None = f0) as ->.
  { unfold calculate_health_score, l; simpl. by case_match. }
  simpl. repeat case_match; done.
Qed.

Lemma unreachable_is_unknown_witness :
  let r := mkCheck (Some "unreachable") None None in
  let server' := (run_health_check default_settings 5 r [] (Server.test "s" true)).1.2 in
  server'.(Server.health_score) = Some f0 ∧ server'.(Server.status) = "unknown".
Proof.
  apply (unreachable_is_unknown default_settings 5 (mkCheck (Some "unreachable") None None)).
  reflexivity.
Defined.

(** ** Peer comparison after a restart *)

(** [sync_peers_after_restart]: how many keys of the database are missing on the
    node, and how many keys of the node are not in the database. *)
Definition sync_peers_after_restart (devices : list Device.t) (sid : string)
    (node_peers : list (option string)) : Z * Z :=
  let db_devices := filterb (λ d, String.eqb d.(Device.server_id) sid &&
                                  is_none d.(Device.revoked_at)) devices in
  let db_keys : gset string := list_to_set (Device.public_key <$> db_devices) in
  let node_keys : gset string := list_to_set (filterb str_truthy (omap id node_peers)) in
  (Z.of_nat (size (db_keys ∖ node_keys)), Z.of_nat (size (node_keys ∖ db_keys))).

(** The two counts are both zero exactly when the database and the node hold
    the same keys. *)
Lemma sync_peers_after_restart_zero devices sid peers :
  sync_peers_after_restart devices sid peers = (0, 0) ↔
  ∀ k, (∃ d, d ∈ devices ∧ d.(Device.server_id) = sid ∧ d.(Device.revoked_at) = None ∧
             d.(Device.public_key) = k) ↔ (k ≠ "" ∧ Some k ∈ peers).
Proof.
  unfold sync_peers_after_restart.
  set (db := list_to_set _). set (nd := list_to_set _).
  assert (∀ k, k ∈ db ↔ ∃ d, d ∈ devices ∧ d.(Device.server_id) = sid ∧
      d.(Device.revoked_at) = None ∧ d.(Device.public_key) = k) as Hdb.
  { intros k. unfold db. rewrite elem_of_list_to_set, list_elem_of_fmap.
    setoid_rewrite elem_of_filterb. setoid_rewrite andb_true_iff.
    setoid_rewrite String.eqb_eq. setoid_rewrite is_none_true.
    clear. split; intros (d & H); exists d; intuition congruence. }
  assert (∀ k, k ∈ nd ↔ k ≠ "" ∧ Some k ∈ peers) as Hnd.
  { intros k. unfold nd.
    rewrite elem_of_list_to_set, elem_of_filterb, str_truthy_true, list_elem_of_omap.
    unfold id. split; [intros (? & o & ? & ->); done|].
    intros [? ?]; split; [done|]. by exists (Some k). }
  setoid_rewrite <- Hdb. setoid_rewrite <- Hnd. split.
  - intros [= H1 H2]. intros k.
    assert (db ∖ nd ≡ ∅) as E1 by (apply size_empty_inv; apply Nat2Z.inj; assumption).
    assert (nd ∖ db ≡ ∅) as E2 by (apply size_empty_inv; apply Nat2Z.inj; assumption).
    clear -E1 E2. clearbody db nd.
    destruct (decide (k ∈ db)), (decide (k ∈ nd)); set_solver.
  - intros H. clear Hdb Hnd. clearbody db nd.
    assert (db = nd) as -> by (apply set_eq; done).
    by rewrite difference_diag_L, size_empty.
Qed.
