(* ===== verification/LoadBalancer.v ===== *)
(** * Load balancer ([backend/app/services/load_balancer.py])

    Selection of the node for a new peer: filters on status, health, capacity,
    draining and capabilities, then the best score, ties broken by node id. *)

From S2P Require Import Prelude PyFloat PyStr Settings Node.
Open Scope Z_scope.

Section load_balancer.
Context (settings : Settings).
Implicit Types (n node : NodeMetadata).

Definition _capacity_score node : float :=
  of_Z (Z.max (node.(max_peers) - node.(peer_count)) 0).

Definition _health_score node : float := clamp f0 f1 (f_or0 node.(health_score)).

Definition _latency_penalty node : float :=
  fmul (fdiv (of_or0 node.(latency_ms)) (lit 1000 0)) settings.(load_balancer_weight_latency).

Definition calculate_node_score node : float :=
  let cap := _capacity_score node in
  let health := _health_score node in
  let latency_penalty := _latency_penalty node in
  fsub (fadd (fmul cap settings.(load_balancer_weight_capacity)) health) latency_penalty.

(** The key [(calculate_node_score(n), n.node_id)] of [max]. *)
Definition node_key node : float * string := (calculate_node_score node, node.(node_id)).

Definition node_key_gt a b : bool := ftuple_lt str_ltb (node_key b) (node_key a).

Definition lb_candidate n : bool :=
  schedulable_status n &&
  fge (f_or0 n.(health_score)) (lit 5 1) &&
  (n.(peer_count) <? n.(max_peers)) &&
  negb n.(is_draining).

Definition lb_healthy n : bool := fge (f_or0 n.(health_score)) (lit 9 1).

(** [select_node]: [topology] is what [get_topology()] returned. *)
Definition select_node (topology : ClusterTopology)
    (required_capabilities : option (list string)) : res NodeMetadata :=
  let candidates := filterb lb_candidate topology.(nodes) in
  let candidates :=
    match required_capabilities with
    | Some (c :: cs) => filterb (λ n, has_capabilities n (c :: cs)) candidates
    | _ => candidates
    end in
  let healthy_candidates := filterb lb_healthy candidates in
  let candidates := match healthy_candidates with [] => candidates | _ => healthy_candidates end in
  match py_max node_key_gt candidates with
  | None => Err (LoadBalancerError "No suitable node available for peer placement")
  | Some best => Ok best
  end.

(** A node the filters of [select_node] let through. *)
Definition eligible (caps : option (list string)) n : bool :=
  lb_candidate n && has_capabilities n (default [] caps).

(** ** Correctness *)

Definition scored n : Prop := is_nan (calculate_node_score n) = false.

Lemma lb_pool_elem (l : list NodeMetadata) n :
  n ∈ (match filterb lb_healthy l with [] => l | _ => filterb lb_healthy l end) ↔
  n ∈ l ∧ ((∃ m, m ∈ l ∧ lb_healthy m = true) → lb_healthy n = true).
Proof.
  destruct (filterb lb_healthy l) as [|h hs] eqn:E.
  - split; [|tauto]. intros Hn. split; [done|]. intros (m & Hm & Hh).
    assert (m ∈ filterb lb_healthy l) as Hin by (by apply elem_of_filterb).
    rewrite E in Hin. set_solver.
  - rewrite <- E, elem_of_filterb. split; [tauto|]. intros [Hn Hh]. split; [|done].
    apply Hh. exists h.
    assert (h ∈ filterb lb_healthy l) as Hin by (rewrite E; set_solver).
    apply elem_of_filterb in Hin. tauto.
Qed.

Lemma lb_candidates_elem topology caps n :
  n ∈ (match caps with
       | Some (c :: cs) =>
           filterb (λ n, has_capabilities n (c :: cs)) (filterb lb_candidate (nodes topology))
       | _ => filterb lb_candidate (nodes topology)
       end) ↔ n ∈ nodes topology ∧ eligible caps n = true.
Proof.
  unfold eligible. destruct caps as [[|c cs]|]; simpl;
    rewrite ?elem_of_filterb, ?andb_true_r, ?andb_true_iff; tauto.
Qed.

Lemma node_key_gt_max l m y :
  Forall scored l → py_max node_key_gt l = Some m → y ∈ l → node_key_gt y m = false.
Proof.
  intros Hl. eapply (py_max_upper node_key_gt scored); unfold node_key_gt, scored; try done.
  - intros. apply ftuple_lt_irrefl, str_ltb_irrefl.
  - intros a b _ _. apply ftuple_lt_asym, str_ltb_asym.
  - intros a b c Ha Hb Hc H1 H2.
    apply (ftuple_lt_negtrans str_ltb str_ltb_negtrans _ (node_key b)); done.
Qed.

(** Node selection fails only when it must: the error is
    [LoadBalancerError], and no node of the topology is eligible. *)
Theorem select_node_error topology caps e :
  select_node topology caps = Err e →
  e = LoadBalancerError "No suitable node available for peer placement" ∧
  ∀ n, n ∈ nodes topology → eligible caps n = false.
Proof.
  unfold select_node. intros H. case_match eqn:E; [done|]. injection H as <-.
  split; [done|]. intros n Hn. apply not_true_iff_false. intros He.
  match type of E with py_max _ ?l = None =>
    assert (l = []) as Hl by (destruct l; [done|discriminate]) end.
  pose proof (proj2 (lb_candidates_elem topology caps n) (conj Hn He)) as Hin.
  match type of Hin with _ ∈ ?l => destruct l as [|x l'] eqn:El; [set_solver|] end.
  destruct (filterb lb_healthy (x :: l')); discriminate.
Qed.

(** Node selection picks a best eligible node: the selected node is
    schedulable, not draining, below capacity, healthy enough and has the
    required capabilities; it is fully healthy as soon as an eligible node is;
    and no eligible node of that class has a larger (score, id). *)
Theorem select_node_ok topology caps n :
  select_node topology caps = Ok n →
  n ∈ nodes topology ∧ eligible caps n = true ∧
  ((∃ m, m ∈ nodes topology ∧ eligible caps m = true ∧ lb_healthy m = true) →
   lb_healthy n = true) ∧
  (Forall scored (nodes topology) →
   ∀ m, m ∈ nodes topology → eligible caps m = true →
     (lb_healthy n = true → lb_healthy m = true) → node_key_gt m n = false).
Proof.
  unfold select_node. intros H. case_match eqn:E; [|done]. injection H as ->.
  pose proof (py_max_elem _ _ _ E) as Hin.
  apply lb_pool_elem in Hin as [Hc Hh]. apply lb_candidates_elem in Hc as [Hn He].
  split_and!; [done|done| |].
  - intros (m & Hm & Hme & Hmh). apply Hh. exists m. by rewrite lb_candidates_elem.
  - intros Hs m Hm Hme Himp. eapply node_key_gt_max; [|exact E|].
    + apply Forall_forall. intros x Hx. apply lb_pool_elem in Hx as [Hx _].
      apply lb_candidates_elem in Hx as [Hx _]. by eapply (proj1 (Forall_forall _ _) Hs).
    + apply lb_pool_elem. rewrite lb_candidates_elem. split; [done|].
      intros Hex. by apply Himp, Hh.
Qed.
End load_balancer.

(** ** A concrete selection *)

Definition wit_lb_topology : ClusterTopology :=
  mkTopology 0 [test_node "a" "healthy" 10 100 (lit 6 1); test_node "b" "healthy" 50 100 f1;
                test_node "c" "healthy" 99 100 f1; test_node "d" "unhealthy" 0 100 f1]
    400 159 f0 f0 f0 f0 f0 1.

Lemma select_node_ok_witness :
  select_node default_settings wit_lb_topology None = Ok (test_node "b" "healthy" 50 100 f1) ∧
  eligible None (test_node "b" "healthy" 50 100 f1) = true.
Proof.
  assert (select_node default_settings wit_lb_topology None =
    Ok (test_node "b" "healthy" 50 100 f1)) as E by (vm_compute; reflexivity).
  split; [exact E|].
  exact (proj1 (proj2 (select_node_ok default_settings wit_lb_topology None _ E))).
Defined.

Lemma select_node_error_witness :
  let topo := mkTopology 0 [test_node "d" "unhealthy" 0 100 f1] 100 0 f0 f0 f0 f0 f0 1 in
  ∃ e, select_node default_settings topo None = Err e ∧
    e = LoadBalancerError "No suitable node available for peer placement".
Proof.
  intros topo. destruct (select_node default_settings topo None) as [n|e] eqn:E;
    [vm_compute in E; discriminate|].
  exists e. split; [reflexivity|].
  exact (proj1 (select_node_error default_settings topo None e E)).
Defined.
