(* ===== verification/ControlPlaneDb.v ===== *)
(** * The database as the control plane sees it

    The tables the planners of [control_plane_service.py] query, the events they
    write, and the shared lookups: node regions, fresh latency probes and the
    peers pinned by enterprise plans. *)

From S2P Require Import Prelude PyFloat PyStr Settings Models Node.
Open Scope Z_scope.

(** ** Events and outputs *)

Record RebalanceMoveOut : Type := mkMove {
  source_node_id : string;
  target_node_id : string;
  peers_to_move : Z
}.

Record TopologyGraphEdgeOut : Type := mkEdge {
  edge_source : string;
  edge_target : string;
  edge_type : string;
  edge_weight : float;
  edge_label : string
}.

Record RebalanceExecutionOut : Type := mkExecution {
  x_source : string;
  x_target : string;
  requested : Z;
  attempted : Z;
  succeeded : Z;
  failed : Z;
  rolled_back : Z;
  rollback_failed : Z;
  skipped_enterprise : Z;
  x_status : string
}.

Record AutomationRunOut : Type := mkRun {
  a_load_factor : float;
  a_health_score : float;
  failed_nodes_count : Z;
  rebalance_moves : Z;
  rebalance_peers_to_move : Z;
  rebalance_execution_enabled : bool;
  executed_migrations : Z;
  failed_migrations : Z;
  rollback_migrations : Z;
  rollback_failures : Z;
  stop_reason : option string;
  executions : list RebalanceExecutionOut;
  paused_nodes : Z;
  resumed_nodes : Z
}.

(** The bandwidth policies applied to one node; what the runtime answered is
    kept by its counts. *)
Record ThrottlingNodeApplyOut : Type := mkThrottling {
  th_node_id : string;
  peers_considered : Z;
  peers_bound : Z;
  skipped_no_runtime_peer : Z;
  skipped_without_host_ip : Z
}.

(** The JSON payloads, by event type. *)
Inductive payload : Type :=
| PlanGenerated (high target : float) (moves : list RebalanceMoveOut)
    (pinned : list (string * Z)) (pinned_limited : list string)
| FailoverSelected (failed_node fallback_node : string) (same_region : bool)
| ProbesIngested (count : Z)
| ThrottlingApplied (dry_run : bool) (server_id : option string) (policies : Z)
    (applied : list ThrottlingNodeApplyOut)
| CycleCompleted (run : AutomationRunOut).

Record ControlPlaneEvent : Type := mkEvent {
  event_type : string;
  severity : string;
  event_server_id : option string;
  event_payload : payload
}.

Record LatencyProbe : Type := mkProbe {
  agent_id : string;
  source_region : string;
  probe_server_id : string;
  probe_latency_ms : float;
  jitter_ms : option float;
  packet_loss_pct : option float;
  probe_ts : Z
}.

(** ** The session *)

Record db : Type := mkDb {
  servers : list Server.t;
  devices : list Device.t;
  subscriptions : list Subscription.t;
  plans : list Plan.t;
  probes : list LatencyProbe;
  events : list ControlPlaneEvent
}.

Definition empty_db : db := mkDb [] [] [] [] [] [].

(** [db.add(event)] *)
Definition add_event (e : ControlPlaneEvent) (d : db) : db :=
  mkDb d.(servers) d.(devices) d.(subscriptions) d.(plans) d.(probes) (d.(events) ++ [e]).

Definition set_devices (ds : list Device.t) (d : db) : db :=
  mkDb d.(servers) ds d.(subscriptions) d.(plans) d.(probes) d.(events).

Definition set_servers (ss : list Server.t) (d : db) : db :=
  mkDb ss d.(devices) d.(subscriptions) d.(plans) d.(probes) d.(events).

Definition set_probes (ps : list LatencyProbe) (d : db) : db :=
  mkDb d.(servers) d.(devices) d.(subscriptions) d.(plans) ps d.(events).

(** ** Regions ([control_plane/server_crud.py]) *)

Definition _node_regions (d : db) (node_ids : list string) : list (string * string) :=
  dict_of ((λ s, (s.(Server.id), ostr_or (Some s.(Server.region)) "unknown")) <$>
    filterb (λ s, str_in s.(Server.id) node_ids) d.(servers)).

(** [regions.get(node_id, "unknown")] *)
Definition region_of (regions : list (string * string)) (nid : string) : string :=
  default "unknown" (dget nid regions).

(** ** Latency probes *)

(** Rows fresher than the cutoff, by server then most recent first. *)
Definition probe_row_before (a b : LatencyProbe) : bool :=
  if String.eqb a.(probe_server_id) b.(probe_server_id) then b.(probe_ts) <? a.(probe_ts)
  else str_ltb a.(probe_server_id) b.(probe_server_id).

Definition _latest_probe_latency_by_node (settings : Settings) (now : Z) (d : db)
    (src_region : string) (node_ids : list string) : list (string * float) :=
  if negb (str_truthy src_region) || bool_decide (node_ids = []) then []
  else
    let fresh_cutoff := now - seconds settings.(control_plane_probe_fresh_seconds) in
    let rows := sorted_by probe_row_before
      (filterb (λ p, String.eqb p.(source_region) src_region &&
                     str_in p.(probe_server_id) node_ids &&
                     (fresh_cutoff <=? p.(probe_ts))) d.(probes)) in
    foldl (λ latest p,
             match dget p.(probe_server_id) latest with
             | Some _ => latest
             | None => dset p.(probe_server_id) p.(probe_latency_ms) latest
             end) [] rows.

(** ** Enterprise plans *)

Definition _enterprise_plan_keywords (settings : Settings) : list string :=
  (λ item, lower (strip item)) <$>
    filterb (λ item, str_truthy (strip item))
      (split "," settings.(control_plane_enterprise_plan_keywords)).

Definition _is_enterprise_plan_name (plan_name : option string) (keywords : list string) : bool :=
  match plan_name with
  | None => false
  | Some name =>
      if negb (str_truthy name) || bool_decide (keywords = []) then false
      else existsb (λ keyword, contains keyword (lower name)) keywords
  end.

(** SQL [LIKE] on lower-cased text: [%] any run, [_] any character, a backslash
    escapes the next one. *)
Fixpoint like (p s : list ascii) : bool :=
  match p with
  | [] => bool_decide (s = [])
  | "%"%char :: p' =>
      (fix any (s : list ascii) : bool :=
         like p' s || match s with [] => false | _ :: s' => any s' end) s
  | "_"%char :: p' => match s with [] => false | _ :: s' => like p' s' end
  | "\"%char :: c :: p' =>
      match s with [] => false | b :: s' => Ascii.eqb c b && like p' s' end
  | c :: p' => match s with [] => false | b :: s' => Ascii.eqb c b && like p' s' end
  end.

(** [Plan.name.ilike(f"%{keyword}%")] *)
Definition ilike_keyword (keyword name : string) : bool :=
  like (chars (lower ("%" +:+ keyword +:+ "%"))) (chars (lower name)).

(** Devices joined with their subscription and plan. *)
Definition device_plan_rows (d : db) : list (Device.t * Subscription.t * Plan.t) :=
  dev ← d.(devices);
  sub ← filterb (λ s, String.eqb s.(Subscription.id) dev.(Device.subscription_id))
          d.(subscriptions);
  plan ← filterb (λ p, String.eqb p.(Plan.id) sub.(Subscription.plan_id)) d.(plans);
  [(dev, sub, plan)].

(** The number of live devices per node whose active subscription is on an
    enterprise plan ([group_by] gives one row per node present). *)
Definition _enterprise_pinned_counts (settings : Settings) (d : db) (node_ids : list string)
    : list (string * Z) :=
  let keywords := _enterprise_plan_keywords settings in
  if bool_decide (node_ids = []) || bool_decide (keywords = []) then []
  else
    let rows := filterb (λ r,
        is_none r.1.1.(Device.revoked_at) &&
        str_in r.1.1.(Device.server_id) node_ids &&
        String.eqb r.1.2.(Subscription.status) "active" &&
        existsb (λ k, ilike_keyword k r.2.(Plan.name)) keywords) (device_plan_rows d) in
    foldl (λ acc r, let sid := r.1.1.(Device.server_id) in
                    dset sid (default 0 (dget sid acc) + 1) acc) [] rows.

Lemma pinned_counts_nonneg settings d ids k c :
  dget k (_enterprise_pinned_counts settings d ids) = Some c → 0 ≤ c.
Proof.
  unfold _enterprise_pinned_counts. case_match; [done|].
  match goal with |- dget k (foldl ?f [] ?rows) = _ → _ =>
    assert (∀ acc, (∀ k c, dget k acc = Some c → 0 ≤ c) →
      ∀ k c, dget k (foldl f acc rows) = Some c → 0 ≤ c) as Hgen end.
  { induction (filter _ _) as [|r rows IH]; intros acc Hacc; simpl; [done|].
    apply IH. intros k' c' Hk'. rewrite dget_dset in Hk'. case_decide; [|eauto].
    destruct (dget (Device.server_id r.1.1) acc) eqn:E; simpl in *.
    - apply Hacc in E. simplify_eq. lia.
    - simplify_eq. lia. }
  by apply Hgen.
Qed.

Example keywords_default :
  _enterprise_plan_keywords default_settings = ["enterprise"; "business"; "dedicated"].
Proof. reflexivity. Qed.

Example ilike_wildcard :
  ilike_keyword "vip_x" "VIPaX plan" = true ∧
  _is_enterprise_plan_name (Some "VIPaX plan") ["vip_x"] = false.
Proof. split; reflexivity. Qed.
