(* ===== verification/Rebalance.v ===== *)
(** * Rebalance planning ([control_plane_service.py])

    Overloaded nodes give peers away until they reach the target watermark,
    underloaded nodes receive up to their free slots below it.  The greedy loop
    is shared by [plan_rebalance] and the suggestions of the topology graph; it
    is modelled once, with the termination of its [while]. *)

From S2P Require Import Prelude PyFloat PyStr Settings Models Node ControlPlaneDb.
Open Scope Z_scope.

(** ** The greedy loop *)

(** [max(receivers, key=free_slots)] over the receivers with free slots. *)
Definition pick_receiver (source : string) (receiver_slots : list (string * Z))
    : option (string * Z) :=
  py_max (λ a b, b.2 <? a.2)
    (filterb (λ r, (0 <? r.2) && negb (String.eqb r.1 source)) receiver_slots).

(** [while pending > 0], at most [fuel] rounds: what is still pending, the slots
    left and the moves appended. *)
Fixpoint drain (fuel : nat) (source : string) (pending : Z)
    (receiver_slots : list (string * Z)) (moves : list RebalanceMoveOut)
    : Z * list (string * Z) * list RebalanceMoveOut :=
  match fuel with
  | O => (pending, receiver_slots, moves)
  | S fuel' =>
      if pending <=? 0 then (pending, receiver_slots, moves)
      else
        match pick_receiver source receiver_slots with
        | None => (pending, receiver_slots, moves)
        | Some (target_id, free_slots) =>
            let moved := Z.min pending free_slots in
            if moved <=? 0 then (pending, receiver_slots, moves)
            else drain fuel' source (pending - moved)
                   (dset target_id (free_slots - moved) receiver_slots)
                   (moves ++ [mkMove source target_id moved])
        end
  end.

(** The number of receivers that still have room. *)
Definition open_receivers (slots : list (string * Z)) : nat :=
  length (filterb (λ r, 0 <? r.2) slots).

(** The loop needs one round per open receiver and one to stop. *)
Definition drain_all (source : string) (pending : Z) (slots : list (string * Z))
    (moves : list RebalanceMoveOut) : Z * list (string * Z) * list RebalanceMoveOut :=
  drain (S (open_receivers slots)) source pending slots moves.

Definition moved_from (s : string) (moves : list RebalanceMoveOut) : Z :=
  sumZ (peers_to_move <$> filterb (λ m, String.eqb m.(source_node_id) s) moves).

Definition moved_to (t : string) (moves : list RebalanceMoveOut) : Z :=
  sumZ (peers_to_move <$> filterb (λ m, String.eqb m.(target_node_id) t) moves).

Lemma moved_from_app s l1 l2 : moved_from s (l1 ++ l2) = moved_from s l1 + moved_from s l2.
Proof. unfold moved_from. by rewrite filter_app, fmap_app, sumZ_app. Qed.

Lemma moved_to_app t l1 l2 : moved_to t (l1 ++ l2) = moved_to t l1 + moved_to t l2.
Proof. unfold moved_to. by rewrite filter_app, fmap_app, sumZ_app. Qed.

Lemma moved_from_single s m :
  moved_from s [m] = if String.eqb m.(source_node_id) s then m.(peers_to_move) else 0.
Proof.
  unfold moved_from. rewrite filter_cons, filter_nil.
  case_decide as H; [rewrite H|apply not_true_iff_false in H; rewrite H]; simpl; lia.
Qed.

Lemma moved_to_single t m :
  moved_to t [m] = if String.eqb m.(target_node_id) t then m.(peers_to_move) else 0.
Proof.
  unfold moved_to. rewrite filter_cons, filter_nil.
  case_decide as H; [rewrite H|apply not_true_iff_false in H; rewrite H]; simpl; lia.
Qed.

#[export] Hint Rewrite moved_from_app moved_to_app moved_from_single moved_to_single : py.

(** ** What one run of the loop does *)

(** Slots left for [t]; 0 for a node that is no receiver. *)
Definition slots_of (t : string) (slots : list (string * Z)) : Z := default 0 (dget t slots).

Definition slots_ok (slots : list (string * Z)) : Prop :=
  NoDup (dkeys slots) ∧ ∀ t c, dget t slots = Some c → 0 ≤ c.

Definition good_move (source : string) (slots : list (string * Z)) (m : RebalanceMoveOut) : Prop :=
  m.(source_node_id) = source ∧ m.(target_node_id) ≠ source ∧
  m.(target_node_id) ∈ dkeys slots ∧ 0 < m.(peers_to_move).

Lemma pick_receiver_spec source slots tid free :
  NoDup (dkeys slots) → pick_receiver source slots = Some (tid, free) →
  dget tid slots = Some free ∧ 0 < free ∧ tid ≠ source.
Proof.
  unfold pick_receiver. intros Hnd Hp%py_max_elem%elem_of_filterb. simpl in Hp.
  destruct Hp as [Hp Hin]. bools. split_and!; auto. by apply elem_dget_Some.
Qed.

Lemma pick_receiver_none source slots :
  NoDup (dkeys slots) → pick_receiver source slots = None →
  ∀ t, t ≠ source → slots_of t slots ≤ 0.
Proof.
  unfold pick_receiver, slots_of. intros Hnd Hp t Ht.
  destruct (dget t slots) as [c|] eqn:E; simpl; [|lia].
  apply Z.nlt_ge. intros Hc. apply dget_Some_elem in E.
  assert ((t, c) ∈ filterb (λ r, (0 <? r.2) && negb (String.eqb r.1 source)) slots) as Hin.
  { apply elem_of_filterb. split; [simpl|done].
    apply andb_true_intro. split; [by apply Z.ltb_lt|].
    by apply negb_true_iff, String.eqb_neq. }
  destruct (filter _ _); [set_solver|discriminate].
Qed.

Lemma slots_ok_dset t c slots : slots_ok slots → 0 ≤ c → slots_ok (dset t c slots).
Proof.
  intros [Hnd Hp] Hc. split; [by apply dkeys_dset_NoDup|].
  intros t' c' Ht'. rewrite dget_dset in Ht'. case_decide; [by simplify_eq|eauto].
Qed.

Lemma slots_of_dset t t' c slots :
  slots_of t (dset t' c slots) = if decide (t = t') then c else slots_of t slots.
Proof. unfold slots_of. rewrite dget_dset. by case_decide. Qed.

(** Filling a receiver closes it: the measure of the loop decreases. *)
Lemma open_receivers_close t f slots :
  NoDup (dkeys slots) → dget t slots = Some f → 0 < f →
  S (open_receivers (dset t 0 slots)) = open_receivers slots.
Proof.
  unfold open_receivers, dkeys. induction slots as [|[k v] slots IH]; [done|].
  rewrite fmap_cons. intros [Hk Hnd]%NoDup_cons. simpl dget. simpl dset.
  destruct (decide (t = k)) as [->|Hne].
  - intros [= ->] Hf. rewrite filter_cons_False by done.
    by rewrite filter_cons_True by (by apply Z.ltb_lt).
  - intros Hg Hf. specialize (IH Hnd Hg Hf).
    destruct (0 <? v) eqn:E.
    + rewrite !filter_cons_True by done. simpl. by rewrite IH.
    + rewrite !filter_cons_False by (simpl; congruence). done.
Qed.

(** The moves of one source: they leave only from it, towards receivers other
    than itself, each moves at least one peer; they take exactly what the slots
    and the pending count lose; and the loop stops only when nothing is pending
    or every other receiver is full. *)
Definition drain_post (source : string) (pending : Z) (slots : list (string * Z))
    (moves : list RebalanceMoveOut)
    (out : Z * list (string * Z) * list RebalanceMoveOut) : Prop :=
  let '(pending', slots', moves') := out in
  slots_ok slots' ∧ dkeys slots' = dkeys slots ∧
  (∃ new, moves' = moves ++ new ∧ Forall (good_move source slots) new) ∧
  0 ≤ pending' ∧
  moved_from source moves' - moved_from source moves = pending - pending' ∧
  (∀ s, s ≠ source → moved_from s moves' = moved_from s moves) ∧
  (∀ t, moved_to t moves' - moved_to t moves = slots_of t slots - slots_of t slots') ∧
  (pending' = 0 ∨ ∀ t, t ≠ source → slots_of t slots' ≤ 0).

Lemma drain_post_stop source pending slots moves :
  slots_ok slots → 0 ≤ pending →
  (pending = 0 ∨ ∀ t, t ≠ source → slots_of t slots ≤ 0) →
  drain_post source pending slots moves (pending, slots, moves).
Proof.
  intros Hok Hp Hs. unfold drain_post. split_and!; auto with lia.
  exists []. by rewrite app_nil_r.
Qed.

Lemma drain_post_step source pending slots moves tid free moved out :
  dget tid slots = Some free → tid ≠ source → 0 < moved ≤ free →
  drain_post source (pending - moved) (dset tid (free - moved) slots)
    (moves ++ [mkMove source tid moved]) out →
  drain_post source pending slots moves out.
Proof.
  intros Hget Htid Hm. destruct out as [[p' s'] m'].
  assert (tid ∈ dkeys slots) as Hk by (apply dget_is_Some; by eexists).
  assert (dkeys (dset tid (free - moved) slots) = dkeys slots) as Hdk
    by (by rewrite dkeys_dset, decide_True).
  unfold drain_post, good_move. rewrite Hdk.
  intros (Hok & Hkeys & (new & -> & Hnew) & Hp & Hfrom & Hother & Hto & Hstop).
  split_and!; auto.
  - exists (mkMove source tid moved :: new). rewrite <- app_assoc. split; [done|].
    constructor; [|done]. simpl. split_and!; auto. lia.
  - autorewrite with py in Hfrom |- *. simpl in *. rewrite String.eqb_refl in *. lia.
  - intros s Hs. specialize (Hother s Hs). autorewrite with py in Hother |- *. simpl in *.
    rewrite (proj2 (String.eqb_neq source s)) in * by congruence. lia.
  - intros t. specialize (Hto t). autorewrite with py in Hto |- *.
    rewrite slots_of_dset in Hto.
    simpl in *. case_decide; subst.
    + rewrite String.eqb_refl in *. unfold slots_of at 1. rewrite Hget. simpl. lia.
    + rewrite (proj2 (String.eqb_neq tid t)) in * by congruence. lia.
Qed.

Lemma drain_zero fuel source slots moves :
  drain fuel source 0 slots moves = (0, slots, moves).
Proof. by destruct fuel. Qed.

Lemma drain_spec fuel source pending slots moves :
  slots_ok slots → 0 ≤ pending → (open_receivers slots < fuel)%nat →
  drain_post source pending slots moves (drain fuel source pending slots moves).
Proof.
  revert pending slots moves.
  induction fuel as [|fuel IH]; intros pending slots moves Hok Hp Hf; [lia|]. simpl.
  destruct (pending <=? 0) eqn:E0; bools; [apply drain_post_stop; auto with lia|].
  destruct (pick_receiver source slots) as [[tid free]|] eqn:Ep.
  2:{ apply drain_post_stop; auto. right. apply pick_receiver_none; [apply Hok|done]. }
  destruct (pick_receiver_spec _ _ _ _ (proj1 Hok) Ep) as (Hget & Hfree & Htid).
  destruct (Z.min pending free <=? 0) eqn:Em; bools; [lia|].
  apply (drain_post_step _ _ _ _ tid free (Z.min pending free)); [done|done|lia|].
  destruct (Z.le_gt_cases pending free) as [Hle|Hgt].
  - rewrite Z.min_l, Z.sub_diag, drain_zero by lia.
    apply drain_post_stop; auto with lia. apply slots_ok_dset; auto with lia.
  - rewrite Z.min_r, Z.sub_diag by lia. apply IH; [by apply slots_ok_dset|lia|].
    pose proof (open_receivers_close tid free slots (proj1 Hok) Hget Hfree). lia.
Qed.

Lemma drain_all_spec source pending slots moves :
  slots_ok slots → 0 ≤ pending →
  drain_post source pending slots moves (drain_all source pending slots moves).
Proof. intros. apply drain_spec; auto with lia. Qed.

(** ** The plan *)

Record RebalancePlanRequest : Type := mkPlanRequest {
  high_watermark : float;
  target_watermark : float;
  max_moves_per_node : Z
}.

Record RebalancePlanOut : Type := mkPlanOut {
  generated_at : Z;
  overloaded_ids : list string;
  underloaded_ids : list string;
  total_peers_to_move : Z;
  plan_moves : list RebalanceMoveOut
}.

(** [int(node.max_peers * watermark)] *)
Definition target_count (watermark : float) (n : NodeMetadata) : res Z :=
  trunc (fmul (of_Z n.(max_peers)) watermark).

Definition is_overloaded (high : float) (n : NodeMetadata) : bool :=
  (0 <? n.(max_peers)) && fge (load_ratio n) high && schedulable_status n &&
  negb n.(is_draining).

Definition is_underloaded (target : float) (n : NodeMetadata) : bool :=
  (0 <? n.(max_peers)) && flt (load_ratio n) target && schedulable_status n &&
  negb n.(is_draining).

(** [receiver_slots]: the peers each underloaded node may still take. *)
Definition receiver_slots_of (target : float) (underloaded : list NodeMetadata)
    : res (list (string * Z)) :=
  foldl_res (λ slots n,
    t ← target_count target n;
    Ok (dset n.(node_id) (Z.max (t - n.(peer_count)) 0) slots)) [] underloaded.

(** [sorted(overloaded, key=load, reverse=True)] *)
Definition by_load_desc (l : list NodeMetadata) : list NodeMetadata :=
  sorted_by (λ a b, flt (load_ratio b) (load_ratio a)) l.

(** Peers of [n] that may leave: above its target and not pinned. *)
Definition movable_of (pinned_counts : list (string * Z)) (source_target : Z)
    (n : NodeMetadata) : Z :=
  let pinned := Z.max (default 0 (dget n.(node_id) pinned_counts)) 0 in
  Z.max (n.(peer_count) - pinned - source_target) 0.

(** The body of the loop over the overloaded nodes, on
    [(receiver_slots, moves, pinned_limited_nodes)]. *)
Definition plan_source (req : RebalancePlanRequest) (pinned_counts : list (string * Z))
    (st : list (string * Z) * list RebalanceMoveOut * list string) (source : NodeMetadata)
    : res (list (string * Z) * list RebalanceMoveOut * list string) :=
  let '(slots, moves, limited) := st in
  source_target ← target_count req.(target_watermark) source;
  let movable := movable_of pinned_counts source_target source in
  let pending := Z.min movable req.(max_moves_per_node) in
  let limited :=
    if (movable <=? 0) && (source_target <? source.(peer_count))
    then limited ++ [source.(node_id)] else limited in
  if pending <=? 0 then Ok (slots, moves, limited)
  else
    let '(_, slots, moves) := drain_all source.(node_id) pending slots moves in
    Ok (slots, moves, limited).

Definition plan_rebalance (settings : Settings) (now : Z) (d : db) (topo : ClusterTopology)
    (request : RebalancePlanRequest) : res (db * RebalancePlanOut) :=
  if fge request.(target_watermark) request.(high_watermark)
  then Err (ValueError "target_watermark must be lower than high_watermark")
  else
    let overloaded := filterb (is_overloaded request.(high_watermark)) topo.(nodes) in
    let underloaded := filterb (is_underloaded request.(target_watermark)) topo.(nodes) in
    slots ← receiver_slots_of request.(target_watermark) underloaded;
    let pinned_counts := _enterprise_pinned_counts settings d (node_id <$> overloaded) in
    '(_, moves, limited) ←
      foldl_res (plan_source request pinned_counts) (slots, [], []) (by_load_desc overloaded);
    let event := mkEvent "rebalance.plan.generated" "info" None
      (PlanGenerated request.(high_watermark) request.(target_watermark) moves pinned_counts
         limited) in
    Ok (add_event event d,
        mkPlanOut now (node_id <$> overloaded) (node_id <$> underloaded)
          (sumZ (peers_to_move <$> moves)) moves).

(** The rebalance suggestions of the topology graph: the same loop without the
    pinned peers; every move becomes an edge. *)
Definition rebalance_edge (m : RebalanceMoveOut) : TopologyGraphEdgeOut :=
  mkEdge m.(source_node_id) m.(target_node_id) "rebalance_suggested" (of_Z m.(peers_to_move))
    (str_of_Z m.(peers_to_move) +:+ " peers").

Definition graph_source (target : float) (max_moves : Z)
    (st : list (string * Z) * list RebalanceMoveOut) (source : NodeMetadata)
    : res (list (string * Z) * list RebalanceMoveOut) :=
  let '(slots, edges) := st in
  source_target ← target_count target source;
  let pending := Z.min (Z.max (source.(peer_count) - source_target) 0) max_moves in
  let '(_, slots, edges) := drain_all source.(node_id) pending slots edges in
  Ok (slots, edges).

Definition _graph_rebalance_edges (topo : ClusterTopology) (high target : float) (max_moves : Z)
    : res (list TopologyGraphEdgeOut) :=
  let overloaded := filterb (is_overloaded high) topo.(nodes) in
  let underloaded := filterb (is_underloaded target) topo.(nodes) in
  slots ← receiver_slots_of target underloaded;
  '(_, edges) ← foldl_res (graph_source target max_moves) (slots, []) (by_load_desc overloaded);
  Ok (fmap (M:=list) rebalance_edge edges).

(** ** The slots *)

Lemma foldl_res_snoc {A B} (f : A → B → res A) a l b :
  foldl_res f a (l ++ [b]) = (a' ← foldl_res f a l; f a' b).
Proof.
  revert a; induction l as [|x l IH]; intros a; simpl.
  - by destruct (f a b).
  - by destruct (f a x); simpl.
Qed.

(** A receiver's slots are the room below its target. *)
Lemma receiver_slots_spec target l slots :
  receiver_slots_of target l = Ok slots →
  slots_ok slots ∧ (∀ t, t ∈ dkeys slots ↔ t ∈ node_id <$> l) ∧
  (NoDup (node_id <$> l) → ∀ n, n ∈ l →
     ∃ c, target_count target n = Ok c ∧
          slots_of n.(node_id) slots = Z.max (c - n.(peer_count)) 0).
Proof.
  unfold receiver_slots_of. revert slots.
  induction l as [|n l IH] using rev_ind; intros slots.
  - intros [= <-]. split_and!; [|done|].
    + split; [constructor|done].
    + intros _ n Hn. set_solver.
  - rewrite foldl_res_snoc. intros (s & Hs & (c & Hc & [= <-])%res_bind_ok)%res_bind_ok.
    destruct (IH s Hs) as (Hok & Hk & Hsl). split_and!.
    + apply slots_ok_dset; [done|lia].
    + intros t. rewrite elem_of_dkeys_dset, Hk, fmap_app. set_solver.
    + rewrite fmap_app. intros (Hnd & Hni & _)%NoDup_app m Hm.
      rewrite slots_of_dset. apply elem_of_app in Hm as [Hm|Hm].
      * destruct (Hsl Hnd m Hm) as (c' & Hc' & He). exists c'. split; [done|].
        rewrite decide_False; [done|]. intros Heq.
        apply (Hni m.(node_id)); [by apply list_elem_of_fmap_2|].
        rewrite Heq. simpl. set_solver.
      * apply list_elem_of_singleton in Hm as ->. exists c. by rewrite decide_True.
Qed.

(** ** The loop over the sources *)

(** The same loop once the pending count of every source is known. *)
Definition drain_source (pend : NodeMetadata → Z)
    (st : list (string * Z) * list RebalanceMoveOut) (n : NodeMetadata)
    : list (string * Z) * list RebalanceMoveOut :=
  if pend n <=? 0 then st
  else let '(_, slots, moves) := drain_all n.(node_id) (pend n) st.1 st.2 in (slots, moves).

Definition drain_inv (pend : NodeMetadata → Z) (sources : list NodeMetadata)
    (slots0 : list (string * Z)) (st : list (string * Z) * list RebalanceMoveOut) : Prop :=
  let '(slots, moves) := st in
  slots_ok slots ∧ dkeys slots = dkeys slots0 ∧
  (∀ t, moved_to t moves = slots_of t slots0 - slots_of t slots) ∧
  (∀ s, s ∉ node_id <$> sources → moved_from s moves = 0) ∧
  (∀ n, n ∈ sources →
     0 ≤ moved_from n.(node_id) moves ≤ Z.max (pend n) 0 ∧
     (moved_from n.(node_id) moves = Z.max (pend n) 0 ∨
      ∀ t, t ≠ n.(node_id) → slots_of t slots ≤ 0)) ∧
  Forall (λ m, m.(source_node_id) ∈ node_id <$> sources ∧
               m.(target_node_id) ≠ m.(source_node_id) ∧
               m.(target_node_id) ∈ dkeys slots0 ∧ 0 < m.(peers_to_move)) moves.

Lemma slots_of_le_0_mono slots slots' t :
  slots_ok slots' → slots_of t slots' ≤ slots_of t slots → slots_of t slots ≤ 0 →
  slots_of t slots' ≤ 0.
Proof. lia. Qed.

Lemma moved_to_nonneg t moves :
  Forall (λ m, 0 < m.(peers_to_move)) moves → 0 ≤ moved_to t moves.
Proof.
  intros H. unfold moved_to. apply sumZ_nonneg. apply Forall_fmap, Forall_forall.
  intros m Hm%list_elem_of_filter. simpl.
  pose proof (proj1 (Forall_forall _ _) H m (proj2 Hm)). simpl in *. lia.
Qed.

Lemma moved_from_nonneg s moves :
  Forall (λ m, 0 < m.(peers_to_move)) moves → 0 ≤ moved_from s moves.
Proof.
  intros H. unfold moved_from. apply sumZ_nonneg. apply Forall_fmap, Forall_forall.
  intros m Hm%list_elem_of_filter. simpl.
  pose proof (proj1 (Forall_forall _ _) H m (proj2 Hm)). simpl in *. lia.
Qed.

Lemma drain_source_inv pend sources slots0 n st :
  n.(node_id) ∉ node_id <$> sources →
  drain_inv pend sources slots0 st →
  drain_inv pend (sources ++ [n]) slots0 (drain_source pend st n).
Proof.
  destruct st as [slots moves]. intros Hn (Hok & Hk & Hto & Hfr0 & Hfr & Hall).
  assert (∀ slots' moves', slots_ok slots' → dkeys slots' = dkeys slots →
    (∃ new, moves' = moves ++ new ∧ Forall (good_move n.(node_id) slots) new) →
    (∀ t, moved_to t moves' - moved_to t moves = slots_of t slots - slots_of t slots') →
    (∀ s, s ≠ n.(node_id) → moved_from s moves' = moved_from s moves) →
    0 ≤ moved_from n.(node_id) moves' ≤ Z.max (pend n) 0 ∧
    (moved_from n.(node_id) moves' = Z.max (pend n) 0 ∨
      ∀ t, t ≠ n.(node_id) → slots_of t slots' ≤ 0) →
    drain_inv pend (sources ++ [n]) slots0 (slots', moves')) as Hgen.
  { intros slots' moves' Hok' Hk' (new & -> & Hnew) Hto' Hoth Hme.
    assert (∀ t, slots_of t slots' ≤ slots_of t slots) as Hmono.
    { intros t. specialize (Hto' t). rewrite moved_to_app in Hto'.
      assert (0 ≤ moved_to t new); [|lia]. apply moved_to_nonneg.
      eapply Forall_impl; [exact Hnew|]. intros m Hm. apply Hm. }
    unfold drain_inv. rewrite Hk', Hk. split_and!; auto.
    - intros t. specialize (Hto t). specialize (Hto' t). lia.
    - intros s. rewrite fmap_app. simpl. intros Hs. rewrite Hoth by set_solver.
      apply Hfr0. set_solver.
    - intros m [Hm| ->%list_elem_of_singleton]%elem_of_app; [|done].
      assert (m.(node_id) ≠ n.(node_id)) as Hne.
      { intros E. apply Hn. rewrite <- E. by apply list_elem_of_fmap_2. }
      rewrite (Hoth _ Hne). destruct (Hfr m Hm) as [? [?|Hz]]; split; auto.
      right. intros t Ht. specialize (Hz t Ht). specialize (Hmono t). lia.
    - apply Forall_app. split; (eapply Forall_impl; [eassumption|]); intros m; simpl;
        rewrite fmap_app; [set_solver|].
      intros (-> & ? & ? & ?). rewrite <- Hk. set_solver. }
  unfold drain_source. destruct (pend n <=? 0) eqn:E; bools.
  - apply Hgen; auto with lia.
    + exists []. by rewrite app_nil_r.
    + rewrite Hfr0 by done. lia.
  - simpl. pose proof (drain_all_spec n.(node_id) (pend n) slots moves Hok ltac:(lia)) as Hd.
    destruct (drain_all _ _ _ _) as [[p' s'] m'].
    destruct Hd as (Hok' & Hk' & Hnew & Hp' & Hfrom & Hoth & Hto' & Hstop).
    apply Hgen; auto. rewrite (Hfr0 _ Hn) in Hfrom.
    assert (0 ≤ moved_from n.(node_id) m') as Hpos.
    { destruct Hnew as (new & -> & Hnew). apply moved_from_nonneg, Forall_app.
      split; (eapply Forall_impl; [eassumption|]); intros m; simpl; [|intros Hm; apply Hm].
      by intros (_ & _ & _ & ?). }
    split; [lia|].
    destruct Hstop; [left; lia|by right].
Qed.

Lemma drain_sources_inv pend sources slots0 :
  slots_ok slots0 → NoDup (node_id <$> sources) →
  drain_inv pend sources slots0 (foldl (drain_source pend) (slots0, []) sources).
Proof.
  intros Hok. induction sources as [|n sources IH] using rev_ind; intros Hnd.
  - simpl. split_and!; [done|done| |done| |done].
    + intros t. unfold moved_to; simpl. lia.
    + intros n Hn. set_solver.
  - rewrite foldl_app. simpl. rewrite fmap_app in Hnd.
    apply NoDup_app in Hnd as (Hnd & Hni & _).
    apply drain_source_inv; [|auto]. intros Hin. apply (Hni _ Hin). simpl. set_solver.
Qed.

(** ** From the code's loop to the greedy loop *)

(** What a source still has to give: [min(movable, max_moves_per_node)]. *)
Definition plan_pending (req : RebalancePlanRequest) (pinned : list (string * Z))
    (n : NodeMetadata) : Z :=
  match target_count req.(target_watermark) n with
  | Ok c => Z.min (movable_of pinned c n) req.(max_moves_per_node)
  | Err _ => 0
  end.

Lemma plan_source_drain req pinned st n st' :
  plan_source req pinned st n = Ok st' →
  st'.1 = drain_source (plan_pending req pinned) st.1 n ∧
  is_ok (target_count req.(target_watermark) n) = true.
Proof.
  destruct st as [[slots moves] lim]. unfold plan_source, drain_source, plan_pending.
  destruct (target_count _ _) as [c|]; simpl; [|done]. intros Hst. split; [|done].
  destruct (Z.min _ _ <=? 0); [by simplify_eq|].
  destruct (drain_all _ _ _ _) as [[? ?] ?]. by simplify_eq.
Qed.

Lemma plan_sources_drain req pinned l st out :
  foldl_res (plan_source req pinned) st l = Ok out →
  out.1 = foldl (drain_source (plan_pending req pinned)) st.1 l ∧
  Forall (λ n, is_ok (target_count req.(target_watermark) n) = true) l.
Proof.
  revert st. induction l as [|n l IH]; intros st; simpl.
  - by intros [= <-].
  - intros (st' & [Hst Hok]%plan_source_drain & Hl)%res_bind_ok.
    destruct (IH _ Hl) as [-> Hall]. rewrite Hst. split; [done|by constructor].
Qed.

Lemma by_load_desc_perm l : by_load_desc l ≡ₚ l.
Proof. apply sorted_by_perm. Qed.

(** A node is never both above the high and below the target watermark. *)
Lemma not_over_and_under high target n :
  fge target high = false →
  is_overloaded high n = true → is_underloaded target n = true → False.
Proof.
  unfold is_overloaded, is_underloaded, fge. intros Hth Ho Hu. bools.
  change (fle high target = false) in Hth.
  assert (fle high target = true) as Hc; [|congruence].
  apply flt_le. by eapply fle_lt_trans.
Qed.

Lemma id_in_filter (p : NodeMetadata → bool) l n :
  NoDup (node_id <$> l) → n ∈ l → n.(node_id) ∈ node_id <$> filterb p l →
  p n = true ∧ n ∈ filterb p l.
Proof.
  intros Hnd Hn (m & E & [Hp Hm]%elem_of_filterb)%list_elem_of_fmap.
  assert (n = m) as -> by (by eapply (NoDup_fmap_inj node_id)). split; [done|by apply elem_of_filterb].
Qed.

Lemma slots_of_nonneg t slots : slots_ok slots → 0 ≤ slots_of t slots.
Proof.
  intros [_ Hp]. unfold slots_of. destruct (dget t slots) eqn:E; simpl; [by eapply Hp|lia].
Qed.

Lemma slots_of_out t slots : t ∉ dkeys slots → slots_of t slots = 0.
Proof. unfold slots_of. by intros ->%dget_None. Qed.

(** Summing what each source gives counts every move once. *)
Lemma sum_moved_from l moves :
  NoDup (node_id <$> l) →
  Forall (λ m, m.(source_node_id) ∈ node_id <$> l) moves →
  sumZ ((λ n, moved_from n.(node_id) moves) <$> l) = sumZ (peers_to_move <$> moves).
Proof.
  intros Hnd. induction 1 as [|m moves Hm _ IH].
  - clear Hnd. induction l as [|n l IH]; [done|].
    rewrite fmap_cons, sumZ_cons, IH. by change (moved_from n.(node_id) []) with 0.
  - rewrite (fmap_cons peers_to_move), sumZ_cons, <- IH. clear IH.
    assert (∀ n, moved_from n (m :: moves) =
      (if String.eqb m.(source_node_id) n then m.(peers_to_move) else 0) + moved_from n moves)
      as Hcons by (intros n; change (m :: moves) with ([m] ++ moves);
                   by rewrite moved_from_app, moved_from_single).
    assert (sumZ ((λ n, moved_from n.(node_id) (m :: moves)) <$> l) =
      sumZ ((λ n, if String.eqb m.(source_node_id) n.(node_id) then m.(peers_to_move) else 0) <$> l)
      + sumZ ((λ n, moved_from n.(node_id) moves) <$> l)) as ->.
    { clear Hnd Hm. induction l as [|n l IH]; [done|].
      rewrite !fmap_cons, !sumZ_cons, Hcons, IH. lia. }
    f_equal. clear Hcons.
    induction l as [|n l IH]; [set_solver|]. rewrite fmap_cons, sumZ_cons.
    rewrite fmap_cons in Hnd, Hm.
    apply NoDup_cons in Hnd as [Hn Hnd].
    destruct (String.eqb_spec m.(source_node_id) n.(node_id)) as [E|E].
    + rewrite E. assert (sumZ ((λ n0, if String.eqb n.(node_id) n0.(node_id)
        then m.(peers_to_move) else 0) <$> l) = 0); [|lia].
      clear - Hn. induction l as [|x l IH]; [done|]. rewrite fmap_cons in Hn.
      rewrite not_elem_of_cons in Hn. destruct Hn as [Hx Hn].
      rewrite fmap_cons, sumZ_cons, IH by done. by rewrite (proj2 (String.eqb_neq _ _) Hx).
    + apply elem_of_cons in Hm as [Hm|Hm]; [done|]. rewrite IH by done. lia.
Qed.

(** ** What a plan guarantees *)

Section plan.
Context (settings : Settings) (now : Z) (d d' : db) (topo : ClusterTopology)
  (req : RebalancePlanRequest) (out : RebalancePlanOut).
Context (Hnd : NoDup (node_id <$> topo.(nodes)))
        (Hplan : plan_rebalance settings now d topo req = Ok (d', out)).

Let over := filterb (is_overloaded req.(high_watermark)) topo.(nodes).
Let under := filterb (is_underloaded req.(target_watermark)) topo.(nodes).
Let pinned := _enterprise_pinned_counts settings d (node_id <$> over).

Lemma plan_inv :
  fge req.(target_watermark) req.(high_watermark) = false ∧
  out.(total_peers_to_move) = sumZ (peers_to_move <$> out.(plan_moves)) ∧
  ∃ slots0 slots,
    receiver_slots_of req.(target_watermark) under = Ok slots0 ∧
    drain_inv (plan_pending req pinned) (by_load_desc over) slots0
      (slots, out.(plan_moves)) ∧
    Forall (λ n, is_ok (target_count req.(target_watermark) n) = true) over.
Proof using All.
  unfold plan_rebalance in Hplan. destruct (fge _ _) eqn:Ew; [done|].
  apply res_bind_ok in Hplan as (slots0 & Hs0 & Hp).
  apply res_bind_ok in Hp as ([[slots moves] lim] & Hf & [= _ <-]).
  destruct (plan_sources_drain _ _ _ _ _ Hf) as [Hout Hall]. simpl in Hout.
  split_and!; [done|done|]. exists slots0, slots. split_and!; [done| |].
  - cbn [plan_moves]. fold over pinned in Hout. rewrite Hout.
    apply drain_sources_inv; [by eapply receiver_slots_spec|].
    rewrite by_load_desc_perm. by apply NoDup_fmap_filterb.
  - by rewrite <- by_load_desc_perm.
Qed.

Lemma plan_moved_to_nonneg t : 0 ≤ moved_to t out.(plan_moves).
Proof using All.
  destruct plan_inv as (_ & _ & slots0 & slots & _ & (_ & _ & _ & _ & _ & Hall) & _).
  apply moved_to_nonneg. eapply Forall_impl; [exact Hall|]. simpl. tauto.
Qed.

(** C1: no receiver of a rebalance plan ends above the target: a node either
    receives nothing, or is below the target watermark, schedulable and not
    draining, and with what it receives still holds at most
    [int(max_peers * target_watermark)] peers. *)
Theorem plan_receivers_within_target n :
  n ∈ topo.(nodes) →
  moved_to n.(node_id) out.(plan_moves) = 0 ∨
  is_underloaded req.(target_watermark) n = true ∧
  ∃ c, target_count req.(target_watermark) n = Ok c ∧
       0 < moved_to n.(node_id) out.(plan_moves) ∧
       n.(peer_count) + moved_to n.(node_id) out.(plan_moves) ≤ c.
Proof using All.
  intros Hn. destruct plan_inv as (_ & _ & slots0 & slots & Hs0 & Hinv & _).
  destruct Hinv as (Hok & _ & Hto & _ & _ & _).
  destruct (receiver_slots_spec _ _ _ Hs0) as (Hok0 & Hk0 & Hsl).
  specialize (Hto n.(node_id)). pose proof (slots_of_nonneg n.(node_id) slots Hok).
  pose proof (plan_moved_to_nonneg n.(node_id)).
  destruct (decide (n.(node_id) ∈ dkeys slots0)) as [Hin|Hout].
  - apply Hk0, (id_in_filter _ _ _ Hnd Hn) in Hin as [Hu Hin].
    destruct (Hsl (NoDup_fmap_filterb node_id _ _ Hnd) n Hin) as (c & Hc & E).
    destruct (decide (moved_to n.(node_id) out.(plan_moves) = 0)); [by left|].
    right. split; [done|]. exists c. split; [done|]. lia.
  - left. rewrite (slots_of_out _ _ Hout) in Hto. lia.
Qed.

(** No node of a rebalance plan gives away too much: a node that gives
    peers is above the high watermark, schedulable and not draining, gives at
    most [max_moves_per_node], and keeps at least its target count and every
    peer pinned to it by an enterprise subscription. *)
Theorem plan_sources_keep_pinned n :
  n ∈ topo.(nodes) →
  moved_from n.(node_id) out.(plan_moves) = 0 ∨
  is_overloaded req.(high_watermark) n = true ∧
  ∃ c, target_count req.(target_watermark) n = Ok c ∧
       0 < moved_from n.(node_id) out.(plan_moves) ≤ req.(max_moves_per_node) ∧
       c + default 0 (dget n.(node_id) pinned)
         ≤ n.(peer_count) - moved_from n.(node_id) out.(plan_moves).
Proof using All.
  intros Hn. destruct plan_inv as (_ & _ & slots0 & slots & Hs0 & Hinv & Hall).
  destruct Hinv as (_ & _ & _ & Hz & Hfr & _).
  setoid_rewrite by_load_desc_perm in Hz. setoid_rewrite by_load_desc_perm in Hfr.
  destruct (decide (n.(node_id) ∈ node_id <$> over)) as [Hin|Hout]; [|left; auto].
  apply (id_in_filter _ _ _ Hnd Hn) in Hin as [Ho Hin].
  destruct (Hfr n Hin) as [Hb _]. unfold plan_pending in Hb.
  destruct (decide (moved_from n.(node_id) out.(plan_moves) = 0)); [by left|right].
  split; [done|]. destruct (target_count _ _) as [c|] eqn:Ec; [|lia].
  exists c. split; [done|]. unfold movable_of in Hb. lia.
Qed.

(** A rebalance plan is consistent: no node is both a source and a
    receiver, every move takes at least one peer between two different nodes
    of the cluster, and [total_peers_to_move] is what the overloaded nodes
    give away. *)
Theorem plan_moves_consistent :
  (∀ m m', m ∈ out.(plan_moves) → m' ∈ out.(plan_moves) →
     m.(source_node_id) ≠ m'.(target_node_id)) ∧
  Forall (λ m, 0 < m.(peers_to_move) ∧
     m.(source_node_id) ∈ node_id <$> over ∧ m.(target_node_id) ∈ node_id <$> under)
    out.(plan_moves) ∧
  out.(total_peers_to_move) =
    sumZ ((λ n, moved_from n.(node_id) out.(plan_moves)) <$> over).
Proof using All.
  destruct plan_inv as (Hth & Htot & slots0 & slots & Hs0 & Hinv & _).
  destruct Hinv as (_ & _ & _ & _ & _ & Hall).
  destruct (receiver_slots_spec _ _ _ Hs0) as (_ & Hk0 & _).
  assert (Forall (λ m, 0 < m.(peers_to_move) ∧ m.(source_node_id) ∈ node_id <$> over ∧
    m.(target_node_id) ∈ node_id <$> under) out.(plan_moves)) as Hm.
  { eapply Forall_impl; [exact Hall|]. intros m. simpl.
    rewrite by_load_desc_perm, <- Hk0. tauto. }
  split_and!; [|done|].
  - intros m m' Hin Hin' E. rewrite Forall_forall in Hm.
    destruct (Hm m Hin) as (_ & (a & Ha & Hina)%list_elem_of_fmap & _).
    destruct (Hm m' Hin') as (_ & _ & (b & Hb & Hinb)%list_elem_of_fmap).
    apply elem_of_filterb in Hina as [Ho Hina], Hinb as [Hu Hinb].
    assert (a = b) as <- by (eapply (NoDup_fmap_inj node_id topo.(nodes)); eauto; congruence).
    by eapply not_over_and_under.
  - rewrite Htot. symmetry. apply sum_moved_from; [by apply NoDup_fmap_filterb|].
    eapply Forall_impl; [exact Hm|]. intros m Hx. apply Hx.
Qed.

(** A rebalance plan never stops early: each overloaded node either gives
    away everything it may (its unpinned peers above the target, up to
    [max_moves_per_node]), or every underloaded node ends full: below the
    target by no peer at all. *)
Theorem plan_work_conserving n r c :
  n ∈ over → r ∈ under → target_count req.(target_watermark) r = Ok c →
  moved_from n.(node_id) out.(plan_moves) = Z.max (plan_pending req pinned n) 0 ∨
  c ≤ r.(peer_count) + moved_to r.(node_id) out.(plan_moves).
Proof using All.
  intros Hn Hr Hc. destruct plan_inv as (Hth & _ & slots0 & slots & Hs0 & Hinv & _).
  destruct Hinv as (Hok & _ & Hto & _ & Hfr & _).
  setoid_rewrite by_load_desc_perm in Hfr.
  destruct (receiver_slots_spec _ _ _ Hs0) as (_ & _ & Hsl).
  destruct (Hfr n Hn) as [_ [E|Hfull]]; [by left|right].
  destruct (Hsl (NoDup_fmap_filterb node_id _ _ Hnd) r Hr) as (c' & Hc' & E).
  rewrite Hc' in Hc. injection Hc as <-.
  specialize (Hto r.(node_id)). specialize (Hfull r.(node_id)).
  assert (r.(node_id) ≠ n.(node_id)) as Hne; [|specialize (Hfull Hne); lia].
  intros Heq. apply elem_of_filterb in Hn as [Ho Hn], Hr as [Hu Hr].
  assert (r = n) as -> by (eapply (NoDup_fmap_inj node_id topo.(nodes)); eauto).
  by eapply not_over_and_under.
Qed.
End plan.

(** ** A concrete plan *)

Definition wit_request : RebalancePlanRequest := mkPlanRequest (lit 85 2) (lit 60 2) 20.

Definition wit_topo : ClusterTopology :=
  mkTopology 0 [test_node "a" "healthy" 90 100 f1; test_node "b" "healthy" 10 100 f1;
                test_node "c" "degraded" 52 100 f1; test_node "d" "healthy" 95 100 f1]
    400 247 (lit 6175 4) (lit 6175 4) f1 f1 (lit 3825 4) 1.

Definition wit_plan : db * RebalancePlanOut :=
  Eval vm_compute in
    match plan_rebalance default_settings 0 empty_db wit_topo wit_request with
    | Ok r => r
    | Err _ => (empty_db, mkPlanOut 0 [] [] 0 [])
    end.

Example wit_plan_moves :
  wit_plan.2.(plan_moves) =
    [mkMove "d" "b" 20; mkMove "a" "b" 20].
Proof. reflexivity. Qed.

Lemma wit_plan_ok :
  NoDup (node_id <$> wit_topo.(nodes)) ∧
  plan_rebalance default_settings 0 empty_db wit_topo wit_request = Ok (wit_plan.1, wit_plan.2).
Proof. split; [apply (bool_decide_unpack _); vm_compute; exact I|vm_compute; reflexivity]. Qed.

Lemma plan_receivers_within_target_witness :
  moved_to "b" wit_plan.2.(plan_moves) = 40 ∧
  (moved_to "b" wit_plan.2.(plan_moves) = 0 ∨
   is_underloaded (lit 60 2) (test_node "b" "healthy" 10 100 f1) = true ∧
   ∃ c, target_count (lit 60 2) (test_node "b" "healthy" 10 100 f1) = Ok c ∧
        0 < moved_to "b" wit_plan.2.(plan_moves) ∧
        10 + moved_to "b" wit_plan.2.(plan_moves) ≤ c).
Proof.
  split; [vm_compute; reflexivity|].
  apply (plan_receivers_within_target default_settings 0 empty_db wit_plan.1 wit_topo wit_request
    wit_plan.2 (proj1 wit_plan_ok) (proj2 wit_plan_ok) (test_node "b" "healthy" 10 100 f1)).
  right; left.
Defined.

Lemma plan_sources_keep_pinned_witness :
  moved_from "a" wit_plan.2.(plan_moves) = 20 ∧
  (moved_from "a" wit_plan.2.(plan_moves) = 0 ∨
   is_overloaded (lit 85 2) (test_node "a" "healthy" 90 100 f1) = true ∧
   ∃ c, target_count (lit 60 2) (test_node "a" "healthy" 90 100 f1) = Ok c ∧
        0 < moved_from "a" wit_plan.2.(plan_moves) ≤ 20 ∧
        c + 0 ≤ 90 - moved_from "a" wit_plan.2.(plan_moves)).
Proof.
  split; [vm_compute; reflexivity|].
  apply (plan_sources_keep_pinned default_settings 0 empty_db wit_plan.1 wit_topo wit_request
    wit_plan.2 (proj1 wit_plan_ok) (proj2 wit_plan_ok) (test_node "a" "healthy" 90 100 f1)).
  left.
Defined.

Lemma plan_moves_consistent_witness :
  wit_plan.2.(total_peers_to_move) = 40 ∧
  "a" ≠ "b".
Proof.
  split; [reflexivity|].
  apply (proj1 (plan_moves_consistent default_settings 0 empty_db wit_plan.1 wit_topo wit_request
    wit_plan.2 (proj1 wit_plan_ok) (proj2 wit_plan_ok)) (mkMove "a" "b" 20) (mkMove "a" "b" 20));
    right; left.
Defined.

Lemma plan_work_conserving_witness :
  moved_from "a" wit_plan.2.(plan_moves) = 20 ∨ 60 ≤ 10 + moved_to "b" wit_plan.2.(plan_moves).
Proof.
  apply (plan_work_conserving default_settings 0 empty_db wit_plan.1 wit_topo wit_request
    wit_plan.2 (proj1 wit_plan_ok) (proj2 wit_plan_ok) (test_node "a" "healthy" 90 100 f1)
    (test_node "b" "healthy" 10 100 f1) 60); apply elem_of_filterb || vm_compute; try reflexivity;
    (split; [vm_compute; reflexivity|]); [left|right; left].
Defined.
