(* ===== verification/Planning.v ===== *)
(** * Planning on a topology ([control_plane_service.py])

    The topology summary and graph, placement simulation, failover evaluation
    and the latency probes. *)

From S2P Require Import Prelude PyFloat PyStr Settings Models Node LoadBalancer ControlPlaneDb Rebalance.
Open Scope Z_scope.

(** ** Summary *)

Record TopologySummaryOut : Type := mkSummary {
  nodes_total : Z;
  healthy_nodes : Z;
  degraded_nodes : Z;
  unhealthy_nodes : Z;
  draining_nodes : Z;
  overloaded_nodes : Z;
  sum_total_capacity : Z;
  sum_current_load : Z;
  sum_load_factor : float;
  sum_health_score : float;
  sum_topology_version : Z
}.

(** [node.peer_count / node.max_peers if node.max_peers > 0 else 0.0] *)
Definition load_ratio0 (n : NodeMetadata) : float :=
  if 0 <? n.(max_peers) then load_ratio n else f0.

Definition has_status (s : string) (n : NodeMetadata) : bool := String.eqb n.(status) s.

Definition build_topology_summary (topo : ClusterTopology) (overload_threshold : float)
    : TopologySummaryOut := {|
  nodes_total := Z.of_nat (length topo.(nodes));
  healthy_nodes := countZ (has_status "healthy") topo.(nodes);
  degraded_nodes := countZ (has_status "degraded") topo.(nodes);
  unhealthy_nodes := countZ (has_status "unhealthy") topo.(nodes);
  draining_nodes := countZ is_draining topo.(nodes);
  overloaded_nodes := countZ (λ n, fge (load_ratio0 n) overload_threshold) topo.(nodes);
  sum_total_capacity := topo.(total_capacity);
  sum_current_load := topo.(current_load);
  sum_load_factor := topo.(load_factor);
  sum_health_score := topo.(topo_health_score);
  sum_topology_version := topo.(topology_version)
|}.

(** ** Failover *)

Definition is_failed (n : NodeMetadata) : bool :=
  String.eqb n.(status) "unhealthy" || flt (f_or0 n.(health_score)) (lit 5 1).

Definition is_fallback (n : NodeMetadata) : bool :=
  str_in n.(status) ["healthy"; "degraded"] && negb n.(is_draining) &&
  (n.(peer_count) <? n.(max_peers)).

Definition score_gt (settings : Settings) (a b : NodeMetadata) : bool :=
  fgt (calculate_node_score settings a) (calculate_node_score settings b).

(** [pool = regional if regional else fallback_candidates] *)
Definition or_else {A} (l l' : list A) : list A := match l with [] => l' | _ => l end.

Record FailoverEvaluateOut : Type := mkFailover {
  fo_generated_at : Z;
  failed_nodes : list string;
  fallback_nodes : list string;
  mappings : list (string * option string);
  provisioning_paused_nodes : list string
}.

(** The candidates of the failed node's own region ([None] when unknown). *)
Definition regional_of (regions : list (string * string)) (candidates : list NodeMetadata)
    (failed_node : NodeMetadata) : list NodeMetadata :=
  filterb (λ c, bool_decide (dget c.(node_id) regions = dget failed_node.(node_id) regions))
    candidates.

(** [max(pool, key=calculate_node_score)]; [None] when the pool is empty. *)
Definition failover_choice (settings : Settings) (regions : list (string * string))
    (candidates : list NodeMetadata) (failed_node : NodeMetadata) : option NodeMetadata :=
  py_max (score_gt settings) (or_else (regional_of regions candidates failed_node) candidates).

(** The loop body over the failed nodes, on [(db, mappings)]. *)
Definition failover_step (settings : Settings) (regions : list (string * string))
    (candidates : list NodeMetadata) (st : db * list (string * option string))
    (failed_node : NodeMetadata) : db * list (string * option string) :=
  let '(d, mappings) := st in
  match failover_choice settings regions candidates failed_node with
  | None => (d, dset failed_node.(node_id) None mappings)
  | Some chosen =>
      (add_event (mkEvent "failover.candidate.selected" "warning" (Some failed_node.(node_id))
         (FailoverSelected failed_node.(node_id) chosen.(node_id)
            (bool_decide (regional_of regions candidates failed_node ≠ [])))) d,
       dset failed_node.(node_id) (Some chosen.(node_id)) mappings)
  end.

Definition evaluate_failover (settings : Settings) (now : Z) (d : db) (topo : ClusterTopology)
    : db * FailoverEvaluateOut :=
  let regions := _node_regions d (node_id <$> topo.(nodes)) in
  let failed := filterb is_failed topo.(nodes) in
  let fallback_candidates := filterb is_fallback topo.(nodes) in
  let '(d, mappings) :=
    foldl (failover_step settings regions fallback_candidates) (d, []) failed in
  (d, mkFailover now (node_id <$> failed) (node_id <$> fallback_candidates) mappings
        (node_id <$> failed)).

(** ** The topology graph *)

Record TopologyGraphNodeOut : Type := mkGraphNode {
  g_node_id : string;
  g_container_name : string;
  g_region : string;
  g_status : string;
  g_health_score : float;
  g_peer_count : Z;
  g_max_peers : Z;
  g_load_ratio : float;
  g_is_draining : bool
}.

Record TopologyGraphOut : Type := mkGraph {
  graph_generated_at : Z;
  graph_nodes : list TopologyGraphNodeOut;
  graph_edges : list TopologyGraphEdgeOut;
  graph_regions : list string
}.

(** [(a1, a2) < (b1, b2)] on pairs of strings *)
Definition str2_ltb (a b : string * string) : bool :=
  if String.eqb a.1 b.1 then str_ltb a.2 b.2 else str_ltb a.1 b.1.

(** Consecutive nodes of a region, in node-id order, are linked. *)
Fixpoint chain_edges (ordered : list TopologyGraphNodeOut) : list TopologyGraphEdgeOut :=
  match ordered with
  | src :: ((dst :: _) as rest) =>
      mkEdge src.(g_node_id) dst.(g_node_id) "intra_region" f1 "same region" :: chain_edges rest
  | _ => []
  end.

Definition graph_failover_edge (settings : Settings) (regions : list (string * string))
    (fallback_candidates : list NodeMetadata) (failed_node : NodeMetadata)
    : list TopologyGraphEdgeOut :=
  let failed_region := region_of regions failed_node.(node_id) in
  let regional :=
    filterb (λ c, String.eqb (region_of regions c.(node_id)) failed_region)
      fallback_candidates in
  match py_max (score_gt settings) (or_else regional fallback_candidates) with
  | None => []
  | Some chosen =>
      [mkEdge failed_node.(node_id) chosen.(node_id) "failover_candidate" f1 "failover"]
  end.

Definition graph_row (regions : list (string * string)) (n : NodeMetadata)
    : TopologyGraphNodeOut :=
  mkGraphNode n.(node_id) n.(container_name) (region_of regions n.(node_id)) n.(status)
    n.(health_score) n.(peer_count) n.(max_peers) (load_ratio0 n) n.(is_draining).

(** [grouped[node.region].append(node)] for each row *)
Definition group_by_region (rows : list TopologyGraphNodeOut)
    : list (string * list TopologyGraphNodeOut) :=
  foldl (λ g r, dset r.(g_region) (default [] (dget r.(g_region) g) ++ [r]) g) [] rows.

Definition build_topology_graph (settings : Settings) (now : Z) (d : db)
    (topo : ClusterTopology) : res TopologyGraphOut :=
  let regions := _node_regions d (node_id <$> topo.(nodes)) in
  let key n := (region_of regions n.(node_id), n.(node_id)) in
  let node_rows := graph_row regions <$>
    sorted_by (λ a b, str2_ltb (key a) (key b)) topo.(nodes) in
  let grouped := group_by_region node_rows in
  let chains := grouped ≫= λ g,
    chain_edges (sorted_by (λ a b, str_ltb a.(g_node_id) b.(g_node_id)) g.2) in
  let failovers := filterb is_failed topo.(nodes) ≫=
    graph_failover_edge settings regions (filterb is_fallback topo.(nodes)) in
  rebalance ← _graph_rebalance_edges topo
    settings.(control_plane_rebalance_high_watermark)
    settings.(control_plane_rebalance_target_watermark)
    settings.(control_plane_rebalance_max_moves_per_node);
  Ok (mkGraph now node_rows (chains ++ failovers ++ rebalance)
        (sorted_by str_ltb (dkeys grouped))).

(** ** Placement *)

Record PlacementSimulateRequest : Type := mkPlacementRequest {
  preferred_region : option string;
  src_region : option string;
  use_latency_probes : bool;
  required_capabilities : option (list string);
  top_k : Z
}.

Record PlacementCandidateOut : Type := mkCandidate {
  c_node_id : string;
  c_container_name : string;
  c_region : string;
  c_status : string;
  c_health_score : float;
  c_peer_count : Z;
  c_max_peers : Z;
  free_slots : Z;
  score : float;
  effective_latency_ms : option float;
  latency_source : string
}.

Record PlacementSimulationOut : Type := mkPlacement {
  selected_node_id : option string;
  fallback_used : bool;
  candidates : list PlacementCandidateOut
}.

(** [if required_capabilities and not all(...)] *)
Definition caps_ok (required : option (list string)) (n : NodeMetadata) : bool :=
  match required with
  | Some (c :: cs) => has_capabilities n (c :: cs)
  | _ => true
  end.

Definition eligible_candidate (required : option (list string)) (n : NodeMetadata) : bool :=
  schedulable_status n && negb n.(is_draining) && (n.(peer_count) <? n.(max_peers)) &&
  negb (flt (f_or0 n.(health_score)) (lit 5 1)) && caps_ok required n.

Definition _eligible_candidates (nodes : list NodeMetadata) (required : option (list string))
    : list NodeMetadata := filterb (eligible_candidate required) nodes.

(** The score and row of one candidate. *)
Definition rank_node (settings : Settings) (request : PlacementSimulateRequest)
    (regions : list (string * string)) (probe_latency : list (string * float))
    (n : NodeMetadata) : PlacementCandidateOut :=
  let score := calculate_node_score settings n in
  let '(score, effective_latency, latency_source) :=
    match dget n.(node_id) probe_latency with
    | Some probed =>
        let w := settings.(load_balancer_weight_latency) in
        let runtime_penalty := fmul (fdiv (of_or0 n.(latency_ms)) (lit 1000 0)) w in
        let probe_penalty := fmul (fdiv probed (lit 1000 0)) w in
        (fadd score (fsub runtime_penalty probe_penalty), Some probed, "probe")
    | None =>
        (score, n.(latency_ms), if is_some n.(latency_ms) then "runtime" else "none")
    end in
  let score :=
    match request.(src_region) with
    | Some r =>
        if str_truthy r && bool_decide (dget n.(node_id) regions = Some r)
        then fadd score settings.(control_plane_geo_region_affinity_bonus) else score
    | None => score
    end in
  mkCandidate n.(node_id) n.(container_name) (region_of regions n.(node_id)) n.(status)
    n.(health_score) n.(peer_count) n.(max_peers)
    (Z.max (n.(max_peers) - n.(peer_count)) 0) score effective_latency latency_source.

(** The sort key [(score, free_slots, node_id)]. *)
Definition slots_id_ltb (a b : Z * string) : bool :=
  if a.1 =? b.1 then str_ltb a.2 b.2 else a.1 <? b.1.

Definition rank_key (c : PlacementCandidateOut) : float * (Z * string) :=
  (c.(score), (c.(free_slots), c.(c_node_id))).

Definition rank_before (a b : PlacementCandidateOut) : bool :=
  ftuple_lt slots_id_ltb (rank_key b) (rank_key a).

(** The pool: the nodes of the preferred region, or all the candidates when it
    has none. *)
Definition placement_pool (request : PlacementSimulateRequest)
    (regions : list (string * string)) (cands : list NodeMetadata) : list NodeMetadata * bool :=
  match request.(preferred_region) with
  | Some r =>
      if str_truthy r then
        let regional := filterb (λ n, bool_decide (dget n.(node_id) regions = Some r)) cands in
        if bool_decide (regional = []) && bool_decide (cands ≠ []) then (cands, true)
        else (regional, false)
      else (cands, false)
  | None => (cands, false)
  end.

Definition simulate_placement (settings : Settings) (now : Z) (d : db) (topo : ClusterTopology)
    (request : PlacementSimulateRequest) : PlacementSimulationOut :=
  let ids := node_id <$> topo.(nodes) in
  let node_region := _node_regions d ids in
  let probe_latency :=
    if request.(use_latency_probes) && str_truthy (default "" request.(src_region))
    then _latest_probe_latency_by_node settings now d (default "" request.(src_region)) ids
    else [] in
  let cands := _eligible_candidates topo.(nodes) request.(required_capabilities) in
  let '(regional, fallback_used) := placement_pool request node_region cands in
  let ranked :=
    sorted_by rank_before (rank_node settings request node_region probe_latency <$> regional) in
  let top := take (Z.to_nat request.(top_k)) ranked in
  mkPlacement (c_node_id <$> head top) fallback_used top.

(** ** Latency probes *)

Record LatencyProbeIn : Type := mkProbeIn {
  in_agent_id : string;
  in_source_region : string;
  in_server_id : string;
  in_latency_ms : float;
  in_jitter_ms : option float;
  in_packet_loss_pct : option float;
  in_probe_ts : option Z
}.

Definition probe_row (now : Z) (item : LatencyProbeIn) : LatencyProbe :=
  mkProbe (strip item.(in_agent_id)) (strip item.(in_source_region)) item.(in_server_id)
    item.(in_latency_ms) item.(in_jitter_ms) item.(in_packet_loss_pct)
    (default now item.(in_probe_ts)).

Definition ingest_latency_probes (now : Z) (d : db) (items : list LatencyProbeIn) : db * Z :=
  match items with
  | [] => (d, 0)
  | _ =>
      let count := Z.of_nat (length items) in
      (add_event (mkEvent "latency.probe.ingested" "info" None (ProbesIngested count))
         (set_probes (d.(probes) ++ (probe_row now <$> items)) d), count)
  end.

Definition list_latency_probes (d : db) (source_region server_id : option string) (limit : Z)
    : list LatencyProbe * Z :=
  let matches (f : option string) (v : string) :=
    match f with Some s => negb (str_truthy s) || String.eqb v s | None => true end in
  let rows := filterb (λ p, matches source_region p.(ControlPlaneDb.source_region) &&
                            matches server_id p.(probe_server_id)) d.(probes) in
  (take (Z.to_nat limit) (sorted_by (λ a b, b.(probe_ts) <? a.(probe_ts)) rows),
   Z.of_nat (length rows)).

(** ** Failover is sound *)

Lemma score_gt_max settings l m y :
  Forall (scored settings) l → py_max (score_gt settings) l = Some m → y ∈ l →
  score_gt settings y m = false.
Proof.
  intros Hl. eapply (py_max_upper (score_gt settings) (scored settings)); [| | |done];
    unfold score_gt, scored, fgt.
  - intros a _. apply flt_irrefl.
  - intros a b _ _. apply flt_asym.
  - intros a b c Ha Hb Hc H1 H2.
    apply (flt_negtrans _ (calculate_node_score settings b)); done.
Qed.

Lemma elem_of_or_else {A} (l l' : list A) x :
  x ∈ or_else l l' ↔ x ∈ l ∨ l = [] ∧ x ∈ l'.
Proof. destruct l; simpl; set_solver. Qed.

Lemma failover_loop_mappings settings regions cands l d0 :
  NoDup (node_id <$> l) →
  let m := (foldl (failover_step settings regions cands) (d0, []) l).2 in
  (∀ k, k ∈ dkeys m ↔ k ∈ node_id <$> l) ∧
  ∀ n, n ∈ l → dget n.(node_id) m = Some (node_id <$> failover_choice settings regions cands n).
Proof.
  induction l as [|x l IH] using rev_ind; intros Hnd; [set_solver|].
  rewrite fmap_app in Hnd. apply NoDup_app in Hnd as (Hnd & Hx & _).
  destruct (IH Hnd) as [Hk Hg]. rewrite foldl_app.
  destruct (foldl _ _ l) as [d1 m1]. cbn [foldl failover_step snd] in *.
  assert (∀ v, (∀ k, k ∈ dkeys (dset x.(node_id) v m1) ↔ k ∈ node_id <$> (l ++ [x]))) as Hk'.
  { intros v k. rewrite elem_of_dkeys_dset, Hk, fmap_app. set_solver. }
  assert (∀ v n, n ∈ l ++ [x] → v = node_id <$> failover_choice settings regions cands x →
    dget n.(node_id) (dset x.(node_id) v m1) =
      Some (node_id <$> failover_choice settings regions cands n)) as Hg'.
  { intros v n [Hn| ->%list_elem_of_singleton]%elem_of_app ->.
    - rewrite dget_dset_ne; [by apply Hg|]. intros E.
      apply (Hx n.(node_id)); [by apply list_elem_of_fmap_2|]. rewrite E. simpl. set_solver.
    - by rewrite dget_dset_eq. }
  simpl. destruct (failover_choice settings regions cands x) eqn:E; simpl; split; auto.
Qed.

(** Failover maps exactly the failed nodes, each to the best substitute: a
    candidate that is healthy or degraded, not draining and has room; of the
    failed node's own region whenever that region has a candidate; and of no
    smaller score than any other candidate it competes with.  A failed node has
    no substitute only when the cluster has no candidate. *)
Theorem evaluate_failover_sound settings now d topo n (d' : db) out :
  NoDup (node_id <$> topo.(nodes)) →
  evaluate_failover settings now d topo = (d', out) →
  n ∈ topo.(nodes) →
  let same_region c :=
    dget c.(node_id) (_node_regions d (node_id <$> topo.(nodes))) =
    dget n.(node_id) (_node_regions d (node_id <$> topo.(nodes))) in
  (n.(node_id) ∈ dkeys out.(mappings) ↔ is_failed n = true) ∧
  (is_failed n = true →
   match dget n.(node_id) out.(mappings) with
   | None => False
   | Some None => ∀ c, c ∈ topo.(nodes) → is_fallback c = false
   | Some (Some fid) =>
       ∃ c, c ∈ topo.(nodes) ∧ c.(node_id) = fid ∧ is_fallback c = true ∧
         ((∃ r, r ∈ topo.(nodes) ∧ is_fallback r = true ∧ same_region r) → same_region c) ∧
         (Forall (scored settings) topo.(nodes) →
          ∀ m, m ∈ topo.(nodes) → is_fallback m = true → (same_region c → same_region m) →
               score_gt settings m c = false)
   end).
Proof.
  intros Hnd Hev Hn same_region. unfold evaluate_failover in Hev.
  destruct (failover_loop_mappings settings (_node_regions d (node_id <$> topo.(nodes)))
    (filterb is_fallback topo.(nodes)) (filterb is_failed topo.(nodes)) d
    (NoDup_fmap_filterb node_id _ _ Hnd)) as [Hk Hg].
  destruct (foldl _ _ _) as [d1 m1]. simpl in Hk, Hg. injection Hev as <- <-.
  cbn [mappings]. rewrite Hk. split.
  { split; [by intros [? _]%(id_in_filter _ _ _ Hnd Hn)|].
    intros Hf. by apply list_elem_of_fmap_2, elem_of_filterb. }
  intros Hf. rewrite (Hg n) by (by apply elem_of_filterb).
  set (regions := _node_regions d (node_id <$> topo.(nodes))) in *.
  set (cands := filterb is_fallback topo.(nodes)).
  assert (∀ r, r ∈ regional_of regions cands n ↔
    r ∈ topo.(nodes) ∧ is_fallback r = true ∧ same_region r) as Hreg.
  { intros r. unfold regional_of, cands. rewrite !elem_of_filterb, bool_decide_eq_true. tauto. }
  destruct (failover_choice settings regions cands n) as [c|] eqn:E; unfold failover_choice in E.
  - pose proof (py_max_elem _ _ _ E) as Hc. rewrite elem_of_or_else, Hreg in Hc.
    assert (c ∈ topo.(nodes) ∧ is_fallback c = true) as [Hct Hcf].
    { destruct Hc as [(?&?&?)|[_ [??]%elem_of_filterb]]; auto. }
    simpl. exists c. split_and!; try done.
    + intros (r & Hr). apply Hreg in Hr. destruct Hc as [(?&?&?)|[E0 _]]; [done|].
      rewrite E0 in Hr. by apply elem_of_nil in Hr.
    + intros Hs m Hm Hmf Himp. eapply score_gt_max; [|exact E|].
      * apply Forall_forall. intros x Hx. rewrite elem_of_or_else, Hreg in Hx.
        eapply (proj1 (Forall_forall _ _) Hs).
        destruct Hx as [(?&?&?)|[_ [??]%elem_of_filterb]]; done.
      * rewrite elem_of_or_else, Hreg. destruct Hc as [(_ & _ & Hsc)|[E0 _]]; [auto|].
        right. split; [done|]. by apply elem_of_filterb.
  - simpl. intros c Hc. apply not_true_iff_false. intros Hcf.
    assert (or_else (regional_of regions cands n) cands ≠ []) as Hne.
    { intros E0. assert (c ∈ or_else (regional_of regions cands n) cands) as Hin;
        [|rewrite E0 in Hin; by apply elem_of_nil in Hin].
      rewrite elem_of_or_else. destruct (regional_of regions cands n) eqn:E1; [|done].
      right. split; [done|]. by apply elem_of_filterb. }
    destruct (py_max_is_Some (score_gt settings) _ Hne) as [? E0]. congruence.
Qed.

(** Two healthy-looking nodes of one region; ["b"] is healthy but scores 0.3. *)
Definition wit_failover : db * ClusterTopology :=
  (set_servers [Server.test "a" true; Server.test "b" true] empty_db,
   mkTopology 0 [test_node "a" "unhealthy" 5 100 f0; test_node "b" "healthy" 1 100 (lit 3 1)]
     200 6 f0 f0 f0 f0 f0 1).

Definition wit_failover_out : db * FailoverEvaluateOut :=
  Eval vm_compute in evaluate_failover default_settings 0 wit_failover.1 wit_failover.2.

Lemma evaluate_failover_sound_witness :
  wit_failover_out.2.(mappings) = [("a", Some "b"); ("b", Some "b")] ∧
  ("a" ∈ dkeys wit_failover_out.2.(mappings) ↔
   is_failed (test_node "a" "unhealthy" 5 100 f0) = true).
Proof.
  split; [reflexivity|].
  assert (NoDup (node_id <$> wit_failover.2.(nodes))) as Hnd
    by (apply (bool_decide_unpack _); vm_compute; exact I).
  assert (evaluate_failover default_settings 0 wit_failover.1 wit_failover.2 =
    (wit_failover_out.1, wit_failover_out.2)) as He by (vm_compute; reflexivity).
  exact (proj1 (evaluate_failover_sound default_settings 0 wit_failover.1 wit_failover.2
    (test_node "a" "unhealthy" 5 100 f0) wit_failover_out.1 wit_failover_out.2 Hnd He
    (list_elem_of_here _ _))).
Defined.

(** A node with a low health score and status ["healthy"] is both failed and a
    candidate: failover may map it to itself, and the graph draws the edge. *)
Lemma failover_to_itself :
  let '(d, topo) := wit_failover in
  dget "b" (evaluate_failover default_settings 0 d topo).2.(mappings) = Some (Some "b") ∧
  (∃ g, build_topology_graph default_settings 0 d topo = Ok g ∧
        mkEdge "b" "b" "failover_candidate" f1 "failover" ∈ g.(graph_edges)).
Proof.
  split; [vm_compute; reflexivity|].
  eexists; split; [vm_compute; reflexivity|]. cbn. repeat first [left|right].
Qed.

(** ** Placement picks the best node *)

Lemma slots_id_ltb_irrefl a : slots_id_ltb a a = false.
Proof. unfold slots_id_ltb. rewrite Z.eqb_refl. apply str_ltb_irrefl. Qed.

Lemma slots_id_ltb_asym a b : slots_id_ltb a b = true → slots_id_ltb b a = false.
Proof.
  unfold slots_id_ltb. rewrite (Z.eqb_sym b.1).
  destruct (Z.eqb_spec a.1 b.1); [apply str_ltb_asym|]. intros; bools. apply Z.ltb_ge. lia.
Qed.

Lemma slots_id_ltb_negtrans a b c :
  slots_id_ltb a b = false → slots_id_ltb b c = false → slots_id_ltb a c = false.
Proof.
  unfold slots_id_ltb.
  destruct (Z.eqb_spec a.1 b.1), (Z.eqb_spec b.1 c.1), (Z.eqb_spec a.1 c.1);
    try lia; try (intros; bools; rewrite ?Z.ltb_ge in *; lia).
  apply str_ltb_negtrans.
Qed.

Definition ranked_ok (c : PlacementCandidateOut) : Prop := is_nan c.(score) = false.

Lemma ranked_sorted l :
  Forall ranked_ok l → StronglySorted (λ a b, rank_before b a = false) (sorted_by rank_before l).
Proof.
  apply sorted_by_sorted; unfold rank_before, ranked_ok.
  - intros a b _ _. apply ftuple_lt_asym, slots_id_ltb_asym.
  - intros a b c Ha Hb Hc H1 H2.
    apply (ftuple_lt_negtrans _ slots_id_ltb_negtrans _ (rank_key b)); done.
Qed.

Lemma sorted_head_best l c rest :
  Forall ranked_ok l → sorted_by rank_before l = c :: rest →
  ∀ x, x ∈ l → rank_before x c = false.
Proof.
  intros Hl E x Hx. pose proof (ranked_sorted l Hl) as Hs. rewrite E in Hs.
  apply StronglySorted_inv in Hs as [_ Hs]. rewrite Forall_forall in Hs.
  apply (elem_of_sorted_by rank_before) in Hx. rewrite E in Hx.
  apply elem_of_cons in Hx as [->|Hx]; [|auto].
  apply ftuple_lt_irrefl, slots_id_ltb_irrefl.
Qed.

Lemma placement_pool_sub request regions cands n :
  n ∈ (placement_pool request regions cands).1 → n ∈ cands.
Proof.
  unfold placement_pool. repeat case_match; simpl; try done. by intros [_ ?]%elem_of_filterb.
Qed.

Lemma placement_pool_empty request regions cands :
  (placement_pool request regions cands).1 = [] → cands = [].
Proof.
  unfold placement_pool. repeat case_match; simpl; try done. intros E. bools.
  apply andb_false_iff in H1 as [H1|H1]; bools; [done|].
  by apply dec_stable.
Qed.

Lemma placement_pool_region request regions cands n r :
  request.(preferred_region) = Some r → str_truthy r = true →
  (placement_pool request regions cands).2 = false →
  n ∈ (placement_pool request regions cands).1 → dget n.(node_id) regions = Some r.
Proof.
  unfold placement_pool. intros -> ->. case_match; simpl; [done|].
  intros _ [Hb _]%elem_of_filterb. by bools.
Qed.

Lemma placement_pool_fallback request regions cands r :
  request.(preferred_region) = Some r → str_truthy r = true →
  (placement_pool request regions cands).2 = true →
  ∀ n, n ∈ cands → dget n.(node_id) regions ≠ Some r.
Proof.
  unfold placement_pool. intros -> ->. case_match eqn:E; simpl; [|done].
  apply andb_prop in E as [E0 _]. apply bool_decide_eq_true in E0. intros _ n Hn Hr.
  apply (elem_of_nil n). rewrite <- E0. apply elem_of_filterb.
  by rewrite bool_decide_eq_true.
Qed.

Lemma row_id settings request regions probes n :
  (rank_node settings request regions probes n).(c_node_id) = n.(node_id).
Proof. unfold rank_node. by repeat case_match. Qed.

(** What the candidates are ranked with: [probe_latency]. *)
Definition placement_probes (settings : Settings) (now : Z) (d : db) (topo : ClusterTopology)
    (request : PlacementSimulateRequest) : list (string * float) :=
  if request.(use_latency_probes) && str_truthy (default "" request.(src_region))
  then _latest_probe_latency_by_node settings now d (default "" request.(src_region))
         (node_id <$> topo.(nodes))
  else [].

(** Placement selects a best node.  Every candidate it returns is a node of
    the cluster that is schedulable, not draining, below capacity, healthy
    enough and has the required capabilities, and is in the preferred region
    unless no eligible node is, which [fallback_used] reports; at most [top_k]
    are returned; a node is selected as soon as one is eligible; and no
    competing node has a better (score, free slots, id). *)
Theorem simulate_placement_sound settings now d topo request :
  1 ≤ request.(top_k) →
  let out := simulate_placement settings now d topo request in
  let regions := _node_regions d (node_id <$> topo.(nodes)) in
  let row := rank_node settings request regions
               (placement_probes settings now d topo request) in
  let good n := n ∈ topo.(nodes) ∧ eligible_candidate request.(required_capabilities) n = true in
  Z.of_nat (length out.(candidates)) ≤ request.(top_k) ∧
  (∀ c, c ∈ out.(candidates) → ∃ n, good n ∧ c = row n) ∧
  (∀ r, request.(preferred_region) = Some r → str_truthy r = true →
     if out.(fallback_used) then ∀ n, good n → dget n.(node_id) regions ≠ Some r
     else ∀ c, c ∈ out.(candidates) → dget c.(c_node_id) regions = Some r) ∧
  (out.(selected_node_id) = None → ∀ n, ¬ good n) ∧
  (∀ best rest, out.(candidates) = best :: rest →
     out.(selected_node_id) = Some best.(c_node_id) ∧
     ((∀ n, good n → ranked_ok (row n)) →
      ∀ n, n ∈ (placement_pool request regions
                 (_eligible_candidates topo.(nodes) request.(required_capabilities))).1 →
           rank_before (row n) best = false)).
Proof.
  intros Hk out regions row good.
  set (cands := _eligible_candidates topo.(nodes) request.(required_capabilities)).
  assert (∀ n, n ∈ cands ↔ good n) as Hc.
  { intros n. unfold cands, _eligible_candidates, good. rewrite elem_of_filterb. tauto. }
  pose proof (placement_pool_sub request regions cands) as Hsub.
  pose proof (placement_pool_empty request regions cands) as Hempty.
  pose proof (placement_pool_region request regions cands) as Hregion.
  pose proof (placement_pool_fallback request regions cands) as Hfb.
  unfold out, simulate_placement. fold (placement_probes settings now d topo request).
  fold regions cands. destruct (placement_pool request regions cands) as [pool fb].
  fold row. simpl in *.
  set (ranked := sorted_by rank_before (row <$> pool)).
  assert (∀ c, c ∈ take (Z.to_nat request.(top_k)) ranked → ∃ n, n ∈ pool ∧ c = row n) as Hrow.
  { intros c Hin%elem_of_take_sub. unfold ranked in Hin.
    apply elem_of_sorted_by, list_elem_of_fmap in Hin as (n & -> & Hn). eauto. }
  split_and!.
  - rewrite length_take. lia.
  - intros c (n & Hn & ->)%Hrow. exists n. rewrite <- Hc. auto.
  - intros r Hr Ht. destruct fb; [intros n Hn%Hc; eauto|].
    intros c (n & Hn & ->)%Hrow. unfold row. rewrite row_id. eauto.
  - intros Hnone n Hn%Hc. destruct ranked as [|c l] eqn:E; unfold ranked in E.
    + assert (pool = []) as ->.
      { apply (f_equal length) in E. rewrite length_sorted_by, length_fmap in E.
        by apply length_zero_iff_nil. }
      rewrite (Hempty eq_refl) in Hn. by apply elem_of_nil in Hn.
    + replace (Z.to_nat request.(top_k)) with (S (Z.to_nat (request.(top_k) - 1))) in Hnone by lia.
      discriminate.
  - intros best rest E. rewrite E. split; [done|]. intros Hok n Hn.
    replace (Z.to_nat request.(top_k)) with (S (Z.to_nat (request.(top_k) - 1))) in E by lia.
    destruct ranked as [|c l] eqn:El; [discriminate|]. simpl in E. injection E as -> _.
    eapply sorted_head_best; [|exact El|by apply list_elem_of_fmap_2].
    apply Forall_fmap, Forall_forall. intros m Hm. simpl. apply Hok. rewrite <- Hc. auto.
Qed.

Definition wit_placement_topo : ClusterTopology :=
  mkTopology 0 [test_node "a" "healthy" 5 100 f1; test_node "b" "degraded" 1 100 (lit 8 1);
                test_node "c" "healthy" 0 100 (lit 2 1)] 300 6 f0 f0 f0 f0 f0 1.

Lemma simulate_placement_sound_witness :
  let request := mkPlacementRequest (Some "eu") None true None 2 in
  let out := simulate_placement default_settings 0 wit_failover.1 wit_placement_topo request in
  out.(selected_node_id) = Some "b" ∧ Z.of_nat (length out.(candidates)) ≤ 2.
Proof.
  split; [vm_compute; reflexivity|].
  exact (proj1 (simulate_placement_sound default_settings 0 wit_failover.1 wit_placement_topo
    (mkPlacementRequest (Some "eu") None true None 2) ltac:(simpl; lia))).
Defined.
