(* ===== verification/Runtime.v ===== *)
(** * The node runtime adapter ([backend/app/services/node_runtime.py])

    The interface through which the control plane reaches the nodes: a class of
    effectful operations on the state [W] of the outside world, the laws its
    clients rely on, and an instance with unreachable nodes for the witnesses. *)

From S2P Require Import Prelude.
Open Scope Z_scope.

Record PeerConfigLike : Type := mkPeerConfig {
  pc_public_key : string;
  pc_allowed_ips : option string;
  pc_preshared_key : option string;
  pc_persistent_keepalive : Z
}.

(** A row of [list_peers]. *)
Record RuntimePeer : Type := mkRuntimePeer {
  rp_public_key : string;
  rp_allowed_ips : option string;
  rp_last_handshake : option Z;
  rp_transfer_rx : option Z;
  rp_transfer_tx : option Z
}.

(** [str(e)] *)
Definition exn_str (e : exn) : string :=
  match e with
  | ValueError msg | TypeError msg | RuntimeError msg | LoadBalancerError msg
  | AttributeError msg | IntegrityError msg | OSError msg | NotImplementedError msg
  | WireGuardCommandError msg _ _ | HTTPException _ msg => msg
  | ServerNotSyncedError sid reason => "Server '" +:+ sid +:+ "' key not verified: " +:+ reason
  | InvalidOperation => "[<class 'decimal.ConversionSyntax'>]"
  | OverflowError => "cannot convert float infinity to integer"
  | ConfigValidationError errors => String.concat "; " errors
  end.

(** The peer operations of the abstract base class; each may raise. *)
Class NodeRuntimeAdapter (W : Type) := {
  add_peer : string → PeerConfigLike → W → W * res unit;
  remove_peer : string → string → W → W * res unit;
  list_peers : string → W → W * res (list RuntimePeer)
}.

(** What a client relies on: the peers a node has, by public key; an operation
    that returns did its work on that node and nothing else, one that raises
    changed no peer, and reading changes nothing. *)
Class NodeRuntimeLaws (W : Type) `{NodeRuntimeAdapter W}
    (peers_at : W → string → gmap string string) : Prop := {
  add_peer_ok node p w w' :
    add_peer node p w = (w', Ok tt) →
    peers_at w' node = <[p.(pc_public_key) := default "" p.(pc_allowed_ips)]> (peers_at w node) ∧
    ∀ other, other ≠ node → peers_at w' other = peers_at w other;
  add_peer_err node p w w' e :
    add_peer node p w = (w', Err e) → ∀ n, peers_at w' n = peers_at w n;
  remove_peer_ok node pk w w' :
    remove_peer node pk w = (w', Ok tt) →
    peers_at w' node = delete pk (peers_at w node) ∧
    ∀ other, other ≠ node → peers_at w' other = peers_at w other;
  remove_peer_err node pk w w' e :
    remove_peer node pk w = (w', Err e) → ∀ n, peers_at w' n = peers_at w n;
  list_peers_pure node w w' r :
    list_peers node w = (w', r) → ∀ n, peers_at w' n = peers_at w n;
  list_peers_ok node w w' rows :
    list_peers node w = (w', Ok rows) →
    ∀ pk v, peers_at w node !! pk = Some v ↔
      ∃ r, r ∈ rows ∧ r.(rp_public_key) = pk ∧ default "" r.(rp_allowed_ips) = v
}.

(** ** A cluster with unreachable nodes *)

Record cluster : Type := mkCluster {
  peers_of : gmap string (gmap string string);
  unreachable : gset string
}.

Definition cluster_peers (c : cluster) (node : string) : gmap string string :=
  default ∅ (c.(peers_of) !! node).

Definition on_node {A} (node : string) (c : cluster) (v : cluster * A) : cluster * res A :=
  if decide (node ∈ c.(unreachable)) then (c, Err (RuntimeError "node unreachable"))
  else (v.1, Ok v.2).

Definition set_peers (node : string) (m : gmap string string) (c : cluster) : cluster :=
  mkCluster (<[node := m]> c.(peers_of)) c.(unreachable).

#[export] Instance cluster_adapter : NodeRuntimeAdapter cluster := {
  add_peer node p c := on_node node c
    (set_peers node (<[p.(pc_public_key) := default "" p.(pc_allowed_ips)]>
       (cluster_peers c node)) c, tt);
  remove_peer node pk c := on_node node c
    (set_peers node (delete pk (cluster_peers c node)) c, tt);
  list_peers node c := on_node node c
    (c, (λ kv, mkRuntimePeer kv.1 (Some kv.2) (Some 1) (Some 0) (Some 0)) <$>
          map_to_list (cluster_peers c node))
}.

Lemma cluster_peers_set node m c n :
  cluster_peers (set_peers node m c) n = if decide (n = node) then m else cluster_peers c n.
Proof.
  unfold cluster_peers, set_peers; simpl. case_decide; subst.
  - by rewrite lookup_insert_eq.
  - by rewrite lookup_insert_ne.
Qed.

#[export] Instance cluster_laws : NodeRuntimeLaws cluster cluster_peers.
Proof.
  split; simpl; unfold on_node; intros *; case_decide; intros; simplify_eq/=; try done.
  - rewrite cluster_peers_set, decide_True by done. split; [done|].
    intros. by rewrite cluster_peers_set, decide_False.
  - rewrite cluster_peers_set, decide_True by done. split; [done|].
    intros. by rewrite cluster_peers_set, decide_False.
  - setoid_rewrite list_elem_of_fmap. split.
    + intros Hv. eexists. split; [exists (pk, v); split; [done|by apply elem_of_map_to_list]|done].
    + intros (r & ([k v'] & -> & Hin) & <- & <-). by apply elem_of_map_to_list in Hin.
Qed.

(** ** A cluster that accepts every call *)

Record steady : Type := mkSteady { steady_of : gmap string (gmap string string) }.

Definition steady_peers (c : steady) (node : string) : gmap string string :=
  default ∅ (c.(steady_of) !! node).

Definition steady_set (node : string) (m : gmap string string) (c : steady) : steady :=
  mkSteady (<[node := m]> c.(steady_of)).

#[export] Instance steady_adapter : NodeRuntimeAdapter steady := {
  add_peer node p c :=
    (steady_set node (<[p.(pc_public_key) := default "" p.(pc_allowed_ips)]>
       (steady_peers c node)) c, Ok tt);
  remove_peer node pk c := (steady_set node (delete pk (steady_peers c node)) c, Ok tt);
  list_peers node c :=
    (c, Ok ((λ kv, mkRuntimePeer kv.1 (Some kv.2) (Some 1) (Some 0) (Some 0)) <$>
              map_to_list (steady_peers c node)))
}.

Lemma steady_peers_set node m c n :
  steady_peers (steady_set node m c) n = if decide (n = node) then m else steady_peers c n.
Proof.
  unfold steady_peers, steady_set; simpl. case_decide; subst.
  - by rewrite lookup_insert_eq.
  - by rewrite lookup_insert_ne.
Qed.

#[export] Instance steady_laws : NodeRuntimeLaws steady steady_peers.
Proof.
  split; simpl; intros *; intros; simplify_eq/=; try done.
  - rewrite steady_peers_set, decide_True by done. split; [done|].
    intros. by rewrite steady_peers_set, decide_False.
  - rewrite steady_peers_set, decide_True by done. split; [done|].
    intros. by rewrite steady_peers_set, decide_False.
  - setoid_rewrite list_elem_of_fmap. split.
    + intros Hv. eexists. split; [exists (pk, v); split; [done|by apply elem_of_map_to_list]|done].
    + intros (r & ([k v'] & -> & Hin) & <- & <-). by apply elem_of_map_to_list in Hin.
Qed.
