(* ===== verification/Migration.v ===== *)
(** * Moving peers between nodes

    [migrate_peer] ([migrate_service.py]) and the execution of a rebalance plan
    with its budget, batches and rollback ([execute_rebalance_plan] of
    [control_plane_service.py]). *)

From S2P Require Import Prelude PyFloat PyStr Settings Models Node LoadBalancer ControlPlaneDb Runtime.
Open Scope Z_scope.

(** ** [migrate_service.py] *)

Section migrate.
Context {W : Type} `{NodeRuntimeAdapter W}.
Implicit Types (w : W) (device : Device.t).

(** The device object is returned with what the call assigned to it; a call
    that raises assigned nothing. *)
Definition migrate_peer w device (target_node_id : string) : W * res Device.t :=
  match device.(Device.revoked_at) with
  | Some _ => (w, Err (ValueError "Peer is revoked"))
  | None =>
      let old_node_id := device.(Device.server_id) in
      if String.eqb old_node_id target_node_id then (w, Ok device)
      else
        let allowed := strip (default "" device.(Device.allowed_ips)) in
        if negb (str_truthy allowed) || contains "0.0.0.0/0" allowed then
          (w, Err (WireGuardCommandError
                "Device has no valid allowed_ips; re-issue config first"
                "migrate_peer" "allowed_ips missing or 0.0.0.0/0"))
        else
          let peer_config := mkPeerConfig device.(Device.public_key) (Some allowed) None 25 in
          let '(w, _) := remove_peer old_node_id device.(Device.public_key) w in
          match add_peer target_node_id peer_config w with
          | (w, Ok _) => (w, Ok (Device.set_server_id target_node_id device))
          | (w, Err e) =>
              let '(w, rollback) := add_peer old_node_id peer_config w in
              let message := "Add peer on target failed: " +:+ exn_str e in
              let message :=
                match rollback with
                | Ok _ => message +:+ "; rollback restored on source"
                | Err r => if str_truthy (exn_str r)
                           then message +:+ "; rollback_failed=" +:+ exn_str r else message
                end in
              (w, Err (WireGuardCommandError message "add_peer" (exn_str e)))
          end
  end.

(** [get_topology()] is the topology, [servers] the table. *)
Definition resolve_target_node (settings : Settings) (servers : list Server.t)
    (topology : ClusterTopology) (target_node_id : option string) : res string :=
  match target_node_id with
  | Some tid =>
      if str_truthy tid then
        if existsb (λ s, String.eqb s.(Server.id) tid && s.(Server.is_active)) servers
        then Ok tid
        else Err (ValueError "Target node not found or inactive")
      else n ← select_node settings topology None; Ok n.(node_id)
  | None => n ← select_node settings topology None; Ok n.(node_id)
  end.
End migrate.

(** ** Executing the moves of a plan *)

(** The QoS key of a peer: idle and light peers move first. *)
Definition _qos_migration_key (settings : Settings) (device : Device.t)
    (peer_stats_by_pub : list (string * RuntimePeer)) (now_ts : Z) : Z * Z * Z * Z :=
  let stats := dget device.(Device.public_key) peer_stats_by_pub in
  let field (f : RuntimePeer → option Z) := oint_or0 (stats ≫= f) in
  let last_handshake := field rp_last_handshake in
  let traffic_total := field rp_transfer_rx + field rp_transfer_tx in
  let idle := settings.(control_plane_rebalance_qos_idle_handshake_seconds) in
  let handshake_age :=
    if 0 <? last_handshake then Z.max (now_ts - last_handshake) 0 else idle * 100 in
  let is_hot_peer := (handshake_age <=? idle) &&
    (settings.(control_plane_rebalance_qos_hot_traffic_bytes) <=? traffic_total) in
  (if is_hot_peer then 1 else 0, traffic_total, - handshake_age, device.(Device.issued_at)).

(** Lexicographic order on the keys. *)
Definition key4_ltb (a b : Z * Z * Z * Z) : bool :=
  let '(a1, a2, a3, a4) := a in
  let '(b1, b2, b3, b4) := b in
  (a1 <? b1) || (a1 =? b1) &&
    ((a2 <? b2) || (a2 =? b2) && ((a3 <? b3) || (a3 =? b3) && (a4 <? b4))).

(** [session] writes through: a device object and its row are one. *)
Definition put_device (dev : Device.t) (ds : list Device.t) : list Device.t :=
  (λ d, if String.eqb d.(Device.id) dev.(Device.id) then dev else d) <$> ds.

Section execute.
Context {W : Type} `{NodeRuntimeAdapter W} (settings : Settings).

(** The state of the loop over the devices of one move. *)
Record move_state : Type := mkMoveState {
  m_world : W;
  m_devices : list Device.t;
  m_budget : Z;
  m_attempted : Z;
  m_succeeded : Z;
  m_failed : Z;
  m_rolled_back : Z;
  m_rollback_failed : Z;
  m_migrated : list Device.t;
  m_status : string;
  m_stopped : bool
}.

(** [for migrated in reversed(migrated_devices)] *)
Definition rollback_one (source : string) (st : W * list Device.t * Z * Z * Z)
    (migrated : Device.t) : W * list Device.t * Z * Z * Z :=
  let '(w, ds, rolled_back, succeeded, rollback_failed) := st in
  match migrate_peer w migrated source with
  | (w, Ok dev) =>
      (w, put_device dev ds, rolled_back + 1,
       if 0 <? succeeded then succeeded - 1 else succeeded, rollback_failed)
  | (w, Err _) => (w, ds, rolled_back, succeeded, rollback_failed + 1)
  end.

(** One round of [for device in devices]; [m_stopped] is its [break]. *)
Definition move_step (stop_on_error rollback_on_error : bool) (move : RebalanceMoveOut)
    (st : move_state) (device : Device.t) : move_state :=
  if st.(m_stopped) then st else
  match migrate_peer st.(m_world) device move.(target_node_id) with
  | (w, Ok dev) =>
      mkMoveState w (put_device dev st.(m_devices)) (st.(m_budget) - 1)
        (st.(m_attempted) + 1) (st.(m_succeeded) + 1) st.(m_failed) st.(m_rolled_back)
        st.(m_rollback_failed) (st.(m_migrated) ++ [dev]) st.(m_status) false
  | (w, Err _) =>
      let '(w, ds, rolled_back, succeeded, rollback_failed, migrated, status) :=
        if rollback_on_error && bool_decide (st.(m_migrated) ≠ []) then
          let '(w, ds, rolled_back, succeeded, rollback_failed) :=
            foldl (rollback_one move.(source_node_id))
              (w, st.(m_devices), st.(m_rolled_back), st.(m_succeeded), st.(m_rollback_failed))
              (reverse st.(m_migrated)) in
          (w, ds, rolled_back, succeeded, rollback_failed, [],
           if rollback_failed =? 0 then "rolled_back" else "rollback_failed")
        else (w, st.(m_devices), st.(m_rolled_back), st.(m_succeeded), st.(m_rollback_failed),
              st.(m_migrated), "failed") in
      mkMoveState w ds st.(m_budget) (st.(m_attempted) + 1) succeeded (st.(m_failed) + 1)
        rolled_back rollback_failed migrated
        (if stop_on_error then "stopped_on_error" else status) stop_on_error
  end.

(** The live devices of active subscriptions on a node, oldest first, with the
    name of their plan. *)
Definition source_rows (d : db) (ds : list Device.t) (source : string)
    : list (Device.t * Subscription.t * Plan.t) :=
  sorted_by (λ a b, a.1.1.(Device.issued_at) <? b.1.1.(Device.issued_at))
    (filterb (λ r, String.eqb r.1.1.(Device.server_id) source &&
                   is_none r.1.1.(Device.revoked_at) &&
                   String.eqb r.1.2.(Subscription.status) "active")
       (device_plan_rows (set_devices ds d))).

(** What one move may migrate: the devices whose plan is not an enterprise
    plan, by QoS key, and how many were skipped. *)
Definition movable_devices (rows : list (Device.t * Subscription.t * Plan.t)) : list Device.t :=
  (λ r, r.1.1) <$> filterb (λ r, negb (_is_enterprise_plan_name (Some r.2.(Plan.name))
                                   (_enterprise_plan_keywords settings))) rows.

Definition skipped_rows (rows : list (Device.t * Subscription.t * Plan.t)) : Z :=
  countZ (λ r, _is_enterprise_plan_name (Some r.2.(Plan.name))
                 (_enterprise_plan_keywords settings)) rows.

Definition move_candidates (w : W) (now_ts : Z) (source : string)
    (rows : list (Device.t * Subscription.t * Plan.t)) : W * list Device.t :=
  let '(w, r) := list_peers source w in
  let peer_stats := match r with Ok ps => ps | Err _ => [] end in
  let peer_stats_by_pub := dict_of ((λ p, (p.(rp_public_key), p)) <$> peer_stats) in
  (w, sorted_by (λ a b, key4_ltb (_qos_migration_key settings a peer_stats_by_pub now_ts)
                          (_qos_migration_key settings b peer_stats_by_pub now_ts))
        (movable_devices rows)).

Definition move_status (st : move_state) (requested : Z) : string :=
  if st.(m_attempted) =? 0 then "no_candidates"
  else if (st.(m_failed) =? 0) && (st.(m_attempted) <? requested) then
    (if st.(m_budget) <=? 0 then "partial_budget" else "partial")
  else st.(m_status).

(** The body of [for move in moves] once its limit is positive. *)
Definition run_move (d : db) (now_ts : Z) (stop_on_error rollback_on_error : bool)
    (limit budget : Z) (w : W) (ds : list Device.t) (move : RebalanceMoveOut)
    : move_state * RebalanceExecutionOut :=
  let rows := source_rows d ds move.(source_node_id) in
  let '(w, candidate_devices) := move_candidates w now_ts move.(source_node_id) rows in
  let devices := take (Z.to_nat limit) candidate_devices in
  let st := foldl (move_step stop_on_error rollback_on_error move)
              (mkMoveState w ds budget 0 0 0 0 0 [] "completed" false) devices in
  let requested := Z.max move.(peers_to_move) 0 in
  (st, mkExecution move.(source_node_id) move.(target_node_id) requested st.(m_attempted)
         st.(m_succeeded) st.(m_failed) st.(m_rolled_back) st.(m_rollback_failed)
         (skipped_rows rows) (move_status st requested)).

Record plan_state : Type := mkPlanState {
  e_world : W;
  e_devices : list Device.t;
  e_budget : Z;
  e_results : list RebalanceExecutionOut;
  e_stop_reason : option string;
  e_had_error : bool;
  e_break : bool
}.

Definition plan_step (d : db) (now_ts batch_size : Z) (stop_on_error rollback_on_error : bool)
    (s : plan_state) (move : RebalanceMoveOut) : plan_state :=
  if s.(e_break) then s
  else if s.(e_budget) <=? 0 then
    mkPlanState s.(e_world) s.(e_devices) s.(e_budget) s.(e_results)
      (Some "execution_budget_reached") s.(e_had_error) true
  else
    let requested := Z.max move.(peers_to_move) 0 in
    let limit := Z.min (Z.min requested batch_size) s.(e_budget) in
    if limit <=? 0 then s
    else
      let '(st, out) := run_move d now_ts stop_on_error rollback_on_error limit s.(e_budget)
                          s.(e_world) s.(e_devices) move in
      mkPlanState st.(m_world) st.(m_devices) st.(m_budget) (s.(e_results) ++ [out])
        (if st.(m_stopped) then Some "stopped_on_error" else s.(e_stop_reason))
        (s.(e_had_error) || (0 <? st.(m_failed)))
        (stop_on_error && (0 <? st.(m_failed))).

Definition execute_rebalance_plan (now : Z) (w : W) (d : db) (moves : list RebalanceMoveOut)
    (batch_size max_executions_per_cycle : Z) (stop_on_error rollback_on_error : bool)
    : W * db * list RebalanceExecutionOut * option string :=
  let s := foldl (plan_step d (now / 1000000) batch_size stop_on_error rollback_on_error)
    (mkPlanState w d.(devices) (Z.max 0 max_executions_per_cycle) [] None false false) moves in
  let stop_reason :=
    match s.(e_stop_reason) with
    | Some r => Some r
    | None =>
        if s.(e_had_error) && stop_on_error then Some "stopped_on_error"
        else if s.(e_budget) <=? 0 then Some "execution_budget_reached" else None
    end in
  (s.(e_world), set_devices s.(e_devices) d, s.(e_results), stop_reason).
End execute.

(** ** Migration is sound *)

Lemma set_server_id_same dev :
  Device.set_server_id dev.(Device.server_id) dev = dev.
Proof. by destruct dev. Qed.

Lemma set_server_id_twice s t dev :
  Device.set_server_id s (Device.set_server_id t dev) = Device.set_server_id s dev.
Proof. done. Qed.

Section migrate_sound.
Context {W : Type} `{NodeRuntimeLaws W}.
Implicit Types (w : W) (dev : Device.t).

(** The peers after a call: what it did to one node, or nothing. *)
Lemma add_peer_frame node p w w' r n pk :
  add_peer node p w = (w', r) → n ≠ node ∨ pk ≠ p.(pc_public_key) →
  peers_at w' n !! pk = peers_at w n !! pk.
Proof using All.
  intros E Hn. destruct r as [[]|e]; [|by rewrite (add_peer_err _ _ _ _ _ E)].
  destruct (add_peer_ok _ _ _ _ E) as [Hs Ho].
  destruct (decide (n = node)) as [->|Hne]; [|by rewrite Ho].
  rewrite Hs, lookup_insert_ne; [done|]. intros <-. by destruct Hn.
Qed.

Lemma remove_peer_frame node pk0 w w' r n pk :
  remove_peer node pk0 w = (w', r) → n ≠ node ∨ pk ≠ pk0 →
  peers_at w' n !! pk = peers_at w n !! pk.
Proof using All.
  intros E Hn. destruct r as [[]|e]; [|by rewrite (remove_peer_err _ _ _ _ _ E)].
  destruct (remove_peer_ok _ _ _ _ E) as [Hs Ho].
  destruct (decide (n = node)) as [->|Hne]; [|by rewrite Ho].
  rewrite Hs, lookup_delete_ne; [done|]. intros <-. by destruct Hn.
Qed.

(** Migrating a peer touches that peer only, on its source and target
    node only.  When it returns, the device row points to the target, whose
    runtime has the peer with the device's addresses; when it raises, the
    target is as before, and the source still has the peer as long as the
    source accepts it back. *)
Theorem migrate_peer_sound w dev target w' r :
  migrate_peer w dev target = (w', r) →
  let pk := dev.(Device.public_key) in
  let source := dev.(Device.server_id) in
  (∀ n k, (n ≠ source ∧ n ≠ target) ∨ k ≠ pk → peers_at w' n !! k = peers_at w n !! k) ∧
  match r with
  | Ok dev' =>
      dev.(Device.revoked_at) = None ∧ dev' = Device.set_server_id target dev ∧
      (source ≠ target →
       peers_at w' target !! pk = Some (strip (default "" dev.(Device.allowed_ips))) ∧
       contains "0.0.0.0/0" (strip (default "" dev.(Device.allowed_ips))) = false)
  | Err _ =>
      (source ≠ target → peers_at w' target !! pk = peers_at w target !! pk) ∧
      ((∀ p w, is_ok (add_peer source p w).2 = true) →
       is_Some (peers_at w source !! pk) → is_Some (peers_at w' source !! pk))
  end.
Proof using All.
  intros Hm pk source. unfold migrate_peer in Hm. fold source pk in Hm.
  destruct (Device.revoked_at dev) eqn:Er; [by simplify_eq|].
  destruct (String.eqb_spec source target) as [Est|Hst].
  { injection Hm as <- <-. split; [done|]. split_and!; try done. rewrite <- Est.
    unfold source. by rewrite set_server_id_same. }
  set (allowed := strip (default "" dev.(Device.allowed_ips))) in *.
  destruct (negb (str_truthy allowed) || contains "0.0.0.0/0" allowed) eqn:Ea;
    [by simplify_eq|bools].
  destruct (remove_peer source pk w) as [w1 r1] eqn:E1.
  pose proof (λ n k, remove_peer_frame _ _ _ _ _ n k E1) as Hf1.
  destruct (add_peer target _ w1) as [w2 [[]|e]] eqn:E2; simplify_eq.
  - pose proof (λ n k, add_peer_frame _ _ _ _ _ n k E2) as Hf2.
    simpl in Hf2. split.
    + intros n k Hnk. rewrite Hf2, Hf1; [done|tauto|tauto].
    + split_and!; try done.
      intros _. split; [|done]. by rewrite (proj1 (add_peer_ok _ _ _ _ E2)), lookup_insert_eq.
  - destruct (add_peer source _ w2) as [w3 r3] eqn:E3. simplify_eq.
    assert (∀ n k, peers_at w2 n !! k = peers_at w1 n !! k) as Hf2
      by (intros; by rewrite (add_peer_err _ _ _ _ _ E2)).
    pose proof (λ n k, add_peer_frame _ _ _ _ _ n k E3) as Hf3.
    simpl in Hf3. split; [|split].
    + intros n k Hnk. rewrite Hf3, Hf2, Hf1; [done|tauto|tauto].
    + intros _. rewrite Hf3, Hf2, Hf1; [done|by left|by left].
    + intros Hok _. specialize (Hok (mkPeerConfig pk (Some allowed) None 25) w2).
      rewrite E3 in Hok. destruct r3 as [[]|]; [|done].
      rewrite (proj1 (add_peer_ok _ _ _ _ E3)), lookup_insert_eq. by eexists.
Qed.
End migrate_sound.

(** A failed migration that is rolled back: the target is unreachable. *)
Definition wit_cluster : cluster :=
  mkCluster {["a" := {["k1" := "10.8.1.2/32"]}]} {["b"]}.

Lemma migrate_peer_sound_witness :
  let dev := Device.test "d1" "a" "k1" "10.8.1.2/32" in
  let out := migrate_peer wit_cluster dev "b" in
  is_ok out.2 = false ∧
  (∀ n k, (n ≠ "a" ∧ n ≠ "b") ∨ k ≠ "k1" →
     cluster_peers out.1 n !! k = cluster_peers wit_cluster n !! k).
Proof.
  split; [vm_compute; reflexivity|].
  exact (proj1 (migrate_peer_sound (peers_at := cluster_peers) wit_cluster
    (Device.test "d1" "a" "k1" "10.8.1.2/32") "b" _ _
    (surjective_pairing (migrate_peer wit_cluster
       (Device.test "d1" "a" "k1" "10.8.1.2/32") "b")))).
Defined.

(** ** The accounts of an execution *)

Section accounts.
Context {W : Type} `{NodeRuntimeAdapter W} (settings : Settings).

(** What every round of a move preserves, from the budget [b0]. *)
Definition accounts (b0 : Z) (st : move_state (W := W)) : Prop :=
  st.(m_attempted) = st.(m_succeeded) + st.(m_rolled_back) + st.(m_failed) ∧
  st.(m_budget) = b0 - (st.(m_succeeded) + st.(m_rolled_back)) ∧
  0 ≤ st.(m_rolled_back) ∧ 0 ≤ st.(m_failed) ∧ 0 ≤ st.(m_rollback_failed) ∧
  Z.of_nat (length st.(m_migrated)) ≤ st.(m_succeeded).

Lemma rollback_accounts source l : ∀ (w : W) ds rb succ rf,
  Z.of_nat (length l) ≤ succ →
  let '(_, _, rb', succ', rf') := foldl (rollback_one source) (w, ds, rb, succ, rf) l in
  rb' + succ' = rb + succ ∧ rb ≤ rb' ∧ rf ≤ rf' ∧ succ - Z.of_nat (length l) ≤ succ'.
Proof using All.
  induction l as [|x l IH]; intros w ds rb succ rf Hl; cbn [foldl length] in *; [lia|].
  unfold rollback_one at 2. destruct (migrate_peer w x source) as [w' [dev|e]].
  - destruct (Z.ltb_spec 0 succ); [|lia].
    specialize (IH w' (put_device dev ds) (rb + 1) (succ - 1) rf ltac:(lia)).
    destruct (foldl _ _ l) as [[[[? ?] ?] ?] ?]. lia.
  - specialize (IH w' ds rb succ (rf + 1) ltac:(lia)).
    destruct (foldl _ _ l) as [[[[? ?] ?] ?] ?]. lia.
Qed.

Lemma move_step_accounts soe roe move b0 st dev :
  accounts b0 st → accounts b0 (move_step soe roe move st dev) ∧
    (move_step soe roe move st dev).(m_attempted) ≤ st.(m_attempted) + 1.
Proof using All.
  unfold accounts, move_step. intros Ha. destruct (m_stopped st); [lia|].
  destruct (migrate_peer _ _ _) as [w [dev'|e]].
  - cbn. rewrite length_app. simpl. lia.
  - destruct (roe && bool_decide (m_migrated st ≠ [])); [|cbn; lia].
    pose proof (rollback_accounts move.(source_node_id) (reverse st.(m_migrated)) w
      st.(m_devices) st.(m_rolled_back) st.(m_succeeded) st.(m_rollback_failed)) as Hr.
    rewrite length_reverse in Hr. specialize (Hr ltac:(lia)).
    destruct (foldl _ _ _) as [[[[? ?] ?] ?] ?]. cbn. lia.
Qed.

Lemma move_steps_accounts soe roe move b0 l : ∀ st,
  accounts b0 st →
  accounts b0 (foldl (move_step soe roe move) st l) ∧
  (foldl (move_step soe roe move) st l).(m_attempted)
    ≤ st.(m_attempted) + Z.of_nat (length l).
Proof using All.
  induction l as [|x l IH]; intros st Ha; simpl; [auto with lia|].
  destruct (move_step_accounts soe roe move b0 st x Ha) as [Ha' Hle].
  destruct (IH _ Ha'). split; [done|lia].
Qed.

Lemma run_move_accounts d now_ts soe roe limit budget w ds move st out :
  run_move settings d now_ts soe roe limit budget w ds move = (st, out) → 0 ≤ limit →
  accounts budget st ∧ out.(attempted) = st.(m_attempted) ∧
  out.(succeeded) = st.(m_succeeded) ∧ out.(failed) = st.(m_failed) ∧
  out.(rolled_back) = st.(m_rolled_back) ∧ st.(m_attempted) ≤ limit.
Proof using All.
  unfold run_move. intros Hr Hl. destruct (move_candidates _ _ _ _ _) as [w1 cands].
  injection Hr as <- <-.
  destruct (move_steps_accounts soe roe move budget (take (Z.to_nat limit) cands)
    (mkMoveState w1 ds budget 0 0 0 0 0 [] "completed" false)) as [Ha Hle].
  { unfold accounts; simpl. lia. }
  split; [done|]. cbn. split_and!; try done.
  etrans; [exact Hle|]. simpl. rewrite length_take. lia.
Qed.

(** What a result of the plan must satisfy. *)
Definition result_ok (batch_size : Z) (moves : list RebalanceMoveOut)
    (x : RebalanceExecutionOut) : Prop :=
  x.(attempted) = x.(succeeded) + x.(rolled_back) + x.(failed) ∧
  0 ≤ x.(succeeded) ∧ 0 ≤ x.(rolled_back) ∧ 0 ≤ x.(failed) ∧
  x.(attempted) ≤ batch_size ∧
  ∃ m, m ∈ moves ∧ x.(x_source) = m.(source_node_id) ∧ x.(x_target) = m.(target_node_id) ∧
       x.(attempted) ≤ Z.max m.(peers_to_move) 0.

Definition budget_used (l : list RebalanceExecutionOut) : Z :=
  sumZ ((λ x, x.(succeeded) + x.(rolled_back)) <$> l).

Lemma plan_steps_accounts d now_ts batch soe roe moves (s0 : plan_state (W := W)) b0 :
  s0.(e_results) = [] → s0.(e_budget) = b0 → 0 ≤ b0 →
  let s := foldl (plan_step settings d now_ts batch soe roe) s0 moves in
  0 ≤ s.(e_budget) ∧ budget_used s.(e_results) = b0 - s.(e_budget) ∧
  Forall (result_ok batch moves) s.(e_results).
Proof using All.
  intros Hr Hb H0. induction moves as [|m moves IH] using rev_ind.
  { simpl. rewrite Hr, Hb. split_and!; [done| |constructor]. unfold budget_used. simpl. lia. }
  rewrite foldl_app. simpl. set (s := foldl _ s0 moves) in *. simpl in IH.
  destruct IH as (IH1 & IH2 & IH3).
  assert (Forall (result_ok batch (moves ++ [m])) s.(e_results)) as IH3'.
  { eapply Forall_impl; [exact IH3|]. unfold result_ok.
    intros x (?&?&?&?&?&m'&?&?). split_and!; try done. exists m'. set_solver. }
  unfold plan_step. destruct (e_break s); [done|].
  destruct (Z.leb_spec (e_budget s) 0); [done|].
  destruct (Z.leb_spec (Z.min (Z.min (Z.max m.(peers_to_move) 0) batch) (e_budget s)) 0);
    [done|].
  destruct (run_move _ _ _ _ _ _ _ _ _ _) as [st out] eqn:E.
  pose proof (f_equal (λ x, x.2.(x_source)) E) as Es.
  pose proof (f_equal (λ x, x.2.(x_target)) E) as Et.
  apply run_move_accounts in E as ((? & Hbud & ? & ? & ? & ?) & Ea & Esu & Ef & Erb & Hle);
    [|lia]. cbn.
  assert (out.(x_source) = m.(source_node_id) ∧ out.(x_target) = m.(target_node_id)) as [? ?].
  { simpl in Es, Et. rewrite <- Es, <- Et. unfold run_move.
    by destruct (move_candidates _ _ _ _ _). }
  split_and!; [lia| |].
  - unfold budget_used in *. rewrite fmap_app, sumZ_app, IH2. simpl. lia.
  - apply Forall_app; split; [done|]. constructor; [|done]. unfold result_ok.
    rewrite Ea, Esu, Ef, Erb. split_and!; try lia. exists m. split_and!; auto with lia.
    set_solver.
Qed.

Lemma execute_rebalance_accounts now (w w' : W) d d' moves batch max_exec soe roe
    results reason :
  execute_rebalance_plan settings now w d moves batch max_exec soe roe
    = (w', d', results, reason) →
  budget_used results ≤ Z.max 0 max_exec ∧ Forall (result_ok batch moves) results.
Proof using All.
  unfold execute_rebalance_plan. intros [= _ _ <- _].
  destruct (plan_steps_accounts d (now / 1000000) batch soe roe moves
    (mkPlanState w d.(devices) (Z.max 0 max_exec) [] None false false) (Z.max 0 max_exec))
    as (? & ? & ?); [done|done|lia|]. split; [lia|done].
Qed.
(** An execution never exceeds its limits and its accounts add up.  The
    successful migrations, those rolled back included, are at most
    [max_executions_per_cycle]; each result belongs to a move of the plan,
    attempted at most its peers and at most a batch; and every attempt is
    counted once, as a success, a rollback or a failure. *)
Theorem execute_rebalance_within_budget now (w w' : W) d d' moves batch max_exec soe roe
    results reason :
  execute_rebalance_plan settings now w d moves batch max_exec soe roe
    = (w', d', results, reason) →
  budget_used results ≤ Z.max 0 max_exec ∧ Forall (result_ok batch moves) results.
Proof using All. apply execute_rebalance_accounts. Qed.
End accounts.

(** ** Rollback *)

Lemma put_device_ids dev ds : Device.id <$> put_device dev ds = Device.id <$> ds.
Proof.
  unfold put_device. rewrite <- list_fmap_compose. apply list_fmap_ext. intros i x _. simpl.
  by destruct (String.eqb_spec (Device.id x) (Device.id dev)).
Qed.

Lemma put_device_same dev ds :
  NoDup (Device.id <$> ds) → dev ∈ ds → put_device dev ds = ds.
Proof.
  unfold put_device. intros Hnd Hin. rewrite <- (list_fmap_id ds) at 2.
  apply list_fmap_ext. intros i x Hx. simpl.
  destruct (String.eqb_spec (Device.id x) (Device.id dev)) as [E|]; [|done].
  apply list_elem_of_lookup in Hin as [j Hj].
  assert (i = j) as ->; [|congruence].
  eapply NoDup_lookup; [exact Hnd| |].
  - rewrite list_lookup_fmap, Hx. simpl. by rewrite E.
  - by rewrite list_lookup_fmap, Hj.
Qed.

Lemma put_device_twice dev dev' ds :
  dev.(Device.id) = dev'.(Device.id) → put_device dev (put_device dev' ds) = put_device dev ds.
Proof.
  intros E. unfold put_device. rewrite <- list_fmap_compose. apply list_fmap_ext.
  intros i x _. simpl. destruct (String.eqb_spec (Device.id x) (Device.id dev')) as [E'|Hne];
    [|done]. by rewrite E, E', !String.eqb_refl.
Qed.

Lemma put_device_comm dev dev' ds :
  dev.(Device.id) ≠ dev'.(Device.id) →
  put_device dev (put_device dev' ds) = put_device dev' (put_device dev ds).
Proof.
  intros Hne. unfold put_device. rewrite <- !list_fmap_compose. apply list_fmap_ext.
  intros i x _. simpl.
  destruct (String.eqb_spec (Device.id x) (Device.id dev')),
    (String.eqb_spec (Device.id x) (Device.id dev));
    repeat match goal with |- context [String.eqb ?a ?b] => destruct (String.eqb_spec a b) end;
    congruence.
Qed.

(** Writing the devices back in reverse order undoes the moves. *)
Lemma put_devices_undo (f : Device.t → Device.t) l ds :
  (∀ x, (f x).(Device.id) = x.(Device.id)) →
  NoDup (Device.id <$> ds) → NoDup (Device.id <$> l) → (∀ x, x ∈ l → x ∈ ds) →
  foldl (λ ds x, put_device x ds) (foldl (λ ds x, put_device x ds) ds (f <$> l)) (reverse l) = ds.
Proof.
  intros Hf Hds. induction l as [|x l IH] using rev_ind; intros Hnd Hsub; [done|].
  rewrite reverse_app, fmap_app, !foldl_app, reverse_singleton. simpl.
  rewrite fmap_app in Hnd. apply NoDup_app in Hnd as (Hnd & Hx & _).
  rewrite put_device_twice by (by rewrite Hf).
  assert (∀ l' ds, (∀ y, y ∈ l' → y.(Device.id) ≠ x.(Device.id)) →
    put_device x (foldl (λ ds x, put_device x ds) ds (f <$> l')) =
    foldl (λ ds x, put_device x ds) (put_device x ds) (f <$> l')) as Hcomm.
  { intros l'. induction l' as [|y l' IHl]; intros ds' Hl'; [done|]. simpl.
    rewrite IHl by set_solver. rewrite put_device_comm; [done|]. rewrite Hf.
    intros E. by apply (Hl' y); [set_solver|]. }
  rewrite Hcomm.
  - rewrite put_device_same by (auto; apply Hsub; set_solver).
    apply IH; [done|]. intros y Hy. apply Hsub. set_solver.
  - intros y Hy E. apply (Hx y.(Device.id)); [by apply list_elem_of_fmap_2|].
    rewrite E. simpl. set_solver.
Qed.

Section rollback.
Context {W : Type} `{NodeRuntimeAdapter W} (settings : Settings).

Lemma migrate_peer_device (w w' : W) dev target dev' :
  migrate_peer w dev target = (w', Ok dev') → dev' = Device.set_server_id target dev.
Proof using All.
  unfold migrate_peer. intros Hm. repeat case_match; simplify_eq; try done.
  match goal with E : String.eqb _ _ = true |- _ => apply String.eqb_eq in E; rewrite <- E end.
  by rewrite set_server_id_same.
Qed.

(** A rollback in which no call failed writes every device back. *)
Lemma rollback_devices source l : ∀ (w : W) ds rb succ rf w' ds' rb' succ' rf',
  foldl (rollback_one source) (w, ds, rb, succ, rf) l = (w', ds', rb', succ', rf') →
  rf ≤ rf' ∧
  (rf' = rf → ds' = foldl (λ ds x, put_device x ds) ds (Device.set_server_id source <$> l)).
Proof using All.
  induction l as [|x l IH]; intros *; cbn [foldl fmap list_fmap].
  { intros [= <- <- <- <- <-]. split; [lia|done]. }
  unfold rollback_one at 2. destruct (migrate_peer w x source) as [w1 [dev|e]] eqn:E;
    intros Hf; apply IH in Hf as [Hle Hds].
  - apply migrate_peer_device in E as ->. auto.
  - split; [lia|]. intros ->. lia.
Qed.

Ltac mcbn :=
  cbn [m_world m_devices m_budget m_attempted m_succeeded m_failed m_rolled_back
       m_rollback_failed m_migrated m_status m_stopped andb] in *.

(** The devices of a move, before the first failure and after it. *)
Definition restorable (move : RebalanceMoveOut) (ds : list Device.t) (l : list Device.t)
    (st : move_state (W := W)) : Prop :=
  0 ≤ st.(m_rollback_failed) ∧
  if st.(m_stopped) then st.(m_rollback_failed) = 0 → st.(m_devices) = ds
  else st.(m_failed) = 0 ∧ st.(m_rollback_failed) = 0 ∧
       st.(m_migrated) = Device.set_server_id move.(target_node_id) <$> l ∧
       st.(m_devices) = foldl (λ ds x, put_device x ds) ds
         (Device.set_server_id move.(target_node_id) <$> l).

Lemma move_steps_restorable move ds l : ∀ st,
  NoDup (Device.id <$> ds) → NoDup (Device.id <$> l) →
  (∀ x, x ∈ l → x ∈ ds ∧ x.(Device.server_id) = move.(source_node_id)) →
  restorable move ds [] st →
  restorable move ds l (foldl (move_step true true move) st l).
Proof using All.
  induction l as [|x l IH] using rev_ind; intros st Hds Hnd Hsub Hst; [done|].
  rewrite foldl_app. simpl. rewrite fmap_app in Hnd.
  apply NoDup_app in Hnd as (Hndl & Hx & _).
  assert (∀ y, y ∈ l → y ∈ ds ∧ y.(Device.server_id) = move.(source_node_id)) as Hsub'
    by (intros; apply Hsub; set_solver).
  specialize (IH st Hds Hndl Hsub' Hst).
  destruct (foldl _ st l) as [w dd bud at_ su fa rb rf mi sta sto].
  unfold restorable, move_step in *. mcbn.
  destruct sto; [done|]. destruct IH as (Hrf0 & -> & -> & -> & ->).
  destruct (migrate_peer w x _) as [w1 [dev|e]] eqn:E.
  - apply migrate_peer_device in E as ->. mcbn. split_and!; try done.
    + by rewrite fmap_app.
    + by rewrite fmap_app, foldl_app.
  - rewrite <- fmap_reverse.
    destruct (bool_decide (Device.set_server_id (target_node_id move) <$> l ≠ [])) eqn:El; mcbn.
    + destruct (foldl (rollback_one _) _ _) as [[[[w2 ds2] rb2] su2] rf2] eqn:Er. mcbn.
      apply rollback_devices in Er as [Hle Hds2]. split; [lia|]. intros ->.
      rewrite (Hds2 eq_refl), <- list_fmap_compose.
      assert ((Device.set_server_id (source_node_id move) ∘
               Device.set_server_id (target_node_id move)) <$> reverse l = reverse l) as ->.
      { rewrite <- (list_fmap_id (reverse l)) at 2. apply list_fmap_ext. intros i y Hy.
        cbn [compose]. rewrite set_server_id_twice.
        apply list_elem_of_lookup_2 in Hy. rewrite elem_of_reverse in Hy.
        destruct (Hsub' y Hy) as [_ <-]. apply set_server_id_same. }
      apply put_devices_undo; try done. apply Hsub'.
    + split; [lia|]. intros _. apply bool_decide_eq_false, dec_stable in El. by rewrite El.
Qed.
End rollback.

(** ** The candidates of a move *)

Lemma NoDup_bind {A B K} (f : A → list B) (g : B → K) (k : A → K) (l : list A) :
  NoDup (k <$> l) →
  (∀ a, a ∈ l → (length (f a) ≤ 1)%nat ∧ ∀ b, b ∈ f a → g b = k a) →
  NoDup (g <$> (l ≫= f)).
Proof.
  induction l as [|a l IH]; intros Hnd Hf; [constructor|].
  rewrite fmap_cons in Hnd. apply NoDup_cons in Hnd as [Ha Hnd]. csimpl. rewrite fmap_app.
  destruct (Hf a) as [Hlen Hg]; [set_solver|].
  apply NoDup_app. split_and!.
  - destruct (f a) as [|b [|]]; [constructor|apply NoDup_singleton|simpl in Hlen; lia].
  - intros x (b & -> & Hb)%list_elem_of_fmap (b' & E & Hb')%list_elem_of_fmap.
    apply list_elem_of_bind in Hb' as (a' & Hb' & Ha').
    apply Ha. rewrite <- (Hg b Hb), E. destruct (Hf a') as [_ Hg']; [set_solver|].
    rewrite (Hg' b' Hb'). by apply list_elem_of_fmap_2.
  - apply IH; [done|]. intros a' Ha'. apply Hf. set_solver.
Qed.

(** A filter on a unique key keeps at most one row. *)
Lemma filterb_key_le_1 {A} (k : A → string) (l : list A) key :
  NoDup (k <$> l) → (length (filterb (λ a, String.eqb (k a) key) l) ≤ 1)%nat.
Proof.
  intros Hnd. pose proof (NoDup_fmap_filterb k (λ a, String.eqb (k a) key) l Hnd) as Hf.
  destruct (filterb _ l) as [|x [|y l']] eqn:E; simpl; [lia|lia|exfalso].
  assert (x ∈ filterb (λ a, String.eqb (k a) key) l) as [Hx _]%elem_of_filterb
    by (rewrite E; set_solver).
  assert (y ∈ filterb (λ a, String.eqb (k a) key) l) as [Hy _]%elem_of_filterb
    by (rewrite E; set_solver).
  bools. simpl in Hf. apply NoDup_cons in Hf as [Hf _]. apply Hf. set_solver.
Qed.

Lemma length_bind_le_1 {A B} (f : A → list B) (l : list A) :
  (length l ≤ 1)%nat → (∀ a, a ∈ l → (length (f a) ≤ 1)%nat) → (length (l ≫= f) ≤ 1)%nat.
Proof.
  destruct l as [|a [|]]; simpl; try lia. intros _ Hf. rewrite app_nil_r. apply Hf. set_solver.
Qed.

(** The keys of the tables. *)
Definition db_keys (d : db) : Prop :=
  NoDup (Device.id <$> d.(devices)) ∧ NoDup (Subscription.id <$> d.(subscriptions)) ∧
  NoDup (Plan.id <$> d.(plans)).

Lemma device_plan_rows_elem d dev sub plan :
  (dev, sub, plan) ∈ device_plan_rows d ↔
  dev ∈ d.(devices) ∧ sub ∈ d.(subscriptions) ∧ plan ∈ d.(plans) ∧
  sub.(Subscription.id) = dev.(Device.subscription_id) ∧
  plan.(Plan.id) = sub.(Subscription.plan_id).
Proof.
  unfold device_plan_rows. rewrite list_elem_of_bind. split.
  - intros (dv & (sb & (pl & Hr & [Hp ?]%elem_of_filterb)%list_elem_of_bind
      & [Hs ?]%elem_of_filterb)%list_elem_of_bind & Hd).
    apply list_elem_of_singleton in Hr. simplify_eq. bools. auto.
  - intros (Hd & Hs & Hp & E1 & E2). exists dev. split; [|done].
    apply list_elem_of_bind. exists sub. split.
    + apply list_elem_of_bind. exists plan. split; [set_solver|].
      apply elem_of_filterb. rewrite E2, String.eqb_refl. auto.
    + apply elem_of_filterb. rewrite E1, String.eqb_refl. auto.
Qed.

Lemma device_plan_rows_NoDup d :
  db_keys d → NoDup ((λ r, r.1.1.(Device.id)) <$> device_plan_rows d).
Proof.
  intros (Hd & Hs & Hp). unfold device_plan_rows.
  apply NoDup_bind with (k := Device.id); [done|]. intros dev Hdev. split.
  - apply length_bind_le_1; [by apply filterb_key_le_1|]. intros sub _.
    apply length_bind_le_1; [by apply filterb_key_le_1|]. simpl. lia.
  - intros r (sb & (pl & Hr & _)%list_elem_of_bind & _)%list_elem_of_bind.
    apply list_elem_of_singleton in Hr as ->. done.
Qed.

Section candidates.
Context {W : Type} `{NodeRuntimeAdapter W} (settings : Settings).

Lemma move_candidates_spec d ds (w w' : W) now_ts source cands :
  db_keys (set_devices ds d) →
  move_candidates settings w now_ts source (source_rows d ds source) = (w', cands) →
  NoDup (Device.id <$> cands) ∧
  ∀ x, x ∈ cands → x ∈ ds ∧ x.(Device.server_id) = source ∧
    x.(Device.revoked_at) = None ∧
    ∃ sub plan, (x, sub, plan) ∈ device_plan_rows (set_devices ds d) ∧
      _is_enterprise_plan_name (Some plan.(Plan.name)) (_enterprise_plan_keywords settings)
        = false.
Proof using All.
  intros Hk. unfold move_candidates. destruct (list_peers source w) as [w1 r].
  intros [= _ <-]. rewrite sorted_by_perm. split.
  - unfold movable_devices. rewrite <- list_fmap_compose.
    apply (NoDup_fmap_filterb (Device.id ∘ (λ r0, r0.1.1))). unfold source_rows.
    rewrite sorted_by_perm. apply NoDup_fmap_filterb. by apply device_plan_rows_NoDup.
  - intros x Hx. apply elem_of_sorted_by in Hx. unfold movable_devices in Hx.
    apply list_elem_of_fmap in Hx as ([[dv sb] pl] & -> & [He Hin]%elem_of_filterb).
    unfold source_rows in Hin. apply elem_of_sorted_by, elem_of_filterb in Hin as [Hc Hin].
    simpl in *. bools. split_and!; try done.
    + by apply device_plan_rows_elem in Hin as (? & _).
    + by apply is_none_true.
    + eauto.
Qed.

(** C5: a move that fails under [stop_on_error] and [rollback_on_error] leaves
    no trace in the database when no rollback call fails: every device is back
    in its row as it was before the move. *)
Theorem run_move_rolls_back d now_ts limit budget (w : W) ds move st out :
  db_keys (set_devices ds d) →
  run_move settings d now_ts true true limit budget w ds move = (st, out) →
  0 < out.(failed) → out.(rollback_failed) = 0 → st.(m_devices) = ds.
Proof using All.
  unfold run_move. intros Hk Hr. destruct (move_candidates _ _ _ _ _) as [w1 cands] eqn:Ec.
  destruct (move_candidates_spec _ _ _ _ _ _ _ Hk Ec) as [Hnd Hc].
  pose proof (move_steps_restorable settings move ds (take (Z.to_nat limit) cands)
    (mkMoveState w1 ds budget 0 0 0 0 0 [] "completed" false)) as Hst.
  injection Hr as <- <-. cbn. intros Hf Hrf.
  destruct Hst as [_ Hst].
  - apply Hk.
  - by apply NoDup_fmap_take.
  - intros x Hx%elem_of_take_sub. destruct (Hc x Hx) as (? & ? & _). done.
  - unfold restorable. cbn. split_and!; done || lia.
  - destruct (m_stopped _); [auto|lia].
Qed.
End candidates.

(** ** Enterprise peers stay *)

Section pinned.
Context {W : Type} `{NodeRuntimeAdapter W} (settings : Settings).

(** All the rows of the device are on enterprise plans. *)
Definition enterprise_device (d : db) (dev : Device.t) : Prop :=
  ∀ sub plan, (dev, sub, plan) ∈ device_plan_rows d →
    _is_enterprise_plan_name (Some plan.(Plan.name)) (_enterprise_plan_keywords settings) = true.

Lemma put_device_keeps x dev ds :
  x.(Device.id) ≠ dev.(Device.id) → dev ∈ ds → dev ∈ put_device x ds.
Proof using Type.
  intros Hne Hin. unfold put_device. apply list_elem_of_fmap. exists dev. split; [|done].
  by rewrite (proj2 (String.eqb_neq _ _)) by congruence.
Qed.

Definition keeps (ids : list string) (dev : Device.t) (st : move_state (W := W)) : Prop :=
  Device.id <$> st.(m_devices) = ids ∧ dev ∈ st.(m_devices) ∧
  Forall (λ x, x.(Device.id) ≠ dev.(Device.id)) st.(m_migrated).

Lemma rollback_keeps source dev ids l : ∀ (w : W) ds rb su rf,
  Device.id <$> ds = ids → dev ∈ ds → Forall (λ x, x.(Device.id) ≠ dev.(Device.id)) l →
  let '(_, ds', _, _, _) := foldl (rollback_one source) (w, ds, rb, su, rf) l in
  Device.id <$> ds' = ids ∧ dev ∈ ds'.
Proof using All.
  induction l as [|x l IH]; intros w ds rb su rf Hids Hin Hall; [done|].
  apply Forall_cons in Hall as [Hx Hall]. cbn [foldl]. unfold rollback_one at 2.
  destruct (migrate_peer w x source) as [w1 [x'|e]] eqn:E; [|by apply IH].
  apply (migrate_peer_device settings) in E as ->. apply IH; [|by apply put_device_keeps|done].
  by rewrite put_device_ids.
Qed.

Lemma move_steps_keep soe roe move ids dev l : ∀ st,
  Forall (λ x, x.(Device.id) ≠ dev.(Device.id)) l → keeps ids dev st →
  keeps ids dev (foldl (move_step soe roe move) st l).
Proof using All.
  induction l as [|x l IH]; intros st Hl Hst; [done|].
  apply Forall_cons in Hl as [Hx Hl]. cbn [foldl]. apply IH; [done|].
  unfold move_step. destruct (m_stopped st); [done|]. destruct Hst as (Hids & Hin & Hmig).
  destruct (migrate_peer _ _ _) as [w1 [x'|e]] eqn:E.
  - apply (migrate_peer_device settings) in E as ->. unfold keeps. cbn.
    rewrite put_device_ids. split_and!; [done|by apply put_device_keeps|].
    apply Forall_app; split; [done|by repeat constructor].
  - destruct (roe && bool_decide (m_migrated st ≠ [])); [|done].
    pose proof (rollback_keeps move.(source_node_id) dev ids (reverse st.(m_migrated)) w1
      st.(m_devices) st.(m_rolled_back) st.(m_succeeded) st.(m_rollback_failed) Hids Hin) as Hr.
    destruct (foldl _ _ _) as [[[[? ?] ?] ?] ?].
    assert (Forall (λ x, Device.id x ≠ Device.id dev) (reverse (m_migrated st))) as Hrev.
    { rewrite Forall_forall in Hmig |- *. intros y Hy. apply Hmig.
      by rewrite elem_of_reverse in Hy. }
    destruct (Hr Hrev). unfold keeps. cbn. auto.
Qed.

(** The rows of a device do not depend on the other devices. *)
Lemma enterprise_not_candidate d ds dev x sub plan :
  enterprise_device d dev → NoDup (Device.id <$> ds) → dev ∈ ds → dev ∈ d.(devices) →
  (x, sub, plan) ∈ device_plan_rows (set_devices ds d) →
  _is_enterprise_plan_name (Some plan.(Plan.name)) (_enterprise_plan_keywords settings) = false →
  x.(Device.id) ≠ dev.(Device.id).
Proof using All.
  intros He Hnd Hds Hd Hr Hf E. apply device_plan_rows_elem in Hr as (Hx & Hs & Hp & E1 & E2).
  assert (x = dev) as -> by (by eapply (NoDup_fmap_inj Device.id ds)).
  rewrite (He sub plan) in Hf; [done|]. apply device_plan_rows_elem. auto.
Qed.

Lemma run_move_keeps d now_ts soe roe limit budget (w : W) ds move st out dev :
  db_keys (set_devices ds d) → enterprise_device d dev → dev ∈ ds → dev ∈ d.(devices) →
  run_move settings d now_ts soe roe limit budget w ds move = (st, out) →
  Device.id <$> st.(m_devices) = Device.id <$> ds ∧ dev ∈ st.(m_devices).
Proof using All.
  unfold run_move. intros Hk He Hds Hd Hr.
  destruct (move_candidates _ _ _ _ _) as [w1 cands] eqn:Ec.
  destruct (move_candidates_spec _ _ _ _ _ _ _ _ Hk Ec) as [_ Hc].
  injection Hr as <- <-.
  destruct (move_steps_keep soe roe move (Device.id <$> ds) dev (take (Z.to_nat limit) cands)
    (mkMoveState w1 ds budget 0 0 0 0 0 [] "completed" false)) as (? & ? & _); [|done..].
  apply Forall_forall. intros x Hx%elem_of_take_sub.
  destruct (Hc x Hx) as (_ & _ & _ & sub & plan & Hrow & Hf).
  apply (enterprise_not_candidate d ds dev x sub plan); try done. exact (proj1 Hk).
Qed.

(** An execution never moves the devices of enterprise subscriptions:
    a device whose subscription is on an enterprise plan has the same row
    before and after. *)
Theorem execute_rebalance_keeps_enterprise now (w w' : W) d d' moves batch max_exec soe roe
    results reason dev :
  db_keys d → dev ∈ d.(devices) → enterprise_device d dev →
  execute_rebalance_plan settings now w d moves batch max_exec soe roe
    = (w', d', results, reason) →
  dev ∈ d'.(devices).
Proof using All.
  intros Hk Hd He. unfold execute_rebalance_plan. intros [= _ <- _ _]. cbn.
  set (s0 := mkPlanState w d.(devices) (Z.max 0 max_exec) [] None false false).
  assert (Device.id <$> s0.(e_devices) = Device.id <$> d.(devices) ∧ dev ∈ s0.(e_devices))
    as Hs0 by done.
  clearbody s0. revert s0 Hs0.
  induction moves as [|m moves IH]; intros s0 [Hids Hin]; [done|]. cbn [foldl]. apply IH.
  unfold plan_step. destruct (e_break s0); [done|].
  destruct (e_budget s0 <=? 0); [done|]. destruct (_ <=? 0); [done|].
  destruct (run_move _ _ _ _ _ _ _ _ _ _) as [st out] eqn:E. cbn.
  apply (run_move_keeps _ _ _ _ _ _ _ _ _ _ _ dev) in E as [E1 E2]; try done.
  - by rewrite E1.
  - destruct Hk as (Hk & ? & ?). unfold db_keys. cbn. by rewrite Hids.
Qed.
End pinned.

(** ** A concrete execution *)

Definition wit_sub (i plan : string) : Subscription.t :=
  Subscription.mk i 1 plan 0 0 3 "active" false None None None None None 0.

(** [d1] moves, [d2] cannot (its addresses are the default route), [d3] is on an
    enterprise plan. *)
Definition wit_db : db :=
  mkDb [] [Device.test "d1" "a" "k1" "10.8.1.2/32"; Device.test "d2" "a" "k2" "0.0.0.0/0";
           Device.mk "d3" 1 "ent" "a" "k3" (Some "10.8.1.4/32") None 0
             None None None None None None None 0 None None None None None None None None]
    [wit_sub "sub" "p1"; wit_sub "ent" "p2"]
    [Plan.mk "p1" "Basic" 30 500 "XTR"; Plan.mk "p2" "Enterprise" 30 5000 "XTR"] [] [].

Definition wit_world : cluster := mkCluster {["a" := {["k1" := "10.8.1.2/32"]}]} ∅.

Lemma wit_db_keys : db_keys wit_db.
Proof. split_and!; apply (bool_decide_unpack _); vm_compute; exact I. Qed.

Lemma execute_rebalance_within_budget_witness :
  let out := execute_rebalance_plan default_settings (seconds 1000000) wit_world wit_db [mkMove "a" "b" 5]
               10 1 false false in
  out.1.2 = [mkExecution "a" "b" 5 1 1 0 0 0 1 "partial_budget"] ∧
  budget_used out.1.2 ≤ 1.
Proof.
  split; [vm_compute; reflexivity|].
  exact (proj1 (execute_rebalance_within_budget default_settings (seconds 1000000) wit_world _ wit_db _
    [mkMove "a" "b" 5] 10 1 false false _ _
    (eq_trans (surjective_pairing _)
      (f_equal (λ p, (p, _)) (eq_trans (surjective_pairing _)
        (f_equal (λ p, (p, _)) (surjective_pairing _))))))).
Defined.

Definition wit_run : move_state (W := cluster) * RebalanceExecutionOut :=
  run_move default_settings wit_db 1000000 true true 5 9 wit_world wit_db.(devices)
    (mkMove "a" "b" 5).

Lemma run_move_rolls_back_witness :
  wit_run.2 = mkExecution "a" "b" 5 2 0 1 1 0 1 "stopped_on_error" ∧
  wit_run.1.(m_devices) = wit_db.(devices).
Proof.
  assert (wit_run.2 = mkExecution "a" "b" 5 2 0 1 1 0 1 "stopped_on_error") as E
    by (vm_compute; reflexivity).
  split; [exact E|].
  apply (run_move_rolls_back default_settings wit_db 1000000 5 9 wit_world wit_db.(devices)
    (mkMove "a" "b" 5) wit_run.1 wit_run.2); [exact wit_db_keys|apply surjective_pairing| |];
    rewrite E; reflexivity.
Defined.

Lemma execute_rebalance_keeps_enterprise_witness :
  let dev := Device.mk "d3" 1 "ent" "a" "k3" (Some "10.8.1.4/32") None 0
               None None None None None None None 0 None None None None None None None None in
  let out := execute_rebalance_plan default_settings (seconds 1000000) wit_world wit_db [mkMove "a" "b" 5]
               10 9 false false in
  dev ∈ wit_db.(devices) ∧ dev ∈ out.1.1.2.(devices).
Proof.
  assert (Device.mk "d3" 1 "ent" "a" "k3" (Some "10.8.1.4/32") None 0
               None None None None None None None 0 None None None None None None None None ∈ wit_db.(devices)) as Hin
    by (right; right; left).
  split; [exact Hin|].
  eapply (execute_rebalance_keeps_enterprise default_settings (seconds 1000000) wit_world _ wit_db _
    [mkMove "a" "b" 5] 10 9 false false _ _ _ wit_db_keys Hin).
  - intros sub plan Hr. apply device_plan_rows_elem in Hr as (_ & Hs & Hp & E1 & E2).
    cbn in *. repeat match goal with
    | H : _ ∈ _ :: _ |- _ => apply elem_of_cons in H as [->|H]
    | H : _ ∈ [] |- _ => by apply elem_of_nil in H
    end; try discriminate; vm_compute; reflexivity.
  - exact (eq_trans (surjective_pairing _)
      (f_equal (λ p, (p, _)) (eq_trans (surjective_pairing _)
        (f_equal (λ p, (p, _)) (surjective_pairing _))))).
Defined.
