(* ===== verification/Automation.v ===== *)
(** * The automation cycle ([control_plane_service.py])

    Plan, failover, execution and the provisioning state of the servers, run as
    one cycle whose report is stored as an event. *)

From S2P Require Import Prelude PyFloat PyStr Settings Models Node ControlPlaneDb Rebalance Planning Runtime Migration.
Open Scope Z_scope.

(** ** Provisioning state *)

Definition below_threshold (threshold : float) (n : NodeMetadata) : bool :=
  String.eqb n.(status) "unhealthy" || flt (f_or0 n.(health_score)) threshold.

(** The server of one node, and what is counted. *)
Definition sync_server (threshold : float) (n : NodeMetadata) (s : Server.t) : Server.t * Z * Z :=
  let unhealthy := below_threshold threshold n in
  let '(s, paused) :=
    if unhealthy && s.(Server.is_active) then (Server.set_active false s, 1) else (s, 0) in
  if negb unhealthy && schedulable_status n && negb s.(Server.is_active)
  then (Server.set_active true s, paused, 1) else (s, paused, 0).

Definition put_server (s : Server.t) (ss : list Server.t) : list Server.t :=
  (λ x, if String.eqb x.(Server.id) s.(Server.id) then s else x) <$> ss.

Definition find_server (i : string) (ss : list Server.t) : option Server.t :=
  head (filterb (λ s, String.eqb s.(Server.id) i) ss).

Definition sync_node (threshold : float) (st : list Server.t * Z * Z) (n : NodeMetadata)
    : list Server.t * Z * Z :=
  let '(ss, paused, resumed) := st in
  match find_server n.(node_id) ss with
  | None => st
  | Some s =>
      let '(s, p, r) := sync_server threshold n s in
      (put_server s ss, paused + p, resumed + r)
  end.

Definition _sync_server_provisioning_state (d : db) (topo : ClusterTopology) (threshold : float)
    : db * Z * Z :=
  let '(ss, paused, resumed) := foldl (sync_node threshold) (d.(servers), 0, 0) topo.(nodes) in
  (set_servers ss d, paused, resumed).

(** ** The cycle *)

Section cycle.
Context {W : Type} `{NodeRuntimeAdapter W} (settings : Settings).

Record cycle_options : Type := mkCycleOptions {
  o_high_watermark : float;
  o_target_watermark : float;
  o_max_moves_per_node : Z;
  o_unhealthy_health_threshold : float;
  o_execute_rebalance : bool;
  o_batch_size : Z;
  o_max_executions_per_cycle : Z;
  o_stop_on_error : bool;
  o_rollback_on_error : bool;
  o_has_adapter : bool;
  o_sync_server_state : bool
}.

Definition run_automation_cycle (now : Z) (w : W) (d : db) (topo : ClusterTopology)
    (o : cycle_options) : res (W * db * AutomationRunOut) :=
  '(d, rebalance_plan) ← plan_rebalance settings now d topo
    (mkPlanRequest o.(o_high_watermark) o.(o_target_watermark) o.(o_max_moves_per_node));
  let '(d, failover_eval) := evaluate_failover settings now d topo in
  '(w, d, executions, stop_reason) ←
    (if o.(o_execute_rebalance) && bool_decide (rebalance_plan.(plan_moves) ≠ []) then
       if o.(o_has_adapter) then
         Ok (execute_rebalance_plan settings now w d rebalance_plan.(plan_moves)
               o.(o_batch_size) o.(o_max_executions_per_cycle) o.(o_stop_on_error)
               o.(o_rollback_on_error))
       else Err (ValueError "runtime_adapter is required when execute_rebalance=true")
     else Ok (w, d, [], None));
  let '(d, paused_nodes, resumed_nodes) :=
    if o.(o_sync_server_state)
    then _sync_server_provisioning_state d topo o.(o_unhealthy_health_threshold)
    else (d, 0, 0) in
  let total f := sumZ (fmap (M:=list) f executions) in
  let cycle := mkRun topo.(load_factor) topo.(topo_health_score)
    (Z.of_nat (length failover_eval.(failed_nodes)))
    (Z.of_nat (length rebalance_plan.(plan_moves)))
    rebalance_plan.(total_peers_to_move) o.(o_execute_rebalance)
    (total succeeded) (total failed) (total rolled_back) (total rollback_failed)
    stop_reason executions paused_nodes resumed_nodes in
  let event := mkEvent "automation.cycle.completed"
    (if 0 <? cycle.(failed_nodes_count) then "warning" else "info") None
    (CycleCompleted cycle) in
  Ok (w, add_event event d, cycle).
End cycle.

(** The last stored cycle: events are in creation order. *)
Definition last_run (d : db) : option AutomationRunOut :=
  match last (filterb (λ e, String.eqb e.(event_type) "automation.cycle.completed") d.(events)) with
  | Some e => match e.(event_payload) with CycleCompleted r => Some r | _ => None end
  | None => None
  end.

Record AutomationStatusOut : Type := mkStatus {
  st_enabled : bool;
  st_interval_seconds : Z;
  st_unhealthy_health_threshold : float;
  st_enterprise_plan_keywords : list string;
  st_high_watermark : float;
  st_target_watermark : float;
  st_max_moves_per_node : Z;
  st_execute_enabled : bool;
  st_batch_size : Z;
  st_max_executions_per_cycle : Z;
  st_qos_idle_handshake_seconds : Z;
  st_qos_hot_traffic_bytes : Z;
  st_throttling_enabled : bool;
  st_throttling_dry_run : bool;
  st_stop_on_error : bool;
  st_rollback_on_error : bool;
  st_last_run : option AutomationRunOut
}.

Definition automation_status (settings : Settings) (d : db) : AutomationStatusOut := {|
  st_enabled := settings.(control_plane_automation_enabled);
  st_interval_seconds := settings.(control_plane_automation_interval_seconds);
  st_unhealthy_health_threshold := settings.(control_plane_unhealthy_health_threshold);
  st_enterprise_plan_keywords := _enterprise_plan_keywords settings;
  st_high_watermark := settings.(control_plane_rebalance_high_watermark);
  st_target_watermark := settings.(control_plane_rebalance_target_watermark);
  st_max_moves_per_node := settings.(control_plane_rebalance_max_moves_per_node);
  st_execute_enabled := settings.(control_plane_rebalance_execute_enabled);
  st_batch_size := settings.(control_plane_rebalance_batch_size);
  st_max_executions_per_cycle := settings.(control_plane_rebalance_max_executions_per_cycle);
  st_qos_idle_handshake_seconds :=
    settings.(control_plane_rebalance_qos_idle_handshake_seconds);
  st_qos_hot_traffic_bytes := settings.(control_plane_rebalance_qos_hot_traffic_bytes);
  st_throttling_enabled := settings.(control_plane_throttling_enabled);
  st_throttling_dry_run := settings.(control_plane_throttling_dry_run);
  st_stop_on_error := settings.(control_plane_rebalance_stop_on_error);
  st_rollback_on_error := settings.(control_plane_rebalance_rollback_on_error);
  st_last_run := last_run d
|}.

(** ** Provisioning follows health *)

(** What the synchronisation means for the server of a node. *)
Definition provisioned (threshold : float) (n : NodeMetadata) (active : bool) : bool :=
  if below_threshold threshold n then false
  else if schedulable_status n then true else active.

Lemma sync_server_spec threshold n s s' p r :
  sync_server threshold n s = (s', p, r) →
  s' = Server.set_active (provisioned threshold n s.(Server.is_active)) s ∧
  p = (if s.(Server.is_active) && negb s'.(Server.is_active) then 1 else 0) ∧
  r = (if negb s.(Server.is_active) && s'.(Server.is_active) then 1 else 0).
Proof.
  unfold sync_server, provisioned. destruct s. simpl.
  destruct (below_threshold threshold n), is_active, (schedulable_status n); simpl;
    intros; by simplify_eq.
Qed.

Lemma find_server_elem i ss s : find_server i ss = Some s → s ∈ ss ∧ s.(Server.id) = i.
Proof.
  unfold find_server. intros Hf.
  assert (s ∈ filterb (λ s, String.eqb s.(Server.id) i) ss) as [Hs Hin]%elem_of_filterb.
  { destruct (filter _ _); simplify_eq/=. left. }
  by bools.
Qed.

Lemma find_server_None i ss : find_server i ss = None → i ∉ Server.id <$> ss.
Proof.
  unfold find_server. intros Hf (s & -> & Hs)%list_elem_of_fmap.
  assert (s ∈ filterb (λ x, String.eqb x.(Server.id) s.(Server.id)) ss) as Hin
    by (apply elem_of_filterb; by rewrite String.eqb_refl).
  destruct (filter _ _); [by apply elem_of_nil in Hin|done].
Qed.

Lemma put_server_ids s ss : Server.id <$> put_server s ss = Server.id <$> ss.
Proof.
  unfold put_server. rewrite <- list_fmap_compose. apply list_fmap_ext. intros i x _. simpl.
  by destruct (String.eqb_spec (Server.id x) (Server.id s)).
Qed.

Lemma put_server_lookup s ss i x :
  put_server s ss !! i = Some x ↔
  ∃ y, ss !! i = Some y ∧ x = if String.eqb y.(Server.id) s.(Server.id) then s else y.
Proof. unfold put_server. rewrite list_lookup_fmap, fmap_Some. naive_solver. Qed.

(** The servers after the loop, position by position, and the two counters. *)
Definition sync_inv (threshold : float) (done : list NodeMetadata) (ss0 : list Server.t)
    (st : list Server.t * Z * Z) : Prop :=
  let '(ss, paused, resumed) := st in
  Server.id <$> ss = Server.id <$> ss0 ∧
  (∀ i s0 s, ss0 !! i = Some s0 → ss !! i = Some s →
     (∀ n, n ∈ done → n.(node_id) = s0.(Server.id) →
        s = Server.set_active (provisioned threshold n s0.(Server.is_active)) s0) ∧
     (s0.(Server.id) ∉ node_id <$> done → s = s0)) ∧
  paused = countZ (λ p, p.1.(Server.is_active) && negb p.2.(Server.is_active)) (zip ss0 ss) ∧
  resumed = countZ (λ p, negb p.1.(Server.is_active) && p.2.(Server.is_active)) (zip ss0 ss).

(** Changing one row changes a count over the rows by that row's part. *)
Lemma countZ_zip_put (p : Server.t * Server.t → bool) ss0 ss s i y :
  NoDup (Server.id <$> ss) → ss !! i = Some y → y.(Server.id) = s.(Server.id) →
  ∀ s0, ss0 !! i = Some s0 →
  countZ p (zip ss0 (put_server s ss)) =
    countZ p (zip ss0 ss) - (if p (s0, y) then 1 else 0) + (if p (s0, s) then 1 else 0).
Proof.
  revert ss0 i. induction ss as [|x ss IH]; intros ss0 i Hnd Hi Hid s0 H0; [done|].
  destruct ss0 as [|x0 ss0]; [done|]. apply NoDup_cons in Hnd as [Hx Hnd].
  unfold put_server. rewrite fmap_cons. fold (put_server s ss). cbn [zip zip_with].
  rewrite !countZ_cons. destruct i as [|i]; simplify_eq/=.
  - rewrite Hid, String.eqb_refl.
    assert (put_server s ss = ss) as ->; [|lia].
    unfold put_server. rewrite <- (list_fmap_id ss) at 2. apply list_fmap_ext. intros j z Hz.
    rewrite (proj2 (String.eqb_neq _ _)); [done|]. intros E. apply Hx. rewrite Hid, <- E.
    by eapply list_elem_of_fmap_2, list_elem_of_lookup_2.
  - rewrite (proj2 (String.eqb_neq x.(Server.id) s.(Server.id))).
    + rewrite (IH ss0 i Hnd Hi Hid s0 H0). lia.
    + intros E. apply Hx. rewrite E, <- Hid. by eapply list_elem_of_fmap_2, list_elem_of_lookup_2.
Qed.

Lemma set_active_same s : Server.set_active s.(Server.is_active) s = s.
Proof. by destruct s. Qed.

Lemma same_key_position (ss : list Server.t) i j x y :
  NoDup (Server.id <$> ss) → ss !! i = Some x → ss !! j = Some y →
  x.(Server.id) = y.(Server.id) → i = j.
Proof.
  intros Hnd Hi Hj E. eapply NoDup_lookup; [exact Hnd| |].
  - rewrite list_lookup_fmap, Hi. simpl. by rewrite E.
  - by rewrite list_lookup_fmap, Hj.
Qed.

Lemma sync_node_inv threshold done ss0 st n :
  NoDup (Server.id <$> ss0) → n.(node_id) ∉ node_id <$> done →
  sync_inv threshold done ss0 st →
  sync_inv threshold (done ++ [n]) ss0 (sync_node threshold st n).
Proof.
  destruct st as [[ss p] r]. intros Hnd Hn (Hids & Hpos & Hp & Hr).
  assert (NoDup (Server.id <$> ss)) as Hnd' by (by rewrite Hids).
  unfold sync_node. destruct (find_server n.(node_id) ss) as [y|] eqn:Ef.
  - apply find_server_elem in Ef as [Hy Hyid].
    apply list_elem_of_lookup in Hy as [i Hi].
    assert (is_Some (ss0 !! i)) as [s0 H0].
    { apply lookup_lt_is_Some. apply lookup_lt_Some in Hi.
      apply (f_equal length) in Hids. rewrite !length_fmap in Hids. lia. }
    assert (s0.(Server.id) = y.(Server.id)) as Hid0.
    { apply (f_equal (λ l, l !! i)) in Hids. rewrite !list_lookup_fmap, Hi, H0 in Hids.
      by injection Hids. }
    assert (y = s0) as ->.
    { apply (Hpos i s0 y H0 Hi). by rewrite Hid0, Hyid. }
    destruct (sync_server threshold n s0) as [[s dp] dr] eqn:Es.
    apply sync_server_spec in Es as (-> & -> & ->).
    set (s := Server.set_active _ s0).
    unfold sync_inv. rewrite put_server_ids. split_and!; [done| | |].
    + intros j t0 t Ht0 Ht. apply put_server_lookup in Ht as (z & Hz & ->).
      assert (t0.(Server.id) = z.(Server.id)) as Hidz.
      { apply (f_equal (λ l, l !! j)) in Hids. rewrite !list_lookup_fmap, Hz, Ht0 in Hids.
        by injection Hids. }
      destruct (String.eqb_spec z.(Server.id) s.(Server.id)) as [E|E].
      * change (Server.id s) with (Server.id s0) in E.
        assert (j = i) as -> by (eapply (same_key_position ss); eauto; congruence).
        simplify_eq. split; [|intros Hni; destruct Hni; rewrite fmap_app; set_solver].
        intros m [Hm| ->%list_elem_of_singleton]%elem_of_app Hmid; [|done].
        destruct Hn. rewrite <- Hyid, <- Hmid. by apply list_elem_of_fmap_2.
      * change (Server.id s) with (Server.id s0) in E.
        destruct (Hpos j t0 z Ht0 Hz) as [H1 H2]. split.
        -- intros m [Hm| ->%list_elem_of_singleton]%elem_of_app Hmid; [auto|].
           destruct E. congruence.
        -- intros Hni. apply H2. rewrite fmap_app in Hni. set_solver.
    + rewrite (countZ_zip_put _ _ _ s i s0 Hnd' Hi eq_refl s0 H0), Hp. simpl.
      destruct s0.(Server.is_active), (provisioned _ _ _); simpl; lia.
    + rewrite (countZ_zip_put _ _ _ s i s0 Hnd' Hi eq_refl s0 H0), Hr. simpl.
      destruct s0.(Server.is_active), (provisioned _ _ _); simpl; lia.
  - apply find_server_None in Ef. rewrite Hids in Ef.
    unfold sync_inv. split_and!; [done| |done|done].
    intros j t0 t Ht0 Ht. destruct (Hpos j t0 t Ht0 Ht) as [H1 H2]. split.
    + intros m [Hm| ->%list_elem_of_singleton]%elem_of_app Hmid; [auto|].
      destruct Ef. rewrite Hmid. by eapply list_elem_of_fmap_2, list_elem_of_lookup_2.
    + intros Hni. apply H2. rewrite fmap_app in Hni. set_solver.
Qed.

(** Provisioning follows health.  After the synchronisation the server of
    an unhealthy node is inactive, that of a schedulable healthy one active, any
    other row is unchanged, and the counters are exactly the rows that were
    switched off and on. *)
Theorem sync_provisioning_sound d topo threshold d' paused resumed :
  NoDup (Server.id <$> d.(servers)) → NoDup (node_id <$> topo.(nodes)) →
  _sync_server_provisioning_state d topo threshold = (d', paused, resumed) →
  (∀ i s s', d.(servers) !! i = Some s → d'.(servers) !! i = Some s' →
     (∀ n, n ∈ topo.(nodes) → n.(node_id) = s.(Server.id) →
        s' = Server.set_active (provisioned threshold n s.(Server.is_active)) s) ∧
     (s.(Server.id) ∉ node_id <$> topo.(nodes) → s' = s)) ∧
  length d'.(servers) = length d.(servers) ∧
  paused = countZ (λ p, p.1.(Server.is_active) && negb p.2.(Server.is_active))
             (zip d.(servers) d'.(servers)) ∧
  resumed = countZ (λ p, negb p.1.(Server.is_active) && p.2.(Server.is_active))
             (zip d.(servers) d'.(servers)).
Proof.
  intros Hnd Hndn. unfold _sync_server_provisioning_state.
  assert (∀ l, NoDup (node_id <$> l) →
    sync_inv threshold l d.(servers) (foldl (sync_node threshold) (d.(servers), 0, 0) l)) as Hinv.
  { induction l as [|n l IH] using rev_ind; intros Hl.
    - unfold sync_inv. simpl. split_and!; [done| | |].
      + intros i s0 s H1 H2. simplify_eq. split; [set_solver|done].
      + induction d.(servers) as [|s l IH]; [done|]. cbn [zip zip_with]. rewrite countZ_cons.
        simpl. rewrite andb_negb_r. apply NoDup_cons in Hnd as [_ Hnd]. rewrite <- IH; [lia|done].
      + induction d.(servers) as [|s l IH]; [done|]. cbn [zip zip_with]. rewrite countZ_cons.
        simpl. rewrite andb_comm, andb_negb_r. apply NoDup_cons in Hnd as [_ Hnd].
        rewrite <- IH; [lia|done].
    - rewrite foldl_app. simpl. rewrite fmap_app in Hl. apply NoDup_app in Hl as (Hl & Hx & _).
      apply sync_node_inv; [done| |auto]. intros Hin. apply (Hx _ Hin). simpl. set_solver. }
  specialize (Hinv _ Hndn). destruct (foldl _ _ _) as [[ss p] r].
  destruct Hinv as (Hids & Hpos & Hp & Hr). intros [= <- <- <-]. cbn.
  split_and!; try done. apply (f_equal length) in Hids. by rewrite !length_fmap in Hids.
Qed.

Lemma sync_provisioning_sound_witness :
  let d := set_servers [Server.test "a" true; Server.test "b" false; Server.test "c" false]
             empty_db in
  let topo := mkTopology 0 [test_node "a" "unhealthy" 5 100 f0; test_node "b" "healthy" 1 100 f1]
                200 6 f0 f0 f0 f0 f0 1 in
  let out := _sync_server_provisioning_state d topo (lit 5 1) in
  (out.1.2, out.2) = (1, 1) ∧ length out.1.1.(servers) = length d.(servers).
Proof.
  split; [vm_compute; reflexivity|].
  refine (proj1 (proj2 (sync_provisioning_sound _ _ (lit 5 1) _ _ _ _ _
    (eq_trans (surjective_pairing _) (f_equal (λ p, (p, _)) (surjective_pairing _))))));
    apply (bool_decide_unpack _); vm_compute; exact I.
Defined.

(** ** The report of a cycle *)

Section cycle_report.
Context {W : Type} `{NodeRuntimeAdapter W} (settings : Settings).

(** The report of a cycle is true.  The failed nodes are those of the
    topology; without execution no migration is reported and neither the
    runtime nor a device row changes; with it the migrations, rolled back
    ones included, stay within the budget of the cycle; and the report is the
    last event, a warning exactly when a node failed, so that
    [automation_status] shows it. *)
Theorem run_automation_cycle_report now (w w' : W) d d' topo o run :
  run_automation_cycle settings now w d topo o = Ok (w', d', run) →
  run.(failed_nodes_count) = countZ is_failed topo.(nodes) ∧
  run.(executed_migrations) + run.(rollback_migrations)
    ≤ Z.max 0 o.(o_max_executions_per_cycle) ∧
  (o.(o_execute_rebalance) = false →
     run.(executed_migrations) = 0 ∧ run.(rollback_migrations) = 0 ∧
     w' = w ∧ d'.(devices) = d.(devices)) ∧
  last d'.(events) = Some (mkEvent "automation.cycle.completed"
    (if existsb is_failed topo.(nodes) then "warning" else "info") None (CycleCompleted run)) ∧
  (automation_status settings d').(st_last_run) = Some run.
Proof using All.
  unfold run_automation_cycle. intros ([d1 plan] & Hp & Hc)%res_bind_ok.
  assert (d1.(devices) = d.(devices)) as Hd1.
  { unfold plan_rebalance in Hp. destruct (fge _ _); [done|].
    apply res_bind_ok in Hp as (? & _ & ([[? ?] ?] & _ & Hp)%res_bind_ok).
    by injection Hp as <- _. }
  destruct (evaluate_failover settings now d1 topo) as [d2 fo] eqn:Ef.
  assert (d2.(devices) = d1.(devices) ∧ fo.(failed_nodes) = node_id <$> filterb is_failed
    topo.(nodes)) as [Hd2 Hfo].
  { unfold evaluate_failover in Ef. destruct (foldl _ _ _) as [d3 m] eqn:E3.
    injection Ef as <- <-. split; [|done].
    assert (∀ l s, (foldl (failover_step settings (_node_regions d1 (node_id <$> topo.(nodes)))
      (filterb is_fallback topo.(nodes))) s l).1.(devices) = s.1.(devices)) as Hgen.
    { induction l as [|x l IH]; intros [d4 m4]; [done|]. cbn [foldl]. rewrite IH.
      unfold failover_step. by destruct (failover_choice _ _ _ _). }
    pose proof (Hgen (filterb is_failed topo.(nodes)) (d1, [])) as Hg.
    by rewrite E3 in Hg. }
  apply res_bind_ok in Hc as ([[[w3 d3] ex] reason] & He & Hc).
  destruct (if o_sync_server_state o then _ else _) as [[d4 pn] rn] eqn:Es.
  assert (d4.(devices) = d3.(devices)) as Hd4.
  { destruct (o_sync_server_state o); [|by injection Es as <- _ _].
    unfold _sync_server_provisioning_state in Es. destruct (foldl _ _ _) as [[? ?] ?].
    by injection Es as <- _ _. }
  injection Hc as <- <- <-. cbn.
  assert (sumZ (succeeded <$> ex) + sumZ (rolled_back <$> ex) = budget_used ex) as Hsum.
  { unfold budget_used. clear. induction ex as [|x ex IH]; [done|].
    rewrite !fmap_cons, !sumZ_cons. lia. }
  assert (Z.of_nat (length fo.(failed_nodes)) = countZ is_failed topo.(nodes)) as Hcount
    by (by rewrite Hfo, length_fmap).
  split_and!; [done| | | |].
  - rewrite Hsum. destruct (o_execute_rebalance o && _); [|injection He as <- <- <- <-].
    + destruct (o_has_adapter o); [|done].
      assert (∀ a b : W * db * list RebalanceExecutionOut * option string, Ok a = Ok b → a = b)
        as Hinj by (intros a b [=]; done). apply Hinj in He.
      by apply (execute_rebalance_accounts settings) in He as [? _].
    + unfold budget_used. simpl. lia.
  - intros E. rewrite E in He. simpl in He. injection He as <- <- <- <-. simpl.
    split_and!; try done. congruence.
  - rewrite last_snoc. rewrite Hcount. do 2 f_equal.
    destruct (Z.ltb_spec 0 (countZ is_failed topo.(nodes))) as [Hlt|Hge];
      destruct (existsb is_failed topo.(nodes)) eqn:Ex; try done; exfalso.
    + unfold countZ in Hlt. destruct (filter _ _) as [|x l] eqn:El; [simpl in Hlt; lia|].
      assert (x ∈ filterb is_failed topo.(nodes)) as [Hf Hin]%elem_of_filterb
        by (rewrite El; left).
      apply not_true_iff_false in Ex. apply Ex, existsb_exists. exists x.
      by rewrite <- list_elem_of_In.
    + apply existsb_exists in Ex as (x & Hin%list_elem_of_In & Hf).
      assert (x ∈ filterb is_failed topo.(nodes)) as Hx by (by apply elem_of_filterb).
      unfold countZ in Hge. destruct (filter _ _); [by apply elem_of_nil in Hx|].
      simpl in Hge. lia.
  - unfold last_run. cbn. rewrite filter_app, filter_cons_True, filter_nil by done.
    by rewrite last_snoc.
Qed.
End cycle_report.

Definition wit_options : cycle_options :=
  mkCycleOptions (lit 85 2) (lit 60 2) 20 (lit 5 1) true 10 5 false false true true.

Definition wit_cycle : cluster * db * AutomationRunOut :=
  match run_automation_cycle default_settings (seconds 1000000) wit_world wit_db wit_topo
          wit_options with
  | Ok r => r
  | Err _ => (wit_world, wit_db, mkRun f0 f0 0 0 0 false 0 0 0 0 None [] 0 0)
  end.

Lemma run_automation_cycle_report_witness :
  wit_cycle.2.(executed_migrations) = 1 ∧
  (automation_status default_settings wit_cycle.1.2).(st_last_run) = Some wit_cycle.2.
Proof.
  split; [vm_compute; reflexivity|].
  apply (run_automation_cycle_report default_settings (seconds 1000000) wit_world wit_cycle.1.1
    wit_db wit_cycle.1.2 wit_topo wit_options wit_cycle.2).
  vm_compute. reflexivity.
Defined.
