(* ===== verification/ConfigBuilder.v ===== *)
(** * Client configurations ([backend/app/core/config_builder.py])

    The validators of keys, endpoints and addresses, the normalisation of the
    AmneziaWG obfuscation parameters, and the builder of the [.conf] text. *)

From S2P Require Import Prelude PyStr PyVal IpAddr.
Open Scope Z_scope.

(** ** Constants *)

Definition WG_KEY_B64_MIN_LEN : nat := 43.
Definition WG_KEY_B64_MAX_LEN : nat := 44.
Definition AWG_LEGACY_KEYS : list string :=
  ["I1"; "I2"; "I3"; "I4"; "I5"; "S1"; "S2"; "Jc"; "Jmin"; "Jmax"].
Definition AWG_ASC_KEYS : list string :=
  ["I1"; "I2"; "I3"; "I4"; "I5"; "S1"; "S2"; "S3"; "S4"; "Jc"; "Jmin"; "Jmax";
   "H1"; "H2"; "H3"; "H4"].
Definition AWG_EMIT_ORDER : list string :=
  ["Jc"; "Jmin"; "Jmax"; "S1"; "S2"; "S3"; "S4"; "H1"; "H2"; "H3"; "H4";
   "I1"; "I2"; "I3"; "I4"; "I5"].
Definition DEFAULT_ADDRESS := "10.8.1.2/32".
Definition DEFAULT_MTU_MOBILE : Z := 1200.
Definition DEFAULT_PERSISTENT_KEEPALIVE : Z := 15.
Definition DEFAULT_DNS := "1.1.1.1, 1.0.0.1, 8.8.8.8, 8.8.4.4".

(** The members of the enumeration that differ: the aliases [universal_safe] and
    [awg_safe] are the same members as the first and the third. *)
Inductive ConfigProfile : Type :=
| wireguard_universal
| awg_legacy_or_basic
| awg_2_0_asc
| mobile_optimized.

#[export] Instance profile_eq_dec : EqDecision ConfigProfile.
Proof. solve_decision. Defined.

Record InterfaceFields : Type := mkInterface {
  i_private_key : string;
  i_address : option string;
  i_dns : option string;
  i_mtu : option Z
}.

Record PeerFields : Type := mkPeer {
  p_public_key : string;
  p_endpoint : string;
  p_allowed_ips : string;
  p_persistent_keepalive : Z;
  p_preshared_key : option string
}.

(** ** Validators *)

Definition _validate_key_b64 (key_b64 name : string) : res string :=
  _ ← raise_if (negb (str_truthy key_b64)) (name +:+ " is empty or invalid");
  let k := strip key_b64 in
  let n := String.length k in
  _ ← raise_if (negb ((WG_KEY_B64_MIN_LEN <=? n) && (n <=? WG_KEY_B64_MAX_LEN))%nat)
        (name +:+ " length " +:+ str_of_Z (Z.of_nat n) +:+ " invalid (expected 43-44)");
  _ ← raise_if (negb (b64_shape k)) (name +:+ " contains invalid base64 characters");
  let padded := k +:+ of_chars (replicate ((4 - n mod 4) mod 4)%nat "="%char) in
  match b64decode_length padded with
  | None => Err (ValueError (name +:+ " base64 decode failed"))
  | Some raw =>
      _ ← raise_if (negb (raw =? 32)) (name +:+ " decoded length invalid (expected 32 bytes)");
      Ok k
  end.

(** [^[A-Za-z0-9](?:[A-Za-z0-9-]{0,61}[A-Za-z0-9])?$]: the [$] of a match also
    accepts one newline after the label. *)
Definition label_body (l : list ascii) : bool :=
  match l with
  | [] => false
  | c :: l' =>
      is_alnum c && (length l <=? 63)%nat &&
      forallb (λ a, is_alnum a || Ascii.eqb a "-") l' &&
      is_alnum (List.last l c)
  end.

Definition label_ok (label : string) : bool :=
  let l := chars label in
  label_body l ||
  match rev l with "010"%char :: r => label_body (rev r) | _ => false end.

Definition _is_valid_hostname (host : string) : bool :=
  if negb (str_truthy host) || (253 <? String.length host)%nat then false
  else
    let host :=
      match rev (chars host) with "."%char :: r => of_chars (rev r) | _ => host end in
    forallb label_ok (split "." host).

Definition endpoint_port (port : string) : res unit :=
  (* the range error is raised inside the [try] and caught by its handler *)
  match py_int port with
  | Some p => raise_if (negb ((1 <=? p) && (p <=? 65535))) "Endpoint port must be numeric"
  | None => Err (ValueError "Endpoint port must be numeric")
  end.

Definition _validate_endpoint (endpoint : string) : res string :=
  let s := strip endpoint in
  _ ← raise_if (negb (str_truthy s))
        "Endpoint (vpn_endpoint) required; set server.vpn_endpoint or client_endpoint";
  '(host, port) ←
    (if startswith "[" s then
       match partition "]" (str_drop 1 s) with
       | None => Err (ValueError "Endpoint IPv6 must be in [addr]:port form")
       | Some (host, rest) =>
           _ ← raise_if (negb (startswith ":" rest)) "Endpoint must be host:port";
           _ ← raise_if (negb (bool_decide (ip_address host = Some IPv6)))
                 "Endpoint IPv6 address invalid";
           Ok (host, str_drop 1 rest)
       end
     else
       match rpartition ":" s with
       | None => Err (ValueError "Endpoint must be host:port")
       | Some (host, port) =>
           _ ← raise_if (negb (bool_decide (ip_address host = Some IPv4) ||
                            _is_valid_hostname host)) "Endpoint host invalid";
           Ok (host, port)
       end);
  _ ← raise_if (negb (str_truthy host)) "Endpoint host is empty";
  _ ← endpoint_port port;
  Ok s.

Definition _validate_address (address : string) : res string :=
  let s := strip address in
  _ ← raise_if (negb (str_truthy s)) "Address (Interface) required; client tunnel IP/CIDR";
  _ ← raise_if (negb (contains "/" s)) "Address must be CIDR (e.g. 10.8.1.2/32)";
  _ ← raise_if (is_none (ip_interface s)) "Address must be valid CIDR (e.g. 10.8.1.2/32)";
  Ok s.

Definition _validate_allowed_ips (allowed_ips : string) : res string :=
  _ ← raise_if (negb (str_truthy (strip allowed_ips))) "AllowedIPs required";
  let items := strip <$> split "," allowed_ips in
  _ ← raise_if (existsb (λ i, negb (str_truthy i)) items) "AllowedIPs contains empty item";
  _ ← foldl_res (λ _ item, raise_if (is_none (ip_network item))
                             ("AllowedIPs invalid CIDR: " +:+ item)) tt items;
  Ok (join ", " items).

Definition _validate_s1_s2 (s1 s2 : Z) : res unit :=
  raise_if (s1 + 56 =? s2)
    ("AmneziaWG kernel requires S1+56 ≠ S2; got S1=" +:+ str_of_Z s1 +:+ " S2=" +:+ str_of_Z s2).

Definition _validate_jmin_jmax (jmin jmax : Z) : res unit :=
  raise_if (jmax <? jmin)
    ("Jmin (" +:+ str_of_Z jmin +:+ ") must be <= Jmax (" +:+ str_of_Z jmax +:+ ")").

(** [value.strip().lstrip("-").isdigit()] *)
Definition int_like (s : string) : bool :=
  isdigit (lstrip_with (Ascii.eqb "-") (strip s)).

Definition _parse_int (value : pyval) (name : string) : res Z :=
  let bad := Err (ValueError (name +:+ " must be integer")) in
  match value with
  | VInt z => Ok z
  | VStr s => if int_like s then match py_int s with Some z => Ok z | None => bad end else bad
  | _ => bad
  end.

Definition _parse_h_value (value : pyval) (name : string) : res (Z * Z * string) :=
  let bad := Err (ValueError (name +:+ " must be integer or range")) in
  match value with
  | VInt z => Ok (z, z, str_of_Z z)
  | VStr raw =>
      let s := strip raw in
      if int_like s then v ← int_or_raise s; Ok (v, v, str_of_Z v)
      else
        match partition "-" s with
        | Some (l, r) =>
            if isdigit (strip l) && isdigit (strip r) then
              lo ← int_or_raise (strip l);
              hi ← int_or_raise (strip r);
              Ok (lo, hi, str_of_Z lo +:+ "-" +:+ str_of_Z hi)
            else bad
        | None => bad
        end
  | _ => bad
  end.

(** ** Normalisation of the obfuscation parameters *)

Definition I_KEYS : list string := ["I1"; "I2"; "I3"; "I4"; "I5"].
Definition H_KEYS : list string := ["H1"; "H2"; "H3"; "H4"].

(** The loop over the string keys, shared by both profiles. *)
Definition norm_i (obf : pydict) (out : pydict) (k : string) : res pydict :=
  match getv obf k with
  | VNone => Ok out
  | VStr s =>
      if str_truthy (strip s) then Ok (dset k (VStr (strip s)) out)
      else Err (ValueError (k +:+ " must be non-empty string"))
  | _ => Err (ValueError (k +:+ " must be non-empty string"))
  end.

(** [if "S1" in out and "S2" in out: ...]: the two cross checks at the end. *)
Definition cross_checks (out : pydict) : res pydict :=
  _ ← match dget "S1" out, dget "S2" out with
      | Some (VInt s1), Some (VInt s2) => _validate_s1_s2 s1 s2
      | _, _ => Ok tt
      end;
  _ ← match dget "Jmin" out, dget "Jmax" out with
      | Some (VInt a), Some (VInt b) => _validate_jmin_jmax a b
      | _, _ => Ok tt
      end;
  Ok out.

(** A key of a legacy profile: a known one, or an H key that is unset. *)
Definition legacy_key_ok (kv : string * pyval) : bool :=
  str_in kv.1 AWG_LEGACY_KEYS ||
  str_in kv.1 H_KEYS &&
    match kv.2 with
    | VNone => true
    | VInt z => z <=? 0
    | VBool b => negb b
    | VStr s => str_in (strip s) [""; "0"]
    end.

Definition norm_legacy (obf : pydict) (out : pydict) (k : string) : res pydict :=
  match getv obf k with
  | VNone => Ok out
  | v =>
      ival ← _parse_int v k;
      if ival <=? 0 then Ok out
      else
        _ ← raise_if (String.eqb k "Jc" && negb (ival <=? 10)) "Jc out of range for legacy profile";
        _ ← raise_if (str_in k ["Jmin"; "Jmax"] && negb ((64 <=? ival) && (ival <=? 1024)))
              (k +:+ " out of range for legacy profile");
        _ ← raise_if (str_in k ["S1"; "S2"] && negb (ival <=? 64))
              (k +:+ " out of range for legacy profile");
        Ok (dset k (VInt ival) out)
  end.

Definition _normalize_obfuscation_legacy (obf : pydict) : res pydict :=
  _ ← foldl_res (λ _ kv, raise_if (negb (legacy_key_ok kv)) ("unsupported_key:" +:+ kv.1)) tt obf;
  out ← foldl_res (norm_legacy obf) [] ["Jc"; "Jmin"; "Jmax"; "S1"; "S2"];
  out ← foldl_res (norm_i obf) out I_KEYS;
  cross_checks out.

Definition norm_awg2 (obf : pydict) (mtu : option Z) (out : pydict) (k : string) : res pydict :=
  match getv obf k with
  | VNone => Ok out
  | v =>
      ival ← _parse_int v k;
      if ival <=? 0 then Ok out
      else
        _ ← raise_if (String.eqb k "Jc" && negb (ival <=? 128))
              "Jc out of range for awg_2_0_asc profile";
        _ ← raise_if (str_in k ["Jmin"; "Jmax"] && negb (ival <=? 1280))
              (k +:+ " out of range for awg_2_0_asc profile");
        let base_mtu := match mtu with Some m => if m =? 0 then 1280 else m | None => 1280 end in
        _ ← raise_if (String.eqb k "S1" && (Z.max 0 (base_mtu - 148) <? ival))
              "S1 exceeds MTU-derived maximum";
        _ ← raise_if (String.eqb k "S2" && (Z.max 0 (base_mtu - 92) <? ival))
              "S2 exceeds MTU-derived maximum";
        Ok (dset k (VInt ival) out)
  end.

Definition h_max : Z := 4294967295.

(** The loop over the H keys, on [(out, h_ranges)]. *)
Definition norm_h (obf : pydict) (st : pydict * list (string * Z * Z)) (k : string)
    : res (pydict * list (string * Z * Z)) :=
  let '(out, h_ranges) := st in
  match getv obf k with
  | VNone => Ok st
  | v =>
      '(lo, hi, rendered) ← _parse_h_value v k;
      if hi <=? 0 then Ok st
      else
        _ ← raise_if ((h_max <? lo) || (h_max <? hi))
              (k +:+ " out of range for awg_2_0_asc profile (got '" +:+ rendered +:+ "', max " +:+
               str_of_Z h_max +:+ ")");
        _ ← raise_if (hi <? lo) (k +:+ " range invalid");
        Ok (dset k (VStr rendered) out, h_ranges ++ [(k, lo, hi)])
  end.

(** [for i, a in enumerate(h_ranges): for b in h_ranges[i + 1:]] *)
Fixpoint check_overlaps (h_ranges : list (string * Z * Z)) : res unit :=
  match h_ranges with
  | [] => Ok tt
  | (ka, la, ha) :: rest =>
      _ ← foldl_res (λ _ b, let '(kb, lb, hb) := b in
            raise_if (Z.max la lb <=? Z.min ha hb)
              (ka +:+ " and " +:+ kb +:+ " ranges overlap")) tt rest;
      check_overlaps rest
  end.

Definition _normalize_obfuscation_awg2 (obf : pydict) (mtu : option Z) : res pydict :=
  _ ← foldl_res (λ _ k, raise_if (negb (str_in k AWG_ASC_KEYS)) ("unsupported_key:" +:+ k)) tt
        (dkeys obf);
  out ← foldl_res (norm_awg2 obf mtu) [] ["Jc"; "Jmin"; "Jmax"; "S1"; "S2"; "S3"; "S4"];
  out ← foldl_res (norm_i obf) out I_KEYS;
  '(out, h_ranges) ← foldl_res (norm_h obf) (out, []) H_KEYS;
  _ ← check_overlaps h_ranges;
  cross_checks out.

(** ** The builder *)

(** A validator run for its error message. *)
Definition collect {A} (r : res A) : list string :=
  match r with Ok _ => [] | Err e => match e with ValueError m => [m] | _ => [] end end.

Definition build_errors (i : InterfaceFields) (p : PeerFields) (profile : ConfigProfile)
    (obfuscation : option pydict) : list string :=
  collect (_validate_key_b64 i.(i_private_key) "PrivateKey") ++
  collect (match i.(i_address) with
           | None => Err (ValueError "Address (Interface) required; client tunnel IP/CIDR")
           | Some a => _validate_address a
           end) ++
  collect (_validate_key_b64 p.(p_public_key) "PublicKey") ++
  collect (_validate_endpoint p.(p_endpoint)) ++
  collect (_validate_allowed_ips p.(p_allowed_ips)) ++
  (if bool_decide (profile = wireguard_universal) && bool_decide (default [] obfuscation ≠ [])
   then ["obfuscation not allowed in wireguard_universal profile"] else []).

(** [except ValueError as e: raise ConfigValidationError([str(e)])] *)
Definition revalidate {A} (r : res A) : res A :=
  match r with Err (ValueError m) => Err (ConfigValidationError [m]) | _ => r end.

(** The MTU that is written. *)
Definition effective_mtu (i : InterfaceFields) (profile : ConfigProfile) : option Z :=
  let unset := match i.(i_mtu) with Some m => m <=? 0 | None => true end in
  if bool_decide (profile = mobile_optimized) && unset then Some DEFAULT_MTU_MOBILE
  else i.(i_mtu).

Definition dns_of (i : InterfaceFields) : string :=
  match i.(i_dns) with
  | Some d => if str_truthy d then strip d else DEFAULT_DNS
  | None => DEFAULT_DNS
  end.

(** [for k in AWG_EMIT_ORDER: if k in obf: lines.append(f"{k} = {v}")] *)
Definition emit_lines (obf : pydict) : list string :=
  omap (λ k, v ← dget k obf; Some (k +:+ " = " +:+ render v)) AWG_EMIT_ORDER.

Definition obfuscation_lines (i : InterfaceFields) (profile : ConfigProfile)
    (obfuscation : option pydict) : res (list string) :=
  match obfuscation with
  | Some ((_ :: _) as o) =>
      if bool_decide (profile = wireguard_universal) then Ok []
      else
        obf ← revalidate
          (if bool_decide (profile = awg_legacy_or_basic) then _normalize_obfuscation_legacy o
           else _normalize_obfuscation_awg2 o (effective_mtu i profile));
        Ok (emit_lines obf)
  | _ => Ok []
  end.

Definition nl : string := String "010"%char "".

Definition build_config (i : InterfaceFields) (p : PeerFields) (profile : ConfigProfile)
    (obfuscation : option pydict) : res string :=
  match build_errors i p profile obfuscation with
  | e :: es => Err (ConfigValidationError (e :: es))
  | [] =>
      priv ← _validate_key_b64 i.(i_private_key) "PrivateKey";
      addr ← _validate_address (default "" i.(i_address));
      pub ← _validate_key_b64 p.(p_public_key) "PublicKey";
      ep ← _validate_endpoint p.(p_endpoint);
      allowed ← _validate_allowed_ips p.(p_allowed_ips);
      let mtu_line := match effective_mtu i profile with
                      | Some m => if 0 <? m then ["MTU = " +:+ str_of_Z m] else []
                      | None => []
                      end in
      obf ← obfuscation_lines i profile obfuscation;
      psk ← match p.(p_preshared_key) with
            | Some k =>
                if str_truthy k then
                  pk ← revalidate (_validate_key_b64 k "PresharedKey");
                  Ok ["PresharedKey = " +:+ pk]
                else Ok []
            | None => Ok []
            end;
      Ok (join nl
            (["[Interface]"; "PrivateKey = " +:+ priv; "Address = " +:+ addr;
              "DNS = " +:+ dns_of i] ++ mtu_line ++ obf ++
             [""; "[Peer]"; "PublicKey = " +:+ pub; "Endpoint = " +:+ ep;
              "AllowedIPs = " +:+ allowed;
              "PersistentKeepalive = " +:+ str_of_Z p.(p_persistent_keepalive)] ++ psk) +:+ nl)
  end.

(** ** Normalised parameters are what the kernel accepts *)

Definition base_mtu (mtu : option Z) : Z :=
  match mtu with Some m => if m =? 0 then 1280 else m | None => 1280 end.

Definition INT_KEYS : list string := ["Jc"; "Jmin"; "Jmax"; "S1"; "S2"; "S3"; "S4"].

(** The bounds of one parameter. *)
Definition awg2_entry (mtu : option Z) (k : string) (v : pyval) : Prop :=
  match v with
  | VInt z =>
      k ∈ INT_KEYS ∧ 0 < z ∧ (k = "Jc" → z ≤ 128) ∧ (k ∈ ["Jmin"; "Jmax"] → z ≤ 1280) ∧
      (k = "S1" → z ≤ Z.max 0 (base_mtu mtu - 148)) ∧
      (k = "S2" → z ≤ Z.max 0 (base_mtu mtu - 92))
  | VStr s => k ∈ I_KEYS ∧ s ≠ "" ∨ k ∈ H_KEYS
  | _ => False
  end.

Definition entries_ok (P : string → pyval → Prop) (out : pydict) : Prop :=
  ∀ k v, dget k out = Some v → P k v.

Lemma entries_ok_nil P : entries_ok P [].
Proof. done. Qed.

Lemma entries_ok_dset P k v out : entries_ok P out → P k v → entries_ok P (dset k v out).
Proof.
  intros Hout Hv k' v' Hk. rewrite dget_dset in Hk. case_decide; [by simplify_eq|eauto].
Qed.

Lemma norm_awg2_entries obf mtu out k out' :
  k ∈ INT_KEYS → entries_ok (awg2_entry mtu) out → norm_awg2 obf mtu out k = Ok out' →
  entries_ok (awg2_entry mtu) out'.
Proof.
  intros Hk Hout Hn. unfold norm_awg2 in Hn.
  destruct (getv obf k); [by simplify_eq| | |];
    (apply res_bind_ok in Hn as (ival & _ & Hn); destruct (Z.leb_spec ival 0); [by simplify_eq|];
     inv_guards; simplify_eq; apply entries_ok_dset; [done|];
     unfold awg2_entry; fold (base_mtu mtu) in *; split_and!; [done|done|..];
     intros Hkk;
     repeat match goal with
     | H : _ && _ = false |- _ => apply andb_false_iff in H
     | H : _ ∨ _ |- _ => destruct H
     end; bools; rewrite ?str_in_false in *; try done; lia).
Qed.

Lemma norm_i_entries mtu obf out k out' :
  k ∈ I_KEYS → entries_ok (awg2_entry mtu) out → norm_i obf out k = Ok out' →
  entries_ok (awg2_entry mtu) out'.
Proof.
  intros Hk Hout Hn. unfold norm_i in Hn. destruct (getv obf k); simplify_eq; [done|].
  destruct (str_truthy (strip s)) eqn:E; simplify_eq. apply entries_ok_dset; [done|].
  left. split; [done|]. by apply str_truthy_true.
Qed.

(** The ranges collected by the loop over the H keys. *)
Definition h_range (obf : pydict) (k : string) : option (string * Z * Z) :=
  match getv obf k with
  | VNone => None
  | v => match _parse_h_value v k with
         | Ok (lo, hi, _) => if hi <=? 0 then None else Some (k, lo, hi)
         | Err _ => None
         end
  end.

Lemma norm_h_step obf out hr k out' hr' :
  norm_h obf (out, hr) k = Ok (out', hr') →
  hr' = hr ++ option_list (h_range obf k) ∧
  (∀ k' lo hi, h_range obf k = Some (k', lo, hi) → lo ≤ hi ≤ h_max) ∧
  (out' = out ∨ ∃ s, out' = dset k (VStr s) out).
Proof.
  unfold norm_h, h_range. intros Hn.
  destruct (getv obf k); [simplify_eq; rewrite app_nil_r; split_and!; by auto| | |];
    (apply res_bind_ok in Hn as ([[lo hi] rendered] & Hp & Hq); rewrite Hp;
     destruct (hi <=? 0); [simplify_eq; rewrite app_nil_r; split_and!; by auto|];
     inv_guards; simplify_eq; bools; (split; [done|split; [|eauto]]);
     intros k' lo' hi' [= <- <- <-]; lia).
Qed.

Lemma norm_h_loop obf mtu ks : ∀ out hr out' hr',
  foldl_res (norm_h obf) (out, hr) ks = Ok (out', hr') →
  (∀ k, k ∈ ks → k ∈ H_KEYS) → entries_ok (awg2_entry mtu) out →
  entries_ok (awg2_entry mtu) out' ∧ hr' = hr ++ omap (h_range obf) ks ∧
  (∀ k k' lo hi, k ∈ ks → h_range obf k = Some (k', lo, hi) → lo ≤ hi ≤ h_max) ∧
  (∀ k v, k ∉ ks → dget k out' = Some v ↔ dget k out = Some v).
Proof.
  induction ks as [|k ks IH]; intros out hr out' hr'; cbn [foldl_res].
  - intros [= <- <-] _ Hout. rewrite app_nil_r. split_and!; try done. intros k k' lo hi Hk.
    by apply elem_of_nil in Hk.
  - intros ([o1 h1] & H1 & H2)%res_bind_ok Hks Hout.
    apply norm_h_step in H1 as (-> & Hb & Ho).
    apply IH in H2 as (He & -> & Hbs & Hget).
    + split_and!; [done| | |].
      * rewrite <- app_assoc. f_equal.
        change (omap (h_range obf) (k :: ks)) with
          (match h_range obf k with Some y => y :: omap (h_range obf) ks
           | None => omap (h_range obf) ks end).
        by destruct (h_range obf k).
      * intros k0 k' lo hi [->|Hk]%elem_of_cons; eauto.
      * intros k0 v [Hne Hk0]%not_elem_of_cons. rewrite Hget by done.
        destruct Ho as [->|[s ->]]; [done|]. by rewrite dget_dset_ne.
    + intros k0 Hk0. apply Hks. by right.
    + destruct Ho as [->|[s ->]]; [done|]. apply entries_ok_dset; [done|]. right. apply Hks. left.
Qed.

Lemma check_overlaps_disjoint l :
  check_overlaps l = Ok tt →
  ∀ i j ka la ha kb lb hb, (i < j)%nat → l !! i = Some (ka, la, ha) → l !! j = Some (kb, lb, hb) →
  Z.min ha hb < Z.max la lb.
Proof.
  induction l as [|[[k lo] hi] l IH]; simpl; [done|].
  intros ([] & H1 & H2)%res_bind_ok i j ka la ha kb lb hb Hij Hi Hj.
  apply foldl_res_checks in H1. destruct j as [|j]; [lia|]. destruct i as [|i]; simpl in *.
  - simplify_eq. apply list_elem_of_lookup_2 in Hj. rewrite Forall_forall in H1.
    specialize (H1 _ Hj). apply raise_if_ok in H1. bools. lia.
  - apply (IH H2 i j ka la ha kb lb hb); [lia|done|done].
Qed.

Lemma cross_checks_ok out out' :
  cross_checks out = Ok out' → out' = out ∧
  (∀ s1 s2, dget "S1" out = Some (VInt s1) → dget "S2" out = Some (VInt s2) → s1 + 56 ≠ s2) ∧
  (∀ a b, dget "Jmin" out = Some (VInt a) → dget "Jmax" out = Some (VInt b) → a ≤ b).
Proof.
  unfold cross_checks. intros (u1 & H1 & (u2 & H2 & [= <-])%res_bind_ok)%res_bind_ok.
  split_and!; [done| |].
  - intros s1 s2 E1 E2. rewrite E1, E2 in H1. apply raise_if_ok in H1. by bools.
  - intros a b E1 E2. rewrite E1, E2 in H2. apply raise_if_ok in H2. by bools.
Qed.

Lemma omap_H_lookup obf k lo hi :
  k ∈ H_KEYS → h_range obf k = Some (k, lo, hi) →
  ∃ i, omap (h_range obf) H_KEYS !! i = Some (k, lo, hi).
Proof.
  intros Hk Hr. apply list_elem_of_lookup, list_elem_of_omap. eauto.
Qed.

Lemma h_range_key obf k k' lo hi : h_range obf k = Some (k', lo, hi) → k' = k.
Proof.
  unfold h_range. intros H. repeat case_match; simplify_eq; done.
Qed.



(** ** Errors *)

(** The validators raise [ValueError] only. *)
Definition value_error_only {A} (r : res A) : Prop :=
  match r with Err (ValueError _) | Ok _ => True | _ => False end.

Lemma veo_bind {A B} (m : res A) (f : A → res B) :
  value_error_only m → (∀ a, value_error_only (f a)) → value_error_only (m ≫= f).
Proof. destruct m as [a|[]]; simpl; naive_solver. Qed.

Lemma veo_raise_if b m : value_error_only (raise_if b m).
Proof. by destruct b. Qed.

Lemma veo_foldl {A B} (f : A → B → res A) l a :
  (∀ a b, value_error_only (f a b)) → value_error_only (foldl_res f a l).
Proof. intros Hf. revert a. induction l as [|b l IH]; intros a; simpl; [done|by apply veo_bind]. Qed.

Ltac veo :=
  repeat (intros; lazymatch goal with
  | |- value_error_only (raise_if _ _) => apply veo_raise_if
  | |- value_error_only (Ok _) => exact I
  | |- value_error_only (Err (ValueError _)) => exact I
  | |- value_error_only (foldl_res _ _ _) => apply veo_foldl
  | |- value_error_only (_ ≫= _) => apply veo_bind
  | |- value_error_only (match ?x with _ => _ end) => destruct x
  | |- _ => fail
  end).

Lemma veo_key k n : value_error_only (_validate_key_b64 k n).
Proof. unfold _validate_key_b64. veo. Qed.

Lemma veo_address a : value_error_only (_validate_address a).
Proof. unfold _validate_address. veo. Qed.

Lemma veo_endpoint e : value_error_only (_validate_endpoint e).
Proof. unfold _validate_endpoint, endpoint_port. veo. Qed.

Lemma veo_allowed a : value_error_only (_validate_allowed_ips a).
Proof. unfold _validate_allowed_ips. veo. Qed.

Lemma veo_parse_int v k : value_error_only (_parse_int v k).
Proof. unfold _parse_int. veo. Qed.

Lemma veo_parse_h v k : value_error_only (_parse_h_value v k).
Proof. unfold _parse_h_value, int_or_raise. veo. Qed.

Lemma veo_cross out : value_error_only (cross_checks out).
Proof. unfold cross_checks, _validate_s1_s2, _validate_jmin_jmax. veo. Qed.

Lemma veo_norm_legacy obf out k : value_error_only (norm_legacy obf out k).
Proof. unfold norm_legacy. destruct (getv obf k); veo; apply veo_parse_int. Qed.

Lemma veo_norm_awg2 obf mtu out k : value_error_only (norm_awg2 obf mtu out k).
Proof. unfold norm_awg2. destruct (getv obf k); veo; apply veo_parse_int. Qed.

Lemma veo_norm_i obf out k : value_error_only (norm_i obf out k).
Proof. unfold norm_i. veo. Qed.

Lemma veo_norm_h obf st k : value_error_only (norm_h obf st k).
Proof. unfold norm_h. destruct st, (getv obf k); veo; apply veo_parse_h. Qed.

Lemma veo_overlaps l : value_error_only (check_overlaps l).
Proof.
  induction l as [|[[k lo] hi] l IH]; cbn [check_overlaps]; [exact I|].
  apply veo_bind; [|intros; exact IH]. apply veo_foldl. intros _ [[kb lb] hb]. apply veo_raise_if.
Qed.

Lemma veo_legacy obf : value_error_only (_normalize_obfuscation_legacy obf).
Proof.
  unfold _normalize_obfuscation_legacy.
  apply veo_bind; [apply veo_foldl; intros; apply veo_raise_if|intros _].
  apply veo_bind; [apply veo_foldl, veo_norm_legacy|intros o1].
  apply veo_bind; [apply veo_foldl, veo_norm_i|intros o2]. apply veo_cross.
Qed.

Lemma veo_awg2 obf mtu : value_error_only (_normalize_obfuscation_awg2 obf mtu).
Proof.
  unfold _normalize_obfuscation_awg2.
  apply veo_bind; [apply veo_foldl; intros; apply veo_raise_if|intros _].
  apply veo_bind; [apply veo_foldl, veo_norm_awg2|intros o1].
  apply veo_bind; [apply veo_foldl, veo_norm_i|intros o2].
  apply veo_bind; [apply veo_foldl, veo_norm_h|intros [o3 hr]].
  apply veo_bind; [apply veo_overlaps|intros _]. apply veo_cross.
Qed.

Lemma collect_nil {A} (r : res A) : value_error_only r → collect r = [] → ∃ a, r = Ok a.
Proof. destruct r as [a|[]]; simpl; naive_solver. Qed.

Lemma revalidate_errors {A} (r : res A) e :
  value_error_only r → revalidate r = Err e → ∃ m, e = ConfigValidationError [m].
Proof. destruct r as [a|[]]; simpl; naive_solver. Qed.

(** Building a configuration fails in one way only, with every reason at
    once: it raises [ConfigValidationError], whose messages are those of all the
    invalid fields when a field is invalid, and otherwise the one message of the
    obfuscation parameters or of the preshared key. *)
Theorem build_config_errors i p profile obfuscation e :
  build_config i p profile obfuscation = Err e →
  (build_errors i p profile obfuscation ≠ [] →
     e = ConfigValidationError (build_errors i p profile obfuscation)) ∧
  (build_errors i p profile obfuscation = [] → ∃ m, e = ConfigValidationError [m]).
Proof.
  unfold build_config. destruct (build_errors i p profile obfuscation) as [|x l] eqn:Eb.
  2:{ intros [= <-]. split; [done|discriminate]. }
  intros H. split; [done|intros _].
  unfold build_errors in Eb. apply app_eq_nil in Eb as [E1 Eb].
  apply app_eq_nil in Eb as [E2 Eb]. apply app_eq_nil in Eb as [E3 Eb].
  apply app_eq_nil in Eb as [E4 Eb]. apply app_eq_nil in Eb as [E5 _].
  destruct (collect_nil _ (veo_key _ _) E1) as [priv Hpriv].
  destruct (collect_nil _ (veo_key _ _) E3) as [pub Hpub].
  destruct (collect_nil _ (veo_endpoint _) E4) as [ep Hep].
  destruct (collect_nil _ (veo_allowed _) E5) as [al Hal].
  assert (∃ a, _validate_address (default "" (i_address i)) = Ok a) as [ad Had].
  { destruct (i_address i) as [a|]; [|done]. apply collect_nil; [apply veo_address|done]. }
  rewrite Hpriv, Had, Hpub, Hep, Hal in H. simpl in H.
  destruct (obfuscation_lines i profile obfuscation) as [ol|eo] eqn:Eo; simpl in H.
  - destruct (p_preshared_key p) as [k|]; [|done]. destruct (str_truthy k); [|done].
    destruct (revalidate (_validate_key_b64 k "PresharedKey")) as [pk|ek] eqn:Ek; simpl in H;
      [done|]. injection H as <-. eapply revalidate_errors; [apply veo_key|exact Ek].
  - injection H as <-. unfold obfuscation_lines in Eo.
    destruct obfuscation as [[|o os]|]; [done| |done].
    destruct (bool_decide (profile = wireguard_universal)); [done|].
    destruct (bool_decide (profile = awg_legacy_or_basic)).
    + destruct (revalidate _) as [|er] eqn:Er; [done|]. injection Eo as <-.
      eapply revalidate_errors; [apply veo_legacy|exact Er].
    + destruct (revalidate _) as [|er] eqn:Er; [done|]. injection Eo as <-.
      eapply revalidate_errors; [apply veo_awg2|exact Er].
Qed.

Definition wit_key : string := "AAAAAAAAAAAAAAAAAAAAAAAAAAAAAAAAAAAAAAAAAAA=".

Lemma build_config_errors_witness :
  let i := mkInterface "short" (Some "10.8.1.2") None None in
  let p := mkPeer wit_key "vpn.example.com:99999" "0.0.0.0/0" 25 None in
  ∃ errs, build_config i p wireguard_universal None = Err (ConfigValidationError errs) ∧
    errs = ["PrivateKey length 5 invalid (expected 43-44)";
            "Address must be CIDR (e.g. 10.8.1.2/32)"; "Endpoint port must be numeric"].
Proof.
  intros i p.
  destruct (build_config i p wireguard_universal None) as [t|e] eqn:E;
    [vm_compute in E; discriminate|].
  destruct (build_config_errors i p wireguard_universal None e E) as [H _].
  exists (build_errors i p wireguard_universal None). split; [|vm_compute; reflexivity].
  rewrite H; [reflexivity|vm_compute; discriminate].
Defined.
