(* ===== verification/ConfigText.v ===== *)
(** * Reading a generated configuration back

    A reference reader of the INI text and the round trip: what a client reads
    from the text of [build_config] is what was validated. *)

From S2P Require Import Prelude PyStr PyVal IpAddr ConfigBuilder.
Open Scope Z_scope.

(** ** Lines *)

Definition no_nl (s : string) : bool := forallb (λ c, negb (Ascii.eqb c "010")) (chars s).

Definition lines_of (text : string) : list string := split "010" text.

Lemma lines_of_join ls :
  Forall (λ l, no_nl l = true) ls → ls ≠ [] → lines_of (join nl ls +:+ nl) = ls ++ [""].
Proof.
  unfold lines_of, split. intros Hls Hne.
  induction Hls as [|l ls Hl Hls IH]; [done|]. destruct ls as [|l2 ls].
  - simpl join. rewrite chars_app. simpl.
    rewrite (split_chars_app _ [] (chars l) []) by done. simpl. by rewrite of_chars_chars.
  - change (join nl (l :: l2 :: ls)) with (l +:+ nl +:+ join nl (l2 :: ls)).
    rewrite !chars_app, <- !app_assoc, <- chars_app.
    change (chars nl ++ chars (join nl (l2 :: ls) +:+ nl))
      with ("010"%char :: chars (join nl (l2 :: ls) +:+ nl)).
    rewrite split_chars_app by done. simpl. rewrite of_chars_chars. f_equal. by apply IH.
Qed.

(** ** The reader *)

(** The rest of [s] after [p]. *)
Fixpoint after_prefix (p s : string) : option string :=
  match p, s with
  | EmptyString, _ => Some s
  | String a p', String b s' => if Ascii.eqb a b then after_prefix p' s' else None
  | String _ _, EmptyString => None
  end.

(** The first [key = value] of a section. *)
Fixpoint conf_find (section key cur : string) (ls : list string) : option string :=
  match ls with
  | [] => None
  | l :: ls' =>
      if startswith "[" l then conf_find section key l ls'
      else if String.eqb cur section then
        match after_prefix (key +:+ " = ") l with
        | Some v => Some v
        | None => conf_find section key cur ls'
        end
      else conf_find section key cur ls'
  end.

Definition conf_get (section key text : string) : option string :=
  conf_find section key "" (lines_of text).

Definition kv_line (kv : string * string) : string := kv.1 +:+ " = " +:+ kv.2.

(** A key holds no space and does not open a section. *)
Definition key_ok (k : string) : bool :=
  str_truthy k && negb (startswith "[" k) && forallb (λ c, negb (Ascii.eqb c " ")) (chars k).

Lemma after_prefix_kv k k' v :
  key_ok k = true → key_ok k' = true →
  after_prefix (k +:+ " = ") (k' +:+ " = " +:+ v) = if String.eqb k k' then Some v else None.
Proof.
  unfold key_ok. intros [_ H1]%andb_prop [_ H2]%andb_prop. revert k' H1 H2.
  induction k as [|a k IH]; intros [|b k']; simpl; intros H1 H2; [done| | |].
  - apply andb_prop in H2 as [Hb _]. by destruct b as [[] [] [] [] [] [] [] []].
  - apply andb_prop in H1 as [Ha _]. by destruct a as [[] [] [] [] [] [] [] []].
  - apply andb_prop in H1 as [_ H1], H2 as [_ H2].
    destruct (Ascii.eqb a b); [|done]. by apply IH.
Qed.

Lemma startswith_bracket_kv kv : key_ok kv.1 = true → startswith "[" (kv_line kv) = false.
Proof.
  unfold key_ok, kv_line. intros [[Ht Hb]%andb_prop _]%andb_prop.
  destruct (kv.1) as [|a k]; [done|]. unfold startswith in *. clear Ht.
  destruct a as [[] [] [] [] [] [] [] []]; try done. by destruct k.
Qed.

Lemma conf_find_skip section key cur kvs ls :
  Forall (λ kv, key_ok kv.1 = true) kvs → cur ≠ section →
  conf_find section key cur ((kv_line <$> kvs) ++ ls) = conf_find section key cur ls.
Proof.
  intros Hk Hc. induction Hk as [|kv kvs Hkv Hk IH]; [done|]. simpl.
  rewrite startswith_bracket_kv by done. by rewrite (proj2 (String.eqb_neq _ _) Hc).
Qed.

Lemma conf_find_kvs section key kvs ls :
  key_ok key = true → Forall (λ kv, key_ok kv.1 = true) kvs →
  conf_find section key section ((kv_line <$> kvs) ++ ls) =
    match dget key kvs with
    | Some v => Some v
    | None => conf_find section key section ls
    end.
Proof.
  intros Hkey Hk. induction Hk as [|[k v] kvs Hkv Hk IH]; [done|]. simpl in Hkv.
  rewrite fmap_cons. simpl app. cbn [conf_find].
  rewrite startswith_bracket_kv, String.eqb_refl by done.
  unfold kv_line at 1. cbn [fst snd]. rewrite after_prefix_kv by done. cbn [dget].
  destruct (String.eqb_spec key k) as [->|Hne]; [by rewrite decide_True|].
  rewrite decide_False by done. apply IH.
Qed.

(** The text of a configuration from its entries. *)
Definition conf_lines (interface peer : list (string * string)) : list string :=
  "[Interface]" :: (kv_line <$> interface) ++ [""; "[Peer]"] ++ (kv_line <$> peer).

Lemma conf_get_lines interface peer k :
  key_ok k = true →
  Forall (λ kv, key_ok kv.1 = true ∧ no_nl (kv_line kv) = true) (interface ++ peer) →
  let text := join nl (conf_lines interface peer) +:+ nl in
  conf_get "[Interface]" k text = dget k interface ∧
  conf_get "[Peer]" k text = dget k peer.
Proof.
  intros Hk Hall text. apply Forall_app in Hall as [Hi Hp].
  assert (Forall (λ kv, key_ok kv.1 = true) interface) as Hik
    by (eapply Forall_impl; [exact Hi|]; by intros ? [? _]).
  assert (Forall (λ kv, key_ok kv.1 = true) peer) as Hpk
    by (eapply Forall_impl; [exact Hp|]; by intros ? [? _]).
  unfold conf_get, text. rewrite lines_of_join.
  2:{ unfold conf_lines. constructor; [done|]. apply Forall_app. split.
      - apply Forall_fmap. eapply Forall_impl; [exact Hi|]. by intros ? [_ ?].
      - constructor; [done|]. constructor; [done|].
        apply Forall_fmap. eapply Forall_impl; [exact Hp|]. by intros ? [_ ?]. }
  2:{ discriminate. }
  unfold conf_lines. cbn [app conf_find]. rewrite <- !app_assoc. simpl (startswith "[" "[Interface]").
  cbn match. split.
  - rewrite conf_find_kvs by done. destruct (dget k interface); [done|].
    cbn [app conf_find]. simpl (startswith _ _). cbn match. rewrite String.eqb_refl.
    assert (after_prefix (k +:+ " = ") "" = None) as -> by (by destruct k).
    rewrite conf_find_skip by done. done.
  - rewrite conf_find_skip by done. cbn [app conf_find]. simpl (startswith _ _). cbn match.
    simpl (String.eqb "[Interface]" "[Peer]"). cbn match.
    rewrite conf_find_kvs by done. destruct (dget k peer); [done|]. simpl.
    by destruct k.
Qed.

(** ** What a built configuration says *)

(** The parameters emitted for a normalised dict. *)
Definition awg_entries (out : pydict) : list (string * string) :=
  omap (λ k, v ← dget k out; Some (k, render v)) AWG_EMIT_ORDER.

Lemma awg_lines out :
  emit_lines out = kv_line <$> awg_entries out.
Proof.
  unfold emit_lines, awg_entries. induction AWG_EMIT_ORDER as [|k l IH]; [done|]. simpl.
  destruct (dget k out); simpl; [f_equal|]; exact IH.
Qed.

Lemma awg_entries_keys out k : k ∈ dkeys (awg_entries out) → k ∈ AWG_EMIT_ORDER.
Proof.
  unfold dkeys, awg_entries. intros ([k' v] & -> & Hin)%list_elem_of_fmap.
  apply list_elem_of_omap in Hin as (k0 & Hk0 & H). simpl.
  apply bind_Some in H as (w & _ & [= -> _]). done.
Qed.

Lemma omap_cons_eq {A B} (f : A → option B) x l :
  omap f (x :: l) = match f x with Some y => y :: omap f l | None => omap f l end.
Proof. done. Qed.

Lemma dget_awg_entries out k :
  k ∈ AWG_EMIT_ORDER → dget k (awg_entries out) = render <$> dget k out.
Proof.
  unfold awg_entries. induction AWG_EMIT_ORDER as [|k0 l IH]; [set_solver|].
  rewrite omap_cons_eq. intros [->|Hk]%elem_of_cons.
  - destruct (dget k0 out) eqn:E; simpl; [by rewrite decide_True|].
    destruct (decide (k0 ∈ l)) as [Hl|Hl]; [rewrite IH by done; by try rewrite E|].
    apply dget_None. unfold dkeys. intros ([k' v] & -> & Hin)%list_elem_of_fmap.
    apply list_elem_of_omap in Hin as (k1 & Hk1 & H).
    apply bind_Some in H as (w & _ & [= -> _]). done.
  - destruct (dget k0 out) eqn:E; simpl; [|by apply IH].
    case_decide; subst; [by rewrite E|by apply IH].
Qed.

Lemma emit_keys_ok : Forall (λ k, key_ok k = true) AWG_EMIT_ORDER.
Proof. repeat constructor. Qed.

(** The entries of the two sections. *)
Definition interface_entries (i : InterfaceFields) (profile : ConfigProfile)
    (awg : list (string * string)) : list (string * string) :=
  [("PrivateKey", strip i.(i_private_key)); ("Address", strip (default "" i.(i_address)));
   ("DNS", dns_of i)] ++
  (match effective_mtu i profile with
   | Some m => if 0 <? m then [("MTU", str_of_Z m)] else []
   | None => []
   end) ++ awg.

Definition peer_entries (p : PeerFields) (allowed : string) : list (string * string) :=
  [("PublicKey", strip p.(p_public_key)); ("Endpoint", strip p.(p_endpoint));
   ("AllowedIPs", allowed); ("PersistentKeepalive", str_of_Z p.(p_persistent_keepalive))] ++
  (match p.(p_preshared_key) with
   | Some k => if str_truthy k then [("PresharedKey", strip k)] else []
   | None => []
   end).

Lemma validate_key_strip k n k' : _validate_key_b64 k n = Ok k' → k' = strip k.
Proof.
  unfold _validate_key_b64. intros H. inv_guards.
  destruct (b64decode_length _); [|done]. inv_guards. by simplify_eq.
Qed.

Lemma validate_address_strip a a' : _validate_address a = Ok a' → a' = strip a.
Proof. unfold _validate_address. intros H. inv_guards. by simplify_eq. Qed.

Lemma validate_endpoint_strip e e' : _validate_endpoint e = Ok e' → e' = strip e.
Proof.
  unfold _validate_endpoint. intros (u & _ & ([h pt] & _ & H)%res_bind_ok)%res_bind_ok.
  inv_guards. by simplify_eq.
Qed.

Lemma validate_allowed_join a a' :
  _validate_allowed_ips a = Ok a' → a' = join ", " (strip <$> split "," a).
Proof. unfold _validate_allowed_ips. intros H. inv_guards. by simplify_eq. Qed.

Lemma revalidate_ok {A} (r : res A) a : revalidate r = Ok a → r = Ok a.
Proof. by destruct r as [|[]]. Qed.

(** The text of a successful build. *)
Lemma build_config_text i p profile obfuscation text :
  build_config i p profile obfuscation = Ok text →
  build_errors i p profile obfuscation = [] ∧
  ∃ awg, text = join nl (conf_lines (interface_entries i profile awg)
                  (peer_entries p (join ", " (strip <$> split "," p.(p_allowed_ips))))) +:+ nl ∧
    match obfuscation with
    | Some (o :: os) =>
        ∃ out, awg = awg_entries out ∧ profile ≠ wireguard_universal ∧
          (if bool_decide (profile = awg_legacy_or_basic)
           then _normalize_obfuscation_legacy (o :: os)
           else _normalize_obfuscation_awg2 (o :: os) (effective_mtu i profile)) = Ok out
    | _ => awg = []
    end.
Proof.
  unfold build_config. destruct (build_errors i p profile obfuscation) as [|x l] eqn:Eb; [|done].
  intros (priv & Hpriv & (addr & Haddr & (pub & Hpub & (ep & Hep & (al & Hal & H)
    %res_bind_ok)%res_bind_ok)%res_bind_ok)%res_bind_ok)%res_bind_ok.
  apply res_bind_ok in H as (ol & Hol & (psk & Hpsk & [= <-])%res_bind_ok).
  apply validate_key_strip in Hpriv, Hpub. apply validate_address_strip in Haddr.
  apply validate_endpoint_strip in Hep. apply validate_allowed_join in Hal.
  split; [done|].
  assert (psk = kv_line <$> match p.(p_preshared_key) with
    | Some k => if str_truthy k then [("PresharedKey", strip k)] else [] | None => [] end) as ->.
  { destruct (p_preshared_key p) as [k|]; [|by simplify_eq].
    destruct (str_truthy k); [|by simplify_eq].
    apply res_bind_ok in Hpsk as (pk & Hpk%revalidate_ok%validate_key_strip & [= <-]).
    by rewrite Hpk. }
  assert (∀ awg, ol = kv_line <$> awg →
    ("[Interface]" :: ("PrivateKey = " +:+ priv) :: ("Address = " +:+ addr) ::
      ("DNS = " +:+ dns_of i) :: (match effective_mtu i profile with
        | Some m => if 0 <? m then ["MTU = " +:+ str_of_Z m] else [] | None => [] end ++ ol ++
      ["" ; "[Peer]"; "PublicKey = " +:+ pub; "Endpoint = " +:+ ep; "AllowedIPs = " +:+ al;
       "PersistentKeepalive = " +:+ str_of_Z p.(p_persistent_keepalive)] ++
      (kv_line <$> match p.(p_preshared_key) with
        | Some k => if str_truthy k then [("PresharedKey", strip k)] else [] | None => [] end))) =
    conf_lines (interface_entries i profile awg)
      (peer_entries p (join ", " (strip <$> split "," p.(p_allowed_ips))))) as Hlines.
  { intros awg ->. unfold conf_lines, interface_entries, peer_entries.
    rewrite Hpriv, Haddr, Hpub, Hep, Hal, !fmap_app. cbn.
    destruct (effective_mtu i profile) as [m|]; [destruct (0 <? m)|]; done. }
  unfold obfuscation_lines in Hol.
  destruct obfuscation as [[|o os]|].
  - injection Hol as <-. exists []. split; [|done]. by rewrite <- (Hlines []).
  - destruct (bool_decide_reflect (profile = wireguard_universal)) as [Hu|Hu].
    { exfalso. unfold build_errors in Eb. do 5 apply app_eq_nil in Eb as [_ Eb].
      rewrite bool_decide_true in Eb by done.
      by rewrite bool_decide_true in Eb by (simpl; discriminate). }
    apply res_bind_ok in Hol as (out & Hout%revalidate_ok & [= <-]).
    exists (awg_entries out). split; [|by exists out].
    by rewrite <- (Hlines (awg_entries out)) by (by rewrite <- awg_lines).
  - injection Hol as <-. exists []. split; [|done]. by rewrite <- (Hlines []).
Qed.

(** The normalised parameters of a configuration: none without obfuscation. *)
Definition normalized (i : InterfaceFields) (profile : ConfigProfile)
    (obfuscation : option pydict) : res pydict :=
  match obfuscation with
  | Some (o :: os) =>
      if bool_decide (profile = awg_legacy_or_basic)
      then _normalize_obfuscation_legacy (o :: os)
      else _normalize_obfuscation_awg2 (o :: os) (effective_mtu i profile)
  | _ => Ok []
  end.

Lemma emitted_key_skip i profile awg k :
  k ∈ AWG_EMIT_ORDER → dget k (interface_entries i profile awg) = dget k awg.
Proof.
  intros Hk. unfold interface_entries.
  assert (k ≠ "PrivateKey" ∧ k ≠ "Address" ∧ k ≠ "DNS" ∧ k ≠ "MTU") as (?&?&?&?).
  { unfold AWG_EMIT_ORDER in Hk. repeat (apply elem_of_cons in Hk as [->|Hk]; [done|]).
    by apply elem_of_nil in Hk. }
  destruct (effective_mtu i profile) as [m|]; [destruct (0 <? m)|]; simpl;
    by rewrite !decide_False.
Qed.

(** C12: a generated configuration reads back as what was validated.  As long as
    no value holds a newline, looking a key up in the [[Interface]] or [[Peer]]
    section of the text gives the validated field; an AWG key gives its
    normalised parameter, and no AWG key is readable without obfuscation
    parameters, in particular never under [wireguard_universal]. *)
Theorem build_config_reads_back i p profile obfuscation text :
  build_config i p profile obfuscation = Ok text →
  ∃ out,
    let ifs := interface_entries i profile (awg_entries out) in
    let ps := peer_entries p (join ", " (strip <$> split "," p.(p_allowed_ips))) in
    normalized i profile obfuscation = Ok out ∧
    (profile = wireguard_universal → out = []) ∧
    (∀ k, k ∈ AWG_EMIT_ORDER → dget k ifs = render <$> dget k out) ∧
    (Forall (λ kv, no_nl (kv_line kv) = true) (ifs ++ ps) →
     ∀ k, key_ok k = true →
       conf_get "[Interface]" k text = dget k ifs ∧ conf_get "[Peer]" k text = dget k ps).
Proof.
  intros (_ & awg & -> & Hawg)%build_config_text.
  assert (∃ out, normalized i profile obfuscation = Ok out ∧ awg = awg_entries out ∧
    (profile = wireguard_universal → out = [])) as (out & Hout & -> & Hu).
  { unfold normalized. destruct obfuscation as [[|o os]|]; [by exists []| |by exists []].
    destruct Hawg as (out & -> & Hu & Hout). by exists out. }
  exists out. cbn zeta. split_and!; [done|done| |].
  { intros k Hk. by rewrite emitted_key_skip, dget_awg_entries. }
  intros Hnl k Hk. apply conf_get_lines; [done|].
  rewrite Forall_forall in Hnl. apply Forall_forall. intros kv Hkv. split; [|by apply Hnl].
  unfold interface_entries, peer_entries in Hkv. rewrite !elem_of_app in Hkv.
  destruct Hkv as [[Hkv|[Hkv|Hkv]]|[Hkv|Hkv]].
  - repeat (apply elem_of_cons in Hkv as [->|Hkv]; [done|]). by apply elem_of_nil in Hkv.
  - destruct (effective_mtu i profile) as [m|]; [destruct (0 <? m)|];
      repeat (apply elem_of_cons in Hkv as [->|Hkv]; [done|]); by apply elem_of_nil in Hkv.
  - apply (proj1 (Forall_forall _ _) emit_keys_ok), (awg_entries_keys out).
    by apply list_elem_of_fmap_2.
  - repeat (apply elem_of_cons in Hkv as [->|Hkv]; [done|]). by apply elem_of_nil in Hkv.
  - destruct (p_preshared_key p) as [m|]; [destruct (str_truthy m)|];
      repeat (apply elem_of_cons in Hkv as [->|Hkv]; [done|]); by apply elem_of_nil in Hkv.
Qed.

Lemma build_config_reads_back_witness :
  let i := mkInterface wit_key (Some "10.8.1.2/32") None (Some 1420) in
  let p := mkPeer wit_key " vpn.example.com:443 " "0.0.0.0/0,::/0" 25 None in
  ∃ text, build_config i p wireguard_universal None = Ok text ∧
    conf_get "[Peer]" "Endpoint" text = Some "vpn.example.com:443" ∧
    conf_get "[Interface]" "H1" text = None.
Proof.
  intros i p.
  destruct (build_config i p wireguard_universal None) as [text|e] eqn:E;
    [|vm_compute in E; discriminate].
  exists text. split; [reflexivity|].
  destruct (build_config_reads_back i p wireguard_universal None text E)
    as (out & Hout & _ & _ & Hget).
  injection Hout as <-.
  assert (Forall (λ kv, no_nl (kv_line kv) = true)
    (interface_entries i wireguard_universal (awg_entries []) ++
     peer_entries p (join ", " (strip <$> split "," p.(p_allowed_ips))))) as Hnl
    by (repeat constructor).
  split.
  - rewrite (proj2 (Hget Hnl "Endpoint" eq_refl)). reflexivity.
  - rewrite (proj1 (Hget Hnl "H1" eq_refl)). reflexivity.
Defined.

(** The hypothesis on newlines matters: a host name may end with one (Python's
    [$]), and the scope id of an IPv6 address may hold any text, so that a
    validated value can open a line of its own. *)
Example endpoint_newline :
  _validate_endpoint ("vpn.example.com" +:+ nl +:+ ":443") =
    Ok ("vpn.example.com" +:+ nl +:+ ":443").
Proof. vm_compute. reflexivity. Qed.

Example address_newline :
  _validate_address ("fe80::1%x" +:+ nl +:+ "PostUp = reboot/64") =
    Ok ("fe80::1%x" +:+ nl +:+ "PostUp = reboot/64").
Proof. vm_compute. reflexivity. Qed.
