(* ===== verification/AmneziaConfig.v ===== *)
(** * AmneziaWG parameters and addresses

    [core/amnezia_config.py]: the H parameters, the parameters of a server
    profile, and the wrappers that build the three client configurations;
    [derive_address_from_profile] and [allocate_next_address] of
    [core/config_builder.py]; [services/address_allocator.py]. *)

From S2P Require Import Prelude PyFloat PyStr PyVal Models ControlPlaneDb IpAddr ConfigBuilder.
Open Scope Z_scope.

(** ** H1 to H4 *)

(** [generate_h_params] on the stream of [secrets.randbits(32)]: both loops skip
    a zero or a repeated draw.  [None]: the stream ended before four values. *)
Fixpoint generate_h_params (draws result : list Z) : option (list Z) :=
  if (4 <=? length result)%nat then Some (take 4 result)
  else
    match draws with
    | [] => None
    | v :: draws' =>
        if (v =? 0) || bool_decide (v ∈ result) then generate_h_params draws' result
        else generate_h_params draws' (result ++ [v])
    end.

(** ** Profile parameters *)

Definition DEFAULT_Jc := 3.
Definition DEFAULT_Jmin := 10.
Definition DEFAULT_Jmax := 50.
Definition DEFAULT_S1 := 213.
Definition DEFAULT_S2 := 237.

Definition _validate_s1_s2_constraint (s1 s2 : Z) : res unit :=
  raise_if (s1 + 56 =? s2)
    ("AmneziaWG kernel requires S1+56 ≠ S2; got S1=" +:+ str_of_Z s1 +:+ " S2=" +:+ str_of_Z s2 +:+
     " (S1+56=" +:+ str_of_Z (s1 + 56) +:+ ")").

Definition get_obfuscation_params (profile_request_params : option pydict) : res pydict :=
  match profile_request_params with
  | Some ((_ :: _) as params) =>
      let get k d := int_of (default (VInt d) (dget k params)) in
      s1 ← get "amnezia_s1" DEFAULT_S1;
      s2 ← get "amnezia_s2" DEFAULT_S2;
      _ ← _validate_s1_s2_constraint s1 s2;
      jc ← get "amnezia_jc" DEFAULT_Jc;
      jmin ← get "amnezia_jmin" DEFAULT_Jmin;
      jmax ← get "amnezia_jmax" DEFAULT_Jmax;
      h1 ← get "amnezia_h1" 10;
      h2 ← get "amnezia_h2" 20;
      h3 ← get "amnezia_h3" 30;
      h4 ← get "amnezia_h4" 40;
      s3 ← get "amnezia_s3" 0;
      s4 ← get "amnezia_s4" 0;
      let base := [("Jc", VInt jc); ("Jmin", VInt jmin); ("Jmax", VInt jmax); ("S1", VInt s1);
                   ("S2", VInt s2); ("H1", VInt h1); ("H2", VInt h2); ("H3", VInt h3);
                   ("H4", VInt h4); ("S3", VInt s3); ("S4", VInt s4)] in
      Ok (base ++ omap (λ k, match dget (k.2) params with
                             | None => None
                             | Some VNone => Some (k.1, VStr "")
                             | Some v => Some (k.1, VStr (render v))
                             end)
            [("I1", "amnezia_i1"); ("I2", "amnezia_i2"); ("I3", "amnezia_i3");
             ("I4", "amnezia_i4"); ("I5", "amnezia_i5")])
  | _ =>
      _ ← _validate_s1_s2_constraint DEFAULT_S1 DEFAULT_S2;
      Ok [("Jc", VInt DEFAULT_Jc); ("Jmin", VInt DEFAULT_Jmin); ("Jmax", VInt DEFAULT_Jmax);
          ("S1", VInt DEFAULT_S1); ("S2", VInt DEFAULT_S2); ("H1", VInt 10); ("H2", VInt 20);
          ("H3", VInt 30); ("H4", VInt 40)]
  end.

(** A parameter that selects the 2.0 profile. *)
Definition selects_asc (v : pyval) : bool :=
  match v with
  | VNone => false
  | VStr s => str_truthy (strip s)
  | VInt z => 0 <? z
  | VBool b => b
  end.

Definition _select_awg_profile (obfuscation : option pydict) : ConfigProfile :=
  match obfuscation with
  | Some ((_ :: _) as o) =>
      if existsb (λ k, selects_asc (getv o k))
           ["H1"; "H2"; "H3"; "H4"; "S3"; "S4"; "I1"; "I2"; "I3"; "I4"; "I5"]
      then awg_2_0_asc else awg_legacy_or_basic
  | _ => awg_legacy_or_basic
  end.

(** ** Addresses *)

(** The subnet and mask of a profile. *)
Definition profile_subnet (params : pydict) : pyval :=
  v_or (getv params "subnet_address") (getv params "amnezia_subnet").

Definition profile_cidr (params : pydict) : pyval :=
  v_or (v_or (getv params "subnet_cidr") (getv params "amnezia_cidr")) (VInt 24).

Definition derive_address_from_profile (request_params : option pydict) (fallback : string)
    : string :=
  match request_params with
  | Some ((_ :: _) as params) =>
      if negb (truthy (profile_subnet params)) then fallback
      else
        match split "." (strip (render (profile_subnet params))) with
        | [a; b; c; _] => join "." [a; b; c; "2"] +:+ "/" +:+ render (profile_cidr params)
        | _ => fallback
        end
  | _ => fallback
  end.

(** [for h in range(host_min, host_max + 1)] *)
Fixpoint first_free (used : list Z) (hosts : list Z) : option Z :=
  match hosts with
  | [] => None
  | h :: hosts' => if bool_decide (h ∈ used) then first_free used hosts' else Some h
  end.

Definition allocate_next_address (subnet_base : string) (used : list Z) (host_min host_max : Z)
    : res string :=
  match first_free used (seqZ host_min (host_max + 1 - host_min)) with
  | Some h => Ok (subnet_base +:+ "." +:+ str_of_Z h +:+ "/32")
  | None => Err (ValueError ("No free address in " +:+ subnet_base +:+ ".x (hosts " +:+
                             str_of_Z host_min +:+ "-" +:+ str_of_Z host_max +:+ ")"))
  end.

Definition _subnet_base_and_cidr (request_params : option pydict) : option (string * Z) :=
  match request_params with
  | Some ((_ :: _) as params) =>
      if negb (truthy (profile_subnet params)) then None
      else
        match split "." (strip (render (profile_subnet params))) with
        | [a; b; c; _] =>
            match int_of (profile_cidr params) with
            | Ok cidr => Some (join "." [a; b; c], cidr)
            | Err _ => None
            end
        | _ => None
        end
  | _ => None
  end.

(** Digits then a dot. *)
Definition digits_dot (l : list ascii) : option (list ascii) :=
  match l with
  | c :: _ =>
      if is_digit c then
        match dropwhile is_digit l with "."%char :: r => Some r | _ => None end
      else None
  | [] => None
  end.

Fixpoint takewhile {A} (p : A → bool) (l : list A) : list A :=
  match l with
  | [] => []
  | a :: l' => if p a then a :: takewhile p l' else []
  end.

(** [re.match(r"^\d+\.\d+\.\d+\.(\d+)", s)] *)
Definition _last_octet_from_allowed_ips (allowed_ips : option string) : option Z :=
  match allowed_ips with
  | None => None
  | Some s =>
      if negb (str_truthy s) then None
      else
        r ← digits_dot (chars (strip s));
        r ← digits_dot r;
        r ← digits_dot r;
        parse_nat (takewhile is_digit r)
  end.

(** [s.replace(p, "")] for a non-empty [p], at most [fuel] removals. *)
Fixpoint remove_all (fuel : nat) (p s : string) : string :=
  match fuel, s with
  | S fuel', String c s' =>
      if String.prefix p s then remove_all fuel' p (str_drop (String.length p) s)
      else String c (remove_all fuel' p s')
  | _, _ => s
  end.

(** The last octets taken in a subnet, over the live devices of every server. *)
Definition used_octets (devices : list Device.t) (subnet_base : string) : list Z :=
  omap (λ d, if is_none d.(Device.revoked_at) &&
                match d.(Device.allowed_ips) with
                | Some a => like (chars (subnet_base +:+ "." +:+ "%")) (chars a)
                | None => false
                end
             then _last_octet_from_allowed_ips d.(Device.allowed_ips) else None) devices.

Definition allocate_address_for_device (devices : list Device.t) (request_params : option pydict)
    : res (string * string) :=
  let '(subnet_base, cidr) := default ("10.8.1", 24) (_subnet_base_and_cidr request_params) in
  allocated_32 ← allocate_next_address subnet_base (used_octets devices subnet_base) 2 254;
  let ip_part := remove_all (String.length allocated_32) "/32" allocated_32 in
  Ok (ip_part +:+ "/" +:+ str_of_Z cidr, allocated_32).

(** ** The client configurations *)

Record ClientConfigArgs : Type := mkClientArgs {
  server_public_key : string;
  client_private_key_b64 : string;
  endpoint : option string;
  allowed_ips : string;
  dns : option string;
  persistent_keepalive : Z;
  obfuscation : option pydict;
  mtu : option Z;
  address : option string;
  preshared_key : option string
}.

Definition client_interface (a : ClientConfigArgs) (default_dns : string) : InterfaceFields :=
  mkInterface a.(client_private_key_b64)
    (Some (ostr_or a.(address) (derive_address_from_profile None DEFAULT_ADDRESS)))
    (Some (ostr_or a.(dns) default_dns)) a.(mtu).

Definition client_peer (a : ClientConfigArgs) : PeerFields :=
  mkPeer a.(server_public_key) (ostr_or a.(endpoint) "") a.(allowed_ips)
    a.(persistent_keepalive) a.(preshared_key).

Definition build_amnezia_client_config (a : ClientConfigArgs) : res string :=
  build_config (client_interface a "1.1.1.1, 1.0.0.1, 8.8.8.8, 8.8.4.4") (client_peer a)
    (_select_awg_profile a.(obfuscation)) a.(obfuscation).

Definition build_wg_obfuscated_config (a : ClientConfigArgs) : res string :=
  build_config (client_interface a "1.1.1.1, 1.0.0.1") (client_peer a)
    (_select_awg_profile a.(obfuscation)) a.(obfuscation).

Definition build_standard_wg_client_config (a : ClientConfigArgs) : res string :=
  build_config (client_interface a "1.1.1.1, 1.0.0.1, 8.8.8.8, 8.8.4.4") (client_peer a)
    wireguard_universal None.

Definition build_all_configs (a : ClientConfigArgs) : res (string * string * string) :=
  awg ← build_amnezia_client_config a;
  wg_obf ← build_wg_obfuscated_config a;
  wg ← build_standard_wg_client_config a;
  Ok (awg, wg_obf, wg).

(** ** H parameters *)

Lemma generate_h_params_inv draws : ∀ result r,
  NoDup result → (length result ≤ 4)%nat →
  Forall (λ v, 0 ≤ v < 2 ^ 32) draws → Forall (λ v, 1 ≤ v ≤ 2 ^ 32 - 1) result →
  generate_h_params draws result = Some r →
  length r = 4%nat ∧ NoDup r ∧ Forall (λ v, 1 ≤ v ≤ 2 ^ 32 - 1) r.
Proof.
  induction draws as [|v draws IH]; intros result r Hnd Hlen Hd Hr; cbn [generate_h_params].
  - destruct (Nat.leb_spec 4 (length result)); [|done]. intros [= <-].
    rewrite take_ge by lia. split_and!; [lia|done|done].
  - destruct (Nat.leb_spec 4 (length result)).
    { intros [= <-]. rewrite take_ge by lia. split_and!; [lia|done|done]. }
    apply Forall_cons in Hd as [Hv Hd].
    destruct ((v =? 0) || bool_decide (v ∈ result)) eqn:E; bools; apply IH; auto.
    + apply NoDup_app. split_and!; [done|set_solver|apply NoDup_singleton].
    + rewrite length_app. simpl. lia.
    + apply Forall_app; split; [done|]. repeat constructor; lia.
Qed.

(** Every new value among the draws is taken until there are four. *)
Lemma generate_h_params_total draws : ∀ result s,
  NoDup s → Forall (λ v, v ≠ 0 ∧ (v ∉ result) ∧ v ∈ draws) s →
  (4 ≤ length result + length s)%nat → is_Some (generate_h_params draws result).
Proof.
  induction draws as [|v draws IH]; intros result s Hnd Hs Hlen; cbn [generate_h_params].
  - destruct (Nat.leb_spec 4 (length result)); [by eexists|].
    destruct s as [|x s]; [simpl in Hlen; lia|].
    apply Forall_cons in Hs as [(_ & _ & Hx) _]. by apply elem_of_nil in Hx.
  - destruct (Nat.leb_spec 4 (length result)); [by eexists|].
    rewrite Forall_forall in Hs.
    destruct ((v =? 0) || bool_decide (v ∈ result)) eqn:E.
    + apply (IH result s); [done| |done]. apply Forall_forall. intros x Hx.
      destruct (Hs x Hx) as (H0 & Hr & Hin). split_and!; [done|done|].
      apply elem_of_cons in Hin as [->|Hin]; [|done].
      apply orb_prop in E as [E|E]; bools; done.
    + bools. apply (IH (result ++ [v]) (filterb (λ x, negb (Z.eqb x v)) s)).
      * by apply NoDup_filter.
      * apply Forall_forall. intros x [Hxv Hx]%elem_of_filterb. bools.
        destruct (Hs x Hx) as (H0' & Hr & Hin). split_and!; [done|set_solver|].
        by apply elem_of_cons in Hin as [->|Hin].
      * rewrite length_app. simpl.
        assert (length s ≤ S (length (filterb (λ x, negb (Z.eqb x v)) s)))%nat; [|lia].
        clear - Hnd. induction s as [|y s IHs]; [simpl; lia|].
        apply NoDup_cons in Hnd as [Hy Hnd]. specialize (IHs Hnd).
        destruct (decide (y = v)) as [->|Hne].
        -- rewrite filter_cons_False by (by rewrite Z.eqb_refl). simpl.
           assert (filterb (λ x, negb (Z.eqb x v)) s = s) as ->; [|lia].
           clear - Hy. induction s as [|z s IHs]; [done|].
           rewrite not_elem_of_cons in Hy. destruct Hy as [Hz Hy].
           rewrite filter_cons_True; [by rewrite IHs|]. apply negb_true_iff, Z.eqb_neq. congruence.
        -- rewrite filter_cons_True by (by apply negb_true_iff, Z.eqb_neq). simpl. lia.
Qed.

(** C18: the generated H parameters are four distinct values between 1 and
    2^32 - 1, whatever the random draws; and the generation ends as soon as four
    distinct non-zero values have been drawn. *)
Theorem generate_h_params_sound draws :
  Forall (λ v, 0 ≤ v < 2 ^ 32) draws →
  (∀ r, generate_h_params draws [] = Some r →
     length r = 4%nat ∧ NoDup r ∧ Forall (λ v, 1 ≤ v ≤ 2 ^ 32 - 1) r) ∧
  ((∃ s, NoDup s ∧ length s = 4%nat ∧ Forall (λ v, v ≠ 0 ∧ v ∈ draws) s) →
     is_Some (generate_h_params draws [])).
Proof.
  intros Hd. split.
  - intros r. apply generate_h_params_inv; [constructor|simpl; lia|done|constructor].
  - intros (s & Hnd & Hlen & Hs). apply (generate_h_params_total draws [] s); [done| |simpl; lia].
    eapply Forall_impl; [exact Hs|]. intros v [? ?]. split_and!; [done|set_solver|done].
Qed.

Lemma generate_h_params_sound_witness :
  generate_h_params [5; 0; 5; 7; 4294967295; 7; 9] [] = Some [5; 7; 4294967295; 9] ∧
  NoDup [5; 7; 4294967295; 9].
Proof.
  split; [vm_compute; reflexivity|].
  assert (Forall (λ v, 0 ≤ v < 2 ^ 32) [5; 0; 5; 7; 4294967295; 7; 9]) as Hd
    by (repeat constructor; lia).
  apply (proj1 (generate_h_params_sound _ Hd) [5; 7; 4294967295; 9]). vm_compute. reflexivity.
Defined.

(** ** Addresses are unique *)

Lemma first_free_Some used hosts h :
  first_free used hosts = Some h →
  h ∈ hosts ∧ (h ∉ used) ∧ ∀ i j h', hosts !! i = Some h' → hosts !! j = Some h → (i < j)%nat →
    NoDup hosts → h' ∈ used.
Proof.
  induction hosts as [|x hosts IH]; simpl; [done|].
  destruct (bool_decide_reflect (x ∈ used)) as [Hx|Hx].
  - intros Hf. destruct (IH Hf) as (Hin & Hu & Hlt). split_and!; [set_solver|done|].
    intros i j h' Hi Hj Hij Hnd. apply NoDup_cons in Hnd as [Hx' Hnd].
    destruct j as [|j]; [lia|]. destruct i as [|i]; [by simplify_eq/=|].
    eapply Hlt; [exact Hi|exact Hj|lia|done].
  - intros [= ->]. split_and!; [set_solver|done|]. intros i j h' Hi Hj Hij Hnd.
    assert (j = 0%nat) as ->; [|lia]. by eapply NoDup_lookup.
Qed.

Lemma first_free_None used hosts : first_free used hosts = None ↔ ∀ h, h ∈ hosts → h ∈ used.
Proof.
  induction hosts as [|x hosts IH]; simpl; [set_solver|].
  destruct (bool_decide_reflect (x ∈ used)) as [Hx|Hx].
  - rewrite IH. set_solver.
  - split; [done|]. intros H. exfalso. set_solver.
Qed.

(** A subnet base of three numbers. *)
Definition numeric_base (b : string) : Prop :=
  ∃ x y z, b = (x +:+ "." +:+ y +:+ "." +:+ z) ∧
    isdigit x = true ∧ isdigit y = true ∧ isdigit z = true.

Lemma isdigit_chars s : isdigit s = true → chars s ≠ [] ∧ Forall (λ c, is_digit c = true) (chars s).
Proof.
  unfold isdigit. intros [Ht Hd]%andb_prop. split.
  - destruct s; done.
  - apply Forall_forall. intros c Hc. rewrite forallb_forall in Hd. apply Hd.
    by apply list_elem_of_In.
Qed.

Lemma dropwhile_app {A} (p : A → bool) l1 a l2 :
  Forall (λ c, p c = true) l1 → p a = false → dropwhile p (l1 ++ a :: l2) = a :: l2.
Proof. induction 1 as [|c l1 Hc _ IH]; simpl; [by intros ->|]. intros Ha. rewrite Hc. auto. Qed.

Lemma takewhile_app {A} (p : A → bool) l1 a l2 :
  Forall (λ c, p c = true) l1 → p a = false → takewhile p (l1 ++ a :: l2) = l1.
Proof.
  induction 1 as [|c l1 Hc _ IH]; simpl; [by intros ->|]. intros Ha. by rewrite Hc, IH.
Qed.

Lemma digits_dot_app x l :
  isdigit x = true → digits_dot (chars x ++ "."%char :: l) = Some l.
Proof.
  intros [Hne Hd]%isdigit_chars. unfold digits_dot.
  destruct (chars x) as [|c cs] eqn:E; [done|]. apply Forall_cons in Hd as [Hc Hd].
  simpl. rewrite Hc. by rewrite dropwhile_app.
Qed.

(** The digits of the hosts 2 to 254. *)
Lemma host_digits h :
  2 ≤ h ≤ 254 →
  Forall (λ c, is_digit c = true) (chars (str_of_Z h)) ∧ parse_nat (chars (str_of_Z h)) = Some h.
Proof.
  intros Hh.
  assert (forallb (λ h, forallb is_digit (chars (str_of_Z h)) &&
    bool_decide (parse_nat (chars (str_of_Z h)) = Some h)) (seqZ 2 253) = true) as Hall
    by (vm_compute; reflexivity).
  rewrite forallb_forall in Hall. specialize (Hall h).
  destruct (andb_prop _ _ (Hall ltac:(apply list_elem_of_In, elem_of_seqZ; lia))) as [Hd Hp].
  apply bool_decide_eq_true in Hp. split; [|done].
  apply Forall_forall. intros c Hc. rewrite forallb_forall in Hd. apply Hd.
  by apply list_elem_of_In.
Qed.

Lemma last_octet_allocated b h :
  numeric_base b → 2 ≤ h ≤ 254 →
  _last_octet_from_allowed_ips (Some (b +:+ "." +:+ str_of_Z h +:+ "/32")) = Some h.
Proof.
  intros (x & y & z & -> & Hx & Hy & Hz) Hh. destruct (host_digits h Hh) as [Hd Hp].
  set (s := (x +:+ "." +:+ y +:+ "." +:+ z) +:+ "." +:+ str_of_Z h +:+ "/32").
  assert (chars s = chars x ++ "."%char :: chars y ++ "."%char :: chars z ++ "."%char ::
    (chars (str_of_Z h) ++ "/"%char :: ["3"%char; "2"%char])) as Hs.
  { unfold s. rewrite !chars_app, <- !app_assoc. done. }
  assert (strip s = s) as Hstrip.
  { apply strip_id.
    - intros c l. rewrite Hs. destruct (isdigit_chars x Hx) as [Hne Hxd].
      destruct (chars x) as [|c' cs]; [done|]. apply Forall_cons in Hxd as [Hc _].
      intros [= <- _]. by apply is_digit_not_space.
    - intros c l. rewrite Hs. intros Hl.
      assert (last (chars x ++ "."%char :: chars y ++ "."%char :: chars z ++ "."%char ::
        (chars (str_of_Z h) ++ "/"%char :: ["3"%char; "2"%char])) = Some "2"%char) as Hlast.
      { rewrite last_app. simpl. rewrite !last_cons, last_app. simpl.
        rewrite !last_cons, last_app. simpl. rewrite !last_cons, last_app. done. }
      rewrite Hl, last_snoc in Hlast. by injection Hlast as ->. }
  unfold _last_octet_from_allowed_ips.
  assert (str_truthy s = true) as ->.
  { apply str_truthy_true. intros E. rewrite E in Hs. simpl in Hs.
    destruct (chars x); discriminate. }
  simpl. rewrite Hstrip, Hs.
  rewrite digits_dot_app by done. simpl. rewrite digits_dot_app by done. simpl.
  rewrite digits_dot_app by done. simpl. by rewrite takewhile_app.
Qed.

Lemma like_percent r : like ["%"%char] r = true.
Proof. induction r as [|a r IH]; [done|]. simpl in *. exact IH. Qed.

Lemma like_prefix p r :
  Forall (λ c, is_digit c = true ∨ c = "."%char) p → like (p ++ ["%"%char]) (p ++ r) = true.
Proof.
  induction 1 as [|c p Hc _ IH]; [apply like_percent|].
  destruct Hc as [Hc| ->]; [|exact IH].
  destruct c as [[] [] [] [] [] [] [] []]; try discriminate; simpl; exact IH.
Qed.

Lemma numeric_base_chars b :
  numeric_base b → Forall (λ c, is_digit c = true ∨ c = "."%char) (chars b).
Proof.
  intros (x & y & z & -> & [_ Hx]%isdigit_chars & [_ Hy]%isdigit_chars & [_ Hz]%isdigit_chars).
  rewrite !chars_app.
  assert (∀ l, Forall (λ c, is_digit c = true) l →
    Forall (λ c, is_digit c = true ∨ c = "."%char) l) as Hd
    by (intros l Hl; eapply Forall_impl; [exact Hl|auto]).
  assert (Forall (λ c, is_digit c = true ∨ c = "."%char) (chars ".")) as Hdot
    by (constructor; [by right|constructor]).
  rewrite !Forall_app. auto 10.
Qed.

Lemma allocate_fresh devices request_params :
  let base := (default ("10.8.1", 24) (_subnet_base_and_cidr request_params)).1 in
  numeric_base base →
  match allocate_address_for_device devices request_params with
  | Ok (_, allowed) =>
      (∃ h, 2 ≤ h ≤ 254 ∧ allowed = base +:+ "." +:+ str_of_Z h +:+ "/32") ∧
      ∀ d, d ∈ devices → d.(Device.revoked_at) = None → d.(Device.allowed_ips) ≠ Some allowed
  | Err _ =>
      ∀ h, 2 ≤ h ≤ 254 → ∃ d, d ∈ devices ∧ d.(Device.revoked_at) = None ∧
        _last_octet_from_allowed_ips d.(Device.allowed_ips) = Some h
  end.
Proof.
  intros base Hb. unfold allocate_address_for_device. fold base.
  destruct (default _ _) as [b cidr] eqn:Ed. unfold base in *. cbn [fst] in *. clear base.
  unfold allocate_next_address.
  destruct (first_free _ _) as [h|] eqn:Ef; simpl.
  - apply first_free_Some in Ef as (Hh & Hu & _). apply elem_of_seqZ in Hh.
    split; [exists h; split; [lia|done]|].
    intros d Hd Hr Ha. apply Hu. unfold used_octets. apply list_elem_of_omap.
    exists d. split; [done|]. rewrite Hr, Ha. simpl.
    assert (like (chars (b +:+ "." +:+ "%"))
      (chars (b +:+ "." +:+ str_of_Z h +:+ "/32")) = true) as ->.
    { rewrite !chars_app.
      change (chars "." ++ chars "%") with (["."%char] ++ ["%"%char]).
      change (chars ".") with ["."%char]. rewrite (app_assoc _ ["."%char] ["%"%char]).
      rewrite (app_assoc _ ["."%char] (_ ++ _)). apply like_prefix.
      apply Forall_app; split; [by apply numeric_base_chars|].
      constructor; [by right|constructor]. }
    apply last_octet_allocated; [done|lia].
  - rewrite first_free_None in Ef. intros h Hh.
    assert (h ∈ used_octets devices b) as Hin by (apply Ef, elem_of_seqZ; lia).
    unfold used_octets in Hin. apply list_elem_of_omap in Hin as (d & Hd & Ho).
    destruct (is_none d.(Device.revoked_at)) eqn:Er; [|done]. simpl in Ho.
    destruct (d.(Device.allowed_ips)) as [a|] eqn:Ea; [|done].
    destruct (like _ _); [|done]. exists d. rewrite Ea. split_and!; [done| |done].
    by apply is_none_true.
Qed.



(** ** Null parameters *)

(** A profile whose [amnezia_i1] is null yields the empty string, which the
    builder rejects. *)
Example null_i_rejected :
  ∃ out, get_obfuscation_params (Some [("amnezia_i1", VNone)]) = Ok out ∧
    dget "I1" out = Some (VStr "") ∧
    _normalize_obfuscation_awg2 out (Some 1420) = Err (ValueError "I1 must be non-empty string").
Proof. eexists. split; [vm_compute; reflexivity|]. split; vm_compute; reflexivity. Qed.
