(* ===== verification/Reconciliation.v ===== *)
(** * Reconciliation ([services/reconciliation_engine.py])

    The peers a node must have, from the database, against those it has: the
    difference, its application through the runtime adapter, and the loop over
    the nodes. *)

From S2P Require Import Prelude PyFloat PyStr Settings Models Node ControlPlaneDb Runtime Migration.
Open Scope Z_scope.

Record ReconciliationDiff : Type := mkDiff {
  peers_to_add : list PeerConfigLike;
  peers_to_remove : list string;
  peers_to_update : list PeerConfigLike
}.

(** The durations, which only feed metrics and logs, are left out. *)
Record ReconciliationResult : Type := mkResult {
  peers_added : Z;
  peers_removed : Z;
  peers_updated : Z;
  peers_added_pubkeys : list string;
  errors : list string
}.

Definition empty_result : ReconciliationResult := mkResult 0 0 0 [] [].

(** ** The difference *)

Definition _peer_allowed_ips (peer : RuntimePeer) : string :=
  strip (default "" peer.(rp_allowed_ips)).

Definition _is_valid_server_allowed_ips (allowed : string) : bool :=
  let a := strip allowed in
  str_truthy a && negb (contains "0.0.0.0/0" a) && (contains "/32" a || contains "/128" a).

(** [s or None] *)
Definition none_if_empty (s : string) : option string := if str_truthy s then Some s else None.

(** The desired peers by public key. *)
Definition desired (db_peers : list (string * option string * option string))
    : list (string * (string * option string)) :=
  foldl (λ m r, let '(pk, allowed, psk) := r in
           if str_truthy pk
           then dset pk (strip (default "" allowed), none_if_empty (strip (default "" psk))) m
           else m) [] db_peers.

(** The peers of the node by public key. *)
Definition actual (wg_peers : list RuntimePeer) : list (string * string) :=
  dict_of ((λ p, (p.(rp_public_key), _peer_allowed_ips p)) <$>
    filterb (λ p, str_truthy p.(rp_public_key)) wg_peers).

(** A present peer is reapplied when its addresses are unset or the default
    route. *)
Definition needs_update (wg_val allowed : string) : bool :=
  negb (String.eqb wg_val allowed) &&
  (negb (str_truthy wg_val) || contains "0.0.0.0/0" wg_val).

Definition desired_peer (kv : string * (string * option string)) : PeerConfigLike :=
  mkPeerConfig kv.1 (Some kv.2.1) kv.2.2 25.

Definition compute_diff (db_peers : list (string * option string * option string))
    (wg_peers : list RuntimePeer) : ReconciliationDiff :=
  let db_map := desired db_peers in
  let wg_map := actual wg_peers in
  mkDiff
    (desired_peer <$> filterb (λ kv, is_none (dget kv.1 wg_map) &&
                                _is_valid_server_allowed_ips kv.2.1) db_map)
    (filterb (λ pk, is_none (dget pk db_map)) (dkeys wg_map))
    (desired_peer <$> filterb (λ kv, _is_valid_server_allowed_ips kv.2.1 &&
                                match dget kv.1 wg_map with
                                | Some wg_val => needs_update wg_val kv.2.1
                                | None => false
                                end) db_map).

Definition diff_empty (d : ReconciliationDiff) : bool :=
  bool_decide (d.(peers_to_add) = []) && bool_decide (d.(peers_to_remove) = []) &&
  bool_decide (d.(peers_to_update) = []).

#[export] Instance peer_config_eq_dec : EqDecision PeerConfigLike.
Proof. solve_decision. Defined.

(** ** Applying it *)

Section apply.
Context {W : Type} `{NodeRuntimeAdapter W}.
Implicit Types (w : W) (res : ReconciliationResult).

Definition add_error (kind pk : string) (e : exn) res : ReconciliationResult :=
  mkResult res.(peers_added) res.(peers_removed) res.(peers_updated) res.(peers_added_pubkeys)
    (res.(errors) ++ [kind +:+ " " +:+ str_take 16 pk +:+ ": " +:+ exn_str e]).

Definition apply_remove (node : string) (st : W * ReconciliationResult) (pk : string)
    : W * ReconciliationResult :=
  let '(w, res) := st in
  match remove_peer node pk w with
  | (w, Ok _) => (w, mkResult res.(peers_added) (res.(peers_removed) + 1) res.(peers_updated)
                       res.(peers_added_pubkeys) res.(errors))
  | (w, Err e) => (w, add_error "remove" pk e res)
  end.

Definition apply_add (node : string) (st : W * ReconciliationResult) (p : PeerConfigLike)
    : W * ReconciliationResult :=
  let '(w, res) := st in
  match add_peer node p w with
  | (w, Ok _) => (w, mkResult (res.(peers_added) + 1) res.(peers_removed) res.(peers_updated)
                       (res.(peers_added_pubkeys) ++ [p.(pc_public_key)]) res.(errors))
  | (w, Err e) => (w, add_error "add" p.(pc_public_key) e res)
  end.

(** Remove then add, inside one [try]. *)
Definition apply_update (node : string) (st : W * ReconciliationResult) (p : PeerConfigLike)
    : W * ReconciliationResult :=
  let '(w, res) := st in
  match remove_peer node p.(pc_public_key) w with
  | (w, Err e) => (w, add_error "update" p.(pc_public_key) e res)
  | (w, Ok _) =>
      match add_peer node p w with
      | (w, Ok _) => (w, mkResult res.(peers_added) res.(peers_removed) (res.(peers_updated) + 1)
                           res.(peers_added_pubkeys) res.(errors))
      | (w, Err e) => (w, add_error "update" p.(pc_public_key) e res)
      end
  end.

Definition apply_diff (settings : Settings) (node : string) (diff : ReconciliationDiff) w
    : W * ReconciliationResult :=
  if settings.(reconciliation_read_only) && negb (diff_empty diff) then (w, empty_result)
  else
    let st := (w, empty_result) in
    let st := if settings.(reconciliation_remove_orphans)
              then foldl (apply_remove node) st diff.(peers_to_remove) else st in
    let st := foldl (apply_add node) st diff.(peers_to_add) in
    foldl (apply_update node) st diff.(peers_to_update).

(** ** One node, all nodes *)

Definition production_error : exn :=
  ValueError ("Reconciliation must not run in production; only node-agent mutates peers. " +:+
              "Set NODE_DISCOVERY=agent.").

(** The live, unsuspended devices of the node's server ids. *)
Definition node_devices (ids : list string) (ds : list Device.t) : list Device.t :=
  filterb (λ d, str_in d.(Device.server_id) ids && is_none d.(Device.revoked_at) &&
                is_none d.(Device.suspended_at)) ds.

Definition db_peer_rows (ds : list Device.t) : list (string * option string * option string) :=
  (λ d, (d.(Device.public_key), Some (strip (default "" d.(Device.allowed_ips))),
         none_if_empty (strip (default "" d.(Device.preshared_key))))) <$>
  filterb (λ d, str_truthy d.(Device.public_key)) ds.

(** The devices whose peer was added again are marked applied. *)
Definition mark_applied (now : Z) (ids : list string) (ds : list Device.t) : list Device.t :=
  (λ d, if str_in d.(Device.id) ids
        then Device.set_apply "APPLIED" (Some now) None d.(Device.unstable_reason) d else d) <$> ds.

(** The optional [ensure_reply_routes] of an adapter is not part of the
    interface and is left out. *)
Definition reconcile_node (settings : Settings) (now : Z) (node_id : string)
    (server_ids : list string) (ds : list Device.t) w
    : W * res (list Device.t * ReconciliationResult) :=
  if String.eqb settings.(environment) "production" then (w, Err production_error)
  else
    let ids := match filterb str_truthy server_ids with [] => [node_id] | l => l end in
    let devs := filterb (λ d, str_truthy d.(Device.public_key)) (node_devices ids ds) in
    let db_peers := db_peer_rows devs in
    let pubkey_to_device_id :=
      dict_of ((λ d, (d.(Device.public_key), d.(Device.id))) <$> devs) in
    match list_peers node_id w with
    | (w, Err e) => (w, Err e)
    | (w, Ok wg_peers) =>
        let diff := compute_diff db_peers wg_peers in
        if diff_empty diff then (w, Ok (ds, empty_result))
        else
          let '(w, result) := apply_diff settings node_id diff w in
          let device_ids_to_update :=
            omap (λ pk, dget pk pubkey_to_device_id) result.(peers_added_pubkeys) in
          (w, Ok (mark_applied now device_ids_to_update ds, result))
    end.

Definition reconcile_all_step (settings : Settings) (now : Z)
    (st : W * list Device.t * list (string * ReconciliationResult)) (node : NodeMetadata)
    : W * list Device.t * list (string * ReconciliationResult) :=
  let '(w, ds, results) := st in
  let nid := node.(node_id) in
  let cname := node.(container_name) in
  let candidate_ids :=
    if str_truthy cname && negb (String.eqb cname nid) then [nid; cname] else [nid] in
  match reconcile_node settings now nid candidate_ids ds w with
  | (w, Ok (ds, result)) => (w, ds, results ++ [(nid, result)])
  | (w, Err e) => (w, ds, results ++ [(nid, mkResult 0 0 0 [] [exn_str e])])
  end.

(** [nodes] is what [discover_nodes()] returned; the error texts are redacted
    before they are stored, which is left out. *)
Definition reconcile_all_nodes (settings : Settings) (now : Z) (nodes : list NodeMetadata)
    (ds : list Device.t) w
    : W * res (list Device.t * list (string * ReconciliationResult)) :=
  if String.eqb settings.(environment) "production" then (w, Err production_error)
  else
    let '(w, ds, results) := foldl (reconcile_all_step settings now) (w, ds, []) nodes in
    (w, Ok (ds, results)).
End apply.

(** One round of the loop: the failures in a row and the seconds slept. *)
Definition reconciliation_loop_step (interval consecutive_failures : Z) (succeeded : bool) : Z * Z :=
  if succeeded then (0, interval)
  else
    let consecutive_failures := consecutive_failures + 1 in
    (consecutive_failures, Z.min (interval * 2 ^ consecutive_failures) 3600).

(** ** The difference is what is missing, extra and misconfigured *)

Lemma desired_NoDup rows : NoDup (dkeys (desired rows)).
Proof.
  unfold desired.
  assert (∀ m, NoDup (dkeys m) → NoDup (dkeys (foldl (λ m r, let '(pk, allowed, psk) := r in
    if str_truthy pk
    then dset pk (strip (default "" allowed), none_if_empty (strip (default "" psk))) m
    else m) m rows))) as Hgen; [|apply Hgen; constructor].
  induction rows as [|[[pk a] psk] rows IH]; intros m Hm; simpl; [done|].
  apply IH. destruct (str_truthy pk); auto with py.
Qed.

Lemma desired_stripped rows pk allowed psk :
  dget pk (desired rows) = Some (allowed, psk) → strip allowed = allowed ∧ pk ≠ "".
Proof.
  unfold desired.
  assert (∀ m, (∀ k a p, dget k m = Some (a, p) → strip a = a ∧ k ≠ "") →
    ∀ k a p, dget k (foldl (λ m r, let '(pk, allowed, psk) := r in
      if str_truthy pk
      then dset pk (strip (default "" allowed), none_if_empty (strip (default "" psk))) m
      else m) m rows) = Some (a, p) → strip a = a ∧ k ≠ "") as Hgen; [|by apply Hgen].
  induction rows as [|[[k0 a0] p0] rows IH]; intros m Hm; simpl; [done|].
  apply IH. destruct (str_truthy k0) eqn:E; [|done]. intros k a p Hk.
  rewrite dget_dset in Hk. case_decide; [|eauto]. simplify_eq.
  split; [apply strip_strip|by apply str_truthy_true].
Qed.

Lemma actual_NoDup wg : NoDup (dkeys (actual wg)).
Proof. apply dict_of_NoDup. Qed.

Lemma actual_key_nonempty wg pk : pk ∈ dkeys (actual wg) → pk ≠ "".
Proof.
  intros Hin ->. unfold actual in Hin. rewrite elem_of_dkeys_dict_of in Hin.
  rewrite <- list_fmap_compose in Hin.
  apply list_elem_of_fmap in Hin as (r & Hr & [Ht _]%elem_of_filterb).
  simpl in Hr. by rewrite <- Hr in Ht.
Qed.

(** The rows of a node's runtime, as a map: one row per key. *)
Definition rows_of (m : gmap string string) (rows : list RuntimePeer) : Prop :=
  ∀ pk v, m !! pk = Some v ↔
    ∃ r, r ∈ rows ∧ r.(rp_public_key) = pk ∧ default "" r.(rp_allowed_ips) = v.

Lemma dget_actual m rows pk :
  rows_of m rows → pk ≠ "" → dget pk (actual rows) = strip <$> m !! pk.
Proof.
  intros Hm Hpk. unfold actual.
  set (l := (λ p, (p.(rp_public_key), _peer_allowed_ips p)) <$>
    filterb (λ p, str_truthy p.(rp_public_key)) rows).
  assert (∀ k v, (k, v) ∈ l → strip <$> m !! k = Some v) as Hl.
  { intros k v (r & [= -> ->] & [_ Hr]%elem_of_filterb)%list_elem_of_fmap.
    assert (m !! r.(rp_public_key) = Some (default "" r.(rp_allowed_ips))) as ->
      by (apply Hm; eauto). done. }
  destruct (dget pk (dict_of l)) as [v|] eqn:E.
  - apply dget_Some_elem, elem_of_dict_of in E. by rewrite (Hl _ _ E).
  - destruct (m !! pk) as [v|] eqn:Ev; [|done]. exfalso.
    apply Hm in Ev as (r & Hr & <- & <-). apply dget_None in E. apply E.
    apply elem_of_dkeys_dict_of. unfold l. rewrite <- list_fmap_compose.
    apply list_elem_of_fmap. exists r. split; [done|]. apply elem_of_filterb.
    split; [by apply str_truthy_true|done].
Qed.

Lemma elem_of_desired_peers (p : string * (string * option string) → bool) m q :
  NoDup (dkeys m) →
  q ∈ desired_peer <$> filterb p m ↔
  ∃ allowed psk, dget q.(pc_public_key) m = Some (allowed, psk) ∧
    p (q.(pc_public_key), (allowed, psk)) = true ∧
    q = mkPeerConfig q.(pc_public_key) (Some allowed) psk 25.
Proof.
  intros Hnd. rewrite list_elem_of_fmap. split.
  - intros ([k [a s]] & -> & [Hp Hin]%elem_of_filterb). simpl. exists a, s.
    split_and!; [by apply elem_dget_Some|done|done].
  - intros (a & s & Hg & Hp & Hq). exists (q.(pc_public_key), (a, s)). split; [exact Hq|].
    apply elem_of_filterb. split; [done|]. by apply dget_Some_elem.
Qed.

Lemma compute_diff_spec db_peers wg m :
  rows_of m wg →
  let diff := compute_diff db_peers wg in
  (∀ q, q ∈ diff.(peers_to_add) ↔ ∃ allowed psk,
     dget q.(pc_public_key) (desired db_peers) = Some (allowed, psk) ∧
     _is_valid_server_allowed_ips allowed = true ∧ m !! q.(pc_public_key) = None ∧
     q = mkPeerConfig q.(pc_public_key) (Some allowed) psk 25) ∧
  (∀ pk, pk ≠ "" → pk ∈ diff.(peers_to_remove) ↔
     dget pk (desired db_peers) = None ∧ is_Some (m !! pk)) ∧
  (∀ q, q ∈ diff.(peers_to_update) ↔ ∃ allowed psk v,
     dget q.(pc_public_key) (desired db_peers) = Some (allowed, psk) ∧
     _is_valid_server_allowed_ips allowed = true ∧ m !! q.(pc_public_key) = Some v ∧
     needs_update (strip v) allowed = true ∧
     q = mkPeerConfig q.(pc_public_key) (Some allowed) psk 25).
Proof.
  intros Hm diff. unfold diff, compute_diff. cbn. split_and!.
  - intros q. rewrite elem_of_desired_peers by apply desired_NoDup. cbn. split.
    + intros (a & s & Hg & Hp & Hq). exists a, s. bools. split_and!; try done.
      rewrite (dget_actual m) in * by (done || by eapply desired_stripped).
      match goal with H : is_none _ = true |- _ => apply is_none_true, fmap_None in H end. done.
    + intros (a & s & Hg & Hv & Hn & Hq). exists a, s. split_and!; try done.
      rewrite (dget_actual m), Hn, Hv by (done || by eapply desired_stripped). done.
  - intros pk Hpk. rewrite elem_of_filterb, is_none_true.
    rewrite <- dget_is_Some, (dget_actual m), fmap_is_Some by done. done.
  - intros q. rewrite elem_of_desired_peers by apply desired_NoDup. cbn. split.
    + intros (a & s & Hg & Hp & Hq).
      rewrite (dget_actual m) in Hp by (done || by eapply desired_stripped).
      destruct (m !! q.(pc_public_key)) as [v|]; simpl in Hp; bools; [|done].
      exists a, s, v. auto.
    + intros (a & s & v & Hg & Hv & Hn & Hu & Hq). exists a, s. split_and!; try done.
      rewrite (dget_actual m), Hn, Hv by (done || by eapply desired_stripped). done.
Qed.

(** C17: the difference is exact.  A peer is added iff it is desired with valid
    addresses and absent; removed iff present and not desired; reapplied iff
    desired with valid addresses and present with no addresses or the default
    route.  Nothing is both added and removed. *)
Theorem compute_diff_exact db_peers wg m :
  rows_of m wg →
  let diff := compute_diff db_peers wg in
  (∀ q, q ∈ diff.(peers_to_add) ↔ ∃ allowed psk,
     dget q.(pc_public_key) (desired db_peers) = Some (allowed, psk) ∧
     _is_valid_server_allowed_ips allowed = true ∧ m !! q.(pc_public_key) = None ∧
     q = mkPeerConfig q.(pc_public_key) (Some allowed) psk 25) ∧
  (∀ pk, pk ≠ "" → pk ∈ diff.(peers_to_remove) ↔
     dget pk (desired db_peers) = None ∧ is_Some (m !! pk)) ∧
  (∀ q, q ∈ diff.(peers_to_update) ↔ ∃ allowed psk v,
     dget q.(pc_public_key) (desired db_peers) = Some (allowed, psk) ∧
     _is_valid_server_allowed_ips allowed = true ∧ m !! q.(pc_public_key) = Some v ∧
     needs_update (strip v) allowed = true ∧
     q = mkPeerConfig q.(pc_public_key) (Some allowed) psk 25).
Proof. apply compute_diff_spec. Qed.

Lemma compute_diff_exact_witness :
  let m : gmap string string := {["k1" := "10.8.1.2/32"; "k9" := "10.8.1.9/32"]} in
  let wg := [mkRuntimePeer "k1" (Some "10.8.1.2/32") None None None;
             mkRuntimePeer "k9" (Some "10.8.1.9/32") None None None] in
  let diff := compute_diff [("k1", Some "10.8.1.2/32", None); ("k2", Some "10.8.1.3/32", None)] wg in
  diff.(peers_to_remove) = ["k9"] ∧
  (mkPeerConfig "k2" (Some "10.8.1.3/32") None 25 ∈ diff.(peers_to_add)).
Proof.
  intros m wg diff. split; [vm_compute; reflexivity|].
  assert (rows_of m wg) as Hm.
  { intros pk v. unfold m. rewrite lookup_insert_Some, lookup_singleton_Some.
    unfold wg. setoid_rewrite elem_of_cons. setoid_rewrite list_elem_of_singleton. split.
    - intros [[<- <-]|[_ [<- <-]]].
      + exists (mkRuntimePeer "k1" (Some "10.8.1.2/32") None None None). auto.
      + exists (mkRuntimePeer "k9" (Some "10.8.1.9/32") None None None). auto.
    - intros (r & [->| ->] & <- & <-); simpl; [by left|right; done]. }
  apply (proj1 (compute_diff_exact [("k1", Some "10.8.1.2/32", None); ("k2", Some "10.8.1.3/32", None)] wg m Hm)).
  exists "10.8.1.3/32", None. repeat split; vm_compute; reflexivity.
Defined.

(** ** Reconciliation converges *)

(** What a node should have for a key after a full reconciliation. *)
Definition reconciled (want : list (string * (string * option string))) (m : gmap string string)
    (pk : string) : option string :=
  match dget pk want with
  | None => None
  | Some (a, _) =>
      if _is_valid_server_allowed_ips a then
        match m !! pk with
        | Some v => if needs_update (strip v) a then Some a else Some v
        | None => Some a
        end
      else m !! pk
  end.

Lemma needs_update_refl a : needs_update a a = false.
Proof. unfold needs_update. by rewrite String.eqb_refl. Qed.

(** A reconciled node has an empty difference. *)
Lemma reconciled_diff_empty db_peers wg m m' :
  rows_of m' wg →
  (∀ pk, pk ≠ "" → m' !! pk = reconciled (desired db_peers) m pk) →
  diff_empty (compute_diff db_peers wg) = true.
Proof.
  intros Hm Hrec.
  assert (∀ k v, (k, v) ∈ desired db_peers → dget k (desired db_peers) = Some v) as Hdes
    by (intros k v; apply elem_dget_Some, desired_NoDup).
  assert (∀ l : list (string * (string * option string)),
    (∀ kv, kv ∈ l → False) → l = []) as Hnil by (intros [|x l] Hl; [done|destruct (Hl x); left]).
  unfold diff_empty, compute_diff. cbn.
  rewrite !bool_decide_true; [done|..].
  - match goal with |- _ <$> ?l = [] => assert (l = []) as ->; [|done] end. apply Hnil. intros [k [a p]] [Hc Hin]%elem_of_filterb. cbn in Hc.
    apply andb_prop in Hc as [Hv Hu]. pose proof (Hdes _ _ Hin) as Hd.
    pose proof (desired_stripped _ _ _ _ Hd) as [Hs Hk].
    rewrite (dget_actual m' wg k Hm Hk), (Hrec k Hk) in Hu. unfold reconciled in Hu.
    rewrite Hd, Hv in Hu.
    destruct (m !! k) as [v|]; [destruct (needs_update (strip v) a) eqn:Eu|]; cbn in Hu;
      rewrite ?Hs, ?needs_update_refl in Hu; congruence.
  - assert (∀ l : list string, (∀ k, k ∈ l → False) → l = []) as Hnil'
      by (intros [|x l] Hl; [done|destruct (Hl x); left]).
    apply Hnil'. intros k [Hc Hin]%elem_of_filterb. apply is_none_true in Hc.
    pose proof (actual_key_nonempty _ _ Hin) as Hk.
    apply dget_is_Some in Hin. rewrite (dget_actual m' wg k Hm Hk), (Hrec k Hk) in Hin.
    unfold reconciled in Hin. rewrite Hc in Hin. by destruct Hin.
  - match goal with |- _ <$> ?l = [] => assert (l = []) as ->; [|done] end. apply Hnil. intros [k [a p]] [Hc Hin]%elem_of_filterb. cbn in Hc.
    apply andb_prop in Hc as [Hu Hv]. pose proof (Hdes _ _ Hin) as Hd.
    pose proof (desired_stripped _ _ _ _ Hd) as [Hs Hk].
    rewrite (dget_actual m' wg k Hm Hk), (Hrec k Hk) in Hu. unfold reconciled in Hu.
    rewrite Hd, Hv in Hu.
    destruct (m !! k) as [v|]; [destruct (needs_update (strip v) a)|]; done.
Qed.

Section converge.
Context {W : Type} `{NodeRuntimeLaws W}.
Context (node : string).
(** The node accepts every call. *)
Context (Hadd : ∀ p w, (add_peer node p w).2 = Ok tt)
        (Hrem : ∀ pk w, (remove_peer node pk w).2 = Ok tt).

Lemma add_ok p (w : W) :
  ∃ w', add_peer node p w = (w', Ok tt) ∧
    peers_at w' node = <[p.(pc_public_key) := default "" p.(pc_allowed_ips)]> (peers_at w node) ∧
    ∀ other, other ≠ node → peers_at w' other = peers_at w other.
Proof using All.
  pose proof (Hadd p w) as Hr. destruct (add_peer node p w) as [w' r] eqn:E. simpl in Hr.
  subst. exists w'. split; [done|]. by eapply add_peer_ok.
Qed.

Lemma rem_ok pk (w : W) :
  ∃ w', remove_peer node pk w = (w', Ok tt) ∧
    peers_at w' node = delete pk (peers_at w node) ∧
    ∀ other, other ≠ node → peers_at w' other = peers_at w other.
Proof using All.
  pose proof (Hrem pk w) as Hr. destruct (remove_peer node pk w) as [w' r] eqn:E. simpl in Hr.
  subst. exists w'. split; [done|]. by eapply remove_peer_ok.
Qed.

Lemma removes_spec l : ∀ (w : W) res,
  let '(w', res') := foldl (apply_remove node) (w, res) l in
  (∀ pk, peers_at w' node !! pk = if decide (pk ∈ l) then None else peers_at w node !! pk) ∧
  (∀ other, other ≠ node → peers_at w' other = peers_at w other) ∧
  res'.(errors) = res.(errors) ∧ res'.(peers_added_pubkeys) = res.(peers_added_pubkeys).
Proof using All.
  induction l as [|k l IH]; intros w res; cbn [foldl]; [done|].
  unfold apply_remove at 2. destruct (rem_ok k w) as (w1 & -> & Hn & Ho).
  specialize (IH w1 (mkResult (peers_added res) (peers_removed res + 1) (peers_updated res)
    (peers_added_pubkeys res) (errors res))).
  destruct (foldl _ _ l) as [w' res']. destruct IH as (Hpk & Hoth & He & Hk).
  split_and!; try done.
  - intros pk. rewrite Hpk, Hn. destruct (decide (pk ∈ l)) as [Hin|Hin].
    { rewrite decide_True; [done|by right]. }
    destruct (decide (pk = k)) as [->|Hne].
    + rewrite lookup_delete_eq, decide_True; [done|left].
    + rewrite lookup_delete_ne, decide_False; [done| |done].
      by intros [?|?]%elem_of_cons.
  - intros other Hne. rewrite Hoth, Ho; done.
Qed.

Lemma adds_spec l : ∀ (w : W) res,
  NoDup (pc_public_key <$> l) →
  let '(w', res') := foldl (apply_add node) (w, res) l in
  (∀ p, p ∈ l → peers_at w' node !! p.(pc_public_key) = Some (default "" p.(pc_allowed_ips))) ∧
  (∀ pk, pk ∉ pc_public_key <$> l → peers_at w' node !! pk = peers_at w node !! pk) ∧
  (∀ other, other ≠ node → peers_at w' other = peers_at w other) ∧
  res'.(errors) = res.(errors) ∧
  res'.(peers_added_pubkeys) = res.(peers_added_pubkeys) ++ (pc_public_key <$> l).
Proof using All.
  induction l as [|p l IH]; intros w res Hnd; cbn [foldl].
  { rewrite app_nil_r. split_and!; try done. intros p Hp. by apply elem_of_nil in Hp. }
  apply NoDup_cons in Hnd as [Hp Hnd].
  unfold apply_add at 2. destruct (add_ok p w) as (w1 & -> & Hn & Ho).
  specialize (IH w1 (mkResult (peers_added res + 1) (peers_removed res) (peers_updated res)
    (peers_added_pubkeys res ++ [p.(pc_public_key)]) (errors res)) Hnd).
  destruct (foldl _ _ l) as [w' res']. destruct IH as (Hin & Hout & Hoth & He & Hk).
  split_and!; try done.
  - intros q [->|Hq]%elem_of_cons; [|by apply Hin]. rewrite (Hout _ Hp), Hn.
    by rewrite lookup_insert_eq.
  - intros pk [Hne Hpk]%not_elem_of_cons. rewrite (Hout _ Hpk), Hn.
    by rewrite lookup_insert_ne.
  - intros other Hne. rewrite Hoth, Ho; done.
  - rewrite Hk. simpl. by rewrite <- app_assoc.
Qed.

Lemma updates_spec l : ∀ (w : W) res,
  NoDup (pc_public_key <$> l) →
  let '(w', res') := foldl (apply_update node) (w, res) l in
  (∀ p, p ∈ l → peers_at w' node !! p.(pc_public_key) = Some (default "" p.(pc_allowed_ips))) ∧
  (∀ pk, pk ∉ pc_public_key <$> l → peers_at w' node !! pk = peers_at w node !! pk) ∧
  (∀ other, other ≠ node → peers_at w' other = peers_at w other) ∧
  res'.(errors) = res.(errors).
Proof using All.
  induction l as [|p l IH]; intros w res Hnd; cbn [foldl].
  { split_and!; try done. intros p Hp. by apply elem_of_nil in Hp. }
  apply NoDup_cons in Hnd as [Hp Hnd].
  unfold apply_update at 2. destruct (rem_ok p.(pc_public_key) w) as (w1 & -> & Hn1 & Ho1).
  destruct (add_ok p w1) as (w2 & -> & Hn & Ho).
  specialize (IH w2 (mkResult (peers_added res) (peers_removed res) (peers_updated res + 1)
    (peers_added_pubkeys res) (errors res)) Hnd).
  destruct (foldl _ _ l) as [w' res']. destruct IH as (Hin & Hout & Hoth & He).
  split_and!; try done.
  - intros q [->|Hq]%elem_of_cons; [|by apply Hin]. rewrite (Hout _ Hp), Hn.
    by rewrite lookup_insert_eq.
  - intros pk [Hne Hpk]%not_elem_of_cons. rewrite (Hout _ Hpk), Hn, Hn1.
    by rewrite lookup_insert_ne, lookup_delete_ne.
  - intros other Hne. rewrite Hoth, Ho, Ho1; done.
Qed.

Lemma desired_peers_keys (p : string * (string * option string) → bool) m :
  NoDup (dkeys m) → NoDup (pc_public_key <$> (desired_peer <$> filterb p m)).
Proof using Type.
  intros Hnd. rewrite <- list_fmap_compose.
  change (NoDup (fst <$> filterb p m)). by apply NoDup_fmap_filterb.
Qed.

(** What a full application of a difference leaves. *)
Lemma apply_diff_spec settings db_peers rows (w w' : W) res :
  rows_of (peers_at w node) rows →
  settings.(reconciliation_read_only) = false →
  settings.(reconciliation_remove_orphans) = true →
  apply_diff settings node (compute_diff db_peers rows) w = (w', res) →
  res.(errors) = [] ∧
  (∀ other, other ≠ node → peers_at w' other = peers_at w other) ∧
  ∀ pk, pk ≠ "" → peers_at w' node !! pk = reconciled (desired db_peers) (peers_at w node) pk.
Proof using All.
  intros Hrows Hro Hor. unfold apply_diff. rewrite Hro, Hor. cbn [andb].
  destruct (compute_diff_spec db_peers rows _ Hrows) as (Ha & Hr & Hu).
  set (diff := compute_diff db_peers rows) in *.
  assert (NoDup (pc_public_key <$> diff.(peers_to_add))) as Hnda
    by (apply desired_peers_keys, desired_NoDup).
  assert (NoDup (pc_public_key <$> diff.(peers_to_update))) as Hndu
    by (apply desired_peers_keys, desired_NoDup).
  pose proof (removes_spec diff.(peers_to_remove) w empty_result) as H1.
  destruct (foldl (apply_remove node) _ _) as [w1 r1]. destruct H1 as (R1 & R2 & R3 & _).
  pose proof (adds_spec diff.(peers_to_add) w1 r1 Hnda) as H2.
  destruct (foldl (apply_add node) _ _) as [w2 r2]. destruct H2 as (A1 & A2 & A3 & A4 & _).
  pose proof (updates_spec diff.(peers_to_update) w2 r2 Hndu) as H3.
  destruct (foldl (apply_update node) _ _) as [w3 r3]. destruct H3 as (U1 & U2 & U3 & U4).
  intros [= <- <-]. split_and!.
  - by rewrite U4, A4, R3.
  - intros other Hne. by rewrite U3, A3, R2.
  - intros pk Hpk. unfold reconciled.
    assert (∀ l : list PeerConfigLike, pk ∈ pc_public_key <$> l → ∃ q, q ∈ l ∧ q.(pc_public_key) = pk) as Hkey.
    { intros l (q & -> & Hq)%list_elem_of_fmap. eauto. }
    destruct (decide (pk ∈ pc_public_key <$> diff.(peers_to_update))) as [Hinu|Hinu].
    { apply Hkey in Hinu as (q & Hq & <-). rewrite (U1 q Hq).
      apply Hu in Hq as (a & ps & v & Hd & Hv & Hm & Hn & ->). cbn in *.
      by rewrite Hd, Hv, Hm, Hn. }
    rewrite (U2 _ Hinu).
    destruct (decide (pk ∈ pc_public_key <$> diff.(peers_to_add))) as [Hina|Hina].
    { apply Hkey in Hina as (q & Hq & <-). rewrite (A1 q Hq).
      apply Ha in Hq as (a & ps & Hd & Hv & Hm & ->). cbn in *. by rewrite Hd, Hv, Hm. }
    rewrite (A2 _ Hina), R1.
    destruct (dget pk (desired db_peers)) as [[a ps]|] eqn:Hd.
    + rewrite decide_False.
      2:{ intros Hin. apply (Hr pk Hpk) in Hin as [? _]. congruence. }
      destruct (_is_valid_server_allowed_ips a) eqn:Hv; [|done].
      destruct (peers_at w node !! pk) as [v|] eqn:Hm.
      * destruct (needs_update (strip v) a) eqn:Hn; [|done]. exfalso. apply Hinu.
        apply list_elem_of_fmap. exists (mkPeerConfig pk (Some a) ps 25). split; [done|].
        apply Hu. exists a, ps, v. cbn. auto.
      * exfalso. apply Hina.
        apply list_elem_of_fmap. exists (mkPeerConfig pk (Some a) ps 25). split; [done|].
        apply Ha. exists a, ps. cbn. auto.
    + destruct (decide (pk ∈ diff.(peers_to_remove))) as [Hin|Hin]; [done|].
      destruct (peers_at w node !! pk) as [v|] eqn:Hm; [|done].
      exfalso. apply Hin. apply (Hr pk Hpk). rewrite Hm. eauto.
Qed.

Lemma mark_applied_rows now applied ids ds :
  db_peer_rows (filterb (λ d, str_truthy d.(Device.public_key))
    (node_devices ids (mark_applied now applied ds))) =
  db_peer_rows (filterb (λ d, str_truthy d.(Device.public_key)) (node_devices ids ds)).
Proof using Type.
  unfold db_peer_rows, node_devices, mark_applied.
  rewrite !filterb_fmap by (intros x; by destruct (str_in (Device.id x) applied)).
  rewrite <- list_fmap_compose. apply list_fmap_ext. intros i x _. cbn.
  by destruct (str_in (Device.id x) applied).
Qed.

(** C2: reconciliation converges.  On a node that accepts every call, with
    orphan removal on and outside the read-only mode, one reconciliation
    reports no error, touches no other node, and leaves every key as the
    database wants it: desired peers present, with their addresses whenever
    they were missing, unset or the default route; undesired ones gone; and a
    second reconciliation finds nothing to do. *)
Theorem reconcile_node_converges settings now server_ids ds ds' (w w' : W) res :
  settings.(reconciliation_read_only) = false →
  settings.(reconciliation_remove_orphans) = true →
  reconcile_node settings now node server_ids ds w = (w', Ok (ds', res)) →
  let ids := match filterb str_truthy server_ids with [] => [node] | l => l end in
  let want := desired (db_peer_rows
    (filterb (λ d, str_truthy d.(Device.public_key)) (node_devices ids ds))) in
  res.(errors) = [] ∧
  (∀ other, other ≠ node → peers_at w' other = peers_at w other) ∧
  (∀ pk, pk ≠ "" → peers_at w' node !! pk = reconciled want (peers_at w node) pk) ∧
  (∀ w2 ds2 res2, reconcile_node settings now node server_ids ds' w' = (w2, Ok (ds2, res2)) →
     res2 = empty_result ∧ ds2 = ds').
Proof using All.
  intros Hro Hor Hrec ids want. unfold reconcile_node in Hrec |- *. fold ids in Hrec |- *.
  destruct (String.eqb settings.(environment) "production"); [done|].
  set (devs := filterb _ (node_devices ids ds)) in *.
  destruct (list_peers node w) as [w1 [rows|e]] eqn:El; [|done].
  pose proof (list_peers_pure _ _ _ _ El) as Hpure.
  pose proof (list_peers_ok _ _ _ _ El) as Hrows0.
  assert (rows_of (peers_at w1 node) rows) as Hrows
    by (intros pk v; rewrite Hpure; apply Hrows0).
  assert (res.(errors) = [] ∧ (∀ other, other ≠ node → peers_at w' other = peers_at w1 other) ∧
    (∀ pk, pk ≠ "" → peers_at w' node !! pk = reconciled want (peers_at w1 node) pk) ∧
    db_peer_rows (filterb (λ d, str_truthy d.(Device.public_key)) (node_devices ids ds')) =
    db_peer_rows devs) as (He & Hoth & Hpk & Hdb).
  { destruct (diff_empty _) eqn:Ed.
    - injection Hrec as <- <- <-. split_and!; try done. intros pk Hk.
      pose proof (compute_diff_spec (db_peer_rows devs) rows _ Hrows) as (Ha & Hr & Hu).
      apply andb_prop in Ed as [[E1 E2]%andb_prop E3].
      apply bool_decide_eq_true in E1, E2, E3. unfold devs in Ha, Hr, Hu. cbn zeta in Ha, Hr, Hu.
      rewrite E1 in Ha. rewrite E2 in Hr.
      rewrite E3 in Hu.
      unfold reconciled. fold want in Ha, Hr, Hu.
      destruct (dget pk want) as [[a ps]|] eqn:Hd.
      + destruct (_is_valid_server_allowed_ips a) eqn:Hv; [|done].
        destruct (peers_at w1 node !! pk) as [v|] eqn:Hm.
        * destruct (needs_update (strip v) a) eqn:Hn; [|done]. exfalso.
          apply (elem_of_nil (mkPeerConfig pk (Some a) ps 25)), Hu. exists a, ps, v. cbn. auto.
        * exfalso. apply (elem_of_nil (mkPeerConfig pk (Some a) ps 25)), Ha.
          exists a, ps. cbn. auto.
      + destruct (peers_at w1 node !! pk) as [v|] eqn:Hm; [|done]. exfalso.
        apply (elem_of_nil pk), (Hr pk Hk). rewrite Hm. eauto.
    - destruct (apply_diff settings node _ w1) as [w3 r3] eqn:Ea.
      injection Hrec as <- <- <-.
      destruct (apply_diff_spec _ _ _ _ _ _ Hrows Hro Hor Ea) as (He & Hoth & Hpk).
      split_and!; try done. apply mark_applied_rows. }
  split_and!; [done| | |].
  - intros other Hne. by rewrite Hoth, Hpure.
  - intros pk Hk. by rewrite Hpk, Hpure.
  - intros w2 ds2 res2. rewrite Hdb.
    destruct (list_peers node w') as [w4 [rows'|e]] eqn:El'; [|done].
    pose proof (list_peers_ok _ _ _ _ El') as Hrows'.
    rewrite (reconciled_diff_empty _ _ _ _ Hrows' Hpk). by intros [= _ <- <-].
Qed.
End converge.

(** The guards hold.  In production, or in read-only mode, reconciling a
    node changes neither the runtime of any node nor a device row, and in
    production it raises. *)
Theorem reconcile_node_guarded {W : Type} `{NodeRuntimeLaws W} settings now node server_ids ds
    (w w' : W) r :
  settings.(environment) = "production" ∨ settings.(reconciliation_read_only) = true →
  reconcile_node settings now node server_ids ds w = (w', r) →
  (∀ n, peers_at w' n = peers_at w n) ∧
  (settings.(environment) = "production" → r = Err production_error) ∧
  (∀ ds' res, r = Ok (ds', res) → ds' = ds ∧ res = empty_result).
Proof.
  intros Hs. unfold reconcile_node.
  destruct (String.eqb_spec settings.(environment) "production") as [Ep|Ep].
  { intros [= <- <-]. split_and!; done. }
  destruct Hs as [|Hro]; [done|].
  destruct (list_peers node w) as [w1 [rows|e]] eqn:El; pose proof (list_peers_pure _ _ _ _ El) as Hp.
  2:{ intros [= <- <-]. split_and!; done. }
  set (diff := compute_diff _ rows). destruct (diff_empty diff) eqn:Ed.
  { intros [= <- <-]. split_and!; try done. by intros ? ? [= -> ->]. }
  unfold apply_diff. rewrite Hro, Ed. simpl. intros [= <- <-].
  split_and!; try done. intros ? ? [= <- <-]. split; [|done].
  unfold mark_applied. rewrite <- (list_fmap_id ds) at 2. apply list_fmap_ext. done.
Qed.

(** ** A concrete node *)

Definition wit_node : steady :=
  mkSteady {["n1" := {["k1" := "0.0.0.0/0"; "k9" := "10.8.1.9/32"]}]}.

Definition wit_devices : list Device.t :=
  [Device.test "d1" "n1" "k1" "10.8.1.2/32"; Device.test "d2" "n1" "k2" "10.8.1.3/32"].

Definition wit_settings : Settings :=
  with_reconciliation "development" false true default_settings.

Definition wit_reconciled : steady * res (list Device.t * ReconciliationResult) :=
  reconcile_node wit_settings 0 "n1" ["n1"] wit_devices wit_node.

Lemma reconcile_node_converges_witness :
  ∃ ds' res, wit_reconciled.2 = Ok (ds', res) ∧
    (res.(peers_added), res.(peers_removed), res.(peers_updated)) = (1, 1, 1) ∧
    res.(errors) = [] ∧
    (∀ other, other ≠ "n1" → steady_peers wit_reconciled.1 other = steady_peers wit_node other).
Proof.
  destruct (wit_reconciled.2) as [[ds' res]|e] eqn:E; [|vm_compute in E; discriminate].
  exists ds', res. split; [reflexivity|]. split.
  { vm_compute in E. injection E as _ <-. reflexivity. }
  assert (∀ p (w : steady), (add_peer "n1" p w).2 = Ok tt) as Ha by reflexivity.
  assert (∀ pk (w : steady), (remove_peer "n1" pk w).2 = Ok tt) as Hr by reflexivity.
  destruct (reconcile_node_converges (peers_at := steady_peers) "n1" Ha Hr wit_settings 0 ["n1"] wit_devices ds' wit_node
    wit_reconciled.1 res eq_refl eq_refl) as (H1 & H2 & _).
  - unfold wit_reconciled in *. rewrite <- E. apply surjective_pairing.
  - split; [exact H1|exact H2].
Defined.

Lemma reconcile_node_guarded_witness :
  let out := reconcile_node (with_reconciliation "production" false true default_settings) 0 "n1"
               ["n1"] wit_devices wit_node in
  out.2 = Err production_error ∧ (∀ n, steady_peers out.1 n = steady_peers wit_node n).
Proof.
  intros out.
  destruct (reconcile_node_guarded (with_reconciliation "production" false true default_settings)
    0 "n1" ["n1"] wit_devices wit_node out.1 out.2 (or_introl eq_refl)
    (surjective_pairing _)) as (H1 & H2 & _).
  split; [apply H2; reflexivity|exact H1].
Defined.
