(* ===== verification/Payments.v ===== *)
(** * Payments ([services/payment_webhook_service.py])

    The payment webhook, the confirmation of a Telegram Stars invoice, the
    invoice itself ([api/v1/bot.py]) and the attachment of a referral, on the
    billing tables.  A request that raises commits nothing.  [clock k] is the
    [k]-th reading of the time while a request is served.  Length and precision
    limits of columns are left out. *)

From S2P Require Import Prelude PyFloat PyStr PyVal Settings Models.
Open Scope Z_scope.

Record billing : Type := mkBilling {
  b_users : list User.t;
  b_servers : list Server.t;
  b_plans : list Plan.t;
  b_subs : list Subscription.t;
  b_payments : list Payment.t;
  b_events : list PaymentEvent.t;
  b_referrals : list Referral.t;
  b_promos : list PromoCode.t;
  b_redemptions : list PromoRedemption.t;
  b_funnel : list FunnelEvent.t
}.

Definition set_subs (l : list Subscription.t) (b : billing) : billing :=
  mkBilling b.(b_users) b.(b_servers) b.(b_plans) l b.(b_payments) b.(b_events)
    b.(b_referrals) b.(b_promos) b.(b_redemptions) b.(b_funnel).
Definition set_payments (l : list Payment.t) (b : billing) : billing :=
  mkBilling b.(b_users) b.(b_servers) b.(b_plans) b.(b_subs) l b.(b_events)
    b.(b_referrals) b.(b_promos) b.(b_redemptions) b.(b_funnel).
Definition add_payment_event (e : PaymentEvent.t) (b : billing) : billing :=
  mkBilling b.(b_users) b.(b_servers) b.(b_plans) b.(b_subs) b.(b_payments) (b.(b_events) ++ [e])
    b.(b_referrals) b.(b_promos) b.(b_redemptions) b.(b_funnel).
Definition set_referrals (l : list Referral.t) (b : billing) : billing :=
  mkBilling b.(b_users) b.(b_servers) b.(b_plans) b.(b_subs) b.(b_payments) b.(b_events)
    l b.(b_promos) b.(b_redemptions) b.(b_funnel).
Definition add_redemption (r : PromoRedemption.t) (b : billing) : billing :=
  mkBilling b.(b_users) b.(b_servers) b.(b_plans) b.(b_subs) b.(b_payments) b.(b_events)
    b.(b_referrals) b.(b_promos) (b.(b_redemptions) ++ [r]) b.(b_funnel).

(** [log_funnel_event] *)
Definition log_funnel_event (event_type : string) (user_id : option Z) (payload : pydict)
    (b : billing) : billing :=
  mkBilling b.(b_users) b.(b_servers) b.(b_plans) b.(b_subs) b.(b_payments) b.(b_events)
    b.(b_referrals) b.(b_promos) b.(b_redemptions)
    (b.(b_funnel) ++ [FunnelEvent.mk event_type user_id payload]).

(** The first row a query returns. *)
Definition first {A} (p : A → bool) (l : list A) : option A := head (filterb p l).

(** Assigning to a loaded row writes it back under its key. *)
Definition put_sub (s : Subscription.t) (l : list Subscription.t) : list Subscription.t :=
  (λ x, if String.eqb x.(Subscription.id) s.(Subscription.id) then s else x) <$> l.
Definition put_payment (p : Payment.t) (l : list Payment.t) : list Payment.t :=
  (λ x, if String.eqb x.(Payment.id) p.(Payment.id) then p else x) <$> l.
Definition put_referral (r : Referral.t) (l : list Referral.t) : list Referral.t :=
  (λ x, if String.eqb x.(Referral.id) r.(Referral.id) then r else x) <$> l.

(** [x if x > now else now], on two readings of the clock. *)
Definition later_of (x now now' : Z) : Z := if now <? x then x else now'.

(** The subscription after a payment for its plan. *)
Definition extend_subscription (now : Z) (plan : Plan.t) (sub : Subscription.t)
    : res Subscription.t :=
  let inactive := negb (String.eqb sub.(Subscription.status) "active") in
  let sub := if inactive then Subscription.activate now sub else sub in
  let base := if inactive then now else later_of sub.(Subscription.valid_until) now now in
  until ← add_days base plan.(Plan.duration_days);
  Ok (Subscription.set_valid_until until sub).

Section payments.
Context (settings : Settings).
Implicit Types (clock : nat → Z) (b : billing).

Definition sub_payload (subscription_id : string) : pydict :=
  [("subscription_id", VStr subscription_id)].

(** The referrer's active subscription that ends last gets the reward. *)
Definition referrer_sub (referrer_user_id : Z) b : option Subscription.t :=
  py_max (λ x y, y.(Subscription.valid_until) <? x.(Subscription.valid_until))
    (filterb (λ s, (s.(Subscription.user_id) =? referrer_user_id) &&
                   String.eqb s.(Subscription.status) "active") b.(b_subs)).

Definition apply_referral clock (user_id : Z) b : res billing :=
  match first (λ r, (r.(Referral.referee_user_id) =? user_id) &&
                    is_none r.(Referral.reward_applied_at)) b.(b_referrals) with
  | None => Ok b
  | Some ref =>
      let reward_days := if ref.(Referral.reward_days) =? 0
                         then settings.(referral_reward_bonus_days)
                         else ref.(Referral.reward_days) in
      if reward_days =? 0 then Ok b
      else
        b ← match referrer_sub ref.(Referral.referrer_user_id) b with
            | None => Ok b
            | Some s =>
                until ← add_days (later_of s.(Subscription.valid_until) (clock 1%nat) (clock 2%nat))
                          reward_days;
                Ok (set_subs (put_sub (Subscription.set_valid_until until s) b.(b_subs)) b)
            end;
        let b := set_referrals (put_referral (Referral.reward (clock 3%nat) ref) b.(b_referrals)) b in
        Ok (log_funnel_event "referral_signup" (Some ref.(Referral.referrer_user_id))
              [("referee_user_id", VInt ref.(Referral.referee_user_id));
               ("reward_applied", VBool true)] b)
  end.

(** [(payload.get("promo_code") or "").strip() or None] *)
Definition promo_code_of (payload : pydict) : res string :=
  match v_or (getv payload "promo_code") (VStr "") with
  | VStr s => Ok (strip s)
  | VBool _ => Err (AttributeError "'bool' object has no attribute 'strip'")
  | VInt _ => Err (AttributeError "'int' object has no attribute 'strip'")
  | VNone => Ok ""
  end.

Definition redeemed (promo : PromoCode.t) (user_id : Z) b : bool :=
  existsb (λ r, String.eqb r.(PromoRedemption.promo_code_id) promo.(PromoCode.id) &&
                (r.(PromoRedemption.user_id) =? user_id)) b.(b_redemptions).

(** [int(promo.value)] of a [Numeric(12, 2)]. *)
Definition whole (hundredths : Z) : Z := Z.quot hundredths 100.

(** [sub] is the loaded row of the paid subscription, with what the referral
    step may have assigned to it. *)
Definition apply_promo clock (payment : Payment.t) (sub_id : string) (payload : pydict) b
    : res billing :=
  code ← promo_code_of payload;
  if negb (str_truthy code) then Ok b
  else
    match first (λ p, String.eqb p.(PromoCode.code) code &&
                      String.eqb p.(PromoCode.status) "active") b.(b_promos),
          first (λ s, String.eqb s.(Subscription.id) sub_id) b.(b_subs) with
    | Some promo, Some sub =>
        if redeemed promo payment.(Payment.user_id) b then Ok b
        else
          let b := add_redemption
                     (PromoRedemption.mk promo.(PromoCode.id) payment.(Payment.user_id)
                        (Some payment.(Payment.id)) (Some payment.(Payment.subscription_id))) b in
          b ← if String.eqb promo.(PromoCode.type) "bonus_days"
              then until ← add_days (later_of sub.(Subscription.valid_until)
                                       (clock 4%nat) (clock 5%nat))
                             (whole promo.(PromoCode.value));
                   Ok (set_subs (put_sub (Subscription.set_valid_until until sub) b.(b_subs)) b)
              else Ok b;
          Ok (log_funnel_event "promo_applied" (Some sub.(Subscription.user_id))
                [("promo_code_id", VStr promo.(PromoCode.id))] b)
    | _, _ => Ok b
    end.

Definition _apply_payment_success_effects clock (payment : Payment.t)
    (payload_for_promo : option pydict) b : res billing :=
  let subscription_id := payment.(Payment.subscription_id) in
  let payload := match payload_for_promo with
                 | Some ((_ :: _) as p) => p
                 | _ => default [] payment.(Payment.webhook_payload)
                 end in
  match first (λ s, String.eqb s.(Subscription.id) subscription_id &&
                    (s.(Subscription.user_id) =? payment.(Payment.user_id))) b.(b_subs) with
  | None => Ok b
  | Some sub =>
      match first (λ p, String.eqb p.(Plan.id) sub.(Subscription.plan_id)) b.(b_plans) with
      | None => Ok b
      | Some plan =>
          sub ← extend_subscription (clock 0%nat) plan sub;
          let b := set_subs (put_sub sub b.(b_subs)) b in
          let user := Some sub.(Subscription.user_id) in
          let b := log_funnel_event "payment" user (sub_payload subscription_id) b in
          let b := log_funnel_event "renewal" user (sub_payload subscription_id) b in
          b ← apply_referral clock payment.(Payment.user_id) b;
          apply_promo clock payment subscription_id payload b
      end
  end.

Definition complete_pending_payment_by_bot clock (payment_id : string) (tg_id : Z)
    (telegram_payment_charge_id : option string) b : res (billing * bool) :=
  match first (λ p, String.eqb p.(Payment.id) payment_id) b.(b_payments) with
  | None => Ok (b, false)
  | Some payment =>
      match first (λ u, u.(User.id) =? payment.(Payment.user_id)) b.(b_users) with
      | None => Err (AttributeError "'NoneType' object has no attribute 'tg_id'")
      | Some user =>
          if negb (user.(User.tg_id) =? tg_id) then Ok (b, false)
          else if String.eqb payment.(Payment.status) "completed" then Ok (b, true)
          else if negb (String.eqb payment.(Payment.status) "pending") then Ok (b, false)
          else
            let payment := Payment.set_status "completed" payment in
            let b := set_payments (put_payment payment b.(b_payments)) b in
            let b := add_payment_event (PaymentEvent.mk payment.(Payment.id) "bot_confirm"
                       [("tg_id", VInt tg_id);
                        ("telegram_payment_charge_id",
                           match telegram_payment_charge_id with
                           | Some c => VStr c | None => VNone end)]) b in
            b ← _apply_payment_success_effects clock payment None b;
            Ok (b, true)
      end
  end.

(** [session.add(payment)] and the flush, under the constraints of the table. *)
Definition insert_payment (p : Payment.t) b : res billing :=
  if existsb (λ q, String.eqb q.(Payment.id) p.(Payment.id)) b.(b_payments) ||
     existsb (λ q, String.eqb q.(Payment.external_id) p.(Payment.external_id)) b.(b_payments) ||
     negb (existsb (λ u, u.(User.id) =? p.(Payment.user_id)) b.(b_users)) ||
     negb (existsb (λ s, String.eqb s.(Subscription.id) p.(Payment.subscription_id)) b.(b_subs))
  then Err (IntegrityError "payments")
  else Ok (set_payments (b.(b_payments) ++ [p]) b).

Definition raw_external_id (payload : pydict) : pyval :=
  v_or (v_or (getv payload "external_id") (getv payload "id")) (getv payload "payment_id").

Definition find_external (external_id : string) b : option Payment.t :=
  first (λ p, String.eqb p.(Payment.external_id) external_id) b.(b_payments).

(** [new_id] is the id the new row gets. *)
Definition process_payment_webhook clock (new_id provider : string) (payload : pydict) b
    : res (billing * string * bool) :=
  let raw := raw_external_id payload in
  if negb (truthy raw) then Err (ValueError "missing external_id")
  else
    let external_id := render raw in
    match find_external external_id b with
    | Some payment =>
        Ok (add_payment_event (PaymentEvent.mk payment.(Payment.id) "webhook_repeat" payload) b,
            payment.(Payment.id), false)
    | None =>
        match getv payload "user_id", getv payload "subscription_id" with
        | VNone, _ | _, VNone => Err (ValueError "missing user_id or subscription_id")
        | raw_user_id, raw_sub_id =>
            user_id ← int_of raw_user_id;
            amount ← parse_decimal (render (getd payload "amount" (VInt 0)));
            let status := str_take 32 (render (getd payload "status" (VStr "completed"))) in
            let currency := str_take 8 (render (getd payload "currency" (VStr "XTR"))) in
            let payment := Payment.mk new_id user_id (render raw_sub_id) provider status amount
                             currency external_id (Some payload) in
            b ← insert_payment payment b;
            let b := add_payment_event (PaymentEvent.mk new_id "webhook_received" payload) b in
            b ← if String.eqb status "completed"
                then _apply_payment_success_effects clock payment (Some payload) b
                else Ok b;
            Ok (b, new_id, true)
        end
    end.

(** ** The webhook route ([api/v1/webhooks.py]) *)

Definition ALLOWED_WEBHOOK_PROVIDERS : list string := ["telegram_stars"; "mock"].

(** What the route answers. *)
Inductive webhook_response : Type :=
| WebhookOk (payment_id : string) (created : bool)
| Rejected (status_code : Z) (message : string)
| Raised (e : exn).

Definition _external_id_from_payload (payload : pydict) : option string :=
  match raw_external_id payload with VNone => None | v => Some (render v) end.

Definition secret_refused (provider : string) (secret_header : option string) : bool :=
  String.eqb provider "telegram_stars" &&
  str_truthy settings.(telegram_stars_webhook_secret) &&
  negb (match secret_header with
        | Some h => str_truthy h && String.eqb h settings.(telegram_stars_webhook_secret)
        | None => false
        end).

(** The body is the decoded JSON object. *)
Definition payment_webhook clock (new_id provider : string) (secret_header : option string)
    (body : pydict) b : billing * webhook_response :=
  if negb (str_in provider ALLOWED_WEBHOOK_PROVIDERS) then
    (b, Raised (HTTPException 400 ("Unknown webhook provider: " +:+ provider)))
  else if secret_refused provider secret_header then
    (b, Raised (HTTPException 401 "Invalid or missing webhook secret"))
  else
    match process_payment_webhook clock new_id provider body b with
    | Ok (b', payment_id, created) => (b', WebhookOk payment_id created)
    | Err (IntegrityError _) =>
        let existing := match _external_id_from_payload body with
                        | Some e => if str_truthy e then find_external e b else None
                        | None => None
                        end in
        match existing with
        | Some p => (b, WebhookOk p.(Payment.id) false)
        | None => (b, Rejected 409 "Duplicate payment; retry or contact support.")
        end
    | Err (ValueError m) =>
        (b, Rejected 400 (if str_truthy m then m else "Invalid webhook payload"))
    | Err e => (b, Raised e)
    end.

(** ** Invoices and referrals ([api/v1/bot.py]) *)

Record CreateInvoiceRequest : Type := mkInvoiceRequest {
  ci_tg_id : Z;
  ci_plan_id : string;
  ci_subscription_id : option string;
  ci_promo_code : option string
}.

Record CreateInvoiceResponse : Type := mkInvoiceResponse {
  ir_payment_id : string;
  ir_title : string;
  ir_description : string;
  ir_star_count : Z;
  ir_server_id : string;
  ir_subscription_id : string;
  ir_free_activation : bool
}.

(** The newest row of a query ordered by [created_at desc]. *)
Definition newest (l : list Subscription.t) : option Subscription.t :=
  py_max (λ x y, y.(Subscription.created_at) <? x.(Subscription.created_at)) l.

(** The subscription an invoice is for. *)
Definition invoice_subscription (now user_id : Z) (body : CreateInvoiceRequest) b
    : option Subscription.t :=
  let of_plan s := (s.(Subscription.user_id) =? user_id) &&
                   String.eqb s.(Subscription.plan_id) body.(ci_plan_id) in
  let sid := ostr_or body.(ci_subscription_id) "" in
  if str_truthy sid then
    first (λ s, String.eqb s.(Subscription.id) sid && (s.(Subscription.user_id) =? user_id))
      b.(b_subs)
  else
    match first (λ s, of_plan s && String.eqb s.(Subscription.status) "active" &&
                      (now <? s.(Subscription.valid_until))) b.(b_subs) with
    | Some s => Some s
    | None => newest (filterb (λ s, of_plan s && String.eqb s.(Subscription.status) "pending")
                        b.(b_subs))
    end.

(** [int(amount)] of a stored amount. *)
Definition int_of_decimal (d : decimal) : res Z :=
  match d with
  | DFin c e => Ok (if 0 <=? e then c * 10 ^ e else Z.quot c (10 ^ (- e)))
  | DInf _ => Err OverflowError
  | DNaN => Err (ValueError "cannot convert NaN to integer")
  end.

Definition invoice_response (payment_id : string) (plan : Plan.t) (server_id sub_id : string)
    (is_free : bool) : CreateInvoiceResponse :=
  mkInvoiceResponse payment_id (if str_truthy plan.(Plan.name) then plan.(Plan.name) else "VPN")
    ("VPN plan, " +:+ str_of_Z plan.(Plan.duration_days) +:+ " days")
    (if is_free then 0 else Z.max 1 (whole plan.(Plan.price_amount))) server_id sub_id is_free.

(** A replayed key returns the payment it created. *)
Definition replayed_invoice (external_id : string) (server_id : string) b
    : res CreateInvoiceResponse :=
  match find_external external_id b with
  | None => Err (IntegrityError "payments")
  | Some existing =>
      match first (λ s, String.eqb s.(Subscription.id) existing.(Payment.subscription_id))
              b.(b_subs) with
      | None => Err (AttributeError "'NoneType' object has no attribute 'plan'")
      | Some sub =>
          match first (λ p, String.eqb p.(Plan.id) sub.(Subscription.plan_id)) b.(b_plans) with
          | None => Err (AttributeError "'NoneType' object has no attribute 'price_amount'")
          | Some plan =>
              is_free ← if String.eqb existing.(Payment.status) "completed"
                        then a ← int_of_decimal existing.(Payment.amount); Ok (a <=? 0)
                        else Ok false;
              Ok (invoice_response existing.(Payment.id) plan server_id sub.(Subscription.id)
                    is_free)
          end
      end
  end.

Definition not_found (detail : string) : exn := HTTPException 404 detail.

Definition create_invoice clock (new_id provider : string) (body : CreateInvoiceRequest)
    (idempotency_key request_id : option string) b : res (billing * CreateInvoiceResponse) :=
  if negb (String.eqb provider "telegram_stars") then
    Err (HTTPException 400 ("Unsupported provider: " +:+ provider))
  else
    match first (λ u, u.(User.tg_id) =? body.(ci_tg_id)) b.(b_users) with
    | None => Err (not_found "User not found")
    | Some user =>
        match first (λ p, String.eqb p.(Plan.id) body.(ci_plan_id)) b.(b_plans) with
        | None => Err (not_found "Plan not found")
        | Some plan =>
            match invoice_subscription (clock 0%nat) user.(User.id) body b with
            | None => Err (not_found "No subscription for this plan")
            | Some sub =>
                match first Server.is_active b.(b_servers) with
                | None => Err (HTTPException 503 "No server available")
                | Some server =>
                    let sid := sub.(Subscription.id) in
                    let external_id :=
                      "bot:" +:+ provider +:+ ":" +:+ str_of_Z user.(User.id) +:+ ":" +:+ sid +:+
                      ":" +:+ ostr_or idempotency_key (ostr_or request_id "none") in
                    let is_free := whole plan.(Plan.price_amount) <=? 0 in
                    let payment := Payment.mk new_id user.(User.id) sid provider
                      (if is_free then "completed" else "pending")
                      (DFin plan.(Plan.price_amount) (-2)) plan.(Plan.price_currency) external_id
                      (match ostr_or body.(ci_promo_code) "" with
                       | "" => None | code => Some [("promo_code", VStr code)] end) in
                    match insert_payment payment b with
                    | Ok b' =>
                        b' ← if is_free && negb (String.eqb sub.(Subscription.status) "active")
                             then until ← add_days (clock 1%nat) plan.(Plan.duration_days);
                                  Ok (set_subs (put_sub (Subscription.set_valid_until until
                                         (Subscription.activate (clock 1%nat) sub)) b'.(b_subs)) b')
                             else Ok b';
                        Ok (b', invoice_response new_id plan server.(Server.id) sid is_free)
                    | Err (IntegrityError _) =>
                        r ← replayed_invoice external_id server.(Server.id) b; Ok (b, r)
                    | Err e => Err e
                    end
                end
            end
        end
    end.

(** [new_id] is the id the new row gets. *)
Definition referral_attach (new_id : string) (tg_id : Z) (referral_code : string) b
    : res (billing * bool) :=
  if negb (str_truthy referral_code) then
    Err (HTTPException 400 "tg_id and referral_code required")
  else
    match py_int (strip referral_code) with
    | None => Err (HTTPException 400 "Invalid referral_code")
    | Some referrer_user_id =>
        match first (λ u, u.(User.tg_id) =? tg_id) b.(b_users) with
        | None => Err (not_found "User not found")
        | Some referee =>
            if referrer_user_id =? referee.(User.id) then
              Err (HTTPException 400 "Cannot refer self")
            else if negb (existsb (λ u, u.(User.id) =? referrer_user_id) b.(b_users)) then
              Err (not_found "Referrer not found")
            else if existsb (λ r, r.(Referral.referee_user_id) =? referee.(User.id)) b.(b_referrals)
            then Ok (b, false)
            else if existsb (λ r, String.eqb r.(Referral.id) new_id) b.(b_referrals) then
              Err (IntegrityError "referrals")
            else
              let r := Referral.mk new_id referrer_user_id referee.(User.id) referral_code
                         "pending" 7 None in
              Ok (log_funnel_event "referral_signup" (Some referee.(User.id))
                    [("referrer_user_id", VInt referrer_user_id)]
                    (set_referrals (b.(b_referrals) ++ [r]) b), true)
        end
    end.

(** ** Histories *)

Inductive billing_op : Type :=
| OpWebhook (clock : nat → Z) (new_id provider : string) (secret : option string) (body : pydict)
| OpInvoice (clock : nat → Z) (new_id provider : string) (body : CreateInvoiceRequest)
    (idempotency_key request_id : option string)
| OpConfirm (clock : nat → Z) (payment_id : string) (tg_id : Z) (charge : option string)
| OpAttach (new_id : string) (tg_id : Z) (referral_code : string).

(** A request that raises leaves the tables as they were. *)
Definition committed {A} (b : billing) (r : res (billing * A)) : billing :=
  match r with Ok (b', _) => b' | Err _ => b end.

Definition billing_step b (op : billing_op) : billing :=
  match op with
  | OpWebhook clock new_id provider secret body =>
      (payment_webhook clock new_id provider secret body b).1
  | OpInvoice clock new_id provider body key rid =>
      committed b (create_invoice clock new_id provider body key rid b)
  | OpConfirm clock payment_id tg_id charge =>
      committed b (complete_pending_payment_by_bot clock payment_id tg_id charge b)
  | OpAttach new_id tg_id code => committed b (referral_attach new_id tg_id code b)
  end.

Definition billing_history b (ops : list billing_op) : billing := foldl billing_step b ops.
End payments.

(** ** What a payment does *)

Lemma first_elem {A} (p : A → bool) l x : first p l = Some x → x ∈ l ∧ p x = true.
Proof.
  unfold first. intros H. assert (x ∈ filterb p l) as Hx.
  { destruct (filterb p l); [done|]. injection H as ->. left. }
  apply elem_of_filterb in Hx. tauto.
Qed.

Lemma first_None {A} (p : A → bool) l : first p l = None ↔ ∀ x, x ∈ l → p x = false.
Proof.
  unfold first. split.
  - intros H x Hx. apply not_true_iff_false. intros Hp.
    assert (x ∈ filterb p l) as Hin by (by apply elem_of_filterb).
    destruct (filterb p l); [by apply elem_of_nil in Hin|done].
  - intros H. destruct (filterb p l) as [|y l'] eqn:E; [done|].
    assert (y ∈ filterb p l) as [Hp Hy]%elem_of_filterb by (rewrite E; left).
    by rewrite H in Hp.
Qed.

Lemma first_app_l {A} (p : A → bool) l k x : first p l = Some x → first p (l ++ k) = Some x.
Proof.
  unfold first. rewrite filter_app. by destruct (filter _ l); intros [= ->].
Qed.

Lemma put_sub_ids s l : Subscription.id <$> put_sub s l = Subscription.id <$> l.
Proof.
  unfold put_sub. rewrite <- list_fmap_compose. apply list_fmap_ext. intros _ x _. simpl.
  destruct (String.eqb_spec (Subscription.id x) (Subscription.id s)); congruence.
Qed.

Lemma put_referral_ids s l : Referral.id <$> put_referral s l = Referral.id <$> l.
Proof.
  unfold put_referral. rewrite <- list_fmap_compose. apply list_fmap_ext. intros _ x _. simpl.
  destruct (String.eqb_spec (Referral.id x) (Referral.id s)); congruence.
Qed.

(** Kinds of funnel events. *)
Definition is_paid (e : FunnelEvent.t) : bool := String.eqb e.(FunnelEvent.event_type) "payment".
Definition is_reward (e : FunnelEvent.t) : bool :=
  String.eqb e.(FunnelEvent.event_type) "referral_signup" &&
  truthy (getv e.(FunnelEvent.payload) "reward_applied").
Definition is_promo (e : FunnelEvent.t) : bool :=
  String.eqb e.(FunnelEvent.event_type) "promo_applied".
Definition completed (p : Payment.t) : bool := String.eqb p.(Payment.status) "completed".
Definition rewarded (r : Referral.t) : bool := is_some r.(Referral.reward_applied_at).
Definition redemption_key (r : PromoRedemption.t) : string * Z :=
  (r.(PromoRedemption.promo_code_id), r.(PromoRedemption.user_id)).

(** The books of referrals and promo codes balance: every reward and every
    redemption was given once. *)
Record balanced (b : billing) : Prop := {
  bal_refs : NoDup (Referral.id <$> b.(b_referrals));
  bal_rewards : countZ is_reward b.(b_funnel) = countZ rewarded b.(b_referrals);
  bal_redemptions : NoDup (redemption_key <$> b.(b_redemptions));
  bal_promos : countZ is_promo b.(b_funnel) = Z.of_nat (length b.(b_redemptions))
}.

(** What was given is never given back. *)
Definition grown (b b' : billing) : Prop :=
  (∀ r, r ∈ b.(b_referrals) → rewarded r = true → r ∈ b'.(b_referrals)) ∧
  b.(b_redemptions) `prefix_of` b'.(b_redemptions).

(** The effect of a step that touches no payment: the books stay balanced, and
    [n] payments are logged. *)
Definition effect (n : Z) (b b' : billing) : Prop :=
  b'.(b_payments) = b.(b_payments) ∧ b'.(b_users) = b.(b_users) ∧
  countZ is_paid b'.(b_funnel) = countZ is_paid b.(b_funnel) + n ∧
  (balanced b → balanced b' ∧ grown b b').

Lemma grown_refl b : grown b b.
Proof. by split. Qed.

Lemma grown_trans b1 b2 b3 : grown b1 b2 → grown b2 b3 → grown b1 b3.
Proof. intros [H1 P1] [H2 P2]. split; [auto|by etrans]. Qed.

Lemma effect_refl b : effect 0 b b.
Proof. split_and!; [done|done|lia|]. intros. split; [done|apply grown_refl]. Qed.

Lemma effect_trans n m b1 b2 b3 : effect n b1 b2 → effect m b2 b3 → effect (n + m) b1 b3.
Proof.
  intros (P1 & U1 & C1 & B1) (P2 & U2 & C2 & B2). split_and!; [congruence|congruence|lia|].
  intros H. destruct (B1 H) as [H2 G1], (B2 H2) as [H3 G2].
  split; [done|by eapply grown_trans].
Qed.

Lemma effect_set_subs l b : effect 0 b (set_subs l b).
Proof.
  split_and!; [done|done|simpl; lia|]. intros []. split; [by constructor|by split].
Qed.

Lemma effect_log ev u pl b n :
  (if is_paid (FunnelEvent.mk ev u pl) then n = 1 else n = 0) →
  is_reward (FunnelEvent.mk ev u pl) = false → is_promo (FunnelEvent.mk ev u pl) = false →
  effect n b (log_funnel_event ev u pl b).
Proof.
  intros Hn Hr Hp. unfold log_funnel_event.
  split_and!; [done|done| |].
  - cbn [b_funnel]. rewrite countZ_app, countZ_cons, countZ_nil. destruct (is_paid _); lia.
  - intros []. split; [|by split]. constructor; cbn [b_funnel b_referrals b_redemptions]; try done.
    + rewrite countZ_app, countZ_cons, countZ_nil, Hr. lia.
    + rewrite countZ_app, countZ_cons, countZ_nil, Hp. lia.
Qed.

(** ** The referral and promo steps *)

Section effects.
Context (settings : Settings).

Lemma put_referral_absent r l :
  Referral.id r ∉ Referral.id <$> l → put_referral r l = l.
Proof.
  intros H. unfold put_referral. rewrite <- (list_fmap_id l) at 2.
  apply list_fmap_ext. intros i x Hx%list_elem_of_lookup_2. unfold id.
  destruct (String.eqb_spec (Referral.id x) (Referral.id r)) as [E|]; [|done].
  exfalso. apply H. rewrite <- E. by apply list_elem_of_fmap_2.
Qed.

Lemma countZ_put_reward ref at_ l :
  NoDup (Referral.id <$> l) → ref ∈ l → rewarded ref = false →
  countZ rewarded (put_referral (Referral.reward at_ ref) l) = countZ rewarded l + 1.
Proof.
  induction l as [|x l IH]; intros Hnd Hin Hr; [by apply elem_of_nil in Hin|].
  rewrite fmap_cons in Hnd. apply NoDup_cons in Hnd as [Hx Hnd].
  change (put_referral ?r (x :: l)) with
    ((if String.eqb (Referral.id x) (Referral.id ref) then r else x) :: put_referral r l).
  rewrite !countZ_cons. destruct (String.eqb_spec (Referral.id x) (Referral.id ref)) as [E|E].
  - assert (x = ref) as ->.
    { apply elem_of_cons in Hin as [->|Hin]; [done|]. exfalso. apply Hx. rewrite E.
      by apply list_elem_of_fmap_2. }
    rewrite Hr, put_referral_absent by done. simpl. lia.
  - apply elem_of_cons in Hin as [->|Hin]; [congruence|]. rewrite IH by done. lia.
Qed.

Lemma put_reward_keeps ref at_ l r :
  NoDup (Referral.id <$> l) → ref ∈ l → rewarded ref = false →
  r ∈ l → rewarded r = true → r ∈ put_referral (Referral.reward at_ ref) l.
Proof.
  intros Hnd Hin Hr Hrl Hrr. unfold put_referral. apply list_elem_of_fmap. exists r.
  split; [|done]. simpl Referral.id. destruct (String.eqb_spec (Referral.id r) (Referral.id ref)); [|done].
  assert (r = ref) as -> by (by eapply (NoDup_fmap_inj Referral.id l)). congruence.
Qed.

Lemma effect_reward ref at_ u pl b :
  ref ∈ b.(b_referrals) → rewarded ref = false → truthy (getv pl "reward_applied") = true →
  effect 0 b (log_funnel_event "referral_signup" u pl
                (set_referrals (put_referral (Referral.reward at_ ref) b.(b_referrals)) b)).
Proof.
  intros Hin Hr Hpl. split_and!; [done|done| |].
  - cbn [b_funnel log_funnel_event set_referrals]. rewrite countZ_app, countZ_cons, countZ_nil.
    cbn. lia.
  - intros []. split.
    + constructor; cbn [b_funnel b_referrals b_redemptions log_funnel_event set_referrals];
        [by rewrite put_referral_ids| |done|].
      * rewrite countZ_app, countZ_cons, countZ_nil, countZ_put_reward by done.
        unfold is_reward at 2. cbn [FunnelEvent.event_type FunnelEvent.payload].
        rewrite Hpl. simpl. lia.
      * rewrite countZ_app, countZ_cons, countZ_nil. cbn. lia.
    + split; [|done]. intros r Hrl Hrr. by apply put_reward_keeps.
Qed.

Lemma apply_referral_effect clock uid b b' :
  apply_referral settings clock uid b = Ok b' → effect 0 b b'.
Proof.
  unfold apply_referral. destruct (first _ _) as [ref|] eqn:Ef; [|intros [= <-]; apply effect_refl].
  apply first_elem in Ef as [Hin Hp]. bools.
  match goal with H : is_none _ = true |- _ => apply is_none_true in H end.
  cbv zeta. destruct (_ =? 0); [intros [= <-]; apply effect_refl|].
  intros (b1 & H1 & [= <-])%res_bind_ok.
  assert (effect 0 b b1 ∧ b_referrals b1 = b_referrals b) as [He Hr].
  { destruct (referrer_sub _ _); [|by injection H1 as <-; auto using effect_refl].
    apply res_bind_ok in H1 as (until & _ & [= <-]). auto using effect_set_subs. }
  apply (effect_trans 0 0 _ b1); [done|]. apply effect_reward; [by rewrite Hr| |done].
  unfold rewarded. by match goal with H : _ = None |- _ => rewrite H end.
Qed.

Lemma effect_promo r uid pl b :
  redemption_key r ∉ redemption_key <$> b.(b_redemptions) →
  effect 0 b (log_funnel_event "promo_applied" uid pl (add_redemption r b)).
Proof.
  intros Hnew. split_and!; [done|done| |].
  - cbn [b_funnel log_funnel_event add_redemption]. rewrite countZ_app, countZ_cons, countZ_nil.
    cbn. lia.
  - intros []. split; [constructor|].
    + done.
    + cbn [b_funnel b_referrals log_funnel_event add_redemption].
      rewrite countZ_app, countZ_cons, countZ_nil. cbn. lia.
    + cbn. rewrite fmap_app. apply NoDup_app. split_and!; [done| |apply NoDup_singleton].
      intros k Hk. cbn. by intros ->%list_elem_of_singleton.
    + cbn [b_funnel b_redemptions log_funnel_event add_redemption].
      rewrite countZ_app, countZ_cons, countZ_nil, length_app. cbn. lia.
    + split; [done|]. cbn. by eexists.
Qed.

Lemma apply_promo_effect clock payment sid pl b b' :
  apply_promo clock payment sid pl b = Ok b' → effect 0 b b'.
Proof.
  unfold apply_promo. intros (code & _ & H)%res_bind_ok.
  destruct (negb _); [injection H as <-; apply effect_refl|].
  destruct (first _ (b_promos b)) as [promo|]; [|injection H as <-; apply effect_refl].
  destruct (first _ (b_subs b)) as [sub|]; [|injection H as <-; apply effect_refl].
  destruct (redeemed _ _ _) eqn:Er; [injection H as <-; apply effect_refl|]. cbv zeta in H.
  apply res_bind_ok in H as (b1 & H1 & [= <-]).
  match type of H1 with context [add_redemption ?r b] =>
    assert (redemption_key r ∉ redemption_key <$> b_redemptions b) as Hnew end.
  { intros (r & E & Hr)%list_elem_of_fmap. unfold redeemed in Er.
    apply not_true_iff_false in Er. apply Er, existsb_exists. exists r.
    split; [by apply list_elem_of_In|]. unfold redemption_key in E. cbn in E. injection E as -> ->.
    by rewrite String.eqb_refl, Z.eqb_refl. }
  destruct (String.eqb _ "bonus_days"); [|injection H1 as <-; by apply effect_promo].
  apply res_bind_ok in H1 as (until & _ & [= <-]).
  match goal with |- effect 0 b (log_funnel_event ?e ?u ?p (set_subs ?l ?x)) =>
    change (effect 0 b (set_subs l (log_funnel_event e u p x))) end.
  eapply (effect_trans 0 0); [by apply effect_promo|apply effect_set_subs].
Qed.

Lemma success_effects clock payment pl b b' :
  _apply_payment_success_effects settings clock payment pl b = Ok b' →
  ∃ n, 0 ≤ n ≤ 1 ∧ effect n b b'.
Proof.
  unfold _apply_payment_success_effects. cbv zeta.
  destruct (first _ (b_subs b)) as [sub|]; [|intros [= <-]; exists 0; split; [lia|apply effect_refl]].
  destruct (first _ (b_plans b)) as [plan|]; [|intros [= <-]; exists 0; split; [lia|apply effect_refl]].
  intros (sub' & _ & (b1 & H1 & H2)%res_bind_ok)%res_bind_ok. exists 1. split; [lia|].
  apply apply_referral_effect in H1. apply apply_promo_effect in H2.
  apply (effect_trans 1 0 _ b1); [|done]. eapply (effect_trans 1 0); [|exact H1].
  eapply (effect_trans 1 0); [|by apply effect_log]. eapply (effect_trans 0 1); [|by apply effect_log].
  apply effect_set_subs.
Qed.

(** ** The ledger over a history *)

(** Every payment is counted once: ids and external ids are unique, and no more
    payments took effect than are completed. *)
Record ledger (b : billing) : Prop := {
  led_ids : NoDup (Payment.id <$> b.(b_payments));
  led_ext : NoDup (Payment.external_id <$> b.(b_payments));
  led_paid : countZ is_paid b.(b_funnel) ≤ countZ completed b.(b_payments);
  led_balanced : balanced b
}.

(** A payment keeps its identity, and once completed stays so. *)
Definition settles (p p' : Payment.t) : Prop :=
  p'.(Payment.id) = p.(Payment.id) ∧ p'.(Payment.external_id) = p.(Payment.external_id) ∧
  p'.(Payment.user_id) = p.(Payment.user_id) ∧
  p'.(Payment.subscription_id) = p.(Payment.subscription_id) ∧
  (completed p = true → p' = p).

Definition advanced (b b' : billing) : Prop :=
  grown b b' ∧ ∀ i p, b.(b_payments) !! i = Some p →
                 ∃ p', b'.(b_payments) !! i = Some p' ∧ settles p p'.

Lemma settles_refl p : settles p p.
Proof. by split_and!. Qed.

Lemma advanced_refl b : advanced b b.
Proof. split; [apply grown_refl|]. eauto using settles_refl. Qed.

Lemma advanced_trans b1 b2 b3 : advanced b1 b2 → advanced b2 b3 → advanced b1 b3.
Proof.
  intros [G1 P1] [G2 P2]. split; [by eapply grown_trans|]. intros i p Hp.
  destruct (P1 i p Hp) as (p2 & Hp2 & I2 & E2 & U2 & S2 & C2).
  destruct (P2 i p2 Hp2) as (p3 & Hp3 & I3 & E3 & U3 & S3 & C3).
  exists p3. split; [done|]. split_and!; try congruence.
  intros Hc. pose proof (C2 Hc) as ->. by rewrite C3.
Qed.

Lemma insert_payment_spec p b b' :
  insert_payment p b = Ok b' →
  b' = set_payments (b.(b_payments) ++ [p]) b ∧
  (p.(Payment.id) ∉ Payment.id <$> b.(b_payments)) ∧
  (p.(Payment.external_id) ∉ Payment.external_id <$> b.(b_payments)).
Proof.
  unfold insert_payment. destruct (_ || _) eqn:E; [done|]. intros [= <-]. bools.
  split; [done|]. split; intros (q & Hq & Hin)%list_elem_of_fmap;
    match goal with H : existsb ?f _ = false |- _ =>
      assert (f q = false) as Hf; [|by rewrite Hq, String.eqb_refl in Hf];
      apply not_true_iff_false; intros Ht; apply not_true_iff_false in H;
      apply H, existsb_exists; exists q; by rewrite <- list_elem_of_In end.
Qed.

Lemma effect_event e b : effect 0 b (add_payment_event e b).
Proof. split_and!; [done|done|simpl; lia|]. intros []. split; [by constructor|by split]. Qed.

Lemma ledger_insert p b b' n :
  ledger b → p.(Payment.id) ∉ Payment.id <$> b.(b_payments) →
  p.(Payment.external_id) ∉ Payment.external_id <$> b.(b_payments) →
  effect n (set_payments (b.(b_payments) ++ [p]) b) b' →
  n ≤ (if completed p then 1 else 0) → ledger b' ∧ advanced b b'.
Proof.
  intros [Hid Hext Hp [? ? ? ?]] Hi He (Pe & _ & Ce & Be) Hn. cbn in Pe, Ce.
  destruct Be as [Hbal Hg]; [by constructor|]. split; [constructor|].
  - rewrite Pe, fmap_app. apply NoDup_app. split_and!; [done| |apply NoDup_singleton].
    intros x Hx ->%list_elem_of_singleton. done.
  - rewrite Pe, fmap_app. apply NoDup_app. split_and!; [done| |apply NoDup_singleton].
    intros x Hx ->%list_elem_of_singleton. done.
  - rewrite Pe, countZ_app, countZ_cons, countZ_nil. lia.
  - done.
  - split; [done|]. intros i q Hq. exists q. split; [|apply settles_refl].
    rewrite Pe. by apply lookup_app_l_Some.
Qed.

Lemma put_payment_lookup p l i q :
  NoDup (Payment.id <$> l) → p.(Payment.status) = "pending" → p ∈ l → l !! i = Some q →
  ∃ q', put_payment (Payment.set_status "completed" p) l !! i = Some q' ∧ settles q q'.
Proof.
  intros Hnd Hst Hin Hq. unfold put_payment. rewrite list_lookup_fmap, Hq. eexists. split; [done|].
  simpl Payment.id. destruct (String.eqb_spec (Payment.id q) (Payment.id p)) as [E|E];
    [|apply settles_refl].
  assert (q = p) as ->.
  { apply list_elem_of_lookup_2 in Hq. by eapply (NoDup_fmap_inj Payment.id l). }
  split_and!; try done. unfold completed. by rewrite Hst.
Qed.

Lemma countZ_put_completed p l :
  p ∈ l → p.(Payment.status) = "pending" →
  countZ completed l + 1 ≤ countZ completed (put_payment (Payment.set_status "completed" p) l).
Proof.
  assert (∀ k, countZ completed k
    ≤ countZ completed (put_payment (Payment.set_status "completed" p) k)) as Hle.
  { induction k as [|x k IH]; [done|]. unfold put_payment in *. rewrite fmap_cons, !countZ_cons.
    simpl Payment.id in *. destruct (String.eqb _ _); [|lia]. cbn [completed]. simpl.
    destruct (completed x); lia. }
  intros Hin Hst. induction l as [|x l IH]; [by apply elem_of_nil in Hin|].
  change (put_payment ?r (x :: l)) with
    ((if String.eqb (Payment.id x) (Payment.id p) then r else x) :: put_payment r l).
  rewrite !countZ_cons. apply elem_of_cons in Hin as [<-|Hin].
  - rewrite String.eqb_refl. pose proof (Hle l). unfold completed at 1 3. rewrite Hst. simpl. lia.
  - specialize (IH Hin). destruct (String.eqb _ _); simpl; destruct (completed x); lia.
Qed.

Lemma put_payment_map {B} (f : Payment.t → B) p l :
  (∀ q, q ∈ l → Payment.id q = Payment.id p → f p = f q) →
  f <$> put_payment p l = f <$> l.
Proof.
  intros H. unfold put_payment. rewrite <- list_fmap_compose. apply list_fmap_ext.
  intros i x Hx%list_elem_of_lookup_2. simpl.
  destruct (String.eqb_spec (Payment.id x) (Payment.id p)); auto.
Qed.

Lemma ledger_complete p b b' n :
  ledger b → p ∈ b.(b_payments) → p.(Payment.status) = "pending" → n ≤ 1 →
  effect n (set_payments (put_payment (Payment.set_status "completed" p) b.(b_payments)) b) b' →
  ledger b' ∧ advanced b b'.
Proof.
  intros [Hid Hext Hp [? ? ? ?]] Hin Hst Hn (Pe & _ & Ce & Be). cbn in Pe, Ce.
  destruct Be as [Hbal Hg]; [by constructor|].
  assert (∀ q, q ∈ b_payments b → Payment.id q = Payment.id p → q = p) as Hinj.
  { intros q Hq E. by eapply (NoDup_fmap_inj Payment.id (b_payments b)). }
  split; [constructor|].
  - rewrite Pe, put_payment_map; [done|]. intros q Hq E. simpl in *. congruence.
  - rewrite Pe, put_payment_map; [done|]. intros q Hq E. simpl in *. by rewrite (Hinj q Hq E).
  - rewrite Pe. pose proof (countZ_put_completed p _ Hin Hst). lia.
  - done.
  - split; [done|]. intros i q Hq. rewrite Pe. by apply put_payment_lookup.
Qed.

Lemma webhook_ledger clock new_id provider pl b b' pid c :
  ledger b → process_payment_webhook settings clock new_id provider pl b = Ok (b', pid, c) →
  ledger b' ∧ advanced b b'.
Proof.
  intros Hl. unfold process_payment_webhook. cbv zeta.
  destruct (truthy (raw_external_id pl)) eqn:Et; [|done]. cbn [negb].
  destruct (find_external _ b) as [q|] eqn:Eq.
  { intros [= <- <- <-]. destruct Hl as [? ? ? []]. split; [by repeat constructor|].
    split; [by split|]. eauto using settles_refl. }
  intros H.
  assert (∃ uid sid a st cur, insert_payment (Payment.mk new_id uid sid provider st a cur
      (render (raw_external_id pl)) (Some pl)) b ≫= (λ b1,
      b2 ← (if String.eqb st "completed"
            then _apply_payment_success_effects settings clock (Payment.mk new_id uid sid provider
                   st a cur (render (raw_external_id pl)) (Some pl)) (Some pl)
                   (add_payment_event (PaymentEvent.mk new_id "webhook_received" pl) b1)
            else Ok (add_payment_event (PaymentEvent.mk new_id "webhook_received" pl) b1));
      Ok b2) = Ok b') as (uid & sid & a & st & cur & Hi).
  { destruct (getv pl "user_id"), (getv pl "subscription_id"); try done;
      apply res_bind_ok in H as (uid & _ & (a & _ & (bx & Hb1 & (by_ & Hb2 & [= <- _ _])%res_bind_ok)%res_bind_ok)%res_bind_ok);
      do 5 eexists; apply res_bind_ok; exists bx; (split; [exact Hb1|]);
      apply res_bind_ok; exists by_; (split; [exact Hb2|done]). }
  apply res_bind_ok in Hi as (b1 & (-> & Hn1 & Hn2)%insert_payment_spec & (b2 & H2 & [= <-])%res_bind_ok).
  destruct (String.eqb st "completed") eqn:Est.
  - apply success_effects in H2 as (n & Hn & He).
    eapply ledger_insert; [done|done|done|..].
    + eapply (effect_trans 0 n); [apply effect_event|exact He].
    + unfold completed. cbn [Payment.status]. rewrite Est. lia.
  - injection H2 as <-. eapply ledger_insert; [done|done|done|apply effect_event|].
    destruct (completed _); lia.
Qed.

Lemma confirm_ledger clock pid tg charge b b' r :
  ledger b → complete_pending_payment_by_bot settings clock pid tg charge b = Ok (b', r) →
  ledger b' ∧ advanced b b'.
Proof.
  intros Hl. unfold complete_pending_payment_by_bot.
  destruct (first _ (b_payments b)) as [p|] eqn:Ep; [|intros [= <- _]; auto using advanced_refl].
  destruct (first _ (b_users b)) as [u|]; [|done].
  destruct (negb _); [intros [= <- _]; auto using advanced_refl|].
  destruct (String.eqb_spec (Payment.status p) "completed");
    [intros [= <- _]; auto using advanced_refl|].
  destruct (String.eqb_spec (Payment.status p) "pending") as [Hst|]; cbn [negb];
    [|intros [= <- _]; auto using advanced_refl].
  cbv zeta. intros (b1 & (k & Hk & He)%success_effects & [= <- _])%res_bind_ok.
  apply first_elem in Ep as [Hin _]. apply (ledger_complete p b b1 k Hl Hin Hst); [lia|].
  eapply (effect_trans 0 k); [apply effect_event|exact He].
Qed.

Lemma invoice_ledger clock new_id provider body key rid b b' r :
  ledger b → create_invoice clock new_id provider body key rid b = Ok (b', r) →
  ledger b' ∧ advanced b b'.
Proof.
  intros Hl. unfold create_invoice. destruct (negb _); [done|].
  destruct (first _ (b_users b)) as [u|]; [|done].
  destruct (first _ (b_plans b)) as [plan|]; [|done].
  destruct (invoice_subscription _ _ _ _) as [sub|]; [|done].
  destruct (first _ (b_servers b)) as [srv|]; [|done]. cbv zeta.
  destruct (insert_payment _ b) as [b1|e] eqn:Ei.
  - apply insert_payment_spec in Ei as (-> & Hn1 & Hn2).
    intros (b2 & H2 & [= <- _])%res_bind_ok.
    eapply (ledger_insert _ b b2 0); [done|exact Hn1|exact Hn2| |destruct (completed _); lia].
    destruct (_ && _); [|injection H2 as <-; apply effect_refl].
    apply res_bind_ok in H2 as (until & _ & [= <-]). apply effect_set_subs.
  - destruct e; try done. intros (r' & _ & [= <- _])%res_bind_ok. auto using advanced_refl.
Qed.

Lemma attach_ledger new_id tg code b b' r :
  ledger b → referral_attach new_id tg code b = Ok (b', r) → ledger b' ∧ advanced b b'.
Proof.
  intros [? ? ? [Hr Hw Hd Hm]]. unfold referral_attach. destruct (negb _); [done|].
  destruct (py_int _) as [rid|]; [|done].
  destruct (first _ _) as [u|]; [|done]. destruct (_ =? _); [done|]. destruct (negb _); [done|].
  destruct (existsb _ _); [intros [= <- _]; split; [by repeat constructor|apply advanced_refl]|].
  destruct (existsb _ _) eqn:E; [done|]. intros [= <- _].
  split; [constructor; try done|split; [split; [|done]|eauto using settles_refl]].
  - cbn. rewrite countZ_app, countZ_cons, countZ_nil. cbn. lia.
  - constructor; cbn [b_referrals b_funnel b_redemptions log_funnel_event set_referrals];
      [|by rewrite !countZ_app, !countZ_cons, !countZ_nil, Hw|done|].
    + rewrite fmap_app. apply NoDup_app. split_and!; [done| |apply NoDup_singleton].
      intros x (q & -> & Hq)%list_elem_of_fmap Hx%list_elem_of_singleton. cbn in Hx.
      apply not_true_iff_false in E. apply E, existsb_exists. exists q.
      rewrite Hx, String.eqb_refl. by rewrite <- list_elem_of_In.
    + rewrite countZ_app, countZ_cons, countZ_nil, Hm. cbn. lia.
  - intros q Hq _. cbn. apply elem_of_app. by left.
Qed.

Lemma billing_step_ledger b op :
  ledger b → ledger (billing_step settings b op) ∧ advanced b (billing_step settings b op).
Proof.
  intros Hl. destruct op as [clock nid pr sec body|clock nid pr body key rid|clock pid tg ch|nid tg code];
    cbn [billing_step committed].
  - unfold payment_webhook. destruct (negb _); [auto using advanced_refl|].
    destruct (secret_refused _ _ _); [auto using advanced_refl|].
    destruct (process_payment_webhook _ _ _ _ _ _) as [[[b' pid] c]|e] eqn:E.
    + by eapply webhook_ledger.
    + cbv zeta. repeat case_match; cbn [fst]; auto using advanced_refl.
  - destruct (create_invoice _ _ _ _ _ _ _) as [[b' r]|] eqn:E; cbn [committed];
      [by eapply invoice_ledger|auto using advanced_refl].
  - destruct (complete_pending_payment_by_bot _ _ _ _ _ _) as [[b' r]|] eqn:E; cbn [committed];
      [by eapply confirm_ledger|auto using advanced_refl].
  - destruct (referral_attach _ _ _ _) as [[b' r]|] eqn:E; cbn [committed];
      [by eapply attach_ledger|auto using advanced_refl].
Qed.

Lemma ledger_history b ops :
  ledger b →
  ledger (billing_history settings b ops) ∧ advanced b (billing_history settings b ops).
Proof.
  revert b. unfold billing_history. induction ops as [|op ops IH]; intros b Hl; simpl.
  - auto using advanced_refl.
  - destruct (billing_step_ledger b op Hl) as [Hl1 Ha]. destruct (IH _ Hl1) as [Hl2 Ha2].
    split; [done|by eapply advanced_trans].
Qed.

(** Whatever requests arrive in whatever order (webhooks and their replays,
    invoices, confirmations, referrals), money is accounted for once: payment
    ids and external ids stay unique, no more payments take effect than are
    completed, a completed payment never changes again, each referral is
    rewarded at most once, and no user redeems a promo code twice. *)
Theorem billing_history_ledger b ops :
  ledger b →
  ledger (billing_history settings b ops) ∧ advanced b (billing_history settings b ops).
Proof. apply ledger_history. Qed.

Lemma find_external_unique p b :
  NoDup (Payment.external_id <$> b.(b_payments)) → p ∈ b.(b_payments) →
  find_external p.(Payment.external_id) b = Some p.
Proof.
  intros Hnd Hin. unfold find_external. destruct (first _ _) as [q|] eqn:E.
  - apply first_elem in E as [Hq He%String.eqb_eq]. f_equal.
    by eapply (NoDup_fmap_inj Payment.external_id b.(b_payments)).
  - rewrite first_None in E. specialize (E p Hin). by rewrite String.eqb_refl in E.
Qed.

Lemma webhook_created clock new_id provider pl b b' pid :
  process_payment_webhook settings clock new_id provider pl b = Ok (b', pid, true) →
  truthy (raw_external_id pl) = true ∧ ∃ p, p ∈ b'.(b_payments) ∧ p.(Payment.id) = pid ∧
    p.(Payment.external_id) = render (raw_external_id pl).
Proof.
  unfold process_payment_webhook. cbv zeta.
  destruct (truthy _); [|done]. cbn [negb]. destruct (find_external _ b); [done|]. intros H.
  split; [done|].
  destruct (getv pl "user_id"), (getv pl "subscription_id"); try done;
    apply res_bind_ok in H as (uid & _ & (a & _ & (bx & (-> & _ & _)%insert_payment_spec &
      (by_ & H2 & [= <- <-])%res_bind_ok)%res_bind_ok)%res_bind_ok);
    match type of H2 with (if ?c then _ else Ok ?x) = _ =>
      assert (b_payments by_ = b_payments x) as Hb
        by (destruct c; [apply success_effects in H2 as (? & _ & (-> & _))|injection H2 as <-]; done)
    end;
    eexists; (split; [rewrite Hb; cbn; apply elem_of_app; right; by apply list_elem_of_singleton|]);
    done.
Qed.

(** Delivering a webhook again changes nothing: once a webhook created a
    payment, the same body, whatever has happened since, answers the same
    payment as already known, and only logs a repeat event. *)
Theorem webhook_replayed clock clock' new_id new_id' provider secret body b b1 ops pid :
  ledger b →
  payment_webhook settings clock new_id provider secret body b = (b1, WebhookOk pid true) →
  let b2 := billing_history settings b1 ops in
  payment_webhook settings clock' new_id' provider secret body b2 =
    (add_payment_event (PaymentEvent.mk pid "webhook_repeat" body) b2, WebhookOk pid false).
Proof.
  intros Hl Hw. unfold payment_webhook in Hw |- *. destruct (negb _); [done|].
  destruct (secret_refused _ _ _); [done|].
  destruct (process_payment_webhook _ _ _ _ _ b) as [[[? ?] ?]|e] eqn:E;
    [|by cbv zeta in Hw; repeat case_match].
  injection Hw as -> -> ->. destruct (webhook_ledger _ _ _ _ _ _ _ _ Hl E) as [Hl1 _].
  apply webhook_created in E as (Ht & p & Hp & <- & Hext).
  destruct (ledger_history b1 ops Hl1) as [Hl2 [_ Hadv]]. cbv zeta.
  apply list_elem_of_lookup in Hp as [i Hp].
  destruct (Hadv i p Hp) as (p' & Hp' & Hid & He & _). apply list_elem_of_lookup_2 in Hp'.
  unfold process_payment_webhook. rewrite Ht. cbn [negb].
  rewrite <- Hext, <- He, (find_external_unique p') by (done || apply Hl2).
  by rewrite Hid.
Qed.

(** ** The paid time *)

(** Until when a payment for [plan] pays the subscription. *)
Definition paid_until (now : Z) (plan : Plan.t) (s : Subscription.t) : Z :=
  (if String.eqb s.(Subscription.status) "active"
   then Z.max now s.(Subscription.valid_until) else now) + days plan.(Plan.duration_days).

(** Every subscription stays, with the same owner and status, and ends no
    earlier. *)
Definition prolongs (l l' : list Subscription.t) : Prop :=
  ∀ i x, l !! i = Some x → ∃ x', l' !! i = Some x' ∧
    x'.(Subscription.id) = x.(Subscription.id) ∧ x'.(Subscription.status) = x.(Subscription.status) ∧
    x'.(Subscription.user_id) = x.(Subscription.user_id) ∧
    x.(Subscription.valid_until) ≤ x'.(Subscription.valid_until).

Lemma prolongs_refl l : prolongs l l.
Proof. intros i x Hx. exists x. split_and!; done || lia. Qed.

Lemma prolongs_trans l1 l2 l3 : prolongs l1 l2 → prolongs l2 l3 → prolongs l1 l3.
Proof.
  intros H1 H2 i x Hx. destruct (H1 i x Hx) as (y & Hy & ? & ? & ? & ?).
  destruct (H2 i y Hy) as (z & Hz & ? & ? & ? & ?). exists z. split_and!; congruence || lia.
Qed.

Lemma put_sub_prolongs s u l :
  NoDup (Subscription.id <$> l) → s ∈ l → s.(Subscription.valid_until) ≤ u →
  prolongs l (put_sub (Subscription.set_valid_until u s) l).
Proof.
  intros Hnd Hs Hu i x Hx. unfold put_sub. rewrite list_lookup_fmap, Hx. eexists.
  split; [done|].
  change (Subscription.id (Subscription.set_valid_until u s)) with (Subscription.id s).
  destruct (String.eqb_spec (Subscription.id x) (Subscription.id s)) as [E|];
    [|split_and!; done || lia].
  apply list_elem_of_lookup_2 in Hx.
  assert (x = s) as -> by (by eapply (NoDup_fmap_inj Subscription.id l)). by split_and!.
Qed.

Definition monotone (clock : nat → Z) : Prop := ∀ i j, (i ≤ j)%nat → clock i ≤ clock j.

Lemma add_days_ok base d u : add_days base d = Ok u → u = base + days d.
Proof. unfold add_days. cbv zeta. destruct (_ && _); [|done]. by intros [= <-]. Qed.

Lemma later_of_ge x i j clock :
  monotone clock → (i ≤ j)%nat → x ≤ later_of x (clock i) (clock j).
Proof.
  intros Hm Hij. unfold later_of. specialize (Hm i j Hij). destruct (Z.ltb_spec (clock i) x); lia.
Qed.

(** What a referral and a promo code give is not negative. *)
Definition generous (b : billing) : Prop :=
  0 ≤ settings.(referral_reward_bonus_days) ∧
  Forall (λ r, 0 ≤ r.(Referral.reward_days)) b.(b_referrals) ∧
  Forall (λ p, 0 ≤ p.(PromoCode.value)) b.(b_promos).

Lemma days_nonneg d : 0 ≤ d → 0 ≤ days d.
Proof. unfold days, seconds. lia. Qed.

Lemma apply_referral_prolongs clock uid b b' :
  monotone clock → generous b → NoDup (Subscription.id <$> b.(b_subs)) →
  apply_referral settings clock uid b = Ok b' →
  prolongs b.(b_subs) b'.(b_subs) ∧ b'.(b_promos) = b.(b_promos).
Proof.
  intros Hm (Hs & Hr & _) Hnd. unfold apply_referral.
  destruct (first _ _) as [ref|] eqn:Ef; [|intros [= <-]; auto using prolongs_refl].
  apply first_elem in Ef as [Hin _]. cbv zeta.
  assert (0 ≤ if Referral.reward_days ref =? 0 then referral_reward_bonus_days settings
              else Referral.reward_days ref) as Hd.
  { rewrite Forall_forall in Hr. specialize (Hr ref Hin). destruct (_ =? 0); lia. }
  revert Hd. generalize (if Referral.reward_days ref =? 0 then referral_reward_bonus_days settings
                         else Referral.reward_days ref) as rd. intros rd Hd.
  destruct (rd =? 0); [intros [= <-]; auto using prolongs_refl|].
  intros (b1 & H1 & [= <-])%res_bind_ok. cbn.
  destruct (referrer_sub _ _) as [s|] eqn:Es; [|injection H1 as <-; auto using prolongs_refl].
  apply res_bind_ok in H1 as (u & ->%add_days_ok & [= <-]). split; [|done].
  apply py_max_elem, elem_of_filterb in Es as [_ Es]. apply put_sub_prolongs; [done|done|].
  pose proof (later_of_ge (Subscription.valid_until s) 1 2 clock Hm ltac:(lia)).
  apply days_nonneg in Hd. lia.
Qed.

Lemma apply_promo_prolongs clock payment sid pl b b' :
  monotone clock → Forall (λ p, 0 ≤ p.(PromoCode.value)) b.(b_promos) →
  NoDup (Subscription.id <$> b.(b_subs)) →
  apply_promo clock payment sid pl b = Ok b' → prolongs b.(b_subs) b'.(b_subs).
Proof.
  intros Hm Hp Hnd. unfold apply_promo. intros (code & _ & H)%res_bind_ok.
  destruct (negb _); [injection H as <-; apply prolongs_refl|].
  destruct (first _ (b_promos b)) as [promo|] eqn:Ep; [|injection H as <-; apply prolongs_refl].
  destruct (first _ (b_subs b)) as [sub|] eqn:Es; [|injection H as <-; apply prolongs_refl].
  destruct (redeemed _ _ _); [injection H as <-; apply prolongs_refl|]. cbv zeta in H.
  apply res_bind_ok in H as (b1 & H1 & [= <-]). cbn.
  destruct (String.eqb _ "bonus_days"); [|injection H1 as <-; apply prolongs_refl].
  apply res_bind_ok in H1 as (u & ->%add_days_ok & [= <-]). cbn.
  apply first_elem in Es as [Es _], Ep as [Ep _]. apply put_sub_prolongs; [done|done|].
  pose proof (later_of_ge (Subscription.valid_until sub) 4 5 clock Hm ltac:(lia)).
  rewrite Forall_forall in Hp. specialize (Hp promo Ep).
  assert (0 ≤ days (whole (PromoCode.value promo))).
  { apply days_nonneg. unfold whole. by apply Z.quot_pos. }
  lia.
Qed.

Lemma apply_referral_ids clock uid b b' :
  apply_referral settings clock uid b = Ok b' →
  Subscription.id <$> b'.(b_subs) = Subscription.id <$> b.(b_subs).
Proof.
  unfold apply_referral. destruct (first _ _) as [ref|]; [|by intros [= <-]]. cbv zeta.
  generalize (if Referral.reward_days ref =? 0 then referral_reward_bonus_days settings
              else Referral.reward_days ref) as rd. intros rd.
  destruct (rd =? 0); [by intros [= <-]|]. intros (b1 & H1 & [= <-])%res_bind_ok. cbn.
  destruct (referrer_sub _ _); [|by injection H1 as <-].
  apply res_bind_ok in H1 as (u & _ & [= <-]). cbn. apply put_sub_ids.
Qed.

Lemma apply_referral_none clock uid b :
  Forall (λ r, r.(Referral.referee_user_id) ≠ uid) b.(b_referrals) →
  apply_referral settings clock uid b = Ok b.
Proof.
  intros H. unfold apply_referral. destruct (first _ _) as [r|] eqn:E; [|done].
  apply first_elem in E as [Hr [E%Z.eqb_eq _]%andb_prop]. rewrite Forall_forall in H.
  by destruct (H r Hr).
Qed.

(** A payment gives the time that was paid.  The subscription becomes
    active and ends no earlier than the plan's duration after now, or after its
    end if it was running; exactly then when there is neither a referral to
    reward nor a promo code.  No other subscription is shortened or changes
    status. *)
Theorem payment_gives_paid_time clock payment pl b b' i s plan :
  monotone clock → generous b → NoDup (Subscription.id <$> b.(b_subs)) →
  b.(b_subs) !! i = Some s → s.(Subscription.id) = payment.(Payment.subscription_id) →
  s.(Subscription.user_id) = payment.(Payment.user_id) →
  first (λ p, String.eqb p.(Plan.id) s.(Subscription.plan_id)) b.(b_plans) = Some plan →
  _apply_payment_success_effects settings clock payment (Some pl) b = Ok b' →
  (∃ s', b'.(b_subs) !! i = Some s' ∧ s'.(Subscription.id) = s.(Subscription.id) ∧
     s'.(Subscription.status) = "active" ∧
     paid_until (clock 0%nat) plan s ≤ s'.(Subscription.valid_until) ∧
     (Forall (λ r, r.(Referral.referee_user_id) ≠ payment.(Payment.user_id)) b.(b_referrals) →
      pl ≠ [] → truthy (getv pl "promo_code") = false →
      s'.(Subscription.valid_until) = paid_until (clock 0%nat) plan s)) ∧
  (∀ j x, j ≠ i → b.(b_subs) !! j = Some x → ∃ x', b'.(b_subs) !! j = Some x' ∧
     x'.(Subscription.status) = x.(Subscription.status) ∧
     x.(Subscription.valid_until) ≤ x'.(Subscription.valid_until)).
Proof.
  intros Hm Hg Hnd Hi Hsid Huid Hplan H. unfold _apply_payment_success_effects in H. cbv zeta in H.
  assert (s ∈ b_subs b) as Hs by (by eapply list_elem_of_lookup_2).
  destruct (first _ (b_subs b)) as [s1|] eqn:Ef.
  2:{ rewrite first_None in Ef. specialize (Ef s Hs). rewrite Hsid, Huid, String.eqb_refl, Z.eqb_refl in Ef. done. }
  apply first_elem in Ef as [Hs1 [E1%String.eqb_eq _]%andb_prop].
  assert (s1 = s) as -> by (eapply (NoDup_fmap_inj Subscription.id (b_subs b)); congruence).
  rewrite Hplan in H. apply res_bind_ok in H as (s2 & He & (b1 & H1 & H2)%res_bind_ok).
  assert (s2.(Subscription.id) = s.(Subscription.id) ∧ s2.(Subscription.status) = "active" ∧
          s2.(Subscription.valid_until) = paid_until (clock 0%nat) plan s) as (Hid2 & Hst2 & Hv2).
  { unfold extend_subscription in He. cbv zeta in He.
    apply res_bind_ok in He as (u & ->%add_days_ok & [= <-]). unfold paid_until, later_of.
    destruct (String.eqb_spec (Subscription.status s) "active"); cbn [negb]; split_and!; try done.
    cbn. destruct (Z.ltb_spec (clock 0%nat) (Subscription.valid_until s)); lia. }
  set (l0 := put_sub s2 (b_subs b)) in *.
  assert (∀ j x, b_subs b !! j = Some x → l0 !! j = Some (if decide (j = i) then s2 else x)) as Hl0.
  { intros j x Hx. unfold l0, put_sub. rewrite list_lookup_fmap, Hx. simpl. rewrite Hid2. f_equal.
    destruct (decide (j = i)) as [->|Hne].
    - rewrite Hi in Hx. injection Hx as ->. by rewrite String.eqb_refl.
    - destruct (String.eqb_spec (Subscription.id x) (Subscription.id s)) as [E|]; [|done].
      exfalso. apply Hne. eapply (NoDup_lookup _ j i (Subscription.id s) Hnd);
        rewrite list_lookup_fmap; [rewrite Hx|rewrite Hi]; simpl; congruence. }
  assert (NoDup (Subscription.id <$> l0)) as Hnd0 by (unfold l0; by rewrite put_sub_ids).
  pose proof H1 as H1'. apply apply_referral_prolongs in H1' as [P1 Hpr]; [|done|exact Hg|exact Hnd0].
  cbn in P1, Hpr. pose proof H2 as H2'. apply apply_promo_prolongs in H2'; [|done|..].
  2:{ rewrite Hpr. apply Hg. }
  2:{ apply apply_referral_ids in H1. by rewrite H1. }
  pose proof (prolongs_trans _ _ _ P1 H2') as P. clear P1 H2'. split.
  - specialize (Hl0 i s Hi). rewrite decide_True in Hl0 by done.
    destruct (P i s2 Hl0) as (s' & Hs' & Hi' & Hst' & _ & Hv'). exists s'.
    split_and!; [done|congruence|congruence|lia|].
    intros Hnr Hpl Hcode.
    assert (b_subs b' = l0) as E; [|rewrite E, Hl0 in Hs'; congruence].
    match type of H1 with apply_referral _ _ ?u ?bb = _ =>
      rewrite (apply_referral_none clock u bb Hnr) in H1 end.
    injection H1 as <-.
    destruct pl as [|kv pl]; [done|]. unfold apply_promo, promo_code_of, v_or in H2.
    rewrite Hcode in H2. by injection H2 as <-.
  - intros j x Hne Hx. specialize (Hl0 j x Hx). rewrite decide_False in Hl0 by done.
    destruct (P j x Hl0) as (x' & ? & _ & ? & _ & ?). eauto.
Qed.
End effects.

(** ** Concrete requests *)

Definition wit_sub (i : string) (uid until : Z) (st : string) : Subscription.t :=
  Subscription.mk i uid "p1" 0 until 1 st false None None None None None 0.

Definition wit_billing : billing :=
  mkBilling [User.mk 1 100 false; User.mk 2 200 false] [Server.test "n1" true]
    [Plan.mk "p1" "Basic" 30 500 "XTR"]
    [wit_sub "s1" 1 (days 40) "active"; wit_sub "s2" 2 (days 5) "pending"] [] []
    [Referral.mk "r1" 1 2 "1" "pending" 7 None] [PromoCode.mk "c1" "PLUS3" "bonus_days" 300 "active"]
    [] [].

Definition wit_clock (n : nat) : Z := days 20 + Z.of_nat n.

Definition wit_body : pydict :=
  [("external_id", VStr "x1"); ("user_id", VInt 2); ("subscription_id", VStr "s2");
   ("amount", VInt 5); ("promo_code", VStr " PLUS3 ")].

Definition wit_paid : billing :=
  (payment_webhook default_settings wit_clock "pay1" "mock" None wit_body wit_billing).1.

Lemma wit_ledger : ledger wit_billing.
Proof.
  constructor; try (by vm_compute); [constructor|constructor|].
  constructor; try (by vm_compute); [apply NoDup_singleton|constructor].
Qed.

(** The payment of user 2 gives 30 days and the 3 of the code, and its referrer
    the 7 of the reward. *)
Example wit_paid_until :
  Subscription.valid_until <$> wit_paid.(b_subs) = [days 47; days 53].
Proof. vm_compute. reflexivity. Qed.

Lemma billing_history_ledger_witness :
  let ops := [OpWebhook wit_clock "pay1" "mock" None wit_body;
              OpWebhook wit_clock "pay2" "mock" None wit_body;
              OpAttach "r2" 100 "2"] in
  let b' := billing_history default_settings wit_billing ops in
  ledger b' ∧ length b'.(b_payments) = 1%nat ∧ length b'.(b_referrals) = 2%nat.
Proof.
  intros ops b'. split; [apply (billing_history_ledger default_settings wit_billing ops wit_ledger)|].
  by vm_compute.
Defined.

Lemma webhook_replayed_witness :
  payment_webhook default_settings wit_clock "pay2" "mock" None wit_body wit_paid =
    (add_payment_event (PaymentEvent.mk "pay1" "webhook_repeat" wit_body) wit_paid,
     WebhookOk "pay1" false).
Proof.
  apply (webhook_replayed default_settings wit_clock wit_clock "pay1" "pay2" "mock" None wit_body
           wit_billing wit_paid [] "pay1" wit_ledger).
  vm_compute. reflexivity.
Defined.

Lemma payment_gives_paid_time_witness :
  let payment := Payment.mk "pay1" 2 "s2" "mock" "completed" (DFin 5 0) "XTR" "x1" (Some wit_body) in
  ∃ b' s', _apply_payment_success_effects default_settings wit_clock payment (Some wit_body)
             wit_billing = Ok b' ∧
    b'.(b_subs) !! 1%nat = Some s' ∧ s'.(Subscription.status) = "active" ∧
    days 50 ≤ s'.(Subscription.valid_until).
Proof.
  intros payment.
  destruct (_apply_payment_success_effects default_settings wit_clock payment (Some wit_body)
              wit_billing) as [b'|e] eqn:E; [|exfalso; vm_compute in E; discriminate].
  destruct (payment_gives_paid_time default_settings wit_clock payment wit_body wit_billing b' 1
              (wit_sub "s2" 2 (days 5) "pending") (Plan.mk "p1" "Basic" 30 500 "XTR"))
    as [(s' & Hs' & _ & Hst & Hv & _) _]; try done.
  - intros i j Hij. unfold wit_clock. lia.
  - split_and!; [done| |]; repeat constructor; done.
  - by apply (bool_decide_unpack _); vm_compute.
  - exists b', s'. done.
Defined.
