(* ===== verification/NodeAgent.v ===== *)
(** * The node agent ([node-agent/agent.py])

    What the agent reads of its container ([awg show dump]), and the
    reconciliation of the container's peers with the desired state: the commands
    it runs, in their order, under a budget of mutations. *)

From S2P Require Import Prelude PyFloat PyStr PyVal IpAddr.
Open Scope Z_scope.

(** ** Names that go on a command line *)

Definition in_class (extra : string) (c : ascii) : bool :=
  is_alnum c || existsb (Ascii.eqb c) (chars extra).

(** [^[a-zA-Z0-9][a-zA-Z0-9_.-]{0,127}$] *)
Definition container_name_re (s : string) : bool :=
  match chars s with
  | c :: l => is_alnum c && forallb (in_class "_.-") l && (length l <=? 127)%nat
  | [] => false
  end.

(** [^[a-zA-Z0-9_.:-]{1,32}$] *)
Definition interface_name_re (s : string) : bool :=
  forallb (in_class "_.:-") (chars s) && (1 <=? String.length s)%nat &&
  (String.length s <=? 32)%nat.

(** [^[A-Za-z0-9+/=]{32,64}$] *)
Definition pubkey_re (s : string) : bool :=
  forallb (in_class "+/=") (chars s) && (32 <=? String.length s)%nat &&
  (String.length s <=? 64)%nat.

Definition sanitize (re : string → bool) (what : string) (s : string) : res string :=
  let n := strip s in
  _ ← raise_if (negb (re n)) ("invalid " +:+ what);
  Ok n.

Definition _sanitize_container : string → res string := sanitize container_name_re "container name".
Definition _sanitize_iface : string → res string := sanitize interface_name_re "interface name".
Definition _sanitize_pubkey : string → res string := sanitize pubkey_re "public key".

(** ** The dump of the interface *)

Record Peer : Type := mkPeer {
  a_public_key : string;
  a_allowed_ips : string;
  a_last_handshake_ts : Z;
  a_rx : Z;
  a_tx : Z;
  a_endpoint : string
}.

(** [int((x or "0").strip())], 0 when it is not a number. *)
Definition int_or_0 (x : string) : Z := default 0 (py_int (if str_truthy x then x else "0")).

Definition nth_part (n : nat) (parts : list string) : string := default "" (parts !! n).

Definition parse_peer_line (line : string) : option Peer :=
  let parts := split "009" line in
  if (length parts <? 8)%nat then None
  else
    let pk := strip (nth_part 0 parts) in
    if negb (str_truthy pk) then None
    else Some (mkPeer pk (strip (nth_part 3 parts)) (int_or_0 (nth_part 4 parts))
                 (int_or_0 (nth_part 5 parts)) (int_or_0 (nth_part 6 parts))
                 (strip (nth_part 2 parts))).

(** The public key, the port and the peers. *)
Definition _parse_dump (dump : string) : string * Z * list Peer :=
  match filterb (λ ln, str_truthy (strip ln)) (splitlines dump) with
  | [] => ("", 0, [])
  | iface_line :: rest =>
      let iface_parts := split "009" iface_line in
      (strip (nth_part 1 iface_parts),
       if (2 <? length iface_parts)%nat then int_or_0 (nth_part 2 iface_parts) else 0,
       omap parse_peer_line rest)
  end.

(** ** Commands *)

(** [' inside a single-quoted shell word *)
Definition quote_escape (s : string) : string :=
  of_chars (mbind (λ c, if Ascii.eqb c "039" then ["039"; "034"; "039"; "034"; "039"]%char else [c])
              (chars s)).

Definition set_cmd (container iface pk allowed : string) (keepalive : Z) : list string :=
  ["docker"; "exec"; container; "awg"; "set"; iface; "peer"; pk; "allowed-ips"; allowed;
   "persistent-keepalive"; str_of_Z keepalive].

Definition psk_script (iface pk allowed : string) (keepalive : Z) (psk : string) : string :=
  "printf '%s\n' '" +:+ quote_escape psk +:+ "' | wg set " +:+ iface +:+ " peer " +:+ pk +:+
  " allowed-ips " +:+ allowed +:+ " persistent-keepalive " +:+ str_of_Z keepalive +:+
  " preshared-key /dev/stdin".

Definition set_psk_cmd (container iface pk allowed : string) (keepalive : Z) (psk : string)
    : list string :=
  ["docker"; "exec"; container; "sh"; "-c"; psk_script iface pk allowed keepalive psk].

Definition remove_cmd (container iface pk : string) : list string :=
  ["docker"; "exec"; container; "awg"; "set"; iface; "peer"; pk; "remove"].

Definition save_cmd (container iface : string) : list string :=
  ["docker"; "exec"; container; "awg-quick"; "save"; iface].

(** The host of the agent: [_run] of a command, for its exit code, its output
    and the milliseconds it took; 124 is a command that timed out. *)
Class AwgHost (W : Type) := { _run : list string → W → W * (Z * string * float) }.

(** A command run for its exit code. *)
Definition run {W} `{AwgHost W} (cmd : list string) (w : W) : W * Z :=
  let '(w', (code, _, _)) := _run cmd w in (w', code).

(** ** Reconciliation *)

(** The specification of a desired peer. *)
Record PeerSpec : Type := mkSpec {
  s_allowed_ips : string;
  s_keepalive : Z;
  s_preshared_key : option string
}.

(** The entry of [desired_map] for one desired peer. *)
Definition peer_spec (p : pydict) : res (string * PeerSpec) :=
  pk ← _sanitize_pubkey (strip (render (v_or (getv p "public_key") (VStr ""))));
  let psk := match v_or (getv p "preshared_key") (VStr "") with
             | VStr s => if str_truthy (strip s) then Some (strip s) else None
             | _ => None
             end in
  keepalive ← int_of (v_or (getv p "persistent_keepalive") (VInt 25));
  Ok (pk, mkSpec (strip (render (v_or (getv p "allowed_ips") (VStr "0.0.0.0/0, ::/0"))))
            keepalive psk).

Definition desired_map (desired : list pydict) : res (list (string * PeerSpec)) :=
  foldl_res (λ m p, e ← peer_spec p; Ok (dset e.1 e.2 m)) [] desired.

Definition runtime_map (runtime : list Peer) : list (string * Peer) :=
  dict_of ((λ p, (p.(a_public_key), p)) <$> filterb (λ p, str_truthy p.(a_public_key)) runtime).

Definition missing (dm : list (string * PeerSpec)) (rm : list (string * Peer)) : list string :=
  filterb (λ pk, is_none (dget pk rm)) (dkeys dm).

Definition orphans (dm : list (string * PeerSpec)) (rm : list (string * Peer)) : list string :=
  filterb (λ pk, is_none (dget pk dm)) (dkeys rm).

Definition spec_drifts (rm : list (string * Peer)) (e : string * PeerSpec) : bool :=
  match dget e.1 rm with
  | None => false
  | Some rp =>
      let allowed := e.2.(s_allowed_ips) in
      (str_truthy allowed && negb (String.eqb allowed (strip rp.(a_allowed_ips)))) ||
      match e.2.(s_preshared_key) with Some k => str_truthy k | None => false end
  end.

Definition drifted (dm : list (string * PeerSpec)) (rm : list (string * Peer)) : list string :=
  dkeys (filterb (spec_drifts rm) dm).

Section reconcile.
Context {W : Type} `{AwgHost W}.
Implicit Types (w : W).

Definition _run_set_peer (container iface pk : string) (spec : PeerSpec) w : W * Z :=
  match spec.(s_preshared_key) with
  | Some psk =>
      if str_truthy psk
      then run (set_psk_cmd container iface pk spec.(s_allowed_ips) spec.(s_keepalive) psk) w
      else run (set_cmd container iface pk spec.(s_allowed_ips) spec.(s_keepalive)) w
  | None => run (set_cmd container iface pk spec.(s_allowed_ips) spec.(s_keepalive)) w
  end.

(** A loop over keys: while the budget is positive, [act]; a success counts and
    uses one mutation, a failure only skips the key. *)
Fixpoint mutate (act : string → W → res (W * Z)) (keys : list string) (budget : Z) (count : Z) w
    : W * res (Z * Z) :=
  match keys with
  | [] => (w, Ok (budget, count))
  | pk :: keys' =>
      if budget <=? 0 then (w, Ok (budget, count))
      else
        match act pk w with
        | Err e => (w, Err e)
        | Ok (w, code) =>
            if code =? 0 then mutate act keys' (budget - 1) (count + 1) w
            else mutate act keys' budget count w
        end
  end.

Definition set_act (container iface : string) (dm : list (string * PeerSpec)) (pk : string) w
    : res (W * Z) :=
  match dget pk dm with
  | Some spec => Ok (_run_set_peer container iface pk spec w)
  | None => Err (TypeError "KeyError")
  end.

Definition remove_act (container iface pk : string) w : res (W * Z) :=
  pk ← _sanitize_pubkey pk; Ok (run (remove_cmd container iface pk) w).

(** [(added, removed, updated)].  [prune_empty] is the environment variable
    [ALLOW_PRUNE_EMPTY_DESIRED]. *)
Definition _reconcile (container iface : string) (desired : list pydict) (runtime : list Peer)
    (max_mutations : Z) (read_only : bool) (prune_empty : string) w : W * res (Z * Z * Z) :=
  match (iface ← _sanitize_iface iface; container ← _sanitize_container container;
         dm ← desired_map desired; Ok (iface, container, dm)) with
  | Err e => (w, Err e)
  | Ok (iface, container, dm) =>
      let rm := runtime_map runtime in
      let allow_prune_empty := str_in (lower (strip prune_empty)) ["1"; "true"; "yes"] in
      if bool_decide (dm = []) && bool_decide (dkeys rm ≠ []) && negb allow_prune_empty then
        (w, Ok (0, 0, 0))
      else if read_only then (w, Ok (0, 0, 0))
      else
        let '(w, r) := mutate (set_act container iface dm) (missing dm rm)
                         (Z.max 0 max_mutations) 0 w in
        match r with
        | Err e => (w, Err e)
        | Ok (budget, added) =>
            let '(w, r) := mutate (set_act container iface dm) (drifted dm rm) budget 0 w in
            match r with
            | Err e => (w, Err e)
            | Ok (budget, updated) =>
                let '(w, r) := mutate (remove_act container iface) (orphans dm rm) budget 0 w in
                match r with
                | Err e => (w, Err e)
                | Ok (_, removed) =>
                    let w := if (added =? 0) && (removed =? 0) && (updated =? 0) then w
                             else (run (save_cmd container iface) w).1 in
                    (w, Ok (added, removed, updated))
                end
            end
        end
  end.
(** What every command keeps, a pass keeps. *)
Context (P : W → Prop) (HP : ∀ cmd w, P w → P (run cmd w).1).

Lemma mutate_inv act keys budget count w :
  (∀ pk w w' code, P w → act pk w = Ok (w', code) → P w') →
  P w → P (mutate act keys budget count w).1.
Proof using Type*.
  intros Hact. revert budget count w. induction keys as [|pk keys IH]; intros budget count w Hw; [done|].
  cbn [mutate]. destruct (budget <=? 0); [done|].
  destruct (act pk w) as [[w' code]|e] eqn:Ea; [|done]. apply Hact in Ea; [|done].
  by destruct (code =? 0); apply IH.
Qed.

Lemma set_act_inv container iface dm pk w w' code :
  P w → set_act container iface dm pk w = Ok (w', code) → P w'.
Proof using HP.
  unfold set_act, _run_set_peer. intros Hw E. repeat case_match; simplify_eq;
    match goal with H : run ?c w = (?x, _) |- _ => by pose proof (HP c w Hw) as Hr; rewrite H in Hr end.
Qed.

Lemma remove_act_inv container iface pk w w' code :
  P w → remove_act container iface pk w = Ok (w', code) → P w'.
Proof using HP.
  unfold remove_act. intros Hw (k & _ & [= E])%res_bind_ok.
  pose proof (HP (remove_cmd container iface k) w Hw) as Hr. by rewrite E in Hr.
Qed.

Lemma reconcile_inv container iface desired runtime n read_only prune w :
  P w → P (_reconcile container iface desired runtime n read_only prune w).1.
Proof using HP.
  intros Hw. unfold _reconcile. destruct (_ ≫= _) as [[[i c] dm]|e]; [|done]. cbv zeta.
  destruct (_ && _ && _); [done|]. destruct read_only; [done|].
  pose proof (mutate_inv (set_act c i dm) (missing dm (runtime_map runtime)) (Z.max 0 n) 0 w
    (λ pk, set_act_inv c i dm pk) Hw) as H1.
  destruct (mutate _ _ _ _ w) as [w1 [[b1 a]|e]]; [|done].
  pose proof (mutate_inv (set_act c i dm) (drifted dm (runtime_map runtime)) b1 0 w1
    (λ pk, set_act_inv c i dm pk) H1) as H2.
  destruct (mutate _ _ _ _ w1) as [w2 [[b2 u]|e]]; [|done].
  pose proof (mutate_inv (remove_act c i) (orphans dm (runtime_map runtime)) b2 0 w2
    (λ pk, remove_act_inv c i pk) H2) as H3.
  destruct (mutate _ _ _ _ w2) as [w3 [[b3 r]|e]]; [|done].
  destruct (_ && _); [done|]. by apply HP.
Qed.
End reconcile.

(** ** What the commands do *)

(** The networks of an [allowed-ips] list. *)
Definition cidrs (allowed : string) : list string := strip <$> split "," allowed.

(** A string that is one word of a shell command. *)
Definition shell_word (s : string) : bool :=
  str_truthy s && forallb (in_class "+/=.,:_-") (chars s).

Lemma host_cidr_truthy s : host_cidr s = true → str_truthy s = true.
Proof. intros [Hs _]%host_cidr_chars. by apply str_truthy_true. Qed.

Lemma host_cidr_word s : host_cidr s = true → shell_word s = true.
Proof.
  intros Hs. apply andb_true_intro. split; [by apply host_cidr_truthy|].
  apply host_cidr_chars in Hs as [_ Hs]. rewrite forallb_forall in *. intros c Hc.
  specialize (Hs c Hc). unfold in_class, dotted, is_alnum in *. simpl.
  destruct (is_digit c); [by rewrite orb_true_r|]. cbn [orb] in Hs.
  apply orb_true_intro. right. destruct (Ascii.eqb c "."), (Ascii.eqb c "/"); simpl; rewrite ?orb_true_r; done.
Qed.

(** Setting a peer leaves the other peers on the interface, with their networks
    unless the new peer takes one of them. *)
Definition peer_set (pk allowed : string) (m m' : gmap string string) : Prop :=
  m' !! pk = Some allowed ∧
  ∀ k, k ≠ pk → (is_Some (m' !! k) ↔ is_Some (m !! k)) ∧
    ∀ v, m !! k = Some v → cidrs v ## cidrs allowed → m' !! k = Some v.

(** What the agent relies on of [awg] and [docker exec]: the peers of the
    interface, by public key, and what a command that exits with 0 did to them.
    A failed command may have done anything; an address list that is not one
    host may be stored in another form. *)
Class AwgHostLaws (W : Type) `{AwgHost W} (container iface : string)
    (peers : W → gmap string string) : Prop := {
  set_ok pk allowed keepalive w w' :
    host_cidr allowed = true →
    run (set_cmd container iface pk allowed keepalive) w = (w', 0) →
    peer_set pk allowed (peers w) (peers w');
  set_psk_ok pk allowed keepalive psk w w' :
    shell_word pk = true → host_cidr allowed = true → shell_word psk = true →
    run (set_psk_cmd container iface pk allowed keepalive psk) w = (w', 0) →
    peer_set pk allowed (peers w) (peers w');
  remove_ok pk w w' :
    run (remove_cmd container iface pk) w = (w', 0) → peers w' = delete pk (peers w);
  save_pure w w' code : run (save_cmd container iface) w = (w', code) → peers w' = peers w
}.

(** ** Reading the dump back *)

(** The line of a peer in [awg show <iface> dump]. *)
Definition peer_line (p : Peer) (psk keepalive : string) : string :=
  join (String "009" "") [p.(a_public_key); psk; p.(a_endpoint); p.(a_allowed_ips);
    str_of_Z p.(a_last_handshake_ts); str_of_Z p.(a_rx); str_of_Z p.(a_tx); keepalive].

Definition iface_line (private_key public_key fwmark : string) (port : Z) : string :=
  join (String "009" "") [private_key; public_key; str_of_Z port; fwmark].

(** A field of the dump: one word, without separators. *)
Definition field (s : string) : bool := forallb (λ c, negb (is_space c)) (chars s).

Lemma field_strip s : field s = true → strip s = s.
Proof.
  unfold field. rewrite forallb_forall. intros H.
  apply strip_id; intros c l E; apply negb_true_iff, H; rewrite E;
    [by left|apply in_app_iff; right; by left].
Qed.

Lemma field_no_tab s : field s = true → forallb (λ a, negb (Ascii.eqb a "009")) (chars s) = true.
Proof.
  unfold field. rewrite !forallb_forall. intros H c Hc. specialize (H c Hc).
  destruct (Ascii.eqb_spec c "009") as [->|]; done.
Qed.

Lemma field_int z : field (str_of_Z z) = true.
Proof.
  unfold field. destruct (str_of_Z_chars z) as [H _]. rewrite forallb_forall in *. intros c Hc.
  apply negb_true_iff, int_char_not_space. auto.
Qed.

Lemma int_or_0_str z : int_or_0 (str_of_Z z) = z.
Proof.
  unfold int_or_0. destruct (str_truthy (str_of_Z z)) eqn:E; [by rewrite py_int_str_of_Z|].
  apply str_truthy_false in E. destruct (str_of_Z_chars z). done.
Qed.

(** What the dump can hold of a peer. *)
Definition peer_ok (p : Peer) : Prop :=
  p.(a_public_key) ≠ "" ∧ field p.(a_public_key) = true ∧ field p.(a_endpoint) = true ∧
  field p.(a_allowed_ips) = true.

Lemma parse_peer_line_line p psk ka :
  peer_ok p → field psk = true → field ka = true →
  parse_peer_line (peer_line p psk ka) = Some p.
Proof.
  intros (Hne & Hpk & Hep & Ha) Hpsk Hka. unfold parse_peer_line, peer_line. cbv zeta.
  rewrite split_join; [|repeat constructor; auto using field_no_tab, field_int|done].
  change ((length _ <? 8)%nat) with false. cbv iota. cbn -[int_or_0 strip str_truthy str_of_Z].
  rewrite !field_strip by done.
  destruct (str_truthy (a_public_key p)) eqn:E; [|by apply str_truthy_false in E].
  cbn [negb]. rewrite !int_or_0_str. by destruct p.
Qed.

Lemma join_no_linebreak l :
  Forall (λ s, field s = true) l → no_linebreak (join (String "009" "") l) = true.
Proof.
  assert (∀ s, field s = true → no_linebreak s = true) as Hf.
  { intros s Hs. unfold field, no_linebreak in *. rewrite forallb_forall in *. intros c Hc.
    specialize (Hs c Hc). unfold is_space, is_linebreak in *. lia. }
  intros Hl. induction Hl as [|s l Hs Hl IH]; [done|]. destruct l as [|s2 l]; [by apply Hf|].
  change (join _ (s :: s2 :: l)) with (s +:+ String "009" (join (String "009" "") (s2 :: l))).
  unfold no_linebreak. rewrite chars_app, forallb_app. simpl chars.
  apply andb_true_intro. split; [by apply Hf|]. simpl. exact IH.
Qed.

Lemma strip_truthy_app s t :
  s ≠ "" → field s = true → str_truthy (strip (s +:+ t)) = true.
Proof.
  intros Hne Hf. apply str_truthy_true. intros E.
  assert (∀ l, dropwhile is_space l = [] → Forall (λ c, is_space c = true) l) as Hd.
  { induction l as [|c l IH]; simpl; [constructor|]. destruct (is_space c) eqn:Ec; [|done].
    constructor; auto. }
  unfold strip, rstrip_with, lstrip_with in E. rewrite chars_of_chars in E.
  destruct s as [|c s]; [done|]. unfold field in Hf. simpl in Hf.
  apply andb_prop in Hf as [Hc _]. apply negb_true_iff in Hc.
  rewrite chars_app in E. cbn [String.list_ascii_of_string app] in E.
  rewrite dropwhile_head in E by done.
  apply (f_equal chars) in E. rewrite chars_of_chars in E. simpl chars in E at 2.
  apply (f_equal (@rev _)) in E. rewrite rev_involutive in E. simpl in E.
  apply Hd in E. rewrite Forall_forall in E. specialize (E c).
  rewrite E in Hc; [done|]. apply list_elem_of_In, in_app_iff. right. by left.
Qed.

Lemma join_truthy s s2 l :
  s ≠ "" → field s = true → str_truthy (strip (join (String "009" "") (s :: s2 :: l))) = true.
Proof. intros Hne Hf. by apply strip_truthy_app. Qed.

(** The dump is read exactly.  Whatever private key, mark, preshared keys
    and keepalives [awg show dump] prints, the agent reads back the public key,
    the port and every peer, in order. *)
Theorem parse_dump_reads_back private_key public_key fwmark port rows :
  private_key ≠ "" → field private_key = true → field public_key = true → field fwmark = true →
  Forall (λ r, peer_ok r.1 ∧ field r.2.1 = true ∧ field r.2.2 = true) rows →
  _parse_dump (unlines (iface_line private_key public_key fwmark port ::
                        ((λ r, peer_line r.1 r.2.1 r.2.2) <$> rows))) =
    (public_key, port, rows.*1).
Proof.
  intros Hne Hpriv Hpub Hfw Hrows. unfold _parse_dump.
  rewrite splitlines_unlines.
  2:{ constructor; [apply join_no_linebreak; repeat constructor; auto using field_int|].
      apply Forall_fmap. eapply Forall_impl; [exact Hrows|]. intros [p [psk ka]] (Hp & H1 & H2).
      apply join_no_linebreak. destruct Hp as (? & ? & ? & ?).
      repeat constructor; auto using field_int. }
  rewrite filterb_all.
  2:{ constructor; [by apply join_truthy|]. apply Forall_fmap. eapply Forall_impl; [exact Hrows|].
      intros [p [psk ka]] ((? & ? & ? & ?) & _). by apply join_truthy. }
  unfold iface_line. rewrite split_join; [|repeat constructor; auto using field_no_tab, field_int|done].
  f_equal; [f_equal|].
  - cbn -[strip]. by apply field_strip.
  - cbn -[int_or_0 str_of_Z]. apply int_or_0_str.
  - induction Hrows as [|[p [psk ka]] rows (Hp & H1 & H2) Hrows IH]; [done|].
    rewrite !fmap_cons. cbn [omap list_omap fst snd].
    rewrite parse_peer_line_line by done. f_equal. exact IH.
Qed.

Lemma parse_dump_reads_back_witness :
  _parse_dump (unlines [iface_line "priv" "pub=" "off" 51820;
      peer_line (mkPeer "peer1=" "10.8.1.2/32" 1700000000 10 20 "1.2.3.4:5") "(none)" "25"]) =
    ("pub=", 51820, [mkPeer "peer1=" "10.8.1.2/32" 1700000000 10 20 "1.2.3.4:5"]).
Proof.
  apply (parse_dump_reads_back "priv" "pub=" "off" 51820
           [(mkPeer "peer1=" "10.8.1.2/32" 1700000000 10 20 "1.2.3.4:5", ("(none)", "25"))]);
    try done. repeat constructor; done.
Defined.

(** ** One pass of reconciliation *)

Section passes.
#[local] Set Default Proof Using "Type*".
Context {W : Type} `{AwgHost W} (container iface : string) (peers : W → gmap string string).
Context `{!AwgHostLaws W container iface peers}.
Implicit Types (w : W) (dm : list (string * PeerSpec)).

(** The agent's view of the runtime is what is on the interface, and its keys
    are public keys. *)
Definition runtime_of (m : gmap string string) (runtime : list Peer) : Prop :=
  (∀ pk v, m !! pk = Some v ↔
     ∃ p, p ∈ runtime ∧ p.(a_public_key) = pk ∧ p.(a_allowed_ips) = v) ∧
  Forall (λ p, pubkey_re p.(a_public_key) = true ∧
               strip p.(a_allowed_ips) = p.(a_allowed_ips)) runtime.

Definition psk_of (spec : PeerSpec) : option string :=
  match spec.(s_preshared_key) with
  | Some k => if str_truthy k then Some k else None
  | None => None
  end.

(** What the control plane sends: keys, one host address per peer that no two
    peers share, and preshared keys that are one word of the script. *)
Record desired_ok dm : Prop := {
  do_keys k : k ∈ dkeys dm → pubkey_re k = true;
  do_addr k s : dget k dm = Some s → host_cidr s.(s_allowed_ips) = true;
  do_disjoint k k' s s' : dget k dm = Some s → dget k' dm = Some s' → k ≠ k' →
    cidrs s.(s_allowed_ips) ## cidrs s'.(s_allowed_ips);
  do_word k s psk : dget k dm = Some s → psk_of s = Some psk → shell_word psk = true
}.

Lemma pubkey_re_strip k : pubkey_re k = true → strip k = k.
Proof.
  unfold pubkey_re. intros H0. bools. rename select (forallb _ _ = true) into Hk.
  rewrite forallb_forall in Hk.
  assert (∀ c, in_class "+/=" c = true → is_space c = false) as Hc.
  { intros c Hx. destruct (is_space c) eqn:E; [|done]. exfalso.
    destruct c as [[] [] [] [] [] [] [] []]; done. }
  apply strip_id; intros c l E; apply Hc, Hk; rewrite E;
    [by left|apply in_app_iff; right; by left].
Qed.

Lemma pubkey_re_word k : pubkey_re k = true → shell_word k = true.
Proof.
  unfold pubkey_re, shell_word. intros H0. bools.
  rename select (forallb _ _ = true) into Hk. apply andb_true_intro. split.
  - apply str_truthy_true. intros ->. done.
  - rewrite forallb_forall in *. intros c Hc. specialize (Hk c Hc). unfold in_class in *.
    apply orb_prop in Hk as [Hk|Hk]; [by rewrite Hk|]. apply orb_true_intro. right.
    rewrite existsb_exists in *. destruct Hk as (x & Hx & E). exists x. split; [|done].
    simpl in *. tauto.
Qed.

Lemma sanitize_key k : pubkey_re k = true → _sanitize_pubkey k = Ok k.
Proof.
  intros Hk. unfold _sanitize_pubkey, sanitize. rewrite (pubkey_re_strip _ Hk), Hk. done.
Qed.

Lemma set_peer_effect dm pk s w w' :
  desired_ok dm → dget pk dm = Some s →
  _run_set_peer container iface pk s w = (w', 0) →
  peer_set pk s.(s_allowed_ips) (peers w) (peers w').
Proof.
  intros Hd Hs. unfold _run_set_peer. pose proof (do_word dm Hd pk s) as Hw.
  pose proof (do_addr dm Hd pk s Hs) as Ha.
  assert (pk ∈ dkeys dm) as Hpk by (apply dget_is_Some; eauto).
  unfold psk_of in Hw.
  destruct (s_preshared_key s) as [psk|]; [|by apply set_ok].
  destruct (str_truthy psk); [|by apply set_ok].
  apply set_psk_ok; [by eapply pubkey_re_word, do_keys|done|by apply Hw].
Qed.

(** The peers that are as desired. *)
Definition good dm w (k : string) : Prop :=
  ∃ s, dget k dm = Some s ∧ peers w !! k = Some s.(s_allowed_ips).

Lemma peer_set_good dm pk s w w' k :
  desired_ok dm → dget pk dm = Some s → peer_set pk s.(s_allowed_ips) (peers w) (peers w') →
  k = pk ∨ good dm w k → good dm w' k.
Proof.
  intros Hd Hs [Hpk Hoth] [->|(s' & Hs' & Hk)]; [exists s; eauto|].
  destruct (decide (k = pk)) as [->|Hne]; [exists s; eauto|].
  exists s'. split; [done|]. apply (Hoth k Hne); [done|]. by eapply (do_disjoint dm).
Qed.

Lemma peer_set_dom pk a (m m' : gmap string string) k :
  peer_set pk a m m' → is_Some (m' !! k) ↔ k = pk ∨ is_Some (m !! k).
Proof.
  intros [Hpk Hoth]. destruct (decide (k = pk)) as [->|Hne].
  - rewrite Hpk. split; [by left|eauto].
  - rewrite (proj1 (Hoth k Hne)). tauto.
Qed.

(** Every command succeeds. *)
Context (Hobey : ∀ cmd w, (run cmd w).2 = 0).

(** A loop of sets: within the budget all keys, over it the first ones. *)
Lemma set_phase dm keys budget count w :
  desired_ok dm → (∀ k, k ∈ keys → k ∈ dkeys dm) → 0 ≤ budget →
  let n := Z.min budget (Z.of_nat (length keys)) in
  ∃ w', mutate (set_act container iface dm) keys budget count w =
          (w', Ok (budget - n, count + n)) ∧
    (∀ k, k ∈ take (Z.to_nat n) keys ∨ good dm w k → good dm w' k) ∧
    (∀ k, is_Some (peers w' !! k) ↔ k ∈ take (Z.to_nat n) keys ∨ is_Some (peers w !! k)).
Proof.
  intros Hd. revert budget count w. induction keys as [|pk keys IH]; intros budget count w Hk Hb n.
  - exists w. subst n. simpl length. rewrite Z.min_r by lia. simpl.
    split_and!; [by rewrite Z.sub_0_r, Z.add_0_r|..]; intros k; rewrite elem_of_nil; tauto.
  - simpl mutate. destruct (budget <=? 0) eqn:E; bools.
    + assert (budget = 0) as -> by lia. exists w. subst n. rewrite Z.min_l by lia. simpl.
      split_and!; [by rewrite Z.add_0_r|..]; intros k; rewrite elem_of_nil; tauto.
    + unfold set_act at 1. destruct (dget pk dm) as [s|] eqn:Hs.
      2:{ exfalso. rewrite dget_None in Hs. apply Hs, Hk. left. }
      destruct (_run_set_peer container iface pk s w) as [w1 code] eqn:Er.
      assert (code = 0) as ->.
      { unfold _run_set_peer in Er. repeat case_match;
          match type of Er with run ?c _ = _ => pose proof (Hobey c w) as Ho end;
          by rewrite Er in Ho. }
      pose proof (set_peer_effect dm pk s w w1 Hd Hs Er) as Hps. rewrite Z.eqb_refl.
      destruct (IH (budget - 1) (count + 1) w1) as (w' & E' & Hg & Hdom);
        [intros k Hin; apply Hk; by right|lia|].
      assert (n = 1 + Z.min (budget - 1) (Z.of_nat (length keys))) as En
        by (subst n; simpl length; lia).
      exists w'. rewrite E', En. replace (Z.to_nat (1 + Z.min (budget - 1) (Z.of_nat (length keys))))
        with (S (Z.to_nat (Z.min (budget - 1) (Z.of_nat (length keys))))) by lia.
      simpl take. split_and!; [do 3 f_equal; lia|..]; intros k.
      * rewrite elem_of_cons. intros Hor. apply Hg.
        destruct Hor as [[->|?]|?]; [right|by left|right]; eapply (peer_set_good dm pk s w); eauto.
      * rewrite Hdom, elem_of_cons, (peer_set_dom _ _ _ _ _ Hps). tauto.
Qed.

Lemma remove_phase keys budget count w :
  (∀ k, k ∈ keys → pubkey_re k = true) → Z.of_nat (length keys) ≤ budget →
  ∃ w', mutate (remove_act container iface) keys budget count w =
          (w', Ok (budget - Z.of_nat (length keys), count + Z.of_nat (length keys))) ∧
    ∀ k, peers w' !! k = if decide (k ∈ keys) then None else peers w !! k.
Proof.
  revert budget count w. induction keys as [|pk keys IH]; intros budget count w Hk Hb.
  - exists w. split; [simpl; by rewrite Z.sub_0_r, Z.add_0_r|]. intros k.
    destruct (decide (k ∈ [])) as [Hin|]; [by apply elem_of_nil in Hin|done].
  - simpl mutate. simpl length in Hb. destruct (budget <=? 0) eqn:E; bools; [lia|].
    unfold remove_act at 1. rewrite sanitize_key by (apply Hk; left). cbn [mbind res_bind].
    destruct (run (remove_cmd container iface pk) w) as [w1 code] eqn:Er.
    assert (code = 0) as -> by (pose proof (Hobey (remove_cmd container iface pk) w) as Ho;
      by rewrite Er in Ho).
    apply remove_ok in Er. rewrite Z.eqb_refl.
    destruct (IH (budget - 1) (count + 1) w1) as (w' & E' & Hdom);
      [intros k Hin; apply Hk; by right|lia|].
    exists w'. rewrite E'. simpl length. split; [do 3 f_equal; lia|]. intros k.
    rewrite Hdom, Er.
    destruct (decide (k ∈ pk :: keys)) as [Hin|Hout], (decide (k ∈ keys)) as [Hin'|Hout'];
      rewrite elem_of_cons in *.
    + done.
    + destruct Hin as [->|?]; [apply lookup_delete_eq|done].
    + tauto.
    + apply lookup_delete_ne. intros ->. tauto.
Qed.

Lemma desired_map_NoDup desired dm : desired_map desired = Ok dm → NoDup (dkeys dm).
Proof.
  intros Hm. refine (foldl_res_inv (λ m, NoDup (dkeys m)) _ _ _ _ Hm _ _); [constructor|].
  intros m p m' _ Hn (e & _ & [= <-])%res_bind_ok. by apply dkeys_dset_NoDup.
Qed.

Lemma runtime_map_lookup m runtime pk :
  runtime_of m runtime → ∀ p, dget pk (runtime_map runtime) = Some p →
  m !! pk = Some p.(a_allowed_ips) ∧ p ∈ runtime.
Proof.
  intros [Hm _] p Hp. apply dget_Some_elem, elem_of_dict_of, list_elem_of_fmap in Hp
    as (q & [= -> ->] & [_ Hq]%elem_of_filterb). split; [|done]. apply Hm. eauto.
Qed.

Lemma runtime_map_keys m runtime pk :
  runtime_of m runtime → is_Some (m !! pk) ↔ pk ∈ dkeys (runtime_map runtime).
Proof.
  intros Hr. split.
  - intros [v Hv]. destruct Hr as [Hm Hall]. apply Hm in Hv as (p & Hp & <- & _).
    unfold runtime_map. rewrite elem_of_dkeys_dict_of, <- list_fmap_compose.
    apply list_elem_of_fmap. exists p. split; [done|]. apply elem_of_filterb. split; [|done].
    rewrite Forall_forall in Hall. destruct (Hall p Hp) as [Hk _]. apply str_truthy_true.
    intros E. by rewrite E in Hk.
  - rewrite <- dget_is_Some. intros [p Hp]. apply (runtime_map_lookup m) in Hp as [Hp _]; eauto.
Qed.

(** The three loops of a pass, before the peers are saved. *)
Lemma reconcile_run desired runtime dm n prune w :
  _sanitize_iface iface = Ok iface → _sanitize_container container = Ok container →
  desired_map desired = Ok dm →
  dm ≠ [] ∨ dkeys (runtime_map runtime) = [] ∨
    str_in (lower (strip prune)) ["1"; "true"; "yes"] = true →
  let rm := runtime_map runtime in
  ∀ w1 b1 a w2 b2 u w3 b3 r,
    mutate (set_act container iface dm) (missing dm rm) (Z.max 0 n) 0 w = (w1, Ok (b1, a)) →
    mutate (set_act container iface dm) (drifted dm rm) b1 0 w1 = (w2, Ok (b2, u)) →
    mutate (remove_act container iface) (orphans dm rm) b2 0 w2 = (w3, Ok (b3, r)) →
  ∃ w', _reconcile container iface desired runtime n false prune w = (w', Ok (a, r, u)) ∧
    peers w' = peers w3.
Proof.
  intros Hi Hc Hdm Hprune rm w1 b1 a w2 b2 u w3 b3 r H1 H2 H3. unfold _reconcile.
  rewrite Hi, Hc, Hdm. cbn [mbind res_bind]. fold rm.
  assert (bool_decide (dm = []) && bool_decide (dkeys rm ≠ []) &&
          negb (str_in (lower (strip prune)) ["1"; "true"; "yes"]) = false) as ->.
  { apply not_true_iff_false. intros [[Ha Hb]%andb_prop Hn]%andb_prop.
    apply bool_decide_eq_true_1 in Ha, Hb. apply negb_true_iff in Hn.
    unfold rm in *. destruct Hprune as [?|[?|?]]; congruence. }
  cbv zeta. rewrite H1, H2, H3. eexists. split; [done|].
  destruct (_ && _); [done|].
  destruct (run (save_cmd container iface) w3) as [w4 code] eqn:Es. by apply save_pure in Es.
Qed.

Lemma drifted_good dm runtime w k s :
  desired_ok dm → NoDup (dkeys dm) → runtime_of (peers w) runtime → dget k dm = Some s →
  k ∉ missing dm (runtime_map runtime) → k ∉ drifted dm (runtime_map runtime) →
  good dm w k.
Proof.
  intros Hd Hnd Hr Hs Hmiss Hdr. exists s. split; [done|].
  assert (k ∈ dkeys dm) as Hk by (apply dget_is_Some; eauto).
  destruct (dget k (runtime_map runtime)) as [p|] eqn:Hp.
  2:{ exfalso. apply Hmiss. apply elem_of_filterb. split; [by rewrite Hp|done]. }
  pose proof (runtime_map_lookup _ _ _ Hr p Hp) as [-> Hin]. f_equal.
  assert (spec_drifts (runtime_map runtime) (k, s) = false) as Hf.
  { apply not_true_iff_false. intros Ht. apply Hdr. unfold drifted, dkeys.
    apply list_elem_of_fmap. exists (k, s). split; [done|]. apply elem_of_filterb.
    split; [done|by apply dget_Some_elem]. }
  unfold spec_drifts in Hf. cbn [fst snd] in Hf. rewrite Hp in Hf.
  apply orb_false_elim in Hf as [Hf _]. rewrite (host_cidr_truthy _ (do_addr dm Hd k s Hs)) in Hf. cbn in Hf.
  apply negb_false_iff, String.eqb_eq in Hf. destruct Hr as [_ Hall].
  rewrite Forall_forall in Hall. destruct (Hall p Hin) as [_ Hst]. congruence.
Qed.

Lemma reconcile_converges desired runtime dm n prune w :
  _sanitize_iface iface = Ok iface → _sanitize_container container = Ok container →
  desired_map desired = Ok dm → desired_ok dm → runtime_of (peers w) runtime →
  dm ≠ [] ∨ dkeys (runtime_map runtime) = [] ∨
    str_in (lower (strip prune)) ["1"; "true"; "yes"] = true →
  let rm := runtime_map runtime in
  Z.of_nat (length (missing dm rm) + length (drifted dm rm) + length (orphans dm rm)) ≤ n →
  ∃ w', _reconcile container iface desired runtime n false prune w =
          (w', Ok (Z.of_nat (length (missing dm rm)), Z.of_nat (length (orphans dm rm)),
                   Z.of_nat (length (drifted dm rm)))) ∧
    ∀ pk, peers w' !! pk = s_allowed_ips <$> dget pk dm.
Proof.
  intros Hi Hc Hdm Hd Hr Hprune rm Hn. pose proof (desired_map_NoDup _ _ Hdm) as Hnd.
  assert (∀ k, k ∈ missing dm rm → k ∈ dkeys dm) as Hmk by (intros k [_ ?]%elem_of_filterb; done).
  assert (∀ k, k ∈ drifted dm rm → k ∈ dkeys dm) as Hdk.
  { intros k (e & -> & [_ He]%elem_of_filterb)%list_elem_of_fmap. by apply list_elem_of_fmap_2. }
  destruct (set_phase dm (missing dm rm) (Z.max 0 n) 0 w Hd Hmk ltac:(lia)) as (w1 & E1 & G1 & D1).
  rewrite Z.min_r in E1, G1, D1 by lia. rewrite Nat2Z.id, take_ge in G1, D1 by lia.
  destruct (set_phase dm (drifted dm rm) (Z.max 0 n - Z.of_nat (length (missing dm rm))) 0 w1 Hd Hdk
              ltac:(lia)) as (w2 & E2 & G2 & D2).
  rewrite Z.min_r in E2, G2, D2 by lia. rewrite Nat2Z.id, take_ge in G2, D2 by lia.
  destruct (remove_phase (orphans dm rm) (Z.max 0 n - Z.of_nat (length (missing dm rm)) -
              Z.of_nat (length (drifted dm rm))) 0 w2) as (w3 & E3 & D3); [|lia|].
  { intros k [_ Hk]%elem_of_filterb. rewrite <- dget_is_Some in Hk. destruct Hk as [p Hp].
    pose proof (dget_Some_elem _ _ _ Hp) as Hq. apply elem_of_dict_of, list_elem_of_fmap in Hq
      as (q & [= -> ->] & [_ Hq]%elem_of_filterb).
    destruct Hr as [_ Hall]. rewrite Forall_forall in Hall. by apply Hall. }
  destruct (reconcile_run desired runtime dm n prune w Hi Hc Hdm Hprune _ _ _ _ _ _ _ _ _ E1 E2 E3)
    as (w' & E & Hw').
  exists w'. rewrite !Z.add_0_l in E. split; [exact E|]. intros pk. rewrite Hw', D3.
  assert (∀ k, k ∈ orphans dm rm ↔ dget k dm = None ∧ is_Some (peers w !! k)) as Horph.
  { intros k. unfold orphans. rewrite elem_of_filterb, is_none_true, (runtime_map_keys _ _ _ Hr).
    done. }
  destruct (dget pk dm) as [s|] eqn:Hs.
  - destruct (decide (pk ∈ orphans dm rm)) as [[? _]%Horph|_]; [congruence|].
    assert (good dm w2 pk) as (s' & Hs' & Hv); [|simpl; congruence].
    apply G2. destruct (decide (pk ∈ drifted dm rm)); [by left|right].
    apply G1. destruct (decide (pk ∈ missing dm rm)); [by left|right].
    by eapply drifted_good.
  - destruct (decide (pk ∈ orphans dm rm)) as [_|Hout]; [done|].
    destruct (peers w2 !! pk) eqn:E'; [|done]. exfalso.
    assert (is_Some (peers w2 !! pk)) as Hsome by eauto.
    rewrite dget_None in Hs. apply D2 in Hsome as [?|[?|Hsome]%D1]; [naive_solver|naive_solver|].
    apply Hout, Horph. split; [by apply dget_None|done].
Qed.


(** Removals starve.  Peers with a preshared key are set again in every
    pass, before anything is removed: when at least as many of them are on the
    interface as the budget allows mutations, a pass removes nothing, however
    many revoked peers the interface holds, and every peer stays. *)
Theorem agent_removals_starve desired runtime dm n prune w :
  _sanitize_iface iface = Ok iface → _sanitize_container container = Ok container →
  desired_map desired = Ok dm → desired_ok dm → runtime_of (peers w) runtime → 0 ≤ n →
  n ≤ countZ (λ e, is_some (psk_of e.2) && is_some (dget e.1 (runtime_map runtime))) dm →
  dm ≠ [] →
  ∃ w' added updated, _reconcile container iface desired runtime n false prune w =
      (w', Ok (added, 0, updated)) ∧
    ∀ pk, is_Some (peers w !! pk) → is_Some (peers w' !! pk).
Proof.
  intros Hi Hc Hdm Hd Hr Hn0 Hn Hne. set (rm := runtime_map runtime) in *.
  assert (∀ k, k ∈ missing dm rm → k ∈ dkeys dm) as Hmk by (intros k [_ ?]%elem_of_filterb; done).
  assert (∀ k, k ∈ drifted dm rm → k ∈ dkeys dm) as Hdk.
  { intros k (e & -> & [_ He]%elem_of_filterb)%list_elem_of_fmap. by apply list_elem_of_fmap_2. }
  assert (n ≤ Z.of_nat (length (drifted dm rm))) as Hlen.
  { etrans; [exact Hn|]. unfold drifted, dkeys. rewrite length_fmap.
    change (countZ (λ e, is_some (psk_of e.2) && is_some (dget e.1 rm)) dm ≤ countZ (spec_drifts rm) dm).
    apply countZ_mono. intros e [Hp Hq]%andb_prop. unfold spec_drifts, psk_of, is_some in *.
    destruct (dget e.1 rm); [|done]. apply orb_true_intro. right.
    destruct (s_preshared_key e.2); [|done]. by destruct (str_truthy s). }
  destruct (set_phase dm (missing dm rm) (Z.max 0 n) 0 w Hd Hmk ltac:(lia)) as (w1 & E1 & _ & D1).
  destruct (set_phase dm (drifted dm rm) (Z.max 0 n - Z.min (Z.max 0 n)
              (Z.of_nat (length (missing dm rm)))) 0 w1 Hd Hdk ltac:(lia)) as (w2 & E2 & _ & D2).
  match type of E2 with _ = (_, Ok (?b, _)) => assert (b = 0) as Hb by lia; rewrite Hb in E2 end.
  assert (mutate (remove_act container iface) (orphans dm rm) 0 0 w2 = (w2, Ok (0, 0))) as E3
    by (by destruct (orphans dm rm)).
  destruct (reconcile_run desired runtime dm n prune w Hi Hc Hdm (or_introl Hne)
              _ _ _ _ _ _ _ _ _ E1 E2 E3) as (w' & E & Hw').
  exists w'. do 2 eexists. split; [exact E|]. intros pk Hpk. rewrite Hw'.
  apply D2. right. apply D1. by right.
Qed.
End passes.

(** ** A host that obeys *)

(** The peers of one interface; a script is read as its words. *)
Record host : Type := mkHost { host_peers : gmap string string }.

Definition exec (cmd : list string) (h : host) : host :=
  match length cmd with
  | 9%nat => mkHost (delete (nth_part 7 cmd) h.(host_peers))
  | 12%nat => mkHost (<[nth_part 7 cmd := nth_part 9 cmd]> h.(host_peers))
  | 6%nat =>
      if String.eqb (nth_part 3 cmd) "sh" then
        let words := split " " (nth_part 5 cmd) in
        mkHost (<[nth_part 8 words := nth_part 10 words]> h.(host_peers))
      else h
  | _ => h
  end.

#[export] Instance host_run : AwgHost host := { _run cmd h := (exec cmd h, (0, "", f0)) }.

Lemma shell_word_no_space s :
  shell_word s = true → forallb (λ a, negb (Ascii.eqb a " ")) (chars s) = true.
Proof.
  intros [_ Hs]%andb_prop. rewrite forallb_forall in *. intros c Hc. specialize (Hs c Hc).
  by destruct (Ascii.eqb_spec c " ") as [->|].
Qed.

Lemma mbind_singleton {A} (f : A → list A) l : (∀ x, x ∈ l → f x = [x]) → mbind f l = l.
Proof.
  induction l as [|x l IH]; intros H; [done|].
  rewrite bind_cons, H, IH; [done| |left]. intros y Hy. apply H. by right.
Qed.

Lemma quote_escape_id s : shell_word s = true → quote_escape s = s.
Proof.
  intros [_ Hs]%andb_prop. unfold quote_escape. rewrite mbind_singleton; [apply of_chars_chars|].
  intros c Hc%list_elem_of_In. rewrite forallb_forall in Hs. specialize (Hs c Hc).
  by destruct (Ascii.eqb_spec c "039") as [->|].
Qed.

Lemma psk_script_words iface pk allowed ka psk :
  shell_word iface = true → shell_word pk = true → shell_word allowed = true →
  shell_word psk = true →
  split " " (psk_script iface pk allowed ka psk) =
    ["printf"; "'%s\n'"; "'" +:+ psk +:+ "'"; "|"; "wg"; "set"; iface; "peer"; pk; "allowed-ips";
     allowed; "persistent-keepalive"; str_of_Z ka; "preshared-key"; "/dev/stdin"].
Proof.
  intros Hi Hp Ha Hk. unfold psk_script. rewrite quote_escape_id by done.
  transitivity (split " " (join (String " " "")
    ["printf"; "'%s\n'"; "'" +:+ psk +:+ "'"; "|"; "wg"; "set"; iface; "peer"; pk; "allowed-ips";
     allowed; "persistent-keepalive"; str_of_Z ka; "preshared-key"; "/dev/stdin"])).
  - f_equal. cbn [join String.app]. rewrite !append_assoc. done.
  - apply split_join; [|done]. repeat constructor; auto using shell_word_no_space.
    + rewrite !chars_app, !forallb_app, (shell_word_no_space psk) by done. done.
    + pose proof (field_int ka) as Hf. unfold field in Hf. rewrite forallb_forall in *.
      intros c Hc. specialize (Hf c Hc). by destruct (Ascii.eqb_spec c " ") as [->|].
Qed.

Lemma host_obeys cmd (h : host) : (run cmd h).2 = 0.
Proof. done. Qed.

Lemma insert_peer_set pk allowed (m : gmap string string) : peer_set pk allowed m (<[pk:=allowed]> m).
Proof.
  split; [apply lookup_insert_eq|]. intros k Hk. rewrite lookup_insert_ne by done. done.
Qed.

#[export] Instance host_laws : AwgHostLaws host "c1" "awg0" host_peers.
Proof.
  split; unfold run; cbn [_run host_run].
  - intros pk a ka h h' _ [= <-]. apply insert_peer_set.
  - intros pk a ka psk h h' Hp Ha%host_cidr_word Hk [= <-]. unfold exec, set_psk_cmd.
    cbn [length nth_part default]. unfold nth_part at 1. simpl String.eqb. cbv iota zeta.
    unfold nth_part. cbn [lookup list_lookup default]. unfold id.
    rewrite psk_script_words by done. apply insert_peer_set.
  - intros pk h h' [= <-]. done.
  - intros h h' code [= <- _]. done.
Qed.

Definition key_a : string := "AAAAAAAAAAAAAAAAAAAAAAAAAAAAAAAAAAAAAAAAAAA=".
Definition key_b : string := "BBBBBBBBBBBBBBBBBBBBBBBBBBBBBBBBBBBBBBBBBBB=".
Definition key_c : string := "CCCCCCCCCCCCCCCCCCCCCCCCCCCCCCCCCCCCCCCCCCC=".

Definition host_ac : host := mkHost {[ key_a := "10.8.1.2/32"; key_c := "10.8.1.9/32" ]}.

(** Peer A moves to another address and gets a preshared key, peer B is new,
    peer C is revoked. *)
Definition desired_ab : list pydict :=
  [[("public_key", VStr key_a); ("allowed_ips", VStr "10.8.1.3/32"); ("preshared_key", VStr "cHNr")];
   [("public_key", VStr key_b); ("allowed_ips", VStr "10.8.1.4/32")]].

Definition dump_ac : list Peer :=
  [mkPeer key_a "10.8.1.2/32" 0 0 0 ""; mkPeer key_c "10.8.1.9/32" 0 0 0 ""].

Definition desired_map_ab : list (string * PeerSpec) :=
  [(key_a, mkSpec "10.8.1.3/32" 25 (Some "cHNr")); (key_b, mkSpec "10.8.1.4/32" 25 None)].

Lemma dump_ac_ok : runtime_of (host_peers host_ac) dump_ac.
Proof.
  split; [|repeat constructor]. intros pk v. cbn [host_peers host_ac]. split.
  - intros [[<- <-]|[Hne [<- <-]%lookup_singleton_Some]]%lookup_insert_Some;
      [exists (mkPeer key_a "10.8.1.2/32" 0 0 0 "")|exists (mkPeer key_c "10.8.1.9/32" 0 0 0 "")];
      (split; [|done]); [left|right; left].
  - intros (p & Hp & <- & <-). unfold dump_ac in Hp.
    apply elem_of_cons in Hp as [->|[->|[]%elem_of_nil]%elem_of_cons]; by vm_compute.
Qed.

Lemma desired_map_ab_ok : desired_ok desired_map_ab.
Proof.
  split.
  - intros k Hk. apply elem_of_cons in Hk as [->|[->|[]%elem_of_nil]%elem_of_cons]; done.
  - intros k s. unfold desired_map_ab. simpl. repeat case_match; intros [= <-]; done.
  - intros k k' s s'. unfold desired_map_ab. simpl. repeat case_match; intros [= <-] [= <-];
      intros; try congruence; vm_compute; set_solver.
  - intros k s psk. unfold desired_map_ab. simpl. repeat case_match; intros [= <-] [= <-]; done.
Qed.


Lemma agent_removals_starve_witness :
  ∃ w' added updated, _reconcile "c1" "awg0" desired_ab dump_ac 1 false "" host_ac =
      (w', Ok (added, 0, updated)) ∧
    ∀ pk, is_Some (host_peers host_ac !! pk) → is_Some (host_peers w' !! pk).
Proof.
  apply (agent_removals_starve "c1" "awg0" host_peers host_obeys
           desired_ab dump_ac desired_map_ab 1 "" host_ac);
    [done|done|by vm_compute|exact desired_map_ab_ok|exact dump_ac_ok|done|by vm_compute|done].
Defined.
