(* ===== verification/AgentInspect.v ===== *)
(** * What the agent sees of its host ([node-agent/agent.py])

    The containers it takes for AmneziaWG nodes, the runtime state and the health
    score it reports of one, and the parsing of the obfuscation parameters and
    of the tunnel addresses. *)

From S2P Require Import Prelude PyFloat PyStr PyVal IpAddr NodeAgent.
Open Scope Z_scope.

(** ** Containers *)

(** What the agent reads of a [docker inspect] row; a missing member is the
    empty list. *)
Record Inspect : Type := mkInspect {
  i_id : option string;
  i_name : option string;
  i_image : option string;
  i_status : option string;          (** [State.Status] *)
  i_config_image : option string;    (** [Config.Image] *)
  i_entrypoint : list string;
  i_cmd : list string;
  i_mounts : list (option string);   (** [Destination] of each mount *)
  i_cap_add : list string;
  i_exposed_ports : list string;
  i_ports : list string
}.

Record ContainerCandidate : Type := mkCandidate {
  container_id : string;
  c_name : string;
  c_image : string;
  confidence : float;
  evidence : list string
}.

Definition add_port (st : list (string * Z)) (raw : string) : list (string * Z) :=
  match rpartition "/" raw with
  | None => st
  | Some (ps, proto) =>
      if isdigit ps then
        let key := (lower proto, default 0 (py_int ps)) in
        if decide (key ∈ st) then st else st ++ [key]
      else st
  end.

Definition _extract_ports (ins : Inspect) : list (string * Z) :=
  foldl add_port [] (ins.(i_exposed_ports) ++ ins.(i_ports)).

(** The marks of a node: image, entry point, tunnel device, capability, port. *)
Definition image_of (ins : Inspect) : string := ostr_or ins.(i_config_image) (ostr_or ins.(i_image) "").

Definition awg_image (ins : Inspect) : bool :=
  let image := lower (image_of ins) in contains "amnezia" image || contains "awg" image.

Definition awg_entry (ins : Inspect) : bool :=
  let entry := lower (join " " (ins.(i_entrypoint) ++ ins.(i_cmd))) in
  contains "amneziawg" entry || contains "wg " entry || contains "awg" entry.

Definition tun_mount (ins : Inspect) : bool :=
  existsb (λ m, match m with Some m => contains "/dev/net/tun" m | None => false end) ins.(i_mounts).

Definition net_admin (ins : Inspect) : bool :=
  str_in "NET_ADMIN" ins.(i_cap_add) || str_in "CAP_NET_ADMIN" ins.(i_cap_add).

Definition wg_port (ins : Inspect) : bool :=
  existsb (λ p, String.eqb p.1 "udp" && (51820 <=? p.2) && (p.2 <=? 52000)) (_extract_ports ins).

(** One mark: when it is there, raise the confidence and note the evidence. *)
Definition mark (b : bool) (c : float) (e : string) (st : float * list string) : float * list string :=
  if b then (fmax st.1 c, st.2 ++ [e]) else st.

Definition _classify_awg_candidate (ins : Inspect) : float * list string :=
  mark (wg_port ins) (lit 7 1) "port_wg_udp"
    (mark (net_admin ins) (lit 5 1) "cap_net_admin"
      (mark (tun_mount ins) (lit 5 1) "mount_tun"
        (mark (awg_entry ins) (lit 6 1) "entrypoint_awg"
          (mark (awg_image ins) (lit 7 1) "image_amnezia" (f0, []))))).

Definition cid_of (ins : Inspect) : string := str_take 12 (default "" ins.(i_id)).
Definition name_of (ins : Inspect) : string := lstrip_with (Ascii.eqb "/") (default "" ins.(i_name)).

Definition dump_cmd (container iface : string) : list string :=
  ["docker"; "exec"; container; "awg"; "show"; iface; "dump"].

(** [explicit] of the environment: [None] when it is not set. *)
Definition explicit_ok (explicit : option string) (ins : Inspect) : bool :=
  match explicit with
  | Some e => if str_truthy e then str_in e [cid_of ins; name_of ins] else true
  | None => true
  end.

Definition identified (ins : Inspect) : bool := str_truthy (cid_of ins) && str_truthy (name_of ins).

Section host.
Context {W : Type} `{AwgHost W}.
Implicit Types (w : W).

Definition _probe_awg (container iface : string) w : W * bool :=
  match (c ← _sanitize_container container; i ← _sanitize_iface iface; Ok (c, i)) with
  | Err _ => (w, false)
  | Ok (c, i) => let '(w, code) := run (dump_cmd c i) w in (w, code =? 0)
  end.

(** The first loop of [_pick_containers]: one inspected container. *)
Definition pick_one (explicit : option string) (st : W * list ContainerCandidate) (ins : Inspect)
    : W * list ContainerCandidate :=
  let '(w, out) := st in
  if negb (bool_decide (ins.(i_status) = Some "running")) then (w, out)
  else if negb (identified ins) then (w, out)
  else if negb (explicit_ok explicit ins) then (w, out)
  else
    let '(conf, ev) := _classify_awg_candidate ins in
    let '(w, conf, ev) :=
      if flt conf (lit 6 1) then
        let '(w, ok) := _probe_awg (cid_of ins) "awg0" w in
        if ok then (w, fmax conf (lit 8 1), ev ++ ["probe_awg"]) else (w, conf, ev)
      else (w, conf, ev) in
    if fge conf (lit 6 1)
    then (w, out ++ [mkCandidate (cid_of ins) (name_of ins) (image_of ins) conf ev])
    else (w, out).

(** The second loop: a container whose name has one of the prefixes. *)
Definition pick_prefix (prefixes : list string) (out : list ContainerCandidate) (ins : Inspect)
    : list ContainerCandidate :=
  if negb (identified ins) then out
  else if existsb (λ p, startswith p (name_of ins)) prefixes then
    if existsb (λ c, String.eqb c.(container_id) (cid_of ins)) out then out
    else out ++ [mkCandidate (cid_of ins) (name_of ins) (image_of ins) (lit 4 1) ["name_prefix_fallback"]]
  else out.

(** The prefixes of [CONTAINER_FILTER]; none under [auto]. *)
Definition filter_prefixes (container_filter : string) : list string :=
  let raw := lower (strip container_filter) in
  if str_in raw [""; "auto"] then [] else filterb str_truthy (strip <$> split "," raw).

Definition _pick_containers (container_filter : string) (explicit : option string)
    (inspect_rows : list Inspect) w : W * list ContainerCandidate :=
  let '(w, out) := foldl (pick_one explicit) (w, []) inspect_rows in
  let out := foldl (pick_prefix (filter_prefixes container_filter)) out inspect_rows in
  (w, sorted_by (λ a b, str_ltb a.(c_name) b.(c_name)) out).

(** [json_rows] stands for [json.loads] of the output, [None] when it is not a
    list of objects. *)
Definition _docker_inspect_all (json_rows : string → option (list Inspect)) w : W * list Inspect :=
  let '(w, (code, out, _)) := _run ["docker"; "ps"; "-q"] w in
  if negb (code =? 0) || negb (str_truthy (strip out)) then (w, [])
  else
    let ids := filterb str_truthy (strip <$> splitlines out) in
    if bool_decide (ids = []) then (w, [])
    else
      let '(w, (code2, out2, _)) := _run (["docker"; "inspect"] ++ ids) w in
      if negb (code2 =? 0) then (w, []) else (w, default [] (json_rows out2)).
End host.

(** The server id a container reports under. *)
Definition _server_id_from_container (container_name : string) : string :=
  let s := of_chars ((λ c, if is_alnum c || Ascii.eqb c "-" || Ascii.eqb c "_" then c else "_"%char)
                       <$> chars container_name) in
  let s := str_take 32 s in
  if str_truthy s then s else "container".

(** ** Obfuscation parameters of [wg show] *)

Definition obf_key (key : string) : option (string * bool) :=
  dget key [("jc", ("Jc", false)); ("jmin", ("Jmin", false)); ("jmax", ("Jmax", false));
            ("s1", ("S1", false)); ("s2", ("S2", false)); ("s3", ("S3", false)); ("s4", ("S4", false));
            ("h1", ("H1", true)); ("h2", ("H2", true)); ("h3", ("H3", true)); ("h4", ("H4", true))].

Definition obf_line (result : list (string * Z)) (line : string) : list (string * Z) :=
  match partition ":" (strip line) with
  | None => result
  | Some (key, val) =>
      match obf_key (lower (strip key)) with
      | None => result
      | Some (k, header) =>
          let v := strip val in
          if header && negb (isdigit v) then result
          else match py_int v with Some z => dset k z result | None => result end
      end
  end.

Definition _parse_wg_show_obfuscation (output : string) : option (list (string * Z)) :=
  let result := foldl obf_line [] (splitlines (strip output)) in
  if bool_decide (result = []) then None else Some result.

(** ** Tunnel addresses *)

(** An IPv4 network: its address and the length of its prefix. *)
Definition in_network (ip : Z) (network : Z * Z) : bool :=
  Z.shiftr ip (32 - network.2) =? Z.shiftr network.1 (32 - network.2).

Definition _ip_in_subnet (ip_str : string) (network : option (Z * Z)) : bool :=
  match network, ipv4_parse (strip ip_str) with
  | Some n, Some ip => in_network ip n
  | _, _ => false
  end.

(** [^\d{1,3}(\.\d{1,3}){3}$] *)
Definition dotted_quad (s : string) : bool :=
  let parts := split "." s in
  (length parts =? 4)%nat &&
  forallb (λ p, isdigit p && (String.length p <=? 3)%nat) parts.

Fixpoint first_tunnel_ip (network : option (Z * Z)) (parts : list string) : option string :=
  match parts with
  | [] => None
  | part :: rest =>
      let ip_part := match partition "/" part with Some (a, _) => strip a | None => part end in
      if str_truthy ip_part && dotted_quad ip_part && _ip_in_subnet ip_part network
      then Some ip_part
      else first_tunnel_ip network rest
  end.

Definition _extract_tunnel_ip (allowed_ips : string) (network : option (Z * Z)) : option string :=
  match network with
  | None => None
  | Some _ => first_tunnel_ip network (filterb str_truthy (strip <$> split "," allowed_ips))
  end.

(** ** Runtime state and health *)

Record RuntimeState : Type := mkRuntime {
  ok : bool;
  container_name : string;
  interface_name : string;
  r_public_key : string;
  listen_port : Z;
  r_peers : list Peer;
  total_rx : Z;
  total_tx : Z;
  last_handshake_max_age_sec : option Z;
  active_peers : Z;
  r_latency_ms : float;
  error : option string
}.

(** The greatest age of a handshake and the number of active peers. *)
Definition scan_peer (now_ts active_age_sec : Z) (st : option Z * Z) (p : Peer) : option Z * Z :=
  if 0 <? p.(a_last_handshake_ts) then
    let age := Z.max 0 (now_ts - p.(a_last_handshake_ts)) in
    (Some (match st.1 with None => age | Some m => Z.max m age end),
     if age <=? active_age_sec then st.2 + 1 else st.2)
  else st.

Definition net_cache : Type := list (string * (float * list string)).

Section runtime.
Context {W : Type} `{AwgHost W}.
Implicit Types (w : W) (cache : net_cache).

Definition check_network (container : string) w : W * list string :=
  let '(w, (code, out, _)) := _run ["docker"; "exec"; container; "sysctl"; "net.ipv4.ip_forward"] w in
  let w1 := if (code =? 0) && negb (contains "1" out) then ["net.ipv4.ip_forward is not 1"] else [] in
  let '(w, (code, out, _)) :=
    _run ["docker"; "exec"; container; "iptables"; "-t"; "nat"; "-n"; "-L"; "POSTROUTING"] w in
  let w2 := if (code =? 0) && negb (contains "MASQUERADE" out)
            then ["missing MASQUERADE in iptables nat POSTROUTING"] else [] in
  (w, w1 ++ w2).

(** The clocks are arguments: seconds since the epoch, and the monotonic clock
    the cache of the network checks is dated with. *)
Definition _runtime_state (container : string) (display_name : option string) (iface : string)
    (active_age_sec now_ts : Z) (now : float) cache w : W * net_cache * res RuntimeState :=
  match (i ← _sanitize_iface iface; c ← _sanitize_container container; Ok (i, c)) with
  | Err e => (w, cache, Err e)
  | Ok (iface, container) =>
      let '(w, (code, out, latency_ms)) := _run (dump_cmd container iface) w in
      let cname := ostr_or display_name container in
      if negb (code =? 0) then
        let err := str_take 200 (strip out) in
        (w, cache, Ok (mkRuntime false cname iface "" 0 [] 0 0 None 0 latency_ms
           (Some (if str_truthy err then err else "docker exec failed code=" +:+ str_of_Z code))))
      else
        let '(pub, port, peers) := _parse_dump out in
        let '(max_age, active) := foldl (scan_peer now_ts active_age_sec) (None, 0) peers in
        let '(cache_ts, cache_warn) := default (f0, []) (dget container cache) in
        let '(w, cache, warnings) :=
          if fge (fsub now cache_ts) (of_Z 60) then
            let '(w, warnings) := check_network container w in
            (w, dset container (now, warnings) cache, warnings)
          else (w, cache, cache_warn) in
        (w, cache, Ok (mkRuntime true cname iface pub port peers
           (sumZ (a_rx <$> peers)) (sumZ (a_tx <$> peers)) max_age active latency_ms
           (if bool_decide (warnings = []) then None else Some (join " / " warnings))))
  end.
End runtime.

Definition _health_score (rt : RuntimeState) : string * float :=
  if negb rt.(ok) then ("unhealthy", f0)
  else if match rt.(error) with Some e => str_truthy e | None => false end then ("unhealthy", f0)
  else if bool_decide (rt.(r_peers) = []) then ("healthy", f1)
  else
    let ratio := fdiv (of_Z rt.(active_peers)) (of_Z (Z.max 1 (Z.of_nat (length rt.(r_peers))))) in
    let latency_penalty := fmin (fmax (fdiv rt.(r_latency_ms) (of_Z 2000)) f0) (lit 25 2) in
    let score := clamp f0 f1 (fadd (fsub ratio latency_penalty) (lit 25 2)) in
    if fge score (lit 9 1) then ("healthy", score)
    else if fge score (lit 45 2) then ("degraded", score)
    else ("unhealthy", score).

(** ** Which containers are taken for nodes *)

(** The marks that are enough by themselves. *)
Definition confident (ins : Inspect) : bool := awg_image ins || awg_entry ins || wg_port ins.

Lemma classify_confident ins :
  flt (_classify_awg_candidate ins).1 (lit 6 1) = negb (confident ins) ∧
  fge (_classify_awg_candidate ins).1 (lit 6 1) = confident ins ∧
  fge (fmax (_classify_awg_candidate ins).1 (lit 8 1)) (lit 6 1) = true.
Proof.
  unfold _classify_awg_candidate, confident.
  destruct (awg_image ins), (awg_entry ins), (tun_mount ins), (net_admin ins), (wg_port ins);
    by vm_compute.
Qed.

Section pick.
#[local] Set Default Proof Using "Type*".
Context {W : Type} `{AwgHost W} (probes : string → bool).
Implicit Types (w : W) (ins : Inspect) (out : list ContainerCandidate).

(** Whether a container answers the probe does not change while the agent looks
    at the containers. *)
Context (Hprobe : ∀ c w, ((run (dump_cmd c "awg0") w).2 =? 0) = probes c).

Definition node explicit ins : bool :=
  bool_decide (ins.(i_status) = Some "running") && identified ins && explicit_ok explicit ins &&
  (confident ins || match _sanitize_container (cid_of ins) with Ok c => probes c | Err _ => false end).

Definition prefixed (prefixes : list string) ins : bool :=
  identified ins && existsb (λ p, startswith p (name_of ins)) prefixes.

Lemma probe_awg_eq c w :
  ∃ w', _probe_awg c "awg0" w =
    (w', match _sanitize_container c with Ok c => probes c | Err _ => false end).
Proof.
  unfold _probe_awg. destruct (_sanitize_container c) as [c'|e]; [|by eexists].
  cbn [mbind res_bind]. change (_sanitize_iface "awg0") with (Ok "awg0"). cbn [mbind res_bind].
  specialize (Hprobe c' w). destruct (run _ w) as [w' code]. exists w'. by f_equal.
Qed.

Lemma pick_one_ids explicit ins w out :
  ∃ w' out', pick_one explicit (w, out) ins = (w', out') ∧
    container_id <$> out' =
      (container_id <$> out) ++ (if node explicit ins then [cid_of ins] else []).
Proof.
  unfold pick_one, node. destruct (bool_decide _); simpl; [|by exists w, out; rewrite app_nil_r].
  destruct (identified ins); simpl; [|by exists w, out; rewrite app_nil_r].
  destruct (explicit_ok explicit ins); simpl; [|by exists w, out; rewrite app_nil_r].
  pose proof (classify_confident ins) as (H1 & H2 & H3).
  destruct (_classify_awg_candidate ins) as [conf ev]. cbn [fst] in H1, H2, H3. rewrite H1.
  destruct (confident ins); cbn [negb orb].
  - rewrite H2. do 2 eexists. split; [done|]. by rewrite fmap_app.
  - destruct (probe_awg_eq (cid_of ins) w) as [w' ->].
    destruct (match _sanitize_container (cid_of ins) with Ok c => probes c | Err _ => false end).
    + rewrite H3. do 2 eexists. split; [done|]. by rewrite fmap_app.
    + rewrite H2. do 2 eexists. split; [done|]. by rewrite app_nil_r.
Qed.

Lemma pick_loop_ids explicit rows w out :
  ∃ w' out', foldl (pick_one explicit) (w, out) rows = (w', out') ∧
    ∀ cid, cid ∈ container_id <$> out' ↔
      cid ∈ container_id <$> out ∨ ∃ ins, ins ∈ rows ∧ node explicit ins = true ∧ cid_of ins = cid.
Proof.
  revert w out. induction rows as [|ins rows IH]; intros w out; cbn [foldl].
  - exists w, out. split; [done|]. intros cid. split; [by left|]. by intros [?|(i & []%elem_of_nil & _)].
  - destruct (pick_one_ids explicit ins w out) as (w1 & out1 & -> & E1).
    destruct (IH w1 out1) as (w2 & out2 & -> & E2). exists w2, out2. split; [done|].
    intros cid. rewrite E2, E1, elem_of_app, exists_elem_cons.
    destruct (node explicit ins); [rewrite list_elem_of_singleton|rewrite elem_of_nil]; naive_solver.
Qed.

Lemma pick_prefix_ids prefixes ins out cid :
  cid ∈ container_id <$> pick_prefix prefixes out ins ↔
    cid ∈ container_id <$> out ∨ prefixed prefixes ins = true ∧ cid_of ins = cid.
Proof.
  unfold pick_prefix, prefixed. destruct (identified ins); cbn [negb andb]; [|naive_solver].
  destruct (existsb (λ p, startswith p (name_of ins)) prefixes); [|naive_solver].
  destruct (existsb (λ c, _) out) eqn:Eo.
  - apply existsb_exists in Eo as (c & Hc%list_elem_of_In & E%String.eqb_eq).
    split; [by left|]. intros [?|[_ <-]]; [done|]. rewrite <- E. by apply list_elem_of_fmap_2.
  - rewrite fmap_app. cbn [fmap list_fmap container_id]. rewrite elem_of_app, list_elem_of_singleton.
    naive_solver.
Qed.

Lemma prefix_loop_ids prefixes rows out cid :
  cid ∈ container_id <$> foldl (pick_prefix prefixes) out rows ↔
    cid ∈ container_id <$> out ∨ ∃ ins, ins ∈ rows ∧ prefixed prefixes ins = true ∧ cid_of ins = cid.
Proof.
  revert out. induction rows as [|ins rows IH]; intros out; cbn [foldl].
  - split; [by left|]. by intros [?|(i & []%elem_of_nil & _)].
  - rewrite IH, pick_prefix_ids, exists_elem_cons. naive_solver.
Qed.

(** Which containers the agent takes for nodes.  A candidate is exactly an
    inspected container with an id and a name that is running, is the explicit
    one if one is named, and carries an AmneziaWG image, entry point or UDP port
    or answers the probe; or one whose name has a prefix of the filter, running
    or not, named or not.  The candidates come sorted by name. *)
Theorem pick_containers_exact container_filter explicit rows w :
  ∃ w' out, _pick_containers container_filter explicit rows w = (w', out) ∧
    StronglySorted (λ a b, str_ltb b.(c_name) a.(c_name) = false) out ∧
    ∀ cid, (∃ c, c ∈ out ∧ c.(container_id) = cid) ↔
      ∃ ins, ins ∈ rows ∧ cid_of ins = cid ∧
        (node explicit ins = true ∨ prefixed (filter_prefixes container_filter) ins = true).
Proof.
  unfold _pick_containers. destruct (pick_loop_ids explicit rows w []) as (w1 & out1 & -> & E1).
  do 2 eexists. split; [done|]. split.
  - apply (sorted_by_sorted _ (λ _, True)); [..|by apply Forall_true].
    + intros a b _ _. apply str_ltb_asym.
    + intros a b c _ _ _. intros H1 H2. exact (str_ltb_negtrans _ _ _ H2 H1).
  - intros cid. assert (∀ l : list ContainerCandidate, (∃ c, c ∈ l ∧ container_id c = cid) ↔
      cid ∈ container_id <$> l) as Hl by (intros l; rewrite list_elem_of_fmap; naive_solver).
    rewrite Hl, sorted_by_perm, prefix_loop_ids, E1. change (container_id <$> []) with (@nil string).
    rewrite elem_of_nil. naive_solver.
Qed.
End pick.

Definition row (i n image : string) : Inspect :=
  mkInspect (Some i) (Some n) (Some image) (Some "running") None [] [] [] [] [] [].

Lemma host_probes c (h : host) : ((run (dump_cmd c "awg0") h).2 =? 0) = true.
Proof. done. Qed.

Lemma pick_containers_exact_witness :
  ∃ w' out, _pick_containers "auto" None [row "1" "/b" "amnezia-awg"; row "2" "/a" "nginx"] host_ac
      = (w', out) ∧
    StronglySorted (λ a b, str_ltb b.(c_name) a.(c_name) = false) out ∧
    ∀ cid, (∃ c, c ∈ out ∧ c.(container_id) = cid) ↔
      ∃ ins, ins ∈ [row "1" "/b" "amnezia-awg"; row "2" "/a" "nginx"] ∧ cid_of ins = cid ∧
        (node (λ _, true) None ins = true ∨ prefixed (filter_prefixes "auto") ins = true).
Proof. apply (pick_containers_exact (λ _, true) host_probes). Defined.

(** The prefix of the filter brings in a container that [CONTAINER_NAME] does
    not name, and it comes first. *)
Example explicit_container_not_exclusive :
  c_name <$> (_pick_containers "amnezia" (Some "node-b")
    [row "1" "/amnezia-a" "amnezia-awg"; row "2" "/node-b" "amnezia-awg"] host_ac).2 =
  ["amnezia-a"; "node-b"].
Proof. vm_compute. done. Qed.

(** ** The health score *)

(** The reported health is in [[0, 1]] and agrees with the reported status:
    healthy from 0.9, degraded from 0.45, unhealthy below; a container that did
    not answer or whose forwarding is broken is unhealthy at 0, and one without
    peers is healthy at 1. *)
Theorem health_score_sound rt :
  let '(st, sc) := _health_score rt in
  fle f0 sc = true ∧ fle sc f1 = true ∧
  st = (if fge sc (lit 9 1) then "healthy" else if fge sc (lit 45 2) then "degraded" else "unhealthy") ∧
  (ok rt = false ∨ (∃ e, error rt = Some e ∧ e ≠ "") → sc = f0) ∧
  (ok rt = true → error rt = None → r_peers rt = [] → sc = f1).
Proof.
  assert (fge f0 (lit 9 1) = false) as H1 by by vm_compute.
  assert (fge f0 (lit 45 2) = false) as H2 by by vm_compute.
  assert (fge f1 (lit 9 1) = true) as H3 by by vm_compute.
  unfold _health_score. generalize dependent (lit 9 1). generalize dependent (lit 45 2).
  intros l45 H2 l9 H1 H3. destruct (ok rt); cbn [negb]; [|rewrite H1, H2; by split_and!].
  assert (∀ e, str_truthy e = false → ¬ ((true = false) ∨ ∃ e', Some e = Some e' ∧ e' ≠ "")) as He.
  { intros e Ee%str_truthy_false [?|(e' & [= <-] & ?)]; done. }
  destruct (match error rt with Some e => str_truthy e | None => false end) eqn:E.
  { rewrite H1, H2. split_and!; try done. intros _ En. by rewrite En in E. }
  assert (¬ (true = false ∨ ∃ e, error rt = Some e ∧ e ≠ "")) as Hn.
  { destruct (error rt); [by apply He|]. by intros [?|(e & ? & ?)]. }
  case_bool_decide; [rewrite H3; by split_and!|]. cbv zeta.
  match goal with |- context [clamp f0 f1 ?x] =>
    pose proof (clamp_bounds f0 f1 x eq_refl) as [? ?]; generalize dependent (clamp f0 f1 x) end.
  intros sc ? ?. destruct (fge sc l9) eqn:E9, (fge sc l45) eqn:E45;
    rewrite ?E9, ?E45; split_and!; first [done|intros ?; by destruct Hn].
Qed.
