(* ===== verification/AgentCycle.v ===== *)
(** * The cycle of the node agent ([node-agent/agent.py])

    Writing the obfuscation parameters to the environment file of the node, and
    one round of [main]: the desired state, the reconciliation and the actions
    the control plane queued. *)

From S2P Require Import Prelude PyFloat PyStr PyVal NodeAgent AgentInspect.
Open Scope Z_scope.

(** ** The environment file *)

(** Text files: [None] is an [OSError]. *)
Class AgentFiles (W : Type) := {
  read_text : string → W → option string;
  write_text : string → string → W → option W
}.

(** [f.readlines()]: each line keeps its newline. *)
Fixpoint readlines_chars (cur l : list ascii) : list string :=
  match l with
  | [] => match cur with [] => [] | _ => [of_chars (rev cur)] end
  | a :: l' =>
      if Ascii.eqb a "010" then of_chars (rev (a :: cur)) :: readlines_chars [] l'
      else readlines_chars (a :: cur) l'
  end.

Definition readlines (s : string) : list string := readlines_chars [] (chars s).

Definition concat_lines (ls : list string) : string := foldr String.append "" ls.

(** The keys, the parameters they come from and their defaults. *)
Definition env_spec : list (string * (string * Z)) :=
  [("AWG_S1", ("s1", 213)); ("AWG_S2", ("s2", 237)); ("AWG_Jc", ("jc", 3));
   ("AWG_Jmin", ("jmin", 10)); ("AWG_Jmax", ("jmax", 50)); ("AWG_H1", ("h1", 0));
   ("AWG_H2", ("h2", 0)); ("AWG_H3", ("h3", 0)); ("AWG_H4", ("h4", 0))].

Definition env_want (obf : pydict) : res (list (string * Z)) :=
  map_res (λ e, z ← int_of (getd obf e.2.1 (VInt e.2.2)); Ok (e.1, z)) env_spec.

(** The first key the line sets. *)
Definition line_key (keys : list string) (line : string) : option string :=
  List.find (λ key, startswith (key +:+ "=") line) keys.

(** [int(line.split("=", 1)[1].strip().split("#")[0].strip())] *)
Definition line_value (line : string) : option Z :=
  match partition "=" line with
  | None => None
  | Some (_, v) => py_int (strip (hd "" (split "#" (strip v))))
  end.

Definition env_current (keys : list string) (lines : list string) : list (string * Z) :=
  foldl (λ current line,
    match line_key keys line with
    | None => current
    | Some key => match line_value line with Some z => dset key z current | None => current end
    end) [] lines.

(** [d1 == d2] on dicts *)
Definition dict_eq (d1 d2 : list (string * Z)) : bool :=
  (length d1 =? length d2)%nat && forallb (λ e, bool_decide (dget e.1 d2 = Some e.2)) d1.

Definition newline : string := String "010" "".

Definition setting (want : list (string * Z)) (key : string) : string :=
  key +:+ "=" +:+ str_of_Z (default 0 (dget key want)) +:+ newline.

(** [set_order] is the iteration order of a Python set. *)
Definition env_lines (set_order : list string → list string) (want : list (string * Z))
    (lines : list string) : list string :=
  let keys := dkeys want in
  let out := (λ line, match line_key keys line with Some key => setting want key | None => line end)
               <$> lines in
  let seen := filterb (λ key, negb (existsb (λ line, bool_decide (line_key keys line = Some key)) lines)) keys in
  out ++ (setting want <$> set_order seen).

Section env.
Context {W : Type} `{AwgHost W} `{AgentFiles W}.
Implicit Types (w : W).

Definition restart_cmd (container_id : string) : list string := ["docker"; "restart"; container_id].

Definition _apply_obfuscation_full_to_env (set_order : list string → list string)
    (env_path container_id : string) (obf : pydict) w : W * res unit :=
  match env_want obf with
  | Err e => (w, Err e)
  | Ok want =>
      match read_text env_path w with
      | None => (w, Ok tt)
      | Some text =>
          let lines := readlines text in
          if dict_eq (env_current (dkeys want) lines) want then (w, Ok tt)
          else
            match write_text env_path (concat_lines (env_lines set_order want lines)) w with
            | None => (w, Ok tt)
            | Some w => ((run (restart_cmd container_id) w).1, Ok tt)
            end
      end
  end.
End env.

(** ** Actions *)

Record DesiredState : Type := mkDesired { ds_peers : list pydict; ds_obfuscation : option pydict }.
Record Action : Type := mkAction { act_id : string; act_type : string; act_payload : pydict }.

(** The control plane, as the agent calls it. *)
Class AgentClient (W : Type) := {
  _desired_state : string → W → W * res DesiredState;
  _actions_poll : string → W → W * res (option Action);
  _actions_report : string → string → string → W → W * res unit
}.

(** The messages of exceptions, as [str(e)] prints them, are a parameter. *)
Section cycle.
Context {W : Type} `{AwgHost W} `{AgentFiles W} `{AgentClient W}.
Context (str_exn : exn → string).
Implicit Types (w : W).

(** The environment of the agent. *)
Record AgentEnv : Type := mkEnv {
  server_id : string;
  iface : string;
  env_path : string;
  max_mutations : Z;
  read_only_mode : bool;
  prune_empty : string
}.

(** [raise RuntimeError(f"docker restart exited {code}: ...")] unless it exits
    with 0. *)
Definition docker_restart (container : string) w : W * res unit :=
  let '(w, (code, out, _)) := _run (restart_cmd container) w in
  if code =? 0 then (w, Ok tt)
  else (w, Err (RuntimeError ("docker restart exited " +:+ str_of_Z code +:+ ": " +:+ str_take 200 out))).

Definition is_int (v : pyval) : bool := match v with VInt _ | VBool _ => true | _ => false end.

(** The lines of the file with H1 to H4 set: as above, but the missing keys are
    appended in order. *)
Definition h_lines (payload : pydict) (lines : list string) : list string :=
  let keys := ["AWG_H1"; "AWG_H2"; "AWG_H3"; "AWG_H4"] in
  let name key := lower (str_drop 4 key) in
  let set_h key := key +:+ "=" +:+ render (getv payload (name key)) +:+ newline in
  ((λ line, match line_key keys line with Some key => set_h key | None => line end) <$> lines) ++
  (set_h <$> filterb (λ key,
     negb (existsb (λ line, bool_decide (line_key keys line = Some key)) lines)) keys).

(** [(completed, message)] of [apply_obfuscation_h], and the world. *)
Definition apply_obfuscation_h (env : AgentEnv) (container : string) (payload : pydict) w
    : W * (string * string) :=
  if negb (forallb (λ k, is_int (getv payload k)) ["h1"; "h2"; "h3"; "h4"]) then
    (w, ("failed", "payload missing h1,h2,h3,h4"))
  else if negb (str_truthy env.(env_path)) then
    (w, ("failed", "AMNEZIA_NODE_ENV_PATH not set"))
  else
    match read_text env.(env_path) w with
    | None => (w, ("failed", str_take 300 (str_exn (OSError env.(env_path)))))
    | Some text =>
        match write_text env.(env_path) (concat_lines (h_lines payload (readlines text))) w with
        | None => (w, ("failed", str_take 300 (str_exn (OSError env.(env_path)))))
        | Some w =>
            let '(w, r) := docker_restart container w in
            match r with
            | Ok _ => (w, ("completed", "obfuscation_h applied, container restarted"))
            | Err e => (w, ("failed", str_take 300 (str_exn e)))
            end
        end
    end.

(** The body of the [try]: the world, the peers now desired, and the exception
    if one escapes. *)
Definition action_body (env : AgentEnv) (sid container : string) (runtime : list Peer)
    (desired_peers : list pydict) (act : Action) w : W * list pydict * res unit :=
  let report status message w :=
    let '(w, r) := _actions_report act.(act_id) status message w in (w, desired_peers, r) in
  if str_in act.(act_type) ["sync"; "apply_peers"] then
    let '(w, r) := _desired_state sid w in
    match r with
    | Err e => (w, desired_peers, Err e)
    | Ok ds =>
        let '(w, r) := _reconcile container env.(iface) ds.(ds_peers) runtime env.(max_mutations)
                         env.(read_only_mode) env.(prune_empty) w in
        match r with
        | Err e => (w, desired_peers, Err e)
        | Ok _ =>
            let '(w, r) := _actions_report act.(act_id) "completed" "ok" w in (w, ds.(ds_peers), r)
        end
    end
  else if str_in act.(act_type) ["drain"; "undrain"] then report "completed" "ok" w
  else if String.eqb act.(act_type) "restart_service" then
    let '(w, r) := docker_restart container w in
    match r with
    | Err e => (w, desired_peers, Err e)
    | Ok _ => report "completed" "container restarted" w
    end
  else if String.eqb act.(act_type) "apply_profile" then report "completed" "ok" w
  else if String.eqb act.(act_type) "apply_obfuscation_h" then
    let '(w, (status, message)) := apply_obfuscation_h env container act.(act_payload) w in
    report status message w
  else report "completed" "no-op" w.

(** An exception of the body is reported as a failure; an exception of that
    report is dropped. *)
Definition run_action (env : AgentEnv) (sid container : string) (runtime : list Peer)
    (desired_peers : list pydict) (act : Action) w : W * list pydict :=
  let '(w, desired_peers, r) := action_body env sid container runtime desired_peers act w in
  match r with
  | Ok _ => (w, desired_peers)
  | Err e => ((_actions_report act.(act_id) "failed" (str_take 500 (str_exn e)) w).1, desired_peers)
  end.

(** ** One round *)

(** The state of the loop: when each part last ran, and the peers last
    desired. *)
Record LoopState : Type := mkLoop {
  last_desired : float;
  last_reconcile : float;
  last_actions_poll : float;
  desired_peers : list pydict
}.

Definition due (now last interval : float) : bool := fge (fsub now last) interval.

(** Desired state, reconciliation and actions of one round for the primary
    container, whose runtime state is [rt]; [now] is the clock. *)
Definition round (set_order : list string → list string) (env : AgentEnv)
    (desired_interval reconcile_interval actions_interval now : float)
    (container : string) (rt : RuntimeState) (st : LoopState) w : W * LoopState * res unit :=
  let sid := if str_truthy env.(server_id) then env.(server_id)
             else _server_id_from_container rt.(container_name) in
  (* desired state *)
  let '(w, st, r) :=
    if due now st.(last_desired) desired_interval then
      let '(w, r) := _desired_state sid w in
      match r with
      | Err e => (w, st, Err e)
      | Ok ds =>
          let st := mkLoop now st.(last_reconcile) st.(last_actions_poll) ds.(ds_peers) in
          match ds.(ds_obfuscation) with
          | Some obf =>
              if negb (bool_decide (obf = [])) && str_truthy env.(env_path) && rt.(ok) then
                let '(w, r) := _apply_obfuscation_full_to_env set_order env.(env_path) container obf w in
                (w, st, r)
              else (w, st, Ok tt)
          | None => (w, st, Ok tt)
          end
      end
    else (w, st, Ok tt) in
  match r with
  | Err e => (w, st, Err e)
  | Ok _ =>
      (* reconciliation *)
      let '(w, st, r) :=
        if rt.(ok) && (feq st.(last_reconcile) f0 || due now st.(last_reconcile) reconcile_interval) then
          let '(w, r) := _reconcile container env.(iface) st.(desired_peers) rt.(r_peers)
                           env.(max_mutations) env.(read_only_mode) env.(prune_empty) w in
          match r with
          | Err e => (w, st, Err e)
          | Ok _ => (w, mkLoop st.(last_desired) now st.(last_actions_poll) st.(desired_peers), Ok tt)
          end
        else (w, st, Ok tt) in
      match r with
      | Err e => (w, st, Err e)
      | Ok _ =>
          (* actions *)
          if due now st.(last_actions_poll) actions_interval && rt.(ok) then
            let st := mkLoop st.(last_desired) st.(last_reconcile) now st.(desired_peers) in
            let '(w, r) := _actions_poll sid w in
            match r with
            | Err e => (w, st, Err e)
            | Ok None => (w, st, Ok tt)
            | Ok (Some act) =>
                let '(w, peers) := run_action env sid container rt.(r_peers) st.(desired_peers) act w in
                (w, mkLoop st.(last_desired) st.(last_reconcile) st.(last_actions_poll) peers, Ok tt)
            end
          else (w, st, Ok tt)
      end
  end.
End cycle.

(** ** The environment file settles *)

(** A line of a file that ends with a newline. *)
Definition line_ok (ln : string) : Prop :=
  ∃ l, chars ln = l ++ ["010"%char] ∧ "010"%char ∉ l.

Lemma readlines_app cur l r :
  "010"%char ∉ l →
  readlines_chars cur (l ++ "010"%char :: r) =
    of_chars (rev cur ++ l ++ ["010"%char]) :: readlines_chars [] r.
Proof.
  revert cur. induction l as [|a l IH]; intros cur Hl; simpl.
  - done.
  - destruct (Ascii.eqb_spec a "010") as [->|Hne]; [destruct Hl; left|].
    rewrite IH by (intros ?; apply Hl; by right). simpl. by rewrite <- app_assoc.
Qed.

Lemma readlines_concat ls : Forall line_ok ls → readlines (concat_lines ls) = ls.
Proof.
  unfold readlines. induction 1 as [|ln ls (l & E & Hl) Hls IH]; [done|].
  cbn [concat_lines foldr]. rewrite chars_app, E, <- app_assoc. cbn [app].
  rewrite readlines_app by done. cbn [rev app]. rewrite <- E, of_chars_chars. f_equal. exact IH.
Qed.

(** A text that is empty or ends with a newline. *)
Definition ends_nl (text : string) : Prop := text = "" ∨ ∃ s, text = s +:+ newline.

Lemma readlines_chars_ok cur l :
  "010"%char ∉ cur → Forall line_ok (readlines_chars cur (l ++ ["010"%char])).
Proof.
  revert cur. induction l as [|a l IH]; intros cur Hc; simpl.
  - constructor; [|constructor]. exists (rev cur). rewrite chars_of_chars. split; [done|].
    by rewrite list_elem_of_In, <- in_rev, <- list_elem_of_In.
  - destruct (Ascii.eqb_spec a "010") as [->|Hne].
    + constructor; [|by apply IH, not_elem_of_nil]. exists (rev cur).
      rewrite chars_of_chars. split; [done|]. by rewrite list_elem_of_In, <- in_rev, <- list_elem_of_In.
    + apply IH. rewrite not_elem_of_cons. done.
Qed.

Lemma readlines_ok text : ends_nl text → Forall line_ok (readlines text).
Proof.
  unfold readlines. intros [->|(s & ->)]; [constructor|]. rewrite chars_app.
  apply readlines_chars_ok, not_elem_of_nil.
Qed.

Lemma concat_lines_nl ls : Forall line_ok ls → ends_nl (concat_lines ls).
Proof.
  intros Hls. destruct ls as [|ln ls] using rev_ind; [by left|right]. clear IHls.
  apply Forall_app in Hls as [_ Hln]. apply Forall_singleton in Hln as (l & E & _).
  exists (concat_lines ls +:+ of_chars l).
  assert (∀ xs t, foldr String.append t xs = concat_lines xs +:+ t) as Hf.
  { induction xs as [|x xs IH]; intros t; [done|]. simpl. by rewrite IH, append_assoc. }
  unfold concat_lines at 1. rewrite foldr_app, Hf. cbn [foldr].
  apply chars_inj. rewrite !chars_app, E, chars_of_chars. simpl. by rewrite app_nil_r, app_assoc.
Qed.

(** ** The keys of the settings *)

Abbreviation env_keys := (env_spec.*1).

Lemma env_want_keys obf want : env_want obf = Ok want → dkeys want = env_keys.
Proof.
  unfold env_want, dkeys. intros Hw%map_res_Forall2.
  induction Hw as [|e [k z] es w He Hw IH]; [done|]. rewrite !fmap_cons, IH. f_equal.
  apply res_bind_ok in He as (z' & _ & [= <- _]). done.
Qed.

Lemma env_keys_NoDup : NoDup env_keys.
Proof. apply (bool_decide_unpack _). by vm_compute. Qed.

Ltac env_cases Hk :=
  cbn [env_spec fmap list_fmap fst] in Hk;
  repeat (apply elem_of_cons in Hk as [->|Hk]); [..|by apply elem_of_nil in Hk].

(** A setting sets its own key and no other. *)
Lemma line_key_setting key v :
  key ∈ env_keys → line_key env_keys (key +:+ "=" +:+ v) = Some key.
Proof.
  intros Hk. env_cases Hk; destruct v; by vm_compute.
Qed.

Lemma line_key_in keys line key : line_key keys line = Some key → key ∈ keys.
Proof. intros [H _]%List.find_some. by apply list_elem_of_In. Qed.

Lemma strip_newline s : field s = true → strip (s +:+ newline) = s.
Proof.
  intros Hs. unfold strip, lstrip_with, rstrip_with. rewrite chars_of_chars.
  destruct (chars s) as [|c l] eqn:E.
  - destruct s; [|done]. by vm_compute.
  - rewrite chars_app, E. unfold field in Hs. rewrite E in Hs.
    assert (is_space c = false) as Hc by (simpl in Hs; apply andb_prop in Hs as [? _];
      by apply negb_true_iff).
    cbn [app dropwhile]. rewrite Hc. change (chars newline) with ["010"%char].
    change (c :: l ++ ["010"%char]) with ((c :: l) ++ ["010"%char]). rewrite rev_app_distr.
    cbn [rev app dropwhile]. change (is_space "010") with true. cbv iota.
    assert (∀ a, a ∈ rev (c :: l) → is_space a = false) as Hall.
    { intros a Ha. rewrite forallb_forall in Hs. apply negb_true_iff, Hs.
      by rewrite in_rev, <- list_elem_of_In. }
    cbn [rev] in Hall. destruct (rev l ++ [c]) as [|a l'] eqn:Er; [by destruct (rev l)|].
    rewrite dropwhile_head by (apply Hall; left). rewrite <- Er, rev_app_distr, rev_involutive.
    cbn [rev app]. by rewrite <- E, of_chars_chars.
Qed.

Lemma partition_setting key v :
  key ∈ env_keys → ∃ k, partition "=" (key +:+ "=" +:+ v) = Some (k, v).
Proof.
  intros Hk. env_cases Hk; eexists; unfold partition; rewrite !chars_app; simpl; by rewrite of_chars_chars.
Qed.

Lemma line_value_setting want key z :
  key ∈ env_keys → dget key want = Some z → line_value (setting want key) = Some z.
Proof.
  intros Hk Hz. unfold line_value, setting. rewrite Hz. cbn [default id].
  destruct (partition_setting key (str_of_Z z +:+ newline) Hk) as (k & ->).
  rewrite strip_newline by apply field_int.
  assert (split "#" (str_of_Z z) = [str_of_Z z]) as ->.
  { change (str_of_Z z) with (join "#" [str_of_Z z]) at 1. apply split_join; [|done].
    repeat constructor. destruct (str_of_Z_chars z) as [Hf _]. rewrite forallb_forall in *.
    intros c Hc. specialize (Hf c Hc). by destruct (Ascii.eqb_spec c "#") as [->|]. }
  cbn [hd]. rewrite strip_str_of_Z. apply py_int_str_of_Z.
Qed.

Lemma setting_ok want key : key ∈ env_keys → line_ok (setting want key).
Proof.
  intros Hk. unfold setting. set (z := default 0 (dget key want)).
  exists (chars (key +:+ "=" +:+ str_of_Z z)). split; [by rewrite !chars_app, <- !app_assoc|].
  rewrite !chars_app, !elem_of_app. intros [H|[H|H]].
  - revert H. env_cases Hk; by apply (bool_decide_unpack _).
  - simpl in H. apply list_elem_of_singleton in H. done.
  - destruct (str_of_Z_chars z) as [Hf _]. rewrite forallb_forall in Hf.
    apply list_elem_of_In, Hf in H. done.
Qed.

(** ** Reading the settings back *)

Lemma dict_eq_intro d1 d2 :
  NoDup (dkeys d1) → NoDup (dkeys d2) → (∀ k, dget k d1 = dget k d2) → dict_eq d1 d2 = true.
Proof.
  intros H1 H2 Hd. unfold dict_eq. apply andb_true_intro. split.
  - apply Nat.eqb_eq. rewrite <- (length_fmap fst d1), <- (length_fmap fst d2).
    apply Permutation_length, NoDup_Permutation; [done|done|]. intros k.
    change (k ∈ dkeys d1 ↔ k ∈ dkeys d2). by rewrite <- !dget_is_Some, Hd.
  - apply forallb_forall. intros [k v] Hin%list_elem_of_In. apply bool_decide_eq_true. simpl.
    rewrite <- Hd. by apply elem_dget_Some.
Qed.

Definition has_key (key : string) (lines : list string) : bool :=
  existsb (λ line, bool_decide (line_key env_keys line = Some key)) lines.

Lemma has_key_true key lines :
  has_key key lines = true ↔ ∃ line, line ∈ lines ∧ line_key env_keys line = Some key.
Proof.
  unfold has_key. rewrite existsb_exists. split.
  - intros (l & ?%list_elem_of_In & ?%bool_decide_eq_true). eauto.
  - intros (l & ?%list_elem_of_In & ?). exists l. by rewrite bool_decide_eq_true.
Qed.

Lemma has_key_snoc key lines line :
  has_key key (lines ++ [line]) = has_key key lines || bool_decide (line_key env_keys line = Some key).
Proof. unfold has_key. rewrite existsb_app. cbn [existsb]. by rewrite orb_false_r. Qed.

Lemma env_current_spec want lines :
  (∀ line key, line ∈ lines → line_key env_keys line = Some key →
     ∃ z, dget key want = Some z ∧ line_value line = Some z) →
  NoDup (dkeys (env_current env_keys lines)) ∧
  ∀ key, dget key (env_current env_keys lines) = if has_key key lines then dget key want else None.
Proof.
  induction lines as [|line lines IH] using rev_ind; intros Hl; [by split; [constructor|]|].
  destruct IH as [Hnd IH]; [intros l k Hin; apply Hl; apply elem_of_app; by left|].
  unfold env_current. rewrite foldl_snoc. fold (env_current env_keys lines).
  specialize (Hl line). setoid_rewrite has_key_snoc.
  destruct (line_key env_keys line) as [k|] eqn:Ek.
  - destruct (Hl k) as (z & Hz & ->); [apply elem_of_app; right; left|done|].
    split; [by apply dkeys_dset_NoDup|]. intros key. rewrite dget_dset, IH.
    destruct (decide (key = k)) as [->|Hne].
    + by rewrite (bool_decide_eq_true_2 (Some k = Some k)), orb_true_r.
    + rewrite (bool_decide_eq_false_2 (Some k = Some key)) by congruence. by rewrite orb_false_r.
  - split; [done|]. intros key. rewrite IH, (bool_decide_eq_false_2 (None = Some key)) by done.
    by rewrite orb_false_r.
Qed.

Section settled.
Context (set_order : list string → list string) (want : list (string * Z)).
Context (Horder : ∀ l, set_order l ≡ₚ l) (Hwant : dkeys want = env_keys).

Lemma env_lines_key line key lines :
  line ∈ env_lines set_order want lines → line_key env_keys line = Some key →
  line = setting want key ∧ key ∈ env_keys.
Proof using All.
  unfold env_lines. rewrite Hwant, elem_of_app.
  intros [(l & -> & Hl)%list_elem_of_fmap|(k & -> & Hk)%list_elem_of_fmap] E.
  - destruct (line_key env_keys l) as [k|] eqn:El; [|congruence].
    pose proof (line_key_in _ _ _ El) as Hk. unfold setting in E.
    rewrite line_key_setting in E by done. simplify_eq. by split.
  - rewrite Horder in Hk. apply elem_of_filterb in Hk as [_ Hk]. unfold setting in E.
    rewrite line_key_setting in E by done. simplify_eq. by split.
Qed.

Lemma env_lines_has key lines :
  key ∈ env_keys → setting want key ∈ env_lines set_order want lines.
Proof using All.
  intros Hk. unfold env_lines. rewrite Hwant, elem_of_app.
  destruct (has_key key lines) eqn:Eh; [left|right]; apply list_elem_of_fmap.
  - apply has_key_true in Eh as (l & Hl & El). exists l. by rewrite El.
  - exists key. split; [done|]. rewrite Horder, elem_of_filterb. split; [|done].
    unfold has_key in Eh. by rewrite Eh.
Qed.

Lemma env_lines_current lines :
  dict_eq (env_current env_keys (env_lines set_order want lines)) want = true.
Proof using All.
  assert (∀ key, key ∈ env_keys → ∃ z, dget key want = Some z) as Hz.
  { intros key Hk. apply dget_is_Some. by rewrite Hwant. }
  destruct (env_current_spec want (env_lines set_order want lines)) as [Hnd Hget].
  { intros line key Hl Ek. destruct (env_lines_key _ _ _ Hl Ek) as [-> Hk].
    destruct (Hz key Hk) as [z Ez]. exists z. split; [done|]. by apply line_value_setting. }
  apply dict_eq_intro; [done|rewrite Hwant; apply env_keys_NoDup|].
  intros key. rewrite Hget. destruct (has_key key _) eqn:Eh; [done|]. symmetry. apply dget_None.
  rewrite Hwant. intros Hk. apply (env_lines_has key lines) in Hk as Hin.
  apply not_true_iff_false in Eh. destruct Eh. apply has_key_true. exists (setting want key).
  split; [done|]. by apply line_key_setting.
Qed.

Lemma env_lines_ok lines : Forall line_ok lines → Forall line_ok (env_lines set_order want lines).
Proof using All.
  intros Hl. unfold env_lines. rewrite Hwant. apply Forall_app. split; apply Forall_fmap, Forall_forall.
  - intros line Hin. unfold compose. destruct (line_key env_keys line) as [k|] eqn:E.
    + apply setting_ok. by eapply line_key_in.
    + rewrite Forall_forall in Hl. by apply Hl.
  - intros key Hk. rewrite Horder in Hk. apply elem_of_filterb in Hk as [_ Hk]. by apply setting_ok.
Qed.

(** A line that sets none of the keys. *)
Definition foreign (line : string) : bool := is_none (line_key env_keys line).

Lemma env_lines_foreign lines :
  filterb foreign (env_lines set_order want lines) = filterb foreign lines.
Proof using All.
  unfold env_lines. rewrite Hwant, filter_app.
  assert (∀ key, key ∈ env_keys → foreign (setting want key) = false) as Hf.
  { intros key Hk. unfold foreign, setting. by rewrite line_key_setting. }
  assert (filterb foreign (setting want <$> set_order (filterb (λ key, negb (existsb (λ line,
    bool_decide (line_key env_keys line = Some key)) lines)) env_keys)) = []) as ->.
  { apply filterb_none, Forall_fmap, Forall_forall. intros key Hk.
    rewrite Horder in Hk. apply elem_of_filterb in Hk as [_ Hk]. unfold compose. by rewrite Hf. }
  rewrite app_nil_r. induction lines as [|line lines IH]; [done|]. rewrite fmap_cons.
  destruct (line_key env_keys line) as [k|] eqn:E.
  - rewrite !filter_cons_False; [done| |].
    + unfold foreign. by rewrite E.
    + rewrite Hf; [done|]. by eapply line_key_in.
  - assert (foreign line = true) as Hl by (unfold foreign; by rewrite E).
    rewrite !filter_cons_True by done. by rewrite IH.
Qed.
End settled.

Section settles.
#[local] Set Default Proof Using "Type*".
Context {W : Type} `{AwgHost W} `{AgentFiles W} (set_order : list string → list string).
Implicit Types (w : W).

(** What is written is read back, and a container that restarts leaves the file
    of the node alone. *)
Context (Horder : ∀ l, set_order l ≡ₚ l)
  (Hwrite : ∀ p t w w', write_text p t w = Some w' → read_text p w' = Some t)
  (Hrestart : ∀ p c w, read_text p (run (restart_cmd c) w).1 = read_text p w).

(** The environment file settles.  When the file ends with a newline, one
    application leaves every parameter the control plane wants in the file,
    where it is read back as it was sent, and every other line as it was, in
    order; the next application, with the same parameters, writes nothing and
    restarts nothing. *)
Theorem env_apply_settles path container obf want text w w1 :
  env_want obf = Ok want → read_text path w = Some text → ends_nl text →
  write_text path (concat_lines (env_lines set_order want (readlines text))) w = Some w1 →
  ∃ w' text', _apply_obfuscation_full_to_env set_order path container obf w = (w', Ok tt) ∧
    read_text path w' = Some text' ∧ ends_nl text' ∧
    dict_eq (env_current env_keys (readlines text')) want = true ∧
    filterb foreign (readlines text') = filterb foreign (readlines text) ∧
    _apply_obfuscation_full_to_env set_order path container obf w' = (w', Ok tt).
Proof.
  intros Hw Hr Hnl Hwr. pose proof (env_want_keys _ _ Hw) as Hk.
  unfold _apply_obfuscation_full_to_env. rewrite Hw, Hr, Hk.
  destruct (dict_eq (env_current env_keys (readlines text)) want) eqn:Ed.
  { exists w, text. rewrite Hr, Ed. done. }
  rewrite Hwr. pose proof (env_lines_ok set_order want Horder Hk _ (readlines_ok _ Hnl)) as Hok.
  do 2 eexists. split; [done|]. rewrite Hrestart, (Hwrite _ _ _ _ Hwr). split; [done|].
  split; [by apply concat_lines_nl|]. rewrite readlines_concat by done.
  rewrite env_lines_current, env_lines_foreign by done. done.
Qed.
End settles.

(** A node of one file that restarts when it is told to. *)
Record mini : Type := mkMini { m_file : string; m_log : list (list string) }.

#[export] Instance mini_run : AwgHost mini :=
  { _run cmd m := (mkMini m.(m_file) (m.(m_log) ++ [cmd]), (0, "", f0)) }.

#[export] Instance mini_files : AgentFiles mini :=
  { read_text _ m := Some m.(m_file); write_text _ t m := Some (mkMini t m.(m_log)) }.

Definition mini_env : mini := mkMini (concat_lines ["FOO=1" +:+ newline; "AWG_S1=5 # old" +:+ newline]) [].

Definition mini_obf : pydict := [("s1", VInt 77); ("h1", VInt 1234567)].

Lemma env_apply_settles_witness :
  ∃ w' text', _apply_obfuscation_full_to_env id "/env" "c1" mini_obf mini_env = (w', Ok tt) ∧
    read_text "/env" w' = Some text' ∧ ends_nl text' ∧
    dict_eq (env_current env_keys (readlines text')) 
      [("AWG_S1", 77); ("AWG_S2", 237); ("AWG_Jc", 3); ("AWG_Jmin", 10); ("AWG_Jmax", 50);
       ("AWG_H1", 1234567); ("AWG_H2", 0); ("AWG_H3", 0); ("AWG_H4", 0)] = true ∧
    filterb foreign (readlines text') = filterb foreign (readlines (m_file mini_env)) ∧
    _apply_obfuscation_full_to_env id "/env" "c1" mini_obf w' = (w', Ok tt).
Proof.
  eapply (env_apply_settles id (λ l, reflexivity l)); [|done|by vm_compute|done|right|reflexivity].
  - intros p t w w' [= <-]. done.
  - exists ("FOO=1" +:+ newline +:+ "AWG_S1=5 # old"). by vm_compute.
Defined.

(** Without the last newline, the first appended setting joins the last line:
    that line is lost and the setting is not read back. *)
Example env_apply_joins_last_line :
  m_file (_apply_obfuscation_full_to_env id "/env" "c1" mini_obf (mkMini "PORT=1" [])).1 =
    "PORT=1AWG_S1=77" +:+ newline +:+ concat_lines ((λ l, l +:+ newline) <$>
      ["AWG_S2=237"; "AWG_Jc=3"; "AWG_Jmin=10"; "AWG_Jmax=50"; "AWG_H1=1234567"; "AWG_H2=0";
       "AWG_H3=0"; "AWG_H4=0"]).
Proof. by vm_compute. Qed.
