(* ===== verification/AgentApi.v ===== *)
(** * The agent API of the control plane ([api/v1/agent.py],
    [services/agent_action_service.py], [api/v1/servers_actions.py])

    The queue of actions of each server and its hand-out to the agent, the
    desired state an agent reconciles with, and the registration of servers from
    heartbeats. *)

From S2P Require Import Prelude PyFloat PyStr PyVal Settings Models AmneziaConfig.
Open Scope Z_scope.

(** ** The database *)

Record agent_db : Type := mkAgentDb {
  devices : list Device.t;
  servers : list Server.t;
  profiles : list ServerProfile.t;
  actions : list AgentAction.t;
  logs : list AgentActionLog.t;
  audit : list AuditLog.t
}.

Definition set_servers (l : list Server.t) (db : agent_db) : agent_db :=
  mkAgentDb db.(devices) l db.(profiles) db.(actions) db.(logs) db.(audit).
Definition set_actions (l : list AgentAction.t) (db : agent_db) : agent_db :=
  mkAgentDb db.(devices) db.(servers) db.(profiles) l db.(logs) db.(audit).
Definition set_logs (l : list AgentActionLog.t) (db : agent_db) : agent_db :=
  mkAgentDb db.(devices) db.(servers) db.(profiles) db.(actions) l db.(audit).
Definition log_audit (admin_id : option string) (action resource_type : string)
    (resource_id : option string) (old_new : pydict) (db : agent_db) : agent_db :=
  mkAgentDb db.(devices) db.(servers) db.(profiles) db.(actions) db.(logs)
    (db.(audit) ++ [AuditLog.mk admin_id action resource_type resource_id old_new]).

Definition get_server (sid : string) (db : agent_db) : option Server.t :=
  List.find (λ s, String.eqb s.(Server.id) sid) db.(servers).

Definition update_server (sid : string) (f : Server.t → Server.t) (db : agent_db) : agent_db :=
  set_servers ((λ s, if String.eqb s.(Server.id) sid then f s else s) <$> db.(servers)) db.

(** ** The action service *)

Definition ostr (o : option string) : pyval := match o with Some s => VStr s | None => VNone end.

(** [new_id] and [now] are the defaults the insert fills in. *)
Definition create_action (new_id : string) (now : Z) (server_id type : string)
    (payload : option pydict) (requested_by correlation_id : option string) (db : agent_db)
    : agent_db * AgentAction.t :=
  let action := AgentAction.mk new_id server_id type payload "pending" requested_by now None None
                  None correlation_id in
  (set_actions (db.(actions) ++ [action]) db, action).

Definition get_action (action_id : string) (db : agent_db) : option AgentAction.t :=
  List.find (λ a, String.eqb a.(AgentAction.id) action_id) db.(actions).

(** The foreign key of the log refuses an action that does not exist. *)
Definition append_log (now : Z) (action_id level message : string) (meta : option pydict)
    (db : agent_db) : res agent_db :=
  match get_action action_id db with
  | None => Err (IntegrityError "agent_action_logs_action_id_fkey")
  | Some _ => Ok (set_logs (db.(logs) ++ [AgentActionLog.mk action_id now level message meta]) db)
  end.

Definition option_or {A} (new old : option A) : option A := match new with Some _ => new | None => old end.

Definition set_fields (status : string) (error : option string) (started_at finished_at : option Z)
    (a : AgentAction.t) : AgentAction.t :=
  AgentAction.mk a.(AgentAction.id) a.(AgentAction.server_id) a.(AgentAction.type)
    a.(AgentAction.payload) status a.(AgentAction.requested_by) a.(AgentAction.requested_at)
    (option_or started_at a.(AgentAction.started_at))
    (option_or finished_at a.(AgentAction.finished_at))
    (option_or error a.(AgentAction.error)) a.(AgentAction.correlation_id).

Definition set_status (action_id status : string) (error : option string)
    (started_at finished_at : option Z) (db : agent_db) : agent_db * bool :=
  match get_action action_id db with
  | None => (db, false)
  | Some _ =>
      (set_actions ((λ a, if String.eqb a.(AgentAction.id) action_id
                          then set_fields status error started_at finished_at a else a)
                      <$> db.(actions)) db, true)
  end.

Definition pending (server_id : string) (a : AgentAction.t) : bool :=
  String.eqb a.(AgentAction.server_id) server_id && String.eqb a.(AgentAction.status) "pending".

Definition older (a b : AgentAction.t) : bool :=
  a.(AgentAction.requested_at) <? b.(AgentAction.requested_at).

(** The oldest pending action of the server. *)
Definition get_pending_action (server_id : string) (db : agent_db) : option AgentAction.t :=
  hd_error (sorted_by older (filterb (pending server_id) db.(actions))).

(** A page of the actions, newest first, and their number. *)
Definition list_actions (server_id : string) (status_filter : list string) (limit offset : nat)
    (db : agent_db) : list AgentAction.t * Z :=
  let matching := filterb (λ a, String.eqb a.(AgentAction.server_id) server_id &&
    (bool_decide (status_filter = []) || str_in a.(AgentAction.status) status_filter)) db.(actions) in
  (take limit (drop offset (sorted_by (λ a b, older b a) matching)), Z.of_nat (length matching)).

(** ** The agent's endpoints *)

Definition _require_agent_token (settings : Settings) (x_agent_token : option string) : res unit :=
  if negb (str_truthy settings.(agent_shared_token)) then
    Err (HTTPException 503 "AGENT_API_DISABLED")
  else
    match x_agent_token with
    | Some t => if str_truthy t && String.eqb t settings.(agent_shared_token) then Ok tt
                else Err (HTTPException 401 "AGENT_UNAUTHORIZED")
    | None => Err (HTTPException 401 "AGENT_UNAUTHORIZED")
    end.

(** The action handed out: [(action_id, type, payload)]. *)
Definition agent_v1_actions_poll (settings : Settings) (token : option string) (now : Z)
    (server_id : string) (db : agent_db)
    : res (agent_db * option (string * string * option pydict)) :=
  _ ← _require_agent_token settings token;
  match get_pending_action server_id db with
  | None => Ok (db, None)
  | Some action =>
      let '(db, _) := set_status action.(AgentAction.id) "running" None (Some now) None db in
      db ← append_log now action.(AgentAction.id) "info" "Agent started execution" None db;
      Ok (db, Some (action.(AgentAction.id), action.(AgentAction.type), action.(AgentAction.payload)))
  end.

Definition agent_v1_actions_report (settings : Settings) (token : option string) (now : Z)
    (action_id status message : string) (meta : option pydict) (db : agent_db) : res agent_db :=
  _ ← _require_agent_token settings token;
  let failed := String.eqb status "failed" in
  db ← append_log now action_id (if failed then "error" else "info")
         (if str_truthy message then message else status) meta db;
  let '(db, ok) := set_status action_id status (if failed then Some message else None) None
                     (Some now) db in
  let db :=
    if ok && str_in status ["completed"; "failed"] then
      match get_action action_id db with
      | Some action =>
          let db := log_audit None ("action." +:+ status) "agent_action" (Some action_id)
            [("server_id", VStr action.(AgentAction.server_id)); ("type", VStr action.(AgentAction.type));
             ("status", VStr status)] db in
          if String.eqb action.(AgentAction.type) "sync" && String.eqb status "completed"
          then update_server action.(AgentAction.server_id) (Server.set_snapshot_at now) db
          else db
      | None => db
      end
    else db in
  if ok then Ok db else Err (HTTPException 404 "Action not found").

(** ** The desired state *)

Record AgentDesiredPeer : Type := mkDesiredPeer {
  dp_public_key : string;
  dp_allowed_ips : string;
  dp_persistent_keepalive : Z;
  dp_preshared_key : option string
}.

Record ObfuscationFullOut : Type := mkObf {
  o_s1 : Z; o_s2 : Z; o_jc : Z; o_jmin : Z; o_jmax : Z; o_h1 : Z; o_h2 : Z; o_h3 : Z; o_h4 : Z
}.

Record AgentDesiredStateOut : Type := mkDesiredState {
  ds_server_id : string;
  ds_interface_name : string;
  ds_revision : string;
  ds_peers : list AgentDesiredPeer;
  ds_obfuscation_h : option (Z * Z * Z * Z);
  ds_obfuscation_full : option ObfuscationFullOut
}.

(** The devices that should be on the node, oldest first. *)
Definition desired_device (server_id : string) (d : Device.t) : bool :=
  String.eqb d.(Device.server_id) server_id && is_none d.(Device.revoked_at) &&
  is_none d.(Device.suspended_at).

Definition desired_peer (d : Device.t) : AgentDesiredPeer :=
  let psk := strip (ostr_or d.(Device.preshared_key) "") in
  mkDesiredPeer d.(Device.public_key) (strip (ostr_or d.(Device.allowed_ips) "10.8.1.2/32")) 25
    (if str_truthy psk then Some psk else None).

Definition desired_rows (server_id : string) (db : agent_db) : list Device.t :=
  filterb (λ d, str_truthy d.(Device.public_key))
    (sorted_by (λ a b, a.(Device.created_at) <? b.(Device.created_at))
       (filterb (desired_device server_id) db.(devices))).

(** [sha256] stands for the hexadecimal digest. *)
Definition _rev_for (sha256 : string → string) (server_id : string) (peers : list AgentDesiredPeer)
    : string :=
  str_take 16 (sha256 (server_id +:+ foldr (λ p s,
    p.(dp_public_key) +:+ String "000" "" +:+ p.(dp_allowed_ips) +:+ String "000" "" +:+
    ostr_or p.(dp_preshared_key) "" +:+ String "000" "" +:+ s) "" peers)).

Definition obfuscation_full (s : Server.t) (params : pydict) : res (option ObfuscationFullOut) :=
  match s.(Server.amnezia_h1), s.(Server.amnezia_h2), s.(Server.amnezia_h3), s.(Server.amnezia_h4) with
  | Some h1, Some h2, Some h3, Some h4 =>
      s1 ← int_of (getd params "amnezia_s1" (VInt DEFAULT_S1));
      s2 ← int_of (getd params "amnezia_s2" (VInt DEFAULT_S2));
      jc ← int_of (getd params "amnezia_jc" (VInt DEFAULT_Jc));
      jmin ← int_of (getd params "amnezia_jmin" (VInt DEFAULT_Jmin));
      jmax ← int_of (getd params "amnezia_jmax" (VInt DEFAULT_Jmax));
      Ok (Some (mkObf s1 s2 jc jmin jmax h1 h2 h3 h4))
  | _, _, _, _ => Ok None
  end.

(** The parameters of the oldest profile of the server. *)
Definition first_profile (server_id : string) (db : agent_db) : pydict :=
  match sorted_by (λ a b, a.(ServerProfile.created_at) <? b.(ServerProfile.created_at))
          (filterb (λ p, String.eqb p.(ServerProfile.server_id) server_id) db.(profiles)) with
  | p :: _ => default [] p.(ServerProfile.request_params)
  | [] => []
  end.

Definition agent_desired_state (sha256 : string → string) (settings : Settings)
    (token : option string) (server_id : string) (db : agent_db) : res AgentDesiredStateOut :=
  _ ← _require_agent_token settings token;
  let peers := desired_peer <$> desired_rows server_id db in
  let server := get_server server_id db in
  full ← match server with
         | Some s => obfuscation_full s (first_profile server_id db)
         | None => Ok None
         end;
  Ok (mkDesiredState server_id "awg0" (_rev_for sha256 server_id peers) peers
        ((λ o, (o.(o_h1), o.(o_h2), o.(o_h3), o.(o_h4))) <$> full) full).

(** ** Registration from heartbeats *)

(** The fields the control plane reads again; [hb_peers] is empty when the
    payload has none. *)
Record AgentHeartbeatIn : Type := mkHeartbeat {
  hb_server_id : string;
  hb_container_name : string;
  hb_interface_name : string;
  hb_public_key : string;
  hb_listen_port : Z;
  hb_peer_count : Z;
  hb_total_rx_bytes : Z;
  hb_total_tx_bytes : Z;
  hb_health_score : float;
  hb_status : string;
  hb_peers : list pydict;
  hb_obfuscation : option pydict
}.

Definition _heartbeat_public_key (payload : AgentHeartbeatIn) : option string :=
  let pk := strip payload.(hb_public_key) in
  if (43 <=? String.length pk)%nat then Some pk else None.

Definition _ensure_server_from_heartbeat (now : Z) (payload : AgentHeartbeatIn) (db : agent_db)
    : agent_db :=
  let sid := str_take 32 payload.(hb_server_id) in
  if negb (str_truthy sid) then db
  else
    match get_server sid db with
    | Some _ => db
    | None =>
        let cn := payload.(hb_container_name) in
        let name := strip (if str_truthy cn then cn else sid) in
        let name := if String.eqb name "(no container)" then sid else name in
        let name := str_take 255 (if str_truthy name then name else sid) in
        let api_endpoint :=
          if str_truthy cn && negb (String.eqb cn "(no container)") then "docker://" +:+ cn
          else "docker://" +:+ sid in
        let pk := _heartbeat_public_key payload in
        let server := Server.mk sid name "docker" (str_take 512 api_endpoint) None pk None
          None None None None (if str_truthy payload.(hb_status) then payload.(hb_status) else "unknown")
          true None None None false None (match pk with Some _ => Some now | None => None end) None in
        set_servers (db.(servers) ++ [server]) db
    end.

(** The last part of the heartbeat: the row, and the key the node reports. *)
Definition register_heartbeat (now : Z) (payload : AgentHeartbeatIn) (db : agent_db) : agent_db :=
  let db := _ensure_server_from_heartbeat now payload db in
  match _heartbeat_public_key payload with
  | None => db
  | Some pk =>
      match get_server payload.(hb_server_id) db with
      | None => db
      | Some server =>
          if String.eqb (strip (ostr_or server.(Server.public_key) "")) pk then db
          else update_server payload.(hb_server_id) (Server.set_public_key pk now) db
      end
  end.

(** ** Queueing actions *)

Definition ALLOWED_ACTION_TYPES : list string :=
  ["sync"; "apply_peers"; "drain"; "undrain"; "restart_service"; "rotate_keys"; "apply_profile";
   "apply_obfuscation_h"; "validate_profile"; "firewall_ports_check"].

(** The permission and the rate limit of the route are checked before. *)
Definition create_server_action (new_id : string) (now : Z) (server_id type : string)
    (payload : option pydict) (admin_id : string) (rid : option string) (db : agent_db)
    : res (agent_db * string) :=
  if negb (str_in type ALLOWED_ACTION_TYPES) then
    Err (HTTPException 422 ("Invalid action type: " +:+ type))
  else
    match get_server server_id db with
    | None => Err (HTTPException 404 server_id)
    | Some _ =>
        let db :=
          if String.eqb type "drain" then update_server server_id (Server.set_draining true) db
          else if String.eqb type "undrain" then update_server server_id (Server.set_draining false) db
          else db in
        let '(db, action) := create_action new_id now server_id type payload (Some admin_id) rid db in
        Ok (log_audit (Some admin_id) "action.create" "agent_action" (Some action.(AgentAction.id))
              [("server_id", VStr server_id); ("type", VStr type); ("status", VStr "pending")] db,
            action.(AgentAction.id))
    end.

(** [h] are the parameters [generate_h_params] drew. *)
Definition rotate_server_obfuscation_h (h : Z * Z * Z * Z) (new_id : string) (now : Z)
    (server_id admin_id : string) (rid : option string) (db : agent_db) : res (agent_db * string) :=
  match get_server server_id db with
  | None => Err (HTTPException 404 server_id)
  | Some _ =>
      let '(h1, h2, h3, h4) := h in
      let hs := [("h1", VInt h1); ("h2", VInt h2); ("h3", VInt h3); ("h4", VInt h4)] in
      let db := update_server server_id (Server.set_obfuscation_h h1 h2 h3 h4) db in
      let '(db, action) := create_action new_id now server_id "apply_obfuscation_h" (Some hs)
                             (Some admin_id) rid db in
      Ok (log_audit (Some admin_id) "server.rotate_obfuscation_h" "server" (Some server_id)
            (hs ++ [("action_id", VStr action.(AgentAction.id))]) db, action.(AgentAction.id))
  end.

(** ** The queue of a server is a queue *)

(** The calls that touch the actions, with the clock of each. *)
Inductive queue_op : Type :=
| QCreate (new_id server_id type : string) (payload : option pydict) (admin_id : string)
| QPoll (server_id : string)
| QReport (action_id status message : string) (meta : option pydict).

Definition handed : Type := string * string * option pydict.

(** One call: the new database and what a poll answered; a call that raises
    rolls its transaction back. *)
Definition exec_op (settings : Settings) (token : option string) (now : Z) (op : queue_op)
    (db : agent_db) : agent_db * list (string * option handed) :=
  match op with
  | QCreate new_id sid type payload admin_id =>
      match create_server_action new_id now sid type payload admin_id None db with
      | Ok (db, _) => (db, [])
      | Err _ => (db, [])
      end
  | QPoll sid =>
      match agent_v1_actions_poll settings token now sid db with
      | Ok (db, out) => (db, [(sid, out)])
      | Err _ => (db, [])
      end
  | QReport action_id status message meta =>
      match agent_v1_actions_report settings token now action_id status message meta db with
      | Ok db => (db, [])
      | Err _ => (db, [])
      end
  end.

Fixpoint exec_ops (settings : Settings) (token : option string) (ops : list (Z * queue_op))
    (db : agent_db) : agent_db * list (string * option handed) :=
  match ops with
  | [] => (db, [])
  | (now, op) :: ops' =>
      let '(db, out) := exec_op settings token now op db in
      let '(db, outs) := exec_ops settings token ops' db in (db, out ++ outs)
  end.

Definition not_action (action_id : string) (h : handed) : bool := negb (String.eqb h.1.1 action_id).

(** The abstract queue of one server: creating appends, polling takes the head,
    reporting takes the action out wherever it is. *)
Definition fifo_op (known : string → bool) (sid : string) (op : queue_op) (q : list handed)
    : list handed * list (option handed) :=
  match op with
  | QCreate new_id s type payload _ =>
      if String.eqb s sid && str_in type ALLOWED_ACTION_TYPES && known s
      then (q ++ [(new_id, type, payload)], []) else (q, [])
  | QPoll s => if String.eqb s sid then (tail q, [hd_error q]) else (q, [])
  | QReport action_id _ _ _ => (filterb (not_action action_id) q, [])
  end.

Fixpoint fifo_ops (known : string → bool) (sid : string) (ops : list (Z * queue_op))
    (q : list handed) : list handed * list (option handed) :=
  match ops with
  | [] => (q, [])
  | (_, op) :: ops' =>
      let '(q, out) := fifo_op known sid op q in
      let '(q, outs) := fifo_ops known sid ops' q in (q, out ++ outs)
  end.

Definition hand (a : AgentAction.t) : handed :=
  (a.(AgentAction.id), a.(AgentAction.type), a.(AgentAction.payload)).

(** The queue a database holds for a server, and the answers to its polls. *)
Definition queue (sid : string) (db : agent_db) : list handed :=
  hand <$> filterb (pending sid) db.(actions).

Definition polls_of (sid : string) (outs : list (string * option handed)) : list (option handed) :=
  (filterb (λ o, String.eqb o.1 sid) outs).*2.

(** Actions have distinct ids and lie in the order they were requested in,
    before the clock. *)
Record queue_inv (now : Z) (db : agent_db) : Prop := {
  qi_ids : NoDup (AgentAction.id <$> db.(actions));
  qi_order : StronglySorted Z.lt (AgentAction.requested_at <$> db.(actions));
  qi_clock : Forall (λ t, t < now) (AgentAction.requested_at <$> db.(actions))
}.

(** A history: the clock advances, new ids are new, and nothing is reported
    back as pending. *)
Fixpoint history (now : Z) (ids : list string) (ops : list (Z * queue_op)) : Prop :=
  match ops with
  | [] => True
  | (t, op) :: ops' =>
      now ≤ t ∧
      match op with
      | QCreate new_id _ _ _ _ => (new_id ∉ ids) ∧ history (t + 1) (new_id :: ids) ops'
      | QPoll _ => history (t + 1) ids ops'
      | QReport _ status _ _ => status ≠ "pending" ∧ history (t + 1) ids ops'
      end
  end.

Section queue.
#[local] Set Default Proof Using "Type*".
Context (settings : Settings) (token : option string).
Context (Htoken : _require_agent_token settings token = Ok tt).
Implicit Types (db : agent_db) (now : Z) (sid : string).

(** The ids of the servers, which no call changes. *)
Definition server_ids db : list string := Server.id <$> db.(servers).

Lemma get_server_known sid db : is_some (get_server sid db) = bool_decide (sid ∈ server_ids db).
Proof.
  unfold get_server, server_ids. induction (servers db) as [|s l IH]; [done|]. cbn [List.find].
  rewrite fmap_cons. destruct (String.eqb_spec (Server.id s) sid) as [->|Hne].
  - rewrite bool_decide_eq_true_2; [done|left].
  - rewrite IH. apply bool_decide_ext. rewrite elem_of_cons. naive_solver.
Qed.

Lemma update_server_ids sid f db :
  (∀ s, (f s).(Server.id) = s.(Server.id)) → server_ids (update_server sid f db) = server_ids db.
Proof.
  intros Hf. unfold server_ids, update_server. cbn [servers set_servers]. rewrite <- list_fmap_compose.
  apply list_fmap_ext. intros i s _. cbn. by destruct (String.eqb _ _).
Qed.

Lemma pending_action_head now sid db :
  queue_inv now db →
  get_pending_action sid db = hd_error (filterb (pending sid) db.(actions)).
Proof.
  intros [_ Ho _]. unfold get_pending_action. rewrite sorted_by_id; [done|].
  apply StronglySorted_filterb. apply StronglySorted_fmap in Ho.
  eapply StronglySorted_impl; [|exact Ho]. intros a b. unfold older. lia.
Qed.

Definition touch (i : string) (f : AgentAction.t → AgentAction.t) (l : list AgentAction.t) :=
  (λ a, if String.eqb a.(AgentAction.id) i then f a else a) <$> l.

Definition keeps (f : AgentAction.t → AgentAction.t) : Prop :=
  ∀ a, (f a).(AgentAction.id) = a.(AgentAction.id) ∧
       (f a).(AgentAction.requested_at) = a.(AgentAction.requested_at).

Lemma touch_notin i f l : i ∉ AgentAction.id <$> l → touch i f l = l.
Proof.
  unfold touch. induction l as [|a l IH]; [done|]. rewrite !fmap_cons, not_elem_of_cons.
  intros [Hne Hl]. rewrite IH by done. destruct (String.eqb_spec (AgentAction.id a) i); congruence.
Qed.

Lemma touch_ids i f l : keeps f → AgentAction.id <$> touch i f l = AgentAction.id <$> l.
Proof.
  intros Hf. unfold touch. rewrite <- list_fmap_compose. apply list_fmap_ext. intros k a _. cbn.
  destruct (String.eqb _ _); [apply Hf|done].
Qed.

Lemma touch_inv now i f db :
  keeps f → queue_inv now db → queue_inv now (set_actions (touch i f db.(actions)) db).
Proof.
  intros Hf [H1 H2 H3].
  pose proof (touch_ids i f (actions db) Hf) as Ei.
  assert (AgentAction.requested_at <$> touch i f (actions db) =
          AgentAction.requested_at <$> actions db) as Er.
  { unfold touch. rewrite <- list_fmap_compose. apply list_fmap_ext. intros k a _. cbn.
    destruct (String.eqb _ _); [apply Hf|done]. }
  split; cbn [actions set_actions]; by rewrite ?Ei, ?Er.
Qed.

Lemma queue_inv_mono now now' db : now ≤ now' → queue_inv now db → queue_inv now' db.
Proof. intros Hn [H1 H2 H3]. split; [done|done|]. eapply Forall_impl; [exact H3|]. cbn. lia. Qed.

Lemma queue_inv_ext now db db' : actions db' = actions db → queue_inv now db → queue_inv now db'.
Proof. intros E [H1 H2 H3]. split; by rewrite E. Qed.

Lemma append_log_ok now i level message meta db a :
  get_action i db = Some a →
  append_log now i level message meta db =
    Ok (set_logs (logs db ++ [AgentActionLog.mk i now level message meta]) db).
Proof. unfold append_log. by intros ->. Qed.

Lemma get_action_touch i f db :
  keeps f → is_some (get_action i (set_actions (touch i f db.(actions)) db)) = is_some (get_action i db).
Proof.
  intros Hf. unfold get_action, touch. cbn [actions set_actions].
  induction (actions db) as [|a l IH]; [done|]. rewrite fmap_cons. cbn [List.find].
  destruct (String.eqb (AgentAction.id a) i) eqn:E.
  - rewrite (proj1 (Hf a)), E. done.
  - rewrite E. exact IH.
Qed.

Lemma get_action_elem a db :
  a ∈ db.(actions) → is_some (get_action a.(AgentAction.id) db) = true.
Proof.
  unfold get_action. induction (actions db) as [|x l IH]; [by intros []%elem_of_nil|]. cbn [List.find].
  destruct (String.eqb_spec (AgentAction.id x) (AgentAction.id a)); [done|].
  intros [->|Ha]%elem_of_cons; [done|by apply IH].
Qed.

Lemma keeps_set_fields status error started finished : keeps (set_fields status error started finished).
Proof. done. Qed.

Lemma set_status_eq i status error started finished db :
  set_status i status error started finished db =
    (if is_some (get_action i db)
     then (set_actions (touch i (set_fields status error started finished) db.(actions)) db, true)
     else (db, false)).
Proof. unfold set_status. by destruct (get_action i db). Qed.

(** Handing out the head of the queue. *)
Lemma poll_queue now sid db :
  queue_inv now db →
  ∃ db', agent_v1_actions_poll settings token now sid db = Ok (db', hd_error (queue sid db)) ∧
    queue_inv now db' ∧
    (servers db' = servers db ∧ devices db' = devices db ∧ profiles db' = profiles db) ∧
    AgentAction.id <$> actions db' = AgentAction.id <$> actions db ∧
    ∀ s, queue s db' = if String.eqb sid s then tail (queue s db) else queue s db.
Proof.
  intros Hinv. unfold agent_v1_actions_poll. rewrite Htoken. cbn [mbind res_bind].
  rewrite (pending_action_head now) by done. unfold queue at 1.
  destruct (filterb (pending sid) (actions db)) as [|a q] eqn:Eq.
  { exists db. split_and!; [done..|]. intros s. destruct (String.eqb_spec sid s) as [<-|]; [|done].
    unfold queue. by rewrite Eq. }
  cbn [hd_error fmap list_fmap]. apply filterb_cons_inv in Eq as (l1 & l2 & El & E1 & E2 & Ha).
  assert (a ∈ actions db) as Hin by (rewrite El, elem_of_app; right; left).
  pose proof (get_action_elem a db Hin) as Hget. rewrite set_status_eq, Hget.
  set (f := set_fields "running" None (Some now) None).
  pose proof (get_action_touch (AgentAction.id a) f db (keeps_set_fields _ _ _ _)) as Hget'.
  rewrite Hget in Hget'.
  destruct (get_action (AgentAction.id a) (set_actions (touch (AgentAction.id a) f (actions db)) db))
    as [a'|] eqn:Ea'; [|done].
  rewrite (append_log_ok _ _ _ _ _ _ _ Ea'). cbn [mbind res_bind].
  eexists. split; [done|]. split.
  { eapply queue_inv_ext, (touch_inv now (AgentAction.id a) f db), Hinv; done. }
  split; [done|]. split; [by apply touch_ids, keeps_set_fields|].
  intros s. unfold queue. cbn [actions set_logs set_actions].
  destruct Hinv as [Hnd _ _]. rewrite El in Hnd |- *. rewrite fmap_app, fmap_cons in Hnd.
  apply NoDup_app in Hnd as (_ & Hd & [Ha2 _]%NoDup_cons).
  unfold touch. rewrite fmap_app, fmap_cons, String.eqb_refl. fold (touch (AgentAction.id a) f l1).
  fold (touch (AgentAction.id a) f l2).
  rewrite !touch_notin; [|done|intros Hl1; apply (Hd _ Hl1); left].
  assert (pending s (f a) = false) as Hfa.
  { unfold pending. cbn. by rewrite andb_false_r. }
  rewrite !filter_app, filter_cons_False by (by rewrite Hfa).
  destruct (String.eqb_spec sid s) as [<-|Hne].
  - rewrite E1, filter_cons_True by done. done.
  - rewrite filter_cons_False; [done|]. unfold pending in Ha |- *.
    apply andb_prop in Ha as [->%String.eqb_eq _]. by destruct (String.eqb_spec sid s).
Qed.

Lemma touch_out s i f l :
  (∀ a, pending s (f a) = false) →
  hand <$> filterb (pending s) (touch i f l) =
    filterb (not_action i) (hand <$> filterb (pending s) l).
Proof.
  intros Hf. unfold touch. induction l as [|a l IH]; [done|]. rewrite fmap_cons.
  destruct (String.eqb (AgentAction.id a) i) eqn:E.
  - rewrite filter_cons_False by (by rewrite Hf). rewrite IH. destruct (pending s a) eqn:Ep.
    + rewrite (filter_cons_True _ a l) by done. rewrite fmap_cons.
      rewrite (filter_cons_False _ (hand a)); [done|]. unfold not_action. cbn. by rewrite E.
    + by rewrite (filter_cons_False _ a l) by (by rewrite Ep).
  - destruct (pending s a) eqn:Ep.
    + rewrite !(filter_cons_True _ a) by done. rewrite !fmap_cons, IH.
      rewrite (filter_cons_True _ (hand a)); [done|]. unfold not_action. cbn. by rewrite E.
    + rewrite !(filter_cons_False _ a) by (by rewrite Ep). done.
Qed.

Lemma touch_absent i (l : list AgentAction.t) :
  (∀ a : AgentAction.t, a ∈ l → a.(AgentAction.id) ≠ i) → ∀ s,
  filterb (not_action i) (hand <$> filterb (pending s) l) =
    hand <$> filterb (pending s) l.
Proof.
  intros Hl s. apply filterb_all, Forall_fmap, Forall_forall. intros a [_ Ha]%elem_of_filterb.
  unfold compose, not_action. cbn. apply negb_true_iff, String.eqb_neq. by apply Hl.
Qed.

(** A report takes the action out of its queue if it is still there. *)
Lemma report_queue now i status message meta db :
  status ≠ "pending" → queue_inv now db →
  let db' := match agent_v1_actions_report settings token now i status message meta db with
             | Ok db' => db' | Err _ => db end in
  queue_inv now db' ∧ server_ids db' = server_ids db ∧
  AgentAction.id <$> actions db' = AgentAction.id <$> actions db ∧
  ∀ s, queue s db' = filterb (not_action i) (queue s db).
Proof.
  intros Hst Hinv. unfold agent_v1_actions_report. rewrite Htoken. cbn [mbind res_bind].
  unfold append_log. destruct (get_action i db) as [a|] eqn:Ea; cbn [mbind res_bind]; cbv zeta.
  2:{ split_and!; [done..|]. intros s. symmetry. apply touch_absent. intros a Ha <-.
      apply get_action_elem in Ha. by rewrite Ea in Ha. }
  set (db1 := set_logs _ db). rewrite set_status_eq.
  change (get_action i db1) with (get_action i db). rewrite Ea. cbn [is_some is_none negb andb].
  set (f := set_fields status _ _ _). change (actions db1) with (actions db).
  set (db2 := set_actions _ db1).
  assert (∀ s a, pending s (f a) = false) as Hf.
  { intros s a'. unfold pending. cbn. destruct (String.eqb_spec status "pending"); [done|].
    by rewrite andb_false_r. }
  assert (queue_inv now db2 ∧ server_ids db2 = server_ids db ∧
    AgentAction.id <$> actions db2 = AgentAction.id <$> actions db ∧
    ∀ s, queue s db2 = filterb (not_action i) (queue s db)) as H2.
  { split_and!; [eapply queue_inv_ext, (touch_inv now i f db), Hinv; done|done| |].
    { by apply touch_ids, keeps_set_fields. }
    intros s. unfold queue. by apply touch_out. }
  destruct H2 as (H2 & H3 & H4 & H5).
  destruct (str_in status ["completed"; "failed"]); [|done].
  destruct (get_action i db2) as [a2|]; [|done].
  destruct (_ && _); (split_and!; [by eapply queue_inv_ext, H2| |done|done]); [|done].
  by rewrite update_server_ids.
Qed.

(** Creating an action appends it to the queue of its server. *)
Lemma create_queue now i sid type payload admin_id db :
  queue_inv now db → i ∉ AgentAction.id <$> actions db →
  let db' := match create_server_action i now sid type payload admin_id None db with
             | Ok (db', _) => db' | Err _ => db end in
  queue_inv (now + 1) db' ∧ server_ids db' = server_ids db ∧
  (∀ j, j ∈ AgentAction.id <$> actions db' → j = i ∨ j ∈ AgentAction.id <$> actions db) ∧
  ∀ s, queue s db' =
    if String.eqb sid s && str_in type ALLOWED_ACTION_TYPES && bool_decide (sid ∈ server_ids db)
    then queue s db ++ [(i, type, payload)] else queue s db.
Proof.
  intros Hinv Hi. unfold create_server_action. cbv zeta.
  destruct (str_in type ALLOWED_ACTION_TYPES); cbn [negb].
  2:{ split_and!; [by eapply queue_inv_mono, Hinv; lia|done|by right|]. intros s.
      by rewrite andb_false_r. }
  rewrite <- get_server_known. destruct (get_server sid db) as [srv|].
  2:{ split_and!; [by eapply queue_inv_mono, Hinv; lia|done|by right|]. intros s.
      by rewrite andb_false_r. }
  set (db1 := if String.eqb type "drain" then _ else _).
  assert (actions db1 = actions db ∧ server_ids db1 = server_ids db) as [E1 E2].
  { unfold db1. destruct (String.eqb type "drain"); [|destruct (String.eqb type "undrain")];
      (split; [done|]); rewrite ?update_server_ids; done. }
  clearbody db1. unfold create_action. split_and!.
  - destruct Hinv as [H1 H2 H3]. split; cbn [actions set_actions log_audit]; rewrite E1, fmap_app.
    + apply NoDup_app. split_and!; [done| |apply NoDup_singleton].
      intros j Hj ->%list_elem_of_singleton. done.
    + apply StronglySorted_snoc. split; [done|]. exact H3.
    + apply Forall_app. split; [eapply Forall_impl; [exact H3|]; cbn; lia|].
      apply Forall_singleton. cbn. lia.
  - exact E2.
  - intros j. cbn [actions set_actions log_audit]. rewrite E1, fmap_app, elem_of_app.
    cbn [fmap list_fmap AgentAction.id]. rewrite list_elem_of_singleton. naive_solver.
  - intros s. unfold queue. cbn [actions set_actions log_audit]. rewrite E1, filter_app, fmap_app.
    cbn [is_some is_none negb]. rewrite !andb_true_r.
    destruct (String.eqb sid s) eqn:Es.
    + rewrite filter_cons_True; [done|]. unfold pending. cbn. by rewrite Es.
    + rewrite filter_cons_False; [by rewrite app_nil_r|]. unfold pending. cbn. by rewrite Es.
Qed.

Lemma get_action_id i db a : get_action i db = Some a → a.(AgentAction.id) = i.
Proof. unfold get_action. intros [_ E]%List.find_some. by apply String.eqb_eq. Qed.

Lemma get_action_touched i f db a :
  keeps f → get_action i db = Some a →
  get_action i (set_actions (touch i f db.(actions)) db) = Some (f a).
Proof.
  intros Hf. unfold get_action, touch. cbn [actions set_actions].
  induction (actions db) as [|x l IH]; [done|]. rewrite fmap_cons. cbn [List.find].
  destruct (String.eqb (AgentAction.id x) i) eqn:E.
  - rewrite (proj1 (Hf x)), E. by intros [= ->].
  - rewrite E. exact IH.
Qed.

(** A completed action is recorded as completed. *)
Lemma report_completed now i message meta db a :
  get_action i db = Some a →
  ∃ db' a', agent_v1_actions_report settings token now i "completed" message meta db = Ok db' ∧
    get_action i db' = Some a' ∧ a'.(AgentAction.status) = "completed" ∧
    a'.(AgentAction.finished_at) = Some now.
Proof.
  intros Ha. unfold agent_v1_actions_report. rewrite Htoken. cbn [mbind res_bind].
  rewrite (append_log_ok _ _ _ _ _ _ _ Ha). cbn [mbind res_bind]. set (db1 := set_logs _ db).
  rewrite set_status_eq. change (get_action i db1) with (get_action i db). rewrite Ha.
  cbn [is_some is_none negb]. change (actions db1) with (actions db).
  set (f := set_fields _ _ _ _). set (db2 := set_actions _ db1).
  assert (get_action i db2 = Some (f a)) as Ha2
    by exact (get_action_touched i f db a (keeps_set_fields _ _ _ _) Ha).
  change (str_in "completed" ["completed"; "failed"]) with true. cbn [andb]. rewrite Ha2.
  exists (if String.eqb (AgentAction.type (f a)) "sync" && String.eqb "completed" "completed"
    then update_server (AgentAction.server_id (f a)) (Server.set_snapshot_at now)
      (log_audit None ("action." +:+ "completed") "agent_action" (Some i)
        [("server_id", VStr (AgentAction.server_id (f a))); ("type", VStr (AgentAction.type (f a)));
         ("status", VStr "completed")] db2)
    else log_audit None ("action." +:+ "completed") "agent_action" (Some i)
        [("server_id", VStr (AgentAction.server_id (f a))); ("type", VStr (AgentAction.type (f a)));
         ("status", VStr "completed")] db2), (f a).
  split_and!; [done| |done|done]. by destruct (_ && _).
Qed.

Lemma queue_head_notin now sid db i t p q :
  queue_inv now db → queue sid db = (i, t, p) :: q → filterb (not_action i) q = q.
Proof.
  intros [Hnd _ _] Hq. assert (NoDup ((λ h : handed, h.1.1) <$> queue sid db)) as Hn.
  { unfold queue. rewrite <- list_fmap_compose. by apply NoDup_fmap_filterb. }
  rewrite Hq, fmap_cons in Hn. apply NoDup_cons in Hn as [Hi _].
  apply filterb_all, Forall_forall. intros h Hh. apply negb_true_iff, String.eqb_neq. intros E.
  apply Hi. apply list_elem_of_fmap. by exists h.
Qed.

(** The desired state reads devices, servers and profiles only. *)
Lemma desired_state_ext sha256 sid db db' :
  servers db' = servers db → devices db' = devices db → profiles db' = profiles db →
  agent_desired_state sha256 settings token sid db' = agent_desired_state sha256 settings token sid db ∧
  desired_rows sid db' = desired_rows sid db.
Proof.
  intros E1 E2 E3. unfold agent_desired_state, desired_rows, get_server, first_profile.
  by rewrite E1, E2, E3.
Qed.

(** One call and its counterpart on the abstract queue. *)
Lemma exec_op_step sid t op db ids :
  queue_inv t db → history t ids [(t, op)] →
  (∀ j, j ∈ AgentAction.id <$> actions db → j ∈ ids) →
  let known := λ s, bool_decide (s ∈ server_ids db) in
  let '(db', outs) := exec_op settings token t op db in
  let '(q', answers) := fifo_op known sid op (queue sid db) in
  queue_inv (t + 1) db' ∧ server_ids db' = server_ids db ∧
  (∀ j, j ∈ AgentAction.id <$> actions db' →
     (match op with QCreate i _ _ _ _ => j = i | _ => False end) ∨ j ∈ AgentAction.id <$> actions db) ∧
  queue sid db' = q' ∧ polls_of sid outs = answers.
Proof.
  intros Hinv [_ Hop] Hids known. unfold exec_op.
  destruct op as [i s type payload admin|s|i status message meta]; cbn [fifo_op].
  - pose proof (create_queue t i s type payload admin db Hinv) as Hc. cbv zeta in Hc.
    destruct Hc as (C1 & C2 & C3 & C4); [naive_solver|]. unfold known. specialize (C4 sid).
    destruct (String.eqb_spec s sid) as [->|Hne]; cbn [andb] in *;
      destruct (create_server_action _ _ _ _ _ _ _ _) as [[db' out]|e];
      try destruct (_ && _); by split_and!.
  - destruct (poll_queue t s db Hinv) as (db' & -> & P1 & (P2 & _) & P3 & P4). specialize (P4 sid).
    assert (server_ids db' = server_ids db) by (unfold server_ids; by rewrite P2).
    unfold polls_of. destruct (String.eqb_spec s sid) as [->|Hne].
    + rewrite filter_cons_True by (cbn; by rewrite String.eqb_refl).
      split_and!; try done; [by eapply queue_inv_mono, P1; lia|intros j Hj; right; first [exact Hj|by rewrite <- P3]].
    + rewrite filter_cons_False by (cbn; by destruct (String.eqb_spec s sid)).
      split_and!; try done; [by eapply queue_inv_mono, P1; lia|intros j Hj; right; first [exact Hj|by rewrite <- P3]].
  - pose proof (report_queue t i status message meta db) as Hr. cbv zeta in Hr.
    destruct Hr as (R1 & R2 & R3 & R4); [naive_solver|done|].
    destruct (agent_v1_actions_report _ _ _ _ _ _ _ _) as [db'|e];
      (split_and!; try done; [by eapply queue_inv_mono, R1; lia|intros j Hj; right; first [exact Hj|by rewrite <- R3]]).
Qed.

End queue.

(** ** Witnesses *)

Definition api_settings : Settings := production_settings "0123456789abcdef0123456789abcdef" default_settings.
Definition api_token : option string := Some "0123456789abcdef0123456789abcdef".

Definition api_db : agent_db :=
  mkAgentDb [] [Server.test "s1" true; Server.test "s2" true] []
    [AgentAction.mk "a0" "s1" "drain" None "running" None 5 (Some 6) None None None] [] [].

Definition api_history : list (Z * queue_op) :=
  [(10, QCreate "a1" "s1" "sync" None "adm"); (11, QCreate "a2" "s2" "sync" None "adm");
   (12, QCreate "a3" "s1" "restart_service" None "adm"); (13, QPoll "s1");
   (14, QReport "a1" "completed" "ok" None); (15, QPoll "s1"); (16, QPoll "s1")].


(** An agent that reports [pending] puts a finished action back in the queue. *)
Example report_reopens_action :
  match agent_v1_actions_report api_settings api_token 20 "a0" "pending" "" None api_db with
  | Ok db => queue "s1" db = [("a0", "drain", None)]
  | Err _ => False
  end.
Proof. by vm_compute. Qed.

(** A report on an action that does not exist never gets its 404: the log entry
    is refused first, with an error the route does not handle. *)
Lemma report_missing_action settings token now i status message meta db :
  _require_agent_token settings token = Ok tt → get_action i db = None →
  agent_v1_actions_report settings token now i status message meta db =
    Err (IntegrityError "agent_action_logs_action_id_fkey").
Proof.
  intros Ht Hi. unfold agent_v1_actions_report. rewrite Ht. cbn [mbind res_bind].
  unfold append_log. by rewrite Hi.
Qed.
