(* ===== verification/AgentSync.v ===== *)
(** * The control plane and the agent together

    The agent's client is the agent API on the database: a [sync] action an
    administrator queued travels to the node and back. *)

From S2P Require Import Prelude PyFloat PyStr PyVal Settings Models IpAddr NodeAgent AgentInspect AgentCycle AgentApi.
Open Scope Z_scope.

(** ** The wire *)

(** The JSON of a desired peer. *)
Definition peer_json (p : AgentDesiredPeer) : pydict :=
  [("public_key", VStr p.(dp_public_key)); ("allowed_ips", VStr p.(dp_allowed_ips));
   ("persistent_keepalive", VInt p.(dp_persistent_keepalive));
   ("preshared_key", ostr p.(dp_preshared_key))].

Definition obfuscation_json (o : ObfuscationFullOut) : pydict :=
  [("s1", VInt o.(o_s1)); ("s2", VInt o.(o_s2)); ("jc", VInt o.(o_jc)); ("jmin", VInt o.(o_jmin));
   ("jmax", VInt o.(o_jmax)); ("h1", VInt o.(o_h1)); ("h2", VInt o.(o_h2)); ("h3", VInt o.(o_h3));
   ("h4", VInt o.(o_h4))].

Lemma elem_of_desired_rows sid db d :
  d ∈ desired_rows sid db ↔
    d ∈ devices db ∧ d.(Device.server_id) = sid ∧ d.(Device.revoked_at) = None ∧
    d.(Device.suspended_at) = None ∧ d.(Device.public_key) ≠ "".
Proof.
  unfold desired_rows, desired_device. rewrite elem_of_filterb, elem_of_sorted_by, elem_of_filterb.
  rewrite str_truthy_true, !andb_true_iff, !is_none_true, String.eqb_eq. tauto.
Qed.

Section system.
Context {H : Type} `{AwgHost H} `{AgentFiles H}.
Context (settings : Settings) (token : option string) (sha256 : string → string) (now : Z).

(** The database of the control plane and the host of the agent. *)
#[local] Instance system_host : AwgHost (agent_db * H) :=
  { _run cmd w := let '(h, r) := _run cmd w.2 in ((w.1, h), r) }.

#[local] Instance system_files : AgentFiles (agent_db * H) :=
  { read_text p w := read_text p w.2;
    write_text p t w := (λ h, (w.1, h)) <$> write_text p t w.2 }.

(** The calls of the agent, answered by the API; an answer that is not a
    success raises in the agent, except for a poll. *)
#[local] Instance system_client : AgentClient (agent_db * H) :=
  { AgentCycle._desired_state sid w :=
      (w, match agent_desired_state sha256 settings token sid w.1 with
          | Ok ds => Ok (mkDesired (peer_json <$> ds.(AgentApi.ds_peers))
                           (obfuscation_json <$> ds.(ds_obfuscation_full)))
          | Err _ => Err (RuntimeError "desired-state failed")
          end);
    AgentCycle._actions_poll sid w :=
      match agent_v1_actions_poll settings token now sid w.1 with
      | Ok (db, Some (i, t, p)) => ((db, w.2), Ok (Some (mkAction i t (default [] p))))
      | Ok (db, None) => ((db, w.2), Ok None)
      | Err _ => (w, Ok None)
      end;
    AgentCycle._actions_report i status message w :=
      match agent_v1_actions_report settings token now i status message (Some []) w.1 with
      | Ok db => ((db, w.2), Ok tt)
      | Err _ => (w, Err (RuntimeError "actions/report failed"))
      end }.

(** The actions part of a round: poll, and run what was handed out. *)
Definition actions_part (str_exn : exn → string) (env : AgentEnv) (sid container : string)
    (runtime : list Peer) (desired_peers : list pydict) (w : agent_db * H) : agent_db * H :=
  let '(w, r) := _actions_poll sid w in
  match r with
  | Ok (Some act) => (run_action str_exn env sid container runtime desired_peers act w).1
  | _ => w
  end.

(** ** The desired peers, as the agent reads them *)

Definition spec_of (d : Device.t) : string * PeerSpec :=
  let p := desired_peer d in
  (p.(dp_public_key), mkSpec p.(dp_allowed_ips) 25 p.(dp_preshared_key)).

(** What the control plane must have issued: public keys that are keys and that
    no two devices of the server share, one host address for each device that no
    two devices share, and preshared keys that are one word of a command. *)
Record devices_ok (sid : string) (db : agent_db) : Prop := {
  dv_keys d : d ∈ desired_rows sid db → pubkey_re d.(Device.public_key) = true;
  dv_distinct : NoDup (Device.public_key <$> desired_rows sid db);
  dv_hosts d : d ∈ desired_rows sid db → host_cidr (desired_peer d).(dp_allowed_ips) = true;
  dv_psk d psk : d ∈ desired_rows sid db → (desired_peer d).(dp_preshared_key) = Some psk →
    shell_word psk = true;
  dv_disjoint d d' : d ∈ desired_rows sid db → d' ∈ desired_rows sid db →
    d.(Device.public_key) ≠ d'.(Device.public_key) →
    cidrs (desired_peer d).(dp_allowed_ips) ## cidrs (desired_peer d').(dp_allowed_ips)
}.

Lemma shell_word_truthy s : shell_word s = true → str_truthy s = true.
Proof. intros Hs. apply andb_prop in Hs as [Hs _]. exact Hs. Qed.

Lemma v_or_str s t : str_truthy s = true → v_or (VStr s) t = VStr s.
Proof. unfold v_or, truthy. by intros ->. Qed.

Lemma getv_json p :
  getv (peer_json p) "public_key" = VStr p.(dp_public_key) ∧
  getv (peer_json p) "allowed_ips" = VStr p.(dp_allowed_ips) ∧
  getv (peer_json p) "persistent_keepalive" = VInt p.(dp_persistent_keepalive) ∧
  getv (peer_json p) "preshared_key" = ostr p.(dp_preshared_key).
Proof. by split_and!. Qed.

Lemma peer_spec_json d :
  pubkey_re d.(Device.public_key) = true → host_cidr (desired_peer d).(dp_allowed_ips) = true →
  peer_spec (peer_json (desired_peer d)) = Ok (spec_of d).
Proof.
  intros Hk Ha. unfold peer_spec.
  destruct (getv_json (desired_peer d)) as (-> & -> & -> & ->).
  rewrite (v_or_str (dp_allowed_ips (desired_peer d))) by (by apply host_cidr_truthy).
  rewrite (v_or_str (dp_public_key (desired_peer d))) by (by apply shell_word_truthy, pubkey_re_word).
  unfold render. change (dp_public_key (desired_peer d)) with (Device.public_key d).
  rewrite (pubkey_re_strip _ Hk), (sanitize_key _ Hk).
  change (int_of (v_or (VInt (dp_persistent_keepalive (desired_peer d))) (VInt 25))) with (@Ok Z 25).
  cbn [mbind res_bind]. unfold spec_of. f_equal. f_equal. f_equal.
  - unfold desired_peer. cbn [dp_allowed_ips]. apply strip_strip.
  - unfold desired_peer. cbn [dp_preshared_key]. cbv zeta.
    destruct (str_truthy (strip _)) eqn:E; cbn [ostr].
    + rewrite v_or_str by done. by rewrite strip_strip, E.
    + done.
Qed.

(** The map the agent builds of the desired state. *)
Lemma desired_map_rows sid db :
  devices_ok sid db →
  desired_map (peer_json <$> (desired_peer <$> desired_rows sid db)) =
    Ok (spec_of <$> desired_rows sid db).
Proof.
  intros [Hk Hd Hw _ _].
  assert (∀ l acc, (∀ d, d ∈ l → d ∈ desired_rows sid db) →
    foldl_res (λ m p, e ← peer_spec p; Ok (dset e.1 e.2 m)) acc (peer_json <$> (desired_peer <$> l)) =
      Ok (foldl (λ m e, dset e.1 e.2 m) acc (spec_of <$> l))) as Hf.
  { induction l as [|d l IH]; intros acc Hl; [done|]. rewrite !fmap_cons. cbn [foldl_res foldl].
    rewrite peer_spec_json by (first [apply Hk|apply Hw]; apply Hl; left). cbn [mbind res_bind].
    apply IH. intros x Hx. apply Hl. by right. }
  unfold desired_map. rewrite Hf by done. f_equal.
  change (foldl _ [] _) with (dict_of (spec_of <$> desired_rows sid db)). apply dict_of_id.
  rewrite <- list_fmap_compose. exact Hd.
Qed.

Lemma dget_rows sid db pk s :
  devices_ok sid db →
  dget pk (spec_of <$> desired_rows sid db) = Some s ↔
    ∃ d, d ∈ desired_rows sid db ∧ spec_of d = (pk, s).
Proof.
  intros Hok. split.
  - intros (d & E & Hd)%dget_Some_elem%list_elem_of_fmap. eauto.
  - intros (d & Hd & E). apply elem_dget_Some.
    + unfold dkeys. rewrite <- list_fmap_compose. exact (dv_distinct _ _ Hok).
    + apply list_elem_of_fmap. eauto.
Qed.

Lemma rows_desired_ok sid db :
  devices_ok sid db → desired_ok (spec_of <$> desired_rows sid db).
Proof.
  intros Hok. pose proof (λ pk s, dget_rows sid db pk s Hok) as Hg. destruct Hok as [Hk Hd Hw Hp Hc].
  split.
  - intros k (e & -> & (d & -> & Hin)%list_elem_of_fmap)%list_elem_of_fmap. by apply Hk.
  - intros k s (d & Hin & [= <- <-])%Hg. by apply Hw.
  - intros k k' s s' (d & Hin & [= <- <-])%Hg (d' & Hin' & [= <- <-])%Hg Hne. by apply Hc.
  - intros k s psk (d & Hin & E)%Hg. apply (f_equal snd) in E. cbn [snd spec_of] in E. subst s.
    unfold psk_of. cbn [s_preshared_key s_allowed_ips].
    destruct (dp_preshared_key (desired_peer d)) as [x|] eqn:Ep; [|done].
    destruct (str_truthy x); [|done]. intros [= <-]. by eapply Hp.
Qed.

(** ** A command on the system is the command on the host *)

Lemma system_run cmd w : run cmd w = ((w.1, (run cmd w.2).1), (run cmd w.2).2).
Proof.
  unfold run at 1. cbn [_run system_host]. unfold run.
  by destruct (_run cmd w.2) as [h [[code out] l]].
Qed.

Context (container iface : string) (peers : H → gmap string string).
Context `{!AwgHostLaws H container iface peers}.

#[local] Instance system_laws : AwgHostLaws (agent_db * H) container iface (λ w, peers w.2).
Proof using Type*.
  split.
  - intros pk a ka w w' Ha. rewrite system_run. destruct (run _ w.2) as [h' code] eqn:E.
    intros [= <- ->]. by apply set_ok in E.
  - intros pk a ka psk w w' Hk Ha Hp. rewrite system_run. destruct (run _ w.2) as [h' code] eqn:E.
    intros [= <- ->]. by apply set_psk_ok in E.
  - intros pk w w'. rewrite system_run. destruct (run _ w.2) as [h' code] eqn:E.
    intros [= <- ->]. by apply remove_ok in E.
  - intros w w' code. rewrite system_run. destruct (run _ w.2) as [h' c] eqn:E.
    intros [= <- ->]. by apply save_pure in E.
Qed.

Context (Hobey : ∀ cmd (h : H), (run cmd h).2 = 0).
Context (Htoken : _require_agent_token settings token = Ok tt).

Lemma system_obeys cmd (w : agent_db * H) : (run cmd w).2 = 0.
Proof using Hobey. rewrite system_run. cbn. apply Hobey. Qed.

(** The device an entry of the agent's map stands for. *)
Lemma rows_lookup sid db pk a :
  devices_ok sid db →
  s_allowed_ips <$> dget pk (spec_of <$> desired_rows sid db) = Some a ↔
    ∃ d, d ∈ desired_rows sid db ∧ d.(Device.public_key) = pk ∧
      a = strip (ostr_or d.(Device.allowed_ips) "10.8.1.2/32").
Proof.
  intros Hok. rewrite fmap_Some. split.
  - intros (s & (d & Hd & E)%dget_rows & ->); [|done]. exists d. split; [done|]. injection E as <- <-. by split.
  - intros (d & Hd & <- & ->). exists (spec_of d).2. split; [|done]. apply dget_rows; [done|]. by exists d.
Qed.

End system.

(** ** Witness *)

#[export] Instance host_files : AgentFiles host :=
  { read_text _ _ := None; write_text _ _ _ := None }.

Definition sync_db : agent_db :=
  mkAgentDb
    [Device.test "d1" "s1" key_a "10.8.1.3/32"; Device.test "d2" "s1" key_b "10.8.1.4/32";
     Device.set_revoked_at (Some 3) (Device.test "d3" "s1" key_c "10.8.1.9/32")]
    [Server.test "s1" true] []
    [AgentAction.mk "a1" "s1" "sync" None "pending" None 5 None None None None] [] [].

Definition sync_env : AgentEnv := mkEnv "s1" "awg0" "" 200 false "".

Lemma sync_db_ok : devices_ok "s1" sync_db.
Proof.
  assert (desired_rows "s1" sync_db =
    [Device.test "d1" "s1" key_a "10.8.1.3/32"; Device.test "d2" "s1" key_b "10.8.1.4/32"]) as E
    by by vm_compute.
  split; rewrite ?E.
  - intros d [->|[->|[]%elem_of_nil]%elem_of_cons]%elem_of_cons; done.
  - apply (bool_decide_unpack _). by vm_compute.
  - intros d [->|[->|[]%elem_of_nil]%elem_of_cons]%elem_of_cons; done.
  - intros d psk [->|[->|[]%elem_of_nil]%elem_of_cons]%elem_of_cons; done.
  - intros d d' [->|[->|[]%elem_of_nil]%elem_of_cons]%elem_of_cons
      [->|[->|[]%elem_of_nil]%elem_of_cons]%elem_of_cons; intros; try done;
      vm_compute; set_solver.
Qed.

