(* ===== verification/AgentRuntime.v ===== *)
(** * The runtime adapter of the agent mode ([services/node_runtime_agent.py])

    Production runs with node agents: the control plane discovers its nodes from
    the servers of the database and the last heartbeat of each, and cannot touch
    their peers. *)

From S2P Require Import Prelude PyFloat PyStr PyVal Settings Models Node Runtime AgentApi.
Open Scope Z_scope.

Definition str_or (s d : string) : string := if str_truthy s then s else d.

(** ** Discovery *)

Section discovery.
(** The last heartbeat of a server, while Redis keeps it. *)
Context (get_heartbeat : string → option AgentHeartbeatIn).

Definition no_get : exn := AttributeError "'NoneType' object has no attribute 'get'".

(** [x or 1000] on the optional limit. *)
Definition max_peers_of (s : Server.t) : Z :=
  match s.(Server.max_connections) with Some 0 | None => 1000 | Some n => n end.

(** The node of one active server: the container name is read from the heartbeat
    without asking whether there is one. *)
Definition discover_node (s : Server.t) : res NodeMetadata :=
  match get_heartbeat s.(Server.id) with
  | None => Err no_get
  | Some hb =>
      Ok {| node_id := s.(Server.id);
            container_name := str_or hb.(hb_container_name) s.(Server.name);
            interface_name := str_or hb.(hb_interface_name) "awg0";
            Node.public_key := str_or hb.(hb_public_key) (ostr_or s.(Server.public_key) "");
            listen_port := hb.(hb_listen_port);
            endpoint_ip := "";
            peer_count := hb.(hb_peer_count);
            active_peers := None;
            total_rx_bytes := hb.(hb_total_rx_bytes);
            total_tx_bytes := hb.(hb_total_tx_bytes);
            Node.status := str_or hb.(hb_status) (str_or s.(Server.status) "unknown");
            capabilities := [];
            Node.health_score := hb.(hb_health_score);
            max_peers := max_peers_of s;
            Node.is_draining := s.(Server.is_draining);
            latency_ms := None |}
  end.

Definition discover_nodes (servers : list Server.t) : res (list NodeMetadata) :=
  map_res discover_node (filterb Server.is_active servers).

(** [get_node_for_sync]: here a missing heartbeat is provided for. *)
Definition get_node_for_sync (server_id : string) (servers : list Server.t) : option NodeMetadata :=
  match List.find (λ s, String.eqb s.(Server.id) server_id) servers with
  | None => None
  | Some s =>
      let hb := get_heartbeat server_id in
      let z (f : AgentHeartbeatIn → Z) := match hb with Some hb => f hb | None => 0 end in
      Some {| node_id := s.(Server.id);
              container_name := match hb with Some hb => str_or hb.(hb_container_name) s.(Server.name)
                                            | None => s.(Server.name) end;
              interface_name := match hb with Some hb => str_or hb.(hb_interface_name) "awg0"
                                            | None => "awg0" end;
              Node.public_key := match hb with
                                 | Some hb => str_or hb.(hb_public_key) (ostr_or s.(Server.public_key) "")
                                 | None => ostr_or s.(Server.public_key) "" end;
              listen_port := z hb_listen_port;
              endpoint_ip := "";
              peer_count := z hb_peer_count;
              active_peers := None;
              total_rx_bytes := z hb_total_rx_bytes;
              total_tx_bytes := z hb_total_tx_bytes;
              Node.status := str_or (match hb with Some hb => hb.(hb_status) | None => "" end)
                               (str_or s.(Server.status) "unknown");
              capabilities := [];
              Node.health_score := match hb with Some hb => hb.(hb_health_score)
                                               | None => of_or0 s.(Server.health_score) end;
              max_peers := max_peers_of s;
              Node.is_draining := s.(Server.is_draining);
              latency_ms := None |}
  end.

(** [(status, handshake_ok)] *)
Definition health_check (node_id : string) : string * bool :=
  match get_heartbeat node_id with
  | None => ("unreachable", false)
  | Some _ => ("ok", true)
  end.

(** The parameters the agent last reported, when all four headers are there. *)
Definition get_obfuscation_from_node (node_id : string) : option pydict :=
  match get_heartbeat node_id with
  | None => None
  | Some hb =>
      match hb.(hb_obfuscation) with
      | None => None
      | Some obf =>
          if forallb (λ k, negb (bool_decide (getv obf k = VNone))) ["H1"; "H2"; "H3"; "H4"]
          then Some obf else None
      end
  end.

(** ** One silent server *)

Definition heard (s : Server.t) : bool := is_some (get_heartbeat s.(Server.id)).

Lemma discover_node_heard s : heard s = is_ok (discover_node s).
Proof. unfold heard, discover_node. by destruct (get_heartbeat _). Qed.

(** Discovery is all or nothing.  It answers with one node per active
    server, with the id, capacity and draining state of the server and the
    health its agent reported, when every active server has a heartbeat; as soon
    as one of them has none, for instance because its agent stopped, it raises
    and reports no node at all. *)
Theorem discover_nodes_all_or_nothing servers :
  match discover_nodes servers with
  | Ok nodes =>
      Forall (λ s, heard s = true) (filterb Server.is_active servers) ∧
      Forall2 (λ s n, ∃ hb, get_heartbeat s.(Server.id) = Some hb ∧
        n.(node_id) = s.(Server.id) ∧ n.(max_peers) = max_peers_of s ∧
        n.(Node.is_draining) = s.(Server.is_draining) ∧
        n.(Node.health_score) = hb.(hb_health_score) ∧ n.(peer_count) = hb.(hb_peer_count))
        (filterb Server.is_active servers) nodes
  | Err e =>
      e = no_get ∧ ∃ s, s ∈ servers ∧ s.(Server.is_active) = true ∧ get_heartbeat s.(Server.id) = None
  end.
Proof.
  unfold discover_nodes. destruct (map_res _ _) as [nodes|e] eqn:E.
  - apply map_res_Forall2 in E. split.
    + eapply Forall2_Forall_l; [exact E|]. apply Forall_true. intros n s Hs.
      by rewrite discover_node_heard, Hs.
    + eapply Forall2_impl; [exact E|]. intros s n. unfold discover_node.
      destruct (get_heartbeat (Server.id s)) as [hb|]; [|done]. intros [= <-]. by exists hb.
  - assert (∀ l, map_res discover_node l = Err e →
      e = no_get ∧ ∃ s, s ∈ l ∧ get_heartbeat s.(Server.id) = None) as Hl.
    { induction l as [|s l IH]; [done|]. cbn [map_res].
      destruct (discover_node s) as [n|e'] eqn:En; cbn [mbind res_bind].
      - destruct (map_res discover_node l); cbn; [done|]. intros [= ->].
        destruct IH as (-> & s' & Hs' & ?); [done|]. split; [done|]. exists s'. split; [by right|done].
      - intros [= ->]. unfold discover_node in En.
        destruct (get_heartbeat (Server.id s)) eqn:Eh; [done|]. injection En as <-.
        split; [done|]. exists s. split; [left|done]. }
    destruct (Hl _ E) as (-> & s & [Ha Hs]%elem_of_filterb & Hh). split; [done|]. by exists s.
Qed.
End discovery.

(** ** Peer operations *)

(** The adapter on any state: it refuses to change peers and lists none. *)
Definition agent_adapter (W : Type) : NodeRuntimeAdapter W := {|
  add_peer _ _ w := (w, Err (NotImplementedError "add_peer is not supported in NODE_DISCOVERY=agent"));
  remove_peer _ _ w := (w, Err (NotImplementedError "remove_peer is not supported in NODE_DISCOVERY=agent"));
  list_peers _ w := (w, Ok [])
|}.
