(* ===== verification/DeviceTelemetry.v ===== *)
(** * Telemetry of devices and the handshake gate
    ([services/device_telemetry_cache.py], [core/handshake_quality_gate_task.py],
    [core/device_expiry_task.py], the device part of [api/v1/agent.py])

    What a heartbeat says of its peers is kept in Redis for two minutes and moves
    the apply status of the devices; the gate that runs every minute reads it
    back.  Round-trip times and metrics are left out. *)

From S2P Require Import Prelude PyStr PyVal Settings Models.
Open Scope Z_scope.

(** ** Redis *)

(** Keys that expire: [redis_set now key value ttl], times in seconds. *)
Class Redis (V W : Type) := {
  redis_get : Z → string → W → option V;
  redis_set : Z → string → V → Z → W → W
}.

(** A key lives until its time is up, and keys do not interfere. *)
Class RedisLaws (V W : Type) `{Redis V W} : Prop := {
  redis_get_set now t k v ttl w :
    now ≤ t → t < now + ttl → redis_get t k (redis_set now k v ttl w) = Some v;
  redis_get_set_ne now t k k' v ttl w :
    k ≠ k' → redis_get t k (redis_set now k' v ttl w) = redis_get t k w
}.

Definition memory (V : Type) : Type := gmap string (V * Z).

#[export] Instance memory_redis V : Redis V (memory V) := {
  redis_get now k m := match m !! k with Some (v, e) => if now <? e then Some v else None | None => None end;
  redis_set now k v ttl m := <[k := (v, now + ttl)]> m
}.

#[export] Instance memory_redis_laws V : RedisLaws V (memory V).
Proof.
  split; cbn [redis_get redis_set memory_redis]; unfold memory in *; intros.
  - rewrite (lookup_insert_eq (M := gmap string)). by assert ((t <? now + ttl) = true) as -> by lia.
  - by rewrite (lookup_insert_ne (M := gmap string)).
Qed.

(** ** The cache *)

Record Telemetry : Type := mkTelemetry {
  tm_device_id : string;
  tm_server_id : string;
  tm_handshake_ts : option Z;
  tm_handshake_age_sec : option Z;
  tm_transfer_rx_bytes : Z;
  tm_transfer_tx_bytes : Z;
  tm_allowed_ips_on_node : option string;
  tm_peer_present : bool;
  tm_node_health : string;
  tm_last_updated_ts : Z
}.

Definition DEVICE_TELEMETRY_TTL : Z := 120.
Definition HANDSHAKE_OK_SEC : Z := 120.

Definition device_telemetry_key (device_id : string) : string := "device_telemetry:" +:+ device_id.

(** [handshake_ts and handshake_ts > 0] *)
Definition positive (ts : option Z) : bool := match ts with Some t => 0 <? t | None => false end.

Definition _handshake_ok (ts age : option Z) : bool :=
  positive ts && match age with Some a => a <=? HANDSHAKE_OK_SEC | None => false end.

Section cache.
Context {W : Type} `{Redis Telemetry W}.
Implicit Types (w : W).

(** Also answers [(handshake_ok, no_handshake, traffic_zero)]. *)
Definition write_device_telemetry (now_ts : Z) (device_id server_id : string)
    (handshake_ts : option Z) (rx tx : Z) (allowed_ips : option string) (node_reachable : bool) w
    : W * (bool * bool * bool) :=
  let age := if positive handshake_ts then Some (now_ts - default 0 handshake_ts) else None in
  let h_ok := _handshake_ok handshake_ts age in
  let no_h := negb h_ok && match handshake_ts with None => true | Some t => t =? 0 end in
  let payload := mkTelemetry device_id server_id handshake_ts age rx tx
    (match allowed_ips with Some a => if str_truthy a then Some a else None | None => None end)
    true (if node_reachable then "online" else "offline") now_ts in
  (redis_set now_ts (device_telemetry_key device_id) payload DEVICE_TELEMETRY_TTL w,
   (h_ok, no_h, rx + tx =? 0)).

Definition not_newline (c : ascii) : bool := negb (Ascii.eqb c "010" || Ascii.eqb c "013").

(** The key without surrounding space and without line ends. *)
Definition _norm_public_key (pk : string) : string := of_chars (filterb not_newline (chars (strip pk))).

(** The key of a peer of the heartbeat. *)
Definition peer_key (p : pydict) : string := _norm_public_key (render (v_or (getv p "public_key") (VStr ""))).

(** One peer of the heartbeat; the fields of an unknown peer are not looked
    at. *)
Definition write_peer (now_ts : Z) (server_id : string) (pk_to_device_id : list (string * string))
    (p : pydict) (st : W * Z) : res (W * Z) :=
  if negb (truthy (getv p "public_key")) then Ok st
  else if negb (str_truthy (peer_key p)) then Ok st
  else
    match dget (peer_key p) pk_to_device_id with
    | None => Ok st
    | Some dev_id =>
        let hs_ts := match getv p "last_handshake_age_sec" with
                     | VInt age => now_ts - age
                     | VBool b => now_ts - (if b then 1 else 0)
                     | _ => 0
                     end in
        rx ← int_of (v_or (getv p "rx_bytes") (VInt 0));
        tx ← int_of (v_or (getv p "tx_bytes") (VInt 0));
        allowed ← match v_or (getv p "allowed_ips") (VStr "") with
                  | VStr s => Ok (strip s)
                  | _ => Err (AttributeError "strip")
                  end;
        Ok ((write_device_telemetry now_ts dev_id server_id
               (if 0 <? hs_ts then Some hs_ts else None) rx tx (Some allowed) true st.1).1, st.2 + 1)
    end.

(** What was written stays written when a later peer raises. *)
Fixpoint write_device_telemetry_from_heartbeat_peers (now_ts : Z) (server_id : string)
    (pk_to_device_id : list (string * string)) (peers : list pydict) (st : W * Z) : W * res Z :=
  match peers with
  | [] => (st.1, Ok st.2)
  | p :: peers' =>
      match write_peer now_ts server_id pk_to_device_id p st with
      | Err e => (st.1, Err e)
      | Ok st => write_device_telemetry_from_heartbeat_peers now_ts server_id pk_to_device_id peers' st
      end
  end.

(** One device of [get_device_telemetry_bulk]: nothing when the key is gone or
    holds another device's entry. *)
Definition get_device_telemetry (now_ts : Z) (device_id : string) w : option Telemetry :=
  match redis_get now_ts (device_telemetry_key device_id) w with
  | Some t => if String.eqb t.(tm_device_id) device_id then Some t else None
  | None => None
  end.

(** ** Heartbeats move devices *)

Definition heartbeat_devices (server_id : string) (ds : list Device.t) : list Device.t :=
  filterb (λ d, String.eqb d.(Device.server_id) server_id && is_none d.(Device.revoked_at)) ds.

Definition pk_to_device_id (server_id : string) (ds : list Device.t) : list (string * string) :=
  dict_of (omap (λ d, let pk := _norm_public_key d.(Device.public_key) in
     if str_truthy d.(Device.id) && str_truthy d.(Device.public_key) && str_truthy pk
     then Some (pk, d.(Device.id)) else None) (heartbeat_devices server_id ds)).

(** [UPDATE ... SET apply_status = 'APPLIED', last_applied_at = now] where the
    status is null or neither of the two. *)
Definition applied_or_verified (d : Device.t) : bool :=
  match d.(Device.apply_status) with Some s => str_in s ["APPLIED"; "VERIFIED"] | None => false end.

Definition mark_on_node (now : Z) (dev_ids : list string) (d : Device.t) : Device.t :=
  if str_in d.(Device.id) dev_ids && negb (applied_or_verified d)
  then Device.set_apply "APPLIED" (Some now) d.(Device.last_error) d.(Device.unstable_reason) d else d.

(** The device part of the heartbeat; [now] in microseconds.  When the telemetry
    raises, the devices are left alone. *)
Definition heartbeat_update (now : Z) (server_id : string) (peers : list pydict)
    (ds : list Device.t) w : list Device.t * W :=
  match peers with
  | [] => (ds, w)
  | _ =>
      let m := pk_to_device_id server_id ds in
      let '(w, r) :=
        match m with
        | [] => (w, Ok 0)
        | _ => write_device_telemetry_from_heartbeat_peers (now / 1000000) server_id m peers (w, 0)
        end in
      match r with
      | Err _ => (ds, w)
      | Ok _ => (mark_on_node now (omap (λ p, dget (peer_key p) m) peers) <$> ds, w)
      end
  end.

(** ** The handshake gate *)

Definition NO_HANDSHAKE_REASON : string := "no_handshake_within_gate".

Definition has_handshake (t : Telemetry) : bool :=
  positive t.(tm_handshake_ts) ||
  match t.(tm_handshake_age_sec) with Some a => 0 <=? a | None => false end.

(** [telemetry] is what the cache gave for the devices of the pass. *)
Definition gate_mark (cutoff : Z) (telemetry : string → option Telemetry) (d : Device.t) : bool :=
  bool_decide (d.(Device.apply_status) = Some "APPLIED") &&
  match d.(Device.last_applied_at) with Some a => a <? cutoff | None => false end &&
  is_none d.(Device.revoked_at) && is_none d.(Device.unstable_reason) &&
  match telemetry d.(Device.id) with Some t => negb (has_handshake t) | None => false end.

Definition gate_verify (telemetry : string → option Telemetry) (d : Device.t) : bool :=
  match d.(Device.apply_status) with Some s => str_in s ["APPLIED"; "NO_HANDSHAKE"; "ERROR"] | None => false end &&
  is_none d.(Device.revoked_at) &&
  match telemetry d.(Device.id) with Some t => has_handshake t | None => false end.

Definition gate_pass1 (cutoff : Z) (telemetry : string → option Telemetry) (d : Device.t) : Device.t :=
  if gate_mark cutoff telemetry d
  then Device.set_apply "ERROR" d.(Device.last_applied_at) (Some NO_HANDSHAKE_REASON)
         (Some NO_HANDSHAKE_REASON) d
  else d.

Definition gate_pass2 (telemetry : string → option Telemetry) (d : Device.t) : Device.t :=
  if gate_verify telemetry d
  then Device.set_apply "VERIFIED" d.(Device.last_applied_at) None None d
  else d.

(** The devices after the two passes and the number marked [ERROR].  The cache
    is read twice, at [t1] and [t2]. *)
Definition run_handshake_quality_gate_once (settings : Settings) (now t1 t2 : Z) (ds : list Device.t) w
    : list Device.t * Z :=
  let gate_minutes := if settings.(handshake_quality_gate_minutes) =? 0 then 5
                      else settings.(handshake_quality_gate_minutes) in
  let cutoff := now - seconds (gate_minutes * 60) in
  let tel t i := get_device_telemetry t i w in
  (gate_pass2 (tel t2) <$> (gate_pass1 cutoff (tel t1) <$> ds), countZ (gate_mark cutoff (tel t1)) ds).
End cache.

(** ** Reconciliation status *)

Definition _valid_allowed_ips (allowed_ips : option string) : bool :=
  let a := strip (default "" allowed_ips) in
  str_truthy a && negb (str_in a ["(none)"; "none"; "0.0.0.0/0"; "::/0"]) &&
  (contains "/32" a || contains "/128" a).

Definition compute_reconciliation_status (revoked : bool) (allowed_ips_db : option string)
    (peer_present : bool) (node_health : string) : string :=
  if revoked then (if peer_present then "needs_reconcile" else "ok")
  else if negb (_valid_allowed_ips allowed_ips_db) then "broken"
  else if String.eqb node_health "offline" then "needs_reconcile"
  else if negb peer_present then "needs_reconcile" else "ok".

Definition compute_config_state (has_consumed has_pending : bool) : string :=
  if has_consumed then "used" else if has_pending then "pending" else "issued".

Definition _reason_for_needs_reconcile (revoked peer_present : bool) (age : option Z)
    (node_health : string) : string :=
  if revoked && peer_present then "Revoked but peer still on node; run Reconcile to remove."
  else if String.eqb node_health "offline" then "Node offline; cannot reach peer."
  else if negb peer_present then "Peer not on node; run Reconcile to add."
  else if match age with Some a => HANDSHAKE_OK_SEC <? a | None => false end
  then "Client hasn't connected recently; ensure VPN client is online."
  else "Config and peer state out of sync; run Reconcile.".

(** [(reconciliation_status, telemetry_reason)] of a device with telemetry. *)
Definition merge_telemetry_into_device (d : Device.t) (t : Telemetry) : string * option string :=
  let revoked := is_some d.(Device.revoked_at) in
  let recon := compute_reconciliation_status revoked d.(Device.allowed_ips) t.(tm_peer_present)
                 t.(tm_node_health) in
  (recon, if String.eqb recon "needs_reconcile"
          then Some (_reason_for_needs_reconcile revoked t.(tm_peer_present) t.(tm_handshake_age_sec)
                       t.(tm_node_health))
          else None).

(** ** Expiry *)

Definition expired (now : Z) (d : Device.t) : bool :=
  match d.(Device.expires_at) with Some e => e <=? now | None => false end &&
  is_none d.(Device.revoked_at).

Definition run_device_expiry_check (now : Z) (ds : list Device.t) : list Device.t * Z :=
  ((λ d, if expired now d then Device.set_revoked_at (Some now) d else d) <$> ds,
   countZ (expired now) ds).

(** ** What the cache holds after a heartbeat *)

Lemma device_telemetry_key_inj i j : device_telemetry_key i = device_telemetry_key j → i = j.
Proof. unfold device_telemetry_key. intros H. by simplify_eq/=. Qed.

(** The numbers of a peer can be read. *)
Definition readable (p : pydict) : bool :=
  is_ok (int_of (v_or (getv p "rx_bytes") (VInt 0))) &&
  is_ok (int_of (v_or (getv p "tx_bytes") (VInt 0))) &&
  match v_or (getv p "allowed_ips") (VStr "") with VStr _ => true | _ => false end.

(** The heartbeat reports a handshake of the peer. *)
Definition peer_seen (now_ts : Z) (p : pydict) : bool :=
  match getv p "last_handshake_age_sec" with
  | VInt age => age <? now_ts
  | VBool b => (if b then 1 else 0) <? now_ts
  | _ => false
  end.

Section cache_facts.
Context {W : Type} `{!Redis Telemetry W, !RedisLaws Telemetry W}.
Implicit Types (w : W).
Context (now_ts : Z) (server_id : string) (m : list (string * string)).
Hypothesis no_empty_key : dget "" m = None.

Definition peer_of (dev : string) (p : pydict) : bool := bool_decide (dget (peer_key p) m = Some dev).

(** What the cache says of the handshakes of a device at [t]. *)
Definition seen (t : Z) (dev : string) w : option bool :=
  has_handshake <$> get_device_telemetry t dev w.

Lemma norm_empty : _norm_public_key "" = "".
Proof. reflexivity. Qed.

Lemma write_peer_skips p st :
  dget (peer_key p) m = None → write_peer now_ts server_id m p st = Ok st.
Proof.
  intros Hn. unfold write_peer. rewrite Hn. by repeat case_match.
Qed.

Lemma write_peer_writes dev p w n :
  dget (peer_key p) m = Some dev → readable p = true →
  ∃ tel, tel.(tm_device_id) = dev ∧ has_handshake tel = peer_seen now_ts p ∧
    write_peer now_ts server_id m p (w, n) =
      Ok (redis_set now_ts (device_telemetry_key dev) tel DEVICE_TELEMETRY_TTL w, n + 1).
Proof using no_empty_key.
  intros Hd Hr. unfold write_peer. rewrite Hd.
  assert (truthy (getv p "public_key") = true) as ->.
  { destruct (truthy _) eqn:E; [done|]. unfold peer_key, v_or in Hd. rewrite E in Hd.
    cbn [render] in Hd. rewrite norm_empty in Hd. congruence. }
  assert (str_truthy (peer_key p) = true) as ->.
  { destruct (peer_key p); [congruence|done]. }
  unfold readable in Hr.
  destruct (int_of (v_or (getv p "rx_bytes") (VInt 0))) as [rx|]; [|done].
  destruct (int_of (v_or (getv p "tx_bytes") (VInt 0))) as [tx|]; [|done].
  destruct (v_or (getv p "allowed_ips") (VStr "")) as [| | |a]; try done.
  cbn -[getv write_device_telemetry].
  set (hs := match getv p "last_handshake_age_sec" with
             | VInt age => now_ts - age | VBool b => now_ts - (if b then 1 else 0) | _ => 0 end).
  assert (Hs : peer_seen now_ts p = (0 <? hs)).
  { unfold peer_seen, hs. destruct (getv p _) as [|b| |]; [done| |lia|done]. destruct b; lia. }
  eexists. split; [|split; [|reflexivity]]; [done|]. rewrite Hs.
  unfold has_handshake, positive; cbn. destruct (0 <? hs) eqn:E; cbn; by rewrite ?E.
Qed.

Lemma seen_set t dev dev' tel w :
  now_ts ≤ t < now_ts + DEVICE_TELEMETRY_TTL → tel.(tm_device_id) = dev' →
  seen t dev (redis_set now_ts (device_telemetry_key dev') tel DEVICE_TELEMETRY_TTL w) =
    if decide (dev = dev') then Some (has_handshake tel) else seen t dev w.
Proof using Type*.
  intros Ht Htel. unfold seen, get_device_telemetry. case_decide as Hd.
  - subst dev'. rewrite Hd, redis_get_set by lia. by rewrite String.eqb_refl.
  - rewrite redis_get_set_ne; [done|]. by intros ?%device_telemetry_key_inj.
Qed.

(** The loop leaves, for each device, what the last of its peers says. *)
Lemma write_peers_spec peers t dev w n :
  now_ts ≤ t < now_ts + DEVICE_TELEMETRY_TTL → forallb readable peers = true →
  ∃ w' k, write_device_telemetry_from_heartbeat_peers now_ts server_id m peers (w, n) = (w', Ok k) ∧
    seen t dev w' = match last (filterb (peer_of dev) peers) with
                    | Some p => Some (peer_seen now_ts p)
                    | None => seen t dev w
                    end.
Proof using Type*.
  intros Ht. revert w n. induction peers as [|p peers IH]; intros w n; [by eauto|].
  intros [Hp Hps]%andb_prop. cbn [write_device_telemetry_from_heartbeat_peers].
  destruct (dget (peer_key p) m) as [d'|] eqn:Hd.
  - destruct (write_peer_writes d' p w n Hd Hp) as (tel & Hid & Hh & ->).
    destruct (IH (redis_set now_ts (device_telemetry_key d') tel DEVICE_TELEMETRY_TTL w) (n + 1) Hps)
      as (w' & k & -> & Hs).
    exists w', k. split; [done|]. rewrite Hs, (seen_set _ _ _ _ _ Ht Hid).
    destruct (decide (dev = d')) as [->|Hne].
    + rewrite filter_cons_True by (unfold peer_of; by rewrite bool_decide_true).
      rewrite last_cons, Hh. by destruct (last _).
    + rewrite filter_cons_False; [done|]. unfold peer_of. rewrite bool_decide_eq_true. congruence.
  - rewrite write_peer_skips by done. destruct (IH w n Hps) as (w' & k & -> & Hs).
    exists w', k. split; [done|]. rewrite Hs, filter_cons_False; [done|].
    unfold peer_of. rewrite bool_decide_eq_true. congruence.
Qed.
End cache_facts.

(** ** The gate on one device *)

Definition applied_before (cutoff : Z) (d : Device.t) : bool :=
  match d.(Device.last_applied_at) with Some a => a <? cutoff | None => false end.

(** The status the gate leaves to a device that is applied or verified, of which
    the cache says whether it has shaken hands. *)
Definition verdict (cutoff : Z) (handshake : bool) (d : Device.t) : string :=
  if bool_decide (d.(Device.apply_status) = Some "VERIFIED") || handshake then "VERIFIED"
  else if applied_before cutoff d && is_none d.(Device.unstable_reason) then "ERROR" else "APPLIED".

(** A device that was neither applied nor verified, after its peer was seen. *)
Definition reported_at (now : Z) (d : Device.t) : Device.t :=
  Device.set_apply "APPLIED" (Some now) d.(Device.last_error) d.(Device.unstable_reason) d.

(** The gate on one device whose telemetry says [b] in both passes. *)
Lemma gate_device cutoff (tel1 tel2 : string → option Telemetry) d b :
  has_handshake <$> tel1 d.(Device.id) = Some b → has_handshake <$> tel2 d.(Device.id) = Some b →
  d.(Device.revoked_at) = None → applied_or_verified d = true →
  (gate_pass2 tel2 (gate_pass1 cutoff tel1 d)).(Device.apply_status) = Some (verdict cutoff b d).
Proof.
  intros (x1 & H1 & Hb1)%fmap_Some (x2 & H2 & Hb2)%fmap_Some Hr Hs.
  unfold verdict, applied_before, gate_pass1, gate_mark. rewrite H1, <- Hb1, Hr, andb_true_r.
  unfold applied_or_verified in Hs. destruct (Device.apply_status d) as [s|] eqn:Es; [|done].
  apply bool_decide_eq_true, elem_of_cons in Hs as [->|[->|[]%elem_of_nil]%elem_of_cons].
  - rewrite bool_decide_true by done. rewrite bool_decide_false by done. cbn [andb orb].
    destruct (match Device.last_applied_at d with Some _ => _ | None => _ end), (is_none (Device.unstable_reason d)), b;
      cbn [andb negb]; unfold gate_pass2, gate_verify; cbn [Device.apply_status Device.id Device.revoked_at Device.set_apply];
      rewrite ?Es, H2, Hr, <- Hb2; done.
  - rewrite bool_decide_false by done. rewrite bool_decide_true by done. cbn [andb orb].
    unfold gate_pass2, gate_verify. by rewrite Es.
Qed.

Lemma mark_on_node_applied now dev_ids d :
  d.(Device.id) ∈ dev_ids →
  mark_on_node now dev_ids d =
    if applied_or_verified d then d else reported_at now d.
Proof.
  intros Hd. unfold mark_on_node, str_in. rewrite bool_decide_true by done. by destruct (applied_or_verified d).
Qed.

(** ** A heartbeat and the gate *)

Section round.
Context {W : Type} `{!Redis Telemetry W, !RedisLaws Telemetry W}.
Implicit Types (w : W) (d : Device.t).
Context (settings : Settings) (server_id : string) (ds : list Device.t).
Hypothesis ids_unique : NoDup (Device.id <$> ds).
Hypothesis keys_unique :
  NoDup ((λ d, _norm_public_key d.(Device.public_key)) <$> heartbeat_devices server_id ds).

#[local] Abbreviation m := (pk_to_device_id server_id ds).

(** A device the heartbeat of the server can speak of. *)
Definition served d : bool :=
  String.eqb d.(Device.server_id) server_id && is_none d.(Device.revoked_at) &&
  str_truthy d.(Device.id) && str_truthy (_norm_public_key d.(Device.public_key)).

Lemma pk_to_device_id_elem k i :
  (k, i) ∈ m → ∃ d, d ∈ heartbeat_devices server_id ds ∧ d.(Device.id) = i ∧
    k = _norm_public_key d.(Device.public_key) ∧ str_truthy k = true.
Proof.
  intros H. apply elem_of_dict_of, list_elem_of_omap in H as (d & Hd & Hk). exists d. cbv zeta in Hk. case_match eqn:E; simplify_eq.
  apply andb_prop in E as [_ E]. done.
Qed.

Lemma pk_to_device_id_empty : dget "" m = None.
Proof.
  destruct (dget "" m) as [i|] eqn:E; [|done].
  apply dget_Some_elem, pk_to_device_id_elem in E as (d & _ & _ & _ & ?). done.
Qed.

Lemma pk_to_device_id_served d :
  d ∈ ds → served d = true → dget (_norm_public_key d.(Device.public_key)) m = Some d.(Device.id).
Proof using keys_unique.
  intros Hd Hs. unfold served in Hs. rewrite !andb_true_iff in Hs. destruct Hs as [[[Hsv Hr] Hi] Hk].
  assert (Hhd : d ∈ heartbeat_devices server_id ds).
  { apply elem_of_filterb. by rewrite Hsv, Hr. }
  assert (Hin : _norm_public_key d.(Device.public_key) ∈ dkeys m).
  { apply elem_of_dkeys_dict_of, list_elem_of_fmap.
    exists (_norm_public_key d.(Device.public_key), d.(Device.id)). split; [done|].
    apply list_elem_of_omap. exists d. split; [done|]. cbv zeta. rewrite Hi, Hk.
    destruct (Device.public_key d); [done|reflexivity]. }
  apply dget_is_Some in Hin as [i E]. rewrite E.
  apply dget_Some_elem, pk_to_device_id_elem in E as (d' & Hd' & <- & Hk' & _).
  by rewrite (NoDup_fmap_inj _ _ d d' keys_unique Hhd Hd' Hk').
Qed.

(** The peers that speak of a device are those with its key. *)
Lemma peer_of_served d p :
  d ∈ ds → served d = true →
  peer_of m d.(Device.id) p = String.eqb (peer_key p) (_norm_public_key d.(Device.public_key)).
Proof using ids_unique keys_unique.
  intros Hd Hs. apply eq_bool_prop_intro. unfold peer_of. rewrite bool_decide_spec.
  rewrite Is_true_true, String.eqb_eq. split.
  - intros (d' & Hd' & Hi & Hk & _)%dget_Some_elem%pk_to_device_id_elem.
    apply elem_of_filterb in Hd' as [_ Hd'].
    by rewrite <- (NoDup_fmap_inj _ _ d' d ids_unique Hd' Hd Hi).
  - intros ->. by apply pk_to_device_id_served.
Qed.

(** The last word of the heartbeat on a device. *)
Definition report_of d (peers : list pydict) : option pydict :=
  last (filterb (λ p, String.eqb (peer_key p) (_norm_public_key d.(Device.public_key))) peers).

Lemma report_of_elem d peers p :
  report_of d peers = Some p → p ∈ peers ∧ peer_key p = _norm_public_key d.(Device.public_key).
Proof.
  intros H%last_Some_elem_of. apply elem_of_filterb in H as [H ?]. by apply String.eqb_eq in H.
Qed.

Lemma heartbeat_update_spec now peers d p w :
  d ∈ ds → served d = true → forallb readable peers = true → report_of d peers = Some p →
  ∃ dev_ids w', heartbeat_update now server_id peers ds w = (mark_on_node now dev_ids <$> ds, w') ∧
    d.(Device.id) ∈ dev_ids ∧
    ∀ t, now / 1000000 ≤ t < now / 1000000 + DEVICE_TELEMETRY_TTL →
      seen t d.(Device.id) w' = Some (peer_seen (now / 1000000) p).
Proof using All.
  intros Hd Hs Hr Hp. destruct (report_of_elem _ _ _ Hp) as [Hin Hk].
  pose proof (pk_to_device_id_served d Hd Hs) as Hm.
  assert (Hne : peers ≠ []) by (intros ->; by apply elem_of_nil in Hin).
  unfold heartbeat_update. destruct peers as [|p0 peers']; [done|].
  set (peers := p0 :: peers') in *. clearbody peers.
  destruct m as [|kv m'] eqn:Em; [done|]. rewrite <- Em in Hm |- *.
  destruct (write_device_telemetry_from_heartbeat_peers (now / 1000000) server_id m peers (w, 0))
    as [w' r] eqn:E.
  pose proof (λ t Ht, write_peers_spec (now / 1000000) server_id m pk_to_device_id_empty peers t
                d.(Device.id) w 0 Ht Hr) as Hw.
  assert (∃ k, r = Ok k) as [k ->].
  { destruct (Hw (now / 1000000)) as (w1 & k & E' & _); [unfold DEVICE_TELEMETRY_TTL; lia|].
    rewrite E in E'. simplify_eq. eauto. }
  eexists _, w'. split; [reflexivity|]. split.
  - apply list_elem_of_omap. exists p. split; [done|]. by rewrite Hk.
  - intros t Ht. destruct (Hw t Ht) as (w1 & k1 & E' & Hseen). rewrite E in E'. simplify_eq.
    rewrite Hseen.
    rewrite (list_filter_iff _ (λ p, String.eqb (peer_key p) (_norm_public_key d.(Device.public_key)) = true)).
    + unfold report_of in Hp. by rewrite Hp.
    + intros q. by rewrite peer_of_served.
Qed.

Definition cutoff_at (now : Z) : Z :=
  now - seconds ((if settings.(handshake_quality_gate_minutes) =? 0 then 5
                  else settings.(handshake_quality_gate_minutes)) * 60).

(** What a node reports of a peer decides the status of its device: when the
    gate runs within the two minutes the cache keeps the report (at [t1] and
    [t2]), a device whose last report has a handshake is VERIFIED; one without is
    APPLIED, or ERROR when it was applied before the gate's deadline and has not
    been marked unstable already; a verified device stays verified.  Devices and
    their keys are unique and the numbers of the report can be read. *)
Theorem heartbeat_then_gate now now' t1 t2 i d peers p w :
  ds !! i = Some d → served d = true → forallb readable peers = true → report_of d peers = Some p →
  now / 1000000 ≤ t1 < now / 1000000 + DEVICE_TELEMETRY_TTL →
  now / 1000000 ≤ t2 < now / 1000000 + DEVICE_TELEMETRY_TTL →
  ∃ ds' w' d', heartbeat_update now server_id peers ds w = (ds', w') ∧
    (run_handshake_quality_gate_once settings now' t1 t2 ds' w').1 !! i = Some d' ∧
    d'.(Device.apply_status) =
      Some (verdict (cutoff_at now') (peer_seen (now / 1000000) p)
              (if applied_or_verified d then d else reported_at now d)).
Proof using All.
  intros Hi Hs Hr Hp Ht1 Ht2. pose proof (list_elem_of_lookup_2 _ _ _ Hi) as Hd.
  destruct (heartbeat_update_spec now peers d p w Hd Hs Hr Hp) as (dev_ids & w' & -> & Hin & Hseen).
  eexists _, w', _. split; [reflexivity|]. cbn [run_handshake_quality_gate_once fst].
  rewrite !list_lookup_fmap, Hi. cbn [fmap option_fmap option_map]. split; [reflexivity|].
  assert (Hrev : d.(Device.revoked_at) = None).
  { unfold served in Hs. rewrite !andb_true_iff in Hs. destruct Hs as [[[_ Hs] _] _].
    by destruct (Device.revoked_at d). }
  rewrite mark_on_node_applied by done.
  apply gate_device; destruct (applied_or_verified d) eqn:Ha; first [done | by apply Hseen].
Qed.
End round.

Definition gate_settings : Settings := default_settings.
Definition gate_device1 : Device.t := Device.test "d1" "n1" "key1" "10.8.1.2/32".
Definition gate_device2 : Device.t := Device.test "d2" "n1" "key2" "10.8.1.3/32".
Definition gate_peers : list pydict :=
  [ [("public_key", VStr "key1"); ("last_handshake_age_sec", VInt 30); ("rx_bytes", VInt 10)];
    [("public_key", VStr " key2 ")] ].

Lemma heartbeat_then_gate_witness :
  ∃ ds' w' d', heartbeat_update (seconds 5000) "n1" gate_peers [gate_device1; gate_device2]
      (∅ : memory Telemetry) = (ds', w') ∧
    (run_handshake_quality_gate_once gate_settings (seconds 5060) 5060 5061 ds' w').1 !! 0%nat = Some d' ∧
    d'.(Device.apply_status) = Some "VERIFIED".
Proof.
  refine (heartbeat_then_gate gate_settings "n1" [gate_device1; gate_device2] _ _
    (seconds 5000) (seconds 5060) 5060 5061 0%nat gate_device1 gate_peers
    (nth 0 gate_peers []) (∅ : memory Telemetry) _ _ _ _ _ _).
  - apply (bool_decide_unpack _). by vm_compute.
  - apply (bool_decide_unpack _). by vm_compute.
  - reflexivity.
  - vm_compute. reflexivity.
  - vm_compute. reflexivity.
  - vm_compute. reflexivity.
  - vm_compute. split; [discriminate|reflexivity].
  - vm_compute. split; [discriminate|reflexivity].
Defined.

(** A device that never shakes hands is marked once: the next heartbeat makes it
    APPLIED again, and as its [unstable_reason] stays, no later gate marks it. *)
Definition silent_round (now : Z) (st : list Device.t * memory Telemetry) : list Device.t * memory Telemetry :=
  let '(ds, w) := heartbeat_update now "n1" [[("public_key", VStr "key2")]] st.1 st.2 in
  ((run_handshake_quality_gate_once gate_settings now (now / 1000000) (now / 1000000) ds w).1, w).

Definition silent_statuses (times : list Z) : list (option string * option string) :=
  (λ d, (d.(Device.apply_status), d.(Device.unstable_reason))) <$>
    (foldl (λ st t, silent_round (seconds t) st) ([gate_device2], ∅) times).1.

Example quality_gate_marks_once :
  silent_statuses [5000; 5400] = [(Some "ERROR", Some NO_HANDSHAKE_REASON)] ∧
  silent_statuses [5000; 5400; 5460] = [(Some "APPLIED", Some NO_HANDSHAKE_REASON)] ∧
  silent_statuses [5000; 5400; 5460; 5900; 9000] = [(Some "APPLIED", Some NO_HANDSHAKE_REASON)].
Proof. vm_compute. done. Qed.
