(* ===== verification/DockerText.v ===== *)
(** * What the Docker runtime reads and writes ([services/node_runtime_docker.py])

    The checks of the words of a command, the parsing of the output of [wg] and
    [ip], the host networks of an address list, and the classification of a
    container.  The commands themselves are in [DockerRuntime]. *)

From S2P Require Import Prelude PyFloat PyStr PyVal IpAddr NodeAgent AgentInspect.
Open Scope Z_scope.

(** ** Words of a command *)

Definition checked (re : string → bool) (what command : string) (shown : nat) (s : string) : res string :=
  let v := strip s in
  if re v then Ok v else Err (WireGuardCommandError what command (str_take shown v)).

Definition _sanitize_container_name : string → res string :=
  checked container_name_re "Invalid container name" "docker exec" 32.

Definition _sanitize_public_key : string → res string :=
  checked pubkey_re "Invalid public key" "wg set peer" 16.

(** [^[0-9A-Fa-f.,/: \t]+$] *)
Definition allowed_ips_re (s : string) : bool :=
  str_truthy s &&
  forallb (λ c, is_some (hex_val c) || existsb (Ascii.eqb c) [".";",";"/";":";" ";"009"]%char) (chars s).

Definition _sanitize_allowed_ips : string → res string :=
  checked allowed_ips_re "Invalid allowed IPs" "wg set allowed-ips" 32.

Definition _sanitize_interface_name : string → res string :=
  checked interface_name_re "Invalid interface name" "wg show" 32.

Definition _clamp_keepalive (value : option Z) : Z :=
  match value with None => 25 | Some v => Z.min (Z.max v 0) 65535 end.

(** [_sanitize_mbit]: the value when [int()] takes it, else the fallback. *)
Definition _sanitize_mbit (value : pyval) (fallback : Z) : Z :=
  match int_of value with Ok v => Z.min (Z.max v 1) 100000 | Err _ => fallback end.

(** ** Node identifiers *)

Section ids.
(** [hashlib.sha256(...).hexdigest()] *)
Context (sha256_hex : string → string).

Definition _node_id (container_name : string) : string := str_take 32 (sha256_hex container_name).

Definition is_hex_lower (c : ascii) : bool :=
  is_digit c || (is_lower c && is_some (hex_val c)).

Definition node_id_from_docker_api_endpoint (api_endpoint : string) : option string :=
  if negb (str_truthy api_endpoint) then None
  else
    let s := strip api_endpoint in
    if negb (startswith "docker://" s) then None
    else
      let name := strip (str_drop 9 s) in
      if negb (str_truthy name) then None
      else
        match _sanitize_container_name name with
        | Err _ => None
        | Ok safe =>
            if forallb is_hex_lower (chars safe) && (12 <=? String.length safe)%nat &&
               (String.length safe <=? 64)%nat
            then Some ("docker:" +:+ str_take 12 safe)
            else Some (_node_id safe)
        end.
End ids.

Definition _node_status (health_score : float) : string :=
  if fge health_score (lit 9 1) then "healthy"
  else if fge health_score (lit 5 1) then "degraded" else "unhealthy".

(** ** [wg show <interface> dump] *)

(** A peer as the runtime reports it. *)
Record DumpPeer : Type := mkDumpPeer {
  dp_public_key : string;
  dp_allowed_ips : string;
  dp_last_handshake : Z;
  dp_transfer_rx : Z;
  dp_transfer_tx : Z
}.

(** [int(x) if x else 0], 0 when it is not a number. *)
Definition int_or_zero (x : string) : Z :=
  if str_truthy x then default 0 (py_int x) else 0.

Definition dump_peer (line : string) : option DumpPeer :=
  let parts := split "009" line in
  if (length parts <? 8)%nat then None
  else Some (mkDumpPeer (nth_part 0 parts) (nth_part 3 parts) (int_or_zero (nth_part 4 parts))
               (int_or_zero (nth_part 5 parts)) (int_or_zero (nth_part 6 parts))).

(** The key and the port of the interface line, in either form of the dump. *)
Definition dump_interface (line : string) : string * Z :=
  let parts := split "009" line in
  if (5 <=? length parts)%nat && negb (pubkey_re (nth_part 0 parts))
  then (nth_part 2 parts, int_or_zero (nth_part 3 parts))
  else (if (1 <? length parts)%nat then nth_part 1 parts else "",
        int_or_zero (if (2 <? length parts)%nat then nth_part 2 parts else "0")).

Definition _parse_wg_dump (output : string) : string * Z * list DumpPeer :=
  match filterb (λ l, str_truthy (strip l)) (splitlines (strip output)) with
  | [] => ("", 0, [])
  | iface :: rest => (dump_interface iface, omap dump_peer rest)
  end.

(** ** [wg show <interface>] *)

(** A header is a number or a range of numbers. *)
Definition header_val (v : string) : option pyval :=
  if isdigit v then VInt <$> py_int v
  else
    match partition "-" v with
    | None => None
    | Some (l, r) =>
        if isdigit (strip l) && isdigit (strip r)
        then Some (VStr (strip l +:+ "-" +:+ strip r)) else None
    end.

Definition show_line (result : pydict) (line : string) : pydict :=
  match partition ":" (strip line) with
  | None => result
  | Some (key, val) =>
      match obf_key (lower (strip key)) with
      | None => result
      | Some (k, header) =>
          let v := strip val in
          match (if header then header_val v else VInt <$> py_int v) with
          | Some x => dset k x result
          | None => result
          end
      end
  end.

Definition _parse_wg_show_obfuscation (output : string) : option pydict :=
  match foldl show_line [] (splitlines (strip output)) with [] => None | r => Some r end.

Fixpoint split_ws_chars (cur : list ascii) (l : list ascii) : list string :=
  match l with
  | [] => match cur with [] => [] | _ => [of_chars (rev cur)] end
  | c :: l' =>
      if is_space c then
        match cur with [] => split_ws_chars [] l' | _ => of_chars (rev cur) :: split_ws_chars [] l' end
      else split_ws_chars (c :: cur) l'
  end.

(** [s.split()] *)
Definition split_ws (s : string) : list string := split_ws_chars [] (chars s).

Definition _parse_wg_interfaces (output : string) : list string :=
  omap (λ raw, match _sanitize_interface_name raw with Ok i => Some i | Err _ => None end)
    (split_ws (strip output)).

(** ** Host networks *)

Definition octets (v : Z) : list Z := [v / 2 ^ 24; v / 2 ^ 16 mod 256; v / 2 ^ 8 mod 256; v mod 256].

Definition ipv4_str (v : Z) : string := join "." (str_of_Z <$> octets v).

(** The prefix length a mask stands for: a number, a netmask or a hostmask. *)
Definition mask_prefix (v : Z) : option Z :=
  List.find (λ p, v =? 2 ^ 32 - 2 ^ (32 - p)) (Z.of_nat <$> seq 0 33).

Definition ipv4_prefixlen (m : string) : option Z :=
  if prefix_length m 32 then parse_nat (chars m)
  else
    match ipv4_parse m with
    | Some v => match mask_prefix v with Some p => Some p | None => mask_prefix (2 ^ 32 - 1 - v) end
    | None => None
    end.

(** [ip_network(s, strict=False)] of an IPv4 network: its address and prefix. *)
Definition ipv4_network (s : string) : option (Z * Z) :=
  let masked v p := (Z.shiftl (Z.shiftr v (32 - p)) (32 - p), p) in
  match split "/" s with
  | [a] => v ← ipv4_parse a; Some (v, 32)
  | [a; m] => v ← ipv4_parse a; p ← ipv4_prefixlen m; Some (masked v p)
  | _ => None
  end.

Definition network_str (n : Z * Z) : string := ipv4_str n.1 +:+ "/" +:+ str_of_Z n.2.

Definition host_of_token (token : string) : option string :=
  let cidr := strip token in
  if negb (str_truthy cidr) then None
  else
    match ipv4_network cidr with
    | Some (v, p) => if p =? 32 then Some (network_str (v, p)) else None
    | None => None
    end.

Definition _extract_ipv4_host_cidrs (allowed_ips : string) : list string :=
  omap host_of_token (split "," allowed_ips).

(** The network of length [prefixlen] around a host. *)
Definition subnet_of (prefixlen : Z) (host : string) : option string :=
  match ipv4_parse (hd "" (split "/" host)) with
  | Some v => Some (network_str (Z.shiftl (Z.shiftr v (32 - prefixlen)) (32 - prefixlen), prefixlen))
  | None => None
  end.

(** Appending what is not there yet. *)
Definition add_new (out : list string) (s : string) : list string :=
  if str_in s out then out else out ++ [s].

Definition _CLIENT_SUBNET_PREFIXLEN : Z := 24.

Definition _subnets_for_allowed_ips (allowed_ips : string) : list string :=
  foldl add_new [] (omap (subnet_of _CLIENT_SUBNET_PREFIXLEN) (_extract_ipv4_host_cidrs allowed_ips)).

(** ** Addresses of an interface *)

(** A row of [ip -j addr]: its name and the [local] of each [addr_info]. *)
Record IfaceAddr : Type := mkIfaceAddr { ia_ifname : option string; ia_local : list (option string) }.

Definition usable_local (a : option string) : option string :=
  let local := ostr_or a "" in
  if str_truthy local && negb (startswith "127." local) && negb (String.eqb local "::1")
  then Some local else None.

Definition _extract_internal_ip (addresses : list IfaceAddr) (interface_name : string) : string :=
  hd "" (mbind (λ i, if bool_decide (i.(ia_ifname) = Some interface_name)
                     then omap usable_local i.(ia_local) else []) addresses).

(** ** Health *)

(** A handshake within the last three minutes. *)
Definition active (now_ts : Z) (p : DumpPeer) : bool :=
  (0 <? p.(dp_last_handshake)) && (now_ts - p.(dp_last_handshake) <=? 180).

Definition handshake_factor (now_ts : Z) (peers : list DumpPeer) : float :=
  match peers with
  | [] => f1
  | _ => fadd (lit 5 1) (fmul (lit 5 1)
           (true_div (countZ (active now_ts) peers) (Z.of_nat (length peers))))
  end.

Definition _compute_health (now_ts : Z) (peers : list DumpPeer) (latency_ms : float) : float :=
  let latency_factor := fmax f0 (fsub f1 (fmin (fdiv latency_ms (of_Z 3000)) f1)) in
  fmax f0 (fmin f1 (fadd (fmul (lit 7 1) (handshake_factor now_ts peers))
                         (fmul (lit 3 1) latency_factor))).

(** ** Classification *)

Record Classification : Type := mkClassification {
  cl_kind : string;
  cl_type : string;
  cl_confidence : float;
  cl_evidence : list string
}.

(** [re.search] of the patterns with [re.I]: each holds of the texts that have
    its literal, the first pattern's class being optional. *)
Definition amnezia_literals : list string :=
  ["amnezia"; "amneziawg"; "metaligh/amneziawg"; "amneziavpn/amneziawg"].

Definition _match_any (s : string) (literals : list string) : bool :=
  str_truthy s && existsb (λ p, contains p (lower s)) literals.

Definition _classify_container_inspect (ins : Inspect) (image_refs : list string) : Classification :=
  let image := existsb (λ r, str_truthy r && _match_any r amnezia_literals) image_refs in
  let st :=
    mark (wg_port ins) (lit 7 1) "port_wg_udp"
      (mark (net_admin ins) (lit 5 1) "cap_net_admin"
        (mark (tun_mount ins) (lit 6 1) "mount_tun"
          (mark (awg_entry ins) (lit 7 1) "entrypoint_awg"
            (mark image (lit 9 1) "image_amnezia" (f0, []))))) in
  if bool_decide (st.2 = []) then mkClassification "unknown" "unknown" st.1 st.2
  else mkClassification "awg" "awg-node" st.1 st.2.

(** ** Reading the dump back *)

Lemma int_or_zero_str z : int_or_zero (str_of_Z z) = z.
Proof.
  unfold int_or_zero. destruct (str_truthy (str_of_Z z)) eqn:E; [by rewrite py_int_str_of_Z|].
  apply str_truthy_false in E. destruct (str_of_Z_chars z). done.
Qed.

(** A row of the kernel: the peer, its preshared key and its keepalive as
    printed. *)
Definition kernel_row : Type := Peer * (string * string).

Definition row_ok (r : kernel_row) : Prop :=
  peer_ok r.1 ∧ field r.2.1 = true ∧ field r.2.2 = true ∧ r.2.2 ≠ "".

Definition dump_of (p : Peer) : DumpPeer :=
  mkDumpPeer p.(a_public_key) p.(a_allowed_ips) p.(a_last_handshake_ts) p.(a_rx) p.(a_tx).

(** The dump of an interface with these rows. *)
Definition dump_text (private_key public_key fwmark : string) (port : Z) (rows : list kernel_row) : string :=
  unlines (iface_line private_key public_key fwmark port ::
           ((λ r, peer_line r.1 r.2.1 r.2.2) <$> rows)).

Lemma dump_peer_line p psk ka :
  peer_ok p → field psk = true → field ka = true →
  dump_peer (peer_line p psk ka) = Some (dump_of p).
Proof.
  intros (Hne & Hpk & Hep & Ha) Hpsk Hka. unfold dump_peer, peer_line. cbv zeta.
  rewrite split_join; [|repeat constructor; auto using field_no_tab, field_int|done].
  change ((length _ <? 8)%nat) with false. cbv iota. cbn -[int_or_zero str_of_Z].
  by rewrite !int_or_zero_str.
Qed.

Definition starts_word (s : string) : bool :=
  match chars s with c :: _ => negb (is_space c) | [] => false end.

Definition ends_word (s : string) : bool :=
  match rev (chars s) with c :: _ => negb (is_space c) | [] => false end.

Lemma starts_word_app s t : starts_word s = true → starts_word (s +:+ t) = true.
Proof. unfold starts_word. rewrite chars_app. by destruct (chars s). Qed.

Lemma ends_word_app s t : ends_word t = true → ends_word (s +:+ t) = true.
Proof. unfold ends_word. rewrite chars_app, rev_app_distr. by destruct (rev (chars t)). Qed.

Lemma starts_word_join sep s l : starts_word s = true → starts_word (join sep (s :: l)) = true.
Proof. destruct l; [done|]. apply starts_word_app. Qed.

Lemma ends_word_join sep l s : ends_word s = true → ends_word (join sep (l ++ [s])) = true.
Proof.
  intros Hs. induction l as [|x l IH]; [done|].
  cbn [app]. destruct (l ++ [s]) as [|y l'] eqn:E; [by destruct l|].
  change (join sep (x :: y :: l')) with (x +:+ sep +:+ join sep (y :: l')). by do 2 apply ends_word_app.
Qed.

Lemma field_starts s : field s = true → s ≠ "" → starts_word s = true.
Proof. unfold field, starts_word. destruct s as [|c s]; [done|]. by intros [? _]%andb_prop. Qed.

Lemma field_ends s : field s = true → s ≠ "" → ends_word s = true.
Proof.
  unfold field, ends_word. intros H Hne. rewrite forallb_forall in H.
  destruct (rev (chars s)) as [|c l] eqn:E.
  - apply (f_equal (@rev _)) in E. rewrite rev_involutive in E. by destruct s.
  - apply H, in_rev. rewrite E. by left.
Qed.

Lemma strip_trailing_newline s :
  starts_word s = true → ends_word s = true → strip (s +:+ String "010" "") = s.
Proof.
  unfold starts_word, ends_word. destruct (chars s) as [|c l] eqn:Hc; [done|].
  intros Hs%negb_true_iff He. unfold strip, rstrip_with, lstrip_with. rewrite chars_app, Hc.
  cbn [app]. rewrite dropwhile_head by done. rewrite chars_of_chars, app_comm_cons, rev_app_distr.
  destruct (rev (c :: l)) as [|d l'] eqn:Hr; [done|]. apply negb_true_iff in He.
  cbn [rev app dropwhile chars]. simpl. rewrite He. change (rev l' ++ [d]) with (rev (d :: l')).
  rewrite <- Hr, rev_involutive, <- Hc. apply of_chars_chars.
Qed.

Lemma unlines_join ls : ls ≠ [] → unlines ls = join (String "010" "") ls +:+ String "010" "".
Proof.
  induction ls as [|s ls IH]; [done|]. intros _. destruct ls as [|s2 ls]; [done|].
  change (unlines (s :: s2 :: ls)) with (s +:+ String "010" (unlines (s2 :: ls))).
  rewrite IH by done. change (join _ (s :: s2 :: ls)) with
    (s +:+ String "010" (join (String "010" "") (s2 :: ls))).
  by rewrite append_assoc.
Qed.

Lemma splitlines_join ls :
  Forall (λ s, no_linebreak s = true) ls → ends_word (List.last ls "") = true →
  splitlines (join (String "010" "") ls) = ls.
Proof.
  unfold splitlines. intros Hl He. induction Hl as [|s ls Hs Hl IH]; [done|].
  destruct ls as [|s2 ls].
  - assert (∀ l cur, forallb (λ a, negb (is_linebreak a)) l = true → rev cur ++ l ≠ [] →
      splitlines_chars cur l = [of_chars (rev cur ++ l)]) as Hgen.
    { induction l as [|a l IHl]; intros cur; simpl.
      - rewrite app_nil_r. by destruct cur.
      - intros [Ha Hl']%andb_prop Hne. apply negb_true_iff in Ha. rewrite Ha, IHl; [|done|by cbn [rev]; rewrite <- app_assoc; destruct (rev cur)].
        cbn [rev]. by rewrite <- app_assoc. }
    cbn [join]. rewrite Hgen; [f_equal; apply of_chars_chars|done|].
    cbn [List.last] in He. by destruct s.
  - change (join (String "010" "") (s :: s2 :: ls)) with
      (s +:+ String "010" (join (String "010" "") (s2 :: ls))).
    rewrite chars_app. simpl chars at 2. rewrite splitlines_app by done. cbn [rev app].
    rewrite of_chars_chars. f_equal. by apply IH.
Qed.

Lemma strip_unlines_lines s ls :
  Forall (λ s, no_linebreak s = true) (s :: ls) → starts_word s = true →
  ends_word (List.last (s :: ls) "") = true → splitlines (strip (unlines (s :: ls))) = s :: ls.
Proof.
  intros Hl Hs He. rewrite unlines_join, strip_trailing_newline; [by apply splitlines_join| | |done].
  - by apply starts_word_join.
  - rewrite (app_removelast_last "" (l := s :: ls)) by done. by apply ends_word_join.
Qed.

Lemma rev_case {A} (l : list A) : l = [] ∨ ∃ l' x, l = l' ++ [x].
Proof. induction l using rev_ind; [by left|right; eauto]. Qed.

(** The dump of an interface is read exactly, whatever keys, marks, endpoints and
    keepalives it shows. *)
Lemma parse_wg_dump_text private_key public_key fwmark port rows :
  private_key ≠ "" → fwmark ≠ "" →
  field private_key = true → field public_key = true → field fwmark = true →
  Forall row_ok rows →
  _parse_wg_dump (dump_text private_key public_key fwmark port rows) =
    (public_key, port, dump_of ∘ fst <$> rows).
Proof.
  intros Hne Hfne Hpriv Hpub Hfw Hrows. unfold _parse_wg_dump, dump_text.
  rewrite strip_unlines_lines.
  2:{ constructor; [apply join_no_linebreak; repeat constructor; auto using field_int|].
      apply Forall_fmap. eapply Forall_impl; [exact Hrows|]. intros [p [psk ka]] (Hp & H1 & H2 & _).
      apply join_no_linebreak. destruct Hp as (? & ? & ? & ?).
      repeat constructor; auto using field_int. }
  2:{ apply starts_word_join, field_starts; done. }
  2:{ destruct rows as [|r rows] using rev_ind.
      - cbn [fmap list_fmap List.last].
        apply (ends_word_join _ [private_key; public_key; str_of_Z port] fwmark), field_ends; done.
      - apply Forall_app in Hrows as [_ Hr]. apply Forall_inv in Hr.
        rewrite fmap_app. cbn [fmap list_fmap]. rewrite app_comm_cons, List.last_last.
        destruct Hr as (_ & _ & Hka & Hkne). unfold peer_line.
        apply (ends_word_join _ [_; _; _; _; _; _; _] r.2.2), field_ends; done. }
  rewrite filterb_all.
  2:{ constructor; [by apply join_truthy|]. apply Forall_fmap. eapply Forall_impl; [exact Hrows|].
      intros [p [psk ka]] ((? & ? & ? & ?) & _). by apply join_truthy. }
  f_equal.
  - unfold dump_interface, iface_line.
    rewrite split_join; [|repeat constructor; auto using field_no_tab, field_int|done].
    cbn -[int_or_zero str_of_Z pubkey_re]. by rewrite int_or_zero_str.
  - induction Hrows as [|[p [psk ka]] rows (Hp & H1 & H2 & _) Hrows IH]; [done|].
    rewrite !fmap_cons. cbn [omap list_omap fst snd].
    rewrite dump_peer_line by done. f_equal. exact IH.
Qed.

(** ** Host networks read back *)

Definition digits10 : list ascii := ["0";"1";"2";"3";"4";"5";"6";"7";"8";"9"]%char.

Lemma digits10_spec c : is_digit c = true → c ∈ digits10.
Proof.
  intros H. apply list_elem_of_In. destruct c as [[] [] [] [] [] [] [] []]; try done; simpl; tauto.
Qed.

(** The strings of one to three digits. *)
Definition short_digits : list (list ascii) :=
  let one := (λ c, [c]) <$> digits10 in
  let longer l := mbind (λ c, cons c <$> l) digits10 in
  one ++ longer one ++ longer (longer one).

Lemma short_digits_spec s :
  isdigit s = true → (String.length s <=? 3)%nat = true → chars s ∈ short_digits.
Proof.
  unfold isdigit. intros [Hne Hd]%andb_prop Hl. apply Nat.leb_le in Hl.
  assert (∀ c l L, is_digit c = true → l ∈ L → c :: l ∈ mbind (λ c, cons c <$> L) digits10) as Hc.
  { intros c l L Hdc Hin. apply list_elem_of_bind. exists c. split; [|by apply digits10_spec].
    apply list_elem_of_fmap. by exists l. }
  unfold short_digits. rewrite !elem_of_app.
  destruct s as [|a [|b [|c [|d s]]]]; simpl in Hd, Hl; rewrite ?andb_true_iff in Hd; [done|..|lia].
  - left. apply list_elem_of_fmap. exists a. split; [done|]. apply digits10_spec; tauto.
  - right; left. apply Hc; [tauto|]. apply list_elem_of_fmap. exists b. split; [done|]. apply digits10_spec; tauto.
  - right; right. apply Hc; [tauto|]. apply Hc; [tauto|]. apply list_elem_of_fmap. exists c.
    split; [done|]. apply digits10_spec; tauto.
Qed.

Lemma ipv4_octet_str s v : ipv4_octet s = Some v → str_of_Z v = s ∧ 0 ≤ v ≤ 255.
Proof.
  intros H. assert (Hin : chars s ∈ short_digits).
  { unfold ipv4_octet in H. destruct (isdigit s) eqn:E1; [|done].
    destruct (String.length s <=? 3)%nat eqn:E2; [|done]. by apply short_digits_spec. }
  assert (Hall : forallb (λ l, match ipv4_octet (of_chars l) with
      | Some v => String.eqb (str_of_Z v) (of_chars l) && (0 <=? v) && (v <=? 255)
      | None => true end) short_digits = true) by (vm_compute; reflexivity).
  rewrite forallb_forall in Hall. specialize (Hall _ (proj1 (list_elem_of_In _ _) Hin)).
  rewrite of_chars_chars, H, !andb_true_iff in Hall. destruct Hall as [[->%String.eqb_eq ?] ?]. split; [done|lia].
Qed.

Lemma octets_of a b c d :
  0 ≤ a ≤ 255 → 0 ≤ b ≤ 255 → 0 ≤ c ≤ 255 → 0 ≤ d ≤ 255 →
  octets (((a * 256 + b) * 256 + c) * 256 + d) = [a; b; c; d].
Proof.
  intros. set (v := ((a * 256 + b) * 256 + c) * 256 + d). unfold octets.
  assert (v / 2 ^ 24 = a) as ->.
  { symmetry. apply (Z.div_unique_pos _ _ _ ((b * 256 + c) * 256 + d)); unfold v; lia. }
  assert (v / 2 ^ 16 = a * 256 + b) as ->.
  { symmetry. apply (Z.div_unique_pos _ _ _ (c * 256 + d)); unfold v; lia. }
  assert (v / 2 ^ 8 = (a * 256 + b) * 256 + c) as ->.
  { symmetry. apply (Z.div_unique_pos _ _ _ d); unfold v; lia. }
  assert (∀ q r, 0 ≤ r ≤ 255 → (q * 256 + r) mod 256 = r) as Hm.
  { intros q r Hr. symmetry. apply (Z.mod_unique_pos _ _ q); lia. }
  unfold v. by rewrite !Hm.
Qed.

Lemma ipv4_octet_no_dot s v :
  ipv4_octet s = Some v → forallb (λ a, negb (Ascii.eqb a ".")) (chars s) = true.
Proof.
  intros H%ipv4_octet_digits. rewrite forallb_forall in *. intros c Hc. specialize (H c Hc).
  by destruct (Ascii.eqb_spec c ".") as [->|].
Qed.

Lemma join_split_chars c cur l :
  join (String c "") (split_chars c cur l) = of_chars (rev cur ++ l).
Proof.
  revert cur. induction l as [|a l IH]; intros cur; cbn [split_chars]; [by rewrite app_nil_r|].
  destruct (Ascii.eqb_spec a c) as [->|Hne].
  - specialize (IH []). destruct (split_chars c [] l) as [|s ls] eqn:E.
    + destruct l as [|b l]; [done|]. cbn [split_chars] in E. destruct (Ascii.eqb b c); [done|].
      exfalso. clear IH. revert E. generalize [b]. induction l as [|x l IHl]; intros k; [done|].
      cbn [split_chars]. destruct (Ascii.eqb x c); [done|apply IHl].
    + change (join _ (of_chars (rev cur) :: s :: ls)) with
        (of_chars (rev cur) +:+ String c (join (String c "") (s :: ls))).
      rewrite IH. apply chars_inj. rewrite chars_app. simpl chars at 2. by rewrite !chars_of_chars.
  - rewrite IH. cbn [rev]. by rewrite <- app_assoc.
Qed.

Lemma join_split c s : join (String c "") (split c s) = s.
Proof. unfold split. rewrite join_split_chars. apply of_chars_chars. Qed.

(** An address prints as it was written. *)
Lemma ipv4_str_parse s v : ipv4_parse s = Some v → ipv4_str v = s.
Proof.
  unfold ipv4_parse. intros H. rewrite <- (join_split "." s).
  destruct (split "." s) as [|a [|b [|c [|d [|e l]]]]]; try done; simpl in H; repeat case_match; simplify_eq.
  repeat match goal with E : ipv4_octet _ = Some _ |- _ => apply ipv4_octet_str in E as [<- ?] end.
  unfold ipv4_str. by rewrite octets_of.
Qed.

Lemma host_cidr_strip s : host_cidr s = true → strip s = s.
Proof.
  intros [Hne Hs]%host_cidr_chars. apply field_strip. unfold field. rewrite forallb_forall in *.
  intros c Hc. specialize (Hs c Hc). unfold dotted, is_digit, is_space in *.
  destruct (Ascii.eqb_spec c "/") as [E|]; [by rewrite E|].
  destruct (Ascii.eqb_spec c ".") as [E|]; [by rewrite E|]. lia.
Qed.

Lemma host_of_token_host s : host_cidr s = true → host_of_token s = Some s.
Proof.
  intros Hs. unfold host_of_token. rewrite host_cidr_strip, host_cidr_truthy by done. cbn [negb].
  pose proof (host_cidr_chars s Hs) as [Hne _].
  unfold host_cidr in Hs. destruct (partition "/" s) as [[a p]|] eqn:E; [|done].
  apply andb_prop in Hs as [->%String.eqb_eq Ha]. destruct (ipv4_parse a) as [v|] eqn:Ev; [|done].
  apply partition_spec in E. assert (Es : s = join "/" [a; "32"]).
  { apply chars_inj. rewrite E. cbn [join]. by rewrite !chars_app. }
  rewrite Es. unfold ipv4_network. rewrite split_join; [|repeat constructor|done].
  - rewrite Ev. cbn [mbind option_bind]. change (ipv4_prefixlen "32") with (Some 32).
    cbn [mbind option_bind]. rewrite Z.sub_diag, Z.shiftr_0_r, Z.shiftl_0_r. cbn -[join network_str].
    unfold network_str. cbn [fst snd]. by rewrite (ipv4_str_parse _ _ Ev).
  - apply ipv4_parse_dotted in Ev. rewrite forallb_forall in *. intros c Hc. specialize (Ev c Hc).
    by destruct (Ascii.eqb_spec c "/") as [->|].
Qed.

Lemma host_cidr_no_comma s : host_cidr s = true → split "," s = [s].
Proof.
  intros [Hne Hs]%host_cidr_chars. apply (split_join "," [s]); [|done].
  repeat constructor. rewrite forallb_forall in *. intros c Hc. specialize (Hs c Hc).
  by destruct (Ascii.eqb_spec c ",") as [->|].
Qed.

Lemma host_cidrs_host s : host_cidr s = true → _extract_ipv4_host_cidrs s = [s].
Proof.
  intros Hs. unfold _extract_ipv4_host_cidrs. rewrite host_cidr_no_comma by done.
  cbn [omap list_omap]. by rewrite host_of_token_host.
Qed.

(** A host that is one of the networks of a list is found in it. *)
Lemma host_cidrs_elem s allowed : host_cidr s = true → s ∈ cidrs allowed → s ∈ _extract_ipv4_host_cidrs allowed.
Proof.
  intros Hs (t & -> & Ht)%list_elem_of_fmap. apply list_elem_of_omap. exists t. split; [done|].
  apply host_of_token_host in Hs. unfold host_of_token in *. by rewrite strip_strip in Hs.
Qed.

Example host_cidrs_ex :
  _extract_ipv4_host_cidrs "10.8.1.2/32, fd00::2/128,10.9.0.0/24, 10.8.1.3 ,10.8.1.4/255.255.255.255" =
    ["10.8.1.2/32"; "10.8.1.3/32"; "10.8.1.4/32"] ∧
  _subnets_for_allowed_ips "10.8.1.2/32,10.8.1.7/32,10.8.2.7/32" = ["10.8.1.0/24"; "10.8.2.0/24"].
Proof. vm_compute. done. Qed.
