(* ===== verification/DockerRuntime.v ===== *)
(** * The Docker runtime adapter ([services/node_runtime_docker.py])

    Discovery of the nodes among the containers of the Docker engine, and the
    peer operations through [docker exec wg].  Commands that do not answer raise
    nothing: [_docker_exec] gives their exit code.  The time a probe took is the
    sum of the times of its commands; the time of day is an argument.  Container
    statistics are left out. *)

From S2P Require Import Prelude PyFloat PyStr PyVal IpAddr NodeAgent AgentInspect Node Runtime DockerText.
Open Scope Z_scope.

(** A container of the engine's list: what [inspect] says of it, and the
    references of its image. *)
Record Container : Type := mkContainer {
  ct_id : string;
  ct_name : string;
  ct_inspect : Inspect;
  ct_image_refs : list string
}.

(** The engine lists the running containers, or cannot be reached. *)
Class DockerEngine (W : Type) := { containers : W → res (list Container) }.

(** A container that discovery considers. *)
Record Found : Type := mkFound {
  f_id : string;
  f_name : string;
  f_class : Classification
}.

Definition NodeDiscoveryError (e : exn) : exn := RuntimeError (str_take 200 (exn_str e)).

Section adapter.
Context {W : Type} `{AwgHost W, DockerEngine W}.
Implicit Types (w : W).
(** The configuration of the adapter, the time, and [json.loads] of the output
    of [ip -j addr] when that is a list. *)
Context (container_filter interface : string) (now_ts : Z).
Context (ip_addr_json : string → list IfaceAddr).

Definition container_prefixes : list string :=
  match filterb str_truthy (strip <$> split "," container_filter) with
  | [] => ["amnezia-awg"]
  | l => l
  end.

Definition has_prefix (name : string) : bool := existsb (λ p, startswith p name) container_prefixes.

Definition docker_exec (container : string) (cmd : list string) w : W * (Z * string * float) :=
  _run (["docker"; "exec"; container] ++ cmd) w.

(** ** Discovery *)

Definition ok_name (r : res string) : option string := match r with Ok s => Some s | Err _ => None end.

Definition _candidate_interfaces : list string :=
  foldl add_new [] (omap (ok_name ∘ _sanitize_interface_name) [interface; "awg0"; "wg0"]).

(** The first interface whose dump succeeds, with the last answer. *)
Fixpoint probe (container : string) (ifaces : list string) (last : Z * string) (elapsed : float) w
    : W * (option string * (Z * string) * float) :=
  match ifaces with
  | [] => (w, (None, last, elapsed))
  | i :: ifaces' =>
      let '(w, (code, output, ms)) := docker_exec container ["wg"; "show"; i; "dump"] w in
      if code =? 0 then (w, (Some i, (code, output), fadd elapsed ms))
      else probe container ifaces' (code, output) (fadd elapsed ms) w
  end.

Definition _read_wg_dump (container : string) w : W * (string * Z * string * float) :=
  let '(w, (found, last, elapsed)) := probe container _candidate_interfaces (1, "") f0 w in
  match found with
  | Some i => (w, (i, last.1, last.2, elapsed))
  | None =>
      let '(w, (code, output, ms)) := docker_exec container ["wg"; "show"; "interfaces"] w in
      if code =? 0 then
        let others := foldl add_new [] (filterb (λ i, negb (str_in i _candidate_interfaces))
                                          (_parse_wg_interfaces output)) in
        let '(w, (found, last, elapsed)) := probe container others last (fadd elapsed ms) w in
        (w, (default interface found, last.1, last.2, elapsed))
      else (w, (interface, code, output, fadd elapsed ms))
  end.

Definition name_of_container (c : Container) : string := lstrip_with (Ascii.eqb "/") c.(ct_name).

Definition is_candidate (c : Container) : bool :=
  bool_decide (c.(ct_inspect).(i_status) = Some "running") && has_prefix (name_of_container c).

Definition found_of (c : Container) : Found :=
  mkFound (str_take 12 c.(ct_id)) (name_of_container c)
    (_classify_container_inspect c.(ct_inspect) (filterb str_truthy (image_of c.(ct_inspect) :: c.(ct_image_refs)))).

Definition _discover_containers w : res (list Found) :=
  match containers w with
  | Err e => Err (NodeDiscoveryError e)
  | Ok l => Ok (found_of <$> filterb is_candidate l)
  end.

(** The names of the candidates, running or not, that are well formed. *)
Definition _discover_container_names w : res (list string) :=
  match containers w with
  | Err e => Err (NodeDiscoveryError e)
  | Ok l => Ok (omap (λ c, let name := name_of_container c in
                 if str_truthy name && has_prefix name then ok_name (_sanitize_container_name name) else None) l)
  end.

(** A node nothing is known of, or one with the figures of its dump. *)
Definition silent_node (f : Found) (name iface : string) (latency : option float) : NodeMetadata := {|
  node_id := "docker:" +:+ f.(f_id); container_name := name; interface_name := iface;
  Node.public_key := ""; listen_port := 0; endpoint_ip := ""; peer_count := 0; active_peers := None;
  total_rx_bytes := 0; total_tx_bytes := 0; Node.status := "unhealthy";
  capabilities := [("obfuscation", true)]; Node.health_score := f0; max_peers := 1000;
  Node.is_draining := false; latency_ms := latency |}.

Definition _discover_one (f : Found) (name : string) w : W * NodeMetadata :=
  let '(w, (iface, code, output, latency)) := _read_wg_dump f.(f_id) w in
  if negb (code =? 0) then (w, silent_node f name iface (Some latency))
  else
    let '(public_key, port, peers) := _parse_wg_dump output in
    let '(w, (ip_code, ip_output, _)) := docker_exec f.(f_id) ["ip"; "-j"; "addr"; "show"; iface] w in
    let internal_ip := _extract_internal_ip (if ip_code =? 0 then ip_addr_json ip_output else []) iface in
    let health := _compute_health now_ts peers latency in
    (w, {| node_id := "docker:" +:+ f.(f_id); container_name := name; interface_name := iface;
           Node.public_key := public_key; listen_port := port; endpoint_ip := internal_ip;
           peer_count := Z.of_nat (length peers); active_peers := Some (countZ (active now_ts) peers);
           total_rx_bytes := sumZ (dp_transfer_rx <$> peers);
           total_tx_bytes := sumZ (dp_transfer_tx <$> peers);
           Node.status := _node_status health; capabilities := [("obfuscation", true)];
           Node.health_score := health; max_peers := 1000; Node.is_draining := false;
           latency_ms := Some latency |}).

Definition is_node (f : Found) : bool :=
  str_truthy f.(f_id) &&
  (String.eqb f.(f_class).(cl_kind) "awg" || fge f.(f_class).(cl_confidence) (lit 6 1)).

Fixpoint discover_loop (l : list Found) w : W * list NodeMetadata :=
  match l with
  | [] => (w, [])
  | f :: l' =>
      if is_node f then
        let '(w, n) := _discover_one f (if str_truthy f.(f_name) then f.(f_name) else f.(f_id)) w in
        let '(w, ns) := discover_loop l' w in (w, n :: ns)
      else discover_loop l' w
  end.

(** One node per name, the healthiest. *)
Definition keep_best (by_name : list (string * NodeMetadata)) (n : NodeMetadata) : list (string * NodeMetadata) :=
  let name := if str_truthy n.(container_name) then n.(container_name) else n.(node_id) in
  match dget name by_name with
  | Some e => if fgt n.(Node.health_score) e.(Node.health_score) then dset name n by_name else by_name
  | None => dset name n by_name
  end.

Definition discover_nodes w : W * list NodeMetadata :=
  match _discover_containers w with
  | Err _ => (w, [])
  | Ok l => let '(w, ns) := discover_loop l w in (w, (foldl keep_best [] ns).*2)
  end.

(** By identifier, by name, or the only node there is. *)
Definition pick_node (node_id_ : string) (nodes : list NodeMetadata) : option NodeMetadata :=
  match List.find (λ n, String.eqb n.(node_id) node_id_) nodes with
  | Some n => Some n
  | None =>
      match List.find (λ n, String.eqb n.(container_name) node_id_) nodes with
      | Some n => Some n
      | None => match nodes with [n] => Some n | _ => None end
      end
  end.

Definition _resolve_node (node_id_ : string) w : W * option NodeMetadata :=
  let '(w, nodes) := discover_nodes w in (w, pick_node node_id_ nodes).

(** The container and the interface of a node. *)
Definition node_interface (n : NodeMetadata) : res string :=
  _sanitize_interface_name (if str_truthy n.(interface_name) then n.(interface_name) else interface).

(** ** Reading *)

(** [(status, handshake_ok)] *)
Definition health_check (node_id_ : string) w : W * res (string * option bool) :=
  let '(w, node) := _resolve_node node_id_ w in
  match node with
  | None => (w, Ok ("unknown", None))
  | Some n =>
      match node_interface n with
      | Err e => (w, Err e)
      | Ok iface =>
          let '(w, (code, output, _)) := docker_exec n.(container_name) ["wg"; "show"; iface; "dump"] w in
          if negb (code =? 0) then (w, Ok ("unreachable", Some false))
          else
            let '(_, _, peers) := _parse_wg_dump output in
            let ok := match peers with [] => true | _ => existsb (active now_ts) peers end in
            (w, Ok (if ok then "ok" else "degraded", Some ok))
      end
  end.

Definition get_obfuscation_from_node (node_id_ : string) w : W * res (option pydict) :=
  let '(w, node) := _resolve_node node_id_ w in
  match node with
  | None => (w, Ok None)
  | Some n =>
      match node_interface n with
      | Err e => (w, Err e)
      | Ok iface =>
          let '(w, (code, output, _)) := docker_exec n.(container_name) ["wg"; "show"; iface] w in
          (w, Ok (if code =? 0 then _parse_wg_show_obfuscation output else None))
      end
  end.

(** A node that is not found, or does not answer, has no peers. *)
Definition dump_peers (node_id_ : string) w : W * res (list DumpPeer) :=
  let '(w, node) := _resolve_node node_id_ w in
  match node with
  | None => (w, Ok [])
  | Some n =>
      match node_interface n with
      | Err e => (w, Err e)
      | Ok iface =>
          let '(w, (code, output, _)) := docker_exec n.(container_name) ["wg"; "show"; iface; "dump"] w in
          (w, Ok (if code =? 0 then (_parse_wg_dump output).2 else []))
      end
  end.

Definition runtime_peer (p : DumpPeer) : RuntimePeer :=
  mkRuntimePeer p.(dp_public_key) (Some p.(dp_allowed_ips)) (Some p.(dp_last_handshake))
    (Some p.(dp_transfer_rx)) (Some p.(dp_transfer_tx)).

Definition docker_list_peers (node_id_ : string) w : W * res (list RuntimePeer) :=
  let '(w, r) := dump_peers node_id_ w in (w, (λ l : list DumpPeer, runtime_peer <$> l) <$> r).

(** ** Changing peers *)

(** What fails is logged only. *)
Definition _ensure_client_subnet_routes (container iface : string) (subnets : list string) w : W :=
  foldl (λ w cidr, if str_truthy cidr
                   then (docker_exec container ["ip"; "route"; "add"; cidr; "dev"; iface] w).1 else w)
    w subnets.

Definition persist_script (iface : string) : string :=
  "wg showconf " +:+ iface +:+ " > /run/" +:+ iface +:+ ".conf".

Definition _persist_wg_config (container iface : string) w : W :=
  (docker_exec container ["sh"; "-c"; persist_script iface] w).1.

Definition WGE (msg cmd out : string) : exn := WireGuardCommandError msg cmd out.

Definition not_found (node_id_ : string) : exn :=
  WGE ("Node not found: " +:+ node_id_) "docker exec wg set" "".

(** The hosts of an address list that another peer has, in the order of the
    list (the order of a Python set is not fixed). *)
Definition conflicts (public_key allowed : string) (existing : list DumpPeer) : option (list string) :=
  let targets := _extract_ipv4_host_cidrs allowed in
  List.find (λ l, negb (bool_decide (l = [])))
    ((λ p, filterb (λ t, str_in t (_extract_ipv4_host_cidrs (strip p.(dp_allowed_ips)))) targets) <$>
       filterb (λ p, negb (String.eqb p.(dp_public_key) public_key)) existing).

Definition same_set (a b : list string) : bool :=
  forallb (λ x, str_in x b) a && forallb (λ x, str_in x a) b.

(** The addresses of the first row of a key. *)
Definition applied_ips (public_key : string) (peers : list DumpPeer) : string :=
  match List.find (λ p, String.eqb p.(dp_public_key) public_key) peers with
  | Some p => strip p.(dp_allowed_ips)
  | None => ""
  end.

(** The command that sets a peer, through a shell when there is a preshared
    key. *)
Definition wg_set (iface public_key allowed : string) (keepalive : Z) (psk : option string) : list string :=
  match psk with
  | Some k =>
      if str_truthy k then ["sh"; "-c"; psk_script iface public_key allowed keepalive (strip k)]
      else ["wg"; "set"; iface; "peer"; public_key; "allowed-ips"; allowed; "persistent-keepalive";
            str_of_Z keepalive]
  | None => ["wg"; "set"; iface; "peer"; public_key; "allowed-ips"; allowed; "persistent-keepalive";
             str_of_Z keepalive]
  end.

Definition full_tunnel_msg : string :=
  "Server peer AllowedIPs must be client tunnel /32 (e.g. 10.8.1.2/32), not 0.0.0.0/0".

(** The key and the addresses of a peer, checked. *)
Definition checked_peer (p : PeerConfigLike) : res (string * string) :=
  public_key ← _sanitize_public_key p.(pc_public_key);
  let raw := ostr_or p.(pc_allowed_ips) "" in
  if negb (str_truthy (strip raw)) || contains "0.0.0.0/0" raw
  then Err (WGE full_tunnel_msg "add_peer" (str_take 32 raw))
  else allowed ← _sanitize_allowed_ips (strip raw); Ok (public_key, allowed).

(** The rest of [add_peer], on the container and the interface of the node. *)
Definition set_peer (node_id_ container iface public_key allowed : string) (p : PeerConfigLike) w : W * res unit :=
  let '(w, before) := dump_peers node_id_ w in
  match before with
  | Err e => (w, Err e)
  | Ok existing =>
      match conflicts public_key allowed existing with
      | Some c =>
          let conflict := join ", " c in
          (w, Err (WGE ("allowed_ips conflict: " +:+ conflict +:+ " already assigned to another peer")
                     "add_peer" (str_take 64 conflict)))
      | None =>
          let keepalive := _clamp_keepalive (Some p.(pc_persistent_keepalive)) in
          let '(w, (code, output, _)) :=
            docker_exec container (wg_set iface public_key allowed keepalive p.(pc_preshared_key)) w in
          if negb (code =? 0) then (w, Err (WGE "wg set failed" "docker exec wg set" (str_take 400 output)))
          else
            let '(w, after) := dump_peers node_id_ w in
            match after with
            | Err e => (w, Err e)
            | Ok peers_after =>
                let applied := applied_ips public_key peers_after in
                if negb (same_set (_extract_ipv4_host_cidrs allowed) (_extract_ipv4_host_cidrs applied))
                then (w, Err (WGE "Verification failed: allowed_ips not applied on node" "add_peer"
                           ("expected=" +:+ str_take 48 allowed +:+ " got=" +:+ str_take 48 applied)))
                else
                  let w := _ensure_client_subnet_routes container iface (_subnets_for_allowed_ips allowed) w in
                  (_persist_wg_config container iface w, Ok tt)
            end
      end
  end.

Definition docker_add_peer (node_id_ : string) (p : PeerConfigLike) w : W * res unit :=
  let '(w, node) := _resolve_node node_id_ w in
  match node with
  | None => (w, Err (not_found node_id_))
  | Some n =>
      match (iface ← node_interface n; kp ← checked_peer p; Ok (iface, kp)) with
      | Err e => (w, Err e)
      | Ok (iface, kp) => set_peer node_id_ n.(container_name) iface kp.1 kp.2 p w
      end
  end.

Definition wg_remove (iface public_key : string) : list string :=
  ["wg"; "set"; iface; "peer"; public_key; "remove"].

Definition docker_remove_peer (node_id_ peer_public_key : string) w : W * res unit :=
  let '(w, node) := _resolve_node node_id_ w in
  match node with
  | None => (w, Err (not_found node_id_))
  | Some n =>
      match (iface ← node_interface n; pk ← _sanitize_public_key peer_public_key; Ok (iface, pk)) with
      | Err e => (w, Err e)
      | Ok (iface, pk) =>
          let '(w, (code, output, _)) := docker_exec n.(container_name) (wg_remove iface pk) w in
          if negb (code =? 0)
          then (w, Err (WGE "wg set remove failed" "docker exec wg set peer remove" (str_take 400 output)))
          else (_persist_wg_config n.(container_name) iface w, Ok tt)
      end
  end.

Definition ensure_reply_routes (node_id_ : string) w : W * res unit :=
  let '(w, node) := _resolve_node node_id_ w in
  match node with
  | None => (w, Ok tt)
  | Some n =>
      match node_interface n with
      | Err e => (w, Err e)
      | Ok iface =>
          let '(w, r) := dump_peers node_id_ w in
          match r with
          | Err e => (w, Err e)
          | Ok peers =>
              let subnets := foldl add_new []
                (mbind (λ p, _subnets_for_allowed_ips (strip p.(dp_allowed_ips))) peers) in
              (_ensure_client_subnet_routes n.(container_name) iface subnets w, Ok tt)
          end
      end
  end.

#[local] Instance docker_adapter : NodeRuntimeAdapter W := {
  add_peer := docker_add_peer;
  remove_peer := docker_remove_peer;
  list_peers := docker_list_peers
}.
End adapter.

(** ** What the adapter relies on

    The state behind the engine: its list of containers, which interfaces of a
    container (given by name or by short id) answer, what [wg show interfaces]
    prints, and the rows of each interface. *)
Record kernel_state : Type := mkKernel {
  k_listing : res (list Container);
  k_answers : string → string → bool;
  k_ifaces : string → option string;
  k_rows : string → string → list kernel_row
}.

(** The networks of each key of an interface. *)
Definition key_map (rows : list kernel_row) : gmap string string :=
  list_to_map ((λ r, (r.1.(a_public_key), r.1.(a_allowed_ips))) <$> rows).

(** Nothing but rows changed. *)
Definition same_frame (k k' : kernel_state) : Prop :=
  k'.(k_listing) = k.(k_listing) ∧ k'.(k_answers) = k.(k_answers) ∧ k'.(k_ifaces) = k.(k_ifaces).

Definition same_peers (k k' : kernel_state) : Prop :=
  same_frame k k' ∧ ∀ c i, key_map (k'.(k_rows) c i) = key_map (k.(k_rows) c i).

(** [c] is the name of a container. *)
Definition named (k : kernel_state) (c : string) : Prop :=
  match k.(k_listing) with Ok l => c ∈ name_of_container <$> l | Err _ => False end.

(** The map of one interface became [m]; those of the other containers, and of
    its other interfaces, stayed. *)
Definition rows_became (c i : string) (m : gmap string string) (k k' : kernel_state) : Prop :=
  same_frame k k' ∧ key_map (k'.(k_rows) c i) = m ∧
  ∀ c' i', named k c' → (c', i') ≠ (c, i) → key_map (k'.(k_rows) c' i') = key_map (k.(k_rows) c' i').

Definition dx (c : string) (cmd : list string) : list string := ["docker"; "exec"; c] ++ cmd.

(** A preshared key that is one word, if there is one. *)
Definition psk_word (psk : option string) : bool :=
  match psk with Some k => negb (str_truthy k) || shell_word (strip k) | None => true end.

(** The behaviour of [docker] and [wg]: container names are unique, reading
    changes nothing, a dump shows the rows, only an interface that answers can be
    set, and setting a peer whose host no other peer has replaces the networks of
    its key alone.  A command that fails changes no peer. *)
Class DockerLaws (W : Type) `{AwgHost W, DockerEngine W} (kernel : W → kernel_state) : Prop := {
  containers_ok w : containers w = (kernel w).(k_listing);
  names_unique w l : containers w = Ok l → NoDup (name_of_container <$> l);
  rows_fine w c i : Forall row_ok ((kernel w).(k_rows) c i) ∧
    NoDup ((λ r, r.1.(a_public_key)) <$> (kernel w).(k_rows) c i);
  dump_law c i w w' code out ms :
    _run (dx c ["wg"; "show"; i; "dump"]) w = (w', (code, out, ms)) →
    kernel w' = kernel w ∧ (code =? 0) = (kernel w).(k_answers) c i ∧
    (code = 0 → ∃ priv pub fw port, priv ≠ "" ∧ fw ≠ "" ∧ field priv = true ∧ field pub = true ∧
       field fw = true ∧ out = dump_text priv pub fw port ((kernel w).(k_rows) c i));
  ifaces_law c w w' code out ms :
    _run (dx c ["wg"; "show"; "interfaces"]) w = (w', (code, out, ms)) →
    kernel w' = kernel w ∧ (kernel w).(k_ifaces) c = if code =? 0 then Some out else None;
  addr_law c i w w' r : _run (dx c ["ip"; "-j"; "addr"; "show"; i]) w = (w', r) → kernel w' = kernel w;
  set_answers c i pk a ka psk w w' out ms :
    _run (dx c (wg_set i pk a ka psk)) w = (w', (0, out, ms)) → (kernel w).(k_answers) c i = true;
  set_law c i pk a ka psk w w' out ms :
    shell_word pk = true → host_cidr a = true → psk_word psk = true →
    (∀ k v, k ≠ pk → key_map ((kernel w).(k_rows) c i) !! k = Some v → a ∉ cidrs v) →
    _run (dx c (wg_set i pk a ka psk)) w = (w', (0, out, ms)) →
    rows_became c i (<[pk := a]> (key_map ((kernel w).(k_rows) c i))) (kernel w) (kernel w');
  set_fails c i pk a ka psk w w' code out ms :
    code ≠ 0 → _run (dx c (wg_set i pk a ka psk)) w = (w', (code, out, ms)) →
    same_peers (kernel w) (kernel w');
  remove_law c i pk w w' out ms :
    _run (dx c (wg_remove i pk)) w = (w', (0, out, ms)) →
    rows_became c i (delete pk (key_map ((kernel w).(k_rows) c i))) (kernel w) (kernel w');
  remove_fails c i pk w w' code out ms :
    code ≠ 0 → _run (dx c (wg_remove i pk)) w = (w', (code, out, ms)) →
    same_peers (kernel w) (kernel w');
  route_law c cidr i w w' r :
    _run (dx c ["ip"; "route"; "add"; cidr; "dev"; i]) w = (w', r) → same_peers (kernel w) (kernel w');
  persist_law c i w w' r :
    _run (dx c ["sh"; "-c"; persist_script i]) w = (w', r) → same_peers (kernel w) (kernel w')
}.

(** ** The node a name stands for *)

Lemma find_fmap {A B} (f : A → B) (p : B → bool) l :
  List.find p (f <$> l) = f <$> List.find (λ a, p (f a)) l.
Proof. induction l as [|a l IH]; [done|]. cbn. by destruct (p (f a)). Qed.

Lemma checked_fixed re what command n s :
  re s = true → field s = true → checked re what command n s = Ok s.
Proof. intros Hr Hf. unfold checked. by rewrite field_strip, Hr by done. Qed.

Lemma interface_name_field i : interface_name_re i = true → field i = true ∧ str_truthy i = true.
Proof.
  intros [[H Hl]%andb_prop _]%andb_prop. split; [|by destruct i].
  unfold field. rewrite forallb_forall in *. intros c Hc. specialize (H c Hc).
  unfold in_class, is_alnum, is_alpha, is_upper, is_lower, is_digit, is_space in *. simpl in H.
  destruct (Ascii.eqb_spec c "_") as [E|]; [by rewrite E|].
  destruct (Ascii.eqb_spec c ".") as [E|]; [by rewrite E|].
  destruct (Ascii.eqb_spec c ":") as [E|]; [by rewrite E|].
  destruct (Ascii.eqb_spec c "-") as [E|]; [by rewrite E|]. lia.
Qed.

Lemma sanitize_iface i : interface_name_re i = true → _sanitize_interface_name i = Ok i.
Proof. intros H. apply checked_fixed; [done|]. by apply interface_name_field. Qed.

Lemma sanitize_iface_re s i : _sanitize_interface_name s = Ok i → interface_name_re i = true.
Proof. unfold _sanitize_interface_name, checked. case_match; intros [= <-]. done. Qed.

Lemma elem_of_add_new l acc x : x ∈ foldl add_new acc l → x ∈ acc ∨ x ∈ l.
Proof.
  revert acc. induction l as [|y l IH]; intros acc; [by left|]. cbn [foldl]. intros [H|H]%IH; [|right; by right].
  unfold add_new in H. case_match; [by left|]. apply elem_of_app in H as [H|H]; [by left|].
  apply list_elem_of_singleton in H as ->. right; left.
Qed.

Section refinement.
Context {W : Type} `{!AwgHost W, !DockerEngine W} (kernel : W → kernel_state) `{!DockerLaws W kernel}.
Implicit Types (w : W) (k : kernel_state).
Context (container_filter interface : string) (now_ts : Z) (ip_addr_json : string → list IfaceAddr).
Hypothesis interface_ok : interface_name_re interface = true.

#[local] Abbreviation cands := (_candidate_interfaces interface).

(** The interface discovery finds in a container. *)
Definition iface_on k (c : string) : string :=
  match List.find (k.(k_answers) c) cands with
  | Some i => i
  | None =>
      match k.(k_ifaces) c with
      | Some out => default interface (List.find (k.(k_answers) c)
          (foldl add_new [] (filterb (λ i, negb (str_in i cands)) (_parse_wg_interfaces out))))
      | None => interface
      end
  end.

Lemma probe_spec c ifaces last el w w' found last' el' :
  probe c ifaces last el w = (w', (found, last', el')) →
  kernel w' = kernel w ∧ found = List.find ((kernel w).(k_answers) c) ifaces.
Proof using DockerLaws0.
  revert last el w. induction ifaces as [|i ifaces IH]; intros last el w; cbn [probe].
  - by intros [= <- <- _ _].
  - destruct (docker_exec c ["wg"; "show"; i; "dump"] w) as [w1 [[code out] ms]] eqn:E.
    apply dump_law in E as (Hk & Ha & _). cbn [List.find]. rewrite <- Ha. destruct (code =? 0).
    + by intros [= <- <- _ _].
    + intros [Hk' ->]%IH. by rewrite Hk', Hk.
Qed.

Lemma read_dump_spec c w w' i code out ms :
  _read_wg_dump interface c w = (w', (i, code, out, ms)) →
  kernel w' = kernel w ∧ i = iface_on (kernel w) c.
Proof using DockerLaws0.
  unfold _read_wg_dump, iface_on.
  destruct (probe c cands (1, "") f0 w) as [w1 [[found last] el]] eqn:E. apply probe_spec in E as [Hk ->].
  destruct (List.find _ cands) as [j|]; [by intros [= <- <- _ _ _]|].
  destruct (docker_exec c ["wg"; "show"; "interfaces"] w1) as [w2 [[code2 out2] ms2]] eqn:E2.
  apply ifaces_law in E2 as [Hk2 Hi]. rewrite <- Hk, Hi. destruct (code2 =? 0).
  - destruct (probe _ _ _ _ w2) as [w3 [[found3 last3] el3]] eqn:E3. apply probe_spec in E3 as [Hk3 ->].
    intros [= <- <- _ _ _]. by rewrite Hk3, Hk2.
  - intros [= <- <- _ _ _]. by rewrite Hk2.
Qed.

Lemma candidates_ok i : i ∈ cands → interface_name_re i = true.
Proof.
  intros H. apply elem_of_add_new in H as [H%elem_of_nil|H]; [done|].
  apply list_elem_of_omap in H as (x & _ & Hx).
  unfold compose, ok_name in Hx. case_match eqn:E; [|done]. simplify_eq. by apply sanitize_iface_re in E.
Qed.

Lemma iface_on_ok k c : interface_name_re (iface_on k c) = true.
Proof using interface_ok.
  unfold iface_on. destruct (List.find _ cands) as [i|] eqn:E.
  - apply List.find_some in E as [Hi%list_elem_of_In _]. by apply candidates_ok.
  - destruct (k_ifaces k c) as [out|]; [|done]. 
    match goal with |- context [default interface ?x] => destruct x as [i|] eqn:E2 end; [|exact interface_ok].
    apply List.find_some in E2 as [Hi%list_elem_of_In _]. cbn [default].
    apply elem_of_add_new in Hi as [Hi%elem_of_nil|Hi]; [done|].
    apply elem_of_filterb in Hi as [_ Hi]. apply list_elem_of_omap in Hi as (x & _ & Hx).
    case_match eqn:E3; [|done]. simplify_eq. by apply sanitize_iface_re in E3.
Qed.

(** What resolution looks at: identifier, container, interface. *)
Definition triple (n : NodeMetadata) : string * string * string :=
  (n.(node_id), n.(container_name), n.(interface_name)).

Lemma discover_one_spec f name w w' n :
  _discover_one interface now_ts ip_addr_json f name w = (w', n) →
  kernel w' = kernel w ∧ triple n = ("docker:" +:+ f.(f_id), name, iface_on (kernel w) f.(f_id)).
Proof using DockerLaws0.
  unfold _discover_one. destruct (_read_wg_dump interface (f_id f) w) as [w1 [[[i code] out] ms]] eqn:E.
  apply read_dump_spec in E as [Hk ->]. destruct (negb (code =? 0)); [by intros [= <- <-]|].
  destruct (_parse_wg_dump out) as [[pk port] peers].
  destruct (docker_exec _ _ w1) as [w2 [[ip_code ip_out] ms2]] eqn:E2. apply addr_law in E2.
  intros [= <- <-]. by rewrite E2.
Qed.

Definition name_or_id (f : Found) : string := if str_truthy f.(f_name) then f.(f_name) else f.(f_id).

Lemma discover_loop_spec l w w' ns :
  discover_loop interface now_ts ip_addr_json l w = (w', ns) →
  kernel w' = kernel w ∧
  (triple <$> ns) = (λ f, ("docker:" +:+ f.(f_id), name_or_id f, iface_on (kernel w) f.(f_id))) <$> filterb is_node l.
Proof using DockerLaws0.
  revert w w' ns. induction l as [|f l IH]; intros w w' ns; cbn [discover_loop]; [by intros [= <- <-]|].
  destruct (is_node f) eqn:Ef.
  - destruct (_discover_one _ _ _ f _ w) as [w1 n] eqn:E1. apply discover_one_spec in E1 as [Hk1 Hn].
    destruct (discover_loop _ _ _ l w1) as [w2 ns2] eqn:E2. apply IH in E2 as [Hk2 Hns].
    intros [= <- <-]. rewrite filter_cons_True by done. cbn [fmap list_fmap].
    rewrite Hk1 in Hns. split; [congruence|]. f_equal; [exact Hn|exact Hns].
  - rewrite filter_cons_False by (by rewrite Ef). apply IH.
Qed.

(** With distinct names nothing is dropped. *)
Lemma keep_best_unique ns acc :
  NoDup ((acc.*1 : list string) ++ (container_name <$> ns)) →
  Forall (λ n, str_truthy n.(container_name) = true) ns →
  foldl keep_best acc ns = acc ++ ((λ n, (n.(container_name), n)) <$> ns).
Proof.
  revert acc. induction ns as [|n ns IH]; intros acc Hnd Hall; [by rewrite app_nil_r|].
  apply Forall_cons in Hall as [Hn Hall]. cbn [foldl fmap list_fmap] in *.
  assert (Hfresh : container_name n ∉ dkeys acc).
  { apply NoDup_app in Hnd as (_ & Hd & _). intros Hin. apply (Hd _ Hin). left. }
  assert (keep_best acc n = acc ++ [(container_name n, n)]) as ->.
  { unfold keep_best. rewrite Hn. rewrite (proj2 (dget_None _ _) Hfresh). by apply dset_fresh. }
  rewrite IH; [by rewrite <- app_assoc| |done].
  by rewrite fmap_app, <- app_assoc.
Qed.

(** The nodes of a state. *)
Definition nodes_of k : list (string * string * string) :=
  match k.(k_listing) with
  | Err _ => []
  | Ok l => (λ f, ("docker:" +:+ f.(f_id), f.(f_name), iface_on k f.(f_id))) <$>
              filterb is_node (found_of <$> filterb (is_candidate container_filter) l)
  end.

Lemma has_prefix_truthy name : has_prefix container_filter name = true → str_truthy name = true.
Proof.
  unfold has_prefix. rewrite existsb_exists. intros (p & Hp & Hs).
  assert (str_truthy p = true) as Ht.
  { unfold container_prefixes in Hp. destruct (filterb str_truthy _) as [|q l] eqn:E.
    - destruct Hp as [<-|[]]. done.
    - rewrite <- E in Hp. apply list_elem_of_In, elem_of_filterb in Hp as [? _]. done. }
  by destruct p, name.
Qed.

Lemma discover_nodes_spec w w' ns :
  discover_nodes container_filter interface now_ts ip_addr_json w = (w', ns) →
  kernel w' = kernel w ∧ (triple <$> ns) = nodes_of (kernel w).
Proof using DockerLaws0.
  unfold discover_nodes, _discover_containers, nodes_of.
  pose proof (names_unique w) as Hu. rewrite containers_ok in *.
  destruct (k_listing (kernel w)) as [l|e]; [|by intros [= <- <-]].
  destruct (discover_loop _ _ _ _ w) as [w1 ns1] eqn:E. apply discover_loop_spec in E as [Hk Hns].
  intros [= <- <-]. split; [done|].
  set (fs := filterb is_node (found_of <$> filterb (is_candidate container_filter) l)) in *.
  assert (Hname : Forall (λ f, str_truthy f.(f_name) = true) fs).
  { apply Forall_forall. intros f Hf. unfold fs in Hf. apply elem_of_filterb in Hf as [_ Hf].
    apply list_elem_of_fmap in Hf as (ct & -> & Hct). apply elem_of_filterb in Hct as [Hc _].
    apply andb_prop in Hc as [_ Hc]. by apply has_prefix_truthy in Hc. }
  assert (Hns' : (triple <$> ns1) = (λ f, ("docker:" +:+ f.(f_id), f.(f_name), iface_on (kernel w) f.(f_id))) <$> fs).
  { rewrite Hns. apply list_fmap_ext. intros i f Hf%list_elem_of_lookup_2. unfold name_or_id.
    rewrite Forall_forall in Hname. by rewrite Hname. }
  assert (Hcn : (container_name <$> ns1) = f_name <$> fs).
  { transitivity ((λ t : string * string * string, t.1.2) <$> (triple <$> ns1)); [by rewrite <- list_fmap_compose|].
    rewrite Hns', <- list_fmap_compose. done. }
  rewrite keep_best_unique; [by rewrite app_nil_l, <- !list_fmap_compose, <- Hns'|..].
  - cbn [fmap list_fmap app]. rewrite Hcn. unfold fs.
    apply NoDup_fmap_filterb. rewrite <- list_fmap_compose.
    apply (NoDup_fmap_filterb (f_name ∘ found_of)). by apply Hu.
  - apply (Forall_fmap container_name (λ s, str_truthy s = true)). rewrite Hcn. by apply Forall_fmap.
Qed.

(** The node a name stands for: its container and its interface. *)
Definition pick_triple (key : string) (l : list (string * string * string)) : option (string * string * string) :=
  match List.find (λ t, String.eqb t.1.1 key) l with
  | Some t => Some t
  | None =>
      match List.find (λ t, String.eqb t.1.2 key) l with
      | Some t => Some t
      | None => match l with [t] => Some t | _ => None end
      end
  end.

Definition target k (node : string) : option (string * string) :=
  (λ t, (t.1.2, t.2)) <$> pick_triple node (nodes_of k).

Lemma pick_triple_map key ns : pick_triple key (triple <$> ns) = triple <$> pick_node key ns.
Proof.
  unfold pick_triple, pick_node. rewrite !find_fmap. cbn [triple fst snd].
  destruct (List.find (λ n, node_id n =? key)%string ns); [done|].
  destruct (List.find (λ n, container_name n =? key)%string ns); [done|].
  by destruct ns as [|n [|n2 ns]].
Qed.

Lemma nodes_of_iface k t : t ∈ nodes_of k → interface_name_re t.2 = true.
Proof using interface_ok.
  unfold nodes_of. destruct (k_listing k); [|by intros ?%elem_of_nil].
  intros (f & -> & _)%list_elem_of_fmap. apply iface_on_ok.
Qed.

Lemma pick_triple_elem key l t : pick_triple key l = Some t → t ∈ l.
Proof.
  unfold pick_triple. intros H.
  repeat match type of H with context [List.find ?p l] =>
    let E := fresh in destruct (List.find p l) eqn:E;
    [simplify_eq; apply List.find_some in E as [E%list_elem_of_In _]; exact E|clear E] end.
  destruct l as [|x [|y l]]; simplify_eq. left.
Qed.

Lemma resolve_spec node w w' r :
  _resolve_node container_filter interface now_ts ip_addr_json node w = (w', r) →
  kernel w' = kernel w ∧
  match r with
  | Some n => target (kernel w) node = Some (n.(container_name), n.(interface_name)) ∧
              node_interface interface n = Ok n.(interface_name)
  | None => target (kernel w) node = None
  end.
Proof using DockerLaws0 interface_ok.
  unfold _resolve_node. destruct (discover_nodes _ _ _ _ w) as [w1 ns] eqn:E.
  apply discover_nodes_spec in E as [Hk Hns]. intros [= <- <-]. split; [done|].
  unfold target. rewrite <- Hns, pick_triple_map. destruct (pick_node node ns) as [n|] eqn:En; [|done].
  split; [done|].
  assert (Hi : interface_name_re (interface_name n) = true).
  { apply (nodes_of_iface (kernel w) (triple n)). rewrite <- Hns.
    apply (pick_triple_elem node). by rewrite pick_triple_map, En. }
  unfold node_interface. destruct (interface_name_field _ Hi) as [_ ->]. by apply sanitize_iface.
Qed.

Lemma same_frame_target k k' node : same_frame k k' → target k' node = target k node.
Proof. intros (E1 & E2 & E3). unfold target, nodes_of, iface_on. by rewrite E1, E2, E3. Qed.

Lemma target_named k node c i : target k node = Some (c, i) → named k c.
Proof.
  intros (t & Ht%pick_triple_elem & [= -> ->])%fmap_Some. unfold nodes_of, named in *.
  destruct (k_listing k) as [l|]; [|by apply elem_of_nil in Ht].
  apply list_elem_of_fmap in Ht as (f & -> & [_ Hf]%elem_of_filterb). cbn [fst snd].
  apply list_elem_of_fmap in Hf as (ct & -> & [_ Hct]%elem_of_filterb).
  apply list_elem_of_fmap. by exists ct.
Qed.

(** The peers behind a name. *)
Definition peers_at w (node : string) : gmap string string :=
  match target (kernel w) node with
  | Some (c, i) => key_map ((kernel w).(k_rows) c i)
  | None => ∅
  end.

(** The rows [list_peers] gives: those of the interface when it answers. *)
Lemma dump_peers_spec node w w' r :
  dump_peers container_filter interface now_ts ip_addr_json node w = (w', r) →
  kernel w' = kernel w ∧
  r = Ok (match target (kernel w) node with
          | Some (c, i) => if (kernel w).(k_answers) c i
                           then dump_of ∘ fst <$> (kernel w).(k_rows) c i else []
          | None => []
          end).
Proof using DockerLaws0 interface_ok.
  unfold dump_peers. destruct (_resolve_node _ _ _ _ node w) as [w1 r1] eqn:E.
  apply resolve_spec in E as [Hk Hr]. destruct r1 as [n|].
  - destruct Hr as [-> ->]. destruct (docker_exec _ _ w1) as [w2 [[code out] ms]] eqn:E2.
    apply dump_law in E2 as (Hk2 & Ha & Hout). intros [= <- <-]. rewrite Hk in *. split; [done|].
    rewrite <- Ha. destruct (code =? 0) eqn:Ec; [|done]. apply Z.eqb_eq in Ec.
    destruct (Hout Ec) as (priv & pub & fw & port & ? & ? & ? & ? & ? & ->).
    destruct (rows_fine w n.(container_name) n.(interface_name)) as [Hrows _].
    by rewrite parse_wg_dump_text.
  - rewrite Hr. intros [= <- <-]. done.
Qed.

(** ** Peers of an interface *)

Lemma key_map_lookup w c i pk v :
  key_map ((kernel w).(k_rows) c i) !! pk = Some v ↔
  ∃ r, r ∈ (kernel w).(k_rows) c i ∧ r.1.(a_public_key) = pk ∧ r.1.(a_allowed_ips) = v.
Proof using DockerLaws0.
  destruct (rows_fine w c i) as [_ Hnd]. unfold key_map.
  rewrite <- elem_of_list_to_map; [|by rewrite <- list_fmap_compose].
  rewrite list_elem_of_fmap. split.
  - intros (r & [= -> ->] & Hr). by exists r.
  - intros (r & Hr & <- & <-). by exists r.
Qed.

Lemma applied_ips_spec w c i pk a :
  key_map ((kernel w).(k_rows) c i) !! pk = Some a → strip a = a →
  applied_ips pk (dump_of ∘ fst <$> (kernel w).(k_rows) c i) = a.
Proof using DockerLaws0.
  intros Ha Hs. unfold applied_ips. rewrite find_fmap. cbn [compose dump_of dp_public_key].
  destruct (List.find _ _) as [r|] eqn:E; cbn [fmap option_fmap option_map].
  - apply List.find_some in E as [Hr%list_elem_of_In Hk%String.eqb_eq].
    assert (key_map ((kernel w).(k_rows) c i) !! pk = Some r.1.(a_allowed_ips)) as Hr'
      by (apply key_map_lookup; by exists r).
    rewrite Ha in Hr'. injection Hr' as ->. exact Hs.
  - apply key_map_lookup in Ha as (r & Hr & Hk & _).
    pose proof (List.find_none _ _ E r (proj1 (list_elem_of_In _ _) Hr)) as Hf.
    cbn in Hf. by rewrite Hk, String.eqb_refl in Hf.
Qed.

Lemma conflicts_none w c i pk a :
  host_cidr a = true →
  conflicts pk a (dump_of ∘ fst <$> (kernel w).(k_rows) c i) = None →
  ∀ key v, key ≠ pk → key_map ((kernel w).(k_rows) c i) !! key = Some v → a ∉ cidrs v.
Proof using DockerLaws0.
  intros Ha Hc key v Hk (r & Hr & <- & <-)%key_map_lookup Hin.
  apply host_cidrs_elem in Hin; [|done].
  destruct (rows_fine w c i) as [Hrows _]. rewrite Forall_forall in Hrows.
  destruct (Hrows r Hr) as ((_ & _ & _ & Hf) & _).
  unfold conflicts in Hc. rewrite host_cidrs_host in Hc by done.
  pose proof (List.find_none _ _ Hc) as Hn.
  specialize (Hn (filterb (λ t, str_in t (_extract_ipv4_host_cidrs (strip r.1.(a_allowed_ips)))) [a])).
  rewrite filter_cons_True in Hn.
  - assert (negb (bool_decide (a :: filterb (λ t, str_in t (_extract_ipv4_host_cidrs (strip r.1.(a_allowed_ips)))) [] = [])) = false) as Hb.
    { apply Hn, list_elem_of_In, list_elem_of_fmap. exists (dump_of r.1). split.
      - rewrite filter_cons_True; [done|]. cbn [dump_of dp_allowed_ips]. unfold str_in.
        by rewrite field_strip, bool_decide_true by done.
      - apply elem_of_filterb. split; [by rewrite negb_true_iff, String.eqb_neq|].
        apply list_elem_of_fmap. by exists r. }
    by rewrite bool_decide_false in Hb.
  - unfold str_in. by rewrite field_strip, bool_decide_true by done.
Qed.

(** ** Composition of effects *)

Lemma same_peers_refl k : same_peers k k.
Proof. by repeat split. Qed.

Lemma same_peers_trans k1 k2 k3 : same_peers k1 k2 → same_peers k2 k3 → same_peers k1 k3.
Proof.
  intros [(A1 & A2 & A3) A] [(B1 & B2 & B3) B]. split; [split_and!; congruence|].
  intros c i. by rewrite B.
Qed.

Lemma became_same c i m k1 k2 k3 : rows_became c i m k1 k2 → same_peers k2 k3 → rows_became c i m k1 k3.
Proof.
  intros ((A1 & A2 & A3) & Am & Ao) [(B1 & B2 & B3) B]. split_and!; [split_and!; congruence|..].
  - by rewrite B.
  - intros c' i' Hn Hne. rewrite B. by apply Ao.
Qed.

Lemma same_peers_at w w' : same_peers (kernel w) (kernel w') → ∀ n, peers_at w' n = peers_at w n.
Proof.
  intros [Hf Hp] n. unfold peers_at. rewrite (same_frame_target _ _ n Hf).
  by destruct (target (kernel w) n) as [[c i]|].
Qed.

Lemma became_at w w' c i m node :
  target (kernel w) node = Some (c, i) → rows_became c i m (kernel w) (kernel w') →
  peers_at w' node = m ∧
  ∀ other, peers_at w' other = if decide (target (kernel w) other = Some (c, i)) then m else peers_at w other.
Proof.
  intros Ht (Hf & Hm & Ho). unfold peers_at. rewrite (same_frame_target _ _ node Hf), Ht. split; [done|].
  intros other. rewrite (same_frame_target _ _ other Hf). case_decide as Hd; [by rewrite Hd|].
  destruct (target (kernel w) other) as [[c' i']|] eqn:E; [|done].
  apply Ho; [by eapply target_named|congruence].
Qed.

Lemma routes_same container iface subnets w :
  same_peers (kernel w) (kernel (_ensure_client_subnet_routes container iface subnets w)).
Proof using DockerLaws0.
  unfold _ensure_client_subnet_routes. revert w.
  induction subnets as [|cidr subnets IH]; intros w; [apply same_peers_refl|]. cbn [foldl].
  eapply same_peers_trans; [|apply IH]. destruct (str_truthy cidr); [|apply same_peers_refl].
  destruct (docker_exec _ _ w) as [w1 r] eqn:E. by apply route_law in E.
Qed.

Lemma persist_same container iface w :
  same_peers (kernel w) (kernel (_persist_wg_config container iface w)).
Proof using DockerLaws0.
  unfold _persist_wg_config. destruct (docker_exec _ _ w) as [w1 r] eqn:E. by apply persist_law in E.
Qed.

(** ** The peer operations *)

#[local] Abbreviation add := (docker_add_peer container_filter interface now_ts ip_addr_json).
#[local] Abbreviation remove := (docker_remove_peer container_filter interface now_ts ip_addr_json).
#[local] Abbreviation lst := (docker_list_peers container_filter interface now_ts ip_addr_json).

Lemma pubkey_strip_re s pk : _sanitize_public_key s = Ok pk → shell_word pk = true.
Proof. unfold _sanitize_public_key, checked. case_match; intros [= <-]. by apply pubkey_re_word. Qed.

(** The part of [add_peer] after the checks. *)
Lemma set_peer_spec node c i pk a p w w' r :
  shell_word pk = true → host_cidr a = true → psk_word p.(pc_preshared_key) = true →
  target (kernel w) node = Some (c, i) →
  set_peer container_filter interface now_ts ip_addr_json node c i pk a p w = (w', r) →
  match r with
  | Ok _ => rows_became c i (<[pk := a]> (key_map ((kernel w).(k_rows) c i))) (kernel w) (kernel w')
  | Err _ => same_peers (kernel w) (kernel w')
  end.
Proof using DockerLaws0 interface_ok.
  intros Hpk Ha Hpsk Ht. unfold set_peer.
  destruct (dump_peers _ _ _ _ node w) as [w1 before] eqn:E1. apply dump_peers_spec in E1 as [Hk1 ->].
  rewrite Ht. destruct (conflicts _ _ _) as [cf|] eqn:Ec.
  { intros [= <- <-]. rewrite Hk1. apply same_peers_refl. }
  destruct (docker_exec c _ w1) as [w2 [[code out] ms]] eqn:E2. cbv zeta.
  destruct (Z.eqb_spec code 0) as [->|Hcode]; cbn [negb].
  2:{ intros [= <- <-]. rewrite <- Hk1. by apply set_fails in E2. }
  pose proof (set_answers _ _ _ _ _ _ _ _ _ _ E2) as Hans. rewrite Hk1 in Hans.
  rewrite Hans in Ec.
  apply set_law in E2; [|done..|rewrite Hk1; by eapply conflicts_none]. rewrite Hk1 in E2.
  destruct (dump_peers _ _ _ _ node w2) as [w3 after] eqn:E3. apply dump_peers_spec in E3 as [Hk3 ->].
  pose proof E2 as ((F1 & F2 & F3) & Hm & _).
  rewrite (same_frame_target (kernel w)) by done. rewrite Ht, F2, Hans.
  rewrite (applied_ips_spec w2 c i pk a);
    [|by rewrite Hm, lookup_insert_eq|by apply host_cidr_strip].
  rewrite host_cidrs_host by done. unfold same_set. cbn [forallb].
  unfold str_in at 1 2. rewrite bool_decide_true by (left). cbn [andb negb].
  intros [= <- <-]. eapply became_same; [by rewrite <- Hk3 in E2|].
  eapply same_peers_trans; [apply routes_same|apply persist_same].
Qed.

Lemma add_peer_spec node p pk a w w' r :
  checked_peer p = Ok (pk, a) → host_cidr a = true → psk_word p.(pc_preshared_key) = true →
  add node p w = (w', r) →
  match r with
  | Ok _ => ∃ c i, target (kernel w) node = Some (c, i) ∧
      rows_became c i (<[pk := a]> (key_map ((kernel w).(k_rows) c i))) (kernel w) (kernel w')
  | Err _ => same_peers (kernel w) (kernel w')
  end.
Proof using DockerLaws0 interface_ok.
  intros Hc Ha Hpsk. unfold docker_add_peer.
  destruct (_resolve_node _ _ _ _ node w) as [w1 rn] eqn:E. apply resolve_spec in E as [Hk Hr].
  destruct rn as [n|]; [|intros [= <- <-]; rewrite Hk; apply same_peers_refl].
  destruct Hr as [Ht ->]. rewrite Hc. cbn [mbind res_bind fst snd]. intros E2.
  apply set_peer_spec in E2; [|unfold checked_peer in Hc|done..|by rewrite Hk].
  - rewrite Hk in E2. destruct r; [|done]. by exists n.(container_name), n.(interface_name).
  - apply res_bind_ok in Hc as (pk' & Hpk' & Hc). case_match; [done|].
    apply res_bind_ok in Hc as (a' & _ & [= <- _]). by eapply pubkey_strip_re.
Qed.

Lemma remove_peer_spec node key w w' r :
  remove node key w = (w', r) →
  match r with
  | Ok _ => ∃ pk c i, _sanitize_public_key key = Ok pk ∧ target (kernel w) node = Some (c, i) ∧
      rows_became c i (delete pk (key_map ((kernel w).(k_rows) c i))) (kernel w) (kernel w')
  | Err _ => same_peers (kernel w) (kernel w')
  end.
Proof using DockerLaws0 interface_ok.
  unfold docker_remove_peer.
  destruct (_resolve_node _ _ _ _ node w) as [w1 rn] eqn:E. apply resolve_spec in E as [Hk Hr].
  destruct rn as [n|]; [|intros [= <- <-]; rewrite Hk; apply same_peers_refl].
  destruct Hr as [Ht ->]. cbn [mbind res_bind].
  destruct (_sanitize_public_key key) as [pk|e] eqn:Es; cbn [mbind res_bind];
    [|intros [= <- <-]; rewrite Hk; apply same_peers_refl].
  destruct (docker_exec _ _ w1) as [w2 [[code out] ms]] eqn:E2.
  destruct (Z.eqb_spec code 0) as [->|Hcode]; cbn [negb].
  - intros [= <- <-]. apply remove_law in E2. rewrite Hk in E2.
    exists pk, n.(container_name), n.(interface_name). split_and!; [done..|].
    eapply became_same; [exact E2|apply persist_same].
  - intros [= <- <-]. rewrite <- Hk. by apply remove_fails in E2.
Qed.

End refinement.

(** ** A host with one node *)

(** One container with one interface, without preshared keys: the networks by
    key. *)
Record node_host : Type := mkNodeHost { nh_peers : gmap string string }.

Definition nh_name : string := "amnezia-awg".
Definition nh_id : string := "0123456789ab".

Definition printable (e : string * string) : bool := str_truthy e.1 && field e.1 && field e.2.

Definition nh_rows (h : node_host) : list kernel_row :=
  (λ e, (mkPeer e.1 e.2 0 0 0 "", ("(none)", "25"))) <$>
    filterb printable (map_to_list h.(nh_peers)).

Definition nh_answers (c i : string) : bool := str_in c [nh_name; nh_id] && String.eqb i "awg0".

Definition nh_exec (c : string) (cmd : list string) (h : node_host) : node_host * (Z * string * float) :=
  match cmd with
  | [_; _; i; _] =>
      if nh_answers c i then (h, (0, dump_text "priv" "pub" "off" 51820 (nh_rows h), f0)) else (h, (1, "", f0))
  | [_; "set"; i; _; pk; _] =>
      if String.eqb c nh_name && String.eqb i "awg0"
      then (mkNodeHost (delete pk h.(nh_peers)), (0, "", f0)) else (h, (1, "", f0))
  | [_; _; i; _; pk; _; a; _; _] =>
      if String.eqb c nh_name && String.eqb i "awg0" && printable (pk, a)
      then (mkNodeHost (<[pk := a]> h.(nh_peers)), (0, "", f0)) else (h, (1, "", f0))
  | _ => (h, (1, "", f0))
  end.

Definition nh_container : Container :=
  mkContainer nh_id nh_name
    (mkInspect (Some nh_id) (Some nh_name) None (Some "running") (Some "amneziavpn/amneziawg") [] [] [] [] [] []) [].

#[export] Instance nh_host : AwgHost node_host := {
  _run cmd h := nh_exec (nth_part 2 cmd) (drop 3 cmd) h
}.
#[export] Instance nh_engine : DockerEngine node_host := { containers _ := Ok [nh_container] }.

Definition nh_kernel (h : node_host) : kernel_state :=
  mkKernel (Ok [nh_container]) nh_answers (λ _, None)
    (λ c i, if nh_answers c i then nh_rows h else []).

Lemma nh_rows_map h pk v :
  key_map (nh_rows h) !! pk = Some v ↔ h.(nh_peers) !! pk = Some v ∧ printable (pk, v) = true.
Proof.
  unfold key_map. rewrite <- elem_of_list_to_map.
  - unfold nh_rows. rewrite <- list_fmap_compose, list_elem_of_fmap. split.
    + intros ([k a] & [= -> ->] & [Hp Hin]%elem_of_filterb). by apply elem_of_map_to_list in Hin.
    + intros [Hin Hp]. exists (pk, v). split; [done|]. apply elem_of_filterb. split; [done|].
      by apply elem_of_map_to_list.
  - unfold nh_rows. rewrite <- !list_fmap_compose. apply NoDup_fmap_filterb, NoDup_fst_map_to_list.
Qed.

Lemma nh_rows_fine h : Forall row_ok (nh_rows h) ∧ NoDup ((λ r, r.1.(a_public_key)) <$> nh_rows h).
Proof.
  split.
  - apply Forall_forall. intros r (e & -> & [Hp _]%elem_of_filterb)%list_elem_of_fmap.
    unfold printable in Hp. rewrite !andb_true_iff in Hp. destruct Hp as [[Hne%str_truthy_true H1] H2].
    by split_and!.
  - unfold nh_rows. rewrite <- list_fmap_compose. apply NoDup_fmap_filterb, NoDup_fst_map_to_list.
Qed.

Lemma nh_run c cmd h : _run (dx c cmd) h = nh_exec c cmd h.
Proof. reflexivity. Qed.

Lemma nh_became i m h h' :
  String.eqb i "awg0" = true →
  (∀ pk v, key_map (nh_rows h') !! pk = Some v ↔ m !! pk = Some v) →
  rows_became nh_name i m (nh_kernel h) (nh_kernel h').
Proof.
  intros ->%String.eqb_eq Hm. split_and!; [done| |].
  - cbn [k_rows nh_kernel]. change (nh_answers nh_name "awg0") with true. cbv iota.
    apply map_eq. intros pk. apply option_eq. intros v. apply Hm.
  - intros c' i' Hc Hne. cbn [k_rows nh_kernel].
    apply list_elem_of_singleton in Hc as ->.
    destruct (nh_answers _ i') eqn:E'; [|done].
    apply andb_prop in E' as [_ ->%String.eqb_eq]. done.
Qed.

Lemma nh_set_cases c i pk a ka psk h h' code out ms :
  nh_exec c (wg_set i pk a ka psk) h = (h', (code, out, ms)) →
  (code = 0 ∧ c = nh_name ∧ i = "awg0" ∧ printable (pk, a) = true ∧
     h' = mkNodeHost (<[pk := a]> h.(nh_peers))) ∨ (code = 1 ∧ h' = h).
Proof.
  assert (∀ l, l = ["sh"; "-c"; psk_script i pk a ka (strip (default "" psk))] ∨
    l = ["wg"; "set"; i; "peer"; pk; "allowed-ips"; a; "persistent-keepalive"; str_of_Z ka] →
    nh_exec c l h = (h', (code, out, ms)) →
    (code = 0 ∧ c = nh_name ∧ i = "awg0" ∧ printable (pk, a) = true ∧
     h' = mkNodeHost (<[pk := a]> h.(nh_peers))) ∨ (code = 1 ∧ h' = h)) as Hl.
  { intros l [-> | ->]; cbn [nh_exec]; [intros [= <- <- _ _]; by right|].
    destruct (_ && _) eqn:E; intros [= <- <- _ _]; [|by right].
    rewrite !andb_true_iff in E. destruct E as [[->%String.eqb_eq ->%String.eqb_eq] Hp]. by left. }
  apply Hl. unfold wg_set. destruct psk as [k|]; [|by right]. case_match; [by left|by right].
Qed.

Lemma nh_remove_cases c i pk h h' code out ms :
  nh_exec c (wg_remove i pk) h = (h', (code, out, ms)) →
  (code = 0 ∧ c = nh_name ∧ i = "awg0" ∧ h' = mkNodeHost (delete pk h.(nh_peers))) ∨ (code = 1 ∧ h' = h).
Proof.
  cbn [nh_exec wg_remove]. destruct (_ && _) eqn:E; intros [= <- <- _ _]; [|by right].
  apply andb_prop in E as [->%String.eqb_eq ->%String.eqb_eq]. by left.
Qed.

#[export] Instance nh_laws : DockerLaws node_host nh_kernel.
Proof.
  split; try done; intros *; rewrite ?nh_run.
  - intros [= <-]. apply (bool_decide_unpack _). by vm_compute.
  - unfold nh_kernel; cbn [k_rows]. case_match; [apply nh_rows_fine|split; constructor].
  - cbn [nh_exec nh_kernel k_answers k_rows]. destruct (nh_answers c i) eqn:E; intros [= <- <- <- <-]; [|done].
    split_and!; [done..|]. intros _. by exists "priv", "pub", "off", 51820.
  - by intros [= <- <- _ _].
  - by intros [= <- _].
  - intros [(_ & -> & -> & _)|[? _]]%nh_set_cases; [done|lia].
  - intros _ _ _ _ [(_ & -> & -> & Hp & ->)|[? _]]%nh_set_cases; [|lia].
    apply nh_became; [done|]. intros key v. rewrite nh_rows_map. cbn [nh_peers nh_kernel k_rows].
    change (nh_answers nh_name "awg0") with true. cbv iota.
    rewrite !lookup_insert_Some, nh_rows_map. naive_solver.
  - intros Hc [(-> & _)|[_ ->]]%nh_set_cases; [done|apply same_peers_refl].
  - intros [(_ & -> & -> & ->)|[? _]]%nh_remove_cases; [|lia].
    apply nh_became; [done|]. intros key v. rewrite nh_rows_map. cbn [nh_peers nh_kernel k_rows].
    change (nh_answers nh_name "awg0") with true. cbv iota.
    rewrite !lookup_delete_Some, nh_rows_map. naive_solver.
  - intros Hc [(-> & _)|[_ ->]]%nh_remove_cases; [done|apply same_peers_refl].
  - intros [= <- _]. apply same_peers_refl.
  - intros [= <- _]. apply same_peers_refl.
Qed.

Definition add_nh := docker_add_peer "amnezia-awg" "awg0" 1000 (λ _, []).
Definition peer_b : PeerConfigLike := mkPeerConfig key_b (Some " 10.8.1.3/32") None 25.
Definition host_with_a : node_host := mkNodeHost {[ key_a := "10.8.1.2/32" ]}.


(** ** A dump that fails after the peer was set

    The node of [node_host], whose interface cannot be dumped once a peer was
    set. *)
Record flaky_host : Type := mkFlaky { fl_host : node_host; fl_set : bool }.

#[export] Instance flaky_exec : AwgHost flaky_host := {
  _run cmd h :=
    if fl_set h && (length cmd =? 7)%nat then (h, (1, "", f0))
    else
      let '(h', r) := _run cmd h.(fl_host) in
      (mkFlaky h' (fl_set h || (length cmd =? 12)%nat), r)
}.
#[export] Instance flaky_engine : DockerEngine flaky_host := { containers h := containers h.(fl_host) }.

(** The verification of [add_peer] takes the empty answer for a missing peer: it
    raises although the peer is on the node, where a client that rolls back
    believes nothing was changed. *)
Example add_peer_raises_after_set :
  let '(w', r) := docker_add_peer "amnezia-awg" "awg0" 1000 (λ _, []) "srv-1" peer_b (mkFlaky host_with_a false) in
  is_ok r = false ∧ nh_peers (fl_host w') !! key_b = Some "10.8.1.3/32".
Proof. vm_compute. split; reflexivity. Qed.

(** A node that does not answer is listed as empty, without an error. *)
Example silent_node_lists_empty :
  (docker_list_peers "amnezia-awg" "awg0" 1000 (λ _, []) "srv-1" (mkFlaky host_with_a true)).2 = Ok [].
Proof. vm_compute. reflexivity. Qed.
