(* ===== verification/TelemetryPoll.v ===== *)
(** * Polling of telemetry and the snapshot shown to operators
    ([core/telemetry_polling_task.py], [services/telemetry_snapshot_aggregator.py],
    [services/snapshot_cache.py])

    A turn of the loop asks each server for its peers, through the heartbeat of its
    agent or the runtime adapter, keeps sums per server and telemetry per device in
    Redis, appends a point to the series of the dashboard, and makes the snapshot
    the operators see.  A turn reads one clock; Redis answers; the requests of a
    chunk are made in order.  Round-trip times, [cluster_online] and
    [cluster_seen_pubkeys], which nothing reads, metrics and logging are left out;
    no adapter gives [traffic_bytes]. *)

From S2P Require Import Prelude PyStr PyVal Settings Models Runtime DockerText DeviceTelemetry.
Open Scope Z_scope.

(** ** The series of the dashboard *)

Record point : Type := mkPoint { pt_ts : Z; pt_peers : Z; pt_rx : Z; pt_tx : Z }.

#[export] Instance point_eq_dec : EqDecision point.
Proof. solve_decision. Defined.

Definition json_field (name : string) (z : Z) : string :=
  String "034" (name +:+ String "034" (": " +:+ str_of_Z z)).

(** The member of the sorted set: [json.dumps] of the point. *)
Definition payload (p : point) : string :=
  "{" +:+ json_field "ts" p.(pt_ts) +:+ ", " +:+ json_field "peers" p.(pt_peers) +:+ ", " +:+
  json_field "rx" p.(pt_rx) +:+ ", " +:+ json_field "tx" p.(pt_tx) +:+ "}".

Definition DASHBOARD_TIMESERIES_TTL_SECONDS : Z := 24 * 3600.

(** A sorted set gives its members by score, and those of one score by their bytes. *)
Definition zset_before (a b : point) : bool :=
  (a.(pt_ts) <? b.(pt_ts)) || ((a.(pt_ts) =? b.(pt_ts)) && str_ltb (payload a) (payload b)).

Definition zadd (p : point) (z : list point) : list point := if decide (p ∈ z) then z else z ++ [p].
Definition zremrangebyscore (cutoff : Z) (z : list point) : list point := filterb (λ p, cutoff <? p.(pt_ts)) z.
Definition zrangebyscore (cutoff : Z) (z : list point) : list point :=
  sorted_by zset_before (filterb (λ p, cutoff <=? p.(pt_ts)) z).

Definition _push_dashboard_timeseries (now_ts cluster_peers cluster_rx cluster_tx : Z) (z : list point) : list point :=
  zremrangebyscore (now_ts - DASHBOARD_TIMESERIES_TTL_SECONDS) (zadd (mkPoint now_ts cluster_peers cluster_rx cluster_tx) z).

Definition get_dashboard_timeseries (now_ts window_seconds : Z) (z : list point) : list point :=
  let out := sorted_by (λ a b, a.(pt_ts) <? b.(pt_ts)) (zrangebyscore (now_ts - window_seconds) z) in
  let dedup := dict_of ((λ p, (p.(pt_ts), p)) <$> filterb (λ p, 0 <? p.(pt_ts)) out) in
  snd <$> sorted_by (λ a b, a.1 <? b.1) dedup.

(** ** Asking one server *)

(** What a turn keeps of a server. *)
Record Aggregates : Type := mkAggregates {
  ag_peers_count : Z;
  ag_online_count : Z;
  ag_total_rx_bytes : option Z;
  ag_total_tx_bytes : option Z;
  ag_last_updated : Z
}.

(** A peer of [raw_peers]; the counters of a heartbeat are those of its JSON. *)
Record polled_peer : Type := mkPolled {
  pp_public_key : string;
  pp_allowed_ips : pyval;
  pp_last_handshake : Z;
  pp_transfer_rx : pyval;
  pp_transfer_tx : pyval
}.

(** A heartbeat in Redis: its peers, when they are a list, and its own totals. *)
Record Heartbeat : Type := mkHb {
  hv_peers : option (list pydict);
  hv_total_rx_bytes : Z;
  hv_total_tx_bytes : Z;
  hv_peer_count : Z
}.

Definition nonzero (z : Z) : option Z := if z =? 0 then None else Some z.

(** [int(x or 0)] *)
Definition counter_of (v : pyval) : res Z := int_of (v_or v (VInt 0)).

Definition seen_recently (now_ts hs : Z) : bool := (0 <? hs) && (now_ts - hs <=? 180).

Definition aggregates (now : Z) (count rx tx : Z) (handshakes : list Z) : Aggregates :=
  mkAggregates count (countZ (seen_recently (now / seconds 1)) handshakes) (nonzero rx) (nonzero tx) now.

(** One peer of a heartbeat; those without a key are left out. *)
Definition agent_peer (now_ts : Z) (p : pydict) : res (option polled_peer) :=
  pk ← match v_or (getv p "public_key") (VStr "") with
       | VStr s => Ok (strip s)
       | _ => Err (AttributeError "strip")
       end;
  if negb (str_truthy pk) then Ok None
  else
    let hs_ts := match getv p "last_handshake_age_sec" with
                 | VInt age => now_ts - age
                 | VBool b => now_ts - (if b then 1 else 0)
                 | _ => 0
                 end in
    let flat := of_chars (filterb not_newline (chars pk)) in
    Ok (Some (mkPolled (if str_truthy flat then flat else pk) (v_or (getv p "allowed_ips") (VStr ""))
          (if 0 <? hs_ts then hs_ts else 0)
          (v_or (getv p "rx_bytes") (VInt 0)) (v_or (getv p "tx_bytes") (VInt 0)))).

(** What a heartbeat says of its server. *)
Definition heartbeat_telemetry (now : Z) (hb : Heartbeat) : res (Aggregates * list polled_peer) :=
  match hb.(hv_peers) with
  | Some peers =>
      found ← map_res (agent_peer (now / seconds 1)) peers;
      let raw_peers := omap id found in
      rx ← map_res (λ q, counter_of q.(pp_transfer_rx)) raw_peers;
      tx ← map_res (λ q, counter_of q.(pp_transfer_tx)) raw_peers;
      Ok (aggregates now (Z.of_nat (length raw_peers)) (sumZ rx) (sumZ tx) (pp_last_handshake <$> raw_peers), raw_peers)
  | None =>
      let n := hb.(hv_peer_count) in
      Ok (mkAggregates n n (nonzero hb.(hv_total_rx_bytes)) (nonzero hb.(hv_total_tx_bytes)) now, [])
  end.

Definition of_runtime (p : RuntimePeer) : polled_peer :=
  mkPolled p.(rp_public_key) (match p.(rp_allowed_ips) with Some a => VStr a | None => VNone end)
    (default 0 p.(rp_last_handshake)) (VInt (default 0 p.(rp_transfer_rx))) (VInt (default 0 p.(rp_transfer_tx))).

Section polling.
Context {W : Type} `{NodeRuntimeAdapter W}.
Context (settings : Settings) (sha256_hex : string → string) (get_agent_heartbeat : string → option Heartbeat).
Implicit Types (w : W).

(** A node that raises gives nothing. *)
Definition _poll_server (now : Z) (node_id : string) w : W * (option Aggregates * list polled_peer) :=
  let '(w, r) := list_peers node_id w in
  (w, match r with
      | Ok raw =>
          (Some (aggregates now (Z.of_nat (length raw)) (sumZ (default 0 ∘ rp_transfer_rx <$> raw))
                   (sumZ (default 0 ∘ rp_transfer_tx <$> raw)) (default 0 ∘ rp_last_handshake <$> raw)),
           of_runtime <$> raw)
      | Err _ => (None, [])
      end).

Definition agent_mode : bool := String.eqb settings.(node_discovery) "agent".

(** The answer of one server: its identifier, its sums and its peers. *)
Definition answer : Type := string * option Aggregates * list polled_peer.

Definition _fetch_one_server (now : Z) (server : string * option string) w : W * res answer :=
  let '(server_id, api_endpoint) := server in
  let node_id := default server_id (node_id_from_docker_api_endpoint sha256_hex (default "" api_endpoint)) in
  match (if agent_mode then get_agent_heartbeat server_id else None) with
  | Some hb => (w, '(data, raw_peers) ← heartbeat_telemetry now hb; Ok (server_id, Some data, raw_peers))
  | None => let '(w, (data, raw_peers)) := _poll_server now node_id w in (w, Ok (server_id, data, raw_peers))
  end.

(** The servers that raise are left out. *)
Definition fetch_all (now : Z) (poll_list : list (string * option string)) w : W * list answer :=
  foldl (λ st server,
    let '(w, r) := _fetch_one_server now server st.1 in
    (w, match r with Ok a => st.2 ++ [a] | Err _ => st.2 end)) (w, []) poll_list.
End polling.

(** ** Which device a peer belongs to *)

Definition dsetdefault {K V} `{EqDecision K} (k : K) (v : V) (d : list (K * V)) : list (K * V) :=
  match dget k d with Some _ => d | None => dset k v d end.

(** An active server owns its endpoint, the last one when several do. *)
Definition claim_endpoint (d : list (string * string)) (s : Server.t) : list (string * string) :=
  let ep := s.(Server.api_endpoint) in
  if negb (str_truthy ep) then d
  else if s.(Server.is_active) then dset ep s.(Server.id) d else dsetdefault ep s.(Server.id) d.

Definition endpoint_to_canonical (servers : list Server.t) : list (string * string) := foldl claim_endpoint [] servers.

Section aliases.
Context (sha256_hex : string → string).

Definition canonical_of (owners : list (string * string)) (s : Server.t) : string :=
  let ep := s.(Server.api_endpoint) in
  if str_truthy ep then default s.(Server.id) (dget ep owners) else s.(Server.id).

Definition add_aliases (owners d : list (string * string)) (s : Server.t) : list (string * string) :=
  let canonical := canonical_of owners s in
  let node_id := default s.(Server.id) (node_id_from_docker_api_endpoint sha256_hex s.(Server.api_endpoint)) in
  dset node_id canonical (dset s.(Server.id) canonical d).

Definition alias_to_canonical (servers : list Server.t) (server_ids : list string) : list (string * string) :=
  foldl (λ d sid, dsetdefault sid sid d)
    (foldl (add_aliases (endpoint_to_canonical servers)) [] servers) server_ids.

(** A device is entered under the identifier of its row and under the canonical
    one. *)
Definition enter_device (aliases : list (string * string)) (d : list (string * (string * string))) (dev : Device.t)
    : list (string * (string * string)) :=
  let srv := dev.(Device.server_id) in
  let pk := _norm_public_key dev.(Device.public_key) in
  if str_truthy dev.(Device.public_key) && str_truthy srv && str_truthy pk then
    let canonical := default srv (dget srv aliases) in
    dset (canonical +:+ ":" +:+ pk) (dev.(Device.id), canonical) (dset (srv +:+ ":" +:+ pk) (dev.(Device.id), srv) d)
  else d.

Definition pk_to_device (aliases : list (string * string)) (ds : list Device.t) : list (string * (string * string)) :=
  foldl (enter_device aliases) []
    (filterb (λ d, str_in d.(Device.server_id) (dkeys aliases) && is_none d.(Device.revoked_at)) ds).
End aliases.

(** ** A turn *)

Record totals : Type := mkTotals {
  cluster_rx : Z; cluster_tx : Z; h_ok_count : Z; no_handshake_count : Z; traffic_zero_count : Z
}.

Definition count_device (h : bool * bool * bool) (t : totals) : totals :=
  let b2z (b : bool) := if b then 1 else 0 in
  mkTotals t.(cluster_rx) t.(cluster_tx) (t.(h_ok_count) + b2z h.1.1) (t.(no_handshake_count) + b2z h.1.2)
    (t.(traffic_zero_count) + b2z h.2).

Definition count_traffic (a : Aggregates) (t : totals) : totals :=
  mkTotals (t.(cluster_rx) + default 0 a.(ag_total_rx_bytes)) (t.(cluster_tx) + default 0 a.(ag_total_tx_bytes))
    t.(h_ok_count) t.(no_handshake_count) t.(traffic_zero_count).

Definition telemetry_server_key (server_id : string) : string := "telemetry:server:" +:+ server_id.

Section processing.
Context {D : Type} `{!Redis Telemetry D}.
Context (settings : Settings) (now_ts : Z) (pk_to_device : list (string * (string * string))).

(** A peer of a known device is written and counted. *)
Definition poll_peer (server_id : string) (p : polled_peer) (st : D * totals) : res (D * totals) :=
  let pubkey := _norm_public_key p.(pp_public_key) in
  if negb (str_truthy pubkey) then Ok st
  else
    match dget (server_id +:+ ":" +:+ pubkey) pk_to_device with
    | None => Ok st
    | Some (dev_id, _) =>
        let hs := p.(pp_last_handshake) in
        rx ← counter_of p.(pp_transfer_rx);
        tx ← counter_of p.(pp_transfer_tx);
        let allowed := strip (render (v_or p.(pp_allowed_ips) (VStr ""))) in
        let '(d, h) := write_device_telemetry now_ts dev_id server_id (if 0 <? hs then Some hs else None) rx tx
                         (Some allowed) true st.1 in
        Ok (d, count_device h st.2)
    end.

(** A peer that raises ends those of its server. *)
Fixpoint poll_peers (server_id : string) (peers : list polled_peer) (st : D * totals) : D * totals :=
  match peers with
  | [] => st
  | p :: peers' => match poll_peer server_id p st with Ok st => poll_peers server_id peers' st | Err _ => st end
  end.

Definition record_answer (st : memory Aggregates * (D * totals)) (a : answer) : memory Aggregates * (D * totals) :=
  match a with
  | (server_id, Some data, raw_peers) =>
      (redis_set now_ts (telemetry_server_key server_id) data settings.(node_telemetry_cache_ttl_seconds) st.1,
       poll_peers server_id raw_peers (st.2.1, count_traffic data st.2.2))
  | (_, None, _) => st
  end.
End processing.

Record Summary : Type := mkSummary {
  sm_handshake_ok_count : Z; sm_no_handshake_count : Z; sm_traffic_zero_count : Z; sm_last_updated_ts : Z
}.

Definition TELEMETRY_SUMMARY_KEY : string := "device_telemetry:summary".
Definition TELEMETRY_SUMMARY_TTL : Z := 300.

Definition set_telemetry_summary (now_ts handshake_ok_count no_handshake_count traffic_zero_count : Z) (m : memory Summary)
    : memory Summary :=
  redis_set now_ts TELEMETRY_SUMMARY_KEY
    (mkSummary handshake_ok_count no_handshake_count traffic_zero_count now_ts) TELEMETRY_SUMMARY_TTL m.

Definition get_telemetry_summary (now_ts : Z) (m : memory Summary) : option Summary := redis_get now_ts TELEMETRY_SUMMARY_KEY m.

Definition get_cached_telemetry (now_ts : Z) (server_id : string) (m : memory Aggregates) : option Aggregates :=
  redis_get now_ts (telemetry_server_key server_id) m.

(** ** The snapshot *)

Definition SNAPSHOT_TTL_SECONDS : Z := 60.
Definition SNAPSHOT_STALE_THRESHOLD_SECONDS : Z := 90.

Record NodeEntry : Type := mkNodeEntry {
  ne_id : string; ne_name : string; ne_region : string; ne_health : string; ne_traffic_recent : bool;
  ne_peers : Z; ne_rx : Z; ne_tx : Z; ne_stale : bool; ne_last_success_ts : option Z
}.

Record DeviceEntry : Type := mkDeviceEntry {
  de_id : string; de_server_id : string; de_handshake_age_s : option Z; de_allowed_ips_ok : bool;
  de_traffic_recent : bool; de_stale : bool
}.

(** The payloads under the four keys. *)
Inductive SnapshotPart : Type :=
| NodesPayload (total online degraded down : Z) (entries : list NodeEntry)
| DevicesPayload (total handshake_ok needs_reconcile stale : Z) (entries : list DeviceEntry)
| SessionsPayload (active_sessions : Z)
| MetaPayload (snapshot_ts : Z) (freshness : string) (stale_node_ids : list string) (partial_failure : bool).

Definition snapshot_key (scope env : string) : string := "telemetry:snapshot:" +:+ scope +:+ ":" +:+ env.

Definition _node_health_from_status (status : string) : string :=
  if negb (str_truthy status) then "broken"
  else
    let s := lower status in
    if str_in s ["healthy"; "ok"] then "ok" else if String.eqb s "degraded" then "degraded" else "broken".

Definition TRAFFIC_RECENT_RX_TX_MIN : Z := 1.

(** [a or b] of numbers *)
Definition z_or (a b : Z) : Z := if a =? 0 then b else a.

Definition node_entry (stale_threshold : Z) (telem : option Aggregates) (s : Server.t) : NodeEntry :=
  let last_ts := (λ t, t.(ag_last_updated) / seconds 1) <$> telem in
  let rx := default 0 (telem ≫= ag_total_rx_bytes) in
  let tx := default 0 (telem ≫= ag_total_tx_bytes) in
  mkNodeEntry s.(Server.id) (str_take 64 s.(Server.name)) (str_take 32 s.(Server.region))
    (_node_health_from_status (if str_truthy s.(Server.status) then s.(Server.status) else "unknown"))
    (TRAFFIC_RECENT_RX_TX_MIN <=? rx + tx)
    (match telem with Some t => z_or t.(ag_online_count) t.(ag_peers_count) | None => 0 end)
    rx tx (match last_ts with Some t => t <? stale_threshold | None => true end) last_ts.

(** The entry of a device, and what it is counted as. *)
Definition device_entry (stale_threshold : Z) (row : option Telemetry) (d : Device.t) : DeviceEntry :=
  let last_ts := default 0 (tm_last_updated_ts <$> row) in
  let on_node := strip (default "" (row ≫= tm_allowed_ips_on_node)) in
  let rx := default 0 (tm_transfer_rx_bytes <$> row) in
  let tx := default 0 (tm_transfer_tx_bytes <$> row) in
  mkDeviceEntry d.(Device.id) d.(Device.server_id) (row ≫= tm_handshake_age_sec)
    (_valid_allowed_ips (if str_truthy on_node then Some on_node else d.(Device.allowed_ips)))
    (TRAFFIC_RECENT_RX_TX_MIN <=? rx + tx)
    ((last_ts =? 0) || (last_ts <? stale_threshold)).

Definition age_ok (e : DeviceEntry) : bool := match e.(de_handshake_age_s) with Some a => a <=? HANDSHAKE_OK_SEC | None => false end.
Definition age_late (e : DeviceEntry) : bool := match e.(de_handshake_age_s) with Some a => HANDSHAKE_OK_SEC <? a | None => false end.

(** The two branches of the count. *)
Definition counted_ok (e : DeviceEntry) : bool := age_ok e && e.(de_allowed_ips_ok).
Definition counted_reconcile (e : DeviceEntry) : bool := negb (counted_ok e) && (negb e.(de_allowed_ips_ok) || age_late e).

Section aggregator.
Context {D : Type} `{!Redis Telemetry D}.

Definition snapshot_nodes (now_ts : Z) (servers : list Server.t) (m : memory Aggregates) : list NodeEntry :=
  (λ s, node_entry (now_ts - SNAPSHOT_STALE_THRESHOLD_SECONDS) (get_cached_telemetry now_ts s.(Server.id) m) s) <$>
  filterb Server.is_active servers.

(** The devices of the active servers; the owner of an entry is not looked at. *)
Definition snapshot_devices (now_ts : Z) (servers : list Server.t) (ds : list Device.t) (w : D) : list DeviceEntry :=
  (λ d, device_entry (now_ts - SNAPSHOT_STALE_THRESHOLD_SECONDS) (redis_get now_ts (device_telemetry_key d.(Device.id)) w) d) <$>
  filterb (λ d, str_in d.(Device.server_id) (Server.id <$> filterb Server.is_active servers) && is_none d.(Device.revoked_at)) ds.

Definition nodes_payload (entries : list NodeEntry) : SnapshotPart :=
  let health_is (hs : string) e := String.eqb e.(ne_health) hs in
  NodesPayload (Z.of_nat (length entries)) (countZ (health_is "ok") entries) (countZ (health_is "degraded") entries)
    (countZ (λ e, negb (health_is "ok" e) && negb (health_is "degraded" e)) entries) entries.

Definition devices_payload (entries : list DeviceEntry) : SnapshotPart :=
  DevicesPayload (Z.of_nat (length entries)) (countZ counted_ok entries) (countZ counted_reconcile entries)
    (countZ de_stale entries) entries.

Definition meta_payload (now_ts : Z) (nodes : list NodeEntry) (devices : list DeviceEntry) : SnapshotPart :=
  let stale_node_ids := ne_id <$> filterb ne_stale nodes in
  let some_stale := negb (bool_decide (stale_node_ids = [])) in
  MetaPayload now_ts (if some_stale || (0 <? countZ de_stale devices) then "degraded" else "fresh") stale_node_ids some_stale.

Definition run_snapshot_aggregator (env : string) (now_ts : Z) (servers : list Server.t) (ds : list Device.t)
    (m : memory Aggregates) (w : D) (sum : memory Summary) (snap : memory SnapshotPart) : memory SnapshotPart :=
  let nodes := snapshot_nodes now_ts servers m in
  let devices := snapshot_devices now_ts servers ds w in
  let active_sessions := default 0 (sm_handshake_ok_count <$> get_telemetry_summary now_ts sum) in
  let set scope part := redis_set now_ts (snapshot_key scope env) part SNAPSHOT_TTL_SECONDS in
  set "meta" (meta_payload now_ts nodes devices)
    (set "sessions" (SessionsPayload active_sessions)
      (set "devices" (devices_payload devices) (set "nodes" (nodes_payload nodes) snap))).
End aggregator.

(** ** The whole turn *)

Record poll_state (W D : Type) : Type := mkPollState {
  ps_nodes : W; ps_devices : D; ps_servers : memory Aggregates; ps_summary : memory Summary;
  ps_series : list point; ps_snapshot : memory SnapshotPart
}.
Arguments mkPollState {W D}. Arguments ps_nodes {W D}. Arguments ps_devices {W D}. Arguments ps_servers {W D}.
Arguments ps_summary {W D}. Arguments ps_series {W D}. Arguments ps_snapshot {W D}.

Section turn.
Context {W D : Type} `{NodeRuntimeAdapter W} `{!Redis Telemetry D}.
Context (settings : Settings) (sha256_hex : string → string) (get_agent_heartbeat : string → option Heartbeat).

(** The active servers, and in agent mode those that only have a heartbeat, in the
    order the set of their identifiers gives them. *)
Definition server_ids (servers : list Server.t) (hb_ids : list string) : list string :=
  let active := Server.id <$> filterb Server.is_active servers in
  if agent_mode settings then active ++ filterb (λ i, negb (str_in i active)) hb_ids else active.

Definition poll_list (servers : list Server.t) (hb_ids : list string) : list (string * option string) :=
  let active := filterb Server.is_active servers in
  ((λ s, (s.(Server.id), Some s.(Server.api_endpoint))) <$> active) ++
  (if agent_mode settings
   then (λ i, (i, None)) <$> filterb (λ i, negb (str_in i (Server.id <$> active))) (server_ids servers hb_ids) else []).

Definition device_map (servers : list Server.t) (hb_ids : list string) (ds : list Device.t) : list (string * (string * string)) :=
  let ids := server_ids servers hb_ids in
  if bool_decide (ids = []) then [] else pk_to_device (alias_to_canonical sha256_hex servers ids) ds.

Definition telemetry_turn (now : Z) (hb_ids : list string) (servers : list Server.t) (ds : list Device.t)
    (st : poll_state W D) : poll_state W D :=
  let now_ts := now / seconds 1 in
  let m := device_map servers hb_ids ds in
  let '(w, fetched) := fetch_all settings sha256_hex get_agent_heartbeat now (poll_list servers hb_ids) st.(ps_nodes) in
  let '(aggs, (d, t)) := foldl (record_answer settings now_ts m) (st.(ps_servers), (st.(ps_devices), mkTotals 0 0 0 0 0)) fetched in
  let series := _push_dashboard_timeseries now_ts t.(h_ok_count) t.(cluster_rx) t.(cluster_tx) st.(ps_series) in
  let summary := set_telemetry_summary now_ts t.(h_ok_count) t.(no_handshake_count) t.(traffic_zero_count) st.(ps_summary) in
  mkPollState w d aggs summary series
    (run_snapshot_aggregator "default" now_ts servers ds aggs d summary st.(ps_snapshot)).
End turn.

(** ** The series holds one point per second *)

(** The last value given to a key is the one it has. *)
Lemma dget_dict_of_last {K V} `{EqDecision K} (k : K) (l : list (K * V)) :
  dget k (dict_of l) = snd <$> last (filterb (λ kv, bool_decide (kv.1 = k)) l).
Proof.
  induction l as [|[k' v] l IH] using rev_ind; [done|]. rewrite dict_of_snoc, dget_dset, filter_app. cbn [fst snd].
  destruct (decide (k = k')) as [->|Hne].
  - rewrite filter_cons_True by (cbn; by apply bool_decide_eq_true). by rewrite filter_nil, last_snoc.
  - rewrite filter_cons_False by (cbn; rewrite bool_decide_eq_true; congruence). by rewrite filter_nil, app_nil_r.
Qed.

(** The last of the chosen elements of a sorted list is not before another. *)
Lemma last_filterb_greatest {A} (R : A → A → Prop) (p : A → bool) l x :
  StronglySorted R l → last (filterb p l) = Some x →
  x ∈ l ∧ p x = true ∧ ∀ y, y ∈ l → p y = true → y = x ∨ R y x.
Proof.
  intros Hs Hl. apply last_Some in Hl as [l' Hl'].
  assert (StronglySorted R (l' ++ [x])) as [_ Hf]%StronglySorted_snoc by (rewrite <- Hl'; by apply StronglySorted_filterb).
  assert (∀ y, p y = true ∧ y ∈ l ↔ y ∈ l' ++ [x]) as Hin by (intros y; by rewrite <- Hl', elem_of_filterb).
  destruct (proj2 (Hin x)) as [Hpx Hx]; [apply elem_of_app; right; by apply list_elem_of_singleton|].
  split_and!; [done..|]. intros y Hy Hpy. rewrite Forall_forall in Hf.
  destruct (proj1 (elem_of_app _ _ _) (proj1 (Hin y) (conj Hpy Hy))) as [Hy'|Hy']; [right; by apply Hf|].
  left. by apply list_elem_of_singleton in Hy'.
Qed.

Lemma zset_before_asym a b : zset_before a b = true → zset_before b a = false.
Proof.
  unfold zset_before. intros [H|[H1 H2]%andb_prop]%orb_prop.
  - apply orb_false_iff. split; [lia|]. apply andb_false_iff. left. lia.
  - apply orb_false_iff. split; [lia|]. apply andb_false_iff. right. by apply str_ltb_asym.
Qed.

Lemma zset_before_negtrans a b c : zset_before a b = false → zset_before c a = false → zset_before c b = false.
Proof.
  unfold zset_before. rewrite !orb_false_iff, !andb_false_iff. intros [H1 H2] [H3 H4]. split; [lia|].
  destruct (Z.eqb_spec c.(pt_ts) b.(pt_ts)); [|by left]. right.
  destruct H2 as [H2|H2]; [lia|]. destruct H4 as [H4|H4]; [lia|]. by apply (str_ltb_negtrans _ (payload a)).
Qed.

Lemma zrange_sorted cutoff z : StronglySorted (λ a b, zset_before b a = false) (zrangebyscore cutoff z).
Proof.
  apply (sorted_by_sorted zset_before (λ _, True)).
  - intros a b _ _. apply zset_before_asym.
  - intros a b c _ _ _ H1 H2. by apply (zset_before_negtrans b).
  - by apply Forall_true.
Qed.

Lemma elem_of_zrange cutoff z p : p ∈ zrangebyscore cutoff z ↔ p ∈ z ∧ cutoff ≤ p.(pt_ts).
Proof. unfold zrangebyscore. rewrite elem_of_sorted_by, elem_of_filterb. rewrite Z.leb_le. tauto. Qed.

(** The points that may be shown, in the order of the set. *)
Definition shown_from (cutoff : Z) (z : list point) : list point := filterb (λ p, 0 <? p.(pt_ts)) (zrangebyscore cutoff z).

Definition by_second (l : list point) : list (Z * point) := dict_of ((λ p, (p.(pt_ts), p)) <$> l).

Lemma series_is now_ts window z :
  get_dashboard_timeseries now_ts window z =
    snd <$> sorted_by (λ a b, a.1 <? b.1) (by_second (shown_from (now_ts - window) z)).
Proof.
  unfold get_dashboard_timeseries. rewrite (sorted_by_id (λ a b, a.(pt_ts) <? b.(pt_ts))); [done|].
  eapply StronglySorted_impl; [|apply zrange_sorted]. cbn. intros a b [H _]%orb_false_iff. exact H.
Qed.

Lemma elem_of_shown_from cutoff z p : p ∈ shown_from cutoff z ↔ p ∈ z ∧ cutoff ≤ p.(pt_ts) ∧ 0 < p.(pt_ts).
Proof. unfold shown_from. rewrite elem_of_filterb, Z.ltb_lt, elem_of_zrange. tauto. Qed.

Lemma elem_of_by_second l k p :
  (k, p) ∈ by_second l ↔ last (filterb (λ q, bool_decide (q.(pt_ts) = k)) l) = Some p.
Proof.
  assert (dget k (by_second l) = last (filterb (λ q, bool_decide (q.(pt_ts) = k)) l)) as E.
  { unfold by_second. rewrite dget_dict_of_last. induction l as [|q l IH] using rev_ind; [done|].
    rewrite fmap_app, !filter_app. cbn [fmap list_fmap]. destruct (decide (q.(pt_ts) = k)) as [E|E].
    - rewrite !filter_cons_True by (cbn; by apply bool_decide_eq_true). by rewrite !filter_nil, !last_snoc.
    - rewrite !filter_cons_False by (cbn; rewrite bool_decide_eq_true; congruence). by rewrite !filter_nil, !app_nil_r. }
  etransitivity; [|rewrite <- E; reflexivity]. split; [|apply dget_Some_elem]. apply elem_dget_Some, dict_of_NoDup.
Qed.

Lemma items_increasing d :
  NoDup (dkeys d) → (∀ k p, (k, p) ∈ d → p.(pt_ts) = k) →
  StronglySorted (λ p q, p.(pt_ts) < q.(pt_ts)) (snd <$> sorted_by (λ a b : Z * point, a.1 <? b.1) d).
Proof.
  intros Hn Hk. set (lt := λ a b : Z * point, a.1 <? b.1).
  assert (NoDup (sorted_by lt d).*1) as Hn' by (by rewrite sorted_by_perm).
  assert (∀ x, x ∈ sorted_by lt d → pt_ts x.2 = x.1) as Hk' by (intros [k p] Hx%elem_of_sorted_by; by apply Hk).
  assert (StronglySorted (λ a b, lt b a = false) (sorted_by lt d)) as Hs.
  { apply (sorted_by_sorted lt (λ _, True)); [unfold lt; intros; lia..|by apply Forall_true]. }
  induction Hs as [|x l Hl IH Hx]; [constructor|]. cbn in *. apply NoDup_cons in Hn' as [Hnx Hn']. constructor.
  - apply IH; [done|]. intros y Hy. apply Hk'. by right.
  - apply Forall_fmap, Forall_forall. intros y Hy. cbn. rewrite (Hk' x ltac:(left)), (Hk' y ltac:(by right)).
    rewrite Forall_forall in Hx. specialize (Hx y Hy). unfold lt in Hx.
    assert (x.1 ≠ y.1); [|lia]. intros E. apply Hnx. rewrite E. by apply list_elem_of_fmap_2.
Qed.

(** C38: the dashboard shows one point per second.  The series is strictly
    increasing in time; its points were pushed, within the window; every second of
    the window with a point shows one; and of the points of a second it shows the
    one whose text is the greatest, which need not be the last pushed. *)
Theorem timeseries_one_per_second now_ts window z :
  let out := get_dashboard_timeseries now_ts window z in
  StronglySorted (λ p q, p.(pt_ts) < q.(pt_ts)) out ∧
  (∀ p, p ∈ out → p ∈ z ∧ now_ts - window ≤ p.(pt_ts) ∧ 0 < p.(pt_ts) ∧
     ∀ q, q ∈ z → q.(pt_ts) = p.(pt_ts) → str_ltb (payload p) (payload q) = false) ∧
  (∀ q, q ∈ z → now_ts - window ≤ q.(pt_ts) → 0 < q.(pt_ts) → ∃ p, p ∈ out ∧ p.(pt_ts) = q.(pt_ts)).
Proof.
  intros out. set (kept := shown_from (now_ts - window) z).
  assert (StronglySorted (λ a b, zset_before b a = false) kept) as Hs by apply StronglySorted_filterb, zrange_sorted.
  assert (∀ p, p ∈ out ↔ ∃ k, (k, p) ∈ by_second kept) as Hin.
  { intros p. unfold out. rewrite series_is, list_elem_of_fmap. split.
    - intros ([k q] & -> & Hq). exists k. by apply elem_of_sorted_by in Hq.
    - intros [k Hp]. exists (k, p). by rewrite elem_of_sorted_by. }
  split_and!.
  - unfold out. rewrite series_is. apply items_increasing; [apply dict_of_NoDup|]. intros k p Hp%elem_of_by_second.
    by apply (last_filterb_greatest _ _ _ _ Hs) in Hp as (_ & ?%bool_decide_eq_true & _).
  - intros p [k Hp]%Hin. apply elem_of_by_second in Hp.
    apply (last_filterb_greatest _ _ _ _ Hs) in Hp as (Hpk & Hts%bool_decide_eq_true & Hmax).
    apply elem_of_shown_from in Hpk as (Hpz & Hw & H0). split_and!; [done..|]. intros q Hq Hqt.
    destruct (Hmax q) as [->|Hqp]; [by apply elem_of_shown_from; rewrite Hqt|by apply bool_decide_eq_true; congruence|apply str_ltb_irrefl|].
    unfold zset_before in Hqp. rewrite orb_false_iff, andb_false_iff in Hqp. destruct Hqp as [_ [Hqp|Hqp]]; [lia|done].
  - intros q Hq Hw H0. destruct (last (filterb (λ p, bool_decide (p.(pt_ts) = q.(pt_ts))) kept)) as [p|] eqn:E.
    + exists p. split; [apply Hin; exists q.(pt_ts); by apply elem_of_by_second|].
      apply (last_filterb_greatest _ _ _ _ Hs) in E as (_ & Ht%bool_decide_eq_true & _). done.
    + apply last_None in E. exfalso. apply (not_elem_of_nil q). rewrite <- E. apply elem_of_filterb.
      split; [by apply bool_decide_eq_true|]. by apply elem_of_shown_from.
Qed.

(** Two writers in one second: nine peers hide ten, pushed later. *)
Example later_point_hidden :
  let z := _push_dashboard_timeseries 100 10 0 0 (_push_dashboard_timeseries 100 9 0 0 []) in
  get_dashboard_timeseries 100 60 z = [mkPoint 100 9 0 0] ∧ z = [mkPoint 100 9 0 0; mkPoint 100 10 0 0].
Proof. vm_compute. done. Qed.

(** ** Peers and devices *)

Lemma last_separator {A} (c : A) l1 l2 x y :
  c ∉ x → c ∉ y → l1 ++ c :: x = l2 ++ c :: y → l1 = l2 ∧ x = y.
Proof.
  intros Hx Hy. revert l2. induction l1 as [|a l1 IH]; intros [|b l2]; cbn; intros E.
  - by injection E.
  - exfalso. injection E as _ E. apply Hx. rewrite E. apply elem_of_app. right. left.
  - exfalso. injection E as _ E. apply Hy. rewrite <- E. apply elem_of_app. right. left.
  - injection E as -> E. by destruct (IH l2 E) as [-> ->].
Qed.

Definition no_colon (s : string) : bool := forallb (λ c, negb (Ascii.eqb c ":")) (chars s).

Lemma composite_inj a b x y :
  no_colon x = true → no_colon y = true → a +:+ ":" +:+ x = b +:+ ":" +:+ y → a = b ∧ x = y.
Proof.
  assert (∀ s, no_colon s = true → ":"%char ∉ chars s) as Hc.
  { intros s Hs Hin. unfold no_colon in Hs. rewrite forallb_forall in Hs. specialize (Hs ":"%char).
    rewrite Ascii.eqb_refl in Hs. discriminate Hs. by apply list_elem_of_In. }
  intros Hx%Hc Hy%Hc E%(f_equal chars). rewrite !chars_app in E. cbn in E.
  apply last_separator in E as [E1 E2]; [|done..]. split; by apply chars_inj.
Qed.

(** What a device row enters. *)
Definition named (d : Device.t) : bool :=
  str_truthy d.(Device.public_key) && str_truthy d.(Device.server_id) && str_truthy (_norm_public_key d.(Device.public_key)).

Definition entries (aliases : list (string * string)) (d : Device.t) : list (string * (string * string)) :=
  let srv := d.(Device.server_id) in
  let pk := _norm_public_key d.(Device.public_key) in
  let canonical := default srv (dget srv aliases) in
  if named d then [(srv +:+ ":" +:+ pk, (d.(Device.id), srv)); (canonical +:+ ":" +:+ pk, (d.(Device.id), canonical))] else [].

(** The device answers for the server: it is stored under its identifier or under
    another name of it. *)
Definition answers_for (aliases : list (string * string)) (sid pk : string) (d : Device.t) : bool :=
  named d && String.eqb (_norm_public_key d.(Device.public_key)) pk &&
  (String.eqb d.(Device.server_id) sid || String.eqb (default d.(Device.server_id) (dget d.(Device.server_id) aliases)) sid).

Lemma enter_devices aliases ds acc :
  foldl (enter_device aliases) acc ds = foldl (λ d kv, dset kv.1 kv.2 d) acc (ds ≫= entries aliases).
Proof.
  revert acc. induction ds as [|d ds IH]; intros acc; [done|]. cbn [foldl]. rewrite bind_cons, foldl_app, IH. f_equal.
  unfold enter_device, entries, named. by destruct (_ && _ && _).
Qed.

Lemma last_app_or {A} (l1 l2 : list A) : last (l1 ++ l2) = match last l2 with Some x => Some x | None => last l1 end.
Proof.
  destruct l2 as [|x l2 _] using rev_ind; [by rewrite app_nil_r|]. by rewrite app_assoc, !last_snoc.
Qed.

Lemma composite_eqb a b x y :
  no_colon x = true → no_colon y = true →
  bool_decide (a +:+ ":" +:+ x = b +:+ ":" +:+ y) = String.eqb x y && String.eqb a b.
Proof.
  intros Hx Hy. apply eq_bool_prop_intro. rewrite bool_decide_spec, Is_true_true, andb_true_iff, !String.eqb_eq. split.
  - intros E%composite_inj; [|done..]. tauto.
  - by intros [-> ->].
Qed.

Lemma entries_for aliases d sid pk :
  no_colon pk = true → no_colon (_norm_public_key d.(Device.public_key)) = true →
  last (filterb (λ kv, bool_decide (kv.1 = sid +:+ ":" +:+ pk)) (entries aliases d)) =
    if answers_for aliases sid pk d then Some (sid +:+ ":" +:+ pk, (d.(Device.id), sid)) else None.
Proof.
  intros Hpk Hd. unfold entries, answers_for. destruct (named d); [|done]. cbn [andb].
  set (srv := Device.server_id d). set (c := default srv (dget srv aliases)). set (k := _norm_public_key (Device.public_key d)) in *.
  clearbody k c srv.
  assert (∀ a v, last (filterb (λ kv, bool_decide (kv.1 = sid +:+ ":" +:+ pk)) [(a +:+ ":" +:+ k, v : string * string)]) =
    if String.eqb k pk && String.eqb a sid then Some (a +:+ ":" +:+ k, v) else None) as H1.
  { intros a v. rewrite <- composite_eqb by done. destruct (bool_decide _) eqn:E.
    - by rewrite filter_cons_True by done.
    - rewrite filter_cons_False; [done|]. cbn. by rewrite E. }
  change [(srv +:+ ":" +:+ k, (Device.id d, srv)); (c +:+ ":" +:+ k, (Device.id d, c))]
    with ([(srv +:+ ":" +:+ k, (Device.id d, srv))] ++ [(c +:+ ":" +:+ k, (Device.id d, c))]).
  rewrite filter_app, last_app_or, !H1.
  destruct (String.eqb_spec k pk) as [->|]; [|done]. cbn [andb].
  destruct (String.eqb_spec c sid) as [->|]; [by rewrite orb_true_r|]. by destruct (String.eqb_spec srv sid) as [->|].
Qed.

(** The device a peer of a server is taken for: the last row, of those that are not
    revoked and named, that has its key and the server among its names. *)
Lemma dget_pk_to_device aliases ds sid pk :
  no_colon pk = true → Forall (λ d, no_colon (_norm_public_key d.(Device.public_key)) = true) ds →
  dget (sid +:+ ":" +:+ pk) (pk_to_device aliases ds) =
    (λ d, (d.(Device.id), sid)) <$>
    last (filterb (λ d, answers_for aliases sid pk d)
      (filterb (λ d, str_in d.(Device.server_id) (dkeys aliases) && is_none d.(Device.revoked_at)) ds)).
Proof.
  intros Hpk Hds. unfold pk_to_device. rewrite enter_devices.
  set (rows := filter _ ds).
  assert (Forall (λ d, no_colon (_norm_public_key d.(Device.public_key)) = true) rows) as Hr.
  { apply Forall_forall. intros d [_ Hd]%elem_of_filterb. rewrite Forall_forall in Hds. by apply Hds. }
  change (foldl _ [] ?l) with (dict_of l). rewrite dget_dict_of_last. clearbody rows.
  induction rows as [|d rows IH] using rev_ind; [done|].
  apply Forall_app in Hr as [Hr Hd%Forall_inv]. specialize (IH Hr).
  rewrite bind_app, !filter_app, !last_app_or. cbn [mbind list_bind]. rewrite app_nil_r.
  rewrite entries_for by done.
  destruct (answers_for aliases sid pk d) eqn:Ea.
  - rewrite filter_cons_True by done. done.
  - rewrite filter_cons_False by (by rewrite Ea). exact IH.
Qed.

(** ** What a turn leaves *)

(** A peer of a server that was taken for a device. *)
Record sighting : Type := mkSighting { si_server : string; si_device : string; si_peer : polled_peer }.

Definition sight (m : list (string * (string * string))) (sid : string) (p : polled_peer) : option sighting :=
  let pk := _norm_public_key p.(pp_public_key) in
  if str_truthy pk then (λ x, mkSighting sid x.1 p) <$> dget (sid +:+ ":" +:+ pk) m else None.

Definition sightings (m : list (string * (string * string))) (rs : list answer) : list sighting :=
  rs ≫= λ a, match a with (sid, Some _, peers) => omap (sight m sid) peers | (_, None, _) => [] end.

(** The counters of a peer that can be read. *)
Definition rx_of (p : polled_peer) : Z := match counter_of p.(pp_transfer_rx) with Ok z => z | Err _ => 0 end.
Definition tx_of (p : polled_peer) : Z := match counter_of p.(pp_transfer_tx) with Ok z => z | Err _ => 0 end.
Definition readable_peer (p : polled_peer) : bool := is_ok (counter_of p.(pp_transfer_rx)) && is_ok (counter_of p.(pp_transfer_tx)).

(** What is kept of the device. *)
Definition telemetry_of (now_ts : Z) (s : sighting) : Telemetry :=
  let p := s.(si_peer) in
  let hs := p.(pp_last_handshake) in
  let allowed := strip (render (v_or p.(pp_allowed_ips) (VStr ""))) in
  mkTelemetry s.(si_device) s.(si_server) (if 0 <? hs then Some hs else None) (if 0 <? hs then Some (now_ts - hs) else None)
    (rx_of p) (tx_of p) (if str_truthy allowed then Some allowed else None) true "online" now_ts.

(** Connected: a handshake within two minutes.  Silent: none at all. *)
Definition connected (now_ts : Z) (s : sighting) : bool :=
  let hs := s.(si_peer).(pp_last_handshake) in (0 <? hs) && (now_ts - hs <=? HANDSHAKE_OK_SEC).
Definition silent_peer (s : sighting) : bool := s.(si_peer).(pp_last_handshake) <=? 0.
Definition idle_peer (s : sighting) : bool := rx_of s.(si_peer) + tx_of s.(si_peer) =? 0.

Definition flags (now_ts : Z) (s : sighting) : bool * bool * bool := (connected now_ts s, silent_peer s, idle_peer s).

Section exact.
Context {D : Type} `{!Redis Telemetry D}.
Context (settings : Settings) (now_ts : Z) (m : list (string * (string * string))).

Definition keep_sighting (st : D * totals) (s : sighting) : D * totals :=
  (redis_set now_ts (device_telemetry_key s.(si_device)) (telemetry_of now_ts s) DEVICE_TELEMETRY_TTL st.1,
   count_device (flags now_ts s) st.2).

Lemma poll_peer_sight sid p st :
  readable_peer p = true →
  poll_peer now_ts m sid p st = Ok (match sight m sid p with Some s => keep_sighting st s | None => st end).
Proof.
  intros Hr. unfold poll_peer, sight. set (k := _norm_public_key _). destruct (str_truthy k); [cbn [negb]|done].
  destruct (dget _ m) as [[dev c]|]; [|done]. cbn [fmap option_fmap option_map fst].
  unfold readable_peer in Hr. apply andb_prop in Hr as [Hx Hy].
  unfold keep_sighting, telemetry_of, flags, connected, silent_peer, idle_peer, rx_of, tx_of. cbn.
  destruct (counter_of (pp_transfer_rx p)) as [rx|]; [|done]. destruct (counter_of (pp_transfer_tx p)) as [tx|]; [|done].
  cbn. unfold write_device_telemetry, positive, _handshake_ok, positive.
  destruct (Z.ltb_spec 0 (pp_last_handshake p)) as [Hp|Hp]; cbn.
  - assert ((0 <? pp_last_handshake p) = true) as -> by lia. cbn. do 5 f_equal.
    + assert ((pp_last_handshake p =? 0) = false) as -> by lia. rewrite andb_false_r. lia.
  - repeat f_equal. lia.
Qed.

Lemma poll_peers_sight sid peers st :
  forallb readable_peer peers = true → poll_peers now_ts m sid peers st = foldl keep_sighting st (omap (sight m sid) peers).
Proof.
  revert st. induction peers as [|p peers IH]; intros st; [done|]. intros [Hp Hps]%andb_prop. cbn [poll_peers].
  rewrite poll_peer_sight by done. rewrite IH by done. cbn [omap list_omap]. by destruct (sight m sid p).
Qed.

Definition readable_answer (a : answer) : bool := forallb readable_peer a.2.

Definition traffic (a : answer) (t : totals) : totals := match a.1.2 with Some data => count_traffic data t | None => t end.

Lemma keep_traffic ss d t a :
  foldl keep_sighting (d, count_traffic a t) ss =
    (let st := foldl keep_sighting (d, t) ss in (st.1, count_traffic a st.2)).
Proof. revert d t. induction ss as [|s ss IH]; intros d t; [done|]. cbn [foldl]. exact (IH (keep_sighting (d, t) s).1 (keep_sighting (d, t) s).2). Qed.

Lemma record_answers rs aggs d t :
  forallb readable_answer rs = true →
  (foldl (record_answer settings now_ts m) (aggs, (d, t)) rs).2 =
    (let st := foldl keep_sighting (d, t) (sightings m rs) in (st.1, foldl (λ t a, traffic a t) st.2 rs)).
Proof.
  revert aggs d t. induction rs as [|[[sid data] peers] rs IH]; intros aggs d t; [done|].
  intros [Ha Hrs]%andb_prop. cbn [foldl record_answer]. unfold sightings. rewrite bind_cons. fold (sightings m rs).
  destruct data as [data|]; [|by rewrite IH]. cbn [fst snd]. rewrite poll_peers_sight by done. rewrite keep_traffic.
  cbn zeta. rewrite IH by done. rewrite foldl_app. destruct (foldl keep_sighting (d, t) _) as [d1 t1]. cbn [fst snd].
  rewrite keep_traffic. done.
Qed.

Lemma keep_counts ss d t :
  (foldl keep_sighting (d, t) ss).2 =
    mkTotals t.(cluster_rx) t.(cluster_tx) (t.(h_ok_count) + countZ (connected now_ts) ss)
      (t.(no_handshake_count) + countZ silent_peer ss) (t.(traffic_zero_count) + countZ idle_peer ss).
Proof.
  revert d t. induction ss as [|s ss IH]; intros d t; [rewrite !countZ_nil, !Z.add_0_r; by destruct t|].
  cbn [foldl]. rewrite !countZ_cons. unfold keep_sighting at 2. cbn [fst snd]. rewrite IH. cbn. by rewrite <- !Z.add_assoc.
Qed.

Lemma traffic_sums rs t :
  foldl (λ t a, traffic a t) t rs =
    mkTotals (t.(cluster_rx) + sumZ ((λ a : answer, default 0 (a.1.2 ≫= ag_total_rx_bytes)) <$> rs))
      (t.(cluster_tx) + sumZ ((λ a : answer, default 0 (a.1.2 ≫= ag_total_tx_bytes)) <$> rs))
      t.(h_ok_count) t.(no_handshake_count) t.(traffic_zero_count).
Proof.
  revert t. induction rs as [|[[sid data] ps] rs IH]; intros t; [cbn; rewrite !Z.add_0_r; by destruct t|].
  cbn [foldl fmap list_fmap]. rewrite IH, !sumZ_cons. destruct data as [a|]; cbn -[sumZ]; f_equal; lia.
Qed.

Lemma kept_telemetry `{!RedisLaws Telemetry D} ss d t now dev :
  now_ts ≤ now < now_ts + DEVICE_TELEMETRY_TTL →
  redis_get now (device_telemetry_key dev) (foldl keep_sighting (d, t) ss).1 =
    match last (filterb (λ s, String.eqb s.(si_device) dev) ss) with
    | Some s => Some (telemetry_of now_ts s)
    | None => redis_get now (device_telemetry_key dev) d
    end.
Proof.
  intros Hn. induction ss as [|s ss IH] using rev_ind; [done|]. rewrite foldl_app, filter_app. cbn [foldl].
  unfold keep_sighting at 1. cbn [fst]. destruct (String.eqb_spec s.(si_device) dev) as [<-|Hne].
  - rewrite filter_cons_True by (cbn; by rewrite String.eqb_refl). rewrite filter_nil, last_snoc. apply redis_get_set; destruct Hn; lia.
  - rewrite filter_cons_False by (cbn; by intros ?%String.eqb_eq). rewrite filter_nil, app_nil_r, <- IH.
    apply redis_get_set_ne. intros E%device_telemetry_key_inj. congruence.
Qed.

(** What is kept of a server: the sums of its last answer. *)
Lemma kept_server rs aggs st now sid :
  now_ts ≤ now < now_ts + settings.(node_telemetry_cache_ttl_seconds) →
  get_cached_telemetry now sid (foldl (record_answer settings now_ts m) (aggs, st) rs).1 =
    match last (filterb (λ a : answer, String.eqb a.1.1 sid && is_some a.1.2) rs) with
    | Some a => a.1.2
    | None => get_cached_telemetry now sid aggs
    end.
Proof.
  intros Hn. induction rs as [|[[sid' data] ps] rs IH] using rev_ind; [done|]. rewrite foldl_app, filter_app. cbn [foldl].
  destruct (foldl _ _ rs) as [aggs' st']. cbn [fst] in IH. destruct data as [a|]; cbn [record_answer fst].
  - destruct (String.eqb_spec sid' sid) as [->|Hne].
    + rewrite filter_cons_True by (cbn; by rewrite String.eqb_refl). rewrite filter_nil, last_snoc.
      unfold get_cached_telemetry. apply redis_get_set; cbn; lia.
    + rewrite filter_cons_False by (cbn; rewrite andb_true_r; by intros ?%String.eqb_eq).
      rewrite filter_nil, app_nil_r, <- IH. unfold get_cached_telemetry. apply redis_get_set_ne.
      unfold telemetry_server_key. intros E. apply Hne. by simplify_eq/=.
  - rewrite filter_cons_False by (cbn; by rewrite andb_false_r). by rewrite filter_nil, app_nil_r, <- IH.
Qed.
End exact.

(** ** Every answer can be read *)

Section answers.
Context {W : Type} `{NodeRuntimeAdapter W}.
Context (settings : Settings) (sha256_hex : string → string) (get_agent_heartbeat : string → option Heartbeat).

Lemma map_res_all_ok {A B} (f : A → res B) l bs : map_res f l = Ok bs → forallb (λ a, is_ok (f a)) l = true.
Proof. intros Hf%map_res_Forall2. induction Hf as [|a b l bs Hab _ IH]; [done|]. cbn. by rewrite Hab. Qed.

Lemma forallb_andb {A} (p q : A → bool) l : forallb p l = true → forallb q l = true → forallb (λ a, p a && q a) l = true.
Proof.
  induction l as [|a l IH]; [done|]. cbn. rewrite !andb_true_iff. intros [-> ?] [-> ?]. split; [done|by apply IH].
Qed.

(** An answer can be read, and its sums are of this turn. *)
Definition good_answer (now : Z) (a : answer) : Prop :=
  readable_answer a = true ∧ ∀ data, a.1.2 = Some data → data.(ag_last_updated) = now.

Lemma runtime_readable raw : forallb readable_peer (of_runtime <$> raw) = true.
Proof.
  induction raw as [|p raw IH]; [done|]. cbn. rewrite IH, andb_true_r. unfold readable_peer, counter_of, of_runtime, v_or. cbn.
  by destruct (default 0 (rp_transfer_rx p) =? 0), (default 0 (rp_transfer_tx p) =? 0).
Qed.

Lemma heartbeat_good now hb data peers :
  heartbeat_telemetry now hb = Ok (data, peers) → data.(ag_last_updated) = now ∧ forallb readable_peer peers = true.
Proof.
  unfold heartbeat_telemetry. destruct (hv_peers hb) as [l|]; [|by intros [= <- <-]].
  intros (found & _ & (rx & Hrx & (tx & Htx & [= <- <-])%res_bind_ok)%res_bind_ok)%res_bind_ok. split; [done|].
  apply map_res_all_ok in Hrx, Htx. by apply forallb_andb.
Qed.

Lemma fetch_good now server w w' a :
  _fetch_one_server settings sha256_hex get_agent_heartbeat now server w = (w', Ok a) → good_answer now a.
Proof.
  unfold _fetch_one_server. destruct server as [sid ep].
  destruct (if agent_mode settings then _ else _) as [hb|].
  - intros [= _ E]. apply res_bind_ok in E as ([data peers] & E & [= <-]).
    apply heartbeat_good in E as [Hd Hp]. split; [exact Hp|]. by intros ? [= <-].
  - unfold _poll_server. destruct (list_peers _ w) as [w1 [raw|e]]; intros [= _ <-]; split; try done.
    + apply runtime_readable.
    + by intros ? [= <-].
Qed.

Lemma fetch_all_good now servers w : Forall (good_answer now) (fetch_all settings sha256_hex get_agent_heartbeat now servers w).2.
Proof.
  unfold fetch_all. assert (Forall (good_answer now) ((w, []) : W * list answer).2) as Hi by constructor.
  revert Hi. generalize ((w, []) : W * list answer). induction servers as [|s servers IH]; intros st Hst; [done|].
  cbn [foldl]. apply IH. destruct (_fetch_one_server settings sha256_hex get_agent_heartbeat now s st.1) as [w1 [a|]] eqn:E; [|done].
  cbn. apply Forall_app. split; [done|]. apply Forall_singleton. by eapply fetch_good.
Qed.

Lemma fetch_all_readable now servers w :
  forallb readable_answer (fetch_all settings sha256_hex get_agent_heartbeat now servers w).2 = true.
Proof.
  apply forallb_forall. intros a Ha%list_elem_of_In. pose proof (fetch_all_good now servers w) as Hf.
  rewrite Forall_forall in Hf. by apply Hf.
Qed.
End answers.


(** ** When the snapshot is fresh *)

(** An entry of a device that was written lately. *)
Definition lately (now_ts : Z) (row : option Telemetry) : Prop :=
  ∃ t, row = Some t ∧ t.(tm_last_updated_ts) ≠ 0 ∧ now_ts - SNAPSHOT_STALE_THRESHOLD_SECONDS ≤ t.(tm_last_updated_ts).

Lemma countZ_zero {A} (p : A → bool) l : (0 <? countZ p l) = false ↔ Forall (λ a, p a = false) l.
Proof.
  induction l as [|a l IH]; [by rewrite countZ_nil|]. rewrite countZ_cons, Forall_cons, <- IH.
  pose proof (countZ_bounds p l). destruct (p a).
  - split; [intros; lia|by intros [? _]].
  - split; [intros; split; [done|lia]|intros [_ ?]; lia].
Qed.

(** It is fresh when every active server answered, and every device of an active
    server was seen on its node, within ninety seconds. *)
Lemma snapshot_fresh_iff {D} `{!Redis Telemetry D} now_ts servers ds m (w : D) :
  let meta := meta_payload now_ts (snapshot_nodes now_ts servers m) (snapshot_devices now_ts servers ds w) in
  (∃ ids b, meta = MetaPayload now_ts "fresh" ids b) ↔
  (∀ s, s ∈ servers → s.(Server.is_active) = true →
     ∃ a, get_cached_telemetry now_ts s.(Server.id) m = Some a ∧
          now_ts - SNAPSHOT_STALE_THRESHOLD_SECONDS ≤ a.(ag_last_updated) / seconds 1) ∧
  (∀ d, d ∈ ds → d.(Device.revoked_at) = None → d.(Device.server_id) ∈ Server.id <$> filterb Server.is_active servers →
     lately now_ts (redis_get now_ts (device_telemetry_key d.(Device.id)) w)).
Proof.
  intros meta. set (nodes := snapshot_nodes now_ts servers m) in meta. set (devices := snapshot_devices now_ts servers ds w) in meta.
  assert ((∃ ids b, meta = MetaPayload now_ts "fresh" ids b) ↔ Forall (λ e, ne_stale e = false) nodes ∧ Forall (λ e, de_stale e = false) devices) as ->.
  { rewrite <- (countZ_zero de_stale), <- (countZ_zero ne_stale). unfold meta, meta_payload.
    assert (negb (bool_decide (ne_id <$> filterb ne_stale nodes = [])) = (0 <? countZ ne_stale nodes)) as ->.
    { unfold countZ. destruct (filterb ne_stale nodes) as [|e l]; [done|].
      rewrite bool_decide_false by done. symmetry. apply Z.ltb_lt. cbn [length]. lia. }
    destruct (0 <? countZ ne_stale nodes), (0 <? countZ de_stale devices); cbn; split; try (by intros (? & ? & ?)); try by intros [? ?].
    intros _. by eexists _, _. }
  unfold nodes, devices, snapshot_nodes, snapshot_devices. rewrite !Forall_fmap, !Forall_forall.
  unfold compose, node_entry, device_entry. cbn [ne_stale de_stale].
  split; (intros [Hs Hd]; split).
  - intros s Hin Ha. specialize (Hs s (proj2 (elem_of_filterb _ _ _) (conj Ha Hin))).
    destruct (get_cached_telemetry _ _ _) as [a|]; [|done]. exists a. split; [done|]. cbn [fmap option_fmap option_map] in Hs. lia.
  - intros d Hin Hr Hv. specialize (Hd d). rewrite elem_of_filterb, Hr, andb_true_r in Hd.
    specialize (Hd (conj (bool_decide_eq_true_2 _ Hv) Hin)). destruct (redis_get _ _ _) as [t|]; cbn in Hd; [|done].
    exists t. split; [done|]. lia.
  - intros s [Ha Hin]%elem_of_filterb. destruct (Hs s Hin Ha) as (a & -> & Hle). cbn. lia.
  - intros d [Hv Hin]%elem_of_filterb. apply andb_prop in Hv as [Hv%bool_decide_eq_true Hr].
    destruct (Hd d Hin) as (t & -> & Hne & Hle); [by destruct (Device.revoked_at d)|done|]. cbn. lia.
Qed.

(** ** Examples *)

(** Nodes with fixed peers. *)
Definition fixed_nodes : Type := string → list RuntimePeer.

#[export] Instance fixed_adapter : NodeRuntimeAdapter fixed_nodes := {|
  add_peer _ _ w := (w, Ok tt);
  remove_peer _ _ w := (w, Ok tt);
  list_peers node w := (w, Ok (w node))
|}.

Definition wit_poll_server (i : string) : Server.t :=
  Server.mk i i "eu" "docker://awg" None None None None None None None "online" true None None None false None None None.
Definition wit_poll_device : Device.t := Device.test "d1" "s1" "key1" "10.8.1.2/32".
Definition wit_poll_peer (ips : option string) : RuntimePeer := mkRuntimePeer "key1" ips (Some 940) (Some 7) (Some 5).
Definition wit_poll_nodes (ips : option string) : fixed_nodes := λ node, if String.eqb node "awg" then [wit_poll_peer ips] else [].
Definition wit_poll_state (ips : option string) : poll_state fixed_nodes (memory Telemetry) :=
  mkPollState (wit_poll_nodes ips) ∅ ∅ ∅ [] ∅.
Definition wit_turn (ips : option string) (ids : list string) : poll_state fixed_nodes (memory Telemetry) :=
  telemetry_turn default_settings (λ s, s) (λ _, None) (seconds 1000) [] (wit_poll_server <$> ids) [wit_poll_device] (wit_poll_state ips).


(** Two active servers of one endpoint are one node: its peer is counted twice. *)
Example connected_twice :
  get_telemetry_summary 1000 (wit_turn (Some "10.8.1.2/32") ["s1"; "s2"]).(ps_summary) = Some (mkSummary 2 0 0 1000).
Proof. vm_compute. reflexivity. Qed.

(** A peer without a valid address is a session, and a device to reconcile. *)
Example connected_without_address :
  let snap := (wit_turn (Some "(none)") ["s1"]).(ps_snapshot) in
  redis_get 1000 (snapshot_key "sessions" "default") snap = Some (SessionsPayload 1) ∧
  redis_get 1000 (snapshot_key "devices" "default") snap =
    Some (DevicesPayload 1 0 1 0 [mkDeviceEntry "d1" "s1" (Some 60) false true false]).
Proof. vm_compute. done. Qed.

(** Where none of five peers is online, the snapshot shows five. *)
Example idle_server_shows_all :
  ne_peers (node_entry 0 (Some (mkAggregates 5 0 None None 0)) (wit_poll_server "s1")) = 5.
Proof. reflexivity. Qed.
