(* ===== verification/Bandwidth.v ===== *)
(** * Bandwidth policies of plans ([services/node_runtime_docker.py],
    [services/control_plane_service.py])

    A plan may have a policy; its devices are bound to a traffic class of the
    node's interface.  The [tc] commands that say so, in their order, and the
    application of the policies to the nodes of a cluster. *)

From S2P Require Import Prelude PyFloat PyStr PyVal IpAddr Models NodeAgent Node Runtime ControlPlaneDb DockerText DockerRuntime.
Open Scope Z_scope.

(** ** The commands *)

(** [str(p.get("plan_id") or "")] *)
Definition text_of (p : pydict) (k : string) : string := render (v_or (getv p k) (VStr "")).

Definition qdisc_cmd (iface : string) : list string :=
  ["tc"; "qdisc"; "replace"; "dev"; iface; "root"; "handle"; "1:"; "htb"; "default"; "999"].

Definition class_cmd (iface classid rate ceil prio : string) : list string :=
  ["tc"; "class"; "replace"; "dev"; iface; "parent"; "1:"; "classid"; classid; "htb"; "rate"; rate;
   "ceil"; ceil; "prio"; prio].

Definition filter_del_cmd (iface : string) : list string :=
  ["tc"; "filter"; "del"; "dev"; iface; "parent"; "1:"; "pref"; "100"; "protocol"; "ip"].

Definition filter_add_cmd (iface side cidr classid : string) : list string :=
  ["tc"; "filter"; "add"; "dev"; iface; "parent"; "1:"; "pref"; "100"; "protocol"; "ip"; "u32"; "match";
   "ip"; side; cidr; "flowid"; classid].

Definition mbit (n : Z) : string := str_of_Z n +:+ "mbit".
Definition class_id (minor : Z) : string := "1:" +:+ str_of_Z minor.

(** The rate, the ceiling and the priority of a policy. *)
Definition policy_shape (policy : pydict) : res (Z * Z * Z) :=
  raw ← match getv policy "rate_mbps" with VNone => Ok 1 | v => int_of v end;
  let rate := _sanitize_mbit (VInt raw) 1 in
  let ceil := Z.max rate (_sanitize_mbit (v_or (getv policy "ceil_mbps") (VInt rate)) rate) in
  prio ← int_of (v_or (getv policy "priority") (VInt 3));
  Ok (rate, ceil, Z.min (Z.max prio 0) 7).

(** The class of each plan, the next minor number and the class commands. *)
Definition class_state : Type := list (string * string) * Z * list (list string).

Definition policy_step (iface : string) (st : class_state) (policy : pydict) : res class_state :=
  let '(classes, minor, commands) := st in
  let plan_id := text_of policy "plan_id" in
  if negb (str_truthy plan_id) then Ok st
  else
    shape ← policy_shape policy;
    let '(rate, ceil, prio) := shape in
    Ok (dset plan_id (class_id minor) classes, minor + 1,
        commands ++ [class_cmd iface (class_id minor) (mbit rate) (mbit ceil) (str_of_Z prio)]).

Definition by_plan (a b : pydict) : bool := str_ltb (text_of a "plan_id") (text_of b "plan_id").

Definition policy_classes (iface : string) (policies : list pydict) : res class_state :=
  foldl_res (policy_step iface) ([], 10, []) (sorted_by by_plan policies).

(** Bound peers, peers without a host address, filter commands. *)
Definition bind_state : Type := Z * Z * list (list string).

Definition host_filters (iface classid cidr : string) : list (list string) :=
  [filter_add_cmd iface "dst" cidr classid; filter_add_cmd iface "src" cidr classid].

Definition bind_step (iface : string) (classes : list (string * string)) (st : bind_state) (b : pydict) : bind_state :=
  let '(bound, skipped, commands) := st in
  match dget (text_of b "plan_id") classes with
  | None => st
  | Some cid =>
      match _extract_ipv4_host_cidrs (text_of b "allowed_ips") with
      | [] => (bound, skipped + 1, commands)
      | hosts => (bound + 1, skipped, commands ++ mbind (host_filters iface cid) hosts)
      end
  end.

Record TcPlan : Type := mkTcPlan {
  tc_commands : list (list string);
  tc_classes : Z;
  tc_bound : Z;
  tc_skipped : Z
}.

Definition tc_plan (iface : string) (policies bindings : list pydict) : res TcPlan :=
  st ← policy_classes iface policies;
  let '(classes, _, class_cmds) := st in
  let '(bound, skipped, filters) := foldl (bind_step iface classes) (0, 0, []) bindings in
  Ok (mkTcPlan ([qdisc_cmd iface; class_cmd iface "1:999" "100000mbit" "100000mbit" "7"] ++ class_cmds ++
                [filter_del_cmd iface] ++ filters)
        (Z.of_nat (length classes)) bound skipped).

(** ** Running them *)

Record BandwidthResult : Type := mkBandwidth {
  bw_commands : option (list string);
  bw_executed : Z;
  bw_classes : Z;
  bw_bound_peers : Z;
  bw_skipped_no_host_ip : Z
}.

Definition is_filter_del (command : list string) : bool :=
  bool_decide (take 3 command = ["tc"; "filter"; "del"]).

Section enforce.
Context {W : Type} `{AwgHost W, DockerEngine W}.
Implicit Types (w : W).

(** The first failure ends it, save that of the removal of old filters. *)
Fixpoint run_tc (container : string) (commands : list (list string)) (executed : Z) w : W * res Z :=
  match commands with
  | [] => (w, Ok executed)
  | c :: commands' =>
      let '(w, (code, output, _)) := docker_exec container c w in
      if is_filter_del c && negb (code =? 0) then run_tc container commands' executed w
      else if negb (code =? 0)
      then (w, Err (WGE "tc apply failed" ("docker exec " +:+ join " " (take 8 c)) (str_take 400 output)))
      else run_tc container commands' (executed + 1) w
  end.

Context (container_filter interface : string) (now_ts : Z) (ip_addr_json : string → list IfaceAddr).

Definition enforce_bandwidth_policies (node_id_ : string) (policies bindings : list pydict) (dry_run : bool) w
    : W * res BandwidthResult :=
  let '(w, node) := _resolve_node container_filter interface now_ts ip_addr_json node_id_ w in
  match node with
  | None => (w, Err (WGE ("Node not found: " +:+ node_id_) "docker exec tc" ""))
  | Some n =>
      match (iface ← node_interface interface n; tc_plan iface policies bindings) with
      | Err e => (w, Err e)
      | Ok plan =>
          if dry_run then
            (w, Ok (mkBandwidth (Some (join " " <$> plan.(tc_commands))) 0 plan.(tc_classes) plan.(tc_bound)
                      plan.(tc_skipped)))
          else
            let '(w, r) := run_tc n.(container_name) plan.(tc_commands) 0 w in
            (w, executed ← r; Ok (mkBandwidth None executed plan.(tc_classes) plan.(tc_bound) plan.(tc_skipped)))
      end
  end.
End enforce.

(** ** The cluster ([apply_plan_bandwidth_policies]) *)

Definition policy_payload (row : PlanBandwidthPolicy.t) : pydict :=
  [("plan_id", VStr row.(PlanBandwidthPolicy.plan_id));
   ("rate_mbps", VInt row.(PlanBandwidthPolicy.rate_mbps));
   ("ceil_mbps", match row.(PlanBandwidthPolicy.ceil_mbps) with Some c => VInt c | None => VNone end);
   ("burst_kb", VInt row.(PlanBandwidthPolicy.burst_kb));
   ("priority", VInt row.(PlanBandwidthPolicy.priority))].

Definition plan_before (a b : PlanBandwidthPolicy.t) : bool :=
  str_ltb a.(PlanBandwidthPolicy.plan_id) b.(PlanBandwidthPolicy.plan_id).

Definition enabled_policies (rows : list PlanBandwidthPolicy.t) : list PlanBandwidthPolicy.t :=
  sorted_by plan_before (filterb PlanBandwidthPolicy.enabled rows).

(** The plan of each live device of the node with an enabled policy. *)
Definition peer_plans (policies : list PlanBandwidthPolicy.t) (d : db) (node : string) : list (string * string) :=
  dict_of (dev ← filterb (λ dev, String.eqb dev.(Device.server_id) node && is_none dev.(Device.revoked_at)) d.(devices);
           sub ← filterb (λ s, String.eqb s.(Subscription.id) dev.(Device.subscription_id) &&
                               String.eqb s.(Subscription.status) "active") d.(subscriptions);
           pol ← filterb (λ p, String.eqb p.(PlanBandwidthPolicy.plan_id) sub.(Subscription.plan_id) &&
                               p.(PlanBandwidthPolicy.enabled)) policies;
           [(dev.(Device.public_key), pol.(PlanBandwidthPolicy.plan_id))]).

Definition runtime_allowed (peers : list RuntimePeer) : list (string * string) :=
  dict_of ((λ p, (p.(rp_public_key), ostr_or p.(rp_allowed_ips) "")) <$> peers).

Definition binding (key plan_id allowed_ips : string) : pydict :=
  [("public_key", VStr key); ("plan_id", VStr plan_id); ("allowed_ips", VStr allowed_ips)].

(** The bindings of the keys the node has, and the number of the others. *)
Definition peer_bindings (plans : list (string * string)) (allowed : list (string * string)) : list pydict * Z :=
  (omap (λ e, let a := default "" (dget e.1 allowed) in
              if str_truthy a then Some (binding e.1 e.2 a) else None) plans,
   countZ (λ e, negb (str_truthy (default "" (dget e.1 allowed)))) plans).

Section apply.
Context {W : Type} `{NodeRuntimeAdapter W}.
Context (enforce : string → list pydict → list pydict → bool → W → W * res BandwidthResult).
Implicit Types (w : W).

Definition throttle_node (policies : list PlanBandwidthPolicy.t) (d : db) (dry_run : bool) (node : string) w
    : W * res ThrottlingNodeApplyOut :=
  let plans := peer_plans policies d node in
  let '(w, peers) := list_peers node w in
  match peers with
  | Err e => (w, Err e)
  | Ok peers =>
      let '(bindings, absent) := peer_bindings plans (runtime_allowed peers) in
      let '(w, r) := enforce node (policy_payload <$> enabled_policies policies) bindings dry_run w in
      (w, r ← r; Ok (mkThrottling node (Z.of_nat (length plans)) r.(bw_bound_peers) absent
                       r.(bw_skipped_no_host_ip)))
  end.

Fixpoint throttle_nodes (policies : list PlanBandwidthPolicy.t) (d : db) (dry_run : bool) (l : list string) w
    : W * res (list ThrottlingNodeApplyOut) :=
  match l with
  | [] => (w, Ok [])
  | node :: l' =>
      let '(w, o) := throttle_node policies d dry_run node w in
      match o with
      | Err e => (w, Err e)
      | Ok o => let '(w, os) := throttle_nodes policies d dry_run l' w in (w, os ← os; Ok (o :: os))
      end
  end.

Definition throttled_nodes (topo : ClusterTopology) (server_id : option string) : list string :=
  let ids := node_id <$> filterb schedulable_status topo.(nodes) in
  match server_id with
  | Some s => if str_truthy s then filterb (String.eqb s) ids else ids
  | None => ids
  end.

Definition apply_plan_bandwidth_policies (policies : list PlanBandwidthPolicy.t) (topo : ClusterTopology)
    (server_id : option string) (dry_run : bool) (d : db) w : W * res (db * list ThrottlingNodeApplyOut) :=
  let '(w, r) := throttle_nodes policies d dry_run (throttled_nodes topo server_id) w in
  (w, outputs ← r;
      Ok (add_event (mkEvent "throttling.apply.completed" "info" None
            (ThrottlingApplied dry_run server_id (Z.of_nat (length (enabled_policies policies))) outputs)) d,
          outputs)).
End apply.

(** ** What the commands say *)

(** A class: its plan, its identifier, and the rate, ceiling and priority. *)
Record TrafficClass : Type := mkClass { tcl_plan : string; tcl_id : string; tcl_shape : Z * Z * Z }.

Definition shape_ok (s : Z * Z * Z) : Prop := 1 ≤ s.1.1 ≤ s.1.2 ∧ s.1.2 ≤ 100000 ∧ 0 ≤ s.2 ≤ 7.

Definition cmd_of_class (iface : string) (c : TrafficClass) : list string :=
  class_cmd iface c.(tcl_id) (mbit c.(tcl_shape).1.1) (mbit c.(tcl_shape).1.2) (str_of_Z c.(tcl_shape).2).

Lemma sanitize_mbit_range v fallback :
  1 ≤ fallback ≤ 100000 → 1 ≤ _sanitize_mbit v fallback ≤ 100000.
Proof. unfold _sanitize_mbit. case_match; lia. Qed.

Lemma policy_shape_ok p s : policy_shape p = Ok s → shape_ok s.
Proof.
  unfold policy_shape. intros (raw & _ & H)%res_bind_ok. cbv zeta in H.
  apply res_bind_ok in H as (prio & _ & [= <-]).
  pose proof (sanitize_mbit_range (VInt raw) 1 ltac:(lia)) as H1.
  pose proof (sanitize_mbit_range (v_or (getv p "ceil_mbps") (VInt (_sanitize_mbit (VInt raw) 1)))
                (_sanitize_mbit (VInt raw) 1) ltac:(lia)) as H2.
  unfold shape_ok; cbn [fst snd]. lia.
Qed.

(** The classes are numbered from ten, one for each policy of a plan. *)
Record classes_rel (iface : string) (done : list pydict) (st : class_state) (cls : list TrafficClass) : Prop := {
  cr_dict : st.1.1 = (λ c, (c.(tcl_plan), c.(tcl_id))) <$> cls;
  cr_minor : st.1.2 = 10 + Z.of_nat (length cls);
  cr_cmds : st.2 = cmd_of_class iface <$> cls;
  cr_ids : Forall (λ c, ∃ n, c.(tcl_id) = class_id n ∧ 10 ≤ n < st.1.2) cls;
  cr_nodup : NoDup (tcl_id <$> cls);
  cr_plans : NoDup (tcl_plan <$> cls);
  cr_shape : Forall (λ c, ∃ p, p ∈ done ∧ text_of p "plan_id" = c.(tcl_plan) ∧
                           policy_shape p = Ok c.(tcl_shape)) cls;
  cr_all : ∀ p, p ∈ done → str_truthy (text_of p "plan_id") = true →
             text_of p "plan_id" ∈ tcl_plan <$> cls
}.

Lemma class_id_inj m n : class_id m = class_id n → m = n.
Proof.
  unfold class_id. intros H. assert (str_of_Z m = str_of_Z n) as E by (by simplify_eq/=).
  pose proof (py_int_str_of_Z m) as Hm. rewrite E, py_int_str_of_Z in Hm. congruence.
Qed.

Lemma policy_step_rel iface done st cls p st' :
  classes_rel iface done st cls → text_of p "plan_id" ∉ tcl_plan <$> cls →
  policy_step iface st p = Ok st' → ∃ cls', classes_rel iface (done ++ [p]) st' cls'.
Proof.
  intros [Hd Hm Hc Hi Hn Hpl Hs Ha] Hfresh. unfold policy_step. destruct st as [[classes minor] cmds].
  cbn [fst snd] in *. destruct (str_truthy (text_of p "plan_id")) eqn:Et; cbn [negb].
  - intros ([[rate ceil] prio] & Hsh & [= <-])%res_bind_ok.
    exists (cls ++ [mkClass (text_of p "plan_id") (class_id minor) (rate, ceil, prio)]). split; cbn [fst snd].
    + rewrite Hd, fmap_app. apply dset_fresh. unfold dkeys. by rewrite <- list_fmap_compose.
    + rewrite length_app. cbn. lia.
    + by rewrite Hc, fmap_app.
    + apply Forall_app. split; [|repeat constructor; exists minor; split; [done|]; lia].
      eapply Forall_impl; [exact Hi|]. intros c (n & ? & ?). exists n. split; [done|]. lia.
    + rewrite fmap_app. apply NoDup_app. split_and!; [done| |apply NoDup_singleton].
      intros x (c & -> & Hin)%list_elem_of_fmap Hx%list_elem_of_singleton.
      rewrite Forall_forall in Hi. destruct (Hi c Hin) as (n & E & Hn'). cbn in Hx. rewrite E in Hx.
      apply class_id_inj in Hx. lia.
    + rewrite fmap_app. apply NoDup_app. split_and!; [done| |apply NoDup_singleton].
      intros x Hx ->%list_elem_of_singleton. done.
    + apply Forall_app. split.
      * eapply Forall_impl; [exact Hs|]. intros c (q & ? & ?). exists q. split; [|done]. apply elem_of_app. by left.
      * repeat constructor. exists p. split; [|done]. apply elem_of_app. right. left.
    + intros q [Hq| ->%list_elem_of_singleton]%elem_of_app Hqt; rewrite fmap_app; apply elem_of_app.
      * left. by apply Ha.
      * right. left.
  - intros [= <-]. exists cls. split; try done.
    + eapply Forall_impl; [exact Hs|]. intros c (q & ? & ?). exists q. split; [|done]. apply elem_of_app. by left.
    + intros q [Hq| ->%list_elem_of_singleton]%elem_of_app Hqt; [by apply Ha|congruence].
Qed.

Lemma policy_loop_rel iface done st cls l st' :
  classes_rel iface done st cls → NoDup ((λ p, text_of p "plan_id") <$> (done ++ l)) →
  foldl_res (policy_step iface) st l = Ok st' → ∃ cls', classes_rel iface (done ++ l) st' cls'.
Proof.
  revert done st cls. induction l as [|p l IH]; intros done st cls Hr Hnd; cbn [foldl_res].
  - intros [= <-]. rewrite app_nil_r. by exists cls.
  - intros (st1 & H1 & H2)%res_bind_ok. rewrite cons_middle, app_assoc in Hnd |- *.
    edestruct (policy_step_rel iface done st cls p st1 Hr) as [cls1 Hr1]; [|exact H1|].
    + rewrite !fmap_app, <- app_assoc in Hnd. apply NoDup_app in Hnd as (_ & Hd & _).
      intros (c & Ec & Hc)%list_elem_of_fmap. destruct Hr. rewrite Forall_forall in cr_shape0.
      destruct (cr_shape0 c Hc) as (q & Hq & Eq & _).
      apply (Hd (text_of q "plan_id")); [apply list_elem_of_fmap; by exists q|].
      rewrite Eq, <- Ec. left.
    + by eapply IH.
Qed.

(** ** Filters *)

#[local] Opaque host_filters.

Lemma bind_step_filters iface classes bindings st x :
  x ∈ (foldl (bind_step iface classes) st bindings).2 ↔
  x ∈ st.2 ∨ ∃ b cid cidr, b ∈ bindings ∧ dget (text_of b "plan_id") classes = Some cid ∧
    cidr ∈ _extract_ipv4_host_cidrs (text_of b "allowed_ips") ∧ x ∈ host_filters iface cid cidr.
Proof.
  revert st. induction bindings as [|b bs IH]; intros st; cbn [foldl].
  - split; [by left|]. intros [?|(b & cid & cidr & Hb & _)]; [done|by apply elem_of_nil in Hb].
  - rewrite IH. setoid_rewrite elem_of_cons.
    assert (x ∈ (bind_step iface classes st b).2 ↔ x ∈ st.2 ∨ ∃ cid cidr,
      dget (text_of b "plan_id") classes = Some cid ∧
      cidr ∈ _extract_ipv4_host_cidrs (text_of b "allowed_ips") ∧ x ∈ host_filters iface cid cidr) as ->.
    { destruct st as [[bound skipped] cmds]. unfold bind_step.
      destruct (dget (text_of b "plan_id") classes) as [cid|]; [|naive_solver].
      destruct (_extract_ipv4_host_cidrs (text_of b "allowed_ips")) as [|h hs] eqn:E; cbn [snd].
      - split; [by left|]. intros [?|(? & ? & _ & H%elem_of_nil & _)]; done.
      - rewrite elem_of_app, list_elem_of_bind. naive_solver. }
    naive_solver.
Qed.

#[local] Transparent host_filters.

(** The commands of a bandwidth plan shape exactly the peers of the plans
    with a policy.  For policies of distinct plans there is one class each, with
    its own identifier, a rate between 1 and 100000 Mbit/s, a ceiling not under
    it and a priority from 0 to 7; and an address is matched, in both directions,
    to a class exactly when it is a host address of a peer bound to the plan of
    that class. *)
Theorem bandwidth_plan_sound iface policies bindings plan :
  NoDup ((λ p, text_of p "plan_id") <$> policies) → tc_plan iface policies bindings = Ok plan →
  ∃ cls, NoDup (tcl_id <$> cls) ∧
    (∀ c, c ∈ cls → shape_ok c.(tcl_shape) ∧ cmd_of_class iface c ∈ plan.(tc_commands) ∧
       ∃ p, p ∈ policies ∧ text_of p "plan_id" = c.(tcl_plan) ∧ policy_shape p = Ok c.(tcl_shape)) ∧
    (∀ p, p ∈ policies → text_of p "plan_id" ≠ "" → text_of p "plan_id" ∈ tcl_plan <$> cls) ∧
    ∀ side cidr cid, filter_add_cmd iface side cidr cid ∈ plan.(tc_commands) ↔
      side ∈ ["dst"; "src"] ∧ ∃ b c, b ∈ bindings ∧ c ∈ cls ∧
        text_of b "plan_id" = c.(tcl_plan) ∧ c.(tcl_id) = cid ∧
        cidr ∈ _extract_ipv4_host_cidrs (text_of b "allowed_ips").
Proof.
  intros Hnd ([[classes minor] cmds] & Hc & H)%res_bind_ok.
  destruct (foldl _ _ bindings) as [[bound skipped] filters] eqn:Ef.
  injection H as <-. cbn [tc_commands].
  assert (Hp : sorted_by by_plan policies ≡ₚ policies) by apply sorted_by_perm.
  edestruct (policy_loop_rel iface [] ([], 10, []) [] (sorted_by by_plan policies) (classes, minor, cmds))
    as [cls [Hd _ Hcm Hi Hn Hcd Hs Ha]]; [..|exact Hc|].
  { split; try done; [by constructor..|by intros p ?%elem_of_nil]. }
  { cbn [app]. by rewrite Hp. }
  cbn [fst snd app] in *. subst classes cmds. exists cls. split_and!; [done|..].
  - intros c Hin. rewrite Forall_forall in Hs. destruct (Hs c Hin) as (p & Hpin & Ep & Esh).
    split_and!; [by eapply policy_shape_ok| |].
    + do 2 right. apply elem_of_app. left. apply list_elem_of_fmap. by exists c.
    + exists p. by rewrite Hp in Hpin.
  - intros p Hpin Hne. apply Ha; [by rewrite Hp|by apply str_truthy_true].
  - intros side cidr cid.
    pose proof (bind_step_filters iface ((λ c, (c.(tcl_plan), c.(tcl_id))) <$> cls) bindings (0, 0, [])
                  (filter_add_cmd iface side cidr cid)) as Hb.
    rewrite Ef in Hb. cbn [snd] in Hb.
    assert (∀ b c, dget b ((λ c, (c.(tcl_plan), c.(tcl_id))) <$> cls) = Some c ↔
      ∃ t, t ∈ cls ∧ tcl_plan t = b ∧ tcl_id t = c) as Hget.
    { intros b c. split.
      - intros (t & [= -> ->] & Ht)%dget_Some_elem%list_elem_of_fmap. by exists t.
      - intros (t & Ht & <- & <-). apply elem_dget_Some.
        + unfold dkeys. by rewrite <- list_fmap_compose.
        + apply list_elem_of_fmap. by exists t. }
    rewrite !elem_of_cons, elem_of_app, elem_of_cons, Hb. split.
    + intros [H|[H|[H|[H|H]]]]; try done.
      * apply list_elem_of_fmap in H as (? & ? & _). done.
      * destruct H as [H%elem_of_nil|(b & cid' & h & Hbin & Hg & Hh & Hx)]; [done|].
        apply Hget in Hg as (t & Ht & Et & Ec).
        unfold host_filters in Hx. rewrite !elem_of_cons in Hx.
        destruct Hx as [Hx|[Hx|Hx%elem_of_nil]]; [..|done]; injection Hx as -> -> ->;
          (split; [set_solver|]); exists b, t; by rewrite Et.
    + intros (Hside & b & t & Hbin & Ht & Ep & <- & Hh). do 4 right. right.
      exists b, (tcl_id t), cidr. split_and!; [done|apply Hget; by exists t|done|].
      unfold host_filters. set_solver.
Qed.

Definition wit_policies : list pydict :=
  [policy_payload (PlanBandwidthPolicy.mk "p1" "pro" 200 (Some 50) 256 3 true 0);
   policy_payload (PlanBandwidthPolicy.mk "p2" "basic" 0 None 256 9 true 0)].
Definition wit_bindings : list pydict := [binding "k1" "pro" "10.8.1.2/32"; binding "k2" "none" "10.8.1.3/32"].

(** A ceiling under the rate is raised to it, and a rate of zero to one. *)
Example policy_shapes : policy_shape <$> wit_policies = [Ok (200, 200, 3); Ok (1, 1, 7)].
Proof. vm_compute. reflexivity. Qed.

Lemma bandwidth_plan_sound_witness :
  ∃ plan (cls : list TrafficClass), tc_plan "awg0" wit_policies wit_bindings = Ok plan ∧
    (filter_add_cmd "awg0" "src" "10.8.1.3/32" "1:10" ∈ plan.(tc_commands) ↔
      "src" ∈ ["dst"; "src"] ∧ ∃ b c, b ∈ wit_bindings ∧ c ∈ cls ∧
        text_of b "plan_id" = c.(tcl_plan) ∧ c.(tcl_id) = "1:10" ∧
        "10.8.1.3/32" ∈ _extract_ipv4_host_cidrs (text_of b "allowed_ips")).
Proof.
  destruct (tc_plan "awg0" wit_policies wit_bindings) as [plan|e] eqn:E; [|discriminate E].
  destruct (bandwidth_plan_sound "awg0" wit_policies wit_bindings plan) as (cls & _ & _ & _ & H);
    [apply (bool_decide_unpack _); by vm_compute|exact E|].
  exists plan, cls. split; [reflexivity|apply H].
Defined.

(** ** The execution of the commands *)

Section run.
Context {W : Type} `{AwgHost W}.
Implicit Types (w : W).

(** When the run of the commands succeeds, all of them ran and succeeded, except
    the removals of old filters that found none. *)
Lemma run_tc_count container commands n w w' m :
  run_tc container commands n w = (w', Ok m) →
  n + countZ (λ c, negb (is_filter_del c)) commands ≤ m ≤ n + Z.of_nat (length commands).
Proof.
  revert n w. induction commands as [|c commands IH]; intros n w; cbn [run_tc].
  - intros [= _ <-]. rewrite countZ_nil. cbn. lia.
  - destruct (docker_exec container c w) as [w1 [[code output] ms]]. rewrite countZ_cons. cbn [length].
    destruct (is_filter_del c), (code =? 0); cbn [negb andb]; intros H'; simplify_eq; apply IH in H'; lia.
Qed.
End run.
