(* ===== verification/DockerTelemetry.v ===== *)
(** * Docker telemetry

    [services/docker_telemetry_service.py] and the configuration of its hosts
    ([services/docker_engine_client.py]): retries and the circuit breaker around
    the calls to a Docker engine, the lists of hosts and containers, the actions
    on containers, and the bounds of the metrics that are shown.  The engine is a
    type class; so is what inspection, statistics and Prometheus tell of one
    container. *)

From S2P Require Import Prelude PyFloat PyStr PyVal Settings Models.
Open Scope Z_scope.

(** ** Hosts *)

Record DockerHostDefinition : Type := mkDockerHost {
  dh_host_id : string; dh_name : string; dh_base_url : string; dh_endpoint_kind : string
}.

Definition _infer_endpoint_kind (base_url : string) : string :=
  let value := lower base_url in
  if startswith "ssh://" value then "ssh"
  else if startswith "tcp://" value || startswith "http://" value || startswith "https://" value then "tcp"
  else "unix".

Definition _default_hosts : list DockerHostDefinition :=
  [mkDockerHost "local" "Local Docker Host" "unix:///var/run/docker.sock" "unix"].

Definition _default_hosts_for_env (settings : Settings) : list DockerHostDefinition :=
  if String.eqb (lower settings.(environment)) "production" then [] else _default_hosts.

(** What [json.loads] makes of the setting: an error, a list with its dicts, or
    another value. *)
Inductive hosts_json : Type :=
| NotJson
| NotAList
| HostItems (items : list (option pydict)).

(** [str(v or "")] *)
Definition text_or_empty (v : pyval) : string := if truthy v then render v else "".

Definition add_host (out : list DockerHostDefinition) (item : option pydict) : list DockerHostDefinition :=
  match item with
  | None => out
  | Some item =>
      let given := strip (text_or_empty (getv item "host_id")) in
      let host_id := if str_truthy given then given else "host-" +:+ str_of_Z (Z.of_nat (length out) + 1) in
      let base_url := strip (text_or_empty (getv item "base_url")) in
      if negb (str_truthy base_url) then out
      else out ++ [mkDockerHost host_id (render (v_or (getv item "name") (VStr host_id))) base_url
                     (render (v_or (getv item "endpoint_kind") (VStr (_infer_endpoint_kind base_url))))]
  end.

Definition parse_docker_hosts_config (settings : Settings) (loads : string → hosts_json) (raw : option string)
    : list DockerHostDefinition :=
  match raw with
  | None => _default_hosts_for_env settings
  | Some raw =>
      if negb (str_truthy (strip raw)) then _default_hosts_for_env settings
      else match loads raw with
           | HostItems [] => []
           | HostItems items =>
               let out := foldl add_host [] items in
               if bool_decide (out = []) then _default_hosts_for_env settings else out
           | _ => _default_hosts_for_env settings
           end
  end.

#[export] Instance docker_host_eq_dec : EqDecision DockerHostDefinition.
Proof. solve_decision. Defined.

(** [DockerEngineClient.hosts]: by identifier, the last definition of one wins. *)
Definition client_hosts (l : list DockerHostDefinition) : list DockerHostDefinition :=
  (dict_of ((λ h, (h.(dh_host_id), h)) <$> l)).*2.

(** ** Containers *)

(** A row of the engine's list of containers. *)
Record container_row : Type := mkRow { row_fields : pydict; row_names : list string }.

(** The fields of a summary that the rules and the pages below read. *)
Record ContainerSummary : Type := mkContainer {
  cs_container_id : string;
  cs_name : string;
  cs_image_tag : option string;
  cs_state : string;
  cs_health_status : string;
  cs_restart_count : Z;
  cs_is_restart_loop : bool;
  cs_uptime_seconds : option Z;
  cs_cpu_pct : option float;
  cs_mem_pct : option float
}.

Record HostSummary : Type := mkHost {
  hs_host_id : string;
  hs_name : string;
  hs_endpoint_kind : string;
  hs_is_reachable : bool;
  hs_total : Z;
  hs_running : Z;
  hs_stopped : Z;
  hs_unhealthy : Z;
  hs_restart_loops : Z
}.

(** The engines of the hosts with the clock of the process.  [summary_of] is what
    [_build_container_summary] gives within its budget. *)
Class DockerEngine (W : Type) := {
  clock : W → Z;
  sleep : Z → W → W;
  ping : string → W → W * res bool;
  engine_containers : string → W → W * res (list (option container_row));
  summary_of : string → container_row → W → W * option ContainerSummary;
  container_action : string → string → string → W → W * res unit
}.

Definition _image_tag (image : string) : option string :=
  if negb (str_truthy image) then None
  else match partition "@" image with
       | Some (_, digest) => Some digest
       | None => match rpartition ":" image with
                 | Some (_, tag) => Some tag
                 | None => Some "latest"
                 end
       end.

Definition lstrip_slash (s : string) : string := lstrip_with (Ascii.eqb "/") s.

Definition _minimal_summary_from_row (row : container_row) : ContainerSummary :=
  let container_id := str_take 12 (text_or_empty (getv row.(row_fields) "Id")) in
  let state := render (v_or (getv row.(row_fields) "State") (VStr "created")) in
  let raw_name := hd container_id row.(row_names) in
  mkContainer container_id (lstrip_slash raw_name) (_image_tag (text_or_empty (getv row.(row_fields) "Image")))
    state "none" 0 (String.eqb state "restarting") None None None.

(** ** The circuit breaker *)

Record circuit_state : Type := mkCircuit { failures : Z; open_until : Z }.

Definition closed_circuit : circuit_state := mkCircuit 0 0.

Section service.
Context (settings : Settings) {W : Type} `{DockerEngine W}.
Implicit Types (c : gmap string circuit_state) (st : W * gmap string circuit_state).

(** [float(settings.docker_telemetry_circuit_open_seconds)] in microseconds *)
Definition open_period : Z :=
  match trunc (fmul settings.(docker_telemetry_circuit_open_seconds) (of_Z 1000000)) with Ok z => z | Err _ => 0 end.

Definition _is_circuit_open (host_id : string) st : bool :=
  match st.2 !! host_id with
  | Some s => clock st.1 <? s.(open_until)
  | None => false
  end.

Definition _record_failure (host_id : string) st : W * gmap string circuit_state :=
  let s := default closed_circuit (st.2 !! host_id) in
  let n := s.(failures) + 1 in
  (st.1, <[host_id := if settings.(docker_telemetry_circuit_fail_threshold) <=? n
                      then mkCircuit 0 (clock st.1 + open_period)
                      else mkCircuit n s.(open_until)]> st.2).

Definition _record_success (host_id : string) st : W * gmap string circuit_state :=
  (st.1, <[host_id := closed_circuit]> st.2).

(** The attempts of [_with_retries] that remain after [i], with the pauses
    between them. *)
Fixpoint attempts {A} (more : nat) (i : Z) (operation : W → W * res A) (w : W) : W * res A :=
  let '(w, r) := operation w in
  match r, more with
  | Ok a, _ => (w, Ok a)
  | Err e, O => (w, Err e)
  | Err _, S more => attempts more (i + 1) operation (sleep (150000 * (i + 1)) w)
  end.

Definition _with_retries {A} (host_id : string) (operation : W → W * res A) st : (W * gmap string circuit_state) * res A :=
  let '(w, r) := attempts (Z.to_nat (Z.max 0 settings.(docker_telemetry_retry_count))) 0 operation st.1 in
  match r with
  | Ok a => ((w, st.2), Ok a)
  | Err e => (_record_failure host_id (w, st.2), Err e)
  end.

(** *** Hosts *)

Definition field_lower (r : container_row) (k : string) : string := lower (text_or_empty (getv r.(row_fields) k)).

Definition host_summary (host : DockerHostDefinition) (rows : list (option container_row)) : HostSummary :=
  let dicts := omap id rows in
  let running := countZ (λ r, String.eqb (field_lower r "State") "running") dicts in
  mkHost host.(dh_host_id) host.(dh_name) host.(dh_endpoint_kind) true (Z.of_nat (length rows)) running
    (Z.max (Z.of_nat (length rows) - running) 0)
    (countZ (λ r, contains "unhealthy" (field_lower r "Status")) dicts)
    (countZ (λ r, String.eqb (field_lower r "State") "restarting" || contains "restarting" (field_lower r "Status")) dicts).

Definition unreachable_summary (host : DockerHostDefinition) : HostSummary :=
  mkHost host.(dh_host_id) host.(dh_name) host.(dh_endpoint_kind) false 0 0 0 0 0.

(** The model refuses another kind of endpoint. *)
Definition valid_kind (host : DockerHostDefinition) : bool := str_in host.(dh_endpoint_kind) ["unix"; "tcp"; "ssh"].

Definition invalid_kind : exn := ValueError "endpoint_kind: Input should be 'unix', 'tcp' or 'ssh'".

Definition probe_host (host : DockerHostDefinition) st : (W * gmap string circuit_state) * res HostSummary :=
  if _is_circuit_open host.(dh_host_id) st then (st, Err (RuntimeError "circuit open"))
  else
    let '(st, r) := _with_retries host.(dh_host_id) (ping host.(dh_host_id)) st in
    match r with
    | Err e => (st, Err e)
    | Ok false => (st, Err (RuntimeError "unreachable"))
    | Ok true =>
        let '(st, r) := _with_retries host.(dh_host_id) (engine_containers host.(dh_host_id)) st in
        match r with
        | Err e => (st, Err e)
        | Ok rows => (st, if valid_kind host then Ok (host_summary host rows) else Err invalid_kind)
        end
    end.

(** The body of the loop of [list_hosts]. *)
Definition list_host (host : DockerHostDefinition) st : (W * gmap string circuit_state) * res HostSummary :=
  let '(st, r) := probe_host host st in
  match r with
  | Ok s => (_record_success host.(dh_host_id) st, Ok s)
  | Err _ =>
      if valid_kind host then (_record_failure host.(dh_host_id) st, Ok (unreachable_summary host))
      else (st, Err invalid_kind)
  end.

Fixpoint list_hosts (hosts : list DockerHostDefinition) st : (W * gmap string circuit_state) * res (list HostSummary) :=
  match hosts with
  | [] => (st, Ok [])
  | host :: hosts =>
      let '(st, r) := list_host host st in
      match r with
      | Err e => (st, Err e)
      | Ok s => let '(st, r) := list_hosts hosts st in (st, cons s <$> r)
      end
  end.

(** *** Containers *)

Definition unavailable (host_id : string) : exn :=
  RuntimeError ("Docker host " +:+ host_id +:+ " is temporarily unavailable").

(** The summaries of the rows: the built one, or the minimal one. *)
Fixpoint summarize (host_id : string) (rows : list (option container_row)) (w : W) : W * res (list ContainerSummary) :=
  match rows with
  | [] => (w, Ok [])
  | None :: _ => (w, Err (AttributeError "object has no attribute 'get'"))
  | Some row :: rows =>
      let '(w, built) := summary_of host_id row w in
      let '(w, r) := summarize host_id rows w in
      (w, cons (default (_minimal_summary_from_row row) built) <$> r)
  end.

Definition name_before (a b : ContainerSummary) : bool := str_ltb a.(cs_name) b.(cs_name).

(** [cached]: what the cache of the list holds, when it is asked. *)
Definition list_containers (cached : option (list ContainerSummary)) (host_id : string) (force_refresh : bool) st
    : (W * gmap string circuit_state) * res (list ContainerSummary) :=
  match (if force_refresh then None else cached) with
  | Some l => (st, Ok l)
  | None =>
      if _is_circuit_open host_id st then (st, Err (unavailable host_id))
      else
        let '(st, r) := _with_retries host_id (ping host_id) st in
        match r with
        | Err e => (st, Err e)
        | Ok false =>
            (_record_failure host_id st, Err (RuntimeError ("Docker host " +:+ host_id +:+ " is unreachable")))
        | Ok true =>
            let '(st, r) := _with_retries host_id (engine_containers host_id) st in
            match r with
            | Err e => (st, Err e)
            | Ok rows =>
                let '(w, r) := summarize host_id rows st.1 in
                match r with
                | Err e => ((w, st.2), Err e)
                | Ok l => (_record_success host_id (w, st.2), Ok (sorted_by name_before l))
                end
            end
        end
  end.

(** [start_container], [stop_container] and [restart_container]. *)
Definition act_on_container (action host_id container_id : string) st : (W * gmap string circuit_state) * res unit :=
  if _is_circuit_open host_id st then (st, Err (unavailable host_id))
  else
    let '(st, r) := _with_retries host_id (container_action action host_id container_id) st in
    match r with
    | Err e => (st, Err e)
    | Ok _ => (_record_success host_id st, Ok tt)
    end.
End service.

(** ** The window of the metrics *)

(** The pattern [^(\d+)([smhd])$] of the stripped lower-case text. *)
Definition _duration_to_seconds (value : option string) (default_seconds : Z) : Z :=
  match value with
  | None => default_seconds
  | Some value =>
      let raw := lower (strip value) in
      match rev (chars raw) with
      | unit_ :: digits =>
          let ds := of_chars (rev digits) in
          if isdigit ds then
            let amount := default 0 (py_int ds) in
            if Ascii.eqb unit_ "s" then amount
            else if Ascii.eqb unit_ "m" then amount * 60
            else if Ascii.eqb unit_ "h" then amount * 3600
            else if Ascii.eqb unit_ "d" then amount * 86400
            else default_seconds
          else default_seconds
      | [] => default_seconds
      end
  end.

(** The seconds of the range and of the step of [get_container_metrics]. *)
Definition metrics_window (settings : Settings) (range_raw step_raw : option string) : Z * Z :=
  (Z.min settings.(docker_telemetry_metrics_max_range_seconds) (Z.max 30 (_duration_to_seconds range_raw 3600)),
   Z.min (Z.max settings.(docker_telemetry_metrics_min_step_seconds) (_duration_to_seconds step_raw 15))
     settings.(docker_telemetry_metrics_max_step_seconds)).

(** The number of log lines of [get_container_logs]. *)
Definition bounded_tail (settings : Settings) (tail : Z) : Z := Z.max 1 (Z.min tail settings.(docker_logs_max_tail)).

(** ** The circuit breaker under polling *)

Section circuit.
Context (settings : Settings) {W : Type} `{DockerEngine W}.
Implicit Types (w : W) (c : gmap string circuit_state).

(** A host whose circuit is open is not called. *)
Lemma open_list_containers cached host_id w c :
  _is_circuit_open host_id (w, c) = true →
  list_containers settings cached host_id true (w, c) = ((w, c), Err (unavailable host_id)).
Proof. intros Ho. unfold list_containers. by rewrite Ho. Qed.

Lemma open_act action host_id cid w c :
  _is_circuit_open host_id (w, c) = true →
  act_on_container settings action host_id cid (w, c) = ((w, c), Err (unavailable host_id)).
Proof. intros Ho. unfold act_on_container. by rewrite Ho. Qed.

(** The listing of hosts does not call it either, and counts a failure. *)
Lemma open_list_host host w c :
  _is_circuit_open host.(dh_host_id) (w, c) = true → valid_kind host = true →
  list_host settings host (w, c) = (_record_failure settings host.(dh_host_id) (w, c), Ok (unreachable_summary host)).
Proof. intros Ho Hk. unfold list_host, probe_host. by rewrite Ho, Hk. Qed.

(** Listings of one host in worlds that the environment moves on between them. *)
Fixpoint polls (host : DockerHostDefinition) (ws : list W) c : list (res bool) :=
  match ws with
  | [] => []
  | w :: ws => let '(st, r) := list_host settings host (w, c) in (hs_is_reachable <$> r) :: polls host ws st.2
  end.

(** The next listing comes at most [period] later, and no earlier. *)
Fixpoint spaced (period : Z) (ws : list W) : Prop :=
  match ws with
  | w :: ((w' :: _) as ws') => clock w ≤ clock w' ≤ clock w + period ∧ spaced period ws'
  | _ => True
  end.

(** With [f] failures counted, enough listings come before the circuit closes to
    reach the threshold again. *)
Definition stuck (period : Z) (host_id : string) w c : Prop :=
  ∃ s, c !! host_id = Some s ∧ 0 ≤ s.(failures) < settings.(docker_telemetry_circuit_fail_threshold) ∧
    clock w + (settings.(docker_telemetry_circuit_fail_threshold) - 1 - s.(failures)) * period < s.(open_until).

Lemma stuck_open period host_id w c : 0 ≤ period → stuck period host_id w c → _is_circuit_open host_id (w, c) = true.
Proof. intros Hp (s & Hs & Hf & Hu). unfold _is_circuit_open. simpl. rewrite Hs. apply Z.ltb_lt. nia. Qed.

Lemma stuck_step period host_id w w' c :
  0 ≤ period → settings.(docker_telemetry_circuit_fail_threshold) * period < open_period settings →
  clock w ≤ clock w' ≤ clock w + period → stuck period host_id w c →
  stuck period host_id w' (_record_failure settings host_id (w, c)).2.
Proof.
  intros Hp HT Hw (s & Hs & Hf & Hu). unfold _record_failure. simpl. rewrite Hs. eexists. rewrite lookup_insert_eq.
  split; [done|]. cbn [from_option]. unfold id.
  destruct (Z.leb_spec settings.(docker_telemetry_circuit_fail_threshold) (s.(failures) + 1)); cbn; split; nia.
Qed.

Lemma polls_stuck period host ws : ∀ w c,
  0 ≤ period → settings.(docker_telemetry_circuit_fail_threshold) * period < open_period settings →
  valid_kind host = true → spaced period (w :: ws) → stuck period host.(dh_host_id) w c →
  Forall (λ r, r = Ok false) (polls host (w :: ws) c).
Proof.
  induction ws as [|w' ws IH]; intros w c Hp HT Hk Hs Hst; cbn [polls];
    rewrite open_list_host by (done || by eapply stuck_open); constructor; try done.
  destruct Hs as [Hw Hs]. apply IH; try done. by eapply stuck_step.
Qed.
End circuit.


(** A circuit that is left alone until its time is over closes with the first
    listing the engine answers. *)
Lemma quiet_circuit_closes {W} `{DockerEngine W} settings host (w w1 w2 : W) (c : gmap string circuit_state) rows :
  _is_circuit_open host.(dh_host_id) (w, c) = false → valid_kind host = true →
  ping host.(dh_host_id) w = (w1, Ok true) → engine_containers host.(dh_host_id) w1 = (w2, Ok rows) →
  list_host settings host (w, c) = ((w2, <[host.(dh_host_id) := closed_circuit]> c), Ok (host_summary host rows)).
Proof.
  intros Ho Hk Hp Hr. unfold list_host, probe_host, _with_retries. rewrite Ho.
  assert (∀ A n i (op : W → W * res A) w w' a, op w = (w', Ok a) → attempts n i op w = (w', Ok a)) as Ha.
  { intros A n i op x y a E. destruct n; simpl; by rewrite E. }
  erewrite Ha by exact Hp. cbn [fst snd]. erewrite Ha by exact Hr. by rewrite Hk.
Qed.

(** *** Bounds *)

Lemma metrics_window_bounds settings range_raw step_raw :
  0 < settings.(docker_telemetry_metrics_min_step_seconds) ≤ settings.(docker_telemetry_metrics_max_step_seconds) →
  30 ≤ settings.(docker_telemetry_metrics_max_range_seconds) →
  let '(range, step) := metrics_window settings range_raw step_raw in
  30 ≤ range ≤ settings.(docker_telemetry_metrics_max_range_seconds) ∧
  settings.(docker_telemetry_metrics_min_step_seconds) ≤ step ≤ settings.(docker_telemetry_metrics_max_step_seconds).
Proof. intros. unfold metrics_window. lia. Qed.

(** In production no host is trusted unless it is configured. *)
Lemma production_hosts_configured settings loads raw host :
  lower settings.(environment) = "production" →
  host ∈ parse_docker_hosts_config settings loads raw →
  ∃ text items item, raw = Some text ∧ loads text = HostItems items ∧ Some item ∈ items ∧
    host.(dh_base_url) = strip (text_or_empty (getv item "base_url")) ∧ host.(dh_base_url) ≠ "".
Proof.
  intros He. assert (_default_hosts_for_env settings = []) as Hd
    by (unfold _default_hosts_for_env; by rewrite He).
  unfold parse_docker_hosts_config. rewrite Hd. destruct raw as [text|]; [|by intros ?%elem_of_nil].
  destruct (negb _); [by intros ?%elem_of_nil|]. destruct (loads text) as [| |[|i items]] eqn:El; try by intros ?%elem_of_nil.
  destruct (bool_decide _); [by intros ?%elem_of_nil|]. intros Hh. exists text, (i :: items).
  assert (∀ its out, host ∈ foldl add_host out its → host ∈ out ∨
    ∃ item, Some item ∈ its ∧ host.(dh_base_url) = strip (text_or_empty (getv item "base_url")) ∧ host.(dh_base_url) ≠ "")
    as Hf.
  { induction its as [|[it|] its IH]; intros out Hin; cbn [foldl] in Hin; [by left| |].
    - apply IH in Hin as [Hin|(item & ? & ?)]; [|right; exists item; by split; [right|]].
      cbn [add_host] in Hin. destruct (str_truthy (strip (text_or_empty (getv it "base_url")))) eqn:Hb; cbn [negb] in Hin; [|by left].
      apply elem_of_app in Hin as [Hin| ->%list_elem_of_singleton]; [by left|]. right. exists it.
      split; [left|]. split; [done|]. by apply str_truthy_true.
    - apply IH in Hin as [Hin|(item & ? & ?)]; [by left|]. right. exists item. by split; [right|]. }
  apply Hf in Hh as [?%elem_of_nil|(item & ? & ? & ?)]; [done|]. by exists item.
Qed.

(** An engine with a clock: it answers with its rows, or raises. *)
Record sim_world : Type := mkSim { sim_clock : Z; sim_up : bool; sim_rows : list (option container_row); sim_calls : Z }.

Definition sim_answer {A} (a : A) (w : sim_world) : sim_world * res A :=
  (mkSim w.(sim_clock) w.(sim_up) w.(sim_rows) (w.(sim_calls) + 1),
   if w.(sim_up) then Ok a else Err (OSError "connection refused")).

#[export] Instance sim_engine : DockerEngine sim_world := {
  clock := sim_clock;
  sleep d w := mkSim (w.(sim_clock) + d) w.(sim_up) w.(sim_rows) w.(sim_calls);
  ping _ := sim_answer true;
  engine_containers _ w := sim_answer w.(sim_rows) w;
  summary_of _ _ w := (w, None);
  container_action _ _ _ := sim_answer tt
}.

Definition sim_host : DockerHostDefinition := mkDockerHost "local" "Local Docker Host" "unix:///var/run/docker.sock" "unix".


(** One listing of a host that refuses counts two failures, those of the retries
    and of the listing: the circuit opens with the third. *)
Example failure_counted_twice :
  let '(st, _) := list_host default_settings sim_host (mkSim 0 false [] 0, ∅) in
  st.2 !! "local" = Some (mkCircuit 2 0) ∧ st.1.(sim_calls) = 3.
Proof. vm_compute. split; reflexivity. Qed.

(** An endpoint kind the model of the response refuses makes the listing of all
    hosts raise, also when the host is down. *)
Example kind_breaks_listing :
  let '(_, r) := list_hosts default_settings [sim_host; mkDockerHost "h2" "h2" "npipe://x" "npipe"] (mkSim 0 true [] 0, ∅) in
  r = Err invalid_kind.
Proof. vm_compute. reflexivity. Qed.

Example durations :
  (λ v, _duration_to_seconds (Some v) 3600) <$> ["90s"; " 15M "; "2h"; "7d"; "h"; "1.5h"; "10w"; ""] =
    [90; 900; 7200; 604800; 3600; 3600; 3600; 3600].
Proof. vm_compute. reflexivity. Qed.
