(* ===== verification/Alerts.v ===== *)
(** * Docker alerts

    [services/docker_alert_rule_engine.py]: the rules on containers and on the
    disk, and the table of alerts they open and resolve.  The telemetry service is
    a type class, which [DockerTelemetry] implements; the disk usage is an
    argument. *)

From S2P Require Import Prelude PyFloat PyStr PyVal Settings Models DockerTelemetry.
Open Scope Z_scope.

(** What the engine asks of the telemetry service. *)
Class ContainerTelemetry (W : Type) := {
  telemetry_hosts : W → W * res (list HostSummary);
  telemetry_containers : string → W → W * res (list ContainerSummary)
}.

#[export] Instance docker_telemetry {W} `{DockerEngine W} (settings : Settings) (hosts : list DockerHostDefinition)
    : ContainerTelemetry (W * gmap string circuit_state) := {
  telemetry_hosts := list_hosts settings hosts;
  telemetry_containers host_id := list_containers settings None host_id true
}.

(** ** The rules *)

Record active_rule : Type := mkRule {
  ar_rule : string;
  ar_severity : string;
  ar_host_id : string;
  ar_container_id : option string;
  ar_container_name : option string;
  ar_context : alert_context
}.

(** [x or 0] *)
Definition pct_or_0 (x : option float) : float :=
  match x with Some x => if feq x f0 then f0 else x | None => f0 end.

Section rules.
Context (settings : Settings).

Definition container_rule (host_id : string) (c : ContainerSummary) (rule severity : string) (context : alert_context)
    : active_rule :=
  mkRule rule severity host_id (Some c.(cs_container_id)) (Some c.(cs_name)) context.

(** One rule or the other by the level of a percentage, or none. *)
Definition level_rule (host_id : string) (c : ContainerSummary) (pct : option float) (critical warning : float)
    (name : string) (context : alert_context) : list active_rule :=
  if fge (pct_or_0 pct) critical then [container_rule host_id c (name +:+ "Critical") "critical" context]
  else if fge (pct_or_0 pct) warning then [container_rule host_id c (name +:+ "Warning") "warning" context]
  else [].

Definition container_rules (host_id : string) (c : ContainerSummary) : list active_rule :=
  (if String.eqb c.(cs_health_status) "unhealthy"
   then [container_rule host_id c "DockerContainerUnhealthy" "critical" (HealthContext c.(cs_health_status) c.(cs_state))]
   else []) ++
  (if c.(cs_is_restart_loop)
   then [container_rule host_id c "DockerContainerRestartLoop" "critical"
           (RestartContext c.(cs_restart_count) c.(cs_uptime_seconds))]
   else []) ++
  level_rule host_id c c.(cs_cpu_pct) settings.(docker_alert_high_cpu_critical_pct)
    settings.(docker_alert_high_cpu_warning_pct) "DockerContainerHighCPU" (CpuContext c.(cs_cpu_pct)) ++
  level_rule host_id c c.(cs_mem_pct) settings.(docker_alert_high_mem_critical_pct)
    settings.(docker_alert_high_mem_warning_pct) "DockerContainerHighMemory" (MemContext c.(cs_mem_pct)).

(** [shutil.disk_usage("/")] *)
Record disk_usage : Type := mkDisk { du_total : Z; du_used : Z; du_free : Z }.

Definition used_pct (d : disk_usage) : float :=
  if d.(du_total) =? 0 then f0 else fmul (true_div d.(du_used) d.(du_total)) (of_Z 100).

Definition disk_rules (d : disk_usage) : list active_rule :=
  if fge (used_pct d) settings.(docker_alert_disk_pressure_pct)
  then [mkRule "DockerHostDiskPressure" "warning" "local" None None (DiskContext (used_pct d) d.(du_free))]
  else [].

(** The reachable hosts with their containers. *)
Fixpoint reachable_containers {W} `{ContainerTelemetry W} (hosts : list HostSummary) (w : W)
    : W * res (list (string * list ContainerSummary)) :=
  match hosts with
  | [] => (w, Ok [])
  | h :: hosts =>
      if negb h.(hs_is_reachable) then reachable_containers hosts w
      else
        let '(w, r) := telemetry_containers h.(hs_host_id) w in
        match r with
        | Err e => (w, Err e)
        | Ok cs => let '(w, r) := reachable_containers hosts w in (w, cons (h.(hs_host_id), cs) <$> r)
        end
  end.

Definition active_rules (found : list (string * list ContainerSummary)) (d : disk_usage) : list active_rule :=
  (found ≫= λ hc, hc.2 ≫= container_rules hc.1) ++ disk_rules d.

Definition host_ids (found : list (string * list ContainerSummary)) (d : disk_usage) : list string :=
  found.*1 ++ match disk_rules d with [] => [] | _ => ["local"] end.

(** ** The table *)

Definition fingerprint_text (rule host_id : string) (container_id : option string) : string :=
  rule +:+ ":" +:+ host_id +:+ ":" +:+ ostr_or container_id "-".

Context (sha256_hex : string → string).

Definition _fingerprint (rule host_id : string) (container_id : option string) : string :=
  sha256_hex (fingerprint_text rule host_id container_id).

Definition rule_fingerprint (r : active_rule) : string :=
  _fingerprint r.(ar_rule) r.(ar_host_id) r.(ar_container_id).

Definition is_open (a : DockerAlert.t) : bool := is_none a.(DockerAlert.resolved_at).

(** The condition of the query. *)
Definition mine (hosts : list string) (a : DockerAlert.t) : bool := is_open a && str_in a.(DockerAlert.host_id) hosts.

(** The rows the query gives, with their places in the table. *)
Definition open_rows (hosts : list string) (table : list DockerAlert.t) : list (nat * DockerAlert.t) :=
  filterb (λ ia, mine hosts ia.2) (imap pair table).

(** By fingerprint; of two rows with one the last. *)
Definition open_alerts (hosts : list string) (table : list DockerAlert.t) : list (string * nat) :=
  dict_of ((λ ia, (ia.2.(DockerAlert.fingerprint), ia.1)) <$> open_rows hosts table).

Definition refresh_alert (now : Z) (r : active_rule) (a : DockerAlert.t) : DockerAlert.t :=
  DockerAlert.mk a.(DockerAlert.fingerprint) r.(ar_rule) r.(ar_severity) a.(DockerAlert.host_id)
    a.(DockerAlert.container_id) r.(ar_container_name) r.(ar_context) a.(DockerAlert.first_seen_at) now
    a.(DockerAlert.resolved_at).

Definition new_alert (now : Z) (r : active_rule) : DockerAlert.t :=
  DockerAlert.mk (rule_fingerprint r) r.(ar_rule) r.(ar_severity) r.(ar_host_id) r.(ar_container_id)
    r.(ar_container_name) r.(ar_context) now now None.

Definition resolve_alert (now : Z) (a : DockerAlert.t) : DockerAlert.t :=
  DockerAlert.mk a.(DockerAlert.fingerprint) a.(DockerAlert.rule) a.(DockerAlert.severity) a.(DockerAlert.host_id)
    a.(DockerAlert.container_id) a.(DockerAlert.container_name) a.(DockerAlert.context)
    a.(DockerAlert.first_seen_at) now (Some now).

Definition upsert_rule (now : Z) (opened : list (string * nat)) (table : list DockerAlert.t) (r : active_rule)
    : list DockerAlert.t :=
  match dget (rule_fingerprint r) opened with
  | Some i => alter (refresh_alert now r) i table
  | None => table ++ [new_alert now r]
  end.

Definition resolve_missing (now : Z) (active : list string) (table : list DockerAlert.t) (fi : string * nat)
    : list DockerAlert.t :=
  if str_in fi.1 active then table else alter (resolve_alert now) fi.2 table.

Definition _cleanup_resolved (now : Z) (table : list DockerAlert.t) : list DockerAlert.t :=
  let threshold := now - seconds (Z.max 60 settings.(docker_alert_resolved_ttl_seconds)) in
  filterb (λ a, match a.(DockerAlert.resolved_at) with Some t => threshold <=? t | None => true end) table.

Definition evaluate_table (now : Z) (found : list (string * list ContainerSummary)) (d : disk_usage)
    (table : list DockerAlert.t) : list DockerAlert.t * Z :=
  if bool_decide (host_ids found d = []) then (_cleanup_resolved now table, 0)
  else
    let opened := open_alerts (host_ids found d) table in
    let rules := active_rules found d in
    let active := rule_fingerprint <$> rules in
    let table := foldl (upsert_rule now opened) table rules in
    let table := foldl (resolve_missing now active) table opened in
    (_cleanup_resolved now table, Z.of_nat (length (remove_dups active))).

(** [DockerAlertRuleEngine.evaluate_once]; an exception leaves the table as it is. *)
Definition evaluate_once {W} `{ContainerTelemetry W} (now : Z) (d : disk_usage) (table : list DockerAlert.t) (w : W)
    : W * res (list DockerAlert.t * Z) :=
  let '(w, r) := telemetry_hosts w in
  match r with
  | Err e => (w, Err e)
  | Ok hosts =>
      let '(w, r) := reachable_containers hosts w in
      (w, (λ found, evaluate_table now found d table) <$> r)
  end.
End rules.

(** ** What an evaluation does to the table *)

Lemma alter_imap {A} (f : A → A) i (l : list A) : alter f i l = imap (λ j a, if decide (j = i) then f a else a) l.
Proof.
  apply list_eq. intros j. rewrite list_lookup_imap. destruct (decide (j = i)) as [->|].
  - by rewrite list_lookup_alter_eq.
  - rewrite list_lookup_alter_ne by done. by destruct (l !! j).
Qed.

Lemma imap_id {A} (f : nat → A → A) l : (∀ i a, l !! i = Some a → f i a = a) → imap f l = l.
Proof.
  intros Hf. apply list_eq. intros i. rewrite list_lookup_imap. destruct (l !! i) eqn:E; [|done]. simpl. by rewrite Hf.
Qed.

Lemma imap_imap {A B C} (g : nat → B → C) (f : nat → A → B) l : imap g (imap f l) = imap (λ i a, g i (f i a)) l.
Proof. apply list_eq. intros i. rewrite !list_lookup_imap. by destruct (l !! i). Qed.

Section passes.
Context (sha256_hex : string → string) (now : Z) (opened : list (string * nat)).
Notation fp := (rule_fingerprint sha256_hex).

(** What the first loop does to the row of one place, and the second. *)
Definition touch (j : nat) (a : DockerAlert.t) (r : active_rule) : DockerAlert.t :=
  if decide (dget (fp r) opened = Some j) then refresh_alert now r a else a.

Definition lapse (active : list string) (j : nat) (a : DockerAlert.t) (fi : string * nat) : DockerAlert.t :=
  if negb (str_in fi.1 active) && bool_decide (fi.2 = j) then resolve_alert now a else a.

Lemma touch_none j rules a : (∀ k, dget k opened ≠ Some j) → foldl (touch j) a rules = a.
Proof.
  intros Hj. induction rules as [|r rules IH]; [done|]. cbn [foldl]. unfold touch at 2. by rewrite decide_False.
Qed.

Lemma upsert_all n rules : ∀ table,
  (∀ k i, dget k opened = Some i → (i < n)%nat) → (n ≤ length table)%nat →
  foldl (upsert_rule sha256_hex now opened) table rules =
    imap (λ j a, foldl (touch j) a rules) table ++
    (new_alert sha256_hex now <$> filterb (λ r, is_none (dget (fp r) opened)) rules).
Proof.
  induction rules as [|r rules IH]; intros table Hn Hl; cbn [foldl].
  - rewrite imap_id by done. by rewrite app_nil_r.
  - unfold upsert_rule at 2. rewrite filter_cons. destruct (dget (fp r) opened) as [i|] eqn:E.
    + rewrite IH; [|done|by rewrite length_alter]. rewrite alter_imap, imap_imap. f_equal.
      apply imap_ext. intros j a _. unfold touch at 3. rewrite E.
      destruct (decide (j = i)) as [->|]; [by rewrite decide_True|]. rewrite decide_False; [done|congruence].
    + rewrite IH; [|done|rewrite length_app; simpl; lia]. rewrite imap_app, <- app_assoc. f_equal.
      { apply imap_ext. intros j a _. unfold touch at 3. by rewrite E, decide_False. }
      cbn. rewrite touch_none by (intros k ?%Hn; lia). by rewrite decide_True.
Qed.

Lemma resolve_all active l : ∀ table,
  foldl (resolve_missing now active) table l = imap (λ j a, foldl (lapse active j) a l) table.
Proof.
  induction l as [|[k i] l IH]; intros table; cbn [foldl]; [by rewrite imap_id|].
  rewrite IH. unfold resolve_missing. cbn [fst snd]. destruct (str_in k active) eqn:E.
  - apply imap_ext. intros j a _. unfold lapse at 3. cbn [fst snd]. by rewrite E.
  - rewrite alter_imap, imap_imap. apply imap_ext. intros j a _. unfold lapse at 3. cbn [fst snd]. rewrite E. simpl.
    destruct (decide (j = i)) as [->|]; [by rewrite bool_decide_true|by rewrite bool_decide_false].
Qed.

(** Of rules with distinct fingerprints at most one touches a row. *)
Lemma touch_all j key rules : ∀ a,
  NoDup (fp <$> rules) → (∀ r, dget (fp r) opened = Some j ↔ fp r = key) →
  foldl (touch j) a rules =
    match List.find (λ r, String.eqb (fp r) key) rules with Some r => refresh_alert now r a | None => a end.
Proof.
  induction rules as [|r rules IH]; intros a Hnd Hj; [done|]. cbn [foldl List.find].
  apply NoDup_cons in Hnd as [Hr Hnd]. unfold touch at 2.
  destruct (String.eqb_spec (fp r) key) as [Hk|Hk].
  - rewrite decide_True by (by apply Hj). rewrite IH by done.
    destruct (List.find _ rules) as [s|] eqn:E; [|done]. apply List.find_some in E as [Hs Es%String.eqb_eq].
    exfalso. apply Hr. rewrite Hk, <- Es. apply list_elem_of_fmap_2. by apply list_elem_of_In.
  - rewrite decide_False by (by rewrite Hj). by apply IH.
Qed.

(** A place is listed under one key at most. *)
Lemma lapse_none active j l a : (∀ k, (k, j) ∉ l) → foldl (lapse active j) a l = a.
Proof.
  intros Hj. induction l as [|[k i] l IH]; [done|]. cbn [foldl]. unfold lapse at 2. cbn [fst snd].
  rewrite bool_decide_false, andb_false_r; [apply IH|].
  - intros k' Hin. apply (Hj k'). by right.
  - intros ->. apply (Hj k). left.
Qed.

Lemma lapse_all active j key l a :
  NoDup l.*2 → (key, j) ∈ l →
  foldl (lapse active j) a l = if str_in key active then a else resolve_alert now a.
Proof.
  revert a. induction l as [|[k i] l IH]; intros a Hnd Hin; [by apply elem_of_nil in Hin|].
  cbn [fmap list_fmap snd] in Hnd. apply NoDup_cons in Hnd as [Hi Hnd]. cbn [foldl]. unfold lapse at 2. cbn [fst snd].
  apply elem_of_cons in Hin as [[= <- <-]|Hin].
  - rewrite bool_decide_true, andb_true_r by done. rewrite lapse_none; [by destruct (str_in key active)|].
    intros k Hk. apply Hi. apply list_elem_of_fmap. by exists (k, j).
  - rewrite bool_decide_false, andb_false_r; [by apply IH|]. intros ->. apply Hi. apply list_elem_of_fmap. by exists (key, j).
Qed.
End passes.

Lemma open_rows_rows hosts table :
  (open_rows hosts table).*2 = filterb (mine hosts) table.
Proof.
  unfold open_rows.
  assert (∀ f : nat → nat, (filterb (λ ia, mine hosts ia.2)
            (imap (λ i a, (f i, a)) table)).*2 =
          filterb (mine hosts) table) as Hf; [|exact (Hf id)].
  induction table as [|a table IH]; intros f; [done|]. rewrite imap_cons, !filter_cons. cbn [snd].
  specialize (IH (λ i, f (S i))). unfold compose. case_decide; cbn; by rewrite IH.
Qed.

Lemma elem_of_open_rows hosts table i a :
  (i, a) ∈ open_rows hosts table ↔ table !! i = Some a ∧ is_open a = true ∧ a.(DockerAlert.host_id) ∈ hosts.
Proof.
  unfold open_rows. rewrite list_elem_of_filter, elem_of_lookup_imap. cbn [snd]. unfold mine.
  rewrite andb_true_iff, str_in_true. split.
  - intros [[? ?] (j & b & [= <- <-] & ?)]. done.
  - intros (? & ? & ?). split; [done|]. by exists i, a.
Qed.

Section places.
Context (hosts : list string) (table : list DockerAlert.t).
Context (Hnd : NoDup (DockerAlert.fingerprint <$> filterb (mine hosts) table)).

Lemma open_alerts_list :
  open_alerts hosts table = (λ ia, (ia.2.(DockerAlert.fingerprint), ia.1)) <$> open_rows hosts table.
Proof using Hnd.
  apply dict_of_id. pose proof Hnd as H. rewrite <- open_rows_rows, <- list_fmap_compose in H.
  rewrite <- list_fmap_compose. exact H.
Qed.

Lemma elem_of_open_alerts k i :
  (k, i) ∈ open_alerts hosts table ↔
  ∃ a, table !! i = Some a ∧ is_open a = true ∧ a.(DockerAlert.host_id) ∈ hosts ∧ a.(DockerAlert.fingerprint) = k.
Proof using Hnd.
  rewrite open_alerts_list, list_elem_of_fmap. split.
  - intros ([j a] & [= -> ->] & (? & ? & ?)%elem_of_open_rows). by exists a.
  - intros (a & ? & ? & ? & <-). exists (i, a). split; [done|]. by apply elem_of_open_rows.
Qed.

Lemma dget_open_alerts k i :
  dget k (open_alerts hosts table) = Some i ↔
  ∃ a, table !! i = Some a ∧ is_open a = true ∧ a.(DockerAlert.host_id) ∈ hosts ∧ a.(DockerAlert.fingerprint) = k.
Proof using Hnd.
  rewrite <- elem_of_open_alerts. split; [apply dget_Some_elem|]. apply elem_dget_Some. apply dict_of_NoDup.
Qed.

Lemma open_alerts_places : NoDup (open_alerts hosts table).*2.
Proof using Hnd.
  rewrite open_alerts_list, <- list_fmap_compose.
  eapply (sublist_NoDup _ (imap pair table).*1); [|apply fmap_sublist, filterb_sublist].
  replace (imap pair table).*1 with (seq 0 (length table)); [apply NoDup_seq|].
  apply list_eq. intros i. rewrite list_lookup_fmap, list_lookup_imap. destruct (table !! i) eqn:E.
  - apply lookup_seq. by apply lookup_lt_Some in E.
  - apply lookup_ge_None in E. by apply lookup_seq_ge.
Qed.
End places.

(** The reference: every open alert of the hosts that were looked at is brought up
    to date with the rule of its fingerprint or resolved when there is none, and the
    rules without an alert get one; nothing else changes. *)
Definition settled (sha256_hex : string → string) (now : Z) (hosts : list string) (rules : list active_rule)
    (table : list DockerAlert.t) : list DockerAlert.t :=
  let fp := rule_fingerprint sha256_hex in
  ((λ a, if mine hosts a
         then match List.find (λ r, String.eqb (fp r) a.(DockerAlert.fingerprint)) rules with
              | Some r => refresh_alert now r a
              | None => resolve_alert now a
              end
         else a) <$> table) ++
  (new_alert sha256_hex now <$>
     filterb (λ r, negb (existsb (λ a, mine hosts a && String.eqb a.(DockerAlert.fingerprint) (fp r)) table)) rules).

Section settles.
Context (sha256_hex : string → string) (now : Z) (hosts : list string) (rules : list active_rule).
Context (table : list DockerAlert.t).
Notation fp := (rule_fingerprint sha256_hex).
Notation opened := (open_alerts hosts table).
Context (Htable : NoDup (DockerAlert.fingerprint <$> filterb (mine hosts) table)) (Hrules : NoDup (fp <$> rules)).

Lemma find_active key :
  match List.find (λ r, String.eqb (fp r) key) rules with
  | Some _ => str_in key (fp <$> rules) = true
  | None => str_in key (fp <$> rules) = false
  end.
Proof.
  destruct (List.find _ rules) as [r|] eqn:E.
  - apply List.find_some in E as [Hr <-%String.eqb_eq]. apply str_in_true, list_elem_of_fmap_2. by apply list_elem_of_In.
  - apply str_in_false. intros (r & -> & Hr)%list_elem_of_fmap. apply list_elem_of_In in Hr.
    pose proof (List.find_none _ _ E r Hr) as Hn. simpl in Hn. by rewrite String.eqb_refl in Hn.
Qed.

Lemma settle_row i a :
  table !! i = Some a →
  foldl (lapse now (fp <$> rules) i) (foldl (touch sha256_hex now opened i) a rules) opened =
    if mine hosts a
    then match List.find (λ r, String.eqb (fp r) a.(DockerAlert.fingerprint)) rules with
         | Some r => refresh_alert now r a
         | None => resolve_alert now a
         end
    else a.
Proof using Type*.
  intros Hi. destruct (mine hosts a) eqn:Hm.
  - apply andb_true_iff in Hm as [Ho Hh%str_in_true].
    rewrite (touch_all _ _ _ _ a.(DockerAlert.fingerprint)); [|done|].
    2: { intros r. rewrite dget_open_alerts by done. split; [|by exists a]. intros (b & Hb & _ & _ & <-). congruence. }
    rewrite (lapse_all _ _ _ a.(DockerAlert.fingerprint));
      [|by apply open_alerts_places|apply elem_of_open_alerts; [done|by exists a]].
    pose proof (find_active a.(DockerAlert.fingerprint)) as Hf. by destruct (List.find _ _); rewrite Hf.
  - assert (∀ k, ¬ ∃ b, table !! i = Some b ∧ is_open b = true ∧ b.(DockerAlert.host_id) ∈ hosts ∧
                   b.(DockerAlert.fingerprint) = k) as Hn.
    { intros k (b & Hb & Ho & Hh & _). rewrite Hi in Hb. simplify_eq. unfold mine in Hm.
      rewrite Ho, (proj2 (str_in_true _ _) Hh) in Hm. done. }
    rewrite touch_none, lapse_none; [done|..]; intros k; [rewrite elem_of_open_alerts by done|rewrite dget_open_alerts by done];
      apply Hn.
Qed.

Lemma loops_settle :
  foldl (resolve_missing now (fp <$> rules)) (foldl (upsert_rule sha256_hex now opened) table rules) opened =
    settled sha256_hex now hosts rules table.
Proof using Type*.
  assert (∀ k i, dget k opened = Some i → (i < length table)%nat) as Hlt.
  { intros k i (a & Ha & _)%dget_open_alerts; [|done]. by apply lookup_lt_Some in Ha. }
  rewrite (upsert_all _ _ _ (length table)), resolve_all, imap_app by done. unfold settled. f_equal.
  - rewrite imap_imap. apply list_eq. intros i. rewrite list_lookup_imap, list_lookup_fmap.
    destruct (table !! i) as [a|] eqn:Hi; [|done]. simpl. f_equal. by apply settle_row.
  - rewrite imap_id.
    + f_equal. apply list_filter_iff. intros r. destruct (dget (fp r) opened) as [i|] eqn:E; simpl.
      * apply dget_open_alerts in E as (a & Ha & Ho & Hh & Hf); [|done]. split; [done|].
        rewrite negb_true_iff. intros Hx. exfalso. apply not_true_iff_false in Hx. apply Hx, existsb_exists. exists a.
        split; [by apply list_elem_of_In, (list_elem_of_lookup_2 _ i)|]. unfold mine.
        by rewrite Ho, (proj2 (str_in_true _ _) Hh), Hf, String.eqb_refl.
      * split; [|done]. intros _. apply negb_true_iff, not_true_iff_false. intros (a & Hin & Hm)%existsb_exists.
        apply list_elem_of_In, list_elem_of_lookup in Hin as [i Hi]. unfold mine in Hm. rewrite !andb_true_iff in Hm.
        destruct Hm as [[Ho Hh%str_in_true] Hf%String.eqb_eq].
        assert (dget (fp r) opened = Some i) as Hs by (apply dget_open_alerts; [done|by exists a]). congruence.
    + intros i a Hi. rewrite length_imap. apply lapse_none.
      intros k (b & Hb%lookup_lt_Some & _)%elem_of_open_alerts; [lia|done].
Qed.
End settles.

Lemma no_hosts_settled sha256_hex now settings found d table :
  host_ids settings found d = [] →
  active_rules settings found d = [] ∧ settled sha256_hex now (host_ids settings found d) (active_rules settings found d) table = table.
Proof.
  intros Hh. assert (active_rules settings found d = []) as Ha.
  { unfold host_ids, active_rules in *. apply app_nil in Hh as [->%fmap_nil_inv Hd]. by destruct (disk_rules settings d). }
  split; [done|]. rewrite Ha, Hh. unfold settled. rewrite app_nil_r. apply list_eq. intros i. rewrite list_lookup_fmap.
  destruct (table !! i) as [a|]; [|done]. simpl. unfold mine. by rewrite (proj2 (str_in_false _ []) (not_elem_of_nil _)), andb_false_r.
Qed.

Lemma remove_dups_NoDup {A} `{EqDecision A} (l : list A) : NoDup l → remove_dups l = l.
Proof.
  induction 1 as [|x l Hx Hl IH]; [done|]. cbn [remove_dups]. destruct (decide_rel _ x l); [done|by rewrite IH].
Qed.

(** The two loops do what the alerts are for.  When the open alerts of the
    hosts that were looked at have distinct fingerprints, and so have the rules, an
    evaluation is the reference: open alerts are refreshed or resolved by their
    fingerprint, keeping when they were first seen; rules without one open one;
    alerts of other hosts stay; then old resolved ones are dropped. *)
Theorem evaluation_settles settings sha256_hex now found d table :
  let hosts := host_ids settings found d in
  let rules := active_rules settings found d in
  NoDup (DockerAlert.fingerprint <$> filterb (mine hosts) table) →
  NoDup (rule_fingerprint sha256_hex <$> rules) →
  evaluate_table settings sha256_hex now found d table =
    (_cleanup_resolved settings now (settled sha256_hex now hosts rules table), Z.of_nat (length rules)).
Proof.
  cbn zeta. intros Ht Hr. unfold evaluate_table. case_bool_decide as Hh.
  - destruct (no_hosts_settled sha256_hex now settings found d table Hh) as [Ha ->]. by rewrite Ha.
  - by rewrite loops_settle, remove_dups_NoDup, length_fmap.
Qed.

(** ** The alerts over time *)

Definition no_colon (s : string) : Prop := ":"%char ∉ chars s.

Lemma cut_first {A} (x : A) l1 l2 r1 r2 : x ∉ l1 → x ∉ l2 → l1 ++ x :: r1 = l2 ++ x :: r2 → l1 = l2 ∧ r1 = r2.
Proof.
  revert l2. induction l1 as [|a l1 IH]; intros [|b l2] H1 H2; simpl; intros E; simplify_eq; [done|set_solver|set_solver|].
  destruct (IH l2) as [-> ->]; [set_solver|set_solver|done|done].
Qed.

Lemma cut_last {A} (x : A) l1 l2 r1 r2 : x ∉ r1 → x ∉ r2 → l1 ++ x :: r1 = l2 ++ x :: r2 → l1 = l2 ∧ r1 = r2.
Proof.
  intros H1 H2 E. apply (f_equal reverse) in E. rewrite !reverse_app, !reverse_cons, <- !app_assoc in E.
  apply cut_first in E as [E1 E2]; [|by rewrite elem_of_reverse..]. by apply (inj reverse) in E1, E2.
Qed.

(** The text of a fingerprint determines its parts. *)
Lemma fingerprint_text_inj rule1 rule2 host1 host2 cid1 cid2 :
  no_colon rule1 → no_colon rule2 → no_colon (ostr_or cid1 "-") → no_colon (ostr_or cid2 "-") →
  fingerprint_text rule1 host1 cid1 = fingerprint_text rule2 host2 cid2 →
  rule1 = rule2 ∧ host1 = host2 ∧ ostr_or cid1 "-" = ostr_or cid2 "-".
Proof.
  unfold fingerprint_text, no_colon. intros Hr1 Hr2 Hc1 Hc2 E. apply (f_equal chars) in E. rewrite !chars_app in E.
  change (chars ":") with [":"%char] in E. cbn [app] in E.
  apply cut_first in E as [E1 E]; [|done..]. apply cut_last in E as [E2 E3]; [|done..].
  by apply chars_inj in E1, E2, E3.
Qed.

(** An identifier as the engine gives it, or none. *)
Definition plain_id (cid : option string) : Prop :=
  match cid with Some c => c ≠ "" ∧ c ≠ "-" ∧ no_colon c | None => True end.

Lemma plain_id_inj c1 c2 : plain_id c1 → plain_id c2 → ostr_or c1 "-" = ostr_or c2 "-" → c1 = c2.
Proof.
  unfold ostr_or, str_truthy. destruct c1 as [c1|], c2 as [c2|]; simpl; intros H1 H2; try done.
  all: repeat match goal with |- context [String.eqb ?s ""] => destruct (String.eqb_spec s "") end; simpl; intros; naive_solver.
Qed.

Lemma plain_no_colon c : plain_id c → no_colon (ostr_or c "-").
Proof.
  unfold ostr_or. destruct c as [c|]; simpl; [|intros _; vm_compute; set_solver].
  intros (Hc & _ & Hn). apply str_truthy_true in Hc. by rewrite Hc.
Qed.

(** Hosts with their own names, containers with their own identifiers. *)
Definition well_found (found : list (string * list ContainerSummary)) : Prop :=
  NoDup found.*1 ∧
  Forall (λ hc, NoDup (cs_container_id <$> hc.2) ∧ Forall (λ c, plain_id (Some c.(cs_container_id))) hc.2) found.

Definition row_ok (sha256_hex : string → string) (a : DockerAlert.t) : Prop :=
  a.(DockerAlert.fingerprint) = _fingerprint sha256_hex a.(DockerAlert.rule) a.(DockerAlert.host_id) a.(DockerAlert.container_id) ∧
  no_colon a.(DockerAlert.rule) ∧ plain_id a.(DockerAlert.container_id).

(** The invariant of the table: fingerprints are those of the rows, and no two open
    alerts share one. *)
Definition alerts_ok (sha256_hex : string → string) (table : list DockerAlert.t) : Prop :=
  Forall (row_ok sha256_hex) table ∧ NoDup (DockerAlert.fingerprint <$> filterb is_open table).

Definition rule_ok (r : active_rule) : Prop := no_colon r.(ar_rule) ∧ plain_id r.(ar_container_id).

Section fingerprints.
Context (settings : Settings) (sha256_hex : string → string) `{!Inj (=) (=) sha256_hex}.
Notation fp := (rule_fingerprint sha256_hex).

Lemma fingerprint_inj rule1 rule2 host1 host2 cid1 cid2 :
  no_colon rule1 → no_colon rule2 → plain_id cid1 → plain_id cid2 →
  _fingerprint sha256_hex rule1 host1 cid1 = _fingerprint sha256_hex rule2 host2 cid2 →
  rule1 = rule2 ∧ host1 = host2 ∧ cid1 = cid2.
Proof using Type*.
  intros Hr1 Hr2 Hc1 Hc2 E%(inj sha256_hex).
  apply fingerprint_text_inj in E as (-> & -> & E); [|done|done|by apply plain_no_colon..].
  split_and!; [done..|by apply plain_id_inj].
Qed.

Lemma container_rules_shape h c :
  NoDup (ar_rule <$> container_rules settings h c) ∧
  Forall (λ r, r.(ar_host_id) = h ∧ r.(ar_container_id) = Some c.(cs_container_id) ∧
               (no_colon r.(ar_rule) ∧ r.(ar_rule) ≠ "DockerHostDiskPressure")) (container_rules settings h c).
Proof.
  unfold container_rules, level_rule.
  destruct (String.eqb _ _), (cs_is_restart_loop c);
    repeat match goal with |- context [if fge ?x ?y then _ else _] => destruct (fge x y) end;
    (split; [apply (bool_decide_unpack _); vm_compute; exact I|]);
    repeat (constructor; [split_and!; [done|done|apply (bool_decide_unpack _); vm_compute; exact I|done]|]); constructor.
Qed.

Lemma container_rule_ok h c r :
  plain_id (Some c.(cs_container_id)) → r ∈ container_rules settings h c → rule_ok r.
Proof.
  intros Hc Hr. destruct (container_rules_shape h c) as [_ Hf]. rewrite Forall_forall in Hf.
  destruct (Hf r Hr) as (_ & Hi & Hn & _). split; [done|by rewrite Hi].
Qed.

Lemma disk_rules_shape d :
  disk_rules settings d = [] ∨ ∃ x, disk_rules settings d = [mkRule "DockerHostDiskPressure" "warning" "local" None None x].
Proof. unfold disk_rules. destruct (fge _ _); [right; by eexists|by left]. Qed.

Lemma active_rules_ok found d : well_found found → Forall rule_ok (active_rules settings found d).
Proof.
  intros [_ Hf]. rewrite Forall_forall in Hf. apply Forall_app. split.
  - apply Forall_forall. intros r (hc & Hr & Hin)%list_elem_of_bind. destruct (Hf hc Hin) as [_ Hp].
    apply list_elem_of_bind in Hr as (c & Hr & Hc). rewrite Forall_forall in Hp. by eapply container_rule_ok; [apply Hp|].
  - destruct (disk_rules_shape d) as [->|[x ->]]; [constructor|]. repeat constructor.
    apply (bool_decide_unpack _). vm_compute. exact I.
Qed.

Lemma rule_fp_inj r s : rule_ok r → rule_ok s → fp r = fp s →
  r.(ar_rule) = s.(ar_rule) ∧ r.(ar_host_id) = s.(ar_host_id) ∧ r.(ar_container_id) = s.(ar_container_id).
Proof using Type*. intros [? ?] [? ?]. by apply fingerprint_inj. Qed.

Definition rule_key (r : active_rule) : string * string * option string := (r.(ar_rule), r.(ar_host_id), r.(ar_container_id)).

Lemma container_key h c k :
  k ∈ rule_key <$> container_rules settings h c → k.1.2 = h ∧ k.2 = Some c.(cs_container_id) ∧ k.1.1 ≠ "DockerHostDiskPressure".
Proof.
  intros (r & -> & Hr)%list_elem_of_fmap. destruct (container_rules_shape h c) as [_ Hf]. rewrite Forall_forall in Hf.
  by destruct (Hf r Hr) as (? & ? & ? & ?).
Qed.

Lemma fmap_bind {A B C} (g : B → C) (f : A → list B) l : g <$> (l ≫= f) = l ≫= λ x, g <$> f x.
Proof. induction l as [|x l IH]; [done|]. csimpl. by rewrite fmap_app, IH. Qed.

Lemma active_keys_distinct found d : well_found found → NoDup (rule_key <$> active_rules settings found d).
Proof.
  intros [Hh Hf]. rewrite Forall_forall in Hf. unfold active_rules. rewrite fmap_app, fmap_bind.
  assert (∀ hc k, k ∈ rule_key <$> (hc.2 ≫= container_rules settings hc.1) →
    k.1.2 = hc.1 ∧ k.1.1 ≠ "DockerHostDiskPressure") as Hk.
  { intros hc k. rewrite fmap_bind. intros (c & Hin & _)%list_elem_of_bind. by apply container_key in Hin as (? & _ & ?). }
  apply NoDup_app. split_and!.
  - apply NoDup_bind; [| |by apply NoDup_fmap_1 in Hh].
    + intros hc1 hc2 k H1 H2 [E1 _]%Hk [E2 _]%Hk. apply (NoDup_fmap_inj fst _ hc1 hc2 Hh); congruence.
    + intros hc Hin. rewrite fmap_bind. destruct (Hf hc Hin) as [Hc _]. apply NoDup_bind; [| |by apply NoDup_fmap_1 in Hc].
      * intros c1 c2 k H1 H2 (_ & E1 & _)%container_key (_ & E2 & _)%container_key.
        apply (NoDup_fmap_inj cs_container_id _ c1 c2 Hc); congruence.
      * intros c _. destruct (container_rules_shape hc.1 c) as [Hn _].
        apply (NoDup_fmap_1 (λ k : string * string * option string, k.1.1)). by rewrite <- list_fmap_compose.
  - intros k (hc & Hin & _)%list_elem_of_bind Hd. apply Hk in Hin as [_ Hin].
    destruct (disk_rules_shape d) as [E|[x E]]; rewrite E in Hd;
      [by apply elem_of_nil in Hd|apply list_elem_of_singleton in Hd as ->]. by apply Hin.
  - destruct (disk_rules_shape d) as [->|[x ->]]; [constructor|apply NoDup_singleton].
Qed.

(** The rules of what was found have distinct fingerprints. *)
Lemma active_rules_distinct found d : well_found found → NoDup (fp <$> active_rules settings found d).
Proof using Type*.
  intros Hw. pose proof (active_rules_ok found d Hw) as Hok. pose proof (active_keys_distinct found d Hw) as Hk.
  induction (active_rules settings found d) as [|r l IH]; [constructor|].
  apply Forall_cons in Hok as [Hr Hok]. cbn [fmap list_fmap] in *. apply NoDup_cons in Hk as [Hn Hk].
  constructor; [|by apply IH]. intros (s & E & Hs)%list_elem_of_fmap. rewrite Forall_forall in Hok.
  apply rule_fp_inj in E as (E1 & E2 & E3); [|done|by apply Hok]. apply Hn.
  apply list_elem_of_fmap. exists s. split; [|done]. unfold rule_key. congruence.
Qed.
End fingerprints.

Lemma rule_host settings found d r : r ∈ active_rules settings found d → r.(ar_host_id) ∈ host_ids settings found d.
Proof.
  unfold active_rules, host_ids. rewrite !elem_of_app. intros [(hc & Hr & Hin)%list_elem_of_bind|Hr].
  - left. apply list_elem_of_bind in Hr as (c & Hr & _). destruct (container_rules_shape settings hc.1 c) as [_ Hf].
    rewrite Forall_forall in Hf. destruct (Hf r Hr) as [-> _]. by apply list_elem_of_fmap_2.
  - right. destruct (disk_rules_shape settings d) as [E|[x E]]; rewrite E in *; [by apply elem_of_nil in Hr|].
    apply list_elem_of_singleton in Hr as ->. by apply list_elem_of_singleton.
Qed.

Section table.
Context (settings : Settings) (sha256_hex : string → string) (now : Z) (hosts : list string) (rules : list active_rule).
Notation fp := (rule_fingerprint sha256_hex).

Definition rule_of (a : DockerAlert.t) : option active_rule :=
  List.find (λ r, String.eqb (fp r) a.(DockerAlert.fingerprint)) rules.

Definition settle (a : DockerAlert.t) : DockerAlert.t :=
  if mine hosts a then match rule_of a with Some r => refresh_alert now r a | None => resolve_alert now a end else a.

Definition unopened (table : list DockerAlert.t) : list active_rule :=
  filterb (λ r, negb (existsb (λ a, mine hosts a && String.eqb a.(DockerAlert.fingerprint) (fp r)) table)) rules.

Lemma settled_eq table :
  settled sha256_hex now hosts rules table = (settle <$> table) ++ (new_alert sha256_hex now <$> unopened table).
Proof. done. Qed.

Lemma settle_fingerprint a : (settle a).(DockerAlert.fingerprint) = a.(DockerAlert.fingerprint).
Proof. unfold settle. destruct (mine hosts a); [|done]. by destruct (rule_of a). Qed.

Lemma settle_open a : is_open (settle a) = is_open a && (negb (mine hosts a) || is_some (rule_of a)).
Proof.
  unfold settle. destruct (mine hosts a) eqn:Hm; [|by rewrite andb_true_r].
  destruct (rule_of a); simpl; by rewrite ?andb_true_r, ?andb_false_r.
Qed.

Lemma settle_mine a : mine hosts (settle a) = mine hosts a && is_some (rule_of a).
Proof.
  unfold mine at 1. rewrite settle_open. unfold settle. destruct (mine hosts a) eqn:Hm; simpl.
  - unfold mine in Hm. apply andb_true_iff in Hm as [-> Hh]. by destruct (rule_of a); simpl; rewrite ?Hh.
  - rewrite andb_true_r. exact Hm.
Qed.

Lemma filterb_settle (p q : DockerAlert.t → bool) (table : list DockerAlert.t) :
  (∀ a, p (settle a) = q a) → filterb p (settle <$> table) = settle <$> filterb q table.
Proof.
  intros Hp. induction table as [|a table IH]; [done|]. cbn [fmap list_fmap]. rewrite !filter_cons, Hp, IH.
  by destruct (decide (q a = true)).
Qed.

Lemma cleanup_open (p : DockerAlert.t → bool) (table : list DockerAlert.t) :
  (∀ a, p a = true → is_open a = true) → filterb p (_cleanup_resolved settings now table) = filterb p table.
Proof.
  intros Hp. unfold _cleanup_resolved. induction table as [|a table IH]; [done|]. rewrite !filter_cons.
  destruct (a.(DockerAlert.resolved_at)) as [t|] eqn:E.
  - assert (p a = false) as Hf by (apply not_true_iff_false; intros Ho%Hp; unfold is_open in Ho; by rewrite E in Ho).
    rewrite (decide_False (P := p a = true)) by congruence.
    destruct (decide _); [|exact IH]. by rewrite filter_cons, decide_False, IH by congruence.
  - rewrite decide_True by done. rewrite filter_cons, IH. done.
Qed.

Lemma elem_of_unopened table r :
  r ∈ unopened table ↔ r ∈ rules ∧ ∀ a, a ∈ table → mine hosts a = true → a.(DockerAlert.fingerprint) ≠ fp r.
Proof.
  unfold unopened. rewrite elem_of_filterb, negb_true_iff, <- not_true_iff_false, existsb_exists. split.
  - intros [Hn Hr]. split; [done|]. intros a Ha Hm E. apply Hn. exists a. rewrite <- list_elem_of_In, Hm, E, String.eqb_refl. done.
  - intros [Hr Hn]. split; [|done]. intros (a & Ha%list_elem_of_In & [Hm E%String.eqb_eq]%andb_true_iff). by apply (Hn a).
Qed.

Lemma rule_of_Some a : is_some (rule_of a) = true → ∃ r, r ∈ rules ∧ fp r = a.(DockerAlert.fingerprint).
Proof.
  destruct (rule_of a) as [r|] eqn:E; [|done]. intros _. apply List.find_some in E as [Hr E%String.eqb_eq].
  exists r. by rewrite list_elem_of_In.
Qed.

Lemma rule_of_is_some a r : r ∈ rules → fp r = a.(DockerAlert.fingerprint) → is_some (rule_of a) = true.
Proof.
  intros Hr E. destruct (rule_of a) eqn:Hn; [done|]. apply list_elem_of_In in Hr.
  pose proof (List.find_none _ _ Hn r Hr) as Hx. simpl in Hx. by rewrite E, String.eqb_refl in Hx.
Qed.
End table.

Lemma filterb_imp {A} (p q : A → bool) (l : list A) :
  (∀ a, p a = true → q a = true) → filterb p l `sublist_of` filterb q l.
Proof.
  intros Hpq. induction l as [|a l IH]; [constructor|]. rewrite !filter_cons.
  destruct (decide (p a = true)) as [Hp|]; [rewrite decide_True by auto; by constructor|].
  destruct (decide (q a = true)); [by constructor|done].
Qed.

Section invariant.
Context (settings : Settings) (sha256_hex : string → string) `{!Inj (=) (=) sha256_hex}.
Context (now : Z) (found : list (string * list ContainerSummary)) (d : disk_usage).
Context (Hfound : well_found found).
Notation hosts := (host_ids settings found d).
Notation rules := (active_rules settings found d).
Notation fp := (rule_fingerprint sha256_hex).
Notation out table := (evaluate_table settings sha256_hex now found d table).1.

Lemma ok_mine table : alerts_ok sha256_hex table → NoDup (DockerAlert.fingerprint <$> filterb (mine hosts) table).
Proof.
  intros [_ Hn]. eapply sublist_NoDup; [exact Hn|]. apply fmap_sublist, filterb_imp. by intros a [? _]%andb_true_iff.
Qed.

Lemma out_settled table :
  alerts_ok sha256_hex table → out table = _cleanup_resolved settings now (settled sha256_hex now hosts rules table).
Proof using Type*.
  intros Hok. by rewrite evaluation_settles by (by apply ok_mine || by apply active_rules_distinct).
Qed.

Notation new := (new_alert sha256_hex now).
Notation keeps a := (is_open a && (negb (mine hosts a) || is_some (rule_of sha256_hex rules a))).
Notation stays_mine a := (mine hosts a && is_some (rule_of sha256_hex rules a)).

Lemma out_open table : alerts_ok sha256_hex table →
  filterb is_open (out table) =
    (settle sha256_hex now hosts rules <$> filterb (λ a, keeps a) table) ++ (new <$> unopened sha256_hex hosts rules table).
Proof using Type*.
  intros Hok. rewrite out_settled, cleanup_open, settled_eq, filter_app by done. f_equal.
  - apply filterb_settle. apply settle_open.
  - apply filterb_all. by apply Forall_fmap, Forall_true.
Qed.

Lemma out_mine table : alerts_ok sha256_hex table →
  filterb (mine hosts) (out table) =
    (settle sha256_hex now hosts rules <$> filterb (λ a, stays_mine a) table) ++ (new <$> unopened sha256_hex hosts rules table).
Proof using Type*.
  intros Hok. rewrite out_settled, cleanup_open, settled_eq, filter_app; [|by intros a [? _]%andb_true_iff|done]. f_equal.
  - apply filterb_settle. apply settle_mine.
  - apply filterb_all. apply Forall_fmap, Forall_forall. intros r Hr. apply elem_of_unopened in Hr as [Hr _].
    unfold mine, compose. simpl. apply str_in_true. by apply rule_host.
Qed.

Lemma settle_fps (l : list DockerAlert.t) :
  DockerAlert.fingerprint <$> (settle sha256_hex now hosts rules <$> l) = DockerAlert.fingerprint <$> l.
Proof. rewrite <- list_fmap_compose. apply list_fmap_ext. intros _ a _. apply settle_fingerprint. Qed.

Lemma new_fps (l : list active_rule) : DockerAlert.fingerprint <$> (new <$> l) = fp <$> l.
Proof. by rewrite <- list_fmap_compose. Qed.

Lemma unopened_distinct table : NoDup (fp <$> unopened sha256_hex hosts rules table).
Proof using Type*. apply NoDup_fmap_filterb. by apply active_rules_distinct. Qed.

Lemma out_open_distinct table :
  alerts_ok sha256_hex table → NoDup (DockerAlert.fingerprint <$> filterb is_open (out table)).
Proof using Type*.
  intros Hok. rewrite out_open by done. rewrite fmap_app, settle_fps, new_fps. destruct Hok as [Hrows Hn].
  rewrite Forall_forall in Hrows. apply NoDup_app. split_and!; [|intros k Ha Hr|apply unopened_distinct].
  - eapply sublist_NoDup; [exact Hn|]. apply fmap_sublist.
    apply filterb_imp. by intros a [? _]%andb_true_iff.
  - apply list_elem_of_fmap in Ha as (a & -> & [Hk Ha]%elem_of_filterb).
    apply list_elem_of_fmap in Hr as (r & E & [Hr Hno]%elem_of_unopened).
    destruct (mine hosts a) eqn:Hm; [by apply (Hno a)|]. apply andb_true_iff in Hk as [Ho _].
    destruct (Hrows a Ha) as (Hf & Hp). rewrite Hf in E.
    pose proof (active_rules_ok settings found d Hfound) as Hall. rewrite Forall_forall in Hall. destruct (Hall r Hr) as [Hnc Hpl].
    apply fingerprint_inj in E as (_ & Eh & _); try done; [|by destruct Hp..].
    unfold mine in Hm. rewrite Ho in Hm. simpl in Hm. apply str_in_false in Hm. rewrite Eh in Hm.
    by apply Hm, rule_host.
Qed.

Lemma out_rows_ok table : alerts_ok sha256_hex table → Forall (row_ok sha256_hex) (out table).
Proof using Type*.
  intros Hok. pose proof (active_rules_ok settings found d Hfound) as Hall.
  rewrite Forall_forall in Hall. rewrite out_settled, settled_eq, Forall_forall by done. destruct Hok as [Hrows _].
  rewrite Forall_forall in Hrows. intros x [_ Hx]%elem_of_filterb. apply elem_of_app in Hx as [Hx|Hx].
  - apply list_elem_of_fmap in Hx as (a & -> & Ha). destruct (Hrows a Ha) as (Hf & Hn & Hp). unfold settle.
    destruct (mine hosts a); [|done]. destruct (rule_of sha256_hex rules a) as [r|] eqn:Er; [|done].
    apply List.find_some in Er as [Hr E%String.eqb_eq]. apply list_elem_of_In, Hall in Hr as [Hrn Hrp].
    rewrite Hf in E. apply fingerprint_inj in E as (E1 & _ & _); try done. split_and!; simpl; by rewrite ?E1.
  - apply list_elem_of_fmap in Hx as (r & -> & [Hr _]%elem_of_unopened). by destruct (Hall r Hr).
Qed.

Lemma out_mine_rules table :
  alerts_ok sha256_hex table → DockerAlert.fingerprint <$> filterb (mine hosts) (out table) ≡ₚ fp <$> rules.
Proof using Type*.
  intros Hok. apply NoDup_Permutation; [| by apply active_rules_distinct|].
  - eapply sublist_NoDup; [by apply (out_open_distinct table)|]. apply fmap_sublist, filterb_imp.
    by intros a [? _]%andb_true_iff.
  - intros k. rewrite out_mine, fmap_app, settle_fps, new_fps, elem_of_app, !list_elem_of_fmap by done. split.
    + intros [(a & -> & [[_ Hs]%andb_true_iff _]%elem_of_filterb)|(r & -> & [Hr _]%elem_of_unopened)]; [|by exists r].
      apply rule_of_Some in Hs as (r & Hr & Hf). by exists r.
    + intros (r & -> & Hr).
      destruct (existsb (λ a, mine hosts a && String.eqb a.(DockerAlert.fingerprint) (fp r)) table) eqn:Ex.
      * apply existsb_exists in Ex as (a & Ha%list_elem_of_In & [Hm Hf%String.eqb_eq]%andb_true_iff). left.
        exists a. split; [done|]. apply elem_of_filterb. split; [|done]. rewrite Hm. by eapply rule_of_is_some.
      * right. exists r. split; [done|]. apply elem_of_unopened. split; [done|]. intros a Ha Hm E.
        apply not_true_iff_false in Ex. apply Ex, existsb_exists.
        exists a. rewrite <- list_elem_of_In, Hm, E, String.eqb_refl. done.
Qed.
End invariant.

(** C24: the open alerts are what is wrong.  From a table in order, an evaluation of
    distinct hosts with distinct containers leaves a table in order, whose open
    alerts of these hosts are the rules that hold on them, one each. *)
Theorem alerts_are_the_rules settings sha256_hex now found d table :
  Inj (=) (=) sha256_hex → well_found found → alerts_ok sha256_hex table →
  let out := (evaluate_table settings sha256_hex now found d table).1 in
  alerts_ok sha256_hex out ∧
  DockerAlert.fingerprint <$> filterb (mine (host_ids settings found d)) out ≡ₚ
    rule_fingerprint sha256_hex <$> active_rules settings found d.
Proof.
  intros Hi Hf Hok. split; [split|]; [by apply out_rows_ok|by apply out_open_distinct|by apply out_mine_rules].
Qed.

(** A container that is unhealthy and one that burns its processor. *)
Definition wit_sick : ContainerSummary := mkContainer "aaaaaaaaaaaa" "api" None "running" "unhealthy" 0 false (Some 60) None None.
Definition wit_busy : ContainerSummary :=
  mkContainer "bbbbbbbbbbbb" "db" None "running" "healthy" 0 false (Some 60) (Some (lit 96 0)) (Some (lit 91 0)).
Definition wit_found : list (string * list ContainerSummary) := [("h1", [wit_sick; wit_busy])].
Definition half_full : disk_usage := mkDisk 100 50 50.

Definition wit_alert (rule host : string) (cid : option string) : DockerAlert.t :=
  DockerAlert.mk (fingerprint_text rule host cid) rule "critical" host cid None (HealthContext "unhealthy" "running") 5 5 None.

(** An alert that still holds, one that does not, and one of a host that is not there. *)
Definition wit_alerts : list DockerAlert.t :=
  [wit_alert "DockerContainerUnhealthy" "h1" (Some "aaaaaaaaaaaa");
   wit_alert "DockerContainerUnhealthy" "h1" (Some "bbbbbbbbbbbb");
   wit_alert "DockerContainerUnhealthy" "h2" (Some "cccccccccccc")].

Ltac decide_by_computation := apply (bool_decide_unpack _); vm_compute; exact I.

Lemma wit_found_ok : well_found wit_found.
Proof.
  split; [decide_by_computation|]. repeat constructor; try decide_by_computation; unfold no_colon; decide_by_computation.
Qed.

Lemma wit_alerts_ok : alerts_ok id wit_alerts.
Proof.
  split; [|decide_by_computation]. repeat constructor; try done; unfold no_colon; decide_by_computation.
Qed.

Lemma evaluation_settles_witness :
  let out := (evaluate_table default_settings id 100 wit_found half_full wit_alerts).1 in
  (λ a, (a.(DockerAlert.rule), a.(DockerAlert.first_seen_at), a.(DockerAlert.resolved_at))) <$> out =
    [("DockerContainerUnhealthy", 5, None); ("DockerContainerUnhealthy", 5, Some 100);
     ("DockerContainerUnhealthy", 5, None); ("DockerContainerHighCPUCritical", 100, None);
     ("DockerContainerHighMemoryWarning", 100, None)].
Proof.
  cbv zeta. rewrite (evaluation_settles default_settings id 100 wit_found half_full wit_alerts).
  - vm_compute. reflexivity.
  - apply (bool_decide_unpack _). vm_compute. exact I.
  - apply (bool_decide_unpack _). vm_compute. exact I.
Defined.

Lemma alerts_are_the_rules_witness :
  let out := (evaluate_table default_settings id 100 wit_found half_full wit_alerts).1 in
  length (filterb (mine ["h1"]) out) = 3%nat ∧
  DockerAlert.fingerprint <$> filterb (mine ["h1"]) out ≡ₚ
    rule_fingerprint id <$> active_rules default_settings wit_found half_full.
Proof.
  split; [vm_compute; reflexivity|].
  exact (proj2 (alerts_are_the_rules default_settings id 100 wit_found half_full wit_alerts (λ x y H, H)
                  wit_found_ok wit_alerts_ok)).
Defined.

(** The alert of the disk is on a host "local" that is looked at only while the
    disk is full, or when a host has that name: otherwise it is never resolved. *)
Example disk_alert_stays_open :
  let full := (evaluate_table default_settings id 100 wit_found (mkDisk 100 90 10) []).1 in
  let later := (evaluate_table default_settings id 200 wit_found half_full full).1 in
  "DockerHostDiskPressure" ∈ DockerAlert.rule <$> filterb is_open later.
Proof. decide_by_computation. Qed.

(** A container whose summary was not built in time counts as healthy: its alert is
    resolved, although the list of hosts has it as unhealthy. *)
Definition sick_row : container_row :=
  mkRow [("Id", VStr "aaaaaaaaaaaa"); ("State", VStr "running"); ("Status", VStr "Up 2 hours (unhealthy)")] ["/api"].

Example slow_summary_resolves :
  let w := (mkSim 0 true [Some sick_row] 0, ∅) in
  let h := mkDockerHost "h1" "h1" "tcp://h1:2375" "tcp" in
  let '(_, r) := evaluate_once default_settings id (H:=docker_telemetry default_settings [h]) 100 half_full wit_alerts w in
  match r with
  | Ok (out, _) => map DockerAlert.resolved_at out = [Some 100; Some 100; None]
  | Err _ => False
  end ∧
  map hs_unhealthy <$> (list_hosts default_settings [h] w).2 = Ok [1].
Proof. vm_compute. split; reflexivity. Qed.
