(* ===== verification/LiveKey.v ===== *)
(** * The key and the endpoint of a server
    ([services/server_live_key_service.py], [services/node_endpoint_utils.py])

    Before a configuration is issued, the public key of its server is fetched
    from the node: from the heartbeats of the agents, or through the runtime
    adapter, with the key of the database as a fallback.  The endpoint may be
    derived from the node too. *)

From S2P Require Import Prelude PyStr PyVal IpAddr Settings Models Node Runtime.
Open Scope Z_scope.

(** ** What an adapter tells of its nodes *)

(** [None] where the adapter does not have the method. *)
Class NodeDirectory (W : Type) := {
  get_node_for_sync : option (string → W → W * res (option NodeMetadata));
  discover_nodes : W → W * res (list NodeMetadata);
  get_obfuscation_from_node : string → W → W * res (option pydict);
  ensure_reply_routes : option (string → W → W * res unit)
}.

(** Telling changes no peer. *)
Class NodeDirectoryLaws (W : Type) `{NodeDirectory W} (peers_at : W → string → gmap string string) : Prop := {
  sync_pure f sid w n : get_node_for_sync = Some f → peers_at (f sid w).1 n = peers_at w n;
  discover_pure w n : peers_at (discover_nodes w).1 n = peers_at w n;
  obfuscation_pure sid w n : peers_at (get_obfuscation_from_node sid w).1 n = peers_at w n;
  routes_pure f sid w n : ensure_reply_routes = Some f → peers_at (f sid w).1 n = peers_at w n
}.

(** ** Heartbeats *)

(** What Redis answers: it may not be initialised, fail, or hold the public key
    fields of the heartbeats by their identifier. *)
Inductive heartbeats : Type :=
| NotInitialized (msg : string)
| Failing (e : exn)
| Held (keys : list (string * string)).

Record LiveKeyResult : Type := mkLiveKey { lk_public_key : string; lk_node_id : string; lk_synced_at : Z }.

Definition FALLBACK_KEY_MAX_AGE_SECONDS : Z := 3600.

Definition _heartbeat_container_id (api_endpoint server_id : string) : option string :=
  if negb (startswith "docker://" (lower (strip api_endpoint))) then None
  else
    let name := strip (str_drop 9 (strip api_endpoint)) in
    if negb (str_truthy name) || String.eqb name server_id then None else Some (str_take 32 name).

Definition long_key (k : string) : bool := (43 <=? String.length k)%nat.

(** The fallback identifiers in front, each once, then the server's. *)
Definition ids_to_try (server_id : string) (fallbacks : list string) : list string :=
  let ids := foldl (λ ids f, if str_truthy f && negb (str_in f ids) then ids ++ [f] else ids) [] fallbacks in
  if str_in server_id ids then ids else ids ++ [server_id].

(** The first identifier whose heartbeat has a key. *)
Fixpoint first_key (keys : list (string * string)) (ids : list string) : option (string * string) :=
  match ids with
  | [] => None
  | i :: ids' =>
      match dget i keys with
      | Some k => if str_truthy (strip k) then Some (i, strip k) else first_key keys ids'
      | None => first_key keys ids'
      end
  end.

(** The key of the database, unless it is known to be old. *)
Definition db_fallback (now : Z) (key : option string) (synced_at : option Z) : option string :=
  let k := strip (default "" key) in
  if str_truthy k && long_key k &&
     match synced_at with
     | Some ts => negb (seconds FALLBACK_KEY_MAX_AGE_SECONDS <? now - ts)
     | None => true
     end
  then Some k else None.

(** The scan of all heartbeats: one that matches, or the only one. *)
Definition scan_key (keys : list (string * string)) (ids : list string) : option (string * string) :=
  let candidates := omap (λ e, let k := strip e.2 in
                               if str_truthy k && long_key k then Some (e.1, k) else None) keys in
  match List.find (λ c, str_in c.1 ids) candidates with
  | Some c => Some c
  | None => match candidates with [c] => Some c | _ => None end
  end.

Definition no_heartbeat_reason : string :=
  "no heartbeat with public_key (try sync or check agent sends key for this server/container)".

Definition live_key_agent (hb : heartbeats) (now : Z) (server_id : string) (fallbacks : list string)
    (key : option string) (synced_at : option Z) : res LiveKeyResult :=
  match hb with
  | NotInitialized msg =>
      let k := strip (default "" key) in
      if contains "not initialized" (lower msg) && str_truthy k && long_key k
      then Ok (mkLiveKey k server_id now)
      else Err (ServerNotSyncedError server_id ("heartbeat read failed: " +:+ msg))
  | Failing e => Err (ServerNotSyncedError server_id ("heartbeat read failed: " +:+ exn_str e))
  | Held keys =>
      let ids := ids_to_try server_id fallbacks in
      match first_key keys ids with
      | Some (i, k) => Ok (mkLiveKey k i now)
      | None =>
          match db_fallback now key synced_at with
          | Some k => Ok (mkLiveKey k server_id now)
          | None =>
              match scan_key keys ids with
              | Some (i, k) => Ok (mkLiveKey k i now)
              | None => Err (ServerNotSyncedError server_id no_heartbeat_reason)
              end
          end
      end
  end.

Definition not_in_discovery : string :=
  "node not found in discovery or node has no public_key (run sync or fix discovery)".

Definition key_of_node (server_id : string) (node : option NodeMetadata) : string * string :=
  match node with
  | Some n => let k := strip n.(Node.public_key) in
              (k, if str_truthy k && str_truthy n.(node_id) then n.(node_id) else server_id)
  | None => ("", server_id)
  end.

Section fetch.
Context {W : Type} `{NodeDirectory W}.
Implicit Types (w : W).

(** The node by its own lookup, else the first of that name among all. *)
Definition find_node (server_id : string) w : W * res (option NodeMetadata) :=
  let '(w, r) := match get_node_for_sync with
                 | Some f => f server_id w
                 | None => (w, Ok None)
                 end in
  match r with
  | Err e => (w, Err e)
  | Ok (Some n) => (w, Ok (Some n))
  | Ok None =>
      let '(w, r) := discover_nodes w in
      (w, (λ ns : list NodeMetadata, List.find (λ n, String.eqb n.(node_id) server_id) ns) <$> r)
  end.

Definition live_key_runtime (with_adapter : bool) (now : Z) (server_id : string) (key : option string) w
    : W * res LiveKeyResult :=
  if negb with_adapter
  then (w, Err (ServerNotSyncedError server_id "runtime adapter required for live key fetch"))
  else
    let '(w, r) := find_node server_id w in
    match r with
    | Err e => (w, Err e)
    | Ok node =>
        let '(k, used) := key_of_node server_id node in
        let db := strip (default "" key) in
        if str_truthy k then (w, Ok (mkLiveKey k used now))
        else if long_key db then (w, Ok (mkLiveKey db used now))
        else (w, Err (ServerNotSyncedError server_id not_in_discovery))
    end.

Definition live_key_fetch (settings : Settings) (hb : heartbeats) (with_adapter : bool) (now : Z)
    (server_id : string) (fallbacks : list string) (key : option string) (synced_at : option Z) w
    : W * res LiveKeyResult :=
  if negb (str_truthy server_id) then (w, Err (ServerNotSyncedError "" "missing server_id"))
  else if String.eqb settings.(node_discovery) "agent" || String.eqb settings.(node_mode) "agent"
  then (w, live_key_agent hb now server_id fallbacks key synced_at)
  else live_key_runtime with_adapter now server_id key w.

(** ** Endpoints *)

Definition in_v4_network (v : Z) (n : Z * Z) : bool :=
  Z.shiftr v (32 - n.2) =? Z.shiftr n.1 (32 - n.2).

Definition v4 (a b c d : Z) : Z := ((a * 256 + b) * 256 + c) * 256 + d.

(** [IPv4Address.is_private]. *)
Definition ipv4_is_private (v : Z) : bool :=
  existsb (in_v4_network v)
    [(v4 0 0 0 0, 8); (v4 10 0 0 0, 8); (v4 127 0 0 0, 8); (v4 169 254 0 0, 16); (v4 172 16 0 0, 12);
     (v4 192 0 0 0, 24); (v4 192 0 0 170, 31); (v4 192 0 2 0, 24); (v4 192 168 0 0, 16);
     (v4 198 18 0 0, 15); (v4 198 51 100 0, 24); (v4 203 0 113 0, 24); (v4 240 0 0 0, 4);
     (v4 255 255 255 255, 32)] &&
  negb (str_in (str_of_Z v) [str_of_Z (v4 192 0 0 9); str_of_Z (v4 192 0 0 10)]).

(** What is not an IPv4 address counts as private. *)
Definition _is_private_ip (ip : string) : bool :=
  let addr := hd "" (split ":" (hd "" (split "/" (strip ip)))) in
  if negb (str_truthy addr) || String.eqb addr "localhost" then true
  else match ipv4_parse addr with Some v => ipv4_is_private v | None => true end.

Definition is_endpoint_private (endpoint : option string) : bool :=
  match endpoint with
  | None => false
  | Some e =>
      if negb (str_truthy e) then false
      else
        let host := hd "" (split ":" (strip e)) in
        if negb (str_truthy host) then false else _is_private_ip host
  end.

Definition endpoint_of_node (default_host : option string) (node : option NodeMetadata) : option string :=
  match node with
  | None => None
  | Some n =>
      if n.(listen_port) =? 0 then None
      else if str_truthy n.(endpoint_ip) && negb (_is_private_ip n.(endpoint_ip))
      then Some (n.(endpoint_ip) +:+ ":" +:+ str_of_Z n.(listen_port))
      else
        match default_host with
        | Some h => if str_truthy (strip h) then Some (strip h +:+ ":" +:+ str_of_Z n.(listen_port)) else None
        | None => None
        end
  end.

Definition get_endpoint_from_runtime (server_id : string) (default_host : option string) w
    : W * res (option string) :=
  let '(w, r) := match get_node_for_sync with
                 | Some f => f server_id w
                 | None => (w, Ok None)
                 end in
  match r with
  | Err e => (w, Err e)
  | Ok (Some n) => (w, Ok (endpoint_of_node default_host (Some n)))
  | Ok None =>
      let '(w, r) := discover_nodes w in
      let node := match r with
                  | Ok ns => List.find (λ n, String.eqb n.(node_id) server_id) ns
                  | Err _ => None
                  end in
      (w, Ok (endpoint_of_node default_host node))
  end.
End fetch.

(** A host name counts as a private endpoint. *)
Example hostname_endpoint_private :
  is_endpoint_private (Some "vpn.example.com:443") = true ∧
  is_endpoint_private (Some "8.8.8.8:443") = false ∧ is_endpoint_private (Some "192.168.1.1:443") = true ∧
  is_endpoint_private (Some "192.0.0.9:1") = false.
Proof. vm_compute. done. Qed.
