(* ===== verification/AwgConf.v ===== *)
(** * Cleaning of a configuration ([core/amnezia_vpn_key.py], [sanitize_awg_conf])

    What is stored and downloaded as an AmneziaWG configuration goes through this
    filter: no byte order mark, no comments, no key without a value, one blank line
    at most between lines, and [[Interface]] first. *)

From S2P Require Import Prelude PyStr.
Open Scope Z_scope.

Definition is_blank (s : string) : bool := negb (str_truthy (strip s)).
Definition lstrip (s : string) : string := lstrip_with is_space s.
Definition rstrip (s : string) : string := rstrip_with is_space s.

(** [text.lstrip("\ufeff")]: the three bytes of the mark, as often as they come. *)
Fixpoint drop_bom (l : list ascii) : list ascii :=
  match l with
  | "239"%char :: "187"%char :: "191"%char :: l' => drop_bom l'
  | _ => l
  end.

(** [text.replace("\r\n", "\n")] *)
Fixpoint crlf_to_lf (l : list ascii) : list ascii :=
  match l with
  | "013"%char :: ("010"%char :: _) as l' => crlf_to_lf l'
  | c :: l' => c :: crlf_to_lf l'
  | [] => []
  end.

(** The part before the first [#] or [;], when there is one. *)
Fixpoint before_comment (l : list ascii) : option (list ascii) :=
  match l with
  | [] => None
  | c :: l' => if Ascii.eqb c "#" || Ascii.eqb c ";" then Some [] else cons c <$> before_comment l'
  end.

Definition strip_comment (line : string) : string :=
  let line := rstrip line in
  match before_comment (chars (lstrip line)) with
  | Some prefix => rstrip (of_chars prefix)
  | None => line
  end.

Definition key_char (c : ascii) : bool := is_alnum c || Ascii.eqb c "_".

(** [^\s*(?P<key>[A-Za-z0-9_]+)\s*=\s*$] *)
Definition _EMPTY_KEY_RE (line : string) : bool :=
  match dropwhile is_space (chars line) with
  | c :: l =>
      key_char c &&
      match dropwhile is_space (dropwhile key_char l) with
      | "="%char :: l' => forallb is_space l'
      | _ => false
      end
  | [] => false
  end.

(** What a line becomes; [None] when it is dropped. *)
Definition clean_line (line : string) : option string :=
  let line := strip_comment line in
  if is_blank line then Some ""
  else if _EMPTY_KEY_RE line then None
  else if String.eqb (strip line) "[Interface]" then Some "[Interface]"
  else if String.eqb (strip line) "[Peer]" then Some "[Peer]"
  else Some line.

(** The first [[Interface]] line to the top, unless the first line is one. *)
Definition interface_first (cleaned : list string) : list string :=
  match cleaned with
  | line :: _ =>
      if String.eqb (strip line) "[Interface]" then cleaned
      else
        match list_find (λ l, l = "[Interface]") cleaned with
        | Some (i, header) => header :: take i cleaned ++ drop (S i) cleaned
        | None => cleaned
        end
  | [] => []
  end.

(** At most one blank line in a row. *)
Fixpoint collapse_blanks (blank : bool) (lines : list string) : list string :=
  match lines with
  | [] => []
  | line :: lines' =>
      if is_blank line then
        if blank then collapse_blanks true lines' else "" :: collapse_blanks true lines'
      else line :: collapse_blanks false lines'
  end.

Definition newline : ascii := "010".

Definition sanitize_awg_conf (conf_text : string) : string :=
  if negb (str_truthy conf_text) then conf_text
  else
    let text := of_chars (crlf_to_lf (drop_bom (chars conf_text))) in
    let cleaned := omap clean_line (split newline text) in
    let normalized := collapse_blanks false (interface_first (dropwhile is_blank cleaned)) in
    rstrip_with (Ascii.eqb newline) (join (String newline "") normalized) +:+ String newline "".

Example sanitizes :
  let nl := String newline "" in
  sanitize_awg_conf ("# by hand" +:+ nl +:+ nl +:+ "  [Interface]  " +:+ nl +:+ "I2 = " +:+ nl +:+
      "MTU = 1200 ; low" +:+ nl +:+ nl +:+ nl +:+ "[Peer]") =
    "[Interface]" +:+ nl +:+ "MTU = 1200" +:+ nl +:+ nl +:+ "[Peer]" +:+ nl ∧
  sanitize_awg_conf ("A = 1" +:+ nl +:+ "[Interface]" +:+ nl +:+ "B = 2") =
    "[Interface]" +:+ nl +:+ "A = 1" +:+ nl +:+ "B = 2" +:+ nl ∧
  sanitize_awg_conf "" = "".
Proof. vm_compute. repeat split. Qed.

(** ** Cleaning twice changes nothing *)

Definition no_newline (s : string) : bool := forallb (λ a, negb (Ascii.eqb a newline)) (chars s).
Definition comment_char (c : ascii) : bool := Ascii.eqb c "#" || Ascii.eqb c ";".

Lemma dropwhile_idem {A} (p : A → bool) l : dropwhile p (dropwhile p l) = dropwhile p l.
Proof. induction l as [|a l IH]; simpl; [done|]. destruct (p a) eqn:E; [done|]. simpl. by rewrite E. Qed.

Lemma rstrip_idem s : rstrip (rstrip s) = rstrip s.
Proof.
  unfold rstrip, rstrip_with. rewrite chars_of_chars, rev_involutive. by rewrite dropwhile_idem.
Qed.

Lemma rstrip_prefix s : ∃ post, chars s = chars (rstrip s) ++ post.
Proof.
  unfold rstrip, rstrip_with. rewrite chars_of_chars.
  destruct (dropwhile_spec is_space (rev (chars s))) as (pre & E & _). exists (rev pre).
  apply (f_equal (@rev _)) in E. by rewrite rev_involutive, rev_app_distr in E.
Qed.

Lemma lstrip_suffix s : ∃ pre, chars s = pre ++ chars (lstrip s) ∧ Forall (λ c, is_space c = true) pre.
Proof.
  unfold lstrip, lstrip_with. rewrite chars_of_chars. induction (chars s) as [|c l (pre & E & Hp)]; simpl.
  - by exists [].
  - destruct (is_space c) eqn:Hc; [|by exists []]. exists (c :: pre). split; [simpl; congruence|by constructor].
Qed.

Lemma before_comment_Some l pre :
  before_comment l = Some pre → Forall (λ c, comment_char c = false) pre ∧ ∃ post, l = pre ++ post.
Proof.
  revert pre. induction l as [|c l IH]; intros pre; simpl; [done|].
  fold (comment_char c). destruct (comment_char c) eqn:Hc.
  - intros [= <-]. split; [constructor|by exists (c :: l)].
  - destruct (before_comment l) as [q|] eqn:E; [|done]. intros [= <-].
    destruct (IH q eq_refl) as [Hf [post ->]]. split; [by constructor|by exists post].
Qed.

Lemma before_comment_None l : before_comment l = None ↔ Forall (λ c, comment_char c = false) l.
Proof.
  induction l as [|c l IH]; simpl; [by split|]. fold (comment_char c). rewrite Forall_cons.
  destruct (comment_char c); [split; [done|by intros [? _]]|].
  rewrite <- IH. destruct (before_comment l); simpl; split; try done; by intros [_ ?].
Qed.

Lemma space_not_comment c : is_space c = true → comment_char c = false.
Proof. unfold is_space, comment_char. destruct c as [[] [] [] [] [] [] [] []]; try done. Qed.

(** A line without trailing space and comment. *)
Definition bare (s : string) : Prop := rstrip s = s ∧ Forall (λ c, comment_char c = false) (chars s).

Lemma bare_rstrip s : Forall (λ c, comment_char c = false) (chars s) → bare (rstrip s).
Proof.
  intros Hf. split; [apply rstrip_idem|]. destruct (rstrip_prefix s) as [post E]. rewrite E in Hf.
  by apply Forall_app in Hf as [? _].
Qed.

Lemma strip_comment_bare l : bare (strip_comment l).
Proof.
  unfold strip_comment. destruct (before_comment _) as [pre|] eqn:E.
  - apply before_comment_Some in E as [Hf _]. apply bare_rstrip. by rewrite chars_of_chars.
  - apply before_comment_None in E. split; [apply rstrip_idem|].
    destruct (lstrip_suffix (rstrip l)) as (pre & -> & Hp). apply Forall_app. split; [|done].
    eapply Forall_impl; [exact Hp|]. apply space_not_comment.
Qed.

Lemma strip_comment_fixed s : bare s → strip_comment s = s.
Proof.
  intros [Hr Hf]. unfold strip_comment. rewrite Hr.
  assert (before_comment (chars (lstrip s)) = None) as ->; [|done].
  apply before_comment_None. destruct (lstrip_suffix s) as (pre & E & _). rewrite E in Hf.
  by apply Forall_app in Hf as [_ ?].
Qed.

Lemma no_newline_sub pre s post t : chars s = pre ++ chars t ++ post → no_newline s = true → no_newline t = true.
Proof. unfold no_newline. intros ->. rewrite !forallb_app, !andb_true_iff. tauto. Qed.

Lemma strip_comment_no_newline l : no_newline l = true → no_newline (strip_comment l) = true.
Proof.
  assert (∀ s, no_newline s = true → no_newline (rstrip s) = true) as Hr.
  { intros s. destruct (rstrip_prefix s) as [post E]. by apply (no_newline_sub [] _ post). }
  intros Hl. unfold strip_comment. destruct (before_comment _) as [pre|] eqn:E; [|by apply Hr].
  apply Hr. apply before_comment_Some in E as [_ [post E]].
  destruct (lstrip_suffix (rstrip l)) as (sp & El & _).
  apply (no_newline_sub sp (rstrip l) post); [|by apply Hr]. rewrite El, E, chars_of_chars. done.
Qed.

(** Without the first byte of the mark. *)
Definition no_bom (l : list ascii) : Prop := Forall (λ c, c ≠ "239"%char) l.

Lemma no_bom_sub pre s post t : chars s = pre ++ chars t ++ post → no_bom (chars s) → no_bom (chars t).
Proof. unfold no_bom. intros ->. rewrite !Forall_app. tauto. Qed.

Lemma strip_comment_no_bom l : no_bom (chars l) → no_bom (chars (strip_comment l)).
Proof.
  assert (∀ s, no_bom (chars s) → no_bom (chars (rstrip s))) as Hr.
  { intros s. destruct (rstrip_prefix s) as [post E]. by apply (no_bom_sub [] _ post). }
  intros Hl. unfold strip_comment. destruct (before_comment _) as [pre|] eqn:E; [|by apply Hr].
  apply Hr. apply before_comment_Some in E as [_ [post E]].
  destruct (lstrip_suffix (rstrip l)) as (sp & El & _).
  apply (no_bom_sub sp (rstrip l) post); [|by apply Hr]. rewrite El, E, chars_of_chars. done.
Qed.

(** The lines that are left as they are. *)
Definition tidy (l : string) : Prop :=
  no_newline l = true ∧ clean_line l = Some l ∧ bare l ∧ (is_blank l = true → l = "") ∧ no_bom (chars l).

(** A fixed line is tidy. *)
Ltac header := repeat split; repeat first [done | discriminate | constructor].

Lemma clean_line_tidy l l' : no_newline l = true → no_bom (chars l) → clean_line l = Some l' → tidy l'.
Proof.
  intros Hn Hbom%strip_comment_no_bom. unfold clean_line. pose proof (strip_comment_bare l) as Hb.
  pose proof (strip_comment_no_newline l Hn) as Hn'. pose proof (strip_comment_fixed _ Hb) as Hfix.
  set (x := strip_comment l) in *. clearbody x.
  destruct (is_blank x) eqn:Hbl; [intros [= <-]; header|].
  destruct (_EMPTY_KEY_RE x) eqn:Hk; [done|].
  destruct (String.eqb (strip x) "[Interface]") eqn:Hi; [intros [= <-]; header|].
  destruct (String.eqb (strip x) "[Peer]") eqn:Hp; [intros [= <-]; header|].
  intros [= <-]. split_and!; [done| |done|by rewrite Hbl|done].
  unfold clean_line. rewrite Hfix, Hbl, Hk, Hi, Hp. done.
Qed.

Lemma split_no_newline cur l :
  forallb (λ a, negb (Ascii.eqb a newline)) cur = true →
  Forall (λ s, no_newline s = true) (split_chars newline cur l).
Proof.
  revert cur. induction l as [|a l IH]; intros cur Hc; cbn [split_chars].
  - constructor; [|constructor]. unfold no_newline. rewrite chars_of_chars. rewrite forallb_forall in *.
    intros x Hx. apply Hc. by apply in_rev.
  - destruct (Ascii.eqb a newline) eqn:Ha.
    + constructor; [|by apply IH]. unfold no_newline. rewrite chars_of_chars. rewrite forallb_forall in *.
      intros x Hx. apply Hc. by apply in_rev.
    + apply IH. cbn. by rewrite Ha.
Qed.

Lemma split_no_bom cur l : no_bom cur → no_bom l → Forall (λ s, no_bom (chars s)) (split_chars newline cur l).
Proof.
  unfold no_bom. revert cur. induction l as [|a l IH]; intros cur Hc Hl; cbn [split_chars].
  - constructor; [|constructor]. rewrite chars_of_chars. by apply Forall_rev.
  - apply Forall_cons in Hl as [Ha Hl]. destruct (Ascii.eqb a newline).
    + constructor; [|by apply IH]. rewrite chars_of_chars. by apply Forall_rev.
    + apply IH; [by constructor|done].
Qed.

Lemma cleaned_tidy s : no_bom (chars s) → Forall tidy (omap clean_line (split newline s)).
Proof.
  intros Hb. pose proof (split_no_newline [] (chars s) eq_refl) as Hs.
  pose proof (split_no_bom [] (chars s) (Forall_nil_2 _) Hb) as Hs'. unfold split.
  induction Hs as [|l ls Hl Hs IH]; csimpl; [constructor|]. apply Forall_cons in Hs' as [Hl' Hs'].
  destruct (clean_line l) eqn:E; [|auto]. constructor; [by eapply clean_line_tidy|auto].
Qed.

(** *** Blank lines *)

(** No two blank lines in a row, [b] when the line before was blank. *)
Fixpoint spaced (b : bool) (ls : list string) : bool :=
  match ls with
  | [] => true
  | l :: ls' => if is_blank l then negb b && spaced true ls' else spaced false ls'
  end.

Lemma collapse_spaced b ls : spaced b (collapse_blanks b ls) = true.
Proof.
  revert b. induction ls as [|l ls IH]; intros b; simpl; [done|].
  destruct (is_blank l) eqn:Hl; [|by simpl; rewrite Hl]. destruct b; [done|]. simpl. apply IH.
Qed.

Lemma collapse_tidy b ls : Forall tidy ls → Forall tidy (collapse_blanks b ls).
Proof.
  intros Hls. revert b. induction Hls as [|l ls Hl Hls IH]; intros b; simpl; [constructor|].
  destruct (is_blank l); [destruct b; [done|]|]; constructor; auto. header.
Qed.

Lemma collapse_id b ls : Forall tidy ls → spaced b ls = true → collapse_blanks b ls = ls.
Proof.
  intros Hls. revert b. induction Hls as [|l ls (_ & _ & _ & Hl & _) Hls IH]; intros b; simpl; [done|].
  destruct (is_blank l).
  - destruct b; simpl; [done|]. intros Hs. rewrite IH by done. by rewrite Hl.
  - intros Hs. by rewrite IH.
Qed.

Lemma spaced_prefix b l1 l2 : spaced b (l1 ++ l2) = true → spaced b l1 = true.
Proof.
  revert b. induction l1 as [|l l1 IH]; intros b; simpl; [done|].
  destruct (is_blank l); [|apply IH]. intros [-> ?]%andb_prop. by apply IH.
Qed.

Lemma spaced_blank b ls : spaced b ls = true → (ls = [] → b = false) →
  (∀ l, last ls = Some l → is_blank l = false) → spaced b (ls ++ [""]) = true.
Proof.
  revert b. induction ls as [|l ls IH]; intros b Hs Hb Hl; [by rewrite Hb by done|]. simpl in *.
  assert (∀ l', last ls = Some l' → is_blank l' = false) as Hl'.
  { intros l' E. apply Hl. destruct ls; [done|]. by rewrite last_cons_cons. }
  destruct (is_blank l) eqn:E; [|by apply IH].
  apply andb_prop in Hs as [-> Hs]. simpl. apply IH; [done| |done]. intros ->.
  specialize (Hl l eq_refl). congruence.
Qed.

(** *** The header *)

Lemma interface_first_tidy ls : Forall tidy ls → Forall tidy (interface_first ls).
Proof.
  intros Hls. destruct ls as [|l ls]; [done|]. unfold interface_first. case_match; [done|].
  destruct (list_find _ _) as [[i h]|] eqn:E; [|done]. apply list_find_Some in E as (Hi & -> & _).
  rewrite Forall_forall in Hls. constructor.
  - apply Hls. by eapply list_elem_of_lookup_2.
  - apply Forall_app; split; apply Forall_forall; intros x Hx; apply Hls.
    + by eapply elem_of_take_sub.
    + rewrite <- (take_drop (S i) (l :: ls)). apply elem_of_app. by right.
Qed.

(** The first line is a header, or there is none. *)
Definition headed (ls : list string) : Prop :=
  match ls with
  | l :: _ => l = "[Interface]" ∨ Forall (λ l, l ≠ "[Interface]") ls
  | [] => True
  end.

Lemma header_line l : tidy l → String.eqb (strip l) "[Interface]" = true → l = "[Interface]".
Proof.
  intros (_ & Hc & Hb & _ & _) Hs. unfold clean_line in Hc. rewrite (strip_comment_fixed _ Hb), Hs in Hc.
  destruct (is_blank l); [injection Hc as <-; discriminate|]. destruct (_EMPTY_KEY_RE l); [done|]. by injection Hc.
Qed.

Lemma interface_first_headed ls : Forall tidy ls → headed (interface_first ls).
Proof.
  intros Hls. destruct ls as [|l ls]; [done|]. unfold interface_first.
  destruct (String.eqb (strip l) "[Interface]") eqn:E.
  - left. apply header_line; [by apply Forall_inv in Hls|done].
  - destruct (list_find _ _) as [[i h]|] eqn:F.
    + apply list_find_Some in F as (_ & -> & _). by left.
    + apply list_find_None in F. by right.
Qed.

Lemma headed_interface_first ls : Forall tidy ls → headed ls → interface_first ls = ls.
Proof.
  destruct ls as [|l ls]; [done|]. intros Ht [->|Hn]; [done|]. unfold interface_first.
  destruct (String.eqb (strip l) "[Interface]"); [done|].
  destruct (list_find _ _) as [[i h]|] eqn:F; [|done].
  apply list_find_Some in F as (Hi & -> & _). rewrite Forall_forall in Hn.
  by destruct (Hn "[Interface]"); [eapply list_elem_of_lookup_2|].
Qed.

Definition starts_text (ls : list string) : Prop := match ls with l :: _ => is_blank l = false | [] => True end.

Lemma interface_first_starts ls : starts_text ls → starts_text (interface_first ls).
Proof.
  destruct ls as [|l ls]; [done|]. unfold interface_first. case_match; [done|].
  destruct (list_find _ _) as [[i h]|] eqn:E; [|done]. by apply list_find_Some in E as (_ & -> & _).
Qed.

Lemma collapse_no_header b ls :
  Forall (λ l, l ≠ "[Interface]") ls → Forall (λ l, l ≠ "[Interface]") (collapse_blanks b ls).
Proof.
  intros Hls. revert b. induction Hls as [|x ls Hx Hns IH]; intros b; simpl; [constructor|].
  destruct (is_blank x); [destruct b; [apply IH|]|]; (constructor; [done|apply IH]).
Qed.

Lemma collapse_headed ls : starts_text ls → headed ls → headed (collapse_blanks false ls) ∧ starts_text (collapse_blanks false ls).
Proof.
  destruct ls as [|l ls]; [done|]. intros Hl Hh. simpl. rewrite Hl. split; [|done].
  destruct Hh as [->|Hn]; [by left|]. right. apply Forall_cons in Hn as [Hn Hns]. constructor; [done|].
  by apply collapse_no_header.
Qed.

(** *** The text *)

Definition nl_str : string := String newline "".

(** The lines up to the last that is not blank. *)
Definition trim (ls : list string) : list string := rev (dropwhile is_blank (rev ls)).

Lemma trim_prefix ls : ∃ post, ls = trim ls ++ post.
Proof.
  unfold trim. destruct (dropwhile_spec is_blank (rev ls)) as (pre & E & _). exists (rev pre).
  apply (f_equal (@rev _)) in E. by rewrite rev_involutive, rev_app_distr in E.
Qed.

Lemma trim_last ls l : last (trim ls) = Some l → is_blank l = false.
Proof.
  unfold trim. destruct (dropwhile_spec is_blank (rev ls)) as (pre & _ & H).
  destruct (dropwhile is_blank (rev ls)) as [|a m]; simpl; [done|]. rewrite last_snoc. by intros [= <-].
Qed.

Lemma join_snoc ls l : ls ≠ [] → join nl_str (ls ++ [l]) = join nl_str ls +:+ nl_str +:+ l.
Proof.
  induction ls as [|x ls IH]; [done|]. intros _. destruct ls as [|y ls]; [done|].
  change (join nl_str ((x :: y :: ls) ++ [l])) with (x +:+ nl_str +:+ join nl_str ((y :: ls) ++ [l])).
  rewrite IH by done. change (join nl_str (x :: y :: ls)) with (x +:+ nl_str +:+ join nl_str (y :: ls)).
  by rewrite !append_assoc.
Qed.

Lemma rstrip_newline_snoc s : rstrip_with (Ascii.eqb newline) (s +:+ nl_str) = rstrip_with (Ascii.eqb newline) s.
Proof. unfold rstrip_with, nl_str. rewrite chars_app. cbn [String.list_ascii_of_string]. by rewrite rev_app_distr. Qed.

Lemma rstrip_newline_id s c l : chars s = l ++ [c] → c ≠ newline → rstrip_with (Ascii.eqb newline) s = s.
Proof.
  intros E Hc. unfold rstrip_with. rewrite E, rev_app_distr. cbn [rev app dropwhile].
  destruct (Ascii.eqb_spec newline c); [congruence|]. cbn [rev]. rewrite rev_involutive, <- E. apply of_chars_chars.
Qed.

(** A tidy line that is not blank ends with something else than a space. *)
Lemma tidy_end l : tidy l → is_blank l = false → ∃ p c, chars l = p ++ [c] ∧ is_space c = false ∧ c ≠ newline.
Proof.
  intros (Hn & _ & [Hr _] & _ & _) Hb. unfold rstrip, rstrip_with in Hr.
  destruct (dropwhile_spec is_space (rev (chars l))) as (pre & _ & H).
  destruct (dropwhile is_space (rev (chars l))) as [|c m] eqn:E.
  - rewrite <- Hr in Hb. discriminate.
  - exists (rev m), c. rewrite <- Hr, chars_of_chars. simpl. split_and!; [done|done|]. intros ->. discriminate.
Qed.

Lemma rstrip_join ls : Forall tidy ls → rstrip_with (Ascii.eqb newline) (join nl_str ls) = join nl_str (trim ls).
Proof.
  induction ls as [|l ls IH] using rev_ind; intros Hls; [done|].
  apply Forall_app in Hls as [Hls Hl%Forall_inv]. unfold trim. rewrite rev_app_distr. cbn [rev app dropwhile].
  destruct (is_blank l) eqn:Hb.
  - destruct Hl as (_ & _ & _ & Hl & _). rewrite Hl by done. destruct ls as [|x ls]; [done|].
    rewrite join_snoc by done. change (nl_str +:+ "") with nl_str. rewrite rstrip_newline_snoc. by apply IH.
  - cbn [rev]. rewrite rev_involutive. destruct (tidy_end l Hl Hb) as (p & c & E & _ & Hc).
    destruct ls as [|x ls]; [by eapply rstrip_newline_id|]. rewrite join_snoc by done.
    eapply (rstrip_newline_id _ c (chars (join nl_str (x :: ls)) ++ chars nl_str ++ p)); [|done].
    by rewrite !chars_app, E, <- !app_assoc.
Qed.

Definition carriage_return : ascii := "013".

Lemma crlf_line l r :
  forallb (λ a, negb (Ascii.eqb a newline)) l = true → last l ≠ Some carriage_return →
  crlf_to_lf (l ++ newline :: r) = l ++ newline :: crlf_to_lf r.
Proof.
  induction l as [|a l IH]; intros Hn Hl.
  - reflexivity.
  - simpl in Hn. apply andb_prop in Hn as [_ Hn].
    assert (crlf_to_lf (l ++ newline :: r) = l ++ newline :: crlf_to_lf r) as E.
    { apply IH; [done|]. destruct l; [done|]. by rewrite last_cons_cons in Hl. }
    destruct (Ascii.eqb_spec a carriage_return) as [->|Ha].
    + destruct l as [|b l]; [done|]. cbn [app]. simpl in Hn. apply andb_prop in Hn as [Hb _].
      cbn [app] in E. rewrite <- E. destruct b as [[] [] [] [] [] [] [] []]; try done.
    + cbn [app]. rewrite <- E. destruct a as [[] [] [] [] [] [] [] []]; try done.
Qed.

Lemma crlf_unlines ls : Forall tidy ls → crlf_to_lf (chars (unlines ls)) = chars (unlines ls).
Proof.
  induction 1 as [|l ls Hl Hls IH]; [done|].
  change (unlines (l :: ls)) with (l +:+ nl_str +:+ unlines ls). rewrite !chars_app.
  change (chars nl_str ++ ?x) with (newline :: x). rewrite crlf_line, IH; [done|apply Hl|].
  destruct (is_blank l) eqn:Hb; [destruct Hl as (_ & _ & _ & Hl & _); by rewrite Hl|].
  destruct (tidy_end l Hl Hb) as (p & c & -> & Hc & _). rewrite last_snoc. intros [= ->]. discriminate.
Qed.

Lemma join_unlines ls : ls ≠ [] → join nl_str ls +:+ nl_str = unlines ls.
Proof.
  induction ls as [|l ls IH]; [done|]. intros _. destruct ls as [|x ls].
  - simpl. done.
  - change (join nl_str (l :: x :: ls)) with (l +:+ nl_str +:+ join nl_str (x :: ls)).
    rewrite !append_assoc, IH by done. reflexivity.
Qed.

(** What the cleaning leaves, when there is any text. *)
Definition settled (ls : list string) : Prop :=
  Forall tidy ls ∧ headed ls ∧ starts_text ls ∧ spaced false ls = true ∧ ∀ l, last ls = Some l → is_blank l = false.

Lemma drop_bom_id l : no_bom l → drop_bom l = l.
Proof.
  intros Hb. destruct l as [|c l]; [done|]. apply Forall_inv in Hb.
  destruct c as [[] [] [] [] [] [] [] []]; done.
Qed.

Lemma drop_bom_sub l : no_bom l → no_bom (drop_bom l).
Proof. intros Hb. by rewrite drop_bom_id. Qed.

Lemma crlf_no_bom l : no_bom l → no_bom (crlf_to_lf l).
Proof.
  unfold no_bom. induction 1 as [|c l Hc Hl IH]; [constructor|].
  assert (crlf_to_lf (c :: l) = crlf_to_lf l ∨ crlf_to_lf (c :: l) = c :: crlf_to_lf l) as [-> | ->];
    [|done|by constructor].
  destruct c as [[] [] [] [] [] [] [] []]; try by right.
  destruct l as [|[[] [] [] [] [] [] [] []] l]; try by right. by left.
Qed.

Lemma normalized_settled text :
  no_bom (chars text) →
  settled (trim (collapse_blanks false (interface_first (dropwhile is_blank (omap clean_line (split newline text)))))).
Proof.
  intros Hb. pose proof (cleaned_tidy text Hb) as Ht. set (cleaned := omap _ _) in *.
  destruct (dropwhile_spec is_blank cleaned) as (pre & E & Hs). set (t := dropwhile is_blank cleaned) in *.
  rewrite E in Ht. apply Forall_app in Ht as [_ Ht].
  assert (starts_text t) as Hst by (unfold starts_text; by destruct t). clearbody t.
  pose proof (interface_first_tidy t Ht) as Hi. pose proof (interface_first_headed t Ht) as Hh.
  apply interface_first_starts in Hst. set (u := interface_first t) in *. clearbody u.
  destruct (collapse_headed u Hst Hh) as [Hh' Hst']. pose proof (collapse_tidy false u Hi) as Hc.
  pose proof (collapse_spaced false u) as Hsp. set (n := collapse_blanks false u) in *. clearbody n.
  destruct (trim_prefix n) as [post En]. unfold settled. rewrite En in Hc, Hsp, Hh', Hst'.
  pose proof (trim_last n) as Hl. destruct (trim n) as [|l m].
  { by repeat split. }
  split_and!; [by apply Forall_app in Hc as [? _]| |done|by eapply spaced_prefix|exact Hl].
  destruct Hh' as [->|Hn]; [by left|]. right. by apply (Forall_app _ (l :: m)) in Hn as [? _].
Qed.

(** On settled lines every step of the cleaning is the identity. *)
Lemma settled_again ls :
  settled ls → ls ≠ [] → sanitize_awg_conf (unlines ls) = unlines ls.
Proof.
  intros (Ht & Hh & Hst & Hsp & Hl) Hne. unfold sanitize_awg_conf.
  assert (str_truthy (unlines ls) = true ∧ no_bom (chars (unlines ls))) as [-> Hb].
  { split; [apply str_truthy_true; by destruct ls as [|[|? ?] ?]|]. clear - Ht.
    induction Ht as [|l ls (_ & _ & _ & _ & Hb) _ IH]; [constructor|].
    change (unlines (l :: ls)) with (l +:+ nl_str +:+ unlines ls). rewrite !chars_app. unfold no_bom in *.
    rewrite !Forall_app. split_and!; [done|by repeat constructor|done]. }
  cbn [negb]. rewrite drop_bom_id, crlf_unlines, of_chars_chars by done. rewrite <- join_unlines by done.
  assert (split newline (join nl_str ls +:+ nl_str) = ls ++ [""]) as ->.
  { change nl_str with (nl_str +:+ "") at 2. rewrite <- join_snoc by done. apply split_join; [|by destruct ls].
    apply Forall_app; split; [|by repeat constructor]. eapply Forall_impl; [exact Ht|]. by intros l [Hn _]. }
  assert (omap clean_line (ls ++ [""]) = ls ++ [""]) as ->.
  { clear - Ht. induction Ht as [|l ls (_ & Hc & _) _ IH]; [done|]. csimpl in *. by rewrite Hc, IH. }
  assert (Forall tidy (ls ++ [""])) as Ht' by (apply Forall_app; split; [done|repeat constructor; header]).
  assert (dropwhile is_blank (ls ++ [""]) = ls ++ [""]) as ->.
  { destruct ls as [|l ls]; [done|]. simpl in *. by rewrite Hst. }
  rewrite headed_interface_first; [|done|].
  2: { destruct ls as [|l ls]; [done|]. destruct Hh as [->|Hn]; [by left|]. right.
       apply (Forall_app _ (l :: ls));  split; [done|by repeat constructor]. }
  rewrite collapse_id; [|done|by apply spaced_blank; [..|done|done]].
  change (String newline "") with nl_str. rewrite rstrip_join by done. f_equal. f_equal. unfold trim. rewrite rev_app_distr. cbn [rev app dropwhile].
  change (is_blank "") with true. cbn iota. destruct ls as [|x ls] using rev_ind; [done|].
  rewrite last_snoc in Hl. rewrite rev_app_distr. cbn [rev app dropwhile]. rewrite Hl by done. cbn [rev].
  by rewrite rev_involutive.
Qed.

(** Cleaning a configuration twice is cleaning it once, for a text without
    the bytes of a byte order mark.  What is stored, what an administrator's page
    shows and what a link downloads are therefore one text, although each of the
    three goes through the filter another number of times. *)
Theorem sanitize_idempotent s :
  no_bom (chars s) → sanitize_awg_conf (sanitize_awg_conf s) = sanitize_awg_conf s.
Proof.
  intros Hb. destruct (str_truthy s) eqn:Hs; [|by apply str_truthy_false in Hs as ->].
  assert (∃ ls, sanitize_awg_conf s = join nl_str ls +:+ nl_str ∧ settled ls) as (ls & -> & Hls).
  { unfold sanitize_awg_conf. rewrite Hs. cbn [negb].
    set (text := of_chars (crlf_to_lf (drop_bom (chars s)))).
    assert (no_bom (chars text)) as Ht
      by (unfold text; rewrite chars_of_chars; by apply crlf_no_bom, drop_bom_sub).
    eexists. split; [|exact (normalized_settled text Ht)]. f_equal. apply rstrip_join.
    apply collapse_tidy, interface_first_tidy. destruct (dropwhile_spec is_blank (omap clean_line (split newline text))) as (pre & E & _).
    pose proof (cleaned_tidy text Ht) as Hc. rewrite E in Hc. by apply Forall_app in Hc as [_ ?]. }
  destruct ls as [|l ls]; [vm_compute; reflexivity|]. rewrite join_unlines by done. by apply settled_again.
Qed.

Lemma sanitize_idempotent_witness :
  let s := "# c" +:+ nl_str +:+ "Jc = 3 ; low" +:+ nl_str +:+ nl_str +:+ nl_str +:+ " [Interface]" in
  sanitize_awg_conf s = "[Interface]" +:+ nl_str +:+ "Jc = 3" +:+ nl_str ∧
  sanitize_awg_conf (sanitize_awg_conf s) = sanitize_awg_conf s.
Proof.
  intros s. split; [vm_compute; reflexivity|]. apply (sanitize_idempotent s).
  repeat first [discriminate | constructor].
Defined.
