(* ===== verification/Issue.v ===== *)
(** * Issuing of devices

    [services/issue_service.py], [services/server_obfuscation.py] and
    [services/issued_config_service.py]: a new device gets keys, an address and
    configurations, and in [NODE_MODE=real] its peer is added on the node.  The
    steps are shared with the flows of an administrator ([AdminIssue]). *)

From S2P Require Import Prelude PyFloat PyStr PyVal Settings Models Node LoadBalancer Runtime ConfigBuilder AmneziaConfig LiveKey Redaction AwgConf.
Open Scope Z_scope.

(** ** The database and the effects of a request *)

Module IssueDb.
Record t : Type := mk {
  users : list User.t;
  plans : list Plan.t;
  subscriptions : list Subscription.t;
  devices : list Device.t;
  servers : list Server.t;
  profiles : list ServerProfile.t;
  profile_issues : list string; (** the devices of the [ProfileIssue] rows *)
  issued : list IssuedConfig.t;
  tokens : list OneTimeToken.t;
  actions : list AgentAction.t
}.

Definition set_devices (f : list Device.t → list Device.t) (db : t) : t :=
  mk db.(users) db.(plans) db.(subscriptions) (f db.(devices)) db.(servers) db.(profiles)
     db.(profile_issues) db.(issued) db.(tokens) db.(actions).

Definition update_server (sid : string) (f : Server.t → Server.t) (db : t) : t :=
  mk db.(users) db.(plans) db.(subscriptions) db.(devices)
     ((λ s, if String.eqb s.(Server.id) sid then f s else s) <$> db.(servers)) db.(profiles)
     db.(profile_issues) db.(issued) db.(tokens) db.(actions).

Definition add_profile_issue (did : string) (db : t) : t :=
  mk db.(users) db.(plans) db.(subscriptions) db.(devices) db.(servers) db.(profiles)
     (db.(profile_issues) ++ [did]) db.(issued) db.(tokens) db.(actions).

Definition set_issued (f : list IssuedConfig.t → list IssuedConfig.t) (db : t) : t :=
  mk db.(users) db.(plans) db.(subscriptions) db.(devices) db.(servers) db.(profiles)
     db.(profile_issues) (f db.(issued)) db.(tokens) db.(actions).

Definition set_users (f : list User.t → list User.t) (db : t) : t :=
  mk (f db.(users)) db.(plans) db.(subscriptions) db.(devices) db.(servers) db.(profiles)
     db.(profile_issues) db.(issued) db.(tokens) db.(actions).

Definition set_subscriptions (f : list Subscription.t → list Subscription.t) (db : t) : t :=
  mk db.(users) db.(plans) (f db.(subscriptions)) db.(devices) db.(servers) db.(profiles)
     db.(profile_issues) db.(issued) db.(tokens) db.(actions).

Definition set_profile_issues (f : list string → list string) (db : t) : t :=
  mk db.(users) db.(plans) db.(subscriptions) db.(devices) db.(servers) db.(profiles)
     (f db.(profile_issues)) db.(issued) db.(tokens) db.(actions).

Definition set_tokens (f : list OneTimeToken.t → list OneTimeToken.t) (db : t) : t :=
  mk db.(users) db.(plans) db.(subscriptions) db.(devices) db.(servers) db.(profiles)
     db.(profile_issues) db.(issued) (f db.(tokens)) db.(actions).

Definition set_actions (f : list AgentAction.t → list AgentAction.t) (db : t) : t :=
  mk db.(users) db.(plans) db.(subscriptions) db.(devices) db.(servers) db.(profiles)
     db.(profile_issues) db.(issued) db.(tokens) (f db.(actions)).

Definition update_device (did : string) (f : Device.t → Device.t) : t → t :=
  set_devices (fmap (λ d, if String.eqb d.(Device.id) did then f d else d)).

Definition find_server (db : t) (sid : string) : option Server.t :=
  List.find (λ s, String.eqb s.(Server.id) sid) db.(servers).

Definition find_device (db : t) (did : string) : option Device.t :=
  List.find (λ d, String.eqb d.(Device.id) did) db.(devices).

(** The oldest profile of a server. *)
Definition first_profile (db : t) (sid : string) : option ServerProfile.t :=
  head (sorted_by (λ p q, p.(ServerProfile.created_at) <? q.(ServerProfile.created_at))
          (filterb (λ p, String.eqb p.(ServerProfile.server_id) sid) db.(profiles))).

(** The devices of a subscription that are not revoked. *)
Definition live_devices (db : t) (sub_id : string) : Z :=
  countZ (λ d, String.eqb d.(Device.subscription_id) sub_id && is_none d.(Device.revoked_at)) db.(devices).

Definition active_subscription (db : t) (now : Z) (user_id : Z) (sub_id : string) : option Subscription.t :=
  List.find (λ s, String.eqb s.(Subscription.id) sub_id && (s.(Subscription.user_id) =? user_id) &&
                  String.eqb s.(Subscription.status) "active" && (now <? s.(Subscription.valid_until)))
    db.(subscriptions).
End IssueDb.

(** A request on the nodes [W] and the rows of its session: what raises keeps what
    was done to the nodes and, until the session is rolled back, to the rows. *)
Definition M (W A : Type) : Type := W * IssueDb.t → (W * IssueDb.t) * res A.

#[export] Instance M_ret W : MRet (M W) := λ A a st, (st, Ok a).
#[export] Instance M_bind W : MBind (M W) := λ A B f m st,
  match m st with (st, Ok a) => f a st | (st, Err e) => (st, Err e) end.

Section effects.
Context {W : Type}.

Definition lift {A} (r : res A) : M W A := λ st, (st, r).
Definition raise {A} (e : exn) : M W A := λ st, (st, Err e).
Definition get_rows : M W IssueDb.t := λ st, (st, Ok st.2).
Definition modify (f : IssueDb.t → IssueDb.t) : M W unit := λ st, ((st.1, f st.2), Ok tt).
Definition on_nodes {A} (f : W → W * res A) : M W A := λ st, let '(w, r) := f st.1 in ((w, st.2), r).

(** [try: ... except Exception]: the outcome as a value. *)
Definition attempt {A} (m : M W A) : M W (res A) := λ st, let '(st, r) := m st in (st, Ok r).

(** What is committed when the request ends here: all of the rows, or none of
    them when it raised and the session is closed. *)
Definition transaction {A} (m : M W A) : M W A := λ st,
  match m st with
  | (st', Ok a) => (st', Ok a)
  | (st', Err e) => ((st'.1, st.2), Err e)
  end.

Definition raise_unless (ok : bool) (e : exn) : M W unit := if ok then mret tt else raise e.
Definition some_or {A} (o : option A) (e : exn) : M W A := match o with Some a => mret a | None => raise e end.
End effects.

(** ** The request parameters of a profile *)

Definition params_of (profile : option ServerProfile.t) : pydict :=
  match profile with Some p => default [] p.(ServerProfile.request_params) | None => [] end.

Definition request_params_with_server_h (settings : Settings) (params : pydict) : pydict :=
  if String.eqb settings.(node_mode) "real"
  then filterb (λ kv, negb (str_in kv.1 ["amnezia_h1"; "amnezia_h2"; "amnezia_h3"; "amnezia_h4"])) params
  else params.

Definition dns_of (params : pydict) : res string :=
  dns ← match getv params "dns" with
        | VStr s => Ok s
        | v => if truthy v then Err (TypeError "can only join an iterable") else Ok ""
        end;
  if negb (str_truthy dns) then Ok DEFAULT_DNS
  else if str_in (strip (remove_all (String.length dns) " " dns)) ["1.1.1.1,1.0.0.1"; "1.1.1.1, 1.0.0.1"]
  then Ok DEFAULT_DNS else Ok dns.

(** [int(raw)] inside [try ... except (TypeError, ValueError): pass], for a value
    that is not [None]. *)
Definition int_or_pass (raw : pyval) (d : option Z) : option Z :=
  match raw with
  | VNone => d
  | _ => match int_of raw with Ok z => Some z | Err _ => d end
  end.

Definition mtu_of (profile : option ServerProfile.t) (params : pydict) : Z :=
  let mtu := match profile ≫= ServerProfile.mtu with
             | Some m => Some m
             | None => int_or_pass (v_or (getv params "mtu") (getv params "amnezia_mtu")) None
             end in
  match mtu with
  | Some m => if m <=? 0 then 1200 else m
  | None => 1200
  end.

Definition client_keepalive_of (params : pydict) : Z :=
  match int_or_pass (v_or (getv params "persistent_keepalive") (getv params "amnezia_keepalive")) None with
  | Some k => Z.max 10 (Z.min 60 k)
  | None => 10
  end.

Definition server_keepalive : Z := 15.

(** The pre-shared key of the profile, of the server, or a new one. *)
Definition preshared_key_of (params : pydict) (server : Server.t) (generated : string) : string :=
  let p := v_or (getv params "preshared_key") (getv params "amnezia_preshared_key") in
  let p := if truthy p then p
           else match server.(Server.preshared_key) with
                | Some k => if str_truthy k then VStr k else p
                | None => p
                end in
  match p with
  | VStr s => if str_truthy (strip s) then strip s else generated
  | _ => generated
  end.

Definition disable_ipv6 (profile : option ServerProfile.t) : bool :=
  match profile with Some p => p.(ServerProfile.disable_ipv6_on_unstable_route) | None => false end.

Definition full_tunnel (ipv4_only : bool) : string := if ipv4_only then "0.0.0.0/0" else "0.0.0.0/0, ::/0".

(** A private endpoint is replaced by the default host, on the same port. *)
Definition public_endpoint (settings : Settings) (endpoint : pyval) : res (option string) :=
  if negb (truthy endpoint) then Ok None
  else
    match endpoint with
    | VStr e =>
        if is_endpoint_private (Some e) then
          let default_host := strip settings.(vpn_default_host) in
          if str_truthy default_host then
            let port := if contains ":" e then strip (List.last (split ":" e) "") else "45790" in
            Ok (Some (default_host +:+ ":" +:+ port))
          else Ok (Some e)
        else Ok (Some e)
    | v => Ok (Some (render v))
    end.

(** ** The shared steps *)

(** What the libraries and the clock give a request: the device's identifier, the
    key pair, the pre-shared key and the download tokens. *)
Record Draws : Type := mkDraws {
  dr_device_id : string;
  dr_private_key : string;
  dr_public_key : string;
  dr_preshared_key : string;
  dr_tokens : string * string * string
}.

Record IssueResult : Type := mkIssueResult {
  ir_device : Device.t;
  ir_private_key : string;
  ir_config_awg : string;
  ir_config_wg_obf : string;
  ir_config_wg : string;
  ir_peer_created : bool
}.

(** What the three flows put in a configuration. *)
Record ConfigInputs : Type := mkInputs {
  ci_endpoint : option string;
  ci_obfuscation : pydict;
  ci_dns : string;
  ci_mtu : Z;
  ci_keepalive : Z;
  ci_preshared_key : string
}.

Definition is_real (settings : Settings) : bool :=
  String.eqb settings.(node_mode) "real" && negb (String.eqb settings.(node_discovery) "agent").

Section issue.
Context {W : Type} `{NodeRuntimeAdapter W, NodeDirectory W}.
Context (settings : Settings) (with_adapter : bool) (hb : heartbeats) (now : Z).
Context (sha256_hex fernet_encrypt : string → string).

Definition _config_hash (public_key private_key : string) : string :=
  str_take 64 (sha256_hex (public_key +:+ ":" +:+ private_key)).

Definition db_key (server : Server.t) : option string :=
  let k := strip (default "" server.(Server.public_key)) in if str_truthy k then Some k else None.

Definition fetch_key (sid : string) (server : Server.t) : M W string :=
  live ← on_nodes (live_key_fetch settings hb with_adapter now sid
                     (option_list (_heartbeat_container_id server.(Server.api_endpoint) sid))
                     (db_key server) server.(Server.public_key_synced_at));
  mret live.(lk_public_key).

(** The row follows the key that was found. *)
Definition note_key (sid : string) (server : Server.t) (key : string) : M W unit :=
  if String.eqb key (strip (default "" server.(Server.public_key))) then mret tt
  else modify (IssueDb.update_server sid (Server.set_key key)).

(** The endpoint of the row or the profile, else one derived from the node. *)
Definition choose_endpoint (sid : string) (configured : pyval) : M W pyval :=
  if truthy configured || negb with_adapter then mret configured
  else
    let h := strip settings.(vpn_default_host) in
    derived ← attempt (on_nodes (get_endpoint_from_runtime sid (if str_truthy h then Some h else None)));
    match derived with
    | Ok (Some e) =>
        if is_endpoint_private (Some e) then mret (VStr e)
        else _ ← modify (IssueDb.update_server sid (Server.set_vpn_endpoint (Some e))); mret (VStr e)
    | _ => mret configured
    end.

Definition configured_endpoint (server : Server.t) (params : pydict) : pyval :=
  match server.(Server.vpn_endpoint) with
  | Some e => if str_truthy e then VStr e else getv params "client_endpoint"
  | None => getv params "client_endpoint"
  end.

Definition h_changed (server : Server.t) (h1 h2 h3 h4 : Z) : bool :=
  negb (bool_decide (server.(Server.amnezia_h1) = Some h1) && bool_decide (server.(Server.amnezia_h2) = Some h2) &&
        bool_decide (server.(Server.amnezia_h3) = Some h3) && bool_decide (server.(Server.amnezia_h4) = Some h4)).

(** [{**a, **b}] *)
Definition dict_merge (a b : pydict) : pydict := foldl (λ d kv, dset kv.1 kv.2 d) a b.

(** The parameters of the profile, overridden by those of the node when it has the
    four header values, which the row then follows. *)
Definition obfuscation_for (sid : string) (server : Server.t) (params : pydict) : M W pydict :=
  obfuscation ← lift (get_obfuscation_params (Some (request_params_with_server_h settings params)));
  if negb with_adapter then mret obfuscation
  else
    r ← attempt (on_nodes (get_obfuscation_from_node sid));
    match r with
    | Ok (Some o) =>
        if forallb (λ k, negb (bool_decide (getv o k = VNone))) ["H1"; "H2"; "H3"; "H4"] then
          h1 ← lift (int_of (getv o "H1"));
          h2 ← lift (int_of (getv o "H2"));
          h3 ← lift (int_of (getv o "H3"));
          h4 ← lift (int_of (getv o "H4"));
          _ ← (if h_changed server h1 h2 h3 h4
               then modify (IssueDb.update_server sid (Server.set_obfuscation_h h1 h2 h3 h4)) else mret tt);
          mret (dict_merge obfuscation o)
        else mret obfuscation
    | _ => mret obfuscation
    end.

Definition allocate (params : pydict) : M W string :=
  db ← get_rows;
  pair ← lift (allocate_address_for_device db.(IssueDb.devices) (Some params));
  mret (snd pair).

Definition config_args (server_public_key private_key address : string) (ipv4_only : bool) (i : ConfigInputs)
    : ClientConfigArgs :=
  mkClientArgs server_public_key private_key i.(ci_endpoint) (full_tunnel ipv4_only) (Some i.(ci_dns))
    i.(ci_keepalive) (Some i.(ci_obfuscation)) (Some i.(ci_mtu)) (Some address) (Some i.(ci_preshared_key)).

(** *** Peers of the node *)

Definition has_peer (peers : list RuntimePeer) (public_key : string) : bool :=
  existsb (λ p, String.eqb (strip p.(rp_public_key)) public_key) peers.

Definition reply_routes (sid : string) : M W unit :=
  match ensure_reply_routes with Some f => on_nodes (f sid) | None => mret tt end.

Definition _ensure_device_peer_on_node (sid public_key allowed_ips : string) (preshared_key : option string)
    : M W unit :=
  peers ← on_nodes (list_peers sid);
  if has_peer peers (strip public_key) then reply_routes sid
  else
    _ ← on_nodes (add_peer sid (mkPeerConfig (strip public_key) (Some (strip allowed_ips)) preshared_key 15));
    reply_routes sid.

Definition peer_missing (public_key : string) : exn :=
  WireGuardCommandError "Node peer creation verification failed (peer missing after add)" "wg show"
    (str_take 64 public_key).

Definition verify_peer (sid public_key : string) (missing : exn) : M W unit :=
  peers ← on_nodes (list_peers sid);
  raise_unless (has_peer peers public_key) missing.

Definition set_status (did status : string) : M W unit :=
  modify (IssueDb.update_device did
            (λ d, Device.set_apply status d.(Device.last_applied_at) d.(Device.last_error)
                    d.(Device.unstable_reason) d)).

Definition set_applied (did : string) : M W unit :=
  modify (IssueDb.update_device did (λ d, Device.set_apply "APPLIED" (Some now) None d.(Device.unstable_reason) d)).

Definition set_failed (did status error : string) : M W unit :=
  modify (IssueDb.update_device did
            (λ d, Device.set_apply status d.(Device.last_applied_at) (Some error) d.(Device.unstable_reason) d)).

Definition reload (did : string) (dev : Device.t) : M W Device.t :=
  db ← get_rows; mret (default dev (IssueDb.find_device db did)).

(** *** [issue_device] *)

Definition new_device (dr : Draws) (user_id : Z) (sub_id sid : string) (name : option string)
    (allowed_ips preshared_key : string) (profile : option ServerProfile.t) (admin protocol : option string)
    (obfuscation_json : option pydict) : Device.t :=
  Device.mk dr.(dr_device_id) user_id sub_id sid dr.(dr_public_key) (Some allowed_ips) (Some preshared_key) now
    None None None (Some (if is_real settings then "CREATED" else "PENDING_APPLY")) None None None now name None
    None (Some (_config_hash dr.(dr_public_key) dr.(dr_private_key)))
    (Some (if disable_ipv6 profile then "restrictive" else "default")) protocol obfuscation_json admin.

Definition insert_device (d : Device.t) : M W unit :=
  _ ← modify (IssueDb.set_devices (λ ds, ds ++ [d]));
  modify (IssueDb.add_profile_issue d.(Device.id)).

Definition check_limit (sub : Subscription.t) (sub_id : string) : M W unit :=
  db ← get_rows;
  raise_unless (IssueDb.live_devices db sub_id <? sub.(Subscription.device_limit)) (ValueError "device_limit_exceeded").

(** [topology] is what [get_topology] would return, [None] without that argument. *)
Definition choose_server (server_id : option string) (topology : option ClusterTopology) : M W string :=
  match server_id, topology with
  | Some sid, _ => mret sid
  | None, Some t => node ← lift (select_node settings t None); mret node.(node_id)
  | None, None => raise (ValueError "server_required")
  end.

Definition apply_new_peer (sid : string) (dr : Draws) (allowed_ips preshared_key : string) : M W unit :=
  _ ← set_status dr.(dr_device_id) "APPLYING";
  _ ← on_nodes (add_peer sid (mkPeerConfig dr.(dr_public_key) (Some allowed_ips) (Some preshared_key) server_keepalive));
  _ ← verify_peer sid dr.(dr_public_key) (peer_missing dr.(dr_public_key));
  _ ← _ensure_device_peer_on_node sid dr.(dr_public_key) allowed_ips (Some preshared_key);
  set_applied dr.(dr_device_id).

(** Whether the peer is on the node; a failure is kept in the device's row or ends
    the request. *)
Definition create_peer (sid : string) (dr : Draws) (allowed_ips preshared_key : string) : M W bool :=
  if negb (is_real settings) then mret false
  else
    _ ← raise_unless with_adapter
          (WireGuardCommandError "Runtime adapter is required for NODE_MODE=real" "issue_device"
             "missing runtime adapter");
    r ← attempt (apply_new_peer sid dr allowed_ips preshared_key);
    match r with
    | Ok _ => mret true
    | Err e =>
        if settings.(issue_fallback_on_peer_failure) then
          _ ← set_failed dr.(dr_device_id) "PENDING_APPLY" (str_take 500 (redact_for_log (exn_str e)));
          mret false
        else raise (WireGuardCommandError "Node peer creation failed" "wg set" (redact_for_log (exn_str e)))
    end.

Definition issue_device (user_id : Z) (sub_id : string) (server_id device_name : option string)
    (topology : option ClusterTopology) (dr : Draws) : M W IssueResult :=
  db ← get_rows;
  user ← some_or (List.find (λ u, u.(User.id) =? user_id) db.(IssueDb.users)) (ValueError "user_not_found");
  _ ← raise_unless (negb user.(User.is_banned)) (ValueError "user_banned");
  sub ← some_or (IssueDb.active_subscription db now user_id sub_id) (ValueError "subscription_invalid");
  _ ← check_limit sub sub_id;
  sid ← choose_server server_id topology;
  server ← some_or (IssueDb.find_server db sid) (ValueError "server_not_available");
  _ ← raise_unless server.(Server.is_active) (ValueError "server_not_available");
  key ← (if String.eqb settings.(node_mode) "mock" && negb with_adapter
         then some_or (db_key server) (ValueError "server_public_key_required")
         else fetch_key sid server);
  _ ← note_key sid server key;
  let profile := IssueDb.first_profile db sid in
  let params := params_of profile in
  endpoint ← choose_endpoint sid (configured_endpoint server params);
  obfuscation ← obfuscation_for sid server params;
  dns ← lift (dns_of params);
  let psk := preshared_key_of params server dr.(dr_preshared_key) in
  endpoint ← lift (public_endpoint settings endpoint);
  allowed_ips ← allocate params;
  let dev := new_device dr user_id sub_id sid device_name allowed_ips psk profile None None None in
  _ ← insert_device dev;
  peer_created ← create_peer sid dr allowed_ips psk;
  let inputs := mkInputs endpoint obfuscation dns (mtu_of profile params) (client_keepalive_of params) psk in
  configs ← lift (build_all_configs (config_args key dr.(dr_private_key) allowed_ips (disable_ipv6 profile) inputs));
  let '(awg, wg_obf, wg) := configs in
  dev ← reload dr.(dr_device_id) dev;
  mret (mkIssueResult dev dr.(dr_private_key) awg wg_obf wg peer_created).

(** *** Issued configurations *)

Definition encrypt_config (plain : string) : string := fernet_encrypt plain.

Definition _iter_profile_configs (awg wg_obf wg : string) : list (string * string) :=
  filterb (λ c, negb (is_blank c.2)) [("awg", awg); ("wg_obf", wg_obf); ("wg", wg)].

Definition issued_row (did sid : string) (admin : option string) (expires_at : option Z)
    (c : (string * string) * string) : IssuedConfig.t :=
  IssuedConfig.mk did sid c.1.1 expires_at (sha256_hex c.2) None (Some (encrypt_config c.1.2)) admin now.

(** The tokens by profile; each row keeps the hash of its token. *)
Definition persist_issued_configs_with_tokens (did sid awg wg_obf wg : string) (admin : option string)
    (expires_at : option Z) (replace_existing : bool) (tokens : string * string * string)
    : M W (list (string * string)) :=
  _ ← (if replace_existing
       then modify (IssueDb.set_issued (λ l, filterb (λ c, negb (String.eqb c.(IssuedConfig.device_id) did)) l))
       else mret tt);
  let '(t1, t2, t3) := tokens in
  let rows := zip (_iter_profile_configs awg wg_obf wg) [t1; t2; t3] in
  _ ← modify (IssueDb.set_issued (λ l, l ++ (issued_row did sid admin expires_at <$> rows)));
  mret ((λ c, (c.1.1, c.2)) <$> rows).

(** The same rows; their number instead of the tokens. *)
Definition persist_issued_configs (did sid awg wg_obf wg : string) (admin : option string)
    (expires_at : option Z) (replace_existing : bool) (tokens : string * string * string) : M W Z :=
  l ← persist_issued_configs_with_tokens did sid awg wg_obf wg admin expires_at replace_existing tokens;
  mret (Z.of_nat (length l)).
End issue.

(** ** What the steps leave alone *)

Section frames.
Context {W : Type}.

(** A computation that keeps [P] of the rows, whether it returns or raises. *)
Definition preserves {A} (P : IssueDb.t → Prop) (m : M W A) : Prop := ∀ st, P st.2 → P (m st).1.2.

Lemma bind_Ok {A B} (m : M W A) (k : A → M W B) st st2 b :
  (m ≫= k) st = (st2, Ok b) → ∃ st1 a, m st = (st1, Ok a) ∧ k a st1 = (st2, Ok b).
Proof.
  unfold mbind, M_bind. destruct (m st) as [st1 [a|e]]; [|done]. intros H. by exists st1, a.
Qed.

Lemma preserves_use {A} P (m : M W A) st st' r : preserves P m → m st = (st', r) → P st.2 → P st'.2.
Proof. intros Hm E HP. specialize (Hm st HP). by rewrite E in Hm. Qed.

Section rules.
Context (P : IssueDb.t → Prop).

Lemma preserves_bind {A B} (m : M W A) (k : A → M W B) :
  preserves P m → (∀ a, preserves P (k a)) → preserves P (m ≫= k).
Proof.
  intros Hm Hk st HP. unfold mbind, M_bind. specialize (Hm st HP).
  destruct (m st) as [st1 [a|e]]; simpl in *; [|done]. by apply Hk.
Qed.

Lemma preserves_ret {A} (a : A) : preserves P (mret a : M W A).
Proof. by intros st. Qed.
Lemma preserves_lift {A} (r : res A) : preserves P (lift r : M W A).
Proof. by intros st. Qed.
Lemma preserves_raise {A} e : preserves P (raise e : M W A).
Proof. by intros st. Qed.
Lemma preserves_rows : preserves P (get_rows : M W _).
Proof. by intros st. Qed.
Lemma preserves_nodes {A} (g : W → W * res A) : preserves P (on_nodes g).
Proof. intros st. unfold on_nodes. by destruct (g st.1). Qed.
Lemma preserves_attempt {A} (m : M W A) : preserves P m → preserves P (attempt m).
Proof. intros Hm st HP. unfold attempt. specialize (Hm st HP). by destruct (m st). Qed.
Lemma preserves_transaction {A} (m : M W A) : preserves P m → preserves P (transaction m).
Proof. intros Hm st HP. unfold transaction. specialize (Hm st HP). by destruct (m st) as [? []]. Qed.
Lemma preserves_modify g : (∀ db, P db → P (g db)) → preserves P (modify g : M W unit).
Proof. intros Hg st. apply Hg. Qed.
Lemma preserves_some_or {A} (o : option A) e : preserves P (some_or o e : M W A).
Proof. by destruct o; intros st. Qed.
Lemma preserves_raise_unless b e : preserves P (raise_unless b e : M W unit).
Proof. by destruct b; intros st. Qed.
End rules.

Lemma raise_unless_Ok b e (st st' : W * IssueDb.t) u : raise_unless b e st = (st', Ok u) → b = true ∧ st' = st.
Proof. unfold raise_unless, raise, mret, M_ret. destruct b; intros; by simplify_eq. Qed.
Lemma some_or_Ok {A} (o : option A) e (st st' : W * IssueDb.t) a :
  some_or o e st = (st', Ok a) → o = Some a ∧ st' = st.
Proof. unfold some_or, raise, mret, M_ret. destruct o; intros; by simplify_eq. Qed.
Lemma lift_Ok {A} (r : res A) (st st' : W * IssueDb.t) a : lift r st = (st', Ok a) → r = Ok a ∧ st' = st.
Proof. unfold lift. intros. by simplify_eq. Qed.
End frames.

Create HintDb frame discriminated.
#[export] Hint Resolve preserves_ret preserves_lift preserves_raise preserves_rows preserves_nodes
  preserves_some_or preserves_raise_unless : frame.

(** Splits a computation into the steps whose frames are known. *)
Ltac keep :=
  repeat first
    [ solve [auto with frame]
    | apply preserves_bind; [|intros ?]
    | apply preserves_attempt
    | apply preserves_transaction
    | match goal with |- preserves _ (match ?x with _ => _ end) => destruct x end
    | progress cbv zeta ].

(** The next step of a computation that returned. *)
Ltac mstep H Hm :=
  let st := fresh "st" in let a := fresh "a" in
  apply bind_Ok in H as (st & a & Hm & H); cbn beta zeta in H.

Ltac mstep_as H Hm a :=
  let st := fresh "st" in apply bind_Ok in H as (st & a & Hm & H); cbn beta zeta in H.

(** What does not depend on the servers but for their identifiers and keys, on any
    column of the servers, on the status columns of one device. *)
Definition stable_keys (P : IssueDb.t → Prop) : Prop := ∀ sid g db,
  (∀ s, (g s).(Server.id) = s.(Server.id) ∧ (g s).(Server.public_key) = s.(Server.public_key)) →
  P db → P (IssueDb.update_server sid g db).
Definition stable_servers (P : IssueDb.t → Prop) : Prop := ∀ sid g db, P db → P (IssueDb.update_server sid g db).
Definition stable_status (did : string) (P : IssueDb.t → Prop) : Prop := ∀ st at_ err un db,
  P db → P (IssueDb.update_device did (λ d, Device.set_apply st (at_ d) (err d) (un d) d) db).

Lemma servers_keys P : stable_servers P → stable_keys P.
Proof. intros HP sid g db _. apply HP. Qed.

Section frames_of_steps.
Context {W : Type} `{NodeRuntimeAdapter W, NodeDirectory W}.
Context (settings : Settings) (with_adapter : bool) (hb : heartbeats) (now : Z).
Context (P : IssueDb.t → Prop).

Lemma fetch_key_keeps sid server : preserves P (fetch_key settings with_adapter hb now sid server).
Proof. unfold fetch_key. keep. Qed.

Lemma reply_routes_keeps sid : preserves P (reply_routes sid).
Proof. unfold reply_routes. keep. Qed.
#[local] Hint Resolve reply_routes_keeps : frame.

Lemma ensure_keeps sid pk ips psk : preserves P (_ensure_device_peer_on_node sid pk ips psk).
Proof. unfold _ensure_device_peer_on_node. keep. Qed.

Lemma verify_keeps sid pk e : preserves P (verify_peer sid pk e).
Proof. unfold verify_peer. keep. Qed.

Lemma allocate_keeps params : preserves P (allocate params : M W _).
Proof. unfold allocate. keep. Qed.

Lemma note_key_keeps sid server k : stable_servers P → preserves P (note_key sid server k : M W _).
Proof. intros HP. unfold note_key. keep. apply preserves_modify. intros. by apply HP. Qed.

Lemma choose_endpoint_keeps sid e : stable_keys P → preserves P (choose_endpoint settings with_adapter sid e).
Proof. intros HP. unfold choose_endpoint. keep. apply preserves_modify. intros. by apply HP. Qed.

Lemma obfuscation_keeps sid server params :
  stable_keys P → preserves P (obfuscation_for settings with_adapter sid server params).
Proof. intros HP. unfold obfuscation_for. keep. apply preserves_modify. intros. by apply HP. Qed.

Lemma check_limit_keeps sub sub_id : preserves P (check_limit sub sub_id : M W _).
Proof. unfold check_limit. keep. Qed.

Lemma choose_server_keeps sid topology : preserves P (choose_server settings sid topology : M W _).
Proof. unfold choose_server. keep. Qed.

Lemma set_status_keeps did s : stable_status did P → preserves P (set_status did s : M W _).
Proof. intros HP. apply preserves_modify. intros. by apply HP. Qed.

Lemma set_applied_keeps did : stable_status did P → preserves P (set_applied now did : M W _).
Proof. intros HP. apply preserves_modify. intros. by apply (HP _ (λ _, Some now) (λ _, None)). Qed.

Lemma set_failed_keeps did s e : stable_status did P → preserves P (set_failed did s e : M W _).
Proof. intros HP. apply preserves_modify. intros. by apply (HP _ _ (λ _, Some e)). Qed.
#[local] Hint Resolve ensure_keeps verify_keeps set_status_keeps set_applied_keeps set_failed_keeps : frame.

Lemma create_peer_keeps sid dr ips psk :
  stable_status dr.(dr_device_id) P → preserves P (create_peer settings with_adapter now sid dr ips psk).
Proof. intros HP. unfold create_peer, apply_new_peer. keep. Qed.
End frames_of_steps.

#[export] Hint Resolve fetch_key_keeps reply_routes_keeps ensure_keeps verify_keeps allocate_keeps note_key_keeps
  choose_endpoint_keeps obfuscation_keeps check_limit_keeps choose_server_keeps create_peer_keeps
  set_status_keeps set_applied_keeps set_failed_keeps servers_keys : frame.

(** ** The peer on the node *)

Section peers.
Context {W : Type} `{NodeRuntimeAdapter W, NodeDirectory W}.
Context (peers_at : W → string → gmap string string).
Context `{!NodeRuntimeLaws W peers_at, !NodeDirectoryLaws W peers_at}.
Context (settings : Settings) (with_adapter : bool) (now : Z).

Definition has_peer_at (sid pk ips : string) (w : W) : Prop := peers_at w sid !! pk = Some ips.

Lemma modify_nodes f (st st' : W * IssueDb.t) u : modify f st = (st', Ok u) → st'.1 = st.1.
Proof. unfold modify. by intros [= <- _]. Qed.

Lemma reply_routes_peers sid st st' r n : reply_routes sid st = (st', r) → peers_at st'.1 n = peers_at st.1 n.
Proof using Type*.
  unfold reply_routes. destruct ensure_reply_routes as [f|] eqn:E; [|unfold mret, M_ret; by intros [= <- _]].
  unfold on_nodes. destruct (f sid st.1) as [w r'] eqn:Ef. intros [= <- <-]. simpl.
  pose proof (routes_pure f sid st.1 n E) as Hr. by rewrite Ef in Hr.
Qed.

Lemma list_peers_step sid (st st' : W * IssueDb.t) r :
  on_nodes (list_peers sid) st = (st', r) →
  (∀ n, peers_at st'.1 n = peers_at st.1 n) ∧
  ∀ rows, r = Ok rows → ∀ pk v, peers_at st.1 sid !! pk = Some v → ∃ p, p ∈ rows ∧ p.(rp_public_key) = pk.
Proof using Type*.
  unfold on_nodes. destruct (list_peers sid st.1) as [w r'] eqn:E. intros [= <- <-]. simpl.
  split; [by apply (list_peers_pure _ _ _ _ E)|]. intros rows -> pk v Hv.
  apply (list_peers_ok _ _ _ _ E) in Hv as (p & Hp & <- & _). by exists p.
Qed.

Lemma verify_peers sid pk e st st' r n : verify_peer sid pk e st = (st', r) → peers_at st'.1 n = peers_at st.1 n.
Proof using Type*.
  unfold verify_peer, mbind, M_bind. destruct (on_nodes (list_peers sid) st) as [st1 [rows|e']] eqn:E.
  - apply list_peers_step in E as [Hp _]. unfold raise_unless, raise, mret, M_ret.
    case_match; intros; simplify_eq; apply Hp.
  - apply list_peers_step in E as [Hp _]. intros; simplify_eq. apply Hp.
Qed.

Lemma has_peer_in rows p : p ∈ rows → has_peer rows (strip p.(rp_public_key)) = true.
Proof. intros Hp. apply existsb_exists. exists p. split; [by apply list_elem_of_In|apply String.eqb_refl]. Qed.

(** A peer that is there stays what it is. *)
Lemma ensure_present sid pk ips ips' psk st st' r :
  has_peer_at sid pk ips st.1 → _ensure_device_peer_on_node sid pk ips' psk st = (st', Ok r) →
  has_peer_at sid pk ips st'.1.
Proof using Type*.
  intros Hp Hm. unfold _ensure_device_peer_on_node in Hm. mstep Hm Hl.
  apply list_peers_step in Hl as [Hpure Hrows].
  destruct (Hrows _ eq_refl pk ips Hp) as (p & Hin & Hpk). apply has_peer_in in Hin. rewrite Hpk in Hin.
  rewrite Hin in Hm. unfold has_peer_at in *. erewrite reply_routes_peers by exact Hm. by rewrite Hpure.
Qed.

Lemma add_peer_step sid p (st st' : W * IssueDb.t) u :
  on_nodes (add_peer sid p) st = (st', Ok u) →
  has_peer_at sid p.(pc_public_key) (default "" p.(pc_allowed_ips)) st'.1.
Proof using Type*.
  unfold on_nodes. destruct (add_peer sid p st.1) as [w r] eqn:E. intros [= <- ->]. destruct u.
  apply add_peer_ok in E as [E _]. unfold has_peer_at. simpl. rewrite E. apply lookup_insert_eq.
Qed.

(** A peer said to be created is on the node, with the address of its device. *)
Lemma create_peer_true sid dr ips psk st st' :
  create_peer settings with_adapter now sid dr ips psk st = (st', Ok true) →
  has_peer_at sid dr.(dr_public_key) ips st'.1.
Proof using Type*.
  unfold create_peer. destruct (is_real settings); simpl; [|done]. intros Hm.
  mstep Hm Ha. apply raise_unless_Ok in Ha as [_ ->]. mstep Hm Ht.
  destruct a0 as [[]|e]; [|by destruct (issue_fallback_on_peer_failure settings); [mstep Hm Hf|]].
  unfold mret, M_ret in Hm. simplify_eq. unfold attempt in Ht.
  destruct (apply_new_peer _ _ _ _ _ _) as [st2 [[]|e]] eqn:Hn; [|done]. simplify_eq.
  unfold apply_new_peer in Hn. mstep Hn Hs. mstep Hn Hadd. mstep Hn Hv. mstep Hn He.
  apply modify_nodes in Hn. apply add_peer_step in Hadd. simpl in Hadd.
  unfold has_peer_at. rewrite Hn. eapply ensure_present; [|exact He].
  unfold has_peer_at in *. by erewrite verify_peers by exact Hv.
Qed.
End peers.

(** ** Rows *)

Lemma find_update_server db sid g s :
  (∀ s, (g s).(Server.id) = s.(Server.id)) → IssueDb.find_server db sid = Some s →
  IssueDb.find_server (IssueDb.update_server sid g db) sid = Some (g s).
Proof.
  intros Hg. unfold IssueDb.find_server, IssueDb.update_server. simpl.
  induction (IssueDb.servers db) as [|x l IH]; simpl; [done|].
  destruct (String.eqb_spec x.(Server.id) sid) as [Hx|Hx].
  - intros [= ->]. by rewrite Hg, Hx, String.eqb_refl.
  - destruct (String.eqb_spec x.(Server.id) sid); [done|]. exact IH.
Qed.

Lemma find_update_other_server db sid sid' g :
  (∀ s, (g s).(Server.id) = s.(Server.id)) → sid ≠ sid' →
  IssueDb.find_server (IssueDb.update_server sid g db) sid' = IssueDb.find_server db sid'.
Proof.
  intros Hg Hne. unfold IssueDb.find_server, IssueDb.update_server. simpl.
  induction (IssueDb.servers db) as [|x l IH]; simpl; [done|].
  destruct (String.eqb_spec x.(Server.id) sid) as [Hx|Hx].
  - rewrite Hg. subst. destruct (String.eqb_spec x.(Server.id) sid'); [done|exact IH].
  - destruct (String.eqb x.(Server.id) sid'); [done|exact IH].
Qed.

(** The row of the server has the key that was fetched. *)
Definition row_key (sid key : string) (db : IssueDb.t) : Prop :=
  ∃ s, IssueDb.find_server db sid = Some s ∧ strip (default "" s.(Server.public_key)) = strip key.

Lemma row_key_stable sid key : stable_keys (row_key sid key).
Proof.
  intros sid' g db Hg (s & Hs & Hk). destruct (decide (sid' = sid)) as [->|Hne].
  - exists (g s). split; [by apply find_update_server; [apply Hg|]|]. by rewrite (proj2 (Hg s)).
  - exists s. split; [|done]. rewrite find_update_other_server; [done|apply Hg|done].
Qed.

Lemma note_key_row {W} sid server key (st st' : W * IssueDb.t) u :
  IssueDb.find_server st.2 sid = Some server → note_key sid server key st = (st', Ok u) → row_key sid key st'.2.
Proof.
  intros Hs. unfold note_key. destruct (String.eqb_spec key (strip (default "" server.(Server.public_key)))) as [->|].
  - unfold mret, M_ret. intros [= <- _]. exists server. split; [done|]. by rewrite strip_strip.
  - unfold modify. intros [= <- _]. eexists. split; [by apply find_update_server|]. done.
Qed.

(** The columns of a device that the node does not decide. *)
Definition core (d : Device.t) : Device.t := Device.set_apply "" None None None d.

(** The devices of before and the new one, whatever its status. *)
Definition with_new (ds : list Device.t) (dev : Device.t) (db : IssueDb.t) : Prop :=
  ∃ d, db.(IssueDb.devices) = ds ++ [d] ∧ core d = core dev.

Lemma core_fields d d' : core d = core d' →
  d.(Device.id) = d'.(Device.id) ∧ d.(Device.user_id) = d'.(Device.user_id) ∧
  d.(Device.subscription_id) = d'.(Device.subscription_id) ∧ d.(Device.server_id) = d'.(Device.server_id) ∧
  d.(Device.public_key) = d'.(Device.public_key) ∧ d.(Device.allowed_ips) = d'.(Device.allowed_ips) ∧
  d.(Device.preshared_key) = d'.(Device.preshared_key) ∧ d.(Device.revoked_at) = d'.(Device.revoked_at).
Proof. unfold core, Device.set_apply. intros E. by injection E. Qed.

Lemma update_fresh_device did f (ds : list Device.t) :
  did ∉ Device.id <$> ds → (λ d, if String.eqb d.(Device.id) did then f d else d) <$> ds = ds.
Proof.
  induction ds as [|d ds IH]; intros Hd; csimpl in *; [done|].
  apply not_elem_of_cons in Hd as [Hne Hd]. rewrite IH by done.
  by destruct (String.eqb_spec d.(Device.id) did).
Qed.

Lemma with_new_stable (ds : list Device.t) dev :
  dev.(Device.id) ∉ Device.id <$> ds → stable_status dev.(Device.id) (with_new ds dev).
Proof.
  intros Hd st at_ err un db (d & Hds & Hc). pose proof (core_fields _ _ Hc) as (Hid & _).
  eexists. unfold IssueDb.update_device, IssueDb.set_devices. simpl. rewrite Hds, fmap_app. csimpl.
  rewrite update_fresh_device by done. split; [reflexivity|]. rewrite Hid, String.eqb_refl.
  rewrite <- Hc. reflexivity.
Qed.

Lemma stable_status_servers did sid key : stable_status did (row_key sid key).
Proof. by intros st at_ err un db. Qed.

Lemma find_new_device (ds : list Device.t) dev db :
  dev.(Device.id) ∉ Device.id <$> ds → with_new ds dev db →
  ∃ d, IssueDb.find_device db dev.(Device.id) = Some d ∧ db.(IssueDb.devices) = ds ++ [d] ∧ core d = core dev.
Proof.
  intros Hd (d & Hds & Hc). exists d. split_and!; [|done|done].
  pose proof (core_fields _ _ Hc) as (Hid & _). unfold IssueDb.find_device. rewrite Hds. clear Hds.
  induction ds as [|x ds IH]; simpl.
  - by rewrite Hid, String.eqb_refl.
  - csimpl in Hd. apply not_elem_of_cons in Hd as [Hne Hd].
    destruct (String.eqb_spec x.(Device.id) dev.(Device.id)); [congruence|]. by apply IH.
Qed.

Lemma find_Some {A} (p : A → bool) l a : List.find p l = Some a → a ∈ l ∧ p a = true.
Proof. intros H. apply List.find_some in H as [H ?]. split; [by apply list_elem_of_In|done]. Qed.

(** ** Issuing a device *)

Section issuing.
Context {W : Type} `{NodeRuntimeAdapter W, NodeDirectory W}.
Context (settings : Settings) (with_adapter : bool) (hb : heartbeats) (now : Z).
Context (sha256_hex fernet_encrypt : string → string).
#[local] Abbreviation issue_device := (issue_device settings with_adapter hb now sha256_hex).
#[local] Abbreviation new_device := (new_device settings now sha256_hex).

(** Who may get a device. *)
Definition may_issue (db : IssueDb.t) (user_id : Z) (sub_id : string) : Prop :=
  (∃ u, u ∈ db.(IssueDb.users) ∧ u.(User.id) = user_id ∧ u.(User.is_banned) = false) ∧
  ∃ s, s ∈ db.(IssueDb.subscriptions) ∧ s.(Subscription.id) = sub_id ∧ s.(Subscription.user_id) = user_id ∧
    s.(Subscription.status) = "active" ∧ now < s.(Subscription.valid_until) ∧
    IssueDb.live_devices db sub_id < s.(Subscription.device_limit).

(** The end of a request that returned: what was read, stored and built. *)
Definition issued (db : IssueDb.t) (user_id : Z) (sub_id : string) (name : option string) (dr : Draws)
    (st' : W * IssueDb.t) (r : IssueResult) : Prop :=
  ∃ server key allowed_ips psk inputs st1,
    let sid := server.(Server.id) in
    let profile := IssueDb.first_profile db sid in
    let dev := new_device dr user_id sub_id sid name allowed_ips psk profile None None None in
    server ∈ db.(IssueDb.servers) ∧ server.(Server.is_active) = true ∧
    st1.2.(IssueDb.devices) = db.(IssueDb.devices) ++ [dev] ∧ row_key sid key st1.2 ∧
    (∃ a, allocate_address_for_device db.(IssueDb.devices) (Some (params_of profile)) = Ok (a, allowed_ips)) ∧
    create_peer settings with_adapter now sid dr allowed_ips psk st1 = (st', Ok r.(ir_peer_created)) ∧
    build_all_configs (config_args key dr.(dr_private_key) allowed_ips (disable_ipv6 profile) inputs) =
      Ok (r.(ir_config_awg), r.(ir_config_wg_obf), r.(ir_config_wg)) ∧
    inputs.(ci_preshared_key) = psk ∧ r.(ir_private_key) = dr.(dr_private_key) ∧
    r.(ir_device) = default dev (IssueDb.find_device st'.2 dr.(dr_device_id)).

Lemma allocate_Ok params (st st' : W * IssueDb.t) ips :
  allocate params st = (st', Ok ips) →
  st' = st ∧ ∃ a, allocate_address_for_device st.2.(IssueDb.devices) (Some params) = Ok (a, ips).
Proof.
  unfold allocate. intros Hm. mstep Hm Hg. unfold get_rows in Hg. simplify_eq. mstep Hm Hl.
  apply lift_Ok in Hl as [Hl ->]. unfold mret, M_ret in Hm. simplify_eq. split; [done|].
  destruct a as [a b]. by exists a.
Qed.

Lemma check_limit_Ok sub sub_id (st st' : W * IssueDb.t) u :
  check_limit sub sub_id st = (st', Ok u) →
  st' = st ∧ IssueDb.live_devices st.2 sub_id < sub.(Subscription.device_limit).
Proof.
  unfold check_limit. intros Hm. mstep Hm Hg. unfold get_rows in Hg. simplify_eq.
  apply raise_unless_Ok in Hm as [Hlt ->]. apply Z.ltb_lt in Hlt. by split.
Qed.

(** The steps before the device is stored change neither the devices nor the key
    of the server. *)
Lemma server_steps sid server key params e (st st1 st1' st2 st3 : W * IssueDb.t) u e' o :
  IssueDb.find_server st.2 sid = Some server →
  note_key sid server key st = (st1, Ok u) → st1'.2 = st1.2 →
  choose_endpoint settings with_adapter sid e st1' = (st2, Ok e') →
  obfuscation_for settings with_adapter sid server params st2 = (st3, Ok o) →
  st3.2.(IssueDb.devices) = st.2.(IssueDb.devices) ∧ row_key sid key st3.2.
Proof.
  intros Hs Hnote E1 Hep Hobf. set (ds := st.2.(IssueDb.devices)).
  assert (stable_servers (λ db, db.(IssueDb.devices) = ds)) as Hst by (by intros ? ? ? Hdb). split.
  - eapply (preserves_use (λ db, db.(IssueDb.devices) = ds)); [|exact Hobf|]; [auto with frame|].
    eapply (preserves_use (λ db, db.(IssueDb.devices) = ds)); [|exact Hep|rewrite E1]; [auto with frame|].
    eapply (preserves_use (λ db, db.(IssueDb.devices) = ds)); [|exact Hnote|]; [auto with frame|done].
  - pose proof (row_key_stable sid key). eapply (preserves_use (row_key sid key)); [|exact Hobf|]; [auto with frame|].
    eapply (preserves_use (row_key sid key)); [|exact Hep|rewrite E1]; [auto with frame|].
    by eapply note_key_row.
Qed.

Lemma insert_Ok d (st st' : W * IssueDb.t) u :
  insert_device d st = (st', Ok u) →
  st'.2 = IssueDb.add_profile_issue d.(Device.id) (IssueDb.set_devices (λ ds, ds ++ [d]) st.2).
Proof. unfold insert_device, mbind, M_bind, modify. simpl. by intros [= <- _]. Qed.

Lemma issue_device_inv user_id sub_id server_id name topology dr st st' r :
  issue_device user_id sub_id server_id name topology dr st = (st', Ok r) →
  may_issue st.2 user_id sub_id ∧ issued st.2 user_id sub_id name dr st' r.
Proof.
  unfold issue_device. intros Hm. mstep Hm Hg. unfold get_rows in Hg. simplify_eq.
  mstep Hm Hu. apply some_or_Ok in Hu as [[Hu Hue]%find_Some ->].
  mstep Hm Hb. apply raise_unless_Ok in Hb as [Hb ->].
  mstep Hm Hsub. apply some_or_Ok in Hsub as [[Hsub Hse]%find_Some ->].
  mstep Hm Hlim. mstep Hm Hsid. mstep Hm Hsrv. apply some_or_Ok in Hsrv as [Hsrv ->].
  mstep Hm Hact. apply raise_unless_Ok in Hact as [Hact ->].
  mstep Hm Hkey. mstep Hm Hnote. mstep Hm Hep. mstep Hm Hobf.
  mstep Hm Hdns. apply lift_Ok in Hdns as [_ ->].
  mstep Hm Hpub. apply lift_Ok in Hpub as [_ ->].
  mstep Hm Hall. apply allocate_Ok in Hall as [-> Hall].
  mstep Hm Hins. mstep Hm Hcp. mstep Hm Hcfg. apply lift_Ok in Hcfg as [Hcfg ->].
  destruct a15 as [[awg wg_obf] wg]. mstep Hm Hre. unfold reload in Hre. mstep Hre Hg. unfold get_rows in Hg.
  unfold mret, M_ret in Hre, Hm. simplify_eq.
  apply check_limit_Ok in Hlim as [-> Hlim].
  assert (st1.2 = st0.2) as E1 by (eapply (preserves_use (λ db, db = st0.2)); [|exact Hsid|done]; auto with frame).
  assert (st2.2 = st0.2) as E2.
  { eapply (preserves_use (λ db, db = st0.2)); [|exact Hkey|done]. case_match; auto with frame. }
  edestruct server_steps as [Hds Hrow]; [|exact Hnote|reflexivity|exact Hep|exact Hobf|]; [by rewrite E2|].
  apply find_Some in Hsrv as [Hin Hid]. bools. subst a3.
  split; [split; [eexists; split_and!; [exact Hu|done|done]|eexists; split_and!; [exact Hsub|done..|lia|exact Hlim]]|].
  apply insert_Ok in Hins. do 6 eexists. split_and!; [exact Hin|done| | | |exact Hcp|exact Hcfg|done|done|done].
  - rewrite Hins. simpl. by rewrite Hds, E2.
  - destruct Hrow as (s & Hs & Hk). exists s. split; [|done]. rewrite Hins. exact Hs.
  - rewrite Hds, E2 in Hall. exact Hall.
Qed.

(** The stored device is the new one, as the node left it. *)
Lemma issued_device db user_id sub_id name dr st' r :
  dr.(dr_device_id) ∉ Device.id <$> db.(IssueDb.devices) →
  issued db user_id sub_id name dr st' r →
  ∃ server key allowed_ips psk inputs,
    let sid := server.(Server.id) in
    let profile := IssueDb.first_profile db sid in
    let dev := new_device dr user_id sub_id sid name allowed_ips psk profile None None None in
    server ∈ db.(IssueDb.servers) ∧ server.(Server.is_active) = true ∧ row_key sid key st'.2 ∧
    st'.2.(IssueDb.devices) = db.(IssueDb.devices) ++ [r.(ir_device)] ∧ core r.(ir_device) = core dev ∧
    (∃ a, allocate_address_for_device db.(IssueDb.devices) (Some (params_of profile)) = Ok (a, allowed_ips)) ∧
    build_all_configs (config_args key dr.(dr_private_key) allowed_ips (disable_ipv6 profile) inputs) =
      Ok (r.(ir_config_awg), r.(ir_config_wg_obf), r.(ir_config_wg)) ∧ inputs.(ci_preshared_key) = psk ∧
    ∃ st1, create_peer settings with_adapter now sid dr allowed_ips psk st1 = (st', Ok r.(ir_peer_created)).
Proof.
  intros Hfresh (server & key & ips & psk & inputs & st1 & Hin & Hact & Hds & Hkey & Hall & Hcp & Hcfg & Hpsk & _ & Hr).
  exists server, key, ips, psk, inputs. cbv zeta in *.
  set (dev := new_device _ _ _ _ _ _ _ _ _ _ _) in *.
  assert (with_new db.(IssueDb.devices) dev st'.2) as Hnew.
  { eapply (preserves_use (with_new db.(IssueDb.devices) dev)); [|exact Hcp|by exists dev].
    apply create_peer_keeps. apply (with_new_stable db.(IssueDb.devices) dev Hfresh). }
  destruct (find_new_device _ dev _ Hfresh Hnew) as (d & Hd & Hds' & Hc).
  change (Device.id dev) with dr.(dr_device_id) in Hd. rewrite Hd in Hr. simpl in Hr. rewrite Hr.
  split_and!; try done; [|by exists st1].
  eapply (preserves_use (row_key server.(Server.id) key)); [|exact Hcp|exact Hkey].
  apply create_peer_keeps, stable_status_servers.
Qed.
End issuing.


(** ** A server with a reachable node *)

Definition wit_key (c : ascii) : string := of_chars (replicate 43 c ++ ["="%char]).

Definition wit_node : NodeMetadata :=
  mkNode "s1" "awg" "awg0" (wit_key "S") 51820 "8.8.8.8" 0 None 0 0 "healthy" [] f1 100 false None.

(** The node reports itself and its header values. *)
#[export] Instance steady_directory : NodeDirectory steady := {
  get_node_for_sync := None;
  discover_nodes w := (w, Ok [wit_node]);
  get_obfuscation_from_node _ w := (w, Ok (Some [("H1", VInt 11); ("H2", VInt 12); ("H3", VInt 13); ("H4", VInt 14)]));
  ensure_reply_routes := None
}.

#[export] Instance steady_directory_laws : NodeDirectoryLaws steady steady_peers.
Proof. by split. Qed.

Definition wit_issue_db : IssueDb.t :=
  IssueDb.mk [User.mk 7 700 false] []
    [Subscription.mk "sub" 7 "p1" 0 (days 30) 2 "active" false None None None None None 0]
    [Device.test "d0" "s1" "k0" "10.8.1.2/32"] [Server.test "s1" true] [] [] [] [] [].

Definition wit_draws : Draws := mkDraws "d1" (wit_key "P") (wit_key "Q") (wit_key "R") ("t1", "t2", "t3").

Definition wit_issue : (steady * IssueDb.t) * res IssueResult :=
  issue_device (with_node_mode "real" default_settings) true (Held []) 0 (λ s, s) 7 "sub" (Some "s1") (Some "phone") None wit_draws
    (mkSteady ∅, wit_issue_db).

Definition eval_result {A B} (m : A * res B) : option B := match m.2 with Ok b => Some b | Err _ => None end.


(** A server that discovery does not know: its key is in its row, and it has no
    endpoint. *)
Definition wit_issue_db2 : IssueDb.t :=
  IssueDb.mk [User.mk 7 700 false] []
    [Subscription.mk "sub" 7 "p1" 0 (days 30) 2 "active" false None None None None None 0]
    [Device.test "d0" "s2" "k0" "10.8.1.2/32"] [Server.set_key (wit_key "S") (Server.test "s2" true)] [] [] [] [] [].

Definition wit_nodes2 : steady := mkSteady {[ "s2" := {[ "k0" := "10.8.1.2/32" ]} ]}.

(** The peer is added before the configurations are built: when these fail, the
    request leaves a peer that no row describes. *)
Example issue_failure_leaves_peer :
  let out := transaction (issue_device (with_node_mode "real" default_settings) true (Held []) 0 (λ s, s) 7 "sub"
                            (Some "s2") None None wit_draws) (wit_nodes2, wit_issue_db2) in
  is_ok out.2 = false ∧ out.1.2 = wit_issue_db2 ∧
  steady_peers out.1.1 "s2" !! wit_key "Q" = Some "10.8.1.3/32".
Proof. vm_compute. repeat split. Qed.
