(* ===== verification/AdminIssue.v ===== *)
(** * Devices issued by an administrator ([services/admin_issue_service.py])

    A peer on a chosen server with its download tokens, in two phases, rows first
    and node second; the rotation of the keys of a device.  The steps shared with
    [issue_device] are in [Issue]. *)

From S2P Require Import Prelude PyStr PyVal Settings Models Node Runtime ConfigBuilder AmneziaConfig LiveKey Redaction AwgConf Issue.
Open Scope Z_scope.

Section admin.
Context {W : Type} `{NodeRuntimeAdapter W, NodeDirectory W}.
Context (settings : Settings) (with_adapter : bool) (hb : heartbeats) (now : Z).
Context (sha256_hex fernet_encrypt : string → string).
#[local] Abbreviation fetch_key := (fetch_key settings with_adapter hb now).
#[local] Abbreviation choose_endpoint := (choose_endpoint settings with_adapter).
#[local] Abbreviation obfuscation_for := (obfuscation_for settings with_adapter).
#[local] Abbreviation set_applied := (set_applied now).
#[local] Abbreviation new_device := (new_device settings now sha256_hex).
#[local] Abbreviation _config_hash := (_config_hash sha256_hex).
#[local] Abbreviation persist_issued_configs_with_tokens :=
  (persist_issued_configs_with_tokens now sha256_hex fernet_encrypt).

(** *** [admin_issue_peer] *)

Definition SYSTEM_TG_ID : Z := 0.
Definition DOWNLOAD_TOKEN_TTL_DAYS : Z := 1.

Definition one_row {A} (l : list A) : res (option A) :=
  match l with
  | [] => Ok None
  | [a] => Ok (Some a)
  | _ => Err (RuntimeError "Multiple rows were found when one or none was required")
  end.

(** The subscription of the seeded operator, for a peer without a user. *)
Definition _resolve_system_user_sub : M W (Z * string) :=
  let missing := ValueError "system_operator_not_seeded" in
  db ← get_rows;
  user ← lift (one_row (filterb (λ u, u.(User.tg_id) =? SYSTEM_TG_ID) db.(IssueDb.users)));
  user ← some_or user missing;
  plan ← lift (one_row (filterb (λ p, String.eqb p.(Plan.name) "operator") db.(IssueDb.plans)));
  plan ← some_or plan missing;
  sub ← some_or (List.find (λ s, (s.(Subscription.user_id) =? user.(User.id)) &&
                                 String.eqb s.(Subscription.plan_id) plan.(Plan.id) &&
                                 String.eqb s.(Subscription.status) "active" &&
                                 (now <? s.(Subscription.valid_until))) db.(IssueDb.subscriptions)) missing;
  mret (user.(User.id), sub.(Subscription.id)).

Definition resolve_subscription (user_id : option Z) (sub_id : option string) : M W (Z * string * Subscription.t) :=
  db ← get_rows;
  match user_id, sub_id with
  | Some uid, Some sid =>
      sub ← some_or (IssueDb.active_subscription db now uid sid) (ValueError "subscription_invalid");
      mret (uid, sid, sub)
  | _, _ =>
      us ← _resolve_system_user_sub;
      sub ← some_or (List.find (λ s, String.eqb s.(Subscription.id) us.2) db.(IssueDb.subscriptions))
              (ValueError "system_operator_not_seeded");
      mret (us.1, us.2, sub)
  end.

Record ConfigEntry : Type := mkEntry { download_url : string; qr_payload : string }.

Record AdminIssueResult : Type := mkAdminResult {
  ar_device : Device.t;
  ar_awg : ConfigEntry;
  ar_wg_obf : ConfigEntry;
  ar_wg : ConfigEntry;
  ar_peer_created : bool
}.

(** The text is never blank, so that every profile has its token. *)
Definition entry (base : string) (tokens : list (string * string)) (profile_type config : string) : ConfigEntry :=
  mkEntry (rstrip_with (Ascii.eqb "/") base +:+ "/" +:+ default "" (dget profile_type tokens) +:+ "/download") config.

Definition protocol_of (obfuscation : pydict) : string :=
  if bool_decide (_select_awg_profile (Some obfuscation) = awg_2_0_asc) then "awg_20" else "awg_legacy".

(** [json.dumps({... if v is not None}, sort_keys=True)], before it is printed. *)
Definition obfuscation_json (obfuscation : pydict) : option pydict :=
  match obfuscation with
  | [] => None
  | _ => Some (sorted_by (λ a b, str_ltb a.1 b.1) (filterb (λ kv, negb (bool_decide (kv.2 = VNone))) obfuscation))
  end.

Definition download_expiry (expires_in_days : option Z) : res Z :=
  let d := oint_or0 expires_in_days in
  add_days now (if d =? 0 then DOWNLOAD_TOKEN_TTL_DAYS else d).

Record AdminArgs : Type := mkAdminArgs {
  aa_user_id : option Z;
  aa_subscription_id : option string;
  aa_device_name : option string;
  aa_expires_in_days : option Z;
  aa_client_endpoint : option string;
  aa_issued_by : option string
}.

Definition check_adapter (command : string) : M W unit :=
  raise_unless (negb (is_real settings && negb with_adapter))
    (WireGuardCommandError
       ("Runtime adapter required for " +:+ command +:+
        " when NODE_MODE=real; peer would not be applied on node.") command "node_runtime_adapter is None").

(** A given endpoint goes before those of the row and the profile. *)
Definition given_endpoint (client_endpoint : option string) (server : Server.t) (params : pydict) : pyval :=
  let e := strip (default "" client_endpoint) in
  if str_truthy e then VStr e else configured_endpoint server params.

(** Phase A: everything in the database. *)
Definition admin_issue_rows (sid : string) (a : AdminArgs) (dr : Draws)
    : M W (Device.t * list (string * string) * (string * string * string)) :=
  db ← get_rows;
  server ← some_or (IssueDb.find_server db sid) (ValueError "server_not_available");
  _ ← raise_unless server.(Server.is_active) (ValueError "server_not_available");
  _ ← raise_unless (negb server.(Server.is_draining)) (ValueError "server_draining");
  key ← fetch_key sid server;
  _ ← note_key sid server key;
  _ ← check_adapter "issue";
  owner ← resolve_subscription a.(aa_user_id) a.(aa_subscription_id);
  let '(user_id, sub_id, sub) := owner in
  _ ← check_limit sub sub_id;
  let profile := IssueDb.first_profile db sid in
  let params := params_of profile in
  endpoint ← choose_endpoint sid (given_endpoint a.(aa_client_endpoint) server params);
  dns ← lift (dns_of params);
  obfuscation ← obfuscation_for sid server params;
  let psk := preshared_key_of params server dr.(dr_preshared_key) in
  endpoint ← lift (public_endpoint settings endpoint);
  allowed_ips ← allocate params;
  let inputs := mkInputs endpoint obfuscation dns (mtu_of profile params) (client_keepalive_of params) psk in
  configs ← lift (build_all_configs (config_args key dr.(dr_private_key) allowed_ips (disable_ipv6 profile) inputs));
  let '(awg, wg_obf, wg) := configs in
  let awg := sanitize_awg_conf (sanitize_awg_conf awg) in
  let dev := new_device dr user_id sub_id sid a.(aa_device_name) allowed_ips psk profile a.(aa_issued_by)
               (Some (protocol_of obfuscation)) (obfuscation_json obfuscation) in
  _ ← insert_device dev;
  expires ← lift (download_expiry a.(aa_expires_in_days));
  tokens ← persist_issued_configs_with_tokens dr.(dr_device_id) sid awg wg_obf wg a.(aa_issued_by) (Some expires)
             false dr.(dr_tokens);
  mret (dev, tokens, (awg, wg_obf, wg)).

(** Phase B: the peer on the node. *)
Definition admin_apply (sid : string) (dr : Draws) (allowed_ips : string) (preshared_key : option string) : M W unit :=
  _ ← set_status dr.(dr_device_id) "APPLYING";
  _ ← _ensure_device_peer_on_node sid dr.(dr_public_key) allowed_ips preshared_key;
  _ ← verify_peer sid dr.(dr_public_key) (peer_missing dr.(dr_public_key));
  set_applied dr.(dr_device_id).

Definition admin_issue_peer (sid : string) (a : AdminArgs) (base : string) (dr : Draws) : M W AdminIssueResult :=
  rows ← transaction (admin_issue_rows sid a dr);
  let '(dev, tokens, (awg, wg_obf, wg)) := rows in
  peer_created ←
    (if is_real settings && with_adapter then
       r ← attempt (admin_apply sid dr (default "" dev.(Device.allowed_ips)) dev.(Device.preshared_key));
       match r with
       | Ok _ => mret true
       | Err e =>
           let error := redact_for_log (exn_str e) in
           _ ← set_failed dr.(dr_device_id) "ERROR" (str_take 1024 error);
           raise (WireGuardCommandError "Node peer creation failed" "wg set" error)
       end
     else mret false);
  dev ← reload dr.(dr_device_id) dev;
  mret (mkAdminResult dev (entry base tokens "awg" awg) (entry base tokens "wg_obf" wg_obf)
          (entry base tokens "wg" wg) peer_created).

(** *** [admin_rotate_peer] *)

Definition live_device (db : IssueDb.t) (sid did : string) : option Device.t :=
  List.find (λ d, String.eqb d.(Device.id) did && String.eqb d.(Device.server_id) sid &&
                  is_none d.(Device.revoked_at)) db.(IssueDb.devices).

Definition set_device_keys (did pk : string) (allowed_ips hash psk : option string) : M W unit :=
  modify (IssueDb.update_device did (Device.set_keys pk allowed_ips hash psk)).

Definition rotate_on_node (sid : string) (dr : Draws) (allowed_ips preshared_key : string) : M W unit :=
  _ ← on_nodes (add_peer sid (mkPeerConfig dr.(dr_public_key) (Some allowed_ips) (Some preshared_key) server_keepalive));
  verify_peer sid dr.(dr_public_key)
    (WireGuardCommandError "Node peer creation verification failed after rotate (peer missing after add)" "wg show"
       (str_take 64 dr.(dr_public_key))).

(** The new peer; when it fails the row gets its old keys back and the request
    ends. *)
Definition rotate_peer (sid : string) (old : Device.t) (dr : Draws) (allowed_ips preshared_key : string) : M W unit :=
  if is_real settings && with_adapter then
    r ← attempt (rotate_on_node sid dr allowed_ips preshared_key);
    match r with
    | Err e =>
        _ ← set_device_keys old.(Device.id) old.(Device.public_key) (Some allowed_ips)
              (Some (str_take 64 (sha256_hex (old.(Device.public_key) +:+ ":")))) old.(Device.preshared_key);
        raise (WireGuardCommandError "Node peer add failed after rotate" "wg set" (redact_for_log (exn_str e)))
    | Ok _ =>
        _ ← _ensure_device_peer_on_node sid dr.(dr_public_key) allowed_ips (Some preshared_key);
        set_applied old.(Device.id)
    end
  else mret tt.

Definition old_address (d : Device.t) (params : pydict) : M W string :=
  match d.(Device.allowed_ips) with
  | Some a => if str_truthy a then mret a else allocate params
  | None => allocate params
  end.

Definition admin_rotate_peer (sid did : string) (expires_in_days : option Z) (issued_by : option string)
    (base : string) (dr : Draws) : M W (ConfigEntry * ConfigEntry * ConfigEntry) :=
  db ← get_rows;
  device ← some_or (live_device db sid did) (ValueError "peer_not_found");
  server ← some_or (IssueDb.find_server db sid) (ValueError "server_not_available");
  key ← fetch_key sid server;
  _ ← note_key sid server key;
  _ ← raise_unless (negb server.(Server.is_draining)) (ValueError "server_draining");
  _ ← check_adapter "reissue";
  let profile := IssueDb.first_profile db sid in
  let params := params_of profile in
  endpoint ← choose_endpoint sid (configured_endpoint server params);
  dns ← lift (dns_of params);
  _ ← (if is_real settings && with_adapter
       then attempt (on_nodes (remove_peer sid device.(Device.public_key))) else mret (Ok tt));
  obfuscation ← obfuscation_for sid server params;
  let psk := preshared_key_of params server dr.(dr_preshared_key) in
  endpoint ← lift (public_endpoint settings endpoint);
  allowed_ips ← old_address device params;
  let inputs := mkInputs endpoint obfuscation dns (mtu_of profile params) (client_keepalive_of params) psk in
  configs ← lift (build_all_configs (config_args key dr.(dr_private_key) allowed_ips false inputs));
  let '(awg, wg_obf, wg) := configs in
  _ ← set_device_keys did dr.(dr_public_key) (Some allowed_ips)
        (Some (_config_hash dr.(dr_public_key) dr.(dr_public_key))) (Some psk);
  _ ← rotate_peer sid device dr allowed_ips psk;
  expires ← lift (download_expiry expires_in_days);
  tokens ← persist_issued_configs_with_tokens did sid awg wg_obf wg issued_by (Some expires) true dr.(dr_tokens);
  mret (entry base tokens "awg" awg, entry base tokens "wg_obf" wg_obf, entry base tokens "wg" wg).

Definition reissue_config_for_device (did : string) (expires_in_days : option Z) (issued_by : option string)
    (base : string) (dr : Draws) : M W (ConfigEntry * ConfigEntry * ConfigEntry) :=
  db ← get_rows;
  device ← some_or (List.find (λ d, String.eqb d.(Device.id) did && is_none d.(Device.revoked_at))
                      db.(IssueDb.devices)) (ValueError "device_not_found");
  admin_rotate_peer device.(Device.server_id) device.(Device.id) expires_in_days issued_by base dr.
End admin.

(** A rotation removes the old peer first: when a later step fails, the row keeps
    the old key and the node has lost it. *)
Example rotate_failure_drops_peer :
  let out := transaction (admin_rotate_peer (with_node_mode "real" default_settings) true (Held []) 0 (λ s, s)
                            (λ s, s) "s2" "d0" None None "" wit_draws) (wit_nodes2, wit_issue_db2) in
  is_ok out.2 = false ∧ out.1.2 = wit_issue_db2 ∧ steady_peers out.1.1 "s2" !! "k0" = None.
Proof. vm_compute. repeat split. Qed.

(** ** The rows of phase A *)

Section proofs.
Context {W : Type} `{NodeRuntimeAdapter W, NodeDirectory W}.
Context (settings : Settings) (with_adapter : bool) (hb : heartbeats) (now : Z).
Context (sha256_hex fernet_encrypt : string → string).
#[local] Abbreviation admin_issue_rows :=
  (admin_issue_rows settings with_adapter hb now sha256_hex fernet_encrypt).
#[local] Abbreviation admin_issue_peer :=
  (admin_issue_peer settings with_adapter hb now sha256_hex fernet_encrypt).
#[local] Abbreviation admin_rotate_peer :=
  (admin_rotate_peer settings with_adapter hb now sha256_hex fernet_encrypt).
#[local] Abbreviation new_device := (new_device settings now sha256_hex).

Lemma admin_apply_keeps P sid dr ips psk :
  stable_status dr.(dr_device_id) P → preserves P (admin_apply now sid dr ips psk).
Proof. intros HP. unfold admin_apply. keep. Qed.

Lemma system_sub_keeps P : preserves P (_resolve_system_user_sub now : M W _).
Proof. unfold _resolve_system_user_sub. keep. Qed.

(** The subscription is a row of the table. *)
Lemma resolve_subscription_Ok user_id sub_id (st st' : W * IssueDb.t) uid sid sub :
  resolve_subscription now user_id sub_id st = (st', Ok (uid, sid, sub)) →
  st'.2 = st.2 ∧ sub ∈ st.2.(IssueDb.subscriptions) ∧ sub.(Subscription.id) = sid.
Proof.
  unfold resolve_subscription. intros Hm. mstep Hm Hg. unfold get_rows in Hg. simplify_eq.
  assert (∀ us (st1 : W * IssueDb.t),
    (sub ← some_or (List.find (λ s, String.eqb s.(Subscription.id) us.2) st0.2.(IssueDb.subscriptions))
              (ValueError "system_operator_not_seeded"); mret (us.1, us.2, sub) : M W (Z * string * Subscription.t)) st1
      = (st', Ok (uid, sid, sub)) →
    st'.2 = st1.2 ∧ sub ∈ st0.2.(IssueDb.subscriptions) ∧ sub.(Subscription.id) = sid) as Hsys.
  { intros us st1 Hs. mstep Hs Hf. apply some_or_Ok in Hf as [[Hf He]%find_Some ->].
    unfold mret, M_ret in Hs. simplify_eq. apply String.eqb_eq in He. done. }
  destruct user_id as [u|]; [destruct sub_id as [s|]|].
  - mstep Hm Hf. apply some_or_Ok in Hf as [[Hf He]%find_Some ->].
    unfold mret, M_ret in Hm. simplify_eq. bools. done.
  - mstep Hm Hs. apply Hsys in Hm as (-> & ? & ?). split_and!; [|done|done].
    eapply (preserves_use (λ db, db = st0.2)); [apply system_sub_keeps|exact Hs|done].
  - mstep Hm Hs. apply Hsys in Hm as (-> & ? & ?). split_and!; [|done|done].
    eapply (preserves_use (λ db, db = st0.2)); [apply system_sub_keeps|exact Hs|done].
Qed.

Lemma note_key_frame sid server key (st st' : W * IssueDb.t) u :
  note_key sid server key st = (st', Ok u) →
  st'.2.(IssueDb.subscriptions) = st.2.(IssueDb.subscriptions) ∧ st'.2.(IssueDb.devices) = st.2.(IssueDb.devices).
Proof. unfold note_key, modify, mret, M_ret. case_match; by intros [= <- _]. Qed.

Lemma persist_Ok did sid awg wg_obf wg admin expires replace tokens (st st' : W * IssueDb.t) l :
  persist_issued_configs_with_tokens now sha256_hex fernet_encrypt did sid awg wg_obf wg admin expires replace tokens
    st = (st', Ok l) →
  let rows := zip (_iter_profile_configs awg wg_obf wg) [tokens.1.1; tokens.1.2; tokens.2] in
  st'.1 = st.1 ∧ l = (λ c, (c.1.1, c.2)) <$> rows ∧
  st'.2 = IssueDb.set_issued
    (λ old, (if replace : bool then filterb (λ c, negb (String.eqb c.(IssuedConfig.device_id) did)) old else old) ++
            (issued_row now sha256_hex fernet_encrypt did sid admin expires <$> rows)) st.2.
Proof.
  destruct tokens as [[t1 t2] t3]. unfold persist_issued_configs_with_tokens, mbind, M_bind, modify, mret, M_ret.
  destruct replace; simpl; by intros [= <- <-].
Qed.

(** What phase A stored. *)
Definition admin_stored (db : IssueDb.t) (sid : string) (a : AdminArgs) (dr : Draws) (st' : W * IssueDb.t)
    (dev : Device.t) (tokens : list (string * string)) (texts : string * string * string) : Prop :=
  ∃ server key user_id sub ips psk obf protocol inputs awg,
    let profile := IssueDb.first_profile db sid in
    server ∈ db.(IssueDb.servers) ∧ server.(Server.id) = sid ∧ server.(Server.is_active) = true ∧
    server.(Server.is_draining) = false ∧
    sub ∈ db.(IssueDb.subscriptions) ∧
    IssueDb.live_devices db sub.(Subscription.id) < sub.(Subscription.device_limit) ∧
    dev = new_device dr user_id sub.(Subscription.id) sid a.(aa_device_name) ips psk profile a.(aa_issued_by) protocol obf ∧
    st'.2.(IssueDb.devices) = db.(IssueDb.devices) ++ [dev] ∧ row_key sid key st'.2 ∧
    (∃ b, allocate_address_for_device db.(IssueDb.devices) (Some (params_of profile)) = Ok (b, ips)) ∧
    build_all_configs (config_args key dr.(dr_private_key) ips (disable_ipv6 profile) inputs) = Ok (awg, texts.1.2, texts.2) ∧
    texts.1.1 = sanitize_awg_conf (sanitize_awg_conf awg).

Lemma admin_rows_inv sid a dr (st st' : W * IssueDb.t) dev tokens texts :
  admin_issue_rows sid a dr st = (st', Ok (dev, tokens, texts)) →
  admin_stored st.2 sid a dr st' dev tokens texts.
Proof.
  unfold admin_issue_rows. intros Hm. mstep Hm Hg. unfold get_rows in Hg. simplify_eq.
  mstep_as Hm Hsrv server. apply some_or_Ok in Hsrv as [Hsrv ->].
  mstep Hm Hact. apply raise_unless_Ok in Hact as [Hact ->].
  mstep Hm Hdr. apply raise_unless_Ok in Hdr as [Hdr ->].
  mstep_as Hm Hkey key. mstep Hm Hnote. mstep Hm Had. apply raise_unless_Ok in Had as [_ ->].
  mstep_as Hm Hsub owner. destruct owner as [[user_id sub_id] sub].
  mstep Hm Hlim. mstep Hm Hep.
  mstep Hm Hdns. apply lift_Ok in Hdns as [_ ->]. mstep Hm Hobf.
  mstep Hm Hpub. apply lift_Ok in Hpub as [_ ->].
  mstep_as Hm Hall ips. apply allocate_Ok in Hall as [-> Hall].
  mstep_as Hm Hcfg cfg. apply lift_Ok in Hcfg as [Hcfg ->]. destruct cfg as [[awg wg_obf] wg].
  mstep Hm Hins. mstep Hm Hexp. apply lift_Ok in Hexp as [_ ->].
  mstep Hm Htok. unfold mret, M_ret in Hm. simplify_eq. apply persist_Ok in Htok as (_ & _ & Htok).
  apply resolve_subscription_Ok in Hsub as (E3 & Hsub & Hid). apply check_limit_Ok in Hlim as [-> Hlim].
  assert (st.2 = st0.2) as E1 by (eapply (preserves_use (λ db, db = st0.2)); [|exact Hkey|done]; auto with frame).
  edestruct server_steps as [Hds Hrow]; [|exact Hnote|exact E3|exact Hep|exact Hobf|]; [by rewrite E1|].
  apply note_key_frame in Hnote as [Hsubs Hdev]. rewrite E3 in Hlim.
  assert (IssueDb.live_devices st1.2 sub_id = IssueDb.live_devices st0.2 sub_id) as Hlive
    by (unfold IssueDb.live_devices; by rewrite Hdev, E1).
  apply insert_Ok in Hins. apply find_Some in Hsrv as [Hin Hsid]. apply String.eqb_eq in Hsid.
  subst sub_id. rewrite Hlive in Hlim. rewrite Hsubs, E1 in Hsub.
  do 10 eexists. split_and!; [exact Hin|exact Hsid|done|by apply negb_true_iff|exact Hsub|exact Hlim|reflexivity| | | |exact Hcfg|done].
  - rewrite Htok, Hins. simpl. by rewrite Hds, E1.
  - destruct Hrow as (s & Hs & Hk). exists s. split; [|done]. rewrite Htok, Hins. exact Hs.
  - rewrite Hds, E1 in Hall. exact Hall.
Qed.

(** A change of status of the new device. *)
Lemma update_new (ds : list Device.t) dev st at_ err un db :
  dev.(Device.id) ∉ Device.id <$> ds → with_new ds dev db →
  ∃ d, (IssueDb.update_device dev.(Device.id)
          (λ d, Device.set_apply st (at_ d) (err d) (un d) d) db).(IssueDb.devices) = ds ++ [d] ∧
    core d = core dev ∧ d.(Device.apply_status) = Some st ∧ ∃ d0, d.(Device.last_error) = err d0.
Proof.
  intros Hd (d & Hds & Hc). pose proof (core_fields _ _ Hc) as (Hid & _).
  exists (Device.set_apply st (at_ d) (err d) (un d) d).
  unfold IssueDb.update_device, IssueDb.set_devices. simpl. rewrite Hds, fmap_app. csimpl.
  rewrite update_fresh_device by done. rewrite Hid, String.eqb_refl.
  split_and!; [done|by rewrite <- Hc|done|by exists d].
Qed.

Context (peers_at : W → string → gmap string string) `{!NodeRuntimeLaws W peers_at, !NodeDirectoryLaws W peers_at}.

(** A peer that was verified is on the node. *)
Lemma verify_Ok sid pk e st st' u :
  verify_peer sid pk e st = (st', Ok u) →
  ∃ k v, peers_at st'.1 sid !! k = Some v ∧ strip k = pk.
Proof using Type*.
  unfold verify_peer. intros Hm. mstep_as Hm Hl rows. apply raise_unless_Ok in Hm as [Hp ->].
  apply existsb_exists in Hp as (p & Hin & Hpk%String.eqb_eq). apply list_elem_of_In in Hin.
  unfold on_nodes in Hl. destruct (list_peers sid st.1) as [w r] eqn:E. simplify_eq/=.
  pose proof (list_peers_ok _ _ _ _ E) as Hrows. rewrite (list_peers_pure _ _ _ _ E).
  eexists _, _. split; [apply Hrows; by exists p|done].
Qed.

Lemma admin_apply_Ok ds dev sid dr ips psk st st' :
  dev.(Device.id) ∉ Device.id <$> ds → dev.(Device.id) = dr.(dr_device_id) → with_new ds dev st.2 →
  admin_apply now sid dr ips psk st = (st', Ok tt) →
  (∃ k v, peers_at st'.1 sid !! k = Some v ∧ strip k = dr.(dr_public_key)) ∧
  ∃ d, st'.2.(IssueDb.devices) = ds ++ [d] ∧ core d = core dev ∧ d.(Device.apply_status) = Some "APPLIED" ∧
    d.(Device.last_error) = None.
Proof using Type*.
  intros Hd Hid Hnew Hm. unfold admin_apply in Hm. mstep Hm Hs. mstep Hm He. mstep Hm Hv.
  assert (with_new ds dev st2.2) as Hnew'.
  { pose proof (with_new_stable ds dev Hd) as Hst.
    eapply (preserves_use (with_new ds dev)); [|exact Hv|]; [auto with frame|].
    eapply (preserves_use (with_new ds dev)); [|exact He|]; [auto with frame|].
    eapply (preserves_use (with_new ds dev)); [|exact Hs|done]. apply set_status_keeps. by rewrite <- Hid. }
  unfold set_applied, modify in Hm. injection Hm as <-. simpl. split; [by eapply verify_Ok|].
  rewrite <- Hid.
  edestruct (update_new ds dev "APPLIED" (λ _, Some now) (λ _, None) Device.unstable_reason)
    as (d & Hds & Hc & Hst & _ & He'); [done|exact Hnew'|].
  by exists d.
Qed.

(** Phase B on the rows of phase A. *)
Definition phase_b_outcome (sid : string) (dr : Draws) (d : Device.t) (w1 : W) (st' : W * IssueDb.t)
    (r : res AdminIssueResult) : Prop :=
  match r with
  | Ok r =>
      r.(ar_device) = d ∧ r.(ar_peer_created) = is_real settings && with_adapter ∧
      if is_real settings && with_adapter
      then d.(Device.apply_status) = Some "APPLIED" ∧ d.(Device.last_error) = None ∧
           ∃ k v, peers_at st'.1 sid !! k = Some v ∧ strip k = dr.(dr_public_key)
      else st'.1 = w1 ∧ d.(Device.apply_status) = Some (if is_real settings then "CREATED" else "PENDING_APPLY")
  | Err e =>
      is_real settings && with_adapter = true ∧ d.(Device.apply_status) = Some "ERROR" ∧
      ∃ msg, d.(Device.last_error) = Some (str_take 1024 msg) ∧
        e = WireGuardCommandError "Node peer creation failed" "wg set" msg
  end.

Lemma phase_b sid a base dr (st st1 st' : W * IssueDb.t) dev tokens texts r :
  dr.(dr_device_id) ∉ Device.id <$> st.2.(IssueDb.devices) →
  admin_issue_rows sid a dr st = (st1, Ok (dev, tokens, texts)) →
  admin_issue_peer sid a base dr st = (st', r) →
  ∃ d, st'.2.(IssueDb.devices) = st.2.(IssueDb.devices) ++ [d] ∧ core d = core dev ∧
    st'.2.(IssueDb.issued) = st1.2.(IssueDb.issued) ∧ phase_b_outcome sid dr d st1.1 st' r.
Proof using Type*.
  intros Hd Hrows Hm. pose proof (admin_rows_inv _ _ _ _ _ _ _ _ Hrows) as
    (server & key & uid & sub & ips & psk & obf & protocol & inputs & awg & _ & _ & _ & _ & _ & _ & Hdev & Hds & _).
  assert (dev.(Device.id) = dr.(dr_device_id)) as Hid by (by rewrite Hdev). rewrite <- Hid in Hd.
  set (ds := st.2.(IssueDb.devices)) in *.
  assert (with_new ds dev st1.2) as Hnew by (by exists dev).
  unfold admin_issue_peer, mbind, M_bind, transaction in Hm. rewrite Hrows in Hm. destruct texts as [[t1 t2] t3].
  destruct (is_real settings && with_adapter) eqn:Hreal.
  - unfold attempt in Hm. set (ip := default "" (Device.allowed_ips dev)) in *.
    destruct (admin_apply now sid dr ip (Device.preshared_key dev) st1) as [st2 ra] eqn:Ha.
    assert (with_new ds dev st2.2) as Hnew2.
    { pose proof (with_new_stable ds dev Hd) as Hst. rewrite Hid in Hst.
      eapply (preserves_use (with_new ds dev)); [by apply admin_apply_keeps|exact Ha|done]. }
    assert (st2.2.(IssueDb.issued) = st1.2.(IssueDb.issued)) as Hiss.
    { eapply (preserves_use (λ db, db.(IssueDb.issued) = st1.2.(IssueDb.issued))); [|exact Ha|done].
      apply admin_apply_keeps. by intros ? ? ? ? ?. }
    destruct ra as [[]|e].
    + eapply admin_apply_Ok in Ha as [Hpeer (d & Hds2 & Hc & Hst & He)]; [|exact Hd|done|done].
      destruct (find_new_device ds dev st2.2 Hd Hnew2) as (d' & Hf & Hds2' & _).
      rewrite Hds2 in Hds2'. apply app_inv_head in Hds2' as [= <-].
      unfold reload, get_rows, mret, M_ret, mbind, M_bind in Hm. injection Hm as <- <-. simpl.
      exists d. do 3 (split; [done|]). unfold phase_b_outcome. rewrite Hreal. simpl.
      rewrite <- Hid, Hf. done.
    + unfold set_failed, modify, raise, mret in Hm. injection Hm as <- <-. simpl. rewrite <- Hid.
      edestruct (update_new ds dev "ERROR" Device.last_applied_at
                   (λ _, Some (str_take 1024 (redact_for_log (exn_str e)))) Device.unstable_reason)
        as (d & Hds3 & Hc & Hst & _ & He); [done|exact Hnew2|].
      exists d. do 3 (split; [done|]). by eauto.
  - unfold reload, get_rows, mret, M_ret, mbind, M_bind in Hm. injection Hm as <- <-. simpl.
    destruct (find_new_device ds dev st1.2 Hd Hnew) as (d & Hf & Hds2 & Hc).
    rewrite Hds in Hds2. apply app_inv_head in Hds2 as [= <-].
    exists dev. do 3 (split; [done|]). unfold phase_b_outcome. rewrite Hreal. simpl.
    rewrite <- Hid, Hf. by rewrite Hdev.
Qed.
End proofs.

(** C15: the two phases of an administrator's issue.  When the rows cannot be
    written nothing is stored.  Otherwise, whatever the node does, exactly one
    device is stored, with the address, the keys and the issued configurations of
    phase A, and its status says what happened: applied, with a peer of its key on
    the node; or in error, with the message the request fails with; or left for
    the agent, with the nodes untouched. *)
Theorem admin_issue_two_phases {W} `{NodeRuntimeAdapter W, NodeDirectory W}
    (peers_at : W → string → gmap string string) `{!NodeRuntimeLaws W peers_at, !NodeDirectoryLaws W peers_at}
    settings with_adapter hb now sha256_hex fernet_encrypt sid a base dr (w : W) db :
  dr.(dr_device_id) ∉ Device.id <$> db.(IssueDb.devices) →
  let '(st', r) := admin_issue_peer settings with_adapter hb now sha256_hex fernet_encrypt sid a base dr (w, db) in
  match admin_issue_rows settings with_adapter hb now sha256_hex fernet_encrypt sid a dr (w, db) with
  | (_, Err e) => st'.2 = db ∧ r = Err e
  | (st1, Ok (dev, tokens, texts)) =>
      admin_stored settings now sha256_hex db sid a dr st1 dev tokens texts ∧
      ∃ d, st'.2.(IssueDb.devices) = db.(IssueDb.devices) ++ [d] ∧ core d = core dev ∧
        st'.2.(IssueDb.issued) = st1.2.(IssueDb.issued) ∧
        phase_b_outcome settings with_adapter peers_at sid dr d st1.1 st' r
  end.
Proof.
  intros Hd. destruct (admin_issue_peer _ _ _ _ _ _ _ _ _ _ _) as [st' r] eqn:Hm.
  destruct (admin_issue_rows _ _ _ _ _ _ _ _ _ _) as [st1 [[[dev tokens] texts]|e]] eqn:Hrows.
  - split; [by apply admin_rows_inv in Hrows|]. exact (phase_b settings with_adapter hb now sha256_hex fernet_encrypt peers_at sid a base dr (w, db) st1 st' dev tokens
             texts r Hd Hrows Hm).
  - unfold admin_issue_peer, mbind, M_bind, transaction in Hm. rewrite Hrows in Hm. by injection Hm as <- <-.
Qed.

Definition wit_admin_args : AdminArgs := mkAdminArgs (Some 7) (Some "sub") (Some "laptop") None (Some "9.9.9.9:51820") (Some "root").

Definition wit_admin : (steady * IssueDb.t) * res AdminIssueResult :=
  admin_issue_peer (with_node_mode "real" default_settings) true (Held []) 0 (λ s, s) (λ s, s) "s1" wit_admin_args
    "https://vpn/configs/" wit_draws (mkSteady ∅, wit_issue_db).

Lemma admin_issue_two_phases_witness :
  (λ r, r.(ar_awg).(download_url)) <$> eval_result wit_admin = Some "https://vpn/configs/t1/download" ∧
  ∃ d, wit_admin.1.2.(IssueDb.devices) = wit_issue_db.(IssueDb.devices) ++ [d] ∧
    d.(Device.apply_status) = Some "APPLIED".
Proof.
  split; [vm_compute; reflexivity|].
  pose proof (admin_issue_two_phases steady_peers (with_node_mode "real" default_settings) true (Held []) 0
    (λ s, s) (λ s, s) "s1" wit_admin_args "https://vpn/configs/" wit_draws (mkSteady ∅) wit_issue_db) as Hw.
  assert (is_ok wit_admin.2 = true) as Hok by (vm_compute; reflexivity).
  change (admin_issue_peer _ _ _ _ _ _ _ _ _ _ _) with wit_admin in Hw.
  destruct wit_admin as [st' [r|e]] eqn:E; [|discriminate Hok].
  destruct (admin_issue_rows _ _ _ _ _ _ _ _ _ _) as [st1 [[[dev tokens] texts]|e]] eqn:Hrows.
  - destruct Hw as (_ & d & Hds & _ & _ & Hout); [intros Hin%list_elem_of_singleton; discriminate Hin|].
    exists d. split; [exact Hds|]. apply Hout.
  - destruct Hw as [_ Hw]; [intros Hin%list_elem_of_singleton; discriminate Hin|]. discriminate Hw.
Defined.

(** ** The limits of the subscriptions *)

(** The live devices of a subscription are within its limit. *)
Definition within_limits (db : IssueDb.t) : Prop :=
  ∀ s, s ∈ db.(IssueDb.subscriptions) →
    IssueDb.live_devices db s.(Subscription.id) ≤ Z.max 0 s.(Subscription.device_limit).

Lemma within_limits_ext db db' :
  db'.(IssueDb.subscriptions) = db.(IssueDb.subscriptions) →
  (∀ id, IssueDb.live_devices db' id = IssueDb.live_devices db id) → within_limits db → within_limits db'.
Proof. intros Hs Hl Hw s Hin. rewrite Hl. apply Hw. by rewrite <- Hs. Qed.

Lemma live_update did f db id :
  (∀ d, (f d).(Device.subscription_id) = d.(Device.subscription_id) ∧ (f d).(Device.revoked_at) = d.(Device.revoked_at)) →
  IssueDb.live_devices (IssueDb.update_device did f db) id = IssueDb.live_devices db id.
Proof.
  intros Hf. unfold IssueDb.live_devices, IssueDb.update_device. simpl.
  induction (IssueDb.devices db) as [|d l IH]; csimpl; [done|].
  rewrite !countZ_cons, IH. destruct (Hf d) as [H1 H2]. by destruct (String.eqb d.(Device.id) did); rewrite ?H1, ?H2.
Qed.

Lemma within_limits_status did : stable_status did within_limits.
Proof. intros st at_ err un db. apply within_limits_ext; [done|]. intros id. by apply live_update. Qed.

Lemma within_limits_servers : stable_servers within_limits.
Proof. by intros sid g db Hw. Qed.

(** One more device where one more is allowed. *)
Lemma within_limits_add db db' d sub :
  NoDup (Subscription.id <$> db.(IssueDb.subscriptions)) → within_limits db →
  db'.(IssueDb.subscriptions) = db.(IssueDb.subscriptions) →
  db'.(IssueDb.devices) = db.(IssueDb.devices) ++ [d] →
  sub ∈ db.(IssueDb.subscriptions) → d.(Device.subscription_id) = sub.(Subscription.id) →
  IssueDb.live_devices db sub.(Subscription.id) < sub.(Subscription.device_limit) → within_limits db'.
Proof.
  intros Hnd Hw Hs Hd Hsub Hid Hlt s Hin. rewrite Hs in Hin.
  assert (IssueDb.live_devices db' s.(Subscription.id) ≤
          IssueDb.live_devices db s.(Subscription.id) +
          if String.eqb d.(Device.subscription_id) s.(Subscription.id) then 1 else 0) as Hle.
  { unfold IssueDb.live_devices. rewrite Hd, countZ_app, countZ_cons, countZ_nil.
    destruct (String.eqb _ _), (is_none _); simpl; lia. }
  rewrite Hid in Hle. destruct (String.eqb_spec sub.(Subscription.id) s.(Subscription.id)) as [He|He].
  - assert (s = sub) as -> by (by eapply (NoDup_fmap_inj Subscription.id)). lia.
  - specialize (Hw s Hin). lia.
Qed.

Section limits.
Context {W : Type} `{NodeRuntimeAdapter W, NodeDirectory W}.
Context (settings : Settings) (with_adapter : bool) (hb : heartbeats) (now : Z).
Context (sha256_hex fernet_encrypt : string → string).

Section subscriptions.
Context (subs : list Subscription.t).
#[local] Abbreviation P := (λ db, db.(IssueDb.subscriptions) = subs).

Lemma subs_servers : stable_servers P.
Proof. by intros sid g db Hdb. Qed.
Lemma subs_status did : stable_status did P.
Proof. by intros st at_ err un db Hdb. Qed.
Lemma subs_insert d : preserves P (insert_device d : M W _).
Proof. unfold insert_device. keep; by apply preserves_modify. Qed.
Lemma subs_persist did sid awg wg_obf wg admin expires replace tokens :
  preserves P (persist_issued_configs_with_tokens now sha256_hex fernet_encrypt did sid awg wg_obf wg admin expires
                 replace tokens : M W _).
Proof. unfold persist_issued_configs_with_tokens. keep; by apply preserves_modify. Qed.
Lemma reload_keeps Q did d : preserves Q (reload did d : M W _).
Proof. unfold reload. keep. Qed.
Lemma resolve_keeps Q u s : preserves Q (resolve_subscription now u s : M W _).
Proof. pose proof (system_sub_keeps (W:=W) now Q). unfold resolve_subscription. keep. Qed.
#[local] Hint Resolve subs_servers subs_status subs_insert subs_persist reload_keeps resolve_keeps : frame.

Lemma issue_device_subs user_id sub_id server_id name topology dr :
  preserves P (issue_device settings with_adapter hb now sha256_hex user_id sub_id server_id name topology dr : M W _).
Proof. unfold issue_device. keep. Qed.

Lemma admin_rows_subs sid a dr :
  preserves P (admin_issue_rows settings with_adapter hb now sha256_hex fernet_encrypt sid a dr : M W _).
Proof. unfold admin_issue_rows, check_adapter. keep. Qed.
End subscriptions.

Lemma issue_device_limits user_id sub_id server_id name topology dr (w : W) db :
  NoDup (Subscription.id <$> db.(IssueDb.subscriptions)) → dr.(dr_device_id) ∉ Device.id <$> db.(IssueDb.devices) →
  within_limits db →
  within_limits (transaction (issue_device settings with_adapter hb now sha256_hex user_id sub_id server_id name
                                topology dr) (w, db)).1.2.
Proof.
  intros Hnd Hd Hw. unfold transaction. destruct (issue_device _ _ _ _ _ _ _ _ _ _ _ _) as [st' [r|e]] eqn:Hm; [|done].
  pose proof (issue_device_subs db.(IssueDb.subscriptions) user_id sub_id server_id name topology dr (w, db) eq_refl) as Hs.
  rewrite Hm in Hs. apply issue_device_inv in Hm as [[_ (s & Hin & Hid & _ & _ & _ & Hlt)] Hi].
  apply issued_device in Hi as (server & key & ips & psk & inputs & _ & _ & _ & Hds & Hc & _); [|done].
  pose proof (core_fields _ _ Hc) as (_ & _ & Hsub & _). simpl in *.
  eapply within_limits_add; [done|done|exact Hs|exact Hds|exact Hin|by rewrite Hid, Hsub|by rewrite Hid].
Qed.

Lemma admin_issue_limits sid a base dr (w : W) db :
  NoDup (Subscription.id <$> db.(IssueDb.subscriptions)) → within_limits db →
  within_limits (admin_issue_peer settings with_adapter hb now sha256_hex fernet_encrypt sid a base dr (w, db)).1.2.
Proof.
  intros Hnd Hw. unfold admin_issue_peer, mbind at 1, M_bind at 1, transaction.
  destruct (admin_issue_rows _ _ _ _ _ _ _ _ _ _) as [st1 [[[dev tokens] texts]|e]] eqn:Hrows; [|done].
  pose proof (admin_rows_subs db.(IssueDb.subscriptions) sid a dr (w, db) eq_refl) as Hs. rewrite Hrows in Hs.
  apply admin_rows_inv in Hrows as
    (server & key & uid & sub & ips & psk & obf & protocol & inputs & awg & _ & _ & _ & _ & Hin & Hlt & Hdev & Hds & _).
  assert (within_limits st1.2) as Hw1.
  { eapply within_limits_add; [done|done|exact Hs|exact Hds|exact Hin|by rewrite Hdev|exact Hlt]. }
  destruct texts as [[t1 t2] t3]. revert st1 Hs Hds Hw1.
  assert (∀ m : M W AdminIssueResult, preserves within_limits m →
    ∀ st1 : W * IssueDb.t, within_limits st1.2 → within_limits (m st1).1.2) as Hp by (intros m Hm st1; apply Hm).
  intros st1 _ _. apply Hp. pose proof (within_limits_status dr.(dr_device_id)).
  pose proof (λ i p, admin_apply_keeps (W:=W) now within_limits sid dr i p (within_limits_status dr.(dr_device_id))).
  pose proof (λ d, reload_keeps within_limits dr.(dr_device_id) d). keep.
Qed.

(** Keys and statuses do not count. *)
Lemma rotate_limits sid did expires admin base dr :
  preserves within_limits (admin_rotate_peer settings with_adapter hb now sha256_hex fernet_encrypt sid did expires
                             admin base dr : M W _).
Proof.
  pose proof within_limits_servers. pose proof within_limits_status.
  assert (∀ id pk i h p, preserves within_limits (set_device_keys id pk i h p : M W _)).
  { intros. apply preserves_modify. intros db. apply within_limits_ext; [done|]. intros. by apply live_update. }
  assert (∀ a b c d e f g h i, preserves within_limits
    (persist_issued_configs_with_tokens now sha256_hex fernet_encrypt a b c d e f g h i : M W _)).
  { intros. unfold persist_issued_configs_with_tokens. keep; by apply preserves_modify. }
  unfold admin_rotate_peer, check_adapter, rotate_peer, rotate_on_node, old_address. keep.
Qed.
End limits.

(** No flow goes over a limit.  If the live devices of every subscription
    are within its limit, they still are after a user's request, an
    administrator's issue and a rotation, committed or rolled back, whatever the
    nodes answer. *)
Theorem issuing_keeps_limits {W} `{NodeRuntimeAdapter W, NodeDirectory W} settings with_adapter hb now
    sha256_hex fernet_encrypt user_id sub_id server_id name topology sid a base did expires admin dr (w : W) db :
  NoDup (Subscription.id <$> db.(IssueDb.subscriptions)) → dr.(dr_device_id) ∉ Device.id <$> db.(IssueDb.devices) →
  within_limits db →
  within_limits (transaction (issue_device settings with_adapter hb now sha256_hex user_id sub_id server_id name
                                topology dr) (w, db)).1.2 ∧
  within_limits (admin_issue_peer settings with_adapter hb now sha256_hex fernet_encrypt sid a base dr (w, db)).1.2 ∧
  within_limits (transaction (admin_rotate_peer settings with_adapter hb now sha256_hex fernet_encrypt sid did expires
                                admin base dr) (w, db)).1.2.
Proof.
  intros Hnd Hd Hw. split; [by apply issue_device_limits|]. split; [by apply admin_issue_limits|].
  by apply (preserves_transaction within_limits _ (rotate_limits _ _ _ _ _ _ _ _ _ _ _ _)).
Qed.

(** The second device of a subscription of two is issued, a third is not. *)
Lemma issuing_keeps_limits_witness :
  within_limits wit_issue.1.2 ∧
  (issue_device default_settings true (Held []) 0 (λ s, s) 7 "sub" (Some "s1") None None
     (mkDraws "d2" (wit_key "P") (wit_key "Q") (wit_key "R") ("t1", "t2", "t3")) wit_issue.1).2
    = Err (ValueError "device_limit_exceeded").
Proof.
  split; [|vm_compute; reflexivity].
  assert (wit_issue.1.2 = (transaction (issue_device (with_node_mode "real" default_settings) true (Held []) 0
            (λ s, s) 7 "sub" (Some "s1") (Some "phone") None wit_draws) (mkSteady ∅, wit_issue_db)).1.2) as ->.
  { unfold transaction. change (issue_device _ _ _ _ _ _ _ _ _ _ _ _) with wit_issue.
    assert (is_ok wit_issue.2 = true) as Hok by (vm_compute; reflexivity).
    by destruct wit_issue as [? []]. }
  refine (proj1 (issuing_keeps_limits (with_node_mode "real" default_settings) true (Held []) 0 (λ s, s) (λ s, s) 7 "sub"
           (Some "s1") (Some "phone") None "s1" wit_admin_args "" "d0" None None wit_draws (mkSteady ∅) wit_issue_db _ _ _)).
  - apply NoDup_singleton.
  - intros Hin%list_elem_of_singleton. discriminate Hin.
  - intros s ->%list_elem_of_singleton. vm_compute. discriminate.
Defined.

(** ** Rotation *)

Section rotation.
Context {W : Type} `{NodeRuntimeAdapter W, NodeDirectory W}.
Context (peers_at : W → string → gmap string string) `{!NodeRuntimeLaws W peers_at, !NodeDirectoryLaws W peers_at}.
Context (settings : Settings) (with_adapter : bool) (hb : heartbeats) (now : Z).
Context (sha256_hex fernet_encrypt : string → string).

(** The rows of the devices after the rotation of one. *)
Definition rotated (did pk ips psk : string) (ds ds' : list Device.t) : Prop :=
  Forall2 (λ d d', if String.eqb d.(Device.id) did
                   then d'.(Device.id) = did ∧ d'.(Device.public_key) = pk ∧ d'.(Device.allowed_ips) = Some ips ∧
                        d'.(Device.preshared_key) = Some psk ∧ d'.(Device.revoked_at) = d.(Device.revoked_at)
                   else d' = d) ds ds'.

Lemma rotated_keys did pk ips hash psk (ds : list Device.t) :
  rotated did pk ips psk ds
    ((λ d, if String.eqb d.(Device.id) did then Device.set_keys pk (Some ips) hash (Some psk) d else d) <$> ds).
Proof.
  apply Forall2_fmap_r, Forall_Forall2_diag, Forall_forall. intros d _. unfold compose. simpl.
  destruct (String.eqb_spec d.(Device.id) did) as [He|He]; [by split_and!|done].
Qed.

Lemma rotated_status did pk ips psk ds :
  stable_status did (λ db, rotated did pk ips psk ds db.(IssueDb.devices)).
Proof.
  intros st at_ err un db Hr. unfold IssueDb.update_device, IssueDb.set_devices, rotated in *. simpl.
  apply Forall2_fmap_r. eapply Forall2_impl; [exact Hr|]. intros d d'. unfold compose. cbn beta.
  destruct (String.eqb_spec d.(Device.id) did) as [He|He].
  - intros (Hi & ?). by rewrite Hi, String.eqb_refl.
  - intros ->. by destruct (String.eqb_spec d.(Device.id) did).
Qed.

Lemma rotate_peer_Ok sid old dr ips psk ds (st st' : W * IssueDb.t) u :
  rotated old.(Device.id) dr.(dr_public_key) ips psk ds st.2.(IssueDb.devices) →
  rotate_peer settings with_adapter now sha256_hex sid old dr ips psk st = (st', Ok u) →
  rotated old.(Device.id) dr.(dr_public_key) ips psk ds st'.2.(IssueDb.devices) ∧
  st'.2.(IssueDb.issued) = st.2.(IssueDb.issued) ∧
  (is_real settings && with_adapter = true → peers_at st'.1 sid !! dr.(dr_public_key) = Some ips).
Proof using Type*.
  intros Hr. unfold rotate_peer. destruct (is_real settings && with_adapter) eqn:Hreal.
  2: { unfold mret, M_ret. by intros [= <- _]. }
  intros Hm. mstep_as Hm Ht r. destruct r as [[]|e]; [|by mstep Hm Hs].
  mstep Hm He. unfold attempt in Ht.
  destruct (rotate_on_node sid dr ips psk st) as [st2 [[]|e]] eqn:Hn; [|done]. injection Ht as <-.
  assert (st2.2 = st.2) as E2.
  { eapply (preserves_use (λ db, db = st.2)); [|exact Hn|done]. unfold rotate_on_node. keep. }
  assert (st1.2 = st.2) as E1.
  { eapply (preserves_use (λ db, db = st.2)); [|exact He|done]. auto with frame. }
  unfold rotate_on_node in Hn. mstep Hn Ha. apply (add_peer_step peers_at) in Ha. simpl in Ha.
  pose proof (verify_peers peers_at _ _ _ _ _ _ sid Hn) as Hv.
  apply (ensure_present peers_at _ _ ips) in He; [|unfold has_peer_at in *; by rewrite Hv].
  split; [|split].
  - eapply (preserves_use (λ db, rotated _ _ _ _ ds db.(IssueDb.devices))); [|exact Hm|by rewrite E1].
    apply set_applied_keeps, rotated_status.
  - unfold set_applied, modify in Hm. injection Hm as <- _. simpl. by rewrite E1.
  - intros _. by rewrite (modify_nodes _ _ _ _ Hm).
Qed.

Lemma old_address_Ok (d : Device.t) params (st st' : W * IssueDb.t) ips :
  old_address d params st = (st', Ok ips) → st' = st ∧ ∀ a, d.(Device.allowed_ips) = Some a → a ≠ "" → ips = a.
Proof.
  unfold old_address. destruct (Device.allowed_ips d) as [a|].
  - destruct (str_truthy a) eqn:Ha.
    + unfold mret, M_ret. intros [= <- <-]. split; [done|]. by intros ? [= ->].
    + apply str_truthy_false in Ha as ->. intros [-> _]%allocate_Ok. split; [done|]. by intros ? [= <-].
  - by intros [-> _]%allocate_Ok.
Qed.
End rotation.

(** Until the keys are stored only servers change. *)
Definition rotation_frame (db db' : IssueDb.t) : Prop :=
  db'.(IssueDb.devices) = db.(IssueDb.devices) ∧ db'.(IssueDb.issued) = db.(IssueDb.issued).

Lemma rotation_frame_servers db : stable_servers (rotation_frame db).
Proof. by intros sid g db'. Qed.

Create HintDb rotation discriminated.
#[export] Hint Resolve rotation_frame_servers preserves_attempt : rotation.

(** What a rotation that returns did.  The device of that server was live
    and is the only one whose row changed: it has the new keys, the pre-shared key
    of its new configurations, and the address it had; of the issued
    configurations only the other devices' were kept, so the old links are dead;
    and in [NODE_MODE=real] the new peer is on the node with that address. *)
Theorem admin_rotate_sound {W} `{NodeRuntimeAdapter W, NodeDirectory W} (peers_at : W → string → gmap string string)
    `{!NodeRuntimeLaws W peers_at, !NodeDirectoryLaws W peers_at} settings with_adapter hb now sha256_hex
    fernet_encrypt sid did expires_in_days admin base dr (w w' : W) db db' awg wg_obf wg :
  admin_rotate_peer settings with_adapter hb now sha256_hex fernet_encrypt sid did expires_in_days admin base dr
    (w, db) = ((w', db'), Ok (awg, wg_obf, wg)) →
  ∃ old key ips psk inputs expires,
    old ∈ db.(IssueDb.devices) ∧ old.(Device.id) = did ∧ old.(Device.server_id) = sid ∧
    old.(Device.revoked_at) = None ∧
    (∀ a, old.(Device.allowed_ips) = Some a → a ≠ "" → ips = a) ∧
    build_all_configs (config_args key dr.(dr_private_key) ips false inputs) =
      Ok (awg.(qr_payload), wg_obf.(qr_payload), wg.(qr_payload)) ∧ inputs.(ci_preshared_key) = psk ∧
    rotated did dr.(dr_public_key) ips psk db.(IssueDb.devices) db'.(IssueDb.devices) ∧
    db'.(IssueDb.issued) =
      filterb (λ c, negb (String.eqb c.(IssuedConfig.device_id) did)) db.(IssueDb.issued) ++
      (issued_row now sha256_hex fernet_encrypt did sid admin (Some expires) <$>
         zip (_iter_profile_configs awg.(qr_payload) wg_obf.(qr_payload) wg.(qr_payload))
           [dr.(dr_tokens).1.1; dr.(dr_tokens).1.2; dr.(dr_tokens).2]) ∧
    (is_real settings && with_adapter = true → peers_at w' sid !! dr.(dr_public_key) = Some ips).
Proof.
  unfold admin_rotate_peer. intros Hm. mstep Hm Hg. unfold get_rows in Hg. injection Hg as <- <-.
  mstep_as Hm Hd old. apply some_or_Ok in Hd as [[Hd He]%find_Some ->].
  mstep_as Hm Hsrv server. apply some_or_Ok in Hsrv as [Hsrv ->].
  mstep_as Hm Hkey key. mstep Hm Hnote. mstep Hm Hdr. apply raise_unless_Ok in Hdr as [_ ->].
  mstep Hm Had. apply raise_unless_Ok in Had as [_ ->].
  mstep Hm Hep. mstep Hm Hdns. apply lift_Ok in Hdns as [_ ->]. mstep Hm Hrm.
  mstep Hm Hobf. mstep Hm Hpub. apply lift_Ok in Hpub as [_ ->].
  mstep_as Hm Hip ips. apply old_address_Ok in Hip as [-> Hip].
  mstep_as Hm Hcfg cfg. apply lift_Ok in Hcfg as [Hcfg ->]. destruct cfg as [[t1 t2] t3].
  mstep Hm Hset. mstep Hm Hrot. mstep_as Hm Hexp expires. apply lift_Ok in Hexp as [_ ->].
  mstep Hm Htok. unfold mret, M_ret in Hm. injection Hm as -> <- <- <-. apply persist_Ok in Htok as (Hw & _ & Htok).
  assert (rotation_frame db st3.2) as [Hds Hiss].
  { eapply (preserves_use (rotation_frame db)); [|exact Hobf|]; [auto with frame rotation|].
    eapply (preserves_use (rotation_frame db)); [|exact Hrm|]; [case_match; auto with frame rotation|].
    eapply (preserves_use (rotation_frame db)); [|exact Hep|]; [auto with frame rotation|].
    eapply (preserves_use (rotation_frame db)); [|exact Hnote|]; [auto with frame rotation|].
    eapply (preserves_use (rotation_frame db)); [|exact Hkey|done]. auto with frame. }
  apply andb_prop in He as [[Hid%String.eqb_eq Hs%String.eqb_eq]%andb_prop Hrev%is_none_true]. subst did sid.
  unfold set_device_keys, modify in Hset. injection Hset as <- _.
  edestruct (rotate_peer_Ok peers_at) as (Hrows & Hiss5 & Hpeer); [|exact Hrot|].
  { simpl. rewrite Hds. apply rotated_keys. }
  simpl in *. subst w' db'. exists old, key, ips. do 3 eexists. split_and!; try done.
  simpl. by rewrite Hiss5, Hiss.
Qed.

Definition wit_rotate : (steady * IssueDb.t) * res (ConfigEntry * ConfigEntry * ConfigEntry) :=
  admin_rotate_peer (with_node_mode "real" default_settings) true (Held []) 0 (λ s, s) (λ s, s) "s1" "d0" None None ""
    wit_draws (mkSteady ∅, wit_issue_db).

Lemma admin_rotate_sound_witness :
  ∃ w' db' out, wit_rotate = ((w', db'), Ok out) ∧ length db'.(IssueDb.devices) = 1%nat ∧
    steady_peers w' "s1" !! wit_key "Q" = Some "10.8.1.2/32".
Proof.
  assert (is_ok wit_rotate.2 = true) as Hok by (vm_compute; reflexivity).
  destruct wit_rotate as [[w' db'] [[[awg wg_obf] wg]|e]] eqn:E; [|discriminate Hok].
  exists w', db', (awg, wg_obf, wg). split; [done|]. unfold wit_rotate in E.
  destruct (admin_rotate_sound steady_peers (with_node_mode "real" default_settings) true (Held []) 0 (λ s, s) (λ s, s)
    "s1" "d0" None None "" wit_draws (mkSteady ∅) w' wit_issue_db db' awg wg_obf wg E)
    as (old & key & ips & psk & inputs & expires & Hin & _ & _ & _ & Hips & _ & _ & Hrot & _ & Hp).
  apply list_elem_of_singleton in Hin as ->. split.
  - symmetry. by apply Forall2_length in Hrot.
  - rewrite (Hips "10.8.1.2/32" eq_refl) in Hp by discriminate. apply Hp. reflexivity.
Defined.
