(* ===== verification/Limits.v ===== *)
(** * Traffic limits ([services/limits_check_service.py]) *)

From S2P Require Import Prelude PyFloat PyStr PyVal Settings Models Node ControlPlaneDb Runtime Migration Reconciliation AgentRuntime.
Open Scope Z_scope.

(** The audit entry of an automatic block. *)
Record BlockAudit : Type := mkBlock {
  ba_device_id : string;
  ba_server_id : string;
  ba_traffic_bytes : Z;
  ba_limit_gb : float;
  ba_node_accepted : bool
}.

(** [Server.traffic_limit_gb > 0] *)
Definition limited (s : Server.t) : bool :=
  s.(Server.is_active) && match s.(Server.traffic_limit_gb) with Some g => fgt g f0 | None => false end.

(** [int(limit * 1e9)] *)
Definition limit_bytes (gb : float) : res Z := trunc (fmul gb (of_Z 1000000000)).

(** The traffic of each peer the node lists. *)
Definition traffic_by_key (peers : list RuntimePeer) : list (string * Z) :=
  dict_of ((λ p, (p.(rp_public_key), oint_or0 p.(rp_transfer_rx) + oint_or0 p.(rp_transfer_tx))) <$>
    filterb (λ p, str_truthy p.(rp_public_key)) peers).

Section limits.
Context {W : Type} `{NodeRuntimeAdapter W}.
Implicit Types (w : W).

Definition check_device (server_id : string) (gb : float) (limit : Z) (traffic : list (string * Z))
    (st : W * list BlockAudit) (d : Device.t) : W * list BlockAudit :=
  let '(w, audits) := st in
  match dget d.(Device.public_key) traffic with
  | None => (w, audits)
  | Some tb =>
      if tb <=? limit then (w, audits)
      else
        let '(w, r) := remove_peer server_id d.(Device.public_key) w in
        (w, audits ++ [mkBlock d.(Device.id) server_id tb gb (is_ok r)])
  end.

Definition check_server (ds : list Device.t) (st : W * list BlockAudit) (s : Server.t)
    : W * list BlockAudit * option exn :=
  let '(w, audits) := st in
  match s.(Server.traffic_limit_gb) with
  | None => (w, audits, None)
  | Some gb =>
      match limit_bytes gb with
      | Err e => (w, audits, Some e)
      | Ok limit =>
          match list_peers s.(Server.id) w with
          | (w, Err e) => (w, audits, Some e)
          | (w, Ok peers) =>
              let traffic := traffic_by_key peers in
              if bool_decide (traffic = []) then (w, audits, None)
              else
                let devices := filterb (λ d, String.eqb d.(Device.server_id) s.(Server.id) &&
                                             is_none d.(Device.revoked_at)) ds in
                let '(w, audits) :=
                  foldl (check_device s.(Server.id) gb limit traffic) (w, audits) devices in
                (w, audits, None)
          end
      end
  end.

Fixpoint check_servers (ds : list Device.t) (ss : list Server.t) (st : W * list BlockAudit)
    : W * list BlockAudit * option exn :=
  match ss with
  | [] => (st.1, st.2, None)
  | s :: ss' =>
      let '(w, audits, e) := check_server ds st s in
      match e with
      | Some e => (w, audits, Some e)
      | None => check_servers ds ss' (w, audits)
      end
  end.

(** The world and the audit entries committed; an exception commits none. *)
Definition run_limits_check (settings : Settings) (ss : list Server.t) (ds : list Device.t) w
    : W * res (list BlockAudit) :=
  if negb settings.(limits_auto_block_enabled) then (w, Ok [])
  else
    let '(w, audits, e) := check_servers ds (filterb limited ss) (w, []) in
    (w, match e with Some e => Err e | None => Ok audits end).
End limits.

(** ** Every block is audited, and nothing else happens *)

Section sound.
#[local] Set Default Proof Using "Type*".
Context {W : Type} `{NodeRuntimeAdapter W} (peers_at : W → string → gmap string string).
Context `{!NodeRuntimeLaws W peers_at}.
Implicit Types (w : W) (audits : list BlockAudit).

(** An audit entry, accepted by the node, names a device with this key. *)
Definition blocked (ds : list Device.t) audits (n pk : string) : Prop :=
  ∃ a d, a ∈ audits ∧ a.(ba_node_accepted) = true ∧ a.(ba_server_id) = n ∧ d ∈ ds ∧
    d.(Device.id) = a.(ba_device_id) ∧ d.(Device.public_key) = pk.

(** The entries are right: a live device of the server, over its limit. *)
Definition audit_ok (ss : list Server.t) (ds : list Device.t) (a : BlockAudit) : Prop :=
  ∃ s d limit, s ∈ ss ∧ limited s = true ∧ s.(Server.id) = a.(ba_server_id) ∧
    s.(Server.traffic_limit_gb) = Some a.(ba_limit_gb) ∧ limit_bytes a.(ba_limit_gb) = Ok limit ∧
    limit < a.(ba_traffic_bytes) ∧
    d ∈ ds ∧ d.(Device.id) = a.(ba_device_id) ∧ d.(Device.server_id) = a.(ba_server_id) ∧
    d.(Device.revoked_at) = None.

Record trail (ss : list Server.t) (ds : list Device.t) (w0 w : W) audits : Prop := {
  tr_ok : Forall (audit_ok ss ds) audits;
  tr_blocked n pk : blocked ds audits n pk → peers_at w n !! pk = None;
  tr_other n pk : ¬ blocked ds audits n pk → peers_at w n !! pk = peers_at w0 n !! pk
}.

Lemma blocked_snoc ds audits a n pk :
  blocked ds (audits ++ [a]) n pk ↔
    blocked ds audits n pk ∨
    a.(ba_node_accepted) = true ∧ a.(ba_server_id) = n ∧
    ∃ d, d ∈ ds ∧ d.(Device.id) = a.(ba_device_id) ∧ d.(Device.public_key) = pk.
Proof.
  unfold blocked. split.
  - intros (b & d & [Hb| ->%list_elem_of_singleton]%elem_of_app & ?); [left|right]; naive_solver.
  - intros [(b & d & Hb & ?)|(? & ? & d & ?)].
    + exists b, d. rewrite elem_of_app. naive_solver.
    + exists a, d. rewrite elem_of_app, list_elem_of_singleton. naive_solver.
Qed.

Lemma trail_unchanged ss ds w0 w w' audits :
  (∀ n, peers_at w' n = peers_at w n) → trail ss ds w0 w audits → trail ss ds w0 w' audits.
Proof. intros E [H1 H2 H3]. split; [done|..]; intros n pk; rewrite E; auto. Qed.

Lemma check_device_trail ss ds w0 s gb limit traffic w audits d :
  NoDup (Device.id <$> ds) → s ∈ ss → limited s = true → s.(Server.traffic_limit_gb) = Some gb →
  limit_bytes gb = Ok limit → d ∈ ds → d.(Device.server_id) = s.(Server.id) →
  d.(Device.revoked_at) = None → trail ss ds w0 w audits →
  let '(w', audits') := check_device s.(Server.id) gb limit traffic (w, audits) d in
  trail ss ds w0 w' audits'.
Proof.
  intros Hnd Hs Hl Hgb Hlim Hd Hds Hr Htr. unfold check_device.
  destruct (dget _ traffic) as [tb|]; [|done]. destruct (Z.leb_spec tb limit); [done|].
  destruct (remove_peer _ _ w) as [w' r] eqn:Erem.
  assert (audit_ok ss ds (mkBlock (Device.id d) (Server.id s) tb gb (is_ok r))) as Hok.
  { exists s, d, limit. by split_and!. }
  destruct Htr as [H1 H2 H3].
  assert (∀ n pk, blocked ds (audits ++ [mkBlock (Device.id d) (Server.id s) tb gb (is_ok r)]) n pk ↔
    blocked ds audits n pk ∨ is_ok r = true ∧ Server.id s = n ∧ Device.public_key d = pk) as Hb.
  { intros n pk. rewrite blocked_snoc. cbn. split; [|naive_solver].
    intros [?|(? & ? & d' & Hd' & E & <-)]; [by left|right]. split_and!; try done.
    by rewrite (NoDup_fmap_inj Device.id ds d d'). }
  split; [apply Forall_app; by rewrite Forall_singleton|..]; intros n pk; rewrite Hb.
  - destruct r as [[]|e].
    + apply remove_peer_ok in Erem as [E1 E2]. destruct (decide (n = Server.id s)) as [->|Hne].
      * rewrite E1. intros [Hbl|(_ & _ & <-)]; [|apply lookup_delete_eq].
        rewrite lookup_delete. case_decide; [done|by apply H2].
      * rewrite E2 by done. intros [Hbl|(_ & ? & _)]; [by apply H2|congruence].
    + rewrite (remove_peer_err _ _ _ _ _ Erem). intros [Hbl|(? & _)]; [by apply H2|done].
  - intros Hn. destruct r as [[]|e].
    + apply remove_peer_ok in Erem as [E1 E2]. destruct (decide (n = Server.id s)) as [->|Hne].
      * rewrite E1, lookup_delete_ne by naive_solver. apply H3. naive_solver.
      * rewrite E2 by done. apply H3. naive_solver.
    + rewrite (remove_peer_err _ _ _ _ _ Erem). apply H3. naive_solver.
Qed.

Lemma check_server_trail ss ds w0 s w audits :
  NoDup (Device.id <$> ds) → s ∈ ss → limited s = true → trail ss ds w0 w audits →
  let '(w', audits', _) := check_server ds (w, audits) s in trail ss ds w0 w' audits'.
Proof.
  intros Hnd Hs Hl Htr. unfold check_server.
  destruct (Server.traffic_limit_gb s) as [gb|] eqn:Hgb; [|done].
  destruct (limit_bytes gb) as [limit|e] eqn:Hlim; [|done].
  destruct (list_peers _ w) as [w1 [peers|e]] eqn:El; pose proof (list_peers_pure _ _ _ _ El) as Hp;
    apply (trail_unchanged ss ds w0 w w1 audits Hp) in Htr; [|done].
  case_bool_decide; [done|]. match goal with |- context [foldl _ _ ?l] => set (devs := l) end.
  assert (∀ l st, (∀ d, d ∈ l → d ∈ devs) → trail ss ds w0 st.1 st.2 →
    trail ss ds w0 (foldl (check_device (Server.id s) gb limit (traffic_by_key peers)) st l).1
      (foldl (check_device (Server.id s) gb limit (traffic_by_key peers)) st l).2) as Hf.
  { induction l as [|d l IH]; intros [w2 a2] Hl2 Ht2; [done|]. cbn [foldl]. apply IH.
    { intros x Hx. apply Hl2. by right. }
    assert (d ∈ devs) as Hdev by (apply Hl2; left). unfold devs in Hdev.
    apply elem_of_filterb in Hdev as [[Hg1%String.eqb_eq Hg2%is_none_true]%andb_prop Hd].
    pose proof (check_device_trail ss ds w0 s gb limit (traffic_by_key peers) w2 a2 d) as Hc.
    destruct (check_device _ _ _ _ _ _). by apply Hc. }
  specialize (Hf devs (w1, audits) (λ d Hd, Hd) Htr). by destruct (foldl _ _ devs).
Qed.

(** Blocking is audited exactly.  A check of the traffic limits that commits
    leaves an audit entry for every peer it removed: each entry names a live
    device of an active server with a limit, and more traffic than the limit; a
    peer whose device an accepted entry names is gone from its node, and every
    other peer of every node is as it was. *)
Theorem limits_check_audited settings ss ds w w' audits :
  NoDup (Device.id <$> ds) → run_limits_check settings ss ds w = (w', Ok audits) →
  Forall (audit_ok ss ds) audits ∧
  ∀ n pk, (blocked ds audits n pk → peers_at w' n !! pk = None) ∧
          (¬ blocked ds audits n pk → peers_at w' n !! pk = peers_at w n !! pk).
Proof.
  intros Hnd. unfold run_limits_check. destruct (limits_auto_block_enabled settings); cbn [negb].
  2:{ intros [= <- <-]. split; [constructor|]. intros n pk. split; [|done].
      by intros (a & d & []%elem_of_nil & _). }
  assert (∀ l st, (∀ s, s ∈ l → s ∈ ss ∧ limited s = true) → trail ss ds w st.1 st.2 →
    trail ss ds w (check_servers ds l st).1.1 (check_servers ds l st).1.2) as Hf.
  { induction l as [|s l IH]; intros [w2 a2] Hl Ht2; [done|]. cbn [check_servers].
    destruct (Hl s) as [Hs1 Hs2]; [left|].
    pose proof (check_server_trail ss ds w s w2 a2 Hnd Hs1 Hs2 Ht2) as Hc.
    destruct (check_server ds (w2, a2) s) as [[w3 a3] [e|]]; [done|].
    apply IH; [|done]. intros x Hx. apply Hl. by right. }
  specialize (Hf (filterb limited ss) (w, [])). cbn in Hf.
  destruct (check_servers ds (filterb limited ss) (w, [])) as [[w2 a2] [e|]]; [done|].
  intros [= <- <-]. destruct Hf as [H1 H2 H3].
  - intros s [? ?]%elem_of_filterb. done.
  - split; [constructor|..]; intros n pk; [|done]. by intros (a & d & []%elem_of_nil & _).
  - split; [done|]. intros n pk. split; [apply H2|apply H3].
Qed.
End sound.

(** ** A metered node *)

(** A cluster whose peers all report the same traffic. *)
Record metered : Type := mkMetered { net : steady; traffic_each : Z }.

Definition metered_peers (m : metered) : string → gmap string string := steady_peers m.(net).

Definition on_net {A} (m : metered) (v : steady * A) : metered * A :=
  (mkMetered v.1 m.(traffic_each), v.2).

#[export] Instance metered_adapter : NodeRuntimeAdapter metered := {
  add_peer node p m := on_net m (add_peer node p m.(net));
  remove_peer node pk m := on_net m (remove_peer node pk m.(net));
  list_peers node m :=
    (m, Ok ((λ kv, mkRuntimePeer kv.1 (Some kv.2) (Some 1) (Some m.(traffic_each)) (Some 0)) <$>
              map_to_list (steady_peers m.(net) node)))
}.

#[export] Instance metered_laws : NodeRuntimeLaws metered metered_peers.
Proof.
  split; unfold metered_peers; cbn [add_peer remove_peer list_peers metered_adapter]; unfold on_net.
  - intros node p m m' [= <-]. by eapply (add_peer_ok (W := steady)).
  - intros node p m m' e [=].
  - intros node pk m m' [= <-]. by eapply (remove_peer_ok (W := steady)).
  - intros node pk m m' e [=].
  - intros node m m' r [= <- _]. done.
  - intros node m m' rows [= _ <-] pk v. rewrite <- elem_of_map_to_list. setoid_rewrite list_elem_of_fmap.
    split.
    + intros Hv. eexists. by split; [exists (pk, v)|].
    + by intros (r & ([k v'] & -> & Hin) & <- & <-).
Qed.

Definition limited_server : Server.t :=
  Server.mk "n1" "n1" "eu" "" None None None None None None None "healthy" true (Some (of_Z 2))
    None None false None None None.

Definition over_limit : metered :=
  mkMetered (mkSteady {["n1" := {["k1" := "10.8.1.2/32"]}]}) 3000000000.

Definition limit_devices : list Device.t := [Device.test "d1" "n1" "k1" "10.8.1.2/32"].

Lemma limits_check_audited_witness :
  ∃ w' audits, run_limits_check default_settings [limited_server] limit_devices over_limit =
      (w', Ok audits) ∧
    (ba_device_id <$> audits) = ["d1"] ∧ metered_peers w' "n1" !! "k1" = None.
Proof.
  do 2 eexists. split; [vm_compute; reflexivity|]. split; [reflexivity|].
  refine (proj1 (proj2 (limits_check_audited metered_peers default_settings [limited_server]
    limit_devices over_limit _ _ _ _) "n1" "k1") _).
  - apply (bool_decide_unpack _). by vm_compute.
  - vm_compute. reflexivity.
  - eexists _, (Device.test "d1" "n1" "k1" "10.8.1.2/32"). split; [left|]. by split_and!; [..|left| |].
Defined.

(** The block does not last: the device row is unchanged, so the next
    reconciliation adds the peer again. *)
Example auto_blocked_peer_returns :
  let '(w1, _) := run_limits_check default_settings [limited_server] limit_devices over_limit in
  let '(w2, _) := reconcile_node wit_settings 0 "n1" ["n1"] limit_devices w1 in
  metered_peers w1 "n1" !! "k1" = None ∧ metered_peers w2 "n1" !! "k1" = Some "10.8.1.2/32".
Proof. by vm_compute. Qed.

(** In agent mode, the only one production allows, the adapter lists no peers:
    the check blocks nothing. *)
Lemma limits_idle_in_agent_mode {W} settings ss ds (w w' : W) r :
  @run_limits_check W (agent_adapter W) settings ss ds w = (w', r) →
  w' = w ∧ (∀ audits, r = Ok audits → audits = []).
Proof.
  unfold run_limits_check. destruct (limits_auto_block_enabled settings); cbn [negb].
  2:{ intros [= <- <-]. split; [done|]. by intros ? [= <-]. }
  assert (∀ l, (@check_servers W (agent_adapter W) ds l (w, [])).1 = (w, [])) as Hl.
  { induction l as [|s l IH]; [done|]. cbn [check_servers].
    assert (∃ e, @check_server W (agent_adapter W) ds (w, []) s = (w, [], e)) as [e ->].
    { unfold check_server. destruct (Server.traffic_limit_gb s); [|by eexists].
      destruct (limit_bytes _); by eexists. }
    by destruct e. }
  specialize (Hl (filterb limited ss)).
  destruct (@check_servers W (agent_adapter W) ds (filterb limited ss) (w, [])) as [[w2 a2] e].
  injection Hl as -> ->. intros [= <- <-]. split; [done|]. intros audits. by destruct e as [e|]; intros [= <-].
Qed.
