(* ===== verification/RateLimit.v ===== *)
(** * Counters in Redis

    [core/rate_limit.py], [core/error_log_rate_limiter.py] and
    [core/idempotency.py]: fixed-window limits with INCR and EXPIRE, which let a
    request through when Redis fails, and responses kept under an idempotency key. *)

From S2P Require Import Prelude PyStr PyVal IpAddr Settings Models.
Open Scope Z_scope.

(** The counter of the issues of a user, who may issue in several ways. *)
Definition REDIS_KEY_RATELIMIT_ISSUE_PREFIX : string := "ratelimit:issue:".

(** ** Redis *)

(** What a key holds; the JSON of a payload is kept as the value it stands for. *)
Inductive rvalue : Type :=
| Count (n : Z)
| Payload (status_code : Z) (body : pydict).

Record rentry : Type := mkEntry { e_value : rvalue; e_expires : option Z }.

(** The entry of a key unless it has expired. *)
Definition live_entry (now : Z) (e : option rentry) : option rentry :=
  match e with
  | Some e => match e.(e_expires) with
              | Some t => if t <=? now then None else Some e
              | None => Some e
              end
  | None => None
  end.

(** The next number of a counter and the entry that holds it: a key that expired
    starts again, without an expiry. *)
Definition bump (now : Z) (e : option rentry) : option (Z * rentry) :=
  match live_entry now e with
  | Some (mkEntry (Count n) exp) => Some (n + 1, mkEntry (Count (n + 1)) exp)
  | Some (mkEntry (Payload _ _) _) => None
  | None => Some (1, mkEntry (Count 1) None)
  end.

(** The commands of the client; each takes the time at which it runs. *)
Class Redis (W : Type) := {
  incr : Z → string → W → W * res Z;
  expire : Z → string → Z → W → W * res unit;
  rget : Z → string → W → W * res (option rvalue);
  setex : Z → string → Z → rvalue → W → W * res unit
}.

(** A command that returns did its work on its key and nothing else; one that
    raises may or may not have done it. *)
Class RedisLaws (W : Type) `{Redis W} (entry_of : W → string → option rentry) : Prop := {
  incr_ok now k w w' n : incr now k w = (w', Ok n) →
    (∃ e, bump now (entry_of w k) = Some (n, e) ∧ entry_of w' k = Some e) ∧
    ∀ k', k' ≠ k → entry_of w' k' = entry_of w k';
  incr_err now k w w' e : incr now k w = (w', Err e) → ∀ k', k' ≠ k → entry_of w' k' = entry_of w k';
  expire_ok now k s w w' u : expire now k s w = (w', Ok u) →
    entry_of w' k = (λ e, mkEntry e.(e_value) (Some (now + seconds s))) <$> live_entry now (entry_of w k) ∧
    ∀ k', k' ≠ k → entry_of w' k' = entry_of w k';
  expire_err now k s w w' e : expire now k s w = (w', Err e) → ∀ k', k' ≠ k → entry_of w' k' = entry_of w k';
  rget_pure now k w w' r : rget now k w = (w', r) → ∀ k', entry_of w' k' = entry_of w k';
  rget_ok now k w w' v : rget now k w = (w', Ok v) → v = e_value <$> live_entry now (entry_of w k);
  setex_ok now k s v w w' u : setex now k s v w = (w', Ok u) →
    entry_of w' k = Some (mkEntry v (Some (now + seconds s))) ∧ ∀ k', k' ≠ k → entry_of w' k' = entry_of w k';
  setex_err now k s v w w' e : setex now k s v w = (w', Err e) → ∀ k', k' ≠ k → entry_of w' k' = entry_of w k'
}.

(** A server that answers every command. *)
Class ReliableRedis (W : Type) `{Redis W} : Prop := {
  incr_total now k w : (∀ s b, (rget now k w).2 ≠ Ok (Some (Payload s b))) → is_ok (incr now k w).2 = true;
  expire_total now k s w : is_ok (expire now k s w).2 = true;
  rget_total now k w : is_ok (rget now k w).2 = true;
  setex_total now k s v w : is_ok (setex now k s v w).2 = true
}.

(** ** The limits *)

Definition KEY_PREFIX_LOGIN := "ratelimit:login:".
Definition KEY_PREFIX_API := "ratelimit:api:".
Definition KEY_PREFIX_ADMIN_ISSUE := "ratelimit:admin_issue:".
Definition KEY_PREFIX_CONFIG_DOWNLOAD := "ratelimit:config_dl:".
Definition KEY_PREFIX_SERVER_ACTIONS := "ratelimit:server_actions:".
Definition ADMIN_ISSUE_LIMIT := 30.
Definition ADMIN_ISSUE_WINDOW := 60.
Definition CONFIG_DOWNLOAD_IP_LIMIT := 60.
Definition CONFIG_DOWNLOAD_TOKEN_LIMIT := 5.
Definition CONFIG_DOWNLOAD_WINDOW := 60.
Definition SERVER_ACTIONS_PER_USER_PER_SERVER_LIMIT := 10.
Definition SERVER_ACTIONS_WINDOW := 60.

(** What a request tells of its origin. *)
Record Origin : Type := mkOrigin {
  x_forwarded_for : option string;
  x_real_ip : option string;
  client_host : option string
}.

Definition _client_ip (o : Origin) : string :=
  match o.(x_forwarded_for) with
  | Some f => if str_truthy f then strip (hd "" (split "," f)) else
      match o.(x_real_ip) with
      | Some r => if str_truthy r then strip r else default "unknown" o.(client_host)
      | None => default "unknown" o.(client_host)
      end
  | None =>
      match o.(x_real_ip) with
      | Some r => if str_truthy r then strip r else default "unknown" o.(client_host)
      | None => default "unknown" o.(client_host)
      end
  end.

(** An address by version, value and scope id. *)
Definition addr_value (s : string) : option (ip_version * Z * string) :=
  match ipv4_parse s with
  | Some v => Some (IPv4, v, "")
  | None =>
      let '(a, scope) := match partition "%" s with Some (a, z) => (a, z) | None => (s, "") end in
      if ipv6_valid s then (λ v, (IPv6, v, scope)) <$> ipv6_value a else None
  end.

(** [ip_network(s)], which refuses host bits: version, value and prefix. *)
Definition strict_network (s : string) : option (ip_version * Z * Z) :=
  match split "/" s with
  | [a; m] =>
      match addr_value a with
      | Some (IPv4, v, _) =>
          p ← v4_prefix m;
          if v mod 2 ^ (32 - p) =? 0 then Some (IPv4, v, p) else None
      | Some (IPv6, v, _) =>
          if prefix_length m 128 then
            p ← parse_nat (chars m);
            if v mod 2 ^ (128 - p) =? 0 then Some (IPv6, v, p) else None
          else None
      | None => None
      end
  | _ => None
  end.

Definition in_network (ip : ip_version * Z * string) (n : ip_version * Z * Z) : bool :=
  let width := match n.1.1 with IPv4 => 32 | IPv6 => 128 end in
  bool_decide (ip.1.1 = n.1.1) && (ip.1.2 / 2 ^ (width - n.2) =? n.1.2 / 2 ^ (width - n.2)).

Definition _PRIVATE_NETWORKS : list (ip_version * Z * Z) :=
  [(IPv4, 127 * 2 ^ 24, 8); (IPv6, 1, 128); (IPv4, 10 * 2 ^ 24, 8); (IPv4, 172 * 2 ^ 24 + 16 * 2 ^ 16, 12);
   (IPv4, 192 * 2 ^ 24 + 168 * 2 ^ 16, 16)].

Definition exempt_part (ip : ip_version * Z * string) (part : string) : bool :=
  if String.eqb (lower part) "private" then existsb (in_network ip) _PRIVATE_NETWORKS
  else if contains "/" part then
    match strict_network part with Some n => in_network ip n | None => false end
  else bool_decide (addr_value part = Some ip).

Definition _is_exempt_from_api_rate_limit (settings : Settings) (ip_str : string) : bool :=
  let parts := filterb str_truthy (strip <$> split "," (strip settings.(api_rate_limit_exempt_ips))) in
  match addr_value ip_str with
  | Some ip => existsb (exempt_part ip) parts
  | None => false
  end.

Example exempts :
  _is_exempt_from_api_rate_limit default_settings "127.0.0.1" = true ∧
  _is_exempt_from_api_rate_limit default_settings "::1" = true ∧
  _is_exempt_from_api_rate_limit default_settings "127.0.0.2" = false ∧
  existsb (exempt_part (IPv4, 10 * 2 ^ 24 + 5, "")) ["bad/8"; "Private"] = true ∧
  existsb (exempt_part (IPv4, 10 * 2 ^ 24 + 5, "")) ["10.0.0.1/8"; "10.0.0.4"] = false ∧
  existsb (exempt_part (IPv4, 10 * 2 ^ 24 + 5, "")) ["10.0.0.4/31"] = true ∧
  addr_value "::ffff:1.2.3.4" = Some (IPv6, 281470698652420, "").
Proof. vm_compute. repeat split. Qed.

Definition peer_ip (o : Origin) : string := default "unknown" o.(client_host).

Section limits.
Context {W : Type} `{Redis W}.
Implicit Types (w : W).

(** The count of a request in its window. *)
Definition hit (now : Z) (key : string) (window : Z) w : W * res Z :=
  let '(w, r) := incr now key w in
  match r with
  | Err e => (w, Err e)
  | Ok n =>
      if n =? 1 then
        let '(w, r) := expire now key window w in
        match r with
        | Err e => (w, Err e)
        | Ok _ => (w, Ok n)
        end
      else (w, Ok n)
  end.

(** Whether a request goes through; it does when Redis fails. *)
Definition allow (now : Z) (key : string) (window limit : Z) w : W * bool :=
  let '(w, r) := hit now key window w in
  (w, match r with Ok n => negb (limit <? n) | Err _ => true end).

Definition too_many (msg : string) (v : W * bool) : W * res unit :=
  (v.1, if v.2 then Ok tt else Err (HTTPException 429 msg)).

(** [GlobalAPIRateLimitMiddleware.dispatch]: whether the request is passed on. *)
Definition dispatch (settings : Settings) (now : Z) (path : string) (o : Origin) w : W * bool :=
  if (settings.(api_rate_limit_per_minute) <=? 0) || negb (startswith "/api/" path) then (w, true)
  else
    let ip := _client_ip o in
    if _is_exempt_from_api_rate_limit settings ip then (w, true)
    else allow now (KEY_PREFIX_API +:+ ip) settings.(api_rate_limit_window_seconds)
           settings.(api_rate_limit_per_minute) w.

(** The failures of a login; this limit may refuse when Redis fails. *)
Definition rate_limit_login_failure (settings : Settings) (now : Z) (o : Origin) w : W * res unit :=
  let '(w, r) := hit now (KEY_PREFIX_LOGIN +:+ peer_ip o) settings.(login_rate_window_seconds) w in
  (w, match r with
      | Ok n => if settings.(login_rate_limit) <? n
                then Err (HTTPException 429 "Too many login attempts. Try again later.") else Ok tt
      | Err _ => if settings.(login_rate_limit_fail_closed)
                 then Err (HTTPException 503 "Service temporarily unavailable. Try again later.") else Ok tt
      end).

Definition rate_limit_admin_issue (now : Z) (o : Origin) w : W * res unit :=
  too_many "Too many peer issuance requests. Try again later."
    (allow now (KEY_PREFIX_ADMIN_ISSUE +:+ peer_ip o) ADMIN_ISSUE_WINDOW ADMIN_ISSUE_LIMIT w).

Definition rate_limit_server_actions (now : Z) (server_id admin_id : string) w : W * res unit :=
  too_many "Too many actions for this server. Try again later."
    (allow now (KEY_PREFIX_SERVER_ACTIONS +:+ admin_id +:+ ":" +:+ server_id) SERVER_ACTIONS_WINDOW
       SERVER_ACTIONS_PER_USER_PER_SERVER_LIMIT w).

Definition rate_limit_config_download (now : Z) (o : Origin) (token : string) w : W * res unit :=
  let key_ip := KEY_PREFIX_CONFIG_DOWNLOAD +:+ "ip:" +:+ peer_ip o in
  let key_tok := KEY_PREFIX_CONFIG_DOWNLOAD +:+ "tok:" +:+ str_take 32 token in
  let '(w, r) := hit now key_ip CONFIG_DOWNLOAD_WINDOW w in
  match r with
  | Err _ => (w, Ok tt)
  | Ok n_ip =>
      let '(w, r) := hit now key_tok CONFIG_DOWNLOAD_WINDOW w in
      match r with
      | Err _ => (w, Ok tt)
      | Ok n_tok =>
          (w, if (CONFIG_DOWNLOAD_IP_LIMIT <? n_ip) || (CONFIG_DOWNLOAD_TOKEN_LIMIT <? n_tok)
              then Err (HTTPException 429 "Too many download requests. Try again later.") else Ok tt)
      end
  end.

(** ** Repeated error logs *)

Definition ERRLOG_TTL_SECONDS := 60.
Definition MAX_LOGS_PER_WINDOW := 10.

Definition slash_to_underscore (s : string) : string :=
  of_chars ((λ c, if Ascii.eqb c "/" then "_"%char else c) <$> chars s).

Definition _fingerprint (sha256_hex : string → string) (msg : string) : string :=
  str_take 16 (sha256_hex (str_take 100 msg)).

Definition or_str (a b : string) : string := if str_truthy a then a else b.

Definition should_log_error (sha256_hex : string → string) (now : Z) (error_code : string)
    (route fingerprint message : option string) w : W * bool :=
  let fp := or_str (default "" fingerprint) (_fingerprint sha256_hex (default "" message)) in
  let route_safe := str_take 64 (slash_to_underscore (or_str (default "" route) "unknown")) in
  allow now ("errlog:" +:+ error_code +:+ ":" +:+ route_safe +:+ ":" +:+ fp) ERRLOG_TTL_SECONDS MAX_LOGS_PER_WINDOW w.

(** ** Idempotency *)

Definition REDIS_KEY_IDEMPOTENCY_ACTION_PREFIX := "idempotency:action:".

Definition _normalize_key (raw : option string) : option string :=
  match raw with
  | None => None
  | Some raw => let key := strip raw in if str_truthy key then Some (str_take 256 key) else None
  end.

Definition _cache_key (sha256_hex : string → string) (scope resource_id idempotency_key : string) : string :=
  REDIS_KEY_IDEMPOTENCY_ACTION_PREFIX +:+
  sha256_hex (scope +:+ ":" +:+ resource_id +:+ ":" +:+ idempotency_key).

(** The status and the body of the response. *)
Definition get_cached_idempotency_response (sha256_hex : string → string) (now : Z) (scope resource_id : string)
    (idempotency_key : option string) w : W * option (Z * pydict) :=
  match _normalize_key idempotency_key with
  | None => (w, None)
  | Some key =>
      let '(w, r) := rget now (_cache_key sha256_hex scope resource_id key) w in
      (w, match r with Ok (Some (Payload s b)) => Some (s, b) | _ => None end)
  end.

Definition store_idempotency_response (sha256_hex : string → string) (settings : Settings) (now : Z)
    (scope resource_id : string) (idempotency_key : option string) (body : pydict) (status_code : Z)
    (ttl_seconds : option Z) w : W :=
  match _normalize_key idempotency_key with
  | None => w
  | Some key =>
      let t := oint_or0 ttl_seconds in
      let ttl := if t =? 0 then (if settings.(idempotency_ttl_seconds) =? 0 then 86400
                                 else settings.(idempotency_ttl_seconds)) else t in
      (setex now (_cache_key sha256_hex scope resource_id key) (Z.max 1 ttl) (Payload status_code body) w).1
  end.
End limits.

(** ** The limiter is a fixed window *)

(** What requests at these times get from one limiter. *)
Fixpoint allow_all {W} `{Redis W} (key : string) (window limit : Z) (ts : list Z) (w : W) : list bool :=
  match ts with
  | [] => []
  | t :: ts' => let '(w, b) := allow t key window limit w in b :: allow_all key window limit ts' w
  end.

(** The number of leading times before [stop]. *)
Fixpoint leading (stop : Z) (ts : list Z) : nat :=
  match ts with
  | t :: ts' => if t <? stop then S (leading stop ts') else 0%nat
  | [] => 0%nat
  end.

Definition first_of (limit n : Z) (k : nat) : list bool := (λ i, n + Z.of_nat i <? limit) <$> seq 0 k.

(** The reference: a request opens a window, in which the first [limit] requests
    pass; the next one after it opens another. *)
Fixpoint fixed_window (fuel : nat) (window limit : Z) (ts : list Z) : list bool :=
  match fuel, ts with
  | S fuel', t0 :: _ =>
      let k := leading (t0 + seconds window) ts in
      first_of limit 0 k ++ fixed_window fuel' window limit (drop k ts)
  | _, _ => []
  end.

Lemma first_of_S limit n k : first_of limit n (S k) = (n <? limit) :: first_of limit (n + 1) k.
Proof.
  unfold first_of. cbn [seq fmap list_fmap]. f_equal; [f_equal; lia|].
  rewrite <- seq_shift, <- list_fmap_compose. apply list_fmap_ext. intros _ i _. simpl. f_equal. lia.
Qed.

Section window.
Context {W : Type} `{Redis W} (entry_of : W → string → option rentry).
Context `{!RedisLaws W entry_of, !ReliableRedis W}.
Context (key : string) (window limit : Z).

Lemma incr_counter now w n e :
  bump now (entry_of w key) = Some (n, e) → ∃ w', incr now key w = (w', Ok n) ∧ entry_of w' key = Some e.
Proof using Type*.
  intros Hb. pose proof (incr_total now key w) as Ht. destruct (incr now key w) as [w' [m|err]] eqn:E.
  - apply incr_ok in E as [(e' & Hb' & He) _]. rewrite Hb in Hb'. injection Hb' as <- <-. by exists w'.
  - simpl in Ht. assert (false = true); [|done]. apply Ht. intros s b Hg.
    destruct (rget now key w) as [w2 r] eqn:Er. simpl in Hg. subst r. apply rget_ok in Er.
    unfold bump in Hb. destruct (live_entry now (entry_of w key)) as [[[m|s' b'] x]|]; by simplify_eq/=.
Qed.

(** The first request of a window. *)
Lemma allow_fresh t w :
  live_entry t (entry_of w key) = None → 0 < window →
  ∃ w', allow t key window limit w = (w', 0 <? limit) ∧
    entry_of w' key = Some (mkEntry (Count 1) (Some (t + seconds window))).
Proof using Type*.
  intros Hl Hw. destruct (incr_counter t w 1 (mkEntry (Count 1) None)) as (w1 & E1 & He1).
  { unfold bump. by rewrite Hl. }
  pose proof (expire_total t key window w1) as Ht. destruct (expire t key window w1) as [w2 [u|err]] eqn:E2; [|done].
  apply expire_ok in E2 as E3. destruct E3 as [He2 _]. exists w2. unfold allow, hit. rewrite E1. simpl. rewrite E2.
  split; [f_equal; destruct (Z.ltb_spec limit 1), (Z.ltb_spec 0 limit); simpl; lia || done|].
  rewrite He2, He1. done.
Qed.

Lemma allow_open t w n exp :
  entry_of w key = Some (mkEntry (Count n) (Some exp)) → t < exp → 0 < n →
  ∃ w', allow t key window limit w = (w', n <? limit) ∧
    entry_of w' key = Some (mkEntry (Count (n + 1)) (Some exp)).
Proof using Type*.
  intros He Ht Hn. destruct (incr_counter t w (n + 1) (mkEntry (Count (n + 1)) (Some exp))) as (w1 & E1 & He1).
  { unfold bump. rewrite He. simpl. destruct (Z.leb_spec exp t); [lia|done]. }
  exists w1. split; [|done]. unfold allow, hit. rewrite E1.
  destruct (Z.eqb_spec (n + 1) 1); [lia|]. f_equal. destruct (Z.ltb_spec limit (n + 1)), (Z.ltb_spec n limit); simpl; lia || done.
Qed.

Lemma run_open ts : ∀ w n exp,
  entry_of w key = Some (mkEntry (Count n) (Some exp)) → 0 < n →
  let k := leading exp ts in
  ∃ w', allow_all key window limit ts w = first_of limit n k ++ allow_all key window limit (drop k ts) w' ∧
    entry_of w' key = Some (mkEntry (Count (n + Z.of_nat k)) (Some exp)).
Proof using Type*.
  induction ts as [|t ts IH]; intros w n exp He Hn; simpl.
  - exists w. by rewrite Z.add_0_r.
  - destruct (Z.ltb_spec t exp) as [Ht|Ht].
    + destruct (allow_open t w n exp He Ht Hn) as (w1 & E1 & He1). rewrite E1.
      destruct (IH w1 (n + 1) exp He1) as (w2 & E2 & He2); [lia|]. exists w2.
      rewrite first_of_S, E2. split; [done|]. rewrite He2. do 3 f_equal. lia.
    + exists w. by rewrite Z.add_0_r.
Qed.

Lemma leading_stop stop ts t ts' : drop (leading stop ts) ts = t :: ts' → stop ≤ t.
Proof.
  induction ts as [|x ts IH]; simpl; [done|]. destruct (Z.ltb_spec x stop); [exact IH|]. by intros [= -> _].
Qed.

Lemma allow_all_windows fuel : ∀ ts w,
  0 < window → (length ts ≤ fuel)%nat →
  match ts with t :: _ => live_entry t (entry_of w key) = None | [] => True end →
  allow_all key window limit ts w = fixed_window fuel window limit ts.
Proof using Type*.
  induction fuel as [|fuel IH]; intros ts w Hw Hlen Hl; [by destruct ts; [|simpl in Hlen; lia]|].
  destruct ts as [|t ts]; [done|]. cbn [allow_all fixed_window leading].
  assert (0 < seconds window) by (unfold seconds; lia).
  destruct (Z.ltb_spec t (t + seconds window)); [|lia].
  destruct (allow_fresh t w Hl Hw) as (w1 & E1 & He1). rewrite E1, first_of_S. cbn [drop].
  destruct (run_open ts w1 1 (t + seconds window) He1) as (w2 & E2 & He2); [lia|]. rewrite E2.
  change (0 + 1) with 1. cbn [app]. do 2 f_equal. apply IH; [done|rewrite length_drop; simpl in Hlen; lia|].
  destruct (drop _ ts) as [|t2 ts2] eqn:Ed; [done|]. apply leading_stop in Ed. rewrite He2. simpl.
  destruct (Z.leb_spec (t + seconds window) t2); [done|lia].
Qed.
End window.

(** ** How many requests pass in any interval *)

Definition in_interval (a len t : Z) : bool := (a <=? t) && (t <? a + len).

(** The requests that pass, with the times at which they come. *)
Definition passing (ts : list Z) (ds : list bool) (p : Z → bool) : Z := countZ (λ td, td.2 && p td.1) (zip ts ds).

Lemma first_of_length limit n k : length (first_of limit n k) = k.
Proof. unfold first_of. by rewrite length_fmap, length_seq. Qed.

Lemma leading_length stop ts : (leading stop ts ≤ length ts)%nat.
Proof. induction ts as [|t ts IH]; simpl; [done|]. case_match; lia. Qed.

Lemma passing_first_of ts limit n k p : 0 ≤ passing ts (first_of limit n k) p ≤ Z.max 0 (limit - n).
Proof.
  revert ts n. induction k as [|k IH]; intros ts n.
  - unfold passing, first_of. simpl. destruct ts; simpl; rewrite countZ_nil; lia.
  - rewrite first_of_S. destruct ts as [|t ts]; [unfold passing; simpl; rewrite countZ_nil; lia|].
    unfold passing. cbn [zip zip_with]. rewrite countZ_cons. specialize (IH ts (n + 1)). unfold passing in IH. simpl.
    destruct (Z.ltb_spec n limit), (p t); simpl; lia.
Qed.

Lemma passing_app ts1 ts2 ds1 ds2 p :
  length ts1 = length ds1 → passing (ts1 ++ ts2) (ds1 ++ ds2) p = passing ts1 ds1 p + passing ts2 ds2 p.
Proof. intros Hl. unfold passing. by rewrite zip_with_app, countZ_app by done. Qed.

Lemma passing_out ts ds p : Forall (λ t, p t = false) ts → passing ts ds p = 0.
Proof.
  intros Hp. revert ds. induction Hp as [|t ts Ht _ IH]; intros ds; unfold passing; simpl; [by rewrite countZ_nil|].
  destruct ds as [|d ds]; simpl; [by rewrite countZ_nil|]. rewrite countZ_cons. simpl.
  rewrite Ht, andb_false_r. unfold passing in IH. by rewrite IH.
Qed.

(** One window: its own requests and the later ones. *)
Lemma fixed_window_unfold fuel window limit ts p :
  0 < window → ts ≠ [] →
  let k := leading (hd 0 ts + seconds window) ts in
  passing ts (fixed_window (S fuel) window limit ts) p =
  passing (take k ts) (first_of limit 0 k) p + passing (drop k ts) (fixed_window fuel window limit (drop k ts)) p.
Proof.
  intros Hw Hne k. destruct ts as [|t ts]; [done|]. cbn [fixed_window hd] in *. fold k.
  rewrite <- (take_drop k (t :: ts)) at 1. apply passing_app. rewrite first_of_length, length_take.
  pose proof (leading_length (t + seconds window) (t :: ts)). fold k in H. lia.
Qed.

Lemma sorted_drop_bound k ts b :
  StronglySorted Z.le ts → match drop k ts with t :: _ => b ≤ t | [] => True end → Forall (λ t, b ≤ t) (drop k ts).
Proof.
  intros Hs Hb. assert (StronglySorted Z.le (drop k ts)) as Hs'.
  { clear Hb. revert k. induction Hs as [|t ts Hs IH Hf]; intros [|k]; [constructor..|by constructor|]. apply IH. }
  destruct (drop k ts) as [|t l]; [constructor|]. apply StronglySorted_inv in Hs' as [_ Hf].
  constructor; [done|]. eapply Forall_impl; [exact Hf|]. simpl. lia.
Qed.

Lemma SSorted_drop k (ts : list Z) : StronglySorted Z.le ts → StronglySorted Z.le (drop k ts).
Proof.
  intros Hs. revert k. induction Hs as [|t ts Hs IH Hf]; intros [|k]; [constructor..|by constructor|]. apply IH.
Qed.

(** At most one window's worth when none was open before the interval. *)
Lemma passing_from_start fuel window limit ts a :
  0 < window → StronglySorted Z.le ts → Forall (λ t, a ≤ t) ts →
  passing ts (fixed_window fuel window limit ts) (in_interval a (seconds window)) ≤ Z.max 0 limit.
Proof.
  intros Hw Hs Ha. destruct fuel as [|fuel]; [unfold passing; simpl; destruct ts; simpl; rewrite countZ_nil; lia|].
  destruct ts as [|t ts]; [unfold passing; simpl; rewrite countZ_nil; lia|].
  rewrite fixed_window_unfold by done. cbn [hd]. set (k := leading _ _).
  pose proof (passing_first_of (take k (t :: ts)) limit 0 k (in_interval a (seconds window))).
  rewrite (passing_out (drop k (t :: ts))); [lia|].
  eapply Forall_impl; [apply (sorted_drop_bound k (t :: ts) (t + seconds window)); [done|]|].
  - destruct (drop k (t :: ts)) as [|x l] eqn:E; [done|]. by apply leading_stop in E.
  - apply Forall_inv in Ha. intros x Hx. unfold in_interval. simpl in *. destruct (Z.ltb_spec x (a + seconds window)); lia.
Qed.

Lemma passing_two_windows fuel : ∀ window limit ts a,
  0 < window → StronglySorted Z.le ts →
  passing ts (fixed_window fuel window limit ts) (in_interval a (seconds window)) ≤ 2 * Z.max 0 limit.
Proof.
  induction fuel as [|fuel IH]; intros window limit ts a Hw Hs;
    [unfold passing; simpl; destruct ts; simpl; rewrite countZ_nil; lia|].
  destruct ts as [|t ts]; [unfold passing; simpl; rewrite countZ_nil; lia|].
  rewrite fixed_window_unfold by done. cbn [hd]. set (k := leading _ _).
  destruct (Z.le_gt_cases (t + seconds window) a) as [Hta|Hta].
  - specialize (IH window limit (drop k (t :: ts)) a Hw (SSorted_drop k _ Hs)).
    rewrite (passing_out (take k (t :: ts))); [lia|]. subst k. clear - Hta.
    generalize (t :: ts). intros l. induction l as [|x l IHl]; simpl; [constructor|].
    destruct (Z.ltb_spec x (t + seconds window)); simpl; [|constructor]. constructor; [|done].
    unfold in_interval. destruct (Z.leb_spec a x); simpl; lia || done.
  - pose proof (passing_first_of (take k (t :: ts)) limit 0 k (in_interval a (seconds window))).
    assert (Forall (λ x, a ≤ x) (drop k (t :: ts))) as Hd.
    { eapply Forall_impl; [apply (sorted_drop_bound k (t :: ts) (t + seconds window)); [done|]|simpl; lia].
      destruct (drop k (t :: ts)) as [|x l] eqn:E; [done|]. by apply leading_stop in E. }
    pose proof (passing_from_start fuel window limit (drop k (t :: ts)) a Hw (SSorted_drop k _ Hs) Hd). lia.
Qed.

(** C16: the limiter is a fixed window.  On a Redis that answers, from a key that
    is not live, the decisions of INCR and EXPIRE are those of the reference: the
    first request opens a window, the first [limit] requests in it pass, the
    others are refused, and the first request after it opens the next. *)
Theorem limiter_is_fixed_window {W} `{Redis W} (entry_of : W → string → option rentry)
    `{!RedisLaws W entry_of, !ReliableRedis W} key window limit ts w :
  0 < window → match ts with t :: _ => live_entry t (entry_of w key) = None | [] => True end →
  allow_all key window limit ts w = fixed_window (length ts) window limit ts.
Proof. intros Hw Hl. by apply (allow_all_windows entry_of). Qed.

(** The bound of a limiter.  Whatever the times of the requests, no interval
    as long as the window sees more than twice the limit pass, half of it at the
    end of a window and half at the start of the next. *)
Theorem limiter_bound {W} `{Redis W} (entry_of : W → string → option rentry)
    `{!RedisLaws W entry_of, !ReliableRedis W} key window limit ts w a :
  0 < window → StronglySorted Z.le ts →
  match ts with t :: _ => live_entry t (entry_of w key) = None | [] => True end →
  passing ts (allow_all key window limit ts w) (in_interval a (seconds window)) ≤ 2 * Z.max 0 limit.
Proof.
  intros Hw Hs Hl. rewrite (allow_all_windows entry_of key window limit (length ts) ts w Hw (le_n _) Hl).
  by apply passing_two_windows.
Qed.

(** ** A store whose commands fail on demand *)

(** [faults]: whether the next commands fail; none does after the list. *)
Record store : Type := mkStore { data : gmap string rentry; faults : list bool }.

Definition command {A} (s : store) (f : gmap string rentry → option (gmap string rentry * A)) : store * res A :=
  match s.(faults) with
  | true :: fs => (mkStore s.(data) fs, Err (RuntimeError "Connection lost"))
  | fs =>
      match f s.(data) with
      | Some (d, a) => (mkStore d (tail fs), Ok a)
      | None => (mkStore s.(data) (tail fs), Err (RuntimeError "WRONGTYPE"))
      end
  end.

#[export] Instance store_redis : Redis store := {
  incr now k s := command s (λ d, (λ ne, (<[k := ne.2]> d, ne.1)) <$> bump now (d !! k));
  expire now k sec s := command s (λ d,
    Some (match live_entry now (d !! k) with
          | Some e => <[k := mkEntry e.(e_value) (Some (now + seconds sec))]> d
          | None => delete k d
          end, tt));
  rget now k s := command s (λ d, Some (d, e_value <$> live_entry now (d !! k)));
  setex now k sec v s := command s (λ d, Some (<[k := mkEntry v (Some (now + seconds sec))]> d, tt))
}.

Lemma command_Ok {A} (s s' : store) f (a : A) :
  command s f = (s', Ok a) → f s.(data) = Some (s'.(data), a).
Proof.
  unfold command. destruct (faults s) as [|[] fs]; [|done|]; destruct (f s.(data)) as [[d b]|] eqn:E; intros; by simplify_eq/=.
Qed.

Lemma command_Err {A} (s s' : store) f e : command (A:=A) s f = (s', Err e) → s'.(data) = s.(data).
Proof.
  unfold command. destruct (faults s) as [|[] fs]; [|by intros [= <- _]|];
    destruct (f s.(data)) as [[d b]|] eqn:E; intros; by simplify_eq/=.
Qed.

Definition store_entry (s : store) (k : string) : option rentry := s.(data) !! k.

#[export] Instance store_laws : RedisLaws store store_entry.
Proof.
  split; unfold store_entry; simpl.
  - intros now k w w' n Hc%command_Ok. destruct (bump now (data w !! k)) as [[m e]|] eqn:E; [|done].
    injection Hc as <- <-. split; [exists e; by rewrite lookup_insert_eq|]. intros. by rewrite lookup_insert_ne.
  - intros now k w w' e Hc%command_Err k' _. by rewrite Hc.
  - intros now k s w w' u Hc%command_Ok. injection Hc as <- _.
    split; destruct (live_entry _ _); simpl; intros; by rewrite ?lookup_insert_eq, ?lookup_delete_eq, ?lookup_insert_ne, ?lookup_delete_ne.
  - intros now k s w w' e Hc%command_Err k' _. by rewrite Hc.
  - intros now k w w' [v|e] Hc k'; [apply command_Ok in Hc; by injection Hc as <- _|apply command_Err in Hc; by rewrite Hc].
  - intros now k w w' v Hc%command_Ok. by injection Hc as _ <-.
  - intros now k s v w w' u Hc%command_Ok. injection Hc as <- _.
    split; [by rewrite lookup_insert_eq|]. intros. by rewrite lookup_insert_ne.
  - intros now k s v w w' e Hc%command_Err k' _. by rewrite Hc.
Qed.

(** The same without faults. *)
Record steady_store : Type := mkSteadyStore { steady_data : gmap string rentry }.

Definition calm {A} (v : store * res A) : steady_store * res A := (mkSteadyStore v.1.(data), v.2).
Definition of_steady (s : steady_store) : store := mkStore s.(steady_data) [].

#[export] Instance steady_redis : Redis steady_store := {
  incr now k s := calm (incr now k (of_steady s));
  expire now k sec s := calm (expire now k sec (of_steady s));
  rget now k s := calm (rget now k (of_steady s));
  setex now k sec v s := calm (setex now k sec v (of_steady s))
}.

Definition steady_entry (s : steady_store) (k : string) : option rentry := s.(steady_data) !! k.

Lemma calm_inv {A} (v : store * res A) s' r :
  calm v = (s', r) → ∃ w', v = (w', r) ∧ s'.(steady_data) = w'.(data).
Proof. destruct v as [w' r']. intros [= <- <-]. by exists w'. Qed.

#[export] Instance steady_redis_laws : RedisLaws steady_store steady_entry.
Proof.
  split; intros *; intros (w1 & E & Hd)%calm_inv; destruct w' as [d]; simpl in Hd; subst d.
  - exact (incr_ok (entry_of:=store_entry) _ _ _ _ _ E).
  - exact (incr_err (entry_of:=store_entry) _ _ _ _ _ E).
  - exact (expire_ok (entry_of:=store_entry) _ _ _ _ _ _ E).
  - exact (expire_err (entry_of:=store_entry) _ _ _ _ _ _ E).
  - exact (rget_pure (entry_of:=store_entry) _ _ _ _ _ E).
  - exact (rget_ok (entry_of:=store_entry) _ _ _ _ _ E).
  - exact (setex_ok (entry_of:=store_entry) _ _ _ _ _ _ _ E).
  - exact (setex_err (entry_of:=store_entry) _ _ _ _ _ _ _ E).
Qed.

#[export] Instance steady_reliable : ReliableRedis steady_store.
Proof.
  split; simpl; unfold command, bump; simpl; intros.
  - destruct (live_entry now (steady_data w !! k)) as [[[n|s b] x]|]; try done. by destruct (H s b).
  - by destruct (live_entry now (steady_data w !! k)).
  - done.
  - done.
Qed.

Lemma limiter_is_fixed_window_witness :
  allow_all "k" 60 2 [0; 1; 2; seconds 60; seconds 61; seconds 119] (mkSteadyStore ∅)
    = [true; true; false; true; true; false].
Proof.
  rewrite (limiter_is_fixed_window steady_entry "k" 60 2 [0; 1; 2; seconds 60; seconds 61; seconds 119] (mkSteadyStore ∅)).
  - vm_compute. reflexivity.
  - lia.
  - reflexivity.
Defined.

(** The bound is reached. *)
Lemma limiter_bound_witness :
  let ts := [0; seconds 59; seconds 59; seconds 59; seconds 60; seconds 60; seconds 60; seconds 61] in
  let n := passing ts (allow_all "k" 60 3 ts (mkSteadyStore ∅)) (in_interval (seconds 59) (seconds 60)) in
  n ≤ 6 ∧ n = 5.
Proof.
  intros ts n. split; [|vm_compute; reflexivity].
  apply (limiter_bound steady_entry "k" 60 3 ts (mkSteadyStore ∅) (seconds 59)); [lia| |reflexivity].
  unfold ts, seconds. repeat (constructor; [|repeat constructor; lia]). constructor.
Defined.

(** ** A lost EXPIRE *)

(** A counter without an expiry at its limit refuses for ever. *)
Lemma lost_expire_refuses {W} `{Redis W} (entry_of : W → string → option rentry)
    `{!RedisLaws W entry_of, !ReliableRedis W} key window limit ts : ∀ w n,
  entry_of w key = Some (mkEntry (Count n) None) → 0 < n → limit ≤ n →
  allow_all key window limit ts w = replicate (length ts) false.
Proof.
  induction ts as [|t ts IH]; intros w n He Hn Hl; [done|]. cbn [allow_all length replicate].
  destruct (incr_counter entry_of key t w (n + 1) (mkEntry (Count (n + 1)) None)) as (w1 & E1 & He1).
  { unfold bump. by rewrite He. }
  unfold allow, hit. rewrite E1. destruct (Z.eqb_spec (n + 1) 1); [lia|].
  f_equal; [|by apply (IH w1 (n + 1)); [..|lia|lia]].
  destruct (Z.ltb_spec limit (n + 1)); [done|lia].
Qed.

(** When EXPIRE fails after the first INCR, the requests after the limit are
    refused a day later still. *)
Example lost_expire_locks :
  allow_all "k" 60 2 [0; 1; 2; days 1; days 2] (mkStore ∅ [false; true]) = [true; true; false; false; false].
Proof. vm_compute. reflexivity. Qed.

(** Behind a proxy the login limit counts the failures of everyone under the
    proxy's address. *)
Example login_limit_shared :
  let a := mkOrigin (Some "1.1.1.1") None (Some "172.18.0.5") in
  let b := mkOrigin (Some "2.2.2.2") None (Some "172.18.0.5") in
  let w := (foldr (λ _ w, (rate_limit_login_failure default_settings 0 a w).1) (mkSteadyStore ∅) (seq 0 10)) in
  _client_ip a ≠ _client_ip b ∧
  (rate_limit_login_failure default_settings 0 b w).2 = Err (HTTPException 429 "Too many login attempts. Try again later.").
Proof. split; [discriminate|vm_compute; reflexivity]. Qed.

(** ** Idempotency *)

(** A stored response is what the same request gets back until its time is
    over, unless another command writes its key; and a request without a key
    neither stores nor finds anything. *)
Lemma idempotency_round_trip {W} `{Redis W} (entry_of : W → string → option rentry) `{!RedisLaws W entry_of}
    sha256_hex settings now scope rid key body status ttl (w w1 : W) u now' w2 w2' v :
  let t := Z.max 1 (let t := oint_or0 ttl in if t =? 0 then (if settings.(idempotency_ttl_seconds) =? 0 then 86400
                                  else settings.(idempotency_ttl_seconds)) else t) in
  _normalize_key (Some key) = Some key →
  setex now (_cache_key sha256_hex scope rid key) t (Payload status body) w = (w1, Ok u) →
  entry_of w2 (_cache_key sha256_hex scope rid key) = entry_of w1 (_cache_key sha256_hex scope rid key) →
  now' < now + seconds t →
  rget now' (_cache_key sha256_hex scope rid key) w2 = (w2', Ok v) →
  store_idempotency_response sha256_hex settings now scope rid (Some key) body status ttl w = w1 ∧
  (get_cached_idempotency_response sha256_hex now' scope rid (Some key) w2).2 = Some (status, body) ∧
  (∀ w', get_cached_idempotency_response sha256_hex now' scope rid None w' = (w', None)).
Proof.
  intros t Hk Hset Hsame Hlt Hget. unfold store_idempotency_response, get_cached_idempotency_response.
  rewrite Hk. fold t. rewrite Hset, Hget. split_and!; [done| |done]. simpl.
  apply setex_ok in Hset as [Hset _]. apply rget_ok in Hget as ->. rewrite Hsame, Hset. simpl.
  destruct (Z.leb_spec (now + seconds t) now'); [lia|done].
Qed.
