(* ===== verification/Auth.v ===== *)
(** * Authentication and authorization

    [core/security.py], [core/rbac.py], [core/bot_auth.py], [api/v1/auth.py] and
    the agent token of [api/v1/agent.py]: the tokens the backend makes and what
    each of its gates asks for; login, rotation of refresh tokens, logout.  JSON
    web tokens (python-jose), bcrypt and one-time passwords (pyotp) are classes
    and arguments.  Times are microseconds, the [exp] of a token seconds. *)

From S2P Require Import Prelude PyStr PyVal Settings Models RateLimit.
Open Scope Z_scope.

(** ** Tokens *)

(** [jwt.encode(claims, secret, algorithm)] and [jwt.decode], [None] where it
    raises or gives no dict. *)
Class Jwt := {
  jwt_encode : string → string → pydict → string;
  jwt_decode : string → string → Z → string → option pydict
}.

Definition secs (now : Z) : Z := now `div` 1000000.

(** A token that was made decodes to its claims up to its [exp], and nothing else
    decodes: the idealisation of a signature. *)
Class JwtLaws `{Jwt} : Prop := {
  jwt_decode_encode secret alg now claims sub e :
    getv claims "sub" = VStr sub → getv claims "exp" = VInt e →
    jwt_decode secret alg now (jwt_encode secret alg claims) = if secs now <=? e then Some claims else None;
  jwt_authentic secret alg now token claims :
    jwt_decode secret alg now token = Some claims → token = jwt_encode secret alg claims;
  jwt_same_claims secret alg now1 now2 token c1 c2 :
    jwt_decode secret alg now1 token = Some c1 → jwt_decode secret alg now2 token = Some c2 → c1 = c2
}.

Record auth_db : Type := mkAuthDb { admins : list AdminUser.t; roles : list Role.t }.

Record TokenResponse : Type := mkTokenResponse { tr_access : string; tr_refresh : string }.

Definition REFRESH_BLOCKLIST_PREFIX := "refresh_blocklist:".

(** Rows selected with [scalar_one_or_none]. *)
Definition one_or_none {A} (l : list A) : res (option A) :=
  match l with
  | [] => Ok None
  | [a] => Ok (Some a)
  | _ => Err (RuntimeError "Multiple rows were found when one or none was required")
  end.

Section auth.
Context `{Jwt} (settings : Settings).

Definition _exp (now seconds : Z) : Z := secs now + seconds.

Definition token_claims (sub type : string) (exp : Z) : pydict :=
  [("sub", VStr sub); ("type", VStr type); ("exp", VInt exp)].

Definition make_token (now : Z) (sub type : string) (seconds : Z) : string :=
  jwt_encode settings.(secret_key) settings.(jwt_algorithm) (token_claims sub type (_exp now seconds)).

Definition create_access_token (now : Z) (sub : string) : string :=
  make_token now sub "access" settings.(access_token_expire_seconds).

Definition create_refresh_token (now : Z) (sub : string) : string :=
  make_token now sub "refresh" settings.(refresh_token_expire_seconds).

Definition create_webapp_session_token (now tg_user_id expire_seconds : Z) : string :=
  make_token now (str_of_Z tg_user_id) "webapp" expire_seconds.

Definition decode_token (now : Z) (token : string) : option pydict :=
  jwt_decode settings.(secret_key) settings.(jwt_algorithm) now token.

(** [payload and payload.get("type") == type], and the payload. *)
Definition payload_of_type (now : Z) (type token : string) : option pydict :=
  p ← decode_token now token;
  if bool_decide (getv p "type" = VStr type) then Some p else None.

(** [select(AdminUser).where(AdminUser.id == sub)] *)
Definition admin_by_id (db : auth_db) (sub : pyval) : option AdminUser.t :=
  List.find (λ a, bool_decide (sub = VStr a.(AdminUser.id))) db.(admins).

(** ** The gates *)

(** The scheme and the credentials of the header, [None] without them. *)
Definition get_current_admin_optional (now : Z) (credentials : option (string * string)) (db : auth_db)
    : option AdminUser.t :=
  '(scheme, token) ← credentials;
  if negb (String.eqb (lower scheme) "bearer") then None
  else
    payload ← payload_of_type now "access" token;
    let sub := getv payload "sub" in
    if truthy sub then admin_by_id db sub else None.

Definition not_authenticated : exn := HTTPException 401 "Not authenticated".
Definition forbidden : exn := HTTPException 403 "Forbidden".

Definition get_current_admin (now : Z) credentials db : res AdminUser.t :=
  match get_current_admin_optional now credentials db with
  | Some a => Ok a
  | None => Err not_authenticated
  end.

(** The role of an admin holds the permission, or all of them. *)
Definition check_permission (permission : string) (a : AdminUser.t) (db : auth_db) : res AdminUser.t :=
  match List.find (λ r, String.eqb r.(Role.id) a.(AdminUser.role_id)) db.(roles) with
  | None => Err (HTTPException 403 "No role")
  | Some role =>
      let perms := default [] role.(Role.permissions) in
      if negb (str_in "*" perms) && negb (str_in permission perms) then Err forbidden else Ok a
  end.

Definition require_permission (permission : string) (now : Z) credentials db : res AdminUser.t :=
  admin ← get_current_admin now credentials db;
  check_permission permission admin db.

Inductive principal : Type :=
| AdminPrincipal (a : AdminUser.t)
| BotPrincipal
| WebAppPrincipal (tg_id : Z).

(** The user of a Mini App session, from the Authorization header. *)
Definition _get_tg_id_from_bearer (now : Z) (authorization : option string) : option Z :=
  let auth := default "" authorization in
  if negb (startswith "Bearer " auth) then None
  else
    payload ← payload_of_type now "webapp" (str_drop 7 auth);
    let sub := getv payload "sub" in
    if truthy sub then match int_of sub with Ok z => Some z | Err _ => None end else None.

Definition get_admin_or_bot (now : Z) (x_api_key authorization : option string)
    (credentials : option (string * string)) (db : auth_db) : res principal :=
  match get_current_admin_optional now credentials db with
  | Some a => Ok (AdminPrincipal a)
  | None =>
      let key := default "" x_api_key in
      if str_truthy key && str_truthy settings.(bot_api_key) && String.eqb key settings.(bot_api_key)
      then Ok BotPrincipal
      else match _get_tg_id_from_bearer now authorization with
           | Some tg_id => Ok (WebAppPrincipal tg_id)
           | None => Err not_authenticated
           end
  end.

Definition require_admin (p : principal) : res AdminUser.t :=
  match p with AdminPrincipal a => Ok a | _ => Err forbidden end.

Definition require_audit_read (p : principal) (db : auth_db) : res AdminUser.t :=
  match p with AdminPrincipal a => check_permission "audit:read" a db | _ => Err forbidden end.

(** ** Login *)

(** bcrypt reads at most 72 bytes. *)
Definition verify_password (checkpw : string → string → bool) (plain hashed : string) : bool :=
  checkpw (str_take 72 plain) hashed.

Definition get_admin_by_email (email : string) (db : auth_db) : res (option AdminUser.t) :=
  let norm := lower (strip email) in
  if negb (str_truthy norm) then Ok None
  else one_or_none (filterb (λ a, String.eqb (lower a.(AdminUser.email)) norm) db.(admins)).

Definition token_response (now : Z) (sub : string) : TokenResponse :=
  mkTokenResponse (create_access_token now sub) (create_refresh_token now sub).

Section redis.
Context {W : Type} `{Redis W}.
Context (sha256_hex : string → string).
Implicit Types (w : W).

(** A refused login counts, and is answered with 429 once the count is over. *)
Definition login_failed (now : Z) (o : Origin) (detail : string) w : W * res TokenResponse :=
  let '(w, r) := rate_limit_login_failure settings now o w in
  (w, match r with Ok _ => Err (HTTPException 401 detail) | Err e => Err e end).

(** [totp secret code]: [pyotp.TOTP(secret).verify(code, valid_window=1)]. *)
Definition login (checkpw totp : string → string → bool) (now : Z) (o : Origin) (email password : string)
    (totp_code : option string) (db : auth_db) w : W * res TokenResponse :=
  if negb (str_truthy (lower (strip email))) then (w, Err (HTTPException 422 "Email is required"))
  else
    match get_admin_by_email (lower (strip email)) db with
    | Err e => (w, Err e)
    | Ok None => login_failed now o "Invalid email or password" w
    | Ok (Some user) =>
        if negb (verify_password checkpw password user.(AdminUser.password_hash))
        then login_failed now o "Invalid email or password" w
        else
          let secret := default "" user.(AdminUser.totp_secret) in
          let code := default "" totp_code in
          if str_truthy secret && (negb (str_truthy code) || negb (totp secret code))
          then login_failed now o "Invalid or missing TOTP code" w
          else (w, Ok (token_response now user.(AdminUser.id)))
    end.

(** ** Refresh tokens *)

Definition _refresh_blocklist_key (token : string) : string := REFRESH_BLOCKLIST_PREFIX +:+ sha256_hex token.

(** The first [try] of [refresh]: a token that is found on the list raises inside
    it, so its own handler catches that as well. *)
Definition blocklist_gate (now : Z) (token : string) w : W * res unit :=
  let '(w, r) := rget now (_refresh_blocklist_key token) w in
  let found := match r with
               | Ok (Some _) => Err (HTTPException 401 "Token revoked")
               | Ok None => Ok tt
               | Err e => Err e
               end in
  (w, match found with
      | Ok _ => Ok tt
      | Err _ => if settings.(refresh_blocklist_fail_closed)
                 then Err (HTTPException 503 "Authentication temporarily unavailable") else Ok tt
      end).

Definition invalid_refresh : exn := HTTPException 401 "Invalid refresh token".

(** The admin and the [exp] of a refresh token. *)
Definition refresh_subject (now : Z) (token : string) (db : auth_db) : res (AdminUser.t * Z) :=
  match payload_of_type now "refresh" token with
  | None => Err invalid_refresh
  | Some payload =>
      let sub := getv payload "sub" in
      if negb (truthy sub) then Err invalid_refresh
      else match admin_by_id db sub with
           | None => Err (HTTPException 401 "User not found")
           | Some user => exp ← int_of (getd payload "exp" (VInt 0)); Ok (user, exp)
           end
  end.

Definition refresh (now : Z) (credentials : option (string * string)) (db : auth_db) w : W * res TokenResponse :=
  match credentials with
  | None => (w, Err (HTTPException 401 "Missing refresh token"))
  | Some (scheme, token) =>
      if negb (String.eqb (lower scheme) "bearer") then (w, Err (HTTPException 401 "Missing refresh token"))
      else
        let '(w, r) := blocklist_gate now token w in
        match r with
        | Err e => (w, Err e)
        | Ok _ =>
            match refresh_subject now token db with
            | Err e => (w, Err e)
            | Ok (user, exp) =>
                let ttl := Z.max 1 (exp - secs now) in
                ((setex now (_refresh_blocklist_key token) ttl (Count 1) w).1,
                 Ok (token_response now user.(AdminUser.id)))
            end
        end
  end.

(** [setex] with a time to live that is a float, given in microseconds. *)
Context (setex_float : Z → string → Z → rvalue → W → W * res unit).

(** [max(1, int(exp) - time.time())] is the integer 1, or else a float. *)
Definition logout (now : Z) (refresh_token : string) w : W * res unit :=
  match payload_of_type now "refresh" refresh_token with
  | Some payload =>
      match dget "exp" payload with
      | None => (w, Ok tt)
      | Some v =>
          match int_of v with
          | Err e => (w, Err e)
          | Ok exp =>
              let key := _refresh_blocklist_key refresh_token in
              let left := seconds exp - now in
              ((if left <=? seconds 1 then setex now key 1 (Count 1) w
                else setex_float now key left (Count 1) w).1, Ok tt)
          end
      end
  | None => (w, Ok tt)
  end.
End redis.

(** ** Two-factor authentication *)

Definition update_admin (id : string) (f : AdminUser.t → AdminUser.t) (db : auth_db) : auth_db :=
  mkAuthDb ((λ a, if String.eqb a.(AdminUser.id) id then f a else a) <$> db.(admins)) db.(roles).

(** The secret is an argument; the answer is the secret, which the provisioning
    address holds as well. *)
Definition totp_setup (now : Z) credentials (secret : string) (db : auth_db) : auth_db * res string :=
  match get_current_admin now credentials db with
  | Err e => (db, Err e)
  | Ok user => (update_admin user.(AdminUser.id) (AdminUser.set_totp_secret (Some secret)) db, Ok secret)
  end.

Definition totp_disable (now : Z) credentials (db : auth_db) : auth_db * res unit :=
  match get_current_admin now credentials db with
  | Err e => (db, Err e)
  | Ok user => (update_admin user.(AdminUser.id) (AdminUser.set_totp_secret None) db, Ok tt)
  end.
End auth.

(** ** What the gates accept *)

Section gates.
Context `{JwtLaws} (settings : Settings).

Lemma payload_inv now type token p :
  payload_of_type settings now type token = Some p →
  decode_token settings now token = Some p ∧ getv p "type" = VStr type.
Proof.
  unfold payload_of_type. intros (q & Hq & Hp)%bind_Some. case_bool_decide; by simplify_eq.
Qed.

Lemma claims_sub sub type e : getv (token_claims sub type e) "sub" = VStr sub.
Proof. done. Qed.
Lemma claims_type sub type e : getv (token_claims sub type e) "type" = VStr type.
Proof. done. Qed.
Lemma claims_exp sub type e : dget "exp" (token_claims sub type e) = Some (VInt e).
Proof. done. Qed.

(** A token the backend made has its payload in its own kind, until it expires. *)
Lemma payload_of_made now t0 sub type type' n :
  payload_of_type settings now type' (make_token settings t0 sub type n) =
    if (secs now <=? secs t0 + n) && String.eqb type type'
    then Some (token_claims sub type (secs t0 + n)) else None.
Proof using Type*.
  unfold payload_of_type, decode_token, make_token. erewrite jwt_decode_encode by reflexivity. unfold _exp.
  destruct (secs now <=? secs t0 + n); [|done]. cbn [mbind option_bind andb].
  rewrite claims_type.
  destruct (String.eqb_spec type type') as [->|Hne]; case_bool_decide; congruence.
Qed.

(** What a kind of token gives an admin's session, a refresh and a Mini App. *)
Definition admin_of_sub (db : auth_db) (sub : string) : option AdminUser.t :=
  if str_truthy sub then admin_by_id db (VStr sub) else None.

Lemma current_admin_of_made now scheme t0 sub type n db :
  lower scheme = "bearer" →
  get_current_admin_optional settings now (Some (scheme, make_token settings t0 sub type n)) db =
    if (secs now <=? secs t0 + n) && String.eqb type "access" then admin_of_sub db sub else None.
Proof using Type*.
  intros Hs. unfold get_current_admin_optional, admin_of_sub. cbn [mbind option_bind]. rewrite Hs.
  cbn [negb String.eqb Ascii.eqb Bool.eqb]. rewrite payload_of_made. destruct (_ && _); [|reflexivity].
  by cbn [mbind option_bind]; rewrite claims_sub.
Qed.

Lemma tg_id_of_made now t0 sub type n :
  _get_tg_id_from_bearer settings now (Some ("Bearer " +:+ make_token settings t0 sub type n)) =
    if (secs now <=? secs t0 + n) && String.eqb type "webapp" && str_truthy sub then py_int sub else None.
Proof using Type*.
  unfold _get_tg_id_from_bearer. cbn [from_option]. unfold id.
  rewrite startswith_app.
  replace (str_drop 7 _) with (make_token settings t0 sub type n)
    by (unfold str_drop; rewrite chars_app; simpl; by rewrite drop_0, of_chars_chars).
  cbn [negb]. rewrite payload_of_made. destruct (_ && String.eqb type "webapp"); [|reflexivity].
  cbn [mbind option_bind andb]. rewrite claims_sub. cbn [truthy int_of].
  destruct (str_truthy sub); [|done]. unfold int_or_raise. by destruct (py_int sub).
Qed.
End gates.

(** The three kinds of tokens are kept apart.  A token made for one use gives
    an admin, a refresh or a Mini App session only if it was made for that use and
    its time is not over, and then exactly the admin, or the user, it was made for. *)
Theorem tokens_kept_apart `{JwtLaws} settings now t0 scheme db sub tg_id n :
  lower scheme = "bearer" →
  let access := create_access_token settings t0 sub in
  let refresh := create_refresh_token settings t0 sub in
  let session := create_webapp_session_token settings t0 tg_id n in
  let admin_with token := get_current_admin_optional settings now (Some (scheme, token)) db in
  let refreshed token := is_ok (refresh_subject settings now token db) in
  let user_with token := _get_tg_id_from_bearer settings now (Some ("Bearer " +:+ token)) in
  let valid ttl := secs now <=? secs t0 + ttl in
  admin_with access = (if valid settings.(access_token_expire_seconds) then admin_of_sub db sub else None) ∧
  admin_with refresh = None ∧ admin_with session = None ∧
  refreshed refresh = valid settings.(refresh_token_expire_seconds) && is_some (admin_of_sub db sub) ∧
  refreshed access = false ∧ refreshed session = false ∧
  user_with session = (if valid n then Some tg_id else None) ∧
  user_with access = None ∧ user_with refresh = None.
Proof.
  intros Hs. cbn zeta. unfold create_access_token, create_refresh_token, create_webapp_session_token.
  rewrite !current_admin_of_made, !tg_id_of_made by done. unfold refresh_subject. rewrite !payload_of_made.
  cbn [String.eqb Ascii.eqb Bool.eqb]. rewrite !andb_false_r, !andb_true_r.
  split_and!; try done.
  - destruct (_ <=? _); [|done]. unfold admin_of_sub. rewrite claims_sub. cbn [truthy negb].
    destruct (str_truthy sub); [|done]. by destruct (admin_by_id db (VStr sub)).
  - destruct (_ <=? _); [|done]. pose proof (proj2 (str_of_Z_chars tg_id)) as Hne.
    replace (str_truthy (str_of_Z tg_id)) with true; [apply py_int_str_of_Z|].
    symmetry. by apply str_truthy_true.
Qed.

Lemma admin_by_id_Some db sub a : admin_by_id db sub = Some a → sub = VStr a.(AdminUser.id) ∧ a ∈ db.(admins).
Proof. unfold admin_by_id. intros [Hin Hb]%List.find_some. case_bool_decide; [|done]. by rewrite list_elem_of_In. Qed.

Lemma check_permission_Ok permission a db b :
  check_permission permission a db = Ok b →
  a = b ∧ ∃ role perms, role ∈ db.(roles) ∧ role.(Role.id) = a.(AdminUser.role_id) ∧
    role.(Role.permissions) = Some perms ∧ (permission ∈ perms ∨ "*" ∈ perms).
Proof.
  unfold check_permission. destruct (List.find _ _) as [role|] eqn:Er; [|done].
  apply List.find_some in Er as [Hr Hid%String.eqb_eq]. apply list_elem_of_In in Hr.
  destruct (negb _ && negb _) eqn:Ep; [done|]. intros [= <-]. split; [done|].
  apply andb_false_iff in Ep. rewrite !negb_false_iff, !str_in_true in Ep.
  destruct (role.(Role.permissions)) as [perms|] eqn:Eps; [|by destruct Ep as [?%elem_of_nil|?%elem_of_nil]].
  exists role, perms. split_and!; [done..|]. destruct Ep; [by right|by left].
Qed.

(** C23: what a permission gate lets through.  The request carries an access token
    of the backend, not expired, for an admin there is, whose role there is and
    holds the permission or all of them. *)
Theorem permission_gate_sound `{JwtLaws} settings permission now credentials db a :
  require_permission settings permission now credentials db = Ok a →
  ∃ scheme token claims role perms,
    credentials = Some (scheme, token) ∧ lower scheme = "bearer" ∧
    token = jwt_encode settings.(secret_key) settings.(jwt_algorithm) claims ∧
    getv claims "type" = VStr "access" ∧ getv claims "sub" = VStr a.(AdminUser.id) ∧
    (∀ e, getv claims "exp" = VInt e → secs now ≤ e) ∧ a ∈ db.(admins) ∧
    role ∈ db.(roles) ∧ role.(Role.id) = a.(AdminUser.role_id) ∧ role.(Role.permissions) = Some perms ∧
    (permission ∈ perms ∨ "*" ∈ perms).
Proof.
  unfold require_permission. intros (b & Ha & Hp)%res_bind_ok.
  unfold get_current_admin in Ha. destruct (get_current_admin_optional _ _ _ _) as [b'|] eqn:E; [|done].
  injection Ha as ->. apply check_permission_Ok in Hp as (<- & role & perms & Hr & Hid & Hps & Hin).
  unfold get_current_admin_optional in E. apply bind_Some in E as ([scheme token] & -> & E).
  destruct (String.eqb_spec (lower scheme) "bearer") as [Hs|]; [|done]. cbn [negb] in E.
  apply bind_Some in E as (claims & (Hd & Ht)%payload_inv & E).
  destruct (truthy (getv claims "sub")); [|done]. apply admin_by_id_Some in E as [Hsub Hb].
  exists scheme, token, claims, role, perms. split_and!; [done|done|by eapply jwt_authentic|done|done| |done..].
  intros e He. unfold decode_token in Hd. pose proof Hd as ->%jwt_authentic.
  erewrite jwt_decode_encode in Hd by done. by destruct (Z.leb_spec (secs now) e).
Qed.

(** ** Refresh tokens in the course of requests *)

Inductive auth_request : Type :=
| Login (o : Origin) (email password : string) (totp_code : option string)
| Refresh (credentials : option (string * string))
| Logout (refresh_token : string).

Section history.
Context `{Jwt} (settings : Settings) {W : Type} `{Redis W}.
Context (sha256_hex : string → string) (setex_float : Z → string → Z → rvalue → W → W * res unit).
Context (checkpw totp : string → string → bool).

(** A request at a time, on the rows there are then. *)
Definition auth_serve (req : Z * auth_db * auth_request) (w : W) : W :=
  let '(now, db, r) := req in
  match r with
  | Login o email password code => (login settings checkpw totp now o email password code db w).1
  | Refresh credentials => (refresh settings sha256_hex now credentials db w).1
  | Logout token => (logout settings sha256_hex setex_float now token w).1
  end.

(** Whether the request is answered with new tokens for this one, before its [exp]. *)
Definition exchanges (token : string) (req : Z * auth_db * auth_request) (w : W) : bool :=
  let '(now, db, r) := req in
  match r with
  | Refresh (Some (scheme, t)) =>
      String.eqb t token && is_ok (refresh settings sha256_hex now (Some (scheme, t)) db w).2 &&
      match refresh_subject settings now t db with Ok (_, e) => now <? seconds e | Err _ => false end
  | _ => false
  end.

Fixpoint exchanged (token : string) (reqs : list (Z * auth_db * auth_request)) (w : W) : nat :=
  match reqs with
  | [] => 0
  | r :: reqs => Nat.b2n (exchanges token r w) + exchanged token reqs (auth_serve r w)
  end.
End history.

Section single_use.
Context `{JwtLaws} (settings : Settings) {W : Type} `{Redis W} (entry_of : W → string → option rentry).
Context `{!RedisLaws W entry_of, !ReliableRedis W}.
Context (sha256_hex : string → string) `{!Inj (=) (=) sha256_hex}.
Context (setex_float : Z → string → Z → rvalue → W → W * res unit).
Context (Hfloat : ∀ now k left v w k', entry_of (setex_float now k left v w).1 k' = entry_of w k').
Context (checkpw totp : string → string → bool).

(** The token is on the list until its [exp]. *)
Definition blocked (token : string) (e : Z) (w : W) : Prop :=
  ∃ v x, entry_of w (_refresh_blocklist_key sha256_hex token) = Some (mkEntry v (Some x)) ∧ seconds e ≤ x.

Lemma hit_elsewhere now k k' window (w w' : W) r :
  hit now k window w = (w', r) → k' ≠ k → entry_of w' k' = entry_of w k'.
Proof using Type*.
  unfold hit. destruct (incr now k w) as [w1 [n|err]] eqn:E1; intros E Hk.
  - apply incr_ok in E1 as [_ E1]. destruct (n =? 1); [|simplify_eq; by apply E1].
    destruct (expire now k window w1) as [w2 [u|err]] eqn:E2; simplify_eq.
    + apply expire_ok in E2 as [_ E2]. by rewrite E2, E1.
    + eapply expire_err in E2; [|done]. by rewrite E2, E1.
  - simplify_eq. by eapply incr_err.
Qed.

Lemma key_not_login token ip : _refresh_blocklist_key sha256_hex token ≠ KEY_PREFIX_LOGIN +:+ ip.
Proof. done. Qed.

Lemma key_inj t1 t2 : _refresh_blocklist_key sha256_hex t1 = _refresh_blocklist_key sha256_hex t2 → t1 = t2.
Proof using Type*. unfold _refresh_blocklist_key. by intros ?%(inj (String.app _))%(inj sha256_hex). Qed.

Lemma login_keeps now o email password code db w token :
  entry_of (login settings checkpw totp now o email password code db w).1 (_refresh_blocklist_key sha256_hex token) =
  entry_of w (_refresh_blocklist_key sha256_hex token).
Proof using Type*.
  assert (∀ d, entry_of (login_failed settings now o d w).1 (_refresh_blocklist_key sha256_hex token) =
               entry_of w (_refresh_blocklist_key sha256_hex token)) as Hf.
  { intros d. unfold login_failed, rate_limit_login_failure. destruct (hit _ _ _ w) as [w' r] eqn:E. simpl.
    eapply hit_elsewhere; [exact E|]. apply key_not_login. }
  unfold login. destruct (negb _); [done|]. destruct (get_admin_by_email _ _) as [[u|]|]; [|apply Hf|done].
  destruct (negb _); [apply Hf|]. destruct (_ && _); [apply Hf|done].
Qed.

(** SETEX on the list, of this token or of another. *)
Lemma setex_blocked now t s v w token e :
  blocked token e w → (t = token → seconds e ≤ now + seconds s) →
  blocked token e (setex now (_refresh_blocklist_key sha256_hex t) s v w).1.
Proof using Type*.
  intros (v0 & x & Hv & Hx) Ht. pose proof (setex_total now (_refresh_blocklist_key sha256_hex t) s v w) as Hok.
  destruct (setex now _ s v w) as [w' [u|]] eqn:E; [|done]. apply setex_ok in E as [E Eo]. simpl.
  destruct (decide (t = token)) as [->|Hne]; [by eexists _, _; split; [exact E|auto]|].
  exists v0, x. split; [|done]. rewrite Eo; [done|]. by intros ?%key_inj.
Qed.

(** The [exp] a refresh token has, at any time. *)
Definition token_exp (token : string) (e : Z) : Prop := ∀ now p e',
  payload_of_type settings now "refresh" token = Some p → int_of (getd p "exp" (VInt 0)) = Ok e' → e' = e.

Lemma refresh_subject_Ok now token db u e :
  refresh_subject settings now token db = Ok (u, e) →
  ∃ p, payload_of_type settings now "refresh" token = Some p ∧ int_of (getd p "exp" (VInt 0)) = Ok e.
Proof.
  unfold refresh_subject. destruct (payload_of_type _ _ _ _) as [p|]; [|done].
  destruct (negb _); [done|]. destruct (admin_by_id _ _) as [a|]; [|done].
  intros (x & Hx & [= -> ->])%res_bind_ok. by exists p.
Qed.

Lemma subject_token_exp now token db u e : refresh_subject settings now token db = Ok (u, e) → token_exp token e.
Proof using Type*.
  intros (p & [Hp _]%payload_inv & He)%refresh_subject_Ok now' p' e' [Hp' _]%payload_inv He'.
  unfold decode_token in *. rewrite (jwt_same_claims _ _ _ _ _ _ _ Hp' Hp) in He'. congruence.
Qed.

Lemma rget_blocked now k w v x w' r :
  entry_of w k = Some (mkEntry v (Some x)) → now < x → rget now k w = (w', r) → r = Ok (Some v).
Proof using Type*.
  intros He Hx E. pose proof (rget_total now k w) as Hok. rewrite E in Hok. destruct r as [o|]; [|done].
  apply rget_ok in E as ->. rewrite He. simpl. by destruct (Z.leb_spec x now); [lia|].
Qed.

Lemma gate_keeps now t w k : entry_of (blocklist_gate settings sha256_hex now t w).1 k = entry_of w k.
Proof using Type*.
  unfold blocklist_gate. destruct (rget _ _ w) as [w' r] eqn:E. simpl. by eapply rget_pure.
Qed.

(** New tokens come with the old one on the list until its end, at least. *)
Lemma refresh_step now credentials db w w' r token e :
  refresh settings sha256_hex now credentials db w = (w', r) → token_exp token e → blocked token e w → blocked token e w'.
Proof using Type*.
  intros E Ht Hb. unfold refresh in E. destruct credentials as [[scheme t]|]; [|by simplify_eq].
  destruct (negb _); [by simplify_eq|]. pose proof (gate_keeps now t w) as Hg.
  destruct (blocklist_gate _ _ now t w) as [w1 [u|]]; simpl in Hg.
  - assert (blocked token e w1) as Hb1 by (destruct Hb as (v & x & ? & ?); exists v, x; by rewrite Hg).
    destruct (refresh_subject settings now t db) as [[a x]|] eqn:Es; simplify_eq; [|done].
    apply setex_blocked; [done|]. intros ->. apply refresh_subject_Ok in Es as (p & Hp & Hx).
    rewrite (Ht now p x Hp Hx). unfold seconds, secs. pose proof (Z.mul_div_le now 1000000). lia.
  - simplify_eq. destruct Hb as (v & x & ? & ?). exists v, x. by rewrite Hg.
Qed.

Lemma logout_step now t w token e :
  token_exp token e → blocked token e w → blocked token e (logout settings sha256_hex setex_float now t w).1.
Proof using Type*.
  intros Ht Hb. unfold logout. destruct (payload_of_type _ _ _ _) as [p|] eqn:Hp; [|done].
  destruct (dget "exp" p) as [v|] eqn:Hv; [|done]. destruct (int_of v) as [x|] eqn:Hx; [|done].
  cbn [fst]. destruct (Z.leb_spec (seconds x - now) (seconds 1)).
  - apply setex_blocked; [done|]. intros ->. rewrite <- (Ht now p x Hp); [lia|]. unfold getd. by rewrite Hv.
  - destruct Hb as (v0 & y & ? & ?). exists v0, y. by rewrite Hfloat.
Qed.

Lemma serve_blocked req w token e :
  token_exp token e → blocked token e w →
  blocked token e (auth_serve settings sha256_hex setex_float checkpw totp req w).
Proof using Type*.
  intros Ht Hb. destruct req as [[now db] [o email password code|credentials|t]]; cbn [auth_serve].
  - destruct Hb as (v & x & Hv & Hx). exists v, x. by rewrite login_keeps.
  - destruct (refresh _ _ now credentials db w) as [w' r] eqn:E. by eapply refresh_step.
  - by apply logout_step.
Qed.

Lemma exchange_blocks token req w :
  exchanges settings sha256_hex token req w = true →
  ∃ e, token_exp token e ∧ blocked token e (auth_serve settings sha256_hex setex_float checkpw totp req w).
Proof using Type*.
  destruct req as [[now db] [o email password code|[[scheme t]|]|t]]; [done| |done..].
  unfold exchanges, auth_serve, refresh. rewrite !andb_true_iff. intros [[->%String.eqb_eq Hok] He].
  destruct (refresh_subject settings now token db) as [[u e]|] eqn:Es; [|done]. exists e.
  split; [by eapply subject_token_exp|]. destruct (negb _); [done|].
  destruct (blocklist_gate _ _ now token w) as [w1 [[]|]]; [|done]. cbn [fst snd] in *.
  pose proof (setex_total now (_refresh_blocklist_key sha256_hex token) (Z.max 1 (e - secs now)) (Count 1) w1) as Ht.
  destruct (setex _ _ _ _ w1) as [w2 [[]|]] eqn:E; [|done]. apply setex_ok in E as [E _].
  eexists _, _. split; [exact E|]. unfold seconds, secs. pose proof (Z.mul_div_le now 1000000). lia.
Qed.

Lemma blocked_refused token e req w :
  settings.(refresh_blocklist_fail_closed) = true → token_exp token e → blocked token e w →
  exchanges settings sha256_hex token req w = false.
Proof using Type*.
  intros Hc Ht (v & x & Hv & Hx). destruct req as [[now db] [o email password code|[[scheme t]|]|t]]; [done| |done..].
  unfold exchanges. destruct (String.eqb_spec t token) as [->|]; [|done].
  destruct (refresh_subject settings now token db) as [[u e']|] eqn:Es; [|by rewrite andb_false_r].
  apply refresh_subject_Ok in Es as (p & Hp & He). pose proof (Ht now p e' Hp He) as ->.
  destruct (Z.ltb_spec now (seconds e)); [|by rewrite andb_false_r]. rewrite andb_true_r. simpl.
  unfold refresh, blocklist_gate. destruct (negb _); [done|].
  destruct (rget now _ w) as [w1 r] eqn:E. eapply rget_blocked in E as ->; [|exact Hv|lia]. by rewrite Hc.
Qed.

Lemma blocked_exchanged token e reqs : ∀ w,
  settings.(refresh_blocklist_fail_closed) = true → token_exp token e → blocked token e w →
  exchanged settings sha256_hex setex_float checkpw totp token reqs w = 0%nat.
Proof using Type*.
  induction reqs as [|r reqs IH]; intros w Hc Ht Hb; [done|]. cbn [exchanged].
  rewrite (blocked_refused token e) by done. by rewrite IH by (done || by apply serve_blocked).
Qed.

Lemma exchanged_once token reqs : ∀ w, settings.(refresh_blocklist_fail_closed) = true →
  (exchanged settings sha256_hex setex_float checkpw totp token reqs w ≤ 1)%nat.
Proof using Type*.
  induction reqs as [|r reqs IH]; intros w Hc; cbn [exchanged]; [lia|].
  destruct (exchanges _ _ token r w) eqn:E; [|by apply IH].
  apply exchange_blocks in E as (e & Ht & Hb). erewrite blocked_exchanged by done. done.
Qed.
End single_use.

(** C22: a refresh token is exchanged once.  With REFRESH_BLOCKLIST_FAIL_CLOSED and
    a Redis that answers, no sequence of logins, refreshes and logouts, at whatever
    times and rows, exchanges a token twice before its [exp].  The hash has no
    collisions; Redis refuses a time to live that is not an integer. *)
Theorem refresh_single_use `{JwtLaws} settings {W} `{Redis W} (entry_of : W → string → option rentry)
    `{!RedisLaws W entry_of, !ReliableRedis W} sha256_hex setex_float checkpw totp token reqs w :
  Inj (=) (=) sha256_hex →
  (∀ now k left v w k', entry_of (setex_float now k left v w).1 k' = entry_of w k') →
  settings.(refresh_blocklist_fail_closed) = true →
  (exchanged settings sha256_hex setex_float checkpw totp token reqs w ≤ 1)%nat.
Proof. intros Hi Hf Hc. by apply (exchanged_once settings entry_of). Qed.

(** Without it, the default, the list is not a list.  A refresh is answered
    the same whatever Redis holds or does, so also for a token that was exchanged
    before or logged out: the refusal is raised inside the [try] whose handler
    lets every exception pass. *)
Theorem refresh_ignores_blocklist `{Jwt} settings {W} `{Redis W} sha256_hex now credentials db (w : W) :
  settings.(refresh_blocklist_fail_closed) = false →
  (refresh settings sha256_hex now credentials db w).2 =
    match credentials with
    | Some (scheme, token) =>
        if String.eqb (lower scheme) "bearer"
        then (λ s, token_response settings now s.1.(AdminUser.id)) <$> refresh_subject settings now token db
        else Err (HTTPException 401 "Missing refresh token")
    | None => Err (HTTPException 401 "Missing refresh token")
    end.
Proof.
  intros Hc. unfold refresh. destruct credentials as [[scheme token]|]; [|done].
  destruct (String.eqb _ _); [|done]. cbn [negb]. unfold blocklist_gate. rewrite Hc.
  destruct (rget _ _ w) as [w1 [[v|]|e]]; by destruct (refresh_subject settings now token db) as [[u x]|].
Qed.

(** A logout is answered with success, and changes nothing in Redis unless the
    token has less than a second left: the time to live it computes is a float. *)
Lemma logout_revokes_nothing `{Jwt} settings {W} `{Redis W} (entry_of : W → string → option rentry) sha256_hex setex_float
    now token p e (w : W) k :
  (∀ now k left v w k', entry_of (setex_float now k left v w).1 k' = entry_of w k') →
  payload_of_type settings now "refresh" token = Some p → dget "exp" p = Some (VInt e) → now + seconds 1 < seconds e →
  let '(w', r) := logout settings sha256_hex setex_float now token w in
  r = Ok tt ∧ entry_of w' k = entry_of w k.
Proof.
  intros Hf Hp He Hlt. unfold logout. rewrite Hp, He. cbn [int_of].
  destruct (Z.leb_spec (seconds e - now) (seconds 1)); [lia|]. split; [done|apply Hf].
Qed.

(** The right password and code are answered with tokens, and Redis is not asked:
    the count of failures does not stop a guess. *)
Lemma login_unlimited `{Jwt} settings {W} `{Redis W} checkpw totp now o email password code db (w : W) user :
  get_admin_by_email (lower (strip email)) db = Ok (Some user) →
  verify_password checkpw password user.(AdminUser.password_hash) = true →
  (∀ s, user.(AdminUser.totp_secret) = Some s → s ≠ "" → ∃ c, code = Some c ∧ c ≠ "" ∧ totp s c = true) →
  login settings checkpw totp now o email password code db w = (w, Ok (token_response settings now user.(AdminUser.id))).
Proof.
  intros Hu Hp Ht. unfold login. destruct (str_truthy (lower (strip email))) eqn:He.
  2: { apply str_truthy_false in He. by rewrite He in Hu. }
  cbn [negb]. rewrite Hu, Hp. cbn [negb]. destruct (user.(AdminUser.totp_secret)) as [s|]; [|done].
  cbn [from_option]. unfold id. destruct (str_truthy s) eqn:Hs; [|done]. apply str_truthy_true in Hs.
  destruct (Ht s eq_refl Hs) as (c & -> & Hc & Hv). cbn [from_option]. apply str_truthy_true in Hc.
  by rewrite Hc, Hv.
Qed.

(** ** Tokens for the witnesses: the claims in binary *)

Definition pyval_code (v : pyval) : unit + (bool + (Z + string)) :=
  match v with VNone => inl () | VBool b => inr (inl b) | VInt z => inr (inr (inl z)) | VStr s => inr (inr (inr s)) end.

Definition pyval_decode (c : unit + (bool + (Z + string))) : pyval :=
  match c with inl _ => VNone | inr (inl b) => VBool b | inr (inr (inl z)) => VInt z | inr (inr (inr s)) => VStr s end.

#[export] Instance pyval_countable : Countable pyval.
Proof. apply (inj_countable' pyval_code pyval_decode). by intros []. Defined.

Fixpoint bits (p : positive) : string :=
  match p with xH => "" | xO p => String "0" (bits p) | xI p => String "1" (bits p) end.

Fixpoint of_bits (s : string) : option positive :=
  match s with
  | "" => Some xH
  | String "0" s => xO <$> of_bits s
  | String "1" s => xI <$> of_bits s
  | String _ _ => None
  end%string.

Lemma of_bits_bits p : of_bits (bits p) = Some p.
Proof. induction p as [p IH|p IH|]; simpl; by rewrite ?IH. Qed.

Lemma bits_of_bits s p : of_bits s = Some p → s = bits p.
Proof.
  revert p. induction s as [|a s IH]; simpl; intros p; [by intros [= <-]|].
  destruct a as [[] [] [] [] [] [] [] []]; try done;
    intros (q & Hq & ->)%fmap_Some; simpl; by rewrite <- (IH q Hq).
Qed.

Definition signed (secret alg : string) (claims : pydict) : positive := encode (secret, alg, claims).

Lemma decode_signed secret alg claims : decode (signed secret alg claims) = Some (secret, alg, claims).
Proof. apply decode_encode. Qed.

Definition unexpired (now : Z) (claims : pydict) : bool :=
  match getv claims "exp" with VInt e => secs now <=? e | _ => false end.

#[export] Instance bit_jwt : Jwt := {
  jwt_encode secret alg claims := bits (signed secret alg claims);
  jwt_decode secret alg now token :=
    p ← of_bits token;
    '(_, _, claims) ← decode (A:=string * string * pydict) p;
    if bool_decide (p = signed secret alg claims) && unexpired now claims then Some claims else None
}.

Lemma bit_decode secret alg now token claims :
  jwt_decode secret alg now token = Some claims →
  token = bits (signed secret alg claims) ∧ unexpired now claims = true.
Proof.
  simpl. intros (p & Hp & ([[s a] c] & _ & Hc)%bind_Some)%bind_Some.
  case_bool_decide as He; [|done]. destruct (unexpired now c) eqn:Hu; simplify_eq/=.
  apply bits_of_bits in Hp. by subst.
Qed.

#[export] Instance bit_jwt_laws : JwtLaws.
Proof.
  split.
  - intros secret alg now claims sub e _ He. cbn [jwt_decode jwt_encode bit_jwt]. rewrite of_bits_bits.
    cbn [mbind option_bind]. rewrite decode_signed. cbn [mbind option_bind]. rewrite bool_decide_true by done.
    unfold unexpired. by rewrite He.
  - intros * [-> _]%bit_decode. done.
  - intros * [-> _]%bit_decode [H _]%bit_decode.
    assert (Some (signed secret alg c1) = Some (signed secret alg c2)) as [= E] by (rewrite <- !of_bits_bits; by f_equal).
    by apply (inj encode) in E as [= ->].
Qed.

(** An administrator, a role and a Redis that refuses fractional times to live. *)
Definition wit_auth_db : auth_db :=
  mkAuthDb [AdminUser.mk "a1" "Admin@Example.com" "hash" "r1" None]
    [Role.mk "r1" "viewer" (Some ["devices:read"; "servers:read"])].

Definition refuse_float (now : Z) (k : string) (left : Z) (v : rvalue) (w : steady_store) : steady_store * res unit :=
  (w, Err (RuntimeError "ERR value is not an integer or out of range")).

Definition closed_settings : Settings := with_refresh_fail_closed true default_settings.

Definition wit_refresh_token : string := create_refresh_token closed_settings (seconds 100) "a1".

Lemma tokens_kept_apart_witness :
  get_current_admin_optional default_settings (seconds 999)
    (Some ("Bearer", create_access_token default_settings (seconds 100) "a1")) wit_auth_db
    = Some (AdminUser.mk "a1" "Admin@Example.com" "hash" "r1" None).
Proof.
  rewrite (proj1 (tokens_kept_apart default_settings (seconds 999) (seconds 100) "Bearer" wit_auth_db "a1" 7 3600 eq_refl)).
  vm_compute. reflexivity.
Defined.

Lemma permission_gate_sound_witness :
  let gate p := require_permission default_settings p (seconds 999)
                  (Some ("Bearer", create_access_token default_settings (seconds 100) "a1")) wit_auth_db in
  is_ok (gate "devices:write") = false ∧
  ∃ role perms, role ∈ wit_auth_db.(roles) ∧ role.(Role.permissions) = Some perms ∧
    ("devices:read" ∈ perms ∨ "*" ∈ perms).
Proof.
  intros gate. split; [vm_compute; reflexivity|].
  assert (gate "devices:read" = Ok (AdminUser.mk "a1" "Admin@Example.com" "hash" "r1" None)) as E
    by (vm_compute; reflexivity).
  destruct (permission_gate_sound default_settings "devices:read" (seconds 999) _ _ _ E)
    as (_ & _ & _ & role & perms & _ & _ & _ & _ & _ & _ & _ & Hr & _ & Hp & Hin).
  exists role, perms. split; [exact Hr|split; [exact Hp|exact Hin]].
Defined.

Lemma refresh_single_use_witness :
  let replay t := (seconds t, wit_auth_db, Refresh (Some ("Bearer", wit_refresh_token))) in
  let n := exchanged closed_settings id refuse_float (λ _ _, true) (λ _ _, true) wit_refresh_token
             [replay 200; replay 300; replay 400] (mkSteadyStore ∅) in
  (n ≤ 1)%nat ∧ n = 1%nat.
Proof.
  intros replay n. split; [|vm_compute; reflexivity].
  apply (refresh_single_use closed_settings steady_entry id refuse_float (λ _ _, true) (λ _ _, true) wit_refresh_token
           [replay 200; replay 300; replay 400] (mkSteadyStore ∅)); [exact (λ x y H, H)|reflexivity|reflexivity].
Defined.

Lemma refresh_ignores_blocklist_witness :
  let token := create_refresh_token default_settings (seconds 100) "a1" in
  let listed := mkSteadyStore {[ _refresh_blocklist_key id token := mkEntry (Count 1) None ]} in
  (refresh default_settings id (seconds 200) (Some ("Bearer", token)) wit_auth_db listed).2 =
    Ok (token_response default_settings (seconds 200) "a1").
Proof.
  intros token listed.
  rewrite (refresh_ignores_blocklist default_settings id (seconds 200) (Some ("Bearer", token)) wit_auth_db listed eq_refl).
  vm_compute. reflexivity.
Defined.

(** Even with the list enforced: a token is exchanged after its logout; a token
    that is exchanged in the second it was made comes back as the new one, and is
    refused from then on; and in the last second of a token its entry is gone. *)
Example logout_then_refresh :
  let w := auth_serve closed_settings id refuse_float (λ _ _, true) (λ _ _, true)
             (seconds 150, wit_auth_db, Logout wit_refresh_token) (mkSteadyStore ∅) in
  is_ok (refresh closed_settings id (seconds 200) (Some ("Bearer", wit_refresh_token)) wit_auth_db w).2 = true.
Proof. vm_compute. reflexivity. Qed.

Example rotation_within_a_second :
  let '(w, r) := refresh closed_settings id (seconds 100) (Some ("Bearer", wit_refresh_token)) wit_auth_db (mkSteadyStore ∅) in
  match r with
  | Ok t => t.(tr_refresh) = wit_refresh_token ∧
      (refresh closed_settings id (seconds 500) (Some ("Bearer", t.(tr_refresh))) wit_auth_db w).2 =
        Err (HTTPException 503 "Authentication temporarily unavailable")
  | Err _ => False
  end.
Proof. vm_compute. split; reflexivity. Qed.

Example replay_in_last_second :
  let replay t w := refresh closed_settings id t (Some ("Bearer", wit_refresh_token)) wit_auth_db w in
  let '(w, r) := replay (seconds 200) (mkSteadyStore ∅) in
  is_ok r = true ∧ is_ok (replay (seconds 604900 + 500000) w).2 = true.
Proof. vm_compute. split; reflexivity. Qed.
