(* ===== verification/Download.v ===== *)
(** * Delivery of configurations

    [core/one_time_download.py], [api/public_download.py],
    [api/v1/admin_configs.py] and the link of [api/v1/devices.py]: a stored
    configuration is handed out once for its download token, and once for each
    link [/d/{token}].  The nodes of [M] are Redis here, where downloads are
    counted ([RateLimit]); a change of the rows is committed where it is made.
    The detail of a refusal that is a dict is given by its code. *)

From S2P Require Import Prelude PyStr PyVal IpAddr Settings Models Issue AdminIssue AwgConf RateLimit.
Open Scope Z_scope.

Definition APPLIED_OR_VERIFIED : list string := ["APPLIED"; "VERIFIED"].
Definition BLOCKED_IN_AGENT : list string := ["ERROR"; "FAILED_APPLY"].

Definition in_agent_mode (settings : Settings) : bool :=
  String.eqb settings.(node_mode) "agent" || String.eqb settings.(node_discovery) "agent".

Definition _peer_applied_ok (settings : Settings) (device : option Device.t) : bool :=
  match device with
  | None => false
  | Some d =>
      let st := strip (default "" d.(Device.apply_status)) in
      if str_in st APPLIED_OR_VERIFIED then true
      else if in_agent_mode settings then negb (str_in st BLOCKED_IN_AGENT) else false
  end.

(** [not_found_404]: of the detail of an error the code is kept. *)
Definition not_found_404 : exn := HTTPException 404 "NOT_FOUND".
Definition peer_not_applied : exn := HTTPException 503 "PEER_NOT_APPLIED".

(** [if x], of a string that may be null. *)
Definition non_empty (o : option string) : option string := o ≫= λ s, if str_truthy s then Some s else None.

Definition expired_at (now : Z) (t : option Z) : bool := match t with Some t => t <? now | None => false end.

Record Attachment : Type := mkAttachment { at_content : string; at_filename : string }.

Section download.
Context {W : Type} `{Redis W}.
Context (settings : Settings) (sha256_hex : string → string) (decrypt_config : string → res string).

(** ** [core/one_time_download.py] *)

Definition has_hash (h : string) (t : OneTimeToken.t) : bool := String.eqb t.(OneTimeToken.token_hash) h.

(** The random token is an argument; the column of the hashes is unique. *)
Definition create_one_time_token (now : Z) (did kind : string) (ttl_seconds : Z) (token : string) : M W string :=
  db ← get_rows;
  _ ← some_or (IssueDb.find_device db did) (ValueError "device_not_found");
  let h := sha256_hex token in
  _ ← raise_unless (negb (existsb (has_hash h) db.(IssueDb.tokens))) (IntegrityError "one_time_download_tokens");
  let item := OneTimeToken.mk h did kind (now + seconds (Z.max ttl_seconds 1)) None in
  _ ← modify (IssueDb.set_tokens (λ l, l ++ [item]));
  mret token.

(** The device and the kind of the link. *)
Definition verify_and_consume_one_time_token (now : Z) (token : string) : M W (option (string * string)) :=
  if negb (str_truthy token) then mret None
  else
    db ← get_rows;
    let h := sha256_hex token in
    match List.find (has_hash h) db.(IssueDb.tokens) with
    | None => mret None
    | Some item =>
        if is_some item.(OneTimeToken.consumed_at) || (item.(OneTimeToken.expires_at) <? now) then mret None
        else
          _ ← modify (IssueDb.set_tokens (fmap (λ t, if has_hash h t then OneTimeToken.consume now t else t)));
          mret (Some (item.(OneTimeToken.device_id), item.(OneTimeToken.kind)))
    end.

(** ** [api/public_download.py] *)

(** The newest AmneziaWG configuration of a device. *)
Definition latest_awg (db : IssueDb.t) (did : string) : option IssuedConfig.t :=
  head (sorted_by (λ a b, b.(IssuedConfig.created_at) <? a.(IssuedConfig.created_at))
          (filterb (λ c, String.eqb c.(IssuedConfig.device_id) did && String.eqb c.(IssuedConfig.profile_type) "awg")
             db.(IssueDb.issued))).

Definition download_awg_config_via_token (now : Z) (o : Origin) (token : string) : M W Attachment :=
  _ ← on_nodes (rate_limit_config_download now o token);
  payload ← verify_and_consume_one_time_token now token;
  did ← some_or (payload ≫= λ p, if String.eqb p.2 "awg_conf" then Some p.1 else None)
          (HTTPException 410 "TOKEN_INVALID_OR_EXPIRED");
  db ← get_rows;
  device ← some_or (IssueDb.find_device db did) (HTTPException 404 "Device not found");
  _ ← raise_unless (is_none device.(Device.revoked_at)) (HTTPException 404 "Device not found");
  enc ← some_or (latest_awg db did ≫= λ c, non_empty c.(IssuedConfig.config_encrypted))
          (HTTPException 404 "Config not found. It may have been rotated or revoked.");
  match decrypt_config enc with
  | Err _ => raise (HTTPException 500 "Failed to decrypt or sanitize config.")
  | Ok text => mret (mkAttachment (sanitize_awg_conf text) ("amneziawg_" +:+ str_take 8 did +:+ ".conf"))
  end.

(** ** [api/v1/admin_configs.py] *)

Definition by_token (h : string) (c : IssuedConfig.t) : bool := String.eqb c.(IssuedConfig.download_token_hash) h.

Definition _resolve_config (token : string) : M W (option IssuedConfig.t) :=
  db ← get_rows;
  lift (one_row (filterb (by_token (sha256_hex token)) db.(IssueDb.issued))).

Definition _require_peer_applied (issued : IssuedConfig.t) : M W unit :=
  db ← get_rows;
  raise_unless (_peer_applied_ok settings (IssueDb.find_device db issued.(IssuedConfig.device_id))) peer_not_applied.

(** The text of a row, for the two endpoints by token. *)
Definition content_of (issued : IssuedConfig.t) : M W string :=
  enc ← some_or (non_empty issued.(IssuedConfig.config_encrypted)) not_found_404;
  match decrypt_config enc with
  | Err _ => raise (HTTPException 500 "DECRYPT_FAILED")
  | Ok text => mret text
  end.

(** [issued]: the row with the identifier of the path. *)
Definition get_issued_config_content (issued : option IssuedConfig.t) : M W string :=
  issued ← some_or issued not_found_404;
  _ ← _require_peer_applied issued;
  content_of issued.

(** What [download_config] does before it marks the row. *)
Definition download_read (now : Z) (o : Origin) (token : string) : M W (IssuedConfig.t * string) :=
  _ ← on_nodes (rate_limit_config_download now o token);
  issued ← _resolve_config token;
  issued ← some_or issued not_found_404;
  _ ← raise_unless (is_none issued.(IssuedConfig.consumed_at)) (HTTPException 410 "Token already used");
  _ ← raise_unless (negb (expired_at now issued.(IssuedConfig.expires_at))) (HTTPException 410 "Token expired");
  _ ← _require_peer_applied issued;
  text ← content_of issued;
  mret (issued, text).

Definition consume_row (now : Z) (h : string) : list IssuedConfig.t → list IssuedConfig.t :=
  fmap (λ c, if by_token h c then IssuedConfig.consume now c else c).

Definition mark_consumed (now : Z) (issued : IssuedConfig.t) : M W unit :=
  modify (IssueDb.set_issued (consume_row now issued.(IssuedConfig.download_token_hash))).

Definition download_config (now : Z) (o : Origin) (token : string) : M W Attachment :=
  r ← download_read now o token;
  _ ← mark_consumed now r.1;
  mret (mkAttachment r.2 "client.conf").

(** The same without the mark, and without asking whether there is one. *)
Definition get_config_qr (now : Z) (o : Origin) (token : string) : M W string :=
  _ ← on_nodes (rate_limit_config_download now o token);
  issued ← _resolve_config token;
  issued ← some_or issued not_found_404;
  _ ← raise_unless (negb (expired_at now issued.(IssuedConfig.expires_at))) (HTTPException 410 "Token expired");
  _ ← _require_peer_applied issued;
  content_of issued.

(** ** The link of [api/v1/devices.py] *)

(** [Settings] has no [public_domain] and no lifetime of the tokens. *)
Definition AWG_DOWNLOAD_TTL : Z := 600.

Definition get_awg_download_link (now : Z) (did token : string) : M W (string * Z) :=
  db ← get_rows;
  device ← some_or (IssueDb.find_device db did) (HTTPException 404 "Device not found");
  _ ← raise_unless (is_none device.(Device.revoked_at)) (HTTPException 404 "Device not found");
  _ ← some_or (latest_awg db did) (HTTPException 400 "Device has no issued AmneziaWG config");
  token ← create_one_time_token now did "awg_conf" AWG_DOWNLOAD_TTL token;
  let public_host := settings.(vpn_default_host) in
  _ ← raise_unless (str_truthy public_host)
        (HTTPException 500 "PUBLIC_DOMAIN or VPN_DEFAULT_HOST must be set for download links");
  mret ("https://" +:+ public_host +:+ "/d/" +:+ token, AWG_DOWNLOAD_TTL).
End download.

(** ** Requests in sequence *)

Inductive request : Type :=
| ByToken (o : Origin) (token : string)
| ByQr (o : Origin) (token : string)
| ByLink (o : Origin) (token : string)
| NewLink (did token : string).

Section once.
Context {W : Type} `{Redis W}.
Context (settings : Settings) (sha256_hex : string → string) (decrypt_config : string → res string).

Definition serve (now : Z) (r : request) : M W string :=
  match r with
  | ByToken o token => a ← download_config settings sha256_hex decrypt_config now o token; mret a.(at_content)
  | ByQr o token => get_config_qr settings sha256_hex decrypt_config now o token
  | ByLink o token => a ← download_awg_config_via_token sha256_hex decrypt_config now o token; mret a.(at_content)
  | NewLink did token => l ← get_awg_download_link settings sha256_hex now did token; mret l.1
  end.

(** The answers to requests that come at these times. *)
Fixpoint serve_all (reqs : list (Z * request)) (st : W * IssueDb.t) : list (res string) :=
  match reqs with
  | [] => []
  | (now, r) :: reqs' => let '(st, a) := serve now r st in a :: serve_all reqs' st
  end.

Definition answered (hit : request → bool) (reqs : list (Z * request)) (st : W * IssueDb.t) : Z :=
  countZ (λ ra, hit ra.1.2 && is_ok ra.2) (zip reqs (serve_all reqs st)).

(** A counter that [used] blocks and a success sets stops at one. *)
Lemma at_most_once (hit : request → bool) (used : IssueDb.t → Prop) reqs st :
  (∀ now r, preserves used (serve now r)) →
  (∀ now r st st' a, hit r = true → serve now r st = (st', Ok a) → ¬ used st.2 ∧ used st'.2) →
  answered hit reqs st ≤ 1 ∧ (used st.2 → answered hit reqs st = 0).
Proof.
  intros Hkeep Hhit. revert st. induction reqs as [|[now r] reqs IH]; intros st;
    [unfold answered; simpl; rewrite countZ_nil; lia|].
  unfold answered. cbn [serve_all]. destruct (serve now r st) as [st' a] eqn:E. cbn [zip zip_with].
  rewrite countZ_cons. cbn [fst snd]. fold (answered hit reqs st').
  destruct (IH st') as [IH1 IH2]. pose proof (Hkeep now r st) as Hk. rewrite E in Hk. simpl in Hk.
  destruct (hit r) eqn:Hr; simpl; [|by auto with lia].
  destruct a as [s|e]; simpl; [|by auto with lia].
  destruct (Hhit now r st st' s Hr E) as [Hn Hu]. specialize (IH2 Hu). split; [lia|done].
Qed.

(** *** Downloads by token *)

Definition token_used (h : string) (db : IssueDb.t) : Prop :=
  Forall (λ c, by_token h c = true → is_some c.(IssuedConfig.consumed_at) = true) db.(IssueDb.issued).

Lemma token_used_consume h now h' db :
  token_used h db → token_used h (IssueDb.set_issued (consume_row now h') db).
Proof.
  unfold token_used, consume_row. simpl. intros Hu. apply Forall_fmap. eapply Forall_impl; [exact Hu|].
  intros c Hc. simpl. by destruct (by_token h' c).
Qed.

Lemma rows_kept (P : IssueDb.t → Prop) now o token : preserves P (download_read settings sha256_hex decrypt_config now o token).
Proof. unfold download_read, _resolve_config, _require_peer_applied, content_of. keep. Qed.

Lemma serve_keeps_tokens h now r : preserves (token_used h) (serve now r).
Proof.
  destruct r; simpl; unfold download_config, mark_consumed, get_config_qr, _resolve_config, _require_peer_applied,
    content_of, download_awg_config_via_token, verify_and_consume_one_time_token, get_awg_download_link, create_one_time_token.
  - apply preserves_bind; [|intros ?; apply preserves_ret]. apply preserves_bind; [apply rows_kept|]. intros [c text].
    keep. apply preserves_modify. intros. by apply token_used_consume.
  - keep.
  - keep; apply preserves_modify; done.
  - keep; apply preserves_modify; done.
Qed.

(** What a download that is answered found. *)
Lemma download_read_Ok now o token (st st' : W * IssueDb.t) c text :
  download_read settings sha256_hex decrypt_config now o token st = (st', Ok (c, text)) →
  st'.2 = st.2 ∧
  filterb (by_token (sha256_hex token)) st.2.(IssueDb.issued) = [c] ∧
  c.(IssuedConfig.consumed_at) = None ∧ expired_at now c.(IssuedConfig.expires_at) = false ∧
  _peer_applied_ok settings (IssueDb.find_device st.2 c.(IssuedConfig.device_id)) = true ∧
  ∃ enc, c.(IssuedConfig.config_encrypted) = Some enc ∧ enc ≠ "" ∧ decrypt_config enc = Ok text.
Proof.
  intros E. assert (st'.2 = st.2) as Hst.
  { eapply (preserves_use (λ db, db = st.2)); [apply rows_kept|exact E|done]. }
  split; [done|]. unfold download_read in E. mstep E Hr.
  assert (st0.2 = st.2) as H0 by (exact (preserves_use _ _ _ _ _ (preserves_nodes (λ db, db = st.2) _) Hr eq_refl)).
  mstep_as E Hc oc. unfold _resolve_config in Hc. mstep Hc Hg. unfold get_rows in Hg. simplify_eq.
  apply lift_Ok in Hc as [Hc ->]. mstep_as E Hs c'. apply some_or_Ok in Hs as [-> ->].
  mstep E Hco. apply raise_unless_Ok in Hco as [Hco ->]. mstep E Hex. apply raise_unless_Ok in Hex as [Hex ->].
  mstep E Hap. unfold _require_peer_applied in Hap. mstep Hap Hg. unfold get_rows in Hg. simplify_eq.
  apply raise_unless_Ok in Hap as [Hap ->]. mstep_as E Ht text'. unfold mret, M_ret in E. simplify_eq.
  unfold content_of in Ht. mstep_as Ht He enc. apply some_or_Ok in He as [He ->].
  rewrite <- H0. split; [|split; [|split; [|split; [done|]]]].
  - destruct (filterb _ _) as [|x [|y l]]; simpl in Hc; by simplify_eq.
  - by destruct (IssuedConfig.consumed_at c).
  - by apply negb_true_iff.
  - unfold non_empty in He. destruct (IssuedConfig.config_encrypted c) as [enc'|]; [|done]. simpl in He.
    destruct (str_truthy enc') eqn:Et; [|done]. injection He as ->. exists enc. split; [done|].
    split; [by intros ->|]. destruct (decrypt_config enc); unfold mret, M_ret, raise in Ht; by simplify_eq.
Qed.

Lemma by_token_used now o token st st' s :
  serve now (ByToken o token) st = (st', Ok s) →
  ¬ token_used (sha256_hex token) st.2 ∧ token_used (sha256_hex token) st'.2.
Proof.
  simpl. intros E. mstep_as E Hd a. unfold mret, M_ret in E. simplify_eq. unfold download_config in Hd.
  mstep_as Hd Hr ct. destruct ct as [c text]. mstep Hd Hm. unfold mret, M_ret in Hd. simplify_eq.
  apply download_read_Ok in Hr as (E0 & Hf & Hc & _). unfold mark_consumed, modify in Hm. simplify_eq/=.
  assert (c ∈ filterb (by_token (sha256_hex token)) st.2.(IssueDb.issued)) as Hin by (rewrite Hf; by left).
  apply elem_of_filterb in Hin as [Hb Hin].
  split.
  - intros Hu. unfold token_used in Hu. rewrite Forall_forall in Hu. specialize (Hu c Hin Hb). by rewrite Hc in Hu.
  - unfold token_used, consume_row. simpl. apply Forall_fmap, Forall_forall. intros x _ Hx. simpl in *.
    unfold by_token in Hb. apply String.eqb_eq in Hb. rewrite Hb in Hx |- *.
    destruct (by_token (sha256_hex token) x) eqn:Ex; [done|congruence].
Qed.

(** *** Downloads by link *)

Definition link_used (h : string) (db : IssueDb.t) : Prop :=
  ∃ t, List.find (has_hash h) db.(IssueDb.tokens) = Some t ∧ is_some t.(OneTimeToken.consumed_at) = true.

Lemma link_used_consume h h' now db :
  link_used h db →
  link_used h (IssueDb.set_tokens (fmap (λ t, if has_hash h' t then OneTimeToken.consume now t else t)) db).
Proof.
  unfold link_used. simpl. generalize (IssueDb.tokens db). intros l (t & Hf & Hc).
  induction l as [|x l IH]; [done|]. simpl in Hf |- *.
  assert (has_hash h (if has_hash h' x then OneTimeToken.consume now x else x) = has_hash h x) as -> by (by destruct (has_hash h' x)).
  destruct (has_hash h x); [|by apply IH]. injection Hf as ->. eexists. split; [done|]. by destruct (has_hash h' t).
Qed.

Lemma link_used_new h t db : link_used h db → link_used h (IssueDb.set_tokens (λ l, l ++ [t]) db).
Proof.
  unfold link_used. simpl. intros (x & Hf & Hc). exists x. split; [|done].
  revert Hf. generalize (IssueDb.tokens db). intros l. induction l as [|y l IH]; [done|]. simpl. by destruct (has_hash h y).
Qed.

Lemma serve_keeps_links h now r : preserves (link_used h) (serve now r).
Proof.
  destruct r; simpl; unfold download_config, mark_consumed, get_config_qr, _resolve_config, _require_peer_applied,
    content_of, download_awg_config_via_token, verify_and_consume_one_time_token, get_awg_download_link, create_one_time_token.
  - apply preserves_bind; [|intros ?; apply preserves_ret]. apply preserves_bind; [apply rows_kept|]. intros [c text].
    keep. apply preserves_modify. done.
  - keep.
  - keep; apply preserves_modify; intros; by apply link_used_consume.
  - keep; apply preserves_modify; intros; by apply link_used_new.
Qed.

Lemma consume_token_Ok now token (st st' : W * IssueDb.t) p :
  verify_and_consume_one_time_token sha256_hex now token st = (st', Ok (Some p)) →
  ¬ link_used (sha256_hex token) st.2 ∧ link_used (sha256_hex token) st'.2.
Proof.
  unfold verify_and_consume_one_time_token. destruct (str_truthy token); simpl; [|by intros [=]].
  intros E. mstep E Hg. unfold get_rows in Hg. simplify_eq. rename st0 into st.
  destruct (List.find _ _) as [t|] eqn:Ef; [|by unfold mret, M_ret in E; simplify_eq].
  destruct (is_some (OneTimeToken.consumed_at t)) eqn:Ec; simpl in E; [by unfold mret, M_ret in E; simplify_eq|].
  destruct (_ <? now); [by unfold mret, M_ret in E; simplify_eq|].
  mstep E Hm. unfold modify in Hm. unfold mret, M_ret in E. simplify_eq/=. split.
  - intros (t' & Hf & Hc). rewrite Hf in Ef. simplify_eq. congruence.
  - unfold link_used. simpl. clear Ec. revert Ef. generalize (IssueDb.tokens st.2). intros l.
    induction l as [|x l IH]; [done|]. simpl. destruct (has_hash (sha256_hex token) x) eqn:Ex.
    + intros _. replace (has_hash _ (OneTimeToken.consume now x)) with true by (symmetry; exact Ex).
      by eexists.
    + rewrite Ex. exact IH.
Qed.

Lemma by_link_used now o token st st' s :
  serve now (ByLink o token) st = (st', Ok s) →
  ¬ link_used (sha256_hex token) st.2 ∧ link_used (sha256_hex token) st'.2.
Proof.
  simpl. intros E. mstep_as E Hd a. unfold mret, M_ret in E. simplify_eq.
  unfold download_awg_config_via_token in Hd. mstep Hd Hr.
  assert (st0.2 = st.2) as H0 by (exact (preserves_use _ _ _ _ _ (preserves_nodes (λ db, db = st.2) _) Hr eq_refl)).
  mstep_as Hd Hv p. mstep_as Hd Hs did. apply some_or_Ok in Hs as [Hp ->].
  destruct p as [p|]; [|done]. apply consume_token_Ok in Hv as [Hn Hu]. rewrite H0 in Hn. split; [done|].
  eapply (preserves_use (link_used (sha256_hex token))); [|exact Hd|exact Hu]. keep.
Qed.
End once.

Definition by_token_hash (sha256_hex : string → string) (h : string) (r : request) : bool :=
  match r with ByToken _ token => String.eqb (sha256_hex token) h | _ => false end.
Definition by_link_hash (sha256_hex : string → string) (h : string) (r : request) : bool :=
  match r with ByLink _ token => String.eqb (sha256_hex token) h | _ => false end.


(** ** From issuing to delivery *)

Lemma filterb_key {A} (f : A → string) (l : list A) x :
  NoDup (f <$> l) → x ∈ l → filterb (λ y, String.eqb (f y) (f x)) l = [x].
Proof.
  intros Hnd Hx. induction l as [|y l IH]; [by apply not_elem_of_nil in Hx|].
  csimpl in Hnd. apply NoDup_cons in Hnd as [Hy Hnd]. apply elem_of_cons in Hx as [->|Hx].
  - rewrite filter_cons_True by apply String.eqb_refl. f_equal. apply filterb_none, Forall_forall.
    intros z Hz. apply String.eqb_neq. intros Hf. apply Hy. rewrite <- Hf. by apply list_elem_of_fmap_2.
  - rewrite filter_cons_False; [by apply IH|]. intros Hf%String.eqb_eq. apply Hy. rewrite Hf.
    by apply list_elem_of_fmap_2.
Qed.

Section delivery.
Context {W : Type} `{Redis W}.
Context (settings : Settings) (sha256_hex fernet_encrypt : string → string) (decrypt_config : string → res string).
#[local] Abbreviation download_config := (download_config settings sha256_hex decrypt_config).

(** A row that may be delivered is, once. *)
Lemma download_deliverable now o token (w : W) (db : IssueDb.t) c enc text :
  filterb (by_token (sha256_hex token)) db.(IssueDb.issued) = [c] →
  c.(IssuedConfig.consumed_at) = None → expired_at now c.(IssuedConfig.expires_at) = false →
  _peer_applied_ok settings (IssueDb.find_device db c.(IssuedConfig.device_id)) = true →
  c.(IssuedConfig.config_encrypted) = Some enc → str_truthy enc = true → decrypt_config enc = Ok text →
  (rate_limit_config_download now o token w).2 = Ok tt →
  (download_config now o token (w, db)).2 = Ok (mkAttachment text "client.conf") ∧
  (download_config now o token (w, db)).1.2 =
    IssueDb.set_issued (consume_row now c.(IssuedConfig.download_token_hash)) db.
Proof.
  intros Hf Hc He Ha Henc Ht Hd Hr.
  unfold download_config, download_read, mark_consumed, _resolve_config, _require_peer_applied, content_of.
  unfold mbind, M_bind, mret, M_ret, on_nodes. simpl.
  destruct (rate_limit_config_download now o token w) as [w1 r1]. simpl in Hr. subst r1.
  unfold get_rows. simpl. rewrite Hf. simpl. unfold some_or, mret, M_ret. rewrite Hc. simpl.
  rewrite He. simpl. rewrite Ha. simpl. rewrite Henc. simpl. rewrite Ht, Hd. done.
Qed.

Lemma download_refused now o token (w : W) (db : IssueDb.t) c :
  filterb (by_token (sha256_hex token)) db.(IssueDb.issued) = [c] → is_some c.(IssuedConfig.consumed_at) = true →
  (rate_limit_config_download now o token w).2 = Ok tt →
  (download_config now o token (w, db)).2 = Err (HTTPException 410 "Token already used").
Proof.
  intros Hf Hc Hr. unfold download_config, download_read, _resolve_config.
  unfold mbind, M_bind, mret, M_ret, on_nodes. simpl.
  destruct (rate_limit_config_download now o token w) as [w1 r1]. simpl in Hr. subst r1.
  unfold get_rows. simpl. rewrite Hf. simpl. unfold some_or, mret, M_ret.
  by destruct (IssuedConfig.consumed_at c).
Qed.

Lemma consume_row_filter now h (l : list IssuedConfig.t) c :
  filterb (by_token h) l = [c] → filterb (by_token h) (consume_row now h l) = [IssuedConfig.consume now c].
Proof.
  revert c. unfold consume_row. induction l as [|x l IH]; intros c; [done|]. csimpl.
  destruct (by_token h x) eqn:Ex.
  - rewrite filter_cons_True by done. intros [= -> Hl]. rewrite filter_cons_True by done. f_equal.
    apply filterb_none, Forall_fmap, Forall_forall. intros y Hy. simpl.
    assert (by_token h y = false) as Hb; [|by rewrite Hb].
    destruct (by_token h y) eqn:E; [|done]. assert (y ∈ filterb (by_token h) l) as Hin by (by apply elem_of_filterb).
    rewrite Hl in Hin. by apply not_elem_of_nil in Hin.
  - rewrite !filter_cons_False by congruence. apply IH.
Qed.

(** The only row with the token of one of the new configurations. *)
Lemma persisted_row now did sid admin expires (rows : list ((string * string) * string)) (old : list IssuedConfig.t) r :
  NoDup ((λ r, sha256_hex r.2) <$> rows) → r ∈ rows →
  Forall (λ c, c.(IssuedConfig.download_token_hash) ≠ sha256_hex r.2) old →
  filterb (by_token (sha256_hex r.2)) (old ++ (issued_row now sha256_hex fernet_encrypt did sid admin expires <$> rows))
    = [issued_row now sha256_hex fernet_encrypt did sid admin expires r].
Proof.
  intros Hnd Hr Hold. rewrite filter_app, filterb_none; [|].
  - simpl. apply (filterb_key IssuedConfig.download_token_hash _ (issued_row now sha256_hex fernet_encrypt did sid admin expires r)).
    + by rewrite <- list_fmap_compose.
    + by apply list_elem_of_fmap_2.
  - eapply Forall_impl; [exact Hold|]. intros c Hc. by apply String.eqb_neq.
Qed.
End delivery.

(** C10: what was issued is what is delivered.  After the configurations of a
    device are stored, each download token gives back the very text of its
    configuration, while the link has not expired and the device's peer is applied,
    and any later download with it is refused as already used.  Fernet decrypts
    what it encrypted. *)
Theorem issue_then_download {W R} `{Redis R} settings sha256_hex fernet_encrypt decrypt_config
    now did sid awg wg_obf wg admin expires replace tokens (st st1 : W * IssueDb.t) l profile text token now1 o (w1 : R) :
  (∀ s, decrypt_config (fernet_encrypt s) = Ok s) → (∀ s, str_truthy (fernet_encrypt s) = true) →
  let rows := zip (_iter_profile_configs awg wg_obf wg) [tokens.1.1; tokens.1.2; tokens.2] in
  persist_issued_configs_with_tokens now sha256_hex fernet_encrypt did sid awg wg_obf wg admin (Some expires) replace tokens st
    = (st1, Ok l) →
  ((profile, text), token) ∈ rows →
  NoDup ((λ r, sha256_hex r.2) <$> rows) →
  Forall (λ c, c.(IssuedConfig.download_token_hash) ≠ sha256_hex token) st.2.(IssueDb.issued) →
  _peer_applied_ok settings (IssueDb.find_device st1.2 did) = true → now1 ≤ expires →
  (rate_limit_config_download now1 o token w1).2 = Ok tt →
  (profile, token) ∈ l ∧
  ∃ db2 w2, download_config settings sha256_hex decrypt_config now1 o token (w1, st1.2)
              = ((w2, db2), Ok (mkAttachment text "client.conf")) ∧
  ∀ now3 o3 (w3 : R), (rate_limit_config_download now3 o3 token w3).2 = Ok tt →
    (download_config settings sha256_hex decrypt_config now3 o3 token (w3, db2)).2 = Err (HTTPException 410 "Token already used").
Proof.
  intros Hdec Henc rows Hp Hr Hnd Hold Hap Hexp Hrl. apply persist_Ok in Hp as (_ & -> & Hdb). fold rows in Hdb.
  split; [by apply (list_elem_of_fmap_2 (λ c : (string * string) * string, (c.1.1, c.2)) _ ((profile, text), token))|].
  set (c := issued_row now sha256_hex fernet_encrypt did sid admin (Some expires) ((profile, text), token)).
  assert (filterb (by_token (sha256_hex token)) st1.2.(IssueDb.issued) = [c]) as Hf.
  { rewrite Hdb. simpl. apply (persisted_row sha256_hex fernet_encrypt now did sid admin (Some expires) rows _ ((profile, text), token)); [done..|].
    simpl. destruct replace; [|done]. apply Forall_forall. intros x [_ Hx]%elem_of_filterb.
    rewrite Forall_forall in Hold. by apply Hold. }
  edestruct (download_deliverable settings sha256_hex decrypt_config now1 o token w1 st1.2 c (fernet_encrypt text) text)
    as [Hd Hrows]; [exact Hf|done| |exact Hap|done|done|done|exact Hrl|].
  { simpl. apply Z.ltb_ge. lia. }
  destruct (download_config settings sha256_hex decrypt_config now1 o token (w1, st1.2)) as [[w2 db2] r] eqn:E.
  simpl in Hd, Hrows. subst r. exists db2, w2. split; [done|]. intros now3 o3 w3 Hr3.
  eapply (download_refused settings sha256_hex decrypt_config now3 o3 token w3 db2 (IssuedConfig.consume now1 c)); [|done|exact Hr3].
  rewrite Hrows. by apply consume_row_filter.
Qed.

Definition wit_rows (d : Device.t) : IssueDb.t := IssueDb.mk [] [] [] [d] [] [] [] [] [] [].
Definition wit_applied : Device.t := Device.set_apply "APPLIED" None None None (Device.test "d1" "s1" "k1" "10.8.1.2/32").
Definition wit_encrypt (s : string) : string := String "f" s.
Definition wit_decrypt (s : string) : res string :=
  match s with String _ s => Ok s | EmptyString => Err (ValueError "InvalidToken") end.
Definition wit_origin : Origin := mkOrigin None None (Some "172.18.0.5").

Definition wit_persist : (unit * IssueDb.t) * res (list (string * string)) :=
  persist_issued_configs_with_tokens 0 (λ s, s) wit_encrypt "d1" "s1" "first" " " "third" None (Some 1000) true
    ("t1", "t2", "t3") (tt, wit_rows wit_applied).

Lemma issue_then_download_witness :
  ∃ db2 (w2 : steady_store),
    download_config default_settings (λ s, s) wit_decrypt 1000 wit_origin "t2" (mkSteadyStore ∅, wit_persist.1.2)
      = ((w2, db2), Ok (mkAttachment "third" "client.conf")) ∧
    (download_config default_settings (λ s, s) wit_decrypt 1000 wit_origin "t2" (mkSteadyStore ∅, db2)).2
      = Err (HTTPException 410 "Token already used").
Proof.
  destruct wit_persist as [st1 r] eqn:E.
  assert (wit_persist.2 = Ok [("awg", "t1"); ("wg", "t2")]) as Hok by (vm_compute; reflexivity).
  rewrite E in Hok. simpl in Hok. subst r.
  destruct (issue_then_download default_settings (λ s, s) wit_encrypt wit_decrypt 0 "d1" "s1" "first" " " "third" None 1000
              true ("t1", "t2", "t3") (tt, wit_rows wit_applied) st1 [("awg", "t1"); ("wg", "t2")] "wg" "third" "t2" 1000
              wit_origin (mkSteadyStore ∅)) as (_ & db2 & w2 & Hd & Hagain).
  - intros s. unfold wit_decrypt, wit_encrypt. reflexivity.
  - done.
  - exact E.
  - vm_compute. by right; left.
  - vm_compute. repeat constructor; set_solver.
  - constructor.
  - replace st1 with wit_persist.1 by (by rewrite E). vm_compute. reflexivity.
  - lia.
  - vm_compute. reflexivity.
  - exists db2, w2. split; [exact Hd|]. apply Hagain. vm_compute. reflexivity.
Defined.

(** ** What the endpoints do beside *)

Definition wit_download_db : IssueDb.t := wit_persist.1.2.

(** The QR code shows the configuration of a token that was used. *)
Example qr_after_download :
  serve_all default_settings (λ s, s) wit_decrypt
    [(1, ByToken wit_origin "t1"); (2, ByToken wit_origin "t1"); (3, ByQr wit_origin "t1")]
    (mkSteadyStore ∅, wit_download_db)
  = [Ok "first"; Err (HTTPException 410 "Token already used"); Ok "first"].
Proof. vm_compute. reflexivity. Qed.

(** Two requests that both read before either marks the row both get the
    configuration: the row is not locked. *)
Example concurrent_downloads_both_served :
  let read := download_read default_settings (λ s, s) wit_decrypt in
  let db := wit_download_db in
  let '(st1, r1) := read 1 wit_origin "t1" (mkSteadyStore ∅, db) in
  let '(st2, r2) := read 1 wit_origin "t1" st1 in
  r1 = r2 ∧ snd <$> eval_result (st2, r2) = Some "first".
Proof. vm_compute. split; reflexivity. Qed.

(** A link is consumed before the device and its configuration are looked at: a
    request that fails uses it up. *)
Example link_burnt_by_failure :
  let db := IssueDb.set_tokens (λ _, [OneTimeToken.mk "k" "d1" "awg_conf" 600 None]) wit_download_db in
  let broken := IssueDb.set_issued (λ l, []) db in
  serve_all default_settings (λ s, s) wit_decrypt [(1, ByLink wit_origin "k")] (mkSteadyStore ∅, db) = [Ok ("first" +:+ nl_str)] ∧
  let '(st, a) := serve default_settings (λ s, s) wit_decrypt 1 (ByLink wit_origin "k") (mkSteadyStore ∅, broken) in
  is_ok a = false ∧ (OneTimeToken.consumed_at <$> st.2.(IssueDb.tokens)) = [Some 1].
Proof. vm_compute. split; [reflexivity|split; reflexivity]. Qed.

(** The link does not ask whether the peer is applied, which the token does. *)
Example link_before_peer_applied :
  let failed := Device.set_apply "ERROR" None None None wit_applied in
  let db := IssueDb.set_devices (λ _, [failed])
              (IssueDb.set_tokens (λ _, [OneTimeToken.mk "k" "d1" "awg_conf" 600 None]) wit_download_db) in
  is_ok <$> serve_all default_settings (λ s, s) wit_decrypt [(1, ByToken wit_origin "t1"); (1, ByLink wit_origin "k")]
              (mkSteadyStore ∅, db) = [false; true].
Proof. vm_compute. reflexivity. Qed.
