(* ===== verification/DevicesApi.v ===== *)
(** * The devices of the HTTP API

    [api/v1/devices.py] and [api/v1/wg.py]: what an administrator, the bot and
    the control-plane endpoints do to devices and to their peers.  The state [W]
    is that of the nodes and of Redis; a handler commits where it ends, and a
    change after which it raises is rolled back unless it committed before. *)

From S2P Require Import Prelude PyStr PyVal Settings Models Node Runtime LiveKey DeviceTelemetry Issue AdminIssue RateLimit Download.
From S2P Require AgentApi.
Open Scope Z_scope.

Definition device_not_found : exn := HTTPException 404 "Device not found".

(** [DeviceUpdate]: a field that is not set is [None]; one set to null is
    [Some None]. *)
Record DeviceUpdate : Type := mkDeviceUpdate {
  du_device_name : option (option string);
  du_user_id : option (option Z);
  du_server_id : option (option string);
  du_allowed_ips : option (option string);
  du_suspended_at : option (option Z);
  du_data_limit_bytes : option (option Z);
  du_expires_at : option (option Z);
  du_revoked_at : option (option Z)
}.

Definition set_fields (name : option string) (uid : Z) (sid : string) (ips : option string)
    (suspended : option Z) (limit expires revoked : option Z) (d : Device.t) : Device.t :=
  Device.mk d.(Device.id) uid d.(Device.subscription_id) sid d.(Device.public_key) ips d.(Device.preshared_key)
    d.(Device.issued_at) revoked suspended expires d.(Device.apply_status) d.(Device.last_applied_at)
    d.(Device.last_error) d.(Device.unstable_reason) d.(Device.created_at) name limit d.(Device.last_seen_handshake_at)
    d.(Device.config_amnezia_hash) d.(Device.connection_profile) d.(Device.protocol_version)
    d.(Device.obfuscation_profile) d.(Device.issued_by_admin_id).

(** A null in a column that may not be null fails at the commit. *)
Definition check_nulls (u : DeviceUpdate) : res unit :=
  match u.(du_user_id), u.(du_server_id) with
  | Some None, _ => Err (IntegrityError "devices.user_id")
  | _, Some None => Err (IntegrityError "devices.server_id")
  | _, _ => Ok tt
  end.

Definition apply_update (u : DeviceUpdate) (d : Device.t) : Device.t :=
  set_fields (default d.(Device.device_name) u.(du_device_name))
    (default d.(Device.user_id) (mjoin u.(du_user_id))) (default d.(Device.server_id) (mjoin u.(du_server_id)))
    (default d.(Device.allowed_ips) u.(du_allowed_ips)) (default d.(Device.suspended_at) u.(du_suspended_at))
    (default d.(Device.data_limit_bytes) u.(du_data_limit_bytes)) (default d.(Device.expires_at) u.(du_expires_at))
    (default d.(Device.revoked_at) u.(du_revoked_at)) d.

Inductive reset_status : Type := ResetAccepted | ResetOk | ResetDegraded (node_error : string).

(** [type(exc).__name__] *)
Definition exn_name (e : exn) : string :=
  match e with
  | ValueError _ => "ValueError" | TypeError _ => "TypeError" | AttributeError _ => "AttributeError"
  | InvalidOperation => "InvalidOperation" | IntegrityError _ => "IntegrityError"
  | OverflowError => "OverflowError" | OSError _ => "OSError" | NotImplementedError _ => "NotImplementedError"
  | RuntimeError _ => "RuntimeError" | LoadBalancerError _ => "LoadBalancerError"
  | ServerNotSyncedError _ _ => "ServerNotSyncedError" | WireGuardCommandError _ _ _ => "WireGuardCommandError"
  | ConfigValidationError _ => "ConfigValidationError" | HTTPException _ _ => "HTTPException"
  end.

Section devices.
Context {W : Type} `{NodeRuntimeAdapter W}.
Context (settings : Settings) (now : Z).

Definition the_device (did : string) : M W Device.t :=
  db ← get_rows; some_or (IssueDb.find_device db did) device_not_found.

Definition change_device (did : string) (f : Device.t → Device.t) : M W unit := modify (IssueDb.update_device did f).

Definition is_real_mode : bool := String.eqb settings.(node_mode) "real".

(** ** Revocation *)

Record BulkRevokeOut : Type := mkBulkOut { br_revoked : Z; br_skipped : Z; br_errors : list string }.

Fixpoint revoke_each (ids : list string) (out : BulkRevokeOut) : M W BulkRevokeOut :=
  match ids with
  | [] => mret out
  | did :: ids' =>
      db ← get_rows;
      match IssueDb.find_device db did with
      | None => revoke_each ids' (mkBulkOut out.(br_revoked) out.(br_skipped) (out.(br_errors) ++ [did +:+ ": not found"]))
      | Some d =>
          if is_some d.(Device.revoked_at)
          then revoke_each ids' (mkBulkOut out.(br_revoked) (out.(br_skipped) + 1) out.(br_errors))
          else
            _ ← change_device did (Device.set_revoked_at (Some now));
            revoke_each ids' (mkBulkOut (out.(br_revoked) + 1) out.(br_skipped) out.(br_errors))
      end
  end.

Definition bulk_revoke_devices (confirm_token : string) (ids : list string) : M W BulkRevokeOut :=
  _ ← raise_unless (String.eqb confirm_token settings.(revoke_confirm_token)) (HTTPException 400 "Invalid confirmation code");
  revoke_each (take 100 ids) (mkBulkOut 0 0 []).

Definition revoke_device (did confirm_token : string) : M W unit :=
  _ ← raise_unless (String.eqb confirm_token settings.(revoke_confirm_token)) (HTTPException 400 "Invalid confirmation code");
  d ← the_device did;
  _ ← raise_unless (is_none d.(Device.revoked_at)) (HTTPException 400 "Device already revoked");
  change_device did (Device.set_revoked_at (Some now)).

(** The rows of a device go with it. *)
Definition delete_device (did : string) (confirm_token : option string) : M W unit :=
  _ ← raise_unless (match confirm_token with Some c => String.eqb c settings.(revoke_confirm_token) | None => true end)
        (HTTPException 400 "Invalid confirmation code");
  _ ← the_device did;
  _ ← modify (IssueDb.set_devices (λ l, filterb (λ d, negb (String.eqb d.(Device.id) did)) l));
  _ ← modify (IssueDb.set_profile_issues (λ l, filterb (λ i, negb (String.eqb i did)) l));
  _ ← modify (IssueDb.set_issued (λ l, filterb (λ c, negb (String.eqb c.(IssuedConfig.device_id) did)) l));
  modify (IssueDb.set_tokens (λ l, filterb (λ t, negb (String.eqb t.(OneTimeToken.device_id) did)) l)).

(** ** Suspension and limits *)

Definition suspend_device (did : string) : M W unit :=
  d ← the_device did;
  _ ← raise_unless (is_none d.(Device.revoked_at)) (HTTPException 400 "Cannot suspend revoked device");
  if is_some d.(Device.suspended_at) then mret tt else change_device did (Device.set_suspended_at (Some now)).

Definition resume_device (did : string) : M W unit :=
  d ← the_device did;
  if is_none d.(Device.suspended_at) then mret tt else change_device did (Device.set_suspended_at None).

Definition update_device (did : string) (u : DeviceUpdate) : M W unit :=
  _ ← the_device did;
  db ← get_rows;
  _ ← match u.(du_user_id) with
      | Some (Some uid) => raise_unless (existsb (λ x, x.(User.id) =? uid) db.(IssueDb.users)) (HTTPException 400 "User not found")
      | _ => mret tt
      end;
  _ ← match u.(du_server_id) with
      | Some (Some sid) => raise_unless (is_some (IssueDb.find_server db sid)) (HTTPException 400 "Server not found")
      | _ => mret tt
      end;
  _ ← lift (check_nulls u);
  change_device did (apply_update u).

Definition update_device_limits (did : string) (data_limit_bytes expires_at : option (option Z)) : M W unit :=
  d ← the_device did;
  _ ← raise_unless (is_none d.(Device.revoked_at)) (HTTPException 400 "Cannot update limits for revoked device");
  change_device did (apply_update (mkDeviceUpdate None None None None None data_limit_bytes expires_at None)).

(** ** The peer of a device *)

Definition reset_device (did : string) (force_revoke_db_only : bool) : M W reset_status :=
  d ← the_device did;
  _ ← raise_unless (is_none d.(Device.revoked_at)) (HTTPException 400 "Device already revoked");
  let agent := String.eqb settings.(node_mode) "agent" in
  let force_db_only := force_revoke_db_only || agent in
  r ← (if is_real_mode then attempt (on_nodes (remove_peer d.(Device.server_id) d.(Device.public_key))) else mret (Ok tt));
  _ ← raise_unless (is_ok r || force_db_only) (HTTPException 502 "NODE_REMOVE_FAILED");
  _ ← change_device did (Device.set_revoked_at (Some now));
  mret (if agent then ResetAccepted else match r with Ok _ => ResetOk | Err e => ResetDegraded (exn_name e) end).

(** The key of the device, or of its server. *)
Definition stored_psk (db : IssueDb.t) (d : Device.t) : option string :=
  match non_empty d.(Device.preshared_key) with
  | Some k => Some k
  | None => IssueDb.find_server db d.(Device.server_id) ≫= λ s, non_empty s.(Server.preshared_key)
  end.

Definition node_add_failed (e : exn) : exn :=
  match e with
  | WireGuardCommandError _ _ _ =>
      HTTPException (if contains "not found" (lower (exn_str e)) then 409 else 502) (str_take 200 (exn_str e))
  | _ => HTTPException 502 (str_take 200 (exn_str e))
  end.

Definition sync_device_peer (did : string) : M W unit :=
  _ ← raise_unless (negb (String.eqb settings.(environment) "production"))
        (HTTPException 409 "sync-peer is not allowed in production; only node-agent applies peers.");
  _ ← raise_unless is_real_mode (HTTPException 400 "sync-peer requires NODE_MODE=real");
  _ ← raise_unless (negb (String.eqb settings.(node_discovery) "agent"))
        (HTTPException 409 "add_peer is not supported in NODE_DISCOVERY=agent.");
  d ← the_device did;
  _ ← raise_unless (is_none d.(Device.revoked_at)) (HTTPException 400 "Device is revoked");
  db ← get_rows;
  psk ← some_or (stored_psk db d)
          (HTTPException 400 "No preshared key stored. Re-issue config for this device to fix.");
  let allowed_ips := default "10.8.1.2/32" (non_empty d.(Device.allowed_ips)) in
  _ ← attempt (on_nodes (remove_peer d.(Device.server_id) d.(Device.public_key)));
  r ← attempt (on_nodes (add_peer d.(Device.server_id)
                           (mkPeerConfig d.(Device.public_key) (Some allowed_ips) (Some psk) 25)));
  match r with Ok _ => mret tt | Err e => raise (node_add_failed e) end.

Definition queue_sync (new_id sid : string) : M W unit :=
  let payload := Some [("mode", VStr "full")] in
  let db0 := AgentApi.mkAgentDb [] [] [] [] [] [] in
  modify (IssueDb.set_actions (λ l, l ++ [snd (AgentApi.create_action new_id now sid "sync" payload None None db0)])).

(** The server of the device is looked up by [row[0]], where [row] is already its
    identifier; without such a server any active one is taken, here the first. *)
Definition reconcile_target (db : IssueDb.t) (row : string) : option string :=
  match chars row with
  | [] => None
  | c :: _ =>
      let server_id := of_chars [c] in
      if is_some (IssueDb.find_server db server_id) then Some server_id
      else Server.id <$> List.find Server.is_active db.(IssueDb.servers)
  end.

Definition reconcile_device (new_id did : string) : M W string :=
  if in_agent_mode settings then
    db ← get_rows;
    d ← some_or (List.find (λ d, String.eqb d.(Device.id) did && is_none d.(Device.revoked_at)) db.(IssueDb.devices))
          (HTTPException 404 "Device not found or revoked");
    _ ← raise_unless (str_truthy d.(Device.server_id)) (HTTPException 404 "Device not found or revoked");
    sid ← some_or (reconcile_target db d.(Device.server_id)) (HTTPException 409 "SERVER_NOT_FOUND");
    _ ← queue_sync new_id sid;
    mret "sync_queued"
  else
    _ ← raise_unless is_real_mode
          (HTTPException 409 "Reconcile requires NODE_MODE=real (or NODE_MODE=agent for sync queuing)");
    _ ← sync_device_peer did;
    mret "ok".

(** Whether the device was revoked; outside agent mode only its peer is removed. *)
Definition block_device (did confirm_token : string) : M W bool :=
  _ ← raise_unless (String.eqb confirm_token settings.(block_confirm_token))
        (HTTPException 400 "Block requires confirm_token in body");
  d ← the_device did;
  r ← (if is_real_mode then attempt (on_nodes (remove_peer d.(Device.server_id) d.(Device.public_key)))
       else mret (Err (RuntimeError "not on a node")));
  if String.eqb settings.(node_mode) "agent" then
    _ ← change_device did (Device.set_revoked_at (Some now));
    mret true
  else
    _ ← raise_unless (is_ok r) (HTTPException 502 "Node did not accept block");
    mret false.

(** *** [api/v1/wg.py] *)

Definition replace_char (a b : ascii) (s : string) : string :=
  of_chars ((λ c, if Ascii.eqb c a then b else c) <$> chars s).

Definition live_with_key (db : IssueDb.t) (pk : string) : list Device.t :=
  filterb (λ d, String.eqb d.(Device.public_key) pk && is_none d.(Device.revoked_at)) db.(IssueDb.devices).

(** The key of the path may be in the URL alphabet of base64. *)
Definition delete_wg_peer (pubkey : string) : M W string :=
  db ← get_rows;
  d ← lift (one_row (live_with_key db (strip (replace_char "_" "/" (replace_char "-" "+" pubkey)))));
  d ← match d with Some d => mret (Some d) | None => lift (one_row (live_with_key db (strip pubkey))) end;
  d ← some_or d (HTTPException 404 "Peer not found");
  _ ← (if is_real_mode then attempt (on_nodes (remove_peer d.(Device.server_id) d.(Device.public_key))) else mret (Ok tt));
  _ ← change_device d.(Device.id) (Device.set_revoked_at (Some now));
  mret (if String.eqb settings.(node_mode) "agent" then "accepted" else "ok").
End devices.

(** ** Issuing through the API *)

(** [f"{e}".replace("_", " ")] of a [ValueError]; the exceptions of the control
    plane by their class. *)
Definition issue_refused (e : exn) : exn :=
  match e with
  | ServerNotSyncedError _ _ => HTTPException 409 "SERVER_NOT_SYNCED"
  | LoadBalancerError msg => HTTPException 503 msg
  | WireGuardCommandError msg _ _ => HTTPException 502 msg
  | ValueError _ | ConfigValidationError _ => HTTPException 400 (replace_char "_" " " (exn_str e))
  | e => e
  end.

Section issuing.
Context {W : Type} `{NodeRuntimeAdapter W, NodeDirectory W, !Redis W}.
Context (settings : Settings) (hb : heartbeats) (now : Z).
Context (sha256_hex fernet_encrypt : string → string).

Definition raising {A} (f : exn → exn) (m : M W A) : M W A := λ st,
  match m st with (st, Ok a) => (st, Ok a) | (st, Err e) => (st, Err (f e)) end.

(** [topology]: what the engine of the request would return. *)
Definition create_wg_peer (user_id : Z) (sub_id : string) (device_name server_id : option string)
    (topology : ClusterTopology) (admin : option string) (dr : Draws) : M W IssueResult :=
  transaction (
    out ← raising issue_refused
            (issue_device settings true hb now sha256_hex user_id sub_id server_id device_name
               (match server_id with None => Some topology | Some _ => None end) dr);
    _ ← persist_issued_configs now sha256_hex fernet_encrypt out.(ir_device).(Device.id) out.(ir_device).(Device.server_id)
          out.(ir_config_awg) out.(ir_config_wg_obf) out.(ir_config_wg) admin None false dr.(dr_tokens);
    mret out).

Inductive Reissued : Type :=
| Cached (body : pydict)
| Fresh (configs : ConfigEntry * ConfigEntry * ConfigEntry).

(** [response.model_dump()] *)
Context (dump : ConfigEntry * ConfigEntry * ConfigEntry → pydict).

Definition rollback_to (db : IssueDb.t) : M W unit := modify (λ _, db).

Definition reissue_refused (e : exn) : exn :=
  match e with
  | ServerNotSyncedError _ _ | WireGuardCommandError _ _ _ | ValueError _ | ConfigValidationError _ => issue_refused e
  | _ => HTTPException 500 "Reissue failed. Use request_id from this response to find the error in server logs."
  end.

(** A server that is not synced gets a sync action, which is committed; the other
    failures leave the rows as they were. *)
Definition reissue_device_config (did new_id base_url : string) (idempotency_key admin : option string) (dr : Draws)
    : M W Reissued :=
  cached ← on_nodes (λ w, let '(w, r) := get_cached_idempotency_response sha256_hex now "devices.reissue" did idempotency_key w
                          in (w, Ok r));
  match cached with
  | Some (_, body) => mret (Cached body)
  | None =>
      db ← get_rows;
      r ← attempt (reissue_config_for_device settings true hb now sha256_hex fernet_encrypt did None admin
                     (rstrip_with (Ascii.eqb "/") base_url +:+ "/api/v1/admin/configs") dr);
      match r with
      | Err e =>
          _ ← match e with
              | ServerNotSyncedError sid _ =>
                  if str_truthy sid && in_agent_mode settings then queue_sync now new_id sid else rollback_to db
              | _ => rollback_to db
              end;
          raise (reissue_refused e)
      | Ok configs =>
          _ ← on_nodes (λ w, (store_idempotency_response sha256_hex settings now "devices.reissue" did idempotency_key
                                (dump configs) 200 None w, Ok tt));
          mret (Fresh configs)
      end
  end.
End issuing.

(** ** Counts *)

Record DeviceSummaryOut : Type := mkSummary {
  su_total : Z; su_active : Z; su_revoked : Z; su_unused_configs : Z; su_no_allowed_ips : Z
}.

Definition _invalid_allowed_ips (d : Device.t) : bool :=
  match d.(Device.allowed_ips) with None => true | Some a => str_in a [""; "0.0.0.0/0, ::/0"] end.

(** The counts of the telemetry cache are passed through. *)
Definition devices_summary (db : IssueDb.t) : DeviceSummaryOut :=
  let total := Z.of_nat (length db.(IssueDb.devices)) in
  let active := countZ (λ d, is_none d.(Device.revoked_at)) db.(IssueDb.devices) in
  mkSummary total active (total - active)
    (countZ (λ c, is_none c.(IssuedConfig.consumed_at)) db.(IssueDb.issued))
    (countZ _invalid_allowed_ips db.(IssueDb.devices)).

Record ConfigHealthEntry : Type := mkHealthEntry {
  ch_device_id : string; ch_status : string; ch_reconciliation_status : string; ch_reason : option string
}.

Record ConfigHealthOut : Type := mkConfigHealth {
  ch_by_reconciliation : list (string * Z);
  ch_no_telemetry_count : Z;
  ch_devices_needing_attention : list ConfigHealthEntry
}.

Definition bump_count (k : string) (m : list (string * Z)) : list (string * Z) := dset k (default 0 (dget k m) + 1) m.

Definition health_row (telemetry : string → option Telemetry) (out : ConfigHealthOut) (d : Device.t) : ConfigHealthOut :=
  match telemetry d.(Device.id) with
  | None => mkConfigHealth out.(ch_by_reconciliation) (out.(ch_no_telemetry_count) + 1) out.(ch_devices_needing_attention)
  | Some t =>
      let '(recon, reason) := merge_telemetry_into_device d t in
      let reason := match reason with
                    | Some r => if str_truthy r then Some r
                                else if String.eqb recon "broken" then Some "Invalid allowed_ips" else Some r
                    | None => if String.eqb recon "broken" then Some "Invalid allowed_ips" else None
                    end in
      mkConfigHealth (bump_count recon out.(ch_by_reconciliation)) out.(ch_no_telemetry_count)
        (out.(ch_devices_needing_attention) ++
         (if str_in recon ["broken"; "needs_reconcile"]
          then [mkHealthEntry d.(Device.id) (if is_some d.(Device.suspended_at) then "suspended" else "active") recon reason]
          else []))
  end.

Definition get_config_health (telemetry : string → option Telemetry) (limit : nat) (db : IssueDb.t) : ConfigHealthOut :=
  let rows := take limit (sorted_by (λ a b, b.(Device.issued_at) <? a.(Device.issued_at))
                            (filterb (λ d, is_none d.(Device.revoked_at)) db.(IssueDb.devices))) in
  let out := foldl (health_row telemetry) (mkConfigHealth [("ok", 0); ("needs_reconcile", 0); ("broken", 0)] 0 []) rows in
  mkConfigHealth out.(ch_by_reconciliation) out.(ch_no_telemetry_count) (take 100 out.(ch_devices_needing_attention)).

(** ** Requests in sequence *)

Inductive dev_request : Type :=
| Revoke (did confirm : string)
| BulkRevoke (confirm : string) (ids : list string)
| Delete (did : string) (confirm : option string)
| Suspend (did : string)
| Resume (did : string)
| Limits (did : string) (data_limit_bytes expires_at : option (option Z))
| ResetDev (did : string) (force : bool)
| SyncPeer (did : string)
| Reconcile (new_id did : string)
| Block (did confirm : string)
| DeletePeer (pubkey : string).

Section sequences.
Context {W : Type} `{NodeRuntimeAdapter W}.
Context (settings : Settings).

Definition handle (now : Z) (r : dev_request) : M W unit :=
  match r with
  | Revoke did c => revoke_device settings now did c
  | BulkRevoke c ids => _ ← bulk_revoke_devices settings now c ids; mret tt
  | Delete did c => delete_device settings did c
  | Suspend did => suspend_device now did
  | Resume did => resume_device did
  | Limits did l e => update_device_limits did l e
  | ResetDev did force => _ ← reset_device settings now did force; mret tt
  | SyncPeer did => sync_device_peer settings did
  | Reconcile i did => _ ← reconcile_device settings now i did; mret tt
  | Block did c => _ ← block_device settings now did c; mret tt
  | DeletePeer pk => _ ← delete_wg_peer settings now pk; mret tt
  end.

Fixpoint handle_all (reqs : list (Z * dev_request)) (st : W * IssueDb.t) : W * IssueDb.t :=
  match reqs with
  | [] => st
  | (now, r) :: reqs' => handle_all reqs' (transaction (handle now r) st).1
  end.

Context (peers_at : W → string → gmap string string) `{!NodeRuntimeLaws W peers_at}.

(** The address the API gives the peer of a device. *)
Definition peer_address (d : Device.t) : string := default "10.8.1.2/32" (non_empty d.(Device.allowed_ips)).

(** What stays of a device, and that a revocation does. *)
Definition descends (d d' : Device.t) : Prop :=
  d'.(Device.id) = d.(Device.id) ∧ d'.(Device.user_id) = d.(Device.user_id) ∧
  d'.(Device.subscription_id) = d.(Device.subscription_id) ∧ d'.(Device.server_id) = d.(Device.server_id) ∧
  d'.(Device.public_key) = d.(Device.public_key) ∧ d'.(Device.allowed_ips) = d.(Device.allowed_ips) ∧
  (is_some d.(Device.revoked_at) = true → is_some d'.(Device.revoked_at) = true).

Definition no_revival (db db' : IssueDb.t) : Prop :=
  Forall (λ d', ∃ d, d ∈ db.(IssueDb.devices) ∧ descends d d') db'.(IssueDb.devices).

(** The peers there were, or those of the devices that were live. *)
Definition peers_explained (st : W * IssueDb.t) (w' : W) : Prop := ∀ n pk ips,
  peers_at w' n !! pk = Some ips →
  peers_at st.1 n !! pk = Some ips ∨
  ∃ d, d ∈ st.2.(IssueDb.devices) ∧ d.(Device.revoked_at) = None ∧ d.(Device.server_id) = n ∧
    d.(Device.public_key) = pk ∧ ips = peer_address d.

Definition confined (st st' : W * IssueDb.t) : Prop := no_revival st.2 st'.2 ∧ peers_explained st st'.1.

Lemma descends_refl d : descends d d.
Proof. by repeat split. Qed.

Lemma descends_live d d' : descends d d' → d'.(Device.revoked_at) = None → d.(Device.revoked_at) = None.
Proof. intros (_ & _ & _ & _ & _ & _ & Hr) Hd. destruct (Device.revoked_at d); [|done]. rewrite Hd in Hr. by specialize (Hr eq_refl). Qed.

Lemma no_revival_refl db : no_revival db db.
Proof. apply Forall_forall. intros d Hd. exists d. by split. Qed.

Lemma confined_refl st : confined st st.
Proof. split; [apply no_revival_refl|]. intros n pk ips. by left. Qed.

Section from.
Context (st0 : W * IssueDb.t).

(** Steps that only change rows: each row descends from the row it was. *)
Lemma change_confined did f (st : W * IssueDb.t) :
  (∀ d, descends d (f d)) → confined st0 st → confined st0 (change_device did f st).1.
Proof.
  intros Hf [Hd Hp]. split; [|done]. unfold no_revival. simpl. apply Forall_fmap. eapply Forall_impl; [exact Hd|].
  intros d (d0 & Hin & Hdd). exists d0. split; [done|]. simpl. case_match; [|done].
  destruct (Hf d) as (? & ? & ? & ? & ? & ? & ?), Hdd as (? & ? & ? & ? & ? & ? & ?).
  repeat split; try congruence. auto.
Qed.

Lemma rows_confined (st st' : W * IssueDb.t) :
  st'.1 = st.1 → st'.2.(IssueDb.devices) ⊆ st.2.(IssueDb.devices) → confined st0 st → confined st0 st'.
Proof.
  intros Hw Hsub [Hd Hp]. split.
  - unfold no_revival in *. rewrite Forall_forall in Hd |- *. intros d Hin. by apply Hd, Hsub.
  - intros n pk ips. rewrite Hw. apply Hp.
Qed.

Lemma remove_confined n pk (st : W * IssueDb.t) :
  confined st0 st → confined st0 (on_nodes (remove_peer n pk) st).1.
Proof using Type*.
  intros [Hd Hp]. unfold on_nodes. destruct (remove_peer n pk st.1) as [w r] eqn:E. split; [done|]. simpl.
  intros m k ips Hk. apply Hp. destruct r as [[]|e].
  - apply remove_peer_ok in E as [Hn Ho]. destruct (decide (m = n)) as [->|Hne]; [|by rewrite <- Ho].
    rewrite Hn in Hk. by apply lookup_delete_Some in Hk as [_ Hk].
  - by rewrite <- (remove_peer_err _ _ _ _ _ E m).
Qed.

Lemma add_confined p (st : W * IssueDb.t) d :
  d ∈ st.2.(IssueDb.devices) → d.(Device.revoked_at) = None → d.(Device.public_key) = p.(pc_public_key) →
  p.(pc_allowed_ips) = Some (peer_address d) →
  confined st0 st → confined st0 (on_nodes (add_peer d.(Device.server_id) p) st).1.
Proof using Type*.
  intros Hin Hrev Hpk Hips [Hd Hp]. unfold on_nodes.
  destruct (add_peer d.(Device.server_id) p st.1) as [w r] eqn:E. split; [done|]. simpl.
  intros m k ips Hk. destruct r as [[]|e]; [|apply Hp; by rewrite <- (add_peer_err _ _ _ _ _ E m)].
  apply add_peer_ok in E as [Hn Ho]. destruct (decide (m = d.(Device.server_id))) as [->|Hne]; [|apply Hp; by rewrite <- Ho].
  rewrite Hn in Hk. apply lookup_insert_Some in Hk as [[<- <-]|[_ Hk]]; [|by apply Hp].
  right. unfold no_revival in Hd. rewrite Forall_forall in Hd. destruct (Hd d Hin) as (d0 & Hin0 & Hdd).
  exists d0. split; [done|]. split; [by apply (descends_live _ _ Hdd)|].
  destruct Hdd as (_ & _ & _ & Hs & Hk' & Ha & _). rewrite Hips. unfold peer_address. simpl.
  split_and!; [congruence|congruence|by rewrite Ha].
Qed.

(** *** Computations *)

Definition stays {A} (m : M W A) : Prop := ∀ st, confined st0 st → confined st0 (m st).1.

Lemma stays_bind {A B} (m : M W A) (k : A → M W B) : stays m → (∀ a, stays (k a)) → stays (m ≫= k).
Proof.
  intros Hm Hk st Hst. unfold mbind, M_bind. specialize (Hm st Hst).
  destruct (m st) as [st1 [a|e]]; simpl in *; [by apply Hk|done].
Qed.

(** A step that changes nothing, and what its result tells of the state. *)
Lemma stays_reading {A B} (m : M W A) (k : A → M W B) (st : W * IssueDb.t) :
  (m st).1 = st → confined st0 st → (∀ a, m st = (st, Ok a) → confined st0 (k a st).1) → confined st0 ((m ≫= k) st).1.
Proof.
  intros Hm Hst Hk. unfold mbind, M_bind. destruct (m st) as [st1 [a|e]] eqn:E; simpl in *; subst; [by apply Hk|done].
Qed.

Lemma stays_same {A} (m : M W A) : (∀ st, (m st).1 = st) → stays m.
Proof. intros Hm st. by rewrite Hm. Qed.

Lemma stays_attempt {A} (m : M W A) : stays m → stays (attempt m).
Proof. intros Hm st Hst. unfold attempt. specialize (Hm st Hst). by destruct (m st). Qed.

Lemma stays_rows g : (∀ db, (g db).(IssueDb.devices) ⊆ db.(IssueDb.devices)) → stays (modify g : M W unit).
Proof. intros Hg st. apply rows_confined; [done|apply Hg]. Qed.

Lemma stays_remove n pk : stays (on_nodes (remove_peer n pk) : M W unit).
Proof using Type*. intros st. apply remove_confined. Qed.

Lemma stays_change did f : (∀ d, descends d (f d)) → stays (change_device did f : M W unit).
Proof. intros Hf st. by apply change_confined. Qed.

Lemma stays_ret {A} (a : A) : stays (mret a : M W A).
Proof. by apply stays_same. Qed.
Lemma stays_raise {A} e : stays (raise e : M W A).
Proof. by apply stays_same. Qed.
Lemma stays_rows_read : stays (get_rows : M W _).
Proof. by apply stays_same. Qed.
Lemma stays_unless b e : stays (raise_unless b e : M W unit).
Proof. apply stays_same. by destruct b. Qed.
Lemma stays_some_or {A} (o : option A) e : stays (some_or o e : M W A).
Proof. apply stays_same. by destruct o. Qed.
Lemma stays_lift {A} (r : res A) : stays (lift r : M W A).
Proof. by apply stays_same. Qed.
End from.
End sequences.

Lemma raising_Ok {W A} f (m : M W A) st st' a : raising f m st = (st', Ok a) → m st = (st', Ok a).
Proof. unfold raising. by destruct (m st) as [? []]; intros; simplify_eq. Qed.

Lemma transaction_Ok {W A} (m : M W A) st st' a : transaction m st = (st', Ok a) → m st = (st', Ok a).
Proof. unfold transaction. by destruct (m st) as [? []]; intros; simplify_eq. Qed.

Lemma transaction_Err {W A} (m : M W A) st st' e : transaction m st = (st', Err e) → st'.2 = st.2.
Proof. unfold transaction. by destruct (m st) as [? []]; intros; simplify_eq. Qed.

Create HintDb stays discriminated.
#[export] Hint Resolve stays_ret stays_raise stays_rows_read stays_unless stays_some_or stays_lift stays_remove : stays.

(** Splits a handler into its steps. *)
Ltac stay :=
  repeat first
    [ solve [eauto with stays]
    | apply stays_bind; [|intros ?]
    | apply stays_attempt
    | match goal with |- stays _ _ (match ?x with _ => _ end) => destruct x end
    | progress cbv zeta ].

Section handlers.
Context {W : Type} `{NodeRuntimeAdapter W} (settings : Settings).
Context (peers_at : W → string → gmap string string) `{!NodeRuntimeLaws W peers_at}.
Context (st0 : W * IssueDb.t).
#[local] Abbreviation stays := (stays peers_at st0).

Lemma stays_device did : stays (the_device did).
Proof. unfold the_device. stay. Qed.

Lemma stays_revoke now did : stays (change_device did (Device.set_revoked_at (Some now))).
Proof. by apply stays_change. Qed.
#[local] Hint Resolve stays_device stays_revoke : stays.

Lemma stays_revoke_each now ids : ∀ out, stays (revoke_each now ids out).
Proof. induction ids as [|did ids IH]; intros out; simpl; stay; apply IH. Qed.

Lemma stays_delete did c : stays (delete_device settings did c).
Proof.
  unfold delete_device. stay; apply stays_rows; intros db; simpl; [|done..]. intros d. by intros [_ Hd]%elem_of_filterb.
Qed.

Lemma stays_suspend now did : stays (suspend_device now did).
Proof. unfold suspend_device. stay. by apply stays_change. Qed.

Lemma stays_resume did : stays (resume_device did).
Proof. unfold resume_device. stay. by apply stays_change. Qed.

Lemma stays_limits did l e : stays (update_device_limits did l e).
Proof. unfold update_device_limits. stay. by apply stays_change. Qed.

Lemma the_device_Ok did (st st' : W * IssueDb.t) d :
  the_device did st = (st', Ok d) → st' = st ∧ IssueDb.find_device st.2 did = Some d.
Proof.
  unfold the_device. intros Hm. mstep Hm Hg. unfold get_rows in Hg. simplify_eq.
  by apply some_or_Ok in Hm as [Hf ->].
Qed.

Lemma find_device_In db did d : IssueDb.find_device db did = Some d → d ∈ db.(IssueDb.devices) ∧ d.(Device.id) = did.
Proof. intros [Hin Hid%String.eqb_eq]%find_some. by apply list_elem_of_In in Hin. Qed.

Lemma the_device_reads did (st : W * IssueDb.t) : (the_device did st).1 = st.
Proof. unfold the_device, mbind, M_bind, get_rows. simpl. by destruct (IssueDb.find_device st.2 did). Qed.

(** The second half of [sync_device_peer], on a live device of the rows. *)
Lemma stays_sync did : stays (sync_device_peer settings did).
Proof using Type*.
  unfold sync_device_peer. do 3 (apply stays_bind; [apply stays_unless|intros _]). intros st Hst. apply stays_reading; [apply the_device_reads|done|].
  intros d [_ Hd]%the_device_Ok. apply find_device_In in Hd as [Hin _].
  apply stays_reading; [by destruct (is_none _)|done|]. intros u [Hrev _]%raise_unless_Ok.
  assert (Device.revoked_at d = None) as Hlive by (by destruct (Device.revoked_at d)).
  apply stays_reading; [done|done|]. intros db Hdb. unfold get_rows in Hdb. injection Hdb as <-.
  apply stays_reading; [by destruct (stored_psk _ _)|done|]. intros psk _.
  pose proof (stays_attempt peers_at st0 _ (stays_remove peers_at st0 d.(Device.server_id) d.(Device.public_key)) st Hst) as Hrm.
  unfold mbind, M_bind, attempt, on_nodes in *. destruct (remove_peer _ _ _) as [w1 r1]. simpl in Hrm |- *.
  pose proof (add_confined peers_at st0 (mkPeerConfig d.(Device.public_key) (Some (peer_address d)) (Some psk) 25)
                (w1, st.2) d Hin Hlive eq_refl eq_refl Hrm) as Ha.
  unfold on_nodes in Ha. simpl in Ha. fold (peer_address d). destruct (add_peer _ _ _) as [w2 r2].
  simpl in Ha |- *. by destruct r2.
Qed.

Lemma stays_queue now i sid : stays (queue_sync now i sid).
Proof. by apply stays_rows. Qed.
#[local] Hint Resolve stays_revoke_each stays_delete stays_suspend stays_resume stays_limits stays_sync stays_queue : stays.

Lemma stays_handle now r : stays (handle settings now r).
Proof using Type*.
  destruct r; simpl;
    unfold revoke_device, bulk_revoke_devices, reset_device, reconcile_device, block_device, delete_wg_peer; stay.
Qed.
End handlers.

Lemma stays_transaction {W A} `{NodeRuntimeAdapter W} (peers_at : W → string → gmap string string) st0 (m : M W A) :
  stays peers_at st0 m → stays peers_at st0 (transaction m).
Proof.
  intros Hm st Hst. unfold transaction. specialize (Hm st Hst). destruct (m st) as [st' [a|e]]; [done|].
  destruct Hm as [_ Hp], Hst as [Hd _]. by split.
Qed.

(** The devices API takes away and never gives back.  After any sequence of
    revocations, deletions, suspensions, changes of limits, resets, synchronisations,
    blocks and removals, whatever the nodes answer, every device descends from one
    there was, with its user, subscription, server, key and address, and is revoked
    if that one was; and every peer on a node was there before or is the peer, with
    its own address, of a device that was live. *)
Theorem devices_api_confined {W} `{NodeRuntimeAdapter W} settings (peers_at : W → string → gmap string string)
    `{!NodeRuntimeLaws W peers_at} reqs st :
  confined peers_at st (handle_all settings reqs st).
Proof.
  assert (∀ st1, confined peers_at st st1 → confined peers_at st (handle_all settings reqs st1)) as Hall;
    [|apply Hall, confined_refl].
  induction reqs as [|[now r] reqs IH]; intros st1 Hst; simpl; [done|].
  apply IH, stays_transaction; [|done]. by apply stays_handle.
Qed.

Lemma devices_api_confined_witness :
  let live := Device.test "d1" "s1" "k1" "10.8.1.2/32" in
  let gone := Device.set_revoked_at (Some 0) (Device.test "d2" "s1" "k2" "10.8.1.3/32") in
  let settings := with_node_mode "real" default_settings in
  let st := (mkSteady {[ "s1" := {[ "k9" := "10.8.1.9/32" ]} ]},
             IssueDb.set_devices (λ _, [Device.set_keys "k1" (Some "10.8.1.2/32") None (Some "psk") live; gone]) (wit_rows live)) in
  let st' := handle_all settings [(1, Suspend "d1"); (2, SyncPeer "d1"); (3, SyncPeer "d2"); (4, Revoke "d1" "confirm_revoke")] st in
  confined steady_peers st st' ∧
  steady_peers st'.1 "s1" = {[ "k9" := "10.8.1.9/32"; "k1" := "10.8.1.2/32" ]} ∧
  Device.revoked_at <$> st'.2.(IssueDb.devices) = [Some 4; Some 0].
Proof.
  intros live gone settings st st'.
  split; [exact (devices_api_confined settings steady_peers _ st)|]. split; vm_compute; reflexivity.
Defined.

(** ** The reset of a device *)

Section reset.
Context {W : Type} `{NodeRuntimeAdapter W} (peers_at : W → string → gmap string string) `{!NodeRuntimeLaws W peers_at}.

(** [try: remove_peer except]: a failure changes no peer. *)
Lemma attempt_remove n pk (st st' : W * IssueDb.t) r :
  attempt (on_nodes (remove_peer n pk)) st = (st', Ok r) →
  st'.2 = st.2 ∧
  match r with
  | Ok _ => peers_at st'.1 n = delete pk (peers_at st.1 n) ∧ ∀ m, m ≠ n → peers_at st'.1 m = peers_at st.1 m
  | Err _ => ∀ m, peers_at st'.1 m = peers_at st.1 m
  end.
Proof using Type*.
  unfold attempt, on_nodes. destruct (remove_peer n pk st.1) as [w r'] eqn:E. intros [= <- <-]. split; [done|].
  destruct r' as [[]|e]; simpl; [by apply remove_peer_ok in E|by apply (remove_peer_err _ _ _ _ _ E)].
Qed.

(** A reset is fail-closed.  It revokes the device and nothing else in the
    rows, and says so truthfully: "ok" once the node has dropped the peer,
    "accepted" in agent mode without touching a node, "degraded" only when the
    caller asked for it and the node refused.  When it is refused no row and no
    peer has changed. *)
Theorem reset_device_fail_closed settings now did force (st st' : W * IssueDb.t) r :
  reset_device settings now did force st = (st', r) →
  match r with
  | Ok status =>
      ∃ d, IssueDb.find_device st.2 did = Some d ∧ d.(Device.revoked_at) = None ∧
        st'.2 = IssueDb.update_device did (Device.set_revoked_at (Some now)) st.2 ∧
        match status with
        | ResetAccepted => settings.(node_mode) = "agent" ∧ st'.1 = st.1
        | ResetOk => settings.(node_mode) ≠ "agent" ∧
            (settings.(node_mode) = "real" →
             peers_at st'.1 d.(Device.server_id) = delete d.(Device.public_key) (peers_at st.1 d.(Device.server_id)) ∧
             ∀ n, n ≠ d.(Device.server_id) → peers_at st'.1 n = peers_at st.1 n)
        | ResetDegraded _ => settings.(node_mode) = "real" ∧ force = true ∧ ∀ n, peers_at st'.1 n = peers_at st.1 n
        end
  | Err _ => st'.2 = st.2 ∧ ∀ n, peers_at st'.1 n = peers_at st.1 n
  end.
Proof using Type*.
  unfold reset_device. intros E. unfold mbind at 1, M_bind in E.
  destruct (the_device did st) as [st1 [d|e]] eqn:Ed.
  2:{ injection E as <- <-. pose proof (the_device_reads did st) as Hr. rewrite Ed in Hr. simpl in Hr. by subst. }
  apply the_device_Ok in Ed as [-> Hf]. destruct (Device.revoked_at d) as [t|] eqn:Hrev; simpl in E.
  { unfold raise_unless, raise, mbind, M_bind in E. simpl in E. by injection E as <- <-. }
  unfold is_real_mode in E. destruct (String.eqb_spec settings.(node_mode) "real") as [Hm|Hm].
  - rewrite Hm in E. simpl in E. unfold mbind, M_bind, raise_unless, mret, M_ret in E. simpl in E.
    destruct (attempt _ st) as [st2 [r2|e2]] eqn:Ha; [|by unfold attempt in Ha; destruct (on_nodes _ st)].
    apply attempt_remove in Ha as [Hrows Hpeers]. rewrite orb_false_r in E.
    destruct r2 as [u|e]; simpl in E.
    + injection E as <- <-. exists d. split; [done|]. split; [done|]. simpl. rewrite Hrows.
      split; [done|]. split; [by rewrite Hm|done].
    + destruct force; simpl in E; unfold raise in E; injection E as <- <-; [|done].
      exists d. simpl. rewrite Hrows. done.
  - unfold mbind, M_bind, raise_unless, mret, M_ret in E. simpl in E. injection E as <- <-. exists d.
    split; [done|]. split; [done|]. split; [done|]. destruct (String.eqb_spec settings.(node_mode) "agent"); done.
Qed.
End reset.

Lemma reset_device_fail_closed_witness :
  let d := Device.test "d1" "s1" "k1" "10.8.1.2/32" in
  let down := mkCluster {[ "s1" := {[ "k1" := "10.8.1.2/32" ]} ]} {[ "s1" ]} in
  let settings := with_node_mode "real" default_settings in
  ∃ st1 st2, reset_device settings 5 "d1" false (down, wit_rows d) = (st1, Err (HTTPException 502 "NODE_REMOVE_FAILED")) ∧
    st1.2 = wit_rows d ∧
    reset_device settings 5 "d1" true (down, wit_rows d) = (st2, Ok (ResetDegraded "RuntimeError")) ∧
    st2.2 = wit_rows (Device.set_revoked_at (Some 5) d).
Proof.
  intros d down settings.
  destruct (reset_device settings 5 "d1" false (down, wit_rows d)) as [st1 r1] eqn:E1.
  destruct (reset_device settings 5 "d1" true (down, wit_rows d)) as [st2 r2] eqn:E2.
  assert (r1 = Err (HTTPException 502 "NODE_REMOVE_FAILED")) as -> by (vm_compute in E1; congruence).
  assert (r2 = Ok (ResetDegraded "RuntimeError")) as -> by (vm_compute in E2; congruence).
  exists st1, st2.
  destruct (reset_device_fail_closed cluster_peers settings 5 "d1" false (down, wit_rows d) st1 _ E1) as [H1 _].
  destruct (reset_device_fail_closed cluster_peers settings 5 "d1" true (down, wit_rows d) st2 _ E2) as (d' & Hf & _ & H2 & _).
  split; [done|]. split; [exact H1|]. split; [done|]. rewrite H2. reflexivity.
Defined.

(** ** What the endpoints do beside *)

(** [row[0]] is the first character of the identifier: unless a server is named by
    it, the action goes to some active server, whatever the device's server is. *)
Lemma reconcile_elsewhere db sid s c rest :
  sid = String c rest → IssueDb.find_server db (String c "") = None →
  List.find Server.is_active db.(IssueDb.servers) = Some s → reconcile_target db sid = Some s.(Server.id).
Proof. intros -> Hn Hs. unfold reconcile_target. simpl. by rewrite Hn, Hs. Qed.

Example reconcile_queues_elsewhere :
  let d := Device.test "d1" "s2" "k1" "10.8.1.2/32" in
  let db := IssueDb.mk [] [] [] [d] [Server.test "s1" true; Server.test "s2" true] [] [] [] [] [] in
  AgentAction.server_id <$>
    (reconcile_device (with_node_mode "agent" default_settings) 0 "a1" "d1" (mkSteady ∅, db)).1.2.(IssueDb.actions) = ["s1"].
Proof. vm_compute. reflexivity. Qed.

(** Synchronising a suspended device puts its peer back on the node. *)
Example sync_revives_suspended :
  let d := Device.set_suspended_at (Some 1) (Device.set_keys "k1" (Some "10.8.1.2/32") None (Some "psk")
             (Device.test "d1" "s1" "k1" "10.8.1.2/32")) in
  steady_peers (sync_device_peer (with_node_mode "real" default_settings) "d1" (mkSteady ∅, wit_rows d)).1.1 "s1"
    = {[ "k1" := "10.8.1.2/32" ]}.
Proof. vm_compute. reflexivity. Qed.

(** An update that clears the revocation goes beyond the limit of the
    subscription, which nothing checks there. *)
Example unrevoke_exceeds_limit :
  let live := Device.test "d1" "s1" "k1" "10.8.1.2/32" in
  let gone := Device.set_revoked_at (Some 0) (Device.test "d2" "s1" "k2" "10.8.1.2/32") in
  let db := IssueDb.mk [] [] [Subscription.mk "sub" 1 "p1" 0 (days 30) 1 "active" false None None None None None 0]
              [live; gone] [Server.test "s1" true] [] [] [] [] [] in
  let u := mkDeviceUpdate None None None None None None None (Some None) in
  let db' := (update_device "d2" u (mkSteady ∅, db)).1.2 in
  IssueDb.live_devices db "sub" = 1 ∧ IssueDb.live_devices db' "sub" = 2.
Proof. vm_compute. split; reflexivity. Qed.

(** A device blocked on its node is not revoked: it is still to be applied. *)
Example block_leaves_row :
  let d := Device.test "d1" "s1" "k1" "10.8.1.2/32" in
  let st := (mkSteady {[ "s1" := {[ "k1" := "10.8.1.2/32" ]} ]}, wit_rows d) in
  let st' := (block_device (with_node_mode "real" default_settings) 1 "d1" "confirm_block" st).1 in
  steady_peers st'.1 "s1" = ∅ ∧ st'.2 = st.2.
Proof. vm_compute. split; reflexivity. Qed.
