(* ===== verification/UsersApi.v ===== *)
(** * Users

    The requests of administrators and the bot on users ([api/v1/users.py],
    [api/v1/admin_abuse.py]).  Issuing stands behind two counters and a memory
    of its answers in Redis, whose state [R] is apart from that of the nodes; a
    plain string in Redis is a payload with one field. *)

From S2P Require Import Prelude PyFloat PyStr PyVal Settings Models Node Runtime LiveKey DeviceTelemetry Issue AdminIssue RateLimit Download DevicesApi.
Open Scope Z_scope.

(** ** Users *)

Definition user_not_found : exn := HTTPException 404 "User not found".

Section users.
Context {W : Type} (settings : Settings).

Definition the_user (missing : exn) (uid : Z) : M W User.t :=
  db ← get_rows; some_or (List.find (λ u, u.(User.id) =? uid) db.(IssueDb.users)) missing.

(** [new_id]: the identifier the database gives the row.  The mail address, the
    telephone number and the meta data are left out. *)
Definition create_user (new_id tg_id : Z) : M W User.t :=
  db ← get_rows;
  _ ← raise_unless (negb (existsb (λ u, u.(User.tg_id) =? tg_id) db.(IssueDb.users))) (HTTPException 409 "tg_id already exists");
  let user := User.mk new_id tg_id false in
  _ ← modify (IssueDb.set_users (λ us, us ++ [user]));
  mret user.

Definition set_banned (uid : Z) (b : bool) : M W unit :=
  modify (IssueDb.set_users (fmap (λ u, if u.(User.id) =? uid then User.mk u.(User.id) u.(User.tg_id) b else u))).

(** [is_banned]: not set, set to null, which the column refuses, or a value. *)
Definition update_user (uid : Z) (is_banned : option (option bool)) (confirm_token : option string) : M W unit :=
  _ ← the_user not_found_404 uid;
  _ ← raise_unless (negb (bool_decide (is_banned = Some (Some true))) ||
                    bool_decide (confirm_token = Some settings.(ban_confirm_token)))
        (HTTPException 400 "Ban requires confirm_token in body");
  match is_banned with
  | None => mret tt
  | Some None => raise (IntegrityError "users.is_banned")
  | Some (Some b) => set_banned uid b
  end.

(** [_delete_user_cascade], with what the database deletes with a subscription and
    a device.  The rows of payments, referrals, scores and events are left out. *)
Definition drop_devices (gone : Device.t → bool) (db : IssueDb.t) : IssueDb.t :=
  let ids := Device.id <$> filterb gone db.(IssueDb.devices) in
  let keep did := negb (str_in did ids) in
  IssueDb.set_tokens (λ l, filterb (λ c, keep c.(OneTimeToken.device_id)) l)
    (IssueDb.set_issued (λ l, filterb (λ c, keep c.(IssuedConfig.device_id)) l)
       (IssueDb.set_profile_issues (λ l, filterb keep l)
          (IssueDb.set_devices (λ l, filterb (λ d, negb (gone d)) l) db))).

Definition _delete_user_cascade (uid : Z) (db : IssueDb.t) : IssueDb.t :=
  let db := drop_devices (λ d, d.(Device.user_id) =? uid) db in
  let subs := Subscription.id <$> filterb (λ s, s.(Subscription.user_id) =? uid) db.(IssueDb.subscriptions) in
  let db := drop_devices (λ d, str_in d.(Device.subscription_id) subs) db in
  IssueDb.set_users (λ l, filterb (λ u, negb (u.(User.id) =? uid)) l)
    (IssueDb.set_subscriptions (λ l, filterb (λ s, negb (s.(Subscription.user_id) =? uid)) l) db).

Definition delete_user (uid : Z) : M W unit :=
  _ ← the_user not_found_404 uid; modify (_delete_user_cascade uid).

(** What an administrator does about a signal of abuse, [sig] the user of its row;
    how many devices it revoked. *)
Definition abuse_signal_action (now : Z) (sig : option Z) (action : string) : M W Z :=
  uid ← some_or sig (HTTPException 404 "Signal not found");
  if String.eqb action "revoke_devices" then
    db ← get_rows;
    let live d := (d.(Device.user_id) =? uid) && is_none d.(Device.revoked_at) in
    _ ← modify (IssueDb.set_devices (fmap (λ d, if live d then Device.set_revoked_at (Some now) d else d)));
    mret (countZ live db.(IssueDb.devices))
  else if String.eqb action "ban_user" then
    _ ← the_user user_not_found uid; _ ← set_banned uid true; mret 0
  else raise (HTTPException 400 "action must be revoke_devices or ban_user").
End users.

(** ** Issuing for a user *)

Definition REDIS_KEY_IDEMPOTENCY_ISSUE_PREFIX : string := "idempotency:issue:".
Definition REDIS_KEY_ISSUE_DAILY_PREFIX : string := "ratelimit:issue_daily:".
Definition ISSUE_DAILY_TTL_SECONDS : Z := 86400.

Definition daily_key (uid : Z) : string := REDIS_KEY_ISSUE_DAILY_PREFIX +:+ str_of_Z uid.
Definition issue_key (key : string) : string := REDIS_KEY_IDEMPOTENCY_ISSUE_PREFIX +:+ key.

Inductive IssueResponse : Type :=
| Reused (d : Device.t)
| Issued (out : IssueResult).

Section issuing.
Context {W R : Type} `{NodeRuntimeAdapter W, NodeDirectory W, !Redis R}.
Context (settings : Settings) (hb : heartbeats) (sha256_hex fernet_encrypt : string → string).

(** Whether the daily number is reached; Redis that fails lets the request through. *)
Definition cap_reached (now uid : Z) (v : R) : R * bool :=
  if settings.(config_regen_daily_cap) <=? 0 then (v, false)
  else
    let '(v, r) := rget now (daily_key uid) v in
    (v, match r with
        | Ok None => settings.(config_regen_daily_cap) <=? 0
        | Ok (Some (Count n)) => settings.(config_regen_daily_cap) <=? n
        | _ => false
        end).

(** The device an earlier request with the key made. *)
Definition remembered (now uid : Z) (key : option string) (db : IssueDb.t) (v : R) : R * option Device.t :=
  match key with
  | Some k =>
      if str_truthy k then
        let '(v, r) := rget now (issue_key k) v in
        (v, match r with
            | Ok (Some (Payload _ body)) =>
                match getv body "value" with
                | VStr did => List.find (λ d, String.eqb d.(Device.id) did && (d.(Device.user_id) =? uid)) db.(IssueDb.devices)
                | _ => None
                end
            | _ => None
            end)
      else (v, None)
  | None => (v, None)
  end.

Definition remember (now : Z) (key : option string) (did : string) (v : R) : R :=
  match key with
  | Some k => if str_truthy k
              then (setex now (issue_key k) settings.(idempotency_ttl_seconds) (Payload 0 [("value", VStr did)]) v).1
              else v
  | None => v
  end.

(** The number grows with each device, and its end moves. *)
Definition count_issue (now uid : Z) (v : R) : R :=
  if settings.(config_regen_daily_cap) <=? 0 then v
  else
    let '(v, r) := incr now (daily_key uid) v in
    match r with
    | Ok _ => (expire now (daily_key uid) ISSUE_DAILY_TTL_SECONDS v).1
    | Err _ => v
    end.

Definition issue_for_user (now uid : Z) (sub_id : string) (server_id device_name : option string)
    (topology : ClusterTopology) (dr : Draws) : M W IssueResult :=
  transaction (
    out ← raising issue_refused
            (issue_device settings true hb now sha256_hex uid sub_id server_id device_name
               (match server_id with None => Some topology | Some _ => None end) dr);
    _ ← persist_issued_configs now sha256_hex fernet_encrypt out.(ir_device).(Device.id) out.(ir_device).(Device.server_id)
          out.(ir_config_awg) out.(ir_config_wg_obf) out.(ir_config_wg) None None false dr.(dr_tokens);
    mret out).

(** A request: its time, its user, its body, its key and what is drawn for it. *)
Record issue_request : Type := mkIssueRequest {
  iq_now : Z; iq_user : Z; iq_subscription : string; iq_server : option string; iq_name : option string;
  iq_key : option string; iq_topology : ClusterTopology; iq_draws : Draws
}.

Definition issue_user_device (q : issue_request) (st : R * (W * IssueDb.t)) : R * (W * IssueDb.t) * res IssueResponse :=
  let '(v, wd) := st in
  let '(v, passed) :=
    if settings.(issue_rate_limit_per_minute) <=? 0 then (v, true)
    else allow q.(iq_now) (REDIS_KEY_RATELIMIT_ISSUE_PREFIX +:+ str_of_Z q.(iq_user)) settings.(issue_rate_window_seconds)
           settings.(issue_rate_limit_per_minute) v in
  if negb passed then (v, wd, Err (HTTPException 429 "RATE_LIMIT_EXCEEDED"))
  else
    let '(v, capped) := cap_reached q.(iq_now) q.(iq_user) v in
    if capped then (v, wd, Err (HTTPException 429 "DAILY_ISSUE_CAP_EXCEEDED"))
    else
      let '(v, known) := remembered q.(iq_now) q.(iq_user) q.(iq_key) wd.2 v in
      match known with
      | Some d => (v, wd, Ok (Reused d))
      | None =>
          let '(wd, r) := issue_for_user q.(iq_now) q.(iq_user) q.(iq_subscription) q.(iq_server) q.(iq_name)
                            q.(iq_topology) q.(iq_draws) wd in
          match r with
          | Err e => (v, wd, Err e)
          | Ok out =>
              let v := remember q.(iq_now) q.(iq_key) out.(ir_device).(Device.id) v in
              (count_issue q.(iq_now) q.(iq_user) v, wd, Ok (Issued out))
          end
      end.

(** The times at which those requests of a sequence that satisfy [p] made a device. *)
Fixpoint issued_at (p : issue_request → bool) (qs : list issue_request) (st : R * (W * IssueDb.t)) : list Z :=
  match qs with
  | [] => []
  | q :: qs =>
      let '(st, r) := issue_user_device q st in
      match r with
      | Ok (Issued _) => if p q then q.(iq_now) :: issued_at p qs st else issued_at p qs st
      | _ => issued_at p qs st
      end
  end.
End issuing.

(** ** The daily number *)

(** Successive times less than [len] apart. *)
Fixpoint close_run (len : Z) (ts : list Z) : bool :=
  match ts with
  | t :: (t' :: _) as rest => (t' <? t + len) && close_run len rest
  | _ => true
  end.

(** An absent key, or a number that ends. *)
Definition daily_entry (e : option rentry) : Prop :=
  match e with
  | None => True
  | Some (mkEntry (Count n) (Some _)) => 0 ≤ n
  | _ => False
  end.

Definition live_number (now : Z) (e : option rentry) : Z :=
  match live_entry now e with Some (mkEntry (Count n) _) => n | _ => 0 end.

(** A key that a command does not name. *)
Section elsewhere.
Context {R : Type} `{!Redis R} (entry_of : R → string → option rentry) `{!RedisLaws R entry_of}.
Context (settings : Settings) (k : string).

Lemma allow_elsewhere now key window limit v : k ≠ key → entry_of (allow now key window limit v).1 k = entry_of v k.
Proof using Type*.
  intros Hk. unfold allow, hit. destruct (incr now key v) as [v1 [n|err]] eqn:E1; [|by eapply incr_err].
  apply incr_ok in E1 as [_ E1]. rewrite <- E1 by done. destruct (n =? 1); [|done].
  destruct (expire now key window v1) as [v2 [u|err]] eqn:E2; simpl; [by apply expire_ok in E2 as [_ E2]; apply E2|by eapply expire_err].
Qed.

Lemma count_elsewhere now u v : k ≠ daily_key u → entry_of (count_issue settings now u v) k = entry_of v k.
Proof using Type*.
  intros Hk. unfold count_issue. destruct (_ <=? _); [done|].
  destruct (incr now (daily_key u) v) as [v1 [n|err]] eqn:E1; [|by eapply incr_err].
  apply incr_ok in E1 as [_ E1]. rewrite <- E1 by done.
  destruct (expire _ _ _ v1) as [v2 [w|err]] eqn:E2; simpl; [apply expire_ok in E2 as [_ E2]; by apply E2|by eapply expire_err].
Qed.

Lemma remember_elsewhere now key did v : (∀ k', key = Some k' → k ≠ issue_key k') → entry_of (remember settings now key did v) k = entry_of v k.
Proof using Type*.
  intros Hk. unfold remember. destruct key as [k'|]; [|done]. destruct (str_truthy k'); [|done].
  destruct (setex _ _ _ _ v) as [v1 [u|err]] eqn:E; simpl; [apply setex_ok in E as [_ E]; by apply E, Hk|by eapply setex_err, Hk].
Qed.

Lemma remembered_reads now u key db v : entry_of (remembered now u key db v).1 k = entry_of v k.
Proof using Type*.
  unfold remembered. destruct key as [k'|]; [|done]. destruct (str_truthy k'); [|done].
  destruct (rget now (issue_key k') v) as [v1 r] eqn:E. by eapply rget_pure.
Qed.

Lemma cap_reads now u v : entry_of (cap_reached settings now u v).1 k = entry_of v k.
Proof using Type*.
  unfold cap_reached. destruct (_ <=? 0); [done|]. destruct (rget now (daily_key u) v) as [v1 r] eqn:E. by eapply rget_pure.
Qed.

(** The guards of a request. *)
Lemma passes_elsewhere now u v :
  (∀ z, k ≠ REDIS_KEY_RATELIMIT_ISSUE_PREFIX +:+ str_of_Z z) →
  entry_of (if settings.(issue_rate_limit_per_minute) <=? 0 then (v, true)
            else allow now (REDIS_KEY_RATELIMIT_ISSUE_PREFIX +:+ str_of_Z u) settings.(issue_rate_window_seconds)
                   settings.(issue_rate_limit_per_minute) v).1 k = entry_of v k.
Proof using Type*. intros Hk. destruct (_ <=? 0); [done|]. by apply allow_elsewhere. Qed.
End elsewhere.

Section counting.
Context {W R : Type} `{NodeRuntimeAdapter W, NodeDirectory W, !Redis R} (entry_of : R → string → option rentry).
Context `{!RedisLaws R entry_of, !ReliableRedis R}.
Context (settings : Settings) (hb : heartbeats) (sha256_hex fernet_encrypt : string → string).
Context (uid : Z) (Hcap : 0 < settings.(config_regen_daily_cap)).
#[local] Abbreviation cap := settings.(config_regen_daily_cap).
#[local] Abbreviation daily v := (entry_of v (daily_key uid)).

Lemma daily_key_inj u : daily_key u = daily_key uid → u = uid.
Proof.
  intros E%(inj (String.app _)). pose proof (py_int_str_of_Z u) as Hu. rewrite E, py_int_str_of_Z in Hu. by injection Hu.
Qed.

Lemma cap_known now v v' b :
  cap_reached settings now uid v = (v', b) → daily_entry (daily v) → b = (cap <=? live_number now (daily v)).
Proof using Type*.
  unfold cap_reached. destruct (Z.leb_spec cap 0); [lia|]. destruct (rget now (daily_key uid) v) as [v1 r] eqn:E. intros [= _ <-] Hd.
  pose proof (rget_total now (daily_key uid) v) as Ht. rewrite E in Ht.
  destruct r as [o|]; [|done]. apply rget_ok in E as ->. unfold live_number.
  destruct (daily v) as [[[n|s b] [x|]]|]; simpl in *; try done; [destruct (x <=? now)|]; simpl; try done; by destruct (Z.leb_spec cap 0); [lia|].
Qed.

(** The number after a device. *)
Lemma count_counts now v :
  daily_entry (daily v) →
  daily (count_issue settings now uid v) =
    Some (mkEntry (Count (live_number now (daily v) + 1)) (Some (now + seconds ISSUE_DAILY_TTL_SECONDS))).
Proof using Type*.
  intros Hd. unfold count_issue. destruct (Z.leb_spec cap 0); [lia|].
  assert (∃ x, bump now (daily v) = Some (live_number now (daily v) + 1, mkEntry (Count (live_number now (daily v) + 1)) x) ∧
            default (now + 1) x > now) as (x & Hb & Hx).
  { unfold bump, live_number. destruct (daily v) as [[[n|s b] [x|]]|]; simpl in Hd |- *; try done.
    - destruct (Z.leb_spec x now) as [|Hx]; [exists None|exists (Some x)]; (split; [done|simpl; lia]).
    - exists None. split; [done|simpl; lia]. }
  destruct (incr_counter entry_of (daily_key uid) now v _ _ Hb) as (v1 & E1 & He1). rewrite E1.
  pose proof (expire_total now (daily_key uid) ISSUE_DAILY_TTL_SECONDS v1) as Ht.
  destruct (expire _ _ _ v1) as [v2 [u|err]] eqn:E2; [|done]. apply expire_ok in E2 as [E2 _]. simpl.
  rewrite E2, He1. unfold live_entry. destruct x as [x|]; simpl in *; [|done]. by destruct (Z.leb_spec x now); [lia|].
Qed.

#[local] Abbreviation serve := (issue_user_device settings hb sha256_hex fernet_encrypt).
#[local] Abbreviation issued := (issued_at settings hb sha256_hex fernet_encrypt (λ q, q.(iq_user) =? uid)).

(** A request changes the number of a user only by a device for that user, below the cap. *)
Lemma serve_counts q (st st' : R * (W * IssueDb.t)) r :
  serve q st = (st', r) → daily_entry (daily st.1) →
  match r with
  | Ok (Issued _) =>
      if q.(iq_user) =? uid then
        live_number q.(iq_now) (daily st.1) < cap ∧
        daily st'.1 = Some (mkEntry (Count (live_number q.(iq_now) (daily st.1) + 1))
                              (Some (q.(iq_now) + seconds ISSUE_DAILY_TTL_SECONDS)))
      else daily st'.1 = daily st.1
  | _ => daily st'.1 = daily st.1
  end.
Proof using Type*.
  destruct st as [v wd]. unfold issue_user_device. cbn [fst]. intros E Hd.
  pose proof (passes_elsewhere entry_of settings (daily_key uid) q.(iq_now) q.(iq_user) v ltac:(done)) as H1.
  destruct (if issue_rate_limit_per_minute settings <=? 0 then _ else _) as [v1 passed]. simpl in H1.
  destruct passed; simpl in E; [|by simplify_eq/=].
  pose proof (cap_reads entry_of settings (daily_key uid) q.(iq_now) q.(iq_user) v1) as H2.
  destruct (cap_reached settings q.(iq_now) q.(iq_user) v1) as [v2 capped] eqn:E2. simpl in H2.
  destruct capped; [by simplify_eq/=; congruence|].
  pose proof (remembered_reads entry_of (daily_key uid) q.(iq_now) q.(iq_user) q.(iq_key) wd.2 v2) as H3.
  destruct (remembered _ _ _ _ v2) as [v3 known]. simpl in H3.
  destruct known as [d|]; [simplify_eq/=; congruence|].
  destruct (issue_for_user _ _ _ _ _ _ _ _ _ _ _ wd) as [wd' [out|e]]; [|simplify_eq/=; congruence].
  injection E as <- <-. cbn [fst].
  pose proof (remember_elsewhere entry_of settings (daily_key uid) q.(iq_now) q.(iq_key) out.(ir_device).(Device.id) v3 ltac:(done)) as H4.
  assert (daily (remember settings q.(iq_now) q.(iq_key) out.(ir_device).(Device.id) v3) = daily v) as Hv by congruence.
  destruct (Z.eqb_spec q.(iq_user) uid) as [Hu|Hu].
  - rewrite Hu, count_counts; rewrite Hv; [|done]. split; [|done].
    rewrite Hu in E2. apply cap_known in E2; [|by rewrite H1]. rewrite H1 in E2. symmetry in E2. by apply Z.leb_gt in E2.
  - rewrite count_elsewhere; [done..|]. intros E. by apply Hu, daily_key_inj.
Qed.

(** While the number lasts, it bounds the devices still to come. *)
Lemma issued_while_counted qs : ∀ st n x run post,
  daily st.1 = Some (mkEntry (Count n) (Some x)) → 0 ≤ n →
  issued qs st = run ++ post → close_run (seconds ISSUE_DAILY_TTL_SECONDS) run = true →
  match run with t :: _ => t < x | [] => True end →
  n + Z.of_nat (length run) ≤ Z.max n cap.
Proof using Type*.
  induction qs as [|q qs IH]; intros st n x run post Hd Hn E Hrun Hx; cbn [issued_at] in E.
  { symmetry in E. apply app_nil in E as [-> _]. simpl. lia. }
  destruct (serve q st) as [st' r] eqn:Eq. apply serve_counts in Eq; [|by rewrite Hd].
  assert (daily st'.1 = daily st.1 → issued qs st' = run ++ post → n + Z.of_nat (length run) ≤ Z.max n cap) as Hskip.
  { intros Hs Hi. eapply IH; [by rewrite Hs|done..]. }
  destruct r as [[d|out]|e]; [by apply Hskip| |by apply Hskip].
  destruct (Z.eqb_spec q.(iq_user) uid) as [Hu|Hu]; [|by apply Hskip].
  destruct run as [|t run]; [simpl; lia|]. injection E as Et E. rewrite Et in *. destruct Eq as [Hlt Hd']. rewrite Hd in Hlt, Hd'.
  unfold live_number in Hlt, Hd'. simpl in Hlt, Hd'. destruct (Z.leb_spec x t); [lia|].
  enough (n + 1 + Z.of_nat (length run) ≤ Z.max (n + 1) cap) by (simpl length; lia).
  eapply IH; [exact Hd'|lia|exact E|..]; destruct run as [|t' run]; try done;
    apply andb_true_iff in Hrun as [Hlt' Hrun]; [done|by apply Z.ltb_lt in Hlt'].
Qed.

Lemma issued_within_cap qs : ∀ st pre run post,
  daily_entry (daily st.1) → issued qs st = pre ++ run ++ post →
  close_run (seconds ISSUE_DAILY_TTL_SECONDS) run = true → Z.of_nat (length run) ≤ cap.
Proof using Type*.
  induction qs as [|q qs IH]; intros st pre run post Hd E Hrun; cbn [issued_at] in E.
  { symmetry in E. apply app_nil in E as [_ E]. apply app_nil in E as [-> _]. simpl. lia. }
  destruct (serve q st) as [st' r] eqn:Eq. apply serve_counts in Eq; [|done].
  assert (daily st'.1 = daily st.1 → issued qs st' = pre ++ run ++ post → Z.of_nat (length run) ≤ cap) as Hskip.
  { intros Hs Hi. eapply IH; [by rewrite Hs|done..]. }
  destruct r as [[d|out]|e]; [by apply Hskip| |by apply Hskip].
  destruct (Z.eqb_spec q.(iq_user) uid) as [Hu|Hu]; [|by apply Hskip]. destruct Eq as [Hlt Hd'].
  assert (0 ≤ live_number q.(iq_now) (daily st.1)) as Hn.
  { unfold live_number. destruct (daily st.1) as [[[n|s b] [x|]]|]; simpl in *; try done. by destruct (x <=? _). }
  destruct pre as [|p pre].
  - destruct run as [|t run]; [simpl; lia|]. injection E as Et E. rewrite Et in *.
    pose proof (issued_while_counted qs st' _ _ run post Hd') as Hw.
    enough (live_number t (daily st.1) + 1 + Z.of_nat (length run) ≤ Z.max (live_number t (daily st.1) + 1) cap) by (simpl length; lia).
    apply Hw; [lia|exact E|..]; destruct run as [|t' run]; try done;
      apply andb_true_iff in Hrun as [Hlt' Hrun]; [done|by apply Z.ltb_lt in Hlt'].
  - injection E as _ E. eapply IH; [|exact E|exact Hrun]. rewrite Hd'. simpl. lia.
Qed.
End counting.

(** ** Requests that are repeated *)

Section repeating.
Context {W R : Type} `{NodeRuntimeAdapter W, NodeDirectory W, !Redis R} (entry_of : R → string → option rentry).
Context `{!RedisLaws R entry_of, !ReliableRedis R}.
Context (settings : Settings) (hb : heartbeats) (sha256_hex fernet_encrypt : string → string).
Context (k : string) (uid : Z) (Hk : str_truthy k = true).
#[local] Abbreviation held v := (entry_of v (issue_key k)).
#[local] Abbreviation serve := (issue_user_device settings hb sha256_hex fernet_encrypt).

Definition has_key (q : issue_request) : bool := bool_decide (q.(iq_key) = Some k).
#[local] Abbreviation issued := (issued_at settings hb sha256_hex fernet_encrypt has_key).

Lemma issue_key_inj k' : issue_key k' = issue_key k → k' = k.
Proof. by intros E%(inj (String.app _)). Qed.

Lemma persist_devices now did sid awg wg_obf wg admin expires replace tokens (st : W * IssueDb.t) :
  (persist_issued_configs now sha256_hex fernet_encrypt did sid awg wg_obf wg admin expires replace tokens st).1.2.(IssueDb.devices) =
  st.2.(IssueDb.devices) ∧
  is_ok (persist_issued_configs now sha256_hex fernet_encrypt did sid awg wg_obf wg admin expires replace tokens st).2 = true.
Proof.
  destruct tokens as [[t1 t2] t3]. unfold persist_issued_configs, persist_issued_configs_with_tokens, mbind, M_bind, modify, mret, M_ret.
  simpl. by destruct replace.
Qed.

(** What a request leaves of the devices. *)
Lemma issue_for_user_rows now u sub_id server_id name topology dr (st st' : W * IssueDb.t) r :
  issue_for_user settings hb sha256_hex fernet_encrypt now u sub_id server_id name topology dr st = (st', r) →
  dr.(dr_device_id) ∉ Device.id <$> st.2.(IssueDb.devices) →
  match r with
  | Err _ => st'.2 = st.2
  | Ok out => st'.2.(IssueDb.devices) = st.2.(IssueDb.devices) ++ [out.(ir_device)] ∧
      out.(ir_device).(Device.user_id) = u ∧ out.(ir_device).(Device.id) = dr.(dr_device_id)
  end.
Proof using Type*.
  unfold issue_for_user. intros E Hf. destruct r as [out|e]; [|by apply transaction_Err in E].
  apply transaction_Ok in E as Em. mstep Em Ei. apply raising_Ok in Ei.
  mstep Em Hp. unfold mret, M_ret in Em. simplify_eq.
  apply issue_device_inv in Ei as [_ Hi]. apply issued_device in Hi as (? & ? & ? & ? & ? & _ & _ & _ & Hds & Hc & _); [|done].
  pose proof (core_fields _ _ Hc) as (Hid & Hu & _).
  match type of Hp with ?m ?s = _ => pose proof (persist_devices now out.(ir_device).(Device.id) out.(ir_device).(Device.server_id) out.(ir_config_awg)
    out.(ir_config_wg_obf) out.(ir_config_wg) None None false dr.(dr_tokens) s) as [Hd _]; rewrite Hp in Hd end.
  simpl in Hd. rewrite Hd, Hds. split_and!; done.
Qed.

(** The answer is kept, and the device it names. *)
Definition kept (now : Z) (st : R * (W * IssueDb.t)) : Prop :=
  ∃ did x d, held st.1 = Some (mkEntry (Payload 0 [("value", VStr did)]) (Some x)) ∧ now ≤ x ∧
    d ∈ st.2.2.(IssueDb.devices) ∧ d.(Device.id) = did ∧ d.(Device.user_id) = uid.

Lemma serve_kept until q st st' r :
  serve q st = (st', r) → kept until st → q.(iq_now) < until → (has_key q = true → q.(iq_user) = uid) →
  q.(iq_draws).(dr_device_id) ∉ Device.id <$> st.2.2.(IssueDb.devices) →
  kept until st' ∧ (has_key q = true → ∀ out, r ≠ Ok (Issued out)).
Proof using Type*.
  destruct st as [v wd]. unfold issue_user_device. cbn [fst snd]. intros E (did & x & d & Hh & Hx & Hd & Hid & Hu) Hq Hw Hf.
  cbn [fst snd] in Hh, Hd.
  pose proof (passes_elsewhere entry_of settings (issue_key k) q.(iq_now) q.(iq_user) v ltac:(done)) as H1.
  destruct (if issue_rate_limit_per_minute settings <=? 0 then _ else _) as [v1 passed]. simpl in H1.
  assert (∀ v', held v' = held v → kept until (v', wd)) as Hkeep by (intros v' Hv; exists did, x, d; cbn [fst snd]; by rewrite Hv).
  destruct passed; simpl in E; [|simplify_eq; split; [by apply Hkeep|done]].
  pose proof (cap_reads entry_of settings (issue_key k) q.(iq_now) q.(iq_user) v1) as H2.
  destruct (cap_reached settings q.(iq_now) q.(iq_user) v1) as [v2 capped]. simpl in H2.
  destruct capped; [simplify_eq; split; [apply Hkeep; congruence|done]|].
  pose proof (remembered_reads entry_of (issue_key k) q.(iq_now) q.(iq_user) q.(iq_key) wd.2 v2) as H3.
  destruct (remembered _ _ _ _ v2) as [v3 known] eqn:E3. simpl in H3.
  destruct known as [d'|]; [simplify_eq; split; [apply Hkeep; congruence|done]|].
  assert (has_key q = false) as Hnk.
  { destruct (has_key q) eqn:Hkq; [|done]. specialize (Hw eq_refl). unfold has_key in Hkq. case_bool_decide as Hkq'; [|done].
    unfold remembered in E3. rewrite Hkq', Hk in E3. destruct (rget _ _ v2) as [v4 r4] eqn:E4.
    pose proof (rget_total q.(iq_now) (issue_key k) v2) as Ht. rewrite E4 in Ht. destruct r4 as [o|]; [|done].
    apply rget_ok in E4. rewrite H2, H1, Hh in E4. simpl in E4. destruct (Z.leb_spec x q.(iq_now)); [lia|]. simpl in E4. subst o.
    simpl in E3. injection E3 as _ E3. rewrite Hw in E3. destruct wd as [w db]. cbn [snd] in *.
    pose proof (find_none _ _ E3 d) as Hn. rewrite <- list_elem_of_In, Hid, Hu, String.eqb_refl, Z.eqb_refl in Hn. by specialize (Hn Hd). }
  destruct (issue_for_user _ _ _ _ _ _ _ _ _ _ _ wd) as [wd' r'] eqn:E4. apply issue_for_user_rows in E4; [|done].
  assert (d ∈ wd'.2.(IssueDb.devices)) as Hd'.
  { destruct r'; [destruct E4 as [-> _]; apply elem_of_app; by left|by rewrite E4]. }
  assert (∀ v', held v' = held v → kept until (v', wd')) as Hkeep' by (intros v' Hv; exists did, x, d; cbn [fst snd]; by rewrite Hv).
  split; [|by rewrite Hnk]. destruct r' as [out|e]; simplify_eq; apply Hkeep'; [|congruence].
  rewrite count_elsewhere, remember_elsewhere; [congruence|done..| |done|done].
  intros k' Hk' ->%eq_sym%issue_key_inj. unfold has_key in Hnk. by rewrite bool_decide_true in Hnk.
Qed.

Lemma serve_keeps until q st st' out :
  serve q st = (st', Ok (Issued out)) → has_key q = true → q.(iq_user) = uid →
  until ≤ q.(iq_now) + seconds settings.(idempotency_ttl_seconds) →
  q.(iq_draws).(dr_device_id) ∉ Device.id <$> st.2.2.(IssueDb.devices) → kept until st'.
Proof using Type*.
  destruct st as [v wd]. unfold issue_user_device, has_key. cbn [fst snd]. intros E Hq%bool_decide_eq_true Hu Ht Hf.
  destruct (if issue_rate_limit_per_minute settings <=? 0 then _ else _) as [v1 passed]. destruct passed; simpl in E; [|done].
  destruct (cap_reached settings q.(iq_now) q.(iq_user) v1) as [v2 capped]. destruct capped; [done|].
  destruct (remembered _ _ _ _ v2) as [v3 known]. destruct known as [d'|]; [done|].
  destruct (issue_for_user _ _ _ _ _ _ _ _ _ _ _ wd) as [wd' [out'|e]] eqn:E4; [|done].
  apply issue_for_user_rows in E4 as (Hds & Hdu & Hdi); [|done]. simplify_eq.
  unfold remember. rewrite Hq, Hk.
  pose proof (setex_total q.(iq_now) (issue_key k) settings.(idempotency_ttl_seconds) (Payload 0 [("value", VStr out.(ir_device).(Device.id))]) v3) as Hs.
  destruct (setex _ _ _ _ v3) as [v4 [[]|]] eqn:E5; [|done]. apply setex_ok in E5 as [E5 _].
  exists out.(ir_device).(Device.id), (q.(iq_now) + seconds settings.(idempotency_ttl_seconds)), out.(ir_device). cbn [fst snd].
  rewrite count_elsewhere by done. split_and!; [done..| |done|congruence]. rewrite Hds. apply elem_of_app. right. by apply list_elem_of_singleton.
Qed.

(** Devices are drawn apart from each other and from the rows. *)
Definition fresh_draws (qs : list issue_request) (db : IssueDb.t) : Prop :=
  NoDup ((Device.id <$> db.(IssueDb.devices)) ++ ((λ q, q.(iq_draws).(dr_device_id)) <$> qs)).

Lemma serve_fresh q qs st st' r :
  serve q st = (st', r) → fresh_draws (q :: qs) st.2.2 →
  q.(iq_draws).(dr_device_id) ∉ Device.id <$> st.2.2.(IssueDb.devices) ∧ fresh_draws qs st'.2.2.
Proof using Type*.
  unfold fresh_draws. destruct st as [v wd]. cbn [fst snd fmap list_fmap]. intros E Hf.
  assert (q.(iq_draws).(dr_device_id) ∉ Device.id <$> wd.2.(IssueDb.devices)) as Hn.
  { apply NoDup_app in Hf as (_ & Hf & _). intros Hin. apply (Hf _ Hin). by left. }
  split; [done|].
  assert (NoDup ((Device.id <$> wd.2.(IssueDb.devices)) ++ ((λ q, q.(iq_draws).(dr_device_id)) <$> qs))) as Hold.
  { eapply sublist_NoDup; [exact Hf|]. apply sublist_app; [done|]. by apply sublist_cons. }
  unfold issue_user_device in E.
  destruct (if issue_rate_limit_per_minute settings <=? 0 then _ else _) as [v1 passed]. destruct passed; simpl in E; [|by simplify_eq/=].
  destruct (cap_reached settings q.(iq_now) q.(iq_user) v1) as [v2 capped]. destruct capped; [by simplify_eq/=|].
  destruct (remembered _ _ _ _ v2) as [v3 known]. destruct known as [d'|]; [by simplify_eq/=|].
  destruct (issue_for_user _ _ _ _ _ _ _ _ _ _ _ wd) as [wd' [out'|e]] eqn:E4; apply issue_for_user_rows in E4; try done; simplify_eq/=.
  - destruct E4 as (-> & _ & Hi). rewrite fmap_app. csimpl. rewrite Hi, <- app_assoc. exact Hf.
  - by rewrite E4.
Qed.

Lemma kept_issues_none until qs : ∀ st,
  kept until st → fresh_draws qs st.2.2 → Forall (λ q, q.(iq_now) < until ∧ (has_key q = true → q.(iq_user) = uid)) qs →
  issued qs st = [].
Proof using Type*.
  induction qs as [|q qs IH]; intros st Hst Hf Hall; [done|]. cbn [issued_at].
  destruct (serve q st) as [st' r] eqn:E. apply Forall_cons in Hall as [[Hq Hu] Hall].
  destruct (serve_fresh _ qs _ _ _ E Hf) as [Hn Hf']. destruct (serve_kept until q st st' r E Hst Hq Hu Hn) as [Hst' Hr].
  specialize (IH st' Hst' Hf' Hall). destruct r as [[d|out]|e]; [done| |done].
  destruct (has_key q); [|done]. by destruct (Hr eq_refl out).
Qed.

Lemma issued_once until qs : ∀ st,
  fresh_draws qs st.2.2 →
  Forall (λ q, until - seconds settings.(idempotency_ttl_seconds) ≤ q.(iq_now) < until ∧ (has_key q = true → q.(iq_user) = uid)) qs →
  (length (issued qs st) ≤ 1)%nat.
Proof using Type*.
  induction qs as [|q qs IH]; intros st Hf Hall; [simpl; lia|]. cbn [issued_at].
  destruct (serve q st) as [st' r] eqn:E. apply Forall_cons in Hall as [[Hq Hu] Hall].
  destruct (serve_fresh _ qs _ _ _ E Hf) as [Hn Hf']. specialize (IH st' Hf' Hall).
  destruct r as [[d|out]|e]; [done| |done]. destruct (has_key q) eqn:Hw; [|done].
  cbn [length]. rewrite (kept_issues_none until); [done| |done|].
  - eapply serve_keeps; [exact E|done|by apply Hu|lia|done].
  - eapply Forall_impl; [exact Hall|]. intros q' [? ?]. split; [lia|done].
Qed.
End repeating.

(** ** The rows a user leaves *)

(** What the foreign keys promise. *)
Record refs_ok (db : IssueDb.t) : Prop := {
  ro_subs : Forall (λ s, s.(Subscription.user_id) ∈ User.id <$> db.(IssueDb.users)) db.(IssueDb.subscriptions);
  ro_users : Forall (λ d, d.(Device.user_id) ∈ User.id <$> db.(IssueDb.users)) db.(IssueDb.devices);
  ro_devices : Forall (λ d, d.(Device.subscription_id) ∈ Subscription.id <$> db.(IssueDb.subscriptions)) db.(IssueDb.devices);
  ro_notes : Forall (λ did, did ∈ Device.id <$> db.(IssueDb.devices)) db.(IssueDb.profile_issues);
  ro_issued : Forall (λ c, c.(IssuedConfig.device_id) ∈ Device.id <$> db.(IssueDb.devices)) db.(IssueDb.issued);
  ro_tokens : Forall (λ c, c.(OneTimeToken.device_id) ∈ Device.id <$> db.(IssueDb.devices)) db.(IssueDb.tokens)
}.

Lemma kept_device {X} (gone : Device.t → bool) (ds : list Device.t) (key : X → string) (l : list X) :
  Forall (λ x, key x ∈ Device.id <$> ds) l →
  Forall (λ x, key x ∈ Device.id <$> filterb (λ d, negb (gone d)) ds)
    (filterb (λ x, negb (str_in (key x) (Device.id <$> filterb gone ds))) l).
Proof.
  intros Hl. apply Forall_forall. intros x [Hx Hin]%elem_of_filterb. rewrite Forall_forall in Hl.
  destruct (list_elem_of_fmap_1 _ _ _ (Hl x Hin)) as (d & Hk & Hd). apply negb_true_iff, str_in_false in Hx.
  apply list_elem_of_fmap. exists d. split; [done|]. apply elem_of_filterb. split; [|done].
  destruct (gone d) eqn:Hg; [|done]. exfalso. apply Hx. rewrite Hk. apply list_elem_of_fmap_2. by apply elem_of_filterb.
Qed.

Lemma Forall_filterb {A} (P : A → Prop) (p : A → bool) l : Forall P l → Forall P (filterb p l).
Proof. rewrite !Forall_forall. intros Hl x [_ Hx]%elem_of_filterb. by apply Hl. Qed.

Lemma drop_devices_refs gone db : refs_ok db → refs_ok (drop_devices gone db).
Proof.
  intros [Hs Hu Hd Hn Hi Ht].
  constructor; simpl; [done|by apply Forall_filterb|by apply Forall_filterb|by apply (kept_device gone _ (λ x, x))|by apply kept_device|by apply kept_device].
Qed.

(** No row of another user goes, but devices on a subscription of this one. *)
Lemma cascade_rows uid db :
  let db' := _delete_user_cascade uid db in
  let mine := Subscription.id <$> filterb (λ s, s.(Subscription.user_id) =? uid) db.(IssueDb.subscriptions) in
  db'.(IssueDb.users) = filterb (λ u, negb (u.(User.id) =? uid)) db.(IssueDb.users) ∧
  db'.(IssueDb.subscriptions) = filterb (λ s, negb (s.(Subscription.user_id) =? uid)) db.(IssueDb.subscriptions) ∧
  ∀ d, d ∈ db'.(IssueDb.devices) ↔
    d ∈ db.(IssueDb.devices) ∧ d.(Device.user_id) ≠ uid ∧ d.(Device.subscription_id) ∉ mine.
Proof.
  cbv zeta. split_and!; [done|done|]. intros d. unfold _delete_user_cascade. simpl.
  rewrite !elem_of_filterb, !negb_true_iff, Z.eqb_neq, str_in_false. tauto.
Qed.

(** Users and subscriptions to which nothing refers any more. *)
Lemma cut_refs uid db :
  refs_ok db →
  Forall (λ d, d.(Device.user_id) ≠ uid ∧
               d.(Device.subscription_id) ∉ Subscription.id <$> filterb (λ s, s.(Subscription.user_id) =? uid) db.(IssueDb.subscriptions))
    db.(IssueDb.devices) →
  refs_ok (IssueDb.set_users (λ l, filterb (λ u, negb (u.(User.id) =? uid)) l)
             (IssueDb.set_subscriptions (λ l, filterb (λ s, negb (s.(Subscription.user_id) =? uid)) l) db)).
Proof.
  intros [Hs Hu Hd Hn Hi Ht] Hfree.
  rewrite Forall_forall in Hs. rewrite Forall_forall in Hu. rewrite Forall_forall in Hd. rewrite Forall_forall in Hfree.
  assert (∀ i, i ∈ User.id <$> db.(IssueDb.users) → i ≠ uid →
            i ∈ User.id <$> filterb (λ u, negb (u.(User.id) =? uid)) db.(IssueDb.users)) as Huid.
  { intros i (u & -> & Hin)%list_elem_of_fmap Hne. apply list_elem_of_fmap_2, elem_of_filterb. split; [|done]. by apply negb_true_iff, Z.eqb_neq. }
  constructor; simpl; [| | |done..]; apply Forall_forall.
  - intros s [Hne%negb_true_iff%Z.eqb_neq Hin]%elem_of_filterb. apply Huid; [by apply Hs|done].
  - intros d Hin. apply Huid; [by apply Hu|by apply Hfree].
  - intros d Hin. destruct (list_elem_of_fmap_1 _ _ _ (Hd d Hin)) as (s & Hs' & Hsin). rewrite Hs'.
    apply list_elem_of_fmap_2, elem_of_filterb. split; [|done]. destruct (s.(Subscription.user_id) =? uid) eqn:He; [|done].
    exfalso. apply (proj2 (Hfree d Hin)). rewrite Hs'. by apply list_elem_of_fmap_2, elem_of_filterb.
Qed.

Lemma cascade_refs uid db : refs_ok db → refs_ok (_delete_user_cascade uid db).
Proof.
  intros Hr. unfold _delete_user_cascade. apply cut_refs; [by apply drop_devices_refs, drop_devices_refs|].
  apply Forall_forall. intros d. simpl. rewrite !elem_of_filterb, !negb_true_iff, Z.eqb_neq, str_in_false. tauto.
Qed.


(** ** The promises of issuing for a user *)


(** An idempotency key makes one device.  Whatever requests come within
    the lifetime of the answers, with this key and others, of this user and others
    on other keys, at most one of those with the key makes a device; Redis answers,
    and the identifiers of new devices are new. *)
Theorem idempotency_key_issues_once {W R} `{NodeRuntimeAdapter W, NodeDirectory W, !Redis R} (entry_of : R → string → option rentry)
    `{!RedisLaws R entry_of, !ReliableRedis R} settings hb sha256_hex fernet_encrypt k uid until qs (st : R * (W * IssueDb.t)) :
  k ≠ "" → fresh_draws qs st.2.2 →
  Forall (λ q, until - seconds settings.(idempotency_ttl_seconds) ≤ q.(iq_now) < until ∧
               (has_key k q = true → q.(iq_user) = uid)) qs →
  (length (issued_at settings hb sha256_hex fernet_encrypt (has_key k) qs st) ≤ 1)%nat.
Proof. intros Hk Hf Hall. eapply (issued_once entry_of _ _ _ _ k uid); [by destruct k|done..]. Qed.

Definition no_topology : ClusterTopology := mkTopology 0 [] 0 0 f0 f0 f0 f0 f0 0.

Definition hour (n : Z) : Z := n * seconds 3600.

(** The server is named, so the topology is not read. *)
Definition wit_request (now : Z) (key : option string) (id : string) : issue_request :=
  mkIssueRequest now 7 "sub" (Some "s1") None key no_topology (mkDraws id (wit_key "P") (wit_key "Q") (wit_key "R") ("t1", "t2", "t3")).

Definition wit_users_db : IssueDb.t :=
  IssueDb.mk [User.mk 7 700 false; User.mk 8 800 false; User.mk 1 100 false] []
    [Subscription.mk "sub" 7 "p1" 0 (days 30) 9 "active" false None None None None None 0;
     Subscription.mk "sub8" 8 "p1" 0 (days 30) 9 "active" false None None None None None 0]
    [Device.test "d0" "s1" "k0" "10.8.1.2/32"] [Server.test "s1" true] [] [] [] [] [].

Definition wit_users : steady_store * (steady * IssueDb.t) := (mkSteadyStore ∅, (mkSteady ∅, wit_users_db)).

Definition capped : Settings := with_daily_cap 2 (with_node_mode "real" default_settings).

Definition wit_serve := issue_user_device capped (Held []) (λ s, s) (λ s, s).
Definition answers (qs : list issue_request) : list (res (option string)) :=
  let step '(st, out) q :=
    let '(st, r) := wit_serve q st in
    (st, out ++ [match r with Ok (Issued o) => Ok (Some o.(ir_device).(Device.id)) | Ok (Reused d) => Ok None | Err e => Err e end]) in
  (fold_left step qs (wit_users, [])).2.

(** The counter ends a day after the last device, not after the first: the third
    request of three days is refused though one device was made in the last day. *)
Definition wit_slow : list issue_request :=
  [wit_request 0 None "d1"; wit_request (hour 23) None "d2"; wit_request (hour 46) None "d3"; wit_request (hour 47) None "d4"].

Example cap_is_not_of_a_day :
  answers wit_slow = [Ok (Some "d1"); Ok (Some "d2"); Err (HTTPException 429 "DAILY_ISSUE_CAP_EXCEEDED"); Ok (Some "d4")].
Proof. vm_compute. reflexivity. Qed.

(** The key is kept for any user: another's request with it makes the first issue again. *)
Example key_of_two_users :
  let q8 := mkIssueRequest 1 8 "sub8" (Some "s1") None (Some "k") no_topology
              (mkDraws "e1" (wit_key "P") (wit_key "T") (wit_key "R") ("t1", "t2", "t3")) in
  answers [wit_request 0 (Some "k") "d1"; wit_request 0 (Some "k") "d2"; q8; wit_request 2 (Some "k") "d3"] =
    [Ok (Some "d1"); Ok None; Ok (Some "e1"); Ok (Some "d3")].
Proof. vm_compute. reflexivity. Qed.


Lemma idempotency_key_issues_once_witness :
  let qs := [wit_request 0 (Some "k") "d1"; wit_request 1 None "d2"; wit_request (hour 23) (Some "k") "d3"] in
  let times := issued_at capped (Held []) (λ s, s) (λ s, s) (has_key "k") qs wit_users in
  (length times ≤ 1)%nat ∧ times = [0].
Proof.
  intros qs times. split; [|vm_compute; reflexivity].
  apply (idempotency_key_issues_once steady_entry capped (Held []) (λ s, s) (λ s, s) "k" 7 (hour 24) qs wit_users); [done| |].
  - vm_compute. repeat (constructor; [intros H; repeat (apply elem_of_cons in H as [H|H]; [discriminate H|]); by apply not_elem_of_nil in H|]). constructor.
  - repeat (constructor; [split; [vm_compute; split; congruence|reflexivity]|]). constructor.
Defined.

