(* ===== verification/AppSettings.v ===== *)
(** * Settings and data changed by administrators ([api/v1/app_settings.py])

    What an administrator may see and change of the settings of the running
    process, the file of the environment, and the deletion of the data of all
    users.  The settings are one object that requests change in place.  The path of
    the file is an argument; the audit row is left out. *)

From S2P Require Import Prelude PyStr PyVal Settings Models Issue UsersApi Auth.
Open Scope Z_scope.

(** ** The settings of the process *)

(** The five fields a request can assign. *)
Definition with_app_settings (cap bonus trial discount : Z) (cors : string) (s : Settings) : Settings :=
  mkSettings s.(database_url) s.(redis_url) s.(secret_key) s.(jwt_algorithm)
    s.(access_token_expire_seconds) s.(refresh_token_expire_seconds) s.(port) s.(admin_email)
    s.(admin_password) s.(login_rate_limit) s.(login_rate_window_seconds)
    s.(login_rate_limit_fail_closed) s.(refresh_blocklist_fail_closed)
    s.(api_rate_limit_per_minute) s.(api_rate_limit_window_seconds)
    s.(api_rate_limit_exempt_ips) s.(ban_confirm_token) s.(idempotency_ttl_seconds)
    s.(revoke_confirm_token) cors s.(log_json) s.(log_level)
    s.(slow_request_threshold_ms) s.(node_health_timeout_seconds)
    s.(node_health_interval_seconds) s.(node_health_fail_count_disable) s.(node_retry_count)
    s.(node_retry_backoff_seconds) s.(node_circuit_fail_threshold) s.(node_circuit_open_seconds)
    s.(node_verify_ssl) s.(restart_confirm_token) s.(block_confirm_token)
    s.(cleanup_db_confirm_token) s.(app_env_editor_enabled) s.(admin_telemetry_events_enabled)
    s.(admin_telemetry_sample_rate) s.(telegram_stars_webhook_secret) s.(bot_api_key)
    s.(telegram_bot_token) s.(webapp_session_expire_seconds) s.(limits_check_interval_seconds)
    s.(limits_auto_block_enabled) s.(node_telemetry_interval_seconds)
    s.(node_telemetry_cache_ttl_seconds) s.(node_telemetry_concurrency)
    s.(node_telemetry_interval_idle_seconds) s.(telemetry_prometheus_url) s.(telemetry_loki_url)
    s.(otel_traces_endpoint) s.(docker_telemetry_hosts_json)
    s.(docker_telemetry_cache_ttl_seconds) s.(docker_telemetry_stats_concurrency)
    s.(docker_telemetry_request_timeout_seconds) s.(docker_telemetry_retry_count)
    s.(docker_telemetry_circuit_fail_threshold) s.(docker_telemetry_circuit_open_seconds)
    s.(docker_telemetry_metrics_max_range_seconds) s.(docker_telemetry_metrics_min_step_seconds)
    s.(docker_telemetry_metrics_max_step_seconds) s.(docker_logs_max_tail)
    s.(docker_alert_eval_interval_seconds) s.(docker_alert_resolved_ttl_seconds)
    s.(docker_alert_restart_loop_threshold) s.(docker_alert_high_cpu_warning_pct)
    s.(docker_alert_high_cpu_critical_pct) s.(docker_alert_high_mem_warning_pct)
    s.(docker_alert_high_mem_critical_pct) s.(docker_alert_disk_pressure_pct)
    s.(live_obs_enabled) s.(live_obs_agg_interval_seconds) s.(live_obs_sse_max_connections)
    s.(live_obs_max_event_bytes) s.(issue_rate_limit_per_minute) s.(issue_rate_window_seconds)
    cap bonus trial
    s.(trial_plan_id) discount s.(environment) s.(node_mode)
    s.(issue_fallback_on_peer_failure) s.(topology_cache_ttl_seconds)
    s.(reconciliation_interval_seconds) s.(reconciliation_read_only) s.(reconciliation_remove_orphans)
    s.(handshake_quality_gate_minutes) s.(node_discovery) s.(node_scan_interval_seconds)
    s.(control_plane_automation_enabled) s.(control_plane_automation_interval_seconds)
    s.(control_plane_rebalance_high_watermark) s.(control_plane_rebalance_target_watermark)
    s.(control_plane_rebalance_max_moves_per_node) s.(control_plane_rebalance_execute_enabled)
    s.(control_plane_rebalance_batch_size) s.(control_plane_rebalance_max_executions_per_cycle)
    s.(control_plane_rebalance_stop_on_error) s.(control_plane_rebalance_rollback_on_error)
    s.(control_plane_enterprise_plan_keywords)
    s.(control_plane_rebalance_qos_idle_handshake_seconds)
    s.(control_plane_rebalance_qos_hot_traffic_bytes) s.(control_plane_throttling_enabled)
    s.(control_plane_throttling_dry_run) s.(control_plane_probe_fresh_seconds)
    s.(control_plane_geo_region_affinity_bonus) s.(control_plane_events_ws_poll_seconds)
    s.(control_plane_events_ws_initial_limit) s.(control_plane_unhealthy_health_threshold)
    s.(server_sync_interval_seconds) s.(server_sync_min_interval_seconds)
    s.(server_sync_max_concurrent) s.(server_sync_backoff_max_seconds)
    s.(server_sync_skip_draining) s.(load_balancer_weight_capacity)
    s.(load_balancer_weight_health) s.(load_balancer_weight_load)
    s.(load_balancer_weight_latency) s.(agent_shared_token) s.(agent_heartbeat_ttl_seconds)
    s.(vpn_default_host) s.(docker_vpn_container_prefixes) s.(feature_outline_legacy).

Definition set_cap (z : Z) (s : Settings) : Settings :=
  with_app_settings z s.(referral_reward_bonus_days) s.(trial_duration_hours) s.(retention_discount_percent) s.(cors_allow_origins) s.
Definition set_bonus (z : Z) (s : Settings) : Settings :=
  with_app_settings s.(config_regen_daily_cap) z s.(trial_duration_hours) s.(retention_discount_percent) s.(cors_allow_origins) s.
Definition set_trial (z : Z) (s : Settings) : Settings :=
  with_app_settings s.(config_regen_daily_cap) s.(referral_reward_bonus_days) z s.(retention_discount_percent) s.(cors_allow_origins) s.
Definition set_discount (z : Z) (s : Settings) : Settings :=
  with_app_settings s.(config_regen_daily_cap) s.(referral_reward_bonus_days) s.(trial_duration_hours) z s.(cors_allow_origins) s.
Definition set_cors (c : string) (s : Settings) : Settings :=
  with_app_settings s.(config_regen_daily_cap) s.(referral_reward_bonus_days) s.(trial_duration_hours) s.(retention_discount_percent) c s.

(** ** What an administrator may do *)

Definition PERM_SETTINGS_READ : string := "settings:read".
Definition PERM_SETTINGS_WRITE : string := "settings:write".
Definition PERM_SETTINGS_DANGEROUS : string := "settings:dangerous".

Record AppSettingsCapabilities : Type := mkCapabilities {
  can_read : bool; can_write : bool; can_manage_dangerous : bool; env_editor_enabled : bool; can_edit_env : bool;
  can_cleanup_db : bool
}.

Definition _has_permission (perms : list string) (permission : string) : bool := str_in "*" perms || str_in permission perms.

(** The permissions of a role, none when there is no role. *)
Definition _load_permissions (role_id : string) (db : auth_db) : list string :=
  match List.find (λ r, String.eqb r.(Role.id) role_id) db.(roles) with
  | None => []
  | Some role => default [] role.(Role.permissions)
  end.

Definition _build_capabilities (settings : Settings) (p : principal) (db : auth_db) : AppSettingsCapabilities :=
  match p with
  | AdminPrincipal a =>
      let perms := _load_permissions a.(AdminUser.role_id) db in
      let dangerous := _has_permission perms PERM_SETTINGS_DANGEROUS in
      mkCapabilities (_has_permission perms PERM_SETTINGS_READ) (_has_permission perms PERM_SETTINGS_WRITE) dangerous
        settings.(app_env_editor_enabled) (dangerous && settings.(app_env_editor_enabled)) dangerous
  | _ => mkCapabilities false false false settings.(app_env_editor_enabled) false false
  end.

Record AppSettingsOut : Type := mkAppSettingsOut {
  as_environment : string; as_node_mode : string; as_node_discovery : string; as_vpn_default_host : string;
  as_telemetry_prometheus_url : string; as_telemetry_loki_url : string; as_otel_traces_endpoint : string;
  as_docker_telemetry_hosts_json : string; as_docker_telemetry_enabled : bool; as_live_obs_enabled : bool;
  as_config_regen_daily_cap : Z; as_referral_reward_bonus_days : Z; as_trial_duration_hours : Z;
  as_retention_discount_percent : Z; as_cors_allow_origins : string; as_capabilities : AppSettingsCapabilities
}.

Definition _serialize_app_settings (settings : Settings) (capabilities : AppSettingsCapabilities) : AppSettingsOut :=
  mkAppSettingsOut settings.(environment) settings.(node_mode) settings.(node_discovery) settings.(vpn_default_host)
    settings.(telemetry_prometheus_url) settings.(telemetry_loki_url) settings.(otel_traces_endpoint)
    settings.(docker_telemetry_hosts_json) (str_truthy settings.(docker_telemetry_hosts_json)) settings.(live_obs_enabled)
    settings.(config_regen_daily_cap) settings.(referral_reward_bonus_days) settings.(trial_duration_hours)
    settings.(retention_discount_percent) settings.(cors_allow_origins) capabilities.

Definition get_app_settings (settings : Settings) (p : principal) (db : auth_db) : res AppSettingsOut :=
  let capabilities := _build_capabilities settings p db in
  match p with
  | AdminPrincipal _ =>
      if capabilities.(can_read) || capabilities.(can_write) || capabilities.(can_manage_dangerous)
      then Ok (_serialize_app_settings settings capabilities) else Err forbidden
  | _ => Err forbidden
  end.

(** ** Changing the settings *)

Record AppSettingsUpdateBody : Type := mkUpdateBody {
  ub_config_regen_daily_cap : option Z; ub_referral_reward_bonus_days : option Z; ub_trial_duration_hours : option Z;
  ub_retention_discount_percent : option Z; ub_cors_allow_origins : option string
}.

(** One field: it is checked and assigned, unless an earlier one was refused. *)
Definition update_field {A} (v : option A) (ok : A → bool) (detail : string) (set : A → Settings → Settings)
    (st : Settings * res unit) : Settings * res unit :=
  match st, v with
  | (s, Ok _), Some a => if ok a then (set a s, Ok tt) else (s, Err (HTTPException 400 detail))
  | _, _ => st
  end.

Definition non_negative (z : Z) : bool := 0 <=? z.
Definition percent (z : Z) : bool := (0 <=? z) && (z <=? 100).

Definition update_fields (body : AppSettingsUpdateBody) (settings : Settings) : Settings * res unit :=
  let st := update_field body.(ub_config_regen_daily_cap) non_negative "config_regen_daily_cap must be >= 0" set_cap (settings, Ok tt) in
  let st := update_field body.(ub_referral_reward_bonus_days) non_negative "referral_reward_bonus_days must be >= 0" set_bonus st in
  let st := update_field body.(ub_trial_duration_hours) non_negative "trial_duration_hours must be >= 0" set_trial st in
  let st := update_field body.(ub_retention_discount_percent) percent "retention_discount_percent must be between 0 and 100" set_discount st in
  update_field body.(ub_cors_allow_origins) (λ _, true) "" set_cors st.

Definition update_app_settings (body : AppSettingsUpdateBody) (settings : Settings) : Settings * res AppSettingsOut :=
  let '(s, r) := update_fields body settings in
  (s, _ ← r; Ok (_serialize_app_settings s (mkCapabilities true true false s.(app_env_editor_enabled) false false))).

(** ** The file of the environment *)

(** A file that may be missing; reading and writing it may raise. *)
Class EnvFile (W : Type) := {
  env_exists : W → bool;
  read_text : W → res string;
  write_text : string → W → W * res unit
}.

Definition env_editor_disabled : exn := HTTPException 403 "Environment editor is disabled by APP_ENV_EDITOR_ENABLED=0".
Definition _ensure_env_editor_enabled (settings : Settings) : res unit :=
  if settings.(app_env_editor_enabled) then Ok tt else Err env_editor_disabled.

Definition of_os_error {A} (detail : string) (r : res A) : res A :=
  match r with Err (OSError _) => Err (HTTPException 500 detail) | _ => r end.

Section env.
Context {W : Type} `{EnvFile W}.

(** The path and the text. *)
Definition get_env_file (settings : Settings) (path : string) (w : W) : res (string * string) :=
  _ ← _ensure_env_editor_enabled settings;
  if negb (env_exists w) then Err (HTTPException 404 (".env file not found at " +:+ path))
  else content ← of_os_error "Failed to read .env file" (read_text w); Ok (path, content).

Definition update_env_file (settings : Settings) (path content : string) (w : W) : W * res (string * string) :=
  match _ensure_env_editor_enabled settings with
  | Err e => (w, Err e)
  | Ok _ =>
      let '(w, r) := write_text content w in
      (w, _ ← of_os_error "Failed to write .env file" r; Ok (path, content))
  end.
End env.

(** ** Deleting the data of all users *)

(** The tables of users, in the order of the code; a one-time token goes with its
    device.  The payments, referrals, redemptions and events are left out. *)
Definition clean_tables (db : IssueDb.t) : IssueDb.t :=
  let db := IssueDb.set_profile_issues (λ _, []) db in
  let db := IssueDb.set_issued (λ _, []) db in
  let db := IssueDb.set_tokens (λ _, []) (IssueDb.set_devices (λ _, []) db) in
  let db := IssueDb.set_subscriptions (λ _, []) db in
  IssueDb.set_users (λ _, []) db.

Definition cleanup_db {W} (settings : Settings) (confirm_token : string) (st : W * IssueDb.t) : W * IssueDb.t * res unit :=
  if String.eqb confirm_token settings.(cleanup_db_confirm_token) then (st.1, clean_tables st.2, Ok tt)
  else (st, Err (HTTPException 400 "Invalid confirmation token")).

(** ** Facts *)

(** A capability is the permission its request asks for. *)
Lemma capability_is_permission settings a db permission :
  is_ok (check_permission permission a db) = _has_permission (_load_permissions a.(AdminUser.role_id) db) permission ∧
  (_build_capabilities settings (AdminPrincipal a) db).(can_write) = is_ok (check_permission PERM_SETTINGS_WRITE a db) ∧
  (_build_capabilities settings (AdminPrincipal a) db).(can_cleanup_db) = is_ok (check_permission PERM_SETTINGS_DANGEROUS a db).
Proof.
  assert (∀ p, is_ok (check_permission p a db) = _has_permission (_load_permissions a.(AdminUser.role_id) db) p) as Hp.
  { intros p. unfold check_permission, _has_permission, _load_permissions. destruct (List.find _ _) as [role|]; [|done].
    by destruct (str_in "*" _), (str_in p _). }
  split_and!; [apply Hp|by rewrite Hp..].
Qed.

(** What the code after a request may rely on. *)
Definition app_settings_ok (s : Settings) : Prop :=
  0 ≤ s.(config_regen_daily_cap) ∧ 0 ≤ s.(referral_reward_bonus_days) ∧ 0 ≤ s.(trial_duration_hours) ∧
  0 ≤ s.(retention_discount_percent) ≤ 100.

Lemma update_field_keeps {A} (P : Settings → Prop) (v : option A) ok detail set st :
  (∀ a s, ok a = true → P s → P (set a s)) → P st.1 → P (update_field v ok detail set st).1.
Proof.
  intros Hset Hp. unfold update_field. destruct st as [s [u|e]], v as [a|]; cbn in *; try done.
  destruct (ok a) eqn:E; [by apply Hset|done].
Qed.

(** Whatever a request says, also one that is refused halfway, the limits hold. *)
Lemma update_keeps_limits body s : app_settings_ok s → app_settings_ok (update_app_settings body s).1.
Proof.
  intros Hs. unfold update_app_settings. destruct (update_fields body s) as [s' r] eqn:E. cbn.
  apply (f_equal fst) in E. cbn in E. rewrite <- E. unfold update_fields.
  repeat apply update_field_keeps; try done; unfold app_settings_ok, non_negative, percent; cbn; intros; lia.
Qed.

(** The first field that is refused, of the four that are checked. *)
Definition accepted {A} (ok : A → bool) (v : option A) : bool := match v with Some a => ok a | None => true end.

(** The fields before one that is refused stay assigned: the answer is 400, and the
    process runs with some of the new values. *)
Lemma refused_update_is_partial body s :
  accepted non_negative body.(ub_config_regen_daily_cap) = true → accepted non_negative body.(ub_referral_reward_bonus_days) = true →
  accepted non_negative body.(ub_trial_duration_hours) = true → accepted percent body.(ub_retention_discount_percent) = false →
  update_app_settings body s =
    (with_app_settings (default s.(config_regen_daily_cap) body.(ub_config_regen_daily_cap))
       (default s.(referral_reward_bonus_days) body.(ub_referral_reward_bonus_days))
       (default s.(trial_duration_hours) body.(ub_trial_duration_hours)) s.(retention_discount_percent) s.(cors_allow_origins) s,
     Err (HTTPException 400 "retention_discount_percent must be between 0 and 100")).
Proof.
  destruct body as [cap bonus trial discount cors]. cbn. intros H1 H2 H3 H4. unfold update_app_settings, update_fields, update_field.
  cbn. destruct cap as [c|]; cbn in H1; rewrite ?H1; destruct bonus as [b|]; cbn in H2; rewrite ?H2;
    destruct trial as [t|]; cbn in H3; rewrite ?H3; (destruct discount as [d|]; [|done]); cbn in H4; rewrite ?H4; by destruct s.
Qed.

(** The answer to a change does not have the permissions of the administrator. *)
Example answer_forgets_permissions :
  let a := AdminUser.mk "a1" "a@b" "h" "r1" None in
  let db := mkAuthDb [a] [Role.mk "r1" "owner" (Some ["*"])] in
  let caps r := match r with Ok out => Some out.(as_capabilities).(can_manage_dangerous) | Err _ => None end in
  caps (get_app_settings default_settings (AdminPrincipal a) db) = Some true ∧
  caps (update_app_settings (mkUpdateBody None None None None None) default_settings).2 = Some false.
Proof. vm_compute. done. Qed.

(** After the cleaning nothing is left to refer to, but the nodes are not told: every
    peer is still there. *)
Lemma cleanup_spec {W} settings token (w : W) db :
  let '(w', db', r) := cleanup_db settings token (w, db) in
  w' = w ∧
  match r with
  | Ok _ => token = settings.(cleanup_db_confirm_token) ∧ refs_ok db' ∧ db'.(IssueDb.users) = [] ∧ db'.(IssueDb.devices) = [] ∧
            db'.(IssueDb.subscriptions) = [] ∧ db'.(IssueDb.servers) = db.(IssueDb.servers) ∧ db'.(IssueDb.plans) = db.(IssueDb.plans)
  | Err e => db' = db ∧ e = HTTPException 400 "Invalid confirmation token"
  end.
Proof.
  unfold cleanup_db. destruct (String.eqb_spec token settings.(cleanup_db_confirm_token)) as [->|]; [|done].
  by split_and!.
Qed.
