(* ===== verification/ServerPeers.v ===== *)
(** * The peers of a server ([api/v1/servers_peers.py])

    What an administrator sees of the peers of a server, and issues, rotates,
    revokes, blocks and resets there.  An answer to an issue is remembered in
    Redis, whose state [R] is apart from that of the nodes. *)

From S2P Require Import Prelude PyStr PyVal Settings Models Node Health Runtime LiveKey DeviceTelemetry Issue AdminIssue RateLimit Auth Download DevicesApi UsersApi.
Open Scope Z_scope.

(** ** What is shown *)

Definition _peer_issues (allowed_ips : option string) (last_handshake_ts : option Z) (rx tx now_ts : Z) : list string :=
  (if match last_handshake_ts with Some t => 180 <? now_ts - secs t | None => true end then ["no_handshake"] else []) ++
  (if rx + tx =? 0 then ["no_traffic"] else []) ++
  (let a := lower (strip (default "" allowed_ips)) in
   if negb (str_truthy a) || str_in a ["(none)"; "none"; "0.0.0.0/0, ::/0"] then ["wrong_allowed_ips"] else []).

(** Without the round trip and the loss an agent measures. *)
Record PeerOut : Type := mkPeerOut {
  po_public_key : string;
  po_peer_id : option string;
  po_device_name : option string;
  po_allowed_ips : string;
  po_last_handshake_ts : option Z;
  po_rx_bytes : Z;
  po_tx_bytes : Z;
  po_status : string;
  po_issues : list string
}.

(** [datetime.fromtimestamp]. *)
Definition fromtimestamp (s : Z) : res Z :=
  if (DT_MIN <=? seconds s) && (seconds s <=? DT_MAX) then Ok (seconds s)
  else Err (ValueError "year is out of range").

Definition pk_to_dev (sid : string) (db : IssueDb.t) : list (string * (string * option string)) :=
  dict_of ((λ d, (d.(Device.public_key), (d.(Device.id), non_empty (Some (strip (default "" d.(Device.device_name))))))) <$>
           filterb (λ d, String.eqb d.(Device.server_id) sid && is_none d.(Device.revoked_at)) db.(IssueDb.devices)).

Definition peer_out (devs : list (string * (string * option string))) (pk allowed_ips status : string) (last : option Z)
    (rx tx now_ts : Z) : PeerOut :=
  mkPeerOut pk (fst <$> dget pk devs) (dget pk devs ≫= snd) allowed_ips last rx tx status
    (_peer_issues (Some allowed_ips) last rx tx now_ts).

(** A peer of a heartbeat. *)
Definition heartbeat_peer (devs : list (string * (string * option string))) (now_ts : Z) (p : pydict) : res PeerOut :=
  let pk := render (v_or (getv p "public_key") (VStr "")) in
  let age := match getv p "last_handshake_age_sec" with VInt a => Some a | VBool b => Some (Z.b2z b) | _ => None end in
  hs ← match age with
       | Some a => if 0 <=? a
                   then t ← fromtimestamp (now_ts - a); Ok (Some t, if a <=? 180 then "online" else "offline")
                   else Ok (None, "unknown")
       | None => Ok (None, "unknown")
       end;
  rx ← int_of (v_or (getv p "rx_bytes") (VInt 0));
  tx ← int_of (v_or (getv p "tx_bytes") (VInt 0));
  Ok (peer_out devs pk (render (v_or (getv p "allowed_ips") (VStr ""))) hs.2 hs.1 rx tx now_ts).

(** A row of [list_peers]. *)
Definition runtime_peer (devs : list (string * (string * option string))) (now_ts : Z) (p : RuntimePeer) : res PeerOut :=
  let last := oint_or0 p.(rp_last_handshake) in
  hs ← (if 0 <? last then t ← fromtimestamp last; Ok (Some t, if now_ts - last <=? 180 then "online" else "offline")
        else Ok (None, "unknown"));
  Ok (peer_out devs p.(rp_public_key) (default "" p.(rp_allowed_ips)) hs.2 hs.1
        (oint_or0 p.(rp_transfer_rx)) (oint_or0 p.(rp_transfer_tx)) now_ts).

Section peers.
Context {W : Type} `{NodeRuntimeAdapter W} (settings : Settings) (now : Z).

(** The peers, whether the node could be reached, whether the server is known.
    [hb]: the peers of the heartbeat, when there is one. *)
Definition fetch_peers_for_server (sid : string) (hb : option (list pydict)) : M W (list PeerOut * bool * bool) :=
  db ← get_rows;
  match IssueDb.find_server db sid with
  | None => mret ([], false, false)
  | Some _ =>
      if String.eqb settings.(node_discovery) "agent" then
        peers ← lift (map_res (heartbeat_peer (pk_to_dev sid db) (secs now)) (default [] hb));
        mret (peers, is_some hb, true)
      else
        r ← attempt (rows ← on_nodes (list_peers sid); lift (map_res (runtime_peer (pk_to_dev sid db) (secs now)) rows));
        mret (match r with Ok peers => (peers, true, true) | Err _ => ([], false, true) end)
  end.

Definition server_not_found : exn := HTTPException 404 "Server not found".

Definition get_server_peers (sid : string) (hb : option (list pydict)) : M W (list PeerOut * Z * bool) :=
  r ← fetch_peers_for_server sid hb;
  let '(peers, reachable, found) := r in
  _ ← raise_unless found server_not_found;
  mret (peers, Z.of_nat (length peers), reachable).

(** How many peers the node lacks, and how many it has too many. *)
Definition get_server_peers_sync (sid : string) : M W (Z * Z) :=
  _ ← raise_unless (negb (String.eqb settings.(node_discovery) "agent" || String.eqb settings.(node_mode) "agent"))
        (HTTPException 409 "AGENT_MODE_UNSUPPORTED");
  db ← get_rows;
  _ ← some_or (IssueDb.find_server db sid) server_not_found;
  rows ← on_nodes (list_peers sid);
  mret (sync_peers_after_restart db.(IssueDb.devices) sid ((λ p, Some p.(rp_public_key)) <$> rows)).

Definition peer_not_found : exn := HTTPException 404 "Peer not found".

(** [node_mode == "real"] and what the node answered: whether it accepted. *)
Definition drop_peer (sid public_key : string) : M W bool :=
  if is_real_mode settings then r ← attempt (on_nodes (remove_peer sid public_key)); mret (is_ok r) else mret false.

(** Whether the node accepted; [None] when the device was revoked before. *)
Definition revoke_server_peer (sid peer_id : string) : M W (option bool) :=
  db ← get_rows;
  d ← some_or (List.find (λ d, String.eqb d.(Device.id) peer_id && String.eqb d.(Device.server_id) sid) db.(IssueDb.devices))
        peer_not_found;
  if is_some d.(Device.revoked_at) then mret None
  else
    ok ← drop_peer sid d.(Device.public_key);
    _ ← change_device peer_id (Device.set_revoked_at (Some now));
    mret (Some ok).

Definition live_key_on (sid public_key : string) (db : IssueDb.t) : list Device.t :=
  let pk_norm := strip (replace_char "_" "/" (replace_char "-" "+" public_key)) in
  filterb (λ d, String.eqb d.(Device.server_id) sid && str_in d.(Device.public_key) [pk_norm; strip public_key] &&
                is_none d.(Device.revoked_at)) db.(IssueDb.devices).

(** In agent mode the device is revoked, and the agent drops its peer; otherwise
    the node drops the peer and the rows stay. *)
Definition drop_or_revoke (sid public_key refused : string) : M W string :=
  ok ← drop_peer sid public_key;
  if String.eqb settings.(node_mode) "agent" then
    db ← get_rows;
    d ← lift (one_row (live_key_on sid public_key db));
    d ← some_or d peer_not_found;
    _ ← change_device d.(Device.id) (Device.set_revoked_at (Some now));
    mret "accepted"
  else
    _ ← raise_unless ok (HTTPException 502 refused);
    mret "ok".

Definition the_server (sid : string) : M W Server.t :=
  db ← get_rows; some_or (IssueDb.find_server db sid) (server_not_found).

Definition block_server_peer (sid public_key confirm_token : string) : M W string :=
  _ ← raise_unless (String.eqb confirm_token settings.(block_confirm_token))
        (HTTPException 400 "Block requires confirm_token in body");
  _ ← the_server sid;
  drop_or_revoke sid public_key "Node did not accept block".

Definition reset_server_peer (sid public_key : string) : M W string :=
  _ ← the_server sid;
  drop_or_revoke sid public_key "Node did not accept reset".
End peers.


(** ** Issuing on a server *)

Definition IDEMPOTENCY_ADMIN_ISSUE_PREFIX : string := "admin_issue:".
Definition IDEMPOTENCY_ADMIN_ISSUE_TTL : Z := 86400.

Definition admin_issue_key (sid client_request_id : string) : string :=
  IDEMPOTENCY_ADMIN_ISSUE_PREFIX +:+ sid +:+ ":" +:+ client_request_id.

Definition config_base (base_url : string) : string :=
  rstrip_with (Ascii.eqb "/") base_url +:+ "/api/v1/admin/configs".

(** [url.rstrip("/").split("/")[-2]] *)
Definition url_token (url : string) : string :=
  let parts := split "/" (rstrip_with (Ascii.eqb "/") url) in nth (length parts - 2) parts "".

Record AdminIssuePeerResponse : Type := mkPeerResponse {
  pr_device : Device.t;
  pr_awg : ConfigEntry;
  pr_wg_obf : ConfigEntry;
  pr_wg : ConfigEntry;
  pr_peer_created : bool
}.

(** What is remembered of an answer. *)
Definition issue_memory (out : AdminIssueResult) : pydict :=
  [("device_id", VStr out.(ar_device).(Device.id)); ("token_awg", VStr (url_token out.(ar_awg).(download_url)));
   ("token_wg_obf", VStr (url_token out.(ar_wg_obf).(download_url))); ("token_wg", VStr (url_token out.(ar_wg).(download_url)))].

(** The answer to a request that is repeated: the links, not the texts. *)
Definition recalled (base : string) (data : pydict) (db : IssueDb.t) : option AdminIssuePeerResponse :=
  let link k := AdminIssue.mkEntry (base +:+ "/" +:+ render (getv data k) +:+ "/download") "" in
  if forallb (λ k, truthy (getv data k)) ["device_id"; "token_awg"; "token_wg_obf"; "token_wg"]
  then (λ d, mkPeerResponse d (link "token_awg") (link "token_wg_obf") (link "token_wg") true) <$>
         List.find (λ d, bool_decide (getv data "device_id" = VStr d.(Device.id))) db.(IssueDb.devices)
  else None.

Definition admin_refused (e : exn) : exn :=
  match e with
  | ServerNotSyncedError _ _ | WireGuardCommandError _ _ _ | ValueError _ | ConfigValidationError _ => issue_refused e
  | e => e
  end.

(** A rotation does not look for a server that is not synced. *)
Definition rotate_refused (e : exn) : exn :=
  match e with
  | WireGuardCommandError _ _ _ | ValueError _ | ConfigValidationError _ => issue_refused e
  | e => e
  end.

Section issuing.
Context {W R : Type} `{NodeRuntimeAdapter W, NodeDirectory W, !Redis R}.
Context (settings : Settings) (hb : heartbeats) (sha256_hex fernet_encrypt : string → string).

Definition recall (now : Z) (sid base : string) (client_request_id : option string) (db : IssueDb.t) (v : R)
    : R * option AdminIssuePeerResponse :=
  match non_empty client_request_id with
  | None => (v, None)
  | Some c =>
      let '(v, r) := rget now (admin_issue_key sid c) v in
      (v, match r with Ok (Some (Payload _ data)) => recalled base data db | _ => None end)
  end.

Definition memorize (now : Z) (sid : string) (client_request_id : option string) (out : AdminIssueResult) (v : R) : R :=
  match non_empty client_request_id with
  | None => v
  | Some c => (setex now (admin_issue_key sid c) IDEMPOTENCY_ADMIN_ISSUE_TTL (Payload 0 (issue_memory out)) v).1
  end.

(** [o]: where the request comes from. *)
Definition create_server_peer (now : Z) (o : Origin) (sid : string) (a : AdminArgs) (client_request_id : option string)
    (base_url : string) (dr : Draws) (st : R * (W * IssueDb.t)) : R * (W * IssueDb.t) * res AdminIssuePeerResponse :=
  let base := config_base base_url in
  let '(v, r) := rate_limit_admin_issue now o st.1 in
  match r with
  | Err e => (v, st.2, Err e)
  | Ok _ =>
      let '(v, known) := recall now sid base client_request_id st.2.2 v in
      match known with
      | Some out => (v, st.2, Ok out)
      | None =>
          let '(wd, r) := raising admin_refused
                            (admin_issue_peer settings true hb now sha256_hex fernet_encrypt sid a base dr) st.2 in
          match r with
          | Err e => (v, wd, Err e)
          | Ok out =>
              (memorize now sid client_request_id out v, wd,
               Ok (mkPeerResponse out.(ar_device) out.(ar_awg) out.(ar_wg_obf) out.(ar_wg) out.(ar_peer_created)))
          end
      end
  end.

Definition rotate_server_peer (now : Z) (sid peer_id : string) (admin : option string) (base_url : string) (dr : Draws)
    : M W (ConfigEntry * ConfigEntry * ConfigEntry) :=
  transaction (raising rotate_refused
    (admin_rotate_peer settings true hb now sha256_hex fernet_encrypt sid peer_id None admin (config_base base_url) dr)).
End issuing.

(** ** What administrators can do to devices *)

Inductive admin_request : Type :=
| OnDevice (r : dev_request)
| RevokeOn (sid peer_id : string)
| BlockOn (sid public_key confirm_token : string)
| ResetOn (sid public_key : string)
| CreateUser (new_id tg_id : Z)
| UpdateUser (uid : Z) (is_banned : option (option bool)) (confirm_token : option string)
| DeleteUser (uid : Z)
| AbuseAction (sig : option Z) (action : string).

Section serving.
Context {W : Type} `{NodeRuntimeAdapter W} (settings : Settings).

Definition admin_handle (now : Z) (r : admin_request) : M W unit :=
  match r with
  | OnDevice r => handle settings now r
  | RevokeOn sid peer_id => _ ← revoke_server_peer settings now sid peer_id; mret tt
  | BlockOn sid pk token => _ ← block_server_peer settings now sid pk token; mret tt
  | ResetOn sid pk => _ ← reset_server_peer settings now sid pk; mret tt
  | CreateUser i tg => _ ← create_user i tg; mret tt
  | UpdateUser uid banned token => update_user settings uid banned token
  | DeleteUser uid => delete_user uid
  | AbuseAction sig action => _ ← abuse_signal_action now sig action; mret tt
  end.

Fixpoint admin_handle_all (reqs : list (Z * admin_request)) (st : W * IssueDb.t) : W * IssueDb.t :=
  match reqs with
  | [] => st
  | (now, r) :: reqs' => admin_handle_all reqs' (transaction (admin_handle now r) st).1
  end.

Context (peers_at : W → string → gmap string string) `{!NodeRuntimeLaws W peers_at} (st0 : W * IssueDb.t).
#[local] Abbreviation stays := (stays peers_at st0).

(** A change of many devices at once. *)
Lemma stays_each f : (∀ d, descends d (f d)) → stays (modify (IssueDb.set_devices (fmap f))).
Proof.
  intros Hf st [Hd Hp]. split; [|done]. unfold no_revival. simpl. apply Forall_fmap. eapply Forall_impl; [exact Hd|].
  intros d (d0 & Hin & Hdd). exists d0. split; [done|]. simpl.
  destruct (Hf d) as (? & ? & ? & ? & ? & ? & ?), Hdd as (? & ? & ? & ? & ? & ? & ?). repeat split; try congruence. auto.
Qed.

Lemma stays_drop sid pk : stays (drop_peer settings sid pk).
Proof using Type*. unfold drop_peer. stay. Qed.

Lemma stays_ban uid b : stays (set_banned uid b).
Proof. by apply stays_rows. Qed.

Lemma stays_user e uid : stays (the_user e uid).
Proof. unfold the_user. stay. Qed.

Lemma stays_cascade uid : stays (modify (_delete_user_cascade uid)).
Proof. apply stays_rows. intros db d. simpl. rewrite !elem_of_filterb. tauto. Qed.

Lemma stays_server sid : stays (the_server sid).
Proof. unfold the_server. stay. Qed.
#[local] Hint Resolve stays_drop stays_ban stays_user stays_cascade stays_server stays_revoke stays_handle : stays.

Lemma stays_drop_or_revoke now sid pk refused : stays (drop_or_revoke settings now sid pk refused).
Proof using Type*. unfold drop_or_revoke. stay. Qed.
#[local] Hint Resolve stays_drop_or_revoke : stays.

Lemma stays_abuse now sig action : stays (abuse_signal_action now sig action).
Proof.
  unfold abuse_signal_action. stay. apply stays_each. intros d. case_match; [by repeat split|apply descends_refl].
Qed.

Lemma stays_create i tg : stays (create_user i tg).
Proof. unfold create_user. stay. Qed.
#[local] Hint Resolve stays_abuse stays_create : stays.

Lemma stays_admin now r : stays (admin_handle now r).
Proof using Type*.
  destruct r; simpl; unfold revoke_server_peer, block_server_peer, reset_server_peer, update_user, delete_user; stay.
Qed.
End serving.


(** ** A request that is repeated *)

Lemma split_chars_app2 c cur l1 l2 : split_chars c cur (l1 ++ c :: l2) = split_chars c cur l1 ++ split_chars c [] l2.
Proof.
  revert cur. induction l1 as [|a l1 IH]; intros cur; simpl; [by rewrite Ascii.eqb_refl|].
  destruct (Ascii.eqb a c); simpl; by rewrite IH.
Qed.

Lemma split_app c s1 s2 : split c (s1 +:+ String c s2) = split c s1 ++ split c s2.
Proof. unfold split. rewrite chars_app. apply split_chars_app2. Qed.

Lemma split_whole c s : forallb (λ a, negb (Ascii.eqb a c)) (chars s) = true → split c s = [s].
Proof. intros Hs. apply (split_join c [s]); [by constructor|done]. Qed.

(** A token that can be a part of a path. *)
Definition path_token (t : string) : Prop := t ≠ "" ∧ forallb (λ a, negb (Ascii.eqb a "/")) (chars t) = true.

Definition link (base token : string) : string := base +:+ "/" +:+ token +:+ "/download".

Lemma rstrip_last p x a : p a = false → rstrip_with p (x +:+ String a "") = x +:+ String a "".
Proof.
  intros Ha. unfold rstrip_with. rewrite chars_app, rev_app_distr. cbn [chars rev app dropwhile]. rewrite Ha.
  change (a :: rev (chars x)) with ([a] ++ rev (chars x)). rewrite rev_app_distr, rev_involutive.
  rewrite <- (of_chars_chars (x +:+ String a "")), chars_app. done.
Qed.

Lemma url_token_link base t : path_token t → url_token (link base t) = t.
Proof.
  intros [_ Ht]. unfold url_token.
  assert (rstrip_with (Ascii.eqb "/") (link base t) = link base t) as ->.
  { pose proof (rstrip_last (Ascii.eqb "/") (base +:+ "/" +:+ t +:+ "/downloa") "d" eq_refl) as Hr.
    rewrite !append_assoc in Hr. exact Hr. }
  assert (split "/" (link base t) = split "/" base ++ [t; "download"]) as ->.
  { unfold link. change ("/" +:+ t +:+ "/download") with (String "/" (t +:+ String "/" "download")).
    rewrite split_app, split_app, (split_whole _ t) by done. done. }
  rewrite length_app. cbn [length]. replace (length (split "/" base) + 2 - 2)%nat with (length (split "/" base)) by lia.
  by rewrite app_nth2, Nat.sub_diag by lia.
Qed.

Lemma find_ext {A} (p q : A → bool) l : (∀ a, p a = q a) → List.find p l = List.find q l.
Proof. intros Hpq. induction l as [|a l IH]; simpl; [done|]. by rewrite Hpq, IH. Qed.

Section repeating.
Context {W R : Type} `{NodeRuntimeAdapter W, NodeDirectory W, !Redis R}.
Context (peers_at : W → string → gmap string string) `{!NodeRuntimeLaws W peers_at, !NodeDirectoryLaws W peers_at}.
Context (entry_of : R → string → option rentry) `{!RedisLaws R entry_of, !ReliableRedis R}.
Context (settings : Settings) (hb : heartbeats) (sha256_hex fernet_encrypt : string → string).
#[local] Abbreviation create := (create_server_peer settings hb sha256_hex fernet_encrypt).

(** The links of an answer. *)
Definition links (out : AdminIssuePeerResponse) : list string :=
  [out.(pr_awg).(download_url); out.(pr_wg_obf).(download_url); out.(pr_wg).(download_url)].

Lemma limit_keeps_key now o sid c v : 
  entry_of (rate_limit_admin_issue now o v).1 (admin_issue_key sid c) = entry_of v (admin_issue_key sid c).
Proof using Type*.
  unfold rate_limit_admin_issue, too_many. cbn [fst]. by apply (allow_elsewhere entry_of).
Qed.

Definition remembers (until : Z) (sid c : string) (d : Device.t) (t1 t2 t3 : string) (v : R) : Prop :=
  ∃ x, entry_of v (admin_issue_key sid c) =
    Some (mkEntry (Payload 0 [("device_id", VStr d.(Device.id)); ("token_awg", VStr t1); ("token_wg_obf", VStr t2); ("token_wg", VStr t3)]) (Some x)) ∧
    until ≤ x.

(** The first answer is remembered for a day, with the device it made. *)
Lemma create_remembers now o sid a c base_url dr v w db v1 w1 db1 out t1 t2 t3 :
  create now o sid a (Some c) base_url dr (v, (w, db)) = ((v1, (w1, db1)), Ok out) →
  c ≠ "" → entry_of v (admin_issue_key sid c) = None → dr.(dr_device_id) ∉ Device.id <$> db.(IssueDb.devices) →
  links out = link (config_base base_url) <$> [t1; t2; t3] → Forall path_token [t1; t2; t3] →
  remembers (now + seconds IDEMPOTENCY_ADMIN_ISSUE_TTL) sid c out.(pr_device) t1 t2 t3 v1 ∧
  IssueDb.find_device db1 out.(pr_device).(Device.id) = Some out.(pr_device) ∧ out.(pr_device).(Device.id) = dr.(dr_device_id).
Proof using Type*.
  unfold create_server_peer. cbn [fst snd]. intros E Hc He Hf Hl Ht.
  assert (non_empty (Some c) = Some c) as Hnc by (unfold non_empty; simpl; by destruct c).
  pose proof (limit_keeps_key now o sid c v) as Hv. destruct (rate_limit_admin_issue now o v) as [v2 [u|e]]; [|done].
  cbn [fst] in Hv. unfold recall in E. rewrite Hnc in E. destruct (rget now (admin_issue_key sid c) v2) as [v3 r3] eqn:E3.
  pose proof (rget_total now (admin_issue_key sid c) v2) as Hr. rewrite E3 in Hr. destruct r3 as [r3|]; [|done].
  apply rget_ok in E3. rewrite Hv, He in E3. simpl in E3. subst r3.
  destruct (raising admin_refused _ (w, db)) as [wd r] eqn:Ea. destruct r as [res|e]; [|done]. apply raising_Ok in Ea.
  destruct (admin_issue_rows settings true hb now sha256_hex fernet_encrypt sid a dr (w, db)) as [st1 [[[dev tokens] texts]|e]] eqn:Er.
  2:{ unfold admin_issue_peer, mbind, M_bind, transaction in Ea. by rewrite Er in Ea. }
  pose proof (admin_rows_inv _ _ _ _ _ _ _ _ _ _ _ _ _ _ Er) as (? & ? & ? & ? & ? & ? & ? & ? & ? & ? & _ & _ & _ & _ & _ & _ & Hdev & _).
  destruct (phase_b settings true hb now sha256_hex fernet_encrypt peers_at sid a _ dr (w, db) st1 wd dev tokens texts (Ok res) Hf Er Ea) as (d & Hds & Hcore & _ & Hd & _).
  assert (d.(Device.id) = dr.(dr_device_id)) as Hid by (apply core_fields in Hcore as [-> _]; by rewrite Hdev).
  injection E as <- -> <-. cbn [pr_device fst snd] in *. subst d. split_and!; [| |done].
  - unfold links in Hl. cbn in Hl. injection Hl as Hl1 Hl2 Hl3. unfold memorize. rewrite Hnc.
    pose proof (setex_total now (admin_issue_key sid c) IDEMPOTENCY_ADMIN_ISSUE_TTL (Payload 0 (issue_memory res)) v3) as Hs.
    destruct (setex _ _ _ _ v3) as [v4 [[]|]] eqn:E5; [|done]. apply setex_ok in E5 as [E5 _]. eexists. split; [|reflexivity].
    cbn [fst]. rewrite E5. unfold issue_memory. rewrite Hl1, Hl2, Hl3.
    apply Forall_cons in Ht as [Ht1 Ht]. apply Forall_cons in Ht as [Ht2 Ht]. apply Forall_cons in Ht as [Ht3 _].
    by rewrite !url_token_link.
  - destruct (find_new_device db.(IssueDb.devices) res.(ar_device) db1) as (d & Hd' & Hds' & _); [by rewrite Hid|by exists res.(ar_device)|].
    rewrite Hd'. f_equal. rewrite Hds in Hds'. apply app_inv_head in Hds'. by injection Hds'.
Qed.

Lemma remembered_answers until now o sid a c base_url dr d t1 t2 t3 (st st' : R * (W * IssueDb.t)) r :
  remembers until sid c d t1 t2 t3 st.1 → now < until → c ≠ "" → d.(Device.id) ≠ "" → Forall path_token [t1; t2; t3] →
  IssueDb.find_device st.2.2 d.(Device.id) = Some d →
  create now o sid a (Some c) base_url dr st = (st', r) →
  st'.2 = st.2 ∧
  match r with
  | Ok out => out.(pr_device) = d ∧ links out = link (config_base base_url) <$> [t1; t2; t3]
  | Err e => e = HTTPException 429 "Too many peer issuance requests. Try again later."
  end.
Proof using Type*.
  intros (x & He & Hx) Hn Hc Hd Ht Hf. unfold create_server_peer. destruct st as [v [w db]]. cbn [fst snd] in *.
  assert (non_empty (Some c) = Some c) as Hnc by (unfold non_empty; simpl; by destruct c).
  pose proof (limit_keeps_key now o sid c v) as Hv.
  destruct (rate_limit_admin_issue now o v) as [v2 r2] eqn:E2. destruct r2 as [u|e].
  2:{ intros E. simplify_eq/=. split; [done|]. unfold rate_limit_admin_issue, too_many in E2. destruct (allow _ _ _ _ v) as [? []]; by simplify_eq/=. }
  cbn [fst] in Hv. unfold recall. rewrite Hnc. destruct (rget now (admin_issue_key sid c) v2) as [v3 r3] eqn:E3.
  pose proof (rget_total now (admin_issue_key sid c) v2) as Hr. rewrite E3 in Hr. destruct r3 as [r3|]; [|done].
  apply rget_ok in E3. rewrite Hv, He in E3. simpl in E3. destruct (Z.leb_spec x now); [lia|]. simpl in E3. subst r3.
  apply Forall_cons in Ht as [[Ht1 _] Ht]. apply Forall_cons in Ht as [[Ht2 _] Ht]. apply Forall_cons in Ht as [[Ht3 _] _].
  assert (∀ s, s ≠ "" → truthy (VStr s) = true) as Hs by (by intros []).
  unfold recalled. match goal with |- context [forallb ?f ?l] => assert (forallb f l = true) as -> end.
  { apply forallb_forall. intros k [<-|[<-|[<-|[<-|[]]]]]; by apply Hs. }
  rewrite (find_ext _ (λ d0, String.eqb d0.(Device.id) d.(Device.id))).
  2:{ intros d'. change (getv _ "device_id") with (VStr d.(Device.id)).
      destruct (String.eqb_spec d'.(Device.id) d.(Device.id)) as [->|Hne]; [by rewrite bool_decide_true|].
      rewrite bool_decide_false; [done|]. congruence. }
  unfold IssueDb.find_device in Hf. rewrite Hf. cbn [fmap option_fmap option_map].
  intros E. by simplify_eq/=.
Qed.
End repeating.


Definition wit_origin : Origin := mkOrigin None None (Some "192.0.2.1").

Definition wit_create := create_server_peer (with_node_mode "real" default_settings) (Held []) (λ s, s) (λ s, s).

Definition wit_first := wit_create 0 wit_origin "s1" wit_admin_args (Some "req-1") "https://vpn/" wit_draws
                          (mkSteadyStore ∅, (mkSteady ∅, wit_issue_db)).

Lemma wit_first_links : links <$> eval_result wit_first = Some (link (config_base "https://vpn/") <$> ["t1"; "t2"; "t3"]).
Proof. vm_compute. reflexivity. Qed.


(** ** What an administrator sees *)

Lemma runtime_peer_spec devs now_ts p q :
  runtime_peer devs now_ts p = Ok q →
  q.(po_public_key) = p.(rp_public_key) ∧ q.(po_allowed_ips) = default "" p.(rp_allowed_ips) ∧
  q.(po_peer_id) = fst <$> dget p.(rp_public_key) devs ∧
  (q.(po_status) = "online" ↔ ∃ s, q.(po_last_handshake_ts) = Some (seconds s) ∧ now_ts - s ≤ 180).
Proof.
  unfold runtime_peer. cbv zeta. intros (hs & Hhs & [= <-])%res_bind_ok. split_and!; [done..|]. simpl.
  destruct (Z.ltb_spec 0 (oint_or0 p.(rp_last_handshake))); [|injection Hhs as <-; simpl; split; [done|by intros (? & ? & _)]].
  apply res_bind_ok in Hhs as (t & Ht & [= <-]). unfold fromtimestamp in Ht. case_match; simplify_eq. simpl.
  destruct (Z.leb_spec (now_ts - oint_or0 p.(rp_last_handshake)) 180); split; try done.
  - intros _. by eexists.
  - intros (s & [= Hs] & Hle). unfold seconds in Hs. lia.
Qed.

(** The device a peer is shown with. *)
Lemma pk_to_dev_spec sid db pk :
  match dget pk (pk_to_dev sid db) with
  | Some (i, _) => ∃ d, d ∈ db.(IssueDb.devices) ∧ d.(Device.server_id) = sid ∧ d.(Device.revoked_at) = None ∧
                        d.(Device.public_key) = pk ∧ d.(Device.id) = i
  | None => ∀ d, d ∈ db.(IssueDb.devices) → d.(Device.server_id) = sid → d.(Device.revoked_at) = None → d.(Device.public_key) ≠ pk
  end.
Proof.
  unfold pk_to_dev. destruct (dget _ _) as [[i name]|] eqn:E.
  - apply dget_Some_elem, elem_of_dict_of, list_elem_of_fmap in E as (d & [= -> -> _] & Hd).
    apply elem_of_filterb in Hd as [Hp Hd]. apply andb_true_iff in Hp as [Hs%String.eqb_eq Hr].
    exists d. split_and!; try done. by destruct (Device.revoked_at d).
  - intros d Hd Hs Hr Hpk. apply dget_None in E. apply E, elem_of_dkeys_dict_of. rewrite <- list_elem_of_fmap_compose || idtac.
    apply list_elem_of_fmap. eexists (pk, _). split; [done|]. apply list_elem_of_fmap. exists d. split; [by rewrite <- Hpk|].
    apply elem_of_filterb. split; [|done]. by rewrite Hs, String.eqb_refl, Hr.
Qed.

(** The peers that are shown are those of the node.  Outside agent mode,
    looking at the peers of a server changes nothing; when the node was reached,
    exactly its peers are shown, each with its addresses, with the live device of
    its key on that server or with none when there is none, and as online exactly
    when its last handshake is at most three minutes old. *)
Theorem peers_are_those_of_the_node {W} `{NodeRuntimeAdapter W} (peers_at : W → string → gmap string string)
    `{!NodeRuntimeLaws W peers_at} settings now sid hb (w w' : W) db db' peers total reachable :
  settings.(node_discovery) ≠ "agent" →
  get_server_peers settings now sid hb (w, db) = ((w', db'), Ok (peers, total, reachable)) →
  db' = db ∧ (∀ n, peers_at w' n = peers_at w n) ∧ total = Z.of_nat (length peers) ∧
  if reachable : bool then
    (∀ pk ips, peers_at w sid !! pk = Some ips ↔ ∃ p, p ∈ peers ∧ p.(po_public_key) = pk ∧ p.(po_allowed_ips) = ips) ∧
    ∀ p, p ∈ peers →
      match p.(po_peer_id) with
      | Some i => ∃ d, d ∈ db.(IssueDb.devices) ∧ d.(Device.server_id) = sid ∧ d.(Device.revoked_at) = None ∧
                       d.(Device.public_key) = p.(po_public_key) ∧ d.(Device.id) = i
      | None => ∀ d, d ∈ db.(IssueDb.devices) → d.(Device.server_id) = sid → d.(Device.revoked_at) = None →
                     d.(Device.public_key) ≠ p.(po_public_key)
      end ∧
      (p.(po_status) = "online" ↔ ∃ s, p.(po_last_handshake_ts) = Some (seconds s) ∧ secs now - s ≤ 180)
  else peers = [].
Proof.
  intros Hm E. unfold get_server_peers, fetch_peers_for_server in E.
  apply String.eqb_neq in Hm. rewrite Hm in E. unfold mbind, M_bind, get_rows, mret, M_ret, attempt in E. cbn [fst snd] in E.
  destruct (IssueDb.find_server db sid) as [s|]; [|done]. unfold on_nodes, lift in E. cbn [fst snd] in E.
  destruct (list_peers sid w) as [w1 [rows|e]] eqn:El; cbn [raise_unless fst snd] in E.
  2:{ unfold raise_unless, mret, M_ret in E. simpl in E. simplify_eq. split_and!; try done. intros n. by eapply list_peers_pure. }
  destruct (map_res _ rows) as [ps|e] eqn:Ea; unfold raise_unless, mret, M_ret in E; simpl in E; simplify_eq;
    (split; [done|]); (split; [intros n; by eapply list_peers_pure|]); (split; [done|]); [|done].
  apply map_res_Forall2 in Ea. pose proof (list_peers_ok _ _ _ _ El) as Hrows. split.
  - intros pk ips. rewrite Hrows. split.
    + intros (r & (i & Hr)%list_elem_of_lookup_1 & Hpk & Hips). destruct (Forall2_lookup_l _ _ _ _ _ Ea Hr) as (q & Hq & Hp).
      apply runtime_peer_spec in Hp as (Hk & Ha & _). exists q. split; [by eapply list_elem_of_lookup_2|]. split; congruence.
    + intros (q & (i & Hq)%list_elem_of_lookup_1 & Hpk & Hips). destruct (Forall2_lookup_r _ _ _ _ _ Ea Hq) as (r & Hr & Hp).
      apply runtime_peer_spec in Hp as (Hk & Ha & _). exists r. split; [by eapply list_elem_of_lookup_2|]. split; congruence.
  - intros q (i & Hq)%list_elem_of_lookup_1. destruct (Forall2_lookup_r _ _ _ _ _ Ea Hq) as (r & _ & Hp).
    apply runtime_peer_spec in Hp as (Hk & _ & Hid & Hst). split; [|done]. rewrite Hid, <- Hk.
    pose proof (pk_to_dev_spec sid db' q.(po_public_key)) as Hd.
    destruct (dget q.(po_public_key) (pk_to_dev sid db')) as [[j name]|]; exact Hd.
Qed.

(** A peer of a live device, one that is unknown and a device without a peer. *)
Lemma peers_are_those_of_the_node_witness :
  let w := mkSteady {[ "s1" := {[ "k0" := "10.8.1.2/32"; "k9" := "10.8.1.9/32" ]} ]} in
  let db := IssueDb.set_devices (λ ds, ds ++ [Device.test "d1" "s1" "k1" "10.8.1.3/32"]) wit_issue_db in
  let peers := [mkPeerOut "k9" None None "10.8.1.9/32" (Some (seconds 1)) 0 0 "online" ["no_traffic"];
                mkPeerOut "k0" (Some "d0") None "10.8.1.2/32" (Some (seconds 1)) 0 0 "online" ["no_traffic"]] in
  get_server_peers default_settings 0 "s1" None (w, db) = ((w, db), Ok (peers, 2, true)) ∧
  ∀ pk ips, steady_peers w "s1" !! pk = Some ips ↔ ∃ p, p ∈ peers ∧ p.(po_public_key) = pk ∧ p.(po_allowed_ips) = ips.
Proof.
  intros w db peers.
  assert (get_server_peers default_settings 0 "s1" None (w, db) = ((w, db), Ok (peers, 2, true))) as E by (vm_compute; reflexivity).
  split; [exact E|].
  assert (default_settings.(node_discovery) ≠ "agent") as Hm by (vm_compute; discriminate).
  exact (proj1 (proj2 (proj2 (proj2 (peers_are_those_of_the_node steady_peers default_settings 0 "s1" None w w db db peers 2 true Hm E))))).
Defined.

Definition wit_server_rows : IssueDb.t :=
  IssueDb.mk [] [] [] [Device.set_keys "k1" (Some "10.8.1.2/32") None (Some "psk") (Device.test "d1" "s1" "k1" "10.8.1.2/32")]
    [Server.test "s1" true] [] [] [] [] [].


(** ** What a block and a reset leave *)

(** Outside agent mode a blocked peer goes from the node, but its device stays
    live, so that one request to synchronise brings it back. *)
Example block_does_not_last :
  let settings := with_node_mode "real" default_settings in
  let st := (mkSteady {[ "s1" := {[ "k1" := "10.8.1.2/32" ]} ]}, wit_server_rows) in
  let blocked := admin_handle_all settings [(1, BlockOn "s1" "k1" "confirm_block")] st in
  let after := admin_handle_all settings [(2, OnDevice (SyncPeer "d1"))] blocked in
  steady_peers blocked.1 "s1" = ∅ ∧ Device.revoked_at <$> blocked.2.(IssueDb.devices) = [None] ∧
  steady_peers after.1 "s1" = {[ "k1" := "10.8.1.2/32" ]}.
Proof. vm_compute. repeat split. Qed.

(** In agent mode a reset, like a block, revokes the device for good. *)
Example reset_revokes :
  let out := reset_server_peer (with_node_mode "agent" default_settings) 7 "s1" "k1" (mkSteady ∅, wit_server_rows) in
  out.2 = Ok "accepted" ∧ Device.revoked_at <$> out.1.2.(IssueDb.devices) = [Some 7].
Proof. vm_compute. repeat split. Qed.

(** The answer to a repeated request says that the peer was made, also when the
    first answer said that it was not. *)
Example repeat_claims_a_peer :
  let create := create_server_peer default_settings (Held []) (λ s, s) (λ s, s) in
  let first := create 0 wit_origin "s1" wit_admin_args (Some "r") "https://vpn" wit_draws
                 (mkSteadyStore ∅, (mkSteady ∅, wit_issue_db)) in
  let second := create 1 wit_origin "s1" wit_admin_args (Some "r") "https://vpn" wit_draws first.1 in
  pr_peer_created <$> eval_result first = Some false ∧ pr_peer_created <$> eval_result second = Some true.
Proof. vm_compute. repeat split. Qed.
