(* ===== verification/ServersApi.v ===== *)
(** * The servers of the inventory

    The requests on servers and their addresses ([api/v1/servers.py],
    [api/v1/servers_crud.py], [api/v1/server_utils.py]) with the checks of their
    bodies ([schemas/server.py]), on the tables they touch.  Strings are ASCII.
    The cache of the list is left out. *)

From S2P Require Import Prelude PyFloat PyStr PyVal IpAddr Settings Models RateLimit Download.
Open Scope Z_scope.

(** ** Bodies *)

(** [urlsplit]: the scheme and the network location. *)
Definition scheme_char (c : ascii) : bool := is_alnum c || existsb (Ascii.eqb c) (chars "+-.").

Definition url_scheme (url : string) : string * string :=
  match partition ":" url with
  | Some (a, rest) =>
      match chars a with
      | c :: _ => if is_alpha c && forallb scheme_char (chars a) then (lower a, rest) else ("", url)
      | [] => ("", url)
      end
  | None => ("", url)
  end.

Fixpoint until (stop : ascii → bool) (l : list ascii) : list ascii :=
  match l with
  | c :: l => if stop c then [] else c :: until stop l
  | [] => []
  end.

Definition url_netloc (rest : string) : string :=
  if startswith "//" rest then of_chars (until (λ c, existsb (Ascii.eqb c) (chars "/?#")) (chars (str_drop 2 rest))) else "".

(** [v1.name] in brackets. *)
Definition future_host (h : string) : bool :=
  match partition "." (str_drop 1 h) with
  | Some (a, b) => str_truthy a && forallb (λ c, is_digit c || existsb (Ascii.eqb c) (chars "abcdefABCDEF")) (chars a) && str_truthy b
  | None => false
  end.

(** [parsed.hostname or ""]; [None] when [urlsplit] refuses the brackets. *)
Definition url_hostname (netloc : string) : option string :=
  let hostinfo := match rpartition "@" netloc with Some (_, h) => h | None => netloc end in
  let close h := match partition "]" h with Some (h, _) => h | None => h end in
  let low h := match partition "%" h with Some (a, z) => lower a +:+ "%" +:+ z | None => lower h end in
  if negb (Bool.eqb (contains "[" netloc) (contains "]" netloc)) then None
  else match partition "[" hostinfo with
       | Some (_, h) =>
           let h := close h in
           if (if startswith "v" h then future_host h else ipv6_valid h) then Some (low h) else None
       | None => Some (low (match partition ":" hostinfo with Some (h, _) => h | None => hostinfo end))
       end.

Definition _FORBIDDEN_IP_NETWORKS : list (ip_version * Z * Z) :=
  [(IPv4, 127 * 2 ^ 24, 8); (IPv4, 10 * 2 ^ 24, 8); (IPv4, 172 * 2 ^ 24 + 16 * 2 ^ 16, 12);
   (IPv4, 169 * 2 ^ 24 + 254 * 2 ^ 16, 16); (IPv6, 1, 128)].

Definition _is_forbidden_host (host : string) : bool :=
  negb (str_truthy host) || str_in (lower host) ["localhost"; "localhost."; "localhost.localdomain"] ||
  match addr_value host with
  | Some addr => existsb (in_network addr) _FORBIDDEN_IP_NETWORKS
  | None => false
  end.

Definition unprocessable (msg : string) : exn := HTTPException 422 msg.

Definition clean_url (s : string) : string :=
  of_chars (filterb (λ c, negb (existsb (Ascii.eqb c) ["009"; "010"; "013"]%char))
              (chars (lstrip_with (λ c, (Ascii.N_of_ascii c <=? 32)%N) s))).

Definition api_endpoint_https_no_private (v : string) : res string :=
  let v := strip v in
  let v := if contains "://" v then v else "http://" +:+ v in
  let '(scheme, rest) := url_scheme (clean_url v) in
  match url_hostname (url_netloc rest) with
  | None => Err (unprocessable "Invalid IPv6 URL")
  | Some h =>
      let host := strip h in
      if negb (str_in scheme ["https"; "http"]) then Err (unprocessable "api_endpoint must be https or http URL")
      else if negb (str_truthy host) then Err (unprocessable "api_endpoint must have a host")
      else if _is_forbidden_host host then Err (unprocessable "api_endpoint must not point to private or localhost")
      else Ok v
  end.

Definition _validate_vpn_endpoint (v : option string) : res (option string) :=
  match v with
  | None => Ok None
  | Some v =>
      let v := strip v in
      if negb (str_truthy v) then Ok None
      else match rpartition ":" v with
           | None => Err (unprocessable "vpn_endpoint must be host:port (e.g. vpn.example.com:47604)")
           | Some (host, port_str) =>
               if negb (str_truthy (strip host)) then Err (unprocessable "vpn_endpoint must have a host")
               else match py_int (strip port_str) with
                    | None => Err (unprocessable "vpn_endpoint port must be numeric")
                    | Some port => if (1 <=? port) && (port <=? 65535) then Ok (Some v)
                                   else Err (unprocessable "vpn_endpoint port must be 1-65535")
                    end
           end
  end.

Definition id_format (v : option string) : res (option string) :=
  match non_empty v with
  | None => Ok None
  | Some v =>
      let v := strip v in
      if negb ((1 <=? String.length v)%nat && (String.length v <=? 32)%nat) then Err (unprocessable "id must be 1-32 characters")
      else if negb (forallb (λ c, is_alnum c || existsb (Ascii.eqb c) (chars "-_")) (chars v))
           then Err (unprocessable "id must be alphanumeric, hyphen, or underscore")
           else Ok (Some v)
  end.

(** Addresses the check lets pass, and what it refuses. *)
Example endpoints :
  (λ s, is_ok (api_endpoint_https_no_private s)) <$>
    ["203.0.113.7"; "https://vpn.example.com:8443/x"; "docker://awg"; "http://localhost/"; "10.1.2.3"; "http://[::1]:80/"; ""] =
    [true; true; false; false; false; false; false] ∧
  (λ s, is_ok (api_endpoint_https_no_private s)) <$>
    ["192.168.1.1"; "127.1"; "2130706433"; "0.0.0.0"; "http://[::ffff:127.0.0.1]/"] = [true; true; true; true; true] ∧
  is_ok <$> [_validate_vpn_endpoint (Some "h:1"); _validate_vpn_endpoint (Some "h:65536"); _validate_vpn_endpoint (Some ":7");
             _validate_vpn_endpoint (Some "a:b:7")] = [true; false; false; true].
Proof. vm_compute. repeat split. Qed.

(** ** Tables *)

(** A server with the columns that only these requests use. *)
Record server_row : Type := mkServerRow {
  sr_server : Server.t;
  sr_created_at : Z;
  sr_speed_limit : option float;
  sr_auto_sync : bool;
  sr_auto_interval : Z;
  sr_ops_notes : option string;
  sr_notes_at : option Z;
  sr_notes_by : option string
}.

Module ServerIp.
Record t : Type := mk { id : string; server_id : string; ip : string; role : string; state : string; created_at : Z }.
End ServerIp.

Record servers_db : Type := mkServersDb {
  sd_rows : list server_row;
  sd_devices : list Device.t;
  sd_logs : list ServerHealthLog.t;
  sd_ips : list ServerIp.t
}.

Definition row_id (r : server_row) : string := r.(sr_server).(Server.id).

Definition find_row (sid : string) (db : servers_db) : option server_row :=
  List.find (λ r, String.eqb (row_id r) sid) db.(sd_rows).

Definition set_rows (f : list server_row → list server_row) (db : servers_db) : servers_db :=
  mkServersDb (f db.(sd_rows)) db.(sd_devices) db.(sd_logs) db.(sd_ips).

Definition set_ips (f : list ServerIp.t → list ServerIp.t) (db : servers_db) : servers_db :=
  mkServersDb db.(sd_rows) db.(sd_devices) db.(sd_logs) (f db.(sd_ips)).

Definition change_row (sid : string) (f : server_row → server_row) : servers_db → servers_db :=
  set_rows (fmap (λ r, if String.eqb (row_id r) sid then f r else r)).

Definition on_server (f : Server.t → Server.t) (r : server_row) : server_row :=
  mkServerRow (f r.(sr_server)) r.(sr_created_at) r.(sr_speed_limit) r.(sr_auto_sync) r.(sr_auto_interval) r.(sr_ops_notes)
    r.(sr_notes_at) r.(sr_notes_by).

Definition get_row (sid : string) (db : servers_db) : res server_row :=
  match find_row sid db with Some r => Ok r | None => Err not_found_404 end.

(** [ServerHealthLog.ts] of the last check. *)
Definition last_seen (db : servers_db) (sid : string) : option Z :=
  foldl (λ m l, if String.eqb l.(ServerHealthLog.server_id) sid then
                  Some (match m with Some t => Z.max t l.(ServerHealthLog.ts) | None => l.(ServerHealthLog.ts) end) else m)
    None db.(sd_logs).

(** ** Creation, changes, deletion *)

Record ServerCreate : Type := mkServerCreate {
  sc_id : option string; sc_name : string; sc_region : string; sc_api_endpoint : string; sc_vpn_endpoint : option string;
  sc_public_key : option string; sc_preshared_key : option string;
  sc_h1 : option Z; sc_h2 : option Z; sc_h3 : option Z; sc_h4 : option Z
}.

Definition validate_create (b : ServerCreate) : res ServerCreate :=
  i ← id_format b.(sc_id);
  api ← api_endpoint_https_no_private b.(sc_api_endpoint);
  vpn ← _validate_vpn_endpoint b.(sc_vpn_endpoint);
  Ok (mkServerCreate i b.(sc_name) b.(sc_region) api vpn b.(sc_public_key) b.(sc_preshared_key)
        b.(sc_h1) b.(sc_h2) b.(sc_h3) b.(sc_h4)).

(** [new_id]: the identifier drawn when the body has none. *)
Definition create_server (now : Z) (new_id : string) (body : ServerCreate) (db : servers_db) : res (servers_db * server_row) :=
  body ← validate_create body;
  match body.(sc_id) with
  | Some i => if is_some (find_row i db) then Err (HTTPException 409 ("Server with id='" +:+ i +:+ "' already exists")) else Ok tt
  | None => Ok tt
  end ≫= λ _,
  let server := Server.mk (default new_id body.(sc_id)) body.(sc_name) body.(sc_region) body.(sc_api_endpoint)
    body.(sc_vpn_endpoint) body.(sc_public_key) body.(sc_preshared_key) body.(sc_h1) body.(sc_h2) body.(sc_h3) body.(sc_h4)
    "unknown" true None None None false None None None in
  let row := mkServerRow server now None false 60 None None None in
  if is_some (find_row (row_id row) db) then Err (IntegrityError "servers.id") else Ok (set_rows (λ l, l ++ [row]) db, row).

(** Each field not set, null or a value. *)
Record ServerUpdate : Type := mkServerUpdate {
  up_name : option (option string); up_region : option (option string); up_api_endpoint : option (option string);
  up_vpn_endpoint : option (option string); up_public_key : option (option string); up_preshared_key : option (option string);
  up_h1 : option (option Z); up_h2 : option (option Z); up_h3 : option (option Z); up_h4 : option (option Z);
  up_ops_notes : option (option string); up_is_active : option (option bool);
  up_auto_sync : option (option bool); up_auto_interval : option (option Z)
}.

(** A column that may not be null. *)
Definition required {A} (column : string) (u : option (option A)) (old : A) : res A :=
  match u with
  | None => Ok old
  | Some None => Err (IntegrityError ("servers." +:+ column))
  | Some (Some a) => Ok a
  end.

Definition validate_update (b : ServerUpdate) : res ServerUpdate :=
  api ← match b.(up_api_endpoint) with
        | Some (Some v) => v ← api_endpoint_https_no_private v; Ok (Some (Some v))
        | u => Ok u
        end;
  vpn ← match b.(up_vpn_endpoint) with
        | Some v => v ← _validate_vpn_endpoint v; Ok (Some v)
        | None => Ok None
        end;
  Ok (mkServerUpdate b.(up_name) b.(up_region) api vpn b.(up_public_key) b.(up_preshared_key)
        b.(up_h1) b.(up_h2) b.(up_h3) b.(up_h4) b.(up_ops_notes) b.(up_is_active) b.(up_auto_sync) b.(up_auto_interval)).

(** The assigned columns; [admin] did it. *)
Definition apply_update (now : Z) (admin : option string) (b : ServerUpdate) (r : server_row) : res server_row :=
  let s := r.(sr_server) in
  name ← required "name" b.(up_name) s.(Server.name);
  region ← required "region" b.(up_region) s.(Server.region);
  api ← required "api_endpoint" b.(up_api_endpoint) s.(Server.api_endpoint);
  active ← required "is_active" b.(up_is_active) s.(Server.is_active);
  auto ← required "auto_sync_enabled" b.(up_auto_sync) r.(sr_auto_sync);
  interval ← required "auto_sync_interval_sec" b.(up_auto_interval) r.(sr_auto_interval);
  let s := Server.mk s.(Server.id) name region api (default s.(Server.vpn_endpoint) b.(up_vpn_endpoint))
    (default s.(Server.public_key) b.(up_public_key)) (default s.(Server.preshared_key) b.(up_preshared_key))
    (default s.(Server.amnezia_h1) b.(up_h1)) (default s.(Server.amnezia_h2) b.(up_h2))
    (default s.(Server.amnezia_h3) b.(up_h3)) (default s.(Server.amnezia_h4) b.(up_h4))
    s.(Server.status) active s.(Server.traffic_limit_gb) s.(Server.max_connections) s.(Server.health_score)
    s.(Server.is_draining) s.(Server.last_snapshot_at) s.(Server.public_key_synced_at) s.(Server.key_status) in
  Ok (match b.(up_ops_notes) with
      | Some notes => mkServerRow s r.(sr_created_at) r.(sr_speed_limit) auto interval notes (Some now) admin
      | None => mkServerRow s r.(sr_created_at) r.(sr_speed_limit) auto interval r.(sr_ops_notes) r.(sr_notes_at) r.(sr_notes_by)
      end).

Definition update_server (now : Z) (admin : option string) (sid : string) (body : ServerUpdate) (db : servers_db)
    : res (servers_db * server_row) :=
  body ← validate_update body;
  r ← get_row sid db;
  if bool_decide (body.(up_auto_sync) = Some (Some false)) && r.(sr_server).(Server.is_active)
  then Err (HTTPException 422 "Auto-sync cannot be disabled for active servers")
  else
    r' ← apply_update now admin body r;
    Ok (change_row sid (λ _, r') db, r').

Record ServerLimitsUpdate : Type := mkLimitsUpdate {
  lu_traffic : option (option float); lu_speed : option (option float); lu_connections : option (option Z)
}.

Definition set_limits (u : ServerLimitsUpdate) (r : server_row) : server_row :=
  let s := r.(sr_server) in
  mkServerRow
    (Server.mk s.(Server.id) s.(Server.name) s.(Server.region) s.(Server.api_endpoint) s.(Server.vpn_endpoint)
       s.(Server.public_key) s.(Server.preshared_key) s.(Server.amnezia_h1) s.(Server.amnezia_h2) s.(Server.amnezia_h3)
       s.(Server.amnezia_h4) s.(Server.status) s.(Server.is_active)
       (default s.(Server.traffic_limit_gb) u.(lu_traffic)) (default s.(Server.max_connections) u.(lu_connections))
       s.(Server.health_score) s.(Server.is_draining) s.(Server.last_snapshot_at) s.(Server.public_key_synced_at)
       s.(Server.key_status))
    r.(sr_created_at) (default r.(sr_speed_limit) u.(lu_speed)) r.(sr_auto_sync) r.(sr_auto_interval) r.(sr_ops_notes)
    r.(sr_notes_at) r.(sr_notes_by).

Definition update_server_limits (sid : string) (u : ServerLimitsUpdate) (db : servers_db) : res (servers_db * server_row) :=
  r ← get_row sid db; Ok (change_row sid (set_limits u) db, set_limits u r).

Inductive BulkAction : Type := mark_draining | unmark_draining | disable_provisioning | enable_provisioning.

Definition bulk_change (a : BulkAction) : server_row → server_row :=
  on_server (match a with
             | mark_draining => Server.set_draining true
             | unmark_draining => Server.set_draining false
             | disable_provisioning => Server.set_active false
             | enable_provisioning => Server.set_active true
             end).

(** The servers that changed. *)
Definition bulk_update_servers (settings : Settings) (server_ids : list string) (action : BulkAction)
    (confirm_token : option string) (db : servers_db) : res (servers_db * list string) :=
  match action with
  | disable_provisioning | enable_provisioning =>
      match non_empty confirm_token with
      | None => Err (HTTPException 400 "confirm_token required for provisioning actions")
      | Some t => if String.eqb t settings.(restart_confirm_token) then Ok tt
                  else Err (HTTPException 403 "Invalid confirmation token")
      end
  | _ => Ok tt
  end ≫= λ _,
  match server_ids with
  | [] => Ok (db, [])
  | _ =>
      if forallb (λ sid, is_some (find_row sid db)) server_ids
      then Ok (set_rows (fmap (λ r, if str_in (row_id r) server_ids then bulk_change action r else r)) db,
               row_id <$> filterb (λ r, str_in (row_id r) server_ids) db.(sd_rows))
      else Err not_found_404
  end.

(** The mapping of the health logs has no cascade: the unit of work sets their
    server to null, which the column refuses. *)
Definition delete_server (sid : string) (db : servers_db) : res servers_db :=
  _ ← get_row sid db;
  let n := countZ (λ d, String.eqb d.(Device.server_id) sid) db.(sd_devices) in
  if 0 <? n
  then Err (HTTPException 409 ("Cannot delete server: " +:+ str_of_Z n +:+
              " device(s) reference it. Move or revoke devices first."))
  else if existsb (λ l, String.eqb l.(ServerHealthLog.server_id) sid) db.(sd_logs)
  then Err (IntegrityError "server_health_logs.server_id")
  else Ok (set_ips (λ l, filterb (λ i, negb (String.eqb i.(ServerIp.server_id) sid)) l)
             (set_rows (λ l, filterb (λ r, negb (String.eqb (row_id r) sid)) l) db)).

Definition restart_server (settings : Settings) (sid confirm_token : string) (db : servers_db) : exn :=
  if negb (String.eqb confirm_token settings.(restart_confirm_token))
  then HTTPException 400 "Restart requires confirm_token in body"
  else match find_row sid db with
       | None => not_found_404
       | Some _ => HTTPException 501 "RESTART_NOT_SUPPORTED"
       end.

(** ** Addresses *)

Definition create_server_ip (now : Z) (new_id sid ip role state : string) (db : servers_db) : res (servers_db * ServerIp.t) :=
  _ ← get_row sid db;
  let i := ServerIp.mk new_id sid (strip ip) role state now in
  Ok (set_ips (λ l, l ++ [i]) db, i).

Definition list_server_ips (sid : string) (db : servers_db) : res (list ServerIp.t * Z) :=
  _ ← get_row sid db;
  let l := sorted_by (λ a b, b.(ServerIp.created_at) <? a.(ServerIp.created_at))
             (filterb (λ i, String.eqb i.(ServerIp.server_id) sid) db.(sd_ips)) in
  Ok (l, Z.of_nat (length l)).

Definition is_ip (sid ip_id : string) (i : ServerIp.t) : bool :=
  String.eqb i.(ServerIp.id) ip_id && String.eqb i.(ServerIp.server_id) sid.

Definition find_ip (sid ip_id : string) (db : servers_db) : res ServerIp.t :=
  match List.find (is_ip sid ip_id) db.(sd_ips) with Some i => Ok i | None => Err not_found_404 end.

Definition update_server_ip (sid ip_id : string) (role state : option (option string)) (db : servers_db)
    : res (servers_db * ServerIp.t) :=
  i ← find_ip sid ip_id db;
  role ← required "role" role i.(ServerIp.role);
  state ← required "state" state i.(ServerIp.state);
  let i' := ServerIp.mk ip_id sid i.(ServerIp.ip) role state i.(ServerIp.created_at) in
  Ok (set_ips (fmap (λ i, if is_ip sid ip_id i then i' else i)) db, i').

Definition delete_server_ip (sid ip_id : string) (db : servers_db) : res servers_db :=
  _ ← find_ip sid ip_id db;
  Ok (set_ips (λ l, filterb (λ i, negb (is_ip sid ip_id i)) l) db).

(** ** The list of servers *)

(** [LIKE]: percent, underscore and backslash. *)
Fixpoint like (p : list ascii) : list ascii → bool :=
  match p with
  | [] => λ s, match s with [] => true | _ => false end
  | c :: p' =>
      if Ascii.eqb c "%" then
        fix tails s := like p' s || match s with [] => false | _ :: s' => tails s' end
      else if Ascii.eqb c "_" then λ s, match s with [] => false | _ :: s' => like p' s' end
      else if Ascii.eqb c "\" then
        match p' with
        | [] => λ _, false
        | e :: p'' => λ s, match s with [] => false | a :: s' => Ascii.eqb a e && like p'' s' end
        end
      else λ s, match s with [] => false | a :: s' => Ascii.eqb a c && like p' s' end
  end.

Definition sql_like (pattern s : string) : bool := like (chars pattern) (chars s).
Definition sql_ilike (pattern s : string) : bool := sql_like (lower pattern) (lower s).

Definition normalize_server_status (raw : string) : string :=
  let s := lower raw in
  if str_in s ["healthy"; "ok"] then "online"
  else if String.eqb s "degraded" then "degraded"
  else if str_in s ["unhealthy"; "unreachable"; "down"; "error"; "offline"] then "offline" else "unknown".

Definition _STATUS_TO_DB : list (string * list string) :=
  [("online", ["healthy"; "ok"]); ("offline", ["unhealthy"; "unreachable"; "down"; "error"; "offline"]);
   ("degraded", ["degraded"]); ("unknown", ["unknown"])].

(** Agent mode shows a server as active after a recent check or with a high score. *)
Definition _display_is_active (settings : Settings) (now : Z) (s : Server.t) (seen : option Z) : bool :=
  s.(Server.is_active) ||
  String.eqb settings.(node_discovery) "agent" &&
  (match seen with Some t => now - t <=? seconds 120 | None => false end ||
   match s.(Server.health_score) with Some h => fge h (lit 95 2) | None => false end).

Definition _group_server_name (name : string) : string := rstrip_with is_digit (strip name).

Definition row_group (r : server_row) : string := _group_server_name (or_str r.(sr_server).(Server.name) (row_id r)).

Record list_query : Type := mkListQuery {
  lq_is_active : option bool; lq_region : option string; lq_status : option string; lq_search : option string;
  lq_sort : string; lq_last_seen_within_hours : option Z
}.

Section list.
Context (settings : Settings) (now : Z) (heartbeat_ids : list string).

Definition docker_prefixes : list string :=
  if String.eqb settings.(node_discovery) "docker" then
    (λ p, strip p +:+ "%") <$>
      filterb (λ p, str_truthy (strip p)) (split "," (or_str settings.(docker_vpn_container_prefixes) "amnezia-awg"))
  else [].

Definition agent_mode_no_heartbeat : bool :=
  String.eqb settings.(node_discovery) "agent" && match heartbeat_ids with [] => true | _ => false end.

(** The WHERE clause. *)
Definition listed (q : list_query) (db : servers_db) (r : server_row) : bool :=
  let s := r.(sr_server) in
  match q.(lq_is_active) with Some b => Bool.eqb s.(Server.is_active) b | None => true end &&
  match q.(lq_region) with
  | Some g => negb (str_truthy (strip g)) || String.eqb s.(Server.region) (strip g) | None => true
  end &&
  match q.(lq_status) with
  | Some f => match dget (lower (strip f)) _STATUS_TO_DB with Some vals => str_in s.(Server.status) vals | None => true end
  | None => true
  end &&
  match q.(lq_search) with
  | Some t => let term := "%" +:+ strip t +:+ "%" in
              negb (str_truthy (strip t)) || sql_ilike term s.(Server.name) || sql_ilike term s.(Server.api_endpoint)
  | None => true
  end &&
  match q.(lq_last_seen_within_hours) with
  | Some h => match last_seen db (row_id r) with Some t => now - hours h <=? t | None => false end
  | None => true
  end &&
  (negb (String.eqb settings.(node_discovery) "agent") || agent_mode_no_heartbeat || str_in (row_id r) heartbeat_ids) &&
  match docker_prefixes with [] => true | ps => existsb (λ p, sql_like p s.(Server.name)) ps end.

(** ORDER BY; the collation of names is that of the characters. *)
Definition sort_column (sort : string) (a b : server_row) : bool :=
  let name r := r.(sr_server).(Server.name) in
  if String.eqb sort "created_at_asc" then a.(sr_created_at) <? b.(sr_created_at)
  else if String.eqb sort "name_asc" then str_ltb (name a) (name b)
  else if String.eqb sort "name_desc" then str_ltb (name b) (name a)
  else if String.eqb sort "region_asc" then str_ltb a.(sr_server).(Server.region) b.(sr_server).(Server.region)
  else b.(sr_created_at) <? a.(sr_created_at).

(** [(s_active, s_health) >= (e_active, e_health)] *)
Definition better (s e : server_row) : bool :=
  let health r := default f0 r.(sr_server).(Server.health_score) in
  if Bool.eqb s.(sr_server).(Server.is_active) e.(sr_server).(Server.is_active)
  then fge (health s) (health e) else s.(sr_server).(Server.is_active).

Definition keep_best (by_name : list (string * server_row)) (r : server_row) : list (string * server_row) :=
  match dget (row_group r) by_name with
  | None => dset (row_group r) r by_name
  | Some e => if better r e then dset (row_group r) r by_name else by_name
  end.

(** [key(a) < key(b)], before [reverse]. *)
Definition row_sort_key (sort : string) (a b : server_row) : bool :=
  let lname r := lower r.(sr_server).(Server.name) in
  let first r := match chars r.(sr_server).(Server.name) with c :: _ => Z.of_N (Ascii.N_of_ascii c) | [] => 32 end in
  let pair_lt {A} (ltA : A → A → bool) (x y : A) (s t : string) := ltA x y || negb (ltA y x) && str_ltb s t in
  if String.eqb sort "created_at_asc" then a.(sr_created_at) <? b.(sr_created_at)
  else if String.eqb sort "name_asc" then str_ltb (lname a) (lname b)
  else if String.eqb sort "name_desc" then pair_lt Z.ltb (- first a) (- first b) (lname a) (lname b)
  else if String.eqb sort "region_asc"
       then pair_lt str_ltb (lower a.(sr_server).(Server.region)) (lower b.(sr_server).(Server.region)) (lname a) (lname b)
  else - a.(sr_created_at) <? - b.(sr_created_at).

Definition docker_order (sort : string) (a b : server_row) : bool :=
  if str_in sort ["created_at_desc"; "name_desc"] then row_sort_key sort b a else row_sort_key sort a b.

(** All the rows, before a page is cut. *)
Definition listing (q : list_query) (db : servers_db) : list server_row :=
  let all_rows := sorted_by (sort_column q.(lq_sort)) (filterb (listed q db) db.(sd_rows)) in
  match docker_prefixes with
  | [] => all_rows
  | _ => sorted_by (docker_order q.(lq_sort)) (snd <$> foldl keep_best [] all_rows)
  end.

Record ServerOut : Type := mkServerOut { so_row : server_row; so_status : string; so_is_active : bool; so_last_seen : option Z }.

Definition server_out (db : servers_db) (r : server_row) : ServerOut :=
  let seen := last_seen db (row_id r) in
  mkServerOut r (normalize_server_status r.(sr_server).(Server.status)) (_display_is_active settings now r.(sr_server) seen) seen.

Record ServerList : Type := mkServerList { sl_items : list ServerOut; sl_total : Z; sl_no_heartbeat : bool }.

Definition _fetch_servers_list_uncached (limit offset : Z) (q : list_query) (db : servers_db) : ServerList :=
  let rows := listing q db in
  mkServerList (server_out db <$> take (Z.to_nat limit) (drop (Z.to_nat offset) rows)) (Z.of_nat (length rows))
    agent_mode_no_heartbeat.

Definition list_servers (limit offset : Z) (page page_size : option Z) (q : list_query) (db : servers_db) : ServerList :=
  let effective_limit := default limit page_size in
  let effective_offset := match page with
                          | Some p => if 0 <? p then (p - 1) * effective_limit else offset
                          | None => offset
                          end in
  _fetch_servers_list_uncached effective_limit effective_offset q db.

Definition get_server (sid : string) (db : servers_db) : res ServerOut :=
  server_out db <$> get_row sid db.
End list.

Definition get_server_device_counts (db : servers_db) : list (string * Z) :=
  foldl (λ m d, dset d.(Device.server_id) (default 0 (dget d.(Device.server_id) m) + 1) m) [] db.(sd_devices).

(** ** The tables stay whole *)

Inductive servers_request : Type :=
| CreateServer (new_id : string) (body : ServerCreate)
| UpdateServer (admin : option string) (sid : string) (body : ServerUpdate)
| UpdateLimits (sid : string) (u : ServerLimitsUpdate)
| BulkUpdate (server_ids : list string) (action : BulkAction) (confirm_token : option string)
| DeleteServer (sid : string)
| CreateIp (new_id sid ip role state : string)
| UpdateIp (sid ip_id : string) (role state : option (option string))
| DeleteIp (sid ip_id : string).

Definition serve_servers (settings : Settings) (now : Z) (r : servers_request) (db : servers_db) : res servers_db :=
  match r with
  | CreateServer i b => fst <$> create_server now i b db
  | UpdateServer a sid b => fst <$> update_server now a sid b db
  | UpdateLimits sid u => fst <$> update_server_limits sid u db
  | BulkUpdate ids a t => fst <$> bulk_update_servers settings ids a t db
  | DeleteServer sid => delete_server sid db
  | CreateIp i sid ip role st => fst <$> create_server_ip now i sid ip role st db
  | UpdateIp sid i role st => fst <$> update_server_ip sid i role st db
  | DeleteIp sid i => delete_server_ip sid i db
  end.

(** A request that raises is rolled back. *)
Fixpoint serve_all_servers (settings : Settings) (reqs : list (Z * servers_request)) (db : servers_db) : servers_db :=
  match reqs with
  | [] => db
  | (now, r) :: reqs' =>
      serve_all_servers settings reqs' (match serve_servers settings now r db with Ok db => db | Err _ => db end)
  end.

Record servers_whole (db : servers_db) : Prop := {
  sw_ids : NoDup (row_id <$> db.(sd_rows));
  sw_devices : Forall (λ d, d.(Device.server_id) ∈ row_id <$> db.(sd_rows)) db.(sd_devices);
  sw_logs : Forall (λ l, l.(ServerHealthLog.server_id) ∈ row_id <$> db.(sd_rows)) db.(sd_logs);
  sw_ips : Forall (λ i, i.(ServerIp.server_id) ∈ row_id <$> db.(sd_rows)) db.(sd_ips)
}.

(** Rows that keep their identifiers. *)
Lemma whole_same_ids f db :
  (∀ l, row_id <$> f l = row_id <$> l) → servers_whole db → servers_whole (set_rows f db).
Proof. intros Hf [Hn Hd Hl Hi]. constructor; simpl; by rewrite Hf. Qed.

Lemma change_row_ids (p : server_row → bool) f (l : list server_row) :
  (∀ r, r ∈ l → p r = true → row_id (f r) = row_id r) → row_id <$> ((λ r, if p r then f r else r) <$> l) = row_id <$> l.
Proof.
  intros Hf. rewrite <- list_fmap_compose. apply list_fmap_ext. intros i r Hr. simpl. destruct (p r) eqn:Hp; [|done].
  apply Hf; [by eapply list_elem_of_lookup_2|done].
Qed.

Lemma find_row_None sid db : find_row sid db = None → sid ∉ row_id <$> db.(sd_rows).
Proof.
  intros Hf (r & Hr & Hin)%list_elem_of_fmap. apply list_elem_of_In in Hin. pose proof (find_none _ _ Hf r Hin) as Hn.
  simpl in Hn. by rewrite <- Hr, String.eqb_refl in Hn.
Qed.

Lemma find_row_Some sid db r : find_row sid db = Some r → r ∈ db.(sd_rows) ∧ row_id r = sid.
Proof. intros [Hin Hp%String.eqb_eq]%find_some. by apply list_elem_of_In in Hin. Qed.

Lemma get_row_Ok sid db r : get_row sid db = Ok r → r ∈ db.(sd_rows) ∧ row_id r = sid.
Proof. unfold get_row. destruct (find_row sid db) eqn:E; [|done]. intros [= ->]. by apply find_row_Some. Qed.

Lemma apply_update_id now admin b r r' : apply_update now admin b r = Ok r' → row_id r' = row_id r.
Proof.
  unfold apply_update. intros (? & _ & (? & _ & (? & _ & (? & _ & (? & _ & (? & _ & E)%res_bind_ok)%res_bind_ok)%res_bind_ok)%res_bind_ok)%res_bind_ok)%res_bind_ok.
  destruct b.(up_ops_notes); by injection E as <-.
Qed.

Lemma create_whole now i b db db' r : create_server now i b db = Ok (db', r) → servers_whole db → servers_whole db'.
Proof.
  unfold create_server. intros (b' & _ & (u & _ & E)%res_bind_ok)%res_bind_ok [Hn Hd Hl Hi].
  destruct (is_some _) eqn:Hs; [done|]. simplify_eq. destruct (find_row _ db) eqn:Hf; [done|]. apply find_row_None in Hf.
  assert (∀ x, x ∈ row_id <$> db.(sd_rows) → ∀ r', x ∈ row_id <$> (db.(sd_rows) ++ [r'])) as Hin
    by (intros x Hx r'; rewrite fmap_app; apply elem_of_app; by left).
  constructor; simpl; [|eapply Forall_impl; [eassumption|]; intros ? ?; by apply Hin..].
  rewrite fmap_app. apply NoDup_app. split; [done|]. split; [|apply NoDup_singleton].
  intros x Hx ->%list_elem_of_singleton. by apply Hf.
Qed.

Lemma delete_whole sid db db' : delete_server sid db = Ok db' → servers_whole db → servers_whole db'.
Proof.
  unfold delete_server. intros (r & _ & E)%res_bind_ok [Hn Hd Hl Hi].
  destruct (Z.ltb_spec 0 (countZ (λ d, String.eqb d.(Device.server_id) sid) db.(sd_devices))) as [|Hc]; [done|].
  destruct (existsb _ _) eqn:Hx; [done|]. injection E as <-.
  assert (∀ x, x ∈ row_id <$> db.(sd_rows) → x ≠ sid →
            x ∈ row_id <$> filterb (λ r, negb (String.eqb (row_id r) sid)) db.(sd_rows)) as Hin.
  { intros x (r' & -> & Hr')%list_elem_of_fmap Hne. apply list_elem_of_fmap_2, elem_of_filterb. split; [|done].
    by apply negb_true_iff, String.eqb_neq. }
  constructor; simpl.
  - eapply sublist_NoDup; [exact Hn|]. apply fmap_sublist, sublist_filter.
  - apply Forall_forall. intros d Hdin. rewrite Forall_forall in Hd. apply Hin; [by apply Hd|]. intros He.
    unfold countZ in Hc. assert (d ∈ filterb (λ d, String.eqb d.(Device.server_id) sid) db.(sd_devices)) as Hf.
    { apply elem_of_filterb. by rewrite He, String.eqb_refl. }
    destruct (filter _ _) as [|? ?]; [by apply not_elem_of_nil in Hf|simpl in Hc; lia].
  - apply Forall_forall. intros l Hlin. rewrite Forall_forall in Hl. apply Hin; [by apply Hl|]. intros He.
    apply not_true_iff_false in Hx. apply Hx, existsb_exists. exists l. rewrite He, String.eqb_refl. split; [by apply list_elem_of_In|done].
  - apply Forall_forall. intros i [Hne%negb_true_iff%String.eqb_neq Hiin]%elem_of_filterb. rewrite Forall_forall in Hi. by apply Hin; [apply Hi|].
Qed.

Lemma ips_whole f db :
  servers_whole db → Forall (λ i, i.(ServerIp.server_id) ∈ row_id <$> db.(sd_rows)) (f db.(sd_ips)) → servers_whole (set_ips f db).
Proof. by intros [Hn Hd Hl Hi]; constructor. Qed.

Lemma serve_whole settings now r db db' : serve_servers settings now r db = Ok db' → servers_whole db → servers_whole db'.
Proof.
  destruct r as [i b|a sid b|sid u|ids a t|sid|i sid ip role st|sid i role st|sid i]; cbn [serve_servers].
  - destruct (create_server now i b db) as [[d r]|] eqn:E; [|done]. intros [= <-]. by eapply create_whole.
  - destruct (update_server now a sid b db) as [[d r]|] eqn:E; [|done]. intros [= <-]. unfold update_server in E.
    apply res_bind_ok in E as (b' & _ & (r0 & Hr0 & E)%res_bind_ok). destruct (_ && _); [done|].
    apply res_bind_ok in E as (r' & Hr' & E). injection E as <- <-. apply whole_same_ids. intros l. apply change_row_ids.
    intros x _ Hx%String.eqb_eq. apply apply_update_id in Hr' as ->. apply get_row_Ok in Hr0 as [_ ->]. done.
  - destruct (update_server_limits sid u db) as [[d r]|] eqn:E; [|done]. intros [= <-]. unfold update_server_limits in E.
    apply res_bind_ok in E as (r0 & _ & E). injection E as <- <-. apply whole_same_ids. intros l. by apply change_row_ids.
  - destruct (bulk_update_servers settings ids a t db) as [[d r]|] eqn:E; [|done]. intros [= <-]. unfold bulk_update_servers in E.
    apply res_bind_ok in E as (u & _ & E). destruct ids as [|i ids]; [by simplify_eq|]. destruct (forallb _ _); [|done].
    injection E as <- <-. apply whole_same_ids. intros l. apply change_row_ids. by destruct a.
  - apply delete_whole.
  - destruct (create_server_ip now i sid ip role st db) as [[d r]|] eqn:E; [|done]. intros [= <-] Hw. unfold create_server_ip in E.
    apply res_bind_ok in E as (r0 & [Hr0 Hid]%get_row_Ok & E). injection E as <- <-. apply ips_whole; [done|].
    apply Forall_app. split; [apply Hw|]. constructor; [|constructor]. simpl. rewrite <- Hid. by apply list_elem_of_fmap_2.
  - destruct (update_server_ip sid i role st db) as [[d r]|] eqn:E; [|done]. intros [= <-] Hw. unfold update_server_ip in E.
    apply res_bind_ok in E as (i0 & _ & (ro & _ & (sta & _ & E)%res_bind_ok)%res_bind_ok). injection E as <- <-. apply ips_whole; [done|].
    apply Forall_fmap. eapply Forall_impl; [apply Hw|]. intros x Hx. simpl. destruct (is_ip sid i x) eqn:Hi; [|done].
    unfold is_ip in Hi. by apply andb_true_iff in Hi as [_ <-%String.eqb_eq].
  - unfold delete_server_ip. intros (i0 & _ & E)%res_bind_ok Hw. injection E as <-. apply ips_whole; [done|].
    apply Forall_forall. intros x [_ Hx]%elem_of_filterb. destruct Hw as [_ _ _ Hi]. rewrite Forall_forall in Hi. by apply Hi.
Qed.

(** C35: the inventory stays whole.  After any sequence of creations, changes,
    limits, bulk actions, deletions and requests on addresses, accepted or refused,
    the identifiers of servers are distinct and every device, health log and
    address refers to a server there is. *)
Theorem inventory_stays_whole settings reqs db : servers_whole db → servers_whole (serve_all_servers settings reqs db).
Proof.
  revert db. induction reqs as [|[now r] reqs IH]; intros db Hw; simpl; [done|]. apply IH.
  destruct (serve_servers settings now r db) as [db'|] eqn:E; [|done]. by eapply serve_whole.
Qed.

(** ** Pages *)

Lemma chunks_cover {A} (size n : nat) : ∀ l : list A,
  (length l ≤ n * size)%nat → mjoin ((λ k, take size (drop (k * size) l)) <$> seq 0 n) = l.
Proof.
  induction n as [|n IH]; intros l Hl; simpl in *; [by destruct l; [|simpl in Hl; lia]|].
  rewrite drop_0. etrans; [|apply (take_drop size l)]. f_equal. rewrite <- seq_shift, <- list_fmap_compose.
  etrans; [|apply (IH (drop size l)); rewrite length_drop; lia].
  f_equal. apply list_fmap_ext. intros _ k _. simpl. by rewrite drop_drop.
Qed.

(** The pages of the list are the list.  With any page size, the pages from
    the first on hold each matching server exactly once, in the order of the list,
    and each says how many there are; in Docker mode the groups take the place of
    the servers. *)
Theorem pages_are_the_list settings now hbs limit offset size n q db :
  0 < size →
  let rows := listing settings now hbs q db in
  let page k := list_servers settings now hbs limit offset (Some k) (Some size) q db in
  Z.of_nat (length rows) ≤ Z.of_nat n * size →
  mjoin ((λ k, sl_items (page (Z.of_nat k + 1))) <$> seq 0 n) = server_out settings now db <$> rows ∧
  ∀ k, sl_total (page k) = Z.of_nat (length rows).
Proof.
  intros Hs rows page Hn. split; [|done].
  rewrite <- (chunks_cover (Z.to_nat size) n (server_out settings now db <$> rows)) by (rewrite length_fmap; lia).
  f_equal. apply list_fmap_ext. intros _ k _. unfold page, list_servers, _fetch_servers_list_uncached. cbn [sl_items default].
  destruct (Z.ltb_spec 0 (Z.of_nat k + 1)); [|lia]. rewrite fmap_take, fmap_drop. do 2 f_equal.
  change (id size) with size. rewrite Z2Nat.inj_mul by lia. f_equal. lia.
Qed.

(** ** One server for a group *)

Definition health_of (r : server_row) : float := default f0 r.(sr_server).(Server.health_score).

Lemma better_refl r : is_nan (health_of r) = false → better r r = true.
Proof. intros Hn. unfold better. rewrite Bool.eqb_reflx. by apply fle_refl. Qed.

Lemma better_trans a b c : better a b = true → better b c = true → better a c = true.
Proof.
  unfold better, fge. fold (health_of a) (health_of b) (health_of c).
  destruct (Server.is_active (sr_server a)), (Server.is_active (sr_server b)), (Server.is_active (sr_server c)); simpl; try done;
    intros Hab Hbc; by eapply fle_trans.
Qed.

Lemma better_total a b :
  is_nan (health_of a) = false → is_nan (health_of b) = false → better a b = false → better b a = true.
Proof.
  unfold better, fge. fold (health_of a) (health_of b). intros Ha Hb.
  destruct (Server.is_active (sr_server a)), (Server.is_active (sr_server b)); simpl; try done;
    intros Hf; apply flt_le; rewrite flt_fle by done; unfold fle; by rewrite Hf.
Qed.

(** What the dictionary of the groups holds after the rows [l]. *)
Definition best_of (l : list server_row) (m : list (string * server_row)) : Prop :=
  NoDup (dkeys m) ∧ (∀ k r, (k, r) ∈ m → row_group r = k ∧ r ∈ l) ∧
  ∀ r, r ∈ l → ∃ e, dget (row_group r) m = Some e ∧ better e r = true.

Lemma elem_of_dset {V} k v (m : list (string * V)) kv : kv ∈ dset k v m → kv = (k, v) ∨ kv ∈ m.
Proof.
  induction m as [|[k' v'] m IH]; simpl; [intros ->%list_elem_of_singleton; by left|].
  case_decide as Hk; intros [->|Hin]%elem_of_cons.
  - left. by rewrite Hk.
  - right. by right.
  - right. by left.
  - destruct (IH Hin) as [->|?]; [by left|right; by right].
Qed.

Lemma keep_best_step l m r :
  is_nan (health_of r) = false → Forall (λ x, is_nan (health_of x) = false) l → best_of l m → best_of (l ++ [r]) (keep_best m r).
Proof.
  intros Hr Hl (Hn & Hm & Hb).
  assert (best_of l m → ∀ e, better r e = true → (∀ x, x ∈ l → row_group x = row_group r → better e x = true) →
            best_of (l ++ [r]) (dset (row_group r) r m)) as Hset.
  { intros _ e Hre He. split; [by apply dkeys_dset_NoDup|]. split.
    - intros k x [[= -> ->]|Hx]%elem_of_dset; [split; [done|apply elem_of_app; right; by apply list_elem_of_singleton]|].
      destruct (Hm k x Hx) as [? ?]. split; [done|]. apply elem_of_app. by left.
    - intros x [Hx| ->%list_elem_of_singleton]%elem_of_app.
      + rewrite dget_dset. case_decide as Hg; [|by apply Hb]. exists r. split; [done|].
        eapply better_trans; [exact Hre|by apply He].
      + exists r. rewrite dget_dset_eq. split; [done|by apply better_refl]. }
  unfold keep_best. destruct (dget (row_group r) m) as [e|] eqn:He.
  - destruct (better r e) eqn:Hre.
    + eapply Hset; [done|exact Hre|]. intros x Hx Hg. destruct (Hb x Hx) as (e' & He' & Hbx). rewrite Hg, He in He'. by injection He' as <-.
    + split; [done|]. split.
      * intros k x Hx. destruct (Hm k x Hx) as [? ?]. split; [done|]. apply elem_of_app. by left.
      * intros x [Hx| ->%list_elem_of_singleton]%elem_of_app; [by apply Hb|]. exists e. split; [done|].
        apply better_total; [done| |done]. apply dget_Some_elem, Hm in He as [_ He]. rewrite Forall_forall in Hl. by apply Hl.
  - eapply (Hset ltac:(done) r); [by apply better_refl|]. intros x Hx Hg. destruct (Hb x Hx) as (e' & He' & _). by rewrite Hg, He in He'.
Qed.

Lemma keep_best_all l : Forall (λ x, is_nan (health_of x) = false) l → best_of l (foldl keep_best [] l).
Proof.
  induction l as [|r l IH] using rev_ind; intros Hl.
  - split; [constructor|]. split; [by intros k r Hin%not_elem_of_nil|by intros r Hin%not_elem_of_nil].
  - apply Forall_app in Hl as [Hl Hr%Forall_inv]. rewrite foldl_app. cbn [foldl].
    apply keep_best_step; [exact Hr|exact Hl|by apply IH].
Qed.

(** In Docker mode the list shows one server for a group of names.  No two
    servers shown have names of one group; each server shown matches the query, and
    each server that does is in the group of one shown that is active if it is, and
    not less healthy when both are. *)
Theorem docker_list_is_grouped settings now hbs q db :
  docker_prefixes settings ≠ [] → Forall (λ r, is_nan (health_of r) = false) db.(sd_rows) →
  let rows := listing settings now hbs q db in
  NoDup (row_group <$> rows) ∧
  (∀ r, r ∈ rows → r ∈ db.(sd_rows) ∧ listed settings now hbs q db r = true) ∧
  ∀ r, r ∈ db.(sd_rows) → listed settings now hbs q db r = true →
    ∃ e, e ∈ rows ∧ row_group e = row_group r ∧ better e r = true.
Proof.
  intros Hp Hnan rows. unfold rows, listing. destruct (docker_prefixes settings) as [|p ps] eqn:Hps; [done|]. clear Hp.
  set (all := sorted_by (sort_column q.(lq_sort)) (filterb (listed settings now hbs q db) db.(sd_rows))).
  assert (∀ r, r ∈ all ↔ r ∈ db.(sd_rows) ∧ listed settings now hbs q db r = true) as Hall
    by (intros r; unfold all; rewrite elem_of_sorted_by, elem_of_filterb; tauto).
  destruct (keep_best_all all) as (Hn & Hm & Hb).
  { apply Forall_forall. intros r Hr. rewrite Forall_forall in Hnan. by apply Hnan, Hall. }
  set (m := foldl keep_best [] all) in *. split_and!.
  - rewrite sorted_by_perm. assert (row_group <$> (snd <$> m) = dkeys m) as ->; [|done].
    unfold dkeys. rewrite <- list_fmap_compose. apply list_fmap_ext. intros i [k r] Hi. simpl.
    apply list_elem_of_lookup_2 in Hi. by apply Hm in Hi as [? _].
  - intros r Hr. apply elem_of_sorted_by, list_elem_of_fmap in Hr as ([k e] & -> & Hin). apply Hall. by apply Hm in Hin as [_ ?].
  - intros r Hr Hlst. destruct (Hb r) as (e & He & Hbe); [by apply Hall|]. apply dget_Some_elem in He. exists e. split_and!.
    + apply elem_of_sorted_by, list_elem_of_fmap. by exists (row_group r, e).
    + by apply Hm in He as [? _].
    + done.
Qed.

(** ** The filter by status *)

(** On stored statuses in lower case the filter agrees with the status that is
    shown, but that of the unknown, which shows more than it is given. *)
Lemma status_filter_shown f vals s :
  lower s = s → dget f _STATUS_TO_DB = Some vals →
  (str_in s vals = true → normalize_server_status s = f) ∧
  (f ≠ "unknown" → normalize_server_status s = f → str_in s vals = true).
Proof.
  intros Hs Hf. unfold normalize_server_status. rewrite Hs. apply dget_Some_elem in Hf.
  repeat (apply elem_of_cons in Hf as [[= -> ->]|Hf]; [|]); [..|by apply not_elem_of_nil in Hf].
  - destruct (str_in s ["healthy"; "ok"]) eqn:E; [done|]. split; [done|]. intros _. by repeat case_match.
  - destruct (str_in s ["healthy"; "ok"]) eqn:E.
    { apply str_in_true in E. repeat (apply elem_of_cons in E as [->|E]; [by split|]). by apply not_elem_of_nil in E. }
    destruct (String.eqb_spec s "degraded") as [->|]; [by split|].
    destruct (str_in s ["unhealthy"; "unreachable"; "down"; "error"; "offline"]); by split.
  - destruct (str_in s ["healthy"; "ok"]) eqn:E.
    { apply str_in_true in E. repeat (apply elem_of_cons in E as [->|E]; [by split|]). by apply not_elem_of_nil in E. }
    destruct (String.eqb_spec s "degraded") as [->|Hne]; [by split|].
    split; [intros Hd; apply str_in_true in Hd; by apply list_elem_of_singleton in Hd|]. intros _. by case_match.
  - split; [|done]. intros E. apply str_in_true in E. apply elem_of_cons in E as [->|E]; [done|]. by apply not_elem_of_nil in E.
Qed.

(** ** Witnesses *)

Definition wit_row (i name : string) (active : bool) (created : Z) (health : option float) : server_row :=
  mkServerRow
    (Server.mk i name "eu" "http://203.0.113.1" None None None None None None None "healthy" active None None health false None None None)
    created None false 60 None None None.

Definition wit_servers : servers_db :=
  mkServersDb [wit_row "s1" "amnezia-awg1" true 10 (Some f1); wit_row "s2" "amnezia-awg2" true 20 None;
               wit_row "s3" "amnezia-awg-eu" false 30 (Some f1); wit_row "s4" "web" true 40 None]
    [Device.set_revoked_at (Some 5) (Device.test "d1" "s2" "k1" "10.8.1.2/32")]
    [ServerHealthLog.mk "s1" "healthy" None None 50] [].

Definition every : list_query := mkListQuery None None None None "created_at_desc" None.

Lemma wit_servers_whole : servers_whole wit_servers.
Proof. constructor; vm_compute; repeat constructor; intros H; repeat (apply elem_of_cons in H as [H|H]; [discriminate H|]); by apply not_elem_of_nil in H. Qed.

Lemma inventory_stays_whole_witness :
  let new := mkServerCreate (Some "s9") "new" "eu" "203.0.113.9" None None None None None None None in
  let db := serve_all_servers default_settings
    [(1, CreateServer "x" new); (2, CreateServer "x" new); (3, CreateIp "i1" "s9" " 203.0.113.9 " "primary" "good");
     (4, DeleteServer "s2"); (5, DeleteServer "s1"); (6, DeleteServer "s4");
     (7, BulkUpdate ["s9"; "s1"] mark_draining None)] wit_servers in
  servers_whole db ∧ row_id <$> db.(sd_rows) = ["s1"; "s2"; "s3"; "s9"].
Proof.
  intros new db. split; [|vm_compute; reflexivity].
  exact (inventory_stays_whole default_settings _ wit_servers wit_servers_whole).
Defined.

Lemma pages_are_the_list_witness :
  let page k := list_servers default_settings 100 [] 50 0 (Some k) (Some 1) every wit_servers in
  let rows := listing default_settings 100 [] every wit_servers in
  row_id <$> rows = ["s1"; "s3"] ∧
  mjoin ((λ k, sl_items (page (Z.of_nat k + 1))) <$> seq 0 3) = server_out default_settings 100 wit_servers <$> rows.
Proof.
  intros page rows. assert (row_id <$> rows = ["s1"; "s3"]) as Hr by (vm_compute; reflexivity). split; [exact Hr|].
  refine (proj1 (pages_are_the_list default_settings 100 [] 50 0 1 3 every wit_servers _ _)); [lia|].
  assert (length rows = 2%nat) as Hl by (vm_compute; reflexivity). fold rows. rewrite Hl. lia.
Defined.

Lemma docker_list_is_grouped_witness :
  let rows := listing default_settings 100 [] every wit_servers in
  NoDup (row_group <$> rows) ∧ row_group <$> rows = ["amnezia-awg"; "amnezia-awg-eu"].
Proof.
  intros rows. split; [|vm_compute; reflexivity].
  refine (proj1 (docker_list_is_grouped default_settings 100 [] every wit_servers _ _)); [vm_compute; discriminate|].
  vm_compute. repeat constructor.
Defined.

(** ** What the requests do beside *)

(** In Docker mode the two descending orders are turned twice: the newest server
    comes last. *)
Example docker_newest_last :
  (λ o, o.(so_row).(sr_created_at)) <$> sl_items (list_servers default_settings 100 [] 50 0 None None every wit_servers) = [10; 30] ∧
  (λ o, o.(so_row).(sr_created_at)) <$>
    sl_items (list_servers (with_node_discovery "static" default_settings) 100 [] 50 0 None None every wit_servers) = [40; 30; 20; 10].
Proof. vm_compute. repeat split. Qed.

(** A revoked device keeps its server, and so does a health check. *)
Example servers_that_stay :
  delete_server "s2" wit_servers =
    Err (HTTPException 409 "Cannot delete server: 1 device(s) reference it. Move or revoke devices first.") ∧
  delete_server "s1" wit_servers = Err (IntegrityError "server_health_logs.server_id").
Proof. vm_compute. repeat split. Qed.

(** The check on auto-sync looks at the old columns: an active server may be
    without it, and a server may not lose both at once. *)
Example auto_sync_hole :
  let none := mkServerUpdate None None None None None None None None None None None None None None in
  let activate := mkServerUpdate None None None None None None None None None None None (Some (Some true)) None None in
  let stop := mkServerUpdate None None None None None None None None None None None (Some (Some false)) (Some (Some false)) None in
  (λ r, (r.(sr_server).(Server.is_active), r.(sr_auto_sync))) <$> (snd <$> update_server 0 None "s3" activate wit_servers)
    = Ok (true, false) ∧
  update_server 0 None "s1" stop wit_servers = Err (HTTPException 422 "Auto-sync cannot be disabled for active servers").
Proof. vm_compute. repeat split. Qed.

(** A search is a pattern. *)
Example search_underscore :
  let q := mkListQuery None None None (Some "a_e") "name_asc" None in
  row_id <$> listing (with_node_discovery "static" default_settings) 0 [] q wit_servers = [] ∧
  row_id <$> listing (with_node_discovery "static" default_settings) 0 []
    (mkListQuery None None None (Some "a_n") "name_asc" None) wit_servers = ["s3"; "s1"; "s2"] ∧
  row_id <$> listing (with_node_discovery "static" default_settings) 0 []
    (mkListQuery None None None (Some "_") "name_asc" None) wit_servers = ["s3"; "s1"; "s2"; "s4"].
Proof. vm_compute. repeat split. Qed.
