(* ===== verification/EventStream.v ===== *)
(** * The stream of control-plane events

    The web socket of [api/v1/control_plane.py] that sends the events of the
    control plane to an administrator: who may open it, the rows it starts with,
    and the polls that follow.  The table of events is given at each query, as
    other requests write it; its order stands for the one the database gives rows
    of the same time.  A session is the list of its queries; sends that fail end
    it, so what was sent is a prefix. *)

From S2P Require Import Prelude PyFloat PyStr PyVal Settings Models Node ControlPlaneDb RateLimit Auth.
Open Scope Z_scope.

(** ** Who may listen *)

Inductive ws_refusal : Type := unauthorized | ws_forbidden.

Section authorize.
Context `{Jwt} (settings : Settings).

Definition _authorize_ws_cluster_read (now : Z) (token : option string) (db : auth_db) : string + ws_refusal :=
  match token with
  | None => inr unauthorized
  | Some token =>
      if negb (str_truthy token) then inr unauthorized
      else match payload_of_type settings now "access" token with
           | None => inr unauthorized
           | Some payload =>
               let sub := render (v_or (getv payload "sub") (VStr "")) in
               if negb (str_truthy sub) then inr unauthorized
               else match List.find (λ a, String.eqb a.(AdminUser.id) sub) db.(admins) with
                    | None => inr unauthorized
                    | Some admin =>
                        match List.find (λ r, String.eqb r.(Role.id) admin.(AdminUser.role_id)) db.(roles) with
                        | None => inr ws_forbidden
                        | Some role =>
                            let perms := default [] role.(Role.permissions) in
                            if negb (str_in "*" perms) && negb (str_in "cluster:read" perms) then inr ws_forbidden
                            else inl admin.(AdminUser.id)
                        end
                    end
           end
  end.

(** The code the socket is closed with. *)
Definition close_code (e : ws_refusal) : Z := match e with ws_forbidden => 4403 | unauthorized => 4401 end.
End authorize.

(** ** The rows *)

Definition EVENTS_PAGE_SIZE : Z := 200.

Record stored_event : Type := mkStored { se_id : string; se_created_at : Z; se_event : ControlPlaneEvent }.

Definition newest_first (a b : stored_event) : bool := b.(se_created_at) <? a.(se_created_at).
Definition oldest_first (a b : stored_event) : bool := a.(se_created_at) <? b.(se_created_at).

(** [GET /events] *)
Definition get_control_plane_events (limit : Z) (rows : list stored_event) : list stored_event :=
  take (Z.to_nat limit) (sorted_by newest_first rows).

(** The time of the last event that was sent, and the events of that time. *)
Record ws_cursor : Type := mkCursor { last_created_at : option Z; same_ts_ids : gset string }.

(** A session: its cursor and what it sent. *)
Definition ws_state : Type := ws_cursor * list stored_event.

Definition mark_initial (c : ws_cursor) (e : stored_event) : ws_cursor :=
  match c.(last_created_at) with
  | None => mkCursor (Some e.(se_created_at)) {[ e.(se_id) ]}
  | Some t => if t <? e.(se_created_at) then mkCursor (Some e.(se_created_at)) {[ e.(se_id) ]}
              else if e.(se_created_at) =? t then mkCursor (Some t) ({[ e.(se_id) ]} ∪ c.(same_ts_ids)) else c
  end.

Definition send_initial (st : ws_state) (e : stored_event) : ws_state := (mark_initial st.1 e, st.2 ++ [e]).

Definition skip_row (c : ws_cursor) (e : stored_event) : bool :=
  match c.(last_created_at) with
  | None => false
  | Some t => (e.(se_created_at) <? t) || (e.(se_created_at) =? t) && bool_decide (e.(se_id) ∈ c.(same_ts_ids))
  end.

Definition mark_sent (c : ws_cursor) (e : stored_event) : ws_cursor :=
  match c.(last_created_at) with
  | None => mkCursor (Some e.(se_created_at)) {[ e.(se_id) ]}
  | Some t => if t <? e.(se_created_at) then mkCursor (Some e.(se_created_at)) {[ e.(se_id) ]}
              else mkCursor (Some t) ({[ e.(se_id) ]} ∪ c.(same_ts_ids))
  end.

Definition send_row (st : ws_state) (e : stored_event) : ws_state :=
  if skip_row st.1 e then st else (mark_sent st.1 e, st.2 ++ [e]).

(** The rows of the first query, oldest first. *)
Definition initial_rows (limit : Z) (rows : list stored_event) : list stored_event :=
  rev (take (Z.to_nat limit) (sorted_by newest_first rows)).

Definition due_rows (c : ws_cursor) (rows : list stored_event) : list stored_event :=
  sorted_by oldest_first
    (match c.(last_created_at) with Some t => filterb (λ e, t <=? e.(se_created_at)) rows | None => rows end).

Definition page_of (c : ws_cursor) (rows : list stored_event) : list stored_event :=
  take (Z.to_nat EVENTS_PAGE_SIZE) (due_rows c rows).

Definition open_stream (settings : Settings) (rows : list stored_event) : ws_state :=
  foldl send_initial (mkCursor None ∅, []) (initial_rows settings.(control_plane_events_ws_initial_limit) rows).

Definition poll (st : ws_state) (rows : list stored_event) : ws_state := foldl send_row st (page_of st.1 rows).

(** What a session sends: the table when it opens and at each poll. *)
Definition stream_events (settings : Settings) (rows : list stored_event) (tables : list (list stored_event)) : list stored_event :=
  (foldl poll (open_stream settings rows) tables).2.

Definition stream_control_plane_events `{Jwt} (settings : Settings) (now : Z) (token : option string) (db : auth_db)
    (rows : list stored_event) (tables : list (list stored_event)) : Z + list stored_event :=
  match _authorize_ws_cluster_read settings now token db with
  | inr e => inl (close_code e)
  | inl _ => inr (stream_events settings rows tables)
  end.

(** ** The gate of the socket *)

(** The socket opens for the administrators the other routes let read the cluster,
    and for no one else; the token of a socket comes without a scheme. *)
Lemma ws_gate_is_the_gate `{Jwt} settings now token db i :
  (∀ p v, payload_of_type settings now "access" token = Some p → dget "sub" p = Some v → ∃ s, v = VStr s) →
  _authorize_ws_cluster_read settings now (Some token) db = inl i ↔
  token ≠ "" ∧ ∃ a, require_permission settings "cluster:read" now (Some ("Bearer", token)) db = Ok a ∧ a.(AdminUser.id) = i.
Proof.
  intros Hs. unfold _authorize_ws_cluster_read, require_permission, get_current_admin, get_current_admin_optional.
  unfold mbind, option_bind, res_bind. simpl.
  destruct (str_truthy token) eqn:Ht; simpl.
  2:{ unfold str_truthy in Ht. apply negb_false_iff, String.eqb_eq in Ht as ->. naive_solver. }
  assert (token ≠ "") as Hne by (intros ->; done).
  destruct (payload_of_type settings now "access" token) as [p|] eqn:Hp; [|naive_solver].
  unfold getv. destruct (dget "sub" p) as [v|] eqn:Hv; [|naive_solver].
  destruct (Hs p v eq_refl Hv) as [s ->]. simpl. unfold v_or. simpl.
  destruct (str_truthy s) eqn:Hst; simpl; [|naive_solver]. rewrite Hst. simpl.
  assert (List.find (λ a, String.eqb a.(AdminUser.id) s) db.(admins) = admin_by_id db (VStr s)) as ->.
  { unfold admin_by_id. induction (admins db) as [|a l IH]; [done|]. simpl.
    destruct (String.eqb_spec (AdminUser.id a) s) as [<-|Hn].
    - by rewrite bool_decide_eq_true_2.
    - rewrite bool_decide_eq_false_2 by congruence. exact IH. }
  destruct (admin_by_id db (VStr s)) as [a|]; simpl; [|naive_solver]. unfold check_permission.
  destruct (List.find _ (roles db)) as [role|]; [|naive_solver].
  case_match; naive_solver.
Qed.

(** ** What a session sends *)

#[local] Notation earlier := (λ a b : stored_event, a.(se_created_at) ≤ b.(se_created_at)).

(** The cursor says the time of the last event that was sent, and which of that
    time were sent; what was sent is in order and without repetition. *)
Record tracks (st : ws_state) : Prop := {
  tr_last : match st.1.(last_created_at) with
            | None => st.2 = []
            | Some t => (∃ e, e ∈ st.2 ∧ e.(se_created_at) = t) ∧ Forall (λ e, e.(se_created_at) ≤ t) st.2
            end;
  tr_same : ∀ i, i ∈ st.1.(same_ts_ids) ↔ ∃ e, e ∈ st.2 ∧ st.1.(last_created_at) = Some e.(se_created_at) ∧ e.(se_id) = i;
  tr_nodup : NoDup st.2;
  tr_sorted : StronglySorted earlier st.2
}.

Lemma tracks_nil : tracks (mkCursor None ∅, []).
Proof. split; simpl; [done| |constructor|constructor]. intros i. split; [by intros ?%elem_of_empty|]. intros (e & He & _). by apply not_elem_of_nil in He. Qed.

(** The time a cursor stands at is not after [t]. *)
Definition upto (c : ws_cursor) (t : Z) : Prop := ∀ t0, c.(last_created_at) = Some t0 → t0 ≤ t.

Lemma tracks_sent st e :
  tracks st → upto st.1 e.(se_created_at) → e ∉ st.2 →
  tracks (mark_sent st.1 e, st.2 ++ [e]) ∧ last_created_at (mark_sent st.1 e) = Some e.(se_created_at).
Proof.
  intros [Hl Hs Hn Ho] Hu Hf. unfold mark_sent.
  assert (NoDup (st.2 ++ [e])) as Hn'.
  { apply NoDup_app. split_and!; [done| |apply NoDup_singleton]. intros x Hx ->%list_elem_of_singleton. done. }
  assert (Forall (λ x, x.(se_created_at) ≤ e.(se_created_at)) st.2) as Hle.
  { destruct (last_created_at st.1) as [t|] eqn:E; [|rewrite Hl; constructor]. destruct Hl as [_ Hl].
    eapply Forall_impl; [exact Hl|]. simpl. intros x Hx. specialize (Hu t E). lia. }
  assert (StronglySorted earlier (st.2 ++ [e])) as Ho' by (apply StronglySorted_snoc; by split).
  assert (∀ c, last_created_at c = Some e.(se_created_at) →
            (∀ i, i ∈ same_ts_ids c ↔ i = e.(se_id) ∨ ∃ x, x ∈ st.2 ∧ x.(se_created_at) = e.(se_created_at) ∧ x.(se_id) = i) →
            tracks (c, st.2 ++ [e])) as Hgo.
  { intros c Hc Hi. split; simpl; rewrite ?Hc; [|intros i; rewrite Hi|done|done].
    - split; [exists e; set_solver|]. apply Forall_app. split; [done|by apply Forall_singleton].
    - split.
      + intros [->|(x & Hx & <- & <-)]; [exists e|exists x]; (split_and!; [set_solver|done|done]).
      + intros (x & Hx & Hxt & <-). injection Hxt as Hxt.
        apply elem_of_app in Hx as [Hx|Hx%list_elem_of_singleton]; [right; by exists x|left; by subst]. }
  destruct (last_created_at st.1) as [t|] eqn:E.
  - specialize (Hu t E). destruct (Z.ltb_spec t e.(se_created_at)).
    + split; [|done]. apply Hgo; [done|]. intros i. simpl. rewrite elem_of_singleton. split; [auto|].
      intros [->|(x & Hx & Ht & <-)]; [done|]. destruct Hl as [_ Hl]. rewrite Forall_forall in Hl. specialize (Hl x Hx). lia.
    + assert (t = e.(se_created_at)) as -> by lia. split; [|done]. apply Hgo; [done|]. intros i. simpl.
      rewrite elem_of_union, elem_of_singleton, Hs. split; intros [?|(x & Hx & Hxt & <-)]; auto; right; exists x; split_and!; congruence || done.
  - split; [|done]. apply Hgo; [done|]. intros i. simpl. rewrite elem_of_singleton, Hl. split; [auto|]. intros [?|(x & Hx & _)]; [done|]. by apply not_elem_of_nil in Hx.
Qed.

Lemma send_row_tracks st e :
  tracks st → upto st.1 e.(se_created_at) → (∀ x, x ∈ st.2 → x.(se_id) = e.(se_id) → x = e) →
  tracks (send_row st e) ∧ upto (send_row st e).1 e.(se_created_at) ∧ e ∈ (send_row st e).2 ∧
  (send_row st e).2 = st.2 ++ (if skip_row st.1 e then [] else [e]).
Proof.
  intros Ht Hu Hid. unfold send_row. destruct (skip_row st.1 e) eqn:Hk; simpl.
  - rewrite app_nil_r. split_and!; try done. unfold skip_row in Hk.
    destruct (last_created_at st.1) as [t|] eqn:E; [|done]. specialize (Hu t E).
    apply orb_true_iff in Hk as [?%Z.ltb_lt|[Heq%Z.eqb_eq Hi%bool_decide_eq_true]%andb_true_iff]; [lia|].
    apply (tr_same st Ht) in Hi as (x & Hx & _ & Hxi). by rewrite <- (Hid x Hx Hxi).
  - assert (e ∉ st.2) as Hf.
    { intros Hin. unfold skip_row in Hk. pose proof (tr_last st Ht) as Hl.
      destruct (last_created_at st.1) as [t|] eqn:E; [|rewrite Hl in Hin; by apply not_elem_of_nil in Hin].
      apply orb_false_iff in Hk as [_ Hk]. apply andb_false_iff in Hk.
      destruct Hl as [_ Hl]. rewrite Forall_forall in Hl. specialize (Hl e Hin). specialize (Hu t E).
      destruct Hk as [?%Z.eqb_neq|Hi%bool_decide_eq_false]; [lia|]. apply Hi, (tr_same st Ht). exists e. split_and!; try done. rewrite E. f_equal. lia. }
    destruct (tracks_sent st e Ht Hu Hf) as [H1 H2]. split_and!; try done; [|set_solver].
    intros t0 E0. simpl in E0. rewrite H2 in E0. injection E0 as <-. lia.
Qed.

(** Rows in order go on with what was sent. *)
Lemma send_rows_tracks l : ∀ st,
  tracks st → StronglySorted earlier l → (∀ e, e ∈ l → upto st.1 e.(se_created_at)) →
  (∀ x y, x ∈ st.2 ++ l → y ∈ st.2 ++ l → x.(se_id) = y.(se_id) → x = y) →
  tracks (foldl send_row st l) ∧ (∀ e, e ∈ (foldl send_row st l).2 ↔ e ∈ st.2 ∨ e ∈ l) ∧
  st.2 `prefix_of` (foldl send_row st l).2.
Proof.
  induction l as [|e l IH]; intros st Ht Hs Hu Hid; cbn [foldl].
  { split_and!; [done| |done]. intros e. rewrite elem_of_nil. tauto. }
  apply StronglySorted_inv in Hs as [Hs He]. rewrite Forall_forall in He.
  destruct (send_row_tracks st e Ht) as (Ht' & Hu' & Hin & Hout); [apply Hu; set_solver|intros x Hx; apply Hid; set_solver|].
  assert (∀ x, x ∈ (send_row st e).2 ↔ x ∈ st.2 ∨ x = e) as Hmem.
  { intros x. split; [rewrite Hout, elem_of_app; case_match; set_solver|].
    intros [Hx| ->]; [rewrite Hout; set_solver|done]. }
  destruct (IH (send_row st e) Ht' Hs) as (H1 & H2 & H3).
  - intros x Hx t0 E0. specialize (Hu' t0 E0). specialize (He x Hx). simpl in He. lia.
  - intros x y Hx Hy. apply Hid; rewrite elem_of_app, Hmem in *; set_solver.
  - split_and!; [done| |etrans; [|exact H3]; rewrite Hout; by apply prefix_app_r].
    intros x. rewrite H2, Hmem, elem_of_cons. tauto.
Qed.

(** The first rows are sent as those of a poll would be. *)
Lemma send_initial_row st e :
  tracks st → upto st.1 e.(se_created_at) → (∀ x, x ∈ st.2 → x.(se_id) ≠ e.(se_id)) → send_initial st e = send_row st e.
Proof.
  intros Ht Hu Hn. unfold send_initial, send_row, skip_row, mark_initial, mark_sent.
  destruct (last_created_at st.1) as [t|] eqn:E; [|done]. specialize (Hu t E).
  destruct (Z.ltb_spec e.(se_created_at) t); [lia|]. simpl.
  rewrite bool_decide_eq_false_2, andb_false_r.
  - destruct (Z.ltb_spec t e.(se_created_at)); [done|]. by replace (e.(se_created_at) =? t) with true by lia.
  - intros (x & Hx & _ & Hxi)%(tr_same st Ht). by apply (Hn x Hx).
Qed.

Lemma StronglySorted_rev {A} (R : A → A → Prop) l : StronglySorted R l → StronglySorted (λ a b, R b a) (rev l).
Proof.
  induction 1 as [|x l Hl IH Hx]; simpl; [constructor|]. apply StronglySorted_snoc. split; [done|].
  apply Forall_forall. intros y Hy. rewrite Forall_forall in Hx. apply Hx. rewrite list_elem_of_In in *. by apply in_rev.
Qed.

Lemma StronglySorted_take {A} (R : A → A → Prop) n l : StronglySorted R l → StronglySorted R (take n l).
Proof.
  intros H. revert n. induction H as [|x l Hl IH Hx]; intros [|n]; simpl; try constructor; [done|].
  apply Forall_forall. intros y Hy. rewrite Forall_forall in Hx. apply Hx. by eapply elem_of_take_sub.
Qed.

(** Rows are compared. *)
#[export] Instance float_eq_dec : EqDecision float.
Proof. solve_decision. Defined.
#[export] Instance move_eq_dec : EqDecision RebalanceMoveOut.
Proof. solve_decision. Defined.
#[export] Instance execution_eq_dec : EqDecision RebalanceExecutionOut.
Proof. solve_decision. Defined.
#[export] Instance run_eq_dec : EqDecision AutomationRunOut.
Proof. solve_decision. Defined.
#[export] Instance throttling_eq_dec : EqDecision ThrottlingNodeApplyOut.
Proof. solve_decision. Defined.
#[export] Instance payload_eq_dec : EqDecision payload.
Proof. solve_decision. Defined.
#[export] Instance event_eq_dec : EqDecision ControlPlaneEvent.
Proof. solve_decision. Defined.
#[export] Instance stored_event_eq_dec : EqDecision stored_event.
Proof. solve_decision. Defined.

Definition unique_ids (rows : list stored_event) : Prop :=
  ∀ x y, x ∈ rows → y ∈ rows → x.(se_id) = y.(se_id) → x = y.

Lemma oldest_first_sorted rows : StronglySorted earlier (sorted_by oldest_first rows).
Proof.
  eapply StronglySorted_impl; [|apply (sorted_by_sorted oldest_first (λ _, True))].
  - unfold oldest_first. simpl. intros a b ?%Z.ltb_ge. lia.
  - unfold oldest_first. intros a b _ _. rewrite Z.ltb_lt, Z.ltb_ge. lia.
  - unfold oldest_first. intros a b c _ _ _. rewrite !Z.ltb_ge. lia.
  - by apply Forall_forall.
Qed.

Lemma initial_rows_sorted limit rows : StronglySorted earlier (initial_rows limit rows).
Proof.
  unfold initial_rows. apply (StronglySorted_rev (λ a b, b.(se_created_at) ≤ a.(se_created_at))), StronglySorted_take.
  eapply StronglySorted_impl; [|apply (sorted_by_sorted newest_first (λ _, True))].
  - unfold newest_first. simpl. intros a b ?%Z.ltb_ge. lia.
  - unfold newest_first. intros a b _ _. rewrite Z.ltb_lt, Z.ltb_ge. lia.
  - unfold newest_first. intros a b c _ _ _. rewrite !Z.ltb_ge. lia.
  - by apply Forall_forall.
Qed.

Lemma initial_rows_in limit rows e : e ∈ initial_rows limit rows → e ∈ rows.
Proof.
  unfold initial_rows. rewrite list_elem_of_In, <- in_rev, <- list_elem_of_In. intros H%elem_of_take_sub.
  by rewrite sorted_by_perm in H.
Qed.

Lemma initial_rows_nodup limit rows : NoDup rows → NoDup (initial_rows limit rows).
Proof.
  intros H. unfold initial_rows. rewrite NoDup_ListNoDup. apply NoDup_rev. rewrite <- NoDup_ListNoDup.
  eapply sublist_NoDup; [|apply sublist_take]. by rewrite sorted_by_perm.
Qed.

(** The first rows leave the cursor at the newest of them. *)
Lemma send_initials l : ∀ st,
  tracks st → StronglySorted earlier l → (∀ e, e ∈ l → upto st.1 e.(se_created_at)) → NoDup l →
  unique_ids (st.2 ++ l) → (∀ e, e ∈ l → e ∉ st.2) → foldl send_initial st l = foldl send_row st l.
Proof.
  induction l as [|e l IH]; intros st Ht Hs Hu Hn Hid Hd; [done|]. cbn [foldl].
  apply StronglySorted_inv in Hs as [Hs He]. rewrite Forall_forall in He. apply NoDup_cons in Hn as [Hne Hn].
  assert (send_initial st e = send_row st e) as E.
  { apply send_initial_row; [done|apply Hu; set_solver|]. intros x Hx Hxi.
    assert (x = e) as -> by (apply Hid; set_solver). apply (Hd e); set_solver. }
  rewrite E. destruct (send_row_tracks st e Ht) as (Ht' & Hu' & _ & _); [apply Hu; set_solver|intros x Hx; apply Hid; set_solver|].
  assert ((send_row st e).2 = st.2 ++ [e]) as Ho by (by rewrite <- E).
  apply IH; [done|done| |done| |].
  - intros x Hx t0 E0. specialize (Hu' t0 E0). specialize (He x Hx). simpl in He. lia.
  - rewrite Ho. intros x y Hx Hy. apply Hid; set_solver.
  - rewrite Ho. intros x Hx. specialize (Hd x). set_solver.
Qed.

Lemma open_stream_tracks settings rows :
  NoDup rows → unique_ids rows →
  tracks (open_stream settings rows) ∧
  (open_stream settings rows).2 = initial_rows settings.(control_plane_events_ws_initial_limit) rows.
Proof.
  intros Hn Hid. unfold open_stream. set (l := initial_rows _ _).
  assert (∀ e, e ∈ l → e ∈ rows) as Hsub by (intros e; apply initial_rows_in).
  assert (foldl send_initial (mkCursor None ∅, []) l = foldl send_row (mkCursor None ∅, []) l) as E.
  { apply send_initials; [apply tracks_nil|apply initial_rows_sorted|by intros ????|by apply initial_rows_nodup| |].
    - intros x y Hx Hy. by apply Hid; apply Hsub.
    - intros e _. apply not_elem_of_nil. }
  split.
  - rewrite E. apply send_rows_tracks; [apply tracks_nil|apply initial_rows_sorted|by intros ????|].
    intros x y Hx Hy. by apply Hid; apply Hsub.
  - clear. assert (∀ st, (foldl send_initial st l).2 = st.2 ++ l) as H; [|apply H].
    induction l as [|e l IH]; intros st; cbn [foldl]; [by rewrite app_nil_r|]. rewrite IH. simpl. by rewrite <- app_assoc.
Qed.

Lemma page_of_rows c rows e : e ∈ page_of c rows → e ∈ rows ∧ upto c e.(se_created_at).
Proof.
  unfold page_of, due_rows. intros H%elem_of_take_sub. rewrite sorted_by_perm in H. unfold upto.
  destruct (last_created_at c) as [t|]; [|by split]. apply elem_of_filterb in H as [Ht%Z.leb_le H]. split; [done|]. by intros t0 [= <-].
Qed.

Lemma page_of_sorted c rows : StronglySorted earlier (page_of c rows).
Proof. apply StronglySorted_take, oldest_first_sorted. Qed.

Lemma poll_spec st rows :
  tracks st → unique_ids rows → (∀ e, e ∈ st.2 → e ∈ rows) →
  tracks (poll st rows) ∧ (∀ e, e ∈ (poll st rows).2 ↔ e ∈ st.2 ∨ e ∈ page_of st.1 rows) ∧ st.2 `prefix_of` (poll st rows).2.
Proof.
  intros Ht Hid Hsub. unfold poll. apply send_rows_tracks; [done|apply page_of_sorted| |].
  - intros e He. by apply (page_of_rows _ _ _ He).
  - assert (∀ e, e ∈ st.2 ++ page_of st.1 rows → e ∈ rows) as Hs.
    { intros e [He|He]%elem_of_app; [auto|]. by apply page_of_rows in He as [? _]. }
    intros x y Hx Hy. apply Hid; auto.
Qed.

(** The rows that are due and older than the cursor were sent. *)
Definition caught_up (due : stored_event → Prop) (st : ws_state) (rows : list stored_event) : Prop :=
  ∀ e t, e ∈ rows → due e → st.1.(last_created_at) = Some t → e.(se_created_at) < t → e ∈ st.2.

(** A row that is left is of the next page or after it. *)
Lemma left_is_due due st rows e :
  caught_up due st rows → e ∈ rows → due e → e ∉ st.2 → e ∈ due_rows st.1 rows.
Proof.
  intros Hc He Hd Hn. unfold due_rows. rewrite sorted_by_perm. destruct (last_created_at st.1) as [t|] eqn:E; [|done].
  apply elem_of_filterb. split; [|done]. apply Z.leb_le. destruct (Z.le_gt_cases t e.(se_created_at)); [done|].
  by destruct Hn; apply (Hc e t).
Qed.

Lemma page_before_rest c rows x y :
  x ∈ page_of c rows → y ∈ due_rows c rows → y ∉ page_of c rows → x.(se_created_at) ≤ y.(se_created_at).
Proof.
  intros Hx Hy Hn. unfold page_of in *. set (n := Z.to_nat EVENTS_PAGE_SIZE) in *.
  assert (y ∈ drop n (due_rows c rows)) as Hy'.
  { rewrite <- (take_drop n (due_rows c rows)) in Hy. apply elem_of_app in Hy as [Hy|Hy]; done. }
  pose proof (oldest_first_sorted (match last_created_at c with Some t => filterb (λ e, t <=? e.(se_created_at)) rows | None => rows end)) as Hs.
  change (StronglySorted earlier (due_rows c rows)) in Hs. rewrite <- (take_drop n (due_rows c rows)) in Hs.
  exact (StronglySorted_app_1_elem_of _ _ _ _ _ Hs Hx Hy').
Qed.

Lemma poll_caught_up due st rows :
  tracks st → unique_ids rows → (∀ e, e ∈ st.2 → e ∈ rows) → caught_up due st rows → caught_up due (poll st rows) rows.
Proof.
  intros Ht Hid Hsub Hc e t' He Hd Ht' Hlt. destruct (poll_spec st rows Ht Hid Hsub) as (Ht2 & Hin & _).
  destruct (decide (e ∈ st.2)) as [Hs|Hs]; [apply Hin; auto|].
  pose proof (left_is_due due st rows e Hc He Hd Hs) as Hdue.
  destruct (decide (e ∈ page_of st.1 rows)) as [Hp|Hp]; [apply Hin; auto|]. exfalso.
  pose proof (tr_last _ Ht2) as Hl. rewrite Ht' in Hl. destruct Hl as [(e1 & [H1|H1]%Hin & Ht1) _].
  - pose proof (tr_last _ Ht) as Hl. destruct (last_created_at st.1) as [t|] eqn:E.
    + destruct Hl as [_ Hl]. rewrite Forall_forall in Hl. specialize (Hl e1 H1).
      assert (t ≤ e.(se_created_at)); [|lia]. destruct (Z.le_gt_cases t e.(se_created_at)); [done|]. by destruct Hs; apply (Hc e t).
    + rewrite Hl in H1. by apply not_elem_of_nil in H1.
  - pose proof (page_before_rest _ _ _ _ H1 Hdue Hp). lia.
Qed.

(** No page can be filled with rows of one time. *)
Definition no_burst (rows : list stored_event) : Prop :=
  ∀ t, countZ (λ e, e.(se_created_at) =? t) rows < EVENTS_PAGE_SIZE.

Lemma poll_progress due st rows e :
  tracks st → NoDup rows → unique_ids rows → (∀ x, x ∈ st.2 → x ∈ rows) → caught_up due st rows → no_burst rows →
  e ∈ rows → due e → e ∉ st.2 → (length st.2 < length (poll st rows).2)%nat.
Proof.
  intros Ht Hn Hid Hsub Hc Hb He Hd Hs. destruct (poll_spec st rows Ht Hid Hsub) as (Ht2 & Hin & Hpre).
  destruct (decide (Forall (λ x, x ∈ st.2) (page_of st.1 rows))) as [Hall|Hsome].
  - exfalso. rewrite Forall_forall in Hall. pose proof (left_is_due due st rows e Hc He Hd Hs) as Hdue.
    assert (e ∉ page_of st.1 rows) as Hp by auto.
    assert (length (page_of st.1 rows) = Z.to_nat EVENTS_PAGE_SIZE) as Hlen.
    { unfold page_of in *. rewrite length_take. destruct (Nat.le_gt_cases (Z.to_nat EVENTS_PAGE_SIZE) (length (due_rows st.1 rows))); [lia|].
      rewrite take_ge in Hp by lia. done. }
    assert (NoDup (page_of st.1 rows)) as Hnp.
    { unfold page_of. eapply sublist_NoDup; [|apply sublist_take]. unfold due_rows. rewrite sorted_by_perm.
      case_match; [|done]. by apply NoDup_filter. }
    destruct (last_created_at st.1) as [t|] eqn:E.
    + specialize (Hb t). unfold countZ in Hb.
      assert (length (page_of st.1 rows) ≤ length (filterb (λ x, (x.(se_created_at) =? t)%Z) rows))%nat; [|lia].
      apply submseteq_length, NoDup_submseteq; [done|]. intros x Hx. apply elem_of_filterb.
      pose proof (page_of_rows _ _ _ Hx) as [Hxr Hxu]. split; [|done]. specialize (Hxu t E). apply Z.eqb_eq.
      pose proof (tr_last _ Ht) as Hl. rewrite E in Hl. destruct Hl as [_ Hl]. rewrite Forall_forall in Hl.
      specialize (Hl x (Hall x Hx)). lia.
    + pose proof (tr_last _ Ht) as Hl. rewrite E in Hl. destruct (page_of st.1 rows) as [|x l] eqn:Epg; [done|].
      assert (x ∈ st.2) as Hx by (apply Hall; set_solver). rewrite Hl in Hx. by apply not_elem_of_nil in Hx.
  - apply not_Forall_Exists, Exists_exists in Hsome as (x & Hx & Hxn); [|intros ?; apply _].
    destruct Hpre as [out Hout]. rewrite Hout, length_app. destruct out as [|y out]; [|simpl; lia].
    rewrite app_nil_r in Hout. destruct Hxn. rewrite <- Hout. apply Hin. auto.
Qed.

(** The table at a later query: rows are added, none older than those there were. *)
Definition grows (rows rows' : list stored_event) : Prop :=
  NoDup (se_id <$> rows') ∧ (∀ e, e ∈ rows → e ∈ rows') ∧
  ∀ e, e ∈ rows' → e ∉ rows → ∀ e0, e0 ∈ rows → e0.(se_created_at) ≤ e.(se_created_at).

Fixpoint growing (rows : list stored_event) (tables : list (list stored_event)) : Prop :=
  match tables with
  | [] => True
  | rows' :: tables' => grows rows rows' ∧ growing rows' tables'
  end.

Definition in_step (due : stored_event → Prop) (st : ws_state) (rows : list stored_event) : Prop :=
  tracks st ∧ (∀ e, e ∈ st.2 → e ∈ rows) ∧ caught_up due st rows.

Lemma ids_unique rows : NoDup (se_id <$> rows) → NoDup rows ∧ unique_ids rows.
Proof.
  intros Hn. split; [by apply NoDup_fmap_1 in Hn|]. intros x y Hx Hy Hxy.
  apply list_elem_of_lookup_1 in Hx as [i Hi], Hy as [j Hj].
  assert (i = j) as ->; [|congruence]. apply (NoDup_lookup (se_id <$> rows) i j x.(se_id)); [done| |]; rewrite list_lookup_fmap.
  - by rewrite Hi.
  - by rewrite Hj, Hxy.
Qed.

Lemma grow_in_step due st rows rows' : in_step due st rows → grows rows rows' → in_step due st rows'.
Proof.
  intros (Ht & Hs & Hc) (_ & Hsub & Hnew). split_and!; [done|auto|]. intros e t He Hd E Hlt.
  destruct (decide (e ∈ rows)) as [Hr|Hr]; [by apply (Hc e t)|]. exfalso.
  pose proof (tr_last _ Ht) as Hl. rewrite E in Hl. destruct Hl as [(e0 & H0 & <-) _].
  specialize (Hnew e He Hr e0 (Hs e0 H0)). lia.
Qed.

Lemma poll_in_step due st rows :
  NoDup (se_id <$> rows) → in_step due st rows → in_step due (poll st rows) rows.
Proof.
  intros [_ Hid]%ids_unique (Ht & Hs & Hc). destruct (poll_spec st rows Ht Hid Hs) as (H1 & H2 & _).
  split_and!; [done| |by apply poll_caught_up].
  intros e [He|He]%H2; [auto|]. by apply page_of_rows in He as [? _].
Qed.

Lemma polls_in_step due tables : ∀ st rows,
  in_step due st rows → growing rows tables → in_step due (foldl poll st tables) (List.last tables rows).
Proof.
  induction tables as [|rows' tables IH]; intros st rows Hi Hg; [done|]. destruct Hg as [Hg Hgs].
  assert (List.last (rows' :: tables) rows = List.last tables rows') as ->.
  { clear. revert rows rows'. induction tables as [|x l IH]; intros r r'; [done|]. change (List.last (x :: l) r = List.last (x :: l) r').
    rewrite (IH r x). destruct l; [done|]. by rewrite <- (IH r' x). }
  cbn [foldl]. apply IH; [|done]. apply poll_in_step; [apply Hg|]. by eapply grow_in_step.
Qed.

Lemma polls_finish due rows n : ∀ st,
  NoDup (se_id <$> rows) → no_burst rows → in_step due st rows → (length rows ≤ length st.2 + n)%nat →
  ∀ e, e ∈ rows → due e → e ∈ (foldl poll st (replicate n rows)).2.
Proof.
  induction n as [|n IH]; intros st Hn Hb Hi Hlen e He Hd; destruct (ids_unique rows Hn) as [Hnr Hid].
  - simpl. destruct Hi as (Ht & Hs & _). destruct (decide (e ∈ st.2)) as [|Hne]; [done|exfalso].
    assert (e :: st.2 ⊆+ rows) as H%submseteq_length; [|simpl in H; lia].
    apply NoDup_submseteq; [constructor; [done|apply Ht]|]. intros x [->|Hx]%elem_of_cons; auto.
  - cbn [replicate foldl].
    assert (in_step due (poll st rows) rows) as Hi2 by by apply poll_in_step.
    destruct (decide (e ∈ st.2)) as [Hin|Hne].
    + assert (∀ k st', tracks st' → (∀ x, x ∈ st'.2 → x ∈ rows) → e ∈ st'.2 → e ∈ (foldl poll st' (replicate k rows)).2) as Hkeep.
      { intros k. induction k as [|k IHk]; intros st' Ht' Hs' Hin'; [done|]. cbn [replicate foldl].
        destruct (poll_spec st' rows Ht' Hid Hs') as (H1 & H2 & _). apply IHk; [done| |apply H2; auto].
        intros x [Hx|Hx]%H2; [auto|]. by apply page_of_rows in Hx as [? _]. }
      apply Hkeep; [apply Hi2|apply Hi2|]. destruct Hi as (Ht & Hs & _).
      apply (poll_spec st rows Ht Hid Hs). auto.
    + apply IH; try done. destruct Hi as (Ht & Hs & Hc).
      pose proof (poll_progress due st rows e Ht Hnr Hid Hs Hc Hb He Hd Hne). lia.
Qed.

(** C36: an administrator who listens sees every event once, in order.  As long as
    the table only grows, by rows not older than those there were, what a session
    sends is rows of the table, in the order of their times, none twice; and when
    it stops growing, a poll for each row is enough to send every event that is not
    older than those the session began with, unless a whole page of two hundred
    events has one and the same time. *)
Theorem events_delivered_once settings rows tables rows' n :
  NoDup (se_id <$> rows) → growing rows (tables ++ replicate (S n) rows') →
  let sent := stream_events settings rows (tables ++ replicate (S n) rows') in
  NoDup sent ∧ StronglySorted (λ a b, a.(se_created_at) ≤ b.(se_created_at)) sent ∧ (∀ e, e ∈ sent → e ∈ rows') ∧
  (no_burst rows' → (length rows' ≤ n)%nat →
   ∀ e, e ∈ rows' → (∀ e0, e0 ∈ rows → e0.(se_created_at) ≤ e.(se_created_at)) → e ∈ sent).
Proof.
  intros Hn Hg sent. set (due := λ e, ∀ e0, e0 ∈ rows → e0.(se_created_at) ≤ e.(se_created_at)).
  assert (in_step due (open_stream settings rows) rows) as Hi.
  { destruct (ids_unique rows Hn) as [Hnr Hid]. destruct (open_stream_tracks settings rows Hnr Hid) as [Ht Ho].
    assert (∀ e, e ∈ (open_stream settings rows).2 → e ∈ rows) as Hs by (rewrite Ho; intros e; apply initial_rows_in).
    split_and!; [done|done|]. intros e t He Hd E Hlt. exfalso. pose proof (tr_last _ Ht) as Hl. rewrite E in Hl.
    destruct Hl as [(e0 & H0 & <-) _]. specialize (Hd e0 (Hs e0 H0)). lia. }
  pose proof (polls_in_step due _ _ _ Hi Hg) as (Ht & Hs & _).
  replace (List.last (tables ++ replicate (S n) rows') rows) with rows' in Hs.
  2:{ rewrite replicate_S_end, app_assoc. by rewrite last_last. }
  split_and!; [apply Ht|apply Ht|exact Hs|]. intros Hb Hlen e He Hd. unfold sent, stream_events.
  change (replicate (S n) rows') with ([rows'] ++ replicate n rows') in *. rewrite app_assoc, foldl_app in *.
  assert (growing rows (tables ++ [rows'])) as Hg'.
  { clear -Hg. revert rows Hg. induction (tables ++ [rows']) as [|x l IH]; intros rows Hg; [done|]. destruct Hg. split; auto. }
  assert (NoDup (se_id <$> rows')) as Hn'.
  { clear -Hg'. revert rows Hg'. induction tables as [|x l IH]; intros rows Hg; [apply Hg|]. destruct Hg. eauto. }
  pose proof (polls_in_step due _ _ _ Hi Hg') as Hi'. rewrite last_last in Hi'.
  apply (polls_finish due); try done. lia.
Qed.

(** ** What a session misses *)

(** The cursor only moves on, and rows before it are skipped. *)
Lemma send_rows_cursor t l : ∀ st,
  (∃ t0, st.1.(last_created_at) = Some t0 ∧ t ≤ t0) →
  (∃ t0, (foldl send_row st l).1.(last_created_at) = Some t0 ∧ t ≤ t0) ∧
  ∀ e, e.(se_created_at) < t → e ∈ (foldl send_row st l).2 → e ∈ st.2.
Proof.
  induction l as [|x l IH]; intros st Ht; [by split|]. cbn [foldl]. pose proof Ht as (t0 & E & Hle).
  assert (∃ t1, (send_row st x).1.(last_created_at) = Some t1 ∧ t ≤ t1) as Ht'.
  { unfold send_row. destruct (skip_row st.1 x); [done|]. unfold mark_sent. simpl. rewrite E.
    destruct (Z.ltb_spec t0 x.(se_created_at)); simpl; [eexists; split; [done|lia]|eauto]. }
  destruct (IH _ Ht') as [H1 H2]. split; [done|]. intros e He Hin. specialize (H2 e He Hin).
  revert H2. unfold send_row. destruct (skip_row st.1 x) eqn:Hk; [done|]. simpl.
  intros [?| ->%list_elem_of_singleton]%elem_of_app; [done|]. unfold skip_row in Hk. rewrite E in Hk.
  apply orb_false_iff in Hk as [?%Z.ltb_ge _]. lia.
Qed.

(** An event that is committed with a time before the last one that was sent, as
    those of a long transaction are, is not sent. *)
Lemma overtaken_never_sent t tables : ∀ st e,
  (∃ t0, st.1.(last_created_at) = Some t0 ∧ t ≤ t0) → e.(se_created_at) < t → e ∉ st.2 → e ∉ (foldl poll st tables).2.
Proof.
  induction tables as [|rows tables IH]; intros st e Ht He Hn; [done|]. cbn [foldl].
  destruct (send_rows_cursor t (page_of st.1 rows) st Ht) as [H1 H2]. apply IH; [done|done|]. intros Hin. by apply Hn, H2.
Qed.

(** A page of events of one time fills every page. *)
Lemma burst_page rows late t c :
  (∀ e, e ∈ rows → e.(se_created_at) = t) → Z.of_nat (length rows) = EVENTS_PAGE_SIZE →
  t < late.(se_created_at) → upto c t → page_of c (rows ++ [late]) = rows.
Proof.
  intros Ht Hlen Hlate Hc. assert (sorted_by oldest_first (rows ++ [late]) = rows ++ [late]) as Hs.
  { apply sorted_by_id, StronglySorted_snoc. split.
    - clear -Ht. induction rows as [|x l IH]; constructor; [apply IH; set_solver|]. apply Forall_forall. intros y Hy.
      unfold oldest_first. rewrite (Ht x), (Ht y) by set_solver. apply Z.ltb_irrefl.
    - apply Forall_forall. intros x Hx. unfold oldest_first. rewrite (Ht x Hx). lia. }
  assert (due_rows c (rows ++ [late]) = rows ++ [late]) as E.
  { unfold due_rows. destruct (last_created_at c) as [t0|] eqn:E; [|done]. specialize (Hc t0 E). rewrite filterb_all; [done|].
    apply Forall_app. rewrite Forall_singleton. split; [|lia]. apply Forall_forall. intros x Hx. rewrite (Ht x Hx). lia. }
  unfold page_of. rewrite E, take_app_le by lia. apply take_ge. lia.
Qed.

(** A page of events of one time stops the session: what comes after is not sent. *)
Lemma burst_stops_stream settings rows late t n :
  NoDup (se_id <$> rows) → Forall (λ e, e.(se_created_at) = t) rows → Z.of_nat (length rows) = EVENTS_PAGE_SIZE →
  t < late.(se_created_at) → late ∉ stream_events settings rows (replicate n (rows ++ [late])).
Proof.
  intros [Hn Hid]%ids_unique Ht Hlen Hlate. rewrite Forall_forall in Ht. unfold stream_events.
  assert (∀ l st, (∀ e, e ∈ l → e ∈ rows) → upto st.1 t ∧ late ∉ st.2 →
            upto (foldl send_row st l).1 t ∧ late ∉ (foldl send_row st l).2) as Hrows.
  { induction l as [|x l IH]; intros st Hl Hst; [done|]. cbn [foldl]. apply IH; [set_solver|]. destruct Hst as [Hu Hin].
    assert (x.(se_created_at) = t) as Hx by (apply Ht, Hl; set_solver).
    unfold send_row. destruct (skip_row st.1 x); [done|]. simpl. split.
    - unfold mark_sent. intros t0 E. destruct (last_created_at st.1) as [t1|] eqn:E1; [specialize (Hu t1 E1)|]; [case_match|];
        simpl in E; injection E as <-; lia.
    - intros [?| ->%list_elem_of_singleton]%elem_of_app; [done|lia]. }
  assert (∀ k st, upto st.1 t ∧ late ∉ st.2 → late ∉ (foldl poll st (replicate k (rows ++ [late]))).2) as Hpolls.
  { induction k as [|k IH]; intros st Hst; [apply Hst|]. cbn [replicate foldl]. apply IH. unfold poll.
    rewrite (burst_page rows late t) by (done || apply Hst). by apply Hrows. }
  apply Hpolls. destruct (open_stream_tracks settings rows Hn Hid) as [Htr Ho]. split.
  - intros t0 E. pose proof (tr_last _ Htr) as Hl. rewrite E in Hl. destruct Hl as [(e0 & H0 & <-) _].
    rewrite Ho in H0. rewrite (Ht e0); [lia|by eapply initial_rows_in].
  - rewrite Ho. intros Hin%initial_rows_in. specialize (Ht late Hin). lia.
Qed.

(** ** Instances *)

Definition wit_event (i : string) (t : Z) : stored_event :=
  mkStored i t (mkEvent "failover.selected" "warning" None (FailoverSelected "n1" "n2" true)).

(** The event of a cycle that began before another and was committed after it. *)
Example late_commit_lost :
  let a := wit_event "a" 5 in let b := wit_event "b" 3 in let c := wit_event "c" 6 in
  stream_events default_settings [a] [[a; b]; [a; b; c]; [a; b; c]] = [a; c].
Proof. vm_compute. reflexivity. Qed.

(** The rows of the first query come oldest first, and the old ones do not come. *)
Example stream_opens :
  initial_rows 2 [wit_event "a" 1; wit_event "b" 2; wit_event "c" 2] =
    [wit_event "c" 2; wit_event "b" 2].
Proof. vm_compute. reflexivity. Qed.

Lemma events_delivered_once_witness :
  let a := wit_event "a" 1 in let b := wit_event "b" 2 in let c := wit_event "c" 2 in
  let sent := stream_events default_settings [a] ([[a; b]] ++ replicate 4 [a; c; b]) in
  sent = [a; b; c] ∧ c ∈ sent.
Proof.
  intros a b c sent. split; [vm_compute; reflexivity|].
  apply (events_delivered_once default_settings [a] [[a; b]] [a; c; b] 3).
  - apply (bool_decide_unpack _). done.
  - assert (∀ r, NoDup (se_id <$> r) → grows r r) as Hr.
    { intros r H. split; [done|]. split; [done|]. intros e He Hne. done. }
    assert (NoDup (se_id <$> [a; c; b])) as Hn by (apply (bool_decide_unpack _); done).
    simpl. split; [|split; [|auto]]; (split; [apply (bool_decide_unpack _); done|]); (split; [set_solver|]);
      intros e He Hne e0 H0; set_unfold; destruct_or?; subst; simpl; try lia; tauto.
  - intros t. pose proof (countZ_bounds (λ e, e.(se_created_at) =? t) [a; c; b]) as H. unfold EVENTS_PAGE_SIZE. simpl in H. lia.
  - simpl. lia.
  - set_solver.
  - intros e0 ->%list_elem_of_singleton. done.
Defined.
