(* ===== verification/Governance.v ===== *)
(** * Resources of the control plane

    The requests of [api/v1/control_plane.py] on address pools, reserved ports and
    bandwidth policies, with the checks of their bodies ([schemas/control_plane.py])
    and the constraints of the tables ([014_control_plane_resources.py]); the gate
    of the operations that need the nodes, and the request that runs a cycle.  The
    JSON of a pool is left out. *)

From S2P Require Import Prelude PyFloat PyStr PyVal Settings Models Node Runtime ControlPlaneDb Rebalance Automation DockerText Bandwidth RateLimit Download.
Open Scope Z_scope.

(** ** Tables *)

Record pool_row : Type := mkPoolRow { po_pool : IpPool.t; po_gateway : option string; po_created_at : Z }.

Module PortAllocation.
Record t : Type := mk {
  id : string; server_id : string; port : Z; protocol : string; purpose : string; device_id : option string;
  is_reserved : bool; created_at : Z
}.
End PortAllocation.

(** Of servers and devices the identifiers. *)
Record governance : Type := mkGovernance {
  gv_servers : list string;
  gv_devices : list string;
  gv_plans : list Plan.t;
  gv_pools : list pool_row;
  gv_ports : list PortAllocation.t;
  gv_policies : list PlanBandwidthPolicy.t
}.

Definition set_pools (l : list pool_row) (g : governance) : governance :=
  mkGovernance g.(gv_servers) g.(gv_devices) g.(gv_plans) l g.(gv_ports) g.(gv_policies).
Definition set_ports (l : list PortAllocation.t) (g : governance) : governance :=
  mkGovernance g.(gv_servers) g.(gv_devices) g.(gv_plans) g.(gv_pools) l g.(gv_policies).
Definition set_policies (l : list PlanBandwidthPolicy.t) (g : governance) : governance :=
  mkGovernance g.(gv_servers) g.(gv_devices) g.(gv_plans) g.(gv_pools) g.(gv_ports) l.

Definition bad_body : exn := HTTPException 422 "VALIDATION".

Definition valid (b : bool) : res unit := if b then Ok tt else Err bad_body.

(** A column that may not be null. *)
Definition not_null {A} (u : option (option A)) (old : A) : res A :=
  match u with
  | None => Ok old
  | Some None => Err (IntegrityError "NOT NULL")
  | Some (Some a) => Ok a
  end.

Definition optional_ge0 (u : option (option Z)) : bool :=
  match u with Some (Some z) => 0 <=? z | _ => true end.

(** ** Address pools *)

Record IpPoolCreate : Type := mkPoolCreate {
  pc_server : string; pc_cidr : string; pc_gateway : option string; pc_total : Z; pc_used : Z; pc_active : bool
}.

Definition pool_key (r : pool_row) : string * string := (r.(po_pool).(IpPool.server_id), r.(po_pool).(IpPool.cidr)).

(** The constraints of the table: its key and [uq_ip_pools_server_cidr]. *)
Definition create_ip_pool (now : Z) (new_id : string) (b : IpPoolCreate) (g : governance) : res (governance * pool_row) :=
  _ ← valid ((0 <=? b.(pc_total)) && (0 <=? b.(pc_used)));
  if negb (str_in b.(pc_server) g.(gv_servers)) then Err not_found_404
  else
    let row := mkPoolRow (IpPool.mk new_id b.(pc_server) b.(pc_cidr) b.(pc_total) b.(pc_used) b.(pc_active)) b.(pc_gateway) now in
    if existsb (λ r, String.eqb r.(po_pool).(IpPool.id) new_id || bool_decide (pool_key r = pool_key row)) g.(gv_pools)
    then Err (HTTPException 409 "ip pool already exists")
    else Ok (set_pools (g.(gv_pools) ++ [row]) g, row).

Record IpPoolUpdate : Type := mkPoolUpdate {
  pu_gateway : option (option string); pu_total : option (option Z); pu_used : option (option Z); pu_active : option (option bool)
}.

Definition change_pool (b : IpPoolUpdate) (r : pool_row) : res pool_row :=
  total ← not_null b.(pu_total) r.(po_pool).(IpPool.total_ips);
  used ← not_null b.(pu_used) r.(po_pool).(IpPool.used_ips);
  active ← not_null b.(pu_active) r.(po_pool).(IpPool.is_active);
  Ok (mkPoolRow (IpPool.mk r.(po_pool).(IpPool.id) r.(po_pool).(IpPool.server_id) r.(po_pool).(IpPool.cidr) total used active)
        (default r.(po_gateway) b.(pu_gateway)) r.(po_created_at)).

Definition update_ip_pool (pool_id : string) (b : IpPoolUpdate) (g : governance) : res (governance * pool_row) :=
  _ ← valid (optional_ge0 b.(pu_total) && optional_ge0 b.(pu_used));
  match List.find (λ r, String.eqb r.(po_pool).(IpPool.id) pool_id) g.(gv_pools) with
  | None => Err not_found_404
  | Some r =>
      r' ← change_pool b r;
      Ok (set_pools ((λ x, if String.eqb x.(po_pool).(IpPool.id) pool_id then r' else x) <$> g.(gv_pools)) g, r')
  end.

(** A page and the number of all rows. *)
Definition page {A} (limit offset : Z) (l : list A) : list A * Z :=
  (take (Z.to_nat limit) (drop (Z.to_nat offset) l), Z.of_nat (length l)).

Definition of_server (server_id : option string) (s : string) : bool :=
  match server_id with Some i => negb (str_truthy i) || String.eqb s i | None => true end.

Definition list_ip_pools (limit offset : Z) (server_id : option string) (g : governance) : list pool_row * Z :=
  page limit offset (sorted_by (λ a b, b.(po_created_at) <? a.(po_created_at))
    (filterb (λ r, of_server server_id r.(po_pool).(IpPool.server_id)) g.(gv_pools))).

(** ** Ports *)

Record PortAllocationCreate : Type := mkPortCreate {
  qc_server : string; qc_port : Z; qc_protocol : string; qc_purpose : string; qc_device : option string; qc_reserved : bool
}.

Definition port_key (p : PortAllocation.t) : string * Z * string :=
  (p.(PortAllocation.server_id), p.(PortAllocation.port), p.(PortAllocation.protocol)).

Definition device_there (d : option string) (g : governance) : bool :=
  match d with Some i => str_in i g.(gv_devices) | None => true end.

(** Each constraint of the table gives the same answer: the port is taken, or
    there is no such device. *)
Definition create_port_allocation (now : Z) (new_id : string) (b : PortAllocationCreate) (g : governance)
    : res (governance * PortAllocation.t) :=
  _ ← valid ((1 <=? b.(qc_port)) && (b.(qc_port) <=? 65535));
  if negb (str_in b.(qc_server) g.(gv_servers)) then Err not_found_404
  else
    let p := PortAllocation.mk new_id b.(qc_server) b.(qc_port) b.(qc_protocol) b.(qc_purpose) b.(qc_device) b.(qc_reserved) now in
    if existsb (λ q, String.eqb q.(PortAllocation.id) new_id || bool_decide (port_key q = port_key p)) g.(gv_ports) || negb (device_there b.(qc_device) g)
    then Err (HTTPException 409 "port/protocol already allocated on this server")
    else Ok (set_ports (g.(gv_ports) ++ [p]) g, p).

Record PortAllocationUpdate : Type := mkPortUpdate {
  qu_purpose : option (option string); qu_device : option (option string); qu_reserved : option (option bool)
}.

Definition update_port_allocation (allocation_id : string) (b : PortAllocationUpdate) (g : governance)
    : res (governance * PortAllocation.t) :=
  match List.find (λ p, String.eqb p.(PortAllocation.id) allocation_id) g.(gv_ports) with
  | None => Err not_found_404
  | Some p =>
      purpose ← not_null b.(qu_purpose) p.(PortAllocation.purpose);
      reserved ← not_null b.(qu_reserved) p.(PortAllocation.is_reserved);
      let device := default p.(PortAllocation.device_id) b.(qu_device) in
      if negb (device_there device g) then Err (IntegrityError "port_allocations.device_id")
      else
        let p' := PortAllocation.mk p.(PortAllocation.id) p.(PortAllocation.server_id) p.(PortAllocation.port)
                    p.(PortAllocation.protocol) purpose device reserved p.(PortAllocation.created_at) in
        Ok (set_ports ((λ x, if String.eqb x.(PortAllocation.id) allocation_id then p' else x) <$> g.(gv_ports)) g, p')
  end.

Definition list_port_allocations (limit offset : Z) (server_id : option string) (g : governance) : list PortAllocation.t * Z :=
  page limit offset (sorted_by (λ a b, a.(PortAllocation.port) <? b.(PortAllocation.port))
    (filterb (λ p, of_server server_id p.(PortAllocation.server_id)) g.(gv_ports))).

(** ** Bandwidth policies *)

Record PlanBandwidthPolicyUpsert : Type := mkPolicyUpsert {
  bu_rate : Z; bu_ceil : option Z; bu_burst : Z; bu_priority : Z; bu_enabled : bool
}.

Definition policy_body_ok (b : PlanBandwidthPolicyUpsert) : bool :=
  (1 <=? b.(bu_rate)) && (b.(bu_rate) <=? 100000) &&
  match b.(bu_ceil) with Some c => (1 <=? c) && (c <=? 100000) | None => true end &&
  (1 <=? b.(bu_burst)) && (b.(bu_burst) <=? 65535) && (0 <=? b.(bu_priority)) && (b.(bu_priority) <=? 7).

Definition upsert_throttling_policy (now : Z) (new_id plan_id : string) (b : PlanBandwidthPolicyUpsert) (g : governance)
    : res (governance * PlanBandwidthPolicy.t) :=
  _ ← valid (policy_body_ok b);
  if match b.(bu_ceil) with Some c => c <? b.(bu_rate) | None => false end
  then Err (HTTPException 400 "ceil_mbps must be >= rate_mbps")
  else if negb (existsb (λ p, String.eqb p.(Plan.id) plan_id) g.(gv_plans)) then Err not_found_404
  else
    let row i created := PlanBandwidthPolicy.mk i plan_id b.(bu_rate) b.(bu_ceil) b.(bu_burst) b.(bu_priority) b.(bu_enabled) created in
    match List.find (λ p, String.eqb p.(PlanBandwidthPolicy.plan_id) plan_id) g.(gv_policies) with
    | None => Ok (set_policies (g.(gv_policies) ++ [row new_id now]) g, row new_id now)
    | Some old =>
        let p := row old.(PlanBandwidthPolicy.id) old.(PlanBandwidthPolicy.created_at) in
        Ok (set_policies ((λ x, if String.eqb x.(PlanBandwidthPolicy.plan_id) plan_id then p else x) <$> g.(gv_policies)) g, p)
    end.

(** The policies with the names of their plans, by name and then by age. *)
Definition list_plan_bandwidth_policies (g : governance) : list (PlanBandwidthPolicy.t * string) :=
  let rows := p ← g.(gv_policies);
              plan ← filterb (λ q, String.eqb q.(Plan.id) p.(PlanBandwidthPolicy.plan_id)) g.(gv_plans);
              [(p, plan.(Plan.name))] in
  (λ r, (r.1, or_str r.2 r.1.(PlanBandwidthPolicy.plan_id))) <$>
    sorted_by (λ a b, str_ltb a.2 b.2 || String.eqb a.2 b.2 &&
                      (a.1.(PlanBandwidthPolicy.created_at) <? b.1.(PlanBandwidthPolicy.created_at))) rows.

(** ** What needs the nodes *)

Definition _require_runtime_write_ops (settings : Settings) : res unit :=
  if String.eqb settings.(node_mode) "agent" || String.eqb settings.(node_discovery) "agent"
  then Err (HTTPException 409 "AGENT_MODE_UNSUPPORTED") else Ok tt.

Section nodes.
Context {W : Type} `{NodeRuntimeAdapter W} (settings : Settings).

(** What the body gives, or the settings. *)
Definition cycle_of (execute : option bool) (max_executions batch_size : option Z) : cycle_options :=
  let or_setting o s := match o with Some z => if z =? 0 then s else z | None => s end in
  mkCycleOptions settings.(control_plane_rebalance_high_watermark) settings.(control_plane_rebalance_target_watermark)
    settings.(control_plane_rebalance_max_moves_per_node) settings.(control_plane_unhealthy_health_threshold)
    (default settings.(control_plane_rebalance_execute_enabled) execute)
    (or_setting batch_size settings.(control_plane_rebalance_batch_size))
    (or_setting max_executions settings.(control_plane_rebalance_max_executions_per_cycle))
    settings.(control_plane_rebalance_stop_on_error) settings.(control_plane_rebalance_rollback_on_error) true true.

Definition run_automation_now (now : Z) (execute : option bool) (max_executions batch_size : option Z)
    (topo : ClusterTopology) (w : W) (d : db) : res (W * db * AutomationRunOut) :=
  _ ← _require_runtime_write_ops settings;
  _ ← valid (match max_executions with Some z => (1 <=? z) && (z <=? 2000) | None => true end &&
             match batch_size with Some z => (1 <=? z) && (z <=? 500) | None => true end);
  run_automation_cycle settings now w d topo (cycle_of execute max_executions batch_size).

(** A plan that cannot be made is a bad request. *)
Definition rebalance_plan_request (now : Z) (topo : ClusterTopology) (b : RebalancePlanRequest) (d : db) : res (db * RebalancePlanOut) :=
  match plan_rebalance settings now d topo b with
  | Err (ValueError m) => Err (HTTPException 400 m)
  | r => r
  end.
End nodes.

(** ** The tables stay whole *)

Inductive governance_request : Type :=
| CreatePool (new_id : string) (b : IpPoolCreate)
| UpdatePool (pool_id : string) (b : IpPoolUpdate)
| CreatePort (new_id : string) (b : PortAllocationCreate)
| UpdatePort (allocation_id : string) (b : PortAllocationUpdate)
| UpsertPolicy (new_id plan_id : string) (b : PlanBandwidthPolicyUpsert).

Definition govern (now : Z) (r : governance_request) (g : governance) : res governance :=
  match r with
  | CreatePool i b => fst <$> create_ip_pool now i b g
  | UpdatePool i b => fst <$> update_ip_pool i b g
  | CreatePort i b => fst <$> create_port_allocation now i b g
  | UpdatePort i b => fst <$> update_port_allocation i b g
  | UpsertPolicy i plan b => fst <$> upsert_throttling_policy now i plan b g
  end.

(** A request that raises is rolled back. *)
Fixpoint govern_all (reqs : list (Z * governance_request)) (g : governance) : governance :=
  match reqs with
  | [] => g
  | (now, r) :: reqs' => govern_all reqs' (match govern now r g with Ok g' => g' | Err _ => g end)
  end.

Definition pool_ok (g : governance) (r : pool_row) : Prop :=
  r.(po_pool).(IpPool.server_id) ∈ g.(gv_servers) ∧ 0 ≤ r.(po_pool).(IpPool.total_ips) ∧ 0 ≤ r.(po_pool).(IpPool.used_ips).

Definition port_ok (g : governance) (p : PortAllocation.t) : Prop :=
  p.(PortAllocation.server_id) ∈ g.(gv_servers) ∧ 1 ≤ p.(PortAllocation.port) ≤ 65535 ∧
  ∀ d, p.(PortAllocation.device_id) = Some d → d ∈ g.(gv_devices).

Definition policy_ok (g : governance) (p : PlanBandwidthPolicy.t) : Prop :=
  p.(PlanBandwidthPolicy.plan_id) ∈ Plan.id <$> g.(gv_plans) ∧
  1 ≤ p.(PlanBandwidthPolicy.rate_mbps) ≤ default p.(PlanBandwidthPolicy.rate_mbps) p.(PlanBandwidthPolicy.ceil_mbps) ≤ 100000 ∧
  1 ≤ p.(PlanBandwidthPolicy.burst_kb) ≤ 65535 ∧ 0 ≤ p.(PlanBandwidthPolicy.priority) ≤ 7.

(** Keys are unique, rows refer to rows there are, and numbers are in range. *)
Record governance_whole (g : governance) : Prop := {
  gw_pool_ids : NoDup ((λ r, r.(po_pool).(IpPool.id)) <$> g.(gv_pools));
  gw_pool_keys : NoDup (pool_key <$> g.(gv_pools));
  gw_pools : Forall (pool_ok g) g.(gv_pools);
  gw_port_ids : NoDup (PortAllocation.id <$> g.(gv_ports));
  gw_port_keys : NoDup (port_key <$> g.(gv_ports));
  gw_ports : Forall (port_ok g) g.(gv_ports);
  gw_policy_plans : NoDup (PlanBandwidthPolicy.plan_id <$> g.(gv_policies));
  gw_policies : Forall (policy_ok g) g.(gv_policies)
}.

Section keyed.
Context {A K : Type} `{EqDecision K} (id : A → string) (key : A → K) (P : A → Prop).

(** A row with a new identifier and a new key. *)
Lemma keyed_add (l : list A) a :
  NoDup (id <$> l) → NoDup (key <$> l) → Forall P l → P a →
  existsb (λ x, String.eqb (id x) (id a) || bool_decide (key x = key a)) l = false →
  NoDup (id <$> l ++ [a]) ∧ NoDup (key <$> l ++ [a]) ∧ Forall P (l ++ [a]).
Proof.
  intros Hi Hk HP Ha Hn.
  assert (∀ x, x ∈ l → id x ≠ id a ∧ key x ≠ key a) as Hx.
  { intros x Hx. rewrite list_elem_of_In in Hx.
    assert (¬ (String.eqb (id x) (id a) || bool_decide (key x = key a) = true)) as H.
    { intros H. assert (existsb (λ x, String.eqb (id x) (id a) || bool_decide (key x = key a)) l = true); [|congruence].
      apply existsb_exists. by exists x. }
    rewrite orb_true_iff, String.eqb_eq, bool_decide_eq_true in H. tauto. }
  rewrite !fmap_app. split_and!.
  - apply NoDup_app. split_and!; [done| |apply NoDup_singleton]. simpl. intros k (x & -> & Hin)%list_elem_of_fmap ?%list_elem_of_singleton.
    by destruct (Hx x Hin).
  - apply NoDup_app. split_and!; [done| |apply NoDup_singleton]. simpl. intros k (x & -> & Hin)%list_elem_of_fmap ?%list_elem_of_singleton.
    by destruct (Hx x Hin).
  - apply Forall_app. split; [done|]. by apply Forall_singleton.
Qed.

(** The row with an identifier is replaced by one with its identifier and key. *)
Lemma keyed_replace (l : list A) i a a' :
  NoDup (id <$> l) → NoDup (key <$> l) → Forall P l → P a' →
  List.find (λ x, String.eqb (id x) i) l = Some a → id a' = id a → key a' = key a →
  let l' := (λ x, if String.eqb (id x) i then a' else x) <$> l in
  NoDup (id <$> l') ∧ NoDup (key <$> l') ∧ Forall P l'.
Proof.
  intros Hi Hk HP Ha Hf Hid Hkey l'. pose proof (find_some _ _ Hf) as [Hin Heq%String.eqb_eq]. apply list_elem_of_In in Hin.
  assert (∀ x, x ∈ l → String.eqb (id x) i = true → x = a) as Huniq.
  { intros x Hx Hxi%String.eqb_eq. apply list_elem_of_lookup_1 in Hx as [n Hn], Hin as [m Hm].
    assert (n = m) as ->; [|congruence]. apply (NoDup_lookup (id <$> l) n m (id x)); [done| |]; rewrite list_lookup_fmap.
    - by rewrite Hn.
    - rewrite Hm. simpl. congruence. }
  assert (id <$> l' = id <$> l) as ->.
  { unfold l'. rewrite <- list_fmap_compose. apply list_fmap_ext. intros n x Hx. simpl. case_match; [|done].
    rewrite Hid. f_equal. symmetry. apply Huniq; [by eapply list_elem_of_lookup_2|done]. }
  assert (key <$> l' = key <$> l) as ->.
  { unfold l'. rewrite <- list_fmap_compose. apply list_fmap_ext. intros n x Hx. simpl. case_match; [|done].
    rewrite Hkey. f_equal. symmetry. apply Huniq; [by eapply list_elem_of_lookup_2|done]. }
  split_and!; [done|done|]. apply Forall_fmap. eapply Forall_impl; [exact HP|]. intros x Hx. simpl. by case_match.
Qed.
End keyed.

Lemma create_pool_whole now i b g g' r :
  governance_whole g → create_ip_pool now i b g = Ok (g', r) → governance_whole g'.
Proof.
  intros []. unfold create_ip_pool, valid. destruct (_ && _) eqn:Hb; [|done]. simpl. bools.
  destruct (str_in _ _) eqn:Hs; [|done]. simpl. destruct (existsb _ _) eqn:He; [done|]. intros [= <- <-].
  set (row := mkPoolRow _ _ _) in *.
  destruct (keyed_add (λ r, r.(po_pool).(IpPool.id)) pool_key (pool_ok g) g.(gv_pools) row) as (H1 & H2 & H3); [done..| |exact He|by split].
  split_and!; [by apply str_in_true|simpl; lia..].
Qed.

Lemma not_null_ge0 u old z : optional_ge0 u = true → 0 ≤ old → not_null u old = Ok z → 0 ≤ z.
Proof. destruct u as [[v|]|]; simpl; try done; [intros ?%Z.leb_le ? [= <-]|intros _ ? [= <-]]; done. Qed.

Lemma update_pool_whole i b g g' r :
  governance_whole g → update_ip_pool i b g = Ok (g', r) → governance_whole g'.
Proof.
  intros []. unfold update_ip_pool, valid. destruct (_ && _) eqn:Hb; [|done]. simpl. bools.
  destruct (List.find _ _) as [a|] eqn:Hf; [|done]. intros (a' & Ha & Heq)%res_bind_ok. injection Heq as <- <-.
  unfold change_pool in Ha. apply res_bind_ok in Ha as (total & Ht & Ha). apply res_bind_ok in Ha as (used & Hu & Ha).
  apply res_bind_ok in Ha as (active & _ & [= <-]).
  pose proof (find_some _ _ Hf) as [Hin%list_elem_of_In _].
  assert (pool_ok g a) as (Hs & Hp & Hq) by (by eapply Forall_forall in gw_pools0).
  set (row := mkPoolRow _ _ _) in *.
  destruct (keyed_replace (λ r, r.(po_pool).(IpPool.id)) pool_key (pool_ok g) g.(gv_pools) i a row) as (H1 & H2 & H3); [done..| |done|done|done|by split].
  split_and!; [done|by eapply not_null_ge0 in Ht|by eapply not_null_ge0 in Hu].
Qed.

Lemma device_there_ok d g : device_there d g = true → ∀ i, d = Some i → i ∈ g.(gv_devices).
Proof. intros H i ->. by apply str_in_true. Qed.

Lemma create_port_whole now i b g g' r :
  governance_whole g → create_port_allocation now i b g = Ok (g', r) → governance_whole g'.
Proof.
  intros []. unfold create_port_allocation, valid. destruct (_ && _) eqn:Hb; [|done]. simpl. bools.
  destruct (str_in _ _) eqn:Hs; [|done]. simpl. destruct (_ || _) eqn:He; [done|]. intros [= <- <-].
  apply orb_false_iff in He as [He Hd%negb_false_iff]. set (row := PortAllocation.mk _ _ _ _ _ _ _ _) in *.
  destruct (keyed_add PortAllocation.id port_key (port_ok g) g.(gv_ports) row) as (H1 & H2 & H3); [done..| |exact He|by split].
  split_and!; [by apply str_in_true|simpl; lia..|by apply device_there_ok].
Qed.

Lemma update_port_whole i b g g' r :
  governance_whole g → update_port_allocation i b g = Ok (g', r) → governance_whole g'.
Proof.
  intros []. unfold update_port_allocation. destruct (List.find _ _) as [a|] eqn:Hf; [|done].
  intros (purpose & _ & Ha)%res_bind_ok. apply res_bind_ok in Ha as (reserved & _ & Ha).
  destruct (device_there _ _) eqn:Hd; [|done]. injection Ha as <- <-.
  pose proof (find_some _ _ Hf) as [Hin%list_elem_of_In _].
  assert (port_ok g a) as (Hs & Hp & _) by (by eapply Forall_forall in gw_ports0).
  set (row := PortAllocation.mk _ _ _ _ _ _ _ _) in *.
  destruct (keyed_replace PortAllocation.id port_key (port_ok g) g.(gv_ports) i a row) as (H1 & H2 & H3); [done..| |done|done|done|by split].
  split_and!; [done|apply Hp..|by apply device_there_ok].
Qed.

Lemma upsert_policy_whole now i plan b g g' r :
  governance_whole g → upsert_throttling_policy now i plan b g = Ok (g', r) → governance_whole g'.
Proof.
  intros []. unfold upsert_throttling_policy, valid. destruct (policy_body_ok b) eqn:Hb; [|done]. simpl.
  destruct (match b.(bu_ceil) with Some c => _ | None => _ end) eqn:Hc; [done|].
  destruct (existsb _ _) eqn:He; [|done]. simpl.
  assert (∀ j created, policy_ok g (PlanBandwidthPolicy.mk j plan b.(bu_rate) b.(bu_ceil) b.(bu_burst) b.(bu_priority) b.(bu_enabled) created)) as Hok.
  { intros j created. unfold policy_body_ok in Hb. bools. apply existsb_exists in He as (p & Hp & Heq%String.eqb_eq).
    apply list_elem_of_In in Hp. split; simpl.
    - apply list_elem_of_fmap. by exists p.
    - destruct (bu_ceil b) as [c|]; simpl; [bools; apply Z.ltb_ge in Hc|]; lia. }
  destruct (List.find _ _) as [old|] eqn:Hf; intros [= <- <-]; (split; try done; simpl).
  - rewrite <- list_fmap_compose. erewrite list_fmap_ext; [exact gw_policy_plans0|]. intros k x Hx. simpl.
    destruct (String.eqb_spec x.(PlanBandwidthPolicy.plan_id) plan) as [E|E]; [by rewrite E|done].
  - apply Forall_fmap. eapply Forall_impl; [exact gw_policies0|]. intros x Hx. simpl.
    destruct (String.eqb x.(PlanBandwidthPolicy.plan_id) plan); [apply Hok|done].
  - rewrite fmap_app. apply NoDup_app. split_and!; [done| |apply NoDup_singleton]. simpl.
    intros k (x & -> & Hin)%list_elem_of_fmap Hk%list_elem_of_singleton. rewrite list_elem_of_In in Hin.
    pose proof (find_none _ _ Hf x Hin) as Hn. simpl in Hn. by rewrite Hk, String.eqb_refl in Hn.
  - apply Forall_app. split; [done|]. apply Forall_singleton, Hok.
Qed.

Lemma govern_whole now r g g' : governance_whole g → govern now r g = Ok g' → governance_whole g'.
Proof.
  intros Hg. destruct r; simpl.
  - destruct (create_ip_pool _ _ _ _) as [[? ?]|] eqn:E; intros [= <-]; by eapply create_pool_whole.
  - destruct (update_ip_pool _ _ _) as [[? ?]|] eqn:E; intros [= <-]; by eapply update_pool_whole.
  - destruct (create_port_allocation _ _ _ _) as [[? ?]|] eqn:E; intros [= <-]; by eapply create_port_whole.
  - destruct (update_port_allocation _ _ _) as [[? ?]|] eqn:E; intros [= <-]; by eapply update_port_whole.
  - destruct (upsert_throttling_policy _ _ _ _ _) as [[? ?]|] eqn:E; intros [= <-]; by eapply upsert_policy_whole.
Qed.

Lemma govern_all_whole reqs : ∀ g, governance_whole g → governance_whole (govern_all reqs g).
Proof.
  induction reqs as [|[now r] reqs IH]; intros g Hg; [done|]. simpl. apply IH.
  destruct (govern now r g) as [g'|] eqn:E; [by eapply govern_whole|done].
Qed.

(** What the commands of the nodes make of a policy within its ranges: its rate,
    its ceiling or the rate, and its priority, where zero becomes three. *)
Lemma policy_shape_of_ok g p :
  policy_ok g p →
  policy_shape (policy_payload p) =
    Ok (p.(PlanBandwidthPolicy.rate_mbps), default p.(PlanBandwidthPolicy.rate_mbps) p.(PlanBandwidthPolicy.ceil_mbps),
        if p.(PlanBandwidthPolicy.priority) =? 0 then 3 else p.(PlanBandwidthPolicy.priority)).
Proof.
  intros (_ & Hr & _ & Hp). destruct p as [i plan rate ceil burst prio en created]; simpl in *.
  unfold policy_shape, policy_payload, _sanitize_mbit, getv. simpl. unfold int_of, v_or. simpl.
  destruct (Z.eqb_spec prio 0) as [->|Hne]; simpl.
  - destruct ceil as [c|]; simpl in *; [replace (c =? 0) with false by lia|replace (rate =? 0) with false by lia]; simpl; repeat f_equal; lia.
  - destruct ceil as [c|]; simpl in *; [replace (c =? 0) with false by lia|replace (rate =? 0) with false by lia]; simpl; repeat f_equal; lia.
Qed.


(** ** Instances *)

(** The burst of a policy is stored and shown, and no command has it. *)
Lemma burst_ignored p burst :
  policy_shape (policy_payload (PlanBandwidthPolicy.mk p.(PlanBandwidthPolicy.id) p.(PlanBandwidthPolicy.plan_id)
    p.(PlanBandwidthPolicy.rate_mbps) p.(PlanBandwidthPolicy.ceil_mbps) burst p.(PlanBandwidthPolicy.priority)
    p.(PlanBandwidthPolicy.enabled) p.(PlanBandwidthPolicy.created_at))) = policy_shape (policy_payload p).
Proof. done. Qed.

Definition wit_governance : governance :=
  mkGovernance ["s1"] ["d1"] [Plan.mk "p1" "basic" 30 500 "USD"] [] [] [].

Definition wit_requests : list (Z * governance_request) :=
  [(1, CreatePool "a" (mkPoolCreate "s1" "10.8.1.0/24" None 254 0 true));
   (2, CreatePool "b" (mkPoolCreate "s1" "10.8.1.0/24" None 254 0 true));
   (3, CreatePort "q" (mkPortCreate "s1" 47604 "udp" "peer" None true));
   (4, UpdatePort "q" (mkPortUpdate None (Some (Some "d1")) None));
   (5, UpsertPolicy "u" "p1" (mkPolicyUpsert 50 None 256 0 true));
   (6, UpsertPolicy "v" "p1" (mkPolicyUpsert 60 (Some 80) 256 0 true))].

(** A second pool of the network is refused, a second policy of the plan replaces
    the first and keeps its identifier. *)
Example governed :
  let g := govern_all wit_requests wit_governance in
  (λ r, r.(po_pool).(IpPool.id)) <$> g.(gv_pools) = ["a"] ∧ PortAllocation.device_id <$> g.(gv_ports) = [Some "d1"] ∧
  (λ p, (p.(PlanBandwidthPolicy.id), p.(PlanBandwidthPolicy.rate_mbps), p.(PlanBandwidthPolicy.priority))) <$> g.(gv_policies) = [("u", 60, 0)].
Proof. vm_compute. repeat split. Qed.

(** A reservation for a device there is not says that the port is taken; the same
    change of a port that is reserved is not caught. *)
Example no_such_device :
  (fst <$> create_port_allocation 1 "q" (mkPortCreate "s1" 1000 "udp" "peer" (Some "d9") true) wit_governance)
    = Err (HTTPException 409 "port/protocol already allocated on this server") ∧
  govern 7 (UpdatePort "q" (mkPortUpdate None (Some (Some "d9")) None)) (govern_all wit_requests wit_governance)
    = Err (IntegrityError "port_allocations.device_id").
Proof. vm_compute. split; reflexivity. Qed.

(** A pool is neither a network nor apart from the others, and may be overfull. *)
Example pool_is_any_text :
  is_ok (govern 1 (CreatePool "c" (mkPoolCreate "s1" "not a network" None 1 9 true)) wit_governance) = true ∧
  is_ok (govern 8 (CreatePool "c" (mkPoolCreate "s1" "10.8.0.0/16" None 1 0 true)) (govern_all wit_requests wit_governance)) = true.
Proof. vm_compute. split; reflexivity. Qed.

