(* ===== verification/Risk.v ===== *)
(** * Risk scores of users

    The signals of abuse ([services/abuse_detection_service.py],
    [api/v1/admin_abuse.py]) and the security and anomaly metrics of the control
    plane ([services/control_plane_service.py]).  [math.exp] is an argument; the
    order in which a set of users is gone through is another. *)

From S2P Require Import Prelude PyFloat PyStr PyVal Settings Models Node Runtime ControlPlaneDb RateLimit DeviceTelemetry Issue Download UsersApi EventStream.
Open Scope Z_scope.

(** ** Robust scores *)

Definition of_nat (n : nat) : float := of_Z (Z.of_nat n).

Definition _median (values : list float) : float :=
  let ordered := sorted_by flt values in
  let n := length ordered in
  let mid := Nat.div2 n in
  if (n =? 0)%nat then f0
  else if Nat.odd n then nth mid ordered f0
  else fdiv (fadd (nth (mid - 1) ordered f0) (nth mid ordered f0)) (of_Z 2).

(** [x ** 2] *)
Definition fsquare (x : float) : float := fmul x x.

Definition _std (values : list float) (mean : float) : float :=
  match values with
  | [] => f0
  | _ => fsqrt (fdiv (sumF ((λ v, fsquare (fsub v mean)) <$> values)) (of_nat (length values)))
  end.

Definition _positive_robust_z (value : float) (series : list float) : float :=
  match series with
  | [] => f0
  | _ =>
      let med := _median series in
      let mad := _median ((λ v, SFabs (fsub v med)) <$> series) in
      let scale := fmul (lit 14826 4) mad in
      let '(center, scale) :=
        if fle scale (lit 1 9) then
          let mean := fdiv (sumF series) (of_nat (length series)) in
          let std := _std series mean in
          (mean, if fgt std (lit 1 9) then std else f1)
        else (med, scale) in
      fmax f0 (fdiv (fsub value center) scale)
  end.

(** The elements in the order of their first occurrence: the keys of a dict. *)
Definition firsts {A} `{EqDecision A} (l : list A) : list A :=
  foldl (λ acc x, if bool_decide (x ∈ acc) then acc else acc ++ [x]) [] l.

(** Live devices, and the keys more than one user has. *)
Definition live (d : Device.t) : bool := is_none d.(Device.revoked_at).

Definition devices_of (uid : Z) (ds : list Device.t) : list Device.t := filterb (λ d, d.(Device.user_id) =? uid) ds.

Definition users_of_key (k : string) (ds : list Device.t) : list Z :=
  firsts (Device.user_id <$> filterb (λ d, String.eqb d.(Device.public_key) k) ds).

Definition reused (k : string) (ds : list Device.t) : bool := (1 <? length (users_of_key k ds))%nat.

Definition key_reuse_by_user (uid : Z) (ds : list Device.t) : Z :=
  countZ (λ k, reused k ds) (firsts (Device.public_key <$> devices_of uid ds)).

Definition issued_since (t : Z) (d : Device.t) : bool := t <=? d.(Device.issued_at).

(** ** Signals of abuse *)

Module AbuseSignal.
Record t : Type := mk {
  id : string; user_id : Z; signal_type : string; severity : string; score : float; reasons : list string;
  suggested_action : string; created_at : Z; resolved_at : option Z; resolved_by : option string
}.
End AbuseSignal.

(** Rows with the time they were created at. *)
Record risk_db : Type := mkRiskDb {
  rk_devices : list Device.t;
  rk_subscriptions : list Subscription.t;
  rk_payments : list (Payment.t * Z);
  rk_referrals : list (Referral.t * Z);
  rk_signals : list AbuseSignal.t
}.

Definition SIGNAL_WEIGHTS : list (string * float) :=
  [("shared_config", lit 35 2); ("excess_devices", lit 25 2); ("peer_regen", lit 20 2);
   ("payment_fraud", lit 15 2); ("referral_fraud", lit 5 2)].

Definition _suggested_action (score : float) (has_shared has_excess : bool) : string :=
  if fge score (lit 8 1) || has_shared then "hard_ban"
  else if fge score (lit 6 1) then "suspend"
  else if fge score (lit 4 1) || has_excess then "revoke_peers"
  else if fge score (lit 2 1) then "throttle"
  else if fgt score f0 then "soft_warning" else "none".

Definition day : Z := seconds 86400.

(** The device limit of the first active subscription. *)
Definition user_limit (now uid : Z) (db : risk_db) : Z :=
  match List.find (λ s, (s.(Subscription.user_id) =? uid) && String.eqb s.(Subscription.status) "active" &&
                        (now <? s.(Subscription.valid_until)) && is_none s.(Subscription.paused_at)) db.(rk_subscriptions) with
  | Some s => if s.(Subscription.device_limit) =? 0 then 1 else s.(Subscription.device_limit)
  | None => 1
  end.

Definition failed_payments (now : Z) (db : risk_db) : list Z :=
  (λ p, p.1.(Payment.user_id)) <$>
    filterb (λ p, String.eqb p.1.(Payment.status) "failed" && (now - day <=? p.2)) db.(rk_payments).

Definition recent_referrers (now : Z) (db : risk_db) : list Z :=
  (λ r, r.1.(Referral.referrer_user_id)) <$> filterb (λ r, now - 7 * day <=? r.2) db.(rk_referrals).

Definition times_in (uid : Z) (l : list Z) : Z := countZ (Z.eqb uid) l.

Definition feature_row (now : Z) (db : risk_db) (uid : Z) : list (string * float) :=
  let ds := filterb live db.(rk_devices) in
  let refs := times_in uid (recent_referrers now db) in
  [("shared_config", of_Z (key_reuse_by_user uid ds));
   ("excess_devices", of_Z (Z.max 0 (Z.of_nat (length (devices_of uid ds)) - user_limit now uid db)));
   ("peer_regen", of_Z (countZ (issued_since (now - day)) (devices_of uid ds)));
   ("payment_fraud", of_Z (times_in uid (failed_payments now db)));
   ("referral_fraud", if 5 <? refs then of_Z refs else f0)].

Definition feature (n : string) (row : list (string * float)) : float := default f0 (dget n row).

(** Everyone with a live device, a failed payment of a day or a referral of a week. *)
Definition all_users (now : Z) (db : risk_db) : list Z :=
  firsts ((Device.user_id <$> filterb live db.(rk_devices)) ++ failed_payments now db ++ recent_referrers now db).

Record AbuseSummary : Type := mkAbuseSummary {
  ab_users_scored : Z; ab_signals_created : Z; ab_high_risk : Z; ab_medium_risk : Z; ab_by_severity : list (string * Z)
}.

Definition severity_of (score : float) : string :=
  if fge score (lit 6 1) then "high" else if fge score (lit 3 1) then "medium" else "low".

Section abuse.
Context (fexp : float → float) (set_order : list Z → list Z).

(** [1 - exp(-raw / divisor)] between zero and one. *)
Definition squash (raw divisor : float) : float := fsub f1 (fexp (fdiv (SFopp raw) divisor)).

Definition z_scores (names : list string) (rows : list (Z * list (string * float))) (feats : list (string * float))
    : list (string * float) :=
  (λ n, (n, _positive_robust_z (feature n feats) ((λ r, feature n r.2) <$> rows))) <$> names.

Definition weighted (weights : list (string * float)) (z : list (string * float)) : float :=
  sumF ((λ w, fmul (feature w.1 z) w.2) <$> weights).

Record scored : Type := mkScored { sc_user : Z; sc_score : float; sc_reasons : list string; sc_excess : float }.

Definition score_user (rows : list (Z * list (string * float))) (r : Z * list (string * float)) : scored :=
  let z := z_scores (SIGNAL_WEIGHTS.*1) rows r.2 in
  let score := fmin (fmax (squash (weighted SIGNAL_WEIGHTS z) (of_Z 3)) f0) f1 in
  mkScored r.1 score (filterb (λ n, fge (feature n z) (lit 5 1) && fgt (feature n r.2) f0) (SIGNAL_WEIGHTS.*1))
    (feature "excess_devices" r.2).

(** [(score, -user)] in descending order. *)
Definition riskier (a b : scored) : bool :=
  ftuple_lt Z.ltb (b.(sc_score), - b.(sc_user)) (a.(sc_score), - a.(sc_user)).

Definition abuse_scores (now : Z) (db : risk_db) : list scored :=
  let rows := (λ uid, (uid, feature_row now db uid)) <$> set_order (all_users now db) in
  sorted_by riskier (score_user rows <$> rows).

Definition signal_of (now : Z) (new_id : Z → string) (s : scored) : AbuseSignal.t :=
  let has_shared := str_in "shared_config" s.(sc_reasons) in
  let has_excess := str_in "excess_devices" s.(sc_reasons) && fgt s.(sc_excess) f0 in
  AbuseSignal.mk (new_id s.(sc_user)) s.(sc_user) "composite" (severity_of s.(sc_score)) (fround s.(sc_score) 4) s.(sc_reasons)
    (_suggested_action s.(sc_score) has_shared has_excess) now None None.

(** [new_id]: the identifiers drawn in this run, by user. *)
Definition run_abuse_detection (now : Z) (new_id : Z → string) (db : risk_db) : risk_db * AbuseSummary :=
  match all_users now db with
  | [] => (db, mkAbuseSummary 0 0 0 0 [])
  | _ =>
      let l := abuse_scores now db in
      let flagged := filterb (λ s, negb (fle s.(sc_score) f0)) l in
      let of_severity v := countZ (λ s, String.eqb (severity_of s.(sc_score)) v) flagged in
      (mkRiskDb db.(rk_devices) db.(rk_subscriptions) db.(rk_payments) db.(rk_referrals)
         (db.(rk_signals) ++ (signal_of now new_id <$> flagged)),
       mkAbuseSummary (Z.of_nat (length l)) (Z.of_nat (length flagged))
         (countZ (λ s, fge s.(sc_score) (lit 6 1)) l)
         (countZ (λ s, fle (lit 3 1) s.(sc_score) && flt s.(sc_score) (lit 6 1)) l)
         ((λ v, (v, of_severity v)) <$> ["high"; "medium"; "low"]))
  end.
End abuse.

(** ** What administrators do with signals *)

Definition find_signal (i : string) (l : list AbuseSignal.t) : option AbuseSignal.t :=
  List.find (λ s, String.eqb s.(AbuseSignal.id) i) l.

(** A page of the signals, the newest first, and their number. *)
Definition list_abuse_signals (limit offset : Z) (user_id : option Z) (resolved : option bool) (l : list AbuseSignal.t)
    : list AbuseSignal.t * Z :=
  let l := filterb (λ s, match user_id with Some u => s.(AbuseSignal.user_id) =? u | None => true end &&
                         match resolved with Some b => Bool.eqb (is_some s.(AbuseSignal.resolved_at)) b | None => true end) l in
  (take (Z.to_nat limit) (drop (Z.to_nat offset) (sorted_by (λ a b, b.(AbuseSignal.created_at) <? a.(AbuseSignal.created_at)) l)),
   Z.of_nat (length l)).

Definition resolve_abuse_signal (now : Z) (admin : option string) (i : string) (l : list AbuseSignal.t) : res (list AbuseSignal.t) :=
  match find_signal i l with
  | None => Err (HTTPException 404 "Signal not found")
  | Some _ => Ok ((λ s, if String.eqb s.(AbuseSignal.id) i then
                          AbuseSignal.mk s.(AbuseSignal.id) s.(AbuseSignal.user_id) s.(AbuseSignal.signal_type)
                            s.(AbuseSignal.severity) s.(AbuseSignal.score) s.(AbuseSignal.reasons)
                            s.(AbuseSignal.suggested_action) s.(AbuseSignal.created_at) (Some now) admin
                        else s) <$> l)
  end.

(** The action is on the user of the signal, which stays unresolved. *)
Definition act_on_signal {W} (now : Z) (i action : string) (l : list AbuseSignal.t) : M W Z :=
  abuse_signal_action now (AbuseSignal.user_id <$> find_signal i l) action.

(** ** Security metrics *)

(** A peer that never shook hands counts as ten thousand seconds old. *)
Definition handshake_age (now_ts : Z) (p : RuntimePeer) : Z :=
  let last := oint_or0 p.(rp_last_handshake) in if 0 <? last then now_ts - last else 10000.

Definition peer_traffic (p : RuntimePeer) : Z := oint_or0 p.(rp_transfer_rx) + oint_or0 p.(rp_transfer_tx).

Definition reconnect_burst (now_ts : Z) (p : RuntimePeer) : bool :=
  (handshake_age now_ts p <=? 90) && (peer_traffic p <? 32768).

Definition stale_handshake (now_ts : Z) (p : RuntimePeer) : bool := 600 <? handshake_age now_ts p.

Record SecurityMetricsOut : Type := mkSecurity {
  sm_key_reuse : Z; sm_bursts : Z; sm_stale_ratio : float; sm_region_anomalies : Z; sm_suspicious_events : Z
}.

(** Devices with the region of their server, as the join gives them. *)
Definition regions_join (servers : list Server.t) (ds : list Device.t) : list (Device.t * string) :=
  d ← ds;
  s ← filterb (λ s, String.eqb s.(Server.id) d.(Device.server_id)) servers;
  [(d, s.(Server.region))].

Definition regions_of (uid : Z) (rows : list (Device.t * string)) : list string :=
  firsts (filterb str_truthy (snd <$> filterb (λ r, r.1.(Device.user_id) =? uid) rows)).

Section metrics.
Context {W : Type} `{NodeRuntimeAdapter W} (fexp : float → float).

(** The peers of the nodes that are not unhealthy, in the order of the topology. *)
Fixpoint peers_of_nodes (l : list NodeMetadata) (w : W) : W * res (list RuntimePeer) :=
  match l with
  | [] => (w, Ok [])
  | n :: l =>
      if String.eqb n.(status) "unhealthy" then peers_of_nodes l w
      else
        let '(w, r) := list_peers n.(node_id) w in
        match r with
        | Err e => (w, Err e)
        | Ok ps => let '(w, r) := peers_of_nodes l w in (w, rest ← r; Ok (ps ++ rest))
        end
  end.

Definition security_metrics (now : Z) (topo : ClusterTopology) (servers : list Server.t) (devices : list Device.t)
    (events : list stored_event) (w : W) : W * res SecurityMetricsOut :=
  let '(w, r) := peers_of_nodes topo.(nodes) w in
  (w, peers ← r;
      let now_ts := now `div` 1000000 in
      let keys := firsts (Device.public_key <$> devices) in
      let rows := regions_join servers (filterb live devices) in
      let stale := countZ (stale_handshake now_ts) peers in
      Ok (mkSecurity
            (countZ (λ k, 1 <? countZ (λ d, String.eqb d.(Device.public_key) k) devices) keys)
            (countZ (reconnect_burst now_ts) peers)
            (fround (if 0 <? Z.of_nat (length peers) then fdiv (of_Z stale) (of_nat (length peers)) else f0) 4)
            (countZ (λ uid, 2 <? Z.of_nat (length (regions_of uid rows))) (firsts ((λ r, r.1.(Device.user_id)) <$> rows)))
            (countZ (λ e, (now - day <=? e.(se_created_at)) && str_in e.(se_event).(severity) ["high"; "critical"; "warning"]) events))).

(** ** Anomaly scores *)

Definition _anomaly_risk_level (score : float) : string :=
  if fge score (lit 8 1) then "high" else if fge score (lit 6 1) then "medium" else "low".

Definition _anomaly_feature_weights : list (string * float) :=
  [("active_devices", lit 28 2); ("region_spread", lit 26 2); ("reconnect_bursts", lit 22 2); ("issued_24h", lit 14 2);
   ("key_reuse_exposure", lit 10 2)].

Definition _anomaly_reason (feature_name : string) : string :=
  default feature_name (dget feature_name
    [("active_devices", "unusually high active device count"); ("region_spread", "unusually broad geo-region spread");
     ("reconnect_bursts", "unusually frequent reconnect bursts"); ("issued_24h", "unusually high device issuance velocity");
     ("key_reuse_exposure", "public key reuse exposure detected")]).

Record AnomalyUserScoreOut : Type := mkAnomaly {
  au_user : Z; au_score : float; au_level : string; au_features : list (string * float); au_z : list (string * float);
  au_reasons : list string
}.

(** The user of a key that only one user has. *)
Definition user_of_key (k : string) (ds : list Device.t) : option Z :=
  match users_of_key k ds with [u] => Some u | _ => None end.

Definition anomaly_features (now : Z) (rows : list (Device.t * string)) (peers : list RuntimePeer) (uid : Z) : list (string * float) :=
  let ds := rows.*1 in
  [("active_devices", of_nat (length (devices_of uid ds)));
   ("region_spread", of_nat (length (regions_of uid rows)));
   ("reconnect_bursts", of_Z (countZ (λ p, bool_decide (user_of_key p.(rp_public_key) ds = Some uid) &&
                                          reconnect_burst (now `div` 1000000) p) peers));
   ("issued_24h", of_Z (countZ (issued_since (now - day)) (devices_of uid ds)));
   ("key_reuse_exposure", of_Z (key_reuse_by_user uid ds))].

(** [sorted(feature_names, key=z, reverse=True)], those from one on, the first three. *)
Definition anomaly_reasons (z : list (string * float)) : list string :=
  take 3 ((λ p, _anomaly_reason p.1) <$> filterb (λ p, fge p.2 f1) (sorted_by (λ a b, flt b.2 a.2) z)).

Definition rounded (l : list (string * float)) : list (string * float) := (λ p, (p.1, fround p.2 4)) <$> l.

Definition anomaly_user (rows : list (Z * list (string * float))) (r : Z * list (string * float)) : AnomalyUserScoreOut :=
  let z := z_scores (_anomaly_feature_weights.*1) rows r.2 in
  let score := squash fexp (weighted _anomaly_feature_weights z) (lit 35 1) in
  mkAnomaly r.1 (fround (fmin (fmax score f0) f1) 4) (_anomaly_risk_level score) (rounded r.2) (rounded z) (anomaly_reasons z).

(** [(score, user)] in descending order. *)
Definition more_anomalous (a b : AnomalyUserScoreOut) : bool :=
  ftuple_lt Z.ltb (b.(au_score), b.(au_user)) (a.(au_score), a.(au_user)).

Record AnomalyMetricsOut : Type := mkAnomalyOut {
  am_users_scored : Z; am_high : Z; am_medium : Z; am_avg : float; am_top : list AnomalyUserScoreOut
}.

Definition scored_users (now : Z) (rows : list (Device.t * string)) (peers : list RuntimePeer) : list AnomalyUserScoreOut :=
  let feats := (λ uid, (uid, anomaly_features now rows peers uid)) <$> firsts ((λ r, r.1.(Device.user_id)) <$> rows) in
  sorted_by more_anomalous (anomaly_user feats <$> feats).

(** The answer, and the severity of the event it adds unless there are no devices. *)
Definition anomaly_metrics (now : Z) (topo : ClusterTopology) (servers : list Server.t) (devices : list Device.t) (w : W)
    : W * res (AnomalyMetricsOut * option string) :=
  let rows := regions_join servers (filterb live devices) in
  match rows with
  | [] => (w, Ok (mkAnomalyOut 0 0 0 f0 [], None))
  | _ =>
      let '(w, r) := peers_of_nodes topo.(nodes) w in
      (w, peers ← r;
          let l := scored_users now rows peers in
          let level v := countZ (λ a, String.eqb a.(au_level) v) l in
          Ok (mkAnomalyOut (Z.of_nat (length l)) (level "high") (level "medium")
                (fround (fdiv (sumF (au_score <$> l)) (of_nat (length l))) 4) (take 20 l),
              Some (if 0 <? level "high" then "warning" else "info")))
  end.
End metrics.

(** ** Business metrics *)

Record business_db : Type := mkBusinessDb {
  bz_users : list (User.t * Z);
  bz_subscriptions : list Subscription.t;
  bz_plans : list Plan.t;
  bz_devices : list Device.t;
  bz_servers : list Server.t;
  bz_payments : list (Payment.t * Z);
  bz_referrals : list Referral.t;
  bz_funnel : list (FunnelEvent.t * Z)
}.

Record BusinessMetricsOut : Type := mkBusiness {
  bm_active : Z; bm_mrr : float; bm_trial_to_paid : float; bm_referral_conversion : float; bm_retention : float;
  bm_revenue : list (string * float)
}.

Definition active_now (now : Z) (s : Subscription.t) : bool :=
  String.eqb s.(Subscription.status) "active" && (now <? s.(Subscription.valid_until)).

(** [float(d)] of a stored amount. *)
Definition float_of_decimal (d : decimal) : float :=
  match d with
  | DFin c e => if 0 <=? e then of_Z (c * 10 ^ e) else true_div c (10 ^ (- e))
  | DInf negative => S754_infinity negative
  | DNaN => S754_nan
  end.

(** Revenue of thirty days of a plan with [count] active subscriptions. *)
Definition mrr_term (p : Plan.t) (count : Z) : float :=
  fmul (fmul (lit p.(Plan.price_amount) 2) (fdiv (of_Z 30) (of_Z p.(Plan.duration_days)))) (of_Z count).

Definition mrr_estimate (now : Z) (db : business_db) : float :=
  foldl (λ acc p,
      let count := countZ (λ s, active_now now s && String.eqb s.(Subscription.plan_id) p.(Plan.id)) db.(bz_subscriptions) in
      if (count =? 0) || (p.(Plan.duration_days) <=? 0) then acc else fadd acc (mrr_term p count)) f0 db.(bz_plans).

(** [float(a) / float(b)], zero without a base. *)
Definition rate_of (a b : Z) : float := if b =? 0 then f0 else fdiv (of_Z a) (of_Z b).

Definition newest_device (a b : Device.t * string) : bool := b.1.(Device.created_at) <? a.1.(Device.created_at).

(** The region of the newest device of a subscription. *)
Definition region_of_subscription (db : business_db) (sid : string) : string :=
  match sorted_by newest_device
          (regions_join db.(bz_servers) (filterb (λ d, String.eqb d.(Device.subscription_id) sid) db.(bz_devices))) with
  | (_, region) :: _ => or_str region "unassigned"
  | [] => "unassigned"
  end.

Definition paid_since (t : Z) (p : Payment.t * Z) : bool := String.eqb p.1.(Payment.status) "completed" && (t <=? p.2).

Definition revenue_by_region (t : Z) (db : business_db) : list (string * float) :=
  foldl (λ m p, let region := region_of_subscription db p.1.(Payment.subscription_id) in
                dset region (fadd (default f0 (dget region m)) (float_of_decimal p.1.(Payment.amount))) m)
    [] (filterb (paid_since t) db.(bz_payments)).

Definition business_metrics (now : Z) (db : business_db) : BusinessMetricsOut :=
  let since_30d := now - 30 * day in
  let starts := firsts (omap (λ e, if String.eqb e.1.(FunnelEvent.event_type) "start" && (since_30d <=? e.2)
                                   then e.1.(FunnelEvent.user_id) else None) db.(bz_funnel)) in
  let paid := firsts ((λ p, p.1.(Payment.user_id)) <$> filterb (paid_since since_30d) db.(bz_payments)) in
  let cohort := (λ u, u.1.(User.id)) <$> filterb (λ u, u.2 <=? since_30d) db.(bz_users) in
  let retained := firsts (filterb (λ uid, bool_decide (uid ∈ cohort))
                            (Subscription.user_id <$> filterb (active_now now) db.(bz_subscriptions))) in
  mkBusiness (countZ (active_now now) db.(bz_subscriptions))
    (fround (mrr_estimate now db) 2)
    (fround (rate_of (Z.of_nat (length paid)) (Z.of_nat (length starts))) 4)
    (fround (rate_of (countZ (λ r, is_some r.(Referral.reward_applied_at)) db.(bz_referrals))
                     (Z.of_nat (length db.(bz_referrals)))) 4)
    (fround (rate_of (Z.of_nat (length retained)) (Z.of_nat (length cohort))) 4)
    ((λ p, (p.1, fround p.2 2)) <$> sorted_by (λ a b, str_ltb a.1 b.1) (revenue_by_region since_30d db)).

(** ** What a run of the detection does *)

Lemma firsts_spec {A} `{EqDecision A} (l : list A) : NoDup (firsts l) ∧ ∀ x, x ∈ firsts l ↔ x ∈ l.
Proof.
  unfold firsts. assert (∀ acc, NoDup acc →
    NoDup (foldl (λ acc x, if bool_decide (x ∈ acc) then acc else acc ++ [x]) acc l) ∧
    ∀ x, x ∈ foldl (λ acc x, if bool_decide (x ∈ acc) then acc else acc ++ [x]) acc l ↔ x ∈ acc ∨ x ∈ l) as H.
  { induction l as [|y l IH]; intros acc Hn; cbn [foldl]; [split; [done|]; set_solver|].
    destruct (bool_decide (y ∈ acc)) eqn:E.
    - apply bool_decide_eq_true in E. destruct (IH acc Hn) as [H1 H2]. split; [done|]. intros x. rewrite H2, elem_of_cons.
      split; [tauto|]. intros [?|[->|?]]; auto.
    - apply bool_decide_eq_false in E. destruct (IH (acc ++ [y])) as [H1 H2].
      + apply NoDup_app. split_and!; [done| |apply NoDup_singleton]. by intros x Hx ->%list_elem_of_singleton.
      + split; [done|]. intros x. rewrite H2. set_solver. }
  destruct (H [] (NoDup_nil_2)) as [H1 H2]. split; [done|]. intros x. rewrite H2, elem_of_nil. tauto.
Qed.

(** Severities and the counts of the summary are the same bounds. *)
Lemma severity_high x : String.eqb (severity_of x) "high" = fge x (lit 6 1).
Proof. unfold severity_of. by destruct (fge x (lit 6 1)), (fge x (lit 3 1)). Qed.

Lemma severity_medium x : String.eqb (severity_of x) "medium" = fle (lit 3 1) x && flt x (lit 6 1).
Proof.
  unfold severity_of. change (fge x (lit 3 1)) with (fle (lit 3 1) x). change (fge x (lit 6 1)) with (fle (lit 6 1) x).
  destruct (fle (lit 3 1) x) eqn:E3.
  - destruct (fle_not_nan _ _ E3) as [_ Hn]. rewrite (flt_fle x (lit 6 1)) by done. by destruct (fle (lit 6 1) x).
  - destruct (fle (lit 6 1) x) eqn:E6; [|done]. exfalso.
    assert (fle (lit 3 1) x = true); [|congruence]. apply (fle_trans _ (lit 6 1)); [by vm_compute|done].
Qed.

Lemma score_positive x b : fle (lit b 1) x = true → fle (lit b 1) f0 = false → fle x f0 = false.
Proof.
  intros H Hb. destruct (fle x f0) eqn:E; [|done]. rewrite <- Hb. symmetry. by apply (fle_trans _ x).
Qed.

Section runs.
Context (fexp : float → float) (set_order : list Z → list Z) (Horder : ∀ l, set_order l ≡ₚ l).

Lemma abuse_scores_users now db : sc_user <$> abuse_scores fexp set_order now db ≡ₚ all_users now db.
Proof using Horder.
  unfold abuse_scores. rewrite sorted_by_perm, <- !list_fmap_compose.
  rewrite (list_fmap_ext _ id) by done. rewrite list_fmap_id. apply Horder.
Qed.

(** Who is looked at. *)
Lemma elem_of_all_users now db u :
  u ∈ all_users now db ↔
  (∃ d, d ∈ db.(rk_devices) ∧ d.(Device.revoked_at) = None ∧ d.(Device.user_id) = u) ∨
  (∃ p t, (p, t) ∈ db.(rk_payments) ∧ p.(Payment.status) = "failed" ∧ now - day ≤ t ∧ p.(Payment.user_id) = u) ∨
  (∃ r t, (r, t) ∈ db.(rk_referrals) ∧ now - 7 * day ≤ t ∧ r.(Referral.referrer_user_id) = u).
Proof.
  unfold all_users, failed_payments, recent_referrers. rewrite (proj2 (firsts_spec _)), !elem_of_app, !list_elem_of_fmap.
  setoid_rewrite elem_of_filterb. unfold live. setoid_rewrite is_none_true. setoid_rewrite andb_true_iff.
  setoid_rewrite String.eqb_eq. setoid_rewrite Z.leb_le.
  split; (intros [(d & ?)|[H|H]]; [left; exists d; naive_solver|right; left|right; right]).
  - destruct H as ([p t] & ?). exists p, t. naive_solver.
  - destruct H as ([r t] & ?). exists r, t. naive_solver.
  - destruct H as (p & t & ?). exists (p, t). naive_solver.
  - destruct H as (r & t & ?). exists (r, t). naive_solver.
Qed.

Definition flagged_scores (now : Z) (db : risk_db) : list scored :=
  filterb (λ s, negb (fle s.(sc_score) f0)) (abuse_scores fexp set_order now db).

Lemma flagged_nodup now db : NoDup (sc_user <$> flagged_scores now db).
Proof using Horder.
  unfold flagged_scores. apply NoDup_fmap_filterb. rewrite abuse_scores_users. apply firsts_spec.
Qed.

Lemma run_signals now new_id db :
  let '(db', out) := run_abuse_detection fexp set_order now new_id db in
  db' = mkRiskDb db.(rk_devices) db.(rk_subscriptions) db.(rk_payments) db.(rk_referrals)
          (db.(rk_signals) ++ (signal_of now new_id <$> flagged_scores now db)) ∧
  out.(ab_signals_created) = Z.of_nat (length (flagged_scores now db)) ∧
  out.(ab_users_scored) = Z.of_nat (length (all_users now db)) ∧
  out.(ab_high_risk) = countZ (λ s, String.eqb (severity_of s.(sc_score)) "high") (flagged_scores now db) ∧
  out.(ab_medium_risk) = countZ (λ s, String.eqb (severity_of s.(sc_score)) "medium") (flagged_scores now db).
Proof using Horder.
  unfold run_abuse_detection. pose proof (abuse_scores_users now db) as Hu.
  destruct (all_users now db) as [|u us] eqn:E.
  { apply Permutation_nil_r, fmap_nil_inv in Hu. unfold flagged_scores. rewrite Hu. simpl. rewrite app_nil_r. by destruct db. }
  rewrite <- E in *. split_and!; try done.
  - apply Permutation_length in Hu. rewrite length_fmap in Hu. simpl. by rewrite Hu.
  - simpl. unfold flagged_scores, countZ. rewrite list_filter_filter. do 2 f_equal. apply list_filter_iff. intros s.
    rewrite severity_high, negb_true_iff. split; [|tauto]. intros H. split; [done|]. by apply (score_positive _ 6).
  - simpl. unfold flagged_scores, countZ. rewrite list_filter_filter. do 2 f_equal. apply list_filter_iff. intros s.
    rewrite severity_medium, negb_true_iff. split; [|tauto]. intros H. split; [done|]. apply andb_true_iff in H as [H _].
    by apply (score_positive _ 3).
Qed.
End runs.

Lemma countZ_fmap {A B} (f : A → B) (p : B → bool) l : countZ p (f <$> l) = countZ (λ a, p (f a)) l.
Proof. induction l as [|a l IH]; [done|]. by rewrite fmap_cons, !countZ_cons, IH. Qed.

Definition with_signals (old : list AbuseSignal.t) (db : risk_db) : risk_db :=
  mkRiskDb db.(rk_devices) db.(rk_subscriptions) db.(rk_payments) db.(rk_referrals) old.


(** ** Instances *)

(** An exponential that is one at zero and nothing before. *)
Definition step_exp (x : float) : float := if flt x f0 then f0 else f1.

Definition wit_device (i : string) (uid : Z) (sub k : string) : Device.t :=
  Device.mk i uid sub "s1" k None None 0 None None None None None None None 0 None None None None None None None None.

Definition wit_sub (i : string) (uid limit : Z) : Subscription.t :=
  Subscription.mk i uid "p" 0 (365 * day) limit "active" false None None None None None 0.

Definition risk_of (ds : list Device.t) (subs : list Subscription.t) : risk_db := mkRiskDb ds subs [] [] [].

Definition flags (db : risk_db) : list (Z * string * list string * string) :=
  (λ s, (s.(AbuseSignal.user_id), s.(AbuseSignal.severity), s.(AbuseSignal.reasons), s.(AbuseSignal.suggested_action))) <$>
    rk_signals (run_abuse_detection step_exp (λ l, l) (10 * day) str_of_Z db).1.

(** Scores are relative: a user alone, whatever they do, is not flagged. *)
Example lone_user :
  flags (risk_of [wit_device "a" 1 "s" "k1"; wit_device "b" 1 "s" "k2"; wit_device "c" 1 "s" "k3"] [wit_sub "s" 1 1]) = [].
Proof. vm_compute. reflexivity. Qed.

(** Only the first subscription of a user counts: with two of them, each with its
    device, the user has one device too many. *)
Example two_subscriptions :
  flags (risk_of [wit_device "a" 1 "s" "k1"; wit_device "b" 1 "t" "k2"; wit_device "c" 2 "u" "k3"; wit_device "d" 3 "v" "k4"]
           [wit_sub "s" 1 1; wit_sub "t" 1 1; wit_sub "u" 2 1; wit_sub "v" 3 1]) =
    [(1, "high", ["excess_devices"], "hard_ban")].
Proof. vm_compute. reflexivity. Qed.


(** Every user with a live device on a server is scored, once. *)
Lemma scored_users_exact fexp now rows peers :
  au_user <$> scored_users fexp now rows peers ≡ₚ firsts ((λ r, r.1.(Device.user_id)) <$> rows) ∧
  NoDup (au_user <$> scored_users fexp now rows peers).
Proof.
  assert (au_user <$> scored_users fexp now rows peers ≡ₚ firsts ((λ r, r.1.(Device.user_id)) <$> rows)) as H.
  { unfold scored_users. rewrite sorted_by_perm, <- !list_fmap_compose. rewrite (list_fmap_ext _ id) by done. by rewrite list_fmap_id. }
  split; [done|]. rewrite H. apply firsts_spec.
Qed.

(** A peer is not both stale and in a burst; one that never shook hands is stale. *)
Lemma stale_or_burst now_ts p : stale_handshake now_ts p = true → reconnect_burst now_ts p = false.
Proof. unfold stale_handshake, reconnect_burst. intros ?%Z.ltb_lt. destruct (Z.leb_spec (handshake_age now_ts p) 90); [lia|done]. Qed.

Example never_shook : stale_handshake 100 (mkRuntimePeer "k" None None None None) = true.
Proof. vm_compute. reflexivity. Qed.

(** Who paid need not have started in the same thirty days: the rate may be above one. *)
Example paid_over_started :
  let paid u := (Payment.mk "p" u "s" "telegram" "completed" (DFin 500 (-2)) "USD" "x" None, 0) in
  let db := mkBusinessDb [] [] [] [] [] [paid 1; paid 2] [] [(FunnelEvent.mk "start" (Some 3) [], 0)] in
  let out := business_metrics day db in
  out.(bm_trial_to_paid) = of_Z 2 ∧ out.(bm_revenue) = [("unassigned", of_Z 10)].
Proof. vm_compute. split; reflexivity. Qed.
