(* ===== verification/WebApp.v ===== *)
(** * The Mini App

    [api/v1/webapp.py], [services/trial_service.py] and
    [services/retention_service.py]: what a user of the Telegram Mini App does to
    their own devices and subscriptions, and the preferences kept with the user.
    [W] is the state of the nodes and of Redis.  Funnel events and the messages to
    Telegram are left out; refusals are given by their code. *)

From S2P Require Import Prelude PyFloat PyStr PyVal Settings Models Node Runtime LiveKey AwgConf Issue AdminIssue RateLimit Download DevicesApi.
From stdpp Require Import infinite.
Open Scope Z_scope.

Definition _WEBAPP_SERVER_SELECT_LIMIT := 20.
Definition _WEBAPP_SERVER_SELECT_WINDOW_SECONDS := 60.

Definition user_not_found : exn := HTTPException 404 "USER_NOT_FOUND".
Definition unauthorized : exn := HTTPException 401 "UNAUTHORIZED".

(** ** The preferences of a user ([User.meta])

    The keys the code reads or writes; [m_tg] holds the data Telegram sent. *)
Record Meta : Type := mkMeta {
  m_tg : option pydict;
  m_auto_select : option bool;
  m_preferred : option string
}.

Definition empty_meta : Meta := mkMeta None None None.
Definition is_empty_meta (m : Meta) : bool := is_none m.(m_tg) && is_none m.(m_auto_select) && is_none m.(m_preferred).

Definition preferred_of (m : Meta) : option string :=
  let s := strip (default "" m.(m_preferred)) in if str_truthy s then Some s else None.

(** The server of a new device, unless it is chosen automatically. *)
Definition preferred_server (meta : option Meta) : option string :=
  let m := default empty_meta meta in
  if default true m.(m_auto_select) then None else preferred_of m.

(** *** Writing the column

    [meta = user.meta or {}] is the loaded object itself when it is not empty; it
    is changed in place and assigned back.  The column is JSONB without mutation
    tracking: the flush writes it when the assigned object is unequal to the one
    that was loaded, as both are then.  [heap] holds the dict objects. *)
Definition flush_meta (heap : gmap nat Meta) (loaded assigned : option nat) (row : option Meta) : option Meta :=
  let value r := r ≫= λ i, heap !! i in
  match value assigned, value loaded with
  | Some a, Some l =>
      if bool_decide (a.(m_tg) = l.(m_tg)) && bool_decide (a.(m_auto_select) = l.(m_auto_select)) &&
         bool_decide (a.(m_preferred) = l.(m_preferred)) then row else Some a
  | a, None => a
  | None, _ => None
  end.

(** [meta = user.meta or {}; f(meta); user.meta = meta; commit] *)
Definition change_meta_in_place (f : Meta → Meta) (row : option Meta) : option Meta :=
  let heap := match row with Some m => {[ 0%nat := m ]} | None => ∅ end : gmap nat Meta in
  let loaded := match row with Some _ => Some 0%nat | None => None end in
  let meta := match row with Some m => if is_empty_meta m then 1%nat else 0%nat | None => 1%nat end in
  let heap := <[meta := f (default empty_meta (heap !! meta))]> heap in
  flush_meta heap loaded (Some meta) row.

(** [meta = dict(user.meta or {}); meta["tg"] = requisites; user.meta = meta], as
    [webapp_auth] does. *)
Definition auth_meta (requisites : pydict) (row : option Meta) : option Meta :=
  let m := default empty_meta row in Some (mkMeta (Some requisites) m.(m_auto_select) m.(m_preferred)).

(** ** Onboarding *)

Definition _WEBAPP_ONBOARDING_VERSION : Z := 1.
Definition _WEBAPP_ONBOARDING_MAX_STEP : Z := 4.

Record Onboarding : Type := mkOnboarding { ob_completed_at : option Z; ob_step : option Z; ob_version : Z }.

Definition clamp_step (z : Z) : Z := Z.max 0 (Z.min _WEBAPP_ONBOARDING_MAX_STEP z).

Definition webapp_onboarding_state (now step : Z) (completed : option bool) (version : Z) (u : Onboarding) : Onboarding :=
  let u' := mkOnboarding u.(ob_completed_at) (Some (Z.max (default 0 u.(ob_step)) (clamp_step step)))
              (Z.max (if u.(ob_version) =? 0 then 1 else u.(ob_version)) version) in
  if default false completed || is_some u.(ob_completed_at)
  then mkOnboarding (Some (default now u.(ob_completed_at))) (Some _WEBAPP_ONBOARDING_MAX_STEP) u'.(ob_version)
  else u'.

(** [(completed, step, version)] as shown. *)
Definition _serialize_onboarding_state (u : option Onboarding) : bool * option Z * Z :=
  match u with
  | None => (false, None, _WEBAPP_ONBOARDING_VERSION)
  | Some u =>
      let completed := is_some u.(ob_completed_at) in
      let step := clamp_step <$> u.(ob_step) in
      (completed, if completed && is_none step then Some _WEBAPP_ONBOARDING_MAX_STEP else step,
       if u.(ob_version) =? 0 then _WEBAPP_ONBOARDING_VERSION else u.(ob_version))
  end.

(** ** Subscriptions *)

Definition subscription_of (db : IssueDb.t) (sub_id : string) (user_id : Z) : option Subscription.t :=
  List.find (λ s, String.eqb s.(Subscription.id) sub_id && (s.(Subscription.user_id) =? user_id)) db.(IssueDb.subscriptions).

(** The subscription that ends last among those of the user that satisfy [p]. *)
Definition last_ending (p : Subscription.t → bool) (db : IssueDb.t) (user_id : Z) : option Subscription.t :=
  head (sorted_by (λ a b, b.(Subscription.valid_until) <? a.(Subscription.valid_until))
          (filterb (λ s, (s.(Subscription.user_id) =? user_id) && p s) db.(IssueDb.subscriptions))).

Record TrialStartResult : Type := mkTrialResult {
  ts_subscription_id : string;
  ts_issued : IssueResult;
  ts_server_name : string;
  ts_server_region : string;
  ts_trial_ends_at : Z
}.

(** What the caller of [start_trial] sees of a [ValueError]. *)
Definition trial_refused (e : exn) : exn :=
  match e with
  | ValueError _ | ConfigValidationError _ =>
      let code := str_take 32 (lower (replace_char " " "_" (exn_str e))) in
      if contains "trial_already_used" code then HTTPException 409 "TRIAL_ALREADY_USED"
      else if contains "trial_plan_not_found" code then HTTPException 503 "TRIAL_PLAN_NOT_FOUND"
      else HTTPException 400 (replace_char "_" " " (exn_str e))
  | e => e
  end.

Definition webapp_issue_refused (e : exn) : exn :=
  match e with
  | ServerNotSyncedError _ _ => HTTPException 409 "SERVER_NOT_SYNCED"
  | LoadBalancerError _ => HTTPException 503 "NO_NODE"
  | WireGuardCommandError _ _ _ => HTTPException 502 "NODE_PEER_FAILED"
  | ConfigValidationError _ => HTTPException 400 "CONFIG_VALIDATION_FAILED"
  | ValueError _ => HTTPException 400 (replace_char "_" " " (exn_str e))
  | _ => HTTPException 500 "INTERNAL_ERROR"
  end.

Record WebServer : Type := mkWebServer {
  ws_id : string; ws_load_percent : option float; ws_is_recommended : bool; ws_is_current : bool
}.

Section webapp.
Context {W : Type} `{NodeRuntimeAdapter W, NodeDirectory W, !Redis W}.
Context (settings : Settings) (hb : heartbeats) (now : Z).
Context (sha256_hex fernet_encrypt : string → string).

(** [session]: the Telegram id of a valid bearer token. *)
Definition session_id (session : option Z) : M W Z :=
  match session with Some i => if i =? 0 then raise unauthorized else mret i | None => raise unauthorized end.

Definition find_tg (db : IssueDb.t) (tg_id : Z) : option User.t :=
  List.find (λ u, u.(User.tg_id) =? tg_id) db.(IssueDb.users).

Definition session_user (session : option Z) : M W User.t :=
  tg_id ← session_id session;
  db ← get_rows;
  some_or (find_tg db tg_id) user_not_found.

Definition _get_or_create_webapp_user (new_uid tg_id : Z) : M W User.t :=
  db ← get_rows;
  match find_tg db tg_id with
  | Some u => mret u
  | None =>
      let u := User.mk new_uid tg_id false in
      _ ← modify (IssueDb.set_users (λ l, l ++ [u])); mret u
  end.

(** *** [services/trial_service.py] *)

(** The plan of the settings, else the shortest free one. *)
Definition trial_plan (db : IssueDb.t) : option Plan.t :=
  let configured := if str_truthy settings.(trial_plan_id)
                    then List.find (λ p, String.eqb p.(Plan.id) settings.(trial_plan_id)) db.(IssueDb.plans) else None in
  match configured with
  | Some p => Some p
  | None => head (sorted_by (λ a b, a.(Plan.duration_days) <? b.(Plan.duration_days))
                    (filterb (λ p, p.(Plan.price_amount) <=? 0) db.(IssueDb.plans)))
  end.

Definition trial_hours : Z := Z.max 1 (Z.min 168 settings.(trial_duration_hours)).

Definition trial_of (uid : Z) (s : Subscription.t) : bool := (s.(Subscription.user_id) =? uid) && s.(Subscription.is_trial).

Definition insert_subscription (s : Subscription.t) : M W unit :=
  db ← get_rows;
  _ ← raise_unless (negb (existsb (λ x, String.eqb x.(Subscription.id) s.(Subscription.id)) db.(IssueDb.subscriptions)))
        (IntegrityError "subscriptions");
  modify (IssueDb.set_subscriptions (λ l, l ++ [s])).

Definition start_trial (new_uid tg_id : Z) (new_sub_id : string) (topology : ClusterTopology) (dr : Draws)
    : M W TrialStartResult :=
  user ← _get_or_create_webapp_user new_uid tg_id;
  _ ← raise_unless (negb user.(User.is_banned)) (ValueError "user_banned");
  db ← get_rows;
  _ ← raise_unless (negb (existsb (trial_of user.(User.id)) db.(IssueDb.subscriptions))) (ValueError "trial_already_used");
  plan ← some_or (trial_plan db) (ValueError "trial_plan_not_found");
  let ends := now + seconds (3600 * trial_hours) in
  let sub := Subscription.mk new_sub_id user.(User.id) plan.(Plan.id) now ends 1 "active" true (Some ends)
               None None None None now in
  _ ← insert_subscription sub;
  out ← issue_device settings true hb now sha256_hex user.(User.id) new_sub_id None (Some "Trial") (Some topology) dr;
  db ← get_rows;
  let server := IssueDb.find_server db out.(ir_device).(Device.server_id) in
  mret (mkTrialResult new_sub_id out
          (match server with Some s => s.(Server.name) | None => out.(ir_device).(Device.server_id) end)
          (match server with Some s => s.(Server.region) | None => "" end) ends).

(** The subscription, the device and the end; the configurations of the result are
    neither stored nor returned. *)
Definition webapp_trial_start (session : option Z) (new_uid : Z) (new_sub_id : string) (topology : ClusterTopology)
    (dr : Draws) : M W (string * string * Z) :=
  tg_id ← session_id session;
  _ ← _get_or_create_webapp_user new_uid tg_id;
  r ← raising trial_refused (start_trial new_uid tg_id new_sub_id topology dr);
  mret (r.(ts_subscription_id), r.(ts_issued).(ir_device).(Device.id), r.(ts_trial_ends_at)).

(** *** Devices *)

(** The limit lets a request through when Redis fails. *)
Definition limit_issue (uid : Z) : M W unit :=
  if settings.(issue_rate_limit_per_minute) <=? 0 then mret tt
  else
    b ← on_nodes (λ w, let '(w, b) := allow now (REDIS_KEY_RATELIMIT_ISSUE_PREFIX +:+ str_of_Z uid)
                                        settings.(issue_rate_window_seconds) settings.(issue_rate_limit_per_minute) w
                       in (w, Ok b));
    raise_unless b (HTTPException 429 "RATE_LIMIT_EXCEEDED").

(** The first active subscription of the user, whatever room it has. *)
Definition active_sub (db : IssueDb.t) (uid : Z) : option Subscription.t :=
  List.find (λ s, (s.(Subscription.user_id) =? uid) && String.eqb s.(Subscription.status) "active" &&
                  (now <? s.(Subscription.valid_until))) db.(IssueDb.subscriptions).

(** [meta]: the preferences of the row of a user. *)
Definition webapp_issue_device (session : option Z) (new_uid : Z) (meta : Z → option Meta) (topology : ClusterTopology)
    (dr : Draws) : M W IssueResult :=
  tg_id ← session_id session;
  user ← _get_or_create_webapp_user new_uid tg_id;
  _ ← limit_issue user.(User.id);
  db ← get_rows;
  sub ← some_or (active_sub db user.(User.id)) (HTTPException 400 "NO_ACTIVE_SUBSCRIPTION");
  out ← raising webapp_issue_refused
          (issue_device settings true hb now sha256_hex user.(User.id) sub.(Subscription.id)
             (preferred_server (meta user.(User.id))) (Some ("webapp_" +:+ str_of_Z tg_id)) (Some topology) dr);
  _ ← persist_issued_configs now sha256_hex fernet_encrypt out.(ir_device).(Device.id) out.(ir_device).(Device.server_id)
        out.(ir_config_awg) out.(ir_config_wg_obf) out.(ir_config_wg) None None false dr.(dr_tokens);
  mret out.

Definition _select_delivery_config_text (out : IssueResult) : string :=
  default "" (List.find (λ t, str_truthy (strip t)) [out.(ir_config_awg); out.(ir_config_wg_obf); out.(ir_config_wg)]).

Definition webapp_revoke_device (session : option Z) (did : string) : M W unit :=
  user ← session_user session;
  db ← get_rows;
  d ← some_or (List.find (λ d, String.eqb d.(Device.id) did && (d.(Device.user_id) =? user.(User.id)))
                 db.(IssueDb.devices)) (HTTPException 404 "DEVICE_NOT_FOUND");
  _ ← raise_unless (is_none d.(Device.revoked_at)) (HTTPException 400 "ALREADY_REVOKED");
  change_device did (Device.set_revoked_at (Some now)).

(** *** [services/retention_service.py] and the subscription endpoints *)

Definition change_subscription (sub_id : string) (f : Subscription.t → Subscription.t) : M W unit :=
  modify (IssueDb.set_subscriptions (fmap (λ s, if String.eqb s.(Subscription.id) sub_id then f s else s))).

Definition pause_subscription (sub_id : string) (user_id : Z) (reason : string) : M W bool :=
  db ← get_rows;
  match subscription_of db sub_id user_id with
  | None => mret false
  | Some s =>
      if is_some s.(Subscription.paused_at) then mret true
      else
        _ ← change_subscription sub_id
              (Subscription.set_paused (Some now) (if str_truthy reason then Some (str_take 64 reason) else None));
        mret true
  end.

Definition resume_subscription (sub_id : string) (user_id : Z) : M W bool :=
  db ← get_rows;
  match subscription_of db sub_id user_id with
  | None => mret false
  | Some s => _ ← change_subscription sub_id (Subscription.set_paused None None); mret true
  end.

Definition retention_discount : Z := Z.max 0 (Z.min 100 settings.(retention_discount_percent)).

(** The subscription a request names, or the default one. *)
Definition named_subscription (given : option string) (fallback : option Subscription.t) : M W string :=
  match given with
  | Some s => if str_truthy s then mret s
              else x ← some_or fallback (HTTPException 400 "NO_SUBSCRIPTION"); mret x.(Subscription.id)
  | None => x ← some_or fallback (HTTPException 400 "NO_SUBSCRIPTION"); mret x.(Subscription.id)
  end.

Definition webapp_subscription_pause (session : option Z) (given : option string) : M W unit :=
  user ← session_user session;
  db ← get_rows;
  sid ← named_subscription given (last_ending (λ s, now <? s.(Subscription.valid_until)) db user.(User.id));
  ok ← pause_subscription sid user.(User.id) "webapp_pause";
  raise_unless ok (HTTPException 400 "PAUSE_FAILED").

Definition webapp_subscription_resume (session : option Z) (given : option string) : M W unit :=
  user ← session_user session;
  db ← get_rows;
  sid ← named_subscription given (last_ending (λ _, true) db user.(User.id));
  ok ← resume_subscription sid user.(User.id);
  raise_unless ok (HTTPException 400 "RESUME_FAILED").

(** The survey goes with the cancellation; its row is left out. *)
Definition webapp_subscription_cancel (session : option Z) (given : option string) : M W unit :=
  user ← session_user session;
  db ← get_rows;
  sid ← named_subscription given (last_ending (λ _, true) db user.(User.id));
  s ← some_or (subscription_of db sid user.(User.id)) (HTTPException 404 "SUBSCRIPTION_NOT_FOUND");
  change_subscription s.(Subscription.id) (Subscription.set_status "cancelled").

Record Offers : Type := mkOffers {
  of_subscription_id : option string; of_status : option string; of_discount : Z; of_can_pause : bool; of_can_resume : bool
}.

Definition webapp_subscription_offers (session : option Z) : M W Offers :=
  user ← session_user session;
  db ← get_rows;
  mret match last_ending (λ _, true) db user.(User.id) with
       | None => mkOffers None None retention_discount false false
       | Some s =>
           let valid := now <? s.(Subscription.valid_until) in
           mkOffers (Some s.(Subscription.id)) (Some s.(Subscription.status)) retention_discount
             (is_none s.(Subscription.paused_at) && valid) (is_some s.(Subscription.paused_at) && valid)
       end.

(** *** Servers *)

(** The active servers; the preferred one is recommended, else the one with the
    fewest devices, the healthier of two with as many. *)
Definition servers_shown (db : IssueDb.t) (meta : option Meta) : list WebServer :=
  let preferred := preferred_of (default empty_meta meta) in
  let servers := filterb Server.is_active db.(IssueDb.servers) in
  let count s := countZ (λ d, is_none d.(Device.revoked_at) && String.eqb d.(Device.server_id) s.(Server.id)) db.(IssueDb.devices) in
  let health s := default f0 s.(Server.health_score) in
  let better x y := if count x =? count y then fgt (health x) (health y) else count x <? count y in
  let recommended := match preferred with Some p => Some p | None => Server.id <$> py_max better servers end in
  let load s := s.(Server.max_connections) ≫= λ m,
                if 0 <? m then Some (fmin (lit 100 0) (fdiv (fmul (of_Z (count s)) (lit 100 0)) (of_Z m))) else None in
  (λ s, mkWebServer s.(Server.id) (load s) (bool_decide (recommended = Some s.(Server.id)))
          (bool_decide (preferred = Some s.(Server.id)))) <$> servers.

Definition webapp_servers (session : option Z) (meta : Z → option Meta) : M W (list WebServer * bool) :=
  user ← session_user session;
  db ← get_rows;
  let m := default empty_meta (meta user.(User.id)) in
  mret (servers_shown db (Some m), default true m.(m_auto_select)).

(** The preferences after the request, and the server chosen when it is by hand. *)
Definition webapp_select_server (session : option Z) (mode server_id : option string) (meta : option Meta)
    : M W (option Meta * option string) :=
  user ← session_user session;
  b ← on_nodes (λ w, let '(w, b) := allow now ("ratelimit:webapp_server_select:" +:+ str_of_Z user.(User.id))
                                      _WEBAPP_SERVER_SELECT_WINDOW_SECONDS _WEBAPP_SERVER_SELECT_LIMIT w in (w, Ok b));
  _ ← raise_unless b (HTTPException 429 "RATE_LIMIT_EXCEEDED");
  let mode := lower (strip (default "" mode)) in
  match non_empty server_id with
  | Some sid =>
      if String.eqb mode "auto" then mret (change_meta_in_place (λ m, mkMeta m.(m_tg) (Some true) None) meta, None)
      else
        db ← get_rows;
        s ← some_or (List.find (λ s, String.eqb s.(Server.id) sid && s.(Server.is_active)) db.(IssueDb.servers))
              (HTTPException 404 "SERVER_NOT_FOUND");
        mret (change_meta_in_place (λ m, mkMeta m.(m_tg) (Some false) (Some s.(Server.id))) meta, Some s.(Server.id))
  | None => mret (change_meta_in_place (λ m, mkMeta m.(m_tg) (Some true) None) meta, None)
  end.
End webapp.

(** ** Requests of a session *)

Inductive web_request : Type :=
| WTrial (new_uid : Z) (new_sub_id : string) (topology : ClusterTopology) (dr : Draws)
| WIssue (new_uid : Z) (meta : Z → option Meta) (topology : ClusterTopology) (dr : Draws)
| WRevoke (did : string)
| WPause (given : option string)
| WResume (given : option string)
| WCancel (given : option string).

(** A computation whose steps may know what they start from. *)
Lemma preserves_bind_at {W A B} (P : IssueDb.t → Prop) (m : M W A) (k : A → M W B) st :
  P (m st).1.2 → (∀ st1 a, m st = (st1, Ok a) → P st1.2 → P (k a st1).1.2) → P ((m ≫= k) st).1.2.
Proof.
  intros Hm Hk. unfold mbind, M_bind. destruct (m st) as [st1 [a|e]] eqn:E; simpl in *; [by apply Hk|done].
Qed.

Lemma raising_preserves {W A} P f (m : M W A) : preserves P m → preserves P (raising f m).
Proof. intros Hm st HP. unfold raising. specialize (Hm st HP). by destruct (m st) as [? []]. Qed.

Section requests.
Context {W : Type} `{NodeRuntimeAdapter W, NodeDirectory W, !Redis W}.
Context (settings : Settings) (hb : heartbeats) (sha256_hex fernet_encrypt : string → string).

Definition web_handle (now : Z) (session : option Z) (r : web_request) : M W unit :=
  match r with
  | WTrial uid sid t dr => _ ← webapp_trial_start settings hb now sha256_hex session uid sid t dr; mret tt
  | WIssue uid meta t dr => _ ← webapp_issue_device settings hb now sha256_hex fernet_encrypt session uid meta t dr; mret tt
  | WRevoke did => webapp_revoke_device now session did
  | WPause g => webapp_subscription_pause now session g
  | WResume g => webapp_subscription_resume session g
  | WCancel g => webapp_subscription_cancel session g
  end.

(** What is generated for a request is new. *)
Definition fresh_request (r : web_request) (db : IssueDb.t) : Prop :=
  match r with
  | WTrial uid _ _ dr | WIssue uid _ _ dr =>
      dr.(dr_device_id) ∉ Device.id <$> db.(IssueDb.devices) ∧ uid ∉ User.id <$> db.(IssueDb.users)
  | _ => True
  end.

(** A request of some session at some time, on nodes and a Redis that may have
    changed meanwhile. *)
Inductive web_step (db db' : IssueDb.t) : Prop :=
| web_step_intro now session r w :
    fresh_request r db → db' = (transaction (web_handle now session r) (w, db)).1.2 → web_step db db'.

(** *** The other users *)

Definition others {A} (owner : A → Z) (uid : Z) (l : list A) : list A := filterb (λ a, negb (owner a =? uid)) l.

Lemma others_app {A} (owner : A → Z) uid l a : owner a = uid → others owner uid (l ++ [a]) = others owner uid l.
Proof.
  intros Ho. unfold others. rewrite filter_app. rewrite (filterb_none _ [a]); [by rewrite app_nil_r|].
  constructor; [|constructor]. by rewrite Ho, Z.eqb_refl.
Qed.

Lemma others_map {A} (owner : A → Z) uid (p : A → bool) f l :
  (∀ a, owner (f a) = owner a) → (∀ a, a ∈ l → p a = true → owner a = uid) →
  others owner uid ((λ a, if p a then f a else a) <$> l) = others owner uid l.
Proof.
  intros Hf Hp. unfold others. induction l as [|a l IH]; [done|]. csimpl.
  assert (∀ a, a ∈ l → p a = true → owner a = uid) as Hp' by (intros x Hx; apply Hp; by right). specialize (IH Hp').
  destruct (p a) eqn:E.
  - rewrite !filter_cons_False; [exact IH| |]; rewrite ?Hf, (Hp a ltac:(left) E), Z.eqb_refl; done.
  - destruct (decide (negb (owner a =? uid) = true)).
    + rewrite !filter_cons_True by done. by rewrite IH.
    + rewrite !filter_cons_False by done. exact IH.
Qed.

(** What a request of user [uid] leaves: the rows of the others, and the device
    [did] is theirs. *)
Record spared (uid : Z) (did : string) (db0 db : IssueDb.t) : Prop := {
  sp_devices : others Device.user_id uid db.(IssueDb.devices) = others Device.user_id uid db0.(IssueDb.devices);
  sp_subs : others Subscription.user_id uid db.(IssueDb.subscriptions) = others Subscription.user_id uid db0.(IssueDb.subscriptions);
  sp_users : db0.(IssueDb.users) `prefix_of` db.(IssueDb.users);
  sp_own : ∀ d, d ∈ db.(IssueDb.devices) → d.(Device.id) = did → d.(Device.user_id) = uid
}.

Lemma spared_servers uid did db0 : stable_servers (spared uid did db0).
Proof. intros sid g db []. by constructor. Qed.

Lemma spared_status uid did db0 : stable_status did (spared uid did db0).
Proof.
  intros st at_ err un db [Hd Hs Hu Ho]. constructor; simpl; [|done..|].
  - rewrite others_map; [done|done|]. intros d Hin He%String.eqb_eq. by apply Ho.
  - intros d (d0 & -> & Hin)%list_elem_of_fmap Hid. revert Hid.
    destruct (String.eqb_spec d0.(Device.id) did); simpl; intros; by apply Ho.
Qed.

Lemma spared_insert now uid did db0 sid name ips psk profile admin protocol obf sub_id dr :
  dr.(dr_device_id) = did →
  preserves (spared uid did db0)
    (insert_device (new_device settings now sha256_hex dr uid sub_id sid name ips psk profile admin protocol obf) : M W _).
Proof.
  intros Hdid. unfold insert_device. apply preserves_bind; [|intros _]; apply preserves_modify; intros db [Hd Hs Hu Ho];
    constructor; simpl; try done.
  - by rewrite others_app.
  - intros d [Hin|Hin]%elem_of_app; [by apply Ho|]. apply list_elem_of_singleton in Hin as ->. done.
Qed.

Lemma spared_issue now uid db0 sub_id server_id name topology dr :
  preserves (spared uid dr.(dr_device_id) db0)
    (issue_device settings true hb now sha256_hex uid sub_id server_id name topology dr : M W _).
Proof.
  pose proof (spared_servers uid dr.(dr_device_id) db0). pose proof (spared_status uid dr.(dr_device_id) db0).
  pose proof (λ sid name ips psk profile a p o, spared_insert now uid dr.(dr_device_id) db0 sid name ips psk profile a p o sub_id dr eq_refl).
  pose proof (λ d, reload_keeps (W:=W) (spared uid dr.(dr_device_id) db0) dr.(dr_device_id) d).
  unfold issue_device. keep.
Qed.

Lemma spared_persist now uid did' db0 did sid awg wg_obf wg admin expires replace tokens :
  preserves (spared uid did' db0)
    (persist_issued_configs now sha256_hex fernet_encrypt did sid awg wg_obf wg admin expires replace tokens : M W _).
Proof.
  unfold persist_issued_configs, persist_issued_configs_with_tokens. keep; apply preserves_modify; intros db []; by constructor.
Qed.

Lemma spared_subs uid did db0 sid f (st : W * IssueDb.t) :
  (∀ s, (f s).(Subscription.user_id) = s.(Subscription.user_id)) →
  (∀ s, s ∈ st.2.(IssueDb.subscriptions) → s.(Subscription.id) = sid → s.(Subscription.user_id) = uid) →
  spared uid did db0 st.2 → spared uid did db0 (change_subscription sid f st).1.2.
Proof.
  intros Hf Hown [Hd Hs Hu Ho]. constructor; simpl; [done| |done|done].
  rewrite others_map; [done|exact Hf|]. intros s Hin He%String.eqb_eq. by apply Hown.
Qed.

(** *** Who asks *)

(** The user of a session, or the one its request creates. *)
Definition asker (session : option Z) (r : web_request) (db : IssueDb.t) : option Z :=
  tg ← session;
  match find_tg db tg with
  | Some u => Some u.(User.id)
  | None => match r with WTrial uid _ _ _ | WIssue uid _ _ _ => Some uid | _ => None end
  end.

Lemma session_id_Ok session (st st' : W * IssueDb.t) tg :
  session_id session st = (st', Ok tg) → session = Some tg ∧ st' = st.
Proof.
  unfold session_id. destruct session as [i|]; [|done]. destruct (i =? 0); [done|].
  unfold mret, M_ret. intros; by simplify_eq.
Qed.

Lemma session_user_Ok session (st st' : W * IssueDb.t) u :
  session_user session st = (st', Ok u) → st' = st ∧ ∃ tg, session = Some tg ∧ find_tg st.2 tg = Some u.
Proof.
  unfold session_user. intros Hm. mstep_as Hm Hs tg. apply session_id_Ok in Hs as [-> ->].
  mstep Hm Hg. unfold get_rows in Hg. simplify_eq. apply some_or_Ok in Hm as [Hf ->]. eauto.
Qed.

Lemma get_or_create_Ok uid tg (st st' : W * IssueDb.t) u :
  _get_or_create_webapp_user uid tg st = (st', Ok u) →
  find_tg st'.2 tg = Some u ∧
  match find_tg st.2 tg with
  | Some u' => u = u' ∧ st' = st
  | None => u = User.mk uid tg false ∧ st'.2 = IssueDb.set_users (λ l, l ++ [u]) st.2
  end.
Proof.
  unfold _get_or_create_webapp_user. intros Hm. mstep Hm Hg. unfold get_rows in Hg. simplify_eq.
  destruct (find_tg st0.2 tg) as [u'|] eqn:E; [unfold mret, M_ret in Hm; by simplify_eq|].
  mstep Hm Hg. unfold modify in Hg. unfold mret, M_ret in Hm. simplify_eq. simpl. split; [|done].
  unfold find_tg in *. simpl. revert E. generalize (IssueDb.users st0.2). intros l.
  induction l as [|x l IH]; simpl; [by rewrite Z.eqb_refl|]. by destruct (_ =? _).
Qed.

Lemma get_or_create_keeps P uid tg :
  (∀ db, P db → P (IssueDb.set_users (λ l, l ++ [User.mk uid tg false]) db)) →
  preserves P (_get_or_create_webapp_user uid tg : M W _).
Proof. intros HP. unfold _get_or_create_webapp_user. keep. by apply preserves_modify. Qed.

Lemma spared_user uid did db0 u :
  ∀ db, spared uid did db0 db → spared uid did db0 (IssueDb.set_users (λ l, l ++ [u]) db).
Proof. intros db [Hd Hs Hu Ho]. constructor; simpl; try done. by apply prefix_app_r. Qed.

(** Who the user of a request is once the row is there. *)
Lemma asker_created uid tg (st st' : W * IssueDb.t) u r :
  _get_or_create_webapp_user uid tg st = (st', Ok u) →
  match r with WTrial uid' _ _ _ | WIssue uid' _ _ _ => uid' = uid | _ => False end →
  asker (Some tg) r st.2 = Some u.(User.id).
Proof.
  intros [_ Hm]%get_or_create_Ok Hr. unfold asker. simpl. destruct (find_tg st.2 tg) as [u'|].
  - by destruct Hm as [-> _].
  - destruct Hm as [-> _]. by destruct r; try done; subst.
Qed.

#[local] Hint Resolve get_or_create_keeps spared_user spared_servers spared_status spared_issue spared_persist
  raising_preserves : frame.

Lemma preserves_use_at {A} (P : IssueDb.t → Prop) (m : M W A) (st : W * IssueDb.t) :
  preserves P m → P st.2 → P (m st).1.2.
Proof. intros Hm. apply Hm. Qed.

Lemma session_id_keeps P session : preserves P (session_id session : M W _).
Proof. unfold session_id. keep. Qed.
Lemma session_user_keeps P session : preserves P (session_user session : M W _).
Proof. pose proof (session_id_keeps P session). unfold session_user. keep. Qed.
Lemma limit_issue_keeps P now uid : preserves P (limit_issue settings now uid : M W _).
Proof. unfold limit_issue. keep. Qed.
Lemma named_keeps P g f : preserves P (named_subscription g f : M W _).
Proof. unfold named_subscription. keep. Qed.
#[local] Hint Resolve session_id_keeps session_user_keeps limit_issue_keeps named_keeps : frame.


Lemma spared_trial now session uid sid t dr (st : W * IssueDb.t) u :
  asker session (WTrial uid sid t dr) st.2 = Some u → spared u dr.(dr_device_id) st.2 st.2 →
  spared u dr.(dr_device_id) st.2 (webapp_trial_start settings hb now sha256_hex session uid sid t dr st).1.2.
Proof.
  intros Hask Hsp. unfold webapp_trial_start.
  apply preserves_bind_at; [by apply session_id_keeps|]. intros st1 tg [-> ->]%session_id_Ok _.
  apply preserves_bind_at; [apply get_or_create_keeps; [apply spared_user|done]|].
  intros st1 u1 Hu Hsp1. pose proof (asker_created _ _ _ _ _ (WTrial uid sid t dr) Hu eq_refl) as Ha.
  rewrite Ha in Hask. injection Hask as <-. apply get_or_create_Ok in Hu as [Hf _].
  apply preserves_bind_at; [|by intros].
  unfold raising. assert (spared u1.(User.id) dr.(dr_device_id) st.2
    (start_trial settings hb now sha256_hex uid tg sid t dr st1).1.2) as Hs;
    [|by destruct (start_trial _ _ _ _ _ _ _ _ _ _) as [? []]].
  unfold start_trial. apply preserves_bind_at; [apply get_or_create_keeps; [apply spared_user|done]|].
  intros st2 u2 Hu2 Hsp2. apply get_or_create_Ok in Hu2 as [_ Hu2]. rewrite Hf in Hu2. destruct Hu2 as [-> ->].
  revert Hsp2. apply preserves_use_at. apply preserves_bind; [auto with frame|intros _].
  apply preserves_bind; [auto with frame|intros db]. apply preserves_bind; [auto with frame|intros _].
  apply preserves_bind; [auto with frame|intros plan]. apply preserves_bind.
  - unfold insert_subscription. keep. apply preserves_modify. intros d [Hd Hs Hu Ho]. constructor; simpl; try done.
    by rewrite others_app.
  - intros _. apply preserves_bind; [apply spared_issue|]. intros out. keep.
Qed.

Lemma spared_web_issue now session uid meta t dr (st : W * IssueDb.t) u :
  asker session (WIssue uid meta t dr) st.2 = Some u → spared u dr.(dr_device_id) st.2 st.2 →
  spared u dr.(dr_device_id) st.2
    (webapp_issue_device settings hb now sha256_hex fernet_encrypt session uid meta t dr st).1.2.
Proof.
  intros Hask Hsp. unfold webapp_issue_device.
  apply preserves_bind_at; [by apply session_id_keeps|]. intros st1 tg [-> ->]%session_id_Ok _.
  apply preserves_bind_at; [apply get_or_create_keeps; [apply spared_user|done]|].
  intros st1 u1 Hu Hsp1. pose proof (asker_created _ _ _ _ _ (WIssue uid meta t dr) Hu eq_refl) as Ha.
  rewrite Ha in Hask. injection Hask as <-. revert Hsp1. apply preserves_use_at. keep.
Qed.

Lemma asker_user r (st : W * IssueDb.t) tg u : find_tg st.2 tg = Some u → asker (Some tg) r st.2 = Some u.(User.id).
Proof. intros Hf. unfold asker. simpl. by rewrite Hf. Qed.

Lemma subscription_of_own db sid uid s : NoDup (Subscription.id <$> db.(IssueDb.subscriptions)) →
  subscription_of db sid uid = Some s →
  s ∈ db.(IssueDb.subscriptions) ∧ s.(Subscription.id) = sid ∧
  ∀ x, x ∈ db.(IssueDb.subscriptions) → x.(Subscription.id) = sid → x.(Subscription.user_id) = uid.
Proof.
  intros Hnd [Hin Hb]%find_Some. bools. split; [done|]. split; [done|]. intros x Hx Hid.
  assert (x = s) as ->; [|done]. eapply (NoDup_fmap_inj Subscription.id); [exact Hnd|done|done|congruence].
Qed.

Lemma named_same given fallback (st st' : W * IssueDb.t) sid :
  named_subscription given fallback st = (st', Ok sid) → st' = st.
Proof.
  unfold named_subscription, some_or, mbind, M_bind, mret, M_ret, raise. intros Hn. repeat case_match; by simplify_eq.
Qed.

(** Pausing, resuming and cancelling start alike. *)
Lemma spared_named (p : IssueDb.t → Z → option Subscription.t) session given did r (st : W * IssueDb.t) u (k : User.t → string → M W unit) :
  asker session r st.2 = Some u → spared u did st.2 st.2 →
  (∀ usr sid, usr.(User.id) = u → spared u did st.2 (k usr sid st).1.2) →
  spared u did st.2 ((user ← session_user session; db ← get_rows;
                      sid ← named_subscription given (p db user.(User.id)); k user sid : M W unit) st).1.2.
Proof.
  intros Hask Hsp Hk. apply preserves_bind_at; [by apply session_user_keeps|].
  intros st1 usr (-> & tg & -> & Hf)%session_user_Ok _. rewrite (asker_user r st tg usr Hf) in Hask. injection Hask as Hu.
  apply preserves_bind_at; [done|]. intros st1 db Hg _. unfold get_rows in Hg. injection Hg as <- <-.
  apply preserves_bind_at; [by apply named_keeps|]. intros st1 sid Hn _.
  apply named_same in Hn as ->.
  by apply Hk.
Qed.

Lemma pause_spared now sid usr reason did (st : W * IssueDb.t) :
  NoDup (Subscription.id <$> st.2.(IssueDb.subscriptions)) → spared usr did st.2 st.2 →
  spared usr did st.2 (pause_subscription now sid usr reason st).1.2 ∧
  spared usr did st.2 (resume_subscription sid usr st).1.2.
Proof.
  intros Hnd Hsp. unfold pause_subscription, resume_subscription, mbind, M_bind, get_rows. simpl.
  destruct (subscription_of st.2 sid usr) as [s|] eqn:E; [|done].
  apply subscription_of_own in E as (_ & _ & Hown); [|done].
  split; [destruct (is_some _); [done|]|]; by apply spared_subs.
Qed.

Lemma spared_request now session r did (st : W * IssueDb.t) u :
  NoDup (Subscription.id <$> st.2.(IssueDb.subscriptions)) → NoDup (Device.id <$> st.2.(IssueDb.devices)) →
  asker session r st.2 = Some u →
  did = match r with WTrial _ _ _ dr | WIssue _ _ _ dr => dr.(dr_device_id) | _ => did end →
  spared u did st.2 st.2 → spared u did st.2 (web_handle now session r st).1.2.
Proof.
  intros Hns Hnd Hask Hdid Hsp. destruct r as [uid sid t dr|uid meta t dr|rid|g|g|g]; simpl.
  - subst did. apply preserves_bind_at; [by apply spared_trial|by intros].
  - subst did. apply preserves_bind_at; [by apply spared_web_issue|by intros].
  - unfold webapp_revoke_device. apply preserves_bind_at; [by apply session_user_keeps|].
    intros st1 usr (-> & tg & -> & Hf)%session_user_Ok _. rewrite (asker_user _ st tg usr Hf) in Hask. injection Hask as <-.
    apply preserves_bind_at; [done|]. intros st1 db Hg _. unfold get_rows in Hg. injection Hg as <- <-.
    apply preserves_bind_at; [by apply preserves_some_or|]. intros st1 d [[Hin Hb]%find_Some ->]%some_or_Ok _. bools.
    apply preserves_bind_at; [by apply preserves_raise_unless|]. intros st1 x [_ ->]%raise_unless_Ok [Hd Hs Hu Ho].
    constructor; simpl; [|done|done|].
    + rewrite others_map; [done|done|]. intros d' Hin' He%String.eqb_eq.
      assert (d' = d) as ->; [|done]. eapply (NoDup_fmap_inj Device.id); [exact Hnd|done|done|congruence].
    + intros d' (d0 & -> & Hin')%list_elem_of_fmap Hid. revert Hid.
      destruct (String.eqb d0.(Device.id) rid); simpl; intros; by apply Ho.
  - unfold webapp_subscription_pause.
    apply (spared_named (λ db uid, last_ending (λ s, now <? s.(Subscription.valid_until)) db uid) session g did (WPause g) st u
             (λ user sid, ok ← pause_subscription now sid user.(User.id) "webapp_pause"; raise_unless ok (HTTPException 400 "PAUSE_FAILED"))); [done..|].
    intros usr sid <-. apply preserves_bind_at; [by apply pause_spared|]. intros. by apply preserves_raise_unless.
  - unfold webapp_subscription_resume.
    apply (spared_named (λ db uid, last_ending (λ _, true) db uid) session g did (WResume g) st u
             (λ user sid, ok ← resume_subscription sid user.(User.id); raise_unless ok (HTTPException 400 "RESUME_FAILED"))); [done..|].
    intros usr sid <-. apply preserves_bind_at; [by apply (pause_spared now)|]. intros. by apply preserves_raise_unless.
  - unfold webapp_subscription_cancel. apply preserves_bind_at; [by apply session_user_keeps|].
    intros st1 usr (-> & tg & -> & Hf)%session_user_Ok _. rewrite (asker_user _ st tg usr Hf) in Hask. injection Hask as <-.
    apply preserves_bind_at; [done|]. intros st1 db Hg _. unfold get_rows in Hg. injection Hg as <- <-.
    apply preserves_bind_at; [by apply named_keeps|]. intros st1 sid Hn _.
    apply named_same in Hn as ->.
    apply preserves_bind_at; [by apply preserves_some_or|]. intros st1 s [Hs ->]%some_or_Ok _.
    apply subscription_of_own in Hs as (_ & Hid & Hown); [|done]. apply spared_subs; [done| |done]. by rewrite Hid.
Qed.

(** Without a user there is nothing to do. *)
Lemma no_user now session r (st : W * IssueDb.t) :
  asker session r st.2 = None → ∃ st' e, web_handle now session r st = (st', Err e).
Proof.
  assert (∀ (k : User.t → M W unit), (session ≫= find_tg st.2) = None → ∃ st' e, (session_user session ≫= k) st = (st', Err e)) as Hu.
  { intros k Hn. unfold session_user, session_id, mbind, M_bind, raise, mret, M_ret, get_rows, some_or.
    destruct session as [tg|]; [|eauto]. destruct (tg =? 0); [eauto|]. simpl in *. rewrite Hn. unfold raise. eauto. }
  unfold asker. destruct session as [tg|] eqn:Es; simpl.
  - destruct (find_tg st.2 tg) eqn:E; [done|]. destruct r; try done; intros _; apply Hu; exact E.
  - intros _. destruct r; simpl; try (apply Hu; done); unfold webapp_trial_start, webapp_issue_device, session_id, mbind, M_bind, raise; eauto.
Qed.
End requests.


(** ** Trials and limits over the life of the system *)

(** Keys, the foreign key of the devices, the limits, and one trial per user. *)
Record web_inv (db : IssueDb.t) : Prop := {
  wi_subs : NoDup (Subscription.id <$> db.(IssueDb.subscriptions));
  wi_fk : Forall (λ d, d.(Device.subscription_id) ∈ Subscription.id <$> db.(IssueDb.subscriptions)) db.(IssueDb.devices);
  wi_limits : within_limits db;
  wi_trials : ∀ uid, countZ (trial_of uid) db.(IssueDb.subscriptions) ≤ 1
}.

(** Rows that differ in nothing the invariant reads. *)
Lemma web_inv_ext db db' :
  db'.(IssueDb.subscriptions) = db.(IssueDb.subscriptions) → db'.(IssueDb.devices) = db.(IssueDb.devices) →
  web_inv db → web_inv db'.
Proof.
  intros Hs Hd [? ? Hl ?]. constructor; rewrite ?Hs, ?Hd; [done..| |done].
  apply (within_limits_ext db); [done| |done]. intros i. unfold IssueDb.live_devices. by rewrite Hd.
Qed.

Lemma fmap_update {A} {B} (f : A → B) (p : A → bool) (g : A → A) (l : list A) :
  (∀ a, f (g a) = f a) → f <$> ((λ a, if p a then g a else a) <$> l) = f <$> l.
Proof. intros Hg. rewrite <- list_fmap_compose. apply list_fmap_ext. intros _ a _. simpl. by destruct (p a). Qed.

Lemma countZ_update {A} (q p : A → bool) (g : A → A) (l : list A) :
  (∀ a, q (g a) = q a) → countZ q ((λ a, if p a then g a else a) <$> l) = countZ q l.
Proof. intros Hg. induction l as [|a l IH]; csimpl; [done|]. rewrite !countZ_cons, IH. by destruct (p a); rewrite ?Hg. Qed.

Lemma web_inv_subs sid f db :
  (∀ s, (f s).(Subscription.id) = s.(Subscription.id) ∧ (f s).(Subscription.user_id) = s.(Subscription.user_id) ∧
        (f s).(Subscription.device_limit) = s.(Subscription.device_limit) ∧ (f s).(Subscription.is_trial) = s.(Subscription.is_trial)) →
  web_inv db → web_inv (IssueDb.set_subscriptions (fmap (λ s, if String.eqb s.(Subscription.id) sid then f s else s)) db).
Proof.
  intros Hf [Hn Hk Hl Ht]. constructor; simpl.
  - rewrite fmap_update; [done|]. intros s. apply Hf.
  - rewrite fmap_update; [done|]. intros s. apply Hf.
  - intros s (s0 & -> & Hin)%list_elem_of_fmap. specialize (Hl s0 Hin). destruct (Hf s0) as (Hi & _ & Hd & _).
    destruct (String.eqb _ _); simpl; rewrite ?Hi, ?Hd; exact Hl.
  - intros uid. rewrite countZ_update; [done|]. intros s. unfold trial_of. by destruct (Hf s) as (_ & -> & _ & ->).
Qed.

Lemma web_inv_revoke did now db : web_inv db → web_inv (IssueDb.update_device did (Device.set_revoked_at (Some now)) db).
Proof.
  intros [Hn Hk Hl Ht]. constructor; simpl; [done| |intros s Hs; specialize (Hl s Hs)|done].
  - apply Forall_fmap. eapply Forall_impl; [exact Hk|]. intros d Hd. simpl. by destruct (String.eqb _ _).
  - etrans; [|exact Hl]. unfold IssueDb.live_devices. simpl.
    generalize (IssueDb.devices db). intros l. induction l as [|d l IH]; csimpl; [done|]. rewrite !countZ_cons.
    destruct (String.eqb d.(Device.id) did); simpl; [rewrite andb_false_r|];
      destruct (String.eqb d.(Device.subscription_id) s.(Subscription.id)), (is_none d.(Device.revoked_at)); simpl; lia.
Qed.

Lemma web_inv_new_sub s db :
  s.(Subscription.id) ∉ Subscription.id <$> db.(IssueDb.subscriptions) →
  (s.(Subscription.is_trial) = true → existsb (trial_of s.(Subscription.user_id)) db.(IssueDb.subscriptions) = false) →
  web_inv db → web_inv (IssueDb.set_subscriptions (λ l, l ++ [s]) db).
Proof.
  intros Hid Htr [Hn Hk Hl Ht]. constructor; simpl.
  - rewrite fmap_app. apply NoDup_app. split_and!; [done| |apply NoDup_singleton].
    intros x Hx ->%list_elem_of_singleton. done.
  - eapply Forall_impl; [exact Hk|]. intros d Hd. simpl. rewrite fmap_app. set_solver.
  - intros x [Hx|Hx]%elem_of_app; [by apply Hl|]. apply list_elem_of_singleton in Hx as ->.
    change (IssueDb.live_devices (IssueDb.set_subscriptions _ db) s.(Subscription.id)) with (IssueDb.live_devices db s.(Subscription.id)).
    replace (IssueDb.live_devices db s.(Subscription.id)) with 0; [lia|]. symmetry. unfold IssueDb.live_devices.
    clear - Hk Hid. induction Hk as [|d l Hd _ IH]; [done|]. rewrite countZ_cons, IH.
    destruct (String.eqb_spec d.(Device.subscription_id) s.(Subscription.id)); [congruence|done].
  - intros uid. rewrite countZ_app, countZ_cons, countZ_nil. specialize (Ht uid).
    destruct (trial_of uid s) eqn:E; [|lia]. unfold trial_of in E. bools. subst uid.
    specialize (Htr ltac:(done)). replace (countZ (trial_of s.(Subscription.user_id)) db.(IssueDb.subscriptions)) with 0; [lia|].
    symmetry. revert Htr. generalize (IssueDb.subscriptions db). intros l. induction l as [|x l IH]; [done|].
    simpl. intros [Hx Hxs]%orb_false_iff. rewrite countZ_cons, Hx, IH; done.
Qed.

Section invariant.
Context {W : Type} `{NodeRuntimeAdapter W, NodeDirectory W, !Redis W}.
Context (settings : Settings) (hb : heartbeats) (sha256_hex fernet_encrypt : string → string).

Lemma issue_web_inv now uid sub_id server_id name topology dr (st st' : W * IssueDb.t) r :
  dr.(dr_device_id) ∉ Device.id <$> st.2.(IssueDb.devices) → web_inv st.2 →
  issue_device settings true hb now sha256_hex uid sub_id server_id name topology dr st = (st', Ok r) → web_inv st'.2.
Proof.
  intros Hd Hw Hm. pose proof (issue_device_limits settings true hb now sha256_hex uid sub_id server_id name topology dr
                                 st.1 st.2 (wi_subs _ Hw) Hd (wi_limits _ Hw)) as Hl.
  pose proof (issue_device_subs settings true hb now sha256_hex st.2.(IssueDb.subscriptions) uid sub_id server_id name topology dr st eq_refl) as Hs.
  rewrite Hm in Hs. simpl in Hs. unfold transaction in Hl. rewrite <- surjective_pairing, Hm in Hl. simpl in Hl.
  apply issue_device_inv in Hm as [[_ (s & Hin & Hid & _)] Hi]. apply issued_device in Hi as (? & ? & ? & ? & ? & _ & _ & _ & Hds & Hc & _); [|done].
  pose proof (core_fields _ _ Hc) as (_ & _ & Hsub & _). simpl in Hsub. destruct Hw as [Hn Hk _ Ht].
  constructor; [by rewrite Hs| |done|by rewrite Hs].
  rewrite Hs, Hds. apply Forall_app. split; [done|]. constructor; [|constructor].
  rewrite Hsub, <- Hid. by apply list_elem_of_fmap_2.
Qed.

Lemma web_inv_user u db : web_inv db → web_inv (IssueDb.set_users (λ l, l ++ [u]) db).
Proof. by apply web_inv_ext. Qed.

Lemma created_inv uid tg (st st' : W * IssueDb.t) u :
  _get_or_create_webapp_user uid tg st = (st', Ok u) →
  web_inv st.2 → web_inv st'.2 ∧ st'.2.(IssueDb.devices) = st.2.(IssueDb.devices).
Proof.
  intros [_ Hm]%get_or_create_Ok Hw. destruct (find_tg st.2 tg); destruct Hm as [-> Hst]; [by subst|].
  rewrite Hst. split; [by apply web_inv_user|done].
Qed.

(** A trial is the only one of its user, for the hours of the settings. *)
Lemma trial_inv now uid tg sid t dr (st st' : W * IssueDb.t) r :
  dr.(dr_device_id) ∉ Device.id <$> st.2.(IssueDb.devices) → web_inv st.2 →
  start_trial settings hb now sha256_hex uid tg sid t dr st = (st', Ok r) → web_inv st'.2.
Proof.
  intros Hd Hw Hm. unfold start_trial in Hm. mstep_as Hm Hu u. apply created_inv in Hu as [Hw1 Hds]; [|done].
  mstep Hm Hb. apply raise_unless_Ok in Hb as [_ ->]. mstep Hm Hg. unfold get_rows in Hg. simplify_eq.
  mstep Hm Ht. apply raise_unless_Ok in Ht as [Ht%negb_true_iff ->]. mstep_as Hm Hp plan. apply some_or_Ok in Hp as [_ ->].
  mstep Hm Hi. unfold insert_subscription in Hi. mstep Hi Hg. unfold get_rows in Hg. simplify_eq.
  mstep Hi Hn. apply raise_unless_Ok in Hn as [Hn%negb_true_iff ->]. unfold modify in Hi. simplify_eq/=.
  mstep_as Hm Ho out. mstep Hm Hg. unfold get_rows, mret, M_ret in *. simplify_eq.
  eapply issue_web_inv; [|  |exact Ho]; simpl; [by rewrite Hds|].
  apply web_inv_new_sub; [|done|done]. simpl. intros (x & Hx & Hin)%list_elem_of_fmap.
  apply not_true_iff_false in Hn. apply Hn, existsb_exists. exists x. split; [by apply list_elem_of_In|].
  rewrite Hx. apply String.eqb_refl.
Qed.
End invariant.

Section steps.
Context {W : Type} `{NodeRuntimeAdapter W, NodeDirectory W, !Redis W}.
Context (settings : Settings) (hb : heartbeats) (sha256_hex fernet_encrypt : string → string).

Lemma persist_web_inv now did sid awg wg_obf wg admin expires replace tokens :
  preserves web_inv (persist_issued_configs now sha256_hex fernet_encrypt did sid awg wg_obf wg admin expires replace tokens : M W _).
Proof.
  unfold persist_issued_configs, persist_issued_configs_with_tokens. keep; apply preserves_modify; intros db; by apply web_inv_ext.
Qed.

Lemma web_request_inv now session r (st st' : W * IssueDb.t) :
  fresh_request r st.2 → web_inv st.2 →
  web_handle settings hb sha256_hex fernet_encrypt now session r st = (st', Ok tt) → web_inv st'.2.
Proof.
  intros Hf Hw Hm. destruct r as [uid sid t dr|uid meta t dr|rid|g|g|g]; simpl in Hm.
  - mstep_as Hm Hr x. unfold mret, M_ret in Hm. simplify_eq. unfold webapp_trial_start in Hr.
    mstep_as Hr Hs tg. apply session_id_Ok in Hs as [-> ->]. mstep Hr Hu. apply created_inv in Hu as [Hw1 Hds]; [|done].
    mstep_as Hr Ht tr. unfold mret, M_ret in Hr. simplify_eq. apply raising_Ok in Ht.
    eapply trial_inv; [|exact Hw1|exact Ht]. rewrite Hds. apply Hf.
  - mstep_as Hm Hr x. unfold mret, M_ret in Hm. simplify_eq. unfold webapp_issue_device in Hr.
    mstep_as Hr Hs tg. apply session_id_Ok in Hs as [-> ->]. mstep_as Hr Hu u. apply created_inv in Hu as [Hw1 Hds]; [|done].
    mstep Hr Hl. assert (st1.2 = st0.2) as E.
    { eapply (preserves_use (λ db, db = st0.2)); [apply limit_issue_keeps|exact Hl|done]. }
    mstep Hr Hg. unfold get_rows in Hg. simplify_eq. mstep_as Hr Hsub sub. apply some_or_Ok in Hsub as [_ ->].
    mstep_as Hr Ho out. apply raising_Ok in Ho. mstep Hr Hp. unfold mret, M_ret in Hr. simplify_eq.
    eapply (preserves_use web_inv); [apply persist_web_inv|exact Hp|].
    eapply issue_web_inv; [| |exact Ho]; rewrite E; [rewrite Hds; apply Hf|done].
  - unfold webapp_revoke_device in Hm. mstep_as Hm Hu u. apply session_user_Ok in Hu as [-> _].
    mstep Hm Hg. unfold get_rows in Hg. simplify_eq. mstep Hm Hd. apply some_or_Ok in Hd as [_ ->].
    mstep Hm Hr. apply raise_unless_Ok in Hr as [_ ->]. unfold change_device, modify in Hm. simplify_eq. by apply web_inv_revoke.
  - unfold webapp_subscription_pause in Hm. mstep_as Hm Hu u. apply session_user_Ok in Hu as [-> _].
    mstep Hm Hg. unfold get_rows in Hg. simplify_eq. mstep Hm Hn. apply named_same in Hn as ->.
    mstep Hm Hp. apply raise_unless_Ok in Hm as [_ ->]. revert Hw. eapply (preserves_use web_inv); [|exact Hp].
    unfold pause_subscription. keep. apply preserves_modify. intros db. by apply web_inv_subs.
  - unfold webapp_subscription_resume in Hm. mstep_as Hm Hu u. apply session_user_Ok in Hu as [-> _].
    mstep Hm Hg. unfold get_rows in Hg. simplify_eq. mstep Hm Hn. apply named_same in Hn as ->.
    mstep Hm Hp. apply raise_unless_Ok in Hm as [_ ->]. revert Hw. eapply (preserves_use web_inv); [|exact Hp].
    unfold resume_subscription. keep. apply preserves_modify. intros db. by apply web_inv_subs.
  - unfold webapp_subscription_cancel in Hm. mstep_as Hm Hu u. apply session_user_Ok in Hu as [-> _].
    mstep Hm Hg. unfold get_rows in Hg. simplify_eq. mstep Hm Hn. apply named_same in Hn as ->.
    mstep Hm Hs. apply some_or_Ok in Hs as [_ ->]. unfold change_subscription, modify in Hm. simplify_eq. by apply web_inv_subs.
Qed.

Lemma web_step_inv db db' : web_step settings hb sha256_hex fernet_encrypt db db' → web_inv db → web_inv db'.
Proof.
  intros [now session r w Hf ->] Hw. unfold transaction.
  destruct (web_handle _ _ _ _ _ _ _ _) as [st' [[]|e]] eqn:E; simpl; [|done].
  exact (web_request_inv now session r (w, db) st' Hf Hw E).
Qed.
End steps.

(** C7: one trial, and never more devices than paid for.  Whatever sessions ask for
    over time, in whatever order, with whatever answers of the nodes and of Redis,
    every user has at most one trial subscription, the live devices of every
    subscription stay within its limit, subscription identifiers stay unique and
    every device has its subscription. *)
Theorem webapp_invariant {W} `{NodeRuntimeAdapter W, NodeDirectory W, !Redis W} settings hb sha256_hex fernet_encrypt db db' :
  rtc (web_step (W:=W) settings hb sha256_hex fernet_encrypt) db db' → web_inv db → web_inv db'.
Proof. induction 1 as [|x y z Hxy _ IH]; intros Hw; [done|]. by eapply IH, web_step_inv. Qed.

(** Nodes that accept every call, and a Redis that answers. *)
Record web_world : Type := mkWebWorld { ww_nodes : steady; ww_redis : steady_store }.

Definition lift_nodes {A} (f : steady → steady * A) (w : web_world) : web_world * A :=
  let '(n, a) := f w.(ww_nodes) in (mkWebWorld n w.(ww_redis), a).
Definition lift_redis {A} (f : steady_store → steady_store * A) (w : web_world) : web_world * A :=
  let '(s, a) := f w.(ww_redis) in (mkWebWorld w.(ww_nodes) s, a).

#[export] Instance web_adapter : NodeRuntimeAdapter web_world := {
  add_peer n p := lift_nodes (add_peer n p);
  remove_peer n pk := lift_nodes (remove_peer n pk);
  list_peers n := lift_nodes (list_peers n)
}.

#[export] Instance web_directory : NodeDirectory web_world := {
  get_node_for_sync := None;
  discover_nodes := lift_nodes discover_nodes;
  get_obfuscation_from_node n := lift_nodes (get_obfuscation_from_node n);
  ensure_reply_routes := None
}.

#[export] Instance web_redis : Redis web_world := {
  incr now k := lift_redis (incr now k);
  expire now k s := lift_redis (expire now k s);
  rget now k := lift_redis (rget now k);
  setex now k s v := lift_redis (setex now k s v)
}.

Definition wit_world : web_world := mkWebWorld (mkSteady ∅) (mkSteadyStore ∅).

Definition wit_web_db : IssueDb.t :=
  IssueDb.mk [User.mk 7 700 false; User.mk 8 800 false] [Plan.mk "free" "Free" 1 0 "XTR"]
    [Subscription.mk "sub" 7 "p1" 0 (days 30) 2 "active" false None None None None None 0]
    [Device.test "d0" "s1" "k0" "10.8.1.2/32"; Device.mk "d9" 8 "sub9" "s1" "k9" None None 0 None None None None None None None 0 None
       None None None None None None None] [Server.test "s1" true] [] [] [] [] [].


Definition wit_topology : ClusterTopology := mkTopology 0 [wit_node] 10 0 f0 f0 f1 f1 f1 1.
Definition wit_serve (session : option Z) (r : web_request) (db : IssueDb.t) : IssueDb.t :=
  (transaction (web_handle default_settings (Held []) (λ s, s) (λ s, s) 5 session r) (wit_world, db)).1.2.
Definition wit_request : web_request := WTrial 9 "trial" wit_topology wit_draws.
Definition wit_again : web_request := WTrial 10 "trial2" wit_topology (mkDraws "d2" (wit_key "P") (wit_key "T") (wit_key "R") ("t4", "t5", "t6")).

Definition wit_web_db2 : IssueDb.t :=
  IssueDb.set_devices (λ l, take 1 l) wit_web_db.

Lemma webapp_invariant_witness :
  let db1 := wit_serve (Some 800) wit_request wit_web_db2 in
  let db2 := wit_serve (Some 800) wit_again db1 in
  web_inv db2 ∧ Subscription.id <$> filterb Subscription.is_trial db2.(IssueDb.subscriptions) = ["trial"] ∧
  length db2.(IssueDb.devices) = 2%nat.
Proof.
  intros db1 db2. split; [|vm_compute; split; reflexivity].
  apply (webapp_invariant (W:=web_world) default_settings (Held []) (λ s, s) (λ s, s) wit_web_db2 db2).
  - eapply rtc_l; [|eapply rtc_l; [|apply rtc_refl]].
    + apply (web_step_intro _ _ _ _ _ _ 5 (Some 800) wit_request wit_world); [|reflexivity].
      vm_compute. split; set_solver.
    + apply (web_step_intro _ _ _ _ _ _ 5 (Some 800) wit_again wit_world); [|reflexivity].
      vm_compute. split; set_solver.
  - constructor.
    + vm_compute. repeat constructor; set_solver.
    + vm_compute. repeat constructor; set_solver.
    + intros s Hs%list_elem_of_singleton. subst s. vm_compute. discriminate.
    + intros uid. change (countZ (trial_of uid) (IssueDb.subscriptions wit_web_db2)) with
        (countZ (trial_of uid) [Subscription.mk "sub" 7 "p1" 0 (days 30) 2 "active" false None None None None None 0]).
      rewrite countZ_cons, countZ_nil. unfold trial_of. simpl. rewrite andb_false_r. lia.
Defined.

(** ** What the endpoints do beside *)

(** A trial started from the Mini App uses the one device of its subscription and
    leaves no configuration to download: a second request for the device's
    configuration is over the limit. *)
Example trial_config_lost :
  let db1 := wit_serve (Some 800) wit_request wit_web_db2 in
  let out := (web_handle default_settings (Held []) (λ s, s) (λ s, s) 5 (Some 800)
                (WIssue 9 (λ _, None) wit_topology (mkDraws "d2" (wit_key "P") (wit_key "T") (wit_key "R") ("t4", "t5", "t6")))
                (wit_world, db1)).2 in
  db1.(IssueDb.issued) = [] ∧ length db1.(IssueDb.devices) = 2%nat ∧ out = Err (HTTPException 400 "device limit exceeded").
Proof. vm_compute. repeat split. Qed.

(** The first active subscription is taken, full or not. *)
Example full_subscription_taken_first :
  let full := Subscription.mk "sub" 7 "p1" 0 (days 30) 1 "active" false None None None None None 0 in
  let free := Subscription.mk "sub2" 7 "p1" 0 (days 30) 5 "active" false None None None None None 0 in
  let db := IssueDb.set_subscriptions (λ _, [full; free]) wit_web_db2 in
  IssueDb.live_devices db "sub2" = 0 ∧
  (web_handle default_settings (Held []) (λ s, s) (λ s, s) 5 (Some 700) (WIssue 9 (λ _, None) wit_topology wit_draws) (wit_world, db)).2
    = Err (HTTPException 400 "device limit exceeded").
Proof. vm_compute. split; reflexivity. Qed.

(** A paused subscription still issues devices. *)
Example paused_subscription_issues :
  let db := wit_serve (Some 700) (WPause None) wit_web_db2 in
  (Subscription.paused_at <$> db.(IssueDb.subscriptions)) = [Some 5] ∧
  (web_handle default_settings (Held []) (λ s, s) (λ s, s) 5 (Some 700) (WIssue 9 (λ _, None) wit_topology wit_draws) (wit_world, db)).2
    = Ok tt.
Proof. vm_compute. split; reflexivity. Qed.

(** A choice of server is answered as done and lost: the row of a user who has
    preferences, as every user authenticated by the Mini App has, keeps the old
    ones. *)
Lemma server_choice_lost {W} `{Redis W} now session mode sid m m' chosen (w : W) db st' :
  webapp_select_server now session mode sid (Some m) (w, db) = (st', Ok (m', chosen)) →
  (∃ requisites row, Some m = auth_meta requisites row) → m' = Some m.
Proof.
  intros Hm (requisites & row & Hr). assert (is_empty_meta m = false) as He by (unfold auth_meta in Hr; by injection Hr as ->).
  assert (∀ f, change_meta_in_place f (Some m) = Some m) as Hc.
  { intros f. unfold change_meta_in_place. rewrite He. unfold flush_meta. simpl. rewrite lookup_insert_eq. simpl.
    by rewrite !bool_decide_eq_true_2. }
  unfold webapp_select_server in Hm. mstep Hm Hu. mstep Hm Ha. mstep Hm Hb.
  destruct (non_empty sid) as [s|].
  - destruct (String.eqb _ "auto"); [unfold mret, M_ret in Hm; simplify_eq; by rewrite Hc|].
    mstep Hm Hg. mstep Hm Hs. unfold mret, M_ret in Hm. simplify_eq. by rewrite Hc.
  - unfold mret, M_ret in Hm. simplify_eq. by rewrite Hc.
Qed.

(** Onboarding only goes forward. *)
Lemma onboarding_forward now step completed version u :
  let u' := webapp_onboarding_state now step completed version u in
  (is_some u.(ob_completed_at) = true → u'.(ob_completed_at) = u.(ob_completed_at) ∧ u'.(ob_step) = Some _WEBAPP_ONBOARDING_MAX_STEP) ∧
  (default 0 u.(ob_step) ≤ _WEBAPP_ONBOARDING_MAX_STEP → default 0 u.(ob_step) ≤ default 0 u'.(ob_step) ≤ _WEBAPP_ONBOARDING_MAX_STEP) ∧
  u.(ob_version) ≤ Z.max 1 u'.(ob_version).
Proof.
  unfold webapp_onboarding_state, clamp_step, _WEBAPP_ONBOARDING_MAX_STEP. cbv zeta.
  destruct u as [[c|] st v], completed as [[]|]; simpl; (split; [done|]); split; intros;
    destruct (Z.eqb_spec v 0); lia.
Qed.
