(* ===== verification/ServerSync.v ===== *)
(** * Synchronisation of servers
    ([services/server_sync_service.py], [core/server_sync_loop.py])

    A periodic loop asks the node of each server for a snapshot, stores it with
    the job that made it, and updates the row of the server; a server that fails
    is left alone for a while.  The loop runs with the adapter the processes
    build, which is wrapped in [TimingNodeRuntimeAdapter]
    ([services/node_runtime.py]); the wrapper is modelled too.  A column of the
    servers that only this loop reads, [auto_sync_interval_sec], is an argument. *)

From S2P Require Import Prelude PyFloat PyStr PyVal Settings Models Node Runtime AgentApi AgentRuntime LiveKey.
Open Scope Z_scope.

(** ** Snapshots *)

Inductive SnapshotHealthStatus : Type := online | offline | degraded | unknown.

(** [status.value] *)
Definition health_value (s : SnapshotHealthStatus) : string :=
  match s with online => "online" | offline => "offline" | degraded => "degraded" | unknown => "unknown" end.

Definition _status_to_snapshot_health (status : string) : SnapshotHealthStatus :=
  let s := lower status in
  if str_in s ["healthy"; "ok"] then online
  else if String.eqb s "degraded" then degraded
  else if str_in s ["unhealthy"; "unreachable"; "down"; "error"; "offline"] then offline
  else unknown.

Record SnapshotResources : Type := mkResources {
  cpu_pct : option float;
  ram_used_bytes : option Z;
  ram_total_bytes : option Z;
  ram_pct : option float;
  unavailable_reason : option string
}.

Record SnapshotIpPool : Type := mkIpPool {
  sp_cidr : option string;
  sp_total_ips : option Z;
  sp_used_ips : option Z;
  sp_free_ips : option Z
}.

(** The fields that do not come from constants. *)
Record ServerSnapshot : Type := mkSnapshot {
  ss_server_id : string;
  ts_utc : Z;
  location_region : string;
  snap_vpn_endpoint : option string;
  snap_public_key : option string;
  resources : SnapshotResources;
  users_active_peers : Z;
  users_total_peers : Z;
  last_handshake_max_age_sec : option Z;
  ip_pool : SnapshotIpPool;
  health_status : SnapshotHealthStatus;
  health_score_pct : float;
  snap_is_draining : bool;
  peers_capacity : Z
}.

(** A row of [server_snapshots]. *)
Record SnapshotRow : Type := mkSnapshotRow {
  sr_id : string; sr_server_id : string; sr_ts_utc : Z; payload_json : ServerSnapshot; sr_request_id : option string
}.

(** [None] where the adapter does not have the method; an answer may be missing. *)
Class ContainerStats (W : Type) :=
  { get_container_stats : option (string → W → W * res (option SnapshotResources)) }.

Definition ACTIVE_PEER_AGE_SEC : Z := 180.

Definition no_stats : SnapshotResources :=
  mkResources None None None None (Some "docker_stats_not_available").

(** [(active, last_handshake_max)] *)
Definition handshake_step (now_ts : Z) (st : Z * Z) (p : RuntimePeer) : Z * Z :=
  let h := default 0 p.(rp_last_handshake) in
  if 0 <? h then
    ((if now_ts - h <=? ACTIVE_PEER_AGE_SEC then st.1 + 1 else st.1), Z.max st.2 (now_ts - h))
  else st.

(** [x if x else y] on strings of a row. *)
Definition docker_name (api_endpoint : string) : option string :=
  if startswith "docker://" api_endpoint
  then
    let name := hd "" (split "/" (strip (str_drop 9 api_endpoint))) in
    if str_truthy name then Some name else None
  else None.

(** The node of a server among those that were discovered: by identifier, by
    container name, by the name in the endpoint, by the name of the server. *)
Definition find_in_discovery (server_id : string) (server : Server.t) (nodes : list NodeMetadata)
    : option NodeMetadata :=
  let named name := List.find (λ n, String.eqb n.(container_name) name) nodes in
  let or_try (a : option NodeMetadata) (b : option string) :=
    match a, b with Some n, _ => Some n | None, Some name => named name | None, None => None end in
  let node := List.find (λ n, String.eqb n.(node_id) server_id) nodes in
  let node := or_try node (Some server_id) in
  let node := or_try node (docker_name server.(Server.api_endpoint)) in
  or_try node (if str_truthy (strip server.(Server.name)) then Some (strip server.(Server.name)) else None).

Section snapshot.
Context {W : Type} `{NodeRuntimeAdapter W} `{NodeDirectory W} `{ContainerStats W}.
Implicit Types (w : W).

Definition node_for_snapshot (server_id : string) (server : Server.t) w : W * res (option NodeMetadata) :=
  let '(w, r) := match get_node_for_sync with
                 | Some f => f server_id w
                 | None => (w, Ok None)
                 end in
  match r with
  | Ok None =>
      let '(w, r) := discover_nodes w in
      (w, find_in_discovery server_id server <$> r)
  | _ => (w, r)
  end.

(** A failure to list the peers counts as no peers. *)
Definition peers_for_snapshot (server_id : string) (node : NodeMetadata) w : W * list RuntimePeer :=
  let node_id_for_peers :=
    if str_truthy node.(node_id) then node.(node_id)
    else if str_truthy node.(container_name) then node.(container_name) else server_id in
  let '(w, r) := list_peers node_id_for_peers w in
  (w, match r with Ok peers => peers | Err _ => [] end).

Definition resources_for_snapshot (node : NodeMetadata) w : W * SnapshotResources :=
  match get_container_stats with
  | Some stats =>
      if str_truthy node.(container_name) then
        let '(w, r) := stats node.(container_name) w in
        (w, match r with
            | Ok (Some s) => mkResources s.(cpu_pct) s.(ram_used_bytes) s.(ram_total_bytes) s.(ram_pct) None
            | _ => no_stats
            end)
      else (w, no_stats)
  | None => (w, no_stats)
  end.

Definition pool_for_snapshot (hint : option IpPool.t) (used_ips : Z) : SnapshotIpPool :=
  match hint with
  | Some pool => mkIpPool (Some pool.(IpPool.cidr)) (Some pool.(IpPool.total_ips)) (Some used_ips)
                   (Some (pool.(IpPool.total_ips) - used_ips))
  | None => mkIpPool None None None None
  end.


Definition node_endpoint (node : NodeMetadata) : option string :=
  if str_truthy node.(endpoint_ip) && negb (node.(listen_port) =? 0) && negb (_is_private_ip node.(endpoint_ip))
  then Some (node.(endpoint_ip) +:+ ":" +:+ str_of_Z node.(listen_port)) else None.

Definition o_or {A} (a b : option A) : option A := match a with Some _ => a | None => b end.
Definition nonempty (s : string) : option string := if str_truthy s then Some s else None.

Definition build_snapshot_from_node (now : Z) (server_id : string) (server : Server.t)
    (ip_pool_hint : option IpPool.t) w : W * res (ServerSnapshot + string) :=
  let '(w, r) := node_for_snapshot server_id server w in
  match r with
  | Err e => (w, Err e)
  | Ok None => (w, Ok (inr "node not found in discovery"))
  | Ok (Some node) =>
      let '(w, peers) := peers_for_snapshot server_id node w in
      let '(active, last_handshake_max) := foldl (handshake_step (now / seconds 1)) (0, 0) peers in
      let '(w, resources) := resources_for_snapshot node w in
      let used_ips := Z.of_nat (length peers) in
      (w, Ok (inl {|
        ss_server_id := server_id;
        ts_utc := now;
        location_region := server.(Server.region);
        snap_vpn_endpoint := o_or (server.(Server.vpn_endpoint) ≫= nonempty) (node_endpoint node);
        snap_public_key := o_or (nonempty node.(Node.public_key)) (server.(Server.public_key) ≫= nonempty);
        resources := resources;
        users_active_peers := active;
        users_total_peers := if bool_decide (peers = []) then node.(peer_count) else used_ips;
        last_handshake_max_age_sec := if last_handshake_max =? 0 then None else Some last_handshake_max;
        ip_pool := pool_for_snapshot ip_pool_hint used_ips;
        health_status := _status_to_snapshot_health (if str_truthy node.(Node.status) then node.(Node.status) else "unknown");
        health_score_pct := fround (fmul (f_or0 node.(Node.health_score)) (of_Z 100)) 1;
        snap_is_draining := server.(Server.is_draining);
        peers_capacity := match server.(Server.max_connections) with
                          | Some n => if n =? 0 then node.(max_peers) else n
                          | None => node.(max_peers)
                          end |}))
  end.
End snapshot.

(** ** One synchronisation *)

Record sync_db : Type := mkSyncDb {
  sd_servers : list Server.t;
  sd_jobs : list SyncJob.t;
  sd_snapshots : list SnapshotRow;
  sd_pools : list IpPool.t
}.

Definition server_row (db : sync_db) (sid : string) : option Server.t :=
  List.find (λ s, String.eqb s.(Server.id) sid) db.(sd_servers).
Definition job_row (db : sync_db) (jid : string) : option SyncJob.t :=
  List.find (λ j, String.eqb j.(SyncJob.id) jid) db.(sd_jobs).

Definition on_server (sid : string) (f : Server.t → Server.t) (db : sync_db) : sync_db :=
  mkSyncDb ((λ s, if String.eqb s.(Server.id) sid then f s else s) <$> db.(sd_servers))
    db.(sd_jobs) db.(sd_snapshots) db.(sd_pools).
Definition on_job (jid : string) (f : SyncJob.t → SyncJob.t) (db : sync_db) : sync_db :=
  mkSyncDb db.(sd_servers) ((λ j, if String.eqb j.(SyncJob.id) jid then f j else j) <$> db.(sd_jobs))
    db.(sd_snapshots) db.(sd_pools).
Definition on_pool (pid : string) (f : IpPool.t → IpPool.t) (db : sync_db) : sync_db :=
  mkSyncDb db.(sd_servers) db.(sd_jobs) db.(sd_snapshots)
    ((λ p, if String.eqb p.(IpPool.id) pid then f p else p) <$> db.(sd_pools)).
Definition add_job (j : SyncJob.t) (db : sync_db) : sync_db :=
  mkSyncDb db.(sd_servers) (db.(sd_jobs) ++ [j]) db.(sd_snapshots) db.(sd_pools).
Definition add_snapshot (r : SnapshotRow) (db : sync_db) : sync_db :=
  mkSyncDb db.(sd_servers) db.(sd_jobs) (db.(sd_snapshots) ++ [r]) db.(sd_pools).

(** What a snapshot says of its server. *)
Definition apply_snapshot (snapshot : ServerSnapshot) (server : Server.t) : Server.t :=
  let score := fdiv (f_or0 snapshot.(health_score_pct)) (of_Z 100) in
  let server := Server.set_health score (health_value snapshot.(health_status)) server in
  let server := Server.set_snapshot_at snapshot.(ts_utc) server in
  let server := match snapshot.(snap_vpn_endpoint) with
                | Some e => if str_truthy e then Server.set_vpn_endpoint (Some e) server else server
                | None => server
                end in
  match snapshot.(snap_public_key) with
  | Some pk => if str_truthy pk
               then Server.set_key_status "verified" (Server.set_public_key pk snapshot.(ts_utc) server)
               else server
  | None => server
  end.

Section sync.
Context {W : Type} `{NodeRuntimeAdapter W} `{NodeDirectory W} `{ContainerStats W}.
Implicit Types (w : W) (db : sync_db).

(** The clock is read for the start of the job, the snapshot and the end of the
    job; [snap_id] is the identifier the snapshot gets.  When the runtime raises,
    nothing of the session is committed. *)
Definition run_sync_for_server (clock : nat → Z) (snap_id : string) (server_id job_id : string)
    (request_id : option string) (st : W * sync_db) : W * sync_db * res (bool * option string) :=
  let '(w, db) := st in
  match job_row db job_id, server_row db server_id with
  | Some job, Some server =>
      if negb (String.eqb job.(SyncJob.server_id) server_id)
      then (w, db, Ok (false, Some "job or server not found"))
      else
        let db1 := on_job job_id (SyncJob.start (clock 0%nat)) db in
        let pool := List.find (λ p, String.eqb p.(IpPool.server_id) server_id && p.(IpPool.is_active)) db.(sd_pools) in
        let '(w, r) := build_snapshot_from_node (clock 1%nat) server_id server pool w in
        match r with
        | Err e => (w, db, Err e)
        | Ok (inr err) =>
            let db2 := on_job job_id (SyncJob.finish "failed" (clock 2%nat) (Some err)) db1 in
            let db3 := if contains "not found" (lower err)
                       then on_server server_id (Server.set_key_status "not_found") db2 else db2 in
            (w, db3, Ok (false, Some err))
        | Ok (inl snapshot) =>
            let db2 := add_snapshot (mkSnapshotRow snap_id server_id snapshot.(ts_utc) snapshot request_id) db1 in
            let db3 := on_server server_id (apply_snapshot snapshot) db2 in
            let db4 := match pool, snapshot.(ip_pool).(sp_used_ips) with
                       | Some p, Some n => on_pool p.(IpPool.id) (IpPool.set_used n) db3
                       | _, _ => db3
                       end in
            (w, on_job job_id (SyncJob.finish "completed" (clock 2%nat) None) db4, Ok (true, None))
        end
  | _, _ => (w, db, Ok (false, Some "job or server not found"))
  end.

(** A job is made by the request or by the loop, then run. *)
Definition start_sync (job_id server_id mode : string) (request_id : option string) db : res sync_db :=
  match server_row db server_id with
  | None => Err (ValueError "server not found")
  | Some _ => Ok (add_job (SyncJob.mk job_id server_id mode "sync" "pending" None None request_id None) db)
  end.

Definition get_job_status (server_id job_id : string) db : option SyncJob.t :=
  List.find (λ j, String.eqb j.(SyncJob.id) job_id && String.eqb j.(SyncJob.server_id) server_id) db.(sd_jobs).

End sync.

(** ** The loop *)

(** Per server, when it may be tried again and how often it failed in a row. *)
Abbreviation backoff := (gmap string (Z * Z)).

Section loop.
Context (settings : Settings) (auto_sync_interval_sec : string → option Z).

Definition INTERVAL : Z := settings.(server_sync_interval_seconds).
Definition MIN_INTERVAL : Z := Z.max 15 settings.(server_sync_min_interval_seconds).
Definition BACKOFF_MAX : Z := Z.max 60 settings.(server_sync_backoff_max_seconds).
Definition SKIP_DRAINING : bool := settings.(server_sync_skip_draining).

Definition _should_skip (now : Z) (server_id : string) (b : backoff) : bool :=
  match b !! server_id with None => false | Some (next_ts, _) => now <? next_ts end.

Definition backoff_delay (fail_count : Z) : Z := Z.min (60 * 2 ^ (fail_count - 1)) BACKOFF_MAX.

Definition _record_failure (now : Z) (server_id : string) (b : backoff) : backoff :=
  let fail_count := (default (0, 0) (b !! server_id)).2 + 1 in
  <[server_id := (now + seconds (backoff_delay fail_count), fail_count)]> b.

Definition _record_success (server_id : string) (b : backoff) : backoff := delete server_id b.

(** [interval_sec] of a server that has none, or zero, is the setting. *)
Definition interval_of (s : Server.t) : Z :=
  let own := default 0 (auto_sync_interval_sec s.(Server.id)) in
  if own =? 0 then INTERVAL else own.

Definition _server_ids_due_for_sync (servers : list Server.t) (now : Z) : list string :=
  Server.id <$> filterb (λ s,
    seconds (Z.max (interval_of s) MIN_INTERVAL) <=? now - default 0 s.(Server.last_snapshot_at)) servers.

(** The servers of a turn, in the order of the database. *)
Definition loop_servers (servers : list Server.t) : list Server.t :=
  take 200 (filterb (λ s, s.(Server.is_active) && negb (SKIP_DRAINING && s.(Server.is_draining))) servers).

(** The readings of the clock and the identifiers of one synchronisation. *)
Record sync_call : Type := mkCall {
  sc_start : Z; sc_clock : nat → Z; sc_end : Z; sc_job : string; sc_snapshot : string
}.

Section run.
Context {W : Type} `{NodeRuntimeAdapter W} `{NodeDirectory W} `{ContainerStats W}.

(** The job is committed before the synchronisation begins; its insert is refused
    when the server is gone or the identifier taken. *)
Definition _run_one_sync (c : sync_call) (server_id : string) (st : W * sync_db * backoff)
    : W * sync_db * backoff :=
  let '(w, db, b) := st in
  if _should_skip c.(sc_start) server_id b then (w, db, b)
  else
    match server_row db server_id, job_row db c.(sc_job) with
    | None, _ | _, Some _ => (w, db, _record_failure c.(sc_end) server_id b)
    | Some _, None =>
        let db := add_job (SyncJob.mk c.(sc_job) server_id "auto" "sync" "pending" None None None None) db in
        let '(w, db, r) := run_sync_for_server c.(sc_clock) c.(sc_snapshot) server_id c.(sc_job) None (w, db) in
        match r with
        | Ok (true, _) => (w, db, _record_success server_id b)
        | _ => (w, db, _record_failure c.(sc_end) server_id b)
        end
    end.

(** One turn of the loop, the servers that are due one after the other. *)
Definition sync_turn (now : Z) (calls : string → sync_call) (st : W * sync_db * backoff)
    : W * sync_db * backoff :=
  let due := _server_ids_due_for_sync (loop_servers st.1.2.(sd_servers)) now in
  foldl (λ st sid, _run_one_sync (calls sid) sid st) st due.

End run.
End loop.

(** ** The adapter the processes use *)

(** [TimingNodeRuntimeAdapter] forwards the methods it names.  The others are those
    of the base class, or are not there. *)
Section timing.
Context {W : Type} `{NodeRuntimeAdapter W} `{NodeDirectory W}.

Definition timing_adapter : NodeRuntimeAdapter W :=
  {| add_peer := add_peer; remove_peer := remove_peer; list_peers := list_peers |}.

Definition timing_directory : NodeDirectory W :=
  {| LiveKey.get_node_for_sync := None;
     LiveKey.discover_nodes := LiveKey.discover_nodes;
     LiveKey.get_obfuscation_from_node := LiveKey.get_obfuscation_from_node;
     ensure_reply_routes := None |}.

Definition timing_stats : ContainerStats W := {| get_container_stats := None |}.
End timing.

(** The adapter of the agent mode over the committed servers and the heartbeats. *)
Record agent_world : Type := mkAgentWorld {
  aw_servers : list Server.t;
  aw_heartbeat : string → option AgentHeartbeatIn
}.

Definition agent_directory : NodeDirectory agent_world :=
  {| LiveKey.get_node_for_sync := Some (λ sid w, (w, Ok (AgentRuntime.get_node_for_sync w.(aw_heartbeat) sid w.(aw_servers))));
     LiveKey.discover_nodes := λ w, (w, AgentRuntime.discover_nodes w.(aw_heartbeat) w.(aw_servers));
     LiveKey.get_obfuscation_from_node := λ sid w, (w, Ok (AgentRuntime.get_obfuscation_from_node w.(aw_heartbeat) sid));
     ensure_reply_routes := None |}.

(** ** What a synchronisation does to the rows *)

Section rows.
Context {W : Type} `{NodeRuntimeAdapter W} `{NodeDirectory W} `{ContainerStats W}.
Implicit Types (w : W) (db : sync_db).

Definition pool_of (sid : string) db : option IpPool.t :=
  List.find (λ p, String.eqb p.(IpPool.server_id) sid && p.(IpPool.is_active)) db.(sd_pools).

Definition failed_sync (clock : nat → Z) (sid jid err : string) db : sync_db :=
  let db := on_job jid (SyncJob.finish "failed" (clock 2%nat) (Some err)) (on_job jid (SyncJob.start (clock 0%nat)) db) in
  if contains "not found" (lower err) then on_server sid (Server.set_key_status "not_found") db else db.

Definition completed_sync (clock : nat → Z) (snap_id sid jid : string) (rid : option string) (snapshot : ServerSnapshot) db
    : sync_db :=
  let db1 := add_snapshot (mkSnapshotRow snap_id sid snapshot.(ts_utc) snapshot rid) (on_job jid (SyncJob.start (clock 0%nat)) db) in
  let db2 := on_server sid (apply_snapshot snapshot) db1 in
  let db3 := match pool_of sid db, snapshot.(ip_pool).(sp_used_ips) with
             | Some p, Some n => on_pool p.(IpPool.id) (IpPool.set_used n) db2
             | _, _ => db2
             end in
  on_job jid (SyncJob.finish "completed" (clock 2%nat) None) db3.

Lemma snapshot_time now sid server hint w w' snapshot :
  build_snapshot_from_node now sid server hint w = (w', Ok (inl snapshot)) → snapshot.(ts_utc) = now.
Proof.
  unfold build_snapshot_from_node. destruct (node_for_snapshot _ _ _) as [w1 [[n|]|]]; [|done..].
  destruct (peers_for_snapshot _ _ _) as [w2 peers]. destruct (foldl _ _ _) as [a l].
  destruct (resources_for_snapshot _ _) as [w3 rs]. by intros [= <- <-].
Qed.

(** The three ways a synchronisation ends. *)
Lemma run_sync_cases clock snap_id sid jid rid w db w' db' r server job :
  run_sync_for_server clock snap_id sid jid rid (w, db) = (w', db', r) →
  server_row db sid = Some server → job_row db jid = Some job → job.(SyncJob.server_id) = sid →
  (∃ e, r = Err e ∧ db' = db ∧ (build_snapshot_from_node (clock 1%nat) sid server (pool_of sid db) w).2 = Err e) ∨
  (∃ err, r = Ok (false, Some err) ∧ db' = failed_sync clock sid jid err db ∧
     (build_snapshot_from_node (clock 1%nat) sid server (pool_of sid db) w).2 = Ok (inr err)) ∨
  (∃ snapshot, r = Ok (true, None) ∧ snapshot.(ts_utc) = clock 1%nat ∧
     (build_snapshot_from_node (clock 1%nat) sid server (pool_of sid db) w).2 = Ok (inl snapshot) ∧
     db' = completed_sync clock snap_id sid jid rid snapshot db).
Proof.
  unfold run_sync_for_server. intros E Hs Hj <-. rewrite Hs, Hj, String.eqb_refl in E. cbn [negb] in E.
  fold (pool_of (SyncJob.server_id job) db) in E.
  destruct (build_snapshot_from_node _ _ _ _ _) as [w1 [[snapshot|err]|e]] eqn:Eb.
  - right. right. exists snapshot. injection E as <- <- <-.
    split_and!; [done|by eapply snapshot_time|done|done].
  - right. left. exists err. by injection E as <- <- <-.
  - left. exists e. by injection E as <- <- <-.
Qed.
End rows.

(** ** Rows and snapshots in step *)

Definition rows_of (sid : string) (db : sync_db) : list SnapshotRow :=
  filterb (λ r, String.eqb r.(sr_server_id) sid) db.(sd_snapshots).

Definition completed_for (sid : string) (j : SyncJob.t) : bool :=
  String.eqb j.(SyncJob.server_id) sid && String.eqb j.(SyncJob.status) "completed".

(** The row of a server shows a snapshot. *)
Definition shows (r : SnapshotRow) (s : Server.t) : Prop :=
  s.(Server.last_snapshot_at) = Some r.(sr_ts_utc) ∧
  s.(Server.status) = health_value r.(payload_json).(health_status) ∧
  ∀ k, r.(payload_json).(snap_public_key) = Some k → k ≠ "" → s.(Server.public_key) = Some k.

(** Job identifiers are distinct, each server shows its last snapshot, and has as
    many snapshots as completed jobs. *)
Record in_step (db : sync_db) : Prop := {
  is_jobs : NoDup (SyncJob.id <$> db.(sd_jobs));
  is_shown : ∀ s, s ∈ db.(sd_servers) →
    match last (rows_of s.(Server.id) db) with
    | None => s.(Server.last_snapshot_at) = None
    | Some r => shows r s
    end;
  is_count : ∀ sid, countZ (completed_for sid) db.(sd_jobs) = Z.of_nat (length (rows_of sid db))
}.

(** An update of the element with a key, in a list where keys are distinct. *)
Definition b2z (b : bool) : Z := if b then 1 else 0.

Lemma countZ_cons_b2z {A} (p : A → bool) a l : countZ p (a :: l) = b2z (p a) + countZ p l.
Proof. rewrite countZ_cons. by destruct (p a). Qed.

Lemma countZ_update_key {A} (key : A → string) (k : string) (f : A → A) (p : A → bool) l j :
  NoDup (key <$> l) → List.find (λ x, String.eqb (key x) k) l = Some j →
  countZ p ((λ x, if String.eqb (key x) k then f x else x) <$> l) = countZ p l - b2z (p j) + b2z (p (f j)).
Proof.
  induction l as [|a l IH]; [done|]. rewrite fmap_cons. intros [Ha Hl]%NoDup_cons. cbn [List.find].
  rewrite fmap_cons, !countZ_cons_b2z. destruct (String.eqb_spec (key a) k) as [<-|Hne].
  - intros [= ->]. assert ((λ x, if String.eqb (key x) (key j) then f x else x) <$> l = l) as ->; [|lia].
    clear IH Hl. induction l as [|b l IH]; [done|]. rewrite fmap_cons.
    apply not_elem_of_cons in Ha as [Hb Ha].
    destruct (String.eqb_spec (key b) (key j)); [congruence|]. by rewrite IH.
  - intros Hf. rewrite IH by done. lia.
Qed.

Lemma on_job_ids jid f (l : list SyncJob.t) :
  (∀ j, (f j).(SyncJob.id) = j.(SyncJob.id)) →
  SyncJob.id <$> ((λ j, if String.eqb j.(SyncJob.id) jid then f j else j) <$> l) = SyncJob.id <$> l.
Proof.
  intros Hf. rewrite <- list_fmap_compose. apply list_fmap_ext. intros _ x _. cbn.
  by destruct (String.eqb _ _).
Qed.

Lemma job_row_on_job db jid f j :
  (∀ x, (f x).(SyncJob.id) = x.(SyncJob.id)) → job_row db jid = Some j → job_row (on_job jid f db) jid = Some (f j).
Proof.
  intros Hf. unfold job_row. destruct db as [ss js rs ps]. cbn. induction js as [|x js IH]; [done|]. cbn.
  destruct (String.eqb (SyncJob.id x) jid) eqn:E; cbn; [|by rewrite E].
  rewrite Hf, E. by intros [= ->].
Qed.

(** A change of the job that ends it as failed leaves what is in step in step. *)
Lemma in_step_on_job jid f db j :
  (∀ x, (f x).(SyncJob.id) = x.(SyncJob.id)) → (∀ x, (f x).(SyncJob.server_id) = x.(SyncJob.server_id)) →
  job_row db jid = Some j → j.(SyncJob.status) ≠ "completed" → (f j).(SyncJob.status) ≠ "completed" →
  in_step db → in_step (on_job jid f db).
Proof.
  intros Hi Hs Hj H1 H2 [Hn Hshow Hcount]. split; [|done|].
  - cbn. by rewrite on_job_ids.
  - intros sid. cbn. rewrite (countZ_update_key _ _ f _ _ j Hn Hj), Hcount. unfold completed_for, rows_of. cbn.
    rewrite (proj2 (String.eqb_neq _ _) H1), (proj2 (String.eqb_neq _ _) H2), !andb_false_r. cbn. lia.
Qed.

Lemma in_step_on_server sid f db :
  (∀ s, (f s).(Server.id) = s.(Server.id)) →
  (∀ s, (f s).(Server.last_snapshot_at) = s.(Server.last_snapshot_at)) →
  (∀ s, (f s).(Server.status) = s.(Server.status)) → (∀ s, (f s).(Server.public_key) = s.(Server.public_key)) →
  in_step db → in_step (on_server sid f db).
Proof.
  intros Hi Hl Hst Hk [Hn Hshow Hcount]. split; [done| |done].
  intros s (x & -> & Hx)%list_elem_of_fmap. unfold rows_of. cbn. specialize (Hshow x Hx). unfold rows_of in Hshow.
  destruct (String.eqb _ sid); [|done]. rewrite Hi. unfold shows in *. rewrite Hl, Hst, Hk. done.
Qed.

(** A snapshot and the completed job that goes with it. *)
Lemma apply_snapshot_shows id rid s snapshot :
  shows (mkSnapshotRow id s.(Server.id) snapshot.(ts_utc) snapshot rid) (apply_snapshot snapshot s) ∧
  (apply_snapshot snapshot s).(Server.id) = s.(Server.id).
Proof.
  unfold shows, apply_snapshot. cbn. destruct (snap_vpn_endpoint snapshot) as [e|]; [destruct (str_truthy e)|].
  all: destruct (snap_public_key snapshot) as [k|]; [destruct (str_truthy k) eqn:Ek|].
  all: split_and!; try done; intros k' [= <-] Hne; try done; by apply str_truthy_true in Hne; congruence.
Qed.

Lemma last_rows_snoc (r : SnapshotRow) l sid :
  last (filterb (λ r, String.eqb r.(sr_server_id) sid) (l ++ [r])) =
    if String.eqb r.(sr_server_id) sid then Some r
    else last (filterb (λ r, String.eqb r.(sr_server_id) sid) l).
Proof.
  rewrite filter_app, filter_cons, filter_nil. case_decide as E.
  - rewrite E. by rewrite last_snoc.
  - apply not_true_is_false in E. by rewrite E, app_nil_r.
Qed.

Lemma in_step_completed clock snap_id sid jid rid snapshot db j :
  job_row db jid = Some j → j.(SyncJob.server_id) = sid → j.(SyncJob.status) ≠ "completed" →
  in_step db → in_step (completed_sync clock snap_id sid jid rid snapshot db).
Proof.
  intros Hj <- Hst [Hn Hshow Hcount]. unfold completed_sync. set (row := mkSnapshotRow _ _ _ _ _).
  set (started := on_job jid (SyncJob.start (clock 0%nat)) db).
  set (db3 := match pool_of _ db, _ with Some _, Some _ => _ | _, _ => _ end).
  assert (sd_servers db3 = (λ s, if String.eqb s.(Server.id) (SyncJob.server_id j) then apply_snapshot snapshot s else s) <$> sd_servers db
    ∧ sd_jobs db3 = sd_jobs started ∧ sd_snapshots db3 = sd_snapshots db ++ [row]) as (Es & Ej & Er).
  { unfold db3. destruct (pool_of _ db) as [p|]; [destruct (sp_used_ips _)|]; done. }
  assert (job_row db3 jid = Some (SyncJob.start (clock 0%nat) j)) as Hj3.
  { unfold job_row. rewrite Ej. by apply (job_row_on_job db jid _ j). }
  assert (NoDup (SyncJob.id <$> sd_jobs db3)) as Hn3 by (rewrite Ej; cbn; by rewrite on_job_ids).
  split.
  - cbn. by rewrite on_job_ids.
  - intros s Hs. cbn in Hs. rewrite Es in Hs. apply list_elem_of_fmap in Hs as (x & -> & Hx).
    unfold rows_of. cbn [on_job sd_snapshots]. rewrite Er, last_rows_snoc. cbn [row sr_server_id].
    destruct (apply_snapshot_shows snap_id rid x snapshot) as [Hsh Hid].
    destruct (String.eqb_spec (Server.id x) (SyncJob.server_id j)) as [E|E].
    + rewrite Hid, <- E, String.eqb_refl. rewrite <- E in *. exact Hsh.
    + rewrite (proj2 (String.eqb_neq _ _)) by congruence. by apply Hshow.
  - intros sid. cbn [on_job sd_jobs]. rewrite (countZ_update_key _ _ _ _ _ _ Hn3 Hj3), Ej. cbn [started on_job sd_jobs].
    rewrite (countZ_update_key _ _ _ _ _ _ Hn Hj), Hcount. unfold rows_of. cbn [on_job sd_snapshots]. rewrite Er.
    rewrite filter_app, filter_cons, filter_nil, length_app. unfold completed_for. cbn.
    rewrite (proj2 (String.eqb_neq _ _) Hst), !andb_false_r, andb_true_r.
    case_decide as E; cbn in E; [rewrite E|apply not_true_is_false in E; rewrite E]; cbn; lia.
Qed.

Lemma job_row_fresh db jid : job_row db jid = None → jid ∉ SyncJob.id <$> db.(sd_jobs).
Proof.
  unfold job_row. intros Hf (j & -> & Hj)%list_elem_of_fmap.
  apply list_elem_of_In, (List.find_none _ _ Hf) in Hj. by rewrite String.eqb_refl in Hj.
Qed.

Lemma find_app {A} (p : A → bool) l1 l2 :
  List.find p (l1 ++ l2) = match List.find p l1 with Some x => Some x | None => List.find p l2 end.
Proof. induction l1 as [|a l1 IH]; [done|]. cbn. by destruct (p a). Qed.

Lemma job_row_add db j : job_row db j.(SyncJob.id) = None → job_row (add_job j db) j.(SyncJob.id) = Some j.
Proof. unfold job_row. cbn. intros Hf. rewrite find_app, Hf. cbn. by rewrite String.eqb_refl. Qed.

Lemma in_step_add_job j db :
  job_row db j.(SyncJob.id) = None → j.(SyncJob.status) ≠ "completed" → in_step db → in_step (add_job j db).
Proof.
  intros Hf Hst [Hn Hshow Hcount]. split; [|done|].
  - cbn. rewrite fmap_app. apply NoDup_app. split_and!; [done| |apply NoDup_singleton].
    intros x Hx ->%list_elem_of_singleton. by eapply job_row_fresh.
  - intros sid. cbn. rewrite countZ_app, Hcount, countZ_cons. unfold completed_for at 1.
    rewrite (proj2 (String.eqb_neq _ _) Hst), andb_false_r, countZ_nil. unfold rows_of. cbn. lia.
Qed.

Lemma in_step_failed clock sid jid err db j :
  job_row db jid = Some j → j.(SyncJob.status) ≠ "completed" →
  in_step db → in_step (failed_sync clock sid jid err db).
Proof.
  intros Hj Hst Hok. unfold failed_sync.
  assert (in_step (on_job jid (SyncJob.finish "failed" (clock 2%nat) (Some err)) (on_job jid (SyncJob.start (clock 0%nat)) db))).
  { apply (in_step_on_job _ _ _ (SyncJob.start (clock 0%nat) j)); [done..|by apply job_row_on_job|done|done|].
    by apply (in_step_on_job _ _ _ j). }
  destruct (contains _ _); [|done]. by apply in_step_on_server.
Qed.

Section in_step.
Context (settings : Settings) (auto_sync_interval_sec : string → option Z).
Context {W : Type} `{NodeRuntimeAdapter W} `{NodeDirectory W} `{ContainerStats W}.

Lemma one_sync_in_step c sid (w : W) db b :
  in_step db → in_step (_run_one_sync settings c sid (w, db, b)).1.2.
Proof.
  intros Hok. unfold _run_one_sync. destruct (_should_skip _ _ _); [done|].
  destruct (server_row db sid) as [s|] eqn:Es; [|done]. destruct (job_row db (sc_job c)) eqn:Ej; [done|].
  set (j := SyncJob.mk _ _ _ _ _ _ _ _ _).
  destruct (run_sync_for_server _ _ _ _ _ _) as [[w' db'] r] eqn:E.
  assert (job_row (add_job j db) (sc_job c) = Some j) as Hj by by apply (job_row_add db j).
  apply (run_sync_cases _ _ _ _ _ _ _ _ _ _ s j) in E; [|done..].
  assert (in_step (add_job j db)) as Hok' by by apply in_step_add_job.
  assert (in_step db') as Hdb.
  { destruct E as [(e & _ & -> & _)|[(err & _ & -> & _)|(sn & _ & _ & _ & ->)]]; [done|by eapply in_step_failed|by eapply in_step_completed]. }
  by destruct r as [[[|] ?]|].
Qed.

(** C28: rows and snapshots stay in step.  Whatever the runtime answers, a turn of
    the loop keeps this: each server shows the time, status and key of its last
    snapshot, or was never synchronised, and has one snapshot for each completed
    job. *)
Theorem sync_turn_in_step now calls (st : W * sync_db * backoff) :
  in_step st.1.2 → in_step (sync_turn settings auto_sync_interval_sec now calls st).1.2.
Proof using Type*.
  unfold sync_turn. generalize (_server_ids_due_for_sync settings auto_sync_interval_sec
    (loop_servers settings (sd_servers st.1.2)) now). intros due. revert st.
  induction due as [|sid due IH]; intros [[w db] b] Hok; [done|]. cbn [foldl]. by apply IH, one_sync_in_step.
Qed.
End in_step.

(** ** The loop in production *)

(** A turn with the adapter of the agent mode, wrapped as both processes do. *)
Definition production_turn (settings : Settings) (intervals : string → option Z) :=
  @sync_turn settings intervals agent_world (@timing_adapter agent_world (agent_adapter agent_world))
    (@timing_directory agent_world agent_directory) timing_stats.

Definition silent (w : agent_world) : Prop :=
  ∃ s, s ∈ w.(aw_servers) ∧ s.(Server.is_active) = true ∧ w.(aw_heartbeat) s.(Server.id) = None.

Lemma silent_discovery w : silent w → ∃ e, AgentRuntime.discover_nodes w.(aw_heartbeat) w.(aw_servers) = Err e.
Proof.
  intros (s & Hs & Ha & Hh). pose proof (discover_nodes_all_or_nothing w.(aw_heartbeat) w.(aw_servers)) as Hd.
  destruct (AgentRuntime.discover_nodes _ _) as [ns|e]; [|by eexists]. destruct Hd as [Hall _].
  rewrite Forall_forall in Hall. specialize (Hall s). unfold heard in Hall. rewrite Hh in Hall.
  discriminate Hall. by apply elem_of_filterb.
Qed.

(** The state after any number of synchronisations that raised. *)
Definition stuck (db0 : sync_db) (w0 : agent_world) (st : agent_world * sync_db * backoff) : Prop :=
  let '(w, db, b) := st in
  w = w0 ∧ db.(sd_servers) = db0.(sd_servers) ∧ db.(sd_snapshots) = db0.(sd_snapshots) ∧
  db.(sd_pools) = db0.(sd_pools) ∧
  ∃ new, db.(sd_jobs) = db0.(sd_jobs) ++ new ∧ Forall (λ j, j.(SyncJob.status) = "pending") new.

Definition production_sync (settings : Settings) : sync_call → string → agent_world * sync_db * backoff → _ :=
  @_run_one_sync settings agent_world (@timing_adapter agent_world (agent_adapter agent_world))
    (@timing_directory agent_world agent_directory) timing_stats.

Lemma production_sync_stuck settings c sid db0 w0 st :
  silent w0 → stuck db0 w0 st →
  let st' := production_sync settings c sid st in
  stuck db0 w0 st' ∧ (∀ i, is_Some (st.2 !! i) → is_Some (st'.2 !! i)) ∧ is_Some (st'.2 !! sid).
Proof.
  destruct st as [[w db] b]. intros Hw (-> & Hs & Hr & Hp & new & Hj & Hnew). cbn zeta.
  assert (∀ i, is_Some (b !! i) → is_Some (_record_failure settings (sc_end c) sid b !! i)) as Hmono.
  { intros i Hi. unfold _record_failure. by apply lookup_insert_is_Some'; right. }
  assert (is_Some (_record_failure settings (sc_end c) sid b !! sid)) as Hself.
  { unfold _record_failure. by apply lookup_insert_is_Some'; left. }
  assert (stuck db0 w0 (w0, db, b)) as Hst by (split_and!; eauto).
  unfold production_sync, _run_one_sync. destruct (_should_skip _ _ _) eqn:Esk.
  { split_and!; [done..|]. cbn. unfold _should_skip in Esk. by destruct (b !! sid). }
  destruct (server_row db sid) as [s|] eqn:Es; [|by split_and!]. destruct (job_row db (sc_job c)) eqn:Ej; [by split_and!|].
  set (j := SyncJob.mk _ _ _ _ _ _ _ _ _).
  destruct (@run_sync_for_server _ _ _ _ _ _ _ _ _ _) as [[w' db'] r] eqn:E.
  assert (w' = w0 ∧ db' = add_job j db ∧ ∃ e, r = Err e) as (-> & -> & e & ->).
  { unfold run_sync_for_server in E. change (server_row (add_job j db) sid) with (server_row db sid) in E.
    assert (job_row (add_job j db) (sc_job c) = Some j) as Hjj by by apply (job_row_add db j).
    rewrite Hjj, Es in E. cbn [j SyncJob.server_id] in E. rewrite String.eqb_refl in E. cbn [negb] in E.
    unfold build_snapshot_from_node, node_for_snapshot in E. cbn in E.
    destruct (silent_discovery w0 Hw) as [e He]. rewrite He in E. cbn in E. injection E as <- <- <-. by eauto. }
  split_and!; [|done..]. unfold stuck. split_and!; [done..|]. exists (new ++ [j]). cbn. rewrite Hj, app_assoc.
  split; [done|]. apply Forall_app. split; [done|]. by repeat constructor.
Qed.


(** ** A key that nobody reports *)

Lemma server_row_on_server db sid f s :
  (∀ x, (f x).(Server.id) = x.(Server.id)) → server_row db sid = Some s → server_row (on_server sid f db) sid = Some (f s).
Proof.
  intros Hf. unfold server_row. destruct db as [ss js rs ps]. cbn. induction ss as [|x ss IH]; [done|]. cbn.
  destruct (String.eqb (Server.id x) sid) eqn:E; cbn; [|by rewrite E].
  rewrite Hf, E. by intros [= ->].
Qed.

Lemma completed_server clock snap_id sid jid rid snapshot db s :
  server_row db sid = Some s →
  server_row (completed_sync clock snap_id sid jid rid snapshot db) sid = Some (apply_snapshot snapshot s).
Proof.
  intros Hs. unfold completed_sync.
  set (db2 := on_server _ _ _). assert (server_row db2 sid = Some (apply_snapshot snapshot s)) as Hd.
  { apply server_row_on_server; [|done]. intros x. by destruct (apply_snapshot_shows "" None x snapshot). }
  destruct (pool_of _ _) as [p|]; [destruct (sp_used_ips _)|]; exact Hd.
Qed.

(** The node the production adapter finds for a server that is heard. *)
Lemma production_node w s hb :
  NoDup (Server.id <$> w.(aw_servers)) → ¬ silent w → s ∈ w.(aw_servers) → s.(Server.is_active) = true →
  w.(aw_heartbeat) s.(Server.id) = Some hb →
  ∃ n, discover_node w.(aw_heartbeat) s = Ok n ∧
    @node_for_snapshot agent_world (@timing_directory agent_world agent_directory) s.(Server.id) s w = (w, Ok (Some n)).
Proof.
  intros Hn Hw Hs Ha Hh. unfold node_for_snapshot. cbn.
  destruct (AgentRuntime.discover_nodes (aw_heartbeat w) (aw_servers w)) as [nodes|e] eqn:Ed; cycle 1.
  { exfalso. pose proof (discover_nodes_all_or_nothing (aw_heartbeat w) (aw_servers w)) as Hd. rewrite Ed in Hd.
    destruct Hd as (_ & x & Hx). apply Hw. by exists x. }
  apply map_res_Forall2 in Ed. cbn. unfold find_in_discovery.
  assert (∀ x n, discover_node w.(aw_heartbeat) x = Ok n → n.(node_id) = x.(Server.id)) as Hid.
  { intros x n E. unfold discover_node in E. destruct (aw_heartbeat w (Server.id x)); [|done]. by injection E as <-. }
  destruct (List.find (λ n, String.eqb n.(node_id) s.(Server.id)) nodes) as [n|] eqn:Ef.
  - exists n. split; [|done]. apply List.find_some in Ef as [Hin%list_elem_of_In Hk%String.eqb_eq].
    apply list_elem_of_lookup_1 in Hin as [k Hk'].
    eapply Forall2_lookup_r in Ed as (x & Hx & Hxn); [|done].
    apply list_elem_of_lookup_2, elem_of_filterb in Hx as [_ Hx]. pose proof (Hid _ _ Hxn) as Hidn.
    replace s with x; [done|]. eapply (NoDup_fmap_inj Server.id); [exact Hn|done|done|congruence].
  - exfalso. assert (s ∈ filterb Server.is_active (aw_servers w)) as Hin by by apply elem_of_filterb.
    apply list_elem_of_lookup_1 in Hin as [k Hk]. eapply Forall2_lookup_l in Ed as (n & Hnk & Hn'); [|done].
    apply list_elem_of_lookup_2, list_elem_of_In, (List.find_none _ _ Ef) in Hnk.
    cbn beta in Hnk. by rewrite (Hid _ _ Hn'), String.eqb_refl in Hnk.
Qed.

(** A synchronisation renews the key it found in the database.  In production,
    when the agent of a server reports no key, a synchronisation takes the stored
    one for the key of the node: it succeeds, calls the key verified, and for an
    hour the issuing of configurations accepts it, however old it is. *)
Theorem sync_renews_stored_key clock snap_id jid rid w db s job hb k keys fallbacks now :
  server_row db s.(Server.id) = Some s → job_row db jid = Some job → job.(SyncJob.server_id) = s.(Server.id) →
  NoDup (Server.id <$> w.(aw_servers)) → ¬ silent w → s ∈ w.(aw_servers) → s.(Server.is_active) = true →
  w.(aw_heartbeat) s.(Server.id) = Some hb → hb.(hb_public_key) = "" →
  s.(Server.public_key) = Some k → long_key (strip k) = true →
  first_key keys (ids_to_try s.(Server.id) fallbacks) = None → now - clock 1%nat ≤ seconds FALLBACK_KEY_MAX_AGE_SECONDS →
  let '(_, db', r) := @run_sync_for_server agent_world (@timing_adapter agent_world (agent_adapter agent_world))
    (@timing_directory agent_world agent_directory) timing_stats clock snap_id s.(Server.id) jid rid (w, db) in
  r = Ok (true, None) ∧
  ∃ s', server_row db' s.(Server.id) = Some s' ∧ s'.(Server.key_status) = Some "verified" ∧
    live_key_agent (Held keys) now s.(Server.id) fallbacks s'.(Server.public_key) s'.(Server.public_key_synced_at) =
      Ok (mkLiveKey (strip k) s.(Server.id) now).
Proof.
  intros Hs Hj Hjs Hn Hw Hin Ha Hh Hk0 Hk Hl Hf Ht.
  destruct (production_node w s hb Hn Hw Hin Ha Hh) as (n & Hdn & Hnode).
  destruct (@run_sync_for_server _ _ _ _ _ _ _ _ _ _) as [[w' db'] r] eqn:E.
  apply (run_sync_cases _ _ _ _ _ _ _ _ _ _ s job) in E; [|done..].
  unfold build_snapshot_from_node in E. rewrite Hnode in E. cbn in E.
  assert (k ≠ "") as Hke by (intros ->; done).
  assert (str_truthy k = true) as Hkt by by apply str_truthy_true.
  assert (Node.public_key n = k) as Hnk.
  { unfold discover_node in Hdn. rewrite Hh in Hdn. injection Hdn as <-. cbn.
    unfold str_or. rewrite Hk0, Hk. unfold ostr_or. cbn. by rewrite Hkt. }
  destruct E as [(e & _ & _ & E)|[(err & _ & _ & E)|(sn & -> & Hts & E & ->)]].
  - done.
  - done.
  - injection E as <-. split; [done|]. eexists. split; [by apply completed_server|].
    unfold apply_snapshot. cbn. cbn in Hts. unfold nonempty. rewrite Hnk, Hkt. cbn. rewrite Hkt. cbn.
    split; [done|]. unfold live_key_agent. rewrite Hf. unfold db_fallback. cbn [default from_option]. unfold id.
    assert (str_truthy (strip k) = true) as ->.
    { apply str_truthy_true. intros Hke'. by rewrite Hke' in Hl. }
    rewrite Hl. by rewrite (proj2 (Z.ltb_ge _ _)).
Qed.

(** ** Examples *)

Definition old_key : string := "OLD0000000000000000000000000000000000000000=".
Definition wit_server (i : string) : Server.t :=
  Server.mk i i "eu" "" None (Some old_key) None None None None None "online" true None None None false None
    (Some 0) (Some "verified").
Definition keyless (i : string) : AgentHeartbeatIn :=
  mkHeartbeat i i "awg0" "" 51820 3 0 0 (lit 9 1) "healthy" [] None.
Definition heard_only (ids : list string) (i : string) : option AgentHeartbeatIn :=
  if str_in i ids then Some (keyless i) else None.
Definition two_servers : list Server.t := [wit_server "s1"; wit_server "s2"].
Definition pending_job : SyncJob.t := SyncJob.mk "j1" "s1" "auto" "sync" "pending" None None None None.
Definition wit_db : sync_db := mkSyncDb two_servers [pending_job] [] [].
Definition wit_clock (_ : nat) : Z := days 30.

Lemma not_silent_all : ¬ silent (mkAgentWorld two_servers (heard_only ["s1"; "s2"])).
Proof.
  intros (s & Hs & _ & Hh). cbn in Hs. apply elem_of_cons in Hs as [->|Hs]; [done|].
  by apply list_elem_of_singleton in Hs as ->.
Qed.

Lemma sync_renews_stored_key_witness :
  live_key_agent (Held []) (days 30) "s1" [] (Some old_key) (Some 0) = Err (ServerNotSyncedError "s1" no_heartbeat_reason) ∧
  (@run_sync_for_server agent_world (@timing_adapter agent_world (agent_adapter agent_world))
    (@timing_directory agent_world agent_directory) timing_stats wit_clock "x1" "s1" "j1" None
    (mkAgentWorld two_servers (heard_only ["s1"; "s2"]), wit_db)).2 = Ok (true, None).
Proof.
  split; [vm_compute; reflexivity|].
  pose proof (sync_renews_stored_key wit_clock "x1" "j1" None (mkAgentWorld two_servers (heard_only ["s1"; "s2"])) wit_db
    (wit_server "s1") pending_job (keyless "s1") old_key [] [] (days 30)) as Hw.
  destruct (run_sync_for_server _ _ _ _ _ _) as [[w' db'] r]. apply Hw; try done.
  - by apply (bool_decide_unpack _).
  - exact not_silent_all.
  - left.
Defined.

Definition wit_calls (i : string) : sync_call := mkCall (days 30) wit_clock (days 30) ("job-" +:+ i) ("snap-" +:+ i).


(** The adapter without its wrapper looks up one node at a time: the server that is
    heard is synchronised. *)
Example unwrapped_adapter_syncs :
  let '(_, db', _) := @sync_turn default_settings (λ _, None) agent_world (agent_adapter agent_world) agent_directory
    timing_stats (days 30) wit_calls (mkAgentWorld two_servers (heard_only ["s1"]), wit_db, ∅) in
  Server.last_snapshot_at <$> db'.(sd_servers) = [Some (days 30); Some (days 30)].
Proof. vm_compute. reflexivity. Qed.

Lemma sync_turn_in_step_witness :
  in_step (production_turn default_settings (λ _, None) (days 30) wit_calls
             (mkAgentWorld two_servers (heard_only ["s1"; "s2"]), wit_db, ∅)).1.2.
Proof.
  apply (sync_turn_in_step default_settings (λ _, None) (days 30) wit_calls
    (mkAgentWorld two_servers (heard_only ["s1"; "s2"]), wit_db, ∅)). split.
  - apply NoDup_singleton.
  - intros s [->|Hs]%elem_of_cons; [done|]. by apply list_elem_of_singleton in Hs as ->.
  - intros sid. change (sd_jobs _) with [pending_job]. rewrite countZ_cons. unfold completed_for at 1.
    by rewrite andb_false_r.
Defined.

(** ** How long a failing server is left alone *)

Lemma backoff_delay_bounds settings n : 1 ≤ n → 60 ≤ backoff_delay settings n ≤ BACKOFF_MAX settings.
Proof.
  intros Hn. unfold backoff_delay, BACKOFF_MAX. pose proof (Z.pow_pos_nonneg 2 (n - 1)). lia.
Qed.

(** After [n] failures in a row, the last at [t], it is skipped until the delay of
    the [n]th has passed, whatever else failed in between. *)
Definition failures (settings : Settings) (sid : string) (ts : list Z) (b : backoff) : backoff :=
  foldl (λ b t, _record_failure settings t sid b) b ts.

Lemma record_failure_at settings t sid b :
  _record_failure settings t sid b !! sid =
    let n := (default (0, 0) (b !! sid)).2 + 1 in Some (t + seconds (backoff_delay settings n), n).
Proof. unfold _record_failure. by rewrite lookup_insert_eq. Qed.

Lemma failures_count settings sid ts b :
  b !! sid = None → (default (0, 0) (failures settings sid ts b !! sid)).2 = Z.of_nat (length ts).
Proof.
  intros Hb. unfold failures. induction ts as [|x ts IH] using rev_ind; [cbn; by rewrite Hb|].
  rewrite foldl_app, length_app. cbn [foldl length]. rewrite record_failure_at. cbn zeta. rewrite IH.
  cbn [default from_option]. unfold id. cbn [snd]. lia.
Qed.

Lemma failures_skip settings sid ts t b now :
  b !! sid = None →
  _should_skip now sid (failures settings sid (ts ++ [t]) b) =
    (now <? t + seconds (backoff_delay settings (Z.of_nat (length ts) + 1))).
Proof.
  intros Hb. unfold _should_skip, failures. rewrite foldl_app. cbn [foldl]. rewrite record_failure_at. cbn zeta.
  fold (failures settings sid ts b). by rewrite failures_count.
Qed.

(** The whole table is asked for at most two hundred servers without an order, so
    a server beyond them is not synchronised, however long ago it was. *)
Example beyond_two_hundred :
  let servers := (λ i, Server.set_snapshot_at (days 30) (wit_server (str_of_Z (Z.of_nat i)))) <$> seq 0 200 in
  _server_ids_due_for_sync default_settings (λ _, None)
    (loop_servers default_settings (servers ++ [wit_server "late"])) (days 30) = [].
Proof. vm_compute. reflexivity. Qed.
