(* ===== verification/SyncApi.v ===== *)
(** * Requests to synchronise a server

    [api/v1/servers_sync.py]: in agent mode the request queues an action for the
    agent, otherwise it makes a job and runs it on the node; the answer is kept
    under the key of the request.  The audit row, the metrics and the cache of the
    list are left out. *)

From S2P Require Import Prelude PyFloat PyStr PyVal Settings Models Node Runtime RateLimit Download AgentApi AgentRuntime LiveKey ServerSync.
Open Scope Z_scope.

Record ServerSyncResponse : Type := mkSyncResponse {
  sy_request_id : string; sy_job_id : string; sy_action_id : option string
}.

(** [model_dump] and the schema that reads it back. *)
Definition dump_response (r : ServerSyncResponse) : pydict :=
  [("request_id", VStr r.(sy_request_id)); ("job_id", VStr r.(sy_job_id));
   ("action_id", match r.(sy_action_id) with Some a => VStr a | None => VNone end)].

Definition load_response (body : pydict) : option ServerSyncResponse :=
  match getv body "request_id", getv body "job_id", getv body "action_id" with
  | VStr r, VStr j, VStr a => Some (mkSyncResponse r j (Some a))
  | VStr r, VStr j, VNone => Some (mkSyncResponse r j None)
  | _, _, _ => None
  end.

(** A request: its identifier, its administrator, its body, its key, and what is
    drawn for it. *)
Record sync_request : Type := mkSyncRequest {
  sq_request_id : string; sq_admin : option string; sq_mode : string; sq_key : option string;
  sq_action_id : string; sq_job_id : string; sq_snapshot_id : string; sq_clock : nat → Z
}.

(** Redis, the nodes, the queue of actions and the tables of synchronisation. *)
Record sync_state (R W : Type) : Type := mkSyncState {
  st_redis : R; st_nodes : W; st_actions : agent_db; st_tables : sync_db
}.
Arguments mkSyncState {R W}. Arguments st_redis {R W}. Arguments st_nodes {R W}. Arguments st_actions {R W}. Arguments st_tables {R W}.

Section requests.
Context {R W : Type} `{!Redis R} `{NodeRuntimeAdapter W} `{NodeDirectory W} `{ContainerStats W}.
Context (settings : Settings) (sha256_hex : string → string).
Implicit Types (st : sync_state R W).

Definition remember_response (now : Z) (sid : string) (q : sync_request) (r : ServerSyncResponse) st : sync_state R W :=
  mkSyncState (store_idempotency_response sha256_hex settings now "servers.sync" sid q.(sq_key) (dump_response r) 200 None st.(st_redis))
    st.(st_nodes) st.(st_actions) st.(st_tables).

Definition agent_mode : bool :=
  String.eqb settings.(node_discovery) "agent" || String.eqb settings.(node_mode) "agent".

(** An action for the agent of the server. *)
Definition queue_sync_action (now : Z) (sid : string) (q : sync_request) st : sync_state R W * ServerSyncResponse :=
  let '(db, action) := create_action q.(sq_action_id) now sid "sync" (Some [("mode", VStr q.(sq_mode))]) q.(sq_admin)
                         (non_empty (Some q.(sq_request_id))) st.(st_actions) in
  (mkSyncState st.(st_redis) st.(st_nodes) db st.(st_tables),
   mkSyncResponse q.(sq_request_id) "" (Some action.(AgentAction.id))).

(** A job, which is committed before it is run. *)
Definition run_sync_job (sid : string) (q : sync_request) st : sync_state R W * res ServerSyncResponse :=
  match start_sync q.(sq_job_id) sid q.(sq_mode) (non_empty (Some q.(sq_request_id))) st.(st_tables) with
  | Err e => (st, Err e)
  | Ok db =>
      let '((w, db), r) := run_sync_for_server q.(sq_clock) q.(sq_snapshot_id) sid q.(sq_job_id)
                             (non_empty (Some q.(sq_request_id))) (st.(st_nodes), db) in
      (mkSyncState st.(st_redis) w st.(st_actions) db,
       '(success, err) ← r;
       if (success : bool) then Ok (mkSyncResponse q.(sq_request_id) q.(sq_job_id) None)
       else Err (HTTPException 502 ("Sync failed: " +:+ ostr_or err "unknown" +:+ ". request_id=" +:+ q.(sq_request_id))))
  end.

Definition trigger_server_sync (now : Z) (sid : string) (q : sync_request) st : sync_state R W * res ServerSyncResponse :=
  match server_row st.(st_tables) sid with
  | None => (st, Err not_found_404)
  | Some _ =>
      let '(v, cached) := get_cached_idempotency_response sha256_hex now "servers.sync" sid q.(sq_key) st.(st_redis) in
      let st := mkSyncState v st.(st_nodes) st.(st_actions) st.(st_tables) in
      match cached with
      | Some (_, body) =>
          (st, match load_response body with Some r => Ok r | None => Err (ValueError "ServerSyncResponse") end)
      | None =>
          if agent_mode then
            let '(st, r) := queue_sync_action now sid q st in (remember_response now sid q r st, Ok r)
          else
            let '(st, r) := run_sync_job sid q st in
            match r with
            | Ok resp => (remember_response now sid q resp st, Ok resp)
            | Err e => (st, Err e)
            end
      end
  end.

Definition get_server_sync_job (sid job_id : string) st : res SyncJob.t :=
  match server_row st.(st_tables) sid with
  | None => Err not_found_404
  | Some _ => match get_job_status sid job_id st.(st_tables) with Some j => Ok j | None => Err not_found_404 end
  end.

(** The newest snapshot; only successful ones are stored. *)
Definition get_server_last_snapshot (sid : string) st : res SnapshotRow :=
  match sorted_by (λ a b, b.(sr_ts_utc) <? a.(sr_ts_utc)) (filterb (λ s, String.eqb s.(sr_server_id) sid) st.(st_tables).(sd_snapshots)) with
  | s :: _ => Ok s
  | [] => Err not_found_404
  end.
End requests.

(** ** What is remembered *)

Lemma load_dump r : load_response (dump_response r) = Some r.
Proof. by destruct r as [? ? []]. Qed.

Lemma store_then_cached {R} `{!Redis R} (entry_of : R → string → option rentry) `{!RedisLaws R entry_of, !ReliableRedis R}
    sha256_hex settings now now' scope rid key k body status (v v2 : R) :
  _normalize_key (Some key) = Some k →
  let t := if settings.(idempotency_ttl_seconds) =? 0 then 86400 else settings.(idempotency_ttl_seconds) in
  let c := _cache_key sha256_hex scope rid k in
  let v1 := store_idempotency_response sha256_hex settings now scope rid (Some key) body status None v in
  entry_of v2 c = entry_of v1 c → now' < now + seconds (Z.max 1 t) →
  ∃ v3, get_cached_idempotency_response sha256_hex now' scope rid (Some key) v2 = (v3, Some (status, body)).
Proof.
  intros Hk t c v1 Hsame Hlt. unfold get_cached_idempotency_response. rewrite Hk.
  assert (v1 = (setex now c (Z.max 1 t) (Payload status body) v).1) as Hv1.
  { unfold v1, store_idempotency_response. by rewrite Hk. }
  rewrite Hv1 in Hsame. clear Hv1 v1. fold c. destruct (setex now c (Z.max 1 t) (Payload status body) v) as [v1 [u|]] eqn:Es; cycle 1.
  { pose proof (setex_total now c (Z.max 1 t) (Payload status body) v) as Ht. by rewrite Es in Ht. }
  apply setex_ok in Es as [Es _]. cbn [fst] in Hsame. rewrite Es in Hsame.
  destruct (rget now' c v2) as [v3 [x|]] eqn:Eg; cycle 1.
  { pose proof (rget_total now' c v2) as Ht. by rewrite Eg in Ht. }
  exists v3. apply rget_ok in Eg as ->. rewrite Hsame. cbn.
  by destruct (Z.leb_spec (now + seconds (Z.max 1 t)) now'); [lia|].
Qed.

Section once.
Context {R W : Type} `{!Redis R} `{NodeRuntimeAdapter W} `{LiveKey.NodeDirectory W} `{ContainerStats W}.
Context (entry_of : R → string → option rentry) `{!RedisLaws R entry_of, !ReliableRedis R}.
Context (settings : Settings) (sha256_hex : string → string).
Implicit Types (st : sync_state R W).

Definition sync_key (sid k : string) : string := _cache_key sha256_hex "servers.sync" sid k.
Definition sync_ttl : Z :=
  Z.max 1 (if settings.(idempotency_ttl_seconds) =? 0 then 86400 else settings.(idempotency_ttl_seconds)).

(** A fresh request goes through to its work. *)
Lemma fresh_request now sid q st k :
  q.(sq_key) = Some k → (∀ k', _normalize_key (Some k) = Some k' → entry_of st.(st_redis) (sync_key sid k') = None) →
  is_Some (server_row st.(st_tables) sid) →
  ∃ v, (∀ c, entry_of v c = entry_of st.(st_redis) c) ∧
    trigger_server_sync settings sha256_hex now sid q st =
      (let st := mkSyncState v st.(st_nodes) st.(st_actions) st.(st_tables) in
       if agent_mode settings then
         let '(st, r) := queue_sync_action now sid q st in (remember_response settings sha256_hex now sid q r st, Ok r)
       else
         let '(st, r) := run_sync_job sid q st in
         match r with
         | Ok resp => (remember_response settings sha256_hex now sid q resp st, Ok resp)
         | Err e => (st, Err e)
         end).
Proof using Type*.
  intros Hk Hfresh [s Hs]. unfold sync_key in Hfresh. unfold trigger_server_sync. rewrite Hs, Hk. unfold get_cached_idempotency_response.
  destruct (_normalize_key (Some k)) as [k'|] eqn:En; [|by exists st.(st_redis)].
  destruct (rget now (_cache_key sha256_hex "servers.sync" sid k') (st_redis st)) as [v x] eqn:Eg.
  exists v. split; [by eapply rget_pure|]. destruct x as [x|e]; [|done].
  apply rget_ok in Eg as ->. by rewrite (Hfresh k' eq_refl).
Qed.

(** A request with a key that has an answer gets the answer and does nothing. *)
Lemma remembered_request now now' sid q q' st st' k key key' r :
  q.(sq_key) = Some key → q'.(sq_key) = Some key' → _normalize_key (Some key) = Some k → _normalize_key (Some key') = Some k →
  entry_of st'.(st_redis) (sync_key sid k) = entry_of (remember_response settings sha256_hex now sid q r st).(st_redis) (sync_key sid k) →
  is_Some (server_row st'.(st_tables) sid) → now' < now + seconds sync_ttl →
  ∃ v, trigger_server_sync settings sha256_hex now' sid q' st' =
       (mkSyncState v st'.(st_nodes) st'.(st_actions) st'.(st_tables), Ok r).
Proof using Type*.
  intros Hq Hq' Hk Hk' Hsame [s Hs] Hlt. unfold trigger_server_sync. rewrite Hs, Hq'.
  unfold remember_response in Hsame. cbn [st_redis] in Hsame. rewrite Hq in Hsame.
  assert (∃ v, get_cached_idempotency_response sha256_hex now' "servers.sync" sid (Some key') (st_redis st') =
               (v, Some (200, dump_response r))) as [v Hv].
  { unfold get_cached_idempotency_response. rewrite Hk'.
    destruct (store_then_cached entry_of sha256_hex settings now now' "servers.sync" sid key k (dump_response r) 200
      (st_redis st) (st_redis st') Hk Hsame Hlt) as [v Hv].
    unfold get_cached_idempotency_response in Hv. rewrite Hk in Hv. by exists v. }
  exists v. by rewrite Hv, load_dump.
Qed.

(** What a request that is accepted did. *)
Definition accepted_work (now : Z) (sid : string) (q : sync_request) (r : ServerSyncResponse) st st1 : Prop :=
  if agent_mode settings then
    r = mkSyncResponse q.(sq_request_id) "" (Some q.(sq_action_id)) ∧ st1.(st_nodes) = st.(st_nodes) ∧ st1.(st_tables) = st.(st_tables) ∧
    st1.(st_actions).(actions) = st.(st_actions).(actions) ++
      [AgentAction.mk q.(sq_action_id) sid "sync" (Some [("mode", VStr q.(sq_mode))]) "pending" q.(sq_admin) now None None None
         (non_empty (Some q.(sq_request_id)))]
  else
    r = mkSyncResponse q.(sq_request_id) q.(sq_job_id) None ∧ st1.(st_actions) = st.(st_actions) ∧
    ∃ server snapshot,
      server_row st.(st_tables) sid = Some server ∧
      st1.(st_tables) = completed_sync q.(sq_clock) q.(sq_snapshot_id) sid q.(sq_job_id) (non_empty (Some q.(sq_request_id))) snapshot
        (add_job (SyncJob.mk q.(sq_job_id) sid q.(sq_mode) "sync" "pending" None None (non_empty (Some q.(sq_request_id))) None) st.(st_tables)).

Lemma accepted_request now sid q st st1 r k :
  q.(sq_key) = Some k → (∀ k', _normalize_key (Some k) = Some k' → entry_of st.(st_redis) (sync_key sid k') = None) →
  job_row st.(st_tables) q.(sq_job_id) = None →
  trigger_server_sync settings sha256_hex now sid q st = (st1, Ok r) →
  accepted_work now sid q r st st1 ∧
  ∃ st0, st1 = remember_response settings sha256_hex now sid q r st0.
Proof using Type*.
  intros Hk Hfresh Hj E. unfold accepted_work.
  destruct (server_row (st_tables st) sid) as [s|] eqn:Hs.
  2: { unfold trigger_server_sync in E. by rewrite Hs in E. }
  destruct (fresh_request now sid q st k Hk Hfresh) as (v & _ & Et); [by rewrite Hs|].
  rewrite Et in E. clear Et. cbv zeta in E. destruct (agent_mode settings).
  { cbn in E. injection E as <- <-. split; [done|by eexists]. }
  unfold run_sync_job, start_sync in E. cbn [st_tables st_nodes] in E. rewrite Hs in E.
  destruct (run_sync_for_server _ _ _ _ _ _) as [[w' db'] x] eqn:Er.
  eapply run_sync_cases in Er; [|exact Hs|by apply (job_row_add _ (SyncJob.mk q.(sq_job_id) _ _ _ _ _ _ _ _))|done].
  destruct Er as [(e & -> & _)|[(err & -> & _)|(snapshot & -> & _ & _ & ->)]]; [done..|].
  cbn in E. injection E as <- <-. split; [|by eexists]. split_and!; [done..|]. by exists s, snapshot.
Qed.
End once.

(** A synchronisation asked for once is done once.  When a request with a fresh
    key is accepted, it queued one action for the agent, or made one job, stored
    one snapshot and completed the job, and nothing else; every later request with
    the same key, whatever its body, gets the same answer until the answer
    expires, and touches no node, no action and no row. *)
Theorem sync_request_once {R W} `{!Redis R} `{NodeRuntimeAdapter W} `{LiveKey.NodeDirectory W} `{ContainerStats W}
    (entry_of : R → string → option rentry) `{!RedisLaws R entry_of, !ReliableRedis R}
    settings sha256_hex now now' sid q q' key key' k (st st1 st' : sync_state R W) r :
  q.(sq_key) = Some key → q'.(sq_key) = Some key' → _normalize_key (Some key) = Some k → _normalize_key (Some key') = Some k →
  entry_of st.(st_redis) (sync_key sha256_hex sid k) = None → job_row st.(st_tables) q.(sq_job_id) = None →
  trigger_server_sync settings sha256_hex now sid q st = (st1, Ok r) →
  entry_of st'.(st_redis) (sync_key sha256_hex sid k) = entry_of st1.(st_redis) (sync_key sha256_hex sid k) →
  is_Some (server_row st'.(st_tables) sid) → now' < now + seconds (sync_ttl settings) →
  accepted_work settings now sid q r st st1 ∧
  ∃ v, trigger_server_sync settings sha256_hex now' sid q' st' =
       (mkSyncState v st'.(st_nodes) st'.(st_actions) st'.(st_tables), Ok r).
Proof.
  intros Hq Hq' Hk Hk' Hfresh Hj E Hsame Hs Hlt.
  eapply (accepted_request entry_of) in E as (Hw & st0 & ->); [|exact Hq| |exact Hj].
  2: { intros x Hx. rewrite Hk in Hx. by injection Hx as <-. }
  split; [exact Hw|]. by apply (remembered_request entry_of settings sha256_hex now now' sid q q' st0 st' k key key' r).
Qed.

(** A request that fails is not remembered: the next one tries again, and the job
    of the first stays. *)
Lemma failed_request_not_remembered {R W} `{!Redis R} `{NodeRuntimeAdapter W} `{LiveKey.NodeDirectory W} `{ContainerStats W}
    (entry_of : R → string → option rentry) `{!RedisLaws R entry_of}
    settings sha256_hex now sid q (st st1 : sync_state R W) e :
  trigger_server_sync settings sha256_hex now sid q st = (st1, Err e) → ∀ c, entry_of st1.(st_redis) c = entry_of st.(st_redis) c.
Proof.
  unfold trigger_server_sync. destruct (server_row _ _); [|by intros [= <- _]].
  destruct (get_cached_idempotency_response _ _ _ _ _ _) as [v cached] eqn:Ec.
  assert (∀ c, entry_of v c = entry_of st.(st_redis) c) as Hv.
  { unfold get_cached_idempotency_response in Ec. destruct (_normalize_key _); [|by injection Ec as <- _].
    destruct (rget _ _ _) as [v' x] eqn:Eg. injection Ec as <- _. by eapply rget_pure. }
  destruct cached as [[s b]|]; [by intros [= <- _]|]. destruct (agent_mode _); [done|].
  unfold run_sync_job. destruct (start_sync _ _ _ _ _) as [db|]; [|by intros [= <- _]]. cbn [st_nodes].
  destruct (run_sync_for_server _ _ _ _ _ _) as [[w' db'] x].
  destruct (x ≫= _) as [resp|]; by intros [= <- _].
Qed.

(** ** Examples *)

Definition wit_request (key : option string) (mode jid : string) : sync_request :=
  mkSyncRequest "r1" (Some "admin") mode key "a1" jid "x1" wit_clock.

Definition wit_sync_state : sync_state steady_store agent_world :=
  mkSyncState (mkSteadyStore ∅) (mkAgentWorld two_servers (heard_only ["s1"; "s2"])) (mkAgentDb [] [] [] [] [] [])
    (mkSyncDb two_servers [] [] []).

Definition wit_trigger (settings : Settings) :=
  @trigger_server_sync steady_store agent_world _ (agent_adapter agent_world) agent_directory timing_stats settings (λ s, s).

Lemma sync_request_once_witness :
  let first := wit_trigger default_settings 0 "s1" (wit_request (Some "k1") "manual" "j1") wit_sync_state in
  ∃ r v, first.2 = Ok r ∧
    wit_trigger default_settings (hours 23) "s1" (wit_request (Some " k1") "auto" "j2") first.1 =
      (mkSyncState v first.1.(st_nodes) first.1.(st_actions) first.1.(st_tables), Ok r).
Proof.
  intros first. destruct first as [st1 r1] eqn:E. subst first.
  assert (r1 = Ok (mkSyncResponse "r1" "j1" None)) as ->.
  { apply (f_equal snd) in E. cbn [snd] in E. rewrite <- E. vm_compute. reflexivity. }
  exists (mkSyncResponse "r1" "j1" None).
  destruct (@sync_request_once steady_store agent_world _ (agent_adapter agent_world) agent_directory timing_stats steady_entry _ _
    default_settings (λ s, s) 0 (hours 23) "s1" (wit_request (Some "k1") "manual" "j1") (wit_request (Some " k1") "auto" "j2")
    "k1" " k1" "k1" wit_sync_state st1 st1 (mkSyncResponse "r1" "j1" None)) as [_ [v Hv]]; try done.
  - apply (f_equal fst) in E. cbn [fst] in E. subst st1. vm_compute. by eexists.
  - by exists v.
Defined.

(** A host without containers. *)
Definition empty_host : LiveKey.NodeDirectory agent_world :=
  {| LiveKey.get_node_for_sync := None; LiveKey.discover_nodes := λ w, (w, Ok []);
     LiveKey.get_obfuscation_from_node := λ _ w, (w, Ok None); ensure_reply_routes := None |}.

(** Where the node is gone each request leaves a failed job and answers 502, also
    under one key. *)
Example failing_requests_pile_up :
  let trigger := @trigger_server_sync steady_store agent_world _ (agent_adapter agent_world) empty_host timing_stats
                   default_settings (λ s, s) in
  let '(st, r1) := trigger 0 "s1" (wit_request (Some "k1") "manual" "j1") wit_sync_state in
  let '(st, r2) := trigger 1 "s1" (wit_request (Some "k1") "manual" "j2") st in
  r1 = Err (HTTPException 502 "Sync failed: node not found in discovery. request_id=r1") ∧ r2 = r1 ∧
  SyncJob.status <$> st.(st_tables).(sd_jobs) = ["failed"; "failed"].
Proof. vm_compute. done. Qed.

(** ** The snapshot that is shown *)

(** It is of the server, and none of the server is newer. *)
Lemma last_snapshot_newest {R W} sid (st : sync_state R W) s :
  get_server_last_snapshot sid st = Ok s →
  s ∈ st.(st_tables).(sd_snapshots) ∧ s.(sr_server_id) = sid ∧
  ∀ x, x ∈ st.(st_tables).(sd_snapshots) → x.(sr_server_id) = sid → x.(sr_ts_utc) ≤ s.(sr_ts_utc).
Proof.
  unfold get_server_last_snapshot. set (lt := λ a b, _). set (own := filter _ _).
  destruct (sorted_by lt own) as [|y l] eqn:E; [done|]. intros [= ->].
  assert (StronglySorted (λ a b, lt b a = false) (sorted_by lt own)) as Hsort.
  { apply (sorted_by_sorted lt (λ _, True)); [unfold lt; intros; lia..|by apply Forall_true]. }
  assert (∀ x, x ∈ own ↔ x = s ∨ x ∈ l) as Hin.
  { intros x. rewrite <- (elem_of_sorted_by lt), E. apply elem_of_cons. }
  rewrite E in Hsort. apply StronglySorted_inv in Hsort as [_ Hmax]. rewrite Forall_forall in Hmax.
  pose proof (proj2 (Hin s) (or_introl eq_refl)) as Hs. unfold own in Hin, Hs. apply elem_of_filterb in Hs as [Hid%String.eqb_eq Hs].
  split_and!; [done..|]. intros x Hx Hxs. destruct (proj1 (Hin x)) as [->|Hxl]; [|lia|].
  - apply elem_of_filterb. split; [by apply String.eqb_eq|done].
  - specialize (Hmax x Hxl). unfold lt in Hmax. lia.
Qed.
