(* ===== verification/Retention.v ===== *)
(** * Reminders, retention rules and churn scores

    The periodic reminder of subscriptions that end
    ([core/subscription_expiry_reminder_task.py]), the engine of the retention
    rules ([services/retention_automation_engine.py]) with their loop, and the
    batch of churn scores ([services/churn_prediction_service.py]).  The reminders
    and the rules write the same two columns, so they are also modelled together,
    as a sequence of events on the rows.  Telegram is a type class; times are
    microseconds. *)

From S2P Require Import Prelude PyFloat PyStr PyVal Settings Models Payments.
Open Scope Z_scope.

(** ** Reminders *)

(** [client.post(".../sendMessage", ...)]: the status code, or nothing when the
    call raises. *)
Class Telegram (W : Type) := { post_message : string → Z → string → W → W * option Z }.

Definition INTERVAL_SECONDS : Z := 6 * 3600.
Definition REMINDER_3D_TEXT_EN : string := "Your secure tunnel expires soon.".
Definition REMINDER_1D_TEXT_EN : string := "Don't lose your secure route.".

(** The two reminders: their text, when they are sent before the end, and the
    column that says they were. *)
Inductive reminder : Type := Reminder3d | Reminder1d.

#[export] Instance reminder_eq_dec : EqDecision reminder.
Proof. solve_decision. Defined.

Definition reminder_text (r : reminder) : string :=
  match r with Reminder3d => REMINDER_3D_TEXT_EN | Reminder1d => REMINDER_1D_TEXT_EN end.

Definition hours_before (r : reminder) : Z := match r with Reminder3d => 71 | Reminder1d => 23 end.

Definition sent_at (r : reminder) (s : Subscription.t) : option Z :=
  match r with
  | Reminder3d => s.(Subscription.reminder_3d_sent_at)
  | Reminder1d => s.(Subscription.reminder_1d_sent_at)
  end.

Definition mark_sent (r : reminder) (now : Z) : Subscription.t → Subscription.t :=
  match r with
  | Reminder3d => Subscription.set_reminder_3d (Some now)
  | Reminder1d => Subscription.set_reminder_1d (Some now)
  end.

(** [valid_until] lies in the window of two hours of the reminder. *)
Definition in_window (r : reminder) (now : Z) (s : Subscription.t) : bool :=
  (now + hours (hours_before r) <=? s.(Subscription.valid_until)) &&
  (s.(Subscription.valid_until) <=? now + hours (hours_before r + 2)).

Definition reminder_due (r : reminder) (now : Z) (s : Subscription.t) : bool :=
  String.eqb s.(Subscription.status) "active" && in_window r now s && is_none (sent_at r s).

Section reminders.
Context (settings : Settings) {W : Type} `{Telegram W}.
Implicit Types (w : W) (users : list User.t) (subs : list Subscription.t).

Definition _send_telegram_message (tg_id : Z) (text : string) (w : W) : W * bool :=
  let token := strip settings.(telegram_bot_token) in
  if negb (str_truthy token) then (w, false)
  else
    let '(w, status) := post_message token tg_id text w in
    (w, bool_decide (status = Some 200)).

(** One row of the join: the row after the loop has seen it, and whether the
    message was sent. *)
Definition remind_row (r : reminder) (now : Z) users (s : Subscription.t) (w : W)
    : W * (Subscription.t * bool) :=
  match first (λ u, u.(User.id) =? s.(Subscription.user_id)) users with
  | Some u =>
      if reminder_due r now s then
        let '(w, sent) := _send_telegram_message u.(User.tg_id) (reminder_text r) w in
        (w, (if sent then mark_sent r now s else s, sent))
      else (w, (s, false))
  | None => (w, (s, false))
  end.

(** The rows, and the subscriptions that were reminded. *)
Fixpoint remind_rows (r : reminder) (now : Z) users subs (w : W)
    : W * (list Subscription.t * list string) :=
  match subs with
  | [] => (w, ([], []))
  | s :: subs =>
      let '(w, (s', sent)) := remind_row r now users s w in
      let '(w, (subs', ids)) := remind_rows r now users subs w in
      (w, (s' :: subs', if sent then s.(Subscription.id) :: ids else ids))
  end.

(** The rows and what was sent; [(n_3d, n_1d)] are the lengths of the two lists. *)
Definition run_subscription_reminder_check (now : Z) users subs (w : W)
    : W * (list Subscription.t * (list string * list string)) :=
  let '(w, (subs, ids_3d)) := remind_rows Reminder3d now users subs w in
  let '(w, (subs, ids_1d)) := remind_rows Reminder1d now users subs w in
  (w, (subs, (ids_3d, ids_1d))).

(** One turn of the loop, which commits when something was sent.  A commit that
    fails leaves the rows as they were; the messages are sent. *)
Definition reminder_round (now : Z) (commit_ok : bool) users subs (w : W)
    : W * (list Subscription.t * (list string * list string)) :=
  let '(w, (subs', (ids_3d, ids_1d))) := run_subscription_reminder_check now users subs w in
  let counted := negb (bool_decide (ids_3d = [])) || negb (bool_decide (ids_1d = [])) in
  (w, (if counted && commit_ok then subs' else subs, (ids_3d, ids_1d))).

End reminders.

(** ** Retention rules *)

(** The bounds the condition puts on [valid_until] and [created_at]. *)
Definition rule_bounds (now : Z) (condition : pydict) : res (option Z * option Z) :=
  end_ ← match dget "expiry_days_lte" condition with
         | Some v => d ← int_of v; t ← add_days now d; Ok (Some t)
         | None => Ok None
         end;
  since ← match dget "lifetime_months_gte" condition with
          | Some v => m ← int_of v; t ← add_days now (- (m * 30)); Ok (Some t)
          | None => Ok None
          end;
  Ok (end_, since).

Definition running_at (now : Z) (s : Subscription.t) : bool :=
  String.eqb s.(Subscription.status) "active" && (now <? s.(Subscription.valid_until)) &&
  is_none s.(Subscription.paused_at).

Definition matches (now : Z) (bounds : option Z * option Z) (s : Subscription.t) : bool :=
  running_at now s &&
  match bounds.1 with Some t => s.(Subscription.valid_until) <=? t | None => true end &&
  match bounds.2 with Some t => s.(Subscription.created_at) <=? t | None => true end.

Definition get_matching_subscriptions (now : Z) (condition : pydict) (subs : list Subscription.t)
    : res (list Subscription.t) :=
  bounds ← rule_bounds now condition;
  Ok (filterb (matches now bounds) subs).

(** What [params["which"]] asks for. *)
Definition which_reminder (params : pydict) : option reminder :=
  let which := getd params "which" (VStr "3d") in
  if bool_decide (which = VStr "3d") then Some Reminder3d
  else if bool_decide (which = VStr "1d") then Some Reminder1d
  else None.

Definition days_before (r : reminder) : Z := match r with Reminder3d => 3 | Reminder1d => 1 end.

Definition rule_marks (r : reminder) (now : Z) (s : Subscription.t) : bool :=
  let days_left := delta_days s.(Subscription.valid_until) now in
  is_none (sent_at r s) && (0 <? days_left) && (days_left <=? days_before r).

(** The loop over the matching subscriptions changes the rows themselves. *)
Definition apply_reminder (r : reminder) (now : Z) (matching : Subscription.t → bool)
    (subs : list Subscription.t) : list Subscription.t * Z :=
  ((λ s, if matching s && rule_marks r now s then mark_sent r now s else s) <$> subs,
   countZ (λ s, matching s && rule_marks r now s) subs).

(** [now] is read when the run begins, [rnow] when the rule looks for its
    subscriptions. *)
Definition apply_rule (now rnow : Z) (rule : RetentionRule.t) (subs : list Subscription.t)
    : res (list Subscription.t * Z) :=
  bounds ← rule_bounds rnow rule.(RetentionRule.condition_json);
  if String.eqb rule.(RetentionRule.action_type) "reminder" then
    match which_reminder (default [] rule.(RetentionRule.action_params)) with
    | Some r => Ok (apply_reminder r now (matches rnow bounds) subs)
    | None => Ok (subs, 0)
    end
  else Ok (subs, 0).

Fixpoint apply_rules (now : Z) (clock : nat → Z) (rules : list RetentionRule.t)
    (subs : list Subscription.t) (actions_taken : Z) : res (list Subscription.t * Z) :=
  match rules with
  | [] => Ok (subs, actions_taken)
  | rule :: rules =>
      '(subs, n) ← apply_rule now (clock O) rule subs;
      apply_rules now (λ i, clock (S i)) rules subs (actions_taken + n)
  end.

(** The rules that are evaluated, in their order. *)
Definition enabled_rules (rules : list RetentionRule.t) : list RetentionRule.t :=
  sorted_by (λ a b, b.(RetentionRule.priority) <? a.(RetentionRule.priority))
    (filterb RetentionRule.enabled rules).

Definition run_retention_rules (now : Z) (clock : nat → Z) (rules : list RetentionRule.t)
    (subs : list Subscription.t) : res (list Subscription.t * (Z * Z)) :=
  let rules := enabled_rules rules in
  if bool_decide (rules = []) then Ok (subs, (0, 0))
  else
    '(subs, actions_taken) ← apply_rules now clock rules subs 0;
    Ok (subs, (Z.of_nat (length rules), actions_taken)).

(** One turn of the loop of the rules: a run that raises commits nothing. *)
Definition retention_round (now : Z) (clock : nat → Z) (rules : list RetentionRule.t)
    (subs : list Subscription.t) : list Subscription.t :=
  match run_retention_rules now clock rules subs with Ok (subs', _) => subs' | Err _ => subs end.

(** ** Churn scores *)

Definition churn_expiry_soon (days_until_expiry : Z) : float :=
  fsub f1 (fmin f1 (fdiv (of_Z days_until_expiry) (of_Z 30))).

Definition churn_score (days_until_expiry sub_age_days : Z) : float :=
  let tenure_factor := fmin f1 (fdiv (of_Z sub_age_days) (of_Z 90)) in
  let score := fadd (fmul (lit 6 1) (churn_expiry_soon days_until_expiry))
                    (fmul (lit 4 1) (fsub f1 tenure_factor)) in
  fmin (fmax score f0) f1.

Definition high_risk (days_until_expiry sub_age_days : Z) : bool :=
  fge (churn_score days_until_expiry sub_age_days) (lit 6 1).

Definition churn_row (now : Z) (s : Subscription.t) : ChurnRiskScore.t :=
  let d := delta_days s.(Subscription.valid_until) now in
  let a := delta_days now s.(Subscription.created_at) in
  ChurnRiskScore.mk s.(Subscription.user_id) s.(Subscription.id) (fround (churn_score d a) 4)
    d a (fround (churn_expiry_soon d) 4) now.

(** The rows that are added, and [(scored, high_risk)]. *)
Definition run_churn_prediction (now : Z) (subs : list Subscription.t)
    : list ChurnRiskScore.t * (Z * Z) :=
  let subs := filterb (running_at now) subs in
  (churn_row now <$> subs,
   (Z.of_nat (length subs),
    countZ (λ s, high_risk (delta_days s.(Subscription.valid_until) now)
                           (delta_days now s.(Subscription.created_at))) subs)).

(** ** Reminders, rules and other writes on the same rows *)

(** A check of the reminders, a run of the rules, a write to the rows by another
    part of the program, and a new row, which is refused when its key is taken. *)
Inductive event : Type :=
| CheckReminders (now : Z) (users : list User.t) (commit_ok : bool)
| RunRules (now : Z) (clock : nat → Z) (rules : list RetentionRule.t)
| WriteRows (f : Subscription.t → Subscription.t)
| InsertRow (s : Subscription.t).

Definition log_of (ids : list string * list string) : list (string * reminder) :=
  ((λ i, (i, Reminder3d)) <$> ids.1) ++ ((λ i, (i, Reminder1d)) <$> ids.2).

Section events.
Context (settings : Settings) {W : Type} `{Telegram W}.
Implicit Types (w : W) (users : list User.t) (subs : list Subscription.t).

Definition run_event (ev : event) subs (w : W)
    : W * (list Subscription.t * list (string * reminder)) :=
  match ev with
  | CheckReminders now users commit_ok =>
      let '(w, (subs, ids)) := reminder_round settings now commit_ok users subs w in
      (w, (subs, log_of ids))
  | RunRules now clock rules => (w, (retention_round now clock rules subs, []))
  | WriteRows f => (w, (f <$> subs, []))
  | InsertRow s => (w, (if str_in s.(Subscription.id) (Subscription.id <$> subs) then subs else subs ++ [s], []))
  end.

(** Every reminder that is sent: to whom, and which. *)
Fixpoint reminders_sent (evs : list event) subs (w : W) : list (string * reminder) :=
  match evs with
  | [] => []
  | ev :: evs =>
      let '(w, (subs, sent)) := run_event ev subs w in
      sent ++ reminders_sent evs subs w
  end.

(** A write keeps the key of a row and what it says was sent. *)
Definition keeps (s s' : Subscription.t) : Prop :=
  s'.(Subscription.id) = s.(Subscription.id) ∧ ∀ r, sent_at r s ≠ None → sent_at r s' ≠ None.

Definition regular (ev : event) : Prop :=
  match ev with CheckReminders _ _ ok => ok = true | WriteRows f => ∀ s, keeps s (f s) | _ => True end.

#[local] Instance keeps_refl : Reflexive keeps.
Proof. by split. Qed.

#[local] Instance keeps_trans : Transitive keeps.
Proof. intros x y z [Ix Hxy] [Iy Hyz]. split; [congruence|auto]. Qed.

Lemma keeps_mark r now s : keeps s (mark_sent r now s).
Proof. split; [by destruct r|]. by destruct r; intros []. Qed.

Lemma sent_mark r now s : sent_at r (mark_sent r now s) ≠ None.
Proof. by destruct r. Qed.

Lemma fmap_keeps (f : Subscription.t → Subscription.t) subs :
  (∀ s, keeps s (f s)) → Forall2 keeps subs (f <$> subs).
Proof. intros Hf. induction subs; by constructor. Qed.

Lemma keeps_ids subs subs' : Forall2 keeps subs subs' → Subscription.id <$> subs' = Subscription.id <$> subs.
Proof. induction 1 as [|s s' l l' [Hi _] _ IH]; [done|]. cbn. by rewrite Hi, IH. Qed.

(** What the loop of a check does to the rows. *)
Lemma remind_rows_spec r now users subs w w' subs' ids :
  remind_rows settings r now users subs w = (w', (subs', ids)) →
  Forall2 keeps subs subs' ∧ ids `sublist_of` (Subscription.id <$> subs) ∧
  (∀ i, i ∈ ids → (∃ s, s ∈ subs ∧ s.(Subscription.id) = i ∧ sent_at r s = None) ∧
                  ∃ s', s' ∈ subs' ∧ s'.(Subscription.id) = i ∧ sent_at r s' ≠ None) ∧
  (ids = [] → subs' = subs).
Proof.
  revert w w' subs' ids. induction subs as [|s subs IH]; intros w w' subs' ids; cbn [remind_rows].
  { intros [= <- <- <-]. split_and!; [constructor|constructor|set_solver|done]. }
  destruct (remind_row _ _ _ _ _ _) as [w1 [s1 sent]] eqn:E.
  destruct (remind_rows _ _ _ _ _ _) as [w2 [subs2 ids2]] eqn:E2. intros [= <- <- <-].
  apply IH in E2 as (Hk & Hsub & Hin & Hnil).
  assert (keeps s s1 ∧ (sent = false → s1 = s) ∧ (sent = true → sent_at r s = None ∧ sent_at r s1 ≠ None)) as (Hks & Hf & Ht).
  { unfold remind_row in E. destruct (first _ users); [|by simplify_eq].
    destruct (reminder_due r now s) eqn:Ed; [|by simplify_eq].
    destruct (_send_telegram_message _ _ _ _) as [wx [|]]; simplify_eq; [|done].
    split_and!; [apply keeps_mark|done|intros _; split; [|apply sent_mark]].
    unfold reminder_due in Ed. apply andb_prop in Ed as [_ Ed]. by apply is_none_true. }
  split_and!.
  - by constructor.
  - destruct sent; cbn; by constructor.
  - intros i Hi. assert ((sent = true ∧ i = s.(Subscription.id)) ∨ i ∈ ids2) as [[Hst ->]|Hi2]; [destruct sent| |].
    + apply elem_of_cons in Hi as [->|Hi]; [left|right]; done.
    + by right.
    + destruct Ht as [Hn Hs]; [done|]. destruct Hks as [Hid _].
      split; [exists s|exists s1]; (split; [left|]); done.
    + destruct (Hin _ Hi2) as [(x & Hx & Hx') (y & Hy & Hy')]. split; [exists x|exists y]; by split; [right|].
  - destruct sent; [done|]. intros Hn. by rewrite Hf, (Hnil Hn).
Qed.

(** A commit that succeeds leaves the rows of the check, whether or not it was needed. *)
Lemma round_is_check now users subs w :
  reminder_round settings now true users subs w = run_subscription_reminder_check settings now users subs w.
Proof.
  unfold reminder_round, run_subscription_reminder_check.
  destruct (remind_rows _ Reminder3d _ _ _ _) as [w1 [subs1 ids3]] eqn:E1.
  destruct (remind_rows _ Reminder1d _ _ _ _) as [w2 [subs2 ids1]] eqn:E2.
  apply remind_rows_spec in E1 as (_ & _ & _ & N1). apply remind_rows_spec in E2 as (_ & _ & _ & N2).
  rewrite andb_true_r. do 2 case_bool_decide; try done. simpl. by rewrite N2, N1.
Qed.

Lemma check_spec now users subs w w' subs' ids :
  reminder_round settings now true users subs w = (w', (subs', ids)) →
  NoDup (Subscription.id <$> subs) →
  Forall2 keeps subs subs' ∧ NoDup (log_of ids) ∧
  ∀ i r, (i, r) ∈ log_of ids → (∃ s, s ∈ subs ∧ s.(Subscription.id) = i ∧ sent_at r s = None) ∧
                               ∃ s', s' ∈ subs' ∧ s'.(Subscription.id) = i ∧ sent_at r s' ≠ None.
Proof.
  rewrite round_is_check. unfold run_subscription_reminder_check.
  destruct (remind_rows _ Reminder3d _ _ _ _) as [w1 [subs1 ids3]] eqn:E1.
  destruct (remind_rows _ Reminder1d _ _ _ _) as [w2 [subs2 ids1]] eqn:E2. intros [= <- <- <-] Hnd.
  apply remind_rows_spec in E1 as (K1 & S1 & I1 & N1). apply remind_rows_spec in E2 as (K2 & S2 & I2 & N2).
  rewrite (keeps_ids _ _ K1) in S2.
  split_and!.
  - etrans; [exact K1|exact K2].
  - unfold log_of. cbn [fst snd]. apply NoDup_app. split_and!.
    + apply (NoDup_fmap_2 _). by eapply sublist_NoDup.
    + intros x (i & -> & _)%list_elem_of_fmap (j & [=] & _)%list_elem_of_fmap.
    + apply (NoDup_fmap_2 _). by eapply sublist_NoDup.
  - intros i r [(j & [= -> ->] & Hj)%list_elem_of_fmap|(j & [= -> ->] & Hj)%list_elem_of_fmap]%elem_of_app; cbn in Hj.
    + apply I1 in Hj as [Hu (s' & Hs' & Hi & Hm)]. split; [done|].
      eapply list_elem_of_lookup_1 in Hs' as [k Hk]. eapply Forall2_lookup_l in K2 as (s2 & Hs2 & [Hi2 Hm2]); [|done].
      exists s2. split_and!; [by eapply list_elem_of_lookup_2|congruence|auto].
    + apply I2 in Hj as [(s & Hs & Hi & Hm) Hu]. split; [|done].
      eapply list_elem_of_lookup_1 in Hs as [k Hk]. eapply Forall2_lookup_r in K1 as (s0 & Hs0 & [Hi0 Hm0]); [|done].
      exists s0. split_and!; [by eapply list_elem_of_lookup_2|congruence|].
      destruct (sent_at Reminder1d s0) eqn:E; [|done]. exfalso. by apply (Hm0 Reminder1d); [rewrite E|].
Qed.

Lemma apply_rules_keep now clock rules subs n subs' n' :
  apply_rules now clock rules subs n = Ok (subs', n') → Forall2 keeps subs subs'.
Proof.
  revert clock subs n. induction rules as [|rule rules IH]; intros clock subs n; cbn [apply_rules].
  { by intros [= <- <-]. }
  intros ([subs1 m] & E & Hr)%res_bind_ok. etrans; [|by eapply IH].
  unfold apply_rule in E. apply res_bind_ok in E as (b & _ & E).
  destruct (String.eqb _ _); [|by simplify_eq]. destruct (which_reminder _) as [r|]; [|by simplify_eq].
  injection E as <- _. apply fmap_keeps. intros s. destruct (_ && _); [apply keeps_mark|done].
Qed.

Lemma retention_round_keep now clock rules subs : Forall2 keeps subs (retention_round now clock rules subs).
Proof.
  unfold retention_round. destruct (run_retention_rules _ _ _ _) as [[subs' [a b]]|] eqn:E; [|done].
  unfold run_retention_rules in E. case_bool_decide; [by simplify_eq|].
  apply res_bind_ok in E as ([subs1 m] & E & [= <- _ _]). by eapply apply_rules_keep.
Qed.

(** An event keeps the rows, up to one more, and their keys distinct; what it
    sends was not sent to any row with the key, and is marked. *)
Definition says (r : reminder) (i : string) subs : Prop :=
  ∃ s, s ∈ subs ∧ s.(Subscription.id) = i ∧ sent_at r s ≠ None.

Lemma keeps_says r i subs subs' : Forall2 keeps subs subs' → says r i subs → says r i subs'.
Proof.
  intros Hk (s & Hs & Hi & Hm). apply list_elem_of_lookup_1 in Hs as [k Hs].
  eapply Forall2_lookup_l in Hk as (s' & Hs' & [Hi' Hm']); [|done].
  exists s'. split_and!; [by eapply list_elem_of_lookup_2|congruence|auto].
Qed.

Lemma same_key subs s s' :
  NoDup (Subscription.id <$> subs) → s ∈ subs → s' ∈ subs →
  s.(Subscription.id) = s'.(Subscription.id) → s = s'.
Proof. intros Hn Hs Hs' Hi. by eapply (NoDup_fmap_inj Subscription.id subs). Qed.

Lemma run_event_spec ev subs w w' subs' sent :
  run_event ev subs w = (w', (subs', sent)) → regular ev → NoDup (Subscription.id <$> subs) →
  NoDup (Subscription.id <$> subs') ∧ (∀ r i, says r i subs → says r i subs') ∧ NoDup sent ∧
  ∀ i r, (i, r) ∈ sent → ¬ says r i subs ∧ says r i subs'.
Proof.
  intros E Hr Hn.
  assert (∀ x : string * reminder, x ∈ [] → False) as Hnil by (intros x Hx; by apply not_elem_of_nil in Hx).
  destruct ev as [now users ok|now clock rules|f|s]; cbn [run_event] in E.
  - cbn in Hr. subst ok. destruct (reminder_round _ _ _ _ _ _) as [w1 [subs1 ids]] eqn:Ec. injection E as <- <- <-.
    apply check_spec in Ec as (Hk & Hd & Hin); [|done].
    split_and!; [by rewrite (keeps_ids _ _ Hk)|by intros; eapply keeps_says|done|].
    intros i r Hi. destruct (Hin _ _ Hi) as [(s & Hs & Hsi & Hu) Hs']. split; [|done].
    intros (s2 & Hs2 & Hi2 & Hm). by rewrite (same_key subs s2 s) in Hm by congruence.
  - injection E as <- <- <-. pose proof (retention_round_keep now clock rules subs) as Hk.
    split_and!; [by rewrite (keeps_ids _ _ Hk)|by intros; eapply keeps_says|constructor|by intros i r []%Hnil].
  - injection E as <- <- <-. pose proof (fmap_keeps f subs Hr) as Hk.
    split_and!; [by rewrite (keeps_ids _ _ Hk)|by intros; eapply keeps_says|constructor|by intros i r []%Hnil].
  - injection E as <- <- <-. destruct (str_in _ _) eqn:Es.
    + split_and!; [done|done|constructor|by intros i r []%Hnil].
    + apply str_in_false in Es. split_and!; [|..|constructor|by intros i r []%Hnil].
      * rewrite fmap_app. apply NoDup_app. split_and!; [done| |apply NoDup_singleton].
        intros x Hx ->%list_elem_of_singleton. done.
      * intros r i (x & Hx & Hx'). exists x. split; [|done]. apply elem_of_app. by left.
Qed.

Lemma says_silent evs subs w r i :
  Forall regular evs → NoDup (Subscription.id <$> subs) → says r i subs → (i, r) ∉ reminders_sent evs subs w.
Proof.
  revert subs w. induction evs as [|ev evs IH]; intros subs w Hr Hn Hs; [apply not_elem_of_nil|].
  apply Forall_cons in Hr as [Hr Hrs]. cbn [reminders_sent].
  destruct (run_event ev subs w) as [w1 [subs1 sent]] eqn:E.
  apply run_event_spec in E as (Hn1 & Hk & Hd & Hin); [|done..].
  intros [Hi|Hi]%elem_of_app; [by apply Hin in Hi as []|]. revert Hi. apply IH; auto.
Qed.

Lemma reminders_sent_NoDup evs subs w :
  Forall regular evs → NoDup (Subscription.id <$> subs) → NoDup (reminders_sent evs subs w).
Proof.
  revert subs w. induction evs as [|ev evs IH]; intros subs w Hr Hn; [constructor|].
  apply Forall_cons in Hr as [Hr Hrs]. cbn [reminders_sent].
  destruct (run_event ev subs w) as [w1 [subs1 sent]] eqn:E.
  apply run_event_spec in E as (Hn1 & Hk & Hd & Hin); [|done..].
  apply NoDup_app. split_and!; [done| |by apply IH].
  intros [i r] Hi. apply says_silent; [done..|]. by apply Hin.
Qed.
End events.

(** C29: no subscription is reminded twice.  Over any sequence of checks whose
    commits succeed, runs of the rules, new rows and writes that do not clear what
    was sent, at whatever times and whatever Telegram answers, each of the two
    reminders is sent at most once for a subscription. *)
Theorem reminded_once settings {W} `{Telegram W} evs subs (w : W) :
  Forall regular evs → NoDup (Subscription.id <$> subs) →
  NoDup (reminders_sent settings evs subs w).
Proof. apply reminders_sent_NoDup. Qed.

(** A paid extension does not clear what was sent, so a subscription that was
    reminded before it was extended is not reminded again. *)
Lemma extended_keeps now plan s s' : extend_subscription now plan s = Ok s' → keeps s s'.
Proof.
  unfold extend_subscription. cbv zeta. intros (u & _ & [= <-])%res_bind_ok.
  destruct (negb _); by split; [|intros []].
Qed.

Lemma extended_not_reminded settings {W} `{Telegram W} now plan s s' r evs subs (w : W) :
  extend_subscription now plan s = Ok s' → sent_at r s ≠ None →
  s' ∈ subs → NoDup (Subscription.id <$> subs) → Forall regular evs →
  (s.(Subscription.id), r) ∉ reminders_sent settings evs subs w.
Proof.
  intros [Hi Hk]%extended_keeps Hr Hs Hn He. apply says_silent; [done..|]. exists s'. auto.
Qed.

(** ** When the reminders are sent *)

(** Checks every six hours. *)
Definition checks (t0 : Z) (users : list User.t) (n : nat) : list event :=
  (λ k, CheckReminders (t0 + Z.of_nat k * seconds INTERVAL_SECONDS) users true) <$> seq 0 n.

Lemma checks_S t0 users n :
  checks t0 users (S n) = CheckReminders t0 users true :: checks (t0 + seconds INTERVAL_SECONDS) users n.
Proof.
  unfold checks. rewrite <- cons_seq, fmap_cons. f_equal; [f_equal; lia|].
  rewrite <- fmap_S_seq, <- list_fmap_compose. apply list_fmap_ext. intros k x _. cbn. f_equal. lia.
Qed.

Class TelegramUp (W : Type) `{Telegram W} : Prop :=
  { telegram_accepts token tg_id text w : (post_message token tg_id text w).2 = Some 200 }.

Section schedule.
Context (settings : Settings) {W : Type} `{TelegramUp W} (users : list User.t).
Context (Htoken : str_truthy (strip settings.(telegram_bot_token)) = true).
Implicit Types (w : W) (subs : list Subscription.t).

Definition joined (s : Subscription.t) : bool :=
  is_some (first (λ u, u.(User.id) =? s.(Subscription.user_id)) users).

Lemma send_up tg_id text w : (_send_telegram_message settings tg_id text w).2 = true.
Proof using Type*.
  unfold _send_telegram_message. rewrite Htoken. cbn [negb].
  pose proof (telegram_accepts (strip settings.(telegram_bot_token)) tg_id text w) as Ha.
  destruct (post_message _ _ _ w) as [w' st]. cbn in *. by apply bool_decide_eq_true.
Qed.

(** With Telegram up a pass reminds exactly the rows that are due. *)
Definition to_remind r now s := joined s && reminder_due r now s.

Lemma remind_rows_up r now subs w w' subs' ids :
  remind_rows settings r now users subs w = (w', (subs', ids)) →
  subs' = (λ s, if to_remind r now s then mark_sent r now s else s) <$> subs ∧
  ids = Subscription.id <$> filterb (to_remind r now) subs.
Proof using Type*.
  revert w w' subs' ids. induction subs as [|s subs IH]; intros w w' subs' ids; cbn [remind_rows].
  { by intros [= <- <- <-]. }
  destruct (remind_row _ _ _ _ _ _) as [w1 [s1 sent]] eqn:E.
  destruct (remind_rows _ _ _ _ _ _) as [w2 [subs2 ids2]] eqn:E2. intros [= <- <- <-].
  apply IH in E2 as [-> ->]. rewrite filter_cons.
  assert (sent = to_remind r now s ∧ s1 = if to_remind r now s then mark_sent r now s else s) as [-> ->].
  { unfold remind_row in E. unfold to_remind, joined. destruct (first _ users) as [u|]; [|by simplify_eq].
    cbn [is_some is_none negb andb]. destruct (reminder_due r now s); [|by simplify_eq].
    pose proof (send_up (User.tg_id u) (reminder_text r) w) as Hu.
    destruct (_send_telegram_message _ _ _ w) as [wx b]. cbn in Hu. subst b. by simplify_eq. }
  split; [done|]. destruct (to_remind r now s); case_decide; done.
Qed.

(** Both passes leave the columns the query reads. *)
Definition same_row (s s' : Subscription.t) : Prop :=
  s'.(Subscription.id) = s.(Subscription.id) ∧ s'.(Subscription.user_id) = s.(Subscription.user_id) ∧
  s'.(Subscription.status) = s.(Subscription.status) ∧ s'.(Subscription.valid_until) = s.(Subscription.valid_until).

Definition pass r now (s : Subscription.t) : Subscription.t :=
  if to_remind r now s then mark_sent r now s else s.

Lemma pass_same r now s : same_row s (pass r now s).
Proof. unfold pass. by destruct (to_remind r now s), r. Qed.

Lemma pass_id r now s : (pass r now s).(Subscription.id) = s.(Subscription.id).
Proof. apply pass_same. Qed.

Lemma pass_sent r r' now s :
  sent_at r' (pass r now s) = if bool_decide (r = r') && to_remind r now s then Some now else sent_at r' s.
Proof. unfold pass. by destruct r, r', (to_remind _ now s). Qed.

Lemma pass_due r r' now s : r ≠ r' → to_remind r' now (pass r now s) = to_remind r' now s.
Proof.
  intros Hne. pose proof (pass_same r now s) as (Hi & Hu & Hst & Hv).
  unfold to_remind, joined, reminder_due, in_window. rewrite Hu, Hst, Hv, pass_sent.
  rewrite bool_decide_eq_false_2 by done. done.
Qed.

(** A row after a check, and what the check sent for it. *)
Lemma check_up now subs w w' subs' sent s :
  run_event settings (CheckReminders now users true) subs w = (w', (subs', sent)) →
  NoDup (Subscription.id <$> subs) → s ∈ subs →
  pass Reminder1d now (pass Reminder3d now s) ∈ subs' ∧
  ∀ r, (s.(Subscription.id), r) ∈ sent ↔ to_remind r now s = true.
Proof using Type*.
  intros E Hn Hs. cbn [run_event] in E.
  destruct (reminder_round _ _ _ _ _ _) as [w1 [subs1 ids]] eqn:Ec. injection E as <- <- <-.
  rewrite round_is_check in Ec. unfold run_subscription_reminder_check in Ec.
  destruct (remind_rows _ Reminder3d _ _ _ _) as [wa [sa ids3]] eqn:E1.
  destruct (remind_rows _ Reminder1d _ _ _ _) as [wb [sb ids1]] eqn:E2. injection Ec as <- <- <-.
  apply remind_rows_up in E1 as [-> ->]. apply remind_rows_up in E2 as [-> ->]. split.
  - change (pass Reminder1d now (pass Reminder3d now s) ∈ pass Reminder1d now <$> (pass Reminder3d now <$> subs)).
    apply list_elem_of_fmap. exists (pass Reminder3d now s). split; [done|]. apply list_elem_of_fmap. by exists s.
  - assert (∀ r l, NoDup (Subscription.id <$> l) → ∀ x, x ∈ l →
      x.(Subscription.id) ∈ Subscription.id <$> filterb (to_remind r now) l ↔ to_remind r now x = true) as Hmem.
    { intros r l Hl x Hx. split.
      - intros (y & Hi & [Hy Hyl]%list_elem_of_filter)%list_elem_of_fmap. by rewrite (same_key l x y).
      - intros Hr. apply list_elem_of_fmap. exists x. split; [done|]. by apply list_elem_of_filter. }
    intros r. unfold log_of. cbn [fst snd]. rewrite elem_of_app.
    rewrite !list_elem_of_fmap. destruct r.
    + rewrite <- (Hmem Reminder3d subs) by done. split; [intros [(i & [=] & Hi)|(i & [=] & _)]; congruence|].
      intros Hi. left. by eexists.
    + set (subs1 := pass Reminder3d now <$> subs).
      change ((λ x, if to_remind Reminder3d now x then mark_sent Reminder3d now x else x) <$> subs) with subs1.
      assert (pass Reminder3d now s ∈ subs1) as Hs1 by (apply list_elem_of_fmap; by exists s).
      assert (NoDup (Subscription.id <$> subs1)) as Hn1.
      { unfold subs1. rewrite <- list_fmap_compose. erewrite list_fmap_ext; [exact Hn|]. intros ? x _. apply (pass_id Reminder3d now x). }
      rewrite <- (pass_due Reminder3d Reminder1d) by done.
      rewrite <- (Hmem Reminder1d subs1), pass_id by done. split; [intros [(i & [=] & _)|(i & [=] & Hi)]; congruence|].
      intros Hi. right. by eexists.
Qed.

(** The checks of a schedule remind a row at the first of them in whose window
    its end lies. *)
Lemma checks_remind r n t0 subs w s :
  NoDup (Subscription.id <$> subs) → s ∈ subs → joined s = true → s.(Subscription.status) = "active" →
  (s.(Subscription.id), r) ∈ reminders_sent settings (checks t0 users n) subs w ↔
    sent_at r s = None ∧
    ∃ k, (k < n)%nat ∧ in_window r (t0 + Z.of_nat k * seconds INTERVAL_SECONDS) s = true.
Proof using Type*.
  revert t0 subs w s. induction n as [|n IH]; intros t0 subs w s Hn Hs Hj Ha.
  { cbn. split; [by intros ?%not_elem_of_nil|intros (_ & k & ? & _); lia]. }
  rewrite checks_S. cbn [reminders_sent].
  destruct (run_event _ _ _ _) as [w1 [subs1 sent]] eqn:E.
  pose proof (run_event_spec settings _ _ _ _ _ _ E eq_refl Hn) as (Hn1 & _ & _ & _).
  apply (check_up _ _ _ _ _ _ s) in E as [Hs1 Hsent]; [|done..]. set (s' := pass Reminder1d t0 _) in *.
  assert (same_row s s') as (Hi & Hu & Hst & Hv).
  { destruct (pass_same Reminder3d t0 s) as (?&?&?&?), (pass_same Reminder1d t0 (pass Reminder3d t0 s)) as (?&?&?&?).
    split_and!; etrans; done. }
  assert (to_remind r t0 s = in_window r t0 s && is_none (sent_at r s)) as Hd.
  { unfold to_remind, reminder_due. by rewrite Hj, Ha. }
  assert (∀ t, in_window r t s' = in_window r t s) as Hw by (intros; unfold in_window; by rewrite Hv).
  assert (sent_at r s' = if to_remind r t0 s then Some t0 else sent_at r s) as Hs'.
  { unfold s'. rewrite !pass_sent. destruct r; cbn [bool_decide].
    - rewrite bool_decide_eq_false_2, bool_decide_eq_true_2 by done. done.
    - rewrite bool_decide_eq_true_2, bool_decide_eq_false_2, pass_due by done. done. }
  rewrite elem_of_app, Hsent, <- Hi, (IH _ subs1), Hs', Hd by (try done; unfold joined; congruence || (unfold joined in *; by rewrite Hu)).
  setoid_rewrite Hw. split.
  - intros [[Hin Hu0]%andb_prop|(Hu0 & k & Hk & Hin)].
    + split; [by apply is_none_true|]. exists O. split; [lia|]. by replace (t0 + _) with t0 by lia.
    + destruct (in_window r t0 s && _); [done|]. split; [done|]. exists (S k). split; [lia|].
      by replace (t0 + Z.of_nat (S k) * _) with (t0 + seconds INTERVAL_SECONDS + Z.of_nat k * seconds INTERVAL_SECONDS) by lia.
  - intros (Hu0 & k & Hk & Hin). destruct (in_window r t0 s && is_none (sent_at r s)) eqn:Eh; [by left|].
    right. split; [done|]. rewrite Hu0, andb_true_r in Eh. destruct k as [|k].
    + replace (t0 + _) with t0 in Hin by lia. congruence.
    + exists k. split; [lia|].
      by replace (t0 + seconds INTERVAL_SECONDS + Z.of_nat k * _) with (t0 + Z.of_nat (S k) * seconds INTERVAL_SECONDS) by lia.
Qed.
End schedule.

(** A window of two hours and checks every six. *)
Lemma window_hit D n :
  0 ≤ D < Z.of_nat n * hours 6 →
  (∃ k : nat, (k < n)%nat ∧ D - hours 2 ≤ Z.of_nat k * hours 6 ≤ D) ↔ D mod hours 6 ≤ hours 2.
Proof.
  unfold hours, seconds. intros HD. pose proof (Z.div_mod D (6 * 3600 * 1000000) ltac:(lia)) as Hdm.
  pose proof (Z.mod_pos_bound D (6 * 3600 * 1000000) ltac:(lia)) as Hb. split.
  - intros (k & Hk & Hl & Hu).
    assert (Z.of_nat k ≤ D / (6 * 3600 * 1000000)) by (apply Z.div_le_lower_bound; lia). nia.
  - intros Hm. exists (Z.to_nat (D / (6 * 3600 * 1000000))).
    assert (0 ≤ D / (6 * 3600 * 1000000)) by (apply Z.div_pos; lia).
    rewrite Z2Nat.id by done. split; [|nia].
    enough (D / (6 * 3600 * 1000000) < Z.of_nat n) by lia. apply Z.div_lt_upper_bound; lia.
Qed.

(** C30: which subscriptions are reminded.  With checks every six hours from [t0] on
    until a subscription ends, and with Telegram up, an active subscription is
    reminded if its end is at most two hours past a multiple of six hours from
    [t0 + 71h], and otherwise never, neither three days nor one day before. *)
Theorem reminders_by_residue settings {W} `{TelegramUp W} users t0 n subs (w : W) s r :
  str_truthy (strip settings.(telegram_bot_token)) = true →
  NoDup (Subscription.id <$> subs) → s ∈ subs → joined users s = true →
  s.(Subscription.status) = "active" → sent_at r s = None →
  t0 + hours 71 ≤ s.(Subscription.valid_until) < t0 + Z.of_nat n * seconds INTERVAL_SECONDS →
  (s.(Subscription.id), r) ∈ reminders_sent settings (checks t0 users n) subs w ↔
    (s.(Subscription.valid_until) - (t0 + hours 71)) mod hours 6 ≤ hours 2.
Proof.
  intros Ht Hn Hs Hj Ha Hu Hv. rewrite checks_remind by done.
  set (D := s.(Subscription.valid_until) - (t0 + hours (hours_before r))).
  assert ((s.(Subscription.valid_until) - (t0 + hours 71)) mod hours 6 = D mod hours 6) as ->.
  { unfold D. destruct r; [done|]. cbn [hours_before].
    replace (s.(Subscription.valid_until) - (t0 + hours 23))
      with (s.(Subscription.valid_until) - (t0 + hours 71) + 8 * hours 6) by (unfold hours, seconds; lia).
    by rewrite Z.mod_add by done. }
  rewrite <- (window_hit D n); cycle 1.
  { unfold D. revert Hv. unfold hours, seconds, INTERVAL_SECONDS. destruct r; cbn [hours_before]; lia. }
  change (seconds INTERVAL_SECONDS) with (hours 6).
  assert (∀ k, in_window r (t0 + k * hours 6) s = true ↔ D - hours 2 ≤ k * hours 6 ≤ D) as Hw.
  { intros k. unfold in_window, D. rewrite andb_true_iff, !Z.leb_le.
    replace (hours (hours_before r + 2)) with (hours (hours_before r) + hours 2) by (unfold hours, seconds; lia).
    generalize (hours (hours_before r)) (hours 2) (k * hours 6). lia. }
  setoid_rewrite Hw. naive_solver.
Qed.

(** Telegram that accepts every message and keeps a count. *)
#[local] Instance open_telegram : Telegram Z := {| post_message _ _ _ w := (w + 1, Some 200) |}.
#[local] Instance open_telegram_up : TelegramUp Z.
Proof. split. done. Qed.

Definition bot_settings : Settings := with_telegram_bot_token "123:abc" default_settings.
Definition reader : User.t := User.mk 7 700 false.
Definition ending (id : string) (valid_until : Z) : Subscription.t :=
  Subscription.mk id 7 "plan" 0 valid_until 3 "active" false None None None None None 0.

(** Two subscriptions that end one and three hours after a multiple of six hours
    from the 71st hour. *)
Definition two_ends : list Subscription.t := [ending "s1" (hours (71 + 12 + 1)); ending "s2" (hours (71 + 12 + 3))].

Example ten_checks :
  reminders_sent bot_settings (checks 0 [reader] 14) two_ends 0 = [("s1", Reminder3d); ("s1", Reminder1d)].
Proof. vm_compute. reflexivity. Qed.

Lemma reminders_by_residue_witness :
  ("s1", Reminder1d) ∈ reminders_sent bot_settings (checks 0 [reader] 15) two_ends 0 ∧
  ("s2", Reminder3d) ∉ reminders_sent bot_settings (checks 0 [reader] 15) two_ends 0.
Proof.
  assert (NoDup (Subscription.id <$> two_ends)) as Hn by (by apply (bool_decide_unpack _)).
  split.
  - apply (reminders_by_residue bot_settings [reader] 0 15 two_ends 0 (ending "s1" (hours (71 + 12 + 1))) Reminder1d);
      [vm_compute; done|exact Hn|left|vm_compute; done..].
  - intros Hin.
    apply (reminders_by_residue bot_settings [reader] 0 15 two_ends 0 (ending "s2" (hours (71 + 12 + 3))) Reminder3d) in Hin;
      [vm_compute in Hin; done|vm_compute; done|exact Hn|right; left|vm_compute; done..].
Defined.

(** A rule that asks for the reminder marks it as sent when the subscription comes
    within four days of its end, and nobody was told: the check that follows skips it. *)
Definition rule_3d : RetentionRule.t :=
  RetentionRule.mk "r1" [("expiry_days_lte", VInt 4)] "reminder" (Some [("which", VStr "3d")]) 0 true.

Example rule_silences_reminder :
  reminders_sent bot_settings [CheckReminders (hours 12) [reader] true] [ending "s1" (hours 84)] 0 = [("s1", Reminder3d)] ∧
  reminders_sent bot_settings [RunRules (hours 11) (λ _, hours 11) [rule_3d]; CheckReminders (hours 12) [reader] true]
    [ending "s1" (hours 84)] 0 = [].
Proof. vm_compute. split; reflexivity. Qed.

(** A rule with a condition that is no number stops the rules after it as well, and
    undoes the ones before. *)
Example bad_rule_stops_all :
  let bad := RetentionRule.mk "r2" [("expiry_days_lte", VStr "soon")] "discount_percent" None 0 true in
  retention_round (hours 11) (λ _, hours 11) [rule_3d; bad] [ending "s1" (hours 84)] = [ending "s1" (hours 84)].
Proof. vm_compute. reflexivity. Qed.

(** A commit that fails after the message was sent: the next check within the
    window sends it again. *)
Example failed_commit_repeats :
  reminders_sent bot_settings [CheckReminders (hours 12) [reader] false; CheckReminders (hours 13) [reader] true]
    [ending "s1" (hours 84)] 0 = [("s1", Reminder3d); ("s1", Reminder3d)].
Proof. vm_compute. reflexivity. Qed.

Lemma reminded_once_witness :
  NoDup (reminders_sent bot_settings
    [CheckReminders (hours 12) [reader] true; InsertRow (ending "s2" (hours 85));
     RunRules (hours 12) (λ _, hours 12) [rule_3d]; WriteRows (Subscription.set_status "active");
     CheckReminders (hours 13) [reader] true] [ending "s1" (hours 84)] 0).
Proof.
  apply (reminded_once bot_settings _ [ending "s1" (hours 84)] 0); [|apply NoDup_singleton].
  repeat constructor; intros []; done.
Defined.

(** ** Churn scores on the threshold

    In exact arithmetic the score is at the threshold when nine times the days left
    and twice the age make 180.  The floating point scores of these days are at the
    threshold too, and those of a day more on either side below it: rounding does
    not decide. *)
Example churn_threshold :
  forallb (λ k, let '(d, a) := (2 * k, 90 - 9 * k) in
                (9 * d + 2 * a =? 180) && high_risk d a && negb (high_risk (d + 1) a) &&
                ((90 <=? a) || negb (high_risk d (a + 1))))
    [0; 1; 2; 3; 4; 5; 6; 7; 8; 9; 10] = true.
Proof. vm_compute. reflexivity. Qed.

(** A subscription of a year with a year to go, and a new one that ends today. *)
Example churn_scores :
  (run_churn_prediction (days 365) [Subscription.set_valid_until (days 730) (ending "s1" 0);
                                    Subscription.mk "s2" 8 "plan" 0 (days 365 + 1) 3 "active" false None None None None None (days 365)]).2
    = (2, 1).
Proof. vm_compute. reflexivity. Qed.
