(* ===== verification/WebBilling.v ===== *)
(** * Plans, invoices and promo codes of the Mini App ([api/v1/webapp.py])

    The billing endpoints of the Mini App, on the tables of [Payments], and the
    ledger over histories in which they mix with the webhook, the bot and the
    referrals.  The link Telegram returns for an invoice is left out.  [session] is
    the Telegram id of a valid bearer token; the detail of a refusal is its code. *)

From S2P Require Import Prelude PyFloat PyStr PyVal Settings Models Payments.
Open Scope Z_scope.

Definition unauthorized : exn := HTTPException 401 "UNAUTHORIZED".

Definition session_tg (session : option Z) : res Z :=
  match session with Some i => if i =? 0 then Err unauthorized else Ok i | None => Err unauthorized end.

Definition set_users (l : list User.t) (b : billing) : billing :=
  mkBilling l b.(b_servers) b.(b_plans) b.(b_subs) b.(b_payments) b.(b_events)
    b.(b_referrals) b.(b_promos) b.(b_redemptions) b.(b_funnel).

Definition user_by_tg (tg_id : Z) b : option User.t := first (λ u, u.(User.tg_id) =? tg_id) b.(b_users).

Definition session_user (session : option Z) b : res User.t :=
  tg ← session_tg session;
  match user_by_tg tg b with Some u => Ok u | None => Err (HTTPException 404 "USER_NOT_FOUND") end.

(** [_get_or_create_webapp_user] *)
Definition user_for (new_uid tg_id : Z) b : billing * User.t :=
  match user_by_tg tg_id b with
  | Some u => (b, u)
  | None => let u := User.mk new_uid tg_id false in (set_users (b.(b_users) ++ [u]) b, u)
  end.

(** ** Plans *)

(** The style in the prefix of a name, and the name without it. *)
Definition _extract_plan_style (name : string) : string * string :=
  let raw := strip name in
  let lowered := lower raw in
  let styled token style :=
    let clean := lstrip_with is_space (str_drop (String.length token) raw) in
    (style, if str_truthy clean then clean else raw) in
  if startswith "[promo]" lowered then styled "[promo]" "promotional"
  else if startswith "[popular]" lowered then styled "[popular]" "popular"
  else if startswith "[normal]" lowered then styled "[normal]" "normal"
  else ("normal", raw).

(** By price, duration and identifier. *)
Definition plan_before (p q : Plan.t) : bool :=
  if p.(Plan.price_amount) =? q.(Plan.price_amount) then
    if p.(Plan.duration_days) =? q.(Plan.duration_days) then str_ltb p.(Plan.id) q.(Plan.id)
    else p.(Plan.duration_days) <? q.(Plan.duration_days)
  else p.(Plan.price_amount) <? q.(Plan.price_amount).

Record PlanItem : Type := mkPlanItem { pi_id : string; pi_name : string; pi_days : Z; pi_price : Z; pi_style : string }.

Definition plan_item (p : Plan.t) : PlanItem :=
  let '(style, name) := _extract_plan_style p.(Plan.name) in
  mkPlanItem p.(Plan.id) (if str_truthy name then name else p.(Plan.id)) p.(Plan.duration_days) p.(Plan.price_amount) style.

Definition webapp_list_plans (settings : Settings) (session : option Z) b : res (billing * list PlanItem) :=
  tg ← session_tg session;
  let trial := strip settings.(trial_plan_id) in
  let plans := sorted_by plan_before
                 (filterb (λ p, negb (str_truthy trial && String.eqb p.(Plan.id) trial)) b.(b_plans)) in
  let b := match user_by_tg tg b with
           | Some u => log_funnel_event "pricing_view" (Some u.(User.id)) [("source", VStr "webapp")] b
           | None => b
           end in
  Ok (b, plan_item <$> plans).

(** ** Invoices *)

(** The subscription to pay for, if there is one: an active one that has not ended,
    else the newest pending one. *)
Definition payable_subscription (now uid : Z) (plan_id : string) b : option Subscription.t :=
  let of_plan s := (s.(Subscription.user_id) =? uid) && String.eqb s.(Subscription.plan_id) plan_id in
  match first (λ s, of_plan s && String.eqb s.(Subscription.status) "active" && (now <? s.(Subscription.valid_until))) b.(b_subs) with
  | Some s => Some s
  | None => newest (filterb (λ s, of_plan s && String.eqb s.(Subscription.status) "pending") b.(b_subs))
  end.

(** It, or a new one without a paid window. *)
Definition subscription_to_pay (now uid : Z) (plan_id new_sub_id : string) b : res (billing * Subscription.t) :=
  match payable_subscription now uid plan_id b with
  | Some s => Ok (b, s)
  | None =>
      if existsb (λ s, String.eqb s.(Subscription.id) new_sub_id) b.(b_subs) then Err (IntegrityError "subscriptions")
      else
        let s := Subscription.mk new_sub_id uid plan_id now now 1 "pending" false None None None None None now in
        Ok (set_subs (b.(b_subs) ++ [s]) b, s)
  end.

Record WebInvoice : Type := mkWebInvoice {
  wi_payment_id : string; wi_title : string; wi_star_count : Z; wi_server_id : string;
  wi_subscription_id : string; wi_free_activation : bool
}.

Definition free_window (now : Z) (plan : Plan.t) : res Z :=
  add_days now (if plan.(Plan.duration_days) =? 0 then 365 else plan.(Plan.duration_days)).

(** What raises is rolled back. *)
Definition webapp_create_invoice (now : Z) (session : option Z) (new_uid : Z) (new_sub_id new_id plan_id : string)
    (promo_code : option string) (request_id : string) b : res (billing * WebInvoice) :=
  tg ← session_tg session;
  let '(b, user) := user_for new_uid tg b in
  match first (λ p, String.eqb p.(Plan.id) plan_id) b.(b_plans) with
  | None => Err (HTTPException 404 "PLAN_NOT_FOUND")
  | Some plan =>
      bs ← subscription_to_pay now user.(User.id) plan.(Plan.id) new_sub_id b;
      let '(b, sub) := bs in
      let is_free := plan.(Plan.price_amount) <=? 0 in
      let server := first Server.is_active b.(b_servers) in
      if is_none server && negb is_free then Err (HTTPException 503 "SERVER_NOT_AVAILABLE")
      else
        let external_id := "webapp:telegram_stars:" +:+ str_of_Z user.(User.id) +:+ ":" +:+ sub.(Subscription.id) +:+
                           ":" +:+ request_id in
        let payment := Payment.mk new_id user.(User.id) sub.(Subscription.id) "telegram_stars"
          (if is_free then "completed" else "pending") (DFin plan.(Plan.price_amount) (-2)) plan.(Plan.price_currency)
          external_id (match ostr_or promo_code "" with "" => None | code => Some [("promo_code", VStr code)] end) in
        b ← insert_payment payment b;
        b ← (if is_free && negb (String.eqb sub.(Subscription.status) "active")
             then until ← free_window now plan;
                  Ok (set_subs (put_sub (Subscription.set_valid_until until (Subscription.activate now sub)) b.(b_subs)) b)
             else Ok b);
        Ok (log_funnel_event "plan_selected" (Some user.(User.id)) [("plan_id", VStr plan.(Plan.id))] b,
            mkWebInvoice new_id (if str_truthy plan.(Plan.name) then plan.(Plan.name) else "VPN")
              (if is_free then 0 else Z.max 1 (whole plan.(Plan.price_amount)))
              (match server with Some s => s.(Server.id) | None => "" end) sub.(Subscription.id) is_free)
  end.

(** ** The history of the payments *)

Definition _webapp_history_status (payment_status : string) (has_refund_event : bool) : string :=
  if has_refund_event then "refunded"
  else
    let s := lower payment_status in
    if String.eqb s "completed" then "paid" else if String.eqb s "failed" then "failed" else "pending".

Record HistoryItem : Type := mkHistoryItem {
  hi_payment_id : string; hi_plan_id : option string; hi_plan_name : string; hi_amount : decimal; hi_status : string;
  hi_invoice_ref : string
}.

Definition refunded b (pid : string) : bool :=
  existsb (λ e, String.eqb e.(PaymentEvent.payment_id) pid && contains "refund" (lower e.(PaymentEvent.event_type))) b.(b_events).

Definition history_item b (p : Payment.t) : HistoryItem :=
  let sub := first (λ s, String.eqb s.(Subscription.id) p.(Payment.subscription_id)) b.(b_subs) in
  let plan := sub ≫= λ s, first (λ q, String.eqb q.(Plan.id) s.(Subscription.plan_id)) b.(b_plans) in
  let non_blank (o : option string) := o ≫= λ s, if str_truthy s then Some s else None in
  let fallback := match non_blank (Plan.name <$> plan) with
                  | Some n => n
                  | None => default "Unknown plan" (non_blank (Subscription.plan_id <$> sub))
                  end in
  let clean := (_extract_plan_style fallback).2 in
  mkHistoryItem p.(Payment.id) (Subscription.plan_id <$> sub) (if str_truthy clean then clean else fallback)
    p.(Payment.amount) (_webapp_history_status p.(Payment.status) (refunded b p.(Payment.id)))
    (if str_truthy p.(Payment.external_id) then p.(Payment.external_id) else p.(Payment.id)).

(** [created_at]: the column of that name, by payment. *)
Definition webapp_payments_history (session : option Z) (created_at : string → Z) (limit offset : nat) b
    : res (list HistoryItem * Z) :=
  tg ← session_tg session;
  match user_by_tg tg b with
  | None => Ok ([], 0)
  | Some u =>
      let mine := filterb (λ p, p.(Payment.user_id) =? u.(User.id)) b.(b_payments) in
      let newer p q := let t x := created_at x.(Payment.id) in
                       if t p =? t q then str_ltb q.(Payment.id) p.(Payment.id) else t q <? t p in
      Ok (history_item b <$> take limit (drop offset (sorted_by newer mine)), Z.of_nat (length mine))
  end.

(** The status of an own payment, with the plan and the end of its subscription. *)
Definition webapp_payment_status (session : option Z) (pid : string) b : res (string * option string * option Z) :=
  tg ← session_tg session;
  match first (λ p, String.eqb p.(Payment.id) pid &&
                    match first (λ u, u.(User.id) =? p.(Payment.user_id)) b.(b_users) with
                    | Some u => u.(User.tg_id) =? tg | None => false end) b.(b_payments) with
  | None => Err (HTTPException 404 "PAYMENT_NOT_FOUND")
  | Some p =>
      let sub := first (λ s, String.eqb s.(Subscription.id) p.(Payment.subscription_id)) b.(b_subs) in
      Ok (p.(Payment.status), Subscription.plan_id <$> sub, Subscription.valid_until <$> sub)
  end.

(** ** Referrals and promo codes *)

Record ReferralStats : Type := mkStats {
  rs_total : Z; rs_rewarded : Z; rs_earned_days : Z; rs_pending : Z; rs_progress : Z; rs_remaining : Z
}.

Definition webapp_referral_stats (session : option Z) b : res ReferralStats :=
  u ← session_user session b;
  let mine := filterb (λ r, r.(Referral.referrer_user_id) =? u.(User.id)) b.(b_referrals) in
  let total := Z.of_nat (length mine) in
  let progress := total - total / 2 * 2 in
  Ok (mkStats total (countZ rewarded mine)
        (foldr Z.add 0 (Referral.reward_days <$> filterb rewarded mine))
        (countZ (λ r, negb (rewarded r)) mine) progress (if 0 <? progress then 2 - progress else 2)).

Definition replace_Z (s : string) : string :=
  of_chars (chars s ≫= λ c, if Ascii.eqb c "Z" then chars "+00:00" else [c]).

(** [fromisoformat] gives the time and whether it has an offset; comparing a time
    without one raises, and the code then does not expire. *)
Definition promo_expired (fromisoformat : string → option (Z * bool)) (now : Z) (constraints : pydict) : bool :=
  let e := getv constraints "expires_at" in
  truthy e && match fromisoformat (replace_Z (render e)) with
              | Some (t, aware) => aware && (t <? now)
              | None => false
              end.

(** [x <= 1] *)
Definition at_most_one (v : pyval) : res bool :=
  match v with
  | VInt n => Ok (n <=? 1)
  | VBool _ => Ok true
  | _ => Err (TypeError "'<=' not supported")
  end.

(** [constraints_of]: the column of that name, by promo code. *)
Definition webapp_promo_validate (fromisoformat : string → option (Z * bool)) (now : Z) (session : option Z)
    (constraints_of : string → pydict) (code : string) b : res PromoCode.t :=
  tg ← session_tg session;
  match first (λ p, String.eqb p.(PromoCode.code) (strip code) && String.eqb p.(PromoCode.status) "active") b.(b_promos) with
  | None => Err (HTTPException 404 "PROMO_NOT_FOUND")
  | Some promo =>
      match user_by_tg tg b with
      | None => Err (HTTPException 404 "USER_NOT_FOUND")
      | Some u =>
          let c := constraints_of promo.(PromoCode.id) in
          if promo_expired fromisoformat now c then Err (HTTPException 400 "PROMO_EXPIRED")
          else
            once ← (if redeemed promo u.(User.id) b
                    then at_most_one (default (VInt 1) (dget "per_user_limit" c)) else Ok false);
            if once : bool then Err (HTTPException 400 "PROMO_ALREADY_USED") else Ok promo
      end
  end.

(** A date without an offset never expires. *)
Example naive_promo_never_expires fromisoformat t now :
  fromisoformat "2024-01-01T00:00:00" = Some (t, false) →
  promo_expired fromisoformat now [("expires_at", VStr "2024-01-01T00:00:00")] = false.
Proof. intros H. vm_compute in H |- *. by rewrite H. Qed.

Example plan_styles :
  _extract_plan_style " [Popular]  Year " = ("popular", "Year") ∧ _extract_plan_style "[promo]" = ("promotional", "[promo]") ∧
  _extract_plan_style "Month" = ("normal", "Month").
Proof. vm_compute. repeat split. Qed.

(** ** The ledger with the Mini App *)

Inductive web_billing_op : Type :=
| OpApi (op : billing_op)
| OpWebInvoice (now : Z) (session : option Z) (new_uid : Z) (new_sub_id new_id plan_id : string)
    (promo_code : option string) (request_id : string)
| OpWebPlans (session : option Z).

Definition web_billing_step (settings : Settings) b (op : web_billing_op) : billing :=
  match op with
  | OpApi op => billing_step settings b op
  | OpWebInvoice now session uid sid pid plan promo rid =>
      committed b (webapp_create_invoice now session uid sid pid plan promo rid b)
  | OpWebPlans session => committed b (webapp_list_plans settings session b)
  end.

Definition web_billing_history (settings : Settings) b (ops : list web_billing_op) : billing :=
  foldl (web_billing_step settings) b ops.

(** Rows beside the payments, the referrals and the redemptions. *)
Lemma ledger_beside b b' :
  b'.(b_payments) = b.(b_payments) → b'.(b_referrals) = b.(b_referrals) → b'.(b_redemptions) = b.(b_redemptions) →
  countZ is_paid b'.(b_funnel) = countZ is_paid b.(b_funnel) →
  countZ is_reward b'.(b_funnel) = countZ is_reward b.(b_funnel) →
  countZ is_promo b'.(b_funnel) = countZ is_promo b.(b_funnel) →
  ledger b → ledger b' ∧ advanced b b'.
Proof.
  intros Hp Hr Hd F1 F2 F3 [? ? ? [? ? ? ?]]. split; [constructor; rewrite ?Hp, ?F1; try done; constructor; rewrite ?Hr, ?Hd, ?F2, ?F3; done|].
  split; [split; rewrite ?Hr, ?Hd; done|]. rewrite Hp. eauto using settles_refl.
Qed.

Lemma ledger_log ev u pl b :
  is_paid (FunnelEvent.mk ev u pl) = false → is_reward (FunnelEvent.mk ev u pl) = false →
  is_promo (FunnelEvent.mk ev u pl) = false → ledger b →
  ledger (log_funnel_event ev u pl b) ∧ advanced b (log_funnel_event ev u pl b).
Proof.
  intros H1 H2 H3. apply ledger_beside; simpl; try done;
    rewrite countZ_app, countZ_cons, countZ_nil, ?H1, ?H2, ?H3; lia.
Qed.

Lemma subscription_to_pay_ledger now uid plan sid b b' s :
  subscription_to_pay now uid plan sid b = Ok (b', s) → ledger b → ledger b' ∧ advanced b b'.
Proof.
  unfold subscription_to_pay. destruct (payable_subscription _ _ _ _) as [s0|].
  - intros [= <- <-]. auto using advanced_refl.
  - destruct (existsb _ _); [done|]. intros [= <- <-]. by apply ledger_beside.
Qed.

Lemma user_for_ledger uid tg b : ledger b → ledger (user_for uid tg b).1 ∧ advanced b (user_for uid tg b).1.
Proof.
  unfold user_for. destruct (user_by_tg tg b); [auto using advanced_refl|]. by apply ledger_beside.
Qed.

Lemma web_invoice_ledger now session uid sid pid plan promo rid b b' r :
  webapp_create_invoice now session uid sid pid plan promo rid b = Ok (b', r) → ledger b → ledger b' ∧ advanced b b'.
Proof.
  unfold webapp_create_invoice. intros (tg & _ & Hm)%res_bind_ok Hl.
  pose proof (user_for_ledger uid tg b Hl) as [Hl1 Ha1]. destruct (user_for uid tg b) as [b1 user]. simpl in Hl1, Ha1.
  destruct (first _ (b_plans b1)) as [p|]; [|done]. apply res_bind_ok in Hm as ([b2 sub] & Hs & Hm).
  apply subscription_to_pay_ledger in Hs as [Hl2 Ha2]; [|done]. destruct (_ && _); [done|].
  apply res_bind_ok in Hm as (b3 & (-> & Hn1 & Hn2)%insert_payment_spec & Hm).
  apply res_bind_ok in Hm as (b4 & Hf & [= <- _]).
  assert (ledger b4 ∧ advanced b2 b4) as [Hl4 Ha4].
  { eapply (ledger_insert _ b2 b4 0); [done|exact Hn1|exact Hn2| |destruct (completed _); lia].
    destruct (_ && _); [|injection Hf as <-; apply effect_refl].
    apply res_bind_ok in Hf as (until & _ & [= <-]). apply effect_set_subs. }
  destruct (ledger_log "plan_selected" (Some user.(User.id)) [("plan_id", VStr p.(Plan.id))] b4) as [Hl5 Ha5]; [done..|].
  split; [done|]. by eapply advanced_trans, advanced_trans, advanced_trans.
Qed.

Lemma web_step_ledger settings b op :
  ledger b → ledger (web_billing_step settings b op) ∧ advanced b (web_billing_step settings b op).
Proof.
  intros Hl. destruct op as [op|now session uid sid pid plan promo rid|session]; simpl.
  - by apply billing_step_ledger.
  - destruct (webapp_create_invoice _ _ _ _ _ _ _ _ _) as [[b' r]|e] eqn:E; simpl; [|auto using advanced_refl].
    by eapply web_invoice_ledger.
  - unfold webapp_list_plans. destruct (session_tg session) as [tg|e]; simpl; [|auto using advanced_refl].
    destruct (user_by_tg tg b); simpl; [|auto using advanced_refl]. by apply ledger_log.
Qed.

(** C11: money is accounted for once, whoever asks.  Whatever requests arrive in
    whatever order (webhooks and their replays, invoices of the bot and of the Mini
    App, confirmations, referrals), payment identifiers and external identifiers stay
    unique, no more payments take effect than are completed, a completed payment
    never changes again, each referral is rewarded at most once, and no user redeems
    a promo code twice. *)
Theorem web_history_ledger settings b ops :
  ledger b → ledger (web_billing_history settings b ops) ∧ advanced b (web_billing_history settings b ops).
Proof.
  revert b. unfold web_billing_history. induction ops as [|op ops IH]; intros b Hl; simpl; [auto using advanced_refl|].
  destruct (web_step_ledger settings b op Hl) as [Hl1 Ha]. destruct (IH _ Hl1) as [Hl2 Ha2].
  split; [done|by eapply advanced_trans].
Qed.

(** ** What an invoice gives *)

(** The subscription an invoice is for, from tables with the same rows. *)
Lemma subscription_to_pay_spec now uid plan_id sid b1 b b2 sub :
  b_subs b1 = b_subs b → b_payments b1 = b_payments b →
  subscription_to_pay now uid plan_id sid b1 = Ok (b2, sub) →
  b_payments b2 = b_payments b ∧
  b_subs b2 = match payable_subscription now uid plan_id b with Some _ => b.(b_subs) | None => b.(b_subs) ++ [sub] end ∧
  match payable_subscription now uid plan_id b with
  | Some s => sub = s | None => sub.(Subscription.status) = "pending" ∧ sub.(Subscription.valid_until) = now end ∧
  sub.(Subscription.user_id) = uid ∧ sub.(Subscription.plan_id) = plan_id.
Proof.
  intros Hsubs Hpays Hs. unfold subscription_to_pay in Hs.
  assert (payable_subscription now uid plan_id b1 = payable_subscription now uid plan_id b) as Hpay
    by (unfold payable_subscription; by rewrite Hsubs).
  rewrite Hpay in Hs. destruct (payable_subscription _ _ _ b) as [s|] eqn:E.
  - injection Hs as <- <-. split; [done|]. split; [done|]. split; [done|]. unfold payable_subscription in E.
    destruct (first _ (b_subs b)) as [s'|] eqn:Ef.
    + injection E as ->. apply first_elem in Ef as [_ Ef]. by bools.
    + unfold newest in E. apply py_max_elem, elem_of_filterb in E as [Eg _]. by bools.
  - destruct (existsb _ _); [done|]. injection Hs as <- <-. simpl. by rewrite Hsubs.
Qed.

(** C0: an invoice of the Mini App gives time only for a free plan.  When it is
    created there is one new payment of the user's, for a subscription of theirs to
    that plan, pending unless the plan is free; the subscriptions there were keep
    their status and their end, but for the one of a free plan; and a new one is
    made only when the user has none to pay for, without a paid window. *)
Theorem webapp_invoice_sound now session uid sid pid plan_id promo rid b b' r :
  webapp_create_invoice now session uid sid pid plan_id promo rid b = Ok (b', r) →
  ∃ tg user plan sub p,
    session = Some tg ∧ (user_for uid tg b).2 = user ∧ plan ∈ b.(b_plans) ∧ plan.(Plan.id) = plan_id ∧
    sub.(Subscription.user_id) = user.(User.id) ∧ sub.(Subscription.plan_id) = plan_id ∧
    b'.(b_payments) = b.(b_payments) ++ [p] ∧ p.(Payment.id) = r.(wi_payment_id) ∧
    p.(Payment.user_id) = user.(User.id) ∧ p.(Payment.subscription_id) = sub.(Subscription.id) ∧
    p.(Payment.status) = (if plan.(Plan.price_amount) <=? 0 then "completed" else "pending") ∧
    let base := match payable_subscription now user.(User.id) plan_id b with
                | Some _ => b.(b_subs) | None => b.(b_subs) ++ [sub] end in
    match payable_subscription now user.(User.id) plan_id b with
    | Some s => sub = s
    | None => sub.(Subscription.status) = "pending" ∧ sub.(Subscription.valid_until) = now
    end ∧
    (0 < plan.(Plan.price_amount) → b'.(b_subs) = base) ∧
    (plan.(Plan.price_amount) ≤ 0 → sub.(Subscription.status) ≠ "active" →
     ∃ until, free_window now plan = Ok until ∧
       b'.(b_subs) = put_sub (Subscription.set_valid_until until (Subscription.activate now sub)) base) ∧
    (plan.(Plan.price_amount) ≤ 0 → sub.(Subscription.status) = "active" → b'.(b_subs) = base).
Proof.
  unfold webapp_create_invoice. intros (tg & Htg & Hm)%res_bind_ok.
  assert (session = Some tg) as Hses by (unfold session_tg in Htg; destruct session as [i|]; [destruct (i =? 0)|]; by simplify_eq).
  assert (∀ x, (user_for uid tg b).1 = x → b_plans x = b_plans b ∧ b_subs x = b_subs b ∧ b_payments x = b_payments b) as Hu.
  { intros x <-. unfold user_for. by destruct (user_by_tg tg b). }
  destruct (user_for uid tg b) as [b1 user] eqn:Eu. destruct (Hu b1 eq_refl) as (Hplans & Hsubs & Hpays).
  destruct (first _ (b_plans b1)) as [plan|] eqn:Hp; [|done]. apply first_elem in Hp as [Hp Hpid%String.eqb_eq]. rewrite Hplans in Hp.
  apply res_bind_ok in Hm as ([b2 sub] & Hs & Hm). destruct (_ && _) eqn:Hsrv; [done|].
  apply res_bind_ok in Hm as (b3 & (-> & _ & _)%insert_payment_spec & Hm). apply res_bind_ok in Hm as (b4 & Hf & [= <- <-]).
  apply (subscription_to_pay_spec now user.(User.id) plan.(Plan.id) sid b1 b) in Hs as (H1 & H2 & H3 & H4 & H5); [|done..].
  subst plan_id.
  exists tg, user, plan, sub. eexists. split_and!; [done|by rewrite Eu|exact Hp|done|done|done|..].
  - destruct (_ && _) in Hf; [apply res_bind_ok in Hf as (? & _ & [= <-])|injection Hf as <-]; simpl; by rewrite H1.
  - done.
  - done.
  - done.
  - done.
  - done.
  - intros Hpos. destruct (Z.leb_spec plan.(Plan.price_amount) 0); [lia|]. simpl in Hf. injection Hf as <-. simpl. exact H2.
  - intros Hfree Hst. destruct (Z.leb_spec plan.(Plan.price_amount) 0); [|lia].
    destruct (String.eqb_spec sub.(Subscription.status) "active"); [done|]. simpl in Hf.
    apply res_bind_ok in Hf as (until & Hun & [= <-]). exists until. split; [done|]. simpl. by rewrite H2.
  - intros Hfree Hst. destruct (Z.leb_spec plan.(Plan.price_amount) 0); [|lia]. rewrite Hst in Hf. simpl in Hf.
    injection Hf as <-. simpl. exact H2.
Qed.

(** A month of plan p1 for user 2, then a second request for it. *)
Definition wit_invoice (sid pid : string) b : res (billing * WebInvoice) :=
  webapp_create_invoice (days 20) (Some 200) 99 sid pid "p1" None ("r" +:+ pid) b.

Lemma web_history_ledger_witness :
  let ops := [OpWebInvoice (days 20) (Some 200) 99 "w1" "pay1" "p1" None "r1";
              OpApi (OpConfirm wit_clock "pay1" 200 None);
              OpApi (OpConfirm wit_clock "pay1" 200 None)] in
  let b' := web_billing_history default_settings wit_billing ops in
  ledger b' ∧ Payment.status <$> b'.(b_payments) = ["completed"].
Proof.
  intros ops b'. split; [apply (web_history_ledger default_settings wit_billing ops wit_ledger)|].
  vm_compute. reflexivity.
Defined.

Lemma webapp_invoice_sound_witness :
  ∃ b' r, wit_invoice "w1" "pay1" wit_billing = Ok (b', r) ∧ b'.(b_subs) = wit_billing.(b_subs) ∧
    Payment.status <$> b'.(b_payments) = ["pending"].
Proof.
  destruct (wit_invoice "w1" "pay1" wit_billing) as [[b' r]|e] eqn:E; [|vm_compute in E; discriminate].
  exists b', r. split; [done|].
  destruct (webapp_invoice_sound (days 20) (Some 200) 99 "w1" "pay1" "p1" None "rpay1" wit_billing b' r E)
    as (tg & user & plan & sub & p & Htg & Hu & Hplan & _ & _ & _ & Hpay & _ & _ & _ & Hst & _ & Hpos & _ & _).
  injection Htg as <-. assert (user = User.mk 2 200 false) as -> by (rewrite <- Hu; reflexivity).
  apply list_elem_of_singleton in Hplan as ->. split; [apply Hpos; reflexivity|].
  rewrite Hpay. simpl. by rewrite Hst.
Defined.
